(* ===== verification/_CoqProject ===== *)
-Q . S2P
Prelude.v
Crypto.v
Json.v
Text.v
Models.v
Session.v
Settings.v
RetryPolicy.v
Admission.v
Scheduling.v
Fairness.v
WebhookSecurity.v
Delivery.v
WorkerSafety.v
Authorization.v
AuditLog.v
Events.v
EventSafety.v
ReplaySafety.v
Lifecycle.v
Tenancy.v
Endpoints.v
ApiKeys.v
Receiver.v
LoginThrottle.v
Accounts.v
Queue.v
Platform.v
WorkerLoop.v
Outbox.v
Middleware.v
Schemas.v
Routes.v
RouteSafety.v
ApiPlatform.v
Metrics.v
Errors.v
Items.v
Release.v
Client.v
Schema.v
SchemaRuns.v
Revisions.v
Metadata.v
MigrationSteps.v
Migrations.v
