(* ===== verification/Prelude.v ===== *)
(** * Verification of the FastAPI webhook delivery platform

    The program accepts events over HTTP, fans each one out to the subscribed
    endpoints of a project, and lets a fleet of workers deliver them with
    signatures, retries, a circuit breaker per endpoint and fair sharing
    between tenants; beside that it manages organizations, projects, members,
    keys and endpoints, and retires what has outlived its retention period.
    All of its state is in one relational database; API processes and workers
    only meet there.

    ** How the code is modelled

    A table is a map from primary keys to records with the columns of
    [src/app/models.py] ([Models]), the database a record of tables.  Every
    handler is a function in one state-and-exception monad over a session that
    holds the committed database and the working copy ([Session]); [run] is a
    request, which keeps what was committed and drops the rest.  A handler is
    translated statement by statement, with the source's guards, early returns,
    exceptions and commits in the source's order.

    What a program cannot compute is an argument of the definition: the
    database's clock, generated identifiers and keys, the draw of the backoff,
    which rows [FOR UPDATE SKIP LOCKED] finds unlocked, what the HTTP peer and
    the resolver answer, and the parsers of the standard library whose text is
    not part of the program ([urlsplit], [ip_address], [parsedate_to_datetime],
    the Unicode tables).  Where a handler waits for a row lock, [others] is
    what competing transactions commit during the wait, an arbitrary function
    on the database: the theorems hold for every one of them that keeps the
    stated invariant, which covers all interleavings of transactions at the
    points where the code can be overtaken.  Floating point is arithmetic on
    rationals followed by a monotone rounding ([Rounding]), of which IEEE
    double is one instance and exact arithmetic another.  Loops over lists are
    structural; the one unbounded loop, the [while] of the scheduler, runs on
    as many rounds of fuel as there are free slots, and the theorem that it
    always returns shows that this is enough.

    ** Files

    - [Prelude]: record update, Python's strings, floats and results, tables
      and their lemmas, the ordering of query results.
    - [Crypto]: SHA-256, HMAC, hexadecimal and base64, executable and tested
      against published vectors; [Json]: [canonical_json] and [isoformat];
      [Text]: splitting, stripping and the numerals of Python's strings.
    - [Models], [Session]: [src/app/models.py], [src/app/exceptions.py],
      [src/app/exception_handlers.py], the unit of work, and the library of
      atomicity ([quiet], [atomic]): a handler that raises has changed nothing.
    - [Settings]: [src/app/config.py], every field, bound and relation.
    - [RetryPolicy], [Admission]: [src/app/retry_policy.py],
      [src/app/admission.py]: token buckets, saturation, quotas.
    - [Scheduling], [Fairness]: [src/app/scheduling.py] and its guarantees.
    - [WebhookSecurity]: [src/app/webhook_security.py], the subscription
      filters of [src/app/schemas/webhooks.py].
    - [Delivery], [WorkerSafety]: [src/app/services/delivery_service.py] and
      [_run_claim] of [src/app/worker.py] with the invariant [deliveries_ok] of
      the queue and the guarantees of its transactions.
    - [Authorization], [AuditLog]: [src/app/authorization.py],
      [src/app/audit.py].
    - [Events], [EventSafety], [ReplaySafety]: ingestion, replay, dead-letter
      operations of [src/app/services/webhook_service.py] with the invariant
      [plane_ok] of the data plane.
    - [Lifecycle]: [src/app/lifecycle.py].
    - [Tenancy], [Endpoints]: organizations, members, policies, projects,
      export, endpoints of [src/app/services/webhook_service.py].
    - [ApiKeys]: the keys of [src/app/services/webhook_service.py],
      [src/app/api_key_auth.py] and [src/app/api_key_usage.py].
    - [LoginThrottle], [Accounts]: [src/app/login_throttle.py],
      [src/app/security.py], [src/app/auth.py],
      [src/app/services/user_service.py] and the routes of
      [src/app/routers/auth.py] and [src/app/routers/users.py].
    - [Receiver]: [src/sdk/python/src/webhook_platform_sdk/receiver.py], what a
      receiver of webhooks checks.
    - [Queue], [Platform]: the queue the platform promises, and the system of
      all data-plane operations as one reachability relation with a proof that
      it implements that queue.
    - [WorkerLoop]: [run_delivery_loop] of [src/app/worker.py] with its tasks,
      the stop signal and the drain, as a step relation over the platform.
    - [Outbox]: [producer.py] and [outbox.py] of the SDK: the transactional
      outbox of a producer, relayed to the platform's own ingestion.
    - [Middleware]: [src/app/middleware.py] in the order of [src/app/main.py].
    - [Schemas], [Routes], [RouteSafety]: [src/app/schemas/webhooks.py] and
      [src/app/routers/webhooks.py], one definition per model and per route,
      and what every route guarantees; [ApiPlatform]: each request of that API
      is a sequence of steps of [Platform].
    - [Metrics]: [src/app/observability.py] and
      [src/app/security_observability.py]; [Errors]:
      [src/app/exception_handlers.py].
    - [Items]: the example resource of [src/app/routers/items.py] with its
      service and schemas.
    - [Release]: [src/scripts/release_registry.py].
    - [Client]: the management client and the command line of the SDK, with the
      routing table that reads their requests.
    - [Schema], [SchemaRuns]: the catalog and the rows of the database server,
      the operations of [alembic.op] on them, and when a script of operations
      succeeds; [Revisions]: the eleven files of
      [src/migrations/versions], a Module each; [Metadata]: the tables
      [src/app/models.py] declares; [MigrationSteps]: each revision, up and
      down; [Migrations]: [do_run_migrations] of [src/migrations/env.py] and the
      chain as a whole.

    ** What the theorems show

    - The queue: a claim leases due rows within every cap, an attempt reports
      what happened and sends nothing it must not, finalization implements the
      retry and circuit policy, and a worker that lost its lease changes
      nothing.
    - The scheduler: it returns, respects caps, order, pauses and circuits, is
      work conserving and rotates.
    - Admission: a bucket never grants more than its rate and burst, its hints
      are honest, and admission decides exactly its contract.
    - The data plane: ingestion is atomic and idempotent under interference and
      fans out exactly; replay, cancellation, purge, retention and deletion
      keep the invariant and touch only what they may.
    - Tenancy: authorization decides the documented policy and leaks nothing to
      outsiders, an organization keeps an owner, deletion is a state machine.
    - Credentials: an API key is accepted exactly while it is live and scoped,
      rotation overlaps, revocation is final; guessing a password is bounded;
      login, tokens and accounts act for their owner only.
    - End to end: what a worker signs, a receiver verifies; what a receiver
      accepts was signed; and each event is accepted once.
    - The system: the invariants hold in every state that workers, tenants,
      operators and maintenance reach together, a lease has one owner and one
      outcome, and the delivery table refines the abstract queue.
    - The worker: every claim it takes meets exactly one end, it never holds
      more than its slots, and from every state it can stop and owe nothing.
    - The API: every management request is authenticated and authorized by the
      permission of its route before anything happens, a failed request changes
      nothing, accepted events are ingested as sent, the CSV export reads back
      and starts no formula, errors follow one contract and hide what is
      internal, and all of it stays within the platform's invariants.
    - Around it: the rate limiter holds its budget per window, the outbox
      delivers each message as one event, the queue gauges say what admission
      will do, commands reach the routes they name, items are private to their
      owner, and nothing unverified is promoted.
    - The migrations: from every revision and on every database that satisfies
      its schema the upgrade to the head succeeds, preserves every row's
      constraints and can be undone; the backfills write what the application
      writes; a downgrade is refused exactly when a row has no place in the
      earlier schema; the head is the schema the models declare, up to the
      names of three foreign keys and one server default.
    - A few theorems state what the code does where that is not what it means
      to do; their comments say so.

    ** Not modelled

    FastAPI and Starlette themselves (dispatch of requests to routes follows
    the routing table in [Client]; host check, CORS and compression are
    theirs), the static portal and the health probes; tracing and the metrics
    exposition; unused decorators; the argument parser and the password prompts
    of the command line; deployment files, benchmarks and set-up scripts; bcrypt, JWT, pydantic's coercions, SQLAlchemy, httpx
    and the database server, which are third-party code; of the server, [Schema]
    gives a meaning to the SQL the revisions are written in. *)

From Stdlib Require Import QArith Qround Lqa.
From stdpp Require Import base tactics list gmap sets strings numbers sorting option.

#[global] Set Default Goal Selector "!".
Local Open Scope Z_scope.

(** ** Functional record update

    The ORM rows of [src/app/models.py] are wide records whose handlers assign
    a few attributes at a time.  [r &{ f := v }] is the record [r] with field
    [f] replaced, the value-level reading of [r.f = v]. *)

Class Eta (R : Type) := eta : R -> R.

Class Setter {R T : Type} (proj : R -> T) := upd : (T -> T) -> R -> R.
Arguments upd {R T} proj {_} f r.

Ltac derive_setter :=
  match goal with
  | |- @Setter ?R ?T ?proj =>
      let i := constr:(_ : Eta R) in
      let e := eval hnf in i in
      let e := eval pattern proj in e in
      lazymatch e with
      | ?body _ => exact (fun (f : T -> T) => body (fun r => f (proj r)))
      end
  end.
#[export] Hint Extern 1 (Setter _) => derive_setter : typeclass_instances.

Declare Scope row_scope.
Delimit Scope row_scope with row.
#[global] Open Scope row_scope.
Notation "r '&{' f ':=' v '}'" := (upd f (fun _ => v) r)
  (at level 1, left associativity, f at level 11, v at level 200,
   format "r  &{  f  :=  v  }") : row_scope.

(** [upd_simpl] reduces a projection of an updated record, and nothing else. *)
Ltac upd_simpl :=
  repeat match goal with
  | |- context [?p (@upd ?R ?T ?q ?i ?f ?r)] =>
      let t := constr:(p (@upd R T q i f r)) in
      let e := eval cbn [upd p] in t in
      progress change t with e
  | H : context [?p (@upd ?R ?T ?q ?i ?f ?r)] |- _ =>
      let t := constr:(p (@upd R T q i f r)) in
      let e := eval cbn [upd p] in t in
      progress change t with e in H
  end; cbv beta in *.

(** ** Python values

    A Python [str] is its sequence of Unicode code points and a [bytes] object
    its sequence of octets; [py] embeds an ASCII literal.  A [datetime] is its
    position on the UTC time line in microseconds, the resolution of the
    type: [aware], which labels the naive values SQLite returns as UTC, is the
    identity on that representation. *)

Abbreviation str := (list Z).
Abbreviation pybytes := (list Z).
Abbreviation datetime := Z.

Fixpoint py (s : string) : str :=
  match s with
  | EmptyString => []
  | String c s' => Z.of_nat (Ascii.nat_of_ascii c) :: py s'
  end.
Arguments py s : simpl never.

Definition len {A : Type} (l : list A) : Z := Z.of_nat (length l).

Definition second : Z := 1000000.

(** [timedelta(seconds=n)], [timedelta(hours=n)] and [timedelta(days=n)] for
    integral arguments. *)
Definition seconds (n : Z) : Z := n * second.
Definition hours (n : Z) : Z := seconds (n * 3600).
Definition days (n : Z) : Z := seconds (n * 86400).

(** ** Floating point

    Python's [float] operations are the exact operation followed by rounding.
    [Rounding] states what the development uses of IEEE 754 rounding: it is
    monotone, idempotent, and leaves the integers up to 2^53 alone.  Values are rationals,
    and every arithmetic operation of the source on floats is one of [fadd],
    [fsub], [fmul], [fdiv] below. *)

Class Rounding := {
  rnd : Q -> Q;
  rnd_mono : forall x y, (x <= y)%Q -> (rnd x <= rnd y)%Q;
  rnd_idem : forall x, (rnd (rnd x) == rnd x)%Q;
  rnd_int : forall z, Z.abs z <= 2 ^ 53 -> (rnd (inject_Z z) == inject_Z z)%Q;
}.

(** A rational that is a value of the type [float]. *)
Definition is_float `{Rounding} (x : Q) : Prop := (rnd x == x)%Q.

(** The rounding that loses nothing: real arithmetic. *)
Definition exact_rounding : Rounding.
Proof.
  refine {| rnd := fun q => q |}; [ easy | reflexivity | reflexivity ].
Defined.

Section FloatOps.
Context `{Rounding}.
Definition fadd (x y : Q) : Q := rnd (x + y).
Definition fsub (x y : Q) : Q := rnd (x - y).
Definition fmul (x y : Q) : Q := rnd (x * y).
Definition fdiv (x y : Q) : Q := rnd (x / y).
(** [timedelta.total_seconds()] *)
Definition total_seconds (us : Z) : Q := rnd (us # 1000000).
(** [float(n)] for an [int] *)
Definition float_of (n : Z) : Q := rnd (inject_Z n).
End FloatOps.

Definition qlt (x y : Q) : bool := negb (Qle_bool y x).
Definition qmin (x y : Q) : Q := if Qle_bool x y then x else y.
Definition qmax (x y : Q) : Q := if Qle_bool x y then y else x.

(** [round(x)] with ties to even, as [timedelta(seconds=x)] rounds to
    microseconds. *)
Definition round_half_even (q : Q) : Z :=
  let f := Qfloor q in
  let r := (q - inject_Z f)%Q in
  if qlt r (1 # 2) then f
  else if qlt (1 # 2) r then f + 1
  else if Z.even f then f else f + 1.

Definition timedelta_seconds (s : Q) : Z := round_half_even (s * inject_Z second).

(** ** Text *)

(** [str.isspace]: the code points of the Unicode property Python uses. *)
Definition isspace (c : Z) : bool :=
  ((9 <=? c) && (c <=? 13)) || ((28 <=? c) && (c <=? 32)) || (c =? 133) || (c =? 160)
  || (c =? 5760) || ((8192 <=? c) && (c <=? 8202)) || (c =? 8232) || (c =? 8233)
  || (c =? 8239) || (c =? 8287) || (c =? 12288).

Fixpoint lstrip (s : str) : str :=
  match s with
  | c :: s' => if isspace c then lstrip s' else s
  | [] => []
  end.
Definition strip (s : str) : str := reverse (lstrip (reverse (lstrip s))).

Definition isascii (s : str) : bool := forallb (fun c => (0 <=? c) && (c <? 128)) s.
Definition ascii_digit (c : Z) : bool := (48 <=? c) && (c <=? 57).

(** [int(s)] for a string of ASCII digits *)
Definition int_of_digits (s : str) : Z := foldl (fun n c => 10 * n + (c - 48)) 0 s.

Fixpoint startswith (s p : str) {struct p} : bool :=
  match p, s with
  | [], _ => true
  | c :: p', d :: s' => (c =? d) && startswith s' p'
  | _ :: _, [] => false
  end.
Definition endswith (s p : str) : bool := startswith (reverse s) (reverse p).

Lemma startswith_spec s p : startswith s p = true <-> exists t, s = p ++ t.
Proof.
  revert s; induction p as [| c p IH]; intros s; cbn.
  - split; [intros _; by exists s | done].
  - destruct s as [| d s]; [split; [done | by intros [t ?]] |].
    rewrite andb_true_iff, Z.eqb_eq, IH. naive_solver.
Qed.

Lemma endswith_spec s p : endswith s p = true <-> exists t, s = t ++ p.
Proof.
  unfold endswith. rewrite startswith_spec. split; intros [t Ht].
  - exists (reverse t). rewrite <- (reverse_involutive s), Ht, reverse_app.
    by rewrite reverse_involutive.
  - exists (reverse t). by rewrite Ht, reverse_app.
Qed.

(** ** Results

    A handler either returns or raises; [res] is an instance of stdpp's monad
    classes, so the [x ← e; k] notation sequences fallible calls. *)

Inductive res (E A : Type) : Type :=
| Ok (a : A)
| Raise (e : E).
Arguments Ok {E A} a.
Arguments Raise {E A} e.

#[export] Instance res_ret {E} : MRet (res E) := fun A a => Ok a.
#[export] Instance res_bind {E} : MBind (res E) := fun A B k m =>
  match m with Ok a => k a | Raise e => Raise e end.

Definition is_ok {E A} (r : res E A) : bool :=
  match r with Ok _ => true | Raise _ => false end.

Lemma res_bind_ok {E A B} (m : res E A) (k : A -> res E B) b :
  m ≫= k = Ok b <-> exists a, m = Ok a /\ k a = Ok b.
Proof. destruct m; cbn; naive_solver. Qed.

(** ** Tables

    A database table is a finite map from primary keys to rows together with
    the key generator behind its [Integer] primary key. *)

Record table (A : Type) : Type := Table { rows : gmap Z A; seq : Z }.
Arguments Table {A} rows seq.
Arguments rows {A} t.
Arguments seq {A} t.

Section Tables.
Context {A : Type}.
Implicit Types t : table A.

Definition empty_table : table A := Table ∅ 1.
Definition t_get (k : Z) t : option A := rows t !! k.
Definition t_set (k : Z) (a : A) t : table A := Table (<[k := a]> (rows t)) (seq t).
Definition t_add (mk : Z -> A) t : table A :=
  Table (<[seq t := mk (seq t)]> (rows t)) (seq t + 1).
Definition t_delete (ks : list Z) t : table A :=
  Table (foldr delete (rows t) ks) (seq t).
Definition t_map (f : A -> A) t : table A := Table (f <$> rows t) (seq t).
(** [UPDATE ... SET ... WHERE id = k] *)
Definition t_alter (f : A -> A) (k : Z) t : table A := Table (alter f k (rows t)) (seq t).
(** [DELETE ... WHERE p] *)
Definition t_remove (p : A -> bool) t : table A :=
  Table (filter (fun ka => p ka.2 = false) (rows t)) (seq t).
(** [SELECT ... WHERE p], in no particular order *)
Definition t_where (p : A -> bool) t : list A :=
  filter (fun a => Is_true (p a)) (map_to_list (rows t)).*2.
Definition t_find (p : A -> bool) t : option A := head (t_where p t).

(** Keys are handed out by the generator, so they stay below it. *)
Definition t_wf t : Prop := forall k, is_Some (rows t !! k) -> k < seq t.

Lemma t_where_spec p t a :
  a ∈ t_where p t <-> p a = true /\ exists k, rows t !! k = Some a.
Proof.
  unfold t_where. rewrite list_elem_of_filter, list_elem_of_fmap. split.
  - intros [Hp ([k a'] & -> & Hin)]. apply elem_of_map_to_list in Hin.
    split; [by apply Is_true_eq_true | eauto].
  - intros [Hp [k Hk]]. split; [by apply Is_true_eq_left |].
    exists (k, a). split; [done |]. by apply elem_of_map_to_list.
Qed.

Lemma t_find_some p t a :
  t_find p t = Some a -> p a = true /\ exists k, rows t !! k = Some a.
Proof.
  intros H. apply t_where_spec. unfold t_find in H.
  destruct (t_where p t); [done |]. simplify_eq/=. left.
Qed.

Lemma t_find_none p t k a :
  t_find p t = None -> rows t !! k = Some a -> p a = false.
Proof.
  intros H Hk. destruct (p a) eqn:Hp; [| done].
  assert (a ∈ t_where p t) as Hin by (apply t_where_spec; eauto).
  unfold t_find in H. destruct (t_where p t); [inversion Hin | done].
Qed.

Lemma t_get_empty k : t_get k empty_table = None.
Proof. apply lookup_empty. Qed.

Lemma t_get_set k k' a t :
  t_get k' (t_set k a t) = if decide (k = k') then Some a else t_get k' t.
Proof. apply lookup_insert. Qed.

Lemma t_get_add_old mk t k a :
  t_wf t -> t_get k t = Some a -> t_get k (t_add mk t) = Some a.
Proof.
  intros Hwf Hk. unfold t_get, t_add in *. cbn.
  rewrite lookup_insert_ne; [done |].
  intros <-. specialize (Hwf (seq t) ltac:(eauto)). lia.
Qed.

Lemma t_wf_add mk t : t_wf t -> t_wf (t_add mk t).
Proof.
  intros Hwf k [a Ha]. cbn in *. rewrite lookup_insert in Ha.
  case_decide; subst; [lia |]. specialize (Hwf k ltac:(eauto)). lia.
Qed.

Lemma t_wf_set k a t : t_wf t -> is_Some (t_get k t) -> t_wf (t_set k a t).
Proof.
  intros Hwf Hk k' [b Hb]. cbn in *. rewrite lookup_insert in Hb.
  case_decide; subst; eauto.
Qed.

Lemma rows_delete_list ks (m : gmap Z A) k :
  foldr delete m ks !! k = if decide (k ∈ ks) then None else m !! k.
Proof.
  induction ks as [| k0 ks IH]; cbn.
  - case_decide as H; [inversion H | done].
  - rewrite lookup_delete, IH.
    repeat case_decide; subst; try done; set_solver.
Qed.

Lemma t_get_delete ks t k :
  t_get k (t_delete ks t) = if decide (k ∈ ks) then None else t_get k t.
Proof. apply rows_delete_list. Qed.

Lemma t_get_remove p t k a :
  t_get k (t_remove p t) = Some a <-> t_get k t = Some a /\ p a = false.
Proof. unfold t_get, t_remove. cbn. by rewrite map_lookup_filter_Some. Qed.

Lemma t_get_map f t k : t_get k (t_map f t) = f <$> t_get k t.
Proof. apply lookup_fmap. Qed.

Lemma t_get_alter f k k' t :
  t_get k' (t_alter f k t) = if decide (k = k') then f <$> t_get k' t else t_get k' t.
Proof.
  unfold t_get, t_alter. cbn. case_decide as E; [subst; apply lookup_alter_eq |].
  by apply lookup_alter_ne.
Qed.

Lemma t_wf_alter f k t : t_wf t -> t_wf (t_alter f k t).
Proof.
  intros Hwf k' Hs. change (is_Some (t_get k' (t_alter f k t))) in Hs. apply Hwf.
  rewrite t_get_alter in Hs. case_decide; [by apply fmap_is_Some in Hs | exact Hs].
Qed.

Lemma t_wf_remove p t : t_wf t -> t_wf (t_remove p t).
Proof. intros Hwf k [a [Ha _]%t_get_remove]. apply Hwf. eauto. Qed.

Lemma t_wf_map f t : t_wf t -> t_wf (t_map f t).
Proof. intros Hwf k. unfold t_map. cbn. rewrite lookup_fmap, fmap_is_Some. apply Hwf. Qed.

Lemma t_wf_delete ks t : t_wf t -> t_wf (t_delete ks t).
Proof.
  intros Hwf k [a Ha]. cbn in *. rewrite rows_delete_list in Ha.
  case_decide; [done | eauto].
Qed.
End Tables.

(** Lists whose elements are told apart by an integer key. *)

Lemma NoDup_map_filter {A B} (f : A -> B) (P : A -> Prop) `{forall x, Decision (P x)} l :
  NoDup (map f l) -> NoDup (map f (filter P l)).
Proof.
  induction l as [| a l IH]; [done |]. rewrite filter_cons. cbn [map].
  rewrite list.NoDup_cons. intros [Ha Hl]. case_decide; [| auto]. cbn.
  apply list.NoDup_cons. split; [| auto].
  contradict Ha. apply list_elem_of_fmap in Ha as (y & -> & Hy).
  apply list_elem_of_filter in Hy as [_ Hy]. by apply list_elem_of_fmap_2.
Qed.

Lemma NoDup_map_omap {A} (id : A -> Z) (f : Z -> option A) ids :
  (forall i a, f i = Some a -> id a = i) -> NoDup ids -> NoDup (map id (omap f ids)).
Proof.
  intros Hf. induction ids as [| i ids IH]; [done |].
  rewrite list.NoDup_cons. intros [Hi Hids]. cbn.
  destruct (f i) as [a|] eqn:Ea; [| auto]. cbn. apply list.NoDup_cons. split; [| auto].
  rewrite (Hf _ _ Ea). contradict Hi. apply list_elem_of_fmap in Hi as (y & -> & Hy).
  apply list_elem_of_omap in Hy as (j & Hj & Ej). by rewrite (Hf _ _ Ej).
Qed.

Lemma NoDup_map_inj {A B} (f : A -> B) (l : list A) x y :
  NoDup (map f l) -> x ∈ l -> y ∈ l -> f x = f y -> x = y.
Proof.
  intros Hn Hx Hy Hxy. apply list_elem_of_lookup in Hx as [i Hi].
  apply list_elem_of_lookup in Hy as [j Hj].
  assert (i = j) as ->; [| congruence].
  eapply NoDup_lookup; [exact Hn | | ].
  - change (map f l) with (f <$> l). rewrite list_lookup_fmap, Hi. reflexivity.
  - change (map f l) with (f <$> l). rewrite list_lookup_fmap, Hj. cbn. by rewrite Hxy.
Qed.

(** Rows carry their own key. *)
Definition t_keyed {A} (id : A -> Z) (t : table A) : Prop :=
  forall k a, rows t !! k = Some a -> id a = k.

Lemma t_where_NoDup {A} (id : A -> Z) p (t : table A) :
  t_keyed id t -> NoDup (map id (t_where p t)).
Proof.
  intros Hk. unfold t_where. apply NoDup_map_filter.
  assert (map id (map_to_list (rows t)).*2 = (map_to_list (rows t)).*1) as ->.
  { change (map id (map_to_list (rows t)).*2) with (id <$> (snd <$> map_to_list (rows t))).
    rewrite <- list_fmap_compose. apply list_fmap_ext. intros i [k a] Hi. cbn.
    apply Hk, elem_of_map_to_list, list_elem_of_lookup. eauto. }
  apply NoDup_fst_map_to_list.
Qed.

#[export] Instance eta_table A : Eta (table A) := fun t => Table (rows t) (seq t).

(** ** Ordering

    [ORDER BY k1, k2, ...] sorts by a tuple of integer keys, compared
    lexicographically; a descending key is negated. *)

Fixpoint lex_le (x y : list Z) : bool :=
  match x, y with
  | [], _ => true
  | _ :: _, [] => false
  | a :: x', b :: y' => (a <? b) || ((a =? b) && lex_le x' y')
  end.

Lemma lex_le_total x y : lex_le x y = true \/ lex_le y x = true.
Proof.
  revert y; induction x as [| a x IH]; intros [| b y]; cbn; try by auto.
  destruct (IH y); destruct (Z.ltb_spec a b), (Z.ltb_spec b a),
    (Z.eqb_spec a b), (Z.eqb_spec b a); cbn; auto; lia.
Qed.

Lemma lex_le_trans x y z :
  lex_le x y = true -> lex_le y z = true -> lex_le x z = true.
Proof.
  revert y z; induction x as [| a x IH]; intros [| b y] [| c z]; cbn; try done.
  rewrite !orb_true_iff, !andb_true_iff, !Z.ltb_lt, !Z.eqb_eq.
  intros [?|[-> ?]] [?|[-> ?]]; [left; lia | left; lia | left; lia |].
  right. eauto.
Qed.

Lemma lex_le_antisym x y : lex_le x y = true -> lex_le y x = true -> x = y.
Proof.
  revert y; induction x as [| a x IH]; intros [| b y]; cbn; try done.
  rewrite !orb_true_iff, !andb_true_iff, !Z.ltb_lt, !Z.eqb_eq.
  intros [?|[-> ?]] [?|[? ?]]; try lia. f_equal; auto.
Qed.

Section OrderBy.
Context {A : Type} (key : A -> list Z).

Definition key_le (x y : A) : Prop := Is_true (lex_le (key x) (key y)).
#[export] Instance key_le_dec x y : Decision (key_le x y).
Proof. unfold key_le. apply _. Defined.
#[export] Instance key_le_total : Total key_le.
Proof.
  intros x y. unfold key_le.
  destruct (lex_le_total (key x) (key y)) as [-> | ->]; cbn; auto.
Qed.
#[export] Instance key_le_trans : Transitive key_le.
Proof.
  intros x y z. unfold key_le. intros ? ?. apply Is_true_eq_left.
  eapply lex_le_trans; by apply Is_true_eq_true.
Qed.

Definition order_by (l : list A) : list A := merge_sort key_le l.

Lemma order_by_perm l : order_by l ≡ₚ l.
Proof. apply merge_sort_Permutation. Qed.

Lemma order_by_sorted l : StronglySorted key_le (order_by l).
Proof. apply (StronglySorted_merge_sort key_le). Qed.

Lemma order_by_elem l a : a ∈ order_by l <-> a ∈ l.
Proof. by rewrite order_by_perm. Qed.

Lemma order_by_length l : length (order_by l) = length l.
Proof. by rewrite order_by_perm. Qed.
End OrderBy.

(** ** Automation *)

Create HintDb wh.
#[export] Hint Resolve t_wf_add t_wf_set t_wf_delete t_get_add_old : wh.
Create Rewrite HintDb wh.
#[export] Hint Rewrite @t_get_set @t_get_delete : wh.

Lemma qle_bool_false x y : Qle_bool x y = false <-> (y < x)%Q.
Proof.
  rewrite <- not_true_iff_false, Qle_bool_iff. split.
  - apply Qnot_le_lt.
  - apply Qlt_not_le.
Qed.

Lemma qlt_true x y : qlt x y = true <-> (x < y)%Q.
Proof. unfold qlt. rewrite negb_true_iff. apply qle_bool_false. Qed.

Lemma qlt_false x y : qlt x y = false <-> (y <= x)%Q.
Proof. unfold qlt. rewrite negb_false_iff. apply Qle_bool_iff. Qed.

(** [qcases] turns the boolean comparisons of a goal about rationals into
    linear facts and calls [lra]. *)
Ltac qprop :=
  repeat match goal with
  | H : Qle_bool _ _ = true |- _ => apply Qle_bool_iff in H
  | H : Qle_bool _ _ = false |- _ => apply qle_bool_false in H
  | H : qlt _ _ = true |- _ => apply qlt_true in H
  | H : qlt _ _ = false |- _ => apply qlt_false in H
  | H : negb _ = true |- _ => apply negb_true_iff in H
  | H : negb _ = false |- _ => apply negb_false_iff in H
  end.
Ltac qcases :=
  unfold qmin, qmax in *;
  repeat match goal with
  | |- context [if ?b then _ else _] => let E := fresh "E" in destruct b eqn:E
  | H : context [if ?b then _ else _] |- _ => let E := fresh "E" in destruct b eqn:E
  end; qprop; try lra.

Lemma qmin_le_l x y : (qmin x y <= x)%Q.
Proof. qcases. Qed.
Lemma qmin_le_r x y : (qmin x y <= y)%Q.
Proof. qcases. Qed.
Lemma qmin_glb x y z : (z <= x)%Q -> (z <= y)%Q -> (z <= qmin x y)%Q.
Proof. intros. qcases. Qed.
Lemma qmax_ge_l x y : (x <= qmax x y)%Q.
Proof. qcases. Qed.
Lemma qmax_ge_r x y : (y <= qmax x y)%Q.
Proof. qcases. Qed.
Lemma qmax_lub x y z : (x <= z)%Q -> (y <= z)%Q -> (qmax x y <= z)%Q.
Proof. intros. qcases. Qed.

Lemma round_half_even_bounds q :
  (inject_Z (round_half_even q) - (1 # 2) <= q <= inject_Z (round_half_even q) + (1 # 2))%Q.
Proof.
  unfold round_half_even.
  pose proof (Qfloor_le q) as Hl. pose proof (Qlt_floor q) as Hu.
  rewrite inject_Z_plus in Hu. change (inject_Z 1) with 1%Q in Hu.
  set (f := inject_Z (Qfloor q)) in *.
  assert (inject_Z (Qfloor q + 1) == f + 1)%Q as He
    by (rewrite inject_Z_plus; reflexivity).
  repeat case_match; qprop; try (rewrite He); fold f; lra.
Qed.

Lemma round_half_even_nonneg q : (0 <= q)%Q -> 0 <= round_half_even q.
Proof.
  intros Hq. pose proof (round_half_even_bounds q) as [_ H].
  destruct (Z_le_gt_dec 0 (round_half_even q)) as [|Hn]; [done |].
  assert (inject_Z (round_half_even q) <= -1)%Q.
  { change (-1)%Q with (inject_Z (-1)). rewrite <- Zle_Qle. lia. }
  lra.
Qed.

(** A [timedelta] is within half a microsecond of the float it is made from. *)
Lemma timedelta_seconds_bounds (q : Q) :
  ((timedelta_seconds q # 1000000) - (1 # 2000000) <= q
     <= (timedelta_seconds q # 1000000) + (1 # 2000000))%Q.
Proof.
  pose proof (round_half_even_bounds (q * inject_Z second)) as [B1 B2].
  fold (timedelta_seconds q) in B1, B2. change (inject_Z second) with 1000000%Q in B1, B2.
  assert ((timedelta_seconds q # 1000000) == inject_Z (timedelta_seconds q) * (1 # 1000000))%Q as ->
    by (unfold Qeq, inject_Z; cbn; lia).
  split; lra.
Qed.

Lemma timedelta_seconds_nonneg (q : Q) : (0 <= q)%Q -> 0 <= timedelta_seconds q.
Proof.
  intros Hq. apply round_half_even_nonneg. change (inject_Z second) with 1000000%Q. lra.
Qed.

Section FloatLemmas.
Context `{Rounding}.

#[export] Instance rnd_proper : Proper (Qeq ==> Qeq) rnd.
Proof.
  intros x y Hxy. apply Qle_antisym; apply rnd_mono; rewrite Hxy; apply Qle_refl.
Qed.

Lemma rnd_is_float x : is_float (rnd x).
Proof. apply rnd_idem. Qed.

Lemma int_is_float z : Z.abs z <= 2 ^ 53 -> is_float (inject_Z z).
Proof. apply rnd_int. Qed.

Lemma is_float_qmin x y : is_float x -> is_float y -> is_float (qmin x y).
Proof. unfold qmin. by case_match. Qed.

Lemma rnd_le_float x y : is_float y -> (x <= y)%Q -> (rnd x <= y)%Q.
Proof. intros Hy Hx. apply rnd_mono in Hx. unfold is_float in Hy. by rewrite Hy in Hx. Qed.

Lemma rnd_0 : (rnd 0 == 0)%Q.
Proof. apply (rnd_int 0). cbn. lia. Qed.

Lemma rnd_nonneg x : (0 <= x)%Q -> (0 <= rnd x)%Q.
Proof. intros Hx. apply rnd_mono in Hx. by rewrite rnd_0 in Hx. Qed.

Lemma rnd_le_int x z :
  Z.abs z <= 2 ^ 53 -> (x <= inject_Z z)%Q -> (rnd x <= inject_Z z)%Q.
Proof. intros Hz Hx. apply rnd_mono in Hx. by rewrite rnd_int in Hx. Qed.

Lemma rnd_ge_int x z :
  Z.abs z <= 2 ^ 53 -> (inject_Z z <= x)%Q -> (inject_Z z <= rnd x)%Q.
Proof. intros Hz Hx. apply rnd_mono in Hx. by rewrite rnd_int in Hx. Qed.

Lemma fsub_nonneg x y : (y <= x)%Q -> (0 <= fsub x y)%Q.
Proof. intros. apply rnd_nonneg. lra. Qed.

Lemma float_of_exact z : Z.abs z <= 2 ^ 53 -> (float_of z == inject_Z z)%Q.
Proof. apply rnd_int. Qed.
End FloatLemmas.
#[export] Hint Resolve rnd_is_float int_is_float is_float_qmin : wh.
#[export] Hint Resolve qmin_le_l qmin_le_r qmin_glb qmax_ge_l qmax_ge_r qmax_lub
  rnd_nonneg fsub_nonneg round_half_even_nonneg : wh.
