(* ===== verification/Crypto.v ===== *)
(** * Digests and encodings

    The parts of [hashlib], [hmac], [base64] and [bytes] the platform and its
    receiver SDK sign and verify with: SHA-256, HMAC, hexadecimal and the two
    base64 alphabets, over octets as integers. *)

From stdpp Require Import base tactics list numbers option strings.
From S2P Require Import Prelude.
Local Open Scope Z_scope.

Definition byte_ok (b : Z) : Prop := 0 <= b < 256.
Definition bytes_ok (s : pybytes) : Prop := Forall byte_ok s.

(** ** SHA-256 *)

Module Sha256.
Definition word : Z := 2 ^ 32.
Definition add32 (x y : Z) : Z := (x + y) mod word.
Definition rotr (n x : Z) : Z := Z.lor (Z.shiftr x n) (Z.shiftl x (32 - n) mod word).
Definition not32 (x : Z) : Z := word - 1 - x.

(** The round constants: the first 32 bits of the fractional parts of the cube
    roots of the first 64 primes. *)
Definition prime (n : Z) : bool :=
  (1 <? n) && forallb (fun k => negb (n mod k =? 0)) (seqZ 2 (n - 2)).

(** The largest [r] below [2 ^ bits] with [r ^ 3 <= n]. *)
Fixpoint cube_root (bits : nat) (n r : Z) : Z :=
  match bits with
  | O => r
  | S bits' =>
      let r' := r + 2 ^ Z.of_nat bits' in
      cube_root bits' n (if r' * r' * r' <=? n then r' else r)
  end.

Definition K : list Z :=
  Eval vm_compute in
    map (fun p => cube_root 36 (p * 2 ^ 96) 0 mod word) (List.filter prime (seqZ 0 312)).

Record state : Type := St { a : Z; b : Z; c : Z; d : Z; e : Z; f : Z; g : Z; h : Z }.

Definition H0 : state :=
  St 0x6a09e667 0xbb67ae85 0x3c6ef372 0xa54ff53a 0x510e527f 0x9b05688c 0x1f83d9ab 0x5be0cd19.

Definition round (s : state) (kw : Z * Z) : state :=
  let S1 := Z.lxor (rotr 6 (e s)) (Z.lxor (rotr 11 (e s)) (rotr 25 (e s))) in
  let ch := Z.lxor (Z.land (e s) (f s)) (Z.land (not32 (e s)) (g s)) in
  let t1 := add32 (h s) (add32 S1 (add32 ch (add32 kw.1 kw.2))) in
  let S0 := Z.lxor (rotr 2 (a s)) (Z.lxor (rotr 13 (a s)) (rotr 22 (a s))) in
  let maj := Z.lxor (Z.land (a s) (b s))
               (Z.lxor (Z.land (a s) (c s)) (Z.land (b s) (c s))) in
  St (add32 t1 (add32 S0 maj)) (a s) (b s) (c s) (add32 (d s) t1) (e s) (f s) (g s).

(** The message schedule, newest word first. *)
Definition next_word (w : list Z) : Z :=
  let at_ i := default 0 (w !! i) in
  let w15 := at_ 14%nat in
  let w2 := at_ 1%nat in
  let s0 := Z.lxor (rotr 7 w15) (Z.lxor (rotr 18 w15) (Z.shiftr w15 3)) in
  let s1 := Z.lxor (rotr 17 w2) (Z.lxor (rotr 19 w2) (Z.shiftr w2 10)) in
  add32 (at_ 15%nat) (add32 s0 (add32 (at_ 6%nat) s1)).

Fixpoint extend (n : nat) (w : list Z) : list Z :=
  match n with
  | O => w
  | S n' => extend n' (next_word w :: w)
  end.

Fixpoint words (l : pybytes) : list Z :=
  match l with
  | b0 :: b1 :: b2 :: b3 :: l' =>
      (b0 * 16777216 + b1 * 65536 + b2 * 256 + b3) :: words l'
  | _ => []
  end.

Definition block (s : state) (w : list Z) : state :=
  let r := foldl round s (zip K (reverse (extend 48 (reverse w)))) in
  St (add32 (a s) (a r)) (add32 (b s) (b r)) (add32 (c s) (c r)) (add32 (d s) (d r))
     (add32 (e s) (e r)) (add32 (f s) (f r)) (add32 (g s) (g r)) (add32 (h s) (h r)).

Definition be_bytes (n : nat) (z : Z) : pybytes :=
  map (fun i => Z.shiftr z (8 * (Z.of_nat n - 1 - Z.of_nat i)) mod 256) (List.seq 0 n).

Definition pad (m : pybytes) : pybytes :=
  m ++ [128] ++ replicate (Z.to_nat ((55 - len m) mod 64)) 0 ++ be_bytes 8 (8 * len m).

Fixpoint blocks (fuel : nat) (s : state) (w : list Z) : state :=
  match fuel with
  | O => s
  | S fuel' => match w with
               | [] => s
               | _ => blocks fuel' (block s (take 16 w)) (drop 16 w)
               end
  end.

Definition digest_of (s : state) : pybytes :=
  be_bytes 4 (a s) ++ be_bytes 4 (b s) ++ be_bytes 4 (c s) ++ be_bytes 4 (d s)
  ++ be_bytes 4 (e s) ++ be_bytes 4 (f s) ++ be_bytes 4 (g s) ++ be_bytes 4 (h s).
End Sha256.

(** [hashlib.sha256(m).digest()]; the padded message has one word per four
    octets, so its length in words is fuel enough for its blocks. *)
Definition sha256 (m : pybytes) : pybytes :=
  let w := Sha256.words (Sha256.pad m) in
  Sha256.digest_of (Sha256.blocks (length w) Sha256.H0 w).

(** [hmac.new(key, msg, hashlib.sha256).digest()] *)
Definition hmac_sha256 (key msg : pybytes) : pybytes :=
  let key' := if 64 <? len key then sha256 key else key in
  let block_key := key' ++ replicate (64 - length key') 0 in
  let inner := sha256 (map (Z.lxor 54) block_key ++ msg) in
  sha256 (map (Z.lxor 92) block_key ++ inner).

(** ** Encodings *)

Definition nibble (n : Z) : Z := if n <? 10 then 48 + n else 87 + n.
(** [bytes.hex()] *)
Definition hexdigest (bs : pybytes) : str := bs ≫= fun b => [nibble (b / 16); nibble (b mod 16)].

Definition b64_char (c62 c63 : Z) (n : Z) : Z :=
  if n <? 26 then 65 + n
  else if n <? 52 then 71 + n
  else if n <? 62 then n - 4
  else if n =? 62 then c62 else c63.

Fixpoint b64_with (c62 c63 : Z) (bs : pybytes) : str :=
  let ch := b64_char c62 c63 in
  match bs with
  | x :: y :: z :: bs' =>
      ch (x / 4) :: ch (x mod 4 * 16 + y / 16) :: ch (y mod 16 * 4 + z / 64) :: ch (z mod 64)
        :: b64_with c62 c63 bs'
  | [x; y] => [ch (x / 4); ch (x mod 4 * 16 + y / 16); ch (y mod 16 * 4); 61]
  | [x] => [ch (x / 4); ch (x mod 4 * 16); 61; 61]
  | [] => []
  end.

(** [base64.b64encode] and [base64.urlsafe_b64encode] *)
Definition b64encode : pybytes -> str := b64_with 43 47.
Definition urlsafe_b64encode : pybytes -> str := b64_with 45 95.

Definition b64_value (c : Z) : option Z :=
  if (65 <=? c) && (c <=? 90) then Some (c - 65)
  else if (97 <=? c) && (c <=? 122) then Some (c - 71)
  else if (48 <=? c) && (c <=? 57) then Some (c + 4)
  else if c =? 43 then Some 62
  else if c =? 47 then Some 63
  else None.

(** [base64.b64decode(s, validate=True)]; [None] is [binascii.Error].  The
    strict decoder takes groups of four with padding only in the last one and
    ignores the unused low bits of a padded group. *)
Fixpoint b64decode (s : str) : option pybytes :=
  match s with
  | [] => Some []
  | w :: x :: y :: z :: s' =>
      w ← b64_value w; x ← b64_value x;
      if (y =? 61) && (z =? 61) then
        match s' with [] => Some [w * 4 + x / 16] | _ => None end
      else
        y ← b64_value y;
        if z =? 61 then
          match s' with
          | [] => Some [w * 4 + x / 16; x mod 16 * 16 + y / 4]
          | _ => None
          end
        else
          z ← b64_value z; r ← b64decode s';
          Some (w * 4 + x / 16 :: x mod 16 * 16 + y / 4 :: y mod 4 * 64 + z :: r)
  | _ => None
  end.

Example sha256_abc :
  hexdigest (sha256 (py "abc"))
  = py "ba7816bf8f01cfea414140de5dae2223b00361a396177a9cb410ff61f20015ad".
Proof. vm_compute. reflexivity. Qed.

Example hmac_jefe :
  hexdigest (hmac_sha256 (py "Jefe") (py "what do ya want for nothing?"))
  = py "5bdcc146bf60754e6a042426089575c75a003f089d2739839dec58b964ec3843".
Proof. vm_compute. reflexivity. Qed.

(** ** Lemmas *)

Lemma be_bytes_length n z : length (Sha256.be_bytes n z) = n.
Proof. unfold Sha256.be_bytes. by rewrite length_map, length_seq. Qed.

Lemma be_bytes_ok n z : bytes_ok (Sha256.be_bytes n z).
Proof.
  apply list.Forall_forall. intros b (i & -> & _)%list_elem_of_fmap.
  apply Z.mod_pos_bound. lia.
Qed.

Lemma sha256_length m : length (sha256 m) = 32%nat.
Proof. unfold sha256, Sha256.digest_of. by rewrite !length_app, !be_bytes_length. Qed.

Lemma sha256_ok m : bytes_ok (sha256 m).
Proof.
  unfold sha256, Sha256.digest_of, bytes_ok. rewrite !list.Forall_app.
  repeat split; apply be_bytes_ok.
Qed.

Lemma hmac_sha256_length key msg : length (hmac_sha256 key msg) = 32%nat.
Proof. apply sha256_length. Qed.

Lemma hmac_sha256_ok key msg : bytes_ok (hmac_sha256 key msg).
Proof. apply sha256_ok. Qed.

Lemma hexdigest_length bs : length (hexdigest bs) = (2 * length bs)%nat.
Proof. induction bs as [| b bs IH]; [done |]. cbn. unfold hexdigest in IH. cbn in IH. lia. Qed.

Definition hex_char (c : Z) : bool :=
  ((48 <=? c) && (c <=? 57)) || ((97 <=? c) && (c <=? 102)).

Lemma nibble_hex n : 0 <= n < 16 -> hex_char (nibble n) = true.
Proof. unfold hex_char, nibble. intros ?. destruct (Z.ltb_spec n 10); lia. Qed.

Lemma hexdigest_hex bs : bytes_ok bs -> forallb hex_char (hexdigest bs) = true.
Proof.
  induction 1 as [| b bs [Hb Hb'] _ IH]; [done |]. cbn. unfold hexdigest in IH.
  rewrite !nibble_hex; [done | |].
  - apply Z.mod_pos_bound. lia.
  - split; [apply Z.div_pos; lia | apply Z.div_lt_upper_bound; lia].
Qed.

(** Induction by groups of three octets. *)
Lemma list_ind3 {A} (P : list A -> Prop) :
  P [] -> (forall x, P [x]) -> (forall x y, P [x; y]) ->
  (forall x y z l, P l -> P (x :: y :: z :: l)) -> forall l, P l.
Proof.
  intros H0 H1 H2 H3 l. enough (P l /\ (forall x, P (x :: l)) /\ (forall x y, P (x :: y :: l)))
    as [? _] by done.
  induction l as [| z l (IH0 & IH1 & IH2)]; [done |]. split; [apply IH1 |].
  split; [intros; apply IH2 | intros; by apply H3].
Qed.

Definition digit64 (n : Z) : Prop := 0 <= n < 64.

Lemma b64_char_value n : digit64 n -> b64_value (b64_char 43 47 n) = Some n.
Proof.
  unfold digit64, b64_char, b64_value. intros Hn.
  destruct (Z.ltb_spec n 26).
  { destruct (Z.leb_spec 65 (65 + n)), (Z.leb_spec (65 + n) 90); cbn; try lia. f_equal; lia. }
  destruct (Z.ltb_spec n 52).
  { destruct (Z.leb_spec (71 + n) 90); try lia. rewrite andb_false_r.
    destruct (Z.leb_spec 97 (71 + n)), (Z.leb_spec (71 + n) 122); cbn; try lia. f_equal; lia. }
  destruct (Z.ltb_spec n 62).
  { destruct (Z.leb_spec 65 (n - 4)); try lia. destruct (Z.leb_spec 97 (n - 4)); try lia. cbn.
    destruct (Z.leb_spec 48 (n - 4)), (Z.leb_spec (n - 4) 57); cbn; try lia. f_equal; lia. }
  destruct (Z.eqb_spec n 62); [by subst |]. by replace n with 63 by lia.
Qed.

Lemma b64_char_not_pad n : digit64 n -> (b64_char 43 47 n =? 61) = false.
Proof.
  unfold digit64, b64_char. intros Hn. apply Z.eqb_neq.
  destruct (Z.ltb_spec n 26); [lia |]. destruct (Z.ltb_spec n 52); [lia |].
  destruct (Z.ltb_spec n 62); [lia |]. destruct (n =? 62); lia.
Qed.

(** The six-bit digits of a group, and what they recombine to. *)
Lemma split_first x : byte_ok x -> digit64 (x / 4) /\ 0 <= x mod 4 < 4 /\ x = 4 * (x / 4) + x mod 4.
Proof.
  unfold byte_ok, digit64. intros ?. pose proof (Z.div_mod x 4 ltac:(lia)).
  pose proof (Z.mod_pos_bound x 4 ltac:(lia)). lia.
Qed.

Lemma split_second y :
  byte_ok y -> 0 <= y / 16 < 16 /\ 0 <= y mod 16 < 16 /\ y = 16 * (y / 16) + y mod 16.
Proof.
  unfold byte_ok. intros ?. pose proof (Z.div_mod y 16 ltac:(lia)).
  pose proof (Z.mod_pos_bound y 16 ltac:(lia)). lia.
Qed.

Lemma split_third z :
  byte_ok z -> 0 <= z / 64 < 4 /\ digit64 (z mod 64) /\ z = 64 * (z / 64) + z mod 64.
Proof.
  unfold byte_ok, digit64. intros ?. pose proof (Z.div_mod z 64 ltac:(lia)).
  pose proof (Z.mod_pos_bound z 64 ltac:(lia)). lia.
Qed.

Lemma recombine a b n r : 0 <= b < n -> r = a * n + b -> r / n = a /\ r mod n = b.
Proof.
  intros Hb ->. split.
  - rewrite Z.div_add_l by lia. rewrite Z.div_small; lia.
  - rewrite Z.add_comm, Z_mod_plus_full. by apply Z.mod_small.
Qed.

(** A strict decoder reads back what the encoder wrote. *)
Lemma b64_roundtrip bs : bytes_ok bs -> b64decode (b64encode bs) = Some bs.
Proof.
  unfold b64encode, bytes_ok. revert bs.
  induction bs as [| x | x y | x y z bs IH] using list_ind3; intros Hok; [done | | |];
    repeat (apply list.Forall_cons in Hok as [? Hok]);
    destruct (split_first x) as (Hx1 & Hx2 & Hx); try done.
  - cbn. rewrite !b64_char_value by (unfold digit64 in *; lia). cbn.
    destruct (recombine (x mod 4) 0 16 (x mod 4 * 16)) as [-> _]; [lia | lia |].
    do 2 f_equal. lia.
  - destruct (split_second y) as (Hy1 & Hy2 & Hy); [done |]. cbn.
    rewrite b64_char_not_pad by (unfold digit64; lia).
    rewrite !b64_char_value by (unfold digit64 in *; lia). cbn.
    destruct (recombine (x mod 4) (y / 16) 16 (x mod 4 * 16 + y / 16)) as [-> ->]; [lia | lia |].
    destruct (recombine (y mod 16) 0 4 (y mod 16 * 4)) as [-> _]; [lia | lia |].
    do 3 f_equal; lia.
  - destruct (split_second y) as (Hy1 & Hy2 & Hy); [done |].
    destruct (split_third z) as (Hz1 & Hz2 & Hz); [done |]. cbn.
    rewrite !b64_char_not_pad by (unfold digit64 in *; lia).
    rewrite !b64_char_value by (unfold digit64 in *; lia). cbn. rewrite IH by done. cbn.
    destruct (recombine (x mod 4) (y / 16) 16 (x mod 4 * 16 + y / 16)) as [-> ->]; [lia | lia |].
    destruct (recombine (y mod 16) (z / 64) 4 (y mod 16 * 4 + z / 64)) as [-> ->]; [lia | lia |].
    do 2 f_equal; [lia |]. f_equal; [lia |]. f_equal. lia.
Qed.
