(* ===== verification/Json.v ===== *)
(** * Canonical JSON

    Event payloads and the value [canonical_json] of
    [src/app/webhook_security.py] prints: compact, UTF-8, with sorted keys, and
    refusing NaN and the infinities.  The printer is [json.dumps] with the
    arguments the source passes, followed by [.encode("utf-8")]. *)

From stdpp Require Import base tactics list strings numbers sorting option pretty.
From S2P Require Import Prelude.
Local Open Scope Z_scope.

(** A Python [float]; a finite one is identified by its [repr], which
    determines it. *)
Inductive pyfloat : Type :=
| FNan
| FInf (negative : bool)
| FFinite (repr : str).

(** What [json.loads] and a FastAPI body produce.  A [dict] keeps insertion
    order; its keys are distinct. *)
Inductive json : Type :=
| JNull
| JBool (b : bool)
| JInt (z : Z)
| JFloat (f : pyfloat)
| JStr (s : str)
| JList (l : list json)
| JObj (o : list (str * json)).

Definition is_none (v : json) : bool := match v with JNull => true | _ => false end.

Definition hex_digit (n : Z) : Z := if n <? 10 then 48 + n else 87 + n.

(** [json.encoder.encode_basestring]: the escapes used with
    [ensure_ascii=False]. *)
Definition escape_char (c : Z) : str :=
  if c =? 34 then [92; 34]
  else if c =? 92 then [92; 92]
  else if c =? 10 then [92; 110]
  else if c =? 13 then [92; 114]
  else if c =? 9 then [92; 116]
  else if c =? 12 then [92; 102]
  else if c =? 8 then [92; 98]
  else if c <? 32 then [92; 117; 48; 48; hex_digit (c / 16); hex_digit (c mod 16)]
  else [c].

Definition quote (s : str) : str := 34 :: (s ≫= escape_char) ++ [34].

Definition int_repr (z : Z) : str := py (pretty z).

Fixpoint join (sep : str) (l : list str) : str :=
  match l with
  | [] => []
  | [x] => x
  | x :: l' => x ++ sep ++ join sep l'
  end.

(** [sort_keys=True]: the items by their key, compared by code points. *)
Definition sort_items {A} (o : list (str * A)) : list (str * A) := order_by fst o.

(** [None] is the [ValueError] of [allow_nan=False]. *)
Fixpoint dumps (v : json) : option str :=
  match v with
  | JNull => Some (py "null")
  | JBool true => Some (py "true")
  | JBool false => Some (py "false")
  | JInt z => Some (int_repr z)
  | JFloat (FFinite r) => Some r
  | JFloat _ => None
  | JStr s => Some (quote s)
  | JList l =>
      items ← (fix go (l : list json) : option (list str) :=
                 match l with
                 | [] => Some []
                 | x :: l' => x' ← dumps x; l'' ← go l'; Some (x' :: l'')
                 end) l;
      Some (py "[" ++ join (py ",") items ++ py "]")
  | JObj o =>
      items ← (fix go (o : list (str * json)) : option (list (str * str)) :=
                 match o with
                 | [] => Some []
                 | (k, x) :: o' =>
                     x' ← dumps x; o'' ← go o';
                     Some ((k, quote k ++ py ":" ++ x') :: o'')
                 end) o;
      Some (py "{" ++ join (py ",") (sort_items items).*2 ++ py "}")
  end.

(** [str.encode("utf-8")]; a lone surrogate is a [UnicodeEncodeError], which
    is a [ValueError]. *)
Definition utf8_char (c : Z) : option pybytes :=
  if c <? 128 then Some [c]
  else if c <? 2048 then Some [192 + c / 64; 128 + c mod 64]
  else if (55296 <=? c) && (c <=? 57343) then None
  else if c <? 65536 then
    Some [224 + c / 4096; 128 + (c / 64) mod 64; 128 + c mod 64]
  else Some [240 + c / 262144; 128 + (c / 4096) mod 64;
             128 + (c / 64) mod 64; 128 + c mod 64].

Definition utf8_encode (s : str) : option pybytes :=
  bs ← mapM utf8_char s; Some (concat bs).

Definition canonical_json (value : json) : option pybytes :=
  s ← dumps value; utf8_encode s.

Example canonical_json_sorts :
  canonical_json (JObj [(py "b", JInt 1); (py "a", JList [JNull; JBool true])])
  = Some (py "{" ++ quote (py "a") ++ py ":[null,true]," ++ quote (py "b") ++ py ":1}").
Proof. vm_compute. reflexivity. Qed.

(** ** [datetime.isoformat()] of an aware UTC value *)

(** The proleptic Gregorian date of a day number counted from 1970-01-01. *)
Definition civil_from_days (days : Z) : Z * Z * Z :=
  let z := days + 719468 in
  let era := z / 146097 in
  let doe := z mod 146097 in
  let yoe := (doe - doe / 1460 + doe / 36524 - doe / 146096) / 365 in
  let doy := doe - (365 * yoe + yoe / 4 - yoe / 100) in
  let mp := (5 * doy + 2) / 153 in
  let day := doy - (153 * mp + 2) / 5 + 1 in
  let month := if mp <? 10 then mp + 3 else mp - 9 in
  (yoe + era * 400 + (if month <=? 2 then 1 else 0), month, day).

Definition padded (width : nat) (n : Z) : str :=
  let s := int_repr n in replicate (width - length s) 48 ++ s.

Definition isoformat (t : datetime) : str :=
  let '(y, mo, d) := civil_from_days (t / 86400000000) in
  let us := t mod 86400000000 in
  let s := us / 1000000 in
  padded 4 y ++ py "-" ++ padded 2 mo ++ py "-" ++ padded 2 d ++ py "T"
  ++ padded 2 (s / 3600) ++ py ":" ++ padded 2 (s / 60 mod 60) ++ py ":" ++ padded 2 (s mod 60)
  ++ (if us mod 1000000 =? 0 then [] else py "." ++ padded 6 (us mod 1000000)) ++ py "+00:00".

Example isoformat_leap :
  isoformat 951827696000007 = py "2000-02-29T12:34:56.000007+00:00".
Proof. vm_compute. reflexivity. Qed.
