(* ===== verification/Text.v ===== *)
(** * Taking strings apart

    The methods of [str] the parsers of the program use ([split], [partition],
    [isdigit] and [int] on digits), and what they return on the strings the
    program prints. *)

From stdpp Require Import base tactics list strings numbers option pretty.
From S2P Require Import Prelude Json.
Local Open Scope Z_scope.

(** The pieces between the characters [sep] accepts. *)
Fixpoint split_by (sep : Z -> bool) (s : str) : list str :=
  match s with
  | [] => [[]]
  | x :: s' =>
      match split_by sep s' with
      | w :: ws => if sep x then [] :: w :: ws else (x :: w) :: ws
      | [] => []
      end
  end.

(** [s.split(c)] for a one-character [c], and [s.split()] *)
Definition split_on (c : Z) (s : str) : list str := split_by (fun x => x =? c) s.
Definition words (s : str) : list str :=
  List.filter (fun w => match w with [] => false | _ => true end) (split_by isspace s).

(** [s.partition(c)]: what is before [c], and what is after it if [c] occurs. *)
Fixpoint before_char (c : Z) (s : str) : str :=
  match s with
  | [] => []
  | x :: s' => if x =? c then [] else x :: before_char c s'
  end.

Fixpoint after_char (c : Z) (s : str) : option str :=
  match s with
  | [] => None
  | x :: s' => if x =? c then Some s' else after_char c s'
  end.

(** [c in s] *)
Definition has_char (c : Z) (s : str) : bool := existsb (Z.eqb c) s.

(** ** Lemmas *)

(** [s] has no character that [f] accepts. *)
Definition free_of (f : Z -> bool) (s : str) : Prop := Forall (fun c => f c = false) s.

Lemma free_of_app f s t : free_of f (s ++ t) <-> free_of f s /\ free_of f t.
Proof. unfold free_of. apply list.Forall_app. Qed.

Lemma free_of_cons f c s : free_of f (c :: s) <-> f c = false /\ free_of f s.
Proof. unfold free_of. by rewrite list.Forall_cons. Qed.

Lemma free_of_reverse f s : free_of f s -> free_of f (reverse s).
Proof. intros Hs. by apply list.Forall_reverse. Qed.

(** Characters of one class are free of another class. *)
Lemma free_of_class (cls f : Z -> bool) s :
  (forall c, cls c = true -> f c = false) -> forallb cls s = true -> free_of f s.
Proof.
  intros Hc Hs. apply list.Forall_forall. intros c Hin. apply Hc.
  apply forallb_forall with (x := c) in Hs; [done |]. by apply list_elem_of_In.
Qed.

Lemma split_by_free f s : free_of f s -> split_by f s = [s].
Proof. induction 1 as [| c s Hc _ IH]; [done |]. cbn. by rewrite IH, Hc. Qed.

Lemma split_by_nonempty f s : exists w ws, split_by f s = w :: ws.
Proof.
  induction s as [| c s (w & ws & IH)]; [by eexists _, _ |]. cbn. rewrite IH.
  destruct (f c); eauto.
Qed.

Lemma split_by_app f s c t :
  free_of f s -> f c = true -> split_by f (s ++ c :: t) = s :: split_by f t.
Proof.
  intros Hs Hc. induction Hs as [| x s Hx _ IH]; cbn.
  - destruct (split_by_nonempty f t) as (w & ws & ->). by rewrite Hc.
  - by rewrite IH, Hx.
Qed.

Lemma words_free s : free_of isspace s -> s <> [] -> words s = [s].
Proof. intros Hs Hne. unfold words. rewrite split_by_free by done. by destruct s. Qed.

Lemma words_no_space s w : w ∈ words s -> free_of isspace w /\ w <> [].
Proof.
  unfold words. intros [Hin Hne]%list_elem_of_In%filter_In. split; [| by destruct w].
  apply list_elem_of_In in Hin. clear Hne. revert w Hin.
  induction s as [| c s IH]; cbn; intros w.
  { intros ->%list_elem_of_singleton. constructor. }
  destruct (split_by_nonempty isspace s) as (v & ws & E). rewrite E in *.
  destruct (isspace c) eqn:Ec; intros [->|Hin]%elem_of_cons.
  - constructor.
  - by apply IH.
  - constructor; [done |]. apply IH. by left.
  - apply IH. by right.
Qed.

Lemma before_char_app c s t : free_of (fun x => x =? c) s -> before_char c (s ++ c :: t) = s.
Proof.
  induction 1 as [| x s Hx _ IH]; cbn; [by rewrite Z.eqb_refl |]. by rewrite Hx, IH.
Qed.

Lemma after_char_app c s t :
  free_of (fun x => x =? c) s -> after_char c (s ++ c :: t) = Some t.
Proof.
  induction 1 as [| x s Hx _ IH]; cbn; [by rewrite Z.eqb_refl |]. by rewrite Hx, IH.
Qed.

Lemma lstrip_free s : free_of isspace s -> lstrip s = s.
Proof. destruct s as [| c s]; [done |]. intros [Hc _]%free_of_cons. cbn. by rewrite Hc. Qed.

Lemma strip_free s : free_of isspace s -> strip s = s.
Proof.
  intros Hs. unfold strip. rewrite (lstrip_free s) by done.
  rewrite lstrip_free by (by apply free_of_reverse). apply reverse_involutive.
Qed.

Lemma has_char_app c s t : has_char c (s ++ t) = has_char c s || has_char c t.
Proof. apply existsb_app. Qed.

(** ** Decimal numerals *)

Lemma pretty_digit n : (n < 10)%N ->
  Z.of_nat (Ascii.nat_of_ascii (pretty_N_char n)) = 48 + Z.of_N n.
Proof.
  intros Hn. set (digits := N.of_nat <$> List.seq 0 10).
  assert (Forall (fun n => Z.of_nat (Ascii.nat_of_ascii (pretty_N_char n)) = 48 + Z.of_N n) digits)
    as Hall by (vm_compute; repeat constructor).
  rewrite list.Forall_forall in Hall. apply Hall, list_elem_of_fmap. exists (N.to_nat n).
  rewrite elem_of_seq. lia.
Qed.

Lemma int_of_digits_snoc ds c : int_of_digits (ds ++ [c]) = 10 * int_of_digits ds + (c - 48).
Proof. unfold int_of_digits. by rewrite foldl_app. Qed.

Lemma pretty_go_digits x s : exists ds,
  py (pretty_N_go x s) = ds ++ py s /\ forallb ascii_digit ds = true /\
  int_of_digits ds = Z.of_N x /\ (ds = [] -> x = 0%N).
Proof.
  revert s. induction (N.lt_wf_0 x) as [x _ IH]; intros s.
  destruct (N.eq_dec x 0%N) as [-> | Hx]; [by exists [] |].
  rewrite pretty_N_go_step by lia.
  destruct (IH (x `div` 10)%N ltac:(apply N.div_lt; lia) (String (pretty_N_char (x `mod` 10)%N) s))
    as (ds & -> & Hd & Hv & _).
  pose proof (N.mod_lt x 10%N ltac:(lia)) as Hm.
  exists (ds ++ [48 + Z.of_N (x `mod` 10)%N]). split_and!.
  - rewrite <- app_assoc. f_equal. change (py (String ?c ?s)) with (Z.of_nat (Ascii.nat_of_ascii c) :: py s).
    by rewrite pretty_digit.
  - rewrite forallb_app, Hd. cbn [forallb]. unfold ascii_digit. revert Hm. generalize (x `mod` 10)%N.
    clear. intros m Hm. rewrite andb_true_r. cbn [andb]. lia.
  - rewrite int_of_digits_snoc, Hv. pose proof (N.div_mod x 10%N ltac:(lia)). lia.
  - by destruct ds.
Qed.

(** The decimal numeral of a natural number is read back as that number. *)
Lemma int_repr_digits z : 0 <= z ->
  int_repr z <> [] /\ forallb ascii_digit (int_repr z) = true /\ int_of_digits (int_repr z) = z.
Proof.
  intros Hz. unfold int_repr. destruct z as [| p | p]; [done | | lia].
  change (pretty (Zpos p)) with (pretty_N_go (Npos p) "").
  destruct (pretty_go_digits (Npos p) "") as (ds & -> & Hd & Hv & Hne).
  rewrite app_nil_r. split_and!; [| done | by rewrite Hv].
  intros ->. by specialize (Hne eq_refl).
Qed.

Lemma digit_not_space c : ascii_digit c = true -> isspace c = false.
Proof. unfold ascii_digit, isspace. lia. Qed.

Lemma digit_not c d : ascii_digit c = false -> ascii_digit d = true -> (d =? c) = false.
Proof. intros Hc Hd. apply Z.eqb_neq. intros ->. congruence. Qed.

Lemma py_inj s s' : py s = py s' -> s = s'.
Proof.
  revert s'. induction s as [| a s IH]; intros [| b s']; try done.
  change (Z.of_nat (Ascii.nat_of_ascii a) :: py s = Z.of_nat (Ascii.nat_of_ascii b) :: py s' ->
          String a s = String b s').
  intros [= Hc Hs]. f_equal; [| by apply IH].
  rewrite <- (Ascii.ascii_nat_embedding a), <- (Ascii.ascii_nat_embedding b). f_equal. lia.
Qed.

Lemma int_repr_inj z z' : int_repr z = int_repr z' -> z = z'.
Proof. intros Hz%py_inj. by apply (inj pretty). Qed.

Lemma int_repr_free f z :
  f 45 = false -> (forall c, ascii_digit c = true -> f c = false) -> free_of f (int_repr z).
Proof.
  intros Hm Hd. destruct (Z_le_gt_dec 0 z) as [Hz | Hz].
  - eapply free_of_class; [exact Hd |]. by apply int_repr_digits.
  - destruct z as [| p | p]; [lia | lia |]. apply free_of_cons. split; [done |].
    eapply free_of_class; [exact Hd |]. by apply (int_repr_digits (Zpos p)).
Qed.

(** ** [int] on text *)

Lemma digit_small c : ascii_digit c = true -> (c <? 128) = true.
Proof. unfold ascii_digit. lia. Qed.

Definition nonempty_text (s : str) : bool := match s with [] => false | _ => true end.

Section Numerals.
(** The decimal value of a character beyond ASCII. *)
Context (unicode_decimal : Z -> option Z).

Definition decimal (c : Z) : option Z :=
  if c <? 128 then (if ascii_digit c then Some (c - 48) else None) else unicode_decimal c.

Fixpoint read_decimals (n : Z) (s : str) : option Z :=
  match s with
  | [] => Some n
  | c :: s' => d ← decimal c; read_decimals (10 * n + d) s'
  end.

(** The digits of a numeral; single underscores may separate them. *)
Fixpoint digits_of (s : str) : option str :=
  match s with
  | [] => Some []
  | [c] => _ ← decimal c; Some [c]
  | c :: ((d :: s'') as s') =>
      _ ← decimal c;
      if d =? 95 then (if nonempty_text s'' then l ← digits_of s''; Some (c :: l) else None)
      else l ← digits_of s'; Some (c :: l)
  end.

(** [int(s)]: white space around, a sign, at most 4300 digits; [None] is the
    [ValueError]. *)
Definition int_of_text (s : str) : option Z :=
  let s := strip s in
  let '(sign, body) :=
    match s with
    | c :: s' => if c =? 45 then (-1, s') else if c =? 43 then (1, s') else (1, s)
    | [] => (1, [])
    end in
  if nonempty_text body then
    l ← digits_of body;
    if 4300 <? len l then None else n ← read_decimals 0 l; Some (sign * n)
  else None.

Lemma read_decimals_digits n s : forallb ascii_digit s = true ->
  read_decimals n s = Some (foldl (fun n c => 10 * n + (c - 48)) n s).
Proof.
  revert n. induction s as [| c s IH]; intros n; [done |]. cbn. intros [Hc Hs]%andb_true_iff.
  unfold decimal. rewrite digit_small, Hc by done. cbn. by apply IH.
Qed.

Lemma digits_of_digits s : forallb ascii_digit s = true -> digits_of s = Some s.
Proof.
  induction s as [| c s IH]; [done |]. cbn [forallb]. intros [Hc Hs]%andb_true_iff.
  assert (decimal c = Some (c - 48)) as Hd.
  { unfold decimal. rewrite Hc. unfold ascii_digit in Hc. by replace (c <? 128) with true by lia. }
  destruct s as [| d s]; [cbn [digits_of]; by rewrite Hd |].
  change (digits_of (c :: d :: s)) with (_ ← decimal c;
    if d =? 95 then (if nonempty_text s then l ← digits_of s; Some (c :: l) else None)
    else l ← digits_of (d :: s); Some (c :: l)).
  assert ((d =? 95) = false) as ->.
  { cbn [forallb] in Hs. apply andb_true_iff in Hs as [Hd' _]. unfold ascii_digit in Hd'. lia. }
  by rewrite Hd, IH.
Qed.

(** [int(str(n))] *)
Lemma int_of_text_repr n : 0 <= n -> len (int_repr n) <= 4300 -> int_of_text (int_repr n) = Some n.
Proof.
  intros Hn Hlen. destruct (int_repr_digits n Hn) as (Hne & Hd & Hv). unfold int_of_text.
  rewrite strip_free.
  2: { eapply free_of_class; [| exact Hd]. apply digit_not_space. }
  destruct (int_repr n) as [| c s] eqn:E; [done |].
  assert ((c =? 45) = false /\ (c =? 43) = false) as [-> ->].
  { cbn [forallb] in Hd. apply andb_true_iff in Hd as [Hc _]. unfold ascii_digit in Hc. lia. }
  cbn [nonempty_text]. rewrite digits_of_digits by done. cbn [mbind option_bind].
  replace (4300 <? len (c :: s)) with false by lia. rewrite read_decimals_digits by done.
  cbn [mbind option_bind]. unfold int_of_digits in Hv. rewrite Hv. f_equal. lia.
Qed.
End Numerals.
