(* ===== verification/Models.v ===== *)
(** * The data model

    The tables of [src/app/models.py], column for column: a string column with
    a CHECK constraint is the inductive type of the strings it admits, a
    nullable column an [option], a [Float] column a rational, a JSON column a
    [json] value.  [Db] is the whole database and [Session] the unit of work
    every handler runs in. *)

From Stdlib Require Import QArith.
From stdpp Require Import base tactics list gmap strings numbers option.
From S2P Require Import Prelude Json.
Local Open Scope Z_scope.

(** ** Constrained columns *)

(** [ck_deliveries_status] *)
Inductive DeliveryStatus : Type := Pending | Processing | RetryScheduled | Succeeded | Dead | Canceled.
#[export] Instance DeliveryStatus_eq_dec : EqDecision DeliveryStatus.
Proof. solve_decision. Defined.

(** [ck_endpoint_quota_circuit_state] *)
Inductive CircuitState : Type := Closed | Open | HalfOpen.
#[export] Instance CircuitState_eq_dec : EqDecision CircuitState.
Proof. solve_decision. Defined.

(** [ck_webhook_endpoints_signature_scheme] *)
Inductive SignatureScheme : Type := Legacy | Standard.
#[export] Instance SignatureScheme_eq_dec : EqDecision SignatureScheme.
Proof. solve_decision. Defined.

(** [ck_events_envelope_mode] *)
Inductive EnvelopeMode : Type := Native | CloudEvents.
#[export] Instance EnvelopeMode_eq_dec : EqDecision EnvelopeMode.
Proof. solve_decision. Defined.

(** [ck_organizations_lifecycle_state] *)
Inductive LifecycleState : Type := Active | DeletionPending.
#[export] Instance LifecycleState_eq_dec : EqDecision LifecycleState.
Proof. solve_decision. Defined.

(** [ck_org_lifecycle_operations_status] *)
Inductive OperationStatus : Type := OpPending | OpRunning | OpCompleted | OpCanceled | OpFailed.
#[export] Instance OperationStatus_eq_dec : EqDecision OperationStatus.
Proof. solve_decision. Defined.

(** [ck_org_members_role] *)
Inductive OrganizationRole : Type := OWNER | ADMIN | MEMBER.
#[export] Instance OrganizationRole_eq_dec : EqDecision OrganizationRole.
Proof. solve_decision. Defined.

(** [ck_project_members_role] *)
Inductive ProjectRole : Type := PADMIN | OPERATOR | VIEWER.
#[export] Instance ProjectRole_eq_dec : EqDecision ProjectRole.
Proof. solve_decision. Defined.

(** [ck_organization_policies_plan] *)
Inductive Plan : Type := FreePlan | StandardPlan | EnterprisePlan.
#[export] Instance Plan_eq_dec : EqDecision Plan.
Proof. solve_decision. Defined.

(** [ck_replay_operations_mode] *)
Inductive ReplayMode : Type := Single | Bulk.
#[export] Instance ReplayMode_eq_dec : EqDecision ReplayMode.
Proof. solve_decision. Defined.

(** ** Rows *)

(** [class User] *)
Record User : Type := MkUser {
  u_id : Z;
  u_email : str;
  u_name : str;
  u_hashed_password : str;
  u_is_active : bool;
  u_created_at : datetime;
}.
#[export] Instance eta_User : Eta User := fun r =>
  MkUser (u_id r) (u_email r) (u_name r) (u_hashed_password r) (u_is_active r)
    (u_created_at r).

(** [class Organization] *)
Record Organization : Type := MkOrganization {
  o_id : Z;
  o_public_id : str;
  o_name : str;
  o_lifecycle_state : LifecycleState;
  o_deletion_requested_at : option datetime;
  o_deletion_scheduled_at : option datetime;
  o_created_at : datetime;
}.
#[export] Instance eta_Organization : Eta Organization := fun r =>
  MkOrganization (o_id r) (o_public_id r) (o_name r) (o_lifecycle_state r)
    (o_deletion_requested_at r) (o_deletion_scheduled_at r)
    (o_created_at r).

(** [class OrganizationPolicy] *)
Record OrganizationPolicy : Type := MkOrganizationPolicy {
  pol_organization_id : Z;
  pol_plan : Plan;
  pol_payload_retention_days : Z;
  pol_response_retention_days : Z;
  pol_created_at : datetime;
  pol_updated_at : datetime;
}.
#[export] Instance eta_OrganizationPolicy : Eta OrganizationPolicy := fun r =>
  MkOrganizationPolicy (pol_organization_id r) (pol_plan r) (pol_payload_retention_days r)
    (pol_response_retention_days r) (pol_created_at r) (pol_updated_at r).

(** [class OrganizationMember] *)
Record OrganizationMember : Type := MkOrganizationMember {
  om_id : Z;
  om_organization_id : Z;
  om_user_id : Z;
  om_role : OrganizationRole;
  om_created_at : datetime;
}.
#[export] Instance eta_OrganizationMember : Eta OrganizationMember := fun r =>
  MkOrganizationMember (om_id r) (om_organization_id r) (om_user_id r) (om_role r)
    (om_created_at r).

(** [class Project] *)
Record Project : Type := MkProject {
  p_id : Z;
  p_public_id : str;
  p_organization_id : Z;
  p_name : str;
  p_is_active : bool;
  p_created_at : datetime;
}.
#[export] Instance eta_Project : Eta Project := fun r =>
  MkProject (p_id r) (p_public_id r) (p_organization_id r) (p_name r)
    (p_is_active r) (p_created_at r).

(** [class ProjectMember] *)
Record ProjectMember : Type := MkProjectMember {
  pm_id : Z;
  pm_project_id : Z;
  pm_user_id : Z;
  pm_role : ProjectRole;
  pm_created_at : datetime;
}.
#[export] Instance eta_ProjectMember : Eta ProjectMember := fun r =>
  MkProjectMember (pm_id r) (pm_project_id r) (pm_user_id r) (pm_role r)
    (pm_created_at r).

(** [class ApiKey] *)
Record ApiKey : Type := MkApiKey {
  k_id : Z;
  k_public_id : str;
  k_project_id : Z;
  k_name : str;
  k_key_prefix : str;
  k_key_digest : str;
  k_scopes : json;
  k_expires_at : option datetime;
  k_rotation_family_id : str;
  k_rotated_from_id : option Z;
  k_is_active : bool;
  k_created_at : datetime;
  k_last_used_at : option datetime;
  k_revoked_at : option datetime;
}.
#[export] Instance eta_ApiKey : Eta ApiKey := fun r =>
  MkApiKey (k_id r) (k_public_id r) (k_project_id r) (k_name r) (k_key_prefix r)
    (k_key_digest r) (k_scopes r) (k_expires_at r) (k_rotation_family_id r)
    (k_rotated_from_id r) (k_is_active r) (k_created_at r)
    (k_last_used_at r) (k_revoked_at r).

(** [class GlobalControlState]; its [id] is constrained to 1. *)
Record GlobalControlState : Type := MkGlobalControlState {
  g_tenant_cursor_organization_id : option Z;
  g_created_at : datetime;
  g_updated_at : datetime;
}.
#[export] Instance eta_GlobalControlState : Eta GlobalControlState := fun r =>
  MkGlobalControlState (g_tenant_cursor_organization_id r) (g_created_at r) (g_updated_at r).

(** [class TenantQuotaState] *)
Record TenantQuotaState : Type := MkTenantQuotaState {
  t_organization_id : Z;
  t_event_tokens : Q;
  t_event_refilled_at : datetime;
  t_delivery_tokens : Q;
  t_delivery_refilled_at : datetime;
  t_replay_tokens : Q;
  t_replay_refilled_at : datetime;
  t_endpoint_cursor_id : option Z;
  t_updated_at : datetime;
}.
#[export] Instance eta_TenantQuotaState : Eta TenantQuotaState := fun r =>
  MkTenantQuotaState (t_organization_id r) (t_event_tokens r) (t_event_refilled_at r)
    (t_delivery_tokens r) (t_delivery_refilled_at r) (t_replay_tokens r)
    (t_replay_refilled_at r) (t_endpoint_cursor_id r) (t_updated_at r).

(** [class EndpointQuotaState] *)
Record EndpointQuotaState : Type := MkEndpointQuotaState {
  q_endpoint_id : Z;
  q_delivery_tokens : Q;
  q_refilled_at : datetime;
  q_retry_tokens : Q;
  q_retry_refilled_at : datetime;
  q_circuit_state : CircuitState;
  q_consecutive_failures : Z;
  q_circuit_open_until : option datetime;
  q_half_open_probe_delivery_id : option Z;
  q_paused_at : option datetime;
  q_pause_reason : option str;
  q_updated_at : datetime;
}.
#[export] Instance eta_EndpointQuotaState : Eta EndpointQuotaState := fun r =>
  MkEndpointQuotaState (q_endpoint_id r) (q_delivery_tokens r) (q_refilled_at r)
    (q_retry_tokens r) (q_retry_refilled_at r) (q_circuit_state r)
    (q_consecutive_failures r) (q_circuit_open_until r)
    (q_half_open_probe_delivery_id r) (q_paused_at r) (q_pause_reason r)
    (q_updated_at r).

(** [class WebhookEndpoint] *)
Record WebhookEndpoint : Type := MkWebhookEndpoint {
  e_id : Z;
  e_public_id : str;
  e_project_id : Z;
  e_url : str;
  e_description : option str;
  e_event_types : json;
  e_signature_scheme : SignatureScheme;
  e_is_active : bool;
  e_secret_version : Z;
  e_created_at : datetime;
  e_updated_at : datetime;
}.
#[export] Instance eta_WebhookEndpoint : Eta WebhookEndpoint := fun r =>
  MkWebhookEndpoint (e_id r) (e_public_id r) (e_project_id r) (e_url r) (e_description r)
    (e_event_types r) (e_signature_scheme r) (e_is_active r)
    (e_secret_version r) (e_created_at r) (e_updated_at r).

(** [class EndpointSigningSecretVersion] *)
Record EndpointSigningSecretVersion : Type := MkEndpointSigningSecretVersion {
  v_id : Z;
  v_endpoint_id : Z;
  v_version : Z;
  v_activated_at : datetime;
  v_retire_at : option datetime;
}.
#[export] Instance eta_EndpointSigningSecretVersion : Eta EndpointSigningSecretVersion := fun r =>
  MkEndpointSigningSecretVersion (v_id r) (v_endpoint_id r) (v_version r) (v_activated_at r)
    (v_retire_at r).

(** [class Event]; the JSON column [payload] reads back as Python [None] both
    for a purged payload and for the payload [null]. *)
Record Event : Type := MkEvent {
  ev_id : Z;
  ev_public_id : str;
  ev_project_id : Z;
  ev_idempotency_key : str;
  ev_event_type : str;
  ev_envelope_mode : EnvelopeMode;
  ev_payload : json;
  ev_payload_hash : str;
  ev_canonical_envelope : option pybytes;
  ev_payload_purged_at : option datetime;
  ev_traceparent : option str;
  ev_tracestate : option str;
  ev_created_at : datetime;
}.
#[export] Instance eta_Event : Eta Event := fun r =>
  MkEvent (ev_id r) (ev_public_id r) (ev_project_id r) (ev_idempotency_key r)
    (ev_event_type r) (ev_envelope_mode r) (ev_payload r)
    (ev_payload_hash r) (ev_canonical_envelope r) (ev_payload_purged_at r)
    (ev_traceparent r) (ev_tracestate r) (ev_created_at r).

(** [class Delivery] *)
Record Delivery : Type := MkDelivery {
  d_id : Z;
  d_public_id : str;
  d_organization_id : Z;
  d_event_id : Z;
  d_endpoint_id : Z;
  d_replay_of_delivery_id : option Z;
  d_endpoint_public_id_snapshot : str;
  d_endpoint_url_snapshot : str;
  d_endpoint_active_snapshot : bool;
  d_signing_secret_version_snapshot : Z;
  d_signature_scheme_snapshot : SignatureScheme;
  d_status : DeliveryStatus;
  d_attempt_count : Z;
  d_next_attempt_at : datetime;
  d_lease_token : option str;
  d_lease_expires_at : option datetime;
  d_last_http_status : option Z;
  d_last_error : option str;
  d_created_at : datetime;
  d_updated_at : datetime;
  d_succeeded_at : option datetime;
  d_dead_at : option datetime;
  d_dead_reason : option str;
  d_canceled_at : option datetime;
  d_canceled_reason : option str;
}.
#[export] Instance eta_Delivery : Eta Delivery := fun r =>
  MkDelivery (d_id r) (d_public_id r) (d_organization_id r) (d_event_id r)
    (d_endpoint_id r) (d_replay_of_delivery_id r)
    (d_endpoint_public_id_snapshot r) (d_endpoint_url_snapshot r)
    (d_endpoint_active_snapshot r) (d_signing_secret_version_snapshot r)
    (d_signature_scheme_snapshot r) (d_status r) (d_attempt_count r)
    (d_next_attempt_at r) (d_lease_token r) (d_lease_expires_at r)
    (d_last_http_status r) (d_last_error r) (d_created_at r)
    (d_updated_at r) (d_succeeded_at r) (d_dead_at r) (d_dead_reason r)
    (d_canceled_at r) (d_canceled_reason r).

(** [class ReplayOperation] *)
Record ReplayOperation : Type := MkReplayOperation {
  ro_id : Z;
  ro_public_id : str;
  ro_organization_id : Z;
  ro_project_id : Z;
  ro_actor_user_id : option Z;
  ro_idempotency_key : str;
  ro_mode : ReplayMode;
  ro_requested_count : Z;
  ro_created_count : Z;
  ro_source_delivery_ids : list str;
  ro_created_delivery_ids : list str;
  ro_created_at : datetime;
}.
#[export] Instance eta_ReplayOperation : Eta ReplayOperation := fun r =>
  MkReplayOperation (ro_id r) (ro_public_id r) (ro_organization_id r) (ro_project_id r)
    (ro_actor_user_id r) (ro_idempotency_key r) (ro_mode r)
    (ro_requested_count r) (ro_created_count r) (ro_source_delivery_ids r)
    (ro_created_delivery_ids r) (ro_created_at r).

(** [class OrganizationLifecycleOperation]; [kind] is constrained to
    [deletion]. *)
Record OrganizationLifecycleOperation : Type := MkOrganizationLifecycleOperation {
  lo_id : Z;
  lo_public_id : str;
  lo_organization_id : Z;
  lo_requested_by_user_id : option Z;
  lo_status : OperationStatus;
  lo_scheduled_at : datetime;
  lo_created_at : datetime;
  lo_completed_at : option datetime;
  lo_error : option str;
}.
#[export] Instance eta_OrganizationLifecycleOperation : Eta OrganizationLifecycleOperation := fun r =>
  MkOrganizationLifecycleOperation (lo_id r) (lo_public_id r) (lo_organization_id r)
    (lo_requested_by_user_id r) (lo_status r) (lo_scheduled_at r)
    (lo_created_at r) (lo_completed_at r) (lo_error r).

(** [class AdministrativeAuditEvent] *)
Record AdministrativeAuditEvent : Type := MkAdministrativeAuditEvent {
  a_id : Z;
  a_public_id : str;
  a_organization_public_id : str;
  a_project_public_id : option str;
  a_actor_user_id : option Z;
  a_action : str;
  a_resource_type : str;
  a_resource_public_id : option str;
  a_sanitized_metadata : list (str * json);
  a_created_at : datetime;
}.
#[export] Instance eta_AdministrativeAuditEvent : Eta AdministrativeAuditEvent := fun r =>
  MkAdministrativeAuditEvent (a_id r) (a_public_id r) (a_organization_public_id r)
    (a_project_public_id r) (a_actor_user_id r) (a_action r)
    (a_resource_type r) (a_resource_public_id r) (a_sanitized_metadata r)
    (a_created_at r).

(** [class DeliveryAttempt] *)
Record DeliveryAttempt : Type := MkDeliveryAttempt {
  at_id : Z;
  at_delivery_id : Z;
  at_attempt_number : Z;
  at_started_at : datetime;
  at_finished_at : datetime;
  at_outcome : DeliveryStatus;
  at_http_status : option Z;
  at_error : option str;
  at_response_body : option str;
  at_response_purged_at : option datetime;
}.
#[export] Instance eta_DeliveryAttempt : Eta DeliveryAttempt := fun r =>
  MkDeliveryAttempt (at_id r) (at_delivery_id r) (at_attempt_number r) (at_started_at r)
    (at_finished_at r) (at_outcome r) (at_http_status r) (at_error r)
    (at_response_body r) (at_response_purged_at r).

(** [class LoginThrottle] *)
Record LoginThrottle : Type := MkLoginThrottle {
  lt_scope : str;
  lt_failure_count : Z;
  lt_window_started_at : datetime;
  lt_locked_until : option datetime;
  lt_updated_at : datetime;
}.
#[export] Instance eta_LoginThrottle : Eta LoginThrottle := fun r =>
  MkLoginThrottle (lt_scope r) (lt_failure_count r) (lt_window_started_at r)
    (lt_locked_until r) (lt_updated_at r).

(** The database: one field per table of [src/app/models.py]. *)
Record Db : Type := MkDb {
  db_users : table User;
  db_organizations : table Organization;
  db_policies : gmap Z OrganizationPolicy;
  db_members : table OrganizationMember;
  db_projects : table Project;
  db_project_members : table ProjectMember;
  db_api_keys : table ApiKey;
  db_global_state : option GlobalControlState;
  db_tenants : gmap Z TenantQuotaState;
  db_quotas : gmap Z EndpointQuotaState;
  db_endpoints : table WebhookEndpoint;
  db_secret_versions : table EndpointSigningSecretVersion;
  db_events : table Event;
  db_deliveries : table Delivery;
  db_replays : table ReplayOperation;
  db_operations : table OrganizationLifecycleOperation;
  db_audits : table AdministrativeAuditEvent;
  db_attempts : table DeliveryAttempt;
  db_throttles : gmap str LoginThrottle;
}.
#[export] Instance eta_Db : Eta Db := fun r =>
  MkDb (db_users r) (db_organizations r) (db_policies r) (db_members r)
    (db_projects r) (db_project_members r) (db_api_keys r)
    (db_global_state r) (db_tenants r) (db_quotas r) (db_endpoints r)
    (db_secret_versions r) (db_events r) (db_deliveries r) (db_replays r)
    (db_operations r) (db_audits r) (db_attempts r) (db_throttles r).

Definition empty_db : Db :=
  MkDb empty_table empty_table ∅ empty_table empty_table empty_table empty_table
    None ∅ ∅ empty_table empty_table empty_table empty_table empty_table
    empty_table empty_table empty_table ∅.
