(* ===== verification/Session.v ===== *)
(** * Errors and units of work

    The exceptions of [src/app/exceptions.py] (and the built-in ones the
    handlers raise), the HTTP statuses [src/app/exception_handlers.py] maps
    them to, and the monad every handler is written in: a state monad over a
    database session that keeps the last committed database beside the working
    copy, with exceptions.  A request whose handler raises, or returns without
    [commit], leaves the committed database behind, as [get_db] of
    [src/app/db.py] does by closing the session. *)

From Stdlib Require Import QArith.
From stdpp Require Import base tactics list gmap strings numbers option.
From S2P Require Import Prelude Json Models.
Local Open Scope Z_scope.

Inductive identifier : Type := IdStr (s : str) | IdInt (z : Z).

Inductive exn : Type :=
| NotFoundError (resource : string) (id : identifier)
| AlreadyExistsError (resource field : string) (value : str)
| ConflictError (message : string)
| ValidationError (message : string) (field : option string)
| UnauthorizedError (message : string) (auth_scheme : string)
| ForbiddenError (message : string)
| DatabaseError (operation : string)
| QuotaExceededError (quota : string) (retry_after_seconds : Z)
| SaturationError (reason : string)
| RuntimeError (message : string)
| ValueError (message : string)
| KeyError
| TypeError
| AttributeError
| IntegrityError
| OtherException (name : str).

(** [status_map] of [app_exception_handler], with the statuses of the database
    and catch-all handlers. *)
Definition status_code (e : exn) : Z :=
  match e with
  | NotFoundError _ _ => 404
  | AlreadyExistsError _ _ _ => 409
  | ConflictError _ => 409
  | ValidationError _ _ => 400
  | UnauthorizedError _ _ => 401
  | ForbiddenError _ => 403
  | QuotaExceededError _ _ => 429
  | SaturationError _ => 503
  | DatabaseError _ => 500
  | RuntimeError _ | ValueError _ | KeyError | TypeError | AttributeError
  | IntegrityError | OtherException _ => 500
  end.

(** The [headers] [app_exception_handler] attaches. *)
Inductive header : Type :=
| WWW_Authenticate (scheme : string)
| Retry_After (seconds : Z).

Definition error_headers (e : exn) : option header :=
  match e with
  | UnauthorizedError _ scheme => Some (WWW_Authenticate scheme)
  | QuotaExceededError _ retry_after => Some (Retry_After retry_after)
  | _ => None
  end.

(** ** Sessions *)

Record session : Type := Sess { committed : Db; working : Db }.

Definition M (A : Type) : Type := session -> res exn A * session.

#[export] Instance M_ret : MRet M := fun A a s => (Ok a, s).
#[export] Instance M_bind : MBind M := fun A B k m s =>
  match m s with
  | (Ok a, s') => k a s'
  | (Raise e, s') => (Raise e, s')
  end.

Definition raise {A} (e : exn) : M A := fun s => (Raise e, s).
Definition gets {A} (f : Db -> A) : M A := fun s => (Ok (f (working s)), s).
Definition modify (f : Db -> Db) : M unit :=
  fun s => (Ok (), Sess (committed s) (f (working s))).
Definition commit : M unit := fun s => (Ok (), Sess (working s) (working s)).
Definition rollback : M unit := fun s => (Ok (), Sess (committed s) (committed s)).
Definition when (b : bool) (m : M unit) : M unit := if b then m else mret ().
Definition of_option {A} (e : exn) (o : option A) : M A :=
  match o with Some a => mret a | None => raise e end.
Definition of_res {A} (r : res exn A) : M A := fun s => (r, s).

(** [async with session.begin()]: commit on exit, roll back on an exception. *)
Definition begin {A} (m : M A) : M A := fun s =>
  match m s with
  | (Ok a, s') => (Ok a, Sess (working s') (working s'))
  | (Raise e, s') => (Raise e, Sess (committed s') (committed s'))
  end.

(** [try: m; except Exception: h] *)
Definition catch {A} (m : M A) (h : exn -> M A) : M A := fun s =>
  match m s with
  | (Ok a, s') => (Ok a, s')
  | (Raise e, s') => h e s'
  end.

(** A request: a fresh session on the committed database, closed at the end. *)
Definition run {A} (m : M A) (db : Db) : res exn A * Db :=
  let '(r, s) := m (Sess db db) in (r, committed s).

Fixpoint mfor {A} (f : A -> M unit) (l : list A) : M unit :=
  match l with
  | [] => mret ()
  | a :: l' => f a;; mfor f l'
  end.

(** ** Reasoning *)

Lemma M_bind_ok {A B} (m : M A) (k : A -> M B) s b s'' :
  (m ≫= k) s = (Ok b, s'') <->
  exists a s', m s = (Ok a, s') /\ k a s' = (Ok b, s'').
Proof.
  unfold mbind, M_bind. destruct (m s) as [[a|e] s']; naive_solver.
Qed.

(** Running a sequence whose first call returns. *)
Lemma M_bind_run {A B} (m : M A) (k : A -> M B) s a s' :
  m s = (Ok a, s') -> (m ≫= k) s = k a s'.
Proof. unfold mbind, M_bind. by intros ->. Qed.

Lemma M_bind_raise {A B} (m : M A) (k : A -> M B) s e s' :
  m s = (Raise e, s') -> (m ≫= k) s = (Raise e, s').
Proof. unfold mbind, M_bind. by intros ->. Qed.

Lemma when_ok b m s u s' :
  when b m s = (Ok u, s') <->
  (b = true /\ m s = (Ok u, s')) \/ (b = false /\ s' = s /\ u = ()).
Proof.
  destruct b, u; cbn; unfold mret, M_ret; split.
  - auto.
  - by intros [[_ ?]|[? _]].
  - intros [=->]. auto.
  - intros [[? _]|(_ & -> & _)]; done.
Qed.

Lemma when_raise_ok b (e : exn) s u s' :
  when b (raise e) s = (Ok u, s') <-> b = false /\ s' = s /\ u = ().
Proof. rewrite when_ok. unfold raise. naive_solver. Qed.

Lemma of_option_ok {A} (e : exn) (o : option A) s a s' :
  of_option e o s = (Ok a, s') <-> o = Some a /\ s' = s.
Proof. destruct o; cbn; unfold raise, mret, M_ret; naive_solver. Qed.

Lemma gets_ok {A} (f : Db -> A) s a s' :
  gets f s = (Ok a, s') <-> a = f (working s) /\ s' = s.
Proof. unfold gets. naive_solver. Qed.

Lemma modify_ok f s u s' :
  modify f s = (Ok u, s') <-> s' = Sess (committed s) (f (working s)).
Proof. destruct u. unfold modify. naive_solver. Qed.

Lemma commit_ok s u s' :
  commit s = (Ok u, s') <-> s' = Sess (working s) (working s).
Proof. destruct u. unfold commit. naive_solver. Qed.

Lemma mret_ok {A} (a b : A) s s' :
  (mret a : M A) s = (Ok b, s') <-> b = a /\ s' = s.
Proof. unfold mret, M_ret. naive_solver. Qed.

Lemma of_res_ok {A} (r : res exn A) s a s' :
  of_res r s = (Ok a, s') <-> r = Ok a /\ s' = s.
Proof. unfold of_res. naive_solver. Qed.

(** [m_inv] decomposes a hypothesis that a handler returned into the facts of
    its calls. *)
Ltac m_inv1 :=
  match goal with
  | H : (_ ≫= _) _ = (Ok _, _) |- _ =>
      apply M_bind_ok in H; destruct H as (? & ? & ? & ?)
  | H : when _ (raise _) _ = (Ok _, _) |- _ =>
      apply when_raise_ok in H; destruct H as (? & -> & ->)
  | H : of_option _ _ _ = (Ok _, _) |- _ =>
      apply of_option_ok in H; destruct H as (? & ->)
  | H : gets _ _ = (Ok _, _) |- _ =>
      apply gets_ok in H; destruct H as (-> & ->)
  | H : modify _ _ = (Ok _, _) |- _ => apply modify_ok in H; subst
  | H : commit _ = (Ok _, _) |- _ => apply commit_ok in H; subst
  | H : (mret _ : M _) _ = (Ok _, _) |- _ =>
      apply mret_ok in H; destruct H as (-> & ->)
  | H : of_res _ _ = (Ok _, _) |- _ =>
      apply of_res_ok in H; destruct H as (? & ->)
  | H : raise _ _ = (Ok _, _) |- _ => discriminate H
  end.
Ltac m_inv := repeat m_inv1; cbn [committed working] in *.

(** [m_next H] does the same, keeping the name [H] for the rest of the run. *)
Ltac m_next H :=
  match type of H with
  | _ = ?r =>
      m_inv; match goal with H' : _ = r |- _ => rename H' into H end
  end.

(** [m_run] runs the next call of a goal about [(m ≫= k) s], when it evaluates. *)
Ltac m_run :=
  erewrite M_bind_run; [| reflexivity]; cbn beta; cbn [committed working]; upd_simpl.

Lemma run_ok {A} (m : M A) db a db' :
  run m db = (Ok a, db') <->
  exists s, m (Sess db db) = (Ok a, s) /\ db' = committed s.
Proof.
  unfold run. destruct (m (Sess db db)) as [[b|e] s]; naive_solver.
Qed.

(** ** Atomicity

    [quiet R m]: whatever [m] answers, the committed database only moved by
    [R] (equality, or what competing transactions committed meanwhile).
    [atomic R m]: the same whenever [m] raises.  A handler is atomic when
    nothing that can raise follows its commit. *)

Section Atomicity.
Context (R : relation Db) `{!PreOrder R}.

Definition quiet {A} (m : M A) : Prop := forall s, R (committed s) (committed (m s).2).
Definition atomic {A} (m : M A) : Prop :=
  forall s e s', m s = (Raise e, s') -> R (committed s) (committed s').

Lemma quiet_atomic {A} (m : M A) : quiet m -> atomic m.
Proof. intros Hq s e s' Hm. specialize (Hq s). by rewrite Hm in Hq. Qed.

Lemma quiet_bind {A B} (m : M A) (k : A -> M B) :
  quiet m -> (forall a, quiet (k a)) -> quiet (m ≫= k).
Proof.
  intros Hm Hk s. specialize (Hm s). unfold mbind, M_bind.
  destruct (m s) as [[a|e] s']; cbn in *; [| done]. etrans; [exact Hm | apply Hk].
Qed.

Lemma atomic_bind {A B} (m : M A) (k : A -> M B) :
  quiet m -> (forall a, atomic (k a)) -> atomic (m ≫= k).
Proof.
  intros Hm Hk s e s'. specialize (Hm s). unfold mbind, M_bind.
  destruct (m s) as [[a|e'] s1]; cbn in *; [| by intros [= _ ->]].
  intros Hr. etrans; [exact Hm | by eapply Hk].
Qed.

Lemma quiet_ret {A} (a : A) : quiet (mret a).
Proof. by intros s. Qed.
Lemma quiet_raise {A} e : quiet (raise (A := A) e).
Proof. by intros s. Qed.
Lemma quiet_gets {A} (f : Db -> A) : quiet (gets f).
Proof. by intros s. Qed.
Lemma quiet_modify f : quiet (modify f).
Proof. by intros s. Qed.
Lemma quiet_rollback : quiet rollback.
Proof. by intros s. Qed.
Lemma quiet_of_option {A} e (o : option A) : quiet (of_option e o).
Proof. destruct o; by intros s. Qed.
Lemma quiet_of_res {A} (r : res exn A) : quiet (of_res r).
Proof. by intros s. Qed.
Lemma quiet_when b m : quiet m -> quiet (when b m).
Proof. destruct b; [done | intros _; apply quiet_ret]. Qed.
Lemma quiet_mfor {A} (f : A -> M unit) l : (forall a, quiet (f a)) -> quiet (mfor f l).
Proof. intros Hf. induction l; [apply quiet_ret | by apply quiet_bind]. Qed.

Lemma atomic_commit {A} (a : A) : atomic (commit;; mret a).
Proof. done. Qed.
Lemma atomic_just_commit : atomic commit.
Proof. done. Qed.
Lemma atomic_begin {A} (m : M A) : quiet m -> atomic (begin m).
Proof.
  intros Hm s e s'. specialize (Hm s). unfold begin.
  destruct (m s) as [[a|e'] s1]; cbn in *; [done | by intros [= _ <-]].
Qed.
Lemma atomic_then_ret {A B} (m : M A) (f : A -> B) : atomic m -> atomic (m ≫= fun a => mret (f a)).
Proof.
  intros Hm s e s'. unfold mbind, M_bind. destruct (m s) as [[a|e'] s1] eqn:E; [done |].
  intros [= _ <-]. by apply Hm in E.
Qed.
Lemma atomic_when b m : atomic m -> atomic (when b m).
Proof. destruct b; [done | intros _ ? ? ? [=]]. Qed.

(** A request that fails leaves the database as it was. *)
Lemma atomic_run {A} (m : M A) db e db' :
  atomic m -> run m db = (Raise e, db') -> R db db'.
Proof.
  intros Ha. unfold run. destruct (m (Sess db db)) as [r s'] eqn:E.
  intros [= -> <-]. by apply Ha in E.
Qed.

Lemma quiet_run {A} (m : M A) db r db' : quiet m -> run m db = (r, db') -> R db db'.
Proof.
  intros Hq. specialize (Hq (Sess db db)). unfold run.
  destruct (m (Sess db db)) as [r0 s']. by intros [= _ <-].
Qed.
End Atomicity.

Create HintDb quiet.
#[export] Hint Resolve quiet_ret quiet_raise quiet_gets quiet_modify quiet_rollback
  quiet_of_option quiet_of_res quiet_when quiet_mfor atomic_commit atomic_just_commit : quiet.

(** [quietly] walks a handler's body down to calls known to be quiet and its
    final commit. *)
Ltac quietly :=
  repeat first
    [ progress intros
    | solve [auto with quiet typeclass_instances]
    | apply quiet_bind; [apply _ | |]
    | apply quiet_when; [apply _ |]
    | apply quiet_mfor; [apply _ |]
    | apply atomic_commit
    | apply atomic_when
    | lazymatch goal with |- atomic _ (_ ≫= fun _ => mret _) => apply atomic_then_ret end
    | apply atomic_bind; [apply _ | |]
    | match goal with
      | |- quiet _ (match ?x with _ => _ end) => destruct x
      | |- atomic _ (match ?x with _ => _ end) => destruct x
      | |- quiet _ ((match ?x with _ => _ end) _) => destruct x
      | |- atomic _ ((match ?x with _ => _ end) _) => destruct x
      end
    | apply quiet_atomic ].
