(* ===== verification/Settings.v ===== *)
(** * Configuration

    [Settings] of [src/app/config.py]: every field, the range each [Field]
    declares, and the cross-field validator [validate_deployment_settings]
    that runs before the application or the worker starts. *)

From Stdlib Require Import QArith Lqa.
From stdpp Require Import base tactics list gmap strings numbers option.
From S2P Require Import Prelude Json Models Session.
Local Open Scope Z_scope.

Inductive Environment : Type := Development | TestEnv | Staging | Production.
#[export] Instance Environment_eq_dec : EqDecision Environment.
Proof. solve_decision. Defined.

(** [class Settings] *)
Record Settings : Type := MkSettings {
  app_name : str;
  app_version : str;
  environment : Environment;
  debug : bool;
  docs_enabled : bool;
  portal_enabled : bool;
  example_items_enabled : bool;
  database_url : str;
  auto_create_schema : bool;
  database_health_timeout_seconds : Q;
  api_db_pool_size : Z;
  api_db_max_overflow : Z;
  api_db_pool_timeout_seconds : Q;
  worker_db_pool_size : Z;
  worker_db_max_overflow : Z;
  worker_db_pool_timeout_seconds : Q;
  api_replica_count : Z;
  worker_replica_count : Z;
  database_connection_budget : Z;
  secret_key : str;
  api_key_pepper : str;
  webhook_signing_key : str;
  access_token_expire_minutes : Z;
  allow_http_webhooks : option bool;
  allow_private_webhooks : bool;
  allowed_hosts : list str;
  cors_origins : list str;
  registration_enabled : bool;
  rate_limit_requests : Z;
  rate_limit_window_seconds : Z;
  rate_limit_max_entries : Z;
  login_throttle_max_failures : Z;
  login_throttle_window_seconds : Z;
  login_throttle_lockout_seconds : Z;
  worker_poll_seconds : Q;
  worker_batch_size : Z;
  worker_concurrency : Z;
  worker_global_concurrency : Z;
  worker_egress_connection_budget : Z;
  worker_candidate_scan_limit : Z;
  worker_lease_seconds : Z;
  worker_heartbeat_seconds : Q;
  worker_attempt_timeout_seconds : Q;
  worker_finalization_margin_seconds : Q;
  worker_shutdown_grace_seconds : Q;
  worker_egress_proxy_url : option str;
  http_connect_timeout_seconds : Q;
  http_read_timeout_seconds : Q;
  http_write_timeout_seconds : Q;
  http_pool_timeout_seconds : Q;
  webhook_payload_max_bytes : Z;
  tenant_event_rate_per_second : Q;
  tenant_event_burst : Z;
  tenant_delivery_rate_per_second : Q;
  tenant_delivery_burst : Z;
  tenant_replay_rate_per_second : Q;
  tenant_replay_burst : Z;
  tenant_endpoints_per_project : Z;
  tenant_fanout_per_event : Z;
  tenant_in_flight_deliveries : Z;
  tenant_retained_bytes : Z;
  endpoint_concurrency : Z;
  endpoint_rate_per_second : Q;
  endpoint_rate_burst : Z;
  global_max_backlog : Z;
  global_oldest_due_admission_seconds : Q;
  quota_retry_after_max_seconds : Z;
  webhook_response_max_bytes : Z;
  idempotency_key_max_length : Z;
  webhook_max_attempts : Z;
  webhook_backoff_base_seconds : Q;
  webhook_backoff_cap_seconds : Q;
  webhook_retry_after_max_seconds : Z;
  webhook_max_delivery_age_seconds : Z;
  endpoint_retry_rate_per_second : Q;
  endpoint_retry_burst : Z;
  endpoint_retry_success_refill : Z;
  endpoint_circuit_failure_threshold : Z;
  endpoint_circuit_open_seconds : Z;
  bulk_replay_max_deliveries : Z;
  delivery_retention_days : Z;
  delivery_purge_batch_size : Z;
  api_key_default_ttl_days : Z;
  api_key_rotation_overlap_seconds : Z;
  endpoint_secret_overlap_seconds : Z;
  organization_deletion_grace_hours : Z;
  lifecycle_cleanup_interval_seconds : Q;
  lifecycle_cleanup_batch_size : Z;
  default_payload_retention_days : Z;
  default_response_retention_days : Z;
  api_key_usage_flush_seconds : Q;
  api_key_usage_max_entries : Z;
  observability_enabled : bool;
  metrics_path : str;
  worker_metrics_host : str;
  worker_metrics_port : Z;
  observability_collection_seconds : Q;
  tracing_enabled : bool;
  otel_service_name : str;
  otel_exporter_otlp_endpoint : option str;
  otel_exporter_otlp_insecure : bool;
  trace_sample_ratio : Q;
  autoscaling_min_worker_replicas : Z;
  autoscaling_max_worker_replicas : Z;
  nat_connection_budget : Z;
}.

#[export] Instance eta_Settings : Eta Settings := fun s =>
  MkSettings
    (app_name s) (app_version s) (environment s) (debug s) (docs_enabled s)
    (portal_enabled s) (example_items_enabled s) (database_url s)
    (auto_create_schema s) (database_health_timeout_seconds s)
    (api_db_pool_size s) (api_db_max_overflow s)
    (api_db_pool_timeout_seconds s) (worker_db_pool_size s)
    (worker_db_max_overflow s) (worker_db_pool_timeout_seconds s)
    (api_replica_count s) (worker_replica_count s)
    (database_connection_budget s) (secret_key s) (api_key_pepper s)
    (webhook_signing_key s) (access_token_expire_minutes s)
    (allow_http_webhooks s) (allow_private_webhooks s) (allowed_hosts s)
    (cors_origins s) (registration_enabled s) (rate_limit_requests s)
    (rate_limit_window_seconds s) (rate_limit_max_entries s)
    (login_throttle_max_failures s) (login_throttle_window_seconds s)
    (login_throttle_lockout_seconds s) (worker_poll_seconds s)
    (worker_batch_size s) (worker_concurrency s) (worker_global_concurrency s)
    (worker_egress_connection_budget s) (worker_candidate_scan_limit s)
    (worker_lease_seconds s) (worker_heartbeat_seconds s)
    (worker_attempt_timeout_seconds s) (worker_finalization_margin_seconds s)
    (worker_shutdown_grace_seconds s) (worker_egress_proxy_url s)
    (http_connect_timeout_seconds s) (http_read_timeout_seconds s)
    (http_write_timeout_seconds s) (http_pool_timeout_seconds s)
    (webhook_payload_max_bytes s) (tenant_event_rate_per_second s)
    (tenant_event_burst s) (tenant_delivery_rate_per_second s)
    (tenant_delivery_burst s) (tenant_replay_rate_per_second s)
    (tenant_replay_burst s) (tenant_endpoints_per_project s)
    (tenant_fanout_per_event s) (tenant_in_flight_deliveries s)
    (tenant_retained_bytes s) (endpoint_concurrency s)
    (endpoint_rate_per_second s) (endpoint_rate_burst s) (global_max_backlog s)
    (global_oldest_due_admission_seconds s) (quota_retry_after_max_seconds s)
    (webhook_response_max_bytes s) (idempotency_key_max_length s)
    (webhook_max_attempts s) (webhook_backoff_base_seconds s)
    (webhook_backoff_cap_seconds s) (webhook_retry_after_max_seconds s)
    (webhook_max_delivery_age_seconds s) (endpoint_retry_rate_per_second s)
    (endpoint_retry_burst s) (endpoint_retry_success_refill s)
    (endpoint_circuit_failure_threshold s) (endpoint_circuit_open_seconds s)
    (bulk_replay_max_deliveries s) (delivery_retention_days s)
    (delivery_purge_batch_size s) (api_key_default_ttl_days s)
    (api_key_rotation_overlap_seconds s) (endpoint_secret_overlap_seconds s)
    (organization_deletion_grace_hours s)
    (lifecycle_cleanup_interval_seconds s) (lifecycle_cleanup_batch_size s)
    (default_payload_retention_days s) (default_response_retention_days s)
    (api_key_usage_flush_seconds s) (api_key_usage_max_entries s)
    (observability_enabled s) (metrics_path s) (worker_metrics_host s)
    (worker_metrics_port s) (observability_collection_seconds s)
    (tracing_enabled s) (otel_service_name s) (otel_exporter_otlp_endpoint s)
    (otel_exporter_otlp_insecure s) (trace_sample_ratio s)
    (autoscaling_min_worker_replicas s) (autoscaling_max_worker_replicas s)
    (nat_connection_budget s).

(** The declared defaults. *)
Definition default_settings : Settings := {|
  app_name := py "FastAPI Webhook Platform";
  app_version := py "4.0.0";
  environment := Development;
  debug := false;
  docs_enabled := true;
  portal_enabled := true;
  example_items_enabled := false;
  database_url := py "sqlite+aiosqlite:///./app.db";
  auto_create_schema := true;
  database_health_timeout_seconds := 3%Q;
  api_db_pool_size := 5;
  api_db_max_overflow := 5;
  api_db_pool_timeout_seconds := 5%Q;
  worker_db_pool_size := 5;
  worker_db_max_overflow := 5;
  worker_db_pool_timeout_seconds := 5%Q;
  api_replica_count := 1;
  worker_replica_count := 1;
  database_connection_budget := 20;
  secret_key := py "";
  api_key_pepper := py "";
  webhook_signing_key := py "";
  access_token_expire_minutes := 30;
  allow_http_webhooks := None;
  allow_private_webhooks := false;
  allowed_hosts := [py "localhost"; py "127.0.0.1"; py "test"; py "testserver"];
  cors_origins := [];
  registration_enabled := true;
  rate_limit_requests := 20;
  rate_limit_window_seconds := 60;
  rate_limit_max_entries := 10000;
  login_throttle_max_failures := 10;
  login_throttle_window_seconds := 900;
  login_throttle_lockout_seconds := 300;
  worker_poll_seconds := 1%Q;
  worker_batch_size := 50;
  worker_concurrency := 10;
  worker_global_concurrency := 10;
  worker_egress_connection_budget := 10;
  worker_candidate_scan_limit := 5000;
  worker_lease_seconds := 60;
  worker_heartbeat_seconds := 10%Q;
  worker_attempt_timeout_seconds := 30%Q;
  worker_finalization_margin_seconds := 5%Q;
  worker_shutdown_grace_seconds := 45%Q;
  worker_egress_proxy_url := None;
  http_connect_timeout_seconds := 5%Q;
  http_read_timeout_seconds := 10%Q;
  http_write_timeout_seconds := 10%Q;
  http_pool_timeout_seconds := 5%Q;
  webhook_payload_max_bytes := 262144;
  tenant_event_rate_per_second := 100%Q;
  tenant_event_burst := 200;
  tenant_delivery_rate_per_second := 500%Q;
  tenant_delivery_burst := 1000;
  tenant_replay_rate_per_second := 10%Q;
  tenant_replay_burst := 20;
  tenant_endpoints_per_project := 100;
  tenant_fanout_per_event := 100;
  tenant_in_flight_deliveries := 10;
  tenant_retained_bytes := 1073741824;
  endpoint_concurrency := 10;
  endpoint_rate_per_second := 50%Q;
  endpoint_rate_burst := 100;
  global_max_backlog := 100000;
  global_oldest_due_admission_seconds := 300%Q;
  quota_retry_after_max_seconds := 60;
  webhook_response_max_bytes := 16384;
  idempotency_key_max_length := 255;
  webhook_max_attempts := 8;
  webhook_backoff_base_seconds := 1%Q;
  webhook_backoff_cap_seconds := 3600%Q;
  webhook_retry_after_max_seconds := 3600;
  webhook_max_delivery_age_seconds := 86400;
  endpoint_retry_rate_per_second := (3602879701896397 # 36028797018963968)%Q;
  endpoint_retry_burst := 10;
  endpoint_retry_success_refill := 1;
  endpoint_circuit_failure_threshold := 5;
  endpoint_circuit_open_seconds := 60;
  bulk_replay_max_deliveries := 100;
  delivery_retention_days := 30;
  delivery_purge_batch_size := 500;
  api_key_default_ttl_days := 90;
  api_key_rotation_overlap_seconds := 300;
  endpoint_secret_overlap_seconds := 86405;
  organization_deletion_grace_hours := 72;
  lifecycle_cleanup_interval_seconds := 60%Q;
  lifecycle_cleanup_batch_size := 100;
  default_payload_retention_days := 30;
  default_response_retention_days := 30;
  api_key_usage_flush_seconds := 30%Q;
  api_key_usage_max_entries := 10000;
  observability_enabled := true;
  metrics_path := py "/metrics";
  worker_metrics_host := py "127.0.0.1";
  worker_metrics_port := 9100;
  observability_collection_seconds := 15%Q;
  tracing_enabled := true;
  otel_service_name := py "webhook-platform";
  otel_exporter_otlp_endpoint := None;
  otel_exporter_otlp_insecure := false;
  trace_sample_ratio := (3602879701896397 # 36028797018963968)%Q;
  autoscaling_min_worker_replicas := 1;
  autoscaling_max_worker_replicas := 1;
  nat_connection_budget := 10;
|}.

(** The [ge], [gt] and [le] bounds of the [Field] declarations. *)
Definition fields_ok (s : Settings) : bool :=
  forallb id [
    qlt 0 (database_health_timeout_seconds s);
    Qle_bool (database_health_timeout_seconds s) 30;
    (1 <=? api_db_pool_size s);
    (api_db_pool_size s <=? 100);
    (0 <=? api_db_max_overflow s);
    (api_db_max_overflow s <=? 100);
    qlt 0 (api_db_pool_timeout_seconds s);
    Qle_bool (api_db_pool_timeout_seconds s) 60;
    (1 <=? worker_db_pool_size s);
    (worker_db_pool_size s <=? 100);
    (0 <=? worker_db_max_overflow s);
    (worker_db_max_overflow s <=? 100);
    qlt 0 (worker_db_pool_timeout_seconds s);
    Qle_bool (worker_db_pool_timeout_seconds s) 60;
    (1 <=? api_replica_count s);
    (api_replica_count s <=? 100);
    (1 <=? worker_replica_count s);
    (worker_replica_count s <=? 100);
    (2 <=? database_connection_budget s);
    (database_connection_budget s <=? 10000);
    (1 <=? access_token_expire_minutes s);
    (access_token_expire_minutes s <=? 1440);
    (1 <=? rate_limit_requests s);
    (rate_limit_requests s <=? 10000);
    (1 <=? rate_limit_window_seconds s);
    (rate_limit_window_seconds s <=? 86400);
    (100 <=? rate_limit_max_entries s);
    (rate_limit_max_entries s <=? 1000000);
    (1 <=? login_throttle_max_failures s);
    (login_throttle_max_failures s <=? 1000);
    (60 <=? login_throttle_window_seconds s);
    (login_throttle_window_seconds s <=? 86400);
    (1 <=? login_throttle_lockout_seconds s);
    (login_throttle_lockout_seconds s <=? 86400);
    Qle_bool (3602879701896397 # 72057594037927936) (worker_poll_seconds s);
    Qle_bool (worker_poll_seconds s) 60;
    (1 <=? worker_batch_size s);
    (worker_batch_size s <=? 500);
    (1 <=? worker_concurrency s);
    (worker_concurrency s <=? 100);
    (1 <=? worker_global_concurrency s);
    (worker_global_concurrency s <=? 10000);
    (1 <=? worker_egress_connection_budget s);
    (worker_egress_connection_budget s <=? 10000);
    (100 <=? worker_candidate_scan_limit s);
    (worker_candidate_scan_limit s <=? 50000);
    (5 <=? worker_lease_seconds s);
    (worker_lease_seconds s <=? 3600);
    qlt 0 (worker_heartbeat_seconds s);
    Qle_bool (worker_heartbeat_seconds s) 600;
    qlt 0 (worker_attempt_timeout_seconds s);
    Qle_bool (worker_attempt_timeout_seconds s) 600;
    qlt 0 (worker_finalization_margin_seconds s);
    Qle_bool (worker_finalization_margin_seconds s) 60;
    qlt 0 (worker_shutdown_grace_seconds s);
    Qle_bool (worker_shutdown_grace_seconds s) 600;
    qlt 0 (http_connect_timeout_seconds s);
    Qle_bool (http_connect_timeout_seconds s) 60;
    qlt 0 (http_read_timeout_seconds s);
    Qle_bool (http_read_timeout_seconds s) 120;
    qlt 0 (http_write_timeout_seconds s);
    Qle_bool (http_write_timeout_seconds s) 120;
    qlt 0 (http_pool_timeout_seconds s);
    Qle_bool (http_pool_timeout_seconds s) 60;
    (1 <=? webhook_payload_max_bytes s);
    (webhook_payload_max_bytes s <=? 10485760);
    qlt 0 (tenant_event_rate_per_second s);
    Qle_bool (tenant_event_rate_per_second s) 100000;
    (1 <=? tenant_event_burst s);
    (tenant_event_burst s <=? 1000000);
    qlt 0 (tenant_delivery_rate_per_second s);
    Qle_bool (tenant_delivery_rate_per_second s) 1000000;
    (1 <=? tenant_delivery_burst s);
    (tenant_delivery_burst s <=? 10000000);
    qlt 0 (tenant_replay_rate_per_second s);
    Qle_bool (tenant_replay_rate_per_second s) 10000;
    (1 <=? tenant_replay_burst s);
    (tenant_replay_burst s <=? 100000);
    (1 <=? tenant_endpoints_per_project s);
    (tenant_endpoints_per_project s <=? 100000);
    (1 <=? tenant_fanout_per_event s);
    (tenant_fanout_per_event s <=? 100000);
    (1 <=? tenant_in_flight_deliveries s);
    (tenant_in_flight_deliveries s <=? 100000);
    (1024 <=? tenant_retained_bytes s);
    (tenant_retained_bytes s <=? 1099511627776);
    (1 <=? endpoint_concurrency s);
    (endpoint_concurrency s <=? 10000);
    qlt 0 (endpoint_rate_per_second s);
    Qle_bool (endpoint_rate_per_second s) 100000;
    (1 <=? endpoint_rate_burst s);
    (endpoint_rate_burst s <=? 1000000);
    (1 <=? global_max_backlog s);
    (global_max_backlog s <=? 100000000);
    qlt 0 (global_oldest_due_admission_seconds s);
    Qle_bool (global_oldest_due_admission_seconds s) 86400;
    (1 <=? quota_retry_after_max_seconds s);
    (quota_retry_after_max_seconds s <=? 3600);
    (0 <=? webhook_response_max_bytes s);
    (webhook_response_max_bytes s <=? 1048576);
    (8 <=? idempotency_key_max_length s);
    (idempotency_key_max_length s <=? 1024);
    (1 <=? webhook_max_attempts s);
    (webhook_max_attempts s <=? 50);
    qlt 0 (webhook_backoff_base_seconds s);
    Qle_bool (webhook_backoff_base_seconds s) 3600;
    qlt 0 (webhook_backoff_cap_seconds s);
    Qle_bool (webhook_backoff_cap_seconds s) 86400;
    (1 <=? webhook_retry_after_max_seconds s);
    (webhook_retry_after_max_seconds s <=? 86400);
    (60 <=? webhook_max_delivery_age_seconds s);
    (webhook_max_delivery_age_seconds s <=? 2592000);
    qlt 0 (endpoint_retry_rate_per_second s);
    Qle_bool (endpoint_retry_rate_per_second s) 10000;
    (1 <=? endpoint_retry_burst s);
    (endpoint_retry_burst s <=? 100000);
    (1 <=? endpoint_retry_success_refill s);
    (endpoint_retry_success_refill s <=? 100000);
    (1 <=? endpoint_circuit_failure_threshold s);
    (endpoint_circuit_failure_threshold s <=? 10000);
    (1 <=? endpoint_circuit_open_seconds s);
    (endpoint_circuit_open_seconds s <=? 86400);
    (1 <=? bulk_replay_max_deliveries s);
    (bulk_replay_max_deliveries s <=? 1000);
    (1 <=? delivery_retention_days s);
    (delivery_retention_days s <=? 3650);
    (1 <=? delivery_purge_batch_size s);
    (delivery_purge_batch_size s <=? 10000);
    (1 <=? api_key_default_ttl_days s);
    (api_key_default_ttl_days s <=? 3650);
    (1 <=? api_key_rotation_overlap_seconds s);
    (api_key_rotation_overlap_seconds s <=? 86400);
    (1 <=? endpoint_secret_overlap_seconds s);
    (endpoint_secret_overlap_seconds s <=? 2592060);
    (1 <=? organization_deletion_grace_hours s);
    (organization_deletion_grace_hours s <=? 8760);
    qlt 0 (lifecycle_cleanup_interval_seconds s);
    Qle_bool (lifecycle_cleanup_interval_seconds s) 86400;
    (1 <=? lifecycle_cleanup_batch_size s);
    (lifecycle_cleanup_batch_size s <=? 10000);
    (1 <=? default_payload_retention_days s);
    (default_payload_retention_days s <=? 3650);
    (1 <=? default_response_retention_days s);
    (default_response_retention_days s <=? 3650);
    qlt 0 (api_key_usage_flush_seconds s);
    Qle_bool (api_key_usage_flush_seconds s) 600;
    (100 <=? api_key_usage_max_entries s);
    (api_key_usage_max_entries s <=? 1000000);
    (1 <=? worker_metrics_port s);
    (worker_metrics_port s <=? 65535);
    Qle_bool 1 (observability_collection_seconds s);
    Qle_bool (observability_collection_seconds s) 300;
    Qle_bool 0 (trace_sample_ratio s);
    Qle_bool (trace_sample_ratio s) 1;
    (1 <=? autoscaling_min_worker_replicas s);
    (autoscaling_min_worker_replicas s <=? 1000);
    (1 <=? autoscaling_max_worker_replicas s);
    (autoscaling_max_worker_replicas s <=? 1000);
    (1 <=? nat_connection_budget s);
    (nat_connection_budget s <=? 1000000)
  ].

(** [urllib.parse.urlsplit] is a library call: [SplitResult] holds what the
    source reads of its result, [None] being its [ValueError]. *)
Record SplitResult : Type := MkSplit {
  scheme : str;
  hostname : option str;
  port : option Z;
  username : option str;
  password : option str;
  path : str;
  query : str;
  fragment : str;
}.

(** Python truth of a [str | None]. *)
Definition truthy (o : option str) : bool :=
  match o with Some (_ :: _) => true | _ => false end.
Definition nonempty {A} (s : list A) : bool := match s with [] => false | _ => true end.

(** [str.lower] on ASCII letters; other code points are left alone, which
    decides the comparisons with ASCII literals below in the same way. *)
Definition lower (s : str) : str :=
  map (fun c => if (65 <=? c) && (c <=? 90) then c + 32 else c) s.

(** [str.rstrip] of one character *)
Definition rstrip (c : Z) (s : str) : str :=
  reverse ((fix go l := match l with x :: l' => if x =? c then go l' else l | [] => [] end)
    (reverse s)).

Definition str_eqb (a b : str) : bool := bool_decide (a = b).

Lemma str_eqb_eq a b : str_eqb a b = true <-> a = b.
Proof. apply bool_decide_eq_true. Qed.
Lemma str_eqb_refl a : str_eqb a a = true.
Proof. by apply str_eqb_eq. Qed.

Section Validate.
Context `{Rounding} (urlsplit : str -> option SplitResult).

Definition check (bad : bool) (message : string) : res exn unit :=
  if bad then Raise (ValueError message) else Ok ().

Definition deployed (s : Settings) : bool :=
  bool_decide (environment s = Staging) || bool_decide (environment s = Production).
Definition development (s : Settings) : bool :=
  bool_decide (environment s = Development).

(** One turn of the secret loop: the value to keep for the field, given what
    [secrets.token_urlsafe(32)] would generate. *)
Definition check_secret (dep : bool) (value generated : str) : res exn str :=
  match value with
  | [] => if dep then Raise (ValueError "is required when deployed") else Ok generated
  | _ => if len value <? 32 then Raise (ValueError "must be at least 32 characters")
         else Ok value
  end.

Definition proxy_url_ok (url : str) : res exn unit :=
  match urlsplit url with
  | None => Raise (ValueError "WORKER_EGRESS_PROXY_URL is invalid")
  | Some p =>
      check (negb (str_eqb (lower (scheme p)) (py "http"))
             || negb (truthy (hostname p))
             || truthy (username p)
             || truthy (password p)
             || nonempty (query p)
             || nonempty (fragment p)
             || negb (str_eqb (path p) [] || str_eqb (path p) (py "/"))
             || bool_decide (port p = None)
             || str_eqb (lower (rstrip 46 (default [] (hostname p)))) (py "localhost"))
        "WORKER_EGRESS_PROXY_URL must be a credential-free internal http://host:port URL without a path, query, or fragment"
  end.

Definition otlp_url_ok (s : Settings) (url : str) : res exn unit :=
  match urlsplit url with
  | None => Raise (ValueError "Invalid URL")
  | Some o =>
      check (negb (str_eqb (scheme o) (py "http") || str_eqb (scheme o) (py "https"))
             || negb (truthy (hostname o))
             || truthy (username o)
             || truthy (password o)
             || nonempty (query o)
             || nonempty (fragment o))
        "OTEL_EXPORTER_OTLP_ENDPOINT must be a credential-free HTTP(S) base URL without query or fragment";;
      check (str_eqb (scheme o) (py "http") && deployed s)
        "Deployed OTLP endpoints must use TLS";;
      check (str_eqb (scheme o) (py "http") && negb (otel_exporter_otlp_insecure s))
        "Set OTEL_EXPORTER_OTLP_INSECURE only for local HTTP"
  end.

Definition api_connections (s : Settings) : Z :=
  api_replica_count s * (api_db_pool_size s + api_db_max_overflow s).
Definition worker_pool (s : Settings) : Z :=
  worker_db_pool_size s + worker_db_max_overflow s.

(** The resource checks: pools, worker slots, egress and NAT budgets. *)
Definition check_budgets (s : Settings) : res exn unit :=
  check (database_connection_budget s <?
           api_connections s + worker_replica_count s * worker_pool s)
    "Replica database pools exceed DATABASE_CONNECTION_BUDGET";;
  check (worker_replica_count s * worker_concurrency s <? worker_global_concurrency s)
    "WORKER_GLOBAL_CONCURRENCY exceeds configured worker slots";;
  check (worker_egress_connection_budget s <? worker_global_concurrency s)
    "WORKER_GLOBAL_CONCURRENCY exceeds the egress budget";;
  check (negb (startswith (metrics_path s) (py "/")) || bool_decide (123 ∈ metrics_path s))
    "METRICS_PATH must be a fixed absolute path";;
  check (autoscaling_max_worker_replicas s <? autoscaling_min_worker_replicas s)
    "AUTOSCALING_MIN_WORKER_REPLICAS exceeds maximum";;
  let remaining := database_connection_budget s - api_connections s in
  let safe := Z.min (Z.min (Z.max 0 remaining / worker_pool s)
                           (worker_egress_connection_budget s / worker_concurrency s))
                    (nat_connection_budget s / worker_concurrency s) in
  check (Z.max 1 safe <? autoscaling_max_worker_replicas s)
    "AUTOSCALING_MAX_WORKER_REPLICAS exceeds a resource budget".

(** The concurrency, fan-out, retention, lease and shutdown relations. *)
Definition check_limits (s : Settings) : res exn unit :=
  check (worker_global_concurrency s <? tenant_in_flight_deliveries s)
    "TENANT_IN_FLIGHT_DELIVERIES exceeds global concurrency";;
  check (tenant_in_flight_deliveries s <? endpoint_concurrency s)
    "ENDPOINT_CONCURRENCY exceeds tenant in-flight limit";;
  check (tenant_endpoints_per_project s <? tenant_fanout_per_event s)
    "TENANT_FANOUT_PER_EVENT exceeds endpoint limit";;
  check (tenant_delivery_burst s <? tenant_fanout_per_event s)
    "TENANT_FANOUT_PER_EVENT exceeds delivery burst";;
  check (tenant_retained_bytes s <=? webhook_payload_max_bytes s)
    "TENANT_RETAINED_BYTES must exceed the payload limit";;
  check (Qle_bool (inject_Z (worker_lease_seconds s))
           (fadd (fadd (worker_attempt_timeout_seconds s) (worker_heartbeat_seconds s))
              (worker_finalization_margin_seconds s)))
    "WORKER_LEASE_SECONDS must exceed the attempt deadline, heartbeat delay, and finalization margin";;
  check (qlt (worker_shutdown_grace_seconds s)
           (fadd (worker_attempt_timeout_seconds s) (worker_finalization_margin_seconds s)))
    "WORKER_SHUTDOWN_GRACE_SECONDS must cover the attempt deadline and finalization margin".

Definition check_retry (s : Settings) : res exn unit :=
  check (qlt (webhook_backoff_cap_seconds s) (webhook_backoff_base_seconds s))
    "WEBHOOK_BACKOFF_CAP_SECONDS must be at least the base";;
  check (webhook_max_delivery_age_seconds s <? webhook_retry_after_max_seconds s)
    "WEBHOOK_RETRY_AFTER_MAX_SECONDS must not exceed the maximum delivery age";;
  check (qlt (inject_Z (endpoint_secret_overlap_seconds s))
           (fadd (float_of (webhook_max_delivery_age_seconds s))
              (worker_finalization_margin_seconds s)))
    "ENDPOINT_SECRET_OVERLAP_SECONDS must cover the maximum delivery age and worker finalization margin";;
  check (endpoint_retry_burst s <? endpoint_retry_success_refill s)
    "ENDPOINT_RETRY_SUCCESS_REFILL exceeds retry burst".

(** The validated settings: the secrets and [allow_http_webhooks] are filled
    in, everything else is checked.  [g1], [g2], [g3] are the keys
    [secrets.token_urlsafe] would generate. *)
Definition validate_deployment_settings (g1 g2 g3 : str) (s : Settings) : res exn Settings :=
  let dep := deployed s in
  k1 ← check_secret dep (secret_key s) g1;
  k2 ← check_secret dep (api_key_pepper s) g2;
  k3 ← check_secret dep (webhook_signing_key s) g3;
  http ← match allow_http_webhooks s with
         | None => Ok (development s)
         | Some b => check (b && negb (development s))
                       "ALLOW_HTTP_WEBHOOKS may be true only in development";; Ok b
         end;
  check (allow_private_webhooks s && negb (development s))
    "ALLOW_PRIVATE_WEBHOOKS may be true only in development";;
  match worker_egress_proxy_url s with
  | Some ((_ :: _) as url) => proxy_url_ok url
  | _ => check dep "WORKER_EGRESS_PROXY_URL is required when deployed"
  end;;
  check_retry s;;
  check_budgets s;;
  match otel_exporter_otlp_endpoint s with
  | Some ((_ :: _) as url) => otlp_url_ok s url
  | _ => Ok ()
  end;;
  check_limits s;;
  check (dep && auto_create_schema s)
    "AUTO_CREATE_SCHEMA must be false when deployed; run migrations";;
  check (bool_decide (environment s = Production) && debug s)
    "DEBUG must be false in production";;
  check (dep && negb (nonempty (allowed_hosts s)))
    "ALLOWED_HOSTS must not be empty when deployed";;
  Ok (s &{ secret_key := k1 } &{ api_key_pepper := k2 } &{ webhook_signing_key := k3 }
        &{ allow_http_webhooks := Some http }).
End Validate.

(** ** Consequences of the declared ranges *)

(** [field_fact Hf b] proves [b = true] for a declared bound [b]. *)
Ltac in_list := repeat first [left; reflexivity | right].
Ltac field_fact Hf b :=
  let H := fresh in assert (b = true) as H by (apply (Hf b); cbv [In]; in_list).

(** The facts the arithmetic of the token buckets, leases and circuits rests
    on. *)
Record limits_ok (settings : Settings) : Prop := {
  lim_rate : (0 <= endpoint_rate_per_second settings)%Q;
  lim_retry_rate : (0 <= endpoint_retry_rate_per_second settings)%Q;
  lim_burst : 1 <= endpoint_rate_burst settings <= 2 ^ 53;
  lim_retry_burst : 1 <= endpoint_retry_burst settings <= 2 ^ 53;
  lim_refill : 1 <= endpoint_retry_success_refill settings;
  lim_open : 0 <= endpoint_circuit_open_seconds settings;
  lim_lease : 1 <= worker_lease_seconds settings;
  lim_retry_after : 1 <= webhook_retry_after_max_seconds settings <= 2 ^ 53;
  lim_tenant_rates : (0 <= tenant_event_rate_per_second settings)%Q
                     /\ (0 <= tenant_delivery_rate_per_second settings)%Q
                     /\ (0 <= tenant_replay_rate_per_second settings)%Q;
  lim_tenant_bursts : 1 <= tenant_event_burst settings <= 2 ^ 53
                      /\ 1 <= tenant_delivery_burst settings <= 2 ^ 53
                      /\ 1 <= tenant_replay_burst settings <= 2 ^ 53;
}.

Lemma fields_ok_limits settings : fields_ok settings = true -> limits_ok settings.
Proof.
  unfold fields_ok. rewrite forallb_forall. unfold id. intros Hf.
  field_fact Hf (qlt 0 (endpoint_rate_per_second settings)).
  field_fact Hf (qlt 0 (endpoint_retry_rate_per_second settings)).
  field_fact Hf (1 <=? endpoint_rate_burst settings).
  field_fact Hf (endpoint_rate_burst settings <=? 1000000).
  field_fact Hf (1 <=? endpoint_retry_burst settings).
  field_fact Hf (endpoint_retry_burst settings <=? 100000).
  field_fact Hf (1 <=? endpoint_retry_success_refill settings).
  field_fact Hf (1 <=? endpoint_circuit_open_seconds settings).
  field_fact Hf (5 <=? worker_lease_seconds settings).
  field_fact Hf (1 <=? webhook_retry_after_max_seconds settings).
  field_fact Hf (webhook_retry_after_max_seconds settings <=? 86400).
  field_fact Hf (qlt 0 (tenant_event_rate_per_second settings)).
  field_fact Hf (qlt 0 (tenant_delivery_rate_per_second settings)).
  field_fact Hf (qlt 0 (tenant_replay_rate_per_second settings)).
  field_fact Hf (1 <=? tenant_event_burst settings).
  field_fact Hf (tenant_event_burst settings <=? 1000000).
  field_fact Hf (1 <=? tenant_delivery_burst settings).
  field_fact Hf (tenant_delivery_burst settings <=? 10000000).
  field_fact Hf (1 <=? tenant_replay_burst settings).
  field_fact Hf (tenant_replay_burst settings <=? 100000).
  clear Hf. qprop. split; repeat split; (lia || lra).
Qed.

Lemma default_fields_ok : fields_ok default_settings = true.
Proof. vm_compute. reflexivity. Qed.
