(* ===== verification/RetryPolicy.v ===== *)
(** * Retry policy

    The pure helpers of [src/app/retry_policy.py]: which HTTP statuses are
    retried, what a [Retry-After] header means, and the capped exponential
    backoff with full jitter. *)

From Stdlib Require Import QArith Lqa.
From stdpp Require Import base tactics list strings numbers option.
From S2P Require Import Prelude.
Local Open Scope Z_scope.

Definition RETRYABLE_HTTP_STATUSES : list Z := [408; 425; 429].

Definition is_retryable_status (status_code : option Z) : bool :=
  match status_code with
  | None => false
  | Some c => bool_decide (c ∈ RETRYABLE_HTTP_STATUSES) || ((500 <=? c) && (c <=? 599))
  end.

Section RetryPolicy.
Context `{Rounding}.
(** [email.utils.parsedate_to_datetime]; [None] is its [TypeError] or
    [ValueError]. *)
Context (parsedate_to_datetime : str -> option datetime).

(** [float(int(candidate))]: [int] refuses more than 4300 digits, [float]
    integers that round beyond the largest finite value. *)
Definition float_of_digits (candidate : str) : option Q :=
  let n := int_of_digits candidate in
  if 4300 <? len candidate then None
  else if 2 ^ 1024 - 2 ^ 970 <=? n then None
  else Some (float_of n).

Definition parse_retry_after (value : option str) (now : datetime)
    (maximum_seconds : Z) : option Q :=
  match value with
  | None => None
  | Some v =>
      let candidate := strip v in
      match candidate with
      | [] => None
      | _ =>
          delay ← (if isascii candidate && forallb ascii_digit candidate
                   then float_of_digits candidate
                   else target ← parsedate_to_datetime candidate;
                        Some (qmax 0 (total_seconds (target - now))));
          Some (qmin (float_of maximum_seconds) delay)
      end
  end.

(** [random.uniform(a, b)] with [u] what [random.random()] returned. *)
Definition uniform (a b u : Q) : Q := fadd a (fmul (fsub b a) u).

Definition jittered_backoff (attempt_number : Z) (base_seconds cap_seconds : Q)
    (u : Q) : Q :=
  let ceiling := qmin cap_seconds
                   (fmul base_seconds (inject_Z (2 ^ Z.max 0 (attempt_number - 1)))) in
  uniform 0 ceiling u.

(** ** Properties *)

Lemma float_of_digits_nonneg s q :
  forallb ascii_digit s = true -> float_of_digits s = Some q -> (0 <= q)%Q.
Proof.
  intros Hd Hq. assert (0 <= int_of_digits s) as Hn.
  { unfold int_of_digits.
    enough (forall n, 0 <= n -> 0 <= foldl (fun n c => 10 * n + (c - 48)) n s) by eauto with lia.
    clear Hq. induction s as [| c s IH]; cbn in *; [done |].
    apply andb_true_iff in Hd as [Hc Hd]. unfold ascii_digit in Hc.
    intros n Hn. apply IH; [done |]. lia. }
  unfold float_of_digits in Hq. repeat case_match; simplify_eq.
  apply rnd_nonneg. by rewrite <- (Zle_Qle 0).
Qed.

(** An accepted [Retry-After] is never negative nor beyond the maximum. *)
Lemma parse_retry_after_bounds value now maximum q :
  0 <= maximum <= 2 ^ 53 ->
  parse_retry_after value now maximum = Some q ->
  (0 <= q <= inject_Z maximum)%Q.
Proof.
  intros Hm Hq. unfold parse_retry_after in Hq.
  destruct value as [v|]; [| done].
  destruct (strip v) as [| c v'] eqn:Ec; [done |].
  apply bind_Some in Hq as (delay & Hd & [= <-]).
  assert (0 <= delay)%Q.
  { destruct (isascii _ && _) eqn:Ea.
    - apply andb_true_iff in Ea as [_ Ea]. eauto using float_of_digits_nonneg.
    - apply bind_Some in Hd as (target & _ & [= <-]). auto with wh. }
  rewrite <- (float_of_exact maximum) by lia.
  split; [| auto with wh]. apply qmin_glb; [| done].
  apply rnd_nonneg. rewrite <- (Zle_Qle 0). lia.
Qed.

(** The drawn delay lies between zero and the cap. *)
Lemma jittered_backoff_bounds attempt base cap u :
  is_float cap -> (0 <= base)%Q -> (0 <= cap)%Q -> (0 <= u <= 1)%Q ->
  (0 <= jittered_backoff attempt base cap u <= cap)%Q.
Proof.
  intros Hf Hb Hc [Hu0 Hu1]. unfold jittered_backoff, uniform, fadd, fmul, fsub.
  set (two := inject_Z (2 ^ Z.max 0 (attempt - 1))).
  assert (0 <= two)%Q.
  { unfold two. change 0%Q with (inject_Z 0). rewrite <- Zle_Qle. apply Z.pow_nonneg. lia. }
  set (ceiling := qmin cap (rnd (base * two))).
  assert (0 <= ceiling)%Q by (apply qmin_glb; [done | apply rnd_nonneg; nra]).
  assert (ceiling <= cap)%Q by apply qmin_le_l.
  assert (is_float ceiling) as Hcf by (apply is_float_qmin; auto with wh).
  assert (rnd (ceiling - 0) == ceiling)%Q as Hs.
  { unfold is_float in Hcf.
    rewrite <- Hcf at 2. apply rnd_proper. ring. }
  assert (0 <= rnd (rnd (ceiling - 0) * u) <= ceiling)%Q as [Hl Hr].
  { split.
    - apply rnd_nonneg. rewrite Hs. nra.
    - apply rnd_le_float; [done |]. rewrite Hs. nra. }
  split.
  - apply rnd_nonneg. lra.
  - apply Qle_trans with ceiling; [| done]. apply rnd_le_float; [done |]. lra.
Qed.
End RetryPolicy.
