(* ===== verification/Admission.v ===== *)
(** * Admission control

    [src/app/admission.py]: the token buckets shared by every replica, the
    rows that hold them, and [AdmissionController], which serialises the
    checks an event, a replay or a new endpoint has to pass. *)

From Stdlib Require Import QArith Qround Lqa.
From stdpp Require Import sorting.
From stdpp Require Import base tactics list gmap strings numbers option.
From S2P Require Import Prelude Json Models Session Settings.
Local Open Scope Z_scope.

(** ** Token buckets *)

Record TokenBalance : Type := MkBalance {
  tokens : Q;
  refilled_at : datetime;
  retry_after : option Z;
}.

Section TokenBucket.
Context `{Rounding}.

Definition consume_tokens (tokens : Q) (refilled_at : datetime) (rate : Q)
    (capacity cost : Z) (now : datetime) (retry_cap : Z) : TokenBalance :=
  let elapsed := qmax 0 (total_seconds (now - refilled_at)) in
  let available := qmin (float_of capacity) (fadd tokens (fmul elapsed rate)) in
  if Qle_bool (inject_Z cost) available then
    MkBalance (fsub available (inject_Z cost)) now None
  else
    let wait := Qceiling (fdiv (fsub (inject_Z cost) available) rate) in
    MkBalance available now (Some (Z.min retry_cap (Z.max 1 wait))).

(** ** Quota rows *)

Definition tenant_quota_values (organization_id : Z) (settings : Settings)
    (now : datetime) : TenantQuotaState := {|
  t_organization_id := organization_id;
  t_event_tokens := float_of (tenant_event_burst settings);
  t_event_refilled_at := now;
  t_delivery_tokens := float_of (tenant_delivery_burst settings);
  t_delivery_refilled_at := now;
  t_replay_tokens := float_of (tenant_replay_burst settings);
  t_replay_refilled_at := now;
  t_endpoint_cursor_id := None;
  t_updated_at := now;
|}.

Definition endpoint_quota_values (endpoint_id : Z) (settings : Settings)
    (now : datetime) : EndpointQuotaState := {|
  q_endpoint_id := endpoint_id;
  q_delivery_tokens := float_of (endpoint_rate_burst settings);
  q_refilled_at := now;
  q_retry_tokens := float_of (endpoint_retry_burst settings);
  q_retry_refilled_at := now;
  q_circuit_state := Closed;
  q_consecutive_failures := 0;
  q_circuit_open_until := None;
  q_half_open_probe_delivery_id := None;
  q_paused_at := None;
  q_pause_reason := None;
  q_updated_at := now;
|}.

(** [INSERT ... ON CONFLICT (key) DO NOTHING] *)
Definition insert_do_nothing {K V} `{Countable K} (key : K) (values : V)
    (m : gmap K V) : gmap K V :=
  match m !! key with Some _ => m | None => <[key := values]> m end.

Definition ensure_global_state (now : datetime) : M unit :=
  modify (fun db => db &{ db_global_state :=
    match db_global_state db with
    | Some g => Some g
    | None => Some {| g_tenant_cursor_organization_id := None;
                      g_created_at := now; g_updated_at := now |}
    end }).

Definition ensure_tenant_state (organization_id : Z) (settings : Settings)
    (now : datetime) : M unit :=
  modify (fun db => db &{ db_tenants :=
    insert_do_nothing organization_id
      (tenant_quota_values organization_id settings now) (db_tenants db) }).

Definition ensure_endpoint_state (endpoint_id : Z) (settings : Settings)
    (now : datetime) : M unit :=
  modify (fun db => db &{ db_quotas :=
    insert_do_nothing endpoint_id
      (endpoint_quota_values endpoint_id settings now) (db_quotas db) }).
End TokenBucket.

(** ** The controller *)

Definition nonterminal (s : DeliveryStatus) : bool :=
  match s with Pending | Processing | RetryScheduled => true | _ => false end.

Definition queued (s : DeliveryStatus) : bool :=
  match s with Pending | RetryScheduled => true | _ => false end.

(** The CASE expression [due_at]: when a delivery became runnable, if it is. *)
Definition due_at (now : datetime) (d : Delivery) : option datetime :=
  if queued (d_status d) && (d_next_attempt_at d <=? now) then Some (d_next_attempt_at d)
  else match d_status d, d_lease_expires_at d with
       | Processing, Some t => if t <=? now then Some t else None
       | _, _ => None
       end.

Definition due (now : datetime) (d : Delivery) : bool := bool_decide (is_Some (due_at now d)).

(** [func.min] over the runnable rows, [None] when there is none. *)
Definition oldest_due (now : datetime) (db : Db) : option datetime :=
  foldr (fun d acc =>
           match due_at now d, acc with
           | Some t, Some t' => Some (Z.min t t')
           | Some t, None => Some t
           | None, _ => acc
           end) None (t_where (due now) (db_deliveries db)).

Definition backlog (db : Db) : Z :=
  len (t_where (fun d => nonterminal (d_status d)) (db_deliveries db)).

(** [func.sum(func.length(Event.canonical_envelope))] over the organization's
    events; [NULL] envelopes do not count. *)
Definition project_of (db : Db) (ev : Event) : option Project :=
  t_get (ev_project_id ev) (db_projects db).

Definition retained_bytes (organization_id : Z) (db : Db) : Z :=
  foldr Z.add 0
    (map (fun ev => match ev_canonical_envelope ev with Some b => len b | None => 0 end)
       (t_where (fun ev => match project_of db ev with
                           | Some p => p_organization_id p =? organization_id
                           | None => false
                           end) (db_events db))).

Section Controller.
Context `{Rounding} (settings : Settings).

Definition lock_global_tenant (organization_id : Z) (now : datetime) :
    M TenantQuotaState :=
  ensure_global_state now;;
  ensure_tenant_state organization_id settings now;;
  global_state ← gets db_global_state;
  tenant_state ← gets (fun db => db_tenants db !! organization_id);
  match global_state, tenant_state with
  | Some _, Some t => mret t
  | _, _ => raise (RuntimeError "Admission control state is unavailable")
  end.

Definition check_saturation (now : datetime) (additional_deliveries : Z) : M unit :=
  b ← gets backlog;
  when (global_max_backlog settings <? b + additional_deliveries)
    (raise (SaturationError "global_backlog"));;
  oldest ← gets (oldest_due now);
  match oldest with
  | Some t =>
      when (Qle_bool (global_oldest_due_admission_seconds settings)
              (total_seconds (now - t)))
        (raise (SaturationError "oldest_due_age"))
  | None => mret ()
  end.

Definition event_balance (state : TenantQuotaState) (now : datetime) : TokenBalance :=
  consume_tokens (t_event_tokens state) (t_event_refilled_at state)
    (tenant_event_rate_per_second settings) (tenant_event_burst settings) 1 now
    (quota_retry_after_max_seconds settings).

Definition delivery_balance (state : TenantQuotaState) (count : Z) (now : datetime) :
    TokenBalance :=
  consume_tokens (t_delivery_tokens state) (t_delivery_refilled_at state)
    (tenant_delivery_rate_per_second settings) (tenant_delivery_burst settings)
    count now (quota_retry_after_max_seconds settings).

Definition replay_balance (state : TenantQuotaState) (count : Z) (now : datetime) :
    TokenBalance :=
  consume_tokens (t_replay_tokens state) (t_replay_refilled_at state)
    (tenant_replay_rate_per_second settings) (tenant_replay_burst settings)
    count now (quota_retry_after_max_seconds settings).

Definition charge (quota : string) (b : TokenBalance) : M unit :=
  match retry_after b with
  | Some r => raise (QuotaExceededError quota r)
  | None => mret ()
  end.

Definition put_tenant (t : TenantQuotaState) : M unit :=
  modify (fun db => db &{ db_tenants := <[t_organization_id t := t]> (db_tenants db) }).

Definition admit_event_locked (state : TenantQuotaState) (now : datetime)
    (organization_id delivery_count envelope_size : Z) : M unit :=
  when (tenant_fanout_per_event settings <? delivery_count)
    (raise (QuotaExceededError "fanout_per_event"
              (quota_retry_after_max_seconds settings)));;
  check_saturation now delivery_count;;
  retained ← gets (retained_bytes organization_id);
  when (tenant_retained_bytes settings <? retained + envelope_size)
    (raise (QuotaExceededError "retained_bytes"
              (quota_retry_after_max_seconds settings)));;
  let eb := event_balance state now in
  let db := delivery_balance state delivery_count now in
  charge "event_rate" eb;;
  charge "delivery_rate" db;;
  put_tenant (state &{ t_event_tokens := tokens eb }
                    &{ t_event_refilled_at := refilled_at eb }
                    &{ t_delivery_tokens := tokens db }
                    &{ t_delivery_refilled_at := refilled_at db }
                    &{ t_updated_at := now }).

Definition admit_event (organization_id delivery_count envelope_size : Z)
    (now : datetime) : M datetime :=
  state ← lock_global_tenant organization_id now;
  admit_event_locked state now organization_id delivery_count envelope_size;;
  mret now.

Definition admit_replays_locked (state : TenantQuotaState) (now : datetime)
    (count : Z) : M unit :=
  when ((count <? 1) || (bulk_replay_max_deliveries settings <? count))
    (raise (QuotaExceededError "bulk_replay_size"
              (quota_retry_after_max_seconds settings)));;
  check_saturation now count;;
  let rb := replay_balance state count now in
  let db := delivery_balance state count now in
  charge "replay_rate" rb;;
  charge "delivery_rate" db;;
  put_tenant (state &{ t_replay_tokens := tokens rb }
                    &{ t_replay_refilled_at := refilled_at rb }
                    &{ t_delivery_tokens := tokens db }
                    &{ t_delivery_refilled_at := refilled_at db }
                    &{ t_updated_at := now }).

Definition admit_replays (organization_id count : Z) (now : datetime) : M datetime :=
  state ← lock_global_tenant organization_id now;
  admit_replays_locked state now count;;
  mret now.

Definition admit_replay (organization_id : Z) (now : datetime) : M datetime :=
  admit_replays organization_id 1 now.

Definition active_endpoints (project_id : Z) (exclude : option Z) (db : Db) : Z :=
  len (t_where (fun e => (e_project_id e =? project_id) && e_is_active e
                         && negb (bool_decide (exclude = Some (e_id e))))
         (db_endpoints db)).

Definition check_endpoint_limit (organization_id project_id : Z)
    (exclude_endpoint_id : option Z) (now : datetime) : M datetime :=
  ensure_tenant_state organization_id settings now;;
  state ← gets (fun db => db_tenants db !! organization_id);
  _ ← of_option (RuntimeError "Tenant quota state is unavailable") state;
  endpoint_count ← gets (active_endpoints project_id exclude_endpoint_id);
  when (tenant_endpoints_per_project settings <=? endpoint_count)
    (raise (QuotaExceededError "endpoints_per_project"
              (quota_retry_after_max_seconds settings)));;
  mret now.
End Controller.

(** ** Token bucket properties *)

Section BucketLemmas.
Context `{Rounding}.
Implicit Types (tok rate : Q) (capacity cost now retry_cap : Z).

Definition available tok (at_ : datetime) rate capacity now : Q :=
  qmin (float_of capacity)
    (fadd tok (fmul (qmax 0 (total_seconds (now - at_))) rate)).

Lemma available_bounds tok at_ rate capacity now :
  (0 <= tok)%Q -> (0 <= rate)%Q -> 0 <= capacity <= 2 ^ 53 ->
  (0 <= available tok at_ rate capacity now <= inject_Z capacity)%Q.
Proof.
  intros Ht Hr Hc. unfold available.
  pose proof (float_of_exact capacity ltac:(lia)) as Hcap.
  assert (0 <= inject_Z capacity)%Q by (rewrite <- (Zle_Qle 0); lia).
  assert (0 <= qmax 0 (total_seconds (now - at_)))%Q by auto with wh.
  split.
  - apply qmin_glb; [lra |]. apply rnd_nonneg.
    assert (0 <= fmul (qmax 0 (total_seconds (now - at_))) rate)%Q
      by (apply rnd_nonneg; nra). lra.
  - rewrite <- Hcap. auto with wh.
Qed.

Lemma consume_cases tok at_ rate capacity cost now retry_cap :
  let b := consume_tokens tok at_ rate capacity cost now retry_cap in
  let av := available tok at_ rate capacity now in
  ((inject_Z cost <= av)%Q /\ retry_after b = None /\
     tokens b = fsub av (inject_Z cost)) \/
  ((av < inject_Z cost)%Q /\ tokens b = av /\
     retry_after b = Some (Z.min retry_cap (Z.max 1
       (Qceiling (fdiv (fsub (inject_Z cost) av) rate))))).
Proof.
  cbn zeta. unfold consume_tokens. fold (available tok at_ rate capacity now).
  case_match eqn:E; qprop; [left | right]; auto.
Qed.

Lemma consume_tokens_range tok at_ rate capacity cost now retry_cap :
  (0 <= tok)%Q -> (0 <= rate)%Q -> 0 <= capacity <= 2 ^ 53 -> 0 <= cost ->
  let b := consume_tokens tok at_ rate capacity cost now retry_cap in
  (0 <= tokens b <= inject_Z capacity)%Q.
Proof.
  intros Ht Hr Hcap Hcost. cbn zeta.
  destruct (consume_cases tok at_ rate capacity cost now retry_cap)
    as [(Hle & _ & ->)|(_ & -> & _)];
    pose proof (available_bounds tok at_ rate capacity now Ht Hr Hcap) as [Ha Hb];
    [| done].
  assert (0 <= inject_Z cost)%Q by (rewrite <- (Zle_Qle 0); lia).
  split; [auto with wh |]. apply rnd_le_int; [lia | lra].
Qed.

Lemma consume_retry_after_range tok at_ rate capacity cost now retry_cap r :
  1 <= retry_cap ->
  retry_after (consume_tokens tok at_ rate capacity cost now retry_cap) = Some r ->
  1 <= r <= retry_cap.
Proof.
  intros Hcap Hr.
  destruct (consume_cases tok at_ rate capacity cost now retry_cap)
    as [(_ & ? & _)|(_ & _ & Hr')]; [congruence |].
  rewrite Hr' in Hr. simplify_eq. lia.
Qed.

Lemma consume_refilled_at tok at_ rate capacity cost now retry_cap :
  refilled_at (consume_tokens tok at_ rate capacity cost now retry_cap) = now.
Proof. unfold consume_tokens. by case_match. Qed.

(** A cost above the capacity is refused at every time and balance. *)
Lemma consume_above_capacity tok at_ rate capacity cost now retry_cap :
  0 <= capacity <= 2 ^ 53 -> capacity < cost ->
  is_Some (retry_after (consume_tokens tok at_ rate capacity cost now retry_cap)).
Proof.
  intros Hcap Hcost.
  destruct (consume_cases tok at_ rate capacity cost now retry_cap)
    as [(Hle & _)|(_ & _ & ->)]; [| eauto].
  unfold available in Hle.
  pose proof (qmin_le_l (float_of capacity)
    (fadd tok (fmul (qmax 0 (total_seconds (now - at_))) rate))) as Hm.
  pose proof (float_of_exact capacity ltac:(lia)).
  assert (inject_Z capacity < inject_Z cost)%Q by (rewrite <- Zlt_Qlt; lia).
  lra.
Qed.
End BucketLemmas.

(** *** Exact arithmetic

    With [exact_rounding] the bucket obeys its rate limit.  [serve] runs the
    requests of a bucket in order, storing the balance when a request is
    granted and leaving the row alone when it is refused, as the admission
    handlers do. *)

Section ExactBucket.
#[local] Existing Instance exact_rounding.
Context (rate : Q) (capacity retry_cap : Z).

Fixpoint serve (tok : Q) (at_ : datetime) (reqs : list (datetime * Z)) :
    Z * (Q * datetime) :=
  match reqs with
  | [] => (0, (tok, at_))
  | (now, cost) :: reqs' =>
      let b := consume_tokens tok at_ rate capacity cost now retry_cap in
      match retry_after b with
      | None =>
          let '(g, st) := serve (tokens b) (refilled_at b) reqs' in (cost + g, st)
      | Some _ => serve tok at_ reqs'
      end
  end.

Lemma available_exact tok at_ now :
  at_ <= now ->
  (available tok at_ rate capacity now <= tok + ((now - at_) # 1000000) * rate)%Q.
Proof.
  intros Hnow. unfold available. eapply Qle_trans; [apply qmin_le_r |].
  unfold fadd, fmul, total_seconds. cbn [rnd exact_rounding].
  assert (qmax 0 ((now - at_) # 1000000) == (now - at_) # 1000000)%Q as ->; [| lra].
  assert (0 <= (now - at_) # 1000000)%Q by (unfold Qle; cbn; lia).
  qcases.
Qed.

Lemma serve_rate_limited tok at_ reqs until :
  (0 <= rate)%Q ->
  StronglySorted Z.le (at_ :: reqs.*1) ->
  Forall (fun r => r.1 <= until) reqs -> at_ <= until ->
  let '(granted, (tok', at')) := serve tok at_ reqs in
  (inject_Z granted + tok' + ((until - at') # 1000000) * rate
     <= tok + ((until - at_) # 1000000) * rate)%Q /\ at_ <= at' <= until.
Proof.
  intros Hrate. revert tok at_.
  induction reqs as [| [now cost] reqs IH]; intros tok at_ Hs Hu Hat; cbn.
  { split; [|lia]. change (inject_Z 0) with 0%Q. lra. }
  apply StronglySorted_inv in Hs as [Hs Hall]. cbn in *.
  apply list.Forall_cons in Hu as [Hnow Hu]. cbn in Hnow.
  apply list.Forall_cons in Hall as [Hle Hall].
  destruct (retry_after _) eqn:Er.
  - apply IH; try done. by apply StronglySorted_inv in Hs as [? ?]; constructor.
  - pose proof (consume_refilled_at tok at_ rate capacity cost now retry_cap) as Hat'.
    destruct (consume_cases tok at_ rate capacity cost now retry_cap)
      as [(Hc & _ & Ht)|(_ & _ & Ht)]; [| congruence].
    pose proof (available_exact tok at_ now Hle) as Hav.
    rewrite Hat', Ht.
    specialize (IH (fsub (available tok at_ rate capacity now) (inject_Z cost)) now Hs Hu Hnow).
    destruct (serve _ _ _) as [g [tok' at']]. destruct IH as [IH Hb].
    split; [| lia]. unfold fsub in IH. cbn [rnd exact_rounding] in IH.
    assert ((until - at_) # 1000000 ==
            ((until - now) # 1000000) + ((now - at_) # 1000000))%Q as ->.
    { unfold Qeq. cbn. lia. }
    rewrite inject_Z_plus. nra.
Qed.

Lemma serve_nonneg tok at_ reqs :
  (0 <= rate)%Q -> (0 <= tok)%Q -> 0 <= capacity <= 2 ^ 53 ->
  Forall (fun r => 0 <= r.2) reqs -> (0 <= (serve tok at_ reqs).2.1)%Q.
Proof.
  intros Hrate Ht Hcap Hreqs. revert tok at_ Ht.
  induction Hreqs as [| [now cost] reqs Hc _ IH]; intros tok at_ Ht; cbn; [done |].
  destruct (retry_after _); [by apply IH |].
  specialize (IH (tokens (consume_tokens tok at_ rate capacity cost now retry_cap))
    (refilled_at (consume_tokens tok at_ rate capacity cost now retry_cap))).
  destruct (serve _ _ _) as [g st]. apply IH. by apply consume_tokens_range.
Qed.
End ExactBucket.

(** ** Admission as a decision

    The abstract contract of the controller: a request is admissible when it
    is within every inclusive limit, and admission charges exactly its cost. *)

Section AdmissionSpec.
Context `{Rounding} (settings : Settings).

Definition within_saturation (now : datetime) (count : Z) (db : Db) : bool :=
  (backlog db + count <=? global_max_backlog settings) &&
  match oldest_due now db with
  | Some t => qlt (total_seconds (now - t)) (global_oldest_due_admission_seconds settings)
  | None => true
  end.

Definition can_pay (tok : Q) (at_ : datetime) (rate : Q) (capacity cost now : Z) : bool :=
  Qle_bool (inject_Z cost) (available tok at_ rate capacity now).

Definition can_pay_event (state : TenantQuotaState) (now : datetime) : bool :=
  can_pay (t_event_tokens state) (t_event_refilled_at state)
    (tenant_event_rate_per_second settings) (tenant_event_burst settings) 1 now.
Definition can_pay_delivery (state : TenantQuotaState) (count : Z) (now : datetime) : bool :=
  can_pay (t_delivery_tokens state) (t_delivery_refilled_at state)
    (tenant_delivery_rate_per_second settings) (tenant_delivery_burst settings) count now.
Definition can_pay_replay (state : TenantQuotaState) (count : Z) (now : datetime) : bool :=
  can_pay (t_replay_tokens state) (t_replay_refilled_at state)
    (tenant_replay_rate_per_second settings) (tenant_replay_burst settings) count now.

Definition event_admissible (state : TenantQuotaState) (now : datetime)
    (org count size : Z) (db : Db) : bool :=
  (count <=? tenant_fanout_per_event settings) && within_saturation now count db
  && (retained_bytes org db + size <=? tenant_retained_bytes settings)
  && can_pay_event state now && can_pay_delivery state count now.

Definition replay_admissible (state : TenantQuotaState) (now : datetime)
    (count : Z) (db : Db) : bool :=
  (1 <=? count) && (count <=? bulk_replay_max_deliveries settings)
  && within_saturation now count db
  && can_pay_replay state count now && can_pay_delivery state count now.

Lemma check_saturation_spec now count s :
  if within_saturation now count (working s)
  then check_saturation settings now count s = (Ok (), s)
  else exists reason, check_saturation settings now count s = (Raise (SaturationError reason), s).
Proof.
  unfold within_saturation, check_saturation, when, gets, raise, qlt.
  unfold mbind, M_bind, mret, M_ret.
  rewrite Z.leb_antisym. destruct (global_max_backlog settings <? _); cbn; [eauto |].
  destruct (oldest_due now (working s)); cbn; [| done].
  destruct (Qle_bool _ _); cbn; eauto.
Qed.

Lemma charge_spec quota tok at_ rate capacity cost now retry_cap s :
  let b := consume_tokens tok at_ rate capacity cost now retry_cap in
  if can_pay tok at_ rate capacity cost now
  then charge quota b s = (Ok (), s)
  else exists r, charge quota b s = (Raise (QuotaExceededError quota r), s).
Proof.
  cbn zeta. unfold can_pay, charge, raise, mret, M_ret.
  destruct (consume_cases tok at_ rate capacity cost now retry_cap)
    as [(Hle & -> & _)|(Hlt & _ & ->)].
  - apply Qle_bool_iff in Hle. by rewrite Hle.
  - apply qle_bool_false in Hlt. rewrite Hlt. eauto.
Qed.

Lemma charge_event_spec state now s :
  if can_pay_event state now
  then charge "event_rate" (event_balance settings state now) s = (Ok (), s)
  else exists r, charge "event_rate" (event_balance settings state now) s
                 = (Raise (QuotaExceededError "event_rate" r), s).
Proof. apply charge_spec. Qed.

Lemma charge_delivery_spec state count now s :
  if can_pay_delivery state count now
  then charge "delivery_rate" (delivery_balance settings state count now) s = (Ok (), s)
  else exists r, charge "delivery_rate" (delivery_balance settings state count now) s
                 = (Raise (QuotaExceededError "delivery_rate" r), s).
Proof. apply charge_spec. Qed.

Lemma charge_replay_spec state count now s :
  if can_pay_replay state count now
  then charge "replay_rate" (replay_balance settings state count now) s = (Ok (), s)
  else exists r, charge "replay_rate" (replay_balance settings state count now) s
                 = (Raise (QuotaExceededError "replay_rate" r), s).
Proof. apply charge_spec. Qed.

(** What an admitted event, or replay, leaves in the tenant row. *)
Definition event_charged (state : TenantQuotaState) (now : datetime) (count : Z) :
    TenantQuotaState :=
  state &{ t_event_tokens := tokens (event_balance settings state now) }
        &{ t_event_refilled_at := now }
        &{ t_delivery_tokens := tokens (delivery_balance settings state count now) }
        &{ t_delivery_refilled_at := now }
        &{ t_updated_at := now }.

Definition replay_charged (state : TenantQuotaState) (now : datetime) (count : Z) :
    TenantQuotaState :=
  state &{ t_replay_tokens := tokens (replay_balance settings state count now) }
        &{ t_replay_refilled_at := now }
        &{ t_delivery_tokens := tokens (delivery_balance settings state count now) }
        &{ t_delivery_refilled_at := now }
        &{ t_updated_at := now }.

(** An admission refusal: a 429 or a 503 that touches nothing. *)
Definition refused {A} (r : res exn A * session) (s : session) : Prop :=
  exists e, r = (Raise e, s) /\ (status_code e = 429 \/ status_code e = 503).

(** [decide_step spec] follows one check: on refusal the goal is closed. *)
Ltac refuse := eexists; split; [reflexivity | by auto].
Ltac decide_step spec :=
  let H := fresh in pose proof spec as H;
  match type of H with
  | (if ?b then _ else _) =>
      destruct b; cbn [negb andb];
      [rewrite H; clear H | destruct H as [? ->]; refuse]
  end.

Lemma admit_event_locked_decides state now org count size s :
  if event_admissible state now org count size (working s)
  then admit_event_locked settings state now org count size s
       = put_tenant (event_charged state now count) s
  else refused (admit_event_locked settings state now org count size s) s.
Proof.
  unfold event_admissible, admit_event_locked, event_charged, when.
  unfold mbind, M_bind, raise, gets, mret, M_ret.
  rewrite !Z.leb_antisym.
  destruct (tenant_fanout_per_event settings <? count); cbn [negb andb]; [refuse |].
  decide_step (check_saturation_spec now count s).
  destruct (tenant_retained_bytes settings <? _); cbn [negb andb]; [refuse |].
  decide_step (charge_event_spec state now s).
  decide_step (charge_delivery_spec state count now s).
  unfold event_balance, delivery_balance. by rewrite !consume_refilled_at.
Qed.

Lemma admit_replays_locked_decides state now count s :
  if replay_admissible state now count (working s)
  then admit_replays_locked settings state now count s
       = put_tenant (replay_charged state now count) s
  else refused (admit_replays_locked settings state now count s) s.
Proof.
  unfold replay_admissible, admit_replays_locked, replay_charged, when.
  unfold mbind, M_bind, raise, gets, mret, M_ret.
  rewrite !Z.leb_antisym.
  destruct (count <? 1); cbn [negb andb orb]; [refuse |].
  destruct (bulk_replay_max_deliveries settings <? count); cbn [negb andb]; [refuse |].
  decide_step (check_saturation_spec now count s).
  decide_step (charge_replay_spec state count now s).
  decide_step (charge_delivery_spec state count now s).
  unfold replay_balance, delivery_balance. by rewrite !consume_refilled_at.
Qed.

Lemma admit_replays_locked_ok state now count s u s' :
  admit_replays_locked settings state now count s = (Ok u, s') ->
  replay_admissible state now count (working s) = true /\
  s' = Sess (committed s) ((working s) &{ db_tenants :=
         <[t_organization_id state := replay_charged state now count]>
           (db_tenants (working s)) }).
Proof.
  intros Hr. pose proof (admit_replays_locked_decides state now count s) as Hd.
  destruct (replay_admissible _ _ _ _); [| destruct Hd as (e & ? & _); congruence].
  rewrite Hr in Hd. unfold put_tenant, modify in Hd. by simplify_eq.
Qed.

Lemma admit_event_locked_ok state now org count size s u s' :
  admit_event_locked settings state now org count size s = (Ok u, s') ->
  event_admissible state now org count size (working s) = true /\
  s' = Sess (committed s) ((working s) &{ db_tenants :=
         <[t_organization_id state := event_charged state now count]>
           (db_tenants (working s)) }).
Proof.
  intros Hr. pose proof (admit_event_locked_decides state now org count size s) as Hd.
  destruct (event_admissible _ _ _ _ _ _); [| destruct Hd as (e & ? & _); congruence].
  rewrite Hr in Hd. unfold put_tenant, modify in Hd. by simplify_eq.
Qed.
End AdmissionSpec.


(** ** Theorems *)

Section BucketExactFacts.
#[local] Existing Instance exact_rounding.

Lemma retry_after_waits_enough tok at_ rate capacity cost now retry_cap r :
  (0 < rate)%Q -> cost <= capacity -> at_ <= now ->
  retry_after (consume_tokens tok at_ rate capacity cost now retry_cap) = Some r ->
  r < retry_cap ->
  retry_after (consume_tokens tok at_ rate capacity cost (now + seconds r) retry_cap) = None.
Proof.
  intros Hrate Hcost Hat Hr Hcap.
  destruct (consume_cases tok at_ rate capacity cost now retry_cap)
    as [(_ & ? & _)|(Hlt & _ & Hr')]; [congruence |].
  destruct (consume_cases tok at_ rate capacity cost (now + seconds r) retry_cap)
    as [(_ & ? & _)|(Hlt' & _ & _)]; [done | exfalso].
  rewrite Hr' in Hr. injection Hr as Hr.
  unfold available, fdiv, fsub, fadd, fmul, total_seconds, float_of in *.
  cbn [rnd exact_rounding] in *.
  assert (0 <= (now - at_) # 1000000)%Q as He by (unfold Qle; cbn; lia).
  assert ((now + seconds r - at_) # 1000000 == ((now - at_) # 1000000) + inject_Z r)%Q as He'.
  { unfold seconds, second, Qeq. cbn. lia. }
  assert (inject_Z cost <= inject_Z capacity)%Q as Hc by (by rewrite <- Zle_Qle).
  set (el := ((now - at_) # 1000000)%Q) in *.
  set (av := qmin (inject_Z capacity) (tok + qmax 0 el * rate)) in *.
  assert ((inject_Z cost - av) / rate <= inject_Z r)%Q as Hw.
  { eapply Qle_trans; [apply Qle_ceiling |]. rewrite <- Zle_Qle. lia. }
  apply (Qmult_le_compat_r _ _ rate) in Hw; [| lra].
  assert ((inject_Z cost - av) / rate * rate == inject_Z cost - av)%Q as Hd by (field; lra).
  rewrite Hd in Hw.
  assert (qmax 0 el == el)%Q as Hm by qcases.
  assert (0 <= inject_Z r)%Q by (rewrite <- (Zle_Qle 0); lia).
  assert (el + inject_Z r <= qmax 0 ((now + seconds r - at_) # 1000000))%Q as Hm'
    by (rewrite <- He'; auto with wh).
  assert (av <= tok + el * rate)%Q as Hav.
  { unfold av. rewrite <- Hm at 2. apply qmin_le_r. }
  revert Hlt'. apply Qle_not_lt, qmin_glb; [done |]. nra.
Qed.
End BucketExactFacts.

(** C30: rate limiting.  In exact arithmetic, whatever requests a bucket
    serves in time order, the total cost it grants up to [until] is at most
    its opening balance plus the rate times the elapsed seconds. *)
Theorem token_bucket_rate_limit rate capacity retry_cap tok at_ reqs until :
  (0 <= rate)%Q -> (0 <= tok)%Q -> 0 <= capacity <= 2 ^ 53 ->
  Forall (fun r => 0 <= r.2 /\ r.1 <= until) reqs ->
  StronglySorted Z.le (at_ :: reqs.*1) -> at_ <= until ->
  (inject_Z (@serve rate capacity retry_cap tok at_ reqs).1
     <= tok + ((until - at_) # 1000000) * rate)%Q.
Proof.
  intros Hrate Ht Hcap Hreqs Hs Hu.
  apply list.Forall_and in Hreqs as [Hcost Htime].
  pose proof (serve_nonneg rate capacity retry_cap tok at_ reqs Hrate Ht Hcap Hcost) as Hn.
  pose proof (serve_rate_limited rate capacity retry_cap tok at_ reqs until Hrate Hs Htime Hu)
    as Hl.
  destruct (serve _ _ _ _ _ _) as [g [tok' at']]. cbn in *. destruct Hl as [Hl Hat].
  assert (0 <= ((until - at') # 1000000) * rate)%Q; [| lra].
  assert (0 <= (until - at') # 1000000)%Q by (unfold Qle; cbn; lia). nra.
Qed.

Lemma token_bucket_rate_limit_witness :
  (inject_Z (serve 2 5 60 5 0 [(0, 5); (seconds 1, 3); (seconds 2, 4)]%Z).1
     <= 5 + ((seconds 2 - 0) # 1000000) * 2)%Q
  /\ (serve 2 5 60 5 0 [(0, 5); (seconds 1, 3); (seconds 2, 4)]%Z).1 = 9.
Proof.
  split; [| vm_compute; reflexivity].
  apply (token_bucket_rate_limit 2 5 60 5 0); [lra | lra | lia | | |].
  - repeat constructor; cbn; unfold seconds, second; lia.
  - repeat constructor; cbn; unfold seconds, second; lia.
  - unfold seconds, second; lia.
Defined.

(** Balances.  Under any rounding, consuming from a bucket whose balance
    is nonnegative leaves a balance between zero and the capacity, and a
    refusal asks the client to wait between one second and the configured
    maximum. *)
Theorem token_bucket_bounds `{Rounding} tok at_ rate capacity cost now retry_cap :
  (0 <= tok)%Q -> (0 <= rate)%Q -> 0 <= capacity <= 2 ^ 53 -> 0 <= cost -> 1 <= retry_cap ->
  let b := consume_tokens tok at_ rate capacity cost now retry_cap in
  (0 <= tokens b <= inject_Z capacity)%Q /\
  match retry_after b with Some r => 1 <= r <= retry_cap | None => True end.
Proof.
  intros Ht Hr Hcap Hcost Hrc b. split; [by apply consume_tokens_range |].
  destruct (retry_after b) eqn:E; [| done]. by eapply consume_retry_after_range.
Qed.

Lemma token_bucket_bounds_witness :
  let b := @consume_tokens exact_rounding (1 # 2) 0 (1 # 10) 10 3 (seconds 5) 60 in
  (0 <= tokens b <= inject_Z 10)%Q /\ retry_after b = Some 20.
Proof.
  split; [| vm_compute; reflexivity].
  refine (proj1 (@token_bucket_bounds exact_rounding (1 # 2) 0 (1 # 10) 10 3 (seconds 5) 60
    _ _ _ _ _)); try lia; vm_compute; intros ?; done.
Defined.

(** The [Retry-After] hint is honest.  In exact arithmetic, a request
    refused with a hint below the cap is granted when it is repeated after the
    hinted number of seconds, provided nobody else drew on the bucket and the
    cost fits in it. *)
Theorem retry_after_is_sufficient tok at_ rate capacity cost now retry_cap r :
  (0 < rate)%Q -> cost <= capacity -> at_ <= now ->
  retry_after (@consume_tokens exact_rounding tok at_ rate capacity cost now retry_cap)
    = Some r ->
  r < retry_cap ->
  retry_after (@consume_tokens exact_rounding tok at_ rate capacity cost
                 (now + seconds r) retry_cap) = None.
Proof. apply retry_after_waits_enough. Qed.

Lemma retry_after_is_sufficient_witness :
  retry_after (@consume_tokens exact_rounding 0 0 (1 # 2) 10 3 0 60) = Some 6 /\
  retry_after (@consume_tokens exact_rounding 0 0 (1 # 2) 10 3 (0 + seconds 6) 60) = None.
Proof.
  split; [vm_compute; reflexivity |].
  apply (retry_after_is_sufficient 0 0 (1 # 2) 10 3 0 60 6); try lia; vm_compute; done.
Defined.

(** A stale clock defeats the limit.  [database_now] is the start time of
    the transaction and is read before the bucket row is locked, so a
    transaction that started earlier may be served later; it moves
    [refilled_at] back and the same second is credited twice.  Three requests
    of a bucket of rate one that opens empty are granted a total of four
    tokens within its first three seconds. *)
Theorem bucket_clock_regression_overgrants :
  (serve 1 100 60 0 0 [(seconds 2, 1); (seconds 1, 1); (seconds 3, 2)]).1 = 4 /\
  (0 + ((seconds 3 - 0) # 1000000) * 1 < inject_Z 4)%Q.
Proof. by vm_compute. Qed.


(** A bulk replay larger than the replay burst is refused whatever the
    balance and the time, although [bulk_replay_max_deliveries] permits it;
    with the default settings every batch of 21 to 100 deliveries is. *)
Theorem bulk_replay_above_burst_never_admitted `{Rounding} settings state now count s :
  0 <= tenant_replay_burst settings <= 2 ^ 53 ->
  tenant_replay_burst settings < count ->
  refused (admit_replays_locked settings state now count s) s.
Proof.
  intros Hb Hc. pose proof (admit_replays_locked_decides settings state now count s) as Hd.
  assert (can_pay_replay settings state count now = false) as Hp.
  { destruct (consume_above_capacity (t_replay_tokens state) (t_replay_refilled_at state)
      (tenant_replay_rate_per_second settings) (tenant_replay_burst settings) count now
      (quota_retry_after_max_seconds settings) Hb Hc) as [r Hr].
    pose proof (charge_replay_spec settings state count now s) as Hch.
    destruct (can_pay_replay settings state count now); [| done].
    unfold charge, replay_balance in Hch. by rewrite Hr in Hch. }
  unfold replay_admissible in Hd. rewrite Hp in Hd.
  by rewrite andb_false_r in Hd.
Qed.

Lemma bulk_replay_above_burst_never_admitted_witness :
  21 <= bulk_replay_max_deliveries default_settings /\
  refused (@admit_replays_locked exact_rounding default_settings
             (@tenant_quota_values exact_rounding 1 default_settings 0)
             (days 365) 21 (Sess empty_db empty_db)) (Sess empty_db empty_db).
Proof.
  split; [vm_compute; by intros ? |].
  apply bulk_replay_above_burst_never_admitted; vm_compute; try split; by intros ?.
Defined.
