(* ===== verification/Scheduling.v ===== *)
(** * Fair claiming

    [src/app/scheduling.py]: the window query that ranks due deliveries within
    their endpoint and tenant, and [select_fair_deliveries], which picks work
    in rotation while staying inside the deployment, tenant, endpoint, rate,
    retry and circuit budgets. *)

From Stdlib Require Import QArith Lqa.
From stdpp Require Import sorting.
From stdpp Require Import base tactics list gmap strings numbers option.
From S2P Require Import Prelude Json Models Session Settings Admission.
Local Open Scope Z_scope.

(** ** Rotation *)

Fixpoint rotate_from (c : Z) (before rest : list Z) : option (list Z) :=
  match rest with
  | [] => None
  | v :: rest' =>
      if c <? v then Some (rest ++ before) else rotate_from c (before ++ [v]) rest'
  end.

Definition rotate_after (values : list Z) (cursor : option Z) : list Z :=
  match cursor with
  | None => values
  | Some c => default values (rotate_from c [] values)
  end.

(** ** The candidate query *)

Definition lex_lt (x y : list Z) : bool := lex_le x y && negb (lex_le y x).

(** [row_number() OVER (PARTITION BY part ORDER BY key)] for a key that is
    unique within the partition. *)
Definition row_number {A} (same : A -> A -> bool) (key : A -> list Z) (l : list A) (x : A) : Z :=
  1 + len (filter (fun y => Is_true (same x y && lex_lt (key y) (key x))) l).

(** A row of [due_by_endpoint]: a due delivery with its [endpoint_rank]. *)
Definition due_by_endpoint (now : datetime) (db : Db) : list (Z * Delivery) :=
  let rows := t_where (due now) (db_deliveries db) in
  map (fun d =>
         (row_number (fun a b => (d_organization_id a =? d_organization_id b)
                                 && (d_endpoint_id a =? d_endpoint_id b))
            (fun a => [d_next_attempt_at a; d_id a]) rows d, d)) rows.

(** A row of [due_by_tenant]: a due delivery with its [tenant_rank]. *)
Definition due_by_tenant (now : datetime) (db : Db) : list (Z * Delivery) :=
  let rows := due_by_endpoint now db in
  map (fun r =>
         (row_number (fun a b => d_organization_id a.2 =? d_organization_id b.2)
            (fun a => [a.1; d_next_attempt_at a.2; d_id a.2]) rows r, r.2)) rows.

Definition fair_candidate_ids (now : datetime) (scan_limit per_tenant_limit : Z) (db : Db) :
    list Z :=
  map (fun r => d_id r.2)
    (take (Z.to_nat scan_limit)
       (order_by (fun r => [r.1; d_next_attempt_at r.2; d_id r.2])
          (filter (fun r => Is_true (r.1 <=? per_tenant_limit)) (due_by_tenant now db)))).

(** ** Selection *)

Definition live (now : datetime) (d : Delivery) : bool :=
  bool_decide (d_status d = Processing) &&
  match d_lease_expires_at d with Some t => now <? t | None => false end.

(** [SELECT key, count(id) ... GROUP BY key] *)
Definition count_by (key : Delivery -> Z) (l : list Delivery) : gmap Z Z :=
  foldr (fun d m => <[key d := default 0 (m !! key d) + 1]> m) ∅ l.

(** The local variables of the selection loop; [sel_quotas], [sel_tenants] and
    [sel_global] are the locked rows, shared with the database session. *)
Record selection : Type := MkSelection {
  sel_selected : list Delivery;
  sel_tenant_counts : gmap Z Z;
  sel_endpoint_counts : gmap Z Z;
  sel_balances : gmap Z Q;
  sel_retry_balances : gmap Z Q;
  sel_grouped : gmap (Z * Z) (list Delivery);
  sel_order : gmap Z (list Z);
  sel_quotas : gmap Z EndpointQuotaState;
  sel_tenants : gmap Z TenantQuotaState;
  sel_global : GlobalControlState;
}.
#[export] Instance eta_selection : Eta selection := fun s =>
  MkSelection (sel_selected s) (sel_tenant_counts s) (sel_endpoint_counts s)
    (sel_balances s) (sel_retry_balances s) (sel_grouped s) (sel_order s)
    (sel_quotas s) (sel_tenants s) (sel_global s).

Definition get_count (m : gmap Z Z) (k : Z) : Z := default 0 (m !! k).

Definition key_error {A} (o : option A) : res exn A :=
  match o with Some a => Ok a | None => Raise KeyError end.

Section Select.
Context `{Rounding} (settings : Settings) (now : datetime).

(** The refill of one endpoint row before the loop. *)
Definition refill (q : EndpointQuotaState) : EndpointQuotaState :=
  let balance := consume_tokens (q_delivery_tokens q) (q_refilled_at q)
    (endpoint_rate_per_second settings) (endpoint_rate_burst settings) 0 now
    (quota_retry_after_max_seconds settings) in
  let retry_balance := consume_tokens (q_retry_tokens q) (q_retry_refilled_at q)
    (endpoint_retry_rate_per_second settings) (endpoint_retry_burst settings) 0 now
    (quota_retry_after_max_seconds settings) in
  q &{ q_delivery_tokens := tokens balance }
    &{ q_refilled_at := refilled_at balance }
    &{ q_retry_tokens := tokens retry_balance }
    &{ q_retry_refilled_at := refilled_at retry_balance }
    &{ q_updated_at := now }.

(** An open circuit whose time has elapsed becomes half open; [None] is the
    [continue] of a circuit that stays open. *)
Definition elapse_circuit (q : EndpointQuotaState) : option EndpointQuotaState :=
  match q_circuit_state q with
  | Open =>
      match q_circuit_open_until q with
      | None => None
      | Some t =>
          if now <? t then None
          else Some (q &{ q_circuit_state := HalfOpen }
                       &{ q_circuit_open_until := None }
                       &{ q_half_open_probe_delivery_id := None })
      end
  | _ => Some q
  end.

Definition half_open (q : EndpointQuotaState) : bool :=
  bool_decide (q_circuit_state q = HalfOpen).

(** The probe guard: a half-open endpoint may only run its probe. *)
Definition probe_blocks (q : EndpointQuotaState) (d : Delivery) : bool :=
  half_open q &&
  match q_half_open_probe_delivery_id q with
  | None => false
  | Some p => negb (p =? d_id d)
  end.

(** What selecting the head of a queue does: the two balances, the counts,
    the probe reservation and the cursors. *)
Definition pick (org endpoint : Z) (delivery : Delivery) (queue : list Delivery)
    (q : EndpointQuotaState) (balance retry_balance : Q) (tenant : TenantQuotaState)
    (s : selection) : selection :=
  let is_retry := 0 <? d_attempt_count delivery in
  let balance' := fsub balance 1 in
  let retry_balance' := if is_retry then fsub retry_balance 1 else retry_balance in
  let q2 := if is_retry then q &{ q_retry_tokens := retry_balance' } else q in
  let q3 := if half_open q2
            then q2 &{ q_half_open_probe_delivery_id := Some (d_id delivery) }
            else q2 in
  {| sel_selected := sel_selected s ++ [delivery];
     sel_tenant_counts :=
       <[org := get_count (sel_tenant_counts s) org + 1]> (sel_tenant_counts s);
     sel_endpoint_counts :=
       <[endpoint := get_count (sel_endpoint_counts s) endpoint + 1]> (sel_endpoint_counts s);
     sel_balances := <[endpoint := balance']> (sel_balances s);
     sel_retry_balances := <[endpoint := retry_balance']> (sel_retry_balances s);
     sel_grouped := <[(org, endpoint) := queue]> (sel_grouped s);
     sel_order := sel_order s;
     sel_quotas := <[endpoint := q3 &{ q_delivery_tokens := balance' }]> (sel_quotas s);
     sel_tenants := <[org := tenant &{ t_endpoint_cursor_id := Some endpoint }
                                    &{ t_updated_at := now }]> (sel_tenants s);
     sel_global := (sel_global s) &{ g_tenant_cursor_organization_id := Some org }
                                  &{ g_updated_at := now } |}.

(** The body of the innermost loop for one endpoint: the new state and
    whether a delivery was selected. *)
Definition try_endpoint (org endpoint : Z) (s : selection) : res exn (selection * bool) :=
  match default [] (sel_grouped s !! (org, endpoint)) with
  | [] => Ok (s, false)
  | delivery :: queue =>
      q ← key_error (sel_quotas s !! endpoint);
      if bool_decide (is_Some (q_paused_at q)) then Ok (s, false)
      else match elapse_circuit q with
      | None => Ok (s, false)
      | Some q1 =>
          let s1 := s &{ sel_quotas := <[endpoint := q1]> (sel_quotas s) } in
          if probe_blocks q1 delivery then Ok (s1, false)
          else if endpoint_concurrency settings <=? get_count (sel_endpoint_counts s) endpoint
          then Ok (s1, false)
          else
            balance ← key_error (sel_balances s !! endpoint);
            if qlt balance 1 then Ok (s1, false)
            else
              retry_balance ← key_error (sel_retry_balances s !! endpoint);
              if (0 <? d_attempt_count delivery) && qlt retry_balance 1 then Ok (s1, false)
              else
                tenant ← key_error (sel_tenants s !! org);
                Ok (pick org endpoint delivery queue q1 balance retry_balance tenant s1, true)
      end
  end.

(** [for _ in range(len(endpoints))]: rotate the deque, stop at the first
    endpoint that yields a delivery. *)
Fixpoint scan_endpoints (n : nat) (org : Z) (s : selection) : res exn (selection * bool) :=
  match n with
  | O => Ok (s, false)
  | S n' =>
      match sel_order s !! org with
      | Some (endpoint :: rest) =>
          '(s', picked) ← try_endpoint org endpoint
            (s &{ sel_order := <[org := rest ++ [endpoint]]> (sel_order s) });
          if picked : bool then Ok (s', true) else scan_endpoints n' org s'
      | _ => Raise KeyError
      end
  end.

(** [for organization_id in organization_order] *)
Fixpoint pass (available : Z) (orgs : list Z) (s : selection) (made_progress : bool) :
    res exn (selection * bool) :=
  match orgs with
  | [] => Ok (s, made_progress)
  | org :: orgs' =>
      if available <=? len (sel_selected s) then Ok (s, made_progress)
      else if tenant_in_flight_deliveries settings <=? get_count (sel_tenant_counts s) org
      then pass available orgs' s made_progress
      else
        endpoints ← key_error (sel_order s !! org);
        '(s', picked) ← scan_endpoints (length endpoints) org s;
        pass available orgs' s' (made_progress || picked)
  end.

(** [while len(selected) < available], with a bound on its iterations; [None]
    when the bound is reached. *)
Fixpoint rounds (fuel : nat) (available : Z) (orgs : list Z) (s : selection) :
    option (res exn selection) :=
  if len (sel_selected s) <? available then
    match fuel with
    | O => None
    | S fuel' =>
        match pass available orgs s false with
        | Ok (s', true) => rounds fuel' available orgs s'
        | Ok (s', false) => Some (Ok s')
        | Raise e => Some (Raise e)
        end
    end
  else Some (Ok s).

Definition group_candidates (candidates : list Delivery) : gmap (Z * Z) (list Delivery) :=
  foldl (fun m d =>
           let k := (d_organization_id d, d_endpoint_id d) in
           <[k := default [] (m !! k) ++ [d]]> m) ∅ candidates.

(** [sorted({...})] *)
Definition sorted_set (l : list Z) : list Z := order_by (fun z => [z]) (remove_dups l).

(** The state the loop starts in. *)
Definition initial_selection (candidates live_rows : list Delivery)
    (organization_order : list Z) (tenants : gmap Z TenantQuotaState)
    (quotas : gmap Z EndpointQuotaState) (global : GlobalControlState) : selection :=
  let quotas' := refill <$> quotas in
  {| sel_selected := [];
     sel_tenant_counts := count_by d_organization_id live_rows;
     sel_endpoint_counts := count_by d_endpoint_id live_rows;
     sel_balances := q_delivery_tokens <$> quotas';
     sel_retry_balances := q_retry_tokens <$> quotas';
     sel_grouped := group_candidates candidates;
     sel_order := list_to_map (map (fun org =>
       (org, rotate_after
          (sorted_set (map d_endpoint_id
             (filter (fun d => Is_true (d_organization_id d =? org)) candidates)))
          (tenants !! org ≫= t_endpoint_cursor_id))) organization_order);
     sel_quotas := quotas';
     sel_tenants := tenants;
     sel_global := global |}.

(** [unlocked] tells which candidate rows [FOR UPDATE SKIP LOCKED] returned. *)
Definition select_fair_deliveries (unlocked : Z -> bool) (requested : Z) :
    M (list Delivery) :=
  ensure_global_state now;;
  global ← gets db_global_state;
  global ← of_option (RuntimeError "Global scheduler state is unavailable") global;
  live_rows ← gets (fun db => t_where (live now) (db_deliveries db));
  let available := Z.min requested (worker_global_concurrency settings - len live_rows) in
  if available <=? 0 then mret []
  else
    let per_tenant_scan := Z.max (available * 2) (endpoint_concurrency settings) in
    candidate_ids ← gets (fair_candidate_ids now (worker_candidate_scan_limit settings)
                            per_tenant_scan);
    candidates ← gets (fun db =>
      omap (fun i => if unlocked i then t_get i (db_deliveries db) else None) candidate_ids);
    match candidates with
    | [] => mret []
    | _ =>
        let organization_ids := sorted_set (map d_organization_id candidates) in
        let endpoint_ids := sorted_set (map d_endpoint_id candidates) in
        mfor (fun o => ensure_tenant_state o settings now) organization_ids;;
        mfor (fun e => ensure_endpoint_state e settings now) endpoint_ids;;
        tenants ← gets (fun db => filter (fun kv => kv.1 ∈ organization_ids) (db_tenants db));
        quotas ← gets (fun db => filter (fun kv => kv.1 ∈ endpoint_ids) (db_quotas db));
        let organization_order :=
          rotate_after organization_ids (g_tenant_cursor_organization_id global) in
        let s0 := initial_selection candidates live_rows organization_order tenants quotas
                    global in
        match rounds (Z.to_nat available) available organization_order s0 with
        | Some (Ok s) =>
            modify (fun db => db &{ db_quotas := sel_quotas s ∪ db_quotas db }
                                 &{ db_tenants := sel_tenants s ∪ db_tenants db }
                                 &{ db_global_state := Some (sel_global s) });;
            mret (sel_selected s)
        | Some (Raise e) => raise e
        | None => raise (RuntimeError "selection loop did not end")
        end
    end.
End Select.

(** ** Loop lemmas *)

Lemma key_error_ok {A} (o : option A) a : key_error o = Ok a <-> o = Some a.
Proof. destruct o; cbn; naive_solver. Qed.

Section Loop.
Context `{Rounding} (settings : Settings) (now : datetime).
Implicit Types s : selection.

(** The guards a selected delivery has passed. *)
Record eligible (org e : Z) s (d : Delivery) (queue : list Delivery)
    (q q1 : EndpointQuotaState) (bal rb : Q) (t : TenantQuotaState) : Prop := {
  el_queue : default [] (sel_grouped s !! (org, e)) = d :: queue;
  el_quota : sel_quotas s !! e = Some q;
  el_unpaused : q_paused_at q = None;
  el_circuit : elapse_circuit now q = Some q1;
  el_probe : probe_blocks q1 d = false;
  el_concurrency : get_count (sel_endpoint_counts s) e < endpoint_concurrency settings;
  el_balance : sel_balances s !! e = Some bal;
  el_rate : (1 <= bal)%Q;
  el_retry : sel_retry_balances s !! e = Some rb;
  el_retry_rate : 0 < d_attempt_count d -> (1 <= rb)%Q;
  el_tenant : sel_tenants s !! org = Some t;
}.

Definition with_quota (e : Z) (q : EndpointQuotaState) s : selection :=
  s &{ sel_quotas := <[e := q]> (sel_quotas s) }.

Lemma try_endpoint_inv org e s s' b :
  try_endpoint settings now org e s = Ok (s', b) ->
  (b = false /\ s' = s) \/
  (b = false /\ exists q q1, sel_quotas s !! e = Some q /\
     elapse_circuit now q = Some q1 /\ s' = with_quota e q1 s) \/
  (b = true /\ exists d queue q q1 bal rb t,
     eligible org e s d queue q q1 bal rb t /\
     s' = pick now org e d queue q1 bal rb t (with_quota e q1 s)).
Proof.
  unfold try_endpoint.
  destruct (default [] _) as [| d queue] eqn:Eg; [naive_solver |].
  intros Ht. apply res_bind_ok in Ht as (q & Hq & Ht). apply key_error_ok in Hq.
  case_bool_decide as Hp; [naive_solver |].
  destruct (elapse_circuit now q) as [q1|] eqn:Ec; [| naive_solver].
  fold (with_quota e q1 s) in Ht.
  destruct (probe_blocks q1 d) eqn:Epb; [naive_solver |].
  destruct (Z.leb_spec (endpoint_concurrency settings)
    (get_count (sel_endpoint_counts s) e)); [naive_solver |].
  apply res_bind_ok in Ht as (bal & Hbal & Ht). apply key_error_ok in Hbal.
  destruct (qlt bal 1) eqn:Eb; [naive_solver |].
  apply res_bind_ok in Ht as (rb & Hrb & Ht). apply key_error_ok in Hrb.
  destruct ((0 <? d_attempt_count d) && qlt rb 1) eqn:Er; [naive_solver |].
  apply res_bind_ok in Ht as (t & Htn & Ht). apply key_error_ok in Htn.
  simplify_eq. right; right. split; [done |].
  exists d, queue, q, q1, bal, rb, t. split; [| done].
  split; try done.
  - destruct (q_paused_at q); [| done]. contradict Hp; eauto.
  - by apply qlt_false.
  - intros Ha. apply qlt_false. apply andb_false_iff in Er as [Er|Er]; [lia | done].
Qed.

Lemma try_endpoint_false org e s s' :
  try_endpoint settings now org e s = Ok (s', false) ->
  sel_selected s' = sel_selected s /\ sel_tenant_counts s' = sel_tenant_counts s.
Proof. intros [[_ ->]|[(_ & ? & ? & _ & _ & ->)|[? _]]]%try_endpoint_inv; done. Qed.

(** Any property the endpoint body preserves under the guards of the outer
    loops holds of the final state. *)
Section Invariant.
Context (available : Z) (P : selection -> Prop).
Hypothesis P_order : forall s org e rest,
  sel_order s !! org = Some (e :: rest) -> P s ->
  P (s &{ sel_order := <[org := rest ++ [e]]> (sel_order s) }).
Hypothesis P_step : forall org e s s' b,
  P s -> len (sel_selected s) < available ->
  get_count (sel_tenant_counts s) org < tenant_in_flight_deliveries settings ->
  try_endpoint settings now org e s = Ok (s', b) -> P s'.

Lemma scan_endpoints_ind n org s s' b :
  P s -> len (sel_selected s) < available ->
  get_count (sel_tenant_counts s) org < tenant_in_flight_deliveries settings ->
  scan_endpoints settings now n org s = Ok (s', b) -> P s'.
Proof.
  revert s; induction n as [| n IH]; intros s Ps Ha Ht Hs; cbn in Hs; [naive_solver |].
  destruct (sel_order s !! org) as [[| e rest]|] eqn:Eo; try done.
  apply res_bind_ok in Hs as ([s1 picked] & H1 & Hs).
  assert (P s1) as Ps1 by (eapply P_step; [by eapply P_order | | | exact H1]; done).
  destruct picked; [naive_solver |].
  apply try_endpoint_false in H1 as [Hsel Htc].
  apply IH in Hs; [done | done | by rewrite Hsel | by rewrite Htc].
Qed.

Lemma pass_ind orgs s p s' p' :
  P s -> pass settings now available orgs s p = Ok (s', p') -> P s'.
Proof.
  revert s p; induction orgs as [| org orgs IH]; intros s p Ps Hs; cbn in Hs;
    [naive_solver |].
  destruct (Z.leb_spec available (len (sel_selected s))) as [|Hav]; [naive_solver |].
  destruct (Z.leb_spec (tenant_in_flight_deliveries settings)
    (get_count (sel_tenant_counts s) org)) as [|Htc]; [eauto |].
  apply res_bind_ok in Hs as (eps & _ & Hs).
  apply res_bind_ok in Hs as ([s1 picked] & H1 & Hs).
  eapply IH; [| exact Hs]. eapply scan_endpoints_ind; eauto.
Qed.

Lemma rounds_ind fuel orgs s s' :
  P s -> rounds settings now fuel available orgs s = Some (Ok s') -> P s'.
Proof.
  revert s; induction fuel as [| fuel IH]; intros s Ps Hs; cbn in Hs;
    destruct (len (sel_selected s) <? available); try naive_solver.
  destruct (pass _ _ _ _ _ _) as [[s1 []]|e] eqn:Ep; simplify_eq;
    apply pass_ind in Ep; eauto.
Qed.
End Invariant.
End Loop.

Arguments el_queue {settings now org e s d queue q q1 bal rb t} _.
Arguments el_quota {settings now org e s d queue q q1 bal rb t} _.
Arguments el_unpaused {settings now org e s d queue q q1 bal rb t} _.
Arguments el_circuit {settings now org e s d queue q q1 bal rb t} _.
Arguments el_probe {settings now org e s d queue q q1 bal rb t} _.
Arguments el_concurrency {settings now org e s d queue q q1 bal rb t} _.
Arguments el_balance {settings now org e s d queue q q1 bal rb t} _.
Arguments el_rate {settings now org e s d queue q q1 bal rb t} _.
Arguments el_retry {settings now org e s d queue q q1 bal rb t} _.
Arguments el_retry_rate {settings now org e s d queue q q1 bal rb t} _.
Arguments el_tenant {settings now org e s d queue q q1 bal rb t} _.

(** ** What the loop preserves *)

Definition group_key (d : Delivery) : Z * Z := (d_organization_id d, d_endpoint_id d).

Definition of_group (k : Z * Z) (l : list Delivery) : list Delivery :=
  filter (fun d => group_key d = k) l.
Definition of_tenant (o : Z) (l : list Delivery) : list Delivery :=
  filter (fun d => d_organization_id d = o) l.
Definition of_endpoint (e : Z) (l : list Delivery) : list Delivery :=
  filter (fun d => d_endpoint_id d = e) l.

Lemma len_app {A} (l k : list A) : len (l ++ k) = len l + len k.
Proof. unfold len. rewrite length_app. lia. Qed.

Lemma len_nil {A} : len (@nil A) = 0.
Proof. done. Qed.
Lemma len_single {A} (a : A) : len [a] = 1.
Proof. done. Qed.

Lemma filter_snoc {A} (P : A -> Prop) `{forall x, Decision (P x)} l a :
  filter P (l ++ [a]) = filter P l ++ (if decide (P a) then [a] else []).
Proof. by rewrite list.filter_app. Qed.

Lemma get_count_insert m k v k' :
  get_count (<[k := v]> m) k' = if decide (k = k') then v else get_count m k'.
Proof. unfold get_count. rewrite lookup_insert. by case_decide. Qed.

(** Circuit and token coherence of an endpoint row. *)
Record quota_ok (settings : Settings) (q : EndpointQuotaState) : Prop := {
  qo_tokens : (0 <= q_delivery_tokens q <= inject_Z (endpoint_rate_burst settings))%Q;
  qo_retry : (0 <= q_retry_tokens q <= inject_Z (endpoint_retry_burst settings))%Q;
  qo_failures : 0 <= q_consecutive_failures q;
  qo_circuit : match q_circuit_state q with
               | Closed => q_circuit_open_until q = None /\ q_half_open_probe_delivery_id q = None
               | Open => is_Some (q_circuit_open_until q) /\ q_half_open_probe_delivery_id q = None
               | HalfOpen => q_circuit_open_until q = None
               end;
}.

Section Invariants.
Context `{Rounding} (settings : Settings) (now : datetime).

Lemma refill_ok q : limits_ok settings -> quota_ok settings q ->
  quota_ok settings (refill settings now q).
Proof.
  intros L [Ht Hr Hf Hc]. split; unfold refill; upd_simpl; [| | done | done].
  - apply consume_tokens_range; [apply Ht | apply L | destruct (lim_burst _ L); lia | done].
  - apply consume_tokens_range; [apply Hr | apply L | destruct (lim_retry_burst _ L); lia | done].
Qed.

Definition half_opened (q : EndpointQuotaState) : EndpointQuotaState :=
  q &{ q_circuit_state := HalfOpen } &{ q_circuit_open_until := None }
    &{ q_half_open_probe_delivery_id := None }.

(** Either the row is left alone, or it was open and is half open without a
    probe. *)
Lemma elapse_cases q q1 :
  elapse_circuit now q = Some q1 ->
  (q1 = q /\ q_circuit_state q <> Open) \/ (q_circuit_state q = Open /\ q1 = half_opened q).
Proof.
  unfold elapse_circuit. destruct (q_circuit_state q).
  - intros [= <-]. by left.
  - destruct (q_circuit_open_until q) as [t|]; [| done].
    destruct (now <? t); [done |]. intros [= <-]. by right.
  - intros [= <-]. by left.
Qed.

Lemma elapse_ok q q1 : elapse_circuit now q = Some q1 ->
  quota_ok settings q -> quota_ok settings q1.
Proof.
  intros [[-> _]|[_ ->]]%elapse_cases; [done |]. by intros [Ht Hr Hf Hc]; split.
Qed.

Lemma elapse_paused q q1 :
  elapse_circuit now q = Some q1 -> q_paused_at q1 = q_paused_at q.
Proof. by intros [[-> _]|[_ ->]]%elapse_cases. Qed.

Lemma elapse_not_open q q1 :
  elapse_circuit now q = Some q1 -> q_circuit_state q1 <> Open.
Proof. by intros [[-> ?]|[_ ->]]%elapse_cases. Qed.

Lemma elapse_tokens q q1 :
  elapse_circuit now q = Some q1 ->
  q_delivery_tokens q1 = q_delivery_tokens q /\ q_retry_tokens q1 = q_retry_tokens q.
Proof. by intros [[-> ?]|[_ ->]]%elapse_cases. Qed.

(** Spending one token of a balance that has one stays in range. *)
Lemma spend_range bal burst :
  (1 <= bal)%Q -> (0 <= bal <= inject_Z burst)%Q -> 1 <= burst <= 2 ^ 53 ->
  (0 <= fsub bal 1 <= inject_Z burst)%Q.
Proof.
  intros H1 H2 H3. split; [auto with wh |]. apply rnd_le_int; [lia |]. lra.
Qed.

Lemma elapse_idem q q1 :
  elapse_circuit now q = Some q1 -> elapse_circuit now q1 = Some q1.
Proof.
  intros He. pose proof (elapse_not_open _ _ He). unfold elapse_circuit.
  by destruct (q_circuit_state q1).
Qed.

Context (available : Z) (candidates live_rows : list Delivery).

Definition live_of_tenant (o : Z) : Z := get_count (count_by d_organization_id live_rows) o.
Definition live_of_endpoint (e : Z) : Z := get_count (count_by d_endpoint_id live_rows) e.

(** Counts: what the loop has taken is accounted for, within the caps. *)
Record count_inv (s : selection) : Prop := {
  ci_len : len (sel_selected s) <= available;
  ci_tenant o : get_count (sel_tenant_counts s) o
                = live_of_tenant o + len (of_tenant o (sel_selected s));
  ci_tenant_cap o : get_count (sel_tenant_counts s) o
                    <= Z.max (live_of_tenant o) (tenant_in_flight_deliveries settings);
  ci_endpoint e : get_count (sel_endpoint_counts s) e
                  = live_of_endpoint e + len (of_endpoint e (sel_selected s));
  ci_endpoint_cap e : get_count (sel_endpoint_counts s) e
                      <= Z.max (live_of_endpoint e) (endpoint_concurrency settings);
}.

(** Queues: per tenant and endpoint, what is selected followed by what is
    left is the candidate list, in order. *)
Definition fifo_inv (s : selection) : Prop :=
  forall k, of_group k (sel_selected s) ++ default [] (sel_grouped s !! k)
            = of_group k candidates.

(** Rows: every locked row is coherent and agrees with the balances. *)
Definition quota_inv (s : selection) : Prop :=
  forall e q, sel_quotas s !! e = Some q ->
    quota_ok settings q /\ sel_balances s !! e = Some (q_delivery_tokens q)
    /\ sel_retry_balances s !! e = Some (q_retry_tokens q).

(** Circuits: work is only taken from endpoints that are not paused and not
    open, and from a half-open endpoint only its one probe. *)
Definition probe_inv (s : selection) : Prop :=
  forall e, of_endpoint e (sel_selected s) <> [] ->
    exists q, sel_quotas s !! e = Some q /\
    q_paused_at q = None /\ q_circuit_state q <> Open /\
    (q_circuit_state q = HalfOpen ->
       exists d, of_endpoint e (sel_selected s) = [d]
                 /\ q_half_open_probe_delivery_id q = Some (d_id d)).

Lemma head_in_group org e s d queue :
  fifo_inv s -> default [] (sel_grouped s !! (org, e)) = d :: queue ->
  d_organization_id d = org /\ d_endpoint_id d = e /\ d ∈ candidates.
Proof.
  intros Hf Hg. specialize (Hf (org, e)). rewrite Hg in Hf.
  assert (d ∈ of_group (org, e) candidates) as Hin by (rewrite <- Hf; set_solver).
  apply list_elem_of_filter in Hin as [Hk Hin]. by injection Hk.
Qed.

Lemma selected_in_candidates s d : fifo_inv s -> d ∈ sel_selected s -> d ∈ candidates.
Proof.
  intros Hf Hd. specialize (Hf (group_key d)).
  assert (d ∈ of_group (group_key d) candidates) as Hin.
  { rewrite <- Hf. apply elem_of_app. left. by apply list_elem_of_filter. }
  by apply list_elem_of_filter in Hin as [_ ?].
Qed.

(** A delivery still queued has an id no selected delivery has. *)
Lemma fifo_disjoint s k d d' :
  NoDup (map d_id candidates) -> fifo_inv s ->
  d ∈ default [] (sel_grouped s !! k) -> d' ∈ sel_selected s -> d_id d = d_id d' -> False.
Proof.
  intros Hnd Hf Hd Hd' Hid.
  assert (d ∈ of_group k candidates) as Hin by (rewrite <- (Hf k); set_solver).
  apply list_elem_of_filter in Hin as [Hk Hin].
  assert (d = d') as <- by (eapply NoDup_map_inj; eauto using selected_in_candidates).
  assert (NoDup (of_group k candidates)) as Hng
    by (apply list.NoDup_filter; by eapply NoDup_fmap_1).
  rewrite <- (Hf k), list.NoDup_app in Hng. destruct Hng as (_ & Hng & _).
  apply (Hng d); [by apply list_elem_of_filter | done].
Qed.

Lemma NoDup_groups (l : list Delivery) :
  (forall k, NoDup (map d_id (of_group k l))) ->
  (forall d d', d ∈ l -> d' ∈ l -> d_id d = d_id d' -> d = d') -> NoDup (map d_id l).
Proof.
  induction l as [| d l IH]; intros Hg Hinj; [constructor |].
  cbn. apply list.NoDup_cons. split.
  - intros (d' & Hid & Hd')%list_elem_of_fmap.
    assert (d = d') as <- by (apply Hinj; set_solver).
    specialize (Hg (group_key d)). unfold of_group in Hg. rewrite filter_cons in Hg.
    rewrite decide_True in Hg by done. cbn in Hg. apply list.NoDup_cons in Hg as [Hg _].
    apply Hg, list_elem_of_fmap_2. by apply list_elem_of_filter.
  - apply IH; [| intros; apply Hinj; set_solver].
    intros k. specialize (Hg k). unfold of_group in Hg. rewrite filter_cons in Hg.
    case_decide; [| done]. cbn in Hg. by apply list.NoDup_cons in Hg as [_ Hg].
Qed.

Lemma fifo_NoDup s :
  NoDup (map d_id candidates) -> fifo_inv s -> NoDup (map d_id (sel_selected s)).
Proof.
  intros Hnd Hf. apply NoDup_groups.
  - intros k. assert (NoDup (map d_id (of_group k candidates))) as Hg
      by (by apply NoDup_map_filter).
    rewrite <- (Hf k), map_app in Hg. by apply list.NoDup_app in Hg as [Hg _].
  - intros d d' Hd Hd'. eapply NoDup_map_inj; eauto using selected_in_candidates.
Qed.

Section Step.
Context (org e : Z) (s : selection).
Context (d : Delivery) (queue : list Delivery) (q q1 : EndpointQuotaState) (bal rb : Q)
  (t : TenantQuotaState).
Hypothesis El : eligible settings now org e s d queue q q1 bal rb t.
Let s' := pick now org e d queue q1 bal rb t (with_quota e q1 s).

Lemma pick_fifo : fifo_inv s -> fifo_inv s'.
Proof.
  intros Hf k. pose proof (el_queue El) as Hq.
  destruct (head_in_group _ _ _ _ _ Hf Hq) as (Ho & He & _).
  specialize (Hf k). unfold s', pick, of_group in *. cbn.
  assert (group_key d = (org, e)) as Hk by (unfold group_key; congruence).
  rewrite filter_snoc, lookup_insert, Hk.
  destruct (decide ((org, e) = k)) as [<-|]; cbn.
  - rewrite Hq in Hf. by rewrite <- (assoc_L (++)).
  - by rewrite (right_id_L [] (++)).
Qed.

Lemma pick_count :
  fifo_inv s -> len (sel_selected s) < available ->
  get_count (sel_tenant_counts s) org < tenant_in_flight_deliveries settings ->
  count_inv s -> count_inv s'.
Proof.
  intros Hf Hav Htc [Hl Ht Htcap He Hecap].
  destruct (head_in_group _ _ _ _ _ Hf (el_queue El))
    as (Hdo & Hde & _).
  pose proof (el_concurrency El) as Hec.
  split; unfold s', pick; cbn; intros.
  - rewrite len_app, len_single. lia.
  - rewrite get_count_insert, !Ht. unfold of_tenant. rewrite filter_snoc, len_app, Hdo.
    case_decide; subst; rewrite ?len_nil, ?len_single; lia.
  - rewrite get_count_insert. case_decide; subst; [lia | apply Htcap].
  - rewrite get_count_insert, !He. unfold of_endpoint. rewrite filter_snoc, len_app, Hde.
    case_decide; subst; rewrite ?len_nil, ?len_single; lia.
  - rewrite get_count_insert. case_decide; subst; [lia | apply Hecap].
Qed.

(** The row the selection leaves behind. *)
Definition picked_row : EndpointQuotaState :=
  let is_retry := 0 <? d_attempt_count d in
  let q2 := if is_retry then q1 &{ q_retry_tokens := fsub rb 1 } else q1 in
  (if half_open q2 then q2 &{ q_half_open_probe_delivery_id := Some (d_id d) } else q2)
    &{ q_delivery_tokens := fsub bal 1 }.

Lemma pick_quotas :
  sel_quotas s' = <[e := picked_row]> (sel_quotas s).
Proof.
  unfold s', pick, picked_row, with_quota. cbn. rewrite insert_insert_eq.
  by destruct (0 <? d_attempt_count d).
Qed.

Lemma picked_row_circuit :
  q_circuit_state picked_row = q_circuit_state q1 /\
  q_paused_at picked_row = q_paused_at q1 /\
  q_circuit_open_until picked_row = q_circuit_open_until q1 /\
  q_consecutive_failures picked_row = q_consecutive_failures q1 /\
  q_half_open_probe_delivery_id picked_row =
    (if half_open q1 then Some (d_id d) else q_half_open_probe_delivery_id q1).
Proof.
  unfold picked_row, half_open.
  destruct (0 <? d_attempt_count d); upd_simpl;
    case_bool_decide as Hh; upd_simpl; auto.
Qed.

Lemma picked_row_tokens :
  q_delivery_tokens picked_row = fsub bal 1 /\
  q_retry_tokens picked_row =
    (if 0 <? d_attempt_count d then fsub rb 1 else q_retry_tokens q1).
Proof.
  unfold picked_row, half_open.
  destruct (0 <? d_attempt_count d); upd_simpl;
    case_bool_decide as Hh; upd_simpl; auto.
Qed.

Lemma pick_quota : limits_ok settings -> quota_inv s -> quota_inv s'.
Proof.
  intros L Hq e' q' He'. rewrite pick_quotas in He'. unfold s', pick. cbn.
  rewrite !lookup_insert. rewrite lookup_insert in He'.
  destruct (decide (e = e')) as [<-|]; [| by apply Hq].
  destruct (Hq e q (el_quota El)) as (Hok & Hb & Hr).
  rewrite (el_balance El) in Hb. rewrite (el_retry El) in Hr.
  pose proof (el_rate El) as H1. pose proof (el_retry_rate El) as H2.
  pose proof (elapse_ok q q1 (el_circuit El) Hok) as [Ht1 Hr1 Hf1 Hc1].
  destruct (elapse_tokens q q1 (el_circuit El)) as [Et Er].
  destruct picked_row_circuit as (Pc & Pp & Pu & Pf & Pr).
  destruct picked_row_tokens as [Pt Prt].
  injection He' as <-. injection Hb as ->. injection Hr as ->.
  rewrite Pt, Prt, <- Er. split; [| by destruct (0 <? d_attempt_count d)].
  split.
  - rewrite Pt, <- Et. rewrite <- Et in H1. apply spend_range; [done | done | apply L].
  - rewrite Prt. destruct (Z.ltb_spec 0 (d_attempt_count d)) as [Ha|]; [| done].
    rewrite <- Er in *. apply spend_range; [auto | done | apply L].
  - by rewrite Pf.
  - rewrite Pc, Pu, Pr. unfold half_open.
    destruct (q_circuit_state q1); rewrite ?bool_decide_true, ?bool_decide_false by done;
      done.
Qed.

Lemma pick_probe :
  NoDup (map d_id candidates) -> fifo_inv s -> probe_inv s -> probe_inv s'.
Proof.
  intros Hnd Hf Hp e' Hne. rewrite pick_quotas.
  destruct (head_in_group _ _ _ _ _ Hf (el_queue El)) as (Hdo & Hde & Hdin).
  assert (of_endpoint e' (sel_selected s') =
          of_endpoint e' (sel_selected s) ++ (if decide (e = e') then [d] else [])) as Hsel.
  { unfold s', pick, of_endpoint. cbn. by rewrite filter_snoc, Hde. }
  rewrite lookup_insert. rewrite Hsel in *.
  destruct (decide (e = e')) as [<-|].
  2: { rewrite (right_id_L [] (++)) in *. by apply Hp. }
  eexists; split; [done |].
  destruct picked_row_circuit as (-> & -> & _ & _ & ->).
  pose proof (el_circuit El) as Hc. pose proof (elapse_paused _ _ Hc) as Hpa.
  rewrite Hpa, (el_unpaused El).
  split; [done |]. split; [by eapply elapse_not_open |]. intros Hh.
  unfold half_open. rewrite bool_decide_true by done. exists d. split; [| done].
  destruct (of_endpoint e (sel_selected s)) as [| d0 l] eqn:Es; [done | exfalso].
  destruct (Hp e ltac:(by rewrite Es)) as (q0 & Hq0 & _ & Hno & Hprobe).
  rewrite (el_quota El) in Hq0. injection Hq0 as <-.
  apply elapse_cases in Hc as [[-> _]|[? _]]; [| done].
  destruct (Hprobe Hh) as (d1 & Hd1 & Hpr). rewrite Es in Hd1. injection Hd1 as -> ->.
  assert (d_id d = d_id d1) as Hid.
  { pose proof (el_probe El) as Hb. unfold probe_blocks, half_open in Hb.
    rewrite bool_decide_true, Hpr in Hb by done. cbn in Hb.
    destruct (Z.eqb_spec (d_id d1) (d_id d)); [done | by cbn in Hb]. }
  assert (d1 ∈ of_endpoint e (sel_selected s)) as H1 by (rewrite Es; set_solver).
  apply list_elem_of_filter in H1 as [_ H1].
  eapply (fifo_disjoint s (org, e)); eauto. rewrite (el_queue El). set_solver.
Qed.
End Step.

(** Opening the half-open window of an endpoint that yields nothing. *)
Lemma with_quota_quota e q q1 s :
  sel_quotas s !! e = Some q -> elapse_circuit now q = Some q1 ->
  quota_inv s -> quota_inv (with_quota e q1 s).
Proof.
  intros He Hc Hq e' q' He'. unfold with_quota in *. upd_simpl.
  rewrite lookup_insert in He'. case_decide; subst; [| by apply Hq].
  injection He' as <-. destruct (Hq e' q He) as (Hok & Hb & Hr).
  destruct (elapse_tokens q q1 Hc) as [-> ->]. eauto using elapse_ok.
Qed.

Lemma with_quota_probe e q q1 s :
  sel_quotas s !! e = Some q -> elapse_circuit now q = Some q1 ->
  probe_inv s -> probe_inv (with_quota e q1 s).
Proof.
  intros He Hc Hp e' Hne. unfold with_quota in *. upd_simpl.
  destruct (Hp e' Hne) as (q0 & Hq0 & Hpa & Hno & Hpr).
  rewrite lookup_insert. case_decide; subst; [| by eauto].
  rewrite He in Hq0. injection Hq0 as <-. exists q1.
  apply elapse_cases in Hc as [[-> _]|[? _]]; done.
Qed.

Record loop_inv (s : selection) : Prop := {
  loop_count : count_inv s;
  loop_fifo : fifo_inv s;
  loop_quota : quota_inv s;
  loop_probe : probe_inv s;
}.

Lemma loop_inv_order s o : loop_inv s -> loop_inv (s &{ sel_order := o }).
Proof. by intros [[] ? ? ?]. Qed.

Lemma loop_inv_step org e s s' b :
  limits_ok settings -> NoDup (map d_id candidates) ->
  loop_inv s -> len (sel_selected s) < available ->
  get_count (sel_tenant_counts s) org < tenant_in_flight_deliveries settings ->
  try_endpoint settings now org e s = Ok (s', b) -> loop_inv s'.
Proof.
  intros L Hnd [Hc Hf Hq Hp] Hav Htc
    [[_ ->]|[(_ & q & q1 & He & Hel & ->)|(_ & d & queue & q & q1 & bal & rb & t & El & ->)]]%try_endpoint_inv.
  - by split.
  - split; [by destruct Hc; split | done | by eapply with_quota_quota | by eapply with_quota_probe].
  - split; [by eapply pick_count | by eapply pick_fifo | by eapply pick_quota | by eapply pick_probe].
Qed.

Lemma rounds_loop_inv fuel orgs s s' :
  limits_ok settings -> NoDup (map d_id candidates) ->
  loop_inv s -> rounds settings now fuel available orgs s = Some (Ok s') -> loop_inv s'.
Proof.
  intros L Hnd. apply rounds_ind; [intros; by apply loop_inv_order |].
  intros. by eapply loop_inv_step.
Qed.

(** ** The loop ends *)

Lemma try_endpoint_len org e s s' b :
  try_endpoint settings now org e s = Ok (s', b) ->
  len (sel_selected s') = len (sel_selected s) + (if b then 1 else 0).
Proof.
  intros [[-> ->]|[(-> & q & q1 & He & Hel & ->)|(-> & d & queue & q & q1 & bal & rb & t & El & ->)]]%try_endpoint_inv;
    cbn; [lia | lia |]. by rewrite len_app, len_single.
Qed.

Lemma scan_endpoints_len n org s s' b :
  scan_endpoints settings now n org s = Ok (s', b) ->
  len (sel_selected s') = len (sel_selected s) + (if b then 1 else 0).
Proof.
  revert s; induction n as [| n IH]; intros s Hs; cbn in Hs; [simplify_eq; lia |].
  destruct (sel_order s !! org) as [[| e rest]|]; try done.
  apply res_bind_ok in Hs as ([s1 picked] & H1 & Hs). apply try_endpoint_len in H1.
  destruct picked; [by simplify_eq | apply IH in Hs; upd_simpl; lia].
Qed.

Lemma pass_len orgs s p s' p' :
  pass settings now available orgs s p = Ok (s', p') ->
  len (sel_selected s) <= len (sel_selected s') /\
  (p = false -> p' = true -> len (sel_selected s) < len (sel_selected s')).
Proof.
  revert s p; induction orgs as [| org orgs IH]; intros s p Hs; cbn in Hs.
  { simplify_eq. split; [lia | congruence]. }
  destruct (available <=? len (sel_selected s)); [simplify_eq; split; [lia | congruence] |].
  destruct (tenant_in_flight_deliveries settings <=? _); [by eapply IH |].
  apply res_bind_ok in Hs as (eps & _ & Hs).
  apply res_bind_ok in Hs as ([s1 picked] & H1 & Hs).
  apply scan_endpoints_len in H1. apply IH in Hs as [Hle Hlt].
  split; [destruct picked; lia |]. intros -> ->. destruct picked; [lia |].
  cbn in Hlt. specialize (Hlt eq_refl eq_refl). lia.
Qed.

Lemma rounds_total fuel orgs s :
  available - len (sel_selected s) <= Z.of_nat fuel ->
  is_Some (rounds settings now fuel available orgs s).
Proof.
  revert s; induction fuel as [| fuel IH]; intros s Hfuel; cbn;
    destruct (Z.ltb_spec (len (sel_selected s)) available); eauto; [lia |].
  destruct (pass _ _ _ _ _ _) as [[s1 []]|e] eqn:Ep; eauto.
  apply IH. apply pass_len in Ep as [_ Ep]. specialize (Ep eq_refl eq_refl). lia.
Qed.

(** ** The initial state *)

Lemma group_candidates_lookup l k :
  default [] (group_candidates l !! k) = of_group k l.
Proof.
  unfold group_candidates, of_group. induction l as [| d l IH] using rev_ind; [done |].
  rewrite foldl_app, filter_snoc. cbn. rewrite lookup_insert, <- IH.
  change (d_organization_id d, d_endpoint_id d) with (group_key d).
  case_decide; subst; [done |]. by rewrite (right_id_L [] (++)).
Qed.

Lemma loop_inv_initial order tenants quotas global :
  limits_ok settings -> 0 <= available ->
  map_Forall (fun _ q => quota_ok settings q) quotas ->
  loop_inv (initial_selection settings now candidates live_rows order tenants quotas global).
Proof.
  intros L Hav Hq. split.
  - split; cbn; intros; unfold of_tenant, of_endpoint; rewrite ?filter_nil, ?len_nil;
      unfold live_of_tenant, live_of_endpoint; lia.
  - intros k. exact (group_candidates_lookup candidates k).
  - intros e q He. cbn in *. rewrite lookup_fmap in He. rewrite !lookup_fmap.
    destruct (quotas !! e) as [q0|] eqn:E0; [| done]. injection He as <-. cbn.
    split; [apply refill_ok; [done | by eapply Hq] | done].
  - intros e Hne. by contradict Hne.
Qed.
End Invariants.

Lemma count_by_spec key l k :
  get_count (count_by key l) k = len (filter (fun d => key d = k) l).
Proof.
  induction l as [| d l IH]; [done |]. rewrite filter_cons.
  unfold count_by in *. cbn [foldr]. rewrite get_count_insert.
  case_decide; subst; [| done]. unfold len, get_count in *. rewrite IH. cbn. lia.
Qed.

(** ** The candidate query *)

Lemma due_by_tenant_rows now db :
  map snd (due_by_tenant now db) = t_where (due now) (db_deliveries db).
Proof.
  unfold due_by_tenant, due_by_endpoint. rewrite !map_map. cbn. by rewrite map_id.
Qed.

Lemma fair_candidates_elem now scan per db i :
  i ∈ fair_candidate_ids now scan per db ->
  exists d, d_id d = i /\ due now d = true /\ exists k, rows (db_deliveries db) !! k = Some d.
Proof.
  unfold fair_candidate_ids. intros (r & -> & Hr)%list_elem_of_fmap.
  apply elem_of_take in Hr as (n & Hr & _). apply list_elem_of_lookup_2 in Hr.
  apply order_by_elem, list_elem_of_filter in Hr as [_ Hr].
  assert (r.2 ∈ t_where (due now) (db_deliveries db)) as Hin
    by (rewrite <- due_by_tenant_rows; by apply list_elem_of_fmap_2).
  apply t_where_spec in Hin. eauto.
Qed.

Lemma fair_candidates_NoDup now scan per db :
  t_keyed d_id (db_deliveries db) -> NoDup (fair_candidate_ids now scan per db).
Proof.
  intros Hk. unfold fair_candidate_ids.
  set (f := fun r : Z * Delivery => d_id r.2).
  assert (NoDup (map f (due_by_tenant now db))) as Hn.
  { unfold f. rewrite <- (map_map snd d_id), due_by_tenant_rows. by apply t_where_NoDup. }
  change (map f (take ?n ?l)) with (f <$> take n l).
  rewrite fmap_take. eapply sublist_NoDup; [| apply sublist_take].
  eapply NoDup_Permutation_proper; [apply fmap_Permutation, order_by_perm |].
  by apply NoDup_map_filter.
Qed.

(** ** Selection as a whole *)

Lemma is_Some_insert {K V} `{Countable K} (m : gmap K V) k v k' :
  is_Some (m !! k') -> is_Some (<[k := v]> m !! k').
Proof. rewrite lookup_insert. case_decide; eauto. Qed.

Lemma sess_eta s : Sess (committed s) (working s) = s.
Proof. by destruct s. Qed.

Section SelectSpec.
Context `{Rounding} (settings : Settings) (now : datetime).

Definition ensured_tenants (l : list Z) (m : gmap Z TenantQuotaState) :
    gmap Z TenantQuotaState :=
  foldl (fun m o => insert_do_nothing o (tenant_quota_values o settings now) m) m l.
Definition ensured_quotas (l : list Z) (m : gmap Z EndpointQuotaState) :
    gmap Z EndpointQuotaState :=
  foldl (fun m e => insert_do_nothing e (endpoint_quota_values e settings now) m) m l.

Lemma mfor_ensure_tenants l s :
  mfor (fun o => ensure_tenant_state o settings now) l s =
  (Ok (), Sess (committed s)
     ((working s) &{ db_tenants := ensured_tenants l (db_tenants (working s)) })).
Proof.
  revert s; induction l as [| o l IH]; intros s; [by destruct s as [? []] |].
  cbn [mfor]. unfold mbind, M_bind, ensure_tenant_state, modify. by rewrite IH.
Qed.

Lemma mfor_ensure_quotas l s :
  mfor (fun e => ensure_endpoint_state e settings now) l s =
  (Ok (), Sess (committed s)
     ((working s) &{ db_quotas := ensured_quotas l (db_quotas (working s)) })).
Proof.
  revert s; induction l as [| e l IH]; intros s; [by destruct s as [? []] |].
  cbn [mfor]. unfold mbind, M_bind, ensure_endpoint_state, modify. by rewrite IH.
Qed.

Lemma endpoint_quota_values_ok e : limits_ok settings ->
  quota_ok settings (endpoint_quota_values e settings now).
Proof.
  intros L. destruct (lim_burst _ L), (lim_retry_burst _ L).
  split; cbn; [| | done | done]; rewrite float_of_exact by lia;
    (split; [rewrite <- (Zle_Qle 0); lia | apply Qle_refl]).
Qed.

Lemma ensured_quotas_ok l m : limits_ok settings ->
  map_Forall (fun _ q => quota_ok settings q) m ->
  map_Forall (fun _ q => quota_ok settings q) (ensured_quotas l m).
Proof.
  intros L. revert m; induction l as [| e l IH]; intros m Hm; [done |].
  cbn. apply IH. unfold insert_do_nothing. case_match; [done |].
  apply map_Forall_insert_2; [by apply endpoint_quota_values_ok | done].
Qed.

Lemma insert_do_nothing_some {V} (k : Z) (v : V) m i :
  is_Some (m !! i) \/ i = k -> is_Some (insert_do_nothing k v m !! i).
Proof.
  unfold insert_do_nothing. destruct (m !! k) eqn:E.
  - intros [?| ->]; eauto.
  - intros [?| ->]; [by apply is_Some_insert |]. rewrite lookup_insert_eq. eauto.
Qed.

Lemma ensured_tenants_some l m o :
  is_Some (m !! o) \/ o ∈ l -> is_Some (ensured_tenants l m !! o).
Proof.
  revert m; induction l as [| x l IH]; intros m; cbn.
  - intros [?|?%elem_of_nil]; done.
  - intros Ho. apply IH. rewrite elem_of_cons in Ho.
    destruct Ho as [?|[->|?]]; [left | left | by right]; apply insert_do_nothing_some; auto.
Qed.

Lemma ensured_quotas_some l m e :
  is_Some (m !! e) \/ e ∈ l -> is_Some (ensured_quotas l m !! e).
Proof.
  revert m; induction l as [| x l IH]; intros m; cbn.
  - intros [?|?%elem_of_nil]; done.
  - intros Ho. apply IH. rewrite elem_of_cons in Ho.
    destruct Ho as [?|[->|?]]; [left | left | by right]; apply insert_do_nothing_some; auto.
Qed.

(** What a selection promises to the claim that called it. *)
Record selection_ok (unlocked : Z -> bool) (requested : Z) (db db' : Db)
    (l : list Delivery) : Prop := {
  so_requested : len l <= Z.max 0 requested;
  so_global : let live_rows := t_where (live now) (db_deliveries db) in
    len live_rows + len l <= Z.max (len live_rows) (worker_global_concurrency settings);
  so_tenant o : let live_rows := t_where (live now) (db_deliveries db) in
    len (of_tenant o live_rows) + len (of_tenant o l)
    <= Z.max (len (of_tenant o live_rows)) (tenant_in_flight_deliveries settings);
  so_endpoint e : let live_rows := t_where (live now) (db_deliveries db) in
    len (of_endpoint e live_rows) + len (of_endpoint e l)
    <= Z.max (len (of_endpoint e live_rows)) (endpoint_concurrency settings);
  so_nodup : NoDup (map d_id l);
  so_due d : d ∈ l -> due now d = true /\ unlocked (d_id d) = true
                      /\ t_get (d_id d) (db_deliveries db) = Some d;
  so_quotas : map_Forall (fun _ q => quota_ok settings q) (db_quotas db');
  so_probe d : d ∈ l -> exists q, db_quotas db' !! d_endpoint_id d = Some q /\
    q_paused_at q = None /\ q_circuit_state q <> Open /\
    (q_circuit_state q = HalfOpen ->
       of_endpoint (d_endpoint_id d) l = [d] /\
       q_half_open_probe_delivery_id q = Some (d_id d));
  so_kept e : is_Some (db_quotas db !! e) -> is_Some (db_quotas db' !! e);
  so_frame : exists Q T G, db' = db &{ db_quotas := Q } &{ db_tenants := T }
                                    &{ db_global_state := G };
}.

Lemma selection_ok_nil unlocked requested db Q T G :
  map_Forall (fun _ q => quota_ok settings q) Q ->
  (forall e, is_Some (db_quotas db !! e) -> is_Some (Q !! e)) ->
  selection_ok unlocked requested db
    (db &{ db_quotas := Q } &{ db_tenants := T } &{ db_global_state := G }) [].
Proof.
  intros HQ Hkept. split; cbn zeta.
  - rewrite len_nil. lia.
  - rewrite len_nil. lia.
  - intros o. change (of_tenant o []) with (@nil Delivery). rewrite len_nil. lia.
  - intros e. change (of_endpoint e []) with (@nil Delivery). rewrite len_nil. lia.
  - constructor.
  - intros d Hd. inversion Hd.
  - done.
  - intros d Hd. inversion Hd.
  - done.
  - by exists Q, T, G.
Qed.

Lemma candidates_of_query (unlocked : Z -> bool) scan per db :
  t_keyed d_id (db_deliveries db) ->
  let cs := omap (fun i => if unlocked i then t_get i (db_deliveries db) else None)
              (fair_candidate_ids now scan per db) in
  NoDup (map d_id cs) /\
  forall d, d ∈ cs -> due now d = true /\ unlocked (d_id d) = true
                     /\ t_get (d_id d) (db_deliveries db) = Some d.
Proof.
  intros Hk cs. split.
  - apply NoDup_map_omap; [| by apply fair_candidates_NoDup].
    intros i d. destruct (unlocked i); [apply Hk | done].
  - intros d (i & Hi & Hd)%list_elem_of_omap.
    destruct (unlocked i) eqn:Eu; [| done].
    pose proof (Hk _ _ Hd) as <-. split; [| done].
    apply fair_candidates_elem in Hi as (d' & Hid & Hdue & k & Hd').
    pose proof (Hk _ _ Hd') as <-. unfold t_get in Hd. rewrite <- Hid in Hd. congruence.
Qed.

(** The postcondition of the loop gives the promise. *)
Lemma loop_inv_selection_ok (unlocked : Z -> bool) requested db available candidates s
    (Q : gmap Z EndpointQuotaState) T G :
  let live_rows := t_where (live now) (db_deliveries db) in
  available = Z.min requested (worker_global_concurrency settings - len live_rows) ->
  NoDup (map d_id candidates) ->
  (forall d : Delivery, d ∈ candidates -> due now d = true /\ unlocked (d_id d) = true
             /\ t_get (d_id d) (db_deliveries db) = Some d) ->
  map_Forall (fun _ q => quota_ok settings q) Q ->
  (forall e, is_Some (db_quotas db !! e) -> is_Some (Q !! e)) ->
  loop_inv settings available candidates live_rows s ->
  selection_ok unlocked requested db
    (db &{ db_quotas := sel_quotas s ∪ Q } &{ db_tenants := T } &{ db_global_state := G })
    (sel_selected s).
Proof.
  intros live_rows Hav Hnd Hcs HQ Hkept [[Hl Ht Htc He Hec] Hf Hq Hp].
  subst live_rows. split; [lia | cbn zeta; lia | | | | | | | |].
  - intros o. specialize (Ht o). specialize (Htc o). unfold live_of_tenant in *.
    rewrite count_by_spec in Ht, Htc. unfold of_tenant in *. cbn zeta. lia.
  - intros e. specialize (He e). specialize (Hec e). unfold live_of_endpoint in *.
    rewrite count_by_spec in He, Hec. unfold of_endpoint in *. cbn zeta. lia.
  - by eapply fifo_NoDup.
  - intros d Hd. by eapply Hcs, selected_in_candidates.
  - upd_simpl. apply map_Forall_union_2; [| done]. intros e q Heq. by apply Hq in Heq as [? _].
  - intros d Hd. upd_simpl.
    assert (d ∈ of_endpoint (d_endpoint_id d) (sel_selected s)) as Hin
      by (by apply list_elem_of_filter).
    destruct (Hp (d_endpoint_id d)) as (q & Hqe & Hpa & Hno & Hh).
    { intros E. rewrite E in Hin. inversion Hin. }
    exists q. split; [by apply lookup_union_Some_l |]. split; [done |]. split; [done |].
    intros Hho. destruct (Hh Hho) as (d' & Es & Hpr). rewrite Es in Hin |- *.
    apply list_elem_of_singleton in Hin as ->. done.
  - intros e Hs. upd_simpl. apply lookup_union_is_Some. right. auto.
  - by eexists _, _, _.
Qed.

Lemma db_eta_quota db :
  db &{ db_quotas := db_quotas db } &{ db_tenants := db_tenants db }
     &{ db_global_state := db_global_state db } = db.
Proof. by destruct db. Qed.

Lemma select_fair_deliveries_ok unlocked requested s l s' :
  limits_ok settings -> t_keyed d_id (db_deliveries (working s)) ->
  map_Forall (fun _ q => quota_ok settings q) (db_quotas (working s)) ->
  select_fair_deliveries settings now unlocked requested s = (Ok l, s') ->
  committed s' = committed s /\
  selection_ok unlocked requested (working s) (working s') l.
Proof.
  intros L Hk HQ Hs. unfold select_fair_deliveries in Hs.
  apply M_bind_ok in Hs as (? & s1 & H1 & Hs).
  unfold ensure_global_state in H1. apply modify_ok in H1.
  set (G := match db_global_state (working s) with Some _ => _ | None => _ end) in H1.
  assert (s1 = Sess (committed s) ((working s) &{ db_quotas := db_quotas (working s) }
            &{ db_tenants := db_tenants (working s) } &{ db_global_state := G })) as ->
    by (rewrite H1; by destruct (working s)).
  clear H1. m_next Hs. upd_simpl. set (live_rows := t_where (live now) _) in *.
  match type of Hs with (if ?b then _ else _) _ = _ => destruct (Z.leb_spec
    (Z.min requested (worker_global_concurrency settings - len live_rows)) 0) end.
  { m_inv. split; [done |]. by apply selection_ok_nil. }
  m_next Hs. upd_simpl.
  set (av := Z.min requested _) in *.
  match type of Hs with context [omap ?f ?l] => set (cs := omap f l) in * end.
  assert (NoDup (map d_id cs) /\
          forall d, d ∈ cs -> due now d = true /\ unlocked (d_id d) = true
                    /\ t_get (d_id d) (db_deliveries (working s)) = Some d) as [Hnd Hcs]
    by exact (candidates_of_query unlocked (worker_candidate_scan_limit settings)
                (Z.max (av * 2) (endpoint_concurrency settings)) (working s) Hk).
  destruct cs as [| c0 cs0] eqn:Ecs.
  { m_inv. split; [done |]. by apply selection_ok_nil. }
  rewrite <- Ecs in *. clearbody cs. clear Ecs c0 cs0.
  unfold mbind at 1, M_bind at 1 in Hs. rewrite mfor_ensure_tenants in Hs. cbn beta iota in Hs.
  unfold mbind at 1, M_bind at 1 in Hs. rewrite mfor_ensure_quotas in Hs. cbn beta iota in Hs.
  m_next Hs. upd_simpl.
  match type of Hs with context [rounds ?a ?b ?c ?d ?e ?f] =>
    set (s0 := f) in *; destruct (rounds a b c d e s0) as [[sf|?]|] eqn:Er end;
    m_inv; upd_simpl.
  split; [done |].
  eapply (loop_inv_selection_ok unlocked requested (working s) av cs); try done.
  { by apply ensured_quotas_ok. }
  { intros e He. apply ensured_quotas_some. by left. }
  eapply rounds_loop_inv; [done | done | | exact Er].
  apply loop_inv_initial; [done | lia |].
  intros e q Hq. apply map_lookup_filter_Some in Hq as [Hq _].
  by eapply ensured_quotas_ok.
Qed.
End SelectSpec.

(** ** The loop never raises *)

Section Total.
Context `{Rounding} (settings : Settings) (now : datetime).

Definition queued_in (s : selection) (org e : Z) : Prop :=
  default [] (sel_grouped s !! (org, e)) <> [].

Record rows_present (s : selection) : Prop := {
  rp_quota org e : queued_in s org e -> is_Some (sel_quotas s !! e);
  rp_balance org e : queued_in s org e -> is_Some (sel_balances s !! e);
  rp_retry org e : queued_in s org e -> is_Some (sel_retry_balances s !! e);
  rp_tenant org e : queued_in s org e -> is_Some (sel_tenants s !! org);
}.

Lemma try_endpoint_total org e s :
  rows_present s -> exists s' b, try_endpoint settings now org e s = Ok (s', b).
Proof.
  intros [Hq Hb Hr Ht]. specialize (Hq org e). specialize (Hb org e). specialize (Hr org e).
  specialize (Ht org e). unfold queued_in in *. unfold try_endpoint.
  destruct (default [] _) as [| d queue]; [eauto |].
  destruct Hq as [q Hq]; [done |]. destruct Hb as [bal Hb]; [done |].
  destruct Hr as [rb Hr]; [done |]. destruct Ht as [t Ht]; [done |].
  rewrite Hq. cbn. destruct (bool_decide (is_Some (q_paused_at q))); [eauto |].
  destruct (elapse_circuit now q); [| eauto].
  repeat (case_match; [by eauto |]). rewrite Hb. cbn.
  repeat (case_match; [by eauto |]). rewrite Hr. cbn.
  repeat (case_match; [by eauto |]). rewrite Ht. cbn. eauto.
Qed.

Lemma try_endpoint_rows org e s s' b :
  try_endpoint settings now org e s = Ok (s', b) ->
  rows_present s -> rows_present s' /\ sel_order s' = sel_order s.
Proof.
  intros Hs [Hq Hb Hr Ht].
  apply try_endpoint_inv in Hs as
    [[_ ->]|[(_ & q & q1 & He & Hel & ->)|(_ & d & queue & q & q1 & bal & rb & t & El & ->)]].
  - by split.
  - split; [| done]. split; unfold with_quota, queued_in in *; upd_simpl; eauto.
    intros o e' Hne. apply is_Some_insert. eauto.
  - split; [| done].
    assert (forall o e', queued_in (pick now org e d queue q1 bal rb t (with_quota e q1 s)) o e'
              -> queued_in s o e') as Hmono.
    { intros o e'. unfold queued_in, pick. cbn. rewrite lookup_insert.
      case_decide as E; [| done]. injection E as <- <-. by rewrite (el_queue El). }
    split; intros o e' Hne; apply Hmono in Hne; unfold pick; cbn;
      repeat apply is_Some_insert; eauto.
Qed.

Lemma scan_endpoints_total n org s l :
  rows_present s -> sel_order s !! org = Some l -> (n <= length l)%nat ->
  exists s' b, scan_endpoints settings now n org s = Ok (s', b) /\ rows_present s'
    /\ forall o, is_Some (sel_order s !! o) -> is_Some (sel_order s' !! o).
Proof.
  revert s l; induction n as [| n IH]; intros s l Hp Ho Hn; cbn; [eauto 6 |].
  rewrite Ho. destruct l as [| e rest]; cbn in Hn; [lia |].
  set (s1 := s &{ sel_order := <[org := rest ++ [e]]> (sel_order s) }).
  assert (rows_present s1) as Hp1 by (by destruct Hp).
  destruct (try_endpoint_total org e s1 Hp1) as (s2 & b & E2). rewrite E2. cbn.
  apply try_endpoint_rows in E2 as [Hp2 Ho2]; [| done].
  assert (forall o, is_Some (sel_order s !! o) -> is_Some (sel_order s2 !! o)) as Hmono.
  { intros o. rewrite Ho2. unfold s1. upd_simpl. apply is_Some_insert. }
  destruct b; [eauto 6 |].
  destruct (IH s2 (rest ++ [e])) as (s3 & b3 & E3 & Hp3 & Hm3); [done | | |].
  - rewrite Ho2. unfold s1. upd_simpl. apply lookup_insert_eq.
  - rewrite length_app. cbn. lia.
  - exists s3, b3. eauto.
Qed.

Lemma pass_total available orgs s p :
  rows_present s -> (forall o, o ∈ orgs -> is_Some (sel_order s !! o)) ->
  exists s' p', pass settings now available orgs s p = Ok (s', p') /\ rows_present s'
    /\ forall o, is_Some (sel_order s !! o) -> is_Some (sel_order s' !! o).
Proof.
  revert s p; induction orgs as [| org orgs IH]; intros s p Hp Ho; cbn; [eauto 6 |].
  case_match; [eauto 6 |]. case_match; [apply IH; set_solver |].
  destruct (Ho org ltac:(set_solver)) as [l Hl]. rewrite Hl. cbn.
  destruct (scan_endpoints_total (length l) org s l) as (s1 & b & E1 & Hp1 & Hm1); try done.
  rewrite E1. cbn.
  destruct (IH s1 (p || b)) as (s2 & p2 & E2 & Hp2 & Hm2); [done | set_solver |].
  exists s2, p2. eauto.
Qed.

Lemma rounds_no_raise fuel available orgs s e :
  rows_present s -> (forall o, o ∈ orgs -> is_Some (sel_order s !! o)) ->
  rounds settings now fuel available orgs s <> Some (Raise e).
Proof.
  revert s; induction fuel as [| fuel IH]; intros s Hp Ho; cbn; case_match; try done.
  destruct (pass_total available orgs s false Hp Ho) as (s1 & p1 & -> & Hp1 & Hm1).
  destruct p1; [| done]. apply IH; [done |]. intros o Hin. by apply Hm1, Ho.
Qed.
End Total.

(** ** Work conservation *)

Section Conserve.
Context `{Rounding} (settings : Settings) (now : datetime).

(** Nothing of this endpoint's queue may be dispatched now. *)
Definition blocked (s : selection) (org e : Z) : Prop :=
  match try_endpoint settings now org e s with
  | Ok (_, picked) => picked = false
  | Raise _ => False
  end.

(** States that differ only in rotation and in circuits whose open time has
    elapsed. *)
Record settles (s s' : selection) : Prop := {
  st_selected : sel_selected s' = sel_selected s;
  st_tenant : sel_tenant_counts s' = sel_tenant_counts s;
  st_endpoint : sel_endpoint_counts s' = sel_endpoint_counts s;
  st_balances : sel_balances s' = sel_balances s;
  st_retry : sel_retry_balances s' = sel_retry_balances s;
  st_grouped : sel_grouped s' = sel_grouped s;
  st_tenants : sel_tenants s' = sel_tenants s;
  st_quotas e : sel_quotas s' !! e = sel_quotas s !! e \/
    exists q q1, sel_quotas s !! e = Some q /\ elapse_circuit now q = Some q1
                 /\ sel_quotas s' !! e = Some q1;
}.

#[export] Instance settles_refl : Reflexive settles.
Proof. intros s. split; auto. Qed.

#[export] Instance settles_trans : Transitive settles.
Proof.
  intros s1 s2 s3 [E1 E2 E3 E4 E5 E6 E7 Q] [F1 F2 F3 F4 F5 F6 F7 R].
  split; try congruence. intros e.
  destruct (Q e) as [Qe|(q & q1 & A & B & C)], (R e) as [Re|(r & r1 & A' & B' & C')].
  - left. congruence.
  - right. exists r, r1. split; [congruence | done].
  - right. exists q, q1. split; [done |]. split; [done | congruence].
  - right. exists q, q1. split; [done |]. split; [done |].
    assert (r = q1) as -> by congruence. apply elapse_idem in B. congruence.
Qed.

Lemma settles_order s o : settles s (s &{ sel_order := o }).
Proof. split; auto. Qed.

Lemma try_endpoint_settles org e s s' :
  try_endpoint settings now org e s = Ok (s', false) -> settles s s'.
Proof.
  intros [[_ ->]|[(_ & q & q1 & He & Hel & ->)|[? _]]]%try_endpoint_inv;
    [done | | done].
  split; try done. intros e'. unfold with_quota. upd_simpl. rewrite lookup_insert.
  case_decide; subst; [| by left]. right. by exists q, q1.
Qed.

(** Follow the guards after the circuit test in step, on both sides. *)
Ltac guards s org e :=
  destruct (probe_blocks _ _); [done |];
  destruct (endpoint_concurrency settings <=? _); [done |];
  destruct (sel_balances s !! e); cbn; [| done];
  destruct (qlt _ _); [done |];
  destruct (sel_retry_balances s !! e); cbn; [| done];
  destruct (_ && _); [done |];
  destruct (sel_tenants s !! org); done.

Lemma blocked_settles s s' org e : settles s s' -> blocked s org e -> blocked s' org e.
Proof.
  intros [E1 E2 E3 E4 E5 E6 E7 Q]. unfold blocked, try_endpoint.
  rewrite E3, E4, E5, E6, E7. destruct (default [] _) as [| d queue]; [done |].
  destruct (Q e) as [->|(q & q1 & -> & Hel & ->)]; cbn.
  - destruct (sel_quotas s !! e) as [q|]; cbn; [| done].
    destruct (bool_decide _); [done |]. destruct (elapse_circuit now q); [| done].
    guards s org e.
  - rewrite (elapse_paused now q q1 Hel). destruct (bool_decide _); [done |].
    rewrite Hel, (elapse_idem now q q1 Hel). guards s org e.
Qed.

Lemma scan_endpoints_blocked n org s s' l :
  sel_order s !! org = Some l ->
  scan_endpoints settings now n org s = Ok (s', false) -> (n <= length l)%nat ->
  settles s s' /\ forall e, e ∈ take n l -> blocked s' org e.
Proof.
  revert s l; induction n as [| n IH]; intros s l Ho Hs Hn; cbn in Hs.
  { simplify_eq. split; [done |]. intros e He. inversion He. }
  rewrite Ho in Hs. destruct l as [| e rest]; [done |]. cbn in Hn.
  apply res_bind_ok in Hs as ([s1 b] & H1 & Hs). destruct b; [done |].
  set (s0 := s &{ sel_order := <[org := rest ++ [e]]> (sel_order s) }) in *.
  assert (sel_order s1 !! org = Some (rest ++ [e])) as Ho1.
  { assert (sel_order s1 = sel_order s0) as ->.
    { by apply try_endpoint_inv in H1 as [[_ ->]|[(_ & ? & ? & _ & _ & ->)|[? _]]]. }
    unfold s0. upd_simpl. apply lookup_insert_eq. }
  destruct (IH s1 (rest ++ [e])) as [Hst Hb]; [done | done | rewrite length_app; cbn; lia |].
  assert (settles s0 s1) as Hst1 by (by eapply try_endpoint_settles).
  split; [transitivity s0; [apply settles_order | by transitivity s1] |].
  intros e' He'. cbn in He'. apply elem_of_cons in He' as [->|He'].
  - eapply blocked_settles; [exact Hst |]. eapply blocked_settles; [exact Hst1 |].
    unfold blocked. by rewrite H1.
  - apply Hb. rewrite take_app_le by lia. done.
Qed.
Definition in_rotation (s : selection) (org e : Z) : Prop :=
  e ∈ default [] (sel_order s !! org).

Definition at_cap (s : selection) (org : Z) : Prop :=
  tenant_in_flight_deliveries settings <= get_count (sel_tenant_counts s) org.

Lemma rotate_rotation s org e rest o e' :
  sel_order s !! org = Some (e :: rest) ->
  in_rotation (s &{ sel_order := <[org := rest ++ [e]]> (sel_order s) }) o e'
  <-> in_rotation s o e'.
Proof.
  intros Ho. unfold in_rotation. upd_simpl. rewrite lookup_insert.
  case_decide; subst; [| done]. rewrite Ho. cbn. set_solver.
Qed.

Lemma try_endpoint_rotation org e s s' b o e' :
  try_endpoint settings now org e s = Ok (s', b) -> in_rotation s' o e' <-> in_rotation s o e'.
Proof.
  by intros [[_ ->]|[(_ & ? & ? & _ & _ & ->)|(_ & ? & ? & ? & ? & ? & ? & ? & _ & ->)]]%try_endpoint_inv.
Qed.

Lemma scan_endpoints_rotation n org s s' b o e' :
  scan_endpoints settings now n org s = Ok (s', b) -> in_rotation s' o e' <-> in_rotation s o e'.
Proof.
  revert s; induction n as [| n IH]; intros s Hs; cbn in Hs; [by simplify_eq |].
  destruct (sel_order s !! org) as [[| e rest]|] eqn:Eo; try done.
  apply res_bind_ok in Hs as ([s1 picked] & H1 & Hs).
  rewrite <- (rotate_rotation s org e rest) by done.
  apply try_endpoint_rotation with (o := o) (e' := e') in H1. rewrite <- H1.
  destruct picked; [by simplify_eq | by apply IH].
Qed.

Lemma pass_keeps_progress available orgs s s' p' :
  pass settings now available orgs s true = Ok (s', p') -> p' = true.
Proof.
  revert s; induction orgs as [| org orgs IH]; intros s Hs; cbn in Hs; [by simplify_eq |].
  case_match; [by simplify_eq |]. case_match; [by eapply IH |].
  apply res_bind_ok in Hs as (eps & _ & Hs).
  apply res_bind_ok in Hs as ([s1 picked] & _ & Hs). by eapply IH.
Qed.

Lemma pass_blocked available orgs s s' :
  len (sel_selected s) < available ->
  pass settings now available orgs s false = Ok (s', false) ->
  settles s s' /\
  forall org e, org ∈ orgs -> in_rotation s org e -> at_cap s' org \/ blocked s' org e.
Proof.
  revert s; induction orgs as [| org orgs IH]; intros s Hav Hs; cbn in Hs.
  { simplify_eq. split; [done |]. intros o e Ho. inversion Ho. }
  destruct (Z.leb_spec available (len (sel_selected s))) as [|_]; [lia |].
  destruct (Z.leb_spec (tenant_in_flight_deliveries settings)
    (get_count (sel_tenant_counts s) org)) as [Hcap|_].
  { destruct (IH s Hav Hs) as [Hst Hb]. split; [done |].
    intros o e [->|Ho]%elem_of_cons Hr; [| by apply Hb].
    left. unfold at_cap. by rewrite (st_tenant _ _ Hst). }
  apply res_bind_ok in Hs as (eps & Heps & Hs). apply key_error_ok in Heps.
  apply res_bind_ok in Hs as ([s1 picked] & H1 & Hs).
  destruct picked.
  { exfalso. apply pass_keeps_progress in Hs. done. }
  destruct (scan_endpoints_blocked (length eps) org s s1 eps) as [Hst1 Hb1]; try done.
  destruct (IH s1) as [Hst2 Hb2]; [by rewrite (st_selected _ _ Hst1) | done |].
  split; [by transitivity s1 |].
  intros o e [->|Ho]%elem_of_cons Hr.
  - right. eapply blocked_settles; [exact Hst2 |]. apply Hb1. rewrite firstn_all.
    unfold in_rotation in Hr. by rewrite Heps in Hr.
  - apply Hb2; [done |]. by eapply scan_endpoints_rotation.
Qed.

Lemma try_endpoint_queued org e s s' b o e' :
  try_endpoint settings now org e s = Ok (s', b) -> queued_in s' o e' -> queued_in s o e'.
Proof.
  intros [[_ ->]|[(_ & ? & ? & _ & _ & ->)|(_ & d & queue & ? & ? & ? & ? & ? & El & ->)]]%try_endpoint_inv;
    [done | done |].
  unfold queued_in, pick. cbn. rewrite lookup_insert. case_decide as E; [| done].
  injection E as <- <-. by rewrite (el_queue El).
Qed.

(** Every endpoint with queued work is in its tenant's rotation. *)
Definition rotation_covers (s : selection) : Prop :=
  forall o e, queued_in s o e -> in_rotation s o e.

Lemma pass_rotation_covers available orgs s p s' p' :
  rotation_covers s -> pass settings now available orgs s p = Ok (s', p') -> rotation_covers s'.
Proof.
  apply pass_ind.
  - intros s0 org e rest Ho Hc o e' Hq. apply rotate_rotation; [done |]. by apply Hc.
  - intros org e s0 s1 b Hc _ _ Ht o e' Hq.
    eapply try_endpoint_rotation; [exact Ht |]. by eapply Hc, try_endpoint_queued.
Qed.

Lemma rounds_blocked fuel available orgs s s' :
  rotation_covers s ->
  rounds settings now fuel available orgs s = Some (Ok s') ->
  len (sel_selected s') < available ->
  forall org e, org ∈ orgs -> queued_in s' org e -> at_cap s' org \/ blocked s' org e.
Proof.
  revert s; induction fuel as [| fuel IH]; intros s Hc Hs Hlt; cbn in Hs;
    destruct (Z.ltb_spec (len (sel_selected s)) available); simplify_eq; try lia.
  destruct (pass _ _ _ _ _ _) as [[s1 []]|e] eqn:Ep; simplify_eq.
  { eapply IH; [| done | done]. by eapply pass_rotation_covers. }
  apply pass_blocked in Ep as [Hst Hb]; [| done]. intros org e Ho Hq.
  apply Hb; [done |]. apply Hc. unfold queued_in in *. by rewrite <- (st_grouped _ _ Hst).
Qed.
End Conserve.
