(* ===== verification/Fairness.v ===== *)
(** * Guarantees of fair claiming

    The theorems about [select_fair_deliveries] as a whole: it always returns,
    stays inside every concurrency cap, hands out only work that may run, keeps
    the order of an endpoint's queue, uses the capacity it has, and rotates
    over tenants and endpoints. *)

From Stdlib Require Import QArith Lqa.
From stdpp Require Import sorting.
From stdpp Require Import base tactics list gmap strings numbers option.
From S2P Require Import Prelude Json Models Session Settings Admission Scheduling.
Local Open Scope Z_scope.

(** ** The run of a selection *)

Section Run.
Context `{Rounding} (settings : Settings) (now : datetime) (unlocked : Z -> bool)
  (requested : Z).

Definition global_row (db : Db) : GlobalControlState :=
  default {| g_tenant_cursor_organization_id := None; g_created_at := now;
             g_updated_at := now |} (db_global_state db).

Definition free_slots (db : Db) : Z :=
  Z.min requested
    (worker_global_concurrency settings - len (t_where (live now) (db_deliveries db))).

(** The rows [SELECT ... FOR UPDATE SKIP LOCKED] returns, in rank order. *)
Definition candidates (db : Db) : list Delivery :=
  omap (fun i => if unlocked i then t_get i (db_deliveries db) else None)
    (fair_candidate_ids now (worker_candidate_scan_limit settings)
       (Z.max (free_slots db * 2) (endpoint_concurrency settings)) db).

Definition candidate_orgs (db : Db) : list Z :=
  sorted_set (map d_organization_id (candidates db)).
Definition candidate_endpoints (db : Db) : list Z :=
  sorted_set (map d_endpoint_id (candidates db)).
Definition tenant_order (db : Db) : list Z :=
  rotate_after (candidate_orgs db) (g_tenant_cursor_organization_id (global_row db)).

Definition start (db : Db) : selection :=
  initial_selection settings now (candidates db) (t_where (live now) (db_deliveries db))
    (tenant_order db)
    (filter (fun kv => kv.1 ∈ candidate_orgs db)
       (ensured_tenants settings now (candidate_orgs db) (db_tenants db)))
    (filter (fun kv => kv.1 ∈ candidate_endpoints db)
       (ensured_quotas settings now (candidate_endpoints db) (db_quotas db)))
    (global_row db).

Definition store (db : Db) (s : selection) : Db :=
  db &{ db_quotas := sel_quotas s
          ∪ ensured_quotas settings now (candidate_endpoints db) (db_quotas db) }
     &{ db_tenants := sel_tenants s
          ∪ ensured_tenants settings now (candidate_orgs db) (db_tenants db) }
     &{ db_global_state := Some (sel_global s) }.

Definition final (db : Db) : option (res exn selection) :=
  rounds settings now (Z.to_nat (free_slots db)) (free_slots db) (tenant_order db) (start db).

Lemma select_run s :
  let db := working s in
  select_fair_deliveries settings now unlocked requested s =
  if (free_slots db <=? 0) || bool_decide (candidates db = [])
  then (Ok [], Sess (committed s) (db &{ db_global_state := Some (global_row db) }))
  else match final db with
       | Some (Ok f) => (Ok (sel_selected f), Sess (committed s) (store db f))
       | Some (Raise e) =>
           (Raise e, Sess (committed s)
              (db &{ db_global_state := Some (global_row db) }
                  &{ db_tenants :=
                       ensured_tenants settings now (candidate_orgs db) (db_tenants db) }
                  &{ db_quotas :=
                       ensured_quotas settings now (candidate_endpoints db) (db_quotas db) }))
       | None =>
           (Raise (RuntimeError "selection loop did not end"), Sess (committed s)
              (db &{ db_global_state := Some (global_row db) }
                  &{ db_tenants :=
                       ensured_tenants settings now (candidate_orgs db) (db_tenants db) }
                  &{ db_quotas :=
                       ensured_quotas settings now (candidate_endpoints db) (db_quotas db) }))
       end.
Proof.
  destruct s as [c db]. cbn zeta. cbn [working committed].
  unfold select_fair_deliveries, ensure_global_state. m_run. m_run.
  assert (match db_global_state db with
    | Some g => Some g
    | None => Some {| g_tenant_cursor_organization_id := None; g_created_at := now;
                      g_updated_at := now |}
    end = Some (global_row db)) as -> by (unfold global_row; by destruct (db_global_state db)).
  m_run. m_run.
  change (Z.min requested (worker_global_concurrency settings
    - len (t_where (live now) (db_deliveries db)))) with (free_slots db).
  destruct (free_slots db <=? 0); [done |]. cbn [orb].
  m_run. m_run.
  match goal with |- context [omap ?f ?l] => change (omap f l) with (candidates db) end.
  case_bool_decide as Hc; [by rewrite Hc |].
  destruct (candidates db) as [| c0 cs] eqn:Ec; [done |]. rewrite <- Ec.
  erewrite M_bind_run; [| apply mfor_ensure_tenants].
  erewrite M_bind_run; [| apply mfor_ensure_quotas]. cbn [working committed]. upd_simpl.
  m_run. m_run.
  fold (candidate_orgs db) (candidate_endpoints db).
  change (rotate_after (candidate_orgs db) _) with (tenant_order db).
  fold (start db). change (rounds _ _ _ _ _ _) with (final db).
  destruct (final db) as [[f|e]|]; done.
Qed.
End Run.

(** ** Rotation *)

Lemma rotate_from_perm c before rest l :
  rotate_from c before rest = Some l -> l ≡ₚ before ++ rest.
Proof.
  revert before; induction rest as [| v rest IH]; intros before; cbn; [done |].
  case_match; [intros [= <-]; apply (comm (++) (v :: rest)) |].
  intros ->%IH. by rewrite <- (assoc_L (++)).
Qed.

Lemma rotate_after_perm l c : rotate_after l c ≡ₚ l.
Proof.
  destruct c as [c|]; [| done]. cbn. destruct (rotate_from c [] l) as [l'|] eqn:E; [| done].
  by apply rotate_from_perm in E.
Qed.

Lemma rotate_from_spec c before rest l :
  Forall (fun v => v <= c) before -> rotate_from c before rest = Some l ->
  exists low high, before ++ rest = low ++ high /\ l = high ++ low
    /\ Forall (fun v => v <= c) low /\ exists v high', high = v :: high' /\ c < v.
Proof.
  revert before; induction rest as [| v rest IH]; intros before Hb; cbn; [done |].
  destruct (Z.ltb_spec c v) as [Hv|Hv].
  - intros [= <-]. exists before, (v :: rest). eauto 10.
  - intros (low & high & E & ?)%IH.
    + exists low, high. by rewrite <- E, <- (assoc_L (++)).
    + apply Forall_app. auto.
Qed.

Lemma rotate_from_none c before rest :
  rotate_from c before rest = None -> Forall (fun v => v <= c) rest.
Proof.
  revert before; induction rest as [| v rest IH]; intros before; cbn; [done |].
  destruct (Z.ltb_spec c v) as [|Hv]; [done |]. intros H. constructor; eauto.
Qed.

Lemma sorted_set_elem l x : x ∈ sorted_set l <-> x ∈ l.
Proof. unfold sorted_set. by rewrite order_by_elem, elem_of_remove_dups. Qed.

Lemma sorted_set_NoDup l : NoDup (sorted_set l).
Proof. unfold sorted_set. rewrite order_by_perm. apply NoDup_remove_dups. Qed.

Lemma sorted_set_sorted l : StronglySorted Z.le (sorted_set l).
Proof.
  unfold sorted_set. pose proof (order_by_sorted (fun z => [z]) (remove_dups l)) as Hs.
  induction Hs as [| x xs Hs IH Hx]; constructor; [done |].
  eapply List.Forall_impl; [| exact Hx]. intros y Hy. unfold key_le in Hy.
  apply Is_true_eq_true in Hy. cbn in Hy. lia.
Qed.

(** ** The loop starts complete *)

Section Start.
Context `{Rounding} (settings : Settings) (now : datetime) (unlocked : Z -> bool)
  (requested : Z) (db : Db).
Let cs := candidates settings now unlocked requested db.
Let s0 := start settings now unlocked requested db.

Lemma is_Some_filter {V} (l : list Z) (m : gmap Z V) i :
  is_Some (m !! i) -> i ∈ l -> is_Some (filter (fun kv => kv.1 ∈ l) m !! i).
Proof. intros [v Hv] Hi. exists v. by apply map_lookup_filter_Some. Qed.

Lemma start_queue org e :
  default [] (sel_grouped s0 !! (org, e)) = of_group (org, e) cs.
Proof. apply group_candidates_lookup. Qed.

Lemma start_queued org e :
  queued_in s0 org e ->
  exists d, d ∈ cs /\ d_organization_id d = org /\ d_endpoint_id d = e.
Proof.
  unfold queued_in. rewrite start_queue.
  destruct (of_group (org, e) cs) as [| d l] eqn:E; [done |]. intros _.
  assert (d ∈ of_group (org, e) cs) as Hd by (rewrite E; set_solver).
  apply list_elem_of_filter in Hd as [Hk Hd]. injection Hk as <- <-. eauto.
Qed.

Lemma candidate_keys d :
  d ∈ cs -> d_organization_id d ∈ candidate_orgs settings now unlocked requested db
            /\ d_endpoint_id d ∈ candidate_endpoints settings now unlocked requested db.
Proof.
  intros Hd. split; apply sorted_set_elem; by apply list_elem_of_fmap_2.
Qed.

Lemma start_rows_present : rows_present s0.
Proof.
  split; intros org e (d & Hd & <- & <-)%start_queued;
    destruct (candidate_keys d Hd) as [Ho He];
    unfold s0, start, initial_selection; cbn.
  4: { apply is_Some_filter; [| done]. apply ensured_tenants_some. auto. }
  all: rewrite !lookup_fmap, ?fmap_is_Some; apply is_Some_filter; [| done];
    apply ensured_quotas_some; auto.
Qed.

Lemma list_to_map_map_lookup {V} (f : Z -> V) (l : list Z) i :
  i ∈ l -> (list_to_map (map (fun o => (o, f o)) l) : gmap Z V) !! i = Some (f i).
Proof.
  induction l as [| x l IH]; [by intros ?%elem_of_nil |]. cbn.
  rewrite lookup_insert, elem_of_cons. case_decide; [by subst |]. intros [->|?]; auto. done.
Qed.

Lemma start_order org :
  org ∈ candidate_orgs settings now unlocked requested db ->
  exists l, sel_order s0 !! org = Some l /\
    forall e, e ∈ l <-> exists d, d ∈ cs /\ d_organization_id d = org /\ d_endpoint_id d = e.
Proof.
  intros Ho. eexists. split.
  { unfold s0, start, initial_selection. cbn. apply list_to_map_map_lookup.
    unfold tenant_order. by rewrite rotate_after_perm. }
  intros e. rewrite rotate_after_perm, sorted_set_elem, list_elem_of_fmap. split.
  - intros (d & -> & [Hd Hin]%list_elem_of_filter). exists d. split; [done |]. split; [| done].
    apply Is_true_eq_true in Hd. lia.
  - intros (d & Hd & <- & <-). exists d. split; [done |]. apply list_elem_of_filter.
    split; [| done]. apply Is_true_eq_left. lia.
Qed.

Lemma start_rotation_covers : rotation_covers s0.
Proof.
  intros org e (d & Hd & Ho & He)%start_queued.
  destruct (start_order org) as (l & Hl & Hspec).
  { subst org. by apply candidate_keys. }
  unfold in_rotation. rewrite Hl. cbn. apply Hspec. eauto.
Qed.

Lemma final_ok : exists f, final settings now unlocked requested db = Some (Ok f).
Proof.
  unfold final. fold s0.
  destruct (rounds_total settings now (free_slots settings now requested db)
    (Z.to_nat (free_slots settings now requested db))
    (tenant_order settings now unlocked requested db) s0) as [r Hr].
  { change (sel_selected s0) with (@nil Delivery). rewrite len_nil. lia. }
  destruct r as [f|ex]; [by exists f |]. exfalso.
  eapply (rounds_no_raise settings now); [apply start_rows_present | | exact Hr].
  intros o Ho. unfold tenant_order in Ho. rewrite rotate_after_perm in Ho.
  destruct (start_order o Ho) as (l & Hl & _). eauto.
Qed.
End Start.

(** ** The order of an endpoint's queue *)

Lemma sublist_filter_mono {A} (P : A -> Prop) `{forall x, Decision (P x)} (l k : list A) :
  l `sublist_of` k -> filter P l `sublist_of` filter P k.
Proof.
  induction 1 as [| x l k _ IH | x l k _ IH]; [done | |]; rewrite ?filter_cons;
    case_decide; try done; by constructor.
Qed.

Lemma sublist_filter {A} (P : A -> Prop) `{forall x, Decision (P x)} (xs : list A) :
  sublist (filter P xs) xs.
Proof.
  induction xs as [| a xs IH]; [done |]. rewrite filter_cons.
  case_decide; by constructor.
Qed.

Lemma sublist_map {A B} (f : A -> B) (l k : list A) :
  l `sublist_of` k -> map f l `sublist_of` map f k.
Proof. induction 1; cbn; by constructor. Qed.

Lemma sublist_omap {A B} (f : A -> option B) (l k : list A) :
  l `sublist_of` k -> omap f l `sublist_of` omap f k.
Proof.
  induction 1 as [| x l k _ IH | x l k _ IH]; cbn; [done | |];
    destruct (f x); by try constructor.
Qed.

Lemma sublist_pair_prefix {A} (x y : A) a b :
  NoDup (a ++ b) -> [x; y] `sublist_of` a ++ b -> y ∈ a -> [x; y] `sublist_of` a.
Proof.
  intros (_ & Hn & _)%list.NoDup_app Hs Hy.
  apply sublist_app_r in Hs as (k1 & k2 & E & H1 & H2).
  destruct k2 as [| z k2] using rev_ind; [by rewrite app_nil_r in E; subst |].
  rewrite (assoc_L (++)) in E.
  apply (app_inj_tail [x]) in E as [_ <-]. exfalso. apply (Hn y Hy).
  eapply elem_of_sublist; [| exact H2]. set_solver.
Qed.

Lemma sorted_pair {A} (R : A -> A -> Prop) (l : list A) x y :
  StronglySorted R l -> x ∈ l -> y ∈ l -> x <> y -> ~ R y x -> [x; y] `sublist_of` l.
Proof.
  induction 1 as [| z l Hl IH Hz]; intros Hx Hy Hne HR; [inversion Hx |].
  apply elem_of_cons in Hx as [->|Hx], Hy as [->|Hy]; [done | | |].
  - constructor. by apply singleton_sublist_l.
  - exfalso. apply HR. rewrite List.Forall_forall in Hz. apply Hz. by apply list_elem_of_In.
  - constructor. auto.
Qed.

Lemma sorted_take {A} (R : A -> A -> Prop) (l : list A) n x y :
  StronglySorted R l -> x ∈ take n l -> y ∈ l -> ~ R x y -> y ∈ take n l.
Proof.
  revert n; induction l as [| z l IH]; intros n Hs Hx Hy HR; [inversion Hy |].
  destruct n as [| n]; [inversion Hx |]. cbn in *. inversion Hs as [| ? ? Hl Hz]; subst.
  apply elem_of_cons. apply elem_of_cons in Hy as [->|Hy]; [by left |].
  apply elem_of_cons in Hx as [->|Hx]; [| right; by apply (IH n)].
  exfalso. apply HR. rewrite List.Forall_forall in Hz. apply Hz. by apply list_elem_of_In.
Qed.

Lemma sorted_take_sorted {A} (R : A -> A -> Prop) (l : list A) n :
  StronglySorted R l -> StronglySorted R (take n l).
Proof.
  revert n; induction l as [| z l IH]; intros n Hs; [by rewrite take_nil |].
  destruct n as [| n]; [constructor |]. inversion Hs as [| ? ? Hl Hz]; subst. cbn.
  constructor; [auto |]. by apply list.Forall_take.
Qed.

Lemma filter_length_lt {A} (P Q : A -> Prop) `{forall x, Decision (P x)}
    `{forall x, Decision (Q x)} l x :
  (forall y, P y -> Q y) -> x ∈ l -> Q x -> ~ P x ->
  (length (filter P l) < length (filter Q l))%nat.
Proof.
  intros HPQ Hx Qx Px. induction l as [| z l IH]; [inversion Hx |].
  assert (length (filter P l) <= length (filter Q l))%nat as Hle.
  { clear -HPQ. induction l as [| z l IH]; [done |]. rewrite !filter_cons.
    repeat case_decide; cbn; try lia. naive_solver. }
  rewrite !filter_cons. apply elem_of_cons in Hx as [->|Hx].
  - rewrite decide_False, decide_True by done. cbn. lia.
  - specialize (IH Hx). repeat case_decide; cbn; try lia. naive_solver.
Qed.

Lemma lex_lt_trans x y z : lex_lt x y = true -> lex_lt y z = true -> lex_lt x z = true.
Proof.
  unfold lex_lt. rewrite !andb_true_iff, !negb_true_iff. intros [H1 H2] [H3 H4].
  split; [by eapply lex_le_trans |]. destruct (lex_le z x) eqn:E; [| done].
  rewrite <- H4. symmetry. by eapply lex_le_trans.
Qed.

Lemma lex_lt_irrefl x : lex_lt x x = false.
Proof. unfold lex_lt. by destruct (lex_le x x). Qed.

Lemma row_number_lt {A} (same : A -> A -> bool) key (l : list A) x y :
  (forall a b c, same a b = true -> same b c = true -> same a c = true) ->
  (forall a b, same a b = true -> same b a = true) ->
  x ∈ l -> same x y = true -> lex_lt (key x) (key y) = true ->
  row_number same key l x < row_number same key l y.
Proof.
  intros Hcong Hsym Hx Hxy Hlt. unfold row_number, len.
  apply Z.add_lt_mono_l, inj_lt. apply (filter_length_lt _ _ l x); [| done | |].
  - intros z [Hz Hk]%Is_true_eq_true%andb_true_iff. apply Is_true_eq_left, andb_true_iff. split.
    + apply (Hcong _ x); [by apply Hsym | done].
    + by eapply lex_lt_trans.
  - apply Is_true_eq_left, andb_true_iff. split; [by apply Hsym | done].
  - intros [_ Hk]%Is_true_eq_true%andb_true_iff. by rewrite lex_lt_irrefl in Hk.
Qed.

(** The position of a delivery in its endpoint's queue. *)
Definition queue_key (d : Delivery) : list Z := [d_next_attempt_at d; d_id d].

Section Queue.
Context (now : datetime) (db : Db).

Definition endpoint_rank (d : Delivery) : Z :=
  row_number (fun a b => (d_organization_id a =? d_organization_id b)
                         && (d_endpoint_id a =? d_endpoint_id b))
    queue_key (t_where (due now) (db_deliveries db)) d.

Definition tenant_rank (r : Z * Delivery) : Z :=
  row_number (fun a b => d_organization_id a.2 =? d_organization_id b.2)
    (fun a => [a.1; d_next_attempt_at a.2; d_id a.2]) (due_by_endpoint now db) r.

Lemma due_by_tenant_elem d :
  d ∈ t_where (due now) (db_deliveries db) ->
  (tenant_rank (endpoint_rank d, d), d) ∈ due_by_tenant now db.
Proof.
  intros Hd. unfold due_by_tenant.
  apply list_elem_of_fmap. exists (endpoint_rank d, d). split; [done |].
  apply list_elem_of_fmap. by exists d.
Qed.

Lemma due_by_tenant_rank r :
  r ∈ due_by_tenant now db ->
  r.1 = tenant_rank (endpoint_rank r.2, r.2) /\ r.2 ∈ t_where (due now) (db_deliveries db).
Proof.
  unfold due_by_tenant. intros (r' & -> & Hr)%list_elem_of_fmap.
  apply list_elem_of_fmap in Hr as (d & -> & Hd). done.
Qed.

Lemma tenant_rank_lt d d' :
  d' ∈ t_where (due now) (db_deliveries db) -> group_key d' = group_key d ->
  lex_lt (queue_key d') (queue_key d) = true ->
  tenant_rank (endpoint_rank d', d') < tenant_rank (endpoint_rank d, d).
Proof.
  intros Hd' Hg Hlt. injection Hg as Ho He.
  assert (endpoint_rank d' < endpoint_rank d) as Hr.
  { apply row_number_lt; [naive_solver lia | naive_solver lia | done | | done].
    rewrite Ho, He. lia. }
  apply row_number_lt; [naive_solver lia | naive_solver lia | | cbn; lia |].
  - apply list_elem_of_fmap. by exists d'.
  - unfold lex_lt. cbn.
    destruct (Z.ltb_spec (endpoint_rank d') (endpoint_rank d)); [| lia].
    destruct (Z.ltb_spec (endpoint_rank d) (endpoint_rank d')); [lia |].
    destruct (Z.eqb_spec (endpoint_rank d) (endpoint_rank d')); [lia | done].
Qed.

(** A due delivery ahead of a candidate in the same queue is a candidate too,
    and earlier in the list. *)
Lemma candidate_ids_fifo scan per d d' :
  d ∈ t_where (due now) (db_deliveries db) -> t_keyed d_id (db_deliveries db) ->
  d_id d ∈ fair_candidate_ids now scan per db ->
  d' ∈ t_where (due now) (db_deliveries db) -> group_key d' = group_key d ->
  lex_lt (queue_key d') (queue_key d) = true ->
  [d_id d'; d_id d] `sublist_of` fair_candidate_ids now scan per db.
Proof.
  intros Hd Hk Hc Hd' Hg Hlt. pose proof (tenant_rank_lt d d' Hd' Hg Hlt) as Hr.
  unfold fair_candidate_ids in *.
  set (key := fun r : Z * Delivery => [r.1; d_next_attempt_at r.2; d_id r.2]) in *.
  set (rows := filter _ _) in *.
  apply list_elem_of_fmap in Hc as (r & Hid & Hin).
  assert (r ∈ rows) as Hrow.
  { eapply (order_by_elem key). apply elem_of_take in Hin as (n & Hn & _).
    by eapply list_elem_of_lookup_2. }
  assert (Hrow' := Hrow). apply list_elem_of_filter in Hrow' as [Hper Hrow'].
  apply due_by_tenant_rank in Hrow' as [Hr1 Hr2].
  assert (r.2 = d) as Er.
  { eapply (NoDup_map_inj d_id); [by apply (t_where_NoDup d_id (due now)) | done | done | done]. }
  rewrite Er in Hr1. set (r' := (tenant_rank (endpoint_rank d', d'), d')).
  assert (~ key_le key r r') as Hno.
  { unfold key_le, key. cbn. intros HH%Is_true_eq_true.
    rewrite orb_true_iff, andb_true_iff in HH. lia. }
  assert (r' ∈ take (Z.to_nat scan) (order_by key rows)) as Hin'.
  { eapply sorted_take; [apply order_by_sorted | exact Hin | | exact Hno].
    apply order_by_elem, list_elem_of_filter. apply Is_true_eq_true in Hper.
    split; [apply Is_true_eq_left; unfold r'; cbn; lia | by apply due_by_tenant_elem]. }
  rewrite <- Er. apply (sublist_map (fun r => d_id r.2) [r'; r]).
  eapply sorted_pair; [| exact Hin' | exact Hin | | exact Hno].
  - apply sorted_take_sorted, order_by_sorted.
  - intros E. apply (f_equal fst) in E. rewrite Hr1 in E. cbn in E. lia.
Qed.
End Queue.

(** ** Guarantees *)

Section Guarantees.
Context `{Rounding} (settings : Settings) (now : datetime) (unlocked : Z -> bool)
  (requested : Z).

(** A selection that returned either found nothing to do or ran its loop. *)
Lemma select_returned s l s' :
  select_fair_deliveries settings now unlocked requested s = (Ok l, s') ->
  let db := working s in
  (l = [] /\ (free_slots settings now requested db <= 0
              \/ candidates settings now unlocked requested db = [])) \/
  exists f, final settings now unlocked requested db = Some (Ok f)
            /\ l = sel_selected f /\ working s' = store settings now unlocked requested db f.
Proof.
  rewrite select_run. cbn zeta. intros Hs.
  destruct ((_ <=? 0) || _) eqn:E.
  - left. split; [congruence |].
    apply orb_true_iff in E as [E|E]; [left; lia | right; by apply bool_decide_eq_true in E].
  - right. destruct (final_ok settings now unlocked requested (working s)) as [f Hf].
    rewrite Hf in Hs. exists f. split; [done |]. by simplify_eq/=.
Qed.

Lemma final_fifo db f :
  final settings now unlocked requested db = Some (Ok f) ->
  fifo_inv (candidates settings now unlocked requested db) f.
Proof.
  unfold final. apply rounds_ind; [done | |].
  - intros org e s s' b Hf _ _
      [[_ ->]|[(_ & q & q1 & He & Hel & ->)|(_ & d & queue & q & q1 & bal & rb & t & El & ->)]]%try_endpoint_inv;
      [done | done |]. by eapply pick_fifo.
  - intros k. exact (group_candidates_lookup _ k).
Qed.

Lemma final_loop_inv db f :
  limits_ok settings -> t_keyed d_id (db_deliveries db) ->
  map_Forall (fun _ q => quota_ok settings q) (db_quotas db) ->
  0 <= free_slots settings now requested db ->
  final settings now unlocked requested db = Some (Ok f) ->
  loop_inv settings (free_slots settings now requested db)
    (candidates settings now unlocked requested db)
    (t_where (live now) (db_deliveries db)) f.
Proof.
  intros L Hk HQ Hav. apply rounds_loop_inv; [done | |].
  - by apply candidates_of_query.
  - apply loop_inv_initial; [done | done |].
    intros e q [Hq _]%map_lookup_filter_Some. by eapply ensured_quotas_ok.
Qed.

(** Why the head of an endpoint's queue cannot be dispatched. *)
Definition stalled (q : EndpointQuotaState) (in_flight : Z) (head : Delivery) : Prop :=
  is_Some (q_paused_at q)
  \/ (q_circuit_state q = Open /\
      match q_circuit_open_until q with Some t => now < t | None => True end)
  \/ (q_circuit_state q = HalfOpen /\
      exists p, q_half_open_probe_delivery_id q = Some p /\ p <> d_id head)
  \/ endpoint_concurrency settings <= in_flight
  \/ (q_delivery_tokens q < 1)%Q
  \/ (0 < d_attempt_count head /\ (q_retry_tokens q < 1)%Q).

Lemma blocked_stalled s org e d queue q :
  default [] (sel_grouped s !! (org, e)) = d :: queue -> sel_quotas s !! e = Some q ->
  quota_inv settings s -> blocked settings now s org e ->
  stalled q (get_count (sel_endpoint_counts s) e) d.
Proof.
  intros Hg Hq Hqi. destruct (Hqi e q Hq) as (_ & Hb & Hr).
  unfold blocked, try_endpoint, stalled. rewrite Hg, Hq. cbn.
  case_bool_decide as Hp; [by left |]. intros Hbl. right.
  destruct (elapse_circuit now q) as [q1|] eqn:Ec.
  2: { left. unfold elapse_circuit in Ec. destruct (q_circuit_state q) eqn:Es; try done.
       split; [done |]. destruct (q_circuit_open_until q) as [t|]; [| done].
       destruct (Z.ltb_spec now t); done. }
  destruct (probe_blocks q1 d) eqn:Epb.
  { right. left. unfold probe_blocks, half_open in Epb.
    apply andb_true_iff in Epb as [Hh Epb]. apply bool_decide_eq_true in Hh.
    apply elapse_cases in Ec as [[-> _]|[_ ->]]; [| done].
    split; [done |]. destruct (q_half_open_probe_delivery_id q) as [p|]; [| done].
    exists p. split; [done |]. apply negb_true_iff, Z.eqb_neq in Epb. done. }
  do 2 right. destruct (Z.leb_spec (endpoint_concurrency settings)
    (get_count (sel_endpoint_counts s) e)); [by left | right].
  rewrite Hb in Hbl. cbn in Hbl. destruct (qlt (q_delivery_tokens q) 1) eqn:Et;
    [left; by apply qlt_true | right].
  rewrite Hr in Hbl. cbn in Hbl.
  destruct ((0 <? d_attempt_count d) && qlt (q_retry_tokens q) 1) eqn:Er.
  { apply andb_true_iff in Er as [? ?%qlt_true]. split; [lia | done]. }
  by destruct (sel_tenants s !! org).
Qed.
End Guarantees.

Section Conservation.
Context `{Rounding} (settings : Settings) (now : datetime) (unlocked : Z -> bool)
  (requested : Z) (db : Db) (f : selection).
Let cs := candidates settings now unlocked requested db.
Let live_rows := t_where (live now) (db_deliveries db).
Hypothesis Hk : t_keyed d_id (db_deliveries db).
Hypothesis Hf : final settings now unlocked requested db = Some (Ok f).

Lemma unselected_queued d :
  d ∈ cs -> d ∉ sel_selected f ->
  exists head queue,
    default [] (sel_grouped f !! (d_organization_id d, d_endpoint_id d)) = head :: queue
    /\ head ∈ cs /\ head ∉ sel_selected f
    /\ d_organization_id head = d_organization_id d /\ d_endpoint_id head = d_endpoint_id d.
Proof.
  intros Hd Hnot. pose proof (final_fifo settings now unlocked requested db f Hf) as Hfifo.
  fold cs in Hfifo. pose proof (Hfifo (group_key d)) as Hg.
  assert (d ∈ of_group (group_key d) cs) as Hin by (by apply list_elem_of_filter).
  rewrite <- Hg in Hin. apply elem_of_app in Hin as [[_ ?]%list_elem_of_filter|Hin]; [done |].
  destruct (default [] (sel_grouped f !! group_key d)) as [| head queue] eqn:Eq;
    [inversion Hin |].
  exists head, queue. split; [done |].
  destruct (head_in_group cs _ _ f head queue Hfifo Eq) as (Ho & He & Hh).
  split; [done |]. split; [| done]. intros Hsel.
  eapply (fifo_disjoint cs f (group_key d) head head); try done.
  - by apply candidates_of_query.
  - rewrite Eq. set_solver.
Qed.

Lemma final_work_conserving d :
  limits_ok settings -> map_Forall (fun _ q => quota_ok settings q) (db_quotas db) ->
  len (sel_selected f) < free_slots settings now requested db ->
  d ∈ cs -> d ∉ sel_selected f ->
  let o := d_organization_id d in
  let e := d_endpoint_id d in
  tenant_in_flight_deliveries settings
    <= len (of_tenant o live_rows) + len (of_tenant o (sel_selected f)) \/
  exists head q, head ∈ cs /\ head ∉ sel_selected f /\ d_endpoint_id head = e
    /\ db_quotas (store settings now unlocked requested db f) !! e = Some q
    /\ stalled settings now q
         (len (of_endpoint e live_rows) + len (of_endpoint e (sel_selected f))) head.
Proof.
  intros L HQ Hlt Hd Hnot o e.
  destruct (unselected_queued d Hd Hnot) as (head & queue & Hg & Hh & Hhn & Ho & He).
  assert (0 <= free_slots settings now requested db) as Hav by (unfold len in Hlt; lia).
  pose proof (final_loop_inv settings now unlocked requested db f L Hk HQ Hav Hf)
    as [[_ Ht _ Hec _] _ Hqi _].
  assert (at_cap settings f o \/ blocked settings now f o e) as [Hcap|Hbl].
  { eapply rounds_blocked; [apply start_rotation_covers | exact Hf | done | |].
    - unfold tenant_order. rewrite rotate_after_perm. by apply candidate_keys.
    - unfold queued_in. fold o e in Hg. by rewrite Hg. }
  - left. unfold at_cap in Hcap. rewrite Ht in Hcap. unfold live_of_tenant in Hcap.
    by rewrite count_by_spec in Hcap.
  - right.
    destruct (sel_quotas f !! e) as [q|] eqn:Eq.
    2: { exfalso. unfold blocked, try_endpoint in Hbl. fold o e in Hg.
         rewrite Hg, Eq in Hbl. done. }
    exists head, q. repeat (split; [done |]). split.
    { unfold store. upd_simpl. by apply lookup_union_Some_l. }
    pose proof (blocked_stalled settings now f o e head queue q Hg Eq Hqi Hbl) as Hs.
    rewrite Hec in Hs. unfold live_of_endpoint in Hs. by rewrite count_by_spec in Hs.
Qed.
End Conservation.

Lemma selected_in_queue_order `{Rounding} settings now unlocked requested s l s' d d' :
  t_keyed d_id (db_deliveries (working s)) ->
  select_fair_deliveries settings now unlocked requested s = (Ok l, s') ->
  d ∈ l ->
  t_get (d_id d') (db_deliveries (working s)) = Some d' ->
  due now d' = true -> unlocked (d_id d') = true ->
  group_key d' = group_key d -> lex_lt (queue_key d') (queue_key d) = true ->
  [d'; d] `sublist_of` l.
Proof.
  intros Hk Hs Hd Hd' Hdue Hun Hg Hlt.
  apply select_returned in Hs as [[-> _]|(f & Hf & -> & _)]; [inversion Hd |].
  set (cs := candidates settings now unlocked requested (working s)).
  pose proof (final_fifo settings now unlocked requested (working s) f Hf) as Hfifo.
  destruct (candidates_of_query now unlocked (worker_candidate_scan_limit settings)
    (Z.max (free_slots settings now requested (working s) * 2) (endpoint_concurrency settings))
    (working s) Hk) as [Hnd Hcs]. fold (candidates settings now unlocked requested (working s)) in Hnd, Hcs.
  assert (Hdc := selected_in_candidates _ _ _ Hfifo Hd). destruct (Hcs d Hdc) as (Hdd & Hdu & Hdg).
  assert ([d'; d] `sublist_of` cs) as Hsub.
  { assert ([d_id d'; d_id d] `sublist_of` fair_candidate_ids now
      (worker_candidate_scan_limit settings)
      (Z.max (free_slots settings now requested (working s) * 2) (endpoint_concurrency settings))
      (working s)) as Hids.
    { apply candidate_ids_fifo; try done.
      - apply t_where_spec. eauto.
      - unfold cs, candidates in Hdc. apply list_elem_of_omap in Hdc as (i & Hi & Hdi).
        destruct (unlocked i); [| done]. by rewrite (Hk _ _ Hdi).
      - apply t_where_spec. eauto. }
    apply (sublist_omap (fun i => if unlocked i then t_get i (db_deliveries (working s)) else None))
      in Hids. cbn in Hids. by rewrite Hun, Hdu, Hd', Hdg in Hids. }
  apply (sublist_filter_mono (fun x => group_key x = group_key d)) in Hsub.
  rewrite !filter_cons, !decide_True, filter_nil in Hsub by done.
  pose proof (Hfifo (group_key d)) as Happ. fold cs in Happ. unfold of_group in Happ.
  rewrite <- Happ in Hsub. apply sublist_pair_prefix in Hsub.
  - etrans; [exact Hsub | apply sublist_filter].
  - rewrite Happ. apply list.NoDup_filter. by eapply NoDup_fmap_1.
  - by apply list_elem_of_filter.
Qed.

(** A call that hands back a result, not an exception, and commits nothing. *)
Definition returns {A} (m : M A) (s : session) : Prop :=
  exists a s', m s = (Ok a, s') /\ committed s' = committed s.

(** C8: a selection always comes back.  Whatever the database holds, the
    nested loops of [select_fair_deliveries] end within [available] rounds, no
    lookup of a locked row fails, and nothing is committed on the way. *)
Theorem select_fair_deliveries_total `{Rounding} settings now unlocked requested s :
  returns (select_fair_deliveries settings now unlocked requested) s.
Proof.
  unfold returns. rewrite select_run. cbn zeta. case_match; [eauto |].
  destruct (final_ok settings now unlocked requested (working s)) as [f ->]. eauto.
Qed.

(** C6: concurrency caps.  With the leases that are live and the deliveries
    the selection adds, the deployment, every tenant and every endpoint stay
    within their configured concurrency (or where they already were, when live
    leases exceed it), and no more than requested is handed out. *)
Theorem select_within_caps `{Rounding} settings now unlocked requested s l s' :
  limits_ok settings -> t_keyed d_id (db_deliveries (working s)) ->
  map_Forall (fun _ q => quota_ok settings q) (db_quotas (working s)) ->
  select_fair_deliveries settings now unlocked requested s = (Ok l, s') ->
  let live_rows := t_where (live now) (db_deliveries (working s)) in
  len l <= Z.max 0 requested /\
  len live_rows + len l <= Z.max (len live_rows) (worker_global_concurrency settings) /\
  (forall o, len (of_tenant o live_rows) + len (of_tenant o l)
     <= Z.max (len (of_tenant o live_rows)) (tenant_in_flight_deliveries settings)) /\
  (forall e, len (of_endpoint e live_rows) + len (of_endpoint e l)
     <= Z.max (len (of_endpoint e live_rows)) (endpoint_concurrency settings)).
Proof.
  intros L Hk HQ Hs. apply select_fair_deliveries_ok in Hs as [_ []]; try done.
Qed.

(** An endpoint row that lets [d] go out, as one of the deliveries [l]. *)
Definition dispatchable (q : EndpointQuotaState) (l : list Delivery) (d : Delivery) : Prop :=
  q_paused_at q = None /\ q_circuit_state q <> Open /\
  (q_circuit_state q = HalfOpen ->
     of_endpoint (d_endpoint_id d) l = [d] /\ q_half_open_probe_delivery_id q = Some (d_id d)).

(** C7: only runnable work.  Each selected delivery is a distinct row that is
    due and was not locked by another worker; its endpoint is neither paused
    nor open, and from a half-open endpoint exactly one delivery is taken,
    which the endpoint row then names as its probe.  Every endpoint row stays
    coherent. *)
Theorem select_only_runnable `{Rounding} settings now unlocked requested s l s' :
  limits_ok settings -> t_keyed d_id (db_deliveries (working s)) ->
  map_Forall (fun _ q => quota_ok settings q) (db_quotas (working s)) ->
  select_fair_deliveries settings now unlocked requested s = (Ok l, s') ->
  NoDup (map d_id l) /\
  map_Forall (fun _ q => quota_ok settings q) (db_quotas (working s')) /\
  forall d, d ∈ l ->
    due now d = true /\ unlocked (d_id d) = true /\
    t_get (d_id d) (db_deliveries (working s)) = Some d /\
    exists q, db_quotas (working s') !! d_endpoint_id d = Some q /\ dispatchable q l d.
Proof.
  intros L Hk HQ Hs. apply select_fair_deliveries_ok in Hs as [_ [_ _ _ _ Hn Hd Hq Hp _]]; try done.
  split; [done |]. split; [done |]. intros d Hin. destruct (Hd d Hin) as (? & ? & ?). eauto.
Qed.

(** First come, first served within an endpoint.  A selected delivery is
    preceded in the selection by every due and unlocked delivery of the same
    tenant and endpoint that has an earlier [next_attempt_at] (or the same and
    a smaller id): the caps and the scan limits never let a delivery overtake
    another one of its queue. *)
Theorem select_queue_order `{Rounding} settings now unlocked requested s l s' d d' :
  t_keyed d_id (db_deliveries (working s)) ->
  select_fair_deliveries settings now unlocked requested s = (Ok l, s') ->
  d ∈ l ->
  t_get (d_id d') (db_deliveries (working s)) = Some d' ->
  due now d' = true -> unlocked (d_id d') = true ->
  group_key d' = group_key d -> lex_lt (queue_key d') (queue_key d) = true ->
  [d'; d] `sublist_of` l.
Proof. apply selected_in_queue_order. Qed.

(** Work conservation.  When a selection ends with free slots left, every
    candidate it passed over belongs to a tenant at its in-flight cap, or waits
    behind a head of its endpoint's queue that cannot be dispatched: the
    endpoint is paused, open, already probing another delivery, at its
    concurrency, out of delivery tokens, or out of retry tokens for a retry. *)
Theorem select_work_conserving `{Rounding} settings now unlocked requested s l s' d :
  limits_ok settings -> t_keyed d_id (db_deliveries (working s)) ->
  map_Forall (fun _ q => quota_ok settings q) (db_quotas (working s)) ->
  select_fair_deliveries settings now unlocked requested s = (Ok l, s') ->
  len l < free_slots settings now requested (working s) ->
  d ∈ candidates settings now unlocked requested (working s) -> d ∉ l ->
  let live_rows := t_where (live now) (db_deliveries (working s)) in
  let o := d_organization_id d in
  let e := d_endpoint_id d in
  tenant_in_flight_deliveries settings <= len (of_tenant o live_rows) + len (of_tenant o l) \/
  exists head q,
    head ∈ candidates settings now unlocked requested (working s) /\ head ∉ l /\
    d_endpoint_id head = e /\ db_quotas (working s') !! e = Some q /\
    stalled settings now q (len (of_endpoint e live_rows) + len (of_endpoint e l)) head.
Proof.
  intros L Hk HQ Hs Hlt Hd Hnot.
  apply select_returned in Hs as [[-> [?|Hnil]]|(f & Hf & -> & ->)].
  - rewrite len_nil in Hlt. lia.
  - rewrite Hnil in Hd. inversion Hd.
  - by apply final_work_conserving.
Qed.

(** [turn] serves the ids of [l] beyond the cursor [c] first, then the others. *)
Definition resumes_after (c : Z) (l turn : list Z) : Prop :=
  exists low high, l = low ++ high /\ Forall (fun v => v <= c) low /\
    Forall (fun v => c < v) high /\ turn = high ++ low.

(** Rotation.  [rotate_after] returns the sorted ids unchanged in
    content, starting with the first id after the cursor and ending with the
    ids up to it, so that the tenant (or endpoint) served last is served last
    again; when no id is after the cursor it starts over. *)
Theorem rotate_after_resumes l c :
  StronglySorted Z.le l -> resumes_after c l (rotate_after l (Some c)).
Proof.
  intros Hs. unfold resumes_after, rotate_after. destruct (rotate_from c [] l) as [l'|] eqn:E.
  - destruct (rotate_from_spec c [] l l' ltac:(constructor) E)
      as (low & high & El & -> & Hlow & v & high' & -> & Hv).
    cbn in El. subst l. exists low, (v :: high'). repeat (split; [done |]). split; [| done].
    constructor; [done |].
    clear -Hs Hv. induction low as [| x low IH]; [| inversion Hs; auto].
    cbn in Hs. inversion Hs as [| ? ? _ Hall]; subst.
    eapply List.Forall_impl; [| exact Hall]. cbn. intros. lia.
  - exists l, []. rewrite app_nil_r. apply rotate_from_none in E. eauto.
Qed.

Lemma rotate_after_resumes_witness :
  rotate_after [1; 3; 5; 8] (Some 3) = [5; 8; 1; 3] /\
  resumes_after 3 [1; 3; 5; 8] (rotate_after [1; 3; 5; 8] (Some 3)).
Proof.
  split; [reflexivity |]. apply rotate_after_resumes.
  repeat constructor; lia.
Defined.

(** ** A deployment to run the selection on *)

Module Demo.
Definition delivery (id org endpoint attempts : Z) (next : datetime) : Delivery :=
  {| d_id := id; d_public_id := [id]; d_organization_id := org; d_event_id := id;
     d_endpoint_id := endpoint; d_replay_of_delivery_id := None;
     d_endpoint_public_id_snapshot := [endpoint]; d_endpoint_url_snapshot := py "https://e";
     d_endpoint_active_snapshot := true; d_signing_secret_version_snapshot := 1;
     d_signature_scheme_snapshot := Legacy; d_status := Pending;
     d_attempt_count := attempts; d_next_attempt_at := next; d_lease_token := None;
     d_lease_expires_at := None; d_last_http_status := None; d_last_error := None;
     d_created_at := 0; d_updated_at := 0; d_succeeded_at := None; d_dead_at := None;
     d_dead_reason := None; d_canceled_at := None; d_canceled_reason := None |}.

Definition delivery_table (l : list Delivery) : table Delivery :=
  Table (list_to_map (map (fun d => (d_id d, d)) l)) 100.

(** Two tenants; the second endpoint is half open. *)
Definition quota (endpoint : Z) : EndpointQuotaState :=
  @endpoint_quota_values exact_rounding endpoint default_settings 0.

Definition db : Db :=
  empty_db &{ db_deliveries := delivery_table
                [delivery 1 1 1 0 5; delivery 2 1 1 0 3; delivery 3 2 2 1 4; delivery 4 2 2 0 6] }
           &{ db_quotas := {[2 := (quota 2) &{ q_circuit_state := HalfOpen }]} }.

Definition opened : session := Sess db db.

Definition chosen : list Delivery := [delivery 2 1 1 0 3; delivery 3 2 2 1 4; delivery 1 1 1 0 5].

Definition result : session :=
  (@select_fair_deliveries exact_rounding default_settings 10 (fun _ => true) 10 opened).2.

Lemma selects :
  @select_fair_deliveries exact_rounding default_settings 10 (fun _ => true) 10 opened
  = (Ok chosen, result).
Proof. unfold result. vm_compute. reflexivity. Qed.

Lemma limits : limits_ok default_settings.
Proof. apply fields_ok_limits, default_fields_ok. Qed.

Lemma keyed : t_keyed d_id (db_deliveries db).
Proof.
  enough (map_Forall (fun k d => d_id d = k) (rows (db_deliveries db))) as Hall
    by exact Hall.
  refine (bool_decide_unpack _ _). vm_compute. exact I.
Qed.

Lemma quotas : map_Forall (fun _ q => quota_ok default_settings q) (db_quotas db).
Proof.
  apply map_Forall_singleton.
  destruct (endpoint_quota_values_ok (H := exact_rounding) default_settings 0 2 limits). by split.
Qed.
End Demo.

Lemma select_within_caps_witness :
  len Demo.chosen <= Z.max 0 10.
Proof.
  exact (proj1 (select_within_caps (H := exact_rounding) default_settings 10 (fun _ => true) 10
    Demo.opened Demo.chosen Demo.result Demo.limits Demo.keyed Demo.quotas Demo.selects)).
Defined.

Lemma select_only_runnable_witness : NoDup (map d_id Demo.chosen).
Proof.
  exact (proj1 (select_only_runnable (H := exact_rounding) default_settings 10 (fun _ => true) 10
    Demo.opened Demo.chosen Demo.result Demo.limits Demo.keyed Demo.quotas Demo.selects)).
Defined.

Lemma select_queue_order_witness :
  [Demo.delivery 2 1 1 0 3; Demo.delivery 1 1 1 0 5] `sublist_of` Demo.chosen.
Proof.
  apply (select_queue_order (H := exact_rounding) default_settings 10 (fun _ => true) 10
    Demo.opened Demo.chosen Demo.result);
    [exact Demo.keyed | exact Demo.selects | unfold Demo.chosen; set_solver
    | vm_compute; reflexivity ..].
Defined.

(** The delivery left over waits for the probe of its half-open endpoint. *)
Lemma select_work_conserving_witness :
  let d := Demo.delivery 4 2 2 0 6 in
  10 <= len (of_tenant 2 (t_where (live 10) (db_deliveries Demo.db)))
        + len (of_tenant 2 Demo.chosen) \/
  exists head q,
    head ∈ candidates default_settings 10 (fun _ => true) 10 Demo.db /\ head ∉ Demo.chosen /\
    d_endpoint_id head = 2 /\ db_quotas (working Demo.result) !! 2 = Some q /\
    stalled default_settings 10 q
      (len (of_endpoint 2 (t_where (live 10) (db_deliveries Demo.db)))
       + len (of_endpoint 2 Demo.chosen)) head.
Proof.
  apply (select_work_conserving (H := exact_rounding) default_settings 10 (fun _ => true) 10
    Demo.opened Demo.chosen Demo.result (Demo.delivery 4 2 2 0 6)).
  - exact Demo.limits.
  - exact Demo.keyed.
  - exact Demo.quotas.
  - exact Demo.selects.
  - vm_compute. reflexivity.
  - assert (candidates default_settings 10 (fun _ => true) 10 Demo.db =
      [Demo.delivery 2 1 1 0 3; Demo.delivery 3 2 2 1 4; Demo.delivery 1 1 1 0 5;
       Demo.delivery 4 2 2 0 6]) as Hcs by (vm_compute; reflexivity).
    change (working Demo.opened) with Demo.db. rewrite Hcs. set_solver.
  - unfold Demo.chosen. rewrite !elem_of_cons, elem_of_nil. intros [E|[E|[E|[]]]];
      by apply (f_equal d_id) in E.
Defined.
