(* ===== verification/WebhookSecurity.v ===== *)
(** * Credentials, signatures and egress checks

    [src/app/webhook_security.py]: API-key digests, the derived endpoint
    secrets and their two serializations, the two signature schemes, the
    subscription filters (with the normalizer of [src/app/schemas/webhooks.py])
    and the URL check that keeps deliveries off private networks. *)

From stdpp Require Import sorting.
From stdpp Require Import base tactics list sets strings numbers option.
From S2P Require Import Prelude Text Crypto Json Models Session Settings.
Local Open Scope Z_scope.

(** ** API keys *)

(** [generate_api_key] with what [secrets.token_hex(6)] and
    [secrets.token_urlsafe(32)] returned. *)
Definition generate_api_key (token_hex token_urlsafe : str) : str * str :=
  (py "whk_" ++ token_hex ++ py "_" ++ token_urlsafe, token_hex).

(** [None] is the [UnicodeEncodeError] of a lone surrogate. *)
Definition digest_api_key (plaintext pepper : str) : option str :=
  k ← utf8_encode pepper; m ← utf8_encode plaintext; Some (hexdigest (hmac_sha256 k m)).

Definition verify_api_key (plaintext expected_digest pepper : str) : option bool :=
  d ← digest_api_key plaintext pepper; Some (str_eqb d expected_digest).

(** ** Endpoint secrets *)

Definition secret_material (endpoint_public_id : str) (secret_version : Z) : str :=
  py "endpoint:" ++ endpoint_public_id ++ py ":v" ++ int_repr secret_version.

Definition endpoint_secret_digest (signing_key endpoint_public_id : str) (secret_version : Z) :
    option pybytes :=
  material ← utf8_encode (secret_material endpoint_public_id secret_version);
  key ← utf8_encode signing_key;
  Some (hmac_sha256 key material).

Definition endpoint_secret (signing_key endpoint_public_id : str) (secret_version : Z) :
    option str :=
  digest ← endpoint_secret_digest signing_key endpoint_public_id secret_version;
  Some (py "whsec_" ++ rstrip 61 (urlsafe_b64encode digest)).

Definition endpoint_secret_standard (signing_key endpoint_public_id : str)
    (secret_version : Z) : option str :=
  digest ← endpoint_secret_digest signing_key endpoint_public_id secret_version;
  Some (py "whsec_" ++ b64encode digest).

(** ** Signatures; [timestamp] is [int(time.time())]. *)

Definition sign_payload (payload_bytes : pybytes) (secret : str) (timestamp : Z) :
    option (Z * str) :=
  key ← utf8_encode secret;
  let signed := int_repr timestamp ++ py "." ++ payload_bytes in
  Some (timestamp, py "t=" ++ int_repr timestamp ++ py ",v1="
                   ++ hexdigest (hmac_sha256 key signed)).

Definition sign_payload_standard (event_id : str) (payload_bytes key : pybytes)
    (timestamp : Z) : option (Z * str) :=
  let prefix := event_id ++ py "." ++ int_repr timestamp ++ py "." in
  if isascii prefix
  then Some (timestamp, py "v1," ++ b64encode (hmac_sha256 key (prefix ++ payload_bytes)))
  else None.

(** ** Subscriptions *)

(** One entry of a stored filter list. *)
Definition pattern_matches (event_type : str) (pattern : json) : bool :=
  match pattern with
  | JStr p =>
      if endswith p (py ".*") then startswith event_type (removelast p)
      else str_eqb event_type p
  | _ => false
  end.

Definition event_type_matches (event_type : str) (patterns : json) : bool :=
  match patterns with
  | JNull => true
  | JList l => existsb (pattern_matches event_type) l
  | _ => false
  end.

Definition filter_entry (entry : str) : res exn str :=
  let candidate := strip entry in
  if negb ((1 <=? len candidate) && (len candidate <=? 150))
  then Raise (ValueError "each event type filter must be 1-150 characters")
  else if existsb isspace candidate
  then Raise (ValueError "event type filters cannot contain whitespace")
  else
    let stem := if endswith candidate (py ".*")
                then take (length candidate - 2) candidate else candidate in
    if existsb (Z.eqb 42) stem || negb (nonempty stem)
    then Raise (ValueError "'*' is only allowed as a trailing '.*' wildcard with a non-empty prefix")
    else Ok candidate.

Fixpoint normalize_filters (filters normalized : list str) : res exn (list str) :=
  match filters with
  | [] => Ok normalized
  | entry :: filters' =>
      candidate ← filter_entry entry;
      normalize_filters filters'
        (if bool_decide (candidate ∈ normalized) then normalized else normalized ++ [candidate])
  end.

Definition validate_event_type_filters (filters : list str) : res exn (list str) :=
  match filters with
  | [] => Raise (ValueError "event_types must contain at least one entry; omit the field to receive every event")
  | _ =>
      if 100 <? len filters then Raise (ValueError "event_types cannot exceed 100 entries")
      else
        normalized ← normalize_filters filters [];
        Ok (order_by id normalized)
  end.

(** ** Egress *)

Inductive SecurityDenyReason : Type :=
| URL_TOO_LONG | INVALID_URL | SCHEME_NOT_ALLOWED | CREDENTIALS_FORBIDDEN | FRAGMENT_FORBIDDEN
| PORT_NOT_ALLOWED | LOCALHOST_FORBIDDEN | DNS_UNRESOLVED | NON_GLOBAL_ADDRESS
| PROXY_CONNECT_DENIED.
#[export] Instance SecurityDenyReason_eq_dec : EqDecision SecurityDenyReason.
Proof. solve_decision. Defined.

Definition reason_value (r : SecurityDenyReason) : str :=
  match r with
  | URL_TOO_LONG => py "url_too_long"
  | INVALID_URL => py "invalid_url"
  | SCHEME_NOT_ALLOWED => py "scheme_not_allowed"
  | CREDENTIALS_FORBIDDEN => py "credentials_forbidden"
  | FRAGMENT_FORBIDDEN => py "fragment_forbidden"
  | PORT_NOT_ALLOWED => py "port_not_allowed"
  | LOCALHOST_FORBIDDEN => py "localhost_forbidden"
  | DNS_UNRESOLVED => py "dns_unresolved"
  | NON_GLOBAL_ADDRESS => py "non_global_address"
  | PROXY_CONNECT_DENIED => py "proxy_connect_denied"
  end.

(** What the URL check raises: [UnsafeWebhookUrl], or a plain [ValueError]. *)
Inductive url_exn : Type :=
| UnsafeWebhookUrl (message : string) (reason : SecurityDenyReason)
| BadAddress.

(** An [ipaddress] object: its [is_global], and that of its [ipv4_mapped]. *)
Record IPAddress : Type := MkIP { is_global : bool; ipv4_mapped : option bool }.

Section Egress.
(** The standard library's URL splitter and address parser, and the
    resolver: [None] is the exception the source catches. *)
Context (urlsplit : str -> option SplitResult) (ip_address : str -> option IPAddress)
  (getaddrinfo : str -> Z -> option (list str)).

Definition require_global (address : str) : res url_exn unit :=
  match ip_address (before_char 37 address) with
  | None => Raise BadAddress
  | Some ip =>
      if default (is_global ip) (ipv4_mapped ip) then Ok ()
      else Raise (UnsafeWebhookUrl "Webhook host resolves to a non-global address"
                    NON_GLOBAL_ADDRESS)
  end.

Fixpoint require_all_global (addresses : list str) : res url_exn unit :=
  match addresses with
  | [] => Ok ()
  | a :: addresses' => require_global a;; require_all_global addresses'
  end.

Definition deny (bad : bool) (message : string) (reason : SecurityDenyReason) :
    res url_exn unit :=
  if bad then Raise (UnsafeWebhookUrl message reason) else Ok ().

Definition validate_webhook_url (url : str) (allow_http allow_private : bool) :
    res url_exn str :=
  deny (2048 <? len url) "Webhook URL is too long" URL_TOO_LONG;;
  match urlsplit url with
  | None => Raise (UnsafeWebhookUrl "Webhook URL is invalid" INVALID_URL)
  | Some parsed =>
      let sch := lower (scheme parsed) in
      let host := default [] (hostname parsed) in
      deny (negb (str_eqb sch (py "https") || (allow_http && str_eqb sch (py "http"))))
        "Webhook URL scheme is not allowed" SCHEME_NOT_ALLOWED;;
      deny (negb (truthy (hostname parsed))) "Webhook URL must have a host" INVALID_URL;;
      deny (truthy (username parsed) || truthy (password parsed))
        "Webhook URL credentials are not allowed" CREDENTIALS_FORBIDDEN;;
      deny (nonempty (fragment parsed)) "Webhook URL fragments are not allowed"
        FRAGMENT_FORBIDDEN;;
      let port_or (d : Z) := match port parsed with
                             | Some p => if p =? 0 then d else p
                             | None => d
                             end in
      deny (negb allow_http && negb (port_or 443 =? 443)) "Webhook URL port must be 443"
        PORT_NOT_ALLOWED;;
      let name := lower (rstrip 46 host) in
      deny (negb allow_private
            && (str_eqb name (py "localhost") || endswith name (py ".localhost")))
        "Localhost webhook targets are not allowed" LOCALHOST_FORBIDDEN;;
      match require_global name with
      | Ok _ => Ok url
      | Raise (UnsafeWebhookUrl m r) =>
          if allow_private then Ok url else Raise (UnsafeWebhookUrl m r)
      | Raise BadAddress =>
          match getaddrinfo name (port_or (if str_eqb sch (py "https") then 443 else 80)) with
          | None => Raise (UnsafeWebhookUrl "Webhook host could not be resolved" DNS_UNRESOLVED)
          | Some [] => Raise (UnsafeWebhookUrl "Webhook host did not resolve" DNS_UNRESOLVED)
          | Some addresses =>
              (if allow_private then Ok () else require_all_global (remove_dups addresses));;
              Ok url
          end
      end
  end.
End Egress.

(** ** Properties of the filters *)

(** What a filter entry means. *)
Definition accepts (filter event_type : str) : Prop :=
  match endswith filter (py ".*") with
  | true => exists stem rest, filter = stem ++ py ".*" /\ event_type = stem ++ py "." ++ rest
  | false => event_type = filter
  end.

Lemma pattern_matches_accepts t p : pattern_matches t (JStr p) = true <-> accepts p t.
Proof.
  unfold pattern_matches, accepts. destruct (endswith p (py ".*")) eqn:E.
  - apply endswith_spec in E as [stem ->].
    change (py ".*") with [46; 42]. rewrite removelast_app by done. cbn [removelast].
    rewrite startswith_spec. split.
    + intros [rest ->]. exists stem, rest. by rewrite <- (assoc_L (++)).
    + intros (stem' & rest & E & ->). apply (inj (.++ [46; 42])) in E as ->. exists rest.
      by rewrite <- (assoc_L (++)).
  - unfold str_eqb. by rewrite bool_decide_eq_true.
Qed.

Lemma event_type_matches_list t ps :
  event_type_matches t (JList (map JStr ps)) = true <-> exists p, p ∈ ps /\ accepts p t.
Proof.
  cbn. rewrite existsb_exists. split.
  - intros (x & Hx & Hm). apply list_elem_of_In, list_elem_of_fmap in Hx as (p & -> & Hp).
    exists p. by rewrite <- pattern_matches_accepts.
  - intros (p & Hp & Ha). exists (JStr p). split; [| by apply pattern_matches_accepts].
    by apply list_elem_of_In, list_elem_of_fmap_2.
Qed.

Lemma normalize_filters_ok fs acc ps :
  normalize_filters fs acc = Ok ps ->
  (forall p, p ∈ ps <-> p ∈ acc \/ exists f, f ∈ fs /\ filter_entry f = Ok p) /\
  (forall f, f ∈ fs -> exists p, filter_entry f = Ok p) /\ (NoDup acc -> NoDup ps).
Proof.
  revert acc; induction fs as [| f fs IH]; intros acc Hn; cbn in Hn.
  - injection Hn as ->. split; [| split; [intros f Hf; inversion Hf | done]].
    intros p. split; [by left |]. intros [?|(f & Hf & _)]; [done | inversion Hf].
  - apply res_bind_ok in Hn as (c & Hc & Hn).
    destruct (IH _ Hn) as (Hps & Hall & Hnd). split; [| split].
    + intros p. rewrite Hps. setoid_rewrite elem_of_cons. split.
      * intros [Hp|(f' & Hf' & Hp)]; [| by eauto 6]. case_bool_decide; [by left |].
        apply elem_of_app in Hp as [Hp|Hp]; [by left |].
        apply list_elem_of_singleton in Hp as ->. right. eauto.
      * intros [Hp|(f' & [->|Hf'] & Hp)]; [left | left | right; eauto].
        -- case_bool_decide; [done | apply elem_of_app; by left].
        -- assert (p = c) as -> by congruence. case_bool_decide; [done |].
           apply elem_of_app. right. by apply list_elem_of_singleton.
    + intros f' Hf'. apply elem_of_cons in Hf' as [->|Hf']; eauto.
    + intros Hacc. apply Hnd. case_bool_decide as Hin; [done |].
      apply list.NoDup_app. split; [done |]. split; [set_solver | apply NoDup_singleton].
Qed.

Lemma filter_entry_ok f p :
  filter_entry f = Ok p ->
  p = strip f /\ 1 <= len p <= 150 /\ existsb isspace p = false /\
  (forall stem, p = stem ++ py ".*" -> stem <> [] /\ existsb (Z.eqb 42) stem = false) /\
  (endswith p (py ".*") = false -> existsb (Z.eqb 42) p = false).
Proof.
  unfold filter_entry. set (c := strip f).
  destruct (Z.leb_spec 1 (len c)), (Z.leb_spec (len c) 150); try done. cbn [andb negb].
  destruct (existsb isspace c) eqn:Es; [done |]. destruct (_ || _) eqn:Ew; [done |].
  apply orb_false_iff in Ew as [Ew1 Ew2]. apply negb_false_iff in Ew2. intros [= <-].
  repeat (split; [done |]). split.
  - intros stem Hst. assert (endswith c (py ".*") = true) as Hend by (apply endswith_spec; eauto).
    rewrite Hend in Ew1, Ew2.
    assert (take (length c - 2) c = stem) as Ht.
    { rewrite Hst, length_app. cbn [length py]. rewrite Nat.add_sub. by apply take_app_length. }
    rewrite Ht in Ew1, Ew2. split; [by destruct stem | done].
  - intros Hend. by rewrite Hend in Ew1.
Qed.

(** Subscription filters mean what the documentation says.  A list the
    normalizer accepts is free of duplicates and spaces, and an event type
    matches the stored list exactly when it equals a plain entry or extends
    the nonempty prefix of a [prefix.*] entry by a dot and anything:
    [order.*] takes [order.created] but neither [order] nor
    [orders.created]. *)
Theorem event_filters_correct filters ps t :
  validate_event_type_filters filters = Ok ps ->
  NoDup ps /\
  (event_type_matches t (JList (map JStr ps)) = true <->
   exists f, f ∈ filters /\
     ((endswith (strip f) (py ".*") = false /\ t = strip f) \/
      (exists stem rest, stem <> [] /\ strip f = stem ++ py ".*" /\ t = stem ++ py "." ++ rest))).
Proof.
  intros Hv. unfold validate_event_type_filters in Hv.
  destruct filters as [| f0 fs0] eqn:Ef; [done |]. rewrite <- Ef in *. clear Ef f0 fs0.
  destruct (100 <? len filters); [done |].
  apply res_bind_ok in Hv as (ns & Hn & [= <-]).
  destruct (normalize_filters_ok _ _ _ Hn) as (Hin & Hall & Hnd).
  split; [rewrite order_by_perm; apply Hnd; constructor |].
  rewrite event_type_matches_list. split.
  - intros (p & Hp & Ha). apply order_by_elem, Hin in Hp as [Hp|(f & Hf & Hp)]; [inversion Hp |].
    exists f. split; [done |]. apply filter_entry_ok in Hp as (-> & _ & _ & Hst & _).
    unfold accepts in Ha. destruct (endswith (strip f) (py ".*")) eqn:E; [| by left].
    right. destruct Ha as (stem & rest & Hs & ->). exists stem, rest.
    split; [by apply Hst | done].
  - intros (f & Hf & Hcase). destruct (Hall f Hf) as [p Hp].
    pose proof (filter_entry_ok _ _ Hp) as (Hps & _). exists p. split.
    { apply order_by_elem, Hin. right. eauto. }
    unfold accepts. rewrite Hps. destruct Hcase as [[-> ->]|(stem & rest & _ & Hs & ->)]; [done |].
    assert (endswith (strip f) (py ".*") = true) as -> by (apply endswith_spec; eauto). eauto.
Qed.

Lemma event_filters_correct_witness :
  validate_event_type_filters [py " order.*"; py "user.created"; py "order.*"]
    = Ok [py "order.*"; py "user.created"] /\
  event_type_matches (py "order.created")
    (JList (map JStr [py "order.*"; py "user.created"])) = true /\
  event_type_matches (py "orders.created")
    (JList (map JStr [py "order.*"; py "user.created"])) = false.
Proof.
  split; [vm_compute; reflexivity |]. split; [| vm_compute; reflexivity].
  apply (proj2 (event_filters_correct [py " order.*"; py "user.created"; py "order.*"]
    [py "order.*"; py "user.created"] (py "order.created") ltac:(vm_compute; reflexivity))).
  exists (py "order.*"). split; [set_solver |]. right. exists (py "order"), (py "created").
  split; [done |]. split; vm_compute; reflexivity.
Defined.

(** ** Properties of the URL check *)

Lemma deny_ok bad m r u : deny bad m r = Ok u <-> bad = false /\ u = ().
Proof. unfold deny. destruct bad, u; naive_solver. Qed.

Lemma require_global_ok ip_address a u :
  require_global ip_address a = Ok u <->
  exists ip, ip_address (before_char 37 a) = Some ip /\
             default (is_global ip) (ipv4_mapped ip) = true.
Proof.
  unfold require_global. destruct u, (ip_address (before_char 37 a)) as [ip|].
  - destruct (default (is_global ip) (ipv4_mapped ip)) eqn:E; split; [eauto | done | done |].
    intros (ip' & [= ->] & E'). congruence.
  - split; [done |]. by intros (? & ? & _).
Qed.

Lemma require_all_global_ok ip_address l u :
  require_all_global ip_address l = Ok u ->
  forall a, a ∈ l -> exists ip, ip_address (before_char 37 a) = Some ip /\
                               default (is_global ip) (ipv4_mapped ip) = true.
Proof.
  induction l as [| b l IH]; [intros _ a Ha; inversion Ha |].
  cbn. intros Hr. apply res_bind_ok in Hr as (v & Hb & Hl).
  intros a [->|Ha]%elem_of_cons; [by apply require_global_ok in Hb | by apply IH].
Qed.

(** C31: no delivery leaves for a private network.  With the development
    escape hatches off, an accepted URL is the one submitted, uses https on
    port 443, carries neither credentials nor fragment, does not name
    localhost, and its host is a global address literal or resolved to at
    least one address, all of them global. *)
Theorem validate_webhook_url_safe urlsplit ip_address getaddrinfo url u :
  validate_webhook_url urlsplit ip_address getaddrinfo url false false = Ok u ->
  u = url /\ len url <= 2048 /\
  exists p, urlsplit url = Some p /\
    lower (scheme p) = py "https" /\ truthy (username p) = false /\
    truthy (password p) = false /\ fragment p = [] /\
    (match port p with None => True | Some n => n = 0 \/ n = 443 end) /\
    let name := lower (rstrip 46 (default [] (hostname p))) in
    name <> py "localhost" /\ endswith name (py ".localhost") = false /\
    let safe a := exists ip, ip_address (before_char 37 a) = Some ip /\
                             default (is_global ip) (ipv4_mapped ip) = true in
    (safe name \/
     exists addresses, getaddrinfo name 443 = Some addresses /\ addresses <> [] /\
                       forall a, a ∈ addresses -> safe a).
Proof.
  unfold validate_webhook_url. intros Hv.
  apply res_bind_ok in Hv as (? & [Hlen _]%deny_ok & Hv). apply Z.ltb_ge in Hlen.
  destruct (urlsplit url) as [p|]; [| done].
  apply res_bind_ok in Hv as (? & [Hs _]%deny_ok & Hv).
  apply res_bind_ok in Hv as (? & [Hh _]%deny_ok & Hv).
  apply res_bind_ok in Hv as (? & [Hc _]%deny_ok & Hv).
  apply res_bind_ok in Hv as (? & [Hf _]%deny_ok & Hv).
  apply res_bind_ok in Hv as (? & [Hp _]%deny_ok & Hv).
  apply res_bind_ok in Hv as (? & [Hl _]%deny_ok & Hv).
  apply negb_false_iff in Hs. cbn in Hs. rewrite orb_false_r in Hs.
  pose proof Hs as Hs'. unfold str_eqb in Hs'. apply bool_decide_eq_true in Hs'.
  apply orb_false_iff in Hc as [Hc1 Hc2]. cbn in Hp, Hl. apply negb_false_iff in Hp.
  apply orb_false_iff in Hl as [Hl1 Hl2]. unfold str_eqb in Hl1. apply bool_decide_eq_false in Hl1.
  assert (u = url /\
    let name := lower (rstrip 46 (default [] (hostname p))) in
    let safe a := exists ip, ip_address (before_char 37 a) = Some ip /\
                             default (is_global ip) (ipv4_mapped ip) = true in
    (safe name \/ exists addresses, getaddrinfo name 443 = Some addresses /\ addresses <> [] /\
                       forall a, a ∈ addresses -> safe a)) as [-> Hsafe].
  { cbn zeta. destruct (require_global _ _) as [v|[]] eqn:Er; [| done |].
    - injection Hv as <-. split; [done |]. left. by apply require_global_ok in Er.
    - rewrite Hs in Hv.
      assert (match port p with Some n => if n =? 0 then 443 else n | None => 443 end = 443) as Hp'.
      { destruct (port p) as [n|]; [| done]. destruct (Z.eqb_spec n 0); lia. }
      rewrite Hp' in Hv.
      destruct (getaddrinfo _ 443) as [[| a l]|] eqn:Eg; [done | | done].
      apply res_bind_ok in Hv as (v & Hall & Hu). injection Hu as <-. split; [done |]. right.
      exists (a :: l). split; [done |]. split; [done |]. intros b Hb.
      eapply require_all_global_ok; [exact Hall |]. by apply elem_of_remove_dups. }
  split; [done |]. split; [done |]. exists p. repeat (split; [done |]). split.
  { unfold nonempty in Hf. by destruct (fragment p). }
  split; [| split; [done | split; [done | exact Hsafe]]].
  destruct (port p) as [n|]; [| done]. destruct (Z.eqb_spec n 0); [by left |].
  right. by apply Z.eqb_eq.
Qed.

(** A resolver with one public and one private host. *)
Module EgressDemo.
Definition urlsplit (url : str) : option SplitResult :=
  if startswith url (py "https://")
  then Some {| scheme := py "https"; hostname := Some (drop 8 url); port := None;
               username := None; password := None; path := []; query := []; fragment := [] |}
  else None.
Definition ip_address (a : str) : option IPAddress :=
  if str_eqb a (py "93.184.216.34") then Some (MkIP true None)
  else if str_eqb a (py "10.0.0.7") then Some (MkIP false None)
  else None.
Definition getaddrinfo (host : str) (port : Z) : option (list str) :=
  if str_eqb host (py "example.com") then Some [py "93.184.216.34"]
  else if str_eqb host (py "internal.example") then Some [py "93.184.216.34"; py "10.0.0.7"]
  else None.
End EgressDemo.

Lemma validate_webhook_url_safe_witness :
  validate_webhook_url EgressDemo.urlsplit EgressDemo.ip_address EgressDemo.getaddrinfo
    (py "https://internal.example") false false
    = Raise (UnsafeWebhookUrl "Webhook host resolves to a non-global address"
               NON_GLOBAL_ADDRESS) /\
  len (py "https://example.com") <= 2048.
Proof.
  split; [vm_compute; reflexivity |].
  apply (validate_webhook_url_safe EgressDemo.urlsplit EgressDemo.ip_address
    EgressDemo.getaddrinfo (py "https://example.com") (py "https://example.com")).
  vm_compute. reflexivity.
Defined.
