(* ===== verification/Delivery.v ===== *)
(** * The delivery worker's transactions

    [DeliveryService] of [src/app/services/delivery_service.py]: claiming due
    work under a lease, renewing and releasing the lease, performing one HTTP
    attempt, and the finalization that turns its result into the next state of
    the delivery and of the endpoint's circuit.  Database time, generated
    tokens, the random draw of the backoff and the network are arguments. *)

From Stdlib Require Import QArith Lqa.
From stdpp Require Import base tactics list gmap strings numbers option.
From S2P Require Import Prelude Crypto Json Models Session Settings RetryPolicy Admission.
From S2P Require Import Scheduling Fairness WebhookSecurity.
Local Open Scope Z_scope.

Record ClaimedDelivery : Type := MkClaimedDelivery {
  c_id : Z;
  c_public_id : str;
  c_organization_id : Z;
  c_endpoint_id : Z;
  c_lease_token : str;
  c_attempt_number : Z;
  c_endpoint_public_id : str;
  c_endpoint_url : str;
  c_endpoint_secret_version : Z;
  c_endpoint_active : bool;
  c_event_public_id : str;
  c_event_type : str;
  c_canonical_envelope : pybytes;
  c_signature_scheme : SignatureScheme;
  c_envelope_mode : EnvelopeMode;
  c_traceparent : option str;
  c_tracestate : option str;
  c_created_at : datetime;
}.

Record AttemptResult : Type := MkAttemptResult {
  r_succeeded : bool;
  r_retryable : bool;
  r_status_code : option Z;
  r_error : option str;
  r_response_body : option str;
  r_retry_after_seconds : option Q;
}.

Definition put_delivery (d : Delivery) : M unit :=
  modify (fun db => db &{ db_deliveries := t_set (d_id d) d (db_deliveries db) }).

Definition put_quota (endpoint_id : Z) (q : EndpointQuotaState) : M unit :=
  modify (fun db => db &{ db_quotas := <[endpoint_id := q]> (db_quotas db) }).

(** ** Claiming *)

Section Claim.
Context `{Rounding} (settings : Settings) (now : datetime).

Definition lease_until : datetime := now + seconds (worker_lease_seconds settings).

Definition leased (token : str) (d : Delivery) : Delivery :=
  d &{ d_status := Processing }
    &{ d_attempt_count := d_attempt_count d + 1 }
    &{ d_lease_token := Some token }
    &{ d_lease_expires_at := Some lease_until }
    &{ d_updated_at := now }.

Definition claim_of (d : Delivery) (event : Event) (token : str) (envelope : pybytes) :
    ClaimedDelivery :=
  {| c_id := d_id d;
     c_public_id := d_public_id d;
     c_organization_id := d_organization_id d;
     c_endpoint_id := d_endpoint_id d;
     c_lease_token := token;
     c_attempt_number := d_attempt_count d;
     c_endpoint_public_id := d_endpoint_public_id_snapshot d;
     c_endpoint_url := d_endpoint_url_snapshot d;
     c_endpoint_secret_version := d_signing_secret_version_snapshot d;
     c_endpoint_active := d_endpoint_active_snapshot d;
     c_event_public_id := ev_public_id event;
     c_event_type := ev_event_type event;
     c_canonical_envelope := envelope;
     c_signature_scheme := d_signature_scheme_snapshot d;
     c_envelope_mode := ev_envelope_mode event;
     c_traceparent := ev_traceparent event;
     c_tracestate := ev_tracestate event;
     c_created_at := d_created_at d |}.

(** The body of the loop over the selected rows; [uuid i] is what the [i]-th
    [uuid4] of the loop returned.  [bytes(None)] is a [TypeError]. *)
Fixpoint claim_rows (uuid : nat -> str) (i : nat) (deliveries : list Delivery) :
    M (list ClaimedDelivery) :=
  match deliveries with
  | [] => mret []
  | d :: deliveries' =>
      let d' := leased (uuid i) d in
      put_delivery d';;
      event ← gets (fun db => t_get (d_event_id d) (db_events db));
      event ← of_option AttributeError event;
      envelope ← of_option TypeError (ev_canonical_envelope event);
      claims ← claim_rows uuid (S i) deliveries';
      mret (claim_of d' event (uuid i) envelope :: claims)
  end.

Definition claim_due (unlocked : Z -> bool) (uuid : nat -> str) (limit : Z) :
    M (list ClaimedDelivery) :=
  if limit <=? 0 then mret []
  else begin (deliveries ← select_fair_deliveries settings now unlocked limit;
              claim_rows uuid 0 deliveries).
End Claim.

(** ** Leases *)

(** [SELECT ... WHERE id = claim.id AND guard] *)
Definition select_delivery (claim : ClaimedDelivery) (guard : Delivery -> bool) (db : Db) :
    option Delivery :=
  match t_get (c_id claim) (db_deliveries db) with
  | Some d => if guard d then Some d else None
  | None => None
  end.

Definition holds_token (claim : ClaimedDelivery) (d : Delivery) : bool :=
  bool_decide (d_status d = Processing) && bool_decide (d_lease_token d = Some (c_lease_token claim)).

(** The guard of renewal and finalization: the row is still leased to the
    claim and the lease has not expired. *)
Definition owns (claim : ClaimedDelivery) (now : datetime) (d : Delivery) : bool :=
  holds_token claim d &&
  match d_lease_expires_at d with Some t => now <? t | None => false end.

Definition renew_lease (settings : Settings) (now : datetime) (claim : ClaimedDelivery) : M bool :=
  begin (
    row ← gets (select_delivery claim (owns claim now));
    match row with
    | None => mret false
    | Some d =>
        put_delivery (d &{ d_lease_expires_at := Some (lease_until settings now) }
                        &{ d_updated_at := now });;
        mret true
    end).

Definition release_claim (now : datetime) (claim : ClaimedDelivery) : M bool :=
  begin (
    row ← gets (select_delivery claim (holds_token claim));
    match row with
    | None => mret false
    | Some d =>
        put_delivery (d &{ d_status := RetryScheduled }
                        &{ d_next_attempt_at := now }
                        &{ d_lease_token := None }
                        &{ d_lease_expires_at := None }
                        &{ d_updated_at := now });;
        mret true
    end).

(** One renewal per elapsed heartbeat interval, until one is refused. *)
Fixpoint heartbeat (settings : Settings) (claim : ClaimedDelivery) (beats : list datetime) : M bool :=
  match beats with
  | [] => mret true
  | now :: beats' =>
      renewed ← renew_lease settings now claim;
      if renewed : bool then heartbeat settings claim beats' else mret false
  end.

(** ** The HTTP attempt *)

(** The exceptions of the [try] block, by the clause that handles them;
    [UnexpectedError] is any other and propagates. *)
Inductive attempt_exn : Type :=
| TimeoutError
| ProxyError
| TransportError (name : str)
| UnsafeTarget (reason : SecurityDenyReason)
| InvalidInput (name : str)
| UnexpectedError (name : str).

Record Request : Type := MkRequest {
  rq_url : str;
  rq_content : pybytes;
  rq_headers : list (str * str);
}.

(** What the peer did: the status line and headers, then body chunks that end
    normally or in an exception. *)
Record Response : Type := MkResponse {
  rs_status : Z;
  rs_retry_after : option str;
  rs_received_at : datetime;
  rs_chunks : list pybytes;
  rs_ending : option attempt_exn;
}.

Definition status_2xx (c : Z) : bool := (200 <=? c) && (c <? 300).
Definition is_success (c : option Z) : bool := match c with Some c => status_2xx c | None => false end.

Fixpoint read_body (remaining : Z) (chunks : list pybytes) (ending : option attempt_exn) :
    res attempt_exn pybytes :=
  match chunks with
  | [] => match ending with None => Ok [] | Some e => Raise e end
  | chunk :: chunks' =>
      if remaining <=? 0 then Ok []
      else
        let captured := take (Z.to_nat remaining) chunk in
        rest ← read_body (remaining - len captured) chunks' ending;
        Ok (captured ++ rest)
  end.

Section Attempt.
Context `{Rounding} (settings : Settings).
Context (urlsplit : str -> option SplitResult) (ip_address : str -> option IPAddress)
  (getaddrinfo : str -> Z -> option (list str))
  (parsedate_to_datetime : str -> option datetime)
  (decode_replace : pybytes -> str).

Definition check_target (claim : ClaimedDelivery) : res attempt_exn unit :=
  match validate_webhook_url urlsplit ip_address getaddrinfo (c_endpoint_url claim)
          (default false (allow_http_webhooks settings))
          (allow_private_webhooks settings) with
  | Ok _ => Ok ()
  | Raise (UnsafeWebhookUrl _ reason) => Raise (UnsafeTarget reason)
  | Raise BadAddress => Raise (InvalidInput (py "ValueError"))
  end.

Definition sign (claim : ClaimedDelivery) (timestamp : Z) : res attempt_exn (Z * str) :=
  let signed :=
    match c_signature_scheme claim with
    | Standard =>
        key ← endpoint_secret_digest (webhook_signing_key settings)
                (c_endpoint_public_id claim) (c_endpoint_secret_version claim);
        sign_payload_standard (c_event_public_id claim) (c_canonical_envelope claim) key timestamp
    | Legacy =>
        secret ← endpoint_secret (webhook_signing_key settings)
                   (c_endpoint_public_id claim) (c_endpoint_secret_version claim);
        sign_payload (c_canonical_envelope claim) secret timestamp
    end in
  match signed with
  | Some r => Ok r
  | None => Raise (InvalidInput (py "UnicodeEncodeError"))
  end.

Definition request_of (claim : ClaimedDelivery) (timestamp : Z) (signature : str) : Request :=
  {| rq_url := c_endpoint_url claim;
     rq_content := c_canonical_envelope claim;
     rq_headers :=
       [(py "Content-Type", match c_envelope_mode claim with
                            | CloudEvents => py "application/cloudevents+json"
                            | Native => py "application/json"
                            end);
        (py "User-Agent", py "webhook-platform/1.0");
        (py "Webhook-Id", c_event_public_id claim);
        (py "Webhook-Timestamp", int_repr timestamp);
        (py "Webhook-Signature", signature);
        (py "Webhook-Event", c_event_type claim);
        (py "Webhook-Attempt", int_repr (c_attempt_number claim))] |}.

(** What the [except] clauses assign to [retryable] and [error]. *)
Definition handle (e : attempt_exn) : res attempt_exn (bool * str) :=
  match e with
  | TimeoutError => Ok (true, py "attempt_timeout")
  | ProxyError => Ok (false, py "egress_proxy_denied")
  | TransportError name => Ok (true, name)
  | UnsafeTarget reason => Ok (false, py "unsafe_webhook_url:" ++ reason_value reason)
  | InvalidInput name => Ok (false, name)
  | UnexpectedError name => Raise e
  end.

(** The result after an exception, with what was assigned before it. *)
Definition failed (e : attempt_exn) (status : option Z) (retry_after : option Q) :
    res attempt_exn AttemptResult :=
  '(retryable, error) ← handle e;
  Ok {| r_succeeded := is_success status; r_retryable := retryable;
        r_status_code := status; r_error := Some error; r_response_body := None;
        r_retry_after_seconds := retry_after |}.

Definition refused_unsent (error : str) : AttemptResult :=
  {| r_succeeded := false; r_retryable := false; r_status_code := None;
     r_error := Some error; r_response_body := None; r_retry_after_seconds := None |}.

Definition responded (r : Response) : res attempt_exn AttemptResult :=
  let status := Some (rs_status r) in
  let retry_after := parse_retry_after parsedate_to_datetime (rs_retry_after r)
                       (rs_received_at r) (webhook_retry_after_max_seconds settings) in
  match read_body (webhook_response_max_bytes settings) (rs_chunks r) (rs_ending r) with
  | Raise e => failed e status retry_after
  | Ok body =>
      let retryable := is_retryable_status status in
      Ok {| r_succeeded := is_success status; r_retryable := retryable;
            r_status_code := status;
            r_error := if status_2xx (rs_status r) then None
                       else Some (if retryable then py "retryable_http_status"
                                  else py "http_status");
            r_response_body := Some (decode_replace body);
            r_retry_after_seconds := retry_after |}
  end.

(** [started] is [utcnow()], [interrupted] an expiry of the attempt deadline
    during validation, and [exchange] what the client's [stream] did with
    the request. *)
Definition perform_attempt (claim : ClaimedDelivery) (started : datetime) (interrupted : bool)
    (timestamp : Z) (exchange : Request -> res attempt_exn Response) :
    res attempt_exn AttemptResult :=
  let age := total_seconds (started - c_created_at claim) in
  if Qle_bool (inject_Z (webhook_max_delivery_age_seconds settings)) age
  then Ok (refused_unsent (py "max_delivery_age"))
  else if negb (c_endpoint_active claim)
  then Ok (refused_unsent (py "endpoint_inactive_at_acceptance"))
  else if interrupted then failed TimeoutError None None
  else match check_target claim with
  | Raise e => failed e None None
  | Ok _ =>
      match sign claim timestamp with
      | Raise e => failed e None None
      | Ok (ts, signature) =>
          match exchange (request_of claim ts signature) with
          | Raise e => failed e None None
          | Ok r => responded r
          end
      end
  end.
End Attempt.

(** ** Finalization *)

Section Finalize.
Context `{Rounding} (settings : Settings).

Definition max_delivery_age : str := py "max_delivery_age".

Definition close_circuit (q : EndpointQuotaState) : EndpointQuotaState :=
  q &{ q_circuit_state := Closed }
    &{ q_consecutive_failures := 0 }
    &{ q_circuit_open_until := None }
    &{ q_half_open_probe_delivery_id := None }.

Definition open_circuit (until : datetime) (q : EndpointQuotaState) : EndpointQuotaState :=
  q &{ q_circuit_state := Open }
    &{ q_circuit_open_until := Some until }
    &{ q_half_open_probe_delivery_id := None }.

(** The endpoint row after an attempt. *)
Definition endpoint_after (q : EndpointQuotaState) (delivery_id : Z) (r : AttemptResult)
    (finished : datetime) : EndpointQuotaState :=
  let is_probe := bool_decide (q_half_open_probe_delivery_id q = Some delivery_id) in
  let aged := bool_decide (r_error r = Some max_delivery_age) in
  (if r_succeeded r then
     close_circuit
       (q &{ q_retry_tokens := qmin (float_of (endpoint_retry_burst settings))
               (fadd (q_retry_tokens q) (float_of (endpoint_retry_success_refill settings))) }
          &{ q_retry_refilled_at := finished })
   else if r_retryable r then
     let q1 := q &{ q_consecutive_failures := q_consecutive_failures q + 1 } in
     if is_probe || (bool_decide (q_circuit_state q1 = Closed)
                     && (endpoint_circuit_failure_threshold settings
                         <=? q_consecutive_failures q1))
     then open_circuit (finished + seconds (endpoint_circuit_open_seconds settings)) q1
     else q1
   else if is_probe && aged then open_circuit finished q
   else if is_probe || negb aged then close_circuit q
   else q) &{ q_updated_at := finished }.

Definition deadline (d : Delivery) : datetime :=
  d_created_at d + seconds (webhook_max_delivery_age_seconds settings).

(** The drawn backoff, or [Retry-After] when that is longer; [u] is what
    [random.random()] returned. *)
Definition retry_delay (attempt_number : Z) (r : AttemptResult) (u : Q) : Q :=
  qmax (jittered_backoff attempt_number (webhook_backoff_base_seconds settings)
          (webhook_backoff_cap_seconds settings) u)
       (default 0%Q (r_retry_after_seconds r)).

Definition dead_reason_of (attempt_number : Z) (r : AttemptResult) (age_expired : bool) : str :=
  if age_expired || bool_decide (r_error r = Some max_delivery_age) then max_delivery_age
  else if r_retryable r && (webhook_max_attempts settings <=? attempt_number)
  then py "max_attempts"
  else if match r_status_code r with Some c => (400 <=? c) && (c <? 500) | None => false end
  then py "non_retryable_http"
  else match r_error r with
       | Some (c :: e) => c :: e
       | _ => py "non_retryable_failure"
       end.

Definition dead (d : Delivery) (finished : datetime) (reason : str) : Delivery :=
  d &{ d_status := Dead }
    &{ d_next_attempt_at := finished }
    &{ d_dead_at := Some finished }
    &{ d_dead_reason := Some (take 64 reason) }.

(** The delivery row after an attempt, before the common assignments. *)
Definition delivery_after (d : Delivery) (attempt_number : Z) (r : AttemptResult)
    (finished : datetime) (u : Q) : Delivery :=
  let age_expired := deadline d <=? finished in
  if r_succeeded r then
    d &{ d_status := Succeeded }
      &{ d_succeeded_at := Some finished }
      &{ d_next_attempt_at := finished }
      &{ d_dead_at := None }
      &{ d_dead_reason := None }
  else if r_retryable r && (attempt_number <? webhook_max_attempts settings)
          && negb age_expired then
    let next_attempt_at := finished + timedelta_seconds (retry_delay attempt_number r u) in
    if next_attempt_at <? deadline d then
      d &{ d_status := RetryScheduled }
        &{ d_next_attempt_at := next_attempt_at }
        &{ d_dead_at := None }
        &{ d_dead_reason := None }
    else dead d finished max_delivery_age
  else dead d finished (dead_reason_of attempt_number r age_expired).

Definition finished_row (d : Delivery) (r : AttemptResult) (finished : datetime) : Delivery :=
  d &{ d_last_http_status := r_status_code r }
    &{ d_last_error := r_error r }
    &{ d_lease_token := None }
    &{ d_lease_expires_at := None }
    &{ d_updated_at := finished }.

(** [session.add(DeliveryAttempt(...))] under [uq_attempts_delivery_number]. *)
Definition add_attempt (mk : Z -> DeliveryAttempt) : M unit :=
  clash ← gets (fun db => t_find (fun a =>
    (at_delivery_id a =? at_delivery_id (mk 0))
    && (at_attempt_number a =? at_attempt_number (mk 0))) (db_attempts db));
  match clash with
  | Some _ => raise IntegrityError
  | None => modify (fun db => db &{ db_attempts := t_add mk (db_attempts db) })
  end.

Definition finalize (claim : ClaimedDelivery) (started : datetime) (r : AttemptResult)
    (finished : datetime) (u : Q) : M bool :=
  begin (
    row ← gets (select_delivery claim (owns claim finished));
    match row with
    | None => mret false
    | Some d =>
        q ← gets (fun db => db_quotas db !! d_endpoint_id d);
        q ← of_option (RuntimeError "Endpoint retry state is unavailable") q;
        put_quota (d_endpoint_id d) (endpoint_after q (d_id d) r finished);;
        let d' := delivery_after d (c_attempt_number claim) r finished u in
        put_delivery (finished_row d' r finished);;
        add_attempt (fun id =>
          {| at_id := id; at_delivery_id := d_id d;
             at_attempt_number := c_attempt_number claim;
             at_started_at := started; at_finished_at := finished;
             at_outcome := d_status d'; at_http_status := r_status_code r;
             at_error := r_error r; at_response_body := r_response_body r;
             at_response_purged_at := None |});;
        mret true
    end).

(** ** Delivering a claim

    [beats] are the renewals that complete before the attempt does and
    [lagging] one that is still under way then. *)
Record script : Type := Script {
  sc_started : datetime;
  sc_beats : list datetime;
  sc_attempt : res attempt_exn AttemptResult;
  sc_lagging : list datetime;
  sc_finished : datetime;
  sc_draw : Q;
}.

Definition deliver (claim : ClaimedDelivery) (sc : script) : M bool :=
  alive ← heartbeat settings claim (sc_beats sc);
  if negb alive then mret false
  else match sc_attempt sc with
  | Raise (UnexpectedError name) => raise (OtherException name)
  | Raise _ => raise (OtherException [])
  | Ok result =>
      alive ← heartbeat settings claim (sc_lagging sc);
      if negb alive then mret false
      else finalize claim (sc_started sc) result (sc_finished sc) (sc_draw sc)
  end.

(** [_run_claim] of [src/app/worker.py]: an unexpected error, and a
    cancellation at shutdown, give the claim back. *)
Definition run_claim (claim : ClaimedDelivery) (sc : script) (canceled : bool)
    (released_at : datetime) : M unit :=
  if canceled
  then heartbeat settings claim (sc_beats sc);; release_claim released_at claim;; mret ()
  else catch (deliver claim sc;; mret ())
         (fun _ => release_claim released_at claim;; mret ()).
End Finalize.

(** ** Invariants of a delivery row *)

Definition terminal (st : DeliveryStatus) : bool :=
  match st with Succeeded | Dead | Canceled => true | _ => false end.

Definition has {A} (o : option A) : bool := match o with Some _ => true | None => false end.
Definition st_is (st st' : DeliveryStatus) : bool := bool_decide (st = st').

(** Leases exist exactly while processing; each terminal state carries its own
    time stamp and no other; a row that has been claimed has an attempt. *)
Record delivery_ok (d : Delivery) : Prop := {
  do_token : has (d_lease_token d) = st_is (d_status d) Processing;
  do_expiry : has (d_lease_expires_at d) = st_is (d_status d) Processing;
  do_count : 0 <= d_attempt_count d;
  do_started : st_is (d_status d) Processing || st_is (d_status d) RetryScheduled = true ->
               0 < d_attempt_count d;
  do_succeeded : has (d_succeeded_at d) = st_is (d_status d) Succeeded;
  do_dead : has (d_dead_at d) = st_is (d_status d) Dead;
  do_reason : has (d_dead_reason d) = st_is (d_status d) Dead;
  do_canceled : has (d_canceled_at d) = st_is (d_status d) Canceled;
}.

(** What was captured when the delivery was accepted. *)
Record same_snapshot (d d' : Delivery) : Prop := {
  ss_id : d_id d' = d_id d;
  ss_public_id : d_public_id d' = d_public_id d;
  ss_organization : d_organization_id d' = d_organization_id d;
  ss_event : d_event_id d' = d_event_id d;
  ss_endpoint : d_endpoint_id d' = d_endpoint_id d;
  ss_endpoint_public_id : d_endpoint_public_id_snapshot d' = d_endpoint_public_id_snapshot d;
  ss_url : d_endpoint_url_snapshot d' = d_endpoint_url_snapshot d;
  ss_active : d_endpoint_active_snapshot d' = d_endpoint_active_snapshot d;
  ss_version : d_signing_secret_version_snapshot d' = d_signing_secret_version_snapshot d;
  ss_scheme : d_signature_scheme_snapshot d' = d_signature_scheme_snapshot d;
  ss_created : d_created_at d' = d_created_at d;
}.

#[export] Instance same_snapshot_preorder : PreOrder same_snapshot.
Proof.
  split.
  - intros d. by split.
  - intros d1 d2 d3 [] []. split; congruence.
Qed.

(** The documented state machine. *)
Inductive next_status : DeliveryStatus -> DeliveryStatus -> Prop :=
| next_claim : next_status Pending Processing
| next_retry_claim : next_status RetryScheduled Processing
| next_reclaim : next_status Processing Processing
| next_succeed : next_status Processing Succeeded
| next_retry : next_status Processing RetryScheduled
| next_die : next_status Processing Dead
| next_cancel : next_status Pending Canceled
| next_cancel_retry : next_status RetryScheduled Canceled
| next_cancel_expired : next_status Processing Canceled.

(** One step of a row: snapshots are kept, the status follows the machine,
    attempts are only ever added, and a terminal row is final. *)
Record evolves (d d' : Delivery) : Prop := {
  ev_snapshot : same_snapshot d d';
  ev_status : next_status (d_status d) (d_status d');
  ev_ok : delivery_ok d -> delivery_ok d';
  ev_count : d_attempt_count d <= d_attempt_count d';
  ev_fresh : d_status d' = Processing ->
             d_status d = Processing \/ d_attempt_count d < d_attempt_count d';
}.

Lemma next_status_not_terminal st st' : next_status st st' -> terminal st = false.
Proof. by destruct 1. Qed.

Lemma begin_ok {A} (m : M A) s a s' :
  begin m s = (Ok a, s') <-> exists s1, m s = (Ok a, s1) /\ s' = Sess (working s1) (working s1).
Proof.
  unfold begin. destruct (m s) as [[b|e] s1]; split.
  - intros [= -> <-]. eauto.
  - by intros (? & [= -> ->] & ->).
  - done.
  - by intros (? & ? & _).
Qed.

Lemma begin_raise {A} (m : M A) s e s' :
  begin m s = (Raise e, s') <->
  exists s1, m s = (Raise e, s1) /\ s' = Sess (committed s1) (committed s1).
Proof.
  unfold begin. destruct (m s) as [[b|e'] s1]; split.
  - done.
  - by intros (? & ? & _).
  - intros [= -> <-]. eauto.
  - by intros (? & [= -> ->] & ->).
Qed.

Lemma begin_run {A} (m : M A) s a s1 :
  m s = (Ok a, s1) -> begin m s = (Ok a, Sess (working s1) (working s1)).
Proof. unfold begin. by intros ->. Qed.

Lemma select_delivery_some claim guard db d :
  select_delivery claim guard db = Some d <->
  t_get (c_id claim) (db_deliveries db) = Some d /\ guard d = true.
Proof.
  unfold select_delivery. destruct (t_get _ _) as [d0|]; [| by split; [| intros []]].
  destruct (guard d0) eqn:E; split; [by intros [= ->] | by intros [[= ->] _] | done |].
  intros [[= ->] ?]. congruence.
Qed.

Lemma holds_token_spec claim d :
  holds_token claim d = true <->
  d_status d = Processing /\ d_lease_token d = Some (c_lease_token claim).
Proof. unfold holds_token. by rewrite andb_true_iff, !bool_decide_eq_true. Qed.

Lemma owns_spec claim now d :
  owns claim now d = true <->
  d_status d = Processing /\ d_lease_token d = Some (c_lease_token claim)
  /\ exists t, d_lease_expires_at d = Some t /\ now < t.
Proof.
  unfold owns. rewrite andb_true_iff, holds_token_spec.
  destruct (d_lease_expires_at d) as [t|]; [rewrite Z.ltb_lt |]; split.
  - intros [[? ?] ?]. eauto.
  - intros (? & ? & t' & [= <-] & ?). done.
  - by intros [_ ?].
  - by intros (_ & _ & ? & ? & _).
Qed.

(** [dok E] proves that an update of a row whose status [E] gives keeps
    [delivery_ok]. *)
Ltac dok E :=
  intros []; split; upd_simpl; rewrite ?E in *; try done; try lia;
  match goal with H : has ?o = _ |- has ?o = _ => by rewrite H end.

(** ** What the transactions do to a row *)

Section Rows.
Context `{Rounding} (settings : Settings).

Lemma due_status now d :
  due now d = true ->
  ((d_status d = Pending \/ d_status d = RetryScheduled) /\ d_next_attempt_at d <= now) \/
  (d_status d = Processing /\ exists t, d_lease_expires_at d = Some t /\ t <= now).
Proof.
  unfold due, due_at. rewrite bool_decide_eq_true. intros [t Ht].
  destruct (d_status d) eqn:E; cbn in Ht;
    try (destruct (Z.leb_spec (d_next_attempt_at d) now); [by auto | done]).
  destruct (d_lease_expires_at d) as [t'|]; [| done].
  destruct (Z.leb_spec t' now); [| done]. eauto.
Qed.

Lemma leased_evolves now token d : due now d = true -> evolves d (leased settings now token d).
Proof.
  intros Hd. assert (exists st, d_status d = st /\ next_status st Processing) as (st & E & Hst).
  { apply due_status in Hd as [[[E|E] _]|[E _]]; eauto using next_status. }
  unfold leased. split; upd_simpl; [done | by rewrite E | | lia | lia].
  revert E. inversion Hst; intros E; dok E.
Qed.

Definition renewed (now : datetime) (d : Delivery) : Delivery :=
  d &{ d_lease_expires_at := Some (lease_until settings now) } &{ d_updated_at := now }.

Lemma renewed_evolves now d : d_status d = Processing -> evolves d (renewed now d).
Proof.
  intros E. unfold renewed. split; upd_simpl; [done | rewrite E; constructor | dok E | lia | auto].
Qed.

Definition released (now : datetime) (d : Delivery) : Delivery :=
  d &{ d_status := RetryScheduled } &{ d_next_attempt_at := now }
    &{ d_lease_token := None } &{ d_lease_expires_at := None } &{ d_updated_at := now }.

Lemma released_evolves now d : d_status d = Processing -> evolves d (released now d).
Proof.
  intros E. unfold released. split; upd_simpl; [done | rewrite E; constructor | dok E | lia | auto].
Qed.

(** The three ways an attempt can end. *)
Inductive finalized (d : Delivery) (n : Z) (r : AttemptResult) (finished : datetime) (u : Q) :
    Delivery -> Prop :=
| fin_succeeded :
    r_succeeded r = true ->
    finalized d n r finished u
      (d &{ d_status := Succeeded } &{ d_succeeded_at := Some finished }
         &{ d_next_attempt_at := finished } &{ d_dead_at := None } &{ d_dead_reason := None })
| fin_retry next :
    r_succeeded r = false -> r_retryable r = true -> n < webhook_max_attempts settings ->
    finished < deadline settings d ->
    next = finished + timedelta_seconds (retry_delay settings n r u) ->
    next < deadline settings d ->
    finalized d n r finished u
      (d &{ d_status := RetryScheduled } &{ d_next_attempt_at := next }
         &{ d_dead_at := None } &{ d_dead_reason := None })
| fin_dead reason :
    r_succeeded r = false ->
    (r_retryable r = true -> n < webhook_max_attempts settings ->
     deadline settings d <= finished \/
     deadline settings d <= finished + timedelta_seconds (retry_delay settings n r u)) ->
    finalized d n r finished u (dead d finished reason).

Lemma delivery_after_finalized d n r finished u :
  finalized d n r finished u (delivery_after settings d n r finished u).
Proof.
  unfold delivery_after. destruct (r_succeeded r) eqn:Es; [by constructor |].
  destruct (r_retryable r) eqn:Er; cbn [andb].
  2: { apply fin_dead; [done |]. congruence. }
  destruct (Z.ltb_spec n (webhook_max_attempts settings)); cbn [andb].
  2: { apply fin_dead; [done |]. lia. }
  destruct (Z.leb_spec (deadline settings d) finished); cbn [negb].
  { apply fin_dead; [done |]. auto. }
  destruct (Z.ltb_spec (finished + timedelta_seconds (retry_delay settings n r u))
    (deadline settings d)); [by econstructor |].
  apply fin_dead; auto.
Qed.

Lemma finalized_evolves d n r finished u d' :
  d_status d = Processing -> finalized d n r finished u d' ->
  evolves d (finished_row d' r finished).
Proof.
  intros E. destruct 1 as [|next|reason]; unfold finished_row, dead;
    (split; upd_simpl; [done | rewrite E; constructor | dok E | lia | auto]).
Qed.
End Rows.

(** ** The transactions as functions of the database *)

Definition set_delivery (d : Delivery) (db : Db) : Db :=
  db &{ db_deliveries := t_set (d_id d) d (db_deliveries db) }.

Lemma run_begin_ok {A} (m : M A) db a s1 :
  m (Sess db db) = (Ok a, s1) -> run (begin m) db = (Ok a, working s1).
Proof. unfold run, begin. by intros ->. Qed.

Lemma run_begin_raise {A} (m : M A) db e s1 :
  m (Sess db db) = (Raise e, s1) -> committed s1 = db -> run (begin m) db = (Raise e, db).
Proof. unfold run, begin. by intros -> <-. Qed.

Section Transactions.
Context `{Rounding} (settings : Settings).

Lemma renew_lease_run now claim db :
  run (renew_lease settings now claim) db =
  match select_delivery claim (owns claim now) db with
  | None => (Ok false, db)
  | Some d => (Ok true, set_delivery (renewed settings now d) db)
  end.
Proof.
  unfold renew_lease. destruct (select_delivery claim (owns claim now) db) as [d|] eqn:E.
  - erewrite run_begin_ok; [| m_run; rewrite E; m_run; reflexivity]. done.
  - erewrite run_begin_ok; [| m_run; rewrite E; reflexivity]. done.
Qed.

Lemma release_claim_run now claim db :
  run (release_claim now claim) db =
  match select_delivery claim (holds_token claim) db with
  | None => (Ok false, db)
  | Some d => (Ok true, set_delivery (released now d) db)
  end.
Proof.
  unfold release_claim. destruct (select_delivery claim (holds_token claim) db) as [d|] eqn:E.
  - erewrite run_begin_ok; [| m_run; rewrite E; m_run; reflexivity]. done.
  - erewrite run_begin_ok; [| m_run; rewrite E; reflexivity]. done.
Qed.

Definition attempt_recorded (delivery_id n : Z) (db : Db) : bool :=
  has (t_find (fun a => (at_delivery_id a =? delivery_id) && (at_attempt_number a =? n))
         (db_attempts db)).

Definition attempt_row (claim : ClaimedDelivery) (d d' : Delivery) (started : datetime)
    (r : AttemptResult) (finished : datetime) (id : Z) : DeliveryAttempt :=
  {| at_id := id; at_delivery_id := d_id d; at_attempt_number := c_attempt_number claim;
     at_started_at := started; at_finished_at := finished; at_outcome := d_status d';
     at_http_status := r_status_code r; at_error := r_error r;
     at_response_body := r_response_body r; at_response_purged_at := None |}.

(** The database after a finalization that went through. *)
Definition finalized_db (claim : ClaimedDelivery) (d : Delivery) (q : EndpointQuotaState)
    (started : datetime) (r : AttemptResult) (finished : datetime) (u : Q) (db : Db) : Db :=
  let d' := delivery_after settings d (c_attempt_number claim) r finished u in
  db &{ db_quotas := <[d_endpoint_id d := endpoint_after settings q (d_id d) r finished]>
                       (db_quotas db) }
     &{ db_deliveries := t_set (d_id d') (finished_row d' r finished) (db_deliveries db) }
     &{ db_attempts := t_add (attempt_row claim d d' started r finished) (db_attempts db) }.

Lemma finalize_run claim started r finished u db :
  run (finalize settings claim started r finished u) db =
  match select_delivery claim (owns claim finished) db with
  | None => (Ok false, db)
  | Some d =>
      match db_quotas db !! d_endpoint_id d with
      | None => (Raise (RuntimeError "Endpoint retry state is unavailable"), db)
      | Some q =>
          if attempt_recorded (d_id d) (c_attempt_number claim) db
          then (Raise IntegrityError, db)
          else (Ok true, finalized_db claim d q started r finished u db)
      end
  end.
Proof.
  unfold finalize. destruct (select_delivery claim (owns claim finished) db) as [d|] eqn:E.
  2: { erewrite run_begin_ok; [| m_run; rewrite E; reflexivity]. done. }
  destruct (db_quotas db !! d_endpoint_id d) as [q|] eqn:Eq.
  2: { eapply run_begin_raise.
       - m_run. rewrite E. m_run. rewrite Eq. erewrite M_bind_raise; reflexivity.
       - done. }
  unfold attempt_recorded.
  destruct (t_find _ (db_attempts db)) as [a|] eqn:Ea; cbn [has].
  - eapply run_begin_raise.
    + m_run. rewrite E. m_run. rewrite Eq. m_run. m_run. m_run.
      erewrite M_bind_raise; [reflexivity |]. unfold add_attempt. m_run.
      cbn [at_delivery_id at_attempt_number]. rewrite Ea. reflexivity.
    + done.
  - erewrite run_begin_ok.
    2: { m_run. rewrite E. m_run. rewrite Eq. m_run. m_run. m_run.
         erewrite M_bind_run; [reflexivity |]. unfold add_attempt. m_run.
         cbn [at_delivery_id at_attempt_number]. rewrite Ea. reflexivity. }
    done.
Qed.
End Transactions.

Section Claiming.
Context `{Rounding} (settings : Settings) (now : datetime) (uuid : nat -> str).

Fixpoint lease_rows (i : nat) (ds : list Delivery) (t : table Delivery) : table Delivery :=
  match ds with
  | [] => t
  | d :: ds' => lease_rows (S i) ds' (t_set (d_id d) (leased settings now (uuid i) d) t)
  end.

(** The envelope a claim of the row would carry. *)
Definition envelope_of (d : Delivery) (db : Db) : option (Event * pybytes) :=
  event ← t_get (d_event_id d) (db_events db);
  envelope ← ev_canonical_envelope event;
  Some (event, envelope).

Definition claim_for (i : nat) (d : Delivery) (ee : Event * pybytes) : ClaimedDelivery :=
  claim_of (leased settings now (uuid i) d) ee.1 (uuid i) ee.2.

Fixpoint claims_for (i : nat) (ds : list Delivery) (db : Db) : list ClaimedDelivery :=
  match ds with
  | [] => []
  | d :: ds' =>
      match envelope_of d db with
      | Some ee => claim_for i d ee :: claims_for (S i) ds' db
      | None => []
      end
  end.

Lemma claims_for_events i ds db db' :
  db_events db' = db_events db -> claims_for i ds db' = claims_for i ds db.
Proof.
  intros E. revert i; induction ds as [| d ds IH]; intros i; [done |]. cbn.
  unfold envelope_of. rewrite E. by case_match; [rewrite IH |].
Qed.

Lemma claim_rows_run i ds s :
  Forall (fun d => is_Some (envelope_of d (working s))) ds ->
  claim_rows settings now uuid i ds s =
  (Ok (claims_for i ds (working s)),
   Sess (committed s)
     ((working s) &{ db_deliveries := lease_rows i ds (db_deliveries (working s)) })).
Proof.
  revert i s; induction ds as [| d ds IH]; intros i s Hall; [by destruct s as [? []] |].
  apply list.Forall_cons in Hall as [[[event envelope] He] Hall].
  pose proof He as He'. unfold envelope_of in He'.
  apply bind_Some in He' as (event' & Ev & He'). apply bind_Some in He' as (env' & En & Hp).
  injection Hp as -> ->.
  cbn [claim_rows claims_for lease_rows]. rewrite He. unfold put_delivery. m_run. m_run.
  rewrite Ev. cbn [of_option]. m_run. rewrite En. cbn [of_option]. m_run.
  erewrite M_bind_run; [| apply IH; exact Hall]. cbn [working committed].
  by rewrite (claims_for_events (S i) ds (working s)) by done.
Qed.

Lemma claim_rows_raise i ds s e s' :
  claim_rows settings now uuid i ds s = (Raise e, s') -> committed s' = committed s.
Proof.
  revert i s; induction ds as [| d ds IH]; intros i s; [done |].
  cbn [claim_rows]. unfold put_delivery. m_run. m_run.
  destruct (t_get _ _) as [event|]; cbn [of_option].
  2: { erewrite M_bind_raise; [| reflexivity]. by intros [= _ <-]. }
  m_run. destruct (ev_canonical_envelope event); cbn [of_option].
  2: { erewrite M_bind_raise; [| reflexivity]. by intros [= _ <-]. }
  m_run. intros Hr.
  unfold mbind, M_bind in Hr.
  match type of Hr with context [claim_rows ?a ?b ?c ?n ?l ?x] =>
    destruct (claim_rows a b c n l x) as [[cs|e0] s1] eqn:E end; [done |].
  injection Hr as -> ->. by apply IH in E.
Qed.

Lemma lease_rows_seq i ds t : seq (lease_rows i ds t) = seq t.
Proof. revert i t; induction ds as [| d ds IH]; intros i t; [done |]. cbn. by rewrite IH. Qed.

Lemma lease_rows_other i ds t k :
  k ∉ map d_id ds -> t_get k (lease_rows i ds t) = t_get k t.
Proof.
  revert i t; induction ds as [| d ds IH]; intros i t Hk; [done |]. cbn in *.
  rewrite IH by set_solver. rewrite t_get_set. case_decide; [set_solver | done].
Qed.

Lemma lease_rows_get i ds t n d :
  NoDup (map d_id ds) -> ds !! n = Some d ->
  t_get (d_id d) (lease_rows i ds t) = Some (leased settings now (uuid (i + n)) d).
Proof.
  revert i t n; induction ds as [| d0 ds IH]; intros i t n Hn Hd; [done |].
  cbn in Hn. apply list.NoDup_cons in Hn as [Hn0 Hn]. destruct n as [| n]; cbn in *.
  - injection Hd as ->. rewrite lease_rows_other by done. rewrite t_get_set.
    rewrite decide_True by done. by rewrite Nat.add_0_r.
  - rewrite <- Nat.add_succ_comm. by apply IH.
Qed.

(** A row after a claim: leased to its token, or as before. *)
Lemma lease_rows_cases i ds t k d' :
  NoDup (map d_id ds) -> t_get k (lease_rows i ds t) = Some d' ->
  (exists n d, ds !! n = Some d /\ d_id d = k /\ d' = leased settings now (uuid (i + n)) d)
  \/ (k ∉ map d_id ds /\ t_get k t = Some d').
Proof.
  intros Hn Hd. destruct (decide (k ∈ map d_id ds)) as [Hk|Hk].
  - apply list_elem_of_fmap in Hk as (d & -> & Hk). apply list_elem_of_lookup in Hk as [n Hk].
    left. exists n, d. rewrite (lease_rows_get i ds t n d) in Hd by done. naive_solver.
  - right. by rewrite lease_rows_other in Hd.
Qed.

Lemma claims_for_lookup i ds db n c :
  claims_for i ds db !! n = Some c ->
  exists d ee, ds !! n = Some d /\ envelope_of d db = Some ee /\ c = claim_for (i + n) d ee.
Proof.
  revert i n; induction ds as [| d ds IH]; intros i n Hc; [done |]. cbn in Hc.
  destruct (envelope_of d db) as [ee|] eqn:E; [| done].
  destruct n as [| n]; cbn in Hc.
  - injection Hc as <-. exists d, ee. by rewrite Nat.add_0_r.
  - apply IH in Hc as (d' & ee' & Hd & He & ->). exists d', ee'.
    rewrite <- Nat.add_succ_comm. done.
Qed.

Lemma claims_for_length i ds db :
  Forall (fun d => is_Some (envelope_of d db)) ds -> length (claims_for i ds db) = length ds.
Proof.
  revert i; induction ds as [| d ds IH]; intros i Hall; [done |].
  apply list.Forall_cons in Hall as [[ee He] Hall]. cbn. rewrite He. cbn. by rewrite IH.
Qed.
End Claiming.

(** ** The invariant the worker relies on *)

Record deliveries_ok (settings : Settings) (db : Db) : Prop := {
  dbo_keyed : t_keyed d_id (db_deliveries db);
  dbo_wf : t_wf (db_deliveries db);
  dbo_rows : forall k d, t_get k (db_deliveries db) = Some d -> delivery_ok d;
  dbo_envelopes : forall k d, t_get k (db_deliveries db) = Some d ->
    terminal (d_status d) = false -> is_Some (envelope_of d db);
  dbo_quotas : map_Forall (fun _ q => quota_ok settings q) (db_quotas db);
  dbo_leased_quota : forall k d, t_get k (db_deliveries db) = Some d ->
    d_status d = Processing -> is_Some (db_quotas db !! d_endpoint_id d);
  dbo_attempts : forall k a, t_get k (db_attempts db) = Some a ->
    exists d, t_get (at_delivery_id a) (db_deliveries db) = Some d /\
      at_attempt_number a <= d_attempt_count d /\
      (d_status d = Processing -> at_attempt_number a < d_attempt_count d);
  dbo_attempts_wf : t_wf (db_attempts db);
  dbo_unique : forall k k' a a', t_get k (db_attempts db) = Some a ->
    t_get k' (db_attempts db) = Some a' ->
    at_delivery_id a = at_delivery_id a' -> at_attempt_number a = at_attempt_number a' -> k = k';
}.

Lemma due_not_terminal now d : due now d = true -> terminal (d_status d) = false.
Proof. by intros [[[->| ->] _]|[-> _]]%due_status. Qed.

Section ClaimSpec.
Context `{Rounding} (settings : Settings) (now : datetime) (unlocked : Z -> bool)
  (uuid : nat -> str) (limit : Z).

Lemma claim_due_run db :
  limits_ok settings -> deliveries_ok settings db -> 0 < limit ->
  exists l db1,
    selection_ok settings now unlocked limit db db1 l /\
    Forall (fun d => is_Some (envelope_of d db)) l /\
    run (claim_due settings now unlocked uuid limit) db =
      (Ok (claims_for settings now uuid 0 l db),
       db1 &{ db_deliveries := lease_rows settings now uuid 0 l (db_deliveries db) }).
Proof.
  intros L Hok Hlim.
  destruct (final_ok settings now unlocked limit db) as [f Hf].
  assert (exists l s', select_fair_deliveries settings now unlocked limit (Sess db db) = (Ok l, s'))
    as (l & s' & Hs).
  { rewrite select_run. cbn zeta. case_match; [eauto |]. cbn [working]. rewrite Hf. eauto. }
  pose proof Hs as Hs'. apply select_fair_deliveries_ok in Hs' as [Hc Hsel];
    [| done | apply Hok | apply Hok].
  cbn [working committed] in *.
  destruct (so_frame _ _ _ _ _ _ _ Hsel) as (Q & T & G & Hdb1).
  assert (Forall (fun d => is_Some (envelope_of d db)) l) as Henv.
  { apply list.Forall_forall. intros d Hd. destruct (so_due _ _ _ _ _ _ _ Hsel d Hd) as (Hdue & _ & Hg).
    eapply dbo_envelopes; [exact Hok | exact Hg | by eapply due_not_terminal]. }
  exists l, (working s'). split; [done |]. split; [done |].
  unfold claim_due. destruct (Z.leb_spec limit 0); [lia |].
  erewrite run_begin_ok.
  2: { erewrite M_bind_run; [| exact Hs]. apply claim_rows_run. rewrite Hdb1. exact Henv. }
  cbn [working]. rewrite Hdb1. upd_simpl. f_equal. by erewrite claims_for_events.
Qed.
End ClaimSpec.

(** ** Preservation *)

Section Preserve.
Context `{Rounding} (settings : Settings).

(** A step that only moves delivery rows along [evolves], adding endpoint
    rows where needed, keeps the invariant. *)
Lemma deliveries_ok_evolve db db' :
  deliveries_ok settings db ->
  db_events db' = db_events db -> db_attempts db' = db_attempts db ->
  seq (db_deliveries db') = seq (db_deliveries db) ->
  (forall k d, t_get k (db_deliveries db) = Some d ->
     exists d', t_get k (db_deliveries db') = Some d' /\ (d' = d \/ evolves d d')) ->
  (forall k, is_Some (t_get k (db_deliveries db')) -> is_Some (t_get k (db_deliveries db))) ->
  map_Forall (fun _ q => quota_ok settings q) (db_quotas db') ->
  (forall k d', t_get k (db_deliveries db') = Some d' -> d_status d' = Processing ->
     is_Some (db_quotas db' !! d_endpoint_id d')) ->
  deliveries_ok settings db'.
Proof.
  intros [Hk Hwf Hr He HQ HqL Ha Haw Hu] Eev Eat Eseq Hfwd Hdom HQ' HqL'.
  assert (forall k d', t_get k (db_deliveries db') = Some d' ->
    exists d, t_get k (db_deliveries db) = Some d /\ (d' = d \/ evolves d d')) as Hback.
  { intros k d' Hd'. destruct (Hdom k ltac:(eauto)) as [d Hd]. exists d. split; [done |].
    destruct (Hfwd k d Hd) as (d2 & Hd2 & Hc). congruence. }
  split; try done.
  - intros k d' Hd'. destruct (Hback k d' Hd') as (d & Hd & [->|Hev]); [by apply Hk |].
    rewrite (ss_id _ _ (ev_snapshot _ _ Hev)). by apply Hk.
  - intros k Hs. rewrite Eseq. by apply Hwf, Hdom.
  - intros k d' Hd'. destruct (Hback k d' Hd') as (d & Hd & [->|Hev]); [by eapply Hr |].
    by eapply ev_ok, Hr.
  - intros k d' Hd' Ht. destruct (Hback k d' Hd') as (d & Hd & [->|Hev]).
    + unfold envelope_of. rewrite Eev. by eapply He.
    + unfold envelope_of. rewrite Eev, (ss_event _ _ (ev_snapshot _ _ Hev)).
      eapply He; [exact Hd |]. eapply next_status_not_terminal, ev_status, Hev.
  - intros k a Hka. rewrite Eat in Hka. destruct (Ha k a Hka) as (d & Hd & Hle & Hlt).
    destruct (Hfwd _ d Hd) as (d' & Hd' & [->|Hev]); [by eauto |].
    exists d'. split; [done |]. pose proof (ev_count _ _ Hev). split; [lia |].
    intros Hp. destruct (ev_fresh _ _ Hev Hp) as [Hp0|]; [specialize (Hlt Hp0) |]; lia.
  - by rewrite Eat.
  - by rewrite Eat.
Qed.

(** Changing one row. *)
Lemma deliveries_ok_set db d d' :
  deliveries_ok settings db -> t_get (d_id d) (db_deliveries db) = Some d -> evolves d d' ->
  (d_status d' = Processing -> is_Some (db_quotas db !! d_endpoint_id d)) ->
  deliveries_ok settings (set_delivery d' db).
Proof.
  intros Hok Hd Hev Hq. pose proof (ss_id _ _ (ev_snapshot _ _ Hev)) as Hid.
  unfold set_delivery. apply (deliveries_ok_evolve db); upd_simpl; try done.
  - intros k d0 Hd0. rewrite t_get_set, Hid. case_decide; subst; [| by eauto].
    exists d'. split; [done |]. right. congruence.
  - intros k. rewrite t_get_set, Hid. case_decide; subst; [by eauto | done].
  - apply Hok.
  - intros k d0. rewrite t_get_set, Hid. case_decide; subst.
    + intros [= <-] Hp. rewrite (ss_endpoint _ _ (ev_snapshot _ _ Hev)). auto.
    + apply Hok.
Qed.

Lemma renew_lease_ok now claim db r db' :
  deliveries_ok settings db -> run (renew_lease settings now claim) db = (r, db') ->
  deliveries_ok settings db'.
Proof.
  intros Hok. rewrite renew_lease_run.
  destruct (select_delivery _ _ _) as [d|] eqn:E; [| by intros [= _ <-]].
  intros [= _ <-]. apply select_delivery_some in E as [Hd (Hp & _ & _)%owns_spec].
  pose proof (dbo_keyed _ _ Hok _ _ Hd) as Hid. rewrite <- Hid in Hd.
  eapply deliveries_ok_set; [done | exact Hd | by apply renewed_evolves |].
  intros _. by eapply dbo_leased_quota.
Qed.

Lemma release_claim_ok now claim db r db' :
  deliveries_ok settings db -> run (release_claim now claim) db = (r, db') ->
  deliveries_ok settings db'.
Proof.
  intros Hok. rewrite release_claim_run.
  destruct (select_delivery _ _ _) as [d|] eqn:E; [| by intros [= _ <-]].
  intros [= _ <-]. apply select_delivery_some in E as [Hd (Hp & _)%holds_token_spec].
  pose proof (dbo_keyed _ _ Hok _ _ Hd) as Hid. rewrite <- Hid in Hd.
  eapply deliveries_ok_set; [done | exact Hd | by apply released_evolves | done].
Qed.
End Preserve.

Section Circuit.
Context `{Rounding} (settings : Settings).

Lemma quota_ok_touch q t : quota_ok settings q -> quota_ok settings (q &{ q_updated_at := t }).
Proof. by intros []. Qed.

Lemma close_circuit_ok q : quota_ok settings q -> quota_ok settings (close_circuit q).
Proof. intros []. by split. Qed.

Lemma open_circuit_ok until q : quota_ok settings q -> quota_ok settings (open_circuit until q).
Proof. intros []. by split. Qed.

Lemma success_refill_range q :
  limits_ok settings -> quota_ok settings q ->
  (0 <= qmin (float_of (endpoint_retry_burst settings))
          (fadd (q_retry_tokens q) (float_of (endpoint_retry_success_refill settings)))
     <= inject_Z (endpoint_retry_burst settings))%Q.
Proof.
  intros L [_ [Ht _] _ _]. destruct (lim_retry_burst _ L) as [Hb1 Hb2].
  rewrite <- (float_of_exact (endpoint_retry_burst settings)) by lia.
  split; [| apply qmin_le_l]. apply qmin_glb.
  - apply rnd_nonneg. rewrite <- (Zle_Qle 0). lia.
  - apply rnd_nonneg. assert (0 <= float_of (endpoint_retry_success_refill settings))%Q.
    { apply rnd_nonneg. rewrite <- (Zle_Qle 0). pose proof (lim_refill _ L). lia. }
    lra.
Qed.

Lemma endpoint_after_ok q id r finished :
  limits_ok settings -> quota_ok settings q ->
  quota_ok settings (endpoint_after settings q id r finished).
Proof.
  intros L Hq. unfold endpoint_after. apply quota_ok_touch.
  destruct (r_succeeded r).
  { apply close_circuit_ok. pose proof (success_refill_range q L Hq). destruct Hq. by split. }
  destruct (r_retryable r).
  { assert (quota_ok settings (q &{ q_consecutive_failures := q_consecutive_failures q + 1 }))
      as Hq1 by (destruct Hq; split; upd_simpl; try done; lia).
    destruct (_ || _); [by apply open_circuit_ok | done]. }
  destruct (_ && _); [by apply open_circuit_ok |].
  destruct (_ || _); [by apply close_circuit_ok | done].
Qed.

(** An attempt that has not been recorded can be. *)
Lemma not_recorded db d :
  deliveries_ok settings db -> t_get (d_id d) (db_deliveries db) = Some d ->
  d_status d = Processing -> attempt_recorded (d_id d) (d_attempt_count d) db = false.
Proof.
  intros Hok Hd Hp. unfold attempt_recorded.
  destruct (t_find _ _) as [a|] eqn:E; [| done]. exfalso.
  apply t_find_some in E as [Hm [k Hk]]. apply andb_true_iff in Hm as [H1 H2].
  destruct (dbo_attempts _ _ Hok k a Hk) as (d' & Hd' & _ & Hlt).
  replace (at_delivery_id a) with (d_id d) in Hd' by lia.
  rewrite Hd in Hd'. injection Hd' as <-. specialize (Hlt Hp). lia.
Qed.

Lemma finalized_db_ok claim d q started r finished u db :
  limits_ok settings -> deliveries_ok settings db ->
  t_get (d_id d) (db_deliveries db) = Some d -> d_status d = Processing ->
  db_quotas db !! d_endpoint_id d = Some q -> c_attempt_number claim = d_attempt_count d ->
  deliveries_ok settings (finalized_db settings claim d q started r finished u db).
Proof.
  intros L Hok Hd Hp Hq Hn.
  set (n := c_attempt_number claim).
  pose proof (delivery_after_finalized settings d n r finished u) as Hfin.
  set (d' := delivery_after settings d n r finished u) in *.
  pose proof (finalized_evolves settings d n r finished u d' Hp Hfin) as Hev.
  assert (d_id d' = d_id d /\ d_status d' <> Processing /\ d_attempt_count d' = d_attempt_count d)
    as (Hid & Hnp & Hcount) by (by destruct Hfin).
  assert (deliveries_ok settings (db &{ db_quotas := <[d_endpoint_id d :=
      endpoint_after settings q (d_id d) r finished]> (db_quotas db) }
    &{ db_deliveries := t_set (d_id d') (finished_row d' r finished) (db_deliveries db) }))
    as Hok1.
  { eapply deliveries_ok_evolve; [exact Hok | done | done | done | | | |]; upd_simpl.
    - intros k d0 Hd0. rewrite t_get_set, Hid. case_decide; subst; [| by eauto].
      eexists. split; [done |]. right. congruence.
    - intros k. rewrite t_get_set, Hid. case_decide; subst; [by eauto | done].
    - apply map_Forall_insert_2; [| apply Hok]. apply endpoint_after_ok; [done |].
      eapply (dbo_quotas _ _ Hok), Hq.
    - intros k d0. rewrite t_get_set, Hid. case_decide; subst; [by intros [= <-] |].
      intros Hd0 Hp0. apply is_Some_insert. by eapply dbo_leased_quota. }
  unfold finalized_db. fold n d'.
  pose proof (not_recorded db d Hok Hd Hp) as Hnr.
  destruct Hok1 as [K1 K2 K3 K4 K5 K6 K7 K8 K9]. split; upd_simpl; try done.
  - intros k a. unfold t_get, t_add. cbn. rewrite lookup_insert. case_decide; [| by apply K7].
    intros [= <-]. exists (finished_row d' r finished). cbn.
    rewrite <- Hid. split; [apply lookup_insert_eq |]. split; [| done]. lia.
  - by apply t_wf_add.
  - assert (forall k a, t_get k (db_attempts db) = Some a -> at_delivery_id a = d_id d ->
      at_attempt_number a = n -> False) as Hnone.
    { intros k a Hk Hi Hnum. unfold attempt_recorded in Hnr.
      destruct (t_find _ _) eqn:E; [done |]. eapply t_find_none in E; [| exact Hk].
      rewrite Hi, Hnum, <- Hn in E. unfold n in E. lia. }
    intros k k' a a'. unfold t_get, t_add. cbn. rewrite !lookup_insert.
    repeat case_decide; subst; [done | | |].
    + intros [= <-] Ha' Hi Hnum. exfalso. by eapply (Hnone k').
    + intros Ha [= <-] Hi Hnum. exfalso. by eapply (Hnone k).
    + by apply K9.
Qed.

Lemma claim_due_ok now unlocked uuid limit db r db' :
  limits_ok settings -> deliveries_ok settings db ->
  run (claim_due settings now unlocked uuid limit) db = (r, db') ->
  deliveries_ok settings db'.
Proof.
  intros L Hok Hr. destruct (Z.leb_spec limit 0) as [Hl|Hl].
  { unfold claim_due in Hr. destruct (Z.leb_spec limit 0); [| lia]. by injection Hr as _ <-. }
  destruct (claim_due_run settings now unlocked uuid limit db L Hok Hl)
    as (l & db1 & Hsel & Henv & Hrun).
  rewrite Hrun in Hr. injection Hr as _ <-.
  destruct (so_frame _ _ _ _ _ _ _ Hsel) as (Q & T & G & E1).
  pose proof (so_nodup _ _ _ _ _ _ _ Hsel) as Hnd.
  eapply deliveries_ok_evolve; [exact Hok | | | | | | |]; upd_simpl.
  - by rewrite E1.
  - by rewrite E1.
  - apply lease_rows_seq.
  - intros k d Hd. destruct (decide (k ∈ map d_id l)) as [Hk|Hk].
    2: { rewrite lease_rows_other by done. eauto. }
    apply list_elem_of_fmap in Hk as (d0 & -> & Hin).
    destruct (so_due _ _ _ _ _ _ _ Hsel d0 Hin) as (Hdue & _ & Hg).
    rewrite Hg in Hd. injection Hd as <-. apply list_elem_of_lookup in Hin as [n Hin].
    eexists. split; [by apply lease_rows_get |]. right. by apply leased_evolves.
  - intros k [d' Hd']. apply lease_rows_cases in Hd' as [(n & d & Hl' & <- & _)|[_ ?]]; [| eauto |done].
    apply list_elem_of_lookup_2 in Hl'. destruct (so_due _ _ _ _ _ _ _ Hsel d Hl') as (_ & _ & Hg).
    eauto.
  - apply (so_quotas _ _ _ _ _ _ _ Hsel).
  - intros k d' Hd' Hp. apply lease_rows_cases in Hd' as [(n & d & Hl' & <- & ->)|[Hnot Hd']]; [| |done].
    + apply list_elem_of_lookup_2 in Hl'.
      destruct (so_probe _ _ _ _ _ _ _ Hsel d Hl') as (q & Hq & _). unfold leased. upd_simpl. eauto.
    + apply (so_kept _ _ _ _ _ _ _ Hsel). by eapply dbo_leased_quota.
Qed.
End Circuit.

(** ** Live leases after a claim *)

Lemma t_where_set {A} (p : A -> bool) (t : table A) k a a' :
  rows t !! k = Some a -> p a = false -> p a' = true ->
  t_where p (t_set k a' t) ≡ₚ a' :: t_where p t.
Proof.
  intros Hk Ha Ha'. unfold t_where, t_set. cbn.
  rewrite <- (insert_delete_eq (rows t) k a').
  rewrite map_to_list_insert by apply lookup_delete_eq.
  assert ((map_to_list (rows t)).*2 ≡ₚ a :: (map_to_list (delete k (rows t))).*2) as ->.
  { by rewrite <- (map_to_list_delete (rows t) k a Hk). }
  cbn [fmap list_fmap]. rewrite !filter_cons, decide_True, decide_False; [done | |].
  - rewrite Ha. by intros [].
  - cbn. by rewrite Ha'.
Qed.

Section LiveLeases.
Context `{Rounding} (settings : Settings) (now : datetime) (uuid : nat -> str).

Definition leased_rows (i : nat) (ds : list Delivery) : list Delivery :=
  imap (fun n d => leased settings now (uuid (i + n)) d) ds.

Lemma due_not_live d : due now d = true -> live now d = false.
Proof.
  unfold live. intros [[[->| ->] _]|(-> & t & -> & Ht)]%due_status; [done | done |].
  cbn. lia.
Qed.

Lemma leased_live token d : limits_ok settings -> live now (leased settings now token d) = true.
Proof.
  intros L. unfold live, leased, lease_until. upd_simpl.
  rewrite bool_decide_true by done. cbn [andb]. pose proof (lim_lease _ L).
  unfold seconds, second. apply Z.ltb_lt. lia.
Qed.

Lemma live_after_claim i ds t :
  limits_ok settings -> NoDup (map d_id ds) ->
  (forall d, d ∈ ds -> due now d = true /\ t_get (d_id d) t = Some d) ->
  t_where (live now) (lease_rows settings now uuid i ds t)
  ≡ₚ t_where (live now) t ++ leased_rows i ds.
Proof.
  intros L. revert i t; induction ds as [| d ds IH]; intros i t Hnd Hds; [by rewrite app_nil_r |].
  cbn in Hnd. apply list.NoDup_cons in Hnd as [Hnot Hnd].
  destruct (Hds d ltac:(set_solver)) as [Hdue Hd]. cbn [lease_rows].
  rewrite IH; [| done |].
  - rewrite (t_where_set _ t (d_id d) d) by eauto using due_not_live, leased_live.
    unfold leased_rows. rewrite imap_cons, Nat.add_0_r.
    etrans; [| apply Permutation_middle]. apply perm_skip.
    erewrite imap_ext; [done |]. intros n x _. cbn. by rewrite Nat.add_succ_r.
  - intros d' Hd'. destruct (Hds d' ltac:(set_solver)) as [Hdue' Hg]. split; [done |].
    rewrite t_get_set. case_decide as E; [| done]. exfalso. apply Hnot. rewrite E.
    by apply list_elem_of_fmap_2.
Qed.

Lemma leased_rows_count (key : Delivery -> Z) v i ds :
  (forall token d, key (leased settings now token d) = key d) ->
  len (filter (fun d => key d = v) (leased_rows i ds)) = len (filter (fun d => key d = v) ds).
Proof.
  intros Hkey. unfold leased_rows. revert i; induction ds as [| d ds IH]; intros i; [done |].
  rewrite imap_cons, !filter_cons. cbn [compose].
  assert (imap ((fun n d => leased settings now (uuid (i + n)) d) ∘ S) ds
          = imap (fun n d => leased settings now (uuid (S i + n)) d) ds) as ->.
  { apply imap_ext. intros n x _. cbn. by rewrite Nat.add_succ_r. }
  cbn beta. rewrite Hkey. specialize (IH (S i)). unfold len in *.
  case_decide; rewrite ?length_cons; lia.
Qed.
End LiveLeases.
