(* ===== verification/WorkerSafety.v ===== *)
(** * Guarantees of the delivery worker

    Theorems about the transactions of [DeliveryService]: claims stay within the caps, stale workers are fenced off, retries stay
    within their budgets, the circuit of an endpoint stays coherent, and what
    an HTTP attempt reports. *)

From Stdlib Require Import QArith Lqa.
From stdpp Require Import sorting.
From stdpp Require Import base tactics list gmap strings numbers option.
From S2P Require Import Prelude Crypto Json Models Session Settings RetryPolicy Admission.
From S2P Require Import Scheduling Fairness WebhookSecurity Delivery.
Local Open Scope Z_scope.

Lemma selection_size `{Rounding} settings now unlocked limit db db1 l uuid i :
  selection_ok settings now unlocked limit db db1 l ->
  len (claims_for settings now uuid i l db) <= Z.max 0 limit.
Proof.
  intros Hsel. pose proof (so_requested _ _ _ _ _ _ _ Hsel) as Hr.
  enough (length (claims_for settings now uuid i l db) <= length l)%nat by (unfold len in *; lia).
  clear. revert i; induction l as [| d l IH]; intros i; cbn; [lia |].
  destruct (envelope_of d db); cbn; [specialize (IH (S i)) |]; lia.
Qed.

(** ** Claims *)

(** C2: claiming.  On a database that satisfies the worker's invariant a claim
    always returns.  Every claim it returns names a row that was due and is now
    leased to the claim's token for the configured time, with the claim's
    attempt number and the endpoint snapshot taken at acceptance; all other
    rows are unchanged; and the live leases of the deployment, of each tenant
    and of each endpoint are within their caps, or where they were. *)
Theorem claim_due_correct `{Rounding} settings now unlocked uuid limit db :
  limits_ok settings -> deliveries_ok settings db -> 0 < limit ->
  exists cs db',
    run (claim_due settings now unlocked uuid limit) db = (Ok cs, db') /\
    deliveries_ok settings db' /\ len cs <= limit /\ NoDup (map c_id cs) /\
    (forall n c, cs !! n = Some c -> exists d,
       t_get (c_id c) (db_deliveries db) = Some d /\ due now d = true /\
       t_get (c_id c) (db_deliveries db') = Some (leased settings now (uuid n) d) /\
       c_lease_token c = uuid n /\ c_attempt_number c = d_attempt_count d + 1 /\
       c_endpoint_url c = d_endpoint_url_snapshot d /\
       c_endpoint_secret_version c = d_signing_secret_version_snapshot d) /\
    (forall k, k ∉ map c_id cs ->
       t_get k (db_deliveries db') = t_get k (db_deliveries db)) /\
    (let before := t_where (live now) (db_deliveries db) in
     let after := t_where (live now) (db_deliveries db') in
     len after <= Z.max (len before) (worker_global_concurrency settings) /\
     (forall o, len (of_tenant o after)
        <= Z.max (len (of_tenant o before)) (tenant_in_flight_deliveries settings)) /\
     (forall e, len (of_endpoint e after)
        <= Z.max (len (of_endpoint e before)) (endpoint_concurrency settings))).
Proof.
  intros L Hok Hlim.
  destruct (claim_due_run settings now unlocked uuid limit db L Hok Hlim)
    as (l & db1 & Hsel & Henv & Hrun).
  pose proof Hsel as [Hreq Hglob Hten Hend Hnd Hdue _ _ _ _].
  eexists _, _. split; [exact Hrun |].
  split; [by eapply claim_due_ok |].
  assert (map c_id (claims_for settings now uuid 0 l db) = map d_id l) as Hids.
  { clear -Henv. generalize 0%nat.
    induction Henv as [| d l [ee He] _ IH]; intros i; [done |]. cbn. rewrite He. cbn.
    by rewrite IH. }
  split.
  { pose proof (claims_for_length settings now uuid 0 l db Henv) as Hlen. unfold len in *. lia. }
  split; [by rewrite Hids |]. split; [| split].
  - intros n c Hc. apply claims_for_lookup in Hc as (d & ee & Hd & He & ->).
    pose proof (list_elem_of_lookup_2 _ _ _ Hd) as Hin. destruct (Hdue d Hin) as (Hdd & _ & Hg).
    change (c_id _) with (d_id d). exists d. upd_simpl. split; [done |]. split; [done |].
    split; [by apply (lease_rows_get settings now uuid 0 l _ n d) | done].
  - intros k Hk. upd_simpl. apply lease_rows_other. by rewrite <- Hids.
  - cbn zeta. upd_simpl.
    assert (forall d, d ∈ l -> due now d = true /\ t_get (d_id d) (db_deliveries db) = Some d)
      as Hdue' by (intros d Hd; by destruct (Hdue d Hd) as (? & _ & ?)).
    pose proof (live_after_claim settings now uuid 0 l (db_deliveries db) L Hnd Hdue') as Hlive.
    assert (forall (P : Delivery -> Prop) `{forall d, Decision (P d)},
      len (filter P (t_where (live now) (lease_rows settings now uuid 0 l (db_deliveries db))))
      = len (filter P (t_where (live now) (db_deliveries db)))
        + len (filter P (leased_rows settings now uuid 0 l))) as Hfil.
    { intros P ?. unfold len. rewrite Hlive, list.filter_app, length_app. lia. }
    cbn zeta in *. split; [| split].
    + unfold len in *. rewrite Hlive, length_app.
      unfold leased_rows. rewrite length_imap. lia.
    + intros o. specialize (Hten o). unfold of_tenant in *.
      rewrite Hfil, leased_rows_count by done. done.
    + intros e. specialize (Hend e). unfold of_endpoint in *.
      rewrite Hfil, leased_rows_count by done. done.
Qed.

(** A deployment with queued work for one endpoint. *)
Module Site.
Definition event (id : Z) : Event :=
  {| ev_id := id; ev_public_id := py "ev"; ev_project_id := 1; ev_idempotency_key := [id];
     ev_event_type := py "order.created"; ev_envelope_mode := Native; ev_payload := JInt 1;
     ev_payload_hash := []; ev_canonical_envelope := Some (py "{}");
     ev_payload_purged_at := None; ev_traceparent := None; ev_tracestate := None;
     ev_created_at := 0 |}.

Definition with_deliveries (l : list Delivery) : Db :=
  empty_db &{ db_deliveries := Demo.delivery_table l }
           &{ db_events := Table (list_to_map (map (fun i => (i, event i)) [1; 2; 3])) 10 }.

Definition db : Db := with_deliveries [Demo.delivery 1 1 1 0 3; Demo.delivery 2 1 1 0 5].

Lemma table_elem l k d :
  t_get k (Demo.delivery_table l) = Some d -> d ∈ l /\ d_id d = k.
Proof.
  unfold t_get, Demo.delivery_table. cbn. intros Hd. apply elem_of_list_to_map_2 in Hd.
  apply list_elem_of_fmap in Hd as (d' & [= -> ->] & ?). done.
Qed.

Lemma pending_ok id org e next : delivery_ok (Demo.delivery id org e 0 next).
Proof. by split. Qed.

(** Rows waiting for their first attempt, for known events. *)
Lemma queued_ok l :
  (forall d, d ∈ l -> delivery_ok d /\ d_status d = Pending /\ d_event_id d ∈ [1; 2; 3]
                      /\ d_id d < 100) ->
  deliveries_ok default_settings (with_deliveries l).
Proof.
  intros Hl. split; unfold with_deliveries; upd_simpl; try done.
  - intros k d Hd. by apply table_elem in Hd as [_ ?].
  - intros k [d Hd]. apply table_elem in Hd as [Hd <-]. cbn. by apply Hl in Hd as (_ & _ & _ & ?).
  - intros k d Hd. apply table_elem in Hd as [Hd _]. by apply Hl in Hd as [? _].
  - intros k d Hd _. apply table_elem in Hd as [Hd _]. apply Hl in Hd as (_ & _ & Hd & _).
    unfold envelope_of. upd_simpl.
    rewrite !elem_of_cons in Hd. destruct Hd as [E|[E|[E|Hd]]]; [| | | inversion Hd];
      rewrite E; eexists; reflexivity.
  - intros k d Hd Hp. apply table_elem in Hd as [Hd _]. apply Hl in Hd as (_ & Hs & _). congruence.
  - by intros k [a Ha].
Qed.

Lemma site_ok : deliveries_ok default_settings db.
Proof.
  apply queued_ok. intros d Hd. rewrite !elem_of_cons in Hd.
  destruct Hd as [->|[->|Hd]]; [| | inversion Hd]; (split; [apply pending_ok |]);
    (split; [done |]); (split; [cbn; set_solver | cbn; lia]).
Qed.
End Site.

Lemma claim_due_correct_witness :
  exists cs db',
    run (@claim_due exact_rounding default_settings 10 (fun _ => true) (fun n => [Z.of_nat n]) 5)
      Site.db = (Ok cs, db') /\ len cs <= 5.
Proof.
  destruct (claim_due_correct (H := exact_rounding) default_settings 10 (fun _ => true)
    (fun n => [Z.of_nat n]) 5 Site.db Demo.limits Site.site_ok ltac:(lia))
    as (cs & db' & Hrun & _ & Hlen & _).
  exists cs, db'. split; [exact Hrun | exact Hlen].
Defined.

(** ** Fencing *)

(** C4: stale workers are fenced off.  A worker whose lease has expired, or
    whose row was leased again, released, finalized, canceled or deleted since,
    can neither renew nor finalize: both report failure and leave the database
    as it is. *)
Theorem stale_worker_is_fenced `{Rounding} settings claim now started r u db :
  (forall d t, t_get (c_id claim) (db_deliveries db) = Some d -> d_status d = Processing ->
     d_lease_token d = Some (c_lease_token claim) -> d_lease_expires_at d = Some t -> t <= now) ->
  run (renew_lease settings now claim) db = (Ok false, db) /\
  run (finalize settings claim started r now u) db = (Ok false, db).
Proof.
  intros Hstale. rewrite renew_lease_run, finalize_run.
  destruct (select_delivery claim (owns claim now) db) as [d|] eqn:E; [| done].
  apply select_delivery_some in E as [Hd (Hp & Ht & t & He & Hlt)%owns_spec].
  specialize (Hstale d t Hd Hp Ht He). lia.
Qed.

(** The owner's claim on the first row of [Site.db]. *)
Definition site_claim (token : str) (attempt : Z) : ClaimedDelivery :=
  claim_of ((Demo.delivery 1 1 1 0 3) &{ d_attempt_count := attempt }) (Site.event 1) token (py "{}").

Definition site_leased (token : str) (attempts until : Z) : Delivery :=
  (Demo.delivery 1 1 1 attempts 3) &{ d_status := Processing } &{ d_lease_token := Some token }
    &{ d_lease_expires_at := Some until }.

Lemma stale_worker_is_fenced_witness :
  let db := set_delivery (site_leased (py "b") 2 100) Site.db in
  run (renew_lease default_settings 50 (site_claim (py "a") 1)) db = (Ok false, db) /\
  run (@finalize exact_rounding default_settings (site_claim (py "a") 1) 0
         (refused_unsent (py "x")) 50 0) db = (Ok false, db).
Proof.
  apply (stale_worker_is_fenced (H := exact_rounding) default_settings (site_claim (py "a") 1) 50 0
    (refused_unsent (py "x")) 0
    (set_delivery (site_leased (py "b") 2 100) Site.db)).
  intros d t Hd _ Ht. unfold set_delivery in Hd. upd_simpl. rewrite t_get_set in Hd.
  cbn in Hd. injection Hd as <-. cbn in Ht. discriminate Ht.
Defined.

(** ** Finalization *)

(** The configured backoff bounds are nonnegative floats. *)
Record backoff_ok `{Rounding} (settings : Settings) : Prop := {
  bo_base : (0 <= webhook_backoff_base_seconds settings)%Q;
  bo_cap : (0 <= webhook_backoff_cap_seconds settings)%Q;
  bo_float : is_float (webhook_backoff_cap_seconds settings);
}.

Lemma retry_delay_bounds `{Rounding} settings n r u :
  backoff_ok settings -> (0 <= u <= 1)%Q ->
  (0 <= default 0 (r_retry_after_seconds r)
     <= inject_Z (webhook_retry_after_max_seconds settings))%Q ->
  (0 <= retry_delay settings n r u)%Q /\
  (default 0 (r_retry_after_seconds r) <= retry_delay settings n r u)%Q /\
  (retry_delay settings n r u
     <= qmax (webhook_backoff_cap_seconds settings)
             (inject_Z (webhook_retry_after_max_seconds settings)))%Q.
Proof.
  intros [Hb Hc Hf] Hu [Hr0 Hr1]. unfold retry_delay.
  destruct (jittered_backoff_bounds n (webhook_backoff_base_seconds settings)
    (webhook_backoff_cap_seconds settings) u Hf Hb Hc Hu) as [Hj0 Hj1].
  split; [eapply Qle_trans; [exact Hj0 | apply qmax_ge_l] |].
  split; [apply qmax_ge_r |]. apply qmax_lub.
  - eapply Qle_trans; [exact Hj1 | apply qmax_ge_l].
  - eapply Qle_trans; [exact Hr1 | apply qmax_ge_r].
Qed.

Lemma t_find_some_of {A} (p : A -> bool) (t : table A) k a :
  t_get k t = Some a -> p a = true -> has (t_find p t) = true.
Proof.
  intros Hk Hp. destruct (t_find p t) eqn:E; [done |].
  eapply t_find_none in E; [| exact Hk]. congruence.
Qed.

(** C3: finalization.  A worker that still owns its row always finalizes it,
    once: the attempt is recorded, the lease is gone, the invariant is kept,
    and the delivery succeeded, or is scheduled again, or is dead, for the
    documented reasons.  It is scheduled again only after a retryable failure
    with attempts left, at least [Retry-After] seconds later, no later than the
    larger of the two caps, and before the delivery's age limit; it dies on a
    retryable failure only when attempts or age are exhausted. *)
Theorem finalize_correct `{Rounding} settings claim started r finished u db d :
  limits_ok settings -> backoff_ok settings -> deliveries_ok settings db ->
  select_delivery claim (owns claim finished) db = Some d ->
  c_attempt_number claim = d_attempt_count d -> (0 <= u <= 1)%Q ->
  (0 <= default 0 (r_retry_after_seconds r)
     <= inject_Z (webhook_retry_after_max_seconds settings))%Q ->
  exists db' d',
    run (finalize settings claim started r finished u) db = (Ok true, db') /\
    deliveries_ok settings db' /\
    t_get (d_id d) (db_deliveries db') = Some d' /\ same_snapshot d d' /\
    attempt_recorded (d_id d) (c_attempt_number claim) db' = true /\
    d_lease_token d' = None /\ d_lease_expires_at d' = None /\
    d_last_http_status d' = r_status_code r /\ d_last_error d' = r_error r /\
    match d_status d' with
    | Succeeded => r_succeeded r = true /\ d_succeeded_at d' = Some finished
    | RetryScheduled =>
        r_succeeded r = false /\ r_retryable r = true /\
        c_attempt_number claim < webhook_max_attempts settings /\
        finished <= d_next_attempt_at d' < deadline settings d /\
        let delay := ((d_next_attempt_at d' - finished) # 1000000)%Q in
        (default 0 (r_retry_after_seconds r) <= delay + (1 # 2000000))%Q /\
        (delay <= qmax (webhook_backoff_cap_seconds settings)
                    (inject_Z (webhook_retry_after_max_seconds settings)) + (1 # 2000000))%Q
    | Dead =>
        r_succeeded r = false /\ d_dead_at d' = Some finished /\
        (r_retryable r = true ->
         webhook_max_attempts settings <= c_attempt_number claim \/
         deadline settings d <= finished + timedelta_seconds
           (retry_delay settings (c_attempt_number claim) r u))
    | _ => False
    end.
Proof.
  intros L B Hok Hsel Hn Hu Hra.
  pose proof Hsel as Hsel'. apply select_delivery_some in Hsel' as [Hd (Hp & _ & _)%owns_spec].
  pose proof (dbo_keyed _ _ Hok _ _ Hd) as Hid. rewrite <- Hid in Hd.
  destruct (dbo_leased_quota _ _ Hok _ _ Hd Hp) as [q Hq].
  pose proof (not_recorded settings db d Hok Hd Hp) as Hnr. rewrite <- Hn in Hnr.
  set (n := c_attempt_number claim) in *.
  destruct (retry_delay_bounds settings n r u B Hu Hra) as (Hd0 & Hd1 & Hd2).
  pose proof (delivery_after_finalized settings d n r finished u) as Hfin.
  exists (finalized_db settings claim d q started r finished u db),
    (finished_row (delivery_after settings d n r finished u) r finished).
  rewrite finalize_run, Hsel, Hq. fold n. rewrite Hnr. split; [done |].
  split; [by apply finalized_db_ok |].
  assert (d_id (delivery_after settings d n r finished u) = d_id d) as Hid'
    by (by destruct Hfin).
  split. { unfold finalized_db. upd_simpl. fold n. rewrite <- Hid'. apply lookup_insert_eq. }
  split. { apply ev_snapshot. by eapply finalized_evolves. }
  split. { unfold attempt_recorded. eapply t_find_some_of; [apply lookup_insert_eq |]. cbn. lia. }
  repeat (split; [done |]).
  destruct Hfin as [|next Hs Hr Hmax Hage -> Hnext|reason Hs Hbudget]; cbn.
  - done.
  - repeat (split; [done |]).
    set (delay := retry_delay settings n r u) in *.
    pose proof (timedelta_seconds_nonneg delay Hd0) as Hnn.
    split; [upd_simpl; lia |].
    replace (finished + timedelta_seconds delay - finished) with (timedelta_seconds delay) by lia.
    pose proof (timedelta_seconds_bounds delay) as [B1 B2]. split; lra.
  - split; [done |]. split; [done |]. intros Hr.
    destruct (Z_le_gt_dec (webhook_max_attempts settings) n) as [|Hlt]; [by left |]. right.
    destruct (Hbudget Hr ltac:(lia)) as [Hdl|]; [| done].
    pose proof (timedelta_seconds_nonneg _ Hd0). lia.
Qed.

(** [Site.db] after a worker claimed both rows. *)
Module Claimed.
Definition uuid (n : nat) : str := [Z.of_nat n].
Definition outcome := run (@claim_due exact_rounding default_settings 10 (fun _ => true) uuid 5) Site.db.
Definition db : Db := outcome.2.
Definition row : Delivery := leased default_settings 10 (uuid 0) (Demo.delivery 1 1 1 0 3).
Definition claim : ClaimedDelivery := claim_of row (Site.event 1) (uuid 0) (py "{}").

Lemma claimed_ok : deliveries_ok default_settings db.
Proof.
  eapply (claim_due_ok (H := exact_rounding) default_settings 10 (fun _ => true) uuid 5 Site.db);
    [apply Demo.limits | apply Site.site_ok |]. apply surjective_pairing.
Qed.

Lemma owned : select_delivery claim (owns claim 20) db = Some row.
Proof. vm_compute. reflexivity. Qed.

Lemma backoff : @backoff_ok exact_rounding default_settings.
Proof. split; [vm_compute; done | vm_compute; done | apply Qeq_refl]. Qed.
End Claimed.

Lemma finalize_correct_witness :
  exists db' d',
    run (@finalize exact_rounding default_settings Claimed.claim 10
           {| r_succeeded := false; r_retryable := true; r_status_code := Some 503;
              r_error := Some (py "retryable_http_status"); r_response_body := None;
              r_retry_after_seconds := Some 30%Q |} 20 (1 # 2)) Claimed.db = (Ok true, db') /\
    t_get 1 (db_deliveries db') = Some d' /\ d_lease_token d' = None.
Proof.
  destruct (finalize_correct (H := exact_rounding) default_settings Claimed.claim 10
    {| r_succeeded := false; r_retryable := true; r_status_code := Some 503;
       r_error := Some (py "retryable_http_status"); r_response_body := None;
       r_retry_after_seconds := Some 30%Q |} 20 (1 # 2) Claimed.db Claimed.row
    Demo.limits Claimed.backoff Claimed.claimed_ok Claimed.owned)
    as (db' & d' & Hrun & _ & Hd & _ & _ & Hl & _).
  - reflexivity.
  - split; vm_compute; done.
  - split; vm_compute; done.
  - exists db', d'. split; [exact Hrun |]. split; [exact Hd | exact Hl].
Defined.

(** ** Attempts *)

Lemma read_body_len remaining chunks ending body :
  read_body remaining chunks ending = Ok body -> len body <= Z.max 0 remaining.
Proof.
  revert remaining body; induction chunks as [| c cs IH]; intros remaining body Hr; cbn in Hr.
  - destruct ending; [done |]. injection Hr as <-. unfold len. cbn. lia.
  - destruct (Z.leb_spec remaining 0); [injection Hr as <-; unfold len; cbn; lia |].
    apply res_bind_ok in Hr as (rest & Hrest & [= <-]). apply IH in Hrest.
    rewrite len_app. unfold len in *. rewrite length_take in *. lia.
Qed.

Section AttemptSpec.
Context `{Rounding} (settings : Settings).
Context (urlsplit : str -> option SplitResult) (ip_address : str -> option IPAddress)
  (getaddrinfo : str -> Z -> option (list str))
  (parsedate_to_datetime : str -> option datetime) (decode_replace : pybytes -> str).

(** What every result of an attempt satisfies. *)
Record attempt_ok (r : AttemptResult) : Prop := {
  ao_succeeded : r_succeeded r = true <->
    exists c, r_status_code r = Some c /\ 200 <= c < 300;
  ao_retry_after : (0 <= default 0 (r_retry_after_seconds r)
                     <= inject_Z (webhook_retry_after_max_seconds settings))%Q;
  ao_body b : r_response_body r = Some b -> exists body, b = decode_replace body /\
    len body <= Z.max 0 (webhook_response_max_bytes settings);
}.

Lemma is_success_spec o : is_success o = true <-> exists c, o = Some c /\ 200 <= c < 300.
Proof.
  destruct o as [c|]; cbn; [| by split; [| intros (? & ? & _)]]. unfold status_2xx.
  split; [intros; exists c; split; [done | lia] | intros (c' & [= <-] & ?); lia].
Qed.

Lemma no_retry_after_ok : limits_ok settings ->
  (0 <= default 0 (@None Q) <= inject_Z (webhook_retry_after_max_seconds settings))%Q.
Proof.
  intros L. split; [apply Qle_refl |]. cbn. rewrite <- (Zle_Qle 0).
  pose proof (lim_retry_after _ L). lia.
Qed.

Lemma parsed_retry_after_ok value now : limits_ok settings ->
  (0 <= default 0 (parse_retry_after parsedate_to_datetime value now
                     (webhook_retry_after_max_seconds settings))
     <= inject_Z (webhook_retry_after_max_seconds settings))%Q.
Proof.
  intros L. pose proof (lim_retry_after _ L).
  destruct (parse_retry_after _ _ _ _) as [q|] eqn:E; [| by apply no_retry_after_ok].
  eapply parse_retry_after_bounds; [| exact E]. lia.
Qed.

Lemma failed_ok e status ra r :
  (0 <= default 0 ra <= inject_Z (webhook_retry_after_max_seconds settings))%Q ->
  failed e status ra = Ok r -> attempt_ok r.
Proof.
  intros Hra Hf. unfold failed in Hf. apply res_bind_ok in Hf as ([rt err] & _ & [= <-]).
  split; cbn; [apply is_success_spec | done | done].
Qed.

Lemma responded_ok rs r : limits_ok settings ->
  responded settings parsedate_to_datetime decode_replace rs = Ok r -> attempt_ok r.
Proof.
  intros L. unfold responded. destruct (read_body _ _ _) as [body|e] eqn:Eb.
  - intros [= <-]. split; cbn; [apply (is_success_spec (Some _)) | by apply parsed_retry_after_ok |].
    intros b [= <-]. exists body. split; [done |]. by eapply read_body_len.
  - apply failed_ok. by apply parsed_retry_after_ok.
Qed.
End AttemptSpec.

(** What an attempt reports.  Whatever the network does, a result counts
    as a success exactly when a 2xx status was received, its [Retry-After] is
    between zero and the configured maximum, and the response body it keeps is
    the decoding of at most the configured number of octets. *)
Theorem perform_attempt_correct `{Rounding} settings urlsplit ip_address getaddrinfo parsedate
    decode claim started interrupted timestamp exchange r :
  limits_ok settings ->
  perform_attempt settings urlsplit ip_address getaddrinfo parsedate decode claim started
    interrupted timestamp exchange = Ok r ->
  attempt_ok settings decode r.
Proof.
  intros L. unfold perform_attempt, refused_unsent.
  pose proof (no_retry_after_ok settings L) as Hra.
  assert (forall e, attempt_ok settings decode
    {| r_succeeded := false; r_retryable := false; r_status_code := None; r_error := Some e;
       r_response_body := None; r_retry_after_seconds := None |}) as Hun
    by (intros e; split; [apply (is_success_spec None) | done | done]).
  destruct (Qle_bool _ _); [intros [= <-]; apply Hun |].
  destruct (negb _); [intros [= <-]; apply Hun |].
  destruct interrupted; [by apply failed_ok |].
  destruct (check_target _ _ _ _ _); [| by apply failed_ok].
  destruct (sign _ _ _) as [[ts sg]|]; [| by apply failed_ok].
  destruct (exchange _); [by apply responded_ok | by apply failed_ok].
Qed.

Lemma perform_attempt_correct_witness :
  let exchange (_ : Request) := Ok (E := attempt_exn) {| rs_status := 503; rs_retry_after := Some (py "120");
    rs_received_at := 11; rs_chunks := [py "busy"]; rs_ending := None |} in
  attempt_ok default_settings (fun b => b)
    {| r_succeeded := false; r_retryable := true; r_status_code := Some 503;
       r_error := Some (py "retryable_http_status"); r_response_body := Some (py "busy");
       r_retry_after_seconds := Some 120%Q |}.
Proof.
  intros exchange.
  apply (perform_attempt_correct (H := exact_rounding) default_settings
    (fun u => Some {| scheme := py "https"; hostname := Some (drop 8 u); port := None;
       username := None; password := None; path := []; query := []; fragment := [] |})
    (fun _ => Some (MkIP true None)) (fun _ _ => None) (fun _ => None) (fun b => b)
    Claimed.claim 11 false 0 exchange).
  - apply Demo.limits.
  - vm_compute. reflexivity.
Defined.

(** Nothing is sent that must not be.  For a delivery beyond its age limit,
    for an endpoint inactive at acceptance, and for a target the egress policy
    refuses, the result is a terminal failure that does not depend on what the
    network would answer: no request is made. *)
Theorem refused_attempts_send_nothing `{Rounding} settings urlsplit ip_address getaddrinfo
    parsedate decode claim started timestamp exchange :
  let attempt := perform_attempt settings urlsplit ip_address getaddrinfo parsedate decode claim
                   started false timestamp exchange in
  let aged := (inject_Z (webhook_max_delivery_age_seconds settings)
                 <= total_seconds (started - c_created_at claim))%Q in
  (aged -> attempt = Ok (refused_unsent (py "max_delivery_age"))) /\
  (~ aged -> c_endpoint_active claim = false ->
     attempt = Ok (refused_unsent (py "endpoint_inactive_at_acceptance"))) /\
  (forall m reason, ~ aged -> c_endpoint_active claim = true ->
     validate_webhook_url urlsplit ip_address getaddrinfo (c_endpoint_url claim)
       (default false (allow_http_webhooks settings)) (allow_private_webhooks settings)
       = Raise (UnsafeWebhookUrl m reason) ->
     attempt = Ok (refused_unsent (py "unsafe_webhook_url:" ++ reason_value reason))).
Proof.
  cbn zeta. unfold perform_attempt.
  set (b := Qle_bool _ _). split; [| split].
  - intros Ha. assert (b = true) as -> by (by apply Qle_bool_iff). done.
  - intros Ha ->. assert (b = false) as -> by (apply not_true_iff_false; unfold b; by rewrite Qle_bool_iff). done.
  - intros m reason Ha -> Hv.
    assert (b = false) as -> by (apply not_true_iff_false; unfold b; by rewrite Qle_bool_iff).
    cbn [negb]. unfold check_target. by rewrite Hv.
Qed.

Lemma refused_attempts_send_nothing_witness :
  @perform_attempt exact_rounding default_settings EgressDemo.urlsplit EgressDemo.ip_address
    EgressDemo.getaddrinfo (fun _ => None) (fun b => b)
    (claim_of (Claimed.row &{ d_endpoint_url_snapshot := py "https://internal.example" })
       (Site.event 1) [] []) 11 false 0 (fun _ => Raise TimeoutError)
  = Ok (refused_unsent (py "unsafe_webhook_url:non_global_address")).
Proof.
  apply (proj2 (proj2 (refused_attempts_send_nothing (H := exact_rounding) default_settings
    EgressDemo.urlsplit EgressDemo.ip_address EgressDemo.getaddrinfo (fun _ => None) (fun b => b)
    (claim_of (Claimed.row &{ d_endpoint_url_snapshot := py "https://internal.example" })
       (Site.event 1) [] []) 11 0 (fun _ => Raise TimeoutError)))
    "Webhook host resolves to a non-global address" NON_GLOBAL_ADDRESS).
  - vm_compute. intros Ha. by apply Ha.
  - reflexivity.
  - vm_compute. reflexivity.
Defined.

(** ** Errors outside the handled classes *)

(** Unexpected errors are retried without limit.  When an attempt ends in
    an exception outside the classes the worker handles (for instance a
    protocol error of the peer, which is not a network error of the client
    library), the claim is released: the delivery is due again at once, no
    attempt is recorded and the endpoint's circuit is not told, whatever the
    attempt number; [webhook_max_attempts] and the backoff do not apply. *)
Theorem unexpected_error_retries_without_limit `{Rounding} settings claim sc name released_at db d :
  sc_beats sc = [] -> sc_attempt sc = Raise (UnexpectedError name) ->
  select_delivery claim (holds_token claim) db = Some d ->
  let db' := set_delivery (released released_at d) db in
  run (run_claim settings claim sc false released_at) db = (Ok (), db') /\
  due released_at (released released_at d) = true /\
  db_attempts db' = db_attempts db /\ db_quotas db' = db_quotas db.
Proof.
  intros Hb Ha Hs. cbn zeta. split; [| split; [| done]].
  - pose proof (release_claim_run released_at claim db) as Hr. rewrite Hs in Hr.
    unfold run, run_claim, catch, deliver in *. rewrite Hb, Ha.
    unfold mbind, M_bind, mret, M_ret, raise. cbn [heartbeat negb].
    unfold mret, M_ret. cbn [negb].
    destruct (release_claim released_at claim (Sess db db)) as [[b|e] s]; [| done].
    by injection Hr as _ ->.
  - unfold due, due_at, released. upd_simpl. cbn [queued andb].
    apply bool_decide_eq_true. rewrite Z.leb_refl. eauto.
Qed.

(** The attempt number is beyond the configured eight attempts. *)
Lemma unexpected_error_retries_without_limit_witness :
  let d := site_leased (py "a") 99 100 in
  let claim := site_claim (py "a") 99 in
  webhook_max_attempts default_settings < c_attempt_number claim /\
  due 50 (released 50 d) = true.
Proof.
  split; [vm_compute; reflexivity |].
  apply (unexpected_error_retries_without_limit (H := exact_rounding) default_settings
    (site_claim (py "a") 99)
    {| sc_started := 10; sc_beats := []; sc_attempt := Raise (UnexpectedError (py "RemoteProtocolError"));
       sc_lagging := []; sc_finished := 20; sc_draw := 0 |}
    (py "RemoteProtocolError") 50 (set_delivery (site_leased (py "a") 99 100) Site.db)
    (site_leased (py "a") 99 100)); vm_compute; reflexivity.
Defined.

(** ** The size of a claim *)

Lemma claim_due_size `{Rounding} settings now unlocked uuid limit s cs s' :
  limits_ok settings -> t_keyed d_id (db_deliveries (working s)) ->
  map_Forall (fun _ q => quota_ok settings q) (db_quotas (working s)) ->
  claim_due settings now unlocked uuid limit s = (Ok cs, s') -> len cs <= Z.max 0 limit.
Proof.
  intros L Hk HQ Hc. unfold claim_due in Hc.
  destruct (Z.leb_spec limit 0). { m_inv. unfold len. cbn. lia. }
  apply begin_ok in Hc as (s1 & Hc & _). apply M_bind_ok in Hc as (l & s2 & Hs & Hc).
  apply select_fair_deliveries_ok in Hs as [_ Hsel]; [| done | done | done].
  enough (len cs = len l) as -> by apply Hsel.
  clear -Hc. revert s2 cs s1 Hc. generalize 0%nat.
  induction l as [| d l IH]; intros i s2 cs s1 Hc; cbn in Hc; m_inv; [done |].
  match goal with Hr : claim_rows _ _ _ _ _ _ = _ |- _ => apply IH in Hr end.
  unfold len in *. cbn. lia.
Qed.

(** ** A released probe behind the queue *)

(** The endpoint row is half open and reserved for the probe [p]. *)
Definition probing (e p : Z) (s : selection) : Prop :=
  exists q, sel_quotas s !! e = Some q /\ q_circuit_state q = HalfOpen
            /\ q_half_open_probe_delivery_id q = Some p.

Lemma rounds_keep_probe `{Rounding} settings now available fuel orgs s s' e p :
  probing e p s -> rounds settings now fuel available orgs s = Some (Ok s') -> probing e p s'.
Proof.
  apply rounds_ind; [done |]. unfold probing.
  intros org e0 s1 s2 b (q & Hq & Hc & Hp) _ _
    [[_ ->]|[(_ & q0 & q1 & He & Hel & ->)|(_ & d & queue & q0 & q1 & bal & rb & t & El & ->)]]%try_endpoint_inv;
    [by eauto | |].
  - unfold with_quota. upd_simpl. rewrite lookup_insert. case_decide; subst; [| by eauto].
    rewrite Hq in He. injection He as <-. exists q1.
    apply elapse_cases in Hel as [[-> _]|[? _]]; [done | congruence].
  - rewrite pick_quotas, lookup_insert. case_decide; subst; [| by eauto].
    pose proof (el_quota El) as He. rewrite Hq in He. injection He as <-.
    assert (q1 = q) as ->.
    { pose proof (el_circuit El) as Hel.
      apply elapse_cases in Hel as [[-> _]|[? _]]; [done | congruence]. }
    eexists. split; [done |].
    destruct (picked_row_circuit d q bal rb) as (-> & _ & _ & _ & ->). split; [done |].
    pose proof (el_probe El) as Hb. unfold probe_blocks, half_open in *.
    rewrite bool_decide_true in * by done. rewrite Hp in Hb. cbn in Hb.
    apply negb_false_iff, Z.eqb_eq in Hb. by subst.
Qed.

Lemma start_probing `{Rounding} settings now unlocked requested db e q p d :
  db_quotas db !! e = Some q -> q_circuit_state q = HalfOpen ->
  q_half_open_probe_delivery_id q = Some p ->
  d ∈ candidates settings now unlocked requested db -> d_endpoint_id d = e ->
  probing e p (start settings now unlocked requested db).
Proof.
  intros Hq Hc Hp Hd <-. exists (refill settings now q).
  split; [| by unfold refill; upd_simpl].
  unfold start, initial_selection. cbn. rewrite lookup_fmap.
  assert (ensured_quotas settings now (candidate_endpoints settings now unlocked requested db)
            (db_quotas db) !! d_endpoint_id d = Some q) as He.
  { revert Hq. generalize (candidate_endpoints settings now unlocked requested db).
    intros l. generalize (db_quotas db). induction l as [| x l IH]; intros m Hm; [done |].
    cbn. apply IH. unfold insert_do_nothing. destruct (m !! x) eqn:Ex; [done |].
    rewrite lookup_insert_ne; [done |]. intros ->. congruence. }
  assert (filter (fun kv => kv.1 ∈ candidate_endpoints settings now unlocked requested db)
    (ensured_quotas settings now (candidate_endpoints settings now unlocked requested db)
       (db_quotas db)) !! d_endpoint_id d = Some q) as ->; [| done].
  apply map_lookup_filter_Some. split; [done |]. by apply candidate_keys.
Qed.

(** [p] is queued behind [d], which is due and can be locked. *)
Definition waits_behind (now : datetime) (unlocked : Z -> bool) (db : Db) (p d : Delivery) : Prop :=
  t_get (d_id p) (db_deliveries db) = Some p /\ t_get (d_id d) (db_deliveries db) = Some d /\
  due now d = true /\ unlocked (d_id d) = true /\ group_key d = group_key p /\
  lex_lt (queue_key d) (queue_key p) = true.

(** A released probe can starve its endpoint.  The scheduler only looks at
    the head of an endpoint's queue, and a half-open endpoint only admits the
    delivery it has reserved as its probe.  When an older delivery of the same
    endpoint is due and unlocked, so that the probe is not the head of the
    queue (as after [release_claim], which moves the probe to the present), a
    selection takes nothing from the endpoint, at any time and with any
    capacity; the row keeps its reservation, so this repeats until an operator
    intervenes. *)
Theorem probe_behind_queue_starves_endpoint `{Rounding} settings now unlocked requested s l s'
    e q p d :
  limits_ok settings -> t_keyed d_id (db_deliveries (working s)) ->
  map_Forall (fun _ q => quota_ok settings q) (db_quotas (working s)) ->
  db_quotas (working s) !! e = Some q -> q_circuit_state q = HalfOpen ->
  q_half_open_probe_delivery_id q = Some (d_id p) ->
  waits_behind now unlocked (working s) p d -> d_endpoint_id d = e ->
  select_fair_deliveries settings now unlocked requested s = (Ok l, s') ->
  forall x, x ∈ l -> d_endpoint_id x <> e.
Proof.
  intros L Hk HQ Hq Hc Hp (Hgp & Hgd & Hdue & Hun & Hg & Hlt) He Hs x Hx Hxe.
  pose proof Hs as Hret. apply select_returned in Hret as [[-> _]|(f & Hf & -> & Hw)];
    [inversion Hx |].
  assert (x ∈ candidates settings now unlocked requested (working s)) as Hxc
    by (eapply selected_in_candidates; [by eapply final_fifo | done]).
  assert (probing e (d_id p) f) as (q' & Hq' & Hc' & Hp').
  { eapply rounds_keep_probe; [| exact Hf]. by eapply start_probing. }
  pose proof Hs as Hsel. apply select_fair_deliveries_ok in Hsel as [_ Hsel]; [| done | done | done].
  destruct (so_probe _ _ _ _ _ _ _ Hsel x Hx) as (q2 & Hq2 & _ & _ & Hone).
  assert (q2 = q') as ->.
  { rewrite Hw, Hxe in Hq2. unfold store in Hq2. upd_simpl.
    rewrite (lookup_union_Some_l _ _ _ _ Hq') in Hq2. congruence. }
  destruct (Hone Hc') as [Honly Hxp].
  assert (x = p) as ->.
  { destruct (so_due _ _ _ _ _ _ _ Hsel x Hx) as (_ & _ & Hgx).
    rewrite Hp' in Hxp. injection Hxp as Hid. rewrite <- Hid in Hgx. congruence. }
  assert ([d; p] `sublist_of` sel_selected f) as Hsub.
  { eapply selected_in_queue_order; try done. }
  assert (d ∈ of_endpoint (d_endpoint_id p) (sel_selected f)) as Hin.
  { apply list_elem_of_filter. split; [congruence |].
    eapply elem_of_sublist; [| exact Hsub]. set_solver. }
  rewrite Honly in Hin. apply list_elem_of_singleton in Hin as ->.
  by rewrite lex_lt_irrefl in Hlt.
Qed.

(** The endpoint of [Site.db] opened earlier and its time is up: a worker takes
    the first delivery as the probe at time 10 and gives it back at time 20,
    behind the second one.  From then on the endpoint yields nothing. *)
Module Starved.
Definition opened : Db :=
  Site.db &{ db_quotas := {[1 := (Demo.quota 1) &{ q_circuit_state := Open }
                                   &{ q_circuit_open_until := Some 5 }]} }.
Definition claimed : Db :=
  (run (@claim_due exact_rounding default_settings 10 (fun _ => true) Claimed.uuid 5) opened).2.
Definition claim : ClaimedDelivery := Claimed.claim.
Definition db : Db := (run (release_claim 20 claim) claimed).2.
Definition probe : Delivery := released 20 Claimed.row.
Definition head : Delivery := Demo.delivery 2 1 1 0 5.
Definition quota : EndpointQuotaState := default (Demo.quota 1) (db_quotas db !! 1).
Definition after (now : datetime) :=
  @select_fair_deliveries exact_rounding default_settings now (fun _ => true) 5 (Sess db db).

Lemma opened_ok : deliveries_ok default_settings opened.
Proof.
  apply (deliveries_ok_evolve default_settings Site.db); try done.
  - apply Site.site_ok.
  - eauto.
  - apply map_Forall_singleton.
    destruct (endpoint_quota_values_ok (H := exact_rounding) default_settings 0 1 Demo.limits).
    by split.
  - intros k d Hd Hp. apply Site.table_elem in Hd as [Hd _].
    rewrite !elem_of_cons in Hd. destruct Hd as [->|[->|Hd]]; [done | done | inversion Hd].
Qed.

Lemma starved_ok : deliveries_ok default_settings db.
Proof.
  eapply (release_claim_ok default_settings 20 claim claimed); [| apply surjective_pairing].
  eapply (claim_due_ok (H := exact_rounding) default_settings 10 (fun _ => true) Claimed.uuid 5
    opened); [apply Demo.limits | apply opened_ok | apply surjective_pairing].
Qed.
End Starved.

Lemma probe_behind_queue_starves_endpoint_witness :
  (Starved.after 1000000).1 = Ok [] /\
  forall x, x ∈ @nil Delivery -> d_endpoint_id x <> 1.
Proof.
  split; [vm_compute; reflexivity |].
  apply (probe_behind_queue_starves_endpoint (H := exact_rounding) default_settings 1000000
    (fun _ => true) 5 (Sess Starved.db Starved.db) [] (Starved.after 1000000).2 1 Starved.quota
    Starved.probe Starved.head);
    [exact Demo.limits | exact (dbo_keyed _ _ Starved.starved_ok) | exact (dbo_quotas _ _ Starved.starved_ok)
    | vm_compute; reflexivity | vm_compute; reflexivity | vm_compute; reflexivity
    | | vm_compute; reflexivity | vm_compute; reflexivity].
  unfold waits_behind. split_and!; vm_compute; reflexivity.
Defined.
