(* ===== verification/Authorization.v ===== *)
(** * Authorization

    [src/app/authorization.py]: the permissions of organization and project
    roles, and the two checks every management operation starts with.  Both
    only read the database, so they are functions of it. *)

From stdpp Require Import base tactics list gmap strings numbers option.
From S2P Require Import Prelude Json Models Session Settings.
Local Open Scope Z_scope.

Inductive Permission : Type :=
| ORG_READ | MEMBER_MANAGE | POLICY_MANAGE | ORG_EXPORT | ORG_DELETE | AUDIT_READ
| PROJECT_READ | PROJECT_MANAGE | KEY_MANAGE | ENDPOINT_MANAGE | ENDPOINT_OPERATE
| REPLAY | DELIVERY_CANCEL | DELIVERY_PURGE.
#[export] Instance Permission_eq_dec : EqDecision Permission.
Proof. solve_decision. Defined.

(** [frozenset(Permission)] *)
Definition all_permissions : list Permission :=
  [ORG_READ; MEMBER_MANAGE; POLICY_MANAGE; ORG_EXPORT; ORG_DELETE; AUDIT_READ; PROJECT_READ;
   PROJECT_MANAGE; KEY_MANAGE; ENDPOINT_MANAGE; ENDPOINT_OPERATE; REPLAY; DELIVERY_CANCEL;
   DELIVERY_PURGE].

Definition ORGANIZATION_ADMIN_PERMISSIONS : list Permission :=
  filter (fun p => p <> ORG_DELETE) all_permissions.

Definition ORGANIZATION_ROLE_PERMISSIONS (role : OrganizationRole) : list Permission :=
  match role with
  | OWNER => all_permissions
  | ADMIN => ORGANIZATION_ADMIN_PERMISSIONS
  | MEMBER => [ORG_READ]
  end.

Definition PROJECT_ADMIN_PERMISSIONS : list Permission :=
  [PROJECT_READ; PROJECT_MANAGE; KEY_MANAGE; ENDPOINT_MANAGE; ENDPOINT_OPERATE; REPLAY;
   DELIVERY_CANCEL; DELIVERY_PURGE].

Definition PROJECT_ROLE_PERMISSIONS (role : ProjectRole) : list Permission :=
  match role with
  | PADMIN => PROJECT_ADMIN_PERMISSIONS
  | OPERATOR => [PROJECT_READ; ENDPOINT_OPERATE; REPLAY; DELIVERY_CANCEL]
  | VIEWER => [PROJECT_READ]
  end.

Definition ORGANIZATION_PERMISSIONS : list Permission :=
  [ORG_READ; MEMBER_MANAGE; POLICY_MANAGE; ORG_EXPORT; ORG_DELETE; AUDIT_READ].
Definition PROJECT_PERMISSIONS : list Permission :=
  filter (fun p => p ∉ ORGANIZATION_PERMISSIONS) all_permissions.
Definition PENDING_READ_PERMISSIONS : list Permission :=
  [ORG_READ; ORG_EXPORT; AUDIT_READ; PROJECT_READ].

Definition forbidden : exn := ForbiddenError "Permission denied".

Definition lifecycle_allows (organization : Organization) (permission : Permission)
    (allow_deletion_pending : bool) : bool :=
  bool_decide (o_lifecycle_state organization = Active)
  || bool_decide (permission ∈ PENDING_READ_PERMISSIONS)
  || (allow_deletion_pending && bool_decide (permission = ORG_DELETE)).

Definition ensure_lifecycle_allows (organization : Organization) (permission : Permission)
    (allow_deletion_pending : bool) : res exn unit :=
  if lifecycle_allows organization permission allow_deletion_pending then Ok ()
  else Raise (ForbiddenError "Organization mutations are disabled while deletion is pending").

Section Authorize.
Context (db : Db) (user_id : Z).

(** The rows of the joins of the two queries. *)
Definition organization_rows (public_id : str) : list (Organization * OrganizationRole) :=
  o ← t_where (fun o => str_eqb (o_public_id o) public_id) (db_organizations db);
  m ← t_where (fun m => (om_organization_id m =? o_id o) && (om_user_id m =? user_id))
        (db_members db);
  [(o, om_role m)].

Definition project_rows (public_id : str) : list (Project * Organization * OrganizationRole) :=
  p ← t_where (fun p => str_eqb (p_public_id p) public_id) (db_projects db);
  o ← t_where (fun o => o_id o =? p_organization_id p) (db_organizations db);
  m ← t_where (fun m => (om_organization_id m =? o_id o) && (om_user_id m =? user_id))
        (db_members db);
  [(p, o, om_role m)].

(** [Result.one_or_none()] *)
Definition one_or_none {A} (l : list A) : res exn (option A) :=
  match l with
  | [] => Ok None
  | [a] => Ok (Some a)
  | _ => Raise (OtherException (py "MultipleResultsFound"))
  end.

Definition authorize_organization (public_id : str) (permission : Permission)
    (allow_deletion_pending : bool) : res exn Organization :=
  row ← one_or_none (organization_rows public_id);
  match row with
  | None => Raise (NotFoundError "Organization" (IdStr public_id))
  | Some (organization, role) =>
      if bool_decide (permission ∈ ORGANIZATION_ROLE_PERMISSIONS role) then
        ensure_lifecycle_allows organization permission allow_deletion_pending;;
        Ok organization
      else Raise forbidden
  end.

Definition project_role (project : Project) : option ProjectRole :=
  pm_role <$> t_find (fun m => (pm_project_id m =? p_id project) && (pm_user_id m =? user_id))
                (db_project_members db).

Definition authorize_project (public_id : str) (permission : Permission)
    (allow_deletion_pending : bool) : res exn Project :=
  row ← one_or_none (project_rows public_id);
  match row with
  | None => Raise (NotFoundError "Project" (IdStr public_id))
  | Some (project, organization, role) =>
      if bool_decide (role = OWNER \/ role = ADMIN) then
        if bool_decide (permission ∈ PROJECT_PERMISSIONS) then
          ensure_lifecycle_allows organization permission allow_deletion_pending;;
          Ok project
        else Raise forbidden
      else match project_role project with
      | None => Raise (NotFoundError "Project" (IdStr public_id))
      | Some prole =>
          if bool_decide (permission ∈ PROJECT_ROLE_PERMISSIONS prole) then
            ensure_lifecycle_allows organization permission allow_deletion_pending;;
            Ok project
          else Raise forbidden
      end
  end.
End Authorize.

(** ** Properties *)

Lemma one_or_none_some {A} (l : list A) a : one_or_none l = Ok (Some a) <-> l = [a].
Proof.
  destruct l as [| x [| y l]]; cbn; split; try done; by intros [= ->].
Qed.

Lemma ensure_lifecycle_ok o p b u :
  ensure_lifecycle_allows o p b = Ok u <-> lifecycle_allows o p b = true.
Proof.
  unfold ensure_lifecycle_allows. destruct u, (lifecycle_allows o p b); by split.
Qed.

(** The constraints on memberships and public ids the queries rely on:
    unique public ids, one membership per user, rows under their own key. *)
Record tenancy_unique (db : Db) : Prop := {
  tu_orgs : t_keyed o_id (db_organizations db);
  tu_org_ids : forall k k' o o', t_get k (db_organizations db) = Some o ->
    t_get k' (db_organizations db) = Some o' -> o_public_id o = o_public_id o' -> k = k';
  tu_projects : t_keyed p_id (db_projects db);
  tu_project_ids : forall k k' p p', t_get k (db_projects db) = Some p ->
    t_get k' (db_projects db) = Some p' -> p_public_id p = p_public_id p' -> k = k';
  tu_members : forall k k' m m', t_get k (db_members db) = Some m ->
    t_get k' (db_members db) = Some m' -> om_organization_id m = om_organization_id m' ->
    om_user_id m = om_user_id m' -> k = k';
  tu_project_members : forall k k' m m', t_get k (db_project_members db) = Some m ->
    t_get k' (db_project_members db) = Some m' -> pm_project_id m = pm_project_id m' ->
    pm_user_id m = pm_user_id m' -> k = k';
}.

(** A predicate satisfied under one key selects one row. *)
Lemma t_where_unique {A} (p : A -> bool) (t : table A) k a :
  t_get k t = Some a -> p a = true ->
  (forall k' a', t_get k' t = Some a' -> p a' = true -> k' = k) -> t_where p t = [a].
Proof.
  intros Hk Hp Hu.
  assert (forall x, x ∈ t_where p t -> x = a) as Hall.
  { intros x (Hx & k' & Hk')%t_where_spec. pose proof (Hu k' x Hk' Hx) as ->.
    unfold t_get in Hk. congruence. }
  assert (NoDup (filter (fun kv : Z * A => Is_true (p kv.2)) (map_to_list (rows t)))) as Hnd
    by (apply list.NoDup_filter, NoDup_map_to_list).
  assert (t_where p t = (filter (fun kv : Z * A => Is_true (p kv.2)) (map_to_list (rows t))).*2) as E.
  { unfold t_where. clear. induction (map_to_list (rows t)) as [| [i x] l IH]; [done |].
    cbn [fmap list_fmap]. rewrite !filter_cons. cbn [snd].
    case_decide; cbn; by rewrite IH. }
  assert (forall kv, kv ∈ filter (fun kv : Z * A => Is_true (p kv.2)) (map_to_list (rows t)) ->
    kv = (k, a)) as Hkv.
  { intros [k' a'] [Hpa Hin]%list_elem_of_filter. apply elem_of_map_to_list in Hin.
    apply Is_true_eq_true in Hpa. pose proof (Hu k' a' Hin Hpa) as ->.
    unfold t_get in Hk. congruence. }
  assert ((k, a) ∈ filter (fun kv : Z * A => Is_true (p kv.2)) (map_to_list (rows t))) as Hin.
  { apply list_elem_of_filter. split; [by apply Is_true_eq_left | by apply elem_of_map_to_list]. }
  rewrite E. destruct (filter _ _) as [| x [| y l]].
  - inversion Hin.
  - by rewrite (Hkv x) by set_solver.
  - exfalso. rewrite (Hkv x), (Hkv y) in Hnd by set_solver.
    apply list.NoDup_cons in Hnd as [Hnd _]. set_solver.
Qed.

Lemma t_where_none {A} (p : A -> bool) (t : table A) :
  (forall k a, t_get k t = Some a -> p a = false) -> t_where p t = [].
Proof.
  intros Hn. destruct (t_where p t) as [| a l] eqn:E; [done |].
  assert (a ∈ t_where p t) as (Hp & k & Hk)%t_where_spec by (rewrite E; set_solver).
  rewrite (Hn k a Hk) in Hp. done.
Qed.

(** Membership of a user in an organization, with its role. *)
Definition member_of (db : Db) (user_id organization_id : Z) (role : OrganizationRole) : Prop :=
  exists k m, t_get k (db_members db) = Some m /\ om_organization_id m = organization_id
              /\ om_user_id m = user_id /\ om_role m = role.

Definition project_member_of (db : Db) (user_id project_id : Z) (role : ProjectRole) : Prop :=
  exists k m, t_get k (db_project_members db) = Some m /\ pm_project_id m = project_id
              /\ pm_user_id m = user_id /\ pm_role m = role.

Section Lookup.
Context (db : Db) (user_id : Z).
Hypothesis Hu : tenancy_unique db.

Lemma member_rows o role :
  member_of db user_id (o_id o) role ->
  exists m, t_where (fun m => (om_organization_id m =? o_id o) && (om_user_id m =? user_id))
              (db_members db) = [m] /\ om_role m = role.
Proof.
  intros (k & m & Hm & Ho & Hus & Hr). exists m. split; [| done].
  apply (t_where_unique _ _ k); [done | lia |]. intros k' m' Hm' Hp.
  eapply (tu_members _ Hu); [exact Hm' | exact Hm | lia | lia].
Qed.

Lemma organization_rows_one public_id o role :
  organization_rows db user_id public_id = [(o, role)] <->
  t_get (o_id o) (db_organizations db) = Some o /\ o_public_id o = public_id /\
  member_of db user_id (o_id o) role.
Proof.
  unfold organization_rows. split.
  - intros E. assert ((o, role) ∈ organization_rows db user_id public_id) as Hin
      by (unfold organization_rows; rewrite E; set_solver).
    unfold organization_rows in Hin.
    apply list_elem_of_bind in Hin as (o' & Hin & Ho'). apply t_where_spec in Ho' as (Hp & k & Hk).
    apply list_elem_of_bind in Hin as (m & Hin & Hm). apply t_where_spec in Hm as (Hm & km & Hkm).
    apply list_elem_of_singleton in Hin as [= -> ->].
    pose proof (tu_orgs _ Hu _ _ Hk) as Hid. split; [by rewrite Hid |].
    split; [by apply bool_decide_eq_true in Hp |].
    exists km, m. repeat split; [done | lia | lia].
  - intros (Ho & Hp & Hm). destruct (member_rows o role Hm) as (m & Em & Hr).
    assert (t_where (fun o => str_eqb (o_public_id o) public_id) (db_organizations db) = [o]) as ->.
    { apply (t_where_unique _ _ (o_id o)); [done | by apply bool_decide_eq_true |].
      intros k' o' Hk' Hp'. apply bool_decide_eq_true in Hp'.
      eapply (tu_org_ids _ Hu); [exact Hk' | exact Ho | congruence]. }
    cbn. rewrite Em. cbn. by rewrite Hr.
Qed.

Lemma project_rows_one public_id p o role :
  project_rows db user_id public_id = [(p, o, role)] <->
  t_get (p_id p) (db_projects db) = Some p /\ p_public_id p = public_id /\
  t_get (p_organization_id p) (db_organizations db) = Some o /\
  member_of db user_id (o_id o) role.
Proof.
  unfold project_rows. split.
  - intros E. assert ((p, o, role) ∈ project_rows db user_id public_id) as Hin
      by (unfold project_rows; rewrite E; set_solver).
    unfold project_rows in Hin.
    apply list_elem_of_bind in Hin as (p' & Hin & Hp'). apply t_where_spec in Hp' as (Hp & kp & Hkp).
    apply list_elem_of_bind in Hin as (o' & Hin & Ho'). apply t_where_spec in Ho' as (Ho & ko & Hko).
    apply list_elem_of_bind in Hin as (m & Hin & Hm). apply t_where_spec in Hm as (Hm & km & Hkm).
    apply list_elem_of_singleton in Hin as [= -> -> ->].
    pose proof (tu_projects _ Hu _ _ Hkp) as Hidp. pose proof (tu_orgs _ Hu _ _ Hko) as Hido.
    split; [by rewrite Hidp |]. split; [by apply bool_decide_eq_true in Hp |].
    split; [replace (p_organization_id p') with ko by lia; exact Hko |].
    exists km, m. repeat split; [done | lia | lia].
  - intros (Hp & Hpid & Ho & Hm). destruct (member_rows o role Hm) as (m & Em & Hr).
    assert (t_where (fun p => str_eqb (p_public_id p) public_id) (db_projects db) = [p]) as ->.
    { apply (t_where_unique _ _ (p_id p)); [done | by apply bool_decide_eq_true |].
      intros k' p' Hk' Hp'. apply bool_decide_eq_true in Hp'.
      eapply (tu_project_ids _ Hu); [exact Hk' | exact Hp | congruence]. }
    assert (t_where (fun o => o_id o =? p_organization_id p) (db_organizations db) = [o]) as E2.
    { pose proof (tu_orgs _ Hu _ _ Ho). apply (t_where_unique _ _ (p_organization_id p));
        [done | lia |]. intros k' o' Hk' Hp'. pose proof (tu_orgs _ Hu _ _ Hk'). lia. }
    cbn. rewrite E2. cbn. rewrite Em. cbn. by rewrite Hr.
Qed.

Lemma project_role_some p role :
  project_role db user_id p = Some role <-> project_member_of db user_id (p_id p) role.
Proof.
  unfold project_role. rewrite fmap_Some. split.
  - intros (m & Hf & ->). apply t_find_some in Hf as (Hm & k & Hk).
    exists k, m. repeat split; [done | lia | lia].
  - intros (k & m & Hm & Hp & Hus & <-). exists m. split; [| done]. unfold t_find.
    rewrite (t_where_unique _ _ k m); [done | done | lia |].
    intros k' m' Hk' Hp'. eapply (tu_project_members _ Hu); [exact Hk' | exact Hm | lia | lia].
Qed.

Lemma authorize_organization_ok public_id permission allow o :
  authorize_organization db user_id public_id permission allow = Ok o <->
  exists role, t_get (o_id o) (db_organizations db) = Some o /\ o_public_id o = public_id /\
    member_of db user_id (o_id o) role /\ permission ∈ ORGANIZATION_ROLE_PERMISSIONS role /\
    lifecycle_allows o permission allow = true.
Proof.
  unfold authorize_organization. rewrite res_bind_ok. split.
  - intros ([[o' role]|] & Hrow & Hr); [| done]. apply one_or_none_some in Hrow.
    case_bool_decide as Hp; [| done]. apply res_bind_ok in Hr as (? & Hl & [= ->]).
    apply ensure_lifecycle_ok in Hl. apply organization_rows_one in Hrow as (? & ? & ?). eauto 7.
  - intros (role & Ho & Hid & Hm & Hp & Hl). exists (Some (o, role)). split.
    { apply one_or_none_some, organization_rows_one. done. }
    rewrite bool_decide_true by done. apply res_bind_ok. exists (). split; [| done].
    by apply ensure_lifecycle_ok.
Qed.

Lemma authorize_project_ok public_id permission allow p :
  authorize_project db user_id public_id permission allow = Ok p <->
  exists o role, t_get (p_id p) (db_projects db) = Some p /\ p_public_id p = public_id /\
    t_get (p_organization_id p) (db_organizations db) = Some o /\
    member_of db user_id (o_id o) role /\
    ((role <> MEMBER /\ permission ∈ PROJECT_PERMISSIONS) \/
     (role = MEMBER /\ exists prole, project_member_of db user_id (p_id p) prole
                                     /\ permission ∈ PROJECT_ROLE_PERMISSIONS prole)) /\
    lifecycle_allows o permission allow = true.
Proof.
  unfold authorize_project. rewrite res_bind_ok. split.
  - intros ([[[p' o] role]|] & Hrow & Hr); [| done]. apply one_or_none_some in Hrow.
    assert (p' = p /\ lifecycle_allows o permission allow = true /\
      ((role <> MEMBER /\ permission ∈ PROJECT_PERMISSIONS) \/
       (role = MEMBER /\ exists prole, project_member_of db user_id (p_id p) prole
                                     /\ permission ∈ PROJECT_ROLE_PERMISSIONS prole)))
      as (-> & Hl & Hcase).
    { case_bool_decide as Hrole.
      - case_bool_decide as Hp; [| done]. apply res_bind_ok in Hr as (? & Hl & [= ->]).
        apply ensure_lifecycle_ok in Hl. split; [done |]. split; [done |]. left.
        split; [| done]. by destruct Hrole as [-> | ->].
      - destruct (project_role db user_id p') as [prole|] eqn:Epr; [| done].
        case_bool_decide as Hp; [| done]. apply res_bind_ok in Hr as (? & Hl & [= ->]).
        apply ensure_lifecycle_ok in Hl. apply project_role_some in Epr.
        split; [done |]. split; [done |]. right. split; [| by eauto].
        destruct role; [exfalso; apply Hrole; by left | exfalso; apply Hrole; by right | done]. }
    apply project_rows_one in Hrow as (? & ? & ? & ?). exists o, role. auto 6.
  - intros (o & role & Hp & Hid & Ho & Hm & Hcase & Hl). exists (Some (p, o, role)). split.
    { apply one_or_none_some, project_rows_one. done. }
    destruct Hcase as [[Hrole Hperm]|[-> (prole & Hpm & Hperm)]].
    + rewrite bool_decide_true by (destruct role; [by left | by right | done]). rewrite bool_decide_true by done.
      apply res_bind_ok. exists (). split; [by apply ensure_lifecycle_ok | done].
    + rewrite bool_decide_false by (by intros []).
      apply project_role_some in Hpm. rewrite Hpm, bool_decide_true by done.
      apply res_bind_ok. exists (). split; [by apply ensure_lifecycle_ok | done].
Qed.
End Lookup.

(** Project authorization decides exactly the documented policy: the
    project is returned when the user is a member of its organization and is
    an owner or administrator of it asking for a project permission, or holds
    a project role that grants the permission, and the organization is active
    or the permission is a read one.  In every other case it raises. *)
Theorem authorize_project_decides db user_id public_id permission allow p :
  tenancy_unique db ->
  authorize_project db user_id public_id permission allow = Ok p <->
  exists o role, t_get (p_id p) (db_projects db) = Some p /\ p_public_id p = public_id /\
    t_get (p_organization_id p) (db_organizations db) = Some o /\
    member_of db user_id (o_id o) role /\
    ((role <> MEMBER /\ permission ∈ PROJECT_PERMISSIONS) \/
     (role = MEMBER /\ exists prole, project_member_of db user_id (p_id p) prole
                                     /\ permission ∈ PROJECT_ROLE_PERMISSIONS prole)) /\
    lifecycle_allows o permission allow = true.
Proof. intros Hu. by apply authorize_project_ok. Qed.

(** C28: tenant isolation.  To a user outside the organization a project, its
    organization, and an identifier nobody uses look alike: the answer is the
    same 404. *)
Theorem outsiders_cannot_tell db user_id public_id permission allow :
  tenancy_unique db ->
  (forall k p role, t_get k (db_projects db) = Some p -> p_public_id p = public_id ->
     ~ member_of db user_id (p_organization_id p) role) ->
  (forall k o role, t_get k (db_organizations db) = Some o -> o_public_id o = public_id ->
     ~ member_of db user_id (o_id o) role) ->
  authorize_project db user_id public_id permission allow
    = Raise (NotFoundError "Project" (IdStr public_id)) /\
  authorize_organization db user_id public_id permission allow
    = Raise (NotFoundError "Organization" (IdStr public_id)).
Proof.
  intros Hu Hp Ho.
  assert (project_rows db user_id public_id = []) as Ep.
  { destruct (project_rows db user_id public_id) as [| [[p o] role] l] eqn:E; [done |].
    assert ((p, o, role) ∈ project_rows db user_id public_id) as Hin by (rewrite E; set_solver).
    unfold project_rows in Hin.
    apply list_elem_of_bind in Hin as (p' & Hin & Hp'). apply t_where_spec in Hp' as (Hpid & kp & Hkp).
    apply list_elem_of_bind in Hin as (o' & Hin & Ho'). apply t_where_spec in Ho' as (Hoid & ko & Hko).
    apply list_elem_of_bind in Hin as (m & _ & Hm). apply t_where_spec in Hm as (Hm & km & Hkm).
    apply bool_decide_eq_true in Hpid. exfalso. apply (Hp kp p' (om_role m) Hkp Hpid).
    exists km, m. repeat split; [done | lia | lia]. }
  assert (organization_rows db user_id public_id = []) as Eo.
  { destruct (organization_rows db user_id public_id) as [| [o role] l] eqn:E; [done |].
    assert ((o, role) ∈ organization_rows db user_id public_id) as Hin by (rewrite E; set_solver).
    unfold organization_rows in Hin.
    apply list_elem_of_bind in Hin as (o' & Hin & Ho'). apply t_where_spec in Ho' as (Hoid & ko & Hko).
    apply list_elem_of_bind in Hin as (m & _ & Hm). apply t_where_spec in Hm as (Hm & km & Hkm).
    apply bool_decide_eq_true in Hoid. exfalso. apply (Ho ko o' (om_role m) Hko Hoid).
    exists km, m. repeat split; [done | lia | lia]. }
  unfold authorize_project, authorize_organization. by rewrite Ep, Eo.
Qed.

(** A pending deletion freezes the organization.  While an organization
    waits for its deletion, both checks grant read permissions only, and
    the management of the deletion itself where the caller asks for it. *)
Theorem deletion_pending_is_read_only db user_id public_id permission allow o p :
  tenancy_unique db -> o_lifecycle_state o = DeletionPending ->
  t_get (o_id o) (db_organizations db) = Some o ->
  (authorize_organization db user_id public_id permission allow = Ok o \/
   (authorize_project db user_id public_id permission allow = Ok p /\
    p_organization_id p = o_id o)) ->
  permission ∈ [ORG_READ; ORG_EXPORT; AUDIT_READ; PROJECT_READ] \/
  (allow = true /\ permission = ORG_DELETE).
Proof.
  intros Hu Hs Ho Hauth.
  assert (lifecycle_allows o permission allow = true) as Hl.
  { destruct Hauth as [Ha|[Ha Hp]].
    - apply authorize_organization_ok in Ha as (role & _ & _ & _ & _ & Hl); done.
    - apply authorize_project_ok in Ha as (o' & role & _ & _ & Ho' & _ & _ & Hl); [| done].
      rewrite Hp, Ho in Ho'. by injection Ho' as <-. }
  unfold lifecycle_allows in Hl. rewrite Hs, bool_decide_false in Hl by done. cbn [orb] in Hl.
  apply orb_true_iff in Hl as [Hl|Hl].
  - left. by apply bool_decide_eq_true in Hl.
  - right. apply andb_true_iff in Hl as [-> Hl]. by apply bool_decide_eq_true in Hl.
Qed.

(** An organization with an owner (user 1), a member (user 2) who administers
    its project, and a stranger (user 3). *)
Module TenancyDemo.
Definition organization (st : LifecycleState) : Organization :=
  {| o_id := 1; o_public_id := py "org"; o_name := py "Org"; o_lifecycle_state := st;
     o_deletion_requested_at := None; o_deletion_scheduled_at := None; o_created_at := 0 |}.
Definition project : Project :=
  {| p_id := 1; p_public_id := py "proj"; p_organization_id := 1; p_name := py "P";
     p_is_active := true; p_created_at := 0 |}.
Definition member (id user : Z) (role : OrganizationRole) : OrganizationMember :=
  {| om_id := id; om_organization_id := 1; om_user_id := user; om_role := role;
     om_created_at := 0 |}.
Definition project_member : ProjectMember :=
  {| pm_id := 1; pm_project_id := 1; pm_user_id := 2; pm_role := PADMIN; pm_created_at := 0 |}.

Definition db (st : LifecycleState) : Db :=
  empty_db &{ db_organizations := Table {[1 := organization st]} 2 }
           &{ db_projects := Table {[1 := project]} 2 }
           &{ db_members := Table (list_to_map [(1, member 1 1 OWNER); (2, member 2 2 MEMBER)]) 3 }
           &{ db_project_members := Table {[1 := project_member]} 2 }.

Lemma members_cases st k m :
  t_get k (db_members (db st)) = Some m ->
  (k = 1 /\ m = member 1 1 OWNER) \/ (k = 2 /\ m = member 2 2 MEMBER).
Proof.
  unfold db. upd_simpl. unfold t_get. cbn [rows]. intros Hm.
  apply elem_of_list_to_map_2 in Hm. rewrite !elem_of_cons in Hm.
  destruct Hm as [[= -> ->]|[[= -> ->]|Hm]]; [by left | by right | inversion Hm].
Qed.

Lemma unique st : tenancy_unique (db st).
Proof.
  split; unfold t_keyed, t_get, db; upd_simpl; cbn [rows].
  - intros k o Ho. apply lookup_singleton_Some in Ho as [<- <-]. done.
  - intros k k' o o' [<- _]%lookup_singleton_Some [<- _]%lookup_singleton_Some. done.
  - intros k p Hp. apply lookup_singleton_Some in Hp as [<- <-]. done.
  - intros k k' p p' [<- _]%lookup_singleton_Some [<- _]%lookup_singleton_Some. done.
  - intros k k' m m' Hm Hm' _ Hus.
    apply (members_cases st) in Hm as [[-> ->]|[-> ->]];
      apply (members_cases st) in Hm' as [[-> ->]|[-> ->]]; done.
  - intros k k' m m' [<- _]%lookup_singleton_Some [<- _]%lookup_singleton_Some. done.
Qed.
End TenancyDemo.

Lemma authorize_project_decides_witness :
  authorize_project (TenancyDemo.db Active) 2 (py "proj") KEY_MANAGE false
    = Ok TenancyDemo.project.
Proof.
  apply (authorize_project_decides (TenancyDemo.db Active) 2 (py "proj") KEY_MANAGE false
    TenancyDemo.project (TenancyDemo.unique Active)).
  exists (TenancyDemo.organization Active), MEMBER.
  split; [reflexivity |]. split; [reflexivity |]. split; [reflexivity |]. split.
  { exists 2, (TenancyDemo.member 2 2 MEMBER). repeat split. }
  split; [right; split; [reflexivity |] | reflexivity].
  exists PADMIN. split; [| cbn; set_solver]. exists 1, TenancyDemo.project_member. repeat split.
Defined.

Lemma outsiders_cannot_tell_witness :
  authorize_project (TenancyDemo.db Active) 3 (py "proj") PROJECT_READ false
    = Raise (NotFoundError "Project" (IdStr (py "proj"))).
Proof.
  apply (outsiders_cannot_tell (TenancyDemo.db Active) 3 (py "proj") PROJECT_READ false
    (TenancyDemo.unique Active)).
  - intros k p role _ _ (km & m & Hm & _ & Hus & _).
    apply TenancyDemo.members_cases in Hm as [[_ ->]|[_ ->]]; discriminate Hus.
  - intros k o role _ _ (km & m & Hm & _ & Hus & _).
    apply TenancyDemo.members_cases in Hm as [[_ ->]|[_ ->]]; discriminate Hus.
Defined.

Lemma deletion_pending_is_read_only_witness :
  ORG_DELETE ∈ [ORG_READ; ORG_EXPORT; AUDIT_READ; PROJECT_READ] \/
  (true = true /\ ORG_DELETE = ORG_DELETE).
Proof.
  apply (deletion_pending_is_read_only (TenancyDemo.db DeletionPending) 1 (py "org") ORG_DELETE
    true (TenancyDemo.organization DeletionPending) TenancyDemo.project);
    [apply TenancyDemo.unique | reflexivity | reflexivity | left; vm_compute; reflexivity].
Defined.

(** Purging does not need an owner.  The operations guide reserves the
    purge of terminal deliveries to organization owners; the permission tables
    grant it to organization administrators and to project administrators. *)
Theorem purge_granted_below_owner :
  DELIVERY_PURGE ∈ PROJECT_ROLE_PERMISSIONS PADMIN /\
  authorize_project (TenancyDemo.db Active) 2 (py "proj") DELIVERY_PURGE false
    = Ok TenancyDemo.project /\ ~ member_of (TenancyDemo.db Active) 2 1 OWNER.
Proof.
  split; [cbn; set_solver |]. split; [vm_compute; reflexivity |].
  intros (k & m & Hm & _ & Hus & Hr).
  apply TenancyDemo.members_cases in Hm as [[_ ->]|[_ ->]]; done.
Qed.
