(* ===== verification/AuditLog.v ===== *)
(** * The administrative audit trail

    [src/app/audit.py]: metadata is copied after checks that keep credentials
    and unbounded values out, events are only ever appended, in the caller's
    transaction, and listed newest first behind a cursor. *)

From Stdlib Require Import QArith.
From stdpp Require Import sorting.
From stdpp Require Import base tactics list gmap strings numbers option.
From S2P Require Import Prelude Text Json Models Session Settings.
Local Open Scope Z_scope.

Definition FORBIDDEN_KEY_PARTS : list str :=
  [py "secret"; py "token"; py "key"; py "digest"; py "payload"; py "body"; py "url";
   py "authorization"].
Definition MAX_METADATA_KEYS : Z := 64.
Definition MAX_LIST_VALUES : Z := 64.
Definition MAX_TOTAL_VALUES : Z := 256.
Definition MAX_KEY_LENGTH : Z := 100.
Definition MAX_STRING_LENGTH : Z := 2048.
Definition SENSITIVE_VALUE_PARTS : list str :=
  [py "authorization:"; py "bearer "; py "basic "; py "-----begin "; py "http://"; py "https://";
   py "password"; py "secret"].

(** [part in s] *)
Fixpoint contains (s part : str) : bool :=
  startswith s part || match s with [] => false | _ :: s' => contains s' part end.

(** [str.lower] as far as a search for ASCII text can tell: of the code points
    beyond ASCII only the Kelvin sign and the dotted capital I have a lower
    case with an ASCII character in it. *)
Definition lowered (s : str) : str :=
  s ≫= fun c => if c =? 8490 then [107] else if c =? 304 then [105; 775] else lower [c].

Definition ascii_alnum (c : Z) : bool :=
  ((48 <=? c) && (c <=? 57)) || ((65 <=? c) && (c <=? 90)) || ((97 <=? c) && (c <=? 122)).

(** The character classes of the two regular expressions. *)
Definition credential_char (c : Z) : bool :=
  ascii_alnum c || (c =? 95) || (c =? 43) || (c =? 47) || (c =? 61) || (c =? 45).
Definition jwt_char (c : Z) : bool := ascii_alnum c || (c =? 95) || (c =? 45).

Definition credential_like (s : str) : bool := (40 <=? len s) && forallb credential_char s.

Definition jwt_like (s : str) : bool :=
  match split_on 46 s with
  | [a; b; c] => forallb (fun w => nonempty w && forallb jwt_char w) [a; b; c]
  | _ => false
  end.

Definition sanitize_scalar (value : json) : res exn json :=
  match value with
  | JNull | JBool _ | JInt _ => Ok value
  | JFloat (FFinite _) => Ok value
  | JFloat _ => Raise (ValueError "Audit metadata numbers must be finite")
  | JStr s =>
      if MAX_STRING_LENGTH <? len s then Raise (ValueError "Audit metadata strings are too long")
      else if existsb (contains (lowered s)) SENSITIVE_VALUE_PARTS
      then Raise (ValueError "Audit metadata contains sensitive content")
      else if jwt_like s || credential_like s
      then Raise (ValueError "Audit metadata contains a possible credential")
      else Ok value
  | JList _ | JObj _ => Raise (ValueError "Audit metadata values must be scalar or scalar lists")
  end.

Fixpoint sanitize_list (l : list json) : res exn (list json) :=
  match l with
  | [] => Ok []
  | v :: l' => v' ← sanitize_scalar v; l'' ← sanitize_list l'; Ok (v' :: l'')
  end.

Section Audit.
(** [str.isalnum] beyond ASCII *)
Context (unicode_alnum : Z -> bool).

Definition isalnum (c : Z) : bool := if c <? 128 then ascii_alnum c else unicode_alnum c.

Definition normalize_key (key : str) : str :=
  filter (fun c => Is_true (isalnum c)) (lowered key).

Definition check_key (key : str) : res exn unit :=
  if negb (nonempty key) || (MAX_KEY_LENGTH <? len key)
  then Raise (ValueError "Audit metadata keys are invalid")
  else if existsb (contains (normalize_key key)) FORBIDDEN_KEY_PARTS
  then Raise (ValueError "Audit metadata key may contain sensitive data")
  else Ok ().

(** One item: its sanitized value and how many values it counts for. *)
Definition sanitize_item (value : json) : res exn (json * Z) :=
  match value with
  | JList l =>
      if MAX_LIST_VALUES <? len l then Raise (ValueError "Audit metadata lists are too long")
      else l' ← sanitize_list l; Ok (JList l', len l)
  | _ => v ← sanitize_scalar value; Ok (v, 1)
  end.

Fixpoint sanitize_items (items : list (str * json)) (total_values : Z) :
    res exn (list (str * json)) :=
  match items with
  | [] => Ok []
  | (key, value) :: items' =>
      check_key key;;
      '(value', n) ← sanitize_item value;
      if MAX_TOTAL_VALUES <? total_values + n
      then Raise (ValueError "Audit metadata contains too many values")
      else rest ← sanitize_items items' (total_values + n); Ok ((key, value') :: rest)
  end.

Definition sanitize_audit_metadata (metadata : option (list (str * json))) :
    res exn (list (str * json)) :=
  match metadata with
  | None => Ok []
  | Some items =>
      if MAX_METADATA_KEYS <? len items
      then Raise (ValueError "Audit metadata contains too many keys")
      else sanitize_items items 0
  end.

Definition too_long (o : option str) : bool :=
  match o with Some s => 36 <? len s | None => false end.

(** [append_audit]; [uuid] and [created_at] are the generated public id and
    the time stamp, which [WebhookService._audit] replaces by database time
    before the row is written. *)
Definition append_audit (uuid : str) (created_at : datetime) (actor_user_id : option Z)
    (organization_public_id action resource_type : str)
    (resource_public_id project_public_id : option str)
    (metadata : option (list (str * json))) : M unit :=
  when (negb (nonempty organization_public_id) || (36 <? len organization_public_id))
    (raise (ValueError "Organization public ID is invalid"));;
  when (too_long project_public_id) (raise (ValueError "Project public ID is invalid"));;
  when (negb (nonempty action) || (100 <? len action)) (raise (ValueError "Audit action is invalid"));;
  when (negb (nonempty resource_type) || (100 <? len resource_type))
    (raise (ValueError "Audit resource type is invalid"));;
  when (too_long resource_public_id) (raise (ValueError "Resource public ID is invalid"));;
  sanitized ← of_res (sanitize_audit_metadata metadata);
  modify (fun db => db &{ db_audits := t_add (fun id =>
    {| a_id := id; a_public_id := uuid; a_organization_public_id := organization_public_id;
       a_project_public_id := project_public_id; a_actor_user_id := actor_user_id;
       a_action := action; a_resource_type := resource_type;
       a_resource_public_id := resource_public_id; a_sanitized_metadata := sanitized;
       a_created_at := created_at |}) (db_audits db) }).

Definition list_audit (organization_public_id : str) (action resource_type : option str)
    (limit : Z) (before_created_at : option datetime) (before_id : option Z) (db : Db) :
    res exn (list AdministrativeAuditEvent) :=
  if negb (nonempty organization_public_id)
  then Raise (ValueError "Organization public ID is required")
  else if negb ((1 <=? limit) && (limit <=? 1000))
  then Raise (ValueError "Audit limit must be between 1 and 1000")
  else if bool_decide (is_Some before_id) && bool_decide (before_created_at = None)
  then Raise (ValueError "Audit cursor timestamp is required with cursor ID")
  else
    let matches (o : option str) (v : str) := match o with Some x => str_eqb v x | None => true end in
    let before (a : AdministrativeAuditEvent) :=
      match before_created_at with
      | None => true
      | Some t => (a_created_at a <? t)
                  || ((a_created_at a =? t) && (a_id a <? default 0 before_id))
      end in
    Ok (take (Z.to_nat limit)
          (order_by (fun a => [- a_created_at a; - a_id a])
             (t_where (fun a => str_eqb (a_organization_public_id a) organization_public_id
                                && matches action (a_action a)
                                && matches resource_type (a_resource_type a)
                                && before a) (db_audits db)))).
End Audit.

(** ** Properties *)

Section Properties.
Context (unicode_alnum : Z -> bool).

Lemma sanitize_scalar_same v v' : sanitize_scalar v = Ok v' -> v' = v.
Proof.
  destruct v as [| b | z | [| n | r] | s | l | o]; cbn; try (by intros [= <-]); try done.
  repeat case_match; try done. by intros [= <-].
Qed.

Lemma sanitize_list_same l l' :
  sanitize_list l = Ok l' -> l' = l /\ Forall (fun v => sanitize_scalar v = Ok v) l.
Proof.
  revert l'; induction l as [| v l IH]; intros l'; cbn; [by intros [= <-] |].
  intros Hs. apply res_bind_ok in Hs as (v' & Hv & Hs). apply res_bind_ok in Hs as (l'' & Hl & [= <-]).
  pose proof (sanitize_scalar_same _ _ Hv) as ->. destruct (IH _ Hl) as [-> Hall].
  split; [done |]. by constructor.
Qed.

(** What a stored value and a stored item satisfy. *)
Definition value_ok (v : json) : Prop :=
  match v with
  | JList l => len l <= MAX_LIST_VALUES /\ Forall (fun v => sanitize_scalar v = Ok v) l
  | _ => sanitize_scalar v = Ok v
  end.
Definition item_ok (kv : str * json) : Prop :=
  check_key unicode_alnum kv.1 = Ok () /\ value_ok kv.2.

Definition value_count (v : json) : Z := match v with JList l => len l | _ => 1 end.

Lemma sanitize_item_same v v' n :
  sanitize_item v = Ok (v', n) ->
  v' = v /\ n = value_count v /\ value_ok v.
Proof.
  intros Hs.
  assert (forall x, (v0 ← sanitize_scalar x; Ok (v0, 1)) = Ok (v', n) ->
    v' = x /\ n = 1 /\ sanitize_scalar x = Ok x) as Hscalar.
  { intros x Hx. apply res_bind_ok in Hx as (x' & Hx & [= <- <-]).
    pose proof (sanitize_scalar_same _ _ Hx) as ->. done. }
  destruct v as [| b | z | f | s | l | o]; cbn [sanitize_item] in Hs;
    try (apply Hscalar in Hs as (-> & -> & Hok); exact (conj eq_refl (conj eq_refl Hok))).
  destruct (Z.ltb_spec MAX_LIST_VALUES (len l)); [done |].
  apply res_bind_ok in Hs as (l' & Hl & [= <- <-]). destruct (sanitize_list_same _ _ Hl) as [-> Hall].
  exact (conj eq_refl (conj eq_refl (conj H Hall))).
Qed.

Lemma sanitize_items_same items total out :
  sanitize_items unicode_alnum items total = Ok out ->
  out = items /\ Forall item_ok items /\
  (total <= MAX_TOTAL_VALUES ->
   total + foldr (fun kv n => value_count kv.2 + n) 0 items <= MAX_TOTAL_VALUES).
Proof.
  revert total out; induction items as [| [k v] items IH]; intros total out Hs; cbn in Hs.
  - injection Hs as <-. split; [done |]. split; [constructor |]. cbn. lia.
  - apply res_bind_ok in Hs as ([] & Hk & Hs). apply res_bind_ok in Hs as ([v' n] & Hv & Hs).
    destruct (Z.ltb_spec MAX_TOTAL_VALUES (total + n)); [done |].
    apply res_bind_ok in Hs as (rest & Hr & [= <-]).
    destruct (sanitize_item_same _ _ _ Hv) as (-> & -> & Hok).
    destruct (IH _ _ Hr) as (-> & Hall & Hsum). split; [done |].
    split; [constructor; [split; [exact Hk | exact Hok] | done] |].
    intros _. cbn. specialize (Hsum ltac:(lia)). cbn in Hsum. lia.
Qed.
End Properties.

(** The audit sanitizer stores what it was given or nothing.  Accepted
    metadata is kept unchanged, has at most 64 keys of at most 100 characters
    and 256 values in all, no nested structure, no key that normalizes to
    something secret-like, and no string that is long, contains a marker of
    credentials or URLs, or looks like a token. *)
Theorem sanitized_metadata_safe unicode_alnum metadata out :
  sanitize_audit_metadata unicode_alnum (Some metadata) = Ok out ->
  out = metadata /\ len out <= 64 /\
  foldr (fun kv n => value_count kv.2 + n) 0 out <= 256 /\
  forall k v, (k, v) ∈ out ->
    1 <= len k <= 100 /\
    (forall part, part ∈ FORBIDDEN_KEY_PARTS ->
       contains (normalize_key unicode_alnum k) part = false) /\
    (forall s, v = JStr s \/ (exists l, v = JList l /\ JStr s ∈ l) ->
       len s <= 2048 /\ jwt_like s = false /\ credential_like s = false /\
       forall part, part ∈ SENSITIVE_VALUE_PARTS -> contains (lowered s) part = false) /\
    (forall o, v <> JObj o) /\
    (forall l, v = JList l -> len l <= 64 /\ forall x, x ∈ l -> (forall l', x <> JList l') /\ forall o, x <> JObj o).
Proof.
  unfold sanitize_audit_metadata. destruct (Z.ltb_spec MAX_METADATA_KEYS (len metadata)); [done |].
  intros Hs. destruct (sanitize_items_same _ _ _ _ Hs) as (-> & Hall & Hsum).
  split; [done |]. split; [done |]. split; [by apply Hsum |].
  intros k v Hin. rewrite list.Forall_forall in Hall. destruct (Hall _ Hin) as [Hk Hv].
  cbn [fst snd] in *. unfold value_ok in Hv.
  assert (forall s, sanitize_scalar (JStr s) = Ok (JStr s) ->
    len s <= 2048 /\ jwt_like s = false /\ credential_like s = false /\
    forall part, part ∈ SENSITIVE_VALUE_PARTS -> contains (lowered s) part = false) as Hstr.
  { intros s. cbn [sanitize_scalar]. destruct (Z.ltb_spec MAX_STRING_LENGTH (len s)); [done |].
    destruct (existsb _ _) eqn:Es; [done |]. destruct (_ || _) eqn:Ej; [done |]. intros _.
    apply orb_false_iff in Ej as [-> ->]. split; [done |]. split; [done |]. split; [done |].
    intros part Hp. apply not_true_iff_false. intros Hc. apply not_true_iff_false in Es.
    apply Es, existsb_exists. exists part. split; [by apply list_elem_of_In | done]. }
  split; [| split; [| split; [| split]]].
  - unfold check_key in Hk. destruct k as [| c k]; [done |]. cbn [nonempty negb orb] in Hk.
    destruct (Z.ltb_spec MAX_KEY_LENGTH (len (c :: k))) as [|Hlen]; [done |].
    unfold MAX_KEY_LENGTH, len in *. cbn in *. lia.
  - intros part Hp. unfold check_key in Hk. destruct (_ || _); [done |].
    destruct (existsb _ _) eqn:Es; [done |]. apply not_true_iff_false. intros Hc.
    apply not_true_iff_false in Es. apply Es, existsb_exists. exists part.
    split; [by apply list_elem_of_In | done].
  - intros s [->|(l & -> & Hl)]; [by apply Hstr |]. destruct Hv as [_ Hv].
    rewrite list.Forall_forall in Hv. by apply Hstr, Hv.
  - intros o ->. done.
  - intros l ->. destruct Hv as [Hlen Hv]. split; [done |]. intros x Hx.
    rewrite list.Forall_forall in Hv. specialize (Hv x Hx). by destruct x.
Qed.

Lemma sanitized_metadata_safe_witness :
  sanitize_audit_metadata (fun _ => true) (Some [(py "api_token", JInt 1)])
    = Raise (ValueError "Audit metadata key may contain sensitive data") /\
  len [(py "changed_fields", JList [JStr (py "plan")]); (py "count", JInt 3)] <= 64.
Proof.
  split; [vm_compute; reflexivity |].
  apply (sanitized_metadata_safe (fun _ => true)
    [(py "changed_fields", JList [JStr (py "plan")]); (py "count", JInt 3)]).
  vm_compute. reflexivity.
Defined.
