(* ===== verification/Events.v ===== *)
(** * Accepting, replaying, canceling and purging deliveries

    The data-plane operations of [WebhookService]
    ([src/app/services/webhook_service.py]): event ingestion with its
    idempotency key and fan-out, single and bulk replay, the dead-letter
    queries, cancellation and the purge of terminal deliveries. *)

From Stdlib Require Import QArith.
From stdpp Require Import sorting.
From stdpp Require Import base tactics list gmap strings numbers option.
From S2P Require Import Prelude Crypto Json Models Session Settings Admission Scheduling.
From S2P Require Import WebhookSecurity Delivery Authorization AuditLog.
Local Open Scope Z_scope.

(** Waiting for a row lock: what other transactions commit meanwhile becomes
    visible.  Only used before a handler has written anything. *)
Definition wait (others : Db -> Db) : M unit :=
  fun s => (Ok (), Sess (others (committed s)) (others (working s))).

Definition mode_of (m : str) : option EnvelopeMode :=
  if str_eqb m (py "native") then Some Native
  else if str_eqb m (py "cloudevents") then Some CloudEvents
  else None.

Section Service.
Context `{Rounding} (settings : Settings) (unicode_alnum : Z -> bool).

(** [WebhookService._audit]: an audit event stamped with database time. *)
Definition audit (uuid : str) (user_id : Z) (organization_id : str) (action resource_type : string)
    (now : datetime) (resource_id project_id : option str) (metadata : option (list (str * json))) :
    M unit :=
  append_audit unicode_alnum uuid now (Some user_id) organization_id (py action)
    (py resource_type) resource_id project_id metadata.

Definition project_organization_id (project : Project) : M str :=
  o ← gets (fun db => t_get (p_organization_id project) (db_organizations db));
  o ← of_option (RuntimeError "Project organization is unavailable") o;
  mret (o_public_id o).

Definition authorized (user_id : Z) (project_id : str) (permission : Permission) : M Project :=
  fun s => (authorize_project (working s) user_id project_id permission false, s).

Definition authorized_org (user_id : Z) (organization_id : str) (permission : Permission)
    (allow_deletion_pending : bool) : M Organization :=
  fun s => (authorize_organization (working s) user_id organization_id permission
              allow_deletion_pending, s).

(** ** Ingestion *)

Definition conflict : exn :=
  ConflictError "Idempotency-Key was already used with different content".

Definition find_event (project_id : Z) (idempotency_key : str) (db : Db) : option Event :=
  t_find (fun e => (ev_project_id e =? project_id)
                   && str_eqb (ev_idempotency_key e) idempotency_key) (db_events db).

Definition same_content (e : Event) (event_type : str) (mode : EnvelopeMode)
    (fingerprint : str) : bool :=
  str_eqb (ev_event_type e) event_type && bool_decide (ev_envelope_mode e = mode)
  && str_eqb (ev_payload_hash e) fingerprint.

(** The answer for a key that is already taken. *)
Definition repeated (e : Event) (event_type : str) (mode : EnvelopeMode) (fingerprint : str) :
    M Event :=
  if same_content e event_type mode fingerprint then mret e else raise conflict.

Definition fingerprint_of (event_type : str) (mode : EnvelopeMode) (payload_bytes : pybytes) :
    res exn str :=
  match utf8_encode event_type with
  | None => Raise (ValueError "UnicodeEncodeError")
  | Some t =>
      let material := t ++ [0] ++ payload_bytes in
      Ok (hexdigest (sha256 match mode with
                            | Native => material
                            | CloudEvents => py "cloudevents" ++ [0] ++ material
                            end))
  end.

Definition envelope_of_event (project : Project) (id event_type : str) (payload : json)
    (mode : EnvelopeMode) (now : datetime) : json :=
  match mode with
  | CloudEvents => JObj
      [(py "data", payload); (py "datacontenttype", JStr (py "application/json"));
       (py "id", JStr id);
       (py "source", JStr (py "urn:webhook-platform:project:" ++ p_public_id project));
       (py "specversion", JStr (py "1.0")); (py "time", JStr (isoformat now));
       (py "type", JStr event_type)]
  | Native => JObj
      [(py "id", JStr id); (py "type", JStr event_type);
       (py "created_at", JStr (isoformat now)); (py "data", payload)]
  end.

Definition subscribed (project_id : Z) (event_type : str) (db : Db) : list WebhookEndpoint :=
  filter (fun e => Is_true (event_type_matches event_type (e_event_types e)))
    (t_where (fun e => (e_project_id e =? project_id) && e_is_active e) (db_endpoints db)).

Definition new_delivery (uuid : str) (organization_id event_id : Z) (e : WebhookEndpoint)
    (now : datetime) (id : Z) : Delivery :=
  {| d_id := id; d_public_id := uuid; d_organization_id := organization_id;
     d_event_id := event_id; d_endpoint_id := e_id e; d_replay_of_delivery_id := None;
     d_endpoint_public_id_snapshot := e_public_id e; d_endpoint_url_snapshot := e_url e;
     d_endpoint_active_snapshot := e_is_active e;
     d_signing_secret_version_snapshot := e_secret_version e;
     d_signature_scheme_snapshot := e_signature_scheme e;
     d_status := Pending; d_attempt_count := 0; d_next_attempt_at := now;
     d_lease_token := None; d_lease_expires_at := None; d_last_http_status := None;
     d_last_error := None; d_created_at := now; d_updated_at := now; d_succeeded_at := None;
     d_dead_at := None; d_dead_reason := None; d_canceled_at := None;
     d_canceled_reason := None |}.

(** [session.add] of each delivery; the row's id comes from the generator. *)
Fixpoint add_deliveries (mks : list (Z -> Delivery)) (t : table Delivery) : table Delivery :=
  match mks with
  | [] => t
  | mk :: mks' => add_deliveries mks' (t_add mk t)
  end.

Definition fan_out (uuid : nat -> str) (organization_id event_id : Z) (now : datetime)
    (endpoints : list WebhookEndpoint) : list (Z -> Delivery) :=
  imap (fun i e => new_delivery (uuid (S i)) organization_id event_id e now) endpoints.

Definition event_row (id : str) (project : Project) (key event_type : str) (mode : EnvelopeMode)
    (payload : json) (fingerprint : str) (envelope : pybytes)
    (trace : option str * option str) (now : datetime) (n : Z) : Event :=
  {| ev_id := n; ev_public_id := id; ev_project_id := p_id project; ev_idempotency_key := key;
     ev_event_type := event_type; ev_envelope_mode := mode; ev_payload := payload;
     ev_payload_hash := fingerprint; ev_canonical_envelope := Some envelope;
     ev_payload_purged_at := None; ev_traceparent := trace.1; ev_tracestate := trace.2;
     ev_created_at := now |}.

(** [self.db.add(event); await self.db.flush()] with its handler: a violated
    unique constraint rolls the session back and answers for the row that is
    there. *)
Inductive stored : Type := Added (event_id : Z) | Stored (raced : Event).

Definition event_clash (e : Event) (db : Db) : bool :=
  has (t_find (fun e' => ((ev_project_id e' =? ev_project_id e)
                          && str_eqb (ev_idempotency_key e') (ev_idempotency_key e))
                         || str_eqb (ev_public_id e') (ev_public_id e)) (db_events db)).

Definition add_event (mk : Z -> Event) (event_type : str) (mode : EnvelopeMode)
    (fingerprint : str) : M stored :=
  event_id ← gets (fun db => seq (db_events db));
  clash ← gets (event_clash (mk event_id));
  if (clash : bool) then
    rollback;;
    raced ← gets (find_event (ev_project_id (mk event_id)) (ev_idempotency_key (mk event_id)));
    match raced with
    | Some e => e ← repeated e event_type mode fingerprint; mret (Stored e)
    | None => raise conflict
    end
  else
    modify (fun db => db &{ db_events := t_add mk (db_events db) });;
    mret (Added event_id).

(** [others] is what competing transactions commit while this one waits for
    the admission locks, [trace] the headers of the current span. *)
Definition ingest_event (uuid : nat -> str) (now : datetime) (others : Db -> Db)
    (trace : option str * option str) (project : Project)
    (idempotency_key event_type : str) (payload : json) (envelope_mode : str) : M Event :=
  when (negb ((1 <=? len idempotency_key)
              && (len idempotency_key <=? idempotency_key_max_length settings)))
    (raise (ValidationError "Idempotency-Key length is invalid" None));;
  mode ← of_option (ValidationError "Envelope mode is invalid" None) (mode_of envelope_mode);
  payload_bytes ← of_option (ValidationError "Payload must be valid finite JSON" None)
                    (canonical_json payload);
  when (webhook_payload_max_bytes settings <? len payload_bytes)
    (raise (ValidationError "Webhook payload exceeds configured limit" None));;
  fingerprint ← of_res (fingerprint_of event_type mode payload_bytes);
  existing ← gets (find_event (p_id project) idempotency_key);
  match existing with
  | Some e => repeated e event_type mode fingerprint
  | None =>
      wait others;;
      tenant_state ← lock_global_tenant settings (p_organization_id project) now;
      existing ← gets (find_event (p_id project) idempotency_key);
      match existing with
      | Some e => repeated e event_type mode fingerprint
      | None =>
          envelope ← of_option (ValueError "Out of range float values are not JSON compliant")
            (canonical_json (envelope_of_event project (uuid 0%nat) event_type payload mode now));
          endpoints ← gets (subscribed (p_id project) event_type);
          admit_event_locked settings tenant_state now (p_organization_id project)
            (len endpoints) (len envelope);;
          row ← add_event (event_row (uuid 0%nat) project idempotency_key event_type mode payload
                    fingerprint envelope trace now) event_type mode fingerprint;
          match row with
          | Stored raced => mret raced
          | Added event_id =>
              modify (fun db => db &{ db_deliveries := add_deliveries
                (fan_out uuid (p_organization_id project) event_id now endpoints)
                (db_deliveries db) });;
              commit;;
              mret (event_row (uuid 0%nat) project idempotency_key event_type mode payload
                      fingerprint envelope trace now event_id)
          end
      end
  end.

(** ** Reading events and deliveries *)

(** [.offset(offset).limit(limit)] *)
Definition page {A} (offset limit : Z) (l : list A) : list A :=
  take (Z.to_nat limit) (drop (Z.to_nat offset) l).

(** [select(Delivery).join(Event).where(Event.project_id == ...)] *)
Definition in_project (project_id : Z) (db : Db) (d : Delivery) : bool :=
  match t_get (d_event_id d) (db_events db) with
  | Some ev => ev_project_id ev =? project_id
  | None => false
  end.

Definition list_events (user_id : Z) (project_id : str) (offset limit : Z) : M (list Event) :=
  project ← authorized user_id project_id PROJECT_READ;
  gets (fun db => page offset limit
    (order_by (fun e => [- ev_created_at e; - ev_id e])
       (t_where (fun e => ev_project_id e =? p_id project) (db_events db)))).

Definition get_event (user_id : Z) (project_id event_id : str) : M Event :=
  project ← authorized user_id project_id PROJECT_READ;
  event ← gets (fun db => t_find (fun e => (ev_project_id e =? p_id project)
                                           && str_eqb (ev_public_id e) event_id) (db_events db));
  of_option (NotFoundError "Event" (IdStr event_id)) event.

Definition list_deliveries (user_id : Z) (project_id : str) (offset limit : Z) :
    M (list Delivery) :=
  project ← authorized user_id project_id PROJECT_READ;
  gets (fun db => page offset limit
    (order_by (fun d => [- d_created_at d; - d_id d])
       (t_where (in_project (p_id project) db) (db_deliveries db)))).

Definition find_delivery (project : Project) (delivery_id : str) (extra : Delivery -> bool)
    (db : Db) : option Delivery :=
  t_find (fun d => in_project (p_id project) db d && str_eqb (d_public_id d) delivery_id
                   && extra d) (db_deliveries db).

(** The row with its attempts, which the query loads with it. *)
Definition get_delivery (user_id : Z) (project_id delivery_id : str) :
    M (Delivery * list DeliveryAttempt) :=
  project ← authorized user_id project_id PROJECT_READ;
  d ← gets (find_delivery project delivery_id (fun _ => true));
  d ← of_option (NotFoundError "Delivery" (IdStr delivery_id)) d;
  attempts ← gets (fun db => t_where (fun a => at_delivery_id a =? d_id d) (db_attempts db));
  mret (d, attempts).

(** ** Replay *)

Definition replay_source (project : Project) (delivery_id : str) (dead_only : bool) : M Delivery :=
  d ← gets (find_delivery project delivery_id
             (fun d => negb dead_only || bool_decide (d_status d = Dead)));
  of_option (NotFoundError "Delivery" (IdStr delivery_id)) d.

Definition payload_available (ev : Event) : bool :=
  negb (is_none (ev_payload ev)) && has (ev_canonical_envelope ev)
  && negb (has (ev_payload_purged_at ev)).

Definition signing_version (d : Delivery) (db : Db) : option EndpointSigningSecretVersion :=
  t_find (fun v => (v_endpoint_id v =? d_endpoint_id d)
                   && (v_version v =? d_signing_secret_version_snapshot d))
    (db_secret_versions db).

Definition ensure_replayable (d : Delivery) (now : datetime) : M unit :=
  event ← gets (fun db => t_get (d_event_id d) (db_events db));
  when (negb match event with Some ev => payload_available ev | None => false end)
    (raise (ConflictError "Delivery event payload has been purged"));;
  version ← gets (signing_version d);
  version ← of_option (ConflictError "Delivery signing version is unavailable") version;
  when (match v_retire_at version with Some t => t <=? now | None => false end)
    (raise (ConflictError "Delivery signing version has retired")).

Definition replay_copy (uuid : str) (original : Delivery) (now : datetime) (id : Z) : Delivery :=
  {| d_id := id; d_public_id := uuid; d_organization_id := d_organization_id original;
     d_event_id := d_event_id original; d_endpoint_id := d_endpoint_id original;
     d_replay_of_delivery_id := Some (d_id original);
     d_endpoint_public_id_snapshot := d_endpoint_public_id_snapshot original;
     d_endpoint_url_snapshot := d_endpoint_url_snapshot original;
     d_endpoint_active_snapshot := d_endpoint_active_snapshot original;
     d_signing_secret_version_snapshot := d_signing_secret_version_snapshot original;
     d_signature_scheme_snapshot := d_signature_scheme_snapshot original;
     d_status := Pending; d_attempt_count := 0; d_next_attempt_at := now;
     d_lease_token := None; d_lease_expires_at := None; d_last_http_status := None;
     d_last_error := None; d_created_at := now; d_updated_at := now; d_succeeded_at := None;
     d_dead_at := None; d_dead_reason := None; d_canceled_at := None;
     d_canceled_reason := None |}.

Definition add_replay (ro : Z -> ReplayOperation) : M unit :=
  modify (fun db => db &{ db_replays := t_add ro (db_replays db) }).

(** The audit entry of both replay handlers. *)
Definition audit_replay (uuid : str) (user_id : Z) (project : Project) (now : datetime)
    (operation_id : str) (requested created : Z) : M unit :=
  organization_public_id ← project_organization_id project;
  audit uuid user_id organization_public_id "delivery.replayed" "replay_operation" now
    (Some operation_id) (Some (p_public_id project))
    (Some [(py "requested_count", JInt requested); (py "created_count", JInt created)]).

(** [others] commit while this transaction waits for the delivery row,
    [others'] while it waits for the admission rows. *)
Definition replay_delivery (uuid : nat -> str) (checked_at now : datetime)
    (others others' : Db -> Db) (user_id : Z) (project_id delivery_id : str) : M Delivery :=
  project ← authorized user_id project_id REPLAY;
  wait others;;
  original ← replay_source project delivery_id false;
  ensure_replayable original checked_at;;
  wait others';;
  now ← admit_replay settings (d_organization_id original) now;
  id ← gets (fun db => seq (db_deliveries db));
  modify (fun db => db &{ db_deliveries :=
    t_add (replay_copy (uuid 0%nat) original now) (db_deliveries db) });;
  add_replay (fun n =>
    {| ro_id := n; ro_public_id := uuid 1%nat; ro_organization_id := d_organization_id original;
       ro_project_id := p_id project; ro_actor_user_id := Some user_id;
       ro_idempotency_key := py "legacy-" ++ uuid 2%nat; ro_mode := Single;
       ro_requested_count := 1; ro_created_count := 1;
       ro_source_delivery_ids := [d_public_id original];
       ro_created_delivery_ids := [uuid 0%nat]; ro_created_at := now |});;
  audit_replay (uuid 3%nat) user_id project now (uuid 1%nat) 1 1;;
  commit;;
  mret (replay_copy (uuid 0%nat) original now id).

Definition find_replay (project : Project) (idempotency_key : str) (db : Db) :
    option ReplayOperation :=
  t_find (fun r => (ro_project_id r =? p_id project)
                   && str_eqb (ro_idempotency_key r) idempotency_key) (db_replays db).

Definition repeated_replay (r : ReplayOperation) (delivery_ids : list str) : M ReplayOperation :=
  if bool_decide (ro_source_delivery_ids r = delivery_ids) then mret r
  else raise (ConflictError "Idempotency-Key was already used with different deliveries").

(** The locked dead sources, in the order of the scan. *)
Definition replay_sources (project : Project) (delivery_ids : list str) (db : Db) :
    list Delivery :=
  t_where (fun d => in_project (p_id project) db d
                    && existsb (str_eqb (d_public_id d)) delivery_ids
                    && bool_decide (d_status d = Dead)) (db_deliveries db).

(** [{delivery.public_id: delivery for delivery in sources}] *)
Definition by_public_id (sources : list Delivery) : gmap str Delivery :=
  foldl (fun m d => <[d_public_id d := d]> m) ∅ sources.

Definition replay_copies (uuid : nat -> str) (sources : gmap str Delivery) (now : datetime)
    (delivery_ids : list str) : res exn (list (Z -> Delivery)) :=
  foldr (fun i_pid rest =>
           match sources !! i_pid.2, rest with
           | Some d, Ok l => Ok (replay_copy (uuid i_pid.1) d now :: l)
           | None, _ => Raise KeyError
           | _, Raise e => Raise e
           end) (Ok []) (imap pair delivery_ids).

Definition replay_deliveries (uuid : nat -> str) (now : datetime) (others : Db -> Db)
    (user_id : Z) (project_id : str) (delivery_ids : list str) (idempotency_key : str) :
    M ReplayOperation :=
  project ← authorized user_id project_id REPLAY;
  when (negb ((1 <=? len idempotency_key)
              && (len idempotency_key <=? idempotency_key_max_length settings)))
    (raise (ValidationError "Idempotency-Key length is invalid" None));;
  when (negb ((1 <=? len delivery_ids)
              && (len delivery_ids <=? bulk_replay_max_deliveries settings)))
    (raise (ValidationError "Replay batch size exceeds configured limit" None));;
  existing ← gets (find_replay project idempotency_key);
  match existing with
  | Some r => repeated_replay r delivery_ids
  | None =>
      wait others;;
      tenant_state ← lock_global_tenant settings (p_organization_id project) now;
      existing ← gets (find_replay project idempotency_key);
      match existing with
      | Some r => repeated_replay r delivery_ids
      | None =>
          sources ← gets (replay_sources project delivery_ids);
          let keyed := by_public_id sources in
          when (negb (Z.of_nat (size keyed) =? len delivery_ids))
            (raise (ValidationError
                      "All replay sources must be dead deliveries in the project" None));;
          mfor (fun d => ensure_replayable d now) sources;;
          admit_replays_locked settings tenant_state now (len delivery_ids);;
          replays ← of_res (replay_copies uuid keyed now delivery_ids);
          let n := length delivery_ids in
          modify (fun db => db &{ db_deliveries := add_deliveries replays (db_deliveries db) });;
          id ← gets (fun db => seq (db_replays db));
          let operation id :=
            {| ro_id := id; ro_public_id := uuid n;
               ro_organization_id := p_organization_id project; ro_project_id := p_id project;
               ro_actor_user_id := Some user_id; ro_idempotency_key := idempotency_key;
               ro_mode := if len delivery_ids =? 1 then Single else Bulk;
               ro_requested_count := len delivery_ids; ro_created_count := len replays;
               ro_source_delivery_ids := delivery_ids;
               ro_created_delivery_ids := map uuid (List.seq 0 n); ro_created_at := now |} in
          add_replay operation;;
          audit_replay (uuid (S n)) user_id project now (uuid n) (len delivery_ids) (len replays);;
          commit;;
          mret (operation id)
      end
  end.

(** ** Dead letters *)

Definition dead_deliveries (project : Project) (offset limit : Z) (endpoint_id reason : option str)
    (minimum_age_seconds : option Z) (now : option datetime) : M (list Delivery) :=
  before ← match minimum_age_seconds, now with
           | None, _ => mret None
           | Some age, Some now => mret (Some (now - seconds age))
           | Some _, None => raise (RuntimeError "Database time is required for age filters")
           end;
  let matches (o : option str) (v : option str) :=
    match o with Some x => bool_decide (v = Some x) | None => true end in
  let old (d : Delivery) :=
    match before, d_dead_at d with
    | None, _ => true
    | Some t, Some dead_at => dead_at <=? t
    | Some _, None => false
    end in
  gets (fun db => page offset limit
    (order_by (fun d => match d_dead_at d with
                        | Some t => [1; - t; - d_id d]
                        | None => [0; 0; - d_id d]
                        end)
       (t_where (fun d => in_project (p_id project) db d && bool_decide (d_status d = Dead)
                          && matches endpoint_id (Some (d_endpoint_public_id_snapshot d))
                          && matches reason (d_dead_reason d) && old d)
          (db_deliveries db)))).

Definition list_dead_deliveries (now : datetime) (user_id : Z) (project_id : str)
    (offset limit : Z) (endpoint_id reason : option str) (minimum_age_seconds : option Z) :
    M (list Delivery) :=
  project ← authorized user_id project_id PROJECT_READ;
  dead_deliveries project offset limit endpoint_id reason minimum_age_seconds
    (minimum_age_seconds ≫= fun _ => Some now).

Definition export_dead_deliveries (now : datetime) (user_id : Z) (project_id : str)
    (endpoint_id reason : option str) (minimum_age_seconds : option Z) (limit : Z) :
    M (list Delivery) :=
  project ← authorized user_id project_id PROJECT_READ;
  dead_deliveries project 0 (Z.min limit 1000) endpoint_id reason minimum_age_seconds
    (minimum_age_seconds ≫= fun _ => Some now).

(** ** Cancellation *)

Definition canceled_row (d : Delivery) (now : datetime) (reason : option str) : Delivery :=
  d &{ d_status := Canceled } &{ d_canceled_at := Some now } &{ d_canceled_reason := reason }
    &{ d_next_attempt_at := now } &{ d_updated_at := now }.

Definition probe_lost (q : EndpointQuotaState) (now : datetime) : EndpointQuotaState :=
  q &{ q_half_open_probe_delivery_id := None } &{ q_circuit_state := Open }
    &{ q_circuit_open_until := Some now } &{ q_updated_at := now }.

Definition cancel_delivery (uuid : str) (now : datetime) (others : Db -> Db) (user_id : Z)
    (project_id delivery_id : str) (reason : option str) : M Delivery :=
  project ← authorized user_id project_id DELIVERY_CANCEL;
  wait others;;
  d ← gets (find_delivery project delivery_id (fun _ => true));
  d ← of_option (NotFoundError "Delivery" (IdStr delivery_id)) d;
  if bool_decide (d_status d = Canceled) then mret d
  else
    when (negb (queued (d_status d)))
      (raise (ConflictError "Only pending or retry-scheduled deliveries can be canceled"));;
    put_delivery (canceled_row d now reason);;
    state ← gets (fun db => db_quotas db !! d_endpoint_id d);
    match state with
    | Some q =>
        when (bool_decide (q_half_open_probe_delivery_id q = Some (d_id d)))
          (put_quota (d_endpoint_id d) (probe_lost q now))
    | None => mret ()
    end;;
    organization_public_id ← project_organization_id project;
    audit uuid user_id organization_public_id "delivery.canceled" "delivery" now
      (Some (d_public_id d)) (Some (p_public_id project))
      (Some [(py "reason_provided", JBool (has reason))]);;
    commit;;
    mret (canceled_row d now reason).

(** ** Purge *)

Record PurgeReport : Type := Report {
  rp_cutoff : datetime; rp_matched : Z; rp_purged : Z; rp_dry_run : bool;
}.

(** The foreign keys on [deliveries.id]: attempts go with their delivery,
    replays and probe marks forget it. *)
Definition delete_deliveries (ids : list Z) (db : Db) : Db :=
  let gone (o : option Z) := match o with Some i => bool_decide (i ∈ ids) | None => false end in
  db &{ db_deliveries := t_map (fun d => if gone (d_replay_of_delivery_id d)
                                         then d &{ d_replay_of_delivery_id := None } else d)
                           (t_delete ids (db_deliveries db)) }
     &{ db_attempts := t_remove (fun a => bool_decide (at_delivery_id a ∈ ids)) (db_attempts db) }
     &{ db_quotas := (fun q => if gone (q_half_open_probe_delivery_id q)
                               then q &{ q_half_open_probe_delivery_id := None } else q)
                       <$> db_quotas db }.

Definition purgeable (project : Project) (cutoff : datetime) (db : Db) (d : Delivery) : bool :=
  in_project (p_id project) db d && terminal (d_status d) && (d_updated_at d <=? cutoff).

Definition purge_terminal_deliveries (uuid : str) (now : datetime) (user_id : Z)
    (project_id : str) (dry_run : bool) (max_records : Z) : M PurgeReport :=
  project ← authorized user_id project_id DELIVERY_PURGE;
  let limit := Z.min max_records (delivery_purge_batch_size settings) in
  let cutoff := now - days (delivery_retention_days settings) in
  delivery_ids ← gets (fun db => map d_id (page 0 limit
    (order_by (fun d => [d_id d])
       (t_where (purgeable project cutoff db) (db_deliveries db)))));
  when (negb dry_run)
    (when (negb (len delivery_ids =? 0)) (modify (delete_deliveries delivery_ids));;
     organization_public_id ← project_organization_id project;
     audit uuid user_id organization_public_id "delivery.purged" "delivery" now
       None (Some (p_public_id project))
       (Some [(py "matched_count", JInt (len delivery_ids));
              (py "purged_count", JInt (len delivery_ids));
              (py "retention_days", JInt (delivery_retention_days settings))]);;
     commit);;
  mret (Report cutoff (len delivery_ids) (if dry_run then 0 else len delivery_ids) dry_run).
End Service.
