(* ===== verification/EventSafety.v ===== *)
(** * Correctness of the data plane

    Ingestion is atomic and idempotent under any interference, fans an event
    out to exactly the subscribed endpoints with their snapshots, and keeps the
    worker's invariant; replay copies a snapshot; cancellation and purge touch
    only the rows they may. *)

From Stdlib Require Import QArith.
From stdpp Require Import sorting.
From stdpp Require Import base tactics list gmap sets strings numbers option.
From S2P Require Import Prelude Crypto Json Models Session Settings Admission Scheduling.
From S2P Require Import WebhookSecurity Delivery Authorization AuditLog Events.
Local Open Scope Z_scope.

(** ** Interference *)

(** What competing transactions may have committed at the lock waits. *)
Definition after (others : list (Db -> Db)) : relation Db :=
  rtc (fun db db' => exists f, f ∈ others /\ db' = f db).

#[export] Instance after_preorder others : PreOrder (after others).
Proof. unfold after. apply _. Qed.

Lemma after_nil db db' : after [] db db' -> db' = db.
Proof.
  intros Hr. inversion Hr as [| x y z (f & Hf & _)]; [done |]. by apply not_elem_of_nil in Hf.
Qed.

Lemma quiet_wait others f : f ∈ others -> quiet (after others) (wait f).
Proof. intros Hf s. cbn. apply rtc_once. eauto. Qed.

(** ** Quiet calls *)

Section Quiet.
Context `{Rounding} (settings : Settings) (unicode_alnum : Z -> bool).
Context (R : relation Db) `{!PreOrder R}.

Lemma quiet_append_audit uuid now user org action rt rid pid metadata :
  quiet R (append_audit unicode_alnum uuid now user org action rt rid pid metadata).
Proof. unfold append_audit. quietly. Qed.

Lemma quiet_audit uuid user org action rt now rid pid metadata :
  quiet R (audit unicode_alnum uuid user org action rt now rid pid metadata).
Proof. apply quiet_append_audit. Qed.

Lemma quiet_authorized user project permission : quiet R (authorized user project permission).
Proof. by intros s. Qed.

Lemma quiet_authorized_org user org permission allow :
  quiet R (authorized_org user org permission allow).
Proof. by intros s. Qed.

Lemma quiet_project_organization_id p : quiet R (project_organization_id p).
Proof. unfold project_organization_id. quietly. Qed.

Lemma quiet_lock_global_tenant org now : quiet R (lock_global_tenant settings org now).
Proof.
  unfold lock_global_tenant, ensure_global_state, ensure_tenant_state. quietly.
Qed.

Lemma quiet_check_saturation now n : quiet R (check_saturation settings now n).
Proof. unfold check_saturation. quietly. Qed.

Lemma quiet_charge q b : quiet R (charge q b).
Proof. unfold charge. quietly. Qed.
End Quiet.
#[export] Hint Resolve quiet_append_audit quiet_audit quiet_authorized quiet_authorized_org
  quiet_project_organization_id quiet_lock_global_tenant quiet_check_saturation
  quiet_charge : quiet.

Section QuietAdmission.
Context `{Rounding} (settings : Settings) (R : relation Db) `{!PreOrder R}.

Lemma quiet_admit_event_locked state now org n size :
  quiet R (admit_event_locked settings state now org n size).
Proof. unfold admit_event_locked, put_tenant. quietly. Qed.

Lemma quiet_admit_replays_locked state now n :
  quiet R (admit_replays_locked settings state now n).
Proof. unfold admit_replays_locked, put_tenant. quietly. Qed.
End QuietAdmission.
#[export] Hint Resolve quiet_admit_event_locked quiet_admit_replays_locked : quiet.

(** ** Every handler of the data plane is atomic *)

Section AtomicIngest.
Context `{Rounding} (settings : Settings).

Lemma quiet_repeated R `{!PreOrder R} e event_type mode fp :
  quiet R (repeated e event_type mode fp).
Proof. unfold repeated. quietly. Qed.
Hint Resolve quiet_repeated : quiet.

Lemma quiet_add_event R `{!PreOrder R} mk event_type mode fp :
  quiet R (add_event mk event_type mode fp).
Proof. unfold add_event. quietly. Qed.
Hint Resolve quiet_add_event : quiet.

Lemma atomic_ingest_event uuid now others trace project key event_type payload mode :
  atomic (after [others])
    (ingest_event settings uuid now others trace project key event_type payload mode).
Proof.
  assert (quiet (after [others]) (wait others)) by (apply quiet_wait; set_solver).
  unfold ingest_event. quietly.
Qed.

End AtomicIngest.

Section Atomic.
Context `{Rounding} (settings : Settings) (unicode_alnum : Z -> bool).

Lemma quiet_ensure_replayable R `{!PreOrder R} d now : quiet R (ensure_replayable d now).
Proof. unfold ensure_replayable. quietly. Qed.
Hint Resolve quiet_ensure_replayable : quiet.

Lemma quiet_replay_source R `{!PreOrder R} p id dead_only : quiet R (replay_source p id dead_only).
Proof. unfold replay_source. quietly. Qed.
Hint Resolve quiet_replay_source : quiet.

Lemma quiet_audit_replay R `{!PreOrder R} uuid user p now op n m :
  quiet R (audit_replay unicode_alnum uuid user p now op n m).
Proof. unfold audit_replay. quietly. Qed.
Hint Resolve quiet_audit_replay : quiet.

Lemma quiet_admit_replay R `{!PreOrder R} org now : quiet R (admit_replay settings org now).
Proof. unfold admit_replay, admit_replays. quietly. Qed.
Hint Resolve quiet_admit_replay : quiet.

Lemma atomic_replay_delivery uuid checked_at now others others' user project_id delivery_id :
  atomic (after [others; others'])
    (replay_delivery settings unicode_alnum uuid checked_at now others others' user
       project_id delivery_id).
Proof.
  assert (quiet (after [others; others']) (wait others)) by (apply quiet_wait; set_solver).
  assert (quiet (after [others; others']) (wait others')) by (apply quiet_wait; set_solver).
  unfold replay_delivery, add_replay. quietly.
Qed.

Lemma quiet_repeated_replay R `{!PreOrder R} r ids : quiet R (repeated_replay r ids).
Proof. unfold repeated_replay. quietly. Qed.
Hint Resolve quiet_repeated_replay : quiet.

Lemma atomic_replay_deliveries uuid now others user project_id ids key :
  atomic (after [others])
    (replay_deliveries settings unicode_alnum uuid now others user project_id ids key).
Proof.
  assert (quiet (after [others]) (wait others)) by (apply quiet_wait; set_solver).
  unfold replay_deliveries, add_replay. quietly.
Qed.

Lemma atomic_cancel_delivery uuid now others user project_id delivery_id reason :
  atomic (after [others])
    (cancel_delivery unicode_alnum uuid now others user project_id delivery_id reason).
Proof.
  assert (quiet (after [others]) (wait others)) by (apply quiet_wait; set_solver).
  unfold cancel_delivery, put_delivery, put_quota. quietly.
Qed.

Lemma atomic_purge uuid now user project_id dry_run max_records :
  atomic (after []) (purge_terminal_deliveries settings unicode_alnum uuid now user project_id
                       dry_run max_records).
Proof. unfold purge_terminal_deliveries. quietly. Qed.
End Atomic.

(** ** Rows added to a table *)

Section AddDeliveries.
Implicit Types (mks : list (Z -> Delivery)) (t : table Delivery).

Lemma add_deliveries_seq mks t : seq (add_deliveries mks t) = seq t + len mks.
Proof.
  unfold len. revert t; induction mks as [| mk mks IH]; intros t; cbn; [lia |].
  rewrite IH. cbn. lia.
Qed.

Lemma add_deliveries_get mks t k :
  t_get k (add_deliveries mks t) =
  if (seq t <=? k) && (k <? seq t + len mks)
  then (fun mk => mk k) <$> mks !! Z.to_nat (k - seq t)
  else t_get k t.
Proof.
  unfold len. revert t; induction mks as [| mk mks IH]; intros t; cbn [add_deliveries].
  { destruct (Z.leb_spec (seq t) k), (Z.ltb_spec k (seq t + Z.of_nat (length (@nil (Z -> Delivery)))));
      cbn in *; try done; lia. }
  rewrite IH, length_cons. cbn [t_add seq].
  destruct (Z.eqb_spec k (seq t)) as [->|Hne].
  - replace (seq t + 1 <=? seq t) with false by lia.
    replace (seq t <=? seq t) with true by lia.
    destruct (Z.ltb_spec (seq t) (seq t + Z.of_nat (S (length mks)))); [| lia].
    rewrite Z.sub_diag. cbn. unfold t_get. cbn. by rewrite lookup_insert_eq.
  - replace (seq t + 1 <=? k) with (seq t <=? k) by (apply eq_iff_eq_true; rewrite !Z.leb_le; lia).
    replace (seq t + 1 + Z.of_nat (length mks)) with (seq t + Z.of_nat (S (length mks))) by lia.
    destruct (Z.leb_spec (seq t) k), (Z.ltb_spec k (seq t + Z.of_nat (S (length mks)))); cbn [andb];
      try (unfold t_get; cbn; by rewrite lookup_insert_ne by done).
    replace (Z.to_nat (k - seq t)) with (S (Z.to_nat (k - (seq t + 1)))) by lia. done.
Qed.

(** The rows of the new range, one per constructor. *)
Lemma add_deliveries_new mks t i mk :
  mks !! i = Some mk -> t_get (seq t + Z.of_nat i) (add_deliveries mks t) = Some (mk (seq t + Z.of_nat i)).
Proof.
  intros Hi. pose proof (lookup_lt_Some _ _ _ Hi). rewrite add_deliveries_get. unfold len.
  replace (_ && _) with true by (symmetry; apply andb_true_iff; rewrite Z.leb_le, Z.ltb_lt; lia).
  replace (Z.to_nat _) with i by lia. by rewrite Hi.
Qed.

Lemma add_deliveries_old mks t k d :
  t_wf t -> t_get k t = Some d -> t_get k (add_deliveries mks t) = Some d.
Proof.
  intros Hwf Hk. pose proof (Hwf k ltac:(eauto)). rewrite add_deliveries_get.
  replace (seq t <=? k) with false by lia. done.
Qed.

Lemma add_deliveries_cases mks t k d :
  t_get k (add_deliveries mks t) = Some d ->
  t_get k t = Some d \/
  exists i mk, mks !! i = Some mk /\ k = seq t + Z.of_nat i /\ d = mk k.
Proof.
  rewrite add_deliveries_get. unfold len.
  destruct (Z.leb_spec (seq t) k), (Z.ltb_spec k (seq t + Z.of_nat (length mks))); cbn [andb]; auto.
  intros (mk & Hi & Hmk)%fmap_Some. right. exists (Z.to_nat (k - seq t)), mk.
  split; [done |]. split; [lia | done].
Qed.
End AddDeliveries.

(** ** The worker's invariant when rows are added *)

Section Invariant.
Context (settings : Settings).

(** The invariant reads four tables. *)
Lemma deliveries_ok_frame db db' :
  deliveries_ok settings db -> db_events db' = db_events db ->
  db_deliveries db' = db_deliveries db -> db_attempts db' = db_attempts db ->
  db_quotas db' = db_quotas db -> deliveries_ok settings db'.
Proof.
  intros [] E1 E2 E3 E4. split; rewrite ?E1, ?E2, ?E3, ?E4; try done.
  intros k d. unfold envelope_of in *. rewrite E1. eauto.
Qed.

Lemma deliveries_ok_add_event db mk :
  deliveries_ok settings db -> t_wf (db_events db) ->
  deliveries_ok settings (db &{ db_events := t_add mk (db_events db) }).
Proof.
  intros [] Hwf. split; upd_simpl; try done.
  intros k d Hd Ht. destruct (dbo_envelopes k d Hd Ht) as [ee He].
  exists ee. revert He. unfold envelope_of. upd_simpl.
  destruct (t_get (d_event_id d) (db_events db)) as [ev|] eqn:E; [| done].
  by rewrite (t_get_add_old mk _ _ ev).
Qed.

(** A delivery that has just been accepted. *)
Record fresh_delivery (db : Db) (mk : Z -> Delivery) : Prop := {
  fd_id : forall id, d_id (mk id) = id;
  fd_ok : forall id, delivery_ok (mk id);
  fd_pending : forall id, d_status (mk id) = Pending;
  fd_envelope : forall id, is_Some (envelope_of (mk id) db);
}.

Lemma deliveries_ok_add db mks :
  deliveries_ok settings db -> Forall (fresh_delivery db) mks ->
  deliveries_ok settings (db &{ db_deliveries := add_deliveries mks (db_deliveries db) }).
Proof.
  intros [Hk Hwf Hr He HQ HqL Ha Haw Hu] Hf.
  assert (forall i mk, mks !! i = Some mk -> fresh_delivery db mk) as Hfresh.
  { intros i mk Hi. eapply list.Forall_forall; [exact Hf |]. by eapply list_elem_of_lookup_2. }
  split; upd_simpl; try done.
  - intros k d [Hd|(i & mk & Hi & -> & ->)]%add_deliveries_cases; [by apply Hk |].
    by apply (Hfresh i mk Hi).
  - intros k [d [Hd|(i & mk & Hi & -> & ->)]%add_deliveries_cases].
    + rewrite add_deliveries_seq. unfold len. specialize (Hwf k ltac:(eauto)). lia.
    + rewrite add_deliveries_seq. unfold len. apply lookup_lt_Some in Hi. lia.
  - intros k d [Hd|(i & mk & Hi & -> & ->)]%add_deliveries_cases; [by eapply Hr |].
    by apply (Hfresh i mk Hi).
  - intros k d [Hd|(i & mk & Hi & -> & ->)]%add_deliveries_cases; [by eapply He |].
    intros _. by apply (Hfresh i mk Hi).
  - intros k d [Hd|(i & mk & Hi & -> & ->)]%add_deliveries_cases; [by eapply HqL |].
    by rewrite (fd_pending _ _ (Hfresh i mk Hi)).
  - intros k a Hka. destruct (Ha k a Hka) as (d & Hd & ?).
    exists d. split; [by apply add_deliveries_old | done].
Qed.
End Invariant.

(** ** The invariant of the data plane *)

(** The worker's invariant, with the keys of the event table (its primary key
    and [uq_events_project_idempotency]) and the foreign key to it. *)
Record plane_ok (settings : Settings) (db : Db) : Prop := {
  pl_deliveries : deliveries_ok settings db;
  pl_events_wf : t_wf (db_events db);
  pl_events_keyed : t_keyed ev_id (db_events db);
  pl_events_unique : forall k k' e e', t_get k (db_events db) = Some e ->
    t_get k' (db_events db) = Some e' -> ev_project_id e = ev_project_id e' ->
    ev_idempotency_key e = ev_idempotency_key e' -> k = k';
  pl_foreign : forall k d, t_get k (db_deliveries db) = Some d ->
    is_Some (t_get (d_event_id d) (db_events db));
}.

Lemma plane_ok_frame settings db db' :
  plane_ok settings db -> db_events db' = db_events db ->
  db_deliveries db' = db_deliveries db -> db_attempts db' = db_attempts db ->
  db_quotas db' = db_quotas db -> plane_ok settings db'.
Proof.
  intros [] E1 E2 E3 E4. split; rewrite ?E1, ?E2; try done. by eapply deliveries_ok_frame.
Qed.

Section Ingest.
Context `{Rounding} (settings : Settings).

Lemma lock_global_tenant_run org now s :
  exists T G t,
    lock_global_tenant settings org now s
    = (Ok t, Sess (committed s) ((working s) &{ db_global_state := G } &{ db_tenants := T }))
    /\ T = insert_do_nothing org (tenant_quota_values org settings now) (db_tenants (working s))
    /\ T !! org = Some t.
Proof.
  unfold lock_global_tenant, ensure_global_state, ensure_tenant_state.
  set (T := insert_do_nothing org (tenant_quota_values org settings now) (db_tenants (working s))).
  assert (is_Some (T !! org)) as [t Ht].
  { unfold T, insert_do_nothing. case_match; [by eexists | rewrite lookup_insert_eq; by eexists]. }
  do 2 m_run. do 2 m_run. fold T. rewrite Ht.
  destruct (db_global_state (working s)); do 3 eexists; (split; [reflexivity | done]).
Qed.

Lemma find_event_some project_id key db e :
  find_event project_id key db = Some e ->
  ev_project_id e = project_id /\ ev_idempotency_key e = key /\
  exists k, t_get k (db_events db) = Some e.
Proof.
  intros [Hp Hk]%t_find_some. apply andb_true_iff in Hp as [Hp Hkey].
  apply Z.eqb_eq in Hp. apply str_eqb_eq in Hkey. eauto.
Qed.

Lemma find_event_none project_id key db k e :
  find_event project_id key db = None -> t_get k (db_events db) = Some e ->
  ev_project_id e = project_id -> ev_idempotency_key e = key -> False.
Proof.
  intros Hn Hk Hp Hkey. eapply t_find_none in Hn; [| exact Hk]. cbn in Hn.
  rewrite Hp, Hkey, Z.eqb_refl, str_eqb_refl in Hn. done.
Qed.

Context (uuid : nat -> str) (now : datetime) (others : Db -> Db)
  (trace : option str * option str) (project : Project)
  (key event_type : str) (payload : json) (envelope_mode : str).

Abbreviation ingest :=
  (ingest_event settings uuid now others trace project key event_type payload envelope_mode).

(** A request the validation lets through, and its content fingerprint. *)
Definition well_formed (mode : EnvelopeMode) (fingerprint : str) : Prop :=
  1 <= len key <= idempotency_key_max_length settings /\
  mode_of envelope_mode = Some mode /\
  exists bytes, canonical_json payload = Some bytes /\
    len bytes <= webhook_payload_max_bytes settings /\
    fingerprint_of event_type mode bytes = Ok fingerprint.

(** What acceptance means: the event row [e] is new, every subscribed active
    endpoint gets one pending delivery carrying its snapshot, the tenant is
    charged, and nothing else changes. *)
Record accepted (mode : EnvelopeMode) (fingerprint : str) (db db' : Db) (e : Event) : Prop := {
  ac_event : exists envelope,
    canonical_json (envelope_of_event project (uuid 0%nat) event_type payload mode now)
      = Some envelope /\
    e = event_row (uuid 0%nat) project key event_type mode payload fingerprint envelope trace
          now (seq (db_events db)) /\
    db_events db' = t_add (event_row (uuid 0%nat) project key event_type mode payload
                             fingerprint envelope trace now) (db_events db);
  ac_deliveries :
    db_deliveries db' = add_deliveries
      (fan_out uuid (p_organization_id project) (ev_id e) now
         (subscribed (p_id project) event_type db)) (db_deliveries db);
  ac_charged : exists T t,
    T = insert_do_nothing (p_organization_id project)
          (tenant_quota_values (p_organization_id project) settings now) (db_tenants db) /\
    T !! p_organization_id project = Some t /\
    db_tenants db' = <[t_organization_id t :=
      event_charged settings t now (len (subscribed (p_id project) event_type db))]> T;
  ac_frame : db' = db &{ db_global_state := db_global_state db' } &{ db_tenants := db_tenants db' }
                      &{ db_events := db_events db' } &{ db_deliveries := db_deliveries db' };
}.

(** The body after validation: a repeated key, or the admission path. *)
Lemma ingest_repeat db mode fp e :
  well_formed mode fp -> find_event (p_id project) key db = Some e ->
  run ingest db =
    (if same_content e event_type mode fp then Ok e else Raise conflict, db).
Proof.
  intros (Hlen & Hmode & bytes & Hb & Hmax & Hfp) Hf. unfold run, ingest_event.
  replace (_ && _) with true by (symmetry; apply andb_true_iff; rewrite !Z.leb_le; lia).
  m_run. rewrite Hmode. m_run. rewrite Hb. m_run.
  destruct (Z.ltb_spec (webhook_payload_max_bytes settings) (len bytes)); [lia |].
  m_run. rewrite Hfp. m_run. m_run. rewrite Hf. unfold repeated.
  by destruct (same_content e event_type mode fp).
Qed.

Lemma repeated_ok e mode fp s e' s' :
  repeated e event_type mode fp s = (Ok e', s') ->
  e' = e /\ s' = s /\ same_content e event_type mode fp = true.
Proof. unfold repeated. destruct (same_content _ _ _ _); [by intros [= <- <-] | done]. Qed.

(** Under the admission lock no other row holds the key, so the insertion
    goes through or fails. *)
Lemma add_event_ok mk mode fp s row s' :
  (forall n, ev_project_id (mk n) = p_id project /\ ev_idempotency_key (mk n) = key) ->
  find_event (p_id project) key (committed s) = None ->
  add_event mk event_type mode fp s = (Ok row, s') ->
  row = Added (seq (db_events (working s))) /\
  s' = Sess (committed s) ((working s) &{ db_events := t_add mk (db_events (working s)) }).
Proof.
  intros Hmk Hc Hr. unfold add_event in Hr. m_next Hr.
  destruct (event_clash _ _).
  - do 2 (erewrite M_bind_run in Hr; [| reflexivity]). cbn [working] in Hr.
    destruct (Hmk (seq (db_events (working s)))) as [-> ->] in Hr. by rewrite Hc in Hr.
  - erewrite M_bind_run in Hr; [| reflexivity]. by injection Hr as <- <-.
Qed.

Lemma ingest_ok db e db' :
  run ingest db = (Ok e, db') ->
  exists mode fp, well_formed mode fp /\
    (((db' = db \/ db' = others db) /\ find_event (p_id project) key db' = Some e /\
      same_content e event_type mode fp = true) \/
     (find_event (p_id project) key db = None /\ find_event (p_id project) key (others db) = None /\
      accepted mode fp (others db) db' e)).
Proof.
  intros (s & Hr & ->)%run_ok. unfold ingest_event in Hr. m_next Hr.
  match goal with H : negb (_ && _) = false |- _ =>
    apply negb_false_iff, andb_true_iff in H as [?%Z.leb_le ?%Z.leb_le] end.
  match goal with H : (_ <? _) = false |- _ => apply Z.ltb_ge in H end.
  match goal with H : mode_of _ = Some ?m, H' : fingerprint_of _ _ _ = Ok ?f |- _ =>
    exists m, f; rename m into mode, f into fp end.
  split; [by unfold well_formed; eauto 10 |].
  destruct (find_event (p_id project) key db) as [e0|] eqn:E0.
  { apply repeated_ok in Hr as (-> & -> & Hs). cbn. auto. }
  erewrite M_bind_run in Hr; [| reflexivity]. cbn [committed working] in Hr.
  destruct (lock_global_tenant_run (p_organization_id project) now (Sess (others db) (others db)))
    as (T & G & t & Hlock & HT & Ht).
  erewrite M_bind_run in Hr; [| exact Hlock]. cbn [committed working] in Hr.
  erewrite M_bind_run in Hr; [| reflexivity]. cbn [committed working] in Hr.
  change (find_event (p_id project) key ((others db) &{ db_global_state := G } &{ db_tenants := T }))
    with (find_event (p_id project) key (others db)) in Hr.
  destruct (find_event (p_id project) key (others db)) as [e1|] eqn:E1.
  { apply repeated_ok in Hr as (-> & -> & Hs). cbn [committed]. auto. }
  m_next Hr. right. split; [done |]. split; [done |].
  match goal with H : admit_event_locked _ _ _ _ _ _ _ = _ |- _ =>
    apply admit_event_locked_ok in H as [_ ->] end.
  match goal with H : add_event _ _ _ _ _ = _ |- _ =>
    apply add_event_ok in H as [-> ->]; [| done | exact E1] end.
  do 2 (erewrite M_bind_run in Hr; [| reflexivity]). injection Hr as <- <-.
  cbn [committed working]. split; upd_simpl.
  - eauto.
  - done.
  - rewrite HT in *. eauto.
  - reflexivity.
Qed.
End Ingest.

(** ** Preservation by new events and deliveries *)

Section PlanePreserved.
Context (settings : Settings).

Lemma plane_ok_add_event db mk :
  plane_ok settings db -> (forall n, ev_id (mk n) = n) ->
  find_event (ev_project_id (mk (seq (db_events db))))
    (ev_idempotency_key (mk (seq (db_events db)))) db = None ->
  plane_ok settings (db &{ db_events := t_add mk (db_events db) }).
Proof.
  intros [Hd Hwf Hk Hu Hf] Hid Hnone.
  split; upd_simpl; [by apply deliveries_ok_add_event | by apply t_wf_add | | |].
  - intros k e. cbn. rewrite lookup_insert. case_decide; [by intros [= <-]; subst | apply Hk].
  - intros k k' e e'. unfold t_get, t_add. cbn. rewrite !lookup_insert.
    repeat case_decide; subst; [done | | | by apply Hu].
    + intros [= <-] He' Hp Hkey. exfalso. by eapply find_event_none.
    + intros He [= <-] Hp Hkey. exfalso. by eapply find_event_none.
  - intros k d Hkd. destruct (Hf k d Hkd) as [ev Hev]. exists ev. by apply t_get_add_old.
Qed.

Lemma plane_ok_add db mks :
  plane_ok settings db -> Forall (fresh_delivery db) mks ->
  plane_ok settings (db &{ db_deliveries := add_deliveries mks (db_deliveries db) }).
Proof.
  intros [Hd Hwf Hk Hu Hf] Hfresh. split; upd_simpl; try done.
  - by apply deliveries_ok_add.
  - intros k d [Hd'|(i & mk & Hi & -> & ->)]%add_deliveries_cases; [by eapply Hf |].
    rewrite list.Forall_lookup in Hfresh. destruct (fd_envelope _ _ (Hfresh i mk Hi)
      (seq (db_deliveries db) + Z.of_nat i)) as [ee Hee].
    revert Hee. unfold envelope_of. destruct (t_get _ _); [by eauto | done].
Qed.

Lemma new_delivery_fresh uuid org ev_id' e now db ev envelope :
  t_get ev_id' (db_events db) = Some ev -> ev_canonical_envelope ev = Some envelope ->
  fresh_delivery db (new_delivery uuid org ev_id' e now).
Proof.
  intros Hev Henv. split; intros id; [done | by split | done |].
  exists (ev, envelope). unfold envelope_of.
  change (d_event_id (new_delivery uuid org ev_id' e now id)) with ev_id'.
  rewrite Hev. cbn. by rewrite Henv.
Qed.

Lemma fan_out_lookup uuid org ev_id' now eps i mk :
  fan_out uuid org ev_id' now eps !! i = Some mk <->
  exists e, eps !! i = Some e /\ mk = new_delivery (uuid (S i)) org ev_id' e now.
Proof. unfold fan_out. rewrite list_lookup_imap, fmap_Some. naive_solver. Qed.

Lemma accepted_ok `{Rounding} uuid now trace project key event_type payload mode fp db db' e :
  plane_ok settings db -> find_event (p_id project) key db = None ->
  accepted settings uuid now trace project key event_type payload mode fp db db' e ->
  plane_ok settings db'.
Proof.
  intros Hok Hnone [(envelope & _ & -> & Hev) Hdl _ ->].
  set (db1 := db &{ db_events := t_add (event_row (uuid 0%nat) project key event_type mode
    payload fp envelope trace now) (db_events db) }).
  assert (plane_ok settings db1) as Hok1 by (by apply plane_ok_add_event).
  eapply (plane_ok_frame settings (db1 &{ db_deliveries := add_deliveries (fan_out uuid
    (p_organization_id project) (seq (db_events db)) now (subscribed (p_id project) event_type db))
    (db_deliveries db1) })); [| by upd_simpl ..].
  apply plane_ok_add; [done |]. apply list.Forall_lookup.
  intros i mk (ep & _ & ->)%fan_out_lookup.
  apply (new_delivery_fresh _ _ _ _ _ _ (event_row (uuid 0%nat) project key event_type mode
    payload fp envelope trace now (seq (db_events db))) envelope); [| done].
  unfold db1, t_get, t_add. upd_simpl. cbn. apply lookup_insert_eq.
Qed.
End PlanePreserved.

(** ** A small deployment *)

Module DataDemo.
Definition endpoint (id : Z) (filter : json) (active : bool) : WebhookEndpoint :=
  {| e_id := id; e_public_id := [id]; e_project_id := 1; e_url := py "https://e";
     e_description := None; e_event_types := filter; e_signature_scheme := Standard;
     e_is_active := active; e_secret_version := 1; e_created_at := 0; e_updated_at := 0 |}.
Definition endpoints : table WebhookEndpoint :=
  Table (list_to_map (map (fun e => (e_id e, e))
    [endpoint 1 JNull true; endpoint 2 (JList [JStr (py "invoice.*")]) true;
     endpoint 3 JNull false])) 4.
Definition db : Db := (TenancyDemo.db Active) &{ db_endpoints := endpoints }.
Definition uuid (n : nat) : str := [Z.of_nat n].
Definition payload : json := JObj [(py "total", JInt 5)].
Definition ingest (others : Db -> Db) (event_type : str) : M Event :=
  @ingest_event exact_rounding default_settings uuid 10 others (None, None) TenancyDemo.project
    (py "key") event_type payload (py "native").
Definition first_outcome : res exn Event * Db := run (ingest id (py "order.paid")) db.
Definition event : Event :=
  match first_outcome.1 with Ok e => e | Raise _ => event_row [] TenancyDemo.project [] [] Native
                                                      JNull [] [] (None, None) 0 0 end.
Definition accepted_db : Db := first_outcome.2.

Lemma first_accepted : run (ingest id (py "order.paid")) db = (Ok event, accepted_db).
Proof. unfold event, accepted_db, first_outcome. vm_compute. reflexivity. Qed.

Lemma plane : plane_ok default_settings db.
Proof.
  split; [split | | | |]; unfold db, TenancyDemo.db; upd_simpl; cbn [rows empty_db];
    unfold t_get, t_keyed, t_wf; cbn [rows db_deliveries db_attempts db_events db_quotas];
    intros *; rewrite ?lookup_empty; try done; try (by intros [? ?]).
Qed.
End DataDemo.

(** ** Claims *)

(** C1: ingestion.  Whatever competing transactions commit while the request
    waits for the admission locks, a request that fails leaves the database
    as they left it.  A request that succeeds was well formed, and either answers with the event
    already stored under its key, which must have the same type, envelope mode
    and fingerprint, and changes nothing; or the key was free and the event is
    accepted: its row is stored, the subscribed active endpoints get their
    deliveries, the tenant is charged and nothing else changes. *)
Theorem ingest_event_correct `{Rounding} settings uuid now others trace project key event_type
    payload envelope_mode db r db' :
  run (ingest_event settings uuid now others trace project key event_type payload envelope_mode) db
    = (r, db') ->
  match r with
  | Raise _ => after [others] db db'
  | Ok e => exists mode fp,
      well_formed settings key event_type payload envelope_mode mode fp /\
      (((db' = db \/ db' = others db) /\ find_event (p_id project) key db' = Some e /\
        same_content e event_type mode fp = true) \/
       (find_event (p_id project) key db = None /\
        find_event (p_id project) key (others db) = None /\
        accepted settings uuid now trace project key event_type payload mode fp (others db) db' e))
  end.
Proof.
  intros Hr. destruct r as [e|ex].
  - by apply ingest_ok in Hr.
  - eapply atomic_run; [| exact Hr]. apply atomic_ingest_event.
Qed.

Lemma ingest_event_correct_witness :
  exists mode fp,
    well_formed default_settings (py "key") (py "order.paid") DataDemo.payload (py "native") mode fp.
Proof.
  destruct (ingest_event_correct (H := exact_rounding) default_settings DataDemo.uuid 10 id
    (None, None) TenancyDemo.project (py "key") (py "order.paid") DataDemo.payload (py "native")
    DataDemo.db (Ok DataDemo.event) DataDemo.accepted_db DataDemo.first_accepted)
    as (mode & fp & Hw & _).
  exists mode, fp. exact Hw.
Defined.

(** A delivery as it is created for an endpoint. *)
Record delivers (e : Event) (ep : WebhookEndpoint) (now : datetime) (d : Delivery) : Prop := {
  dl_event : d_event_id d = ev_id e;
  dl_endpoint : d_endpoint_id d = e_id ep;
  dl_public_id : d_endpoint_public_id_snapshot d = e_public_id ep;
  dl_url : d_endpoint_url_snapshot d = e_url ep;
  dl_version : d_signing_secret_version_snapshot d = e_secret_version ep;
  dl_scheme : d_signature_scheme_snapshot d = e_signature_scheme ep;
  dl_status : d_status d = Pending;
  dl_attempts : d_attempt_count d = 0;
  dl_due : d_next_attempt_at d = now;
}.

(** An endpoint that takes the event: of the project, active, and subscribed. *)
Definition subscriber (project_id : Z) (event_type : str) (db : Db) (ep : WebhookEndpoint) : Prop :=
  (exists k, t_get k (db_endpoints db) = Some ep) /\ e_project_id ep = project_id /\
  e_is_active ep = true /\ event_type_matches event_type (e_event_types ep) = true.

Lemma subscribed_spec project_id event_type db ep :
  ep ∈ subscribed project_id event_type db <-> subscriber project_id event_type db ep.
Proof.
  unfold subscribed, subscriber.
  rewrite list_elem_of_filter, t_where_spec, andb_true_iff, Z.eqb_eq. split.
  - intros [Hm [[Hp Ha] Hk]]. apply Is_true_eq_true in Hm. done.
  - intros (Hk & Hp & Ha & Hm). split; [by apply Is_true_eq_left | done].
Qed.

Section FanOut.
Context `{Rounding} (settings : Settings) (uuid : nat -> str) (now : datetime)
  (trace : option str * option str) (project : Project) (key event_type : str) (payload : json)
  (mode : EnvelopeMode) (fp : str) (db db' : Db) (e : Event).
Hypothesis (Hok : plane_ok settings db) (Hkeyed : t_keyed e_id (db_endpoints db))
  (Hacc : accepted settings uuid now trace project key event_type payload mode fp db db' e).

Abbreviation subs := (subscribed (p_id project) event_type db).

Lemma accepted_event_id : ev_id e = seq (db_events db).
Proof. by destruct (ac_event _ _ _ _ _ _ _ _ _ _ _ _ _ Hacc) as (envelope & _ & -> & _). Qed.

Lemma accepted_delivery k d :
  t_get k (db_deliveries db') = Some d ->
  (t_get k (db_deliveries db) = Some d /\ d_event_id d <> ev_id e) \/
  exists i ep, subs !! i = Some ep /\ k = seq (db_deliveries db) + Z.of_nat i /\ delivers e ep now d.
Proof.
  rewrite (ac_deliveries _ _ _ _ _ _ _ _ _ _ _ _ _ Hacc).
  intros [Hd|(i & mk & Hi & -> & ->)]%add_deliveries_cases.
  - left. split; [done |]. destruct (pl_foreign _ _ Hok k d Hd) as [ev Hev].
    rewrite accepted_event_id. intros Heq. pose proof (pl_events_wf _ _ Hok (d_event_id d) ltac:(eauto)).
    lia.
  - right. apply fan_out_lookup in Hi as (ep & Hep & ->). exists i, ep. by repeat split.
Qed.

Lemma subs_NoDup : NoDup (map e_id subs).
Proof. apply NoDup_map_filter, (t_where_NoDup e_id); done. Qed.

Lemma accepted_subscriber ep :
  ep ∈ subs -> exists k d, t_get k (db_deliveries db') = Some d /\ delivers e ep now d.
Proof.
  intros [i Hi]%list_elem_of_lookup. do 2 eexists. split.
  - rewrite (ac_deliveries _ _ _ _ _ _ _ _ _ _ _ _ _ Hacc). apply add_deliveries_new.
    apply fan_out_lookup. eauto.
  - by split.
Qed.

Lemma accepted_unique k k' d d' :
  t_get k (db_deliveries db') = Some d -> t_get k' (db_deliveries db') = Some d' ->
  d_event_id d = ev_id e -> d_event_id d' = ev_id e -> d_endpoint_id d = d_endpoint_id d' -> k = k'.
Proof.
  intros [[_ ?]|(i & ep & Hi & -> & Hd)]%accepted_delivery
         [[_ ?]|(i' & ep' & Hi' & -> & Hd')]%accepted_delivery; try done.
  intros _ _ Heq. rewrite (dl_endpoint _ _ _ _ Hd), (dl_endpoint _ _ _ _ Hd') in Heq.
  enough (i = i') by lia. eapply NoDup_lookup; [apply subs_NoDup | |].
  - change (map e_id subs) with (e_id <$> subs). rewrite list_lookup_fmap, Hi. done.
  - change (map e_id subs) with (e_id <$> subs). rewrite list_lookup_fmap, Hi'. cbn. by rewrite Heq.
Qed.
End FanOut.

(** Fan-out.  When an event is accepted, the endpoints that get a delivery
    of it are exactly the active endpoints of the project whose filter matches
    its type; each gets exactly one, pending and due at once, with the
    endpoint's URL, secret version and signature scheme of that moment; the
    deliveries there were are untouched; and the invariant of the data plane
    is kept. *)
Theorem ingest_fans_out `{Rounding} settings uuid now others trace project key event_type
    payload envelope_mode db e db' :
  run (ingest_event settings uuid now others trace project key event_type payload envelope_mode) db
    = (Ok e, db') ->
  plane_ok settings (others db) -> t_keyed e_id (db_endpoints (others db)) ->
  find_event (p_id project) key db = None -> find_event (p_id project) key (others db) = None ->
  t_get (ev_id e) (db_events (others db)) = None /\ t_get (ev_id e) (db_events db') = Some e /\
  (forall ep, subscriber (p_id project) event_type (others db) ep ->
     exists k d, t_get k (db_deliveries db') = Some d /\ delivers e ep now d) /\
  (forall k d, t_get k (db_deliveries db') = Some d -> d_event_id d = ev_id e ->
     exists ep, subscriber (p_id project) event_type (others db) ep /\ delivers e ep now d) /\
  (forall k k' d d', t_get k (db_deliveries db') = Some d -> t_get k' (db_deliveries db') = Some d' ->
     d_event_id d = ev_id e -> d_event_id d' = ev_id e -> d_endpoint_id d = d_endpoint_id d' -> k = k') /\
  (forall k d, t_get k (db_deliveries (others db)) = Some d -> t_get k (db_deliveries db') = Some d) /\
  plane_ok settings db'.
Proof.
  intros (mode & fp & _ & [([->| ->] & ? & _)|(_ & _ & Hacc)])%ingest_ok Hok Hkeyed Hn1 Hn2;
    [congruence .. |].
  split; [| split; [| split; [| split; [| split; [| split]]]]].
  - rewrite (accepted_event_id _ _ _ _ _ _ _ _ _ _ _ _ _ Hacc).
    apply eq_None_not_Some. intros Hs. pose proof (pl_events_wf _ _ Hok _ Hs). lia.
  - destruct (ac_event _ _ _ _ _ _ _ _ _ _ _ _ _ Hacc) as (envelope & _ & -> & ->).
    unfold t_get, t_add. cbn. apply lookup_insert_eq.
  - intros ep Hep%subscribed_spec. by eapply accepted_subscriber.
  - intros k d Hd He. eapply accepted_delivery in Hd as [[_ ?]|(i & ep & Hi & _ & Hd)]; [done | | done | done].
    exists ep. split; [| done]. apply subscribed_spec. by eapply list_elem_of_lookup_2.
  - intros k k' d d'. by eapply accepted_unique.
  - intros k d Hd. rewrite (ac_deliveries _ _ _ _ _ _ _ _ _ _ _ _ _ Hacc).
    apply add_deliveries_old; [| done]. apply Hok.
  - by eapply accepted_ok.
Qed.

Lemma ingest_fans_out_witness :
  t_get (ev_id DataDemo.event) (db_events DataDemo.accepted_db) = Some DataDemo.event.
Proof.
  destruct (ingest_fans_out (H := exact_rounding) default_settings DataDemo.uuid 10 id
    (None, None) TenancyDemo.project (py "key") (py "order.paid") DataDemo.payload (py "native")
    DataDemo.db DataDemo.event DataDemo.accepted_db DataDemo.first_accepted DataDemo.plane)
    as (_ & Hev & _).
  - enough (map_Forall (fun k e => e_id e = k) (rows (db_endpoints DataDemo.db))) as Hall
      by exact Hall.
    refine (bool_decide_unpack _ _). vm_compute. exact I.
  - reflexivity.
  - reflexivity.
  - exact Hev.
Defined.

(** The request's identity: what a repeated key must agree on. *)
Definition stored_content (e : Event) (project_id : Z) (key event_type : str) (mode : EnvelopeMode)
    (fp : str) : Prop :=
  ev_project_id e = project_id /\ ev_idempotency_key e = key /\ ev_event_type e = event_type /\
  ev_envelope_mode e = mode /\ ev_payload_hash e = fp.

Lemma same_content_spec e event_type mode fp :
  same_content e event_type mode fp = true <->
  ev_event_type e = event_type /\ ev_envelope_mode e = mode /\ ev_payload_hash e = fp.
Proof.
  unfold same_content. rewrite !andb_true_iff, !str_eqb_eq, bool_decide_eq_true. tauto.
Qed.

Lemma find_event_unique settings db k e :
  plane_ok settings db -> t_get k (db_events db) = Some e ->
  find_event (ev_project_id e) (ev_idempotency_key e) db = Some e.
Proof.
  intros Hok He. destruct (find_event _ _ db) as [e'|] eqn:E.
  - apply find_event_some in E as (Hp & Hkey & k' & Hk').
    assert (k' = k) as -> by (by eapply pl_events_unique). congruence.
  - exfalso. by eapply find_event_none.
Qed.

(** C5: idempotency.  Once a request has been answered with an event, any
    later request that presents the same key while the event is stored (even
    when its payload has been purged) changes nothing, whatever races with it:
    with the same content it is answered with that event, with other content
    it is refused with a conflict. *)
Theorem ingest_is_idempotent `{Rounding} settings uuid now others trace project key event_type
    payload envelope_mode db e db' :
  run (ingest_event settings uuid now others trace project key event_type payload envelope_mode) db
    = (Ok e, db') ->
  exists mode fp, stored_content e (p_id project) key event_type mode fp /\
  forall db2 e2 uuid2 now2 others2 trace2,
    plane_ok settings db2 -> t_get (ev_id e) (db_events db2) = Some e2 ->
    stored_content e2 (p_id project) key event_type mode fp ->
    run (ingest_event settings uuid2 now2 others2 trace2 project key event_type payload
           envelope_mode) db2 = (Ok e2, db2) /\
    forall event_type' payload' envelope_mode' mode' fp',
      well_formed settings key event_type' payload' envelope_mode' mode' fp' ->
      (event_type', mode', fp') <> (event_type, mode, fp) ->
      run (ingest_event settings uuid2 now2 others2 trace2 project key event_type' payload'
             envelope_mode') db2 = (Raise conflict, db2).
Proof.
  intros (mode & fp & Hw & Hcase)%ingest_ok. exists mode, fp. split.
  { destruct Hcase as [(_ & Hf & Hs)|(_ & _ & Hacc)].
    - apply find_event_some in Hf as (Hp & Hkey & _). apply same_content_spec in Hs. by split.
    - by destruct (ac_event _ _ _ _ _ _ _ _ _ _ _ _ _ Hacc) as (envelope & _ & -> & _). }
  intros db2 e2 uuid2 now2 others2 trace2 Hok Hk (Hp & Hkey & Hc).
  assert (find_event (p_id project) key db2 = Some e2) as Hf.
  { rewrite <- Hp, <- Hkey. by eapply find_event_unique. }
  split.
  - erewrite ingest_repeat; [| exact Hw | exact Hf]. apply same_content_spec in Hc. by rewrite Hc.
  - intros event_type' payload' envelope_mode' mode' fp' Hw' Hne.
    erewrite ingest_repeat; [| exact Hw' | exact Hf].
    destruct (same_content e2 event_type' mode' fp') eqn:E; [| done].
    apply same_content_spec in E. destruct Hne. destruct Hc as (<- & <- & <-).
    by destruct E as (<- & <- & <-).
Qed.

Lemma ingest_is_idempotent_witness :
  exists mode fp, stored_content DataDemo.event 1 (py "key") (py "order.paid") mode fp.
Proof.
  destruct (ingest_is_idempotent (H := exact_rounding) default_settings DataDemo.uuid 10 id
    (None, None) TenancyDemo.project (py "key") (py "order.paid") DataDemo.payload (py "native")
    DataDemo.db DataDemo.event DataDemo.accepted_db DataDemo.first_accepted)
    as (mode & fp & Hs & _).
  exists mode, fp. exact Hs.
Defined.
