(* ===== verification/ReplaySafety.v ===== *)
(** * Correctness of replay, cancellation and purge *)

From Stdlib Require Import QArith.
From stdpp Require Import sorting.
From stdpp Require Import base tactics list gmap sets strings numbers option.
From S2P Require Import Prelude Crypto Json Models Session Settings Admission Scheduling.
From S2P Require Import Fairness WebhookSecurity Delivery Authorization AuditLog Events.
From S2P Require Import EventSafety.
Local Open Scope Z_scope.

(** ** Runs of the shared calls *)

Lemma authorized_ok user project permission s p s' :
  authorized user project permission s = (Ok p, s') <->
  authorize_project (working s) user project permission false = Ok p /\ s' = s.
Proof. unfold authorized. split; [by intros [= ? <-] | by intros [-> ->]]. Qed.

Lemma authorized_org_ok user org permission allow s o s' :
  authorized_org user org permission allow s = (Ok o, s') <->
  authorize_organization (working s) user org permission allow = Ok o /\ s' = s.
Proof. unfold authorized_org. split; [by intros [= ? <-] | by intros [-> ->]]. Qed.

Lemma wait_ok f s u s' :
  wait f s = (Ok u, s') <-> s' = Sess (f (committed s)) (f (working s)).
Proof. unfold wait. destruct u. split; [by intros [= <-] | by intros ->]. Qed.

Lemma project_organization_id_ok p s pid s' :
  project_organization_id p s = (Ok pid, s') ->
  s' = s /\ exists o, t_get (p_organization_id p) (db_organizations (working s)) = Some o /\
    pid = o_public_id o.
Proof. unfold project_organization_id. intros Hr. m_inv. eauto. Qed.

(** The audit row an operation leaves. *)
Definition audit_row (uuid : str) (user_id : Z) (organization_id : str) (action resource_type : string)
    (now : datetime) (resource_id project_id : option str) (sanitized : list (str * json))
    (id : Z) : AdministrativeAuditEvent :=
  {| a_id := id; a_public_id := uuid; a_organization_public_id := organization_id;
     a_project_public_id := project_id; a_actor_user_id := Some user_id; a_action := py action;
     a_resource_type := py resource_type; a_resource_public_id := resource_id;
     a_sanitized_metadata := sanitized; a_created_at := now |}.

Lemma audit_ok unicode_alnum uuid user org action rt now rid pid metadata s u s' :
  audit unicode_alnum uuid user org action rt now rid pid metadata s = (Ok u, s') ->
  exists sanitized, sanitize_audit_metadata unicode_alnum metadata = Ok sanitized /\
    s' = Sess (committed s) ((working s) &{ db_audits :=
      t_add (audit_row uuid user org action rt now rid pid sanitized) (db_audits (working s)) }).
Proof. unfold audit, append_audit. intros Hr. m_inv. eauto. Qed.

(** [m_call lem] decomposes the run of a call with its lemma. *)
Ltac m_auth :=
  repeat match goal with
  | H : authorized _ _ _ _ = (Ok _, _) |- _ => apply authorized_ok in H as [? ->]
  | H : authorized_org _ _ _ _ _ = (Ok _, _) |- _ => apply authorized_org_ok in H as [? ->]
  | H : wait _ _ = (Ok _, _) |- _ => apply wait_ok in H as ->
  | H : project_organization_id _ _ = (Ok _, _) |- _ =>
      apply project_organization_id_ok in H as (-> & ? & ? & ->)
  | H : audit _ _ _ _ _ _ _ _ _ _ _ = (Ok _, _) |- _ => apply audit_ok in H as (? & _ & ->)
  end; cbn [committed working] in *.

Lemma find_delivery_some project delivery_id extra db d :
  find_delivery project delivery_id extra db = Some d ->
  in_project (p_id project) db d = true /\ d_public_id d = delivery_id /\ extra d = true /\
  exists k, t_get k (db_deliveries db) = Some d.
Proof.
  intros [Hp Hk]%t_find_some. rewrite !andb_true_iff in Hp. destruct Hp as [[H1 H2%str_eqb_eq] H3].
  eauto.
Qed.

(** ** Replay *)

(** A delivery whose event and signing secret are still there. *)
Definition replayable (d : Delivery) (now : datetime) (db : Db) : Prop :=
  exists ev v, t_get (d_event_id d) (db_events db) = Some ev /\ payload_available ev = true /\
    signing_version d db = Some v /\ (forall t, v_retire_at v = Some t -> now < t).

Lemma ensure_replayable_ok d now s u s' :
  ensure_replayable d now s = (Ok u, s') <-> replayable d now (working s) /\ s' = s.
Proof.
  unfold ensure_replayable, replayable. destruct u. split.
  - intros Hr. m_next Hr.
    match goal with H : negb _ = false |- _ => apply negb_false_iff in H end.
    destruct (t_get (d_event_id d) _) as [ev|] eqn:E; [| done].
    apply when_raise_ok in Hr as (Ht & -> & _). split; [| done].
    do 2 eexists. split; [done |]. split; [done |]. split; [done |].
    intros t Hv. rewrite Hv in Ht. lia.
  - intros [(ev & v & Hev & Hp & Hv & Ht) ->].
    do 1 m_run. rewrite Hev, Hp. do 2 m_run. rewrite Hv. m_run.
    destruct (v_retire_at v) as [t|]; [| done]. specialize (Ht t eq_refl).
    destruct (Z.leb_spec t now); [lia | done].
Qed.

(** A fresh delivery of the same event to the same endpoint, with the snapshot
    of the original. *)
Record replays (original : Delivery) (now : datetime) (d : Delivery) : Prop := {
  rp_event : d_event_id d = d_event_id original;
  rp_endpoint : d_endpoint_id d = d_endpoint_id original;
  rp_organization : d_organization_id d = d_organization_id original;
  rp_url : d_endpoint_url_snapshot d = d_endpoint_url_snapshot original;
  rp_endpoint_public_id : d_endpoint_public_id_snapshot d = d_endpoint_public_id_snapshot original;
  rp_active : d_endpoint_active_snapshot d = d_endpoint_active_snapshot original;
  rp_version : d_signing_secret_version_snapshot d = d_signing_secret_version_snapshot original;
  rp_scheme : d_signature_scheme_snapshot d = d_signature_scheme_snapshot original;
  rp_source : d_replay_of_delivery_id d = Some (d_id original);
  rp_status : d_status d = Pending;
  rp_attempts : d_attempt_count d = 0;
  rp_due : d_next_attempt_at d = now;
}.

Lemma replay_copy_replays uuid original now id : replays original now (replay_copy uuid original now id).
Proof. by split. Qed.

Section Replay.
Context `{Rounding} (settings : Settings) (unicode_alnum : Z -> bool).

Lemma replay_source_ok project delivery_id dead_only s d s' :
  replay_source project delivery_id dead_only s = (Ok d, s') ->
  s' = s /\ in_project (p_id project) (working s) d = true /\ d_public_id d = delivery_id /\
  (dead_only = true -> d_status d = Dead) /\
  exists k, t_get k (db_deliveries (working s)) = Some d.
Proof.
  unfold replay_source. intros Hr. m_inv.
  match goal with H : find_delivery _ _ _ _ = _ |- _ =>
    apply find_delivery_some in H as (? & ? & Hx & ?) end.
  do 4 (split; [done || intros -> |]); [| done]. by apply bool_decide_eq_true in Hx.
Qed.

Lemma admit_replay_ok org now s t s' :
  admit_replay settings org now s = (Ok t, s') ->
  t = now /\ exists G T, s' = Sess (committed s) ((working s) &{ db_global_state := G }
                                                            &{ db_tenants := T }).
Proof.
  unfold admit_replay, admit_replays. intros Hr.
  destruct (lock_global_tenant_run settings org now s) as (T & G & tn & Hl & _ & _).
  erewrite M_bind_run in Hr; [| exact Hl].
  apply M_bind_ok in Hr as (u & s1 & Ha & Hr). apply admit_replays_locked_ok in Ha as [_ ->].
  apply mret_ok in Hr as [-> ->]. split; [done |]. do 2 eexists. cbn. reflexivity.
Qed.

Lemma audit_replay_ok uuid user p now op n m s u s' :
  audit_replay unicode_alnum uuid user p now op n m s = (Ok u, s') ->
  exists row, s' = Sess (committed s)
      ((working s) &{ db_audits := t_add row (db_audits (working s)) }) /\
    forall n, a_action (row n) = py "delivery.replayed" /\ a_actor_user_id (row n) = Some user.
Proof.
  unfold audit_replay. intros Hr. m_inv. m_auth. eexists. split; [reflexivity | by split].
Qed.

Lemma replay_delivery_ok uuid checked_at now others others' user project_id delivery_id db d db' :
  run (replay_delivery settings unicode_alnum uuid checked_at now others others' user project_id
         delivery_id) db = (Ok d, db') ->
  let db1 := others db in let db2 := others' db1 in
  exists project original k,
    authorize_project db user project_id REPLAY false = Ok project /\
    t_get k (db_deliveries db1) = Some original /\ d_public_id original = delivery_id /\
    in_project (p_id project) db1 original = true /\ replayable original checked_at db1 /\
    d = replay_copy (uuid 0%nat) original now (seq (db_deliveries db2)) /\
    db_deliveries db' = t_add (replay_copy (uuid 0%nat) original now) (db_deliveries db2) /\
    db_events db' = db_events db2 /\ db_attempts db' = db_attempts db2 /\
    db_quotas db' = db_quotas db2 /\
    exists op row, db_replays db' = t_add op (db_replays db2) /\
      (forall n, ro_source_delivery_ids (op n) = [delivery_id] /\
                 ro_created_delivery_ids (op n) = [d_public_id d]) /\
      db_audits db' = t_add row (db_audits db2) /\
      forall n, a_action (row n) = py "delivery.replayed" /\ a_actor_user_id (row n) = Some user.
Proof.
  intros (s & Hr & ->)%run_ok. unfold replay_delivery, add_replay in Hr. m_inv. m_auth.
  match goal with H : replay_source _ _ _ _ = _ |- _ =>
    apply replay_source_ok in H as (-> & Hin & Hpid & _ & k & Hk) end.
  match goal with H : ensure_replayable _ _ _ = _ |- _ =>
    apply ensure_replayable_ok in H as [Hrep ->] end.
  m_auth.
  match goal with H : admit_replay _ _ _ _ = _ |- _ =>
    apply admit_replay_ok in H as (-> & G & T & ->) end.
  match goal with H : audit_replay _ _ _ _ _ _ _ _ _ = _ |- _ =>
    apply audit_replay_ok in H as (row & -> & Hrow) end.
  cbn [committed working]. upd_simpl. do 3 eexists.
  do 10 (split; [try eassumption; reflexivity |]). do 2 eexists.
  split; [reflexivity |]. split; [| by split]. intros n. cbn. by rewrite Hpid.
Qed.

Lemma replay_fresh uuid original now db ev envelope :
  t_get (d_event_id original) (db_events db) = Some ev -> ev_canonical_envelope ev = Some envelope ->
  fresh_delivery db (replay_copy uuid original now).
Proof.
  intros Hev Henv. split; intros id; [done | by split | done |].
  exists (ev, envelope). unfold envelope_of.
  change (d_event_id (replay_copy uuid original now id)) with (d_event_id original).
  rewrite Hev. cbn. by rewrite Henv.
Qed.
End Replay.

(** ** The batch of a bulk replay *)

Section Batch.
Implicit Types (sources : list Delivery) (ids : list str).

Lemma by_public_id_lookup sources pid d :
  by_public_id sources !! pid = Some d -> d ∈ sources /\ d_public_id d = pid.
Proof.
  unfold by_public_id. assert (forall m : gmap str Delivery,
    foldl (fun m d => <[d_public_id d := d]> m) m sources !! pid = Some d ->
    (d ∈ sources /\ d_public_id d = pid) \/ m !! pid = Some d) as Hgen.
  { induction sources as [| d0 sources IH]; intros m Hm; [by right |]. cbn in Hm.
    apply IH in Hm as [[Hin Hp]|Hm]; [left; split; [by right | done] |].
    apply lookup_insert_Some in Hm as [[<- <-]|[_ Hm]]; [left; split; [left | done] | by right]. }
  intros [Hd|Hd]%Hgen; [done |]. by rewrite lookup_empty in Hd.
Qed.

Lemma size_list_to_set_le (l : list str) : (size (list_to_set l : gset str) <= length l)%nat.
Proof.
  induction l as [| a l IH]; [done |]. cbn [list_to_set length].
  destruct (decide (a ∈ (list_to_set l : gset str))) as [Ha|Ha].
  - replace ({[a]} ∪ list_to_set l : gset str) with (list_to_set l : gset str) by set_solver. lia.
  - rewrite size_union by set_solver. rewrite size_singleton. lia.
Qed.

Lemma size_full_NoDup (l : list str) : size (list_to_set l : gset str) = length l -> NoDup l.
Proof.
  induction l as [| a l IH]; [constructor |]. cbn [list_to_set length]. intros Hs.
  pose proof (size_list_to_set_le l). destruct (decide (a ∈ (list_to_set l : gset str))) as [Ha|Ha].
  - replace ({[a]} ∪ list_to_set l : gset str) with (list_to_set l : gset str) in Hs by set_solver. lia.
  - rewrite size_union, size_singleton in Hs by set_solver.
    apply list.NoDup_cons. split; [set_solver | apply IH; lia].
Qed.

(** As many sources as ids: the ids are distinct and each names a source. *)
Lemma batch_complete sources ids :
  (forall d, d ∈ sources -> d_public_id d ∈ ids) ->
  Z.of_nat (size (by_public_id sources)) = len ids ->
  NoDup ids /\ forall pid, pid ∈ ids -> is_Some (by_public_id sources !! pid).
Proof.
  intros Hin Hsize. unfold len in Hsize.
  assert (dom (by_public_id sources) ⊆ (list_to_set ids : gset str)) as Hsub.
  { intros pid [d Hd]%elem_of_dom. apply by_public_id_lookup in Hd as [Hd <-].
    apply elem_of_list_to_set. by apply Hin. }
  pose proof (size_list_to_set_le ids). rewrite <- size_dom in Hsize.
  pose proof (subseteq_size _ _ Hsub).
  assert (size (list_to_set ids : gset str) = length ids) as Hfull by lia.
  split; [by apply size_full_NoDup |]. intros pid Hpid. apply elem_of_dom.
  rewrite (set_subseteq_size_eq _ _ Hsub) by lia. by apply elem_of_list_to_set.
Qed.

Lemma replay_copies_ok (uuid : nat -> str) (m : gmap str Delivery) now ids i0 :
  (forall pid, pid ∈ ids -> is_Some (m !! pid)) ->
  exists ds, Forall2 (fun pid d => m !! pid = Some d) ids ds /\
    foldr (fun i_pid rest =>
           match m !! i_pid.2, rest with
           | Some d, Ok l => Ok (replay_copy (uuid i_pid.1) d now :: l)
           | None, _ => Raise KeyError
           | _, Raise e => Raise e
           end) (Ok []) (imap (fun i => pair (i0 + i)%nat) ids)
    = Ok (E := exn) (imap (fun i d => replay_copy (uuid (i0 + i)%nat) d now) ds).
Proof.
  revert i0; induction ids as [| pid ids IH]; intros i0 Hm; [exists []; by split |].
  destruct (Hm pid ltac:(left)) as [d Hd].
  destruct (IH (S i0)) as (ds & Hall & Hrun); [intros; apply Hm; by right |].
  exists (d :: ds). split; [by constructor |]. rewrite !imap_cons. cbn [foldr fst snd].
  rewrite Hd. unfold compose.
  assert (forall (A B : Type) (f : nat -> A -> B) (l : list A),
    imap (fun i a => f (i0 + S i)%nat a) l = imap (fun i a => f (S i0 + i)%nat a) l) as Hshift.
  { intros. apply imap_ext. intros. f_equal. lia. }
  rewrite (Hshift _ _ (fun n p => (n, p))), (Hshift _ _ (fun n d => replay_copy (uuid n) d now)).
  setoid_rewrite Hrun. done.
Qed.
End Batch.

Section BulkReplay.
Context `{Rounding} (settings : Settings) (unicode_alnum : Z -> bool).

Lemma repeated_replay_ok r ids s r' s' :
  repeated_replay r ids s = (Ok r', s') -> r' = r /\ s' = s /\ ro_source_delivery_ids r = ids.
Proof.
  unfold repeated_replay. case_bool_decide; [by intros [= <- <-] | done].
Qed.

Lemma mfor_replayable ds now s u s' :
  mfor (fun d => ensure_replayable d now) ds s = (Ok u, s') ->
  s' = s /\ Forall (fun d => replayable d now (working s)) ds.
Proof.
  induction ds as [| d ds IH]; cbn [mfor]; intros Hr; [by apply mret_ok in Hr as [_ ->] |].
  apply M_bind_ok in Hr as (u1 & s1 & H1 & Hr). apply ensure_replayable_ok in H1 as [Hd ->].
  apply IH in Hr as [-> Hds]. split; [done | by constructor].
Qed.

Lemma replay_sources_spec project ids db d :
  d ∈ replay_sources project ids db <->
  in_project (p_id project) db d = true /\ d_public_id d ∈ ids /\ d_status d = Dead /\
  exists k, t_get k (db_deliveries db) = Some d.
Proof.
  unfold replay_sources. rewrite t_where_spec, !andb_true_iff, bool_decide_eq_true, existsb_exists.
  split.
  - intros [[[Hp (pid & Hin & ->%str_eqb_eq)] Hd] Hk]. apply list_elem_of_In in Hin. done.
  - intros (Hp & Hin & Hd & Hk). split; [| done]. split; [| done]. split; [done |].
    eexists. split; [by apply list_elem_of_In | apply str_eqb_refl].
Qed.

(** A new batch: the sources in the order of the request, each dead, of the
    project and replayable, and one copy of each. *)
Record batch (uuid : nat -> str) (now : datetime) (project : Project) (ids : list str)
    (db db' : Db) (op : ReplayOperation) (sources : list Delivery) : Prop := {
  ba_distinct : NoDup ids;
  ba_ids : map d_public_id sources = ids;
  ba_dead : Forall (fun d => d_status d = Dead /\ in_project (p_id project) db d = true /\
    (exists k, t_get k (db_deliveries db) = Some d) /\ replayable d now db) sources;
  ba_copies : db_deliveries db' = add_deliveries
    (imap (fun i d => replay_copy (uuid i) d now) sources) (db_deliveries db);
  ba_tables : db_events db' = db_events db /\ db_attempts db' = db_attempts db /\
    db_quotas db' = db_quotas db;
  ba_operation : exists mk, db_replays db' = t_add mk (db_replays db) /\
    op = mk (seq (db_replays db));
  ba_created : ro_requested_count op = len ids /\ ro_created_count op = len ids /\
    ro_source_delivery_ids op = ids /\
    ro_created_delivery_ids op = map uuid (List.seq 0 (length ids));
}.

Lemma batch_of_sources uuid now project ids db db' op mk copies :
  Z.of_nat (size (by_public_id (replay_sources project ids db))) = len ids ->
  replay_copies uuid (by_public_id (replay_sources project ids db)) now ids = Ok copies ->
  Forall (fun d => replayable d now db) (replay_sources project ids db) ->
  db_deliveries db' = add_deliveries copies (db_deliveries db) ->
  db_events db' = db_events db /\ db_attempts db' = db_attempts db /\
    db_quotas db' = db_quotas db ->
  db_replays db' = t_add mk (db_replays db) -> op = mk (seq (db_replays db)) ->
  ro_requested_count op = len ids -> ro_created_count op = len copies ->
  ro_source_delivery_ids op = ids ->
  ro_created_delivery_ids op = map uuid (List.seq 0 (length ids)) ->
  exists sources, batch uuid now project ids db db' op sources.
Proof.
  intros Hsize Hcopies Hrep Hd Ht Hr Hop Hn Hc Hs Hi.
  destruct (batch_complete (replay_sources project ids db) ids) as [Hnd Hall]; [| done |].
  { by intros d (_ & ? & _)%replay_sources_spec. }
  destruct (replay_copies_ok uuid _ now ids 0 Hall) as (ds & Hds & Hrun).
  assert (replay_copies uuid (by_public_id (replay_sources project ids db)) now ids
    = Ok (imap (fun i d => replay_copy (uuid i) d now) ds)) as Hrun' by exact Hrun.
  rewrite Hrun' in Hcopies. injection Hcopies as <-.
  pose proof (list.Forall2_length _ _ _ Hds) as Hlen. exists ds.
  assert (forall i d, ds !! i = Some d -> exists pid, ids !! i = Some pid /\
    d ∈ replay_sources project ids db /\ d_public_id d = pid) as Hsrc.
  { intros i d Hi'. destruct (list.Forall2_lookup_r _ _ _ _ _ Hds Hi') as (pid & Hpid & Hm).
    exists pid. apply by_public_id_lookup in Hm as [? ?]. done. }
  split; try done.
  - apply list_eq. intros i. change (map d_public_id ds) with (d_public_id <$> ds).
    rewrite list_lookup_fmap. destruct (ds !! i) as [d|] eqn:E; cbn.
    + by destruct (Hsrc i d E) as (pid & -> & _ & <-).
    + symmetry. apply lookup_ge_None. apply lookup_ge_None in E. lia.
  - apply list.Forall_lookup. intros i d E. destruct (Hsrc i d E) as (pid & _ & Hin & _).
    pose proof Hin as (Hp & _ & Hdead & Hk)%replay_sources_spec.
    rewrite list.Forall_forall in Hrep. auto.
  - eauto.
  - repeat split; try done. rewrite Hc. unfold len. rewrite length_imap. by rewrite Hlen.
Qed.

Lemma replay_deliveries_ok uuid now others user project_id ids key db op db' :
  run (replay_deliveries settings unicode_alnum uuid now others user project_id ids key) db
    = (Ok op, db') ->
  exists project, authorize_project db user project_id REPLAY false = Ok project /\
    (1 <= len ids /\ len ids <= bulk_replay_max_deliveries settings) /\
    (((db' = db \/ db' = others db) /\ find_replay project key db' = Some op /\
      ro_source_delivery_ids op = ids) \/
     exists sources, batch uuid now project ids (others db) db' op sources).
Proof.
  intros (s & Hr & ->)%run_ok. unfold replay_deliveries in Hr. m_next Hr. m_auth.
  match goal with H : authorize_project _ _ _ _ _ = Ok ?p |- _ =>
    exists p; rename p into project; split; [exact H |] end.
  repeat match goal with H : negb (_ && _) = false |- _ =>
    apply negb_false_iff, andb_true_iff in H as [?%Z.leb_le ?%Z.leb_le] end.
  split; [done |].
  destruct (find_replay project key db) as [r|] eqn:E0.
  { apply repeated_replay_ok in Hr as (-> & -> & Hs). cbn. auto. }
  erewrite M_bind_run in Hr; [| reflexivity]. cbn [committed working] in Hr.
  destruct (lock_global_tenant_run settings (p_organization_id project) now
    (Sess (others db) (others db))) as (T & G & t & Hlock & HT & Ht).
  erewrite M_bind_run in Hr; [| exact Hlock]. cbn [committed working] in Hr.
  erewrite M_bind_run in Hr; [| reflexivity]. cbn [committed working] in Hr.
  change (find_replay project key ((others db) &{ db_global_state := G } &{ db_tenants := T }))
    with (find_replay project key (others db)) in Hr.
  destruct (find_replay project key (others db)) as [r|] eqn:E1.
  { apply repeated_replay_ok in Hr as (-> & -> & Hs). cbn. auto. }
  right. unfold add_replay in Hr. m_inv.
  match goal with H : negb (_ =? _) = false |- _ =>
    apply negb_false_iff, Z.eqb_eq in H; rename H into Hsize end.
  match goal with H : mfor _ _ _ = _ |- _ => apply mfor_replayable in H as [-> Hrep] end.
  match goal with H : admit_replays_locked _ _ _ _ _ = _ |- _ =>
    apply admit_replays_locked_ok in H as [_ ->] end.
  match goal with H : audit_replay _ _ _ _ _ _ _ _ _ = _ |- _ =>
    apply audit_replay_ok in H as (row & -> & _) end.
  match goal with H : replay_copies _ _ _ _ = _ |- _ => rename H into Hcopies end.
  cbn [committed working] in *.
  change (replay_sources project ids _) with (replay_sources project ids (others db)) in *.
  eapply batch_of_sources; try eassumption; upd_simpl; try done.
Qed.
End BulkReplay.

(** ** Cancellation *)

Section Cancel.
Context (unicode_alnum : Z -> bool).

Lemma canceled_row_evolves d now reason :
  queued (d_status d) = true -> evolves d (canceled_row d now reason).
Proof.
  unfold canceled_row. intros Hq.
  destruct (d_status d) eqn:E; try done;
    (split; upd_simpl; [done | rewrite E; constructor | dok E | lia | done]).
Qed.

(** What a cancellation does to the endpoint: a lost probe reopens the
    circuit. *)
Definition after_cancel (d : Delivery) (now : datetime) (quotas : gmap Z EndpointQuotaState) :
    gmap Z EndpointQuotaState :=
  match quotas !! d_endpoint_id d with
  | Some q =>
      if bool_decide (q_half_open_probe_delivery_id q = Some (d_id d))
      then <[d_endpoint_id d := probe_lost q now]> quotas
      else quotas
  | None => quotas
  end.

Lemma cancel_delivery_ok uuid now others user project_id delivery_id reason db d' db' :
  run (cancel_delivery unicode_alnum uuid now others user project_id delivery_id reason) db
    = (Ok d', db') ->
  exists project d k,
    authorize_project db user project_id DELIVERY_CANCEL false = Ok project /\
    t_get k (db_deliveries (others db)) = Some d /\ d_public_id d = delivery_id /\
    in_project (p_id project) (others db) d = true /\
    ((d_status d = Canceled /\ d' = d /\ db' = others db) \/
     (queued (d_status d) = true /\ d' = canceled_row d now reason /\
      exists audits,
        db' = (set_delivery d' (others db))
                &{ db_quotas := after_cancel d now (db_quotas (others db)) }
                &{ db_audits := audits })).
Proof.
  intros (s & Hr & ->)%run_ok. unfold cancel_delivery in Hr. m_next Hr. m_auth.
  match goal with H : find_delivery _ _ _ _ = Some ?x |- _ =>
    apply find_delivery_some in H as (? & ? & _ & k & ?); rename x into d end.
  do 3 eexists. do 4 (split; [eassumption |]).
  case_bool_decide; [apply mret_ok in Hr as [-> ->]; by left |].
  right. unfold put_delivery, put_quota in Hr. m_inv.
  match goal with H : negb _ = false |- _ => apply negb_false_iff in H end.
  split; [done |].
  match goal with H : match db_quotas ?x !! _ with _ => _ end _ = (Ok _, ?s1) |- _ =>
    rename H into Hst; assert (s1 = Sess (others db) ((set_delivery (canceled_row d now reason) (others db))
              &{ db_quotas := after_cancel d now (db_quotas (others db)) })) as -> end.
  { clear - Hst. revert Hst. upd_simpl. unfold after_cancel.
    destruct (db_quotas (others db) !! d_endpoint_id d) as [q|]; unfold set_delivery.
    - case_bool_decide; cbn [when].
      + by intros ->%modify_ok.
      + by intros [_ ->]%mret_ok.
    - by intros [_ ->]%mret_ok. }
  m_auth. split; [done |]. eexists. reflexivity.
Qed.
End Cancel.

(** ** Keeping the invariant *)

Section Kept.
Context (settings : Settings).

(** Moving one delivery along its life cycle, with any change to the
    endpoint rows that keeps them valid. *)
Lemma plane_ok_set db d d' Q audits :
  plane_ok settings db -> t_get (d_id d) (db_deliveries db) = Some d -> evolves d d' ->
  d_status d' <> Processing ->
  map_Forall (fun _ q => quota_ok settings q) Q -> dom (db_quotas db) ⊆ dom Q ->
  plane_ok settings ((set_delivery d' db) &{ db_quotas := Q } &{ db_audits := audits }).
Proof.
  intros Hok Hd Hev Hnp HQ Hdom. pose proof (ss_id _ _ (ev_snapshot _ _ Hev)) as Hid.
  assert (forall k d0, t_get k (t_set (d_id d') d' (db_deliveries db)) = Some d0 ->
    d0 = d' \/ t_get k (db_deliveries db) = Some d0) as Hcases.
  { intros k d0. rewrite t_get_set. case_decide; [intros [= <-]; by left | by right]. }
  destruct Hok as [Hdel H1 H2 H3 Hf].
  split; unfold set_delivery; upd_simpl; try done.
  - eapply deliveries_ok_evolve; [exact Hdel | done | done | done | | | done |]; upd_simpl.
    + intros k d0 Hd0. rewrite t_get_set, Hid. case_decide; subst; [| by eauto].
      exists d'. split; [done |]. right. congruence.
    + intros k. rewrite t_get_set, Hid. case_decide; subst; [by eauto | done].
    + intros k d0 [->|Hd0]%Hcases Hp; [done |].
      apply elem_of_dom, Hdom, elem_of_dom. by eapply dbo_leased_quota.
  - intros k d0 [->|Hd0]%Hcases; [| by eapply Hf].
    rewrite (ss_event _ _ (ev_snapshot _ _ Hev)). by eapply Hf.
Qed.

(** The copies of a batch are deliveries like any other. *)
Lemma batch_plane uuid now project ids db db' op sources :
  batch uuid now project ids db db' op sources -> plane_ok settings db -> plane_ok settings db'.
Proof.
  intros [_ _ Hdead Hcop (Hev & Hat & Hq) _ _] Hok.
  eapply (plane_ok_frame settings (db &{ db_deliveries :=
    add_deliveries (imap (fun i d => replay_copy (uuid i) d now) sources) (db_deliveries db) }));
    [| by upd_simpl ..].
  apply plane_ok_add; [done |]. apply list.Forall_lookup. intros i mk Hi.
  rewrite list_lookup_imap in Hi. apply fmap_Some in Hi as (d & Hd & ->).
  rewrite list.Forall_lookup in Hdead.
  destruct (Hdead i d Hd) as (_ & _ & _ & (ev & v & Hev' & Hp & _)).
  unfold payload_available in Hp. rewrite !andb_true_iff in Hp.
  destruct (ev_canonical_envelope ev) as [envelope|] eqn:E; [| by destruct Hp as [[_ ?] _]].
  by eapply replay_fresh.
Qed.

Lemma probe_lost_ok q now : quota_ok settings q -> quota_ok settings (probe_lost q now).
Proof. intros []. by split. Qed.

Lemma probe_forgotten_ok q :
  quota_ok settings q -> quota_ok settings (q &{ q_half_open_probe_delivery_id := None }).
Proof. intros [? ? ? Hc]. split; upd_simpl; try done. destruct (q_circuit_state q); by intuition. Qed.

Lemma after_cancel_ok d now Q :
  map_Forall (fun _ q => quota_ok settings q) Q ->
  map_Forall (fun _ q => quota_ok settings q) (after_cancel d now Q) /\
  dom Q ⊆ dom (after_cancel d now Q).
Proof.
  intros HQ. unfold after_cancel. destruct (Q !! d_endpoint_id d) as [q|] eqn:E; [| done].
  case_bool_decide; [| done]. split.
  - apply map_Forall_insert_2; [| done]. by apply probe_lost_ok, (HQ _ _ E).
  - rewrite dom_insert. set_solver.
Qed.

(** Deleting deliveries, with what the foreign keys take along. *)
Lemma delete_deliveries_get ids db k d :
  t_get k (db_deliveries (delete_deliveries ids db)) = Some d ->
  k ∉ ids /\ exists d0, t_get k (db_deliveries db) = Some d0 /\
    (d = d0 \/ d = d0 &{ d_replay_of_delivery_id := None }).
Proof.
  unfold delete_deliveries. upd_simpl. rewrite t_get_map, t_get_delete.
  case_decide as Hk; [done |]. intros (d0 & Hd0 & ->)%fmap_Some.
  split; [done |]. exists d0. split; [done |]. case_match; auto.
Qed.

Lemma delete_deliveries_kept ids db k d :
  t_get k (db_deliveries db) = Some d -> k ∉ ids ->
  exists d', t_get k (db_deliveries (delete_deliveries ids db)) = Some d' /\
    (d' = d \/ d' = d &{ d_replay_of_delivery_id := None }).
Proof.
  intros Hd Hk. unfold delete_deliveries. upd_simpl. rewrite t_get_map, t_get_delete.
  rewrite decide_False, Hd by done. eexists. split; [reflexivity |]. cbn. case_match; auto.
Qed.

Lemma delete_deliveries_ok ids db :
  plane_ok settings db -> plane_ok settings (delete_deliveries ids db).
Proof.
  intros [[K1 K2 K3 K4 K5 K6 K7 K8 K9] H1 H2 H3 Hf]. split; [split | | | |]; try done.
  - intros k d (_ & d0 & Hd0 & [->| ->])%delete_deliveries_get; exact (K1 _ _ Hd0).
  - apply t_wf_map, t_wf_delete, K2.
  - intros k d (_ & d0 & Hd0 & [->| ->])%delete_deliveries_get; [by eapply K3 |].
    destruct (K3 _ _ Hd0). by split.
  - intros k d (_ & d0 & Hd0 & [->| ->])%delete_deliveries_get; exact (K4 k d0 Hd0).
  - intros k q. unfold delete_deliveries. upd_simpl. rewrite lookup_fmap.
    intros (q0 & Hq0 & ->)%fmap_Some. pose proof (K5 _ _ Hq0) as Hq.
    match goal with |- quota_ok _ (if ?b then _ else _) => destruct b end; [by apply probe_forgotten_ok | exact Hq].
  - intros k d (_ & d0 & Hd0 & [->| ->])%delete_deliveries_get; intros Hp;
      unfold delete_deliveries; upd_simpl; rewrite lookup_fmap, fmap_is_Some; exact (K6 _ _ Hd0 Hp).
  - intros k a. unfold delete_deliveries at 1. upd_simpl. rewrite t_get_remove.
    intros [Ha Hn%bool_decide_eq_false]. destruct (K7 k a Ha) as (d & Hd & Hle & Hlt).
    destruct (delete_deliveries_kept ids db _ d Hd Hn) as (d' & Hd' & [->| ->]); eauto.
  - apply t_wf_remove, K8.
  - intros k k' a a'. unfold delete_deliveries. upd_simpl. rewrite !t_get_remove.
    intros [Ha _] [Ha' _]. by apply K9.
  - intros k d (_ & d0 & Hd0 & [->| ->])%delete_deliveries_get; exact (Hf k d0 Hd0).
Qed.
End Kept.

Section Purge.
Context (settings : Settings) (unicode_alnum : Z -> bool).

(** The rows a purge picks: the purgeable ones with the smallest keys, as
    many as the batch allows. *)
Record purge_batch (project : Project) (cutoff limit : Z) (db : Db) (ids : list Z) : Prop := {
  pb_rows : forall id, id ∈ ids -> exists d k, t_get k (db_deliveries db) = Some d /\ d_id d = id /\
    in_project (p_id project) db d = true /\ terminal (d_status d) = true /\
    d_updated_at d <= cutoff;
  pb_size : len ids <= Z.max 0 limit;
  pb_all : len ids < limit -> forall k d, t_get k (db_deliveries db) = Some d ->
    purgeable project cutoff db d = true -> d_id d ∈ ids;
}.

Lemma purge_batch_ok project cutoff limit db :
  purge_batch project cutoff limit db
    (map d_id (page 0 limit (order_by (fun d => [d_id d])
       (t_where (purgeable project cutoff db) (db_deliveries db))))).
Proof.
  unfold page. cbn [Z.to_nat drop].
  set (l := order_by _ _).
  assert (forall d, d ∈ l <-> purgeable project cutoff db d = true /\
    exists k, t_get k (db_deliveries db) = Some d) as Hl.
  { intros d. unfold l. by rewrite order_by_elem, t_where_spec. }
  split.
  - intros id (d & -> & Hd)%list_elem_of_fmap.
    apply (subseteq_take (Z.to_nat limit) l) in Hd. apply Hl in Hd as [Hp [k Hk]].
    unfold purgeable in Hp. rewrite !andb_true_iff in Hp. destruct Hp as [[? ?] ?%Z.leb_le].
    by exists d, k.
  - unfold len. rewrite length_map, length_take. lia.
  - unfold len. rewrite length_map, length_take. intros Hlt k d Hk Hp.
    rewrite firstn_all2 by lia. apply list_elem_of_fmap_2. apply Hl. eauto.
Qed.

Lemma purge_ok uuid now user project_id dry_run max_records db rp db' :
  run (purge_terminal_deliveries settings unicode_alnum uuid now user project_id dry_run
         max_records) db = (Ok rp, db') ->
  exists project ids,
    authorize_project db user project_id DELIVERY_PURGE false = Ok project /\
    purge_batch project (now - days (delivery_retention_days settings))
      (Z.min max_records (delivery_purge_batch_size settings)) db ids /\
    rp = Report (now - days (delivery_retention_days settings)) (len ids)
           (if dry_run then 0 else len ids) dry_run /\
    if dry_run then db' = db
    else exists audits, db' = (if len ids =? 0 then db else delete_deliveries ids db)
                                &{ db_audits := audits }.
Proof.
  intros (s & Hr & ->)%run_ok. unfold purge_terminal_deliveries in Hr.
  apply M_bind_ok in Hr as (project & s1 & Ha & Hr). apply authorized_ok in Ha as [Ha ->].
  erewrite M_bind_run in Hr; [| reflexivity]. cbn [committed working] in *.
  set (ids := map d_id _) in Hr.
  apply M_bind_ok in Hr as (u & s1 & Hw & [-> ->]%mret_ok).
  exists project, ids. split; [done |]. split; [apply purge_batch_ok |]. split; [done |].
  destruct dry_run; cbn [negb when] in Hw; [by apply mret_ok in Hw as [_ ->] |].
  apply M_bind_ok in Hw as (u1 & s2 & Hd & Hw). m_inv. m_auth.
  assert (working s2 = if len ids =? 0 then db else delete_deliveries ids db) as ->.
  { destruct (len ids =? 0); cbn [negb when] in Hd.
    - by apply mret_ok in Hd as [_ ->].
    - by apply modify_ok in Hd as ->. }
  eexists. reflexivity.
Qed.
End Purge.

(** ** A deployment with a dead delivery *)

Module ReplayDemo.
Definition version : EndpointSigningSecretVersion :=
  {| v_id := 1; v_endpoint_id := 1; v_version := 1; v_activated_at := 0; v_retire_at := None |}.
Definition pending : Delivery :=
  new_delivery (DataDemo.uuid 1) 1 1 (DataDemo.endpoint 1 JNull true) 10 1.
Definition dead_row : Delivery :=
  pending &{ d_status := Dead } &{ d_dead_at := Some 20 } &{ d_dead_reason := Some [] }
          &{ d_updated_at := 20 }.
Definition db : Db :=
  (set_delivery dead_row DataDemo.accepted_db) &{ db_secret_versions := Table {[1 := version]} 2 }.
Definition uuid (n : nat) : str := [100 + Z.of_nat n].

Definition single := run (@replay_delivery exact_rounding default_settings (fun _ => false) uuid
  30 30 id id 1 (py "proj") (DataDemo.uuid 1)) db.
Definition bulk := run (@replay_deliveries exact_rounding default_settings (fun _ => false) uuid
  30 id 1 (py "proj") [DataDemo.uuid 1] (py "again")) db.
Definition canceled := run (cancel_delivery (fun _ => false) (uuid 0) 30 id 1 (py "proj")
  (DataDemo.uuid 1) None) DataDemo.accepted_db.
Definition purged := run (purge_terminal_deliveries default_settings (fun _ => false) (uuid 0)
  (days 400) 1 (py "proj") false 10) db.

Definition replayed : Delivery := replay_copy (uuid 0) dead_row 30 2.
Definition single_db : Db := single.2.
Lemma single_ok : single = (Ok replayed, single_db).
Proof. unfold single_db. vm_compute. reflexivity. Qed.

Definition bulk_db : Db := bulk.2.
Definition operation : ReplayOperation :=
  match bulk.1 with Ok op => op | Raise _ => MkReplayOperation 0 [] 0 0 None [] Single 0 0 [] [] 0 end.
Lemma bulk_ok : bulk = (Ok operation, bulk_db).
Proof. unfold bulk_db, operation. vm_compute. reflexivity. Qed.

Definition canceled_db : Db := canceled.2.
Lemma canceled_ok : canceled = (Ok (canceled_row pending 30 None), canceled_db).
Proof. unfold canceled_db. vm_compute. reflexivity. Qed.

Definition purged_db : Db := purged.2.
Definition report : PurgeReport :=
  match purged.1 with Ok rp => rp | Raise _ => Report 0 0 0 true end.
Lemma purged_ok : purged = (Ok report, purged_db).
Proof. unfold purged_db, report. vm_compute. reflexivity. Qed.
End ReplayDemo.

(** ** Claims *)

(** Single replay.  A replay that succeeds was authorized, found its source
    in the project, with the payload and the signing version still there, when
    it held the row; it adds one pending delivery, due at once, that carries
    the source's snapshot and names it as its source, and nothing changes in
    the other deliveries; the operation and an audit entry are recorded with
    it.  The data-plane invariant is kept, if the payload of the source's event
    is still there after the wait for the admission locks. *)
Theorem replay_delivery_correct `{Rounding} settings unicode_alnum uuid checked_at now others others'
    user project_id delivery_id db d db' :
  run (replay_delivery settings unicode_alnum uuid checked_at now others others' user project_id
         delivery_id) db = (Ok d, db') ->
  let db1 := others db in let db2 := others' db1 in
  t_wf (db_deliveries db2) ->
  exists project original k,
    authorize_project db user project_id REPLAY false = Ok project /\
    t_get k (db_deliveries db1) = Some original /\ d_public_id original = delivery_id /\
    in_project (p_id project) db1 original = true /\ replayable original checked_at db1 /\
    replays original now d /\
    t_get (d_id d) (db_deliveries db2) = None /\ t_get (d_id d) (db_deliveries db') = Some d /\
    (forall k, k <> d_id d -> t_get k (db_deliveries db') = t_get k (db_deliveries db2)) /\
    (exists op, t_get (seq (db_replays db2)) (db_replays db') = Some op /\
       ro_source_delivery_ids op = [delivery_id] /\ ro_created_delivery_ids op = [d_public_id d]) /\
    (exists a, t_get (seq (db_audits db2)) (db_audits db') = Some a /\
       a_action a = py "delivery.replayed" /\ a_actor_user_id a = Some user) /\
    (plane_ok settings db2 -> is_Some (envelope_of original db2) -> plane_ok settings db').
Proof.
  intros Hr db1 db2 Hwf.
  destruct (replay_delivery_ok _ _ _ _ _ _ _ _ _ _ _ _ _ Hr)
    as (project & original & k & Hauth & Hk & Hpid & Hin & Hrep & -> & Hdl & Hev & Hat & Hq &
        op & row & Hop & Hops & Haud & Hrow).
  fold db1 in Hk, Hin, Hrep. fold db1 db2 in Hdl, Hev, Hat, Hq, Hop, Haud, Hops |- *.
  exists project, original, k. do 5 (split; [done |]). split; [apply replay_copy_replays |].
  cbn [d_id replay_copy]. rewrite Hdl, Hop, Haud. unfold t_get, t_add. cbn [rows].
  split; [apply eq_None_not_Some; intros Hs; specialize (Hwf _ Hs); lia |].
  split; [apply lookup_insert_eq |]. split; [intros k' Hne; by apply lookup_insert_ne |].
  split; [eexists; split; [apply lookup_insert_eq | apply Hops] |].
  split; [eexists; split; [apply lookup_insert_eq | apply Hrow] |].
  intros Hok [[ev envelope] He]. unfold envelope_of in He.
  destruct (t_get (d_event_id original) (db_events db2)) as [ev0|] eqn:E; [| done]. cbn in He.
  destruct (ev_canonical_envelope ev0) as [env0|] eqn:E0; [| done]. cbn in He.
  eapply (plane_ok_frame settings (db2 &{ db_deliveries :=
    add_deliveries [replay_copy (uuid 0%nat) original now] (db_deliveries db2) })); try done.
  apply plane_ok_add; [done |]. constructor; [| constructor]. by eapply replay_fresh.
Qed.

Lemma replay_delivery_correct_witness :
  t_get 2 (db_deliveries ReplayDemo.single_db) = Some ReplayDemo.replayed.
Proof.
  destruct (replay_delivery_correct (H := exact_rounding) default_settings (fun _ => false)
    ReplayDemo.uuid 30 30 id id 1 (py "proj") (DataDemo.uuid 1) ReplayDemo.db ReplayDemo.replayed
    ReplayDemo.single_db ReplayDemo.single_ok) as (p & o & k & _ & _ & _ & _ & _ & _ & _ & Hd & _).
  - enough (map_Forall (fun k _ => k < 3) (rows (db_deliveries ReplayDemo.db))) as Hall.
    { intros k [d Hd]. replace (seq _) with 2 by (vm_compute; reflexivity).
      revert Hd. replace (rows (db_deliveries (id (id ReplayDemo.db))))
        with ({[1 := ReplayDemo.dead_row]} : gmap Z Delivery) by (vm_compute; reflexivity).
      intros [<- _]%lookup_singleton_Some. reflexivity. }
    refine (bool_decide_unpack _ _). vm_compute. exact I.
  - exact Hd.
Defined.

(** C32: bulk replay.  An authorized request within the batch bound either finds
    its idempotency key taken, by an operation over the same deliveries that it
    gets back, and changes nothing; or its ids are distinct and name dead,
    replayable deliveries of the project, each of which gets exactly one copy,
    in the order of the request, recorded in one operation. *)
Theorem replay_deliveries_correct `{Rounding} settings unicode_alnum uuid now others user project_id
    ids key db op db' :
  run (replay_deliveries settings unicode_alnum uuid now others user project_id ids key) db
    = (Ok op, db') ->
  exists project, authorize_project db user project_id REPLAY false = Ok project /\
    (1 <= len ids /\ len ids <= bulk_replay_max_deliveries settings) /\
    ro_source_delivery_ids op = ids /\
    (((db' = db \/ db' = others db) /\ find_replay project key db' = Some op) \/
     (NoDup ids /\ ro_created_delivery_ids op = map uuid (List.seq 0 (length ids)) /\
      (exists k, t_get k (db_replays db') = Some op) /\
      (forall i pid, ids !! i = Some pid ->
         exists original d, (exists k, t_get k (db_deliveries (others db)) = Some original) /\
           d_public_id original = pid /\ d_status original = Dead /\
           in_project (p_id project) (others db) original = true /\
           replayable original now (others db) /\
           t_get (seq (db_deliveries (others db)) + Z.of_nat i) (db_deliveries db') = Some d /\
           replays original now d /\ d_public_id d = uuid i) /\
      (forall k, k < seq (db_deliveries (others db)) \/
                 seq (db_deliveries (others db)) + len ids <= k ->
         t_get k (db_deliveries db') = t_get k (db_deliveries (others db))) /\
      (plane_ok settings (others db) -> plane_ok settings db'))).
Proof.
  intros (project & Hauth & Hlen & Hcase)%replay_deliveries_ok. exists project.
  split; [done |]. split; [done |].
  destruct Hcase as [(Hdb & Hf & Hs)|(sources & Hbatch)]; [auto |].
  pose proof Hbatch as [Hnd Hids Hdead Hcop _ Hop Hcr].
  destruct Hcr as (_ & _ & Hsrc & Hcreated). split; [done |]. right.
  assert (length sources = length ids) as Hn by (rewrite <- Hids; by rewrite length_map).
  rewrite list.Forall_lookup in Hdead.
  split; [done |]. split; [done |]. split; [| split; [| split]].
  - destruct Hop as (mk & -> & ->). eexists. unfold t_get, t_add. cbn. apply lookup_insert_eq.
  - intros i pid Hi. rewrite <- Hids in Hi. change (map d_public_id sources) with
      (d_public_id <$> sources) in Hi. rewrite list_lookup_fmap in Hi.
    apply fmap_Some in Hi as (original & Ho & ->).
    destruct (Hdead i original Ho) as (Hst & Hin & Hk & Hrep).
    do 2 eexists. split; [exact Hk |]. do 4 (split; [done |]). rewrite Hcop.
    split; [| split; [apply (replay_copy_replays (uuid i)) |]].
    + apply add_deliveries_new. by rewrite list_lookup_imap, Ho.
    + done.
  - intros k Hk. rewrite Hcop, add_deliveries_get. unfold len. rewrite length_imap, Hn.
    unfold len in Hk. case_match eqn:E; [| done]. apply andb_true_iff in E as [?%Z.leb_le ?%Z.ltb_lt].
    lia.
  - by eapply batch_plane.
Qed.

Lemma replay_deliveries_correct_witness :
  ro_source_delivery_ids ReplayDemo.operation = [DataDemo.uuid 1].
Proof.
  destruct (replay_deliveries_correct (H := exact_rounding) default_settings (fun _ => false)
    ReplayDemo.uuid 30 id 1 (py "proj") [DataDemo.uuid 1] (py "again") ReplayDemo.db
    ReplayDemo.operation ReplayDemo.bulk_db ReplayDemo.bulk_ok) as (p & _ & _ & Hs & _).
  exact Hs.
Defined.

(** Cancellation.  Only a pending or retry-scheduled delivery of the project
    is canceled: the row becomes canceled with the reason given and keeps its
    snapshot, a half-open circuit it was probing reopens, and no other delivery
    or endpoint changes; canceling a canceled delivery answers with it and
    changes nothing.  A delivery that is being sent, or has reached another
    terminal state, is refused.  The data-plane invariant is kept. *)
Theorem cancel_delivery_correct settings unicode_alnum uuid now others user project_id delivery_id
    reason db d' db' :
  run (cancel_delivery unicode_alnum uuid now others user project_id delivery_id reason) db
    = (Ok d', db') ->
  plane_ok settings (others db) ->
  exists project d,
    authorize_project db user project_id DELIVERY_CANCEL false = Ok project /\
    t_get (d_id d') (db_deliveries (others db)) = Some d /\ d_public_id d = delivery_id /\
    in_project (p_id project) (others db) d = true /\
    t_get (d_id d') (db_deliveries db') = Some d' /\ d_status d' = Canceled /\
    (forall k, k <> d_id d' -> t_get k (db_deliveries db') = t_get k (db_deliveries (others db))) /\
    (forall k, k <> d_endpoint_id d -> db_quotas db' !! k = db_quotas (others db) !! k) /\
    ((d_status d = Canceled /\ d' = d /\ db' = others db) \/
     ((d_status d = Pending \/ d_status d = RetryScheduled) /\ same_snapshot d d' /\
      d_canceled_at d' = Some now /\ d_canceled_reason d' = reason /\
      forall q, db_quotas db' !! d_endpoint_id d = Some q ->
        q_half_open_probe_delivery_id q <> Some (d_id d))) /\
    plane_ok settings db'.
Proof.
  intros (project & d & k & Hauth & Hk & Hpid & Hin & Hcase)%cancel_delivery_ok Hok.
  pose proof (dbo_keyed _ _ (pl_deliveries _ _ Hok) _ _ Hk) as Hid. subst k.
  destruct Hcase as [(Hst & -> & ->)|(Hq & -> & audits & ->)]; exists project, d.
  { do 6 (split; [done |]). split; [done |]. split; [done |]. split; [by left | done]. }
  pose proof (canceled_row_evolves d now reason Hq) as Hev.
  destruct (after_cancel_ok settings d now (db_quotas (others db)) (dbo_quotas _ _ (pl_deliveries _ _ Hok)))
    as [HQ Hdom].
  assert (d_id (canceled_row d now reason) = d_id d) as Hid by done.
  unfold set_delivery. upd_simpl. rewrite Hid.
  do 4 (split; [done |]). split; [by rewrite t_get_set, decide_True |]. split; [done |].
  split; [intros k Hne; by rewrite t_get_set, decide_False |].
  split.
  { intros k Hne. unfold after_cancel. repeat case_match; try done. by apply lookup_insert_ne. }
  split; [right | by apply (plane_ok_set settings (others db) d (canceled_row d now reason))].
  split; [destruct (d_status d); auto; done |]. split; [apply Hev |]. split; [done |].
  split; [done |]. intros q. unfold after_cancel.
  destruct (db_quotas (others db) !! d_endpoint_id d) as [q0|] eqn:E; [| congruence].
  case_bool_decide; [rewrite lookup_insert_eq; by intros [= <-] | congruence].
Qed.

Lemma cancel_delivery_correct_witness :
  t_get 1 (db_deliveries ReplayDemo.canceled_db)
    = Some (canceled_row ReplayDemo.pending 30 None).
Proof.
  destruct (cancel_delivery_correct default_settings (fun _ => false) (ReplayDemo.uuid 0) 30 id 1
    (py "proj") (DataDemo.uuid 1) None DataDemo.accepted_db
    (canceled_row ReplayDemo.pending 30 None) ReplayDemo.canceled_db ReplayDemo.canceled_ok)
    as (p & d & _ & _ & _ & _ & Hd & _).
  - destruct (ingest_ok (H := exact_rounding) default_settings DataDemo.uuid 10 id (None, None)
      TenancyDemo.project (py "key") (py "order.paid") DataDemo.payload (py "native") DataDemo.db
      DataDemo.event DataDemo.accepted_db DataDemo.first_accepted)
      as (mode & fp & _ & [([Hdb|Hdb] & _ & _)|(Hf & _ & Hacc)]).
    + exfalso. assert (seq (db_events DataDemo.accepted_db) = 2) as E by (vm_compute; reflexivity).
      rewrite Hdb in E. discriminate E.
    + exfalso. assert (seq (db_events DataDemo.accepted_db) = 2) as E by (vm_compute; reflexivity).
      rewrite Hdb in E. discriminate E.
    + exact (accepted_ok _ _ _ _ _ _ _ _ _ _ _ _ _ DataDemo.plane Hf Hacc).
  - exact Hd.
Defined.

(** Purge.  A purge deletes at most the batch size of deliveries, all of the
    project, all terminal and untouched for the retention period, smallest
    keys first, and all of them when they fit; every other delivery stays
    (only the mention of a purged source is dropped), a dry run reports the
    same count and changes nothing, and the data-plane invariant is kept. *)
Theorem purge_terminal_deliveries_correct settings unicode_alnum uuid now user project_id dry_run
    max_records db rp db' :
  run (purge_terminal_deliveries settings unicode_alnum uuid now user project_id dry_run max_records)
    db = (Ok rp, db') ->
  t_keyed d_id (db_deliveries db) ->
  exists project ids,
    authorize_project db user project_id DELIVERY_PURGE false = Ok project /\
    purge_batch project (now - days (delivery_retention_days settings))
      (Z.min max_records (delivery_purge_batch_size settings)) db ids /\
    rp_matched rp = len ids /\ rp_purged rp = (if dry_run then 0 else len ids) /\
    (dry_run = true -> db' = db) /\
    (dry_run = false -> forall k,
       match t_get k (db_deliveries db), t_get k (db_deliveries db') with
       | Some d, None => k ∈ ids /\ terminal (d_status d) = true /\
           d_updated_at d <= now - days (delivery_retention_days settings)
       | Some d, Some d' => k ∉ ids /\ (d' = d \/ d' = d &{ d_replay_of_delivery_id := None })
       | None, o => o = None
       end) /\
    (plane_ok settings db -> plane_ok settings db').
Proof.
  intros (project & ids & Hauth & Hb & -> & Hdb)%purge_ok Hkeyed. exists project, ids.
  do 2 (split; [done |]). do 2 (split; [done |]).
  assert (forall k d, t_get k (db_deliveries db) = Some d -> k ∈ ids -> terminal (d_status d) = true /\
    d_updated_at d <= now - days (delivery_retention_days settings)) as Hterm.
  { intros k d Hd Hk. destruct (pb_rows _ _ _ _ _ Hb k Hk) as (d0 & k0 & Hd0 & Hid & _ & Ht & Hu).
    rewrite (Hkeyed _ _ Hd0) in Hid. subst k0. by simplify_eq. }
  destruct dry_run; [by subst |]. destruct Hdb as [audits ->]. split; [done |].
  destruct (Z.eqb_spec (len ids) 0) as [Hz|Hz].
  - assert (ids = []) as -> by (destruct ids; [done | unfold len in Hz; cbn in Hz; lia]).
    split; [| intros Hok; by eapply plane_ok_frame].
    intros _ k. upd_simpl. destruct (t_get k (db_deliveries db)); [| done].
    split; [apply not_elem_of_nil | by left].
  - split; [| intros Hok; eapply plane_ok_frame; [by apply delete_deliveries_ok | done ..]].
    intros _ k. upd_simpl.
    destruct (t_get k (db_deliveries (delete_deliveries ids db))) as [d'|] eqn:E'.
    { apply delete_deliveries_get in E' as (Hk & d & -> & Hd'). done. }
    destruct (t_get k (db_deliveries db)) as [d|] eqn:E; [| done].
    destruct (decide (k ∈ ids)) as [Hk|Hk]; [by eauto |].
    destruct (delete_deliveries_kept ids db k d E Hk) as (d' & Hd' & _). congruence.
Qed.

Lemma purge_terminal_deliveries_correct_witness : rp_matched ReplayDemo.report = 1.
Proof.
  destruct (purge_terminal_deliveries_correct default_settings (fun _ => false) (ReplayDemo.uuid 0)
    (days 400) 1 (py "proj") false 10 ReplayDemo.db ReplayDemo.report ReplayDemo.purged_db
    ReplayDemo.purged_ok) as (p & ids & _ & Hb & Hm & _ & _ & Hrows & _).
  - enough (map_Forall (fun k d => d_id d = k) (rows (db_deliveries ReplayDemo.db))) as Hall
      by exact Hall.
    refine (bool_decide_unpack _ _). vm_compute. exact I.
  - rewrite Hm. revert Hm. replace (rp_matched ReplayDemo.report) with 1 by (vm_compute; reflexivity).
    intros <-. reflexivity.
Defined.

(** The single replay does not look at the state of its source: a delivery that
    has not been attempted yet is replayed too, so the receiver gets the event
    twice. *)
Lemma single_replay_accepts_pending :
  exists db', run (@replay_delivery exact_rounding default_settings (fun _ => false) ReplayDemo.uuid
    30 30 id id 1 (py "proj") (DataDemo.uuid 1))
    (DataDemo.accepted_db &{ db_secret_versions := Table {[1 := ReplayDemo.version]} 2 })
  = (Ok (replay_copy (ReplayDemo.uuid 0) ReplayDemo.pending 30 2), db').
Proof. eexists. vm_compute. reflexivity. Qed.

(** The payload [null] is valid JSON, is accepted and delivered, but reads back
    as a purged one: its deliveries can never be replayed. *)
Lemma null_payload_is_never_replayable d now db ev :
  t_get (d_event_id d) (db_events db) = Some ev -> ev_payload ev = JNull ->
  ~ replayable d now db.
Proof.
  intros He Hn (ev' & v & He' & Hp & _). rewrite He in He'. injection He' as <-.
  unfold payload_available in Hp. by rewrite Hn in Hp.
Qed.
