(* ===== verification/Lifecycle.v ===== *)
(** * Retention and organization deletion

    [src/app/lifecycle.py]: the bounded maintenance transactions a worker runs
    beside its deliveries.  [unlocked] parameters stand for the rows that
    [FOR UPDATE SKIP LOCKED] finds free, [now] for the database's time in each
    transaction. *)

From Stdlib Require Import QArith.
From stdpp Require Import sorting.
From stdpp Require Import base tactics list gmap sets strings numbers option.
From S2P Require Import Prelude Crypto Json Models Session Settings Admission Scheduling.
From S2P Require Import Fairness WebhookSecurity Delivery WorkerSafety Authorization AuditLog.
From S2P Require Import Events EventSafety ReplaySafety.
Local Open Scope Z_scope.

(** [class LifecycleRunResult] *)
Record LifecycleRunResult : Type := RunResult {
  responses_purged : Z;
  payloads_purged : Z;
  deliveries_canceled : Z;
  deliveries_deleted : Z;
  events_deleted : Z;
  organizations_deleted : Z;
  login_throttles_purged : Z;
}.
#[export] Instance eta_LifecycleRunResult : Eta LifecycleRunResult := fun r =>
  RunResult (responses_purged r) (payloads_purged r) (deliveries_canceled r) (deliveries_deleted r)
    (events_deleted r) (organizations_deleted r) (login_throttles_purged r).

Definition no_result : LifecycleRunResult := RunResult 0 0 0 0 0 0 0.

Definition merged (a b : LifecycleRunResult) : LifecycleRunResult :=
  RunResult (responses_purged a + responses_purged b) (payloads_purged a + payloads_purged b)
    (deliveries_canceled a + deliveries_canceled b) (deliveries_deleted a + deliveries_deleted b)
    (events_deleted a + events_deleted b) (organizations_deleted a + organizations_deleted b)
    (login_throttles_purged a + login_throttles_purged b).

(** [_expired_by_policy]: [timestamp <= now() - make_interval(days => n)] *)
Definition expired_by_policy (now timestamp retention_days : Z) : bool :=
  timestamp <=? now - days retention_days.

(** The deletion of an organization with everything that hangs off it by
    [ON DELETE CASCADE]. *)
Definition delete_organization (organization_id : Z) (db : Db) : Db :=
  let project_ids :=
    map p_id (t_where (fun p => p_organization_id p =? organization_id) (db_projects db)) in
  let of_project (id : Z) := bool_decide (id ∈ project_ids) in
  let endpoint_ids := map e_id (t_where (fun e => of_project (e_project_id e)) (db_endpoints db)) in
  let event_ids := map ev_id (t_where (fun e => of_project (ev_project_id e)) (db_events db)) in
  let of_endpoint (id : Z) := bool_decide (id ∈ endpoint_ids) in
  let delivery_ids :=
    map d_id (t_where (fun d => (d_organization_id d =? organization_id)
                                || bool_decide (d_event_id d ∈ event_ids)
                                || of_endpoint (d_endpoint_id d)) (db_deliveries db)) in
  (delete_deliveries delivery_ids db)
    &{ db_organizations := t_remove (fun o => o_id o =? organization_id) (db_organizations db) }
    &{ db_policies := delete organization_id (db_policies db) }
    &{ db_members := t_remove (fun m => om_organization_id m =? organization_id) (db_members db) }
    &{ db_projects := t_remove (fun p => p_organization_id p =? organization_id) (db_projects db) }
    &{ db_project_members := t_remove (fun m => of_project (pm_project_id m)) (db_project_members db) }
    &{ db_api_keys := t_remove (fun k => of_project (k_project_id k)) (db_api_keys db) }
    &{ db_tenants := delete organization_id (db_tenants db) }
    &{ db_quotas := filter (fun iq => of_endpoint iq.1 = false)
                      (db_quotas (delete_deliveries delivery_ids db)) }
    &{ db_endpoints := t_remove (fun e => of_project (e_project_id e)) (db_endpoints db) }
    &{ db_secret_versions := t_remove (fun v => of_endpoint (v_endpoint_id v)) (db_secret_versions db) }
    &{ db_events := t_remove (fun e => of_project (ev_project_id e)) (db_events db) }
    &{ db_replays := t_remove (fun r => (ro_organization_id r =? organization_id)
                                        || of_project (ro_project_id r)) (db_replays db) }
    &{ db_operations := t_remove (fun o => lo_organization_id o =? organization_id) (db_operations db) }.

Section LifecycleService.
Context (settings : Settings) (unicode_alnum : Z -> bool).

Definition batch_size : nat := Z.to_nat (lifecycle_cleanup_batch_size settings).

(** ** Retention *)

Definition throttle_inert (now : datetime) (t : LoginThrottle) : bool :=
  (lt_updated_at t <=? now - seconds (login_throttle_window_seconds settings))
  && match lt_locked_until t with None => true | Some u => u <=? now end.

Definition purge_stale_login_throttles (now : datetime) (unlocked : str -> bool) :
    M LifecycleRunResult :=
  begin (
    rows ← gets (fun db => take batch_size (order_by (fun t => [lt_updated_at t])
      (filter (fun t => Is_true (throttle_inert now t && unlocked (lt_scope t)))
         (map_to_list (db_throttles db)).*2)));
    modify (fun db => db &{ db_throttles := foldr delete (db_throttles db) (map lt_scope rows) });;
    mret (no_result &{ login_throttles_purged := len rows })).

Definition policy_of (organization_id : Z) (db : Db) : option OrganizationPolicy :=
  db_policies db !! organization_id.

Definition response_expired (now : datetime) (db : Db) (a : DeliveryAttempt) : bool :=
  has (at_response_body a) && negb (has (at_response_purged_at a))
  && match d ← t_get (at_delivery_id a) (db_deliveries db); policy_of (d_organization_id d) db with
     | Some policy => expired_by_policy now (at_finished_at a) (pol_response_retention_days policy)
     | None => false
     end.

Definition purge_responses (now : datetime) (unlocked : Z -> bool) : M LifecycleRunResult :=
  begin (
    attempts ← gets (fun db => take batch_size (order_by (fun a => [at_finished_at a; at_id a])
      (t_where (fun a => response_expired now db a && unlocked (at_id a)) (db_attempts db))));
    mfor (fun a => modify (fun db => db &{ db_attempts := t_alter (fun a =>
            a &{ at_response_body := None } &{ at_response_purged_at := Some now })
            (at_id a) (db_attempts db) })) attempts;;
    mret (no_result &{ responses_purged := len attempts })).

Definition has_nonterminal_delivery (event_id : Z) (db : Db) : bool :=
  has (t_find (fun d => (d_event_id d =? event_id) && negb (terminal (d_status d)))
         (db_deliveries db)).

Definition payload_expired (now : datetime) (db : Db) (e : Event) : bool :=
  negb (has (ev_payload_purged_at e))
  && (negb (is_none (ev_payload e)) || has (ev_canonical_envelope e))
  && negb (has_nonterminal_delivery (ev_id e) db)
  && match p ← project_of db e; policy_of (p_organization_id p) db with
     | Some policy => expired_by_policy now (ev_created_at e) (pol_payload_retention_days policy)
     | None => false
     end.

Definition purged_event (now : datetime) (e : Event) : Event :=
  e &{ ev_payload := JNull } &{ ev_canonical_envelope := None } &{ ev_payload_purged_at := Some now }.

(** [others] commit between the locking query and the second look at the
    deliveries. *)
Definition purge_event_payloads (now : datetime) (unlocked : Z -> bool) (others : Db -> Db) :
    M LifecycleRunResult :=
  begin (
    events ← gets (fun db => take batch_size (order_by (fun e => [ev_created_at e; ev_id e])
      (t_where (fun e => payload_expired now db e && unlocked (ev_id e)) (db_events db))));
    wait others;;
    safe ← gets (fun db => filter (fun e => has_nonterminal_delivery (ev_id e) db = false) events);
    mfor (fun e => modify (fun db => db &{ db_events :=
            t_alter (purged_event now) (ev_id e) (db_events db) })) safe;;
    mret (no_result &{ payloads_purged := len safe })).

(** ** Deletion *)

Definition claim_operation (now : datetime) (unlocked : Z -> bool) (db : Db) :
    option OrganizationLifecycleOperation :=
  head (order_by (fun o => [lo_scheduled_at o; lo_id o])
    (t_where (fun o =>
       match lo_status o with OpPending | OpRunning => true | _ => false end
       && (lo_scheduled_at o <=? now)
       && match t_get (lo_organization_id o) (db_organizations db) with
          | Some org => bool_decide (o_lifecycle_state org = DeletionPending)
          | None => false
          end
       && unlocked (lo_id o)) (db_operations db))).

Definition put_operation (o : OrganizationLifecycleOperation) : M unit :=
  modify (fun db => db &{ db_operations := t_set (lo_id o) o (db_operations db) }).

Definition cancellable (now : datetime) (d : Delivery) : bool :=
  match d_status d with
  | Pending | RetryScheduled => true
  | Processing => match d_lease_expires_at d with None => true | Some t => t <=? now end
  | _ => false
  end.

Definition deletion_canceled (now : datetime) (d : Delivery) : Delivery :=
  d &{ d_status := Canceled } &{ d_canceled_at := Some now }
    &{ d_canceled_reason := Some (py "organization_deletion") }
    &{ d_lease_token := None } &{ d_lease_expires_at := None } &{ d_updated_at := now }.

Definition cancel_inactive_deliveries (organization_id : Z) (now : datetime)
    (unlocked : Z -> bool) : M Z :=
  deliveries ← gets (fun db => take batch_size (order_by (fun d => [d_id d])
    (t_where (fun d => (d_organization_id d =? organization_id) && cancellable now d
                       && unlocked (d_id d)) (db_deliveries db))));
  mfor (fun d => put_delivery (deletion_canceled now d)) deliveries;;
  mret (len deliveries).

Definition has_live_delivery (organization_id : Z) (now : datetime) (db : Db) : bool :=
  has (t_find (fun d => (d_organization_id d =? organization_id) && live now d) (db_deliveries db)).

Definition delete_delivery_batch (organization_id : Z) (unlocked : Z -> bool) : M Z :=
  delivery_ids ← gets (fun db => map d_id (take batch_size (order_by (fun d => [d_id d])
    (t_where (fun d => (d_organization_id d =? organization_id) && unlocked (d_id d))
       (db_deliveries db)))));
  when (nonempty delivery_ids) (modify (delete_deliveries delivery_ids));;
  mret (len delivery_ids).

Definition event_of_organization (organization_id : Z) (db : Db) (e : Event) : bool :=
  match project_of db e with Some p => p_organization_id p =? organization_id | None => false end.

Definition has_delivery (event_id : Z) (db : Db) : bool :=
  has (t_find (fun d => d_event_id d =? event_id) (db_deliveries db)).

Definition delete_orphan_event_batch (organization_id : Z) (unlocked : Z -> bool) : M Z :=
  event_ids ← gets (fun db => map ev_id (take batch_size (order_by (fun e => [ev_id e])
    (t_where (fun e => event_of_organization organization_id db e
                       && negb (has_delivery (ev_id e) db) && unlocked (ev_id e))
       (db_events db)))));
  when (nonempty event_ids)
    (modify (fun db => db &{ db_events := t_delete event_ids (db_events db) }));;
  mret (len event_ids).

Definition organization_is_empty (organization_id : Z) (db : Db) : bool :=
  negb (nonempty (t_where (fun d => d_organization_id d =? organization_id) (db_deliveries db)))
  && negb (nonempty (t_where (event_of_organization organization_id db) (db_events db))).

(** [clock] is the application's time, which the audit entry defaults to. *)
Definition delete_empty_organization (uuid : str) (clock : datetime) (operation : OrganizationLifecycleOperation)
    (organization : Organization) (now : datetime) : M LifecycleRunResult :=
  empty ← gets (organization_is_empty (o_id organization));
  if negb empty then mret no_result
  else
    put_operation (operation &{ lo_status := OpCompleted } &{ lo_completed_at := Some now });;
    append_audit unicode_alnum uuid clock (lo_requested_by_user_id operation)
      (o_public_id organization) (py "organization.deleted") (py "organization")
      (Some (o_public_id organization)) None
      (Some [(py "operation_public_id", JStr (lo_public_id operation))]);;
    modify (delete_organization (o_id organization));;
    mret (no_result &{ organizations_deleted := 1 }).

(** The rows one cleanup step finds unlocked. *)
Record locks : Type := Locks {
  lk_operation : Z -> bool;
  lk_organization : Z -> bool;
  lk_cancel : Z -> bool;
  lk_delete : Z -> bool;
  lk_event : Z -> bool;
}.

Definition cleanup_due_organization (uuid : str) (clock now : datetime) (lk : locks) :
    M LifecycleRunResult :=
  begin (
    operation ← gets (claim_operation now (lk_operation lk));
    match operation with
    | None => mret no_result
    | Some operation =>
        organization ← gets (fun db =>
          o ← t_get (lo_organization_id operation) (db_organizations db);
          if lk_organization lk (o_id o) then Some o else None);
        match organization with
        | None => mret no_result
        | Some organization =>
            if negb (bool_decide (o_lifecycle_state organization = DeletionPending)) then
              put_operation (operation &{ lo_status := OpCanceled }
                                       &{ lo_completed_at := Some now });;
              mret no_result
            else
              let operation := operation &{ lo_status := OpRunning } &{ lo_error := None } in
              put_operation operation;;
              canceled ← cancel_inactive_deliveries (o_id organization) now (lk_cancel lk);
              if negb (canceled =? 0) then mret (no_result &{ deliveries_canceled := canceled })
              else
                is_live ← gets (has_live_delivery (o_id organization) now);
                if (is_live : bool) then mret no_result
                else
                  deleted ← delete_delivery_batch (o_id organization) (lk_delete lk);
                  if negb (deleted =? 0) then mret (no_result &{ deliveries_deleted := deleted })
                  else
                    events ← delete_orphan_event_batch (o_id organization) (lk_event lk);
                    if negb (events =? 0) then mret (no_result &{ events_deleted := events })
                    else delete_empty_organization uuid clock operation organization now
        end
    end).

(** What one pass of [run_once] meets in its transactions. *)
Record pass : Type := Pass {
  ps_uuid : str;
  ps_clock : datetime;
  ps_now : datetime;
  ps_attempts : Z -> bool;
  ps_events : Z -> bool;
  ps_others : Db -> Db;
  ps_throttles : str -> bool;
  ps_locks : locks;
}.

Definition run_once (ps : pass) : M LifecycleRunResult :=
  r1 ← purge_responses (ps_now ps) (ps_attempts ps);
  r2 ← purge_event_payloads (ps_now ps) (ps_events ps) (ps_others ps);
  r3 ← purge_stale_login_throttles (ps_now ps) (ps_throttles ps);
  r4 ← cleanup_due_organization (ps_uuid ps) (ps_clock ps) (ps_now ps) (ps_locks ps);
  mret (merged (merged (merged r1 r2) r3) r4).
End LifecycleService.

(** ** Retention *)

Section Retention.
Context (settings : Settings).

Lemma mfor_alter_events f (l : list Event) s u s' :
  mfor (fun e => modify (fun db => db &{ db_events := t_alter f (ev_id e) (db_events db) })) l s
    = (Ok u, s') ->
  s' = Sess (committed s) ((working s) &{ db_events :=
         foldl (fun t e => t_alter f (ev_id e) t) (db_events (working s)) l }).
Proof.
  revert s; induction l as [| e l IH]; intros [c w]; cbn [mfor].
  - intros [_ ->]%mret_ok. cbn. by destruct w.
  - intros (u1 & s1 & ->%modify_ok & Hr)%M_bind_ok. by apply IH in Hr as ->.
Qed.

(** Altering rows by key; [f] applied again changes nothing. *)
Lemma alter_rows_get (f : Event -> Event) (l : list Event) (t : table Event) k :
  (forall e : Event, f (f e) = f e) ->
  t_get k (foldl (fun t e => t_alter f (ev_id e) t) t l)
  = if decide (k ∈ map ev_id l) then f <$> t_get k t else t_get k t.
Proof.
  intros Hf. revert t; induction l as [| e l IH]; intros t; cbn [foldl map].
  { case_decide as H; [by apply not_elem_of_nil in H | done]. }
  rewrite IH, t_get_alter.
  destruct (decide (ev_id e = k)) as [<-|Hne]; repeat case_decide; try done; try set_solver.
  destruct (t_get (ev_id e) t); cbn; by rewrite ?Hf.
Qed.

Lemma has_nonterminal_spec event_id db :
  has_nonterminal_delivery event_id db = false <->
  forall k d, t_get k (db_deliveries db) = Some d -> d_event_id d = event_id ->
    terminal (d_status d) = true.
Proof.
  unfold has_nonterminal_delivery. destruct (t_find _ _) as [d|] eqn:E; cbn; split; try done.
  - intros Hall. apply t_find_some in E as [Hp [k Hk]].
    apply andb_true_iff in Hp as [Hid%Z.eqb_eq Ht]. by rewrite (Hall k d Hk Hid) in Ht.
  - intros _ k d Hk Hid. eapply t_find_none in E; [| exact Hk].
    rewrite Hid, Z.eqb_refl in E. by apply negb_false_iff in E.
Qed.

Lemma purge_event_payloads_ok now unlocked others db r db' :
  run (purge_event_payloads settings now unlocked others) db = (Ok r, db') ->
  exists ids, len ids <= Z.max 0 (lifecycle_cleanup_batch_size settings) /\
    payloads_purged r = len ids /\
    (forall id, id ∈ ids -> has_nonterminal_delivery id (others db) = false /\
       exists k e, t_get k (db_events db) = Some e /\ ev_id e = id /\
         payload_expired now db e = true) /\
    exists evs, db' = (others db) &{ db_events := evs } /\ seq evs = seq (db_events (others db)) /\
      forall k, t_get k evs = if decide (k ∈ ids)
        then purged_event now <$> t_get k (db_events (others db))
        else t_get k (db_events (others db)).
Proof.
  intros (s & Hr & ->)%run_ok. unfold purge_event_payloads in Hr.
  apply begin_ok in Hr as (s1 & Hr & ->).
  erewrite M_bind_run in Hr; [| reflexivity]. set (picked := take _ _) in Hr.
  erewrite M_bind_run in Hr; [| reflexivity]. erewrite M_bind_run in Hr; [| reflexivity].
  cbn [committed working] in *. set (safe := filter _ picked) in Hr.
  apply M_bind_ok in Hr as (u & s2 & ->%mfor_alter_events & [-> ->]%mret_ok).
  cbn [committed working]. exists (map ev_id safe). split; [| split; [| split]].
  - unfold len. rewrite length_map. pose proof (length_filter (fun e =>
      has_nonterminal_delivery (ev_id e) (others db) = false) picked) as Hle.
    fold safe in Hle. unfold picked in Hle at 1. rewrite length_take in Hle. unfold batch_size in Hle.
    lia.
  - unfold no_result, len. upd_simpl. by rewrite length_map.
  - intros id (e & -> & He)%list_elem_of_fmap. unfold safe in He.
    apply list_elem_of_filter in He as [Hn He]. split; [done |].
    unfold picked in He. apply subseteq_take, order_by_elem, t_where_spec in He as [Hp [k Hk]].
    apply andb_true_iff in Hp as [Hp _]. eauto.
  - eexists. split; [reflexivity |]. split.
    + clear. generalize (db_events (others db)). induction safe as [| e l IH]; intros t; [done |].
      cbn. by rewrite IH.
    + intros k. by apply alter_rows_get.
Qed.
End Retention.

Section PayloadsKept.
Context (settings : Settings).

(** Altering event rows that no open delivery needs, keeping their keys. *)
Lemma plane_ok_events db evs :
  plane_ok settings db -> seq evs = seq (db_events db) ->
  (forall k, exists f, t_get k evs = f <$> t_get k (db_events db) /\
     (forall e, ev_id (f e) = ev_id e /\ ev_project_id (f e) = ev_project_id e /\
        ev_idempotency_key (f e) = ev_idempotency_key e) /\
     ((forall e, f e = e) \/ has_nonterminal_delivery k db = false)) ->
  plane_ok settings (db &{ db_events := evs }).
Proof.
  intros [[K1 K2 K3 K4 K5 K6 K7 K8 K9] H1 H2 H3 Hf] Hseq Hget.
  assert (forall k e', t_get k evs = Some e' -> exists e, t_get k (db_events db) = Some e /\
    ev_id e' = ev_id e /\ ev_project_id e' = ev_project_id e /\
    ev_idempotency_key e' = ev_idempotency_key e) as Hback.
  { intros k e' He'. destruct (Hget k) as (f & Hk & Hid & _). rewrite Hk in He'.
    apply fmap_Some in He' as (e & He & ->). exists e. split; [done | apply Hid]. }
  split; [split | | | |]; upd_simpl; try done.
  - intros k d Hd Ht. destruct (K4 k d Hd Ht) as [ee Hee]. exists ee. revert Hee.
    unfold envelope_of. upd_simpl. destruct (Hget (d_event_id d)) as (f & Hk & _ & Hsame).
    rewrite Hk. destruct Hsame as [Hsame|Hn].
    + destruct (t_get (d_event_id d) (db_events db)); [| done]. cbn [fmap option_fmap option_map].
      by rewrite Hsame.
    + pose proof (proj1 (has_nonterminal_spec _ _) Hn k d Hd eq_refl). congruence.
  - intros k Hs. rewrite Hseq. destruct Hs as [e' He'].
    destruct (Hback k e' He') as (e & He & _). apply H1. eauto.
  - intros k e' He'. destruct (Hback k e' He') as (e & He & -> & _). by apply H2.
  - intros k k' e e' He He' Hp Hkey. destruct (Hback _ _ He) as (e1 & He1 & _ & Hp1 & Hk1).
    destruct (Hback _ _ He') as (e2 & He2 & _ & Hp2 & Hk2). eapply H3; eauto; congruence.
  - intros k d Hd. destruct (Hf k d Hd) as [e He]. destruct (Hget (d_event_id d)) as (f & -> & _).
    rewrite He. eauto.
Qed.

Lemma purge_event_payloads_plane now unlocked others db r db' :
  run (purge_event_payloads settings now unlocked others) db = (Ok r, db') ->
  plane_ok settings (others db) -> plane_ok settings db'.
Proof.
  intros (ids & _ & _ & Hids & evs & -> & Hseq & Hevs)%purge_event_payloads_ok Hok.
  apply plane_ok_events; [done | done |]. intros k. rewrite Hevs. case_decide as Hk.
  - exists (purged_event now). split; [done |]. split; [done |]. right. by apply Hids.
  - exists (fun e => e). split; [by destruct (t_get k _) |]. split; [done | by left].
Qed.
End PayloadsKept.

(** ** Deletion of an organization *)

Section Deletion.
Context (settings : Settings) (unicode_alnum : Z -> bool).

Lemma deletion_canceled_evolves now d :
  cancellable now d = true -> delivery_ok d -> evolves d (deletion_canceled now d).
Proof.
  unfold cancellable, deletion_canceled. intros Hc Hok.
  destruct (d_status d) eqn:E; try done;
    (split; upd_simpl; [done | rewrite E; constructor | dok E | lia | done]).
Qed.

Lemma mfor_put_deliveries f (l : list Delivery) s u s' :
  mfor (fun d => put_delivery (f d)) l s = (Ok u, s') ->
  s' = Sess (committed s) ((working s) &{ db_deliveries :=
         foldl (fun t d => t_set (d_id (f d)) (f d) t) (db_deliveries (working s)) l }).
Proof.
  revert s; induction l as [| d l IH]; intros [c w]; cbn [mfor].
  - intros [_ ->]%mret_ok. cbn. by destruct w.
  - unfold put_delivery at 1. intros (u1 & s1 & ->%modify_ok & Hr)%M_bind_ok. by apply IH in Hr as ->.
Qed.

Lemma plane_ok_set_all now db l :
  plane_ok settings db ->
  Forall (fun d => cancellable now d = true) l -> NoDup (map d_id l) ->
  (forall d, d ∈ l -> t_get (d_id d) (db_deliveries db) = Some d) ->
  plane_ok settings (db &{ db_deliveries :=
    foldl (fun t d => t_set (d_id (deletion_canceled now d)) (deletion_canceled now d) t)
      (db_deliveries db) l }).
Proof.
  revert db; induction l as [| d l IH]; intros db Hok Hc Hn Hin; cbn [foldl map] in *.
  { by eapply plane_ok_frame. }
  apply list.Forall_cons in Hc as [Hd Hc]. apply list.NoDup_cons in Hn as [Hni Hn].
  pose proof (Hin d ltac:(left)) as Hget.
  pose proof (dbo_rows _ _ (pl_deliveries _ _ Hok) _ _ Hget) as Hrow.
  assert (plane_ok settings ((set_delivery (deletion_canceled now d) db)
    &{ db_quotas := db_quotas db } &{ db_audits := db_audits db })) as Hok1.
  { apply (plane_ok_set settings db d); [done | done | by apply deletion_canceled_evolves | done | | done].
    apply Hok. }
  specialize (IH _ Hok1 Hc Hn).
  eapply plane_ok_frame; [apply IH | done ..]. unfold set_delivery. upd_simpl.
  intros d' Hd'. rewrite t_get_set. case_decide as E; [| apply Hin; by right].
  exfalso. apply Hni. change (d_id d = d_id d') in E. rewrite E. by apply list_elem_of_fmap_2.
Qed.

(** The deliveries that go with an organization. *)
Definition delivery_of_organization (organization_id : Z) (db : Db) (d : Delivery) : Prop :=
  d_organization_id d = organization_id \/
  (exists ke e kp p, t_get ke (db_events db) = Some e /\ ev_id e = d_event_id d /\
     t_get kp (db_projects db) = Some p /\ p_id p = ev_project_id e /\
     p_organization_id p = organization_id) \/
  (exists ke e kp p, t_get ke (db_endpoints db) = Some e /\ e_id e = d_endpoint_id d /\
     t_get kp (db_projects db) = Some p /\ p_id p = e_project_id e /\
     p_organization_id p = organization_id).

Lemma delete_organization_delivery organization_id db k d' :
  t_keyed d_id (db_deliveries db) ->
  t_get k (db_deliveries (delete_organization organization_id db)) = Some d' <->
  exists d, t_get k (db_deliveries db) = Some d /\ ~ delivery_of_organization organization_id db d /\
    t_get k (db_deliveries (delete_organization organization_id db)) = Some d' /\
    (d' = d \/ d' = d &{ d_replay_of_delivery_id := None }).
Proof.
  intros Hkeyed. split; [| by intros (? & _ & _ & ? & _)]. intros Hd'. pose proof Hd' as Hd''.
  unfold delete_organization in Hd'. revert Hd'. upd_simpl.
  intros (Hk & d & Hd & Hcase)%delete_deliveries_get. exists d. split; [done |].
  split; [| done]. intros Hof. apply Hk. apply list_elem_of_fmap. exists d.
  split; [by symmetry; apply Hkeyed |]. apply t_where_spec. split; [| eauto].
  rewrite !orb_true_iff, Z.eqb_eq, !bool_decide_eq_true.
  destruct Hof as [Ho|[(ke & e & kp & p & He & Hid & Hp & Hpid & Hpo)|
    (ke & e & kp & p & He & Hid & Hp & Hpid & Hpo)]]; [by left; left | left; right | right];
    (rewrite <- Hid; apply list_elem_of_fmap_2, t_where_spec; split; [| by eauto];
     apply bool_decide_eq_true; rewrite <- Hpid; apply list_elem_of_fmap_2, t_where_spec;
     split; [by apply Z.eqb_eq | by eauto]).
Qed.

Lemma delete_organization_kept organization_id db k d :
  t_keyed d_id (db_deliveries db) -> t_get k (db_deliveries db) = Some d ->
  ~ delivery_of_organization organization_id db d ->
  exists d', t_get k (db_deliveries (delete_organization organization_id db)) = Some d' /\
    (d' = d \/ d' = d &{ d_replay_of_delivery_id := None }).
Proof.
  intros Hkeyed Hd Hof. unfold delete_organization. upd_simpl.
  apply (delete_deliveries_kept _ db); [done |]. rewrite <- (Hkeyed _ _ Hd).
  intros (d0 & Hid & Hin)%list_elem_of_fmap. apply t_where_spec in Hin as [Hp [k0 Hk0]].
  assert (d0 = d) as ->.
  { pose proof (Hkeyed _ _ Hk0). pose proof (Hkeyed _ _ Hd). unfold t_get in *. congruence. }
  apply Hof. rewrite !orb_true_iff, Z.eqb_eq, !bool_decide_eq_true in Hp.
  destruct Hp as [[?|He]|He]; [by left | right; left | right; right].
  all: apply list_elem_of_fmap in He as (e & Hid' & He); apply t_where_spec in He as [Hp' [ke Hke]];
    apply bool_decide_eq_true, list_elem_of_fmap in Hp' as (p & Hpid & Hp');
    apply t_where_spec in Hp' as [Hpo%Z.eqb_eq [kp Hkp]]; exists ke, e, kp, p; by repeat split.
Qed.

Lemma delete_organization_event organization_id db k e :
  t_get k (db_events (delete_organization organization_id db)) = Some e <->
  t_get k (db_events db) = Some e /\
  ~ exists kp p, t_get kp (db_projects db) = Some p /\ p_id p = ev_project_id e /\
      p_organization_id p = organization_id.
Proof.
  unfold delete_organization. upd_simpl. rewrite t_get_remove, bool_decide_eq_false.
  rewrite list_elem_of_fmap. split.
  - intros [He Hn]. split; [done |]. intros (kp & p & Hp & Hpid & Hpo). apply Hn.
    exists p. split; [done |]. apply t_where_spec. split; [by apply Z.eqb_eq | by eauto].
  - intros [He Hn]. split; [done |]. intros (p & Hpid & Hin). apply Hn.
    apply t_where_spec in Hin as [Hpo%Z.eqb_eq [kp Hkp]]. by exists kp, p.
Qed.

(** A delivery that stays keeps its event and its endpoint's row. *)
Lemma delete_organization_quota organization_id db d q :
  ~ delivery_of_organization organization_id db d ->
  db_quotas db !! d_endpoint_id d = Some q ->
  is_Some (db_quotas (delete_organization organization_id db) !! d_endpoint_id d).
Proof.
  intros Hof Hq. unfold delete_organization. upd_simpl.
  rewrite map_lookup_filter. unfold delete_deliveries. upd_simpl. rewrite lookup_fmap, Hq. cbn.
  rewrite option_guard_True; [by eexists |]. apply bool_decide_eq_false.
  intros (e & Hid & Hin)%list_elem_of_fmap. apply Hof. right. right.
  apply t_where_spec in Hin as [Hp [ke Hke]].
  apply bool_decide_eq_true, list_elem_of_fmap in Hp as (p & Hpid & Hp).
  apply t_where_spec in Hp as [Hpo%Z.eqb_eq [kp Hkp]]. by exists ke, e, kp, p.
Qed.

Lemma delete_organization_ok organization_id db :
  plane_ok settings db -> plane_ok settings (delete_organization organization_id db).
Proof.
  intros Hok. pose proof (dbo_keyed _ _ (pl_deliveries _ _ Hok)) as Hkeyed.
  set (db' := delete_organization organization_id db).
  assert (exists ids, db_deliveries db' = db_deliveries (delete_deliveries ids db) /\
    db_attempts db' = db_attempts (delete_deliveries ids db) /\
    forall k q, db_quotas db' !! k = Some q -> db_quotas (delete_deliveries ids db) !! k = Some q)
    as (ids & Ed & Ea & Eq).
  { unfold db', delete_organization. eexists. upd_simpl. do 2 (split; [reflexivity |]).
    intros k q. rewrite map_lookup_filter_Some. by intros [? _]. }
  assert (forall k d', t_get k (db_deliveries db') = Some d' -> exists d,
    t_get k (db_deliveries db) = Some d /\ ~ delivery_of_organization organization_id db d /\
    (d' = d \/ d' = d &{ d_replay_of_delivery_id := None })) as Hback.
  { intros k d' (d & ? & ? & _ & ?)%delete_organization_delivery; [by eauto | done]. }
  pose proof (delete_deliveries_ok settings ids db Hok) as [[K1 K2 K3 K4 K5 K6 K7 K8 K9] H1 H2 H3 Hf].
  assert (forall k d', t_get k (db_deliveries db') = Some d' -> forall ev,
    t_get (d_event_id d') (db_events db) = Some ev -> t_get (d_event_id d') (db_events db') = Some ev)
    as Hev.
  { intros k d' Hd' ev Hget. apply delete_organization_event. split; [done |].
    intros (kp & p & Hp & Hpid & Hpo). destruct (Hback k d' Hd') as (d & Hd & Hof & Hcase).
    assert (d_event_id d' = d_event_id d) as Heid by (by destruct Hcase as [->| ->]).
    apply Hof. right. left. exists (d_event_id d'), ev, kp, p.
    rewrite <- Heid. split; [done |]. split; [| done]. by apply (pl_events_keyed _ _ Hok). }
  split; [split | | | |]; rewrite ?Ed, ?Ea; try done.
  - intros k d Hd Ht. rewrite <- Ed in Hd. pose proof Hd as Hd2. rewrite Ed in Hd2.
    destruct (K4 k d Hd2 Ht) as [ee Hee]. exists ee. revert Hee. unfold envelope_of.
    change (db_events (delete_deliveries ids db)) with (db_events db).
    destruct (t_get (d_event_id d) (db_events db)) as [ev|] eqn:E; [| done].
    by rewrite (Hev k d Hd ev E).
  - intros k q Hq. by apply (K5 k q), Eq.
  - intros k d Hd Hp. rewrite <- Ed in Hd. destruct (Hback k d Hd) as (d0 & Hd0 & Hof & Hcase).
    assert (d_endpoint_id d = d_endpoint_id d0 /\ d_status d = d_status d0) as [-> Hst]
      by (by destruct Hcase as [->| ->]).
    rewrite Hst in Hp. destruct (dbo_leased_quota _ _ (pl_deliveries _ _ Hok) k d0 Hd0 Hp) as [q Hq].
    by eapply delete_organization_quota.
  - apply t_wf_remove, (pl_events_wf _ _ Hok).
  - intros k e (He & _)%delete_organization_event. by apply (pl_events_keyed _ _ Hok).
  - intros k k' e e' (He & _)%delete_organization_event (He' & _)%delete_organization_event.
    by apply (pl_events_unique _ _ Hok).
  - intros k d Hd. rewrite <- Ed in Hd. destruct (Hback k d Hd) as (d0 & Hd0 & _ & Hcase).
    destruct (pl_foreign _ _ Hok k d0 Hd0) as [ev Hget]. exists ev. apply (Hev k d Hd).
    by destruct Hcase as [->| ->].
Qed.
End Deletion.

(** ** One cleanup step *)

Section Cleanup.
Context (settings : Settings) (unicode_alnum : Z -> bool).

(** What a step does to the database, operations and audit entries aside. *)
Inductive cleaned (now : datetime) (org : Organization) (db : Db) : LifecycleRunResult -> Db -> Prop :=
| cl_waits : cleaned now org db no_result db
| cl_cancels ds :
    NoDup (map d_id ds) -> len ds <= Z.max 0 (lifecycle_cleanup_batch_size settings) ->
    (forall d, d ∈ ds -> d_organization_id d = o_id org /\ cancellable now d = true /\
       t_get (d_id d) (db_deliveries db) = Some d) ->
    cleaned now org db (no_result &{ deliveries_canceled := len ds })
      (db &{ db_deliveries :=
         foldl (fun t d => t_set (d_id (deletion_canceled now d)) (deletion_canceled now d) t)
           (db_deliveries db) ds })
| cl_deletes ids :
    has_live_delivery (o_id org) now db = false ->
    len ids <= Z.max 0 (lifecycle_cleanup_batch_size settings) ->
    (forall id, id ∈ ids -> exists d, t_get id (db_deliveries db) = Some d /\
       d_organization_id d = o_id org) ->
    cleaned now org db (no_result &{ deliveries_deleted := len ids }) (delete_deliveries ids db)
| cl_forgets ids :
    has_live_delivery (o_id org) now db = false ->
    len ids <= Z.max 0 (lifecycle_cleanup_batch_size settings) ->
    (forall id, id ∈ ids -> exists e, t_get id (db_events db) = Some e /\
       event_of_organization (o_id org) db e = true /\ has_delivery id db = false) ->
    cleaned now org db (no_result &{ events_deleted := len ids })
      (db &{ db_events := t_delete ids (db_events db) })
| cl_gone :
    organization_is_empty (o_id org) db = true ->
    cleaned now org db (no_result &{ organizations_deleted := 1 })
      (delete_organization (o_id org) db).

Lemma cancel_inactive_ok now o unlocked s n s' :
  t_keyed d_id (db_deliveries (working s)) ->
  cancel_inactive_deliveries settings o now unlocked s = (Ok n, s') ->
  exists ds, n = len ds /\ NoDup (map d_id ds) /\
    len ds <= Z.max 0 (lifecycle_cleanup_batch_size settings) /\
    (forall d, d ∈ ds -> d_organization_id d = o /\ cancellable now d = true /\
       t_get (d_id d) (db_deliveries (working s)) = Some d) /\
    s' = Sess (committed s) ((working s) &{ db_deliveries :=
      foldl (fun t d => t_set (d_id (deletion_canceled now d)) (deletion_canceled now d) t)
        (db_deliveries (working s)) ds }).
Proof.
  intros Hkeyed Hr. unfold cancel_inactive_deliveries in Hr.
  erewrite M_bind_run in Hr; [| reflexivity]. set (ds := take _ _) in Hr.
  apply M_bind_ok in Hr as (u & s1 & ->%mfor_put_deliveries & [-> ->]%mret_ok).
  exists ds. split; [done |]. unfold ds. split; [| split; [| split]]; [| | | done].
  - change (map d_id (take ?n ?l)) with (d_id <$> take n l). rewrite fmap_take.
    eapply sublist_NoDup; [| apply sublist_take]. change (d_id <$> ?l) with (map d_id l).
    rewrite (Permutation_map d_id (order_by_perm _ _)). by apply (t_where_NoDup d_id).
  - unfold len, batch_size. rewrite length_take. lia.
  - intros d Hd. apply subseteq_take, order_by_elem, t_where_spec in Hd as [Hp [k Hk]].
    rewrite !andb_true_iff in Hp. destruct Hp as [[Ho%Z.eqb_eq Hc] _].
    split; [done |]. split; [done |]. by rewrite (Hkeyed _ _ Hk).
Qed.

Lemma delete_batch_ok o unlocked s n s' :
  t_keyed d_id (db_deliveries (working s)) ->
  delete_delivery_batch settings o unlocked s = (Ok n, s') ->
  exists ids, n = len ids /\ len ids <= Z.max 0 (lifecycle_cleanup_batch_size settings) /\
    (forall id, id ∈ ids -> exists d, t_get id (db_deliveries (working s)) = Some d /\
       d_organization_id d = o) /\
    s' = if nonempty ids then Sess (committed s) (delete_deliveries ids (working s)) else s.
Proof.
  intros Hkeyed Hr. unfold delete_delivery_batch in Hr.
  erewrite M_bind_run in Hr; [| reflexivity]. set (ids := map d_id _) in Hr.
  apply M_bind_ok in Hr as (u & s1 & Hw & [-> ->]%mret_ok).
  exists ids. split; [done |]. split; [| split].
  - unfold ids, len, batch_size. rewrite length_map, length_take. lia.
  - intros id (d & -> & Hd)%list_elem_of_fmap.
    apply subseteq_take, order_by_elem, t_where_spec in Hd as [Hp [k Hk]].
    apply andb_true_iff in Hp as [Ho%Z.eqb_eq _]. exists d. by rewrite (Hkeyed _ _ Hk).
  - destruct (nonempty ids); [by apply modify_ok in Hw | by apply mret_ok in Hw as [_ ->]].
Qed.

Lemma forget_batch_ok o unlocked s n s' :
  t_keyed ev_id (db_events (working s)) ->
  delete_orphan_event_batch settings o unlocked s = (Ok n, s') ->
  exists ids, n = len ids /\ len ids <= Z.max 0 (lifecycle_cleanup_batch_size settings) /\
    (forall id, id ∈ ids -> exists e, t_get id (db_events (working s)) = Some e /\
       event_of_organization o (working s) e = true /\ has_delivery id (working s) = false) /\
    s' = if nonempty ids
         then Sess (committed s) ((working s) &{ db_events := t_delete ids (db_events (working s)) })
         else s.
Proof.
  intros Hkeyed Hr. unfold delete_orphan_event_batch in Hr.
  erewrite M_bind_run in Hr; [| reflexivity]. set (ids := map ev_id _) in Hr.
  apply M_bind_ok in Hr as (u & s1 & Hw & [-> ->]%mret_ok).
  exists ids. split; [done |]. split; [| split].
  - unfold ids, len, batch_size. rewrite length_map, length_take. lia.
  - intros id (e & -> & He)%list_elem_of_fmap.
    apply subseteq_take, order_by_elem, t_where_spec in He as [Hp [k Hk]].
    rewrite !andb_true_iff in Hp. destruct Hp as [[Ho Hn%negb_true_iff] _].
    pose proof (Hkeyed _ _ Hk). subst k. exists e. done.
  - destruct (nonempty ids); [by apply modify_ok in Hw | by apply mret_ok in Hw as [_ ->]].
Qed.

(** The operation and the organization a step works on. *)
Record due_deletion (now : datetime) (db : Db) (op : OrganizationLifecycleOperation)
    (org : Organization) : Prop := {
  dd_operation : exists k, t_get k (db_operations db) = Some op;
  dd_status : lo_status op = OpPending \/ lo_status op = OpRunning;
  dd_scheduled : lo_scheduled_at op <= now;
  dd_organization : t_get (lo_organization_id op) (db_organizations db) = Some org;
  dd_pending : o_lifecycle_state org = DeletionPending;
}.

Lemma claim_operation_some now unlocked db op :
  claim_operation now unlocked db = Some op -> exists org, due_deletion now db op org.
Proof.
  unfold claim_operation. intros Hh. apply head_Some in Hh as [l Hl].
  assert (op ∈ order_by (fun o => [lo_scheduled_at o; lo_id o]) (t_where (fun o =>
       match lo_status o with OpPending | OpRunning => true | _ => false end
       && (lo_scheduled_at o <=? now)
       && match t_get (lo_organization_id o) (db_organizations db) with
          | Some org => bool_decide (o_lifecycle_state org = DeletionPending)
          | None => false
          end
       && unlocked (lo_id o)) (db_operations db))) as Hin by (rewrite Hl; left).
  apply order_by_elem, t_where_spec in Hin as [Hp Hk]. rewrite !andb_true_iff in Hp.
  destruct Hp as [[[Hst Hs%Z.leb_le] Ho] _].
  destruct (t_get (lo_organization_id op) _) as [org|] eqn:E; [| done].
  apply bool_decide_eq_true in Ho. exists org. split; try done.
  destruct (lo_status op); auto; done.
Qed.

Lemma touched_same (db : Db) :
  db &{ db_operations := db_operations db } &{ db_audits := db_audits db } = db.
Proof. by destruct db. Qed.

Lemma nonempty_len {A} (l : list A) : len l = 0 <-> nonempty l = false.
Proof. unfold len. destruct l; cbn; [done |]. split; [lia | done]. Qed.

Lemma delete_empty_ok uuid clock op org now s r s' :
  delete_empty_organization unicode_alnum uuid clock op org now s = (Ok r, s') ->
  exists O A, cleaned now org ((working s) &{ db_operations := O } &{ db_audits := A }) r (working s').
Proof.
  unfold delete_empty_organization. intros Hr. erewrite M_bind_run in Hr; [| reflexivity].
  destruct (organization_is_empty (o_id org) (working s)) eqn:E; cbn [negb] in Hr.
  - unfold put_operation, append_audit in Hr. m_inv. do 2 eexists. by apply cl_gone.
  - apply mret_ok in Hr as [-> ->]. do 2 eexists. rewrite touched_same. constructor.
Qed.

Definition cleanup_body uuid clock now lk op org : M LifecycleRunResult :=
  canceled ← cancel_inactive_deliveries settings (o_id org) now (lk_cancel lk);
  if negb (canceled =? 0) then mret (no_result &{ deliveries_canceled := canceled })
  else
    is_live ← gets (has_live_delivery (o_id org) now);
    if (is_live : bool) then mret no_result
    else
      deleted ← delete_delivery_batch settings (o_id org) (lk_delete lk);
      if negb (deleted =? 0) then mret (no_result &{ deliveries_deleted := deleted })
      else
        events ← delete_orphan_event_batch settings (o_id org) (lk_event lk);
        if negb (events =? 0) then mret (no_result &{ events_deleted := events })
        else delete_empty_organization unicode_alnum uuid clock op org now.

Lemma cleanup_body_ok uuid clock now lk op org s r s' :
  t_keyed d_id (db_deliveries (working s)) -> t_keyed ev_id (db_events (working s)) ->
  cleanup_body uuid clock now lk op org s = (Ok r, s') ->
  exists O A, cleaned now org ((working s) &{ db_operations := O } &{ db_audits := A }) r (working s').
Proof.
  intros Hkd Hke Hr. unfold cleanup_body in Hr. apply M_bind_ok in Hr as (n & s1 & Hcan & Hr).
  apply cancel_inactive_ok in Hcan as (ds & -> & Hnd & Hsize & Hds & ->); [| done].
  destruct (Z.eqb_spec (len ds) 0) as [E|E]; cbn [negb] in Hr.
  2: { apply mret_ok in Hr as [-> ->]. exists (db_operations (working s)), (db_audits (working s)).
       rewrite touched_same. by constructor. }
  apply nonempty_len in E. destruct ds; [| done]. clear E Hnd Hsize Hds. cbn [foldl] in Hr.
  assert ((working s) &{ db_deliveries := db_deliveries (working s) } = working s) as E
    by (by destruct (working s)).
  rewrite E in Hr. clear E. erewrite M_bind_run in Hr; [| reflexivity]. cbn [working] in Hr.
  destruct (has_live_delivery _ _ _) eqn:El.
  { apply mret_ok in Hr as [-> ->]. do 2 eexists. rewrite touched_same. constructor. }
  apply M_bind_ok in Hr as (n & s1 & Hdel & Hr).
  apply delete_batch_ok in Hdel as (ids & -> & Hsize & Hids & ->); [| done]. cbn [working] in Hids.
  destruct (Z.eqb_spec (len ids) 0) as [E|E]; cbn [negb] in Hr.
  2: { apply mret_ok in Hr as [-> ->]. destruct ids; [done |]. cbn [nonempty working].
       do 2 eexists. rewrite touched_same. by constructor. }
  apply nonempty_len in E. rewrite E in Hr.
  apply M_bind_ok in Hr as (n & s1 & Hdel & Hr).
  apply forget_batch_ok in Hdel as (eids & -> & Hsize' & Heids & ->); [| done]. cbn [working] in Heids.
  destruct (Z.eqb_spec (len eids) 0) as [E'|E']; cbn [negb] in Hr.
  2: { apply mret_ok in Hr as [-> ->]. destruct eids; [done |]. cbn [nonempty working].
       do 2 eexists. rewrite touched_same. by constructor. }
  apply nonempty_len in E'. rewrite E' in Hr. by apply delete_empty_ok in Hr.
Qed.

Lemma cleanup_ok uuid clock now lk db r db' :
  t_keyed d_id (db_deliveries db) -> t_keyed ev_id (db_events db) ->
  run (cleanup_due_organization settings unicode_alnum uuid clock now lk) db = (Ok r, db') ->
  (r = no_result /\ db' = db) \/
  exists op org O A db1, due_deletion now db op org /\
    cleaned now org (db &{ db_operations := O } &{ db_audits := A }) r db1 /\ db' = db1.
Proof.
  intros Hkd Hke (s & Hr & ->)%run_ok. unfold cleanup_due_organization in Hr.
  apply begin_ok in Hr as (s1 & Hr & ->). cbn [committed].
  erewrite M_bind_run in Hr; [| reflexivity]. cbn [working] in Hr.
  destruct (claim_operation now (lk_operation lk) db) as [op|] eqn:Eop.
  2: { apply mret_ok in Hr as [-> ->]. by left. }
  destruct (claim_operation_some _ _ _ _ Eop) as [org Hdue].
  erewrite M_bind_run in Hr; [| reflexivity]. cbn [working] in Hr.
  rewrite (dd_organization _ _ _ _ Hdue) in Hr. cbn [mbind option_bind] in Hr.
  destruct (lk_organization lk (o_id org)).
  2: { apply mret_ok in Hr as [-> ->]. by left. }
  right. exists op, org. rewrite bool_decide_true in Hr by apply Hdue. cbn [negb] in Hr.
  unfold put_operation in Hr at 1. erewrite M_bind_run in Hr; [| reflexivity].
  cbn [committed working] in Hr. upd_simpl.
  set (op' := op &{ lo_status := OpRunning } &{ lo_error := None }) in Hr.
  set (O := t_set _ _ _) in Hr.
  apply cleanup_body_ok in Hr as (O' & A & Hc); [| done | done]. cbn [working] in Hc.
  exists O', A, (working s1). split; [done |]. split; [exact Hc | done].
Qed.

Lemma has_delivery_spec id db :
  has_delivery id db = false <->
  forall k d, t_get k (db_deliveries db) = Some d -> d_event_id d <> id.
Proof.
  unfold has_delivery. destruct (t_find _ _) as [d|] eqn:E; cbn; split; try done.
  - intros Hall. apply t_find_some in E as [Hp%Z.eqb_eq [k Hk]]. by destruct (Hall k d Hk).
  - intros _ k d Hk Hid. eapply t_find_none in E; [| exact Hk]. by apply Z.eqb_neq in E.
Qed.

Lemma forget_events_ok ids db :
  plane_ok settings db -> (forall id, id ∈ ids -> has_delivery id db = false) ->
  plane_ok settings (db &{ db_events := t_delete ids (db_events db) }).
Proof.
  intros [[K1 K2 K3 K4 K5 K6 K7 K8 K9] H1 H2 H3 Hf] Hids.
  assert (forall k d, t_get k (db_deliveries db) = Some d -> d_event_id d ∉ ids) as Hkeep.
  { intros k d Hd Hin. by apply (proj1 (has_delivery_spec _ _) (Hids _ Hin) k d). }
  assert (forall k e, t_get k (t_delete ids (db_events db)) = Some e -> t_get k (db_events db) = Some e)
    as Hsub by (intros k e; rewrite t_get_delete; by case_decide).
  split; [split | | | |]; upd_simpl; try done.
  - intros k d Hd Ht. destruct (K4 k d Hd Ht) as [ee Hee]. exists ee. revert Hee.
    unfold envelope_of. upd_simpl. by rewrite t_get_delete, decide_False by by eapply Hkeep.
  - by apply t_wf_delete.
  - intros k e He%Hsub. by apply H2.
  - intros k k' e e' He%Hsub He'%Hsub. by apply H3.
  - intros k d Hd. rewrite t_get_delete, decide_False by by eapply Hkeep. by eapply Hf.
Qed.

Lemma cleaned_ok now org db r db' :
  plane_ok settings db -> cleaned now org db r db' -> plane_ok settings db'.
Proof.
  intros Hok. destruct 1 as [|ds Hnd _ Hds|ids _ _ _|ids _ _ Hids|].
  - done.
  - apply plane_ok_set_all; [done | | done |].
    + apply list.Forall_forall. intros d Hd. by apply Hds.
    + intros d Hd. by apply Hds.
  - by apply delete_deliveries_ok.
  - apply forget_events_ok; [done |]. intros id Hid. destruct (Hids id Hid) as (e & _ & _ & Hn). done.
  - by apply delete_organization_ok.
Qed.

(** A row another tenant, or a worker with a live lease, still needs. *)
Definition spared (now : datetime) (organization_id : Z) (db : Db) (d : Delivery) : Prop :=
  ~ delivery_of_organization organization_id db d \/ live now d = true.

Lemma foldl_set_other now ds t k :
  k ∉ map d_id ds ->
  t_get k (foldl (fun t d => t_set (d_id (deletion_canceled now d)) (deletion_canceled now d) t) t ds)
  = t_get k t.
Proof.
  revert t; induction ds as [| d ds IH]; intros t Hk; [done |]. cbn in *.
  rewrite IH by set_solver. rewrite t_get_set. apply decide_False. set_solver.
Qed.

Lemma live_not_cancellable now d : live now d = true -> cancellable now d = false.
Proof.
  unfold live, cancellable. rewrite andb_true_iff, bool_decide_eq_true. intros [-> Hl].
  destruct (d_lease_expires_at d); [lia | done].
Qed.

Lemma has_live_spec o now db k d :
  has_live_delivery o now db = false -> t_get k (db_deliveries db) = Some d ->
  d_organization_id d = o -> live now d = false.
Proof.
  unfold has_live_delivery. destruct (t_find _ _) eqn:E; [done |]. intros _ Hd Ho.
  eapply t_find_none in E; [| exact Hd]. by rewrite Ho, Z.eqb_refl in E.
Qed.

(** Deliveries of the organization reference its own events and endpoints. *)
Definition tenant_rows (db : Db) : Prop := forall o k d,
  t_get k (db_deliveries db) = Some d -> delivery_of_organization o db d -> d_organization_id d = o.

Lemma empty_no_delivery o db k d :
  organization_is_empty o db = true -> t_get k (db_deliveries db) = Some d -> d_organization_id d <> o.
Proof.
  unfold organization_is_empty. intros [Hn _]%andb_true_iff Hd Ho.
  apply negb_true_iff in Hn.
  assert (d ∈ t_where (fun d => d_organization_id d =? o) (db_deliveries db)) as Hin.
  { apply t_where_spec. split; [by apply Z.eqb_eq | eauto]. }
  destruct (t_where _ _); [by apply not_elem_of_nil in Hin | done].
Qed.

Lemma cleaned_spares now org db r db' k d :
  plane_ok settings db -> tenant_rows db -> cleaned now org db r db' ->
  t_get k (db_deliveries db) = Some d -> spared now (o_id org) db d ->
  exists d', t_get k (db_deliveries db') = Some d' /\
    (d' = d \/ d' = d &{ d_replay_of_delivery_id := None }).
Proof.
  intros Hok Htr Hc Hd Hsp. pose proof (dbo_keyed _ _ (pl_deliveries _ _ Hok)) as Hkeyed.
  destruct Hc as [|ds Hnd _ Hds|ids Hl _ Hids|ids _ _ Hids|Hempty]; upd_simpl; [by eauto | | | by eauto |].
  - rewrite foldl_set_other; [by eauto |]. intros (d0 & -> & Hin)%list_elem_of_fmap.
    destruct (Hds d0 Hin) as (Ho & Hca & Hg). rewrite Hg in Hd. injection Hd as <-.
    destruct Hsp as [Hn|Hl]; [apply Hn; by left |].
    by rewrite (live_not_cancellable _ _ Hl) in Hca.
  - apply delete_deliveries_kept; [done |]. intros Hin.
    destruct (Hids k Hin) as (d0 & Hd0 & Ho). rewrite Hd in Hd0. injection Hd0 as <-.
    destruct Hsp as [Hn|Hl']; [apply Hn; by left |].
    by rewrite (has_live_spec _ _ _ _ _ Hl Hd Ho) in Hl'.
  - apply delete_organization_kept; [done | done |]. intros Hof.
    by apply (empty_no_delivery _ _ _ _ Hempty Hd), (Htr _ _ _ Hd).
Qed.
End Cleanup.

(** ** A deployment in retention *)

Module RetentionDemo.
Definition policy : OrganizationPolicy :=
  {| pol_organization_id := 1; pol_plan := FreePlan; pol_payload_retention_days := 30;
     pol_response_retention_days := 30; pol_created_at := 0; pol_updated_at := 0 |}.
(** A delivery of another tenant, due. *)
Definition neighbour : Delivery :=
  (Demo.delivery 50 2 9 0 (days 400)) &{ d_event_id := 5 }.
Definition neighbour_event : Event := (Site.event 5) &{ ev_project_id := 2 }.
Definition db : Db :=
  ReplayDemo.db &{ db_policies := {[1 := policy]} }
    &{ db_events := Table (list_to_map [(1, DataDemo.event); (5, neighbour_event)]) 6 }
    &{ db_deliveries := Table (list_to_map [(1, ReplayDemo.dead_row); (50, neighbour)]) 51 }.

Lemma deliveries_cases k d :
  t_get k (db_deliveries db) = Some d -> (k = 1 /\ d = ReplayDemo.dead_row) \/ (k = 50 /\ d = neighbour).
Proof.
  unfold db. upd_simpl. unfold t_get. cbn [rows]. intros Hd. apply elem_of_list_to_map_2 in Hd.
  rewrite !elem_of_cons in Hd.
  destruct Hd as [[= -> ->]|[[= -> ->]|Hd]]; [by left | by right | inversion Hd].
Qed.

Lemma events_cases k e :
  t_get k (db_events db) = Some e -> (k = 1 /\ e = DataDemo.event) \/ (k = 5 /\ e = neighbour_event).
Proof.
  unfold db. upd_simpl. unfold t_get. cbn [rows]. intros Hd. apply elem_of_list_to_map_2 in Hd.
  rewrite !elem_of_cons in Hd.
  destruct Hd as [[= -> ->]|[[= -> ->]|Hd]]; [by left | by right | inversion Hd].
Qed.

Lemma plane_of db' :
  db_events db' = db_events db -> db_deliveries db' = db_deliveries db ->
  db_attempts db' = empty_table -> db_quotas db' = ∅ -> plane_ok default_settings db'.
Proof.
  intros E1 E2 E3 E4.
  split; [split | | | |]; rewrite ?E1, ?E2, ?E3, ?E4.
  - intros k d [[-> ->]|[-> ->]]%deliveries_cases; reflexivity.
  - intros k [d [[-> _]|[-> _]]%deliveries_cases]; reflexivity.
  - intros k d [[_ ->]|[_ ->]]%deliveries_cases; by split.
  - intros k d Hd Ht. unfold envelope_of. rewrite E1.
    apply deliveries_cases in Hd as [[_ ->]|[_ ->]]; [discriminate Ht |].
    eexists. vm_compute. reflexivity.
  - apply map_Forall_empty.
  - intros k d [[_ ->]|[_ ->]]%deliveries_cases Hp; discriminate Hp.
  - intros k a Ha. by rewrite t_get_empty in Ha.
  - intros k [a Ha]. change (t_get k (@empty_table DeliveryAttempt) = Some a) in Ha.
    by rewrite t_get_empty in Ha.
  - intros k k' a a' Ha. by rewrite t_get_empty in Ha.
  - intros k [e [[-> _]|[-> _]]%events_cases]; reflexivity.
  - intros k e [[-> ->]|[-> ->]]%events_cases; vm_compute; reflexivity.
  - intros k k' e e' [[-> ->]|[-> ->]]%events_cases [[-> ->]|[-> ->]]%events_cases _ Hkey;
      try reflexivity; exfalso; revert Hkey; vm_compute; congruence.
  - intros k d [[_ ->]|[_ ->]]%deliveries_cases; eexists; vm_compute; reflexivity.
Qed.

Lemma retention_plane : plane_ok default_settings db.
Proof. by apply plane_of. Qed.
Definition now : datetime := days 400.
Definition purge (db : Db) : Db :=
  (run (purge_event_payloads default_settings now (fun _ => true) id) db).2.
Definition replay := run (@replay_delivery exact_rounding default_settings (fun _ => false)
  ReplayDemo.uuid now now id purge 1 (py "proj") (DataDemo.uuid 1)) db.
Definition replay_db : Db := replay.2.

Definition purge_result : LifecycleRunResult := no_result &{ payloads_purged := 1 }.
Definition purged_db : Db := purge db.
Lemma purge_demo_ok : run (purge_event_payloads default_settings now (fun _ => true) id) db
  = (Ok purge_result, purged_db).
Proof. unfold purged_db, purge, purge_result. vm_compute. reflexivity. Qed.

(** The organization is due for deletion. *)
Definition operation : OrganizationLifecycleOperation :=
  {| lo_id := 1; lo_public_id := py "op"; lo_organization_id := 1;
     lo_requested_by_user_id := Some 1; lo_status := OpPending; lo_scheduled_at := 0;
     lo_created_at := 0; lo_completed_at := None; lo_error := None |}.
Definition all : Z -> bool := fun _ => true.
Definition lk : locks := Locks all all all all all.
Definition leaving : Db :=
  db &{ db_organizations := Table {[1 := TenancyDemo.organization DeletionPending]} 2 }
     &{ db_operations := Table {[1 := operation]} 2 }.
Lemma leaving_plane : plane_ok default_settings leaving.
Proof. by apply plane_of. Qed.

Lemma tenants : tenant_rows leaving.
Proof.
  intros o k d Hd Hof. unfold leaving in Hd. upd_simpl.
  assert (forall kp p, t_get kp (db_projects leaving) = Some p -> p = TenancyDemo.project) as Hproj.
  { intros kp p Hp. assert (db_projects leaving = Table {[1 := TenancyDemo.project]} 2) as E
      by (vm_compute; reflexivity).
    rewrite E in Hp. unfold t_get in Hp. cbn [rows] in Hp. by apply lookup_singleton_Some in Hp as [_ <-]. }
  apply deliveries_cases in Hd as [[_ ->]|[_ ->]];
    destruct Hof as [Ho|[(ke & e & kp & p & He & Hid & Hp & Hpid & <-)|
                          (ke & e & kp & p & He & Hid & Hp & Hpid & <-)]]; try exact Ho;
    rewrite (Hproj _ _ Hp) in *; try reflexivity; exfalso.
  - change (t_get ke (db_events db) = Some e) in He.
    apply events_cases in He as [[-> ->]|[-> ->]]; [| discriminate Hpid].
    revert Hid. vm_compute. discriminate.
  - assert (t_keyed e_id (db_endpoints leaving)) as Hkeyed.
    { enough (map_Forall (fun k e => e_id e = k) (rows (db_endpoints leaving))) as Hall by exact Hall.
      refine (bool_decide_unpack _ _). vm_compute. exact I. }
    pose proof (Hkeyed _ _ He) as Hke. rewrite Hid in Hke. subst ke.
    assert (t_get 9 (db_endpoints leaving) = None) as E by (vm_compute; reflexivity).
    change (d_endpoint_id neighbour) with 9 in He. rewrite E in He. discriminate He.
Qed.

Definition step (db : Db) : Db :=
  (run (cleanup_due_organization default_settings (fun _ => false) (py "a") now now lk) db).2.
Definition step_result : LifecycleRunResult := no_result &{ deliveries_deleted := 1 }.
Lemma step_ok :
  run (cleanup_due_organization default_settings (fun _ => false) (py "a") now now lk) leaving
  = (Ok step_result, step leaving).
Proof. unfold step, step_result. vm_compute. reflexivity. Qed.
End RetentionDemo.

(** ** Claims *)

(** Payload retention.  Whatever commits between the locking query and the
    second look, a pass purges at most a batch of events; each was older than
    its organization's retention period, and none has a delivery that is still
    pending, leased or waiting for a retry, so that no claim ever misses its
    envelope: the data-plane invariant is kept.  Nothing but those payloads
    changes. *)
Theorem purge_event_payloads_correct settings now unlocked others db r db' :
  run (purge_event_payloads settings now unlocked others) db = (Ok r, db') ->
  plane_ok settings (others db) ->
  exists ids, payloads_purged r = len ids /\
    len ids <= Z.max 0 (lifecycle_cleanup_batch_size settings) /\
    (forall id, id ∈ ids ->
       (forall k d, t_get k (db_deliveries (others db)) = Some d -> d_event_id d = id ->
          terminal (d_status d) = true) /\
       exists k e p policy, t_get k (db_events db) = Some e /\ ev_id e = id /\
         project_of db e = Some p /\ db_policies db !! p_organization_id p = Some policy /\
         ev_created_at e <= now - days (pol_payload_retention_days policy)) /\
    (exists evs, db' = (others db) &{ db_events := evs } /\ forall k, t_get k evs =
       if decide (k ∈ ids) then purged_event now <$> t_get k (db_events (others db))
       else t_get k (db_events (others db))) /\
    plane_ok settings db'.
Proof.
  intros Hr Hok. pose proof (purge_event_payloads_plane _ _ _ _ _ _ _ Hr Hok) as Hok'.
  apply purge_event_payloads_ok in Hr as (ids & Hsize & Hn & Hids & evs & -> & _ & Hevs).
  exists ids. split; [done |]. split; [done |]. split; [| split; [by exists evs | done]].
  intros id Hid. destruct (Hids id Hid) as (Hsafe & k & e & He & Heid & Hexp).
  split; [by apply has_nonterminal_spec |].
  unfold payload_expired in Hexp. rewrite !andb_true_iff in Hexp. destruct Hexp as [_ Hexp].
  destruct (project_of db e) as [p|] eqn:Ep; [| done]. cbn in Hexp. unfold policy_of in Hexp.
  destruct (db_policies db !! p_organization_id p) as [policy|] eqn:Epol; [| done].
  apply Z.leb_le in Hexp. exists k, e, p, policy. done.
Qed.

(** The second look does not cover replays.  A replay checks the
    payload, waits for the admission rows, and inserts its delivery; a payload
    purge that commits during the wait sees no open delivery.  The replay is
    accepted, its delivery has no envelope, and from then on every claim that
    selects it fails as a whole: a due delivery of another tenant is not
    claimed either. *)
Theorem replay_purge_race_blocks_claims :
  run (@replay_delivery exact_rounding default_settings (fun _ => false) ReplayDemo.uuid
         RetentionDemo.now RetentionDemo.now id RetentionDemo.purge 1 (py "proj") (DataDemo.uuid 1))
    RetentionDemo.db
  = (Ok (replay_copy (ReplayDemo.uuid 0) ReplayDemo.dead_row RetentionDemo.now 51),
     RetentionDemo.replay_db) /\
  (exists e, run (@claim_due exact_rounding default_settings (RetentionDemo.now + second)
                    (fun _ => true) ReplayDemo.uuid 10) RetentionDemo.replay_db
             = (Raise e, RetentionDemo.replay_db) /\ status_code e = 500) /\
  t_get 50 (db_deliveries RetentionDemo.replay_db) = Some RetentionDemo.neighbour /\
  due (RetentionDemo.now + second) RetentionDemo.neighbour = true /\
  is_Some (envelope_of RetentionDemo.neighbour RetentionDemo.replay_db).
Proof.
  split; [unfold RetentionDemo.replay_db, RetentionDemo.replay; vm_compute; reflexivity |].
  split; [| split; [vm_compute; reflexivity | split; [vm_compute; reflexivity |]]].
  - eexists. split; [vm_compute; reflexivity | reflexivity].
  - eexists. vm_compute. reflexivity.
Qed.

Lemma purge_event_payloads_correct_witness : payloads_purged RetentionDemo.purge_result = 1.
Proof.
  destruct (purge_event_payloads_correct default_settings RetentionDemo.now (fun _ => true) id
    RetentionDemo.db RetentionDemo.purge_result RetentionDemo.purged_db RetentionDemo.purge_demo_ok)
    as (ids & Hn & _).
  - exact RetentionDemo.retention_plane.
  - rewrite Hn. revert Hn. cbn. intros <-. reflexivity.
Defined.

(** C33: deletion of an organization.  A cleanup step either does nothing, or
    works on one organization in the deletion-pending state whose deletion is
    due.  The deliveries of every other organization stay, and so does every
    delivery a worker still holds a live lease on; the organization itself goes
    only when none of its deliveries and events are left; and the data-plane
    invariant is kept. *)
Theorem cleanup_due_organization_correct settings unicode_alnum uuid clock now lk db r db' :
  run (cleanup_due_organization settings unicode_alnum uuid clock now lk) db = (Ok r, db') ->
  plane_ok settings db -> tenant_rows db ->
  plane_ok settings db' /\
  ((r = no_result /\ db' = db) \/
   exists op org, due_deletion now db op org /\
     (forall k d, t_get k (db_deliveries db) = Some d ->
        ~ delivery_of_organization (o_id org) db d \/ live now d = true ->
        exists d', t_get k (db_deliveries db') = Some d' /\
          (d' = d \/ d' = d &{ d_replay_of_delivery_id := None })) /\
     ((organizations_deleted r = 0 /\ db_organizations db' = db_organizations db) \/
      (organizations_deleted r = 1 /\ organization_is_empty (o_id org) db = true /\
       db_organizations db' = t_remove (fun o => o_id o =? o_id org) (db_organizations db)))).
Proof.
  intros Hr Hok Htr.
  apply cleanup_ok in Hr as [[-> ->]|(op & org & O & A & db1 & Hdue & Hc & ->)];
    [by auto | | apply Hok | apply Hok].
  assert (plane_ok settings (db &{ db_operations := O } &{ db_audits := A })) as Hok1
    by (by eapply plane_ok_frame).
  split; [by eapply cleaned_ok |]. right. exists op, org. split; [done |]. split.
  - intros k d Hd Hsp. exact (cleaned_spares settings unicode_alnum now org _ r db1 k d Hok1 Htr Hc Hd Hsp).
  - destruct Hc as [| | | |Hempty]; [by left .. |]. right. by split.
Qed.

Lemma cleanup_due_organization_correct_witness :
  plane_ok default_settings (RetentionDemo.step RetentionDemo.leaving).
Proof.
  exact (proj1 (cleanup_due_organization_correct default_settings (fun _ => false) (py "a")
    RetentionDemo.now RetentionDemo.now RetentionDemo.lk RetentionDemo.leaving
    RetentionDemo.step_result (RetentionDemo.step RetentionDemo.leaving)
    RetentionDemo.step_ok RetentionDemo.leaving_plane RetentionDemo.tenants)).
Defined.
