(* ===== verification/Tenancy.v ===== *)
(** * Organizations, members and projects

    The management half of [WebhookService]
    ([src/app/services/webhook_service.py]) that decides who belongs to a
    tenant: organizations with their owners, the retention policy, the deletion
    request and its cancellation, projects and their members. *)

From Stdlib Require Import QArith.
From stdpp Require Import sorting.
From stdpp Require Import base tactics list gmap sets strings numbers option.
From S2P Require Import Prelude Crypto Json Models Session Settings Admission Scheduling.
From S2P Require Import WebhookSecurity Delivery Authorization AuditLog Events EventSafety.
From S2P Require Import ReplaySafety.
Local Open Scope Z_scope.

Definition org_role_value (r : OrganizationRole) : str :=
  match r with OWNER => py "owner" | ADMIN => py "admin" | MEMBER => py "member" end.
Definition project_role_value (r : ProjectRole) : str :=
  match r with PADMIN => py "admin" | OPERATOR => py "operator" | VIEWER => py "viewer" end.

(** [OrganizationPolicyUpdate] with [exclude_unset]: the fields that were sent. *)
Record PolicyChanges : Type := PolicyChange {
  pc_plan : option Plan;
  pc_payload_retention_days : option Z;
  pc_response_retention_days : option Z;
}.

Section Tenancy.
Context `{Rounding} (settings : Settings) (unicode_alnum : Z -> bool).

Abbreviation audit := (audit unicode_alnum).

Definition membership (organization_id user_id : Z) (db : Db) : option OrganizationMember :=
  t_find (fun m => (om_organization_id m =? organization_id) && (om_user_id m =? user_id))
    (db_members db).

Definition project_membership (project_id user_id : Z) (db : Db) : option ProjectMember :=
  t_find (fun m => (pm_project_id m =? project_id) && (pm_user_id m =? user_id))
    (db_project_members db).

Definition organization_role (organization_id user_id : Z) : M OrganizationRole :=
  m ← gets (membership organization_id user_id);
  m ← of_option (NotFoundError "Organization member" (IdInt user_id)) m;
  mret (om_role m).

Definition require_owner_for_owner_change (organization : Organization) (user_id : Z)
    (current_role requested_role : option OrganizationRole) : M unit :=
  if negb (bool_decide (current_role = Some OWNER) || bool_decide (requested_role = Some OWNER))
  then mret ()
  else
    role ← organization_role (o_id organization) user_id;
    when (negb (bool_decide (role = OWNER)))
      (raise (ForbiddenError "Only an owner can change owner membership")).

Definition owners (organization_id : Z) (db : Db) : list OrganizationMember :=
  t_where (fun m => (om_organization_id m =? organization_id) && bool_decide (om_role m = OWNER))
    (db_members db).

Definition ensure_not_last_owner (organization_id : Z) (member : OrganizationMember) : M unit :=
  if negb (bool_decide (om_role member = OWNER)) then mret ()
  else
    l ← gets (owners organization_id);
    when (len l <=? 1) (raise (ConflictError "An organization must retain an owner")).

(** ** Organizations *)

Definition create_organization (uuid : nat -> str) (now : datetime) (user_id : Z) (name : str) :
    M Organization :=
  id ← gets (fun db => seq (db_organizations db));
  let organization id :=
    {| o_id := id; o_public_id := uuid 0%nat; o_name := name; o_lifecycle_state := Active;
       o_deletion_requested_at := None; o_deletion_scheduled_at := None; o_created_at := now |} in
  modify (fun db => db &{ db_organizations := t_add organization (db_organizations db) });;
  modify (fun db => db
    &{ db_tenants := <[id := tenant_quota_values id settings now]> (db_tenants db) }
    &{ db_policies := <[id :=
         {| pol_organization_id := id; pol_plan := FreePlan;
            pol_payload_retention_days := default_payload_retention_days settings;
            pol_response_retention_days := default_response_retention_days settings;
            pol_created_at := now; pol_updated_at := now |}]> (db_policies db) }
    &{ db_members := t_add (fun m =>
         {| om_id := m; om_organization_id := id; om_user_id := user_id; om_role := OWNER;
            om_created_at := now |}) (db_members db) });;
  authorized_org user_id (uuid 0%nat) ORG_READ false;;
  audit (uuid 1%nat) user_id (uuid 0%nat) "organization.created" "organization" now
    (Some (uuid 0%nat)) None None;;
  commit;;
  mret (organization id).

Fixpoint authorize_each (user_id : Z) (l : list Organization) : M (list Organization) :=
  match l with
  | [] => mret []
  | o :: l' =>
      o ← authorized_org user_id (o_public_id o) ORG_READ false;
      rest ← authorize_each user_id l';
      mret (o :: rest)
  end.

Definition list_organizations (user_id offset limit : Z) : M (list Organization) :=
  candidates ← gets (fun db => page offset limit
    (order_by (fun o => [- o_created_at o; - o_id o])
       (t_where (fun o => has (membership (o_id o) user_id db)) (db_organizations db))));
  authorize_each user_id candidates.

(** ** Members *)

Definition add_member (uuid : str) (now : datetime) (user_id : Z) (organization_id : str)
    (member_user_id : Z) (role : OrganizationRole) : M OrganizationMember :=
  organization ← authorized_org user_id organization_id MEMBER_MANAGE false;
  require_owner_for_owner_change organization user_id None (Some role);;
  user ← gets (fun db => t_get member_user_id (db_users db));
  _ ← of_option (NotFoundError "User" (IdInt member_user_id)) user;
  existing ← gets (membership (o_id organization) member_user_id);
  when (has existing) (raise (ConflictError "User is already an organization member"));;
  id ← gets (fun db => seq (db_members db));
  let member id :=
    {| om_id := id; om_organization_id := o_id organization; om_user_id := member_user_id;
       om_role := role; om_created_at := now |} in
  modify (fun db => db &{ db_members := t_add member (db_members db) });;
  audit uuid user_id (o_public_id organization) "organization.member_added"
    "organization_member" now None None
    (Some [(py "member_user_id", JInt member_user_id); (py "role", JStr (org_role_value role))]);;
  commit;;
  mret (member id).

Definition list_members (user_id : Z) (organization_id : str) (offset limit : Z) :
    M (list OrganizationMember) :=
  organization ← authorized_org user_id organization_id ORG_READ false;
  gets (fun db => page offset limit
    (order_by (fun m => [om_created_at m; om_id m])
       (t_where (fun m => om_organization_id m =? o_id organization) (db_members db)))).

Definition put_member (m : OrganizationMember) : M unit :=
  modify (fun db => db &{ db_members := t_set (om_id m) m (db_members db) }).

Definition update_member (uuid : str) (now : datetime) (user_id : Z) (organization_id : str)
    (member_user_id : Z) (role : OrganizationRole) : M OrganizationMember :=
  organization ← authorized_org user_id organization_id MEMBER_MANAGE false;
  member ← gets (membership (o_id organization) member_user_id);
  member ← of_option (NotFoundError "Organization member" (IdInt member_user_id)) member;
  require_owner_for_owner_change organization user_id (Some (om_role member)) (Some role);;
  when (bool_decide (om_role member = OWNER) && negb (bool_decide (role = OWNER)))
    (ensure_not_last_owner (o_id organization) member);;
  put_member (member &{ om_role := role });;
  audit uuid user_id (o_public_id organization) "organization.member_updated"
    "organization_member" now None None
    (Some [(py "member_user_id", JInt member_user_id);
           (py "previous_role", JStr (org_role_value (om_role member)));
           (py "current_role", JStr (org_role_value role))]);;
  commit;;
  mret (member &{ om_role := role }).

Definition in_organization (organization_id : Z) (db : Db) (project_id : Z) : bool :=
  match t_get project_id (db_projects db) with
  | Some p => p_organization_id p =? organization_id
  | None => false
  end.

Definition remove_member (uuid : str) (now : datetime) (user_id : Z) (organization_id : str)
    (member_user_id : Z) : M unit :=
  organization ← authorized_org user_id organization_id MEMBER_MANAGE false;
  member ← gets (membership (o_id organization) member_user_id);
  member ← of_option (NotFoundError "Organization member" (IdInt member_user_id)) member;
  require_owner_for_owner_change organization user_id (Some (om_role member)) None;;
  ensure_not_last_owner (o_id organization) member;;
  modify (fun db => db &{ db_project_members :=
    t_remove (fun pm => (pm_user_id pm =? member_user_id)
                        && in_organization (o_id organization) db (pm_project_id pm))
      (db_project_members db) });;
  modify (fun db => db &{ db_members := t_delete [om_id member] (db_members db) });;
  audit uuid user_id (o_public_id organization) "organization.member_removed"
    "organization_member" now None None
    (Some [(py "member_user_id", JInt member_user_id);
           (py "previous_role", JStr (org_role_value (om_role member)))]);;
  commit.

(** ** Policy and audit *)

Definition get_policy (user_id : Z) (organization_id : str) : M OrganizationPolicy :=
  organization ← authorized_org user_id organization_id POLICY_MANAGE false;
  policy ← gets (fun db => db_policies db !! o_id organization);
  of_option (RuntimeError "Organization policy is unavailable") policy.

Definition apply_policy (ch : PolicyChanges) (p : OrganizationPolicy) : OrganizationPolicy :=
  p &{ pol_plan := default (pol_plan p) (pc_plan ch) }
    &{ pol_payload_retention_days :=
         default (pol_payload_retention_days p) (pc_payload_retention_days ch) }
    &{ pol_response_retention_days :=
         default (pol_response_retention_days p) (pc_response_retention_days ch) }.

(** [sorted(changes)] *)
Definition policy_changed (ch : PolicyChanges) : list json :=
  (if has (pc_payload_retention_days ch) then [JStr (py "payload_retention_days")] else []) ++
  (if has (pc_plan ch) then [JStr (py "plan")] else []) ++
  (if has (pc_response_retention_days ch) then [JStr (py "response_retention_days")] else []).

Definition update_policy (uuid : str) (now : datetime) (user_id : Z) (organization_id : str)
    (changes : PolicyChanges) : M OrganizationPolicy :=
  organization ← authorized_org user_id organization_id POLICY_MANAGE false;
  policy ← gets (fun db => db_policies db !! o_id organization);
  policy ← of_option (RuntimeError "Organization policy is unavailable") policy;
  let policy := (apply_policy changes policy) &{ pol_updated_at := now } in
  modify (fun db => db &{ db_policies := <[o_id organization := policy]> (db_policies db) });;
  audit uuid user_id (o_public_id organization) "organization.policy_updated"
    "organization_policy" now None None
    (Some [(py "changed_fields", JList (policy_changed changes))]);;
  commit;;
  mret policy.

Definition list_audit_events (user_id : Z) (organization_id : str)
    (action resource_type : option str) (limit : Z) (before_created_at : option datetime)
    (before_id : option Z) : M (list AdministrativeAuditEvent) :=
  organization ← authorized_org user_id organization_id AUDIT_READ false;
  when (has before_id && negb (has before_created_at))
    (raise (ValidationError "Audit cursor timestamp is required with cursor ID" None));;
  r ← gets (list_audit (o_public_id organization) action resource_type limit before_created_at
              before_id);
  of_res r.

(** ** Deletion *)

Definition active_operation (organization_id : Z) (db : Db) :
    option OrganizationLifecycleOperation :=
  t_find (fun o => (lo_organization_id o =? organization_id)
                   && match lo_status o with OpPending | OpRunning => true | _ => false end)
    (db_operations db).

Definition put_organization (o : Organization) : M unit :=
  modify (fun db => db &{ db_organizations := t_set (o_id o) o (db_organizations db) }).
Definition put_operation (o : OrganizationLifecycleOperation) : M unit :=
  modify (fun db => db &{ db_operations := t_set (lo_id o) o (db_operations db) }).

(** [others] commit while the request waits for the organization row. *)
Definition request_organization_deletion (uuid : nat -> str) (now : datetime) (others : Db -> Db)
    (user_id : Z) (organization_id : str) : M OrganizationLifecycleOperation :=
  organization ← authorized_org user_id organization_id ORG_DELETE true;
  wait others;;
  organization ← gets (fun db => t_get (o_id organization) (db_organizations db));
  organization ← of_option (NotFoundError "Organization" (IdStr organization_id)) organization;
  existing ← gets (active_operation (o_id organization));
  match existing with
  | Some operation => commit;; mret operation
  | None =>
      let scheduled_at := now + hours (organization_deletion_grace_hours settings) in
      id ← gets (fun db => seq (db_operations db));
      let operation id :=
        {| lo_id := id; lo_public_id := uuid 0%nat; lo_organization_id := o_id organization;
           lo_requested_by_user_id := Some user_id; lo_status := OpPending;
           lo_scheduled_at := scheduled_at; lo_created_at := now; lo_completed_at := None;
           lo_error := None |} in
      put_organization (organization &{ o_lifecycle_state := DeletionPending }
                                     &{ o_deletion_requested_at := Some now }
                                     &{ o_deletion_scheduled_at := Some scheduled_at });;
      modify (fun db => db &{ db_operations := t_add operation (db_operations db) });;
      audit (uuid 1%nat) user_id (o_public_id organization) "organization.deletion_requested"
        "organization" now (Some (o_public_id organization)) None
        (Some [(py "operation_public_id", JStr (uuid 0%nat));
               (py "scheduled_at", JStr (isoformat scheduled_at))]);;
      commit;;
      mret (operation id)
  end.

Definition get_organization_deletion (user_id : Z) (organization_id : str) :
    M OrganizationLifecycleOperation :=
  organization ← authorized_org user_id organization_id ORG_READ false;
  operation ← gets (fun db => head (order_by (fun o => [- lo_created_at o; - lo_id o])
    (t_where (fun o => lo_organization_id o =? o_id organization) (db_operations db))));
  of_option (NotFoundError "Organization deletion" (IdStr organization_id)) operation.

Definition cancel_organization_deletion (uuid : str) (now : datetime) (others : Db -> Db)
    (user_id : Z) (organization_id : str) : M OrganizationLifecycleOperation :=
  organization ← authorized_org user_id organization_id ORG_DELETE true;
  wait others;;
  organization ← gets (fun db => t_get (o_id organization) (db_organizations db));
  organization ← of_option (NotFoundError "Organization" (IdStr organization_id)) organization;
  operation ← gets (active_operation (o_id organization));
  operation ← of_option (ConflictError "Organization deletion is not pending") operation;
  when (bool_decide (lo_status operation = OpRunning))
    (raise (ConflictError "Organization deletion is already running"));;
  put_operation (operation &{ lo_status := OpCanceled } &{ lo_completed_at := Some now });;
  put_organization (organization &{ o_lifecycle_state := Active }
                                 &{ o_deletion_requested_at := None }
                                 &{ o_deletion_scheduled_at := None });;
  audit uuid user_id (o_public_id organization) "organization.deletion_canceled" "organization" now
    (Some (o_public_id organization)) None
    (Some [(py "operation_public_id", JStr (lo_public_id operation))]);;
  commit;;
  mret (operation &{ lo_status := OpCanceled } &{ lo_completed_at := Some now }).
End Tenancy.

(** ** Projects *)

Section Projects.
Context (unicode_alnum : Z -> bool).

Abbreviation audit := (audit unicode_alnum).

(** [self.db.add(project); await self.db.flush()]: the unique index
    [uq_projects_name] is checked here. *)
Definition flush_project (mk : Z -> Project) : M Z :=
  id ← gets (fun db => seq (db_projects db));
  clash ← gets (fun db => has (t_find (fun p =>
    (p_organization_id p =? p_organization_id (mk id)) && str_eqb (p_name p) (p_name (mk id)))
    (db_projects db)));
  when clash (raise IntegrityError);;
  modify (fun db => db &{ db_projects := t_add mk (db_projects db) });;
  mret id.

(** [try: commit except IntegrityError: rollback; raise ConflictError]: the
    rows have been flushed before, so the commit itself finds nothing. *)
Definition commit_project : M unit := commit.

Definition create_project (uuid : nat -> str) (now : datetime) (user_id : Z)
    (organization_id name : str) : M Project :=
  organization ← authorized_org user_id organization_id PROJECT_MANAGE false;
  let project id :=
    {| p_id := id; p_public_id := uuid 0%nat; p_organization_id := o_id organization;
       p_name := name; p_is_active := true; p_created_at := now |} in
  id ← flush_project project;
  modify (fun db => db &{ db_project_members := t_add (fun m =>
    {| pm_id := m; pm_project_id := id; pm_user_id := user_id; pm_role := PADMIN;
       pm_created_at := now |}) (db_project_members db) });;
  audit (uuid 1%nat) user_id (o_public_id organization) "project.created" "project" now
    (Some (uuid 0%nat)) (Some (uuid 0%nat)) None;;
  commit_project;;
  mret (project id).

(** The projects of the page the user may read; the ones hidden from him are
    skipped. *)
Fixpoint visible_projects (user_id : Z) (candidates : list Project) : M (list Project) :=
  match candidates with
  | [] => mret []
  | p :: l =>
      fun s =>
        match authorize_project (working s) user_id (p_public_id p) PROJECT_READ false with
        | Ok p' => (rest ← visible_projects user_id l; mret (p' :: rest)) s
        | Raise (NotFoundError _ _) => visible_projects user_id l s
        | Raise e => (Raise e, s)
        end
  end.

Definition list_projects (user_id : Z) (organization_id : str) (offset limit : Z) :
    M (list Project) :=
  organization ← authorized_org user_id organization_id ORG_READ false;
  candidates ← gets (fun db => page offset limit
    (order_by (fun p => [- p_created_at p; - p_id p])
       (t_where (fun p => p_organization_id p =? o_id organization) (db_projects db))));
  visible_projects user_id candidates.

Definition put_project (p : Project) : M unit :=
  modify (fun db => db &{ db_projects := t_set (p_id p) p (db_projects db) }).

Definition deactivate_project (uuid : str) (now : datetime) (user_id : Z) (project_id : str) :
    M Project :=
  project ← authorized user_id project_id PROJECT_MANAGE;
  put_project (project &{ p_is_active := false });;
  organization_public_id ← project_organization_id project;
  audit uuid user_id organization_public_id "project.deactivated" "project" now
    (Some (p_public_id project)) (Some (p_public_id project)) None;;
  commit;;
  mret (project &{ p_is_active := false }).

(** ** Project members *)

Definition new_project_member (project : Project) (member_user_id : Z) (role : ProjectRole)
    (now : datetime) (id : Z) : ProjectMember :=
  {| pm_id := id; pm_project_id := p_id project; pm_user_id := member_user_id; pm_role := role;
     pm_created_at := now |}.

Definition put_project_member (m : ProjectMember) : M unit :=
  modify (fun db => db &{ db_project_members := t_set (pm_id m) m (db_project_members db) }).

Definition add_project_member (uuid : str) (now : datetime) (user_id : Z) (project_id : str)
    (member_user_id : Z) (role : ProjectRole) : M ProjectMember :=
  project ← authorized user_id project_id PROJECT_MANAGE;
  organization_member ← gets (membership (p_organization_id project) member_user_id);
  _ ← of_option (NotFoundError "Organization member" (IdInt member_user_id)) organization_member;
  existing ← gets (project_membership (p_id project) member_user_id);
  when (has existing) (raise (ConflictError "User is already a project member"));;
  id ← gets (fun db => seq (db_project_members db));
  modify (fun db => db &{ db_project_members :=
    t_add (new_project_member project member_user_id role now) (db_project_members db) });;
  organization_public_id ← project_organization_id project;
  audit uuid user_id organization_public_id "project.member_added" "project_member" now None
    (Some (p_public_id project))
    (Some [(py "member_user_id", JInt member_user_id);
           (py "role", JStr (project_role_value role))]);;
  commit;;
  mret (new_project_member project member_user_id role now id).

Definition upsert_project_member (uuid : str) (now : datetime) (user_id : Z) (project_id : str)
    (member_user_id : Z) (role : ProjectRole) : M ProjectMember :=
  project ← authorized user_id project_id PROJECT_MANAGE;
  organization_member ← gets (membership (p_organization_id project) member_user_id);
  _ ← of_option (NotFoundError "Organization member" (IdInt member_user_id)) organization_member;
  existing ← gets (project_membership (p_id project) member_user_id);
  id ← gets (fun db => seq (db_project_members db));
  let member :=
    match existing with
    | Some m => m &{ pm_role := role }
    | None => new_project_member project member_user_id role now id
    end in
  match existing with
  | Some m => put_project_member (m &{ pm_role := role })
  | None => modify (fun db => db &{ db_project_members :=
      t_add (new_project_member project member_user_id role now) (db_project_members db) })
  end;;
  organization_public_id ← project_organization_id project;
  audit uuid user_id organization_public_id
    (if has existing then "project.member_updated" else "project.member_added")%string
    "project_member" now None (Some (p_public_id project))
    (Some ([(py "member_user_id", JInt member_user_id);
            (py "role", JStr (project_role_value role))] ++
           match existing with
           | Some m => [(py "previous_role", JStr (project_role_value (pm_role m)))]
           | None => []
           end));;
  commit;;
  mret member.

Definition list_project_members (user_id : Z) (project_id : str) (offset limit : Z) :
    M (list ProjectMember) :=
  project ← authorized user_id project_id PROJECT_MANAGE;
  gets (fun db => page offset limit
    (order_by (fun m => [pm_created_at m; pm_id m])
       (t_where (fun m => pm_project_id m =? p_id project) (db_project_members db)))).

Definition update_project_member (uuid : str) (now : datetime) (user_id : Z) (project_id : str)
    (member_user_id : Z) (role : ProjectRole) : M ProjectMember :=
  project ← authorized user_id project_id PROJECT_MANAGE;
  member ← gets (project_membership (p_id project) member_user_id);
  member ← of_option (NotFoundError "Project member" (IdInt member_user_id)) member;
  put_project_member (member &{ pm_role := role });;
  organization_public_id ← project_organization_id project;
  audit uuid user_id organization_public_id "project.member_updated" "project_member" now None
    (Some (p_public_id project))
    (Some [(py "member_user_id", JInt member_user_id);
           (py "previous_role", JStr (project_role_value (pm_role member)));
           (py "current_role", JStr (project_role_value role))]);;
  commit;;
  mret (member &{ pm_role := role }).

Definition remove_project_member (uuid : str) (now : datetime) (user_id : Z) (project_id : str)
    (member_user_id : Z) : M unit :=
  project ← authorized user_id project_id PROJECT_MANAGE;
  member ← gets (project_membership (p_id project) member_user_id);
  member ← of_option (NotFoundError "Project member" (IdInt member_user_id)) member;
  modify (fun db => db &{ db_project_members := t_delete [pm_id member] (db_project_members db) });;
  organization_public_id ← project_organization_id project;
  audit uuid user_id organization_public_id "project.member_removed" "project_member" now None
    (Some (p_public_id project))
    (Some [(py "member_user_id", JInt member_user_id);
           (py "previous_role", JStr (project_role_value (pm_role member)))]);;
  commit.
End Projects.

(** ** Export *)

(** The [dict] of [export_organization]: its counts in the order of the code,
    its rows cut to the limit, and the flag that says whether anything was cut. *)
Record OrganizationExport : Type := Export {
  x_generated_at : datetime;
  x_organization : Organization;
  x_policy : OrganizationPolicy;
  x_lifecycle : option OrganizationLifecycleOperation;
  x_counts : list (string * Z);
  x_members : list OrganizationMember;
  x_projects : list Project;
  x_api_keys : list (ApiKey * string);
  x_endpoints : list WebhookEndpoint;
  x_audit_events : list AdministrativeAuditEvent;
  x_truncated : bool;
}.

Section ExportOrganization.
Definition bounded_count {A} (limit : Z) (l : list A) : Z := len (take (Z.to_nat (limit + 1)) l).

Definition api_key_status (now : datetime) (k : ApiKey) : string :=
  if negb (k_is_active k) || has (k_revoked_at k) then "revoked"
  else if match k_expires_at k with Some t => t <=? now | None => false end then "expired"
  else "active".

Definition of_project_in {A} (organization_id : Z) (db : Db) (project_of : A -> Z) (a : A) : bool :=
  in_organization organization_id db (project_of a).

Definition attempt_in (organization_id : Z) (db : Db) (a : DeliveryAttempt) : bool :=
  match t_get (at_delivery_id a) (db_deliveries db) with
  | Some d => d_organization_id d =? organization_id
  | None => false
  end.

Definition export_of (now : datetime) (organization : Organization) (policy : OrganizationPolicy)
    (limit : Z) (audit_events : list AdministrativeAuditEvent) (db : Db) : OrganizationExport :=
  let o := o_id organization in
  let n := Z.to_nat (limit + 1) in
  let cut {A} (l : list A) := take (Z.to_nat limit) l in
  let members := take n (order_by (fun m => [om_id m])
    (t_where (fun m => om_organization_id m =? o) (db_members db))) in
  let projects := take n (order_by (fun p => [p_id p])
    (t_where (fun p => p_organization_id p =? o) (db_projects db))) in
  let api_keys := take n (order_by (fun k => [k_id k])
    (t_where (of_project_in o db k_project_id) (db_api_keys db))) in
  let endpoints := take n (order_by (fun e => [e_id e])
    (t_where (of_project_in o db e_project_id) (db_endpoints db))) in
  let bounded_counts :=
    [("members"%string, bounded_count limit (t_where (fun m => om_organization_id m =? o) (db_members db)));
     ("projects"%string, bounded_count limit (t_where (fun p => p_organization_id p =? o) (db_projects db)));
     ("project_members"%string,
        bounded_count limit (t_where (of_project_in o db pm_project_id) (db_project_members db)));
     ("api_keys"%string, bounded_count limit (t_where (of_project_in o db k_project_id) (db_api_keys db)));
     ("endpoints"%string, bounded_count limit (t_where (of_project_in o db e_project_id) (db_endpoints db)));
     ("events"%string, bounded_count limit (t_where (of_project_in o db ev_project_id) (db_events db)));
     ("deliveries"%string,
        bounded_count limit (t_where (fun d => d_organization_id d =? o) (db_deliveries db)));
     ("attempts"%string, bounded_count limit (t_where (attempt_in o db) (db_attempts db)))] in
  {| x_generated_at := now; x_organization := organization; x_policy := policy;
     x_lifecycle := head (order_by (fun op => [- lo_created_at op; - lo_id op])
       (t_where (fun op => lo_organization_id op =? o) (db_operations db)));
     x_counts := map (fun nv => (nv.1, Z.min nv.2 limit)) bounded_counts;
     x_members := cut members; x_projects := cut projects;
     x_api_keys := map (fun k => (k, api_key_status now k)) (cut api_keys);
     x_endpoints := cut endpoints; x_audit_events := cut audit_events;
     x_truncated :=
       (limit <? len members) || (limit <? len projects) || (limit <? len api_keys)
       || (limit <? len endpoints) || (limit <? len audit_events)
       || existsb (fun nv => limit <? nv.2) bounded_counts |}.

Definition export_organization (now : datetime) (user_id : Z) (organization_id : str) (limit : Z) :
    M OrganizationExport :=
  organization ← authorized_org user_id organization_id ORG_EXPORT false;
  policy ← gets (fun db => db_policies db !! o_id organization);
  policy ← of_option (RuntimeError "Organization policy is unavailable") policy;
  audit_events ← gets (list_audit (o_public_id organization) None None
                         (Z.min (limit + 1) 1000) None None);
  audit_events ← of_res audit_events;
  gets (export_of now organization policy limit audit_events).
End ExportOrganization.

(** ** Owners *)

Section Owners.
Definition has_owner (organization_id : Z) (db : Db) : Prop :=
  exists k m, t_get k (db_members db) = Some m /\ om_organization_id m = organization_id /\
    om_role m = OWNER.

Lemma owners_spec o db m :
  m ∈ owners o db <-> om_organization_id m = o /\ om_role m = OWNER /\
    exists k, t_get k (db_members db) = Some m.
Proof.
  unfold owners. rewrite t_where_spec, andb_true_iff, Z.eqb_eq, bool_decide_eq_true. tauto.
Qed.

(** Two owners: one is left when the other goes. *)
Lemma another_owner o db m :
  t_keyed om_id (db_members db) -> 1 < len (owners o db) ->
  exists m', t_get (om_id m') (db_members db) = Some m' /\ om_organization_id m' = o /\
    om_role m' = OWNER /\ om_id m' <> om_id m.
Proof.
  intros Hkeyed Hlen. pose proof (t_where_NoDup om_id
    (fun m => (om_organization_id m =? o) && bool_decide (om_role m = OWNER)) _ Hkeyed) as Hnd.
  fold (owners o db) in Hnd.
  assert (exists m', m' ∈ owners o db /\ om_id m' <> om_id m) as (m' & Hin & Hne).
  { destruct (owners o db) as [| m1 [| m2 l]]; [unfold len in Hlen; cbn in Hlen; lia .. |].
    cbn in Hnd. apply list.NoDup_cons in Hnd as [Hni _].
    destruct (decide (om_id m1 = om_id m)) as [E|E].
    - exists m2. split; [right; left |]. rewrite <- E. intros Heq. apply Hni. rewrite Heq. left.
    - exists m1. split; [left | done]. }
  apply owners_spec in Hin as (Ho & Hr & k & Hk). exists m'.
  pose proof (Hkeyed _ _ Hk) as Hid. rewrite <- Hid in Hk. done.
Qed.

Lemma membership_some o u db m :
  membership o u db = Some m ->
  om_organization_id m = o /\ om_user_id m = u /\ exists k, t_get k (db_members db) = Some m.
Proof.
  intros [Hp Hk]%t_find_some. apply andb_true_iff in Hp as [Hp Hu]. by rewrite !Z.eqb_eq in *.
Qed.

Lemma require_owner_ok o u c r s x s' :
  require_owner_for_owner_change o u c r s = (Ok x, s') ->
  s' = s /\ (c = Some OWNER \/ r = Some OWNER ->
    exists m, membership (o_id o) u (working s) = Some m /\ om_role m = OWNER).
Proof.
  unfold require_owner_for_owner_change. intros Hr.
  destruct (bool_decide (c = Some OWNER) || bool_decide (r = Some OWNER)) eqn:E; cbn [negb] in Hr.
  - unfold organization_role in Hr. m_inv.
    match goal with H : negb _ = false |- _ => apply negb_false_iff, bool_decide_eq_true in H end.
    split; [done |]. intros _. eauto.
  - apply mret_ok in Hr as [_ ->]. split; [done |]. intros Hor.
    apply orb_false_iff in E as [E1%bool_decide_eq_false E2%bool_decide_eq_false].
    by destruct Hor.
Qed.

Lemma ensure_not_last_owner_ok o m s x s' :
  ensure_not_last_owner o m s = (Ok x, s') ->
  s' = s /\ (om_role m = OWNER -> 1 < len (owners o (working s))).
Proof.
  unfold ensure_not_last_owner. case_bool_decide as E; cbn [negb]; intros Hr.
  - m_inv. split; [done |]. intros _. by apply Z.leb_gt.
  - by apply mret_ok in Hr as [_ ->].
Qed.

Context (unicode_alnum : Z -> bool).

Lemma update_member_ok uuid now user organization_id member_user role db m' db' :
  run (update_member unicode_alnum uuid now user organization_id member_user role) db = (Ok m', db') ->
  exists org m A,
    authorize_organization db user organization_id MEMBER_MANAGE false = Ok org /\
    membership (o_id org) member_user db = Some m /\ m' = m &{ om_role := role } /\
    (om_role m = OWNER \/ role = OWNER ->
       exists me, membership (o_id org) user db = Some me /\ om_role me = OWNER) /\
    (om_role m = OWNER -> role <> OWNER -> 1 < len (owners (o_id org) db)) /\
    db' = db &{ db_members := t_set (om_id m) m' (db_members db) } &{ db_audits := A }.
Proof.
  intros (s & Hr & ->)%run_ok. unfold update_member, put_member in Hr. m_inv. m_auth.
  match goal with H : require_owner_for_owner_change _ _ _ _ _ = _ |- _ =>
    apply require_owner_ok in H as [-> Hown] end.
  match goal with H : when _ _ _ = (Ok _, ?st) |- _ =>
    apply when_ok in H; rename H into Hlast, st into s1 end.
  match goal with H : membership _ _ _ = Some ?x |- _ => rename x into m; rename H into Hm end.
  match goal with H : authorize_organization _ _ _ _ _ = Ok ?x |- _ => rename x into org end.
  assert (s1 = Sess db db /\ (om_role m = OWNER -> role <> OWNER -> 1 < len (owners (o_id org) db)))
    as [-> Hl].
  { destruct Hlast as [[Hb Hlast]|(Hb & Hs1 & _)]; [| rewrite Hs1; clear Hs1].
    - apply ensure_not_last_owner_ok in Hlast as [-> Hl]. split; [done |]. auto.
    - split; [done |]. intros Ho Hn. rewrite bool_decide_true, bool_decide_false in Hb by done.
      discriminate Hb. }
  cbn [committed working] in *. m_auth.
  do 3 eexists. split; [eassumption |]. split; [eassumption |]. split; [reflexivity |].
  split; [| split; [exact Hl | reflexivity]]. intros Hor. apply Hown.
  by destruct Hor as [->| ->]; [left | right].
Qed.

Lemma remove_member_ok uuid now user organization_id member_user db x db' :
  run (remove_member unicode_alnum uuid now user organization_id member_user) db = (Ok x, db') ->
  exists org m P A,
    authorize_organization db user organization_id MEMBER_MANAGE false = Ok org /\
    membership (o_id org) member_user db = Some m /\
    (om_role m = OWNER -> exists me, membership (o_id org) user db = Some me /\ om_role me = OWNER) /\
    (om_role m = OWNER -> 1 < len (owners (o_id org) db)) /\
    (forall k pm, t_get k P = Some pm <-> t_get k (db_project_members db) = Some pm /\
       ~ (pm_user_id pm = member_user /\ in_organization (o_id org) db (pm_project_id pm) = true)) /\
    db' = db &{ db_project_members := P } &{ db_members := t_delete [om_id m] (db_members db) }
            &{ db_audits := A }.
Proof.
  intros (s & Hr & ->)%run_ok. unfold remove_member in Hr. m_inv. m_auth.
  match goal with H : require_owner_for_owner_change _ _ _ _ _ = _ |- _ =>
    apply require_owner_ok in H as [-> Hown] end.
  match goal with H : ensure_not_last_owner _ _ _ = _ |- _ =>
    apply ensure_not_last_owner_ok in H as [-> Hlast] end.
  cbn [committed working] in *. m_auth.
  do 4 eexists. split; [eassumption |]. split; [eassumption |].
  split; [intros Ho; apply Hown; left; by rewrite Ho |]. split; [exact Hlast |].
  split; [| reflexivity]. intros k pm. rewrite t_get_remove, andb_false_iff, Z.eqb_neq.
  split.
  - intros [Hk Hor]. split; [exact Hk |]. intros [Hu Hi]. rewrite Hi in Hor.
    destruct Hor as [Hor|Hor]; [exact (Hor Hu) | discriminate Hor].
  - intros [Hk Hn]. split; [exact Hk |].
    match goal with |- _ \/ ?b = false => destruct b; [left | by right] end.
    intros Hu. by apply Hn.
Qed.
End Owners.

(** ** The deletion of an organization as a state machine *)

Definition operation_active (op : OrganizationLifecycleOperation) : bool :=
  match lo_status op with OpPending | OpRunning => true | _ => false end.

(** An organization is pending deletion exactly while one operation for it is
    active, and it carries that operation's schedule. *)
Record deletion_ok (db : Db) : Prop := {
  del_orgs_keyed : t_keyed o_id (db_organizations db);
  del_ops_keyed : t_keyed lo_id (db_operations db);
  del_ops_wf : t_wf (db_operations db);
  del_unique : forall k k' op op', t_get k (db_operations db) = Some op ->
    t_get k' (db_operations db) = Some op' -> operation_active op = true ->
    operation_active op' = true -> lo_organization_id op = lo_organization_id op' -> k = k';
  del_active : forall k op o, t_get k (db_operations db) = Some op -> operation_active op = true ->
    t_get (lo_organization_id op) (db_organizations db) = Some o ->
    o_lifecycle_state o = DeletionPending /\ o_deletion_scheduled_at o = Some (lo_scheduled_at op);
  del_pending : forall k o, t_get k (db_organizations db) = Some o ->
    o_lifecycle_state o = DeletionPending ->
    exists k' op, t_get k' (db_operations db) = Some op /\ operation_active op = true /\
      lo_organization_id op = o_id o;
}.

Section DeletionMachine.
Lemma active_operation_some o db op :
  active_operation o db = Some op ->
  lo_organization_id op = o /\ operation_active op = true /\
  exists k, t_get k (db_operations db) = Some op.
Proof.
  intros [Hp Hk]%t_find_some. apply andb_true_iff in Hp as [Ho%Z.eqb_eq Ha]. done.
Qed.

Lemma active_operation_none o db k op :
  active_operation o db = None -> t_get k (db_operations db) = Some op ->
  lo_organization_id op = o -> operation_active op = false.
Proof.
  intros Hn Hk Ho. eapply t_find_none in Hn; [| exact Hk]. by rewrite Ho, Z.eqb_refl in Hn.
Qed.

Definition pending_organization (o : Organization) (now scheduled_at : datetime) : Organization :=
  o &{ o_lifecycle_state := DeletionPending } &{ o_deletion_requested_at := Some now }
    &{ o_deletion_scheduled_at := Some scheduled_at }.
Definition restored_organization (o : Organization) : Organization :=
  o &{ o_lifecycle_state := Active } &{ o_deletion_requested_at := None }
    &{ o_deletion_scheduled_at := None }.
Definition canceled_operation (op : OrganizationLifecycleOperation) (now : datetime) :
    OrganizationLifecycleOperation :=
  op &{ lo_status := OpCanceled } &{ lo_completed_at := Some now }.

Lemma deletion_ok_request db k o mk now scheduled_at A :
  deletion_ok db -> t_get k (db_organizations db) = Some o -> active_operation (o_id o) db = None ->
  (forall n, lo_id (mk n) = n /\ lo_status (mk n) = OpPending /\ lo_organization_id (mk n) = o_id o /\
     lo_scheduled_at (mk n) = scheduled_at) ->
  deletion_ok (db &{ db_organizations := t_set (o_id o) (pending_organization o now scheduled_at)
                       (db_organizations db) }
                  &{ db_operations := t_add mk (db_operations db) } &{ db_audits := A }).
Proof.
  intros [K1 K2 K3 K4 K5 K6] Ho Hnone Hmk. pose proof (K1 _ _ Ho) as Hid. subst k.
  assert (forall k op, t_get k (t_add mk (db_operations db)) = Some op ->
    (k = seq (db_operations db) /\ op = mk k) \/ t_get k (db_operations db) = Some op) as Hcases.
  { intros k op. unfold t_get, t_add. cbn. rewrite lookup_insert. case_decide as E; [| by right].
    subst k. intros [= <-]. by left. }
  assert (forall n, operation_active (mk n) = true) as Hact.
  { intros n. unfold operation_active. by destruct (Hmk n) as (_ & -> & _). }
  split; upd_simpl.
  - intros k o'. unfold t_set. cbn. rewrite lookup_insert. case_decide; [by intros [= <-] | apply K1].
  - intros k op Hop. change (t_get k (t_add mk (db_operations db)) = Some op) in Hop.
    apply Hcases in Hop as [[-> ->]|Hop]; [by apply Hmk | by apply K2].
  - by apply t_wf_add.
  - intros k k' op op' [[-> ->]|Hop]%Hcases [[-> ->]|Hop']%Hcases Ha Ha' Heq; [done | | |].
    + destruct (Hmk (seq (db_operations db))) as (_ & _ & Hm & _). rewrite Hm in Heq.
      pose proof (active_operation_none _ _ _ _ Hnone Hop' (eq_sym Heq)). congruence.
    + destruct (Hmk (seq (db_operations db))) as (_ & _ & Hm & _). rewrite Hm in Heq.
      pose proof (active_operation_none _ _ _ _ Hnone Hop Heq). congruence.
    + by eapply K4.
  - intros k op o' [[-> ->]|Hop]%Hcases Ha; rewrite t_get_set.
    + destruct (Hmk (seq (db_operations db))) as (_ & _ & -> & ->). rewrite decide_True by done.
      by intros [= <-].
    + case_decide as E; [| by eapply K5].
      pose proof (active_operation_none _ _ _ _ Hnone Hop (eq_sym E)). congruence.
  - intros k o'. rewrite t_get_set. case_decide as E.
    + intros [= <-] _. exists (seq (db_operations db)), (mk (seq (db_operations db))).
      split; [unfold t_get, t_add; cbn; apply lookup_insert_eq |]. split; [done | by apply Hmk].
    + intros Ho' Hp. destruct (K6 k o' Ho' Hp) as (k' & op & Hop & ?). exists k', op.
      split; [| done]. by apply t_get_add_old.
Qed.

Lemma deletion_ok_cancel db k o op now A :
  deletion_ok db -> t_get k (db_organizations db) = Some o ->
  active_operation (o_id o) db = Some op ->
  deletion_ok (db &{ db_operations := t_set (lo_id op) (canceled_operation op now) (db_operations db) }
                  &{ db_organizations := t_set (o_id o) (restored_organization o)
                       (db_organizations db) } &{ db_audits := A }).
Proof.
  intros [K1 K2 K3 K4 K5 K6] Ho (Horg & Hact & kop & Hop)%active_operation_some.
  pose proof (K1 _ _ Ho) as Hid. subst k. pose proof (K2 _ _ Hop) as Hidop. subst kop.
  assert (forall k op', t_get k (t_set (lo_id op) (canceled_operation op now) (db_operations db)) = Some op' ->
    operation_active op' = true -> t_get k (db_operations db) = Some op' /\ k <> lo_id op) as Hcases.
  { intros k op'. rewrite t_get_set. case_decide as E; [by intros [= <-] | done]. }
  assert (forall k op', t_get k (db_operations db) = Some op' -> operation_active op' = true ->
    k <> lo_id op -> lo_organization_id op' <> o_id o) as Hother.
  { intros k op' Hop' Ha Hne Heq. apply Hne. eapply K4; eauto. congruence. }
  split; upd_simpl.
  - intros k o'. unfold t_set. cbn. rewrite lookup_insert. case_decide; [by intros [= <-] | apply K1].
  - intros k op'. unfold t_set. cbn. rewrite lookup_insert. case_decide; [by intros [= <-] | apply K2].
  - apply t_wf_set; [done | by eexists].
  - intros k k' op1 op2 H1 H2 Ha1 Ha2 Heq.
    destruct (Hcases _ _ H1 Ha1) as [H1' _], (Hcases _ _ H2 Ha2) as [H2' _]. by eapply K4.
  - intros k op' o' H1 Ha. destruct (Hcases _ _ H1 Ha) as [H1' Hne].
    rewrite t_get_set, decide_False by (intros Heq; by eapply (Hother k op')). by eapply K5.
  - intros k o'. rewrite t_get_set. case_decide as E; [by intros [= <-] |].
    intros Ho' Hp. destruct (K6 k o' Ho' Hp) as (k' & op' & Hop' & Ha & Heq).
    exists k', op'. split; [| done]. rewrite t_get_set. case_decide as E'; [| done].
    subst k'. rewrite Hop in Hop'. injection Hop' as <-. exfalso. apply E.
    rewrite <- (K1 _ _ Ho'). congruence.
Qed.

Context (settings : Settings) (unicode_alnum : Z -> bool).

Lemma request_deletion_ok uuid now others user organization_id db op db' :
  run (request_organization_deletion settings unicode_alnum uuid now others user organization_id) db
    = (Ok op, db') ->
  exists org k o, authorize_organization db user organization_id ORG_DELETE true = Ok org /\
    k = o_id org /\ t_get k (db_organizations (others db)) = Some o /\
    ((active_operation (o_id o) (others db) = Some op /\ db' = others db) \/
     (active_operation (o_id o) (others db) = None /\
      exists mk A, op = mk (seq (db_operations (others db))) /\
        (forall n, lo_id (mk n) = n /\ lo_status (mk n) = OpPending /\
           lo_organization_id (mk n) = o_id o /\
           lo_scheduled_at (mk n) = now + hours (organization_deletion_grace_hours settings)) /\
        db' = (others db) &{ db_organizations := t_set (o_id o) (pending_organization o now
                  (now + hours (organization_deletion_grace_hours settings)))
                  (db_organizations (others db)) }
                &{ db_operations := t_add mk (db_operations (others db)) } &{ db_audits := A })).
Proof.
  intros (s & Hr & ->)%run_ok. unfold request_organization_deletion, put_organization in Hr.
  m_next Hr. m_auth. do 3 eexists. split; [eassumption |]. split; [reflexivity |].
  split; [eassumption |].
  match type of Hr with (match ?x with _ => _ end) _ = _ => destruct x as [op0|] eqn:E end.
  - m_inv. by left.
  - right. split; [done |]. m_inv. m_auth.
    match goal with |- context [@t_add OrganizationLifecycleOperation ?f _] => exists f end.
    eexists. split; [reflexivity |].
    split; [| reflexivity]. by repeat split.
Qed.

Lemma cancel_deletion_ok uuid now others user organization_id db op db' :
  run (cancel_organization_deletion unicode_alnum uuid now others user organization_id) db
    = (Ok op, db') ->
  exists org o op0 A, authorize_organization db user organization_id ORG_DELETE true = Ok org /\
    t_get (o_id org) (db_organizations (others db)) = Some o /\
    active_operation (o_id o) (others db) = Some op0 /\ lo_status op0 = OpPending /\
    op = canceled_operation op0 now /\
    db' = (others db)
      &{ db_operations := t_set (lo_id op0) (canceled_operation op0 now) (db_operations (others db)) }
      &{ db_organizations := t_set (o_id o) (restored_organization o) (db_organizations (others db)) }
      &{ db_audits := A }.
Proof.
  intros (s & Hr & ->)%run_ok.
  unfold cancel_organization_deletion, put_organization, put_operation in Hr.
  m_inv. m_auth. do 4 eexists. split; [eassumption |]. split; [eassumption |].
  split; [eassumption |]. split; [| split; [reflexivity | reflexivity]].
  match goal with H : active_operation _ _ = Some ?x |- _ =>
    apply active_operation_some in H as (_ & Ha & _); rename x into op0 end.
  match goal with H : bool_decide _ = false |- _ => apply bool_decide_eq_false in H end.
  unfold operation_active in Ha. destruct (lo_status op0); done.
Qed.
End DeletionMachine.

(** ** Examples *)

Module OwnersDemo.
Definition db : Db := TenancyDemo.db Active.
(** The owner (user 1) makes the member (user 2) an owner too. *)
Definition promoted := run (update_member (fun _ => false) (py "a") 5 1 (py "org") 2 OWNER) db.
Definition promoted_db : Db := promoted.2.
Definition second_owner : OrganizationMember := TenancyDemo.member 2 2 OWNER.
Lemma promoted_ok : promoted = (Ok second_owner, promoted_db).
Proof. unfold promoted_db. vm_compute. reflexivity. Qed.

Lemma owners_keyed : t_keyed om_id (db_members db).
Proof.
  enough (map_Forall (fun k m => om_id m = k) (rows (db_members db))) as Hall by exact Hall.
  refine (bool_decide_unpack _ _). vm_compute. exact I.
Qed.

(** The owner asks for the deletion of the organization. *)
Definition uuid (n : nat) : str := [Z.of_nat n].
Definition requested :=
  run (request_organization_deletion default_settings (fun _ => false) uuid 5 id 1 (py "org")) db.
Definition requested_db : Db := requested.2.
Definition operation : OrganizationLifecycleOperation :=
  match requested.1 with
  | Ok op => op
  | Raise _ => MkOrganizationLifecycleOperation 0 [] 0 None OpFailed 0 0 None None
  end.
Lemma requested_ok : requested = (Ok operation, requested_db).
Proof. unfold requested_db, operation. vm_compute. reflexivity. Qed.

Lemma deletion : deletion_ok db.
Proof.
  split; unfold db, TenancyDemo.db; upd_simpl; cbn [empty_db db_operations db_organizations].
  - intros k o Ho. cbn [rows] in Ho. by apply lookup_singleton_Some in Ho as [<- <-].
  - intros k op Hop. change (t_get k (@empty_table OrganizationLifecycleOperation) = Some op) in Hop.
    by rewrite t_get_empty in Hop.
  - intros k [op Hop]. change (t_get k (@empty_table OrganizationLifecycleOperation) = Some op) in Hop.
    by rewrite t_get_empty in Hop.
  - intros k k' op op' Hop. by rewrite t_get_empty in Hop.
  - intros k op o Hop. by rewrite t_get_empty in Hop.
  - intros k o Ho. unfold t_get in Ho. cbn [rows] in Ho.
    by apply lookup_singleton_Some in Ho as [_ <-].
Qed.
End OwnersDemo.

(** ** Claims *)



(** The deletion machine.  While an organization is pending deletion exactly
    one active operation exists for it, and it shows that operation's schedule.
    A request answers with the active operation if there is one, and otherwise
    schedules one after the grace period and makes the organization pending; a
    cancellation succeeds only while the operation has not started, ends it and
    makes the organization active again.  Whatever commits while the request
    waits for the organization row, the invariant is kept. *)
Theorem organization_deletion_machine settings unicode_alnum uuid uuids now others user
    organization_id db op db' :
  deletion_ok (others db) ->
  run (request_organization_deletion settings unicode_alnum uuids now others user organization_id) db
    = (Ok op, db') \/
  run (cancel_organization_deletion unicode_alnum uuid now others user organization_id) db
    = (Ok op, db') ->
  deletion_ok db' /\ exists org o, authorize_organization db user organization_id ORG_DELETE true = Ok org /\
    t_get (o_id o) (db_organizations db') = Some o /\ o_id o = o_id org /\
    lo_organization_id op = o_id o /\ t_get (lo_id op) (db_operations db') = Some op /\
    ((operation_active op = true /\ o_lifecycle_state o = DeletionPending /\
      o_deletion_scheduled_at o = Some (lo_scheduled_at op) /\
      (db' = others db \/
       lo_scheduled_at op = now + hours (organization_deletion_grace_hours settings))) \/
     (lo_status op = OpCanceled /\ o_lifecycle_state o = Active /\ o_deletion_scheduled_at o = None /\
      exists op0, t_get (lo_id op) (db_operations (others db)) = Some op0 /\ lo_status op0 = OpPending)).
Proof.
  intros Hok [Hr|Hr].
  - apply request_deletion_ok in Hr as (org & k & o & Hauth & -> & Ho & Hcase).
    pose proof (del_orgs_keyed _ Hok _ _ Ho) as Hid.
    destruct Hcase as [(Hact & ->)|(Hnone & mk & A & -> & Hmk & ->)].
    + split; [done |]. exists org, o. apply active_operation_some in Hact as (Horg & Ha & k & Hk).
      pose proof (del_ops_keyed _ Hok _ _ Hk) as Hk'. subst k.
      rewrite <- Hid in Ho.
      destruct (del_active _ Hok _ op o Hk Ha) as [Hp Hs]; [by rewrite Horg |].
      do 5 (split; [done |]). left. auto 6.
    + split; [by eapply deletion_ok_request |].
      exists org, (pending_organization o now
        (now + hours (organization_deletion_grace_hours settings))).
      destruct (Hmk (seq (db_operations (others db)))) as (Hmid & Hst & Horg & Hsch). upd_simpl.
      split; [done |]. split; [by rewrite t_get_set, decide_True |]. split; [done |].
      split; [done |]. rewrite Hmid.
      split; [unfold t_get, t_add; cbn; apply lookup_insert_eq |]. left.
      unfold operation_active, pending_organization. upd_simpl. rewrite Hst, Hsch. auto 6.
  - apply cancel_deletion_ok in Hr as (org & o & op0 & A & Hauth & Ho & Hact & Hst & -> & ->).
    pose proof (del_orgs_keyed _ Hok _ _ Ho) as Hid. split; [by eapply deletion_ok_cancel |].
    exists org, (restored_organization o). apply active_operation_some in Hact as (Horg & Ha & k & Hk).
    pose proof (del_ops_keyed _ Hok _ _ Hk) as Hk'. subst k. upd_simpl.
    split; [done |]. split; [by rewrite t_get_set, decide_True |]. split; [done |].
    split; [done |]. split; [by rewrite t_get_set, decide_True |]. right.
    split; [done |]. split; [done |]. split; [done |]. by exists op0.
Qed.

Lemma organization_deletion_machine_witness : deletion_ok OwnersDemo.requested_db.
Proof.
  exact (proj1 (organization_deletion_machine default_settings (fun _ => false) [] OwnersDemo.uuid 5
    id 1 (py "org") OwnersDemo.db OwnersDemo.operation OwnersDemo.requested_db OwnersDemo.deletion
    (or_introl OwnersDemo.requested_ok))).
Defined.

(** The unique index on project names is checked by the flush, before the [try]
    around the commit: a taken name is an unhandled integrity error, a 500, and
    the conflict the handler means to answer with is never raised. *)
Lemma duplicate_project_name_is_a_500 unicode_alnum uuid now user organization_id name db org k p :
  authorize_organization db user organization_id PROJECT_MANAGE false = Ok org ->
  t_get k (db_projects db) = Some p -> p_organization_id p = o_id org -> p_name p = name ->
  run (create_project unicode_alnum uuid now user organization_id name) db = (Raise IntegrityError, db)
  /\ status_code IntegrityError = 500.
Proof.
  intros Hauth Hp Ho Hn. split; [| done]. unfold create_project, flush_project, run.
  erewrite M_bind_run; [| by apply authorized_org_ok].
  assert (has (t_find (fun p => (p_organization_id p =? o_id org) && str_eqb (p_name p) name)
    (db_projects db)) = true) as Hclash.
  { destruct (t_find _ _) eqn:E; [done |]. eapply t_find_none in E; [| exact Hp].
    by rewrite Ho, Hn, Z.eqb_refl, str_eqb_refl in E. }
  unfold mbind, M_bind, gets, when, raise. cbn [working p_organization_id p_name].
  by rewrite Hclash.
Qed.

(** At the default (and largest) limit of 1000 the export asks for at most 1000
    audit events, so that it never notices that there are more: the other
    tables alone decide whether it says it is truncated. *)
Lemma export_hides_audit_truncation now organization policy db audits audits' :
  list_audit (o_public_id organization) None None (Z.min (1000 + 1) 1000) None None db = Ok audits ->
  len audits' = 0 ->
  x_audit_events (export_of now organization policy 1000 audits db) = audits /\
  x_truncated (export_of now organization policy 1000 audits db)
    = x_truncated (export_of now organization policy 1000 audits' db).
Proof.
  intros Hl H0.
  assert (len audits <= 1000) as Hlen.
  { unfold list_audit in Hl. repeat case_match; try discriminate Hl; injection Hl as <-;
      unfold len; rewrite length_take; lia. }
  unfold export_of. cbn [x_audit_events x_truncated]. split.
  - apply firstn_all2. unfold len in Hlen. lia.
  - replace (1000 <? len audits) with false by lia. by replace (1000 <? len audits') with false by lia.
Qed.
