(* ===== verification/Endpoints.v ===== *)
(** * Endpoints

    The endpoint management of [WebhookService]
    ([src/app/services/webhook_service.py]): creation, update, deactivation,
    rotation of the signing secret, and the operator's switches on an
    endpoint's runtime state. *)

From Stdlib Require Import QArith.
From stdpp Require Import sorting.
From stdpp Require Import base tactics list gmap sets strings numbers option.
From S2P Require Import Prelude Crypto Json Models Session Settings Admission Scheduling.
From S2P Require Import WebhookSecurity Delivery Authorization AuditLog Events EventSafety.
From S2P Require Import ReplaySafety Tenancy.
Local Open Scope Z_scope.

(** ** Endpoints *)

(** [EndpointUpdate] with [exclude_unset]: for a nullable column the outer
    option is whether the field was sent. *)
Record EndpointChanges : Type := EndpointChange {
  ec_url : option str;
  ec_description : option (option str);
  ec_is_active : option bool;
  ec_event_types : option json;
  ec_signature_scheme : option SignatureScheme;
}.

Section Endpoints.
Context `{Rounding} (settings : Settings) (unicode_alnum : Z -> bool).
Context (urlsplit : str -> option SplitResult) (ip_address : str -> option IPAddress)
  (getaddrinfo : str -> Z -> option (list str)).

Abbreviation audit := (audit unicode_alnum).

Definition validate_endpoint_url (url : str) : M unit :=
  match validate_webhook_url urlsplit ip_address getaddrinfo url (default false (allow_http_webhooks settings))
          (allow_private_webhooks settings) with
  | Ok _ => mret ()
  | Raise (UnsafeWebhookUrl message _) => raise (ValidationError message (Some "url"%string))
  | Raise BadAddress => raise (ValueError "does not appear to be an IPv4 or IPv6 address")
  end.

Definition find_endpoint (project : Project) (endpoint_id : str) (db : Db) : option WebhookEndpoint :=
  t_find (fun e => (e_project_id e =? p_id project) && str_eqb (e_public_id e) endpoint_id)
    (db_endpoints db).

(** [WebhookService._endpoint] *)
Definition endpoint (project : Project) (endpoint_id : str) : M WebhookEndpoint :=
  e ← gets (find_endpoint project endpoint_id);
  of_option (NotFoundError "Webhook endpoint" (IdStr endpoint_id)) e.

Definition put_endpoint (e : WebhookEndpoint) : M unit :=
  modify (fun db => db &{ db_endpoints := t_set (e_id e) e (db_endpoints db) }).

(** [_endpoint_plaintext_secret] *)
Definition endpoint_plaintext_secret (e : WebhookEndpoint) : M str :=
  of_option (ValueError "UnicodeEncodeError")
    (match e_signature_scheme e with
     | Standard => endpoint_secret_standard
     | Legacy => endpoint_secret
     end (webhook_signing_key settings) (e_public_id e) (e_secret_version e)).

Definition create_endpoint (uuid : nat -> str) (now : datetime) (user_id : Z) (project_id url : str)
    (description : option str) (event_types : json) (signature_scheme : SignatureScheme) :
    M (WebhookEndpoint * str) :=
  project ← authorized user_id project_id ENDPOINT_MANAGE;
  validate_endpoint_url url;;
  now ← check_endpoint_limit settings (p_organization_id project) (p_id project) None now;
  id ← gets (fun db => seq (db_endpoints db));
  let mk id :=
    {| e_id := id; e_public_id := uuid 0%nat; e_project_id := p_id project; e_url := url;
       e_description := description; e_event_types := event_types;
       e_signature_scheme := signature_scheme; e_is_active := true; e_secret_version := 1;
       e_created_at := now; e_updated_at := now |} in
  modify (fun db => db &{ db_endpoints := t_add mk (db_endpoints db) });;
  modify (fun db => db
    &{ db_quotas := <[id := endpoint_quota_values id settings now]> (db_quotas db) }
    &{ db_secret_versions := t_add (fun v =>
         {| v_id := v; v_endpoint_id := id; v_version := 1; v_activated_at := now;
            v_retire_at := None |}) (db_secret_versions db) });;
  organization_public_id ← project_organization_id project;
  audit (uuid 1%nat) user_id organization_public_id "endpoint.created" "endpoint" now
    (Some (uuid 0%nat)) (Some (p_public_id project)) (Some [(py "version", JInt 1)]);;
  commit;;
  secret ← endpoint_plaintext_secret (mk id);
  mret (mk id, secret).

Definition list_endpoints (user_id : Z) (project_id : str) (offset limit : Z) :
    M (list WebhookEndpoint) :=
  project ← authorized user_id project_id PROJECT_READ;
  gets (fun db => page offset limit
    (order_by (fun e => [- e_created_at e; - e_id e])
       (t_where (fun e => e_project_id e =? p_id project) (db_endpoints db)))).

Definition apply_changes (ch : EndpointChanges) (e : WebhookEndpoint) : WebhookEndpoint :=
  e &{ e_url := default (e_url e) (ec_url ch) }
    &{ e_description := default (e_description e) (ec_description ch) }
    &{ e_is_active := default (e_is_active e) (ec_is_active ch) }
    &{ e_event_types := default (e_event_types e) (ec_event_types ch) }
    &{ e_signature_scheme := default (e_signature_scheme e) (ec_signature_scheme ch) }.

(** [sorted(changes)] *)
Definition changed_fields (ch : EndpointChanges) : list json :=
  (if has (ec_description ch) then [JStr (py "description")] else []) ++
  (if has (ec_event_types ch) then [JStr (py "event_types")] else []) ++
  (if has (ec_is_active ch) then [JStr (py "is_active")] else []) ++
  (if has (ec_signature_scheme ch) then [JStr (py "signature_scheme")] else []) ++
  (if has (ec_url ch) then [JStr (py "url")] else []).

(** [others] commit while the request waits for the endpoint's row. *)
Definition update_endpoint (uuid : str) (now : datetime) (others : Db -> Db) (user_id : Z)
    (project_id endpoint_id : str) (changes : EndpointChanges) :
    M (WebhookEndpoint * option str) :=
  project ← authorized user_id project_id ENDPOINT_MANAGE;
  wait others;;
  e ← endpoint project endpoint_id;
  match ec_url changes with Some url => validate_endpoint_url url | None => mret () end;;
  when (bool_decide (ec_is_active changes = Some true) && negb (e_is_active e))
    (check_endpoint_limit settings (p_organization_id project) (p_id project) (Some (e_id e)) now;;
     mret ());;
  let scheme_became_standard :=
    bool_decide (ec_signature_scheme changes = Some Standard)
    && negb (bool_decide (e_signature_scheme e = Standard)) in
  let e := (apply_changes changes e) &{ e_updated_at := now } in
  put_endpoint e;;
  organization_public_id ← project_organization_id project;
  audit uuid user_id organization_public_id "endpoint.updated" "endpoint" now
    (Some (e_public_id e)) (Some (p_public_id project))
    (Some [(py "changed_fields", JList (changed_fields changes))]);;
  commit;;
  if scheme_became_standard then
    secret ← endpoint_plaintext_secret e; mret (e, Some secret)
  else mret (e, None).

Definition deactivate_endpoint (uuid : str) (now : datetime) (others : Db -> Db) (user_id : Z)
    (project_id endpoint_id : str) : M WebhookEndpoint :=
  project ← authorized user_id project_id ENDPOINT_MANAGE;
  wait others;;
  e ← endpoint project endpoint_id;
  if e_is_active e then
    let e := e &{ e_is_active := false } &{ e_updated_at := now } in
    put_endpoint e;;
    organization_public_id ← project_organization_id project;
    audit uuid user_id organization_public_id "endpoint.deactivated" "endpoint" now
      (Some (e_public_id e)) (Some (p_public_id project)) None;;
    commit;;
    mret e
  else commit;; mret e.

Definition version_row (endpoint_id version : Z) (db : Db) : option EndpointSigningSecretVersion :=
  t_find (fun v => (v_endpoint_id v =? endpoint_id) && (v_version v =? version))
    (db_secret_versions db).

Definition rotate_endpoint_secret (uuid : str) (now : datetime) (others : Db -> Db) (user_id : Z)
    (project_id endpoint_id : str) : M (WebhookEndpoint * str * option datetime) :=
  project ← authorized user_id project_id ENDPOINT_MANAGE;
  wait others;;
  e ← endpoint project endpoint_id;
  current ← gets (version_row (e_id e) (e_secret_version e));
  current ← of_option (ConflictError "Current endpoint signing version is missing") current;
  let retire_at := now + seconds (endpoint_secret_overlap_seconds settings) in
  let current := current &{ v_retire_at := Some retire_at } in
  let previous_version := e_secret_version e in
  let e := e &{ e_secret_version := previous_version + 1 } &{ e_updated_at := now } in
  modify (fun db => db &{ db_secret_versions := t_set (v_id current) current (db_secret_versions db) });;
  put_endpoint e;;
  modify (fun db => db &{ db_secret_versions := t_add (fun v =>
    {| v_id := v; v_endpoint_id := e_id e; v_version := e_secret_version e; v_activated_at := now;
       v_retire_at := None |}) (db_secret_versions db) });;
  organization_public_id ← project_organization_id project;
  audit uuid user_id organization_public_id "endpoint.signing_version_rotated" "endpoint" now
    (Some (e_public_id e)) (Some (p_public_id project))
    (Some [(py "previous_version", JInt previous_version);
           (py "current_version", JInt (e_secret_version e));
           (py "overlap_seconds", JInt (endpoint_secret_overlap_seconds settings))]);;
  commit;;
  secret ← endpoint_plaintext_secret e;
  mret (e, secret, Some retire_at).

(** ** The runtime state of an endpoint *)

Definition endpoint_runtime (project : Project) (endpoint_id : str) :
    M (WebhookEndpoint * EndpointQuotaState) :=
  e ← endpoint project endpoint_id;
  state ← gets (fun db => db_quotas db !! e_id e);
  state ← of_option (RuntimeError "Endpoint runtime state is unavailable") state;
  mret (e, state).

Record RuntimeView : Type := View {
  rv_endpoint_id : str;
  rv_paused : bool;
  rv_pause_reason : option str;
  rv_circuit_state : CircuitState;
  rv_consecutive_failures : Z;
  rv_circuit_open_until : option datetime;
}.

Definition runtime_view (e : WebhookEndpoint) (q : EndpointQuotaState) : RuntimeView :=
  View (e_public_id e) (has (q_paused_at q)) (q_pause_reason q) (q_circuit_state q)
    (q_consecutive_failures q) (q_circuit_open_until q).

(** The frame the three operations share: find and lock the rows, change the
    endpoint's row, write the audit entry. *)
Definition operate (uuid : str) (now : datetime) (others : Db -> Db) (user_id : Z)
    (project_id endpoint_id : str) (change : EndpointQuotaState -> EndpointQuotaState)
    (action : string) (metadata : option (list (str * json))) : M RuntimeView :=
  project ← authorized user_id project_id ENDPOINT_OPERATE;
  wait others;;
  '(e, state) ← endpoint_runtime project endpoint_id;
  put_quota (e_id e) (change state);;
  organization_public_id ← project_organization_id project;
  audit uuid user_id organization_public_id action "endpoint" now
    (Some (e_public_id e)) (Some (p_public_id project)) metadata;;
  commit;;
  mret (runtime_view e (change state)).

Definition paused (now : datetime) (reason : option str) (q : EndpointQuotaState) :
    EndpointQuotaState :=
  q &{ q_paused_at := Some (default now (q_paused_at q)) } &{ q_pause_reason := reason }
    &{ q_updated_at := now }.

Definition pause_endpoint (uuid : str) (now : datetime) (others : Db -> Db) (user_id : Z)
    (project_id endpoint_id : str) (reason : option str) : M RuntimeView :=
  operate uuid now others user_id project_id endpoint_id (paused now reason) "endpoint.paused"
    (Some [(py "reason_provided", JBool (has reason))]).

Definition resumed (now : datetime) (q : EndpointQuotaState) : EndpointQuotaState :=
  q &{ q_paused_at := None } &{ q_pause_reason := None } &{ q_updated_at := now }.

Definition resume_endpoint (uuid : str) (now : datetime) (others : Db -> Db) (user_id : Z)
    (project_id endpoint_id : str) : M RuntimeView :=
  operate uuid now others user_id project_id endpoint_id (resumed now) "endpoint.resumed" None.

Definition recovered (now : datetime) (q : EndpointQuotaState) : EndpointQuotaState :=
  q &{ q_retry_tokens := float_of (endpoint_retry_burst settings) } &{ q_retry_refilled_at := now }
    &{ q_circuit_state := Closed } &{ q_consecutive_failures := 0 }
    &{ q_circuit_open_until := None } &{ q_half_open_probe_delivery_id := None }
    &{ q_updated_at := now }.

Definition recover_endpoint_circuit (uuid : str) (now : datetime) (others : Db -> Db) (user_id : Z)
    (project_id endpoint_id : str) : M RuntimeView :=
  operate uuid now others user_id project_id endpoint_id (recovered now)
    "endpoint.circuit_recovered" None.
End Endpoints.
