(* ===== verification/ApiKeys.v ===== *)
(** * API keys

    The key management of [WebhookService]
    ([src/app/services/webhook_service.py]), the ingestion credential check of
    [src/app/api_key_auth.py] and the coalescing usage tracker of
    [src/app/api_key_usage.py].  The theorems follow a key through its life:
    what was issued authenticates until it expires or is revoked, a rotation
    lets both keys overlap for a bounded time, and every refusal is the same
    answer. *)

From Stdlib Require Import QArith.
From stdpp Require Import sorting.
From stdpp Require Import base tactics list gmap sets strings numbers option.
From S2P Require Import Prelude Crypto Json Text Models Session Settings Admission Scheduling.
From S2P Require Import WebhookSecurity Delivery Authorization AuditLog Events EventSafety.
From S2P Require Import ReplaySafety Tenancy.
Local Open Scope Z_scope.

(** ** Management *)

Section Keys.
Context (settings : Settings) (unicode_alnum : Z -> bool).

Abbreviation audit := (audit unicode_alnum).

Definition prefix_taken (prefix : str) (db : Db) : bool :=
  has (t_find (fun k => str_eqb (k_key_prefix k) prefix) (db_api_keys db)).

(** [_generate_unique_api_key]: up to five draws; [draw i] is what the [i]-th
    [secrets.token_hex(6)] and [secrets.token_urlsafe(32)] returned. *)
Fixpoint allocate (tries : nat) (i : nat) (draw : nat -> str * str) : M (str * str) :=
  match tries with
  | O => raise (ConflictError "Could not allocate a unique API key prefix; retry the request")
  | S tries' =>
      let '(plaintext, prefix) := generate_api_key (draw i).1 (draw i).2 in
      taken ← gets (prefix_taken prefix);
      if (taken : bool) then allocate tries' (S i) draw else mret (plaintext, prefix)
  end.

Definition generate_unique_api_key (draw : nat -> str * str) : M (str * str) := allocate 5 0 draw.

Definition validate_scopes (scopes : list str) : res exn (list str) :=
  if negb (nonempty scopes) || negb (length scopes =? length (remove_dups scopes))%nat
  then Raise (ValidationError "API key scopes must be unique and non-empty" None)
  else if existsb (fun s => negb (str_eqb s (py "events:write"))) scopes
  then Raise (ValidationError "Unsupported API key scope" (Some "scopes"%string))
  else Ok scopes.

Definition api_key_expiry (now : datetime) (expires_in_days : option Z) : res exn datetime :=
  let d := default (api_key_default_ttl_days settings) expires_in_days in
  if (1 <=? d) && (d <=? 3650) then Ok (now + days d)
  else Raise (ValidationError "API key expiration is invalid" (Some "expires_in_days"%string)).

(** The insert, under the unique constraints of the table. *)
Definition add_api_key (mk : Z -> ApiKey) : M Z :=
  id ← gets (fun db => seq (db_api_keys db));
  clash ← gets (fun db => has (t_find (fun k =>
    str_eqb (k_key_prefix k) (k_key_prefix (mk id)) || str_eqb (k_public_id k) (k_public_id (mk id)))
    (db_api_keys db)));
  when clash (raise IntegrityError);;
  modify (fun db => db &{ db_api_keys := t_add mk (db_api_keys db) });;
  mret id.

Definition digest (plaintext : str) : M str :=
  of_option (ValueError "UnicodeEncodeError") (digest_api_key plaintext (api_key_pepper settings)).

(** [others] is what commits between the look at the prefix and the insert. *)
Definition create_api_key (uuid : nat -> str) (draw : nat -> str * str) (now : datetime)
    (others : Db -> Db) (user_id : Z) (project_id name : str) (scopes : option (list str))
    (expires_in_days : option Z) : M (ApiKey * str) :=
  project ← authorized user_id project_id KEY_MANAGE;
  requested_scopes ← of_res (validate_scopes (default [py "events:write"] scopes));
  '(plaintext, prefix) ← generate_unique_api_key draw;
  key_digest ← digest plaintext;
  expires_at ← of_res (api_key_expiry now expires_in_days);
  wait others;;
  let mk id :=
    {| k_id := id; k_public_id := uuid 0%nat; k_project_id := p_id project; k_name := name;
       k_key_prefix := prefix; k_key_digest := key_digest;
       k_scopes := JList (map JStr requested_scopes); k_expires_at := Some expires_at;
       k_rotation_family_id := uuid 0%nat; k_rotated_from_id := None; k_is_active := true;
       k_created_at := now; k_last_used_at := None; k_revoked_at := None |} in
  id ← add_api_key mk;
  organization_public_id ← project_organization_id project;
  audit (uuid 1%nat) user_id organization_public_id "api_key.created" "api_key" now
    (Some (uuid 0%nat)) (Some (p_public_id project))
    (Some [(py "scopes", JList (map JStr requested_scopes));
           (py "expires_at", JStr (isoformat expires_at))]);;
  commit;;
  mret (mk id, plaintext).

Definition list_api_keys (user_id : Z) (project_id : str) (offset limit : Z) : M (list ApiKey) :=
  project ← authorized user_id project_id KEY_MANAGE;
  gets (fun db => page offset limit
    (order_by (fun k => [- k_created_at k; - k_id k])
       (t_where (fun k => k_project_id k =? p_id project) (db_api_keys db)))).

Definition find_api_key (project : Project) (key_id : str) (db : Db) : option ApiKey :=
  t_find (fun k => (k_project_id k =? p_id project) && str_eqb (k_public_id k) key_id)
    (db_api_keys db).

Definition put_api_key (k : ApiKey) : M unit :=
  modify (fun db => db &{ db_api_keys := t_set (k_id k) k (db_api_keys db) }).

Definition revoked (now : datetime) (k : ApiKey) : ApiKey :=
  k &{ k_is_active := false } &{ k_revoked_at := Some (default now (k_revoked_at k)) }.

(** [others] is what commits while the request waits for the key's row. *)
Definition revoke_api_key (uuid : str) (now : datetime) (others : Db -> Db) (user_id : Z)
    (project_id key_id : str) : M ApiKey :=
  project ← authorized user_id project_id KEY_MANAGE;
  wait others;;
  k ← gets (find_api_key project key_id);
  k ← of_option (NotFoundError "API key" (IdStr key_id)) k;
  put_api_key (revoked now k);;
  organization_public_id ← project_organization_id project;
  audit uuid user_id organization_public_id "api_key.revoked" "api_key" now
    (Some (k_public_id k)) (Some (p_public_id project)) None;;
  commit;;
  mret (revoked now k).

Definition expired (now : datetime) (k : ApiKey) : bool :=
  match k_expires_at k with Some t => t <=? now | None => false end.

(** [list(previous.scopes)]; the service only writes lists of strings there. *)
Definition stored_scopes (v : json) : res exn (list str) :=
  match v with
  | JList l =>
      match mapM (fun s => match s with JStr s => Some s | _ => None end) l with
      | Some scopes => Ok scopes
      | None => Raise TypeError
      end
  | _ => Raise TypeError
  end.

(** The previous key keeps its expiry, or the end of the overlap if that is
    earlier. *)
Definition overlapped (overlap_until : datetime) (k : ApiKey) : ApiKey :=
  k &{ k_expires_at := Some (match k_expires_at k with
                             | Some t => Z.min t overlap_until
                             | None => overlap_until
                             end) }.

Definition rotate_api_key (uuid : nat -> str) (draw : nat -> str * str) (now : datetime)
    (others : Db -> Db) (user_id : Z) (project_id key_id : str) (overlap_seconds : option Z) :
    M (ApiKey * str) :=
  project ← authorized user_id project_id KEY_MANAGE;
  wait others;;
  previous ← gets (find_api_key project key_id);
  previous ← of_option (NotFoundError "API key" (IdStr key_id)) previous;
  replaced ← gets (fun db => has (t_find (fun k => bool_decide (k_rotated_from_id k = Some (k_id previous)))
                                   (db_api_keys db)));
  when replaced (raise (ConflictError "API key has already been rotated"));;
  when (negb (k_is_active previous) || has (k_revoked_at previous) || expired now previous)
    (raise (ConflictError "Only an active API key can be rotated"));;
  scopes ← of_res (stored_scopes (k_scopes previous) ≫= validate_scopes);
  '(plaintext, prefix) ← generate_unique_api_key draw;
  key_digest ← digest plaintext;
  expires_at ← of_res (api_key_expiry now None);
  let overlap := default (api_key_rotation_overlap_seconds settings) overlap_seconds in
  when (negb ((1 <=? overlap) && (overlap <=? 86400)))
    (raise (ValidationError "API key rotation overlap is invalid" (Some "overlap_seconds"%string)));;
  put_api_key (overlapped (now + seconds overlap) previous);;
  let mk id :=
    {| k_id := id; k_public_id := uuid 0%nat; k_project_id := p_id project;
       k_name := k_name previous; k_key_prefix := prefix; k_key_digest := key_digest;
       k_scopes := JList (map JStr scopes); k_expires_at := Some expires_at;
       k_rotation_family_id := k_rotation_family_id previous;
       k_rotated_from_id := Some (k_id previous); k_is_active := true; k_created_at := now;
       k_last_used_at := None; k_revoked_at := None |} in
  id ← add_api_key mk;
  organization_public_id ← project_organization_id project;
  audit (uuid 1%nat) user_id organization_public_id "api_key.rotated" "api_key" now
    (Some (uuid 0%nat)) (Some (p_public_id project))
    (Some [(py "previous_id", JStr (k_public_id previous)); (py "replacement_id", JStr (uuid 0%nat));
           (py "overlap_seconds", JInt overlap); (py "scopes", JList (map JStr scopes))]);;
  commit;;
  mret (mk id, plaintext).
End Keys.

(** ** Usage *)

(** [ApiKeyUsageTracker]: whether its task runs, and the time stamps not yet
    written. *)
Record ApiKeyUsageTracker : Type := MkTracker {
  running : bool;
  pending : gmap Z datetime;
}.
#[export] Instance eta_ApiKeyUsageTracker : Eta ApiKeyUsageTracker := fun t =>
  MkTracker (running t) (pending t).

Definition coalesce (used_at : datetime) (existing : option datetime) : datetime :=
  Z.max (default used_at existing) used_at.

Definition record_usage (settings : Settings) (api_key_id : Z) (used_at : datetime)
    (t : ApiKeyUsageTracker) : ApiKeyUsageTracker :=
  if running t then
    let existing := pending t !! api_key_id in
    if has existing || (Z.of_nat (size (pending t)) <? api_key_usage_max_entries settings)
    then t &{ pending := <[api_key_id := coalesce used_at existing]> (pending t) }
    else t
  else t.

Definition used (taken : gmap Z datetime) (k : ApiKey) : ApiKey :=
  match taken !! k_id k with
  | Some used_at =>
      match k_last_used_at k with
      | Some last => if last <? used_at then k &{ k_last_used_at := Some used_at } else k
      | None => k &{ k_last_used_at := Some used_at }
      end
  | None => k
  end.

Definition merge_back (taken later : gmap Z datetime) : gmap Z datetime :=
  union_with (fun a b => Some (Z.max a b)) taken later.

(** [flush]: [recorded] is what requests record while the transaction runs,
    [fails] whether it raises. *)
Definition flush (recorded : ApiKeyUsageTracker -> ApiKeyUsageTracker) (fails : bool)
    (t : ApiKeyUsageTracker) : M ApiKeyUsageTracker :=
  if bool_decide (pending t = ∅) then mret t
  else
    let t' := recorded (t &{ pending := ∅ }) in
    if fails then mret (t' &{ pending := merge_back (pending t) (pending t') })
    else
      begin (modify (fun db => db &{ db_api_keys := t_map (used (pending t)) (db_api_keys db) }));;
      mret t'.

(** ** Authentication *)

Definition key_char (c : Z) : bool := ascii_alnum c || (c =? 95) || (c =? 45).

(** [_API_KEY_PATTERN]: the prefix of a well-formed key. *)
Definition api_key_prefix (plaintext : str) : option str :=
  let prefix := take 12 (drop 4 plaintext) in
  let rest := drop 16 plaintext in
  if startswith plaintext (py "whk_") && (length prefix =? 12)%nat && forallb hex_char prefix
     && startswith rest (py "_") && (length rest =? 44)%nat && forallb key_char (drop 1 rest)
  then Some prefix else None.

(** [_DIGEST_PATTERN] *)
Definition digest_like (s : str) : bool := (length s =? 64)%nat && forallb hex_char s.

Definition invalid_api_key : exn := UnauthorizedError "Invalid API key" "X-API-Key".

Definition key_rows (prefix : str) (db : Db) : list (ApiKey * Project * Organization) :=
  k ← t_where (fun k => str_eqb (k_key_prefix k) prefix) (db_api_keys db);
  p ← t_where (fun p => p_id p =? k_project_id k) (db_projects db);
  o ← t_where (fun o => o_id o =? p_organization_id p) (db_organizations db);
  [(k, p, o)].

(** The first candidate whose digest verifies. *)
Fixpoint verifying (pepper plaintext : str) (rows : list (ApiKey * Project * Organization)) :
    res exn (option (ApiKey * Project * Organization)) :=
  match rows with
  | [] => Ok None
  | (k, p, o) :: rows' =>
      if digest_like (k_key_digest k) then
        match verify_api_key plaintext (k_key_digest k) pepper with
        | None => Raise (ValueError "UnicodeEncodeError")
        | Some true => Ok (Some (k, p, o))
        | Some false => verifying pepper plaintext rows'
        end
      else verifying pepper plaintext rows'
  end.

Definition has_scope (scopes : json) (scope : str) : bool :=
  match scopes with
  | JList l => existsb (fun s => match s with JStr s => str_eqb s scope | _ => false end) l
  | _ => false
  end.

Definition key_usable (now : datetime) (k : ApiKey) (p : Project) (o : Organization) : bool :=
  k_is_active k && negb (has (k_revoked_at k)) && has_scope (k_scopes k) (py "events:write")
  && negb (expired now k) && p_is_active p && bool_decide (o_lifecycle_state o = Active).

Definition get_api_key_project (settings : Settings) (now : datetime) (plaintext : option str)
    (t : ApiKeyUsageTracker) : M (Project * ApiKeyUsageTracker) :=
  let text := default [] plaintext in
  prefix ← of_option invalid_api_key (api_key_prefix text);
  rows ← gets (key_rows prefix);
  row ← of_res (verifying (api_key_pepper settings) text rows);
  '(k, p, o) ← of_option invalid_api_key row;
  if key_usable now k p o then mret (p, record_usage settings (k_id k) now t)
  else raise invalid_api_key.

(** ** What authentication decides *)

(** The constraints of the table: rows under their own key, unique prefixes and
    public ids. *)
Record keys_ok (t : table ApiKey) : Prop := {
  keys_keyed : t_keyed k_id t;
  keys_wf : t_wf t;
  keys_prefix : forall i j a b, t_get i t = Some a -> t_get j t = Some b ->
    k_key_prefix a = k_key_prefix b -> i = j;
  keys_public : forall i j a b, t_get i t = Some a -> t_get j t = Some b ->
    k_public_id a = k_public_id b -> i = j;
}.

(** Projects and organizations under their own keys. *)
Record tenants_keyed (db : Db) : Prop := {
  tk_projects : t_keyed p_id (db_projects db);
  tk_organizations : t_keyed o_id (db_organizations db);
}.

(** A key that may write events: active, unrevoked, unexpired and scoped, of an
    active project of an active organization. *)
Record usable (now : datetime) (a : ApiKey) (p : Project) (o : Organization) : Prop := {
  us_active : k_is_active a = true;
  us_revoked : k_revoked_at a = None;
  us_scope : exists l, k_scopes a = JList l /\ JStr (py "events:write") ∈ l;
  us_expiry : forall t, k_expires_at a = Some t -> now < t;
  us_project : p_is_active p = true;
  us_organization : o_lifecycle_state o = Active;
}.

Section Authentication.
Context (settings : Settings).

(** [plaintext] is the credential of the stored row [a]. *)
Record credential (plaintext : str) (db : Db) (a : ApiKey) (p : Project) (o : Organization) :
    Prop := {
  cr_row : t_get (k_id a) (db_api_keys db) = Some a;
  cr_prefix : api_key_prefix plaintext = Some (k_key_prefix a);
  cr_digest : digest_api_key plaintext (api_key_pepper settings) = Some (k_key_digest a);
  cr_project : t_get (k_project_id a) (db_projects db) = Some p;
  cr_organization : t_get (p_organization_id p) (db_organizations db) = Some o;
}.

Lemma expired_spec now a : expired now a = false <-> forall t, k_expires_at a = Some t -> now < t.
Proof.
  unfold expired. destruct (k_expires_at a) as [t|]; [| by split].
  rewrite Z.leb_gt. split; [by intros ? ? [= <-] | auto].
Qed.

Lemma has_none {A} (o : option A) : has o = false <-> o = None.
Proof. by destruct o. Qed.

Lemma has_scope_spec v scope :
  has_scope v scope = true <-> exists l, v = JList l /\ JStr scope ∈ l.
Proof.
  unfold has_scope. destruct v; try (split; [discriminate | by intros (? & [=] & _)]).
  rewrite existsb_exists. split.
  - intros (s & Hs & Hm). destruct s; try discriminate Hm. apply str_eqb_eq in Hm. subst.
    eexists. split; [reflexivity |]. by apply list_elem_of_In.
  - intros (? & [= <-] & Hin). apply list_elem_of_In in Hin. eexists. split; [exact Hin |].
    apply str_eqb_refl.
Qed.

Lemma key_usable_spec now a p o : key_usable now a p o = true <-> usable now a p o.
Proof.
  unfold key_usable. rewrite !andb_true_iff, !negb_true_iff, has_none, has_scope_spec,
    expired_spec, bool_decide_eq_true. split.
  - by intros [[[[[? ?] ?] ?] ?] ?].
  - by intros [? ? ? ? ? ?].
Qed.

Lemma hexdigest_like d : bytes_ok d -> length d = 32%nat -> digest_like (hexdigest d) = true.
Proof. intros Hok H32. unfold digest_like. by rewrite hexdigest_length, H32, hexdigest_hex. Qed.

Lemma digest_is_like plaintext pepper d :
  digest_api_key plaintext pepper = Some d -> digest_like d = true.
Proof.
  unfold digest_api_key. rewrite bind_Some. intros (key & _ & Hm).
  apply bind_Some in Hm as (m & _ & Hd).
  enough (d = hexdigest (hmac_sha256 key m)) as ->
    by (apply hexdigest_like; [apply hmac_sha256_ok | apply hmac_sha256_length]).
  by apply Some_inj in Hd.
Qed.

(** *** The syntax of keys *)

Lemma api_key_prefix_ascii s prefix :
  api_key_prefix s = Some prefix -> forallb (fun c => c <? 128) s = true.
Proof.
  unfold api_key_prefix. intros Hp. case_match eqn:E; [| discriminate].
  rewrite !andb_true_iff in E. destruct E as [[[[[E1 _] E2] E3] _] E4].
  apply startswith_spec in E1 as [t ->]. apply startswith_spec in E3 as [u E3].
  rewrite forallb_app, andb_true_iff. split; [done |].
  change (drop 16 (py "whk_" ++ t)) with (drop 12 t) in E3, E4.
  change (take 12 (drop 4 (py "whk_" ++ t))) with (take 12 t) in E2.
  rewrite <- (take_drop 12 t), E3, !forallb_app, !andb_true_iff.
  rewrite E3 in E4. change (drop 1 (py "_" ++ u)) with u in E4.
  rewrite forallb_forall in E2, E4. rewrite !forallb_forall.
  split; [| split].
  - intros c Hc%E2. unfold hex_char in Hc. lia.
  - intros c [<-|[]]. done.
  - intros c Hc%E4. unfold key_char, ascii_alnum in Hc. lia.
Qed.

Lemma utf8_encode_ascii s : forallb (fun c => c <? 128) s = true -> utf8_encode s = Some s.
Proof.
  intros Hs. unfold utf8_encode.
  assert (mapM utf8_char s = Some (map (fun c => [c]) s)) as ->.
  { induction s as [| c s IH]; [done |]. cbn in Hs. apply andb_true_iff in Hs as [Hc Hs].
    cbn [mapM map]. rewrite IH by done. unfold utf8_char. by rewrite Hc. }
  cbn. f_equal. clear. by induction s as [| c s IH]; [| cbn; rewrite IH].
Qed.

Lemma generated_prefix token_hex token_urlsafe :
  length token_hex = 12%nat -> forallb hex_char token_hex = true ->
  length token_urlsafe = 43%nat -> forallb key_char token_urlsafe = true ->
  api_key_prefix (generate_api_key token_hex token_urlsafe).1 = Some token_hex.
Proof.
  intros H12 Hhex H43 Hurl. unfold api_key_prefix, generate_api_key. cbn [fst].
  set (t := token_hex ++ py "_" ++ token_urlsafe).
  change (drop 4 (py "whk_" ++ t)) with t. change (drop 16 (py "whk_" ++ t)) with (drop 12 t).
  assert (take 12 t = token_hex) as -> by (unfold t; apply take_app_length'; done).
  assert (drop 12 t = py "_" ++ token_urlsafe) as -> by (unfold t; apply drop_app_length'; done).
  change (drop 1 (py "_" ++ token_urlsafe)) with token_urlsafe.
  replace (startswith (py "whk_" ++ t) (py "whk_")) with true
    by (symmetry; apply startswith_spec; eauto).
  rewrite H12, Hhex, length_app, H43, Hurl. done.
Qed.

(** *** The rows of a prefix *)

Lemma key_rows_spec db prefix a p o :
  tenants_keyed db -> t_keyed k_id (db_api_keys db) ->
  (a, p, o) ∈ key_rows prefix db <->
  k_key_prefix a = prefix /\ t_get (k_id a) (db_api_keys db) = Some a /\
  t_get (k_project_id a) (db_projects db) = Some p /\
  t_get (p_organization_id p) (db_organizations db) = Some o.
Proof.
  intros [Kp Ko] Kk. unfold key_rows. split.
  - intros (a' & Hin & (Hp & i & Hi)%t_where_spec)%list_elem_of_bind.
    apply list_elem_of_bind in Hin as (p' & Hin & (Hp' & j & Hj)%t_where_spec).
    apply list_elem_of_bind in Hin as (o' & Hin & (Ho' & l & Hl)%t_where_spec).
    apply list_elem_of_singleton in Hin as [= -> -> ->].
    apply str_eqb_eq in Hp. apply Z.eqb_eq in Hp', Ho'.
    pose proof (Kk _ _ Hi). pose proof (Kp _ _ Hj). pose proof (Ko _ _ Hl).
    unfold t_get. split_and!; congruence.
  - intros (<- & Ha & Hp & Ho).
    apply list_elem_of_bind. exists a. split; [| apply t_where_spec; split; [apply str_eqb_refl | by eauto]].
    apply list_elem_of_bind. exists p. split.
    2: { apply t_where_spec. split; [apply Z.eqb_eq; by apply Kp | by eauto]. }
    apply list_elem_of_bind. exists o. split; [by apply list_elem_of_singleton |].
    apply t_where_spec. split; [apply Z.eqb_eq; by apply Ko | by eauto].
Qed.

(** The scan finds a row whose digest is the key's, if there is one. *)
Lemma verifying_some pepper plaintext d rows x :
  digest_api_key plaintext pepper = Some d ->
  verifying pepper plaintext rows = Ok (Some x) -> x ∈ rows /\ k_key_digest x.1.1 = d.
Proof.
  intros Hd. induction rows as [| [[a p] o] rows IH]; cbn [verifying]; [discriminate |].
  unfold verify_api_key. rewrite Hd. cbn [mbind option_bind].
  case_match; [| intros [? ?]%IH; set_solver].
  destruct (str_eqb d (k_key_digest a)) eqn:E; [| intros [? ?]%IH; set_solver].
  intros [= <-]. apply str_eqb_eq in E. cbn. set_solver.
Qed.

Lemma verifying_none pepper plaintext d rows :
  digest_api_key plaintext pepper = Some d ->
  (exists r, verifying pepper plaintext rows = Ok r) /\
  (verifying pepper plaintext rows = Ok None -> forall x, x ∈ rows -> k_key_digest x.1.1 <> d).
Proof.
  intros Hd. induction rows as [| [[a p] o] rows [IH1 IH2]]; cbn [verifying].
  { split; [by eexists |]. intros _ x Hx. inversion Hx. }
  unfold verify_api_key. rewrite Hd. cbn [mbind option_bind].
  destruct (digest_like (k_key_digest a)) eqn:El.
  - destruct (str_eqb d (k_key_digest a)) eqn:E.
    + split; [by eexists | discriminate].
    + split; [done |]. intros Hn x [->|Hx]%elem_of_cons; [| by apply IH2]. cbn.
      intros <-. by rewrite str_eqb_refl in E.
  - split; [done |]. intros Hn x [->|Hx]%elem_of_cons; [| by apply IH2]. cbn.
    intros E. rewrite E, (digest_is_like _ _ _ Hd) in El. discriminate El.
Qed.

(** *** The decision *)

Context (pepper_bytes : pybytes) (Hpepper : utf8_encode (api_key_pepper settings) = Some pepper_bytes).

Lemma well_formed_digest s prefix :
  api_key_prefix s = Some prefix -> exists d, digest_api_key s (api_key_pepper settings) = Some d.
Proof using Hpepper.
  intros Hp%api_key_prefix_ascii%utf8_encode_ascii. unfold digest_api_key.
  rewrite Hpepper, Hp. cbn [mbind option_bind]. by eexists.
Qed.

Lemma authenticate_cases now plaintext t db :
  keys_ok (db_api_keys db) -> tenants_keyed db ->
  (exists a p o, credential (default [] plaintext) db a p o /\ usable now a p o /\
     run (get_api_key_project settings now plaintext t) db
       = (Ok (p, record_usage settings (k_id a) now t), db)) \/
  ((forall a p o, credential (default [] plaintext) db a p o -> ~ usable now a p o) /\
   run (get_api_key_project settings now plaintext t) db = (Raise invalid_api_key, db)).
Proof using Hpepper.
  intros [Kk _ Kpre _] Kt. set (s := default [] plaintext). unfold get_api_key_project, run. fold s.
  destruct (api_key_prefix s) as [prefix|] eqn:Hp; cbn [of_option].
  2: { right. split; [| reflexivity]. intros a p o [_ Hc _ _ _]. congruence. }
  destruct (well_formed_digest _ _ Hp) as [d Hd].
  erewrite M_bind_run by reflexivity. erewrite M_bind_run by reflexivity. cbn [working].
  destruct (verifying_none (api_key_pepper settings) s d (key_rows prefix db) Hd) as [[r Hr] Hnone].
  erewrite M_bind_run by (unfold of_res; by rewrite Hr).
  destruct r as [[[a p] o]|].
  - apply (verifying_some _ _ _ _ _ Hd) in Hr as [Hin Hda]. cbn in Hda.
    apply key_rows_spec in Hin as (Hpa & Ha & Hpr & Ho); [| done | done].
    assert (credential s db a p o) as Hc by (split; congruence).
    erewrite M_bind_run by reflexivity. cbn beta iota.
    destruct (key_usable now a p o) eqn:Hu.
    + left. apply key_usable_spec in Hu. by exists a, p, o.
    + right. split; [| reflexivity]. intros a' p' o' [Ha' Hpre' _ Hp' Ho'] Hu'.
      assert (k_id a' = k_id a) as Hid by (eapply Kpre; [exact Ha' | exact Ha | congruence]).
      assert (a' = a) as -> by congruence. assert (p' = p) as -> by congruence.
      assert (o' = o) as -> by congruence. apply key_usable_spec in Hu'. congruence.
  - right. split; [| reflexivity]. intros a p o [Ha Hpre Hdig Hpr Ho] _.
    apply (Hnone Hr (a, p, o)); [| cbn; congruence].
    apply key_rows_spec; [done | done |]. split_and!; congruence.
Qed.
End Authentication.

(** ** What issuing, rotating and revoking do to the table *)

(** What the documentation of [secrets] says of [token_hex(6)] and
    [token_urlsafe(32)]. *)
Definition drawn (d : str * str) : Prop :=
  length d.1 = 12%nat /\ forallb hex_char d.1 = true /\
  length d.2 = 43%nat /\ forallb key_char d.2 = true.

Lemma allocate_ok tries i draw s pl prefix s' :
  allocate tries i draw s = (Ok (pl, prefix), s') ->
  s' = s /\ exists j, (pl, prefix) = generate_api_key (draw j).1 (draw j).2.
Proof.
  revert i. induction tries as [| n IH]; intros i; cbn [allocate]; [discriminate |].
  destruct (generate_api_key _ _) as [pl' pre'] eqn:E. intros Hr. m_next Hr.
  destruct (prefix_taken pre' (working s)); [by apply IH in Hr |].
  apply mret_ok in Hr as [-> ->]. eauto.
Qed.

Lemma keys_ok_add t mk :
  keys_ok t -> k_id (mk (seq t)) = seq t ->
  (forall i a, t_get i t = Some a -> k_key_prefix a <> k_key_prefix (mk (seq t)) /\
     k_public_id a <> k_public_id (mk (seq t))) ->
  keys_ok (t_add mk t).
Proof.
  intros [K W P Q] Hid Hne.
  assert (forall i a, t_get i (t_add mk t) = Some a ->
    (i = seq t /\ a = mk (seq t)) \/ t_get i t = Some a) as Hcase.
  { intros i a. unfold t_get, t_add. cbn [rows]. rewrite lookup_insert.
    case_decide; [intros [= <-]; by left | by right]. }
  split; [| by apply t_wf_add | |].
  - intros i a [[-> ->]|Ha]%Hcase; [done | by apply K].
  - intros i j a b [[-> ->]|Ha]%Hcase [[-> ->]|Hb]%Hcase Heq; [done | | | by eapply P].
    + by destruct (Hne _ _ Hb) as [[] _].
    + by destruct (Hne _ _ Ha) as [[] _].
  - intros i j a b [[-> ->]|Ha]%Hcase [[-> ->]|Hb]%Hcase Heq; [done | | | by eapply Q].
    + by destruct (Hne _ _ Hb) as [_ []].
    + by destruct (Hne _ _ Ha) as [_ []].
Qed.

Lemma add_api_key_ok mk s id s' :
  keys_ok (db_api_keys (working s)) -> (forall n, k_id (mk n) = n) ->
  add_api_key mk s = (Ok id, s') ->
  id = seq (db_api_keys (working s)) /\ keys_ok (t_add mk (db_api_keys (working s))) /\
  s' = Sess (committed s) ((working s) &{ db_api_keys := t_add mk (db_api_keys (working s)) }).
Proof.
  intros Hok Hid Hr. unfold add_api_key in Hr. m_inv. split; [done |]. split; [| done].
  apply keys_ok_add; [done | apply Hid |]. intros i a Ha.
  match goal with H : has (t_find _ _) = false |- _ => apply has_none in H; rename H into Hf end.
  eapply t_find_none in Hf; [| exact Ha]. apply orb_false_iff in Hf as [H1 H2].
  split; intros E; [rewrite E, str_eqb_refl in H1 | rewrite E, str_eqb_refl in H2]; discriminate.
Qed.

Lemma keys_ok_set t a b :
  keys_ok t -> t_get (k_id a) t = Some a -> k_id b = k_id a -> k_key_prefix b = k_key_prefix a ->
  k_public_id b = k_public_id a -> keys_ok (t_set (k_id a) b t).
Proof.
  intros [K W P Q] Ha Hid Hpre Hpub.
  assert (forall i c, t_get i (t_set (k_id a) b t) = Some c ->
    exists c', t_get i t = Some c' /\ k_key_prefix c = k_key_prefix c' /\
      k_public_id c = k_public_id c' /\ k_id c = k_id c') as Hcase.
  { intros i c. rewrite t_get_set. case_decide as E; [| by eauto].
    intros [= <-]. exists a. by rewrite <- E. }
  split; [| apply t_wf_set; [done | by eauto] | |].
  - intros i c (c' & Hc & _ & _ & ->)%Hcase. by apply K.
  - intros i j c d (c' & Hc & -> & _)%Hcase (d' & Hd & -> & _)%Hcase. by eapply P.
  - intros i j c d (c' & Hc & _ & -> & _)%Hcase (d' & Hd & _ & -> & _)%Hcase. by eapply Q.
Qed.

Lemma keys_ok_overlapped t until a :
  keys_ok t -> t_get (k_id a) t = Some a -> keys_ok (t_set (k_id a) (overlapped until a) t).
Proof. intros. by apply keys_ok_set. Qed.

Lemma keys_ok_revoked t now a :
  keys_ok t -> t_get (k_id a) t = Some a -> keys_ok (t_set (k_id a) (revoked now a) t).
Proof. intros. by apply keys_ok_set. Qed.

Lemma find_api_key_some project key_id db a :
  keys_ok (db_api_keys db) -> find_api_key project key_id db = Some a ->
  k_project_id a = p_id project /\ k_public_id a = key_id /\
  t_get (k_id a) (db_api_keys db) = Some a.
Proof.
  intros Hok [[Hp Hid]%andb_true_iff [i Hi]]%t_find_some. apply Z.eqb_eq in Hp.
  apply str_eqb_eq in Hid. by rewrite (keys_keyed _ Hok _ _ Hi).
Qed.

Section Management.
Context (settings : Settings) (unicode_alnum : Z -> bool).

(** A row as it is issued at [now] with the expiry [until]. *)
Record issued (draw : nat -> str * str) (now until : datetime) (plaintext : str) (a : ApiKey) :
    Prop := {
  is_draw : exists i, plaintext = (generate_api_key (draw i).1 (draw i).2).1 /\
    k_key_prefix a = (draw i).1;
  is_digest : digest_api_key plaintext (api_key_pepper settings) = Some (k_key_digest a);
  is_scopes : exists scopes, k_scopes a = JList (map JStr scopes) /\ validate_scopes scopes = Ok scopes;
  is_expiry : k_expires_at a = Some until;
  is_active : k_is_active a = true;
  is_revoked : k_revoked_at a = None;
}.

Lemma validate_scopes_ok scopes l :
  validate_scopes scopes = Ok l -> l = scopes /\ py "events:write" ∈ scopes.
Proof.
  unfold validate_scopes. intros Hv. repeat case_match; try discriminate Hv.
  injection Hv as <-. split; [done |].
  match goal with H : _ || _ = false |- _ => apply orb_false_iff in H as [H _] end.
  destruct scopes as [| s l']; [discriminate |]. cbn [existsb] in *.
  match goal with H : _ || _ = false |- _ => apply orb_false_iff in H as [Hs%negb_false_iff _] end.
  apply str_eqb_eq in Hs. rewrite Hs. set_solver.
Qed.

Lemma api_key_expiry_ok now d t :
  api_key_expiry settings now d = Ok t ->
  1 <= default (api_key_default_ttl_days settings) d <= 3650 /\
  t = now + days (default (api_key_default_ttl_days settings) d).
Proof.
  unfold api_key_expiry. case_match eqn:E; [| discriminate]. intros [= <-]. split; [lia | done].
Qed.

Lemma digest_ok plaintext s d s' :
  digest settings plaintext s = (Ok d, s') ->
  s' = s /\ digest_api_key plaintext (api_key_pepper settings) = Some d.
Proof. unfold digest. by intros [? ->]%of_option_ok. Qed.

Lemma create_api_key_ok uuid draw now others user project_id name scopes expires db a plaintext db' :
  keys_ok (db_api_keys (others db)) ->
  run (create_api_key settings unicode_alnum uuid draw now others user project_id name scopes expires)
    db = (Ok (a, plaintext), db') ->
  exists p d mk A,
    authorize_project db user project_id KEY_MANAGE false = Ok p /\ k_project_id a = p_id p /\
    1 <= d <= 3650 /\ issued draw now (now + days d) plaintext a /\
    a = mk (seq (db_api_keys (others db))) /\ k_id a = seq (db_api_keys (others db)) /\
    keys_ok (t_add mk (db_api_keys (others db))) /\
    db' = (others db) &{ db_api_keys := t_add mk (db_api_keys (others db)) } &{ db_audits := A }.
Proof.
  intros Hok (s & Hr & ->)%run_ok. unfold create_api_key in Hr.
  m_inv. m_auth.
  match goal with x : (str * str)%type |- _ => destruct x as [pl prefix] end.
  m_inv. m_auth.
  repeat match goal with
  | H : generate_unique_api_key _ _ = _ |- _ => apply allocate_ok in H as [-> [i Hi]]
  | H : digest _ _ _ = _ |- _ => apply digest_ok in H as [-> Hd]
  end. m_auth.
  match goal with H : add_api_key _ _ = _ |- _ =>
    apply add_api_key_ok in H as (-> & Hadd & ->); [| done | done] end.
  m_auth. m_inv.
  match goal with H : mret _ _ = _ |- _ => apply mret_ok in H as [[= -> ->] ->] end.
  match goal with H : api_key_expiry _ _ _ = _ |- _ => apply api_key_expiry_ok in H as [Hd' ->] end.
  match goal with H : validate_scopes _ = Ok _ |- _ => rename H into Hscopes end.
  pose proof (validate_scopes_ok _ _ Hscopes) as [-> _].
  do 2 eexists. match type of Hadd with keys_ok (t_add ?mk _) => exists mk end. eexists.
  split; [eassumption |]. split; [reflexivity |]. split; [exact Hd' |]. split.
  { injection Hi as -> ->. split; [by exists i | done | by eexists | done ..]. }
  split; [reflexivity |]. split; [reflexivity |]. split; [exact Hadd | reflexivity].
Qed.

Lemma stored_scopes_ok v l : stored_scopes v = Ok l -> v = JList (map JStr l).
Proof.
  unfold stored_scopes. destruct v as [| | | | | l0 |]; try discriminate. case_match eqn:E; [| discriminate].
  intros [= <-]. f_equal. revert E. rewrite mapM_Some. induction 1 as [| x y l0' l' Hx _ IH]; [done |].
  cbn. destruct x; try discriminate Hx. injection Hx as <-. by rewrite IH.
Qed.

(** A key that may be rotated: live and not replaced yet. *)
Record rotatable (now : datetime) (t : table ApiKey) (prev : ApiKey) : Prop := {
  ro_live : k_is_active prev = true /\ k_revoked_at prev = None;
  ro_expiry : expired now prev = false;
  ro_first : forall i b, t_get i t = Some b -> k_rotated_from_id b <> Some (k_id prev);
}.

Lemma rotatable_intro now db prev :
  has (t_find (fun k => bool_decide (k_rotated_from_id k = Some (k_id prev))) (db_api_keys db)) = false ->
  negb (k_is_active prev) || has (k_revoked_at prev) || expired now prev = false ->
  rotatable now (db_api_keys db) prev.
Proof.
  intros Hf%has_none. rewrite !orb_false_iff, negb_false_iff, has_none. intros [[? ?] ?].
  split; [done | done |]. intros i b Hb. eapply t_find_none in Hf; [| exact Hb].
  by apply bool_decide_eq_false in Hf.
Qed.

Abbreviation overlap_of o := (default (api_key_rotation_overlap_seconds settings) o).

Lemma rotate_api_key_ok uuid draw now others user project_id key_id overlap db a plaintext db' :
  keys_ok (db_api_keys (others db)) ->
  run (rotate_api_key settings unicode_alnum uuid draw now others user project_id key_id overlap)
    db = (Ok (a, plaintext), db') ->
  exists p d prev mk A,
    authorize_project db user project_id KEY_MANAGE false = Ok p /\ k_project_id a = p_id p /\
    find_api_key p key_id (others db) = Some prev /\ rotatable now (db_api_keys (others db)) prev /\
    1 <= overlap_of overlap <= 86400 /\ 1 <= d <= 3650 /\
    issued draw now (now + days d) plaintext a /\
    k_rotated_from_id a = Some (k_id prev) /\ k_rotation_family_id a = k_rotation_family_id prev /\
    k_scopes a = k_scopes prev /\
    a = mk (seq (db_api_keys (others db))) /\ k_id a = seq (db_api_keys (others db)) /\
    let t := t_set (k_id prev) (overlapped (now + seconds (overlap_of overlap)) prev)
               (db_api_keys (others db)) in
    keys_ok t /\ keys_ok (t_add mk t) /\
    db' = (others db) &{ db_api_keys := t_add mk t } &{ db_audits := A }.
Proof.
  intros Hok (s & Hr & ->)%run_ok. unfold rotate_api_key, put_api_key in Hr.
  m_inv. m_auth.
  match goal with x : (str * str)%type |- _ => destruct x as [pl prefix] end.
  m_inv. m_auth.
  repeat match goal with
  | H : generate_unique_api_key _ _ = _ |- _ => apply allocate_ok in H as [-> [i Hi]]
  | H : digest _ _ _ = _ |- _ => apply digest_ok in H as [-> Hd]
  end. m_auth.
  match goal with H : mret _ _ = _ |- _ => apply mret_ok in H as [[= -> ->] ->] end.
  match goal with H : api_key_expiry _ _ _ = _ |- _ => apply api_key_expiry_ok in H as [Hd' ->] end.
  match goal with H : (stored_scopes _ ≫= _) = Ok _ |- _ =>
    apply res_bind_ok in H as (scopes & Hst%stored_scopes_ok & Hscopes) end.
  pose proof (validate_scopes_ok _ _ Hscopes) as [-> _].
  match goal with H : find_api_key _ _ _ = Some ?x |- _ => rename x into prev;
    destruct (find_api_key_some _ _ _ _ Hok H) as (_ & _ & Hprev) end.
  match goal with H : add_api_key _ _ = _ |- _ => rename H into Ha end.
  apply add_api_key_ok in Ha as (-> & Hadd & ->);
    [| exact (keys_ok_overlapped _ _ _ Hok Hprev) | done].
  do 3 eexists. match type of Hadd with keys_ok (t_add ?mk _) => exists mk end. eexists.
  split; [eassumption |]. split; [reflexivity |]. split; [eassumption |].
  split; [by eapply rotatable_intro |]. split; [lia |]. split; [exact Hd' |]. split.
  { injection Hi as -> ->. split; [by exists i | done | by eexists | done ..]. }
  split; [reflexivity |]. split; [reflexivity |]. split; [by rewrite Hst |].
  split; [reflexivity |]. split; [reflexivity |].
  split; [exact (keys_ok_overlapped _ _ _ Hok Hprev) |]. split; [exact Hadd | reflexivity].
Qed.

Lemma revoke_api_key_ok uuid now others user project_id key_id db a db' :
  keys_ok (db_api_keys (others db)) ->
  run (revoke_api_key unicode_alnum uuid now others user project_id key_id) db = (Ok a, db') ->
  exists p prev A,
    authorize_project db user project_id KEY_MANAGE false = Ok p /\
    find_api_key p key_id (others db) = Some prev /\ a = revoked now prev /\
    keys_ok (t_set (k_id prev) a (db_api_keys (others db))) /\
    db' = (others db) &{ db_api_keys := t_set (k_id prev) a (db_api_keys (others db)) }
                      &{ db_audits := A }.
Proof.
  intros Hok (s & Hr & ->)%run_ok. unfold revoke_api_key, put_api_key in Hr. m_inv. m_auth.
  match goal with H : find_api_key _ _ _ = Some ?x |- _ => rename x into prev;
    destruct (find_api_key_some _ _ _ _ Hok H) as (_ & _ & Hprev) end.
  do 3 eexists. split; [eassumption |]. split; [eassumption |]. split; [reflexivity |].
  split; [exact (keys_ok_revoked _ _ _ Hok Hprev) | reflexivity].
Qed.
End Management.

(** ** Issued keys *)

Section Issued.
Context (settings : Settings) (pepper_bytes : pybytes)
  (Hpepper : utf8_encode (api_key_pepper settings) = Some pepper_bytes).

Lemma authenticate_credential now s t db a p o :
  keys_ok (db_api_keys db) -> tenants_keyed db -> credential settings s db a p o ->
  run (get_api_key_project settings now (Some s) t) db =
  if key_usable now a p o then (Ok (p, record_usage settings (k_id a) now t), db)
  else (Raise invalid_api_key, db).
Proof using Hpepper.
  intros Hok Kt Hc. destruct (key_usable now a p o) eqn:Hu;
    destruct (authenticate_cases settings pepper_bytes Hpepper now (Some s) t db Hok Kt)
      as [(a' & p' & o' & Hc' & Hu' & Hrun)|[Hno Hrun]]; cbn in *; [| | | exact Hrun].
  2: { apply key_usable_spec in Hu. by destruct (Hno _ _ _ Hc). }
  all: destruct Hc as [Ha Hpre _ Hp Ho], Hc' as [Ha' Hpre' _ Hp' Ho'];
    assert (k_id a' = k_id a) as Hid by (eapply (keys_prefix _ Hok); [done | done | congruence]);
    assert (a' = a) as -> by congruence; assert (p' = p) as -> by congruence;
    assert (o' = o) as -> by congruence.
  - exact Hrun.
  - apply key_usable_spec in Hu'. congruence.
Qed.

Lemma issued_credential draw now until plaintext a db p o :
  (forall i, drawn (draw i)) -> issued settings draw now until plaintext a ->
  t_get (k_id a) (db_api_keys db) = Some a ->
  t_get (k_project_id a) (db_projects db) = Some p ->
  t_get (p_organization_id p) (db_organizations db) = Some o ->
  credential settings plaintext db a p o.
Proof.
  intros Hdraw [(i & -> & Hpre) Hdig _ _ _ _] Ha Hp Ho. destruct (Hdraw i) as (? & ? & ? & ?).
  split; [done | | done | done | done]. rewrite Hpre. by apply generated_prefix.
Qed.

Lemma issued_usable draw now until plaintext a p o at_ :
  issued settings draw now until plaintext a ->
  key_usable at_ a p o
  = (at_ <? until) && p_is_active p && bool_decide (o_lifecycle_state o = Active).
Proof.
  intros [_ _ (scopes & Hs & Hv) He Ha Hr]. unfold key_usable, expired. rewrite Ha, Hr, Hs, He.
  assert (has_scope (JList (map JStr scopes)) (py "events:write") = true) as ->.
  { apply has_scope_spec. eexists. split; [reflexivity |]. apply list_elem_of_fmap_2.
    by eapply validate_scopes_ok. }
  cbn [andb negb has]. by rewrite <- Z.ltb_antisym.
Qed.

(** The old key of a rotation. *)
Lemma overlapped_usable until a p o at_ :
  key_usable at_ (overlapped until a) p o = (at_ <? until) && key_usable at_ a p o.
Proof.
  unfold key_usable, expired, overlapped. upd_simpl.
  destruct (k_expires_at a) as [t|], (k_is_active a), (has (k_revoked_at a)),
    (has_scope (k_scopes a) (py "events:write")), (p_is_active p),
    (bool_decide (o_lifecycle_state o = Active)); cbn [andb negb]; lia.
Qed.
End Issued.

(** ** The history of the table *)

(** Everything the program does to the table of keys, in any order, each
    operation with the transactions that commit while it waits for a row.  Rows
    only go away with their whole project. *)
Section History.
Context (settings : Settings) (unicode_alnum : Z -> bool).

Inductive key_history (db0 : Db) : Db -> Prop :=
| kh_start : key_history db0 db0
| kh_elsewhere db db' :
    key_history db0 db -> db_api_keys db' = db_api_keys db -> key_history db0 db'
| kh_create uuid draw now others user project_id name scopes expires db a plaintext db' :
    key_history db0 db -> key_history db0 (others db) ->
    run (create_api_key settings unicode_alnum uuid draw now others user project_id name scopes expires)
      db = (Ok (a, plaintext), db') ->
    key_history db0 db'
| kh_rotate uuid draw now others user project_id key_id overlap db a plaintext db' :
    key_history db0 db -> key_history db0 (others db) ->
    run (rotate_api_key settings unicode_alnum uuid draw now others user project_id key_id overlap)
      db = (Ok (a, plaintext), db') ->
    key_history db0 db'
| kh_revoke uuid now others user project_id key_id db a db' :
    key_history db0 db -> key_history db0 (others db) ->
    run (revoke_api_key unicode_alnum uuid now others user project_id key_id) db = (Ok a, db') ->
    key_history db0 db'
| kh_flush recorded fails t t' db db' :
    key_history db0 db -> run (flush recorded fails t) db = (Ok t', db') -> key_history db0 db'.

(** What stays of a row once it is revoked. *)
Definition dead_row (i : Z) (a : ApiKey) (t : table ApiKey) : Prop :=
  exists b, t_get i t = Some b /\ k_is_active b = false /\ k_key_prefix b = k_key_prefix a.

Lemma flush_ok recorded fails t db t' db' :
  run (flush recorded fails t) db = (Ok t', db') ->
  db_api_keys db' = db_api_keys db \/
  db_api_keys db' = t_map (used (pending t)) (db_api_keys db).
Proof.
  unfold flush, run. case_bool_decide; [intros [= _ <-]; by left |].
  destruct fails; intros [= _ <-]; [by left | by right].
Qed.

Lemma used_same taken a :
  k_id (used taken a) = k_id a /\ k_key_prefix (used taken a) = k_key_prefix a /\
  k_public_id (used taken a) = k_public_id a /\ k_is_active (used taken a) = k_is_active a.
Proof. unfold used. by repeat case_match. Qed.

Lemma keys_ok_used taken t : keys_ok t -> keys_ok (t_map (used taken) t).
Proof.
  intros [K W P Q].
  assert (forall i b, t_get i (t_map (used taken) t) = Some b ->
    exists a, t_get i t = Some a /\ b = used taken a) as Hcase.
  { intros i b. rewrite t_get_map. intros (a & -> & Ha)%fmap_Some. eauto. }
  split; [| by apply t_wf_map | |].
  - intros i b (a & Ha & ->)%Hcase. destruct (used_same taken a) as (-> & _). by apply K.
  - intros i j b b' (a & Ha & ->)%Hcase (a' & Ha' & ->)%Hcase.
    destruct (used_same taken a) as (_ & -> & _), (used_same taken a') as (_ & -> & _). by eapply P.
  - intros i j b b' (a & Ha & ->)%Hcase (a' & Ha' & ->)%Hcase.
    destruct (used_same taken a) as (_ & _ & -> & _), (used_same taken a') as (_ & _ & -> & _).
    by eapply Q.
Qed.

Lemma dead_row_add i a mk t : t_wf t -> dead_row i a t -> dead_row i a (t_add mk t).
Proof. intros W (b & Hb & ? & ?). exists b. split; [by apply t_get_add_old | done]. Qed.

Lemma dead_row_set i a j b t :
  dead_row i a t -> (forall c, t_get j t = Some c -> k_is_active c = false ->
    k_is_active b = false /\ k_key_prefix b = k_key_prefix c) -> dead_row i a (t_set j b t).
Proof.
  intros (c & Hc & Hact & Hpre) Hb. unfold dead_row. setoid_rewrite t_get_set. case_decide; [| by eauto].
  subst j. destruct (Hb _ Hc Hact). exists b. split; [done |]. split; congruence.
Qed.

Lemma key_history_dead db0 db i a :
  keys_ok (db_api_keys db0) -> dead_row i a (db_api_keys db0) -> key_history db0 db ->
  keys_ok (db_api_keys db) /\ dead_row i a (db_api_keys db).
Proof.
  intros Hok0 Hd0.
  induction 1 as [| db db' _ IH Heq | uuid draw now others user project_id name scopes expires db a0
    pl db' _ _ _ [Hok Hd] Hr | uuid draw now others user project_id key_id overlap db a0 pl db' _ _ _
    [Hok Hd] Hr | uuid now others user project_id key_id db a0 db' _ _ _ [Hok Hd] Hr
    | recorded fails t t' db db' _ [Hok Hd] Hr].
  - done.
  - by rewrite Heq.
  - apply create_api_key_ok in Hr as (p & d & mk & A & _ & _ & _ & _ & _ & _ & Hadd & ->); [| done].
    upd_simpl. split; [done |]. apply dead_row_add; [apply Hok | done].
  - apply rotate_api_key_ok in Hr as (p & d & prev & mk & A & _ & _ & Hf & Hrot & _ & _ & _ & _ & _ &
      _ & _ & _ & Hset & Hadd & ->); [| done]. upd_simpl. split; [done |].
    apply dead_row_add; [apply Hset |]. apply dead_row_set; [done |]. intros c Hc Hact.
    apply find_api_key_some in Hf as (_ & _ & Hprev); [| done].
    assert (c = prev) as -> by congruence. destruct (ro_live _ _ _ Hrot). congruence.
  - apply revoke_api_key_ok in Hr as (p & prev & A & _ & Hf & -> & Hset & ->); [| done]. upd_simpl.
    split; [done |]. apply dead_row_set; [done |]. intros c Hc Hact.
    apply find_api_key_some in Hf as (_ & _ & Hprev); [| done].
    by assert (c = prev) as -> by congruence.
  - apply flush_ok in Hr as [->| ->]; [done |]. split; [by apply keys_ok_used |].
    destruct Hd as (b & Hb & Hact & Hpre). exists (used (pending t) b).
    destruct (used_same (pending t) b) as (_ & -> & _ & ->). by rewrite t_get_map, Hb.
Qed.
End History.

(** ** Usage time stamps *)

Section Usage.
Context (settings : Settings).

Definition record_all (uses : list (Z * datetime)) (t : ApiKeyUsageTracker) : ApiKeyUsageTracker :=
  foldl (fun t u => record_usage settings u.1 u.2 t) t uses.

(** What tracker and table together know of the last use of a key. *)
Definition known_use (i : Z) (u : datetime) (t : ApiKeyUsageTracker) (db : Db) : Prop :=
  (exists v, pending t !! i = Some v /\ u <= v) \/
  (exists a v, t_get i (db_api_keys db) = Some a /\ k_last_used_at a = Some v /\ u <= v).

Lemma record_usage_lookup i u t j v :
  pending t !! j = Some v -> exists w, pending (record_usage settings i u t) !! j = Some w /\ v <= w.
Proof.
  intros Hj. unfold record_usage. repeat case_match; [| by exists v; auto with lia .. ].
  upd_simpl. rewrite lookup_insert. case_decide; [subst | by exists v; auto with lia].
  eexists. split; [reflexivity |]. rewrite Hj. unfold coalesce. cbn. lia.
Qed.

Lemma record_all_lookup uses t j v :
  pending t !! j = Some v -> exists w, pending (record_all uses t) !! j = Some w /\ v <= w.
Proof.
  revert t v. induction uses as [| [i u] uses IH]; intros t v Hj; [by exists v; auto with lia |].
  destruct (record_usage_lookup i u t j v Hj) as (w & Hw & Hle). cbn [record_all foldl].
  destruct (IH _ _ Hw) as (w' & Hw' & Hle'). exists w'. split; [exact Hw' | lia].
Qed.

Lemma record_usage_size i u t :
  running t = true -> Z.of_nat (size (pending t)) <= api_key_usage_max_entries settings ->
  Z.of_nat (size (pending (record_usage settings i u t))) <= api_key_usage_max_entries settings.
Proof.
  intros Hr Hs. unfold record_usage. rewrite Hr.
  destruct (pending t !! i) as [v|] eqn:E; cbn [has orb].
  - upd_simpl. by rewrite map_size_insert_Some by eauto.
  - destruct (Z.ltb_spec (Z.of_nat (size (pending t))) (api_key_usage_max_entries settings)); [| done].
    upd_simpl. rewrite map_size_insert_None by done. lia.
Qed.

Lemma record_usage_running i u t : running (record_usage settings i u t) = running t.
Proof. unfold record_usage. by repeat case_match. Qed.

Lemma used_last taken a v :
  k_last_used_at a = Some v -> exists w, k_last_used_at (used taken a) = Some w /\ v <= w.
Proof.
  intros Ha. unfold used. rewrite Ha.
  destruct (taken !! k_id a) as [u|]; [| by exists v; auto with lia].
  destruct (Z.ltb_spec v u); [| by exists v; auto with lia]. eexists. upd_simpl. split; [done | lia].
Qed.

Lemma used_taken taken a u :
  taken !! k_id a = Some u -> exists w, k_last_used_at (used taken a) = Some w /\ u <= w.
Proof.
  intros Hu. unfold used. rewrite Hu. destruct (k_last_used_at a) as [v|] eqn:Ha.
  - destruct (Z.ltb_spec v u); [| by exists v; auto with lia].
    eexists. upd_simpl. split; [done | lia].
  - eexists. upd_simpl. split; [done | lia].
Qed.

Lemma merge_back_lookup taken later i u :
  taken !! i = Some u \/ later !! i = Some u ->
  exists w, merge_back taken later !! i = Some w /\ u <= w.
Proof.
  unfold merge_back. rewrite lookup_union_with.
  destruct (taken !! i) as [a|], (later !! i) as [b|]; cbn;
    (intros [H|H]; simplify_eq; eexists; (split; [reflexivity | lia])).
Qed.
End Usage.

(** ** Claims *)

(** C27: credentials.  A request with an API key is accepted exactly when a row
    stored under the key's prefix has the digest of the whole key and is active,
    unrevoked, unexpired and scoped for writing events, and its project and
    organization are active; it is then accepted for that row's project and its
    use is recorded.  Every refusal is the same 401, whatever was wrong, and
    nothing is written. *)
Theorem api_key_authentication_decides settings pepper now plaintext t db :
  utf8_encode (api_key_pepper settings) = Some pepper ->
  keys_ok (db_api_keys db) -> tenants_keyed db ->
  let r := run (get_api_key_project settings now plaintext t) db in
  r.2 = db /\
  (forall p t', r.1 = Ok (p, t') <->
     exists a o, credential settings (default [] plaintext) db a p o /\ usable now a p o /\
       t' = record_usage settings (k_id a) now t) /\
  (forall e, r.1 = Raise e -> e = invalid_api_key /\ status_code e = 401 /\
     error_headers e = Some (WWW_Authenticate "X-API-Key")).
Proof.
  intros Hpepper Hok Kt.
  destruct (authenticate_cases settings pepper Hpepper now plaintext t db Hok Kt)
    as [(a & p & o & Hc & Hu & ->)|[Hno ->]]; cbn [fst snd].
  - split; [done |]. split; [| by intros e [=]]. intros p' t'. split.
    + intros [= <- <-]. by exists a, o.
    + intros (a' & o' & [Ha' Hpre' _ Hp' _] & _ & ->). destruct Hc as [Ha Hpre _ Hp _].
      assert (k_id a' = k_id a) as Hid by (eapply (keys_prefix _ Hok); [done | done | congruence]).
      assert (a' = a) as -> by congruence. by assert (p' = p) as -> by congruence.
  - split; [done |]. split; [| by intros e [= <-]]. intros p' t'. split; [by intros [=] |].
    intros (a & o & Hc & Hu & _). by destruct (Hno _ _ _ Hc).
Qed.

(** Issue and authenticate.  The plaintext a creation returns is accepted
    for the key's project from then until the expiry stamped on the key, 1 to
    3650 days ahead, while project and organization are active, and refused
    afterwards; the table keeps its constraints. *)
Theorem issued_key_authenticates settings pepper unicode_alnum uuid draw now others user project_id
    name scopes expires db a plaintext db' :
  utf8_encode (api_key_pepper settings) = Some pepper -> (forall i, drawn (draw i)) ->
  keys_ok (db_api_keys (others db)) -> tenants_keyed (others db) ->
  run (create_api_key settings unicode_alnum uuid draw now others user project_id name scopes expires)
    db = (Ok (a, plaintext), db') ->
  keys_ok (db_api_keys db') /\
  exists until, k_expires_at a = Some until /\ now + days 1 <= until <= now + days 3650 /\
  forall p o at_ t,
    t_get (k_project_id a) (db_projects db') = Some p ->
    t_get (p_organization_id p) (db_organizations db') = Some o ->
    run (get_api_key_project settings at_ (Some plaintext) t) db' =
    if (at_ <? until) && p_is_active p && bool_decide (o_lifecycle_state o = Active)
    then (Ok (p, record_usage settings (k_id a) at_ t), db') else (Raise invalid_api_key, db').
Proof.
  intros Hpepper Hdraw Hok Kt
    (p0 & d & mk & A & _ & _ & Hd & Hiss & Ha & Hid & Hadd & ->)%create_api_key_ok; [| done].
  upd_simpl. split; [done |]. exists (now + days d). split; [by eapply is_expiry |].
  split; [unfold days, seconds, second; lia |]. intros p o at_ t Hp Ho.
  rewrite <- (issued_usable _ _ _ _ _ a) by exact Hiss.
  eapply authenticate_credential; [done | done | by destruct Kt |].
  eapply issued_credential; [done | exact Hiss | | done | done].
  rewrite Hid, Ha. unfold t_get, t_add. upd_simpl. apply lookup_insert_eq.
Qed.

(** Rotation.  Only a live key without a replacement is rotated.  From then
    on the replacement authenticates until its own expiry, and the plaintext of
    the previous key is accepted exactly when it would have been before and the
    overlap, at most a day, has not passed. *)
Theorem rotation_overlaps settings pepper unicode_alnum uuid draw now others user project_id key_id
    overlap db a plaintext db' :
  utf8_encode (api_key_pepper settings) = Some pepper -> (forall i, drawn (draw i)) ->
  keys_ok (db_api_keys (others db)) -> tenants_keyed (others db) ->
  run (rotate_api_key settings unicode_alnum uuid draw now others user project_id key_id overlap)
    db = (Ok (a, plaintext), db') ->
  let until := now + seconds (default (api_key_rotation_overlap_seconds settings) overlap) in
  keys_ok (db_api_keys db') /\ now < until <= now + days 1 /\
  exists prev expiry, k_public_id prev = key_id /\ rotatable now (db_api_keys (others db)) prev /\
    k_rotated_from_id a = Some (k_id prev) /\ k_rotation_family_id a = k_rotation_family_id prev /\
    k_expires_at a = Some expiry /\
    forall p o at_ t,
      t_get (k_project_id a) (db_projects db') = Some p ->
      t_get (p_organization_id p) (db_organizations db') = Some o ->
      run (get_api_key_project settings at_ (Some plaintext) t) db' =
        (if (at_ <? expiry) && p_is_active p && bool_decide (o_lifecycle_state o = Active)
         then (Ok (p, record_usage settings (k_id a) at_ t), db') else (Raise invalid_api_key, db')) /\
      forall old, credential settings old (others db) prev p o ->
        run (get_api_key_project settings at_ (Some old) t) db' =
        if (at_ <? until) && key_usable at_ prev p o
        then (Ok (p, record_usage settings (k_id prev) at_ t), db') else (Raise invalid_api_key, db').
Proof.
  intros Hpepper Hdraw Hok Kt (p0 & d & prev & mk & A & _ & _ & Hf & Hrot & Hov & Hd & Hiss &
    Hfrom & Hfam & _ & Ha & Hid & Hset & Hadd & ->)%rotate_api_key_ok until; [| done].
  upd_simpl. split; [done |]. split; [unfold until, days, seconds, second; lia |].
  pose proof (find_api_key_some _ _ _ _ Hok Hf) as (_ & Hpub & Hprev).
  exists prev, (now + days d). do 4 (split; [done |]). split; [by eapply is_expiry |].
  intros p o at_ t Hp Ho. split.
  - rewrite <- (issued_usable _ _ _ _ _ a) by exact Hiss.
    eapply authenticate_credential; [done | done | by destruct Kt |].
    eapply issued_credential; [done | exact Hiss | | done | done].
    rewrite Hid, Ha. unfold t_get, t_add, t_set. upd_simpl. cbn [seq rows]. apply lookup_insert_eq.
  - intros old [_ Hpre Hdig Hp' Ho']. rewrite <- overlapped_usable.
    apply (authenticate_credential _ _ Hpepper at_ old t _ (overlapped until prev) p o);
      [done | by destruct Kt |].
    split; upd_simpl; [| done | done | done | done].
    apply t_get_add_old; [apply Hset |].
    change (k_id (overlapped until prev)) with (k_id prev). by rewrite t_get_set, decide_True.
Qed.

(** C35: revocation is final.  Once a revocation has returned, no plaintext with
    the key's prefix is accepted again, at any time and by any tracker, whatever
    keys are created, rotated, revoked or used afterwards and in whatever
    order. *)
Theorem revocation_is_final settings pepper unicode_alnum uuid now others user project_id key_id db a
    db1 db2 plaintext at_ t :
  utf8_encode (api_key_pepper settings) = Some pepper ->
  keys_ok (db_api_keys (others db)) ->
  run (revoke_api_key unicode_alnum uuid now others user project_id key_id) db = (Ok a, db1) ->
  key_history settings unicode_alnum db1 db2 -> tenants_keyed db2 ->
  api_key_prefix plaintext = Some (k_key_prefix a) ->
  run (get_api_key_project settings at_ (Some plaintext) t) db2 = (Raise invalid_api_key, db2).
Proof.
  intros Hpepper Hok (p & prev & A & _ & Hf & -> & Hset & ->)%revoke_api_key_ok Hist Kt Hpre; [| done].
  apply (key_history_dead _ _ _ _ (k_id prev) prev) in Hist as [Hok2 (b & Hb & Hact & Hpre2)].
  - destruct (authenticate_cases settings pepper Hpepper at_ (Some plaintext) t db2 Hok2 Kt)
      as [(a' & p' & o' & [Ha Hpa _ _ _] & Hu & _)|[_ ->]]; [exfalso | done].
    assert (k_id a' = k_id prev) as Hid
      by (apply (keys_prefix _ Hok2 _ _ _ _ Ha Hb); rewrite Hpre2;
          assert (Some (k_key_prefix a') = Some (k_key_prefix prev)) as [=] by exact (eq_trans (eq_sym Hpa) Hpre);
          done).
    rewrite Hid, Hb in Ha. injection Ha as <-. by rewrite (us_active _ _ _ _ Hu) in Hact.
  - upd_simpl. done.
  - upd_simpl. exists (revoked now prev). by rewrite t_get_set, decide_True.
Qed.

(** Usage stamps.  However uses are recorded before and during a flush, and
    whether its transaction succeeds or fails, a use the tracker had accepted or
    the table had shown stays known: the tracker or the key's row has that time
    or a later one.  No row's time of last use moves back, and recording keeps
    the tracker within its configured size. *)
Theorem usage_is_not_lost settings before during fails t db t' db' :
  keys_ok (db_api_keys db) ->
  run (flush (record_all settings during) fails (record_all settings before t)) db = (Ok t', db') ->
  (forall i u a, t_get i (db_api_keys db) = Some a ->
     known_use i u t db -> known_use i u t' db') /\
  (forall i a v, t_get i (db_api_keys db) = Some a -> k_last_used_at a = Some v ->
     exists b w, t_get i (db_api_keys db') = Some b /\ k_last_used_at b = Some w /\ v <= w) /\
  (running t = true -> Z.of_nat (size (pending t)) <= api_key_usage_max_entries settings ->
   Z.of_nat (size (pending (record_all settings before t))) <= api_key_usage_max_entries settings).
Proof.
  intros Hok Hr.
  assert (forall i a v, t_get i (db_api_keys db) = Some a -> k_last_used_at a = Some v ->
    exists b w, t_get i (db_api_keys db') = Some b /\ k_last_used_at b = Some w /\ v <= w) as Hmono.
  { intros i a v Ha Hv. apply flush_ok in Hr as [->| ->]; [by exists a, v; auto with lia |].
    rewrite t_get_map, Ha. destruct (used_last (pending (record_all settings before t)) a v Hv)
      as (w & Hw & Hle). by exists (used (pending (record_all settings before t)) a), w. }
  split; [| split; [exact Hmono |]].
  - intros i u a Ha [(v & Hv & Hle)|(a' & v & Ha' & Hv & Hle)].
    2: { destruct (Hmono _ _ _ Ha' Hv) as (b & w & Hb & Hw & Hle'). right. exists b, w.
         split_and!; [done | done | lia]. }
    destruct (record_all_lookup settings before _ _ _ Hv) as (v1 & Hv1 & Hle1).
    revert Hr. unfold flush. case_bool_decide as Hemp.
    { rewrite Hemp in Hv1. by rewrite lookup_empty in Hv1. }
    destruct fails; cbn [run begin]; intros [= <- <-].
    + destruct (merge_back_lookup (pending (record_all settings before t))
        (pending (record_all settings during ((record_all settings before t) &{ pending := ∅ }))) i v1)
        as (w & Hw & Hle2); [by left |]. left. exists w. upd_simpl. split; [exact Hw | lia].
    + right. pose proof (keys_keyed _ Hok _ _ Ha) as Hid. rewrite <- Hid in Hv1.
      destruct (used_taken _ _ _ Hv1) as (w & Hw & Hle2).
      exists (used (pending (record_all settings before t)) a), w.
      upd_simpl. rewrite t_get_map, Ha. split_and!; [done | done | lia].
  - clear. revert t. induction before as [| [i u] l IH]; intros t Hrun Hsz; [done |].
    cbn [record_all foldl]. apply IH; [by rewrite record_usage_running |].
    by apply record_usage_size.
Qed.

(** A failed flush puts its time stamps back without looking at the configured
    size: with the database away, the tracker outgrows it. *)
Example failed_flush_outgrows_the_cap :
  let settings := default_settings &{ api_key_usage_max_entries := 1 } in
  let t := record_usage settings 1 5 (MkTracker true ∅) in
  match run (flush (record_usage settings 2 6) true t) empty_db with
  | (Ok t', _) => size (pending t') = 2%nat
  | _ => False
  end.
Proof. vm_compute. reflexivity. Qed.

(** ** Examples *)

Module KeysDemo.
Definition settings : Settings := default_settings &{ api_key_pepper := py "pepper" }.
Definition uuid (n : nat) : str := py "id" ++ [48 + Z.of_nat n].
Definition other_uuid (n : nat) : str := py "od" ++ [48 + Z.of_nat n].
Definition draw (hex : Z) (n : nat) : str * str := (replicate 12 hex, replicate 43 65).
Definition db : Db := TenancyDemo.db Active.
Definition tracker : ApiKeyUsageTracker := MkTracker true ∅.

Lemma draw_drawn hex : hex_char hex = true -> forall i, drawn (draw hex i).
Proof.
  intros Hh i. unfold drawn, draw. cbn [fst snd]. rewrite !length_replicate.
  cbn [replicate forallb]. rewrite Hh. by vm_compute.
Qed.

Definition created :=
  run (create_api_key settings (fun _ => false) uuid (draw 97) 5 id 1 (py "proj") (py "key") None
    (Some 30)) db.
Definition no_key : ApiKey :=
  MkApiKey 0 [] 0 [] [] [] JNull None [] None false 0 None None.
Definition key : ApiKey := match created.1 with Ok (k, _) => k | Raise _ => no_key end.
Definition plaintext : str := match created.1 with Ok (_, s) => s | Raise _ => [] end.
Definition created_db : Db := created.2.
Lemma created_ok : created = (Ok (key, plaintext), created_db).
Proof. unfold key, plaintext, created_db. vm_compute. reflexivity. Qed.

Definition rotated :=
  run (rotate_api_key settings (fun _ => false) other_uuid (draw 98) 6 id 1 (py "proj") (k_public_id key)
    (Some 60)) created_db.
Definition new_key : ApiKey := match rotated.1 with Ok (k, _) => k | Raise _ => no_key end.
Definition new_plaintext : str := match rotated.1 with Ok (_, s) => s | Raise _ => [] end.
Definition rotated_db : Db := rotated.2.
Lemma rotated_ok : rotated = (Ok (new_key, new_plaintext), rotated_db).
Proof. unfold new_key, new_plaintext, rotated_db. vm_compute. reflexivity. Qed.

Definition revocation :=
  run (revoke_api_key (fun _ => false) (py "a2") 7 id 1 (py "proj") (k_public_id key)) created_db.
Definition dead_key : ApiKey := match revocation.1 with Ok k => k | Raise _ => no_key end.
Definition revoked_db : Db := revocation.2.
Lemma revoked_ok : revocation = (Ok dead_key, revoked_db).
Proof. unfold dead_key, revoked_db. vm_compute. reflexivity. Qed.

Lemma keys : keys_ok (db_api_keys db).
Proof.
  split; unfold t_keyed, t_wf, db, TenancyDemo.db; upd_simpl; cbn [empty_db db_api_keys].
  - intros k a Ha. change (t_get k (@empty_table ApiKey) = Some a) in Ha. by rewrite t_get_empty in Ha.
  - intros k [a Ha]. change (t_get k (@empty_table ApiKey) = Some a) in Ha. by rewrite t_get_empty in Ha.
  - intros i j a b Ha. by rewrite t_get_empty in Ha.
  - intros i j a b Ha. by rewrite t_get_empty in Ha.
Qed.

Lemma demo_keyed : tenants_keyed db.
Proof. pose proof (TenancyDemo.unique Active) as U. split; apply U. Qed.

Lemma created_valid : keys_ok (db_api_keys created_db) /\ tenants_keyed created_db.
Proof.
  pose proof created_ok as Hr. apply (create_api_key_ok settings _ uuid (draw 97) 5 id) in Hr
    as (p & d & mk & A & _ & _ & _ & _ & _ & _ & Hadd & ->); [| exact keys].
  upd_simpl. split; [exact Hadd |]. destruct demo_keyed. by split.
Qed.

Lemma revoked_keyed : tenants_keyed revoked_db.
Proof.
  pose proof revoked_ok as Hr. apply (revoke_api_key_ok _ (py "a2") 7 id) in Hr
    as (p & prev & A & _ & _ & _ & _ & ->); [| exact (proj1 created_valid)].
  destruct created_valid as [_ []]. by split.
Qed.

Definition flushed_db : Db :=
  created_db &{ db_api_keys := t_map (used {[1 := 6]}) (db_api_keys created_db) }.
Lemma flushed_ok :
  run (flush (record_all settings []) false (record_all settings [] (MkTracker true {[1 := 6]})))
    created_db = (Ok (MkTracker true ∅), flushed_db).
Proof. unfold flush, record_all. cbn [foldl]. by rewrite bool_decide_false by done. Qed.

Lemma pepper : utf8_encode (api_key_pepper settings) = Some (py "pepper").
Proof. reflexivity. Qed.
End KeysDemo.

Lemma api_key_authentication_decides_witness :
  exists t, (run (get_api_key_project KeysDemo.settings 6 (Some KeysDemo.plaintext) KeysDemo.tracker)
    KeysDemo.created_db).1 = Ok (TenancyDemo.project, t).
Proof.
  eexists. apply (proj1 (proj2 (api_key_authentication_decides KeysDemo.settings (py "pepper") 6
    (Some KeysDemo.plaintext) KeysDemo.tracker KeysDemo.created_db KeysDemo.pepper
    (proj1 KeysDemo.created_valid) (proj2 KeysDemo.created_valid)))).
  exists KeysDemo.key, (TenancyDemo.organization Active). split; [| split; [| reflexivity]].
  - split; vm_compute; reflexivity.
  - split; [reflexivity | reflexivity | | | reflexivity | reflexivity].
    + exists [JStr (py "events:write")]. split; [vm_compute; reflexivity | left].
    + intros t Ht. assert (k_expires_at KeysDemo.key = Some (5 + days 30)) as E by reflexivity.
      rewrite E in Ht. injection Ht as <-. reflexivity.
Defined.

Lemma issued_key_authenticates_witness :
  run (get_api_key_project KeysDemo.settings (5 + days 30) (Some KeysDemo.plaintext) KeysDemo.tracker)
    KeysDemo.created_db = (Raise invalid_api_key, KeysDemo.created_db).
Proof.
  destruct (issued_key_authenticates KeysDemo.settings (py "pepper") (fun _ => false) KeysDemo.uuid
    (KeysDemo.draw 97) 5 id 1 (py "proj") (py "key") None (Some 30) KeysDemo.db KeysDemo.key
    KeysDemo.plaintext KeysDemo.created_db KeysDemo.pepper (KeysDemo.draw_drawn 97 eq_refl)
    KeysDemo.keys KeysDemo.demo_keyed KeysDemo.created_ok) as (_ & until & Hu & _ & Hall).
  assert (until = 5 + days 30) as -> by (vm_compute in Hu; injection Hu as <-; reflexivity).
  exact (Hall TenancyDemo.project (TenancyDemo.organization Active) (5 + days 30) KeysDemo.tracker
    eq_refl eq_refl).
Defined.

Lemma rotation_overlaps_witness :
  6 < 6 + seconds 60 <= 6 + days 1 /\ keys_ok (db_api_keys KeysDemo.rotated_db).
Proof.
  destruct (rotation_overlaps KeysDemo.settings (py "pepper") (fun _ => false) KeysDemo.other_uuid
    (KeysDemo.draw 98) 6 id 1 (py "proj") (k_public_id KeysDemo.key) (Some 60) KeysDemo.created_db
    KeysDemo.new_key KeysDemo.new_plaintext KeysDemo.rotated_db KeysDemo.pepper
    (KeysDemo.draw_drawn 98 eq_refl) (proj1 KeysDemo.created_valid) (proj2 KeysDemo.created_valid)
    KeysDemo.rotated_ok) as (Hok & Hu & _).
  exact (conj Hu Hok).
Defined.

Lemma revocation_is_final_witness :
  run (get_api_key_project KeysDemo.settings 8 (Some KeysDemo.plaintext) KeysDemo.tracker)
    KeysDemo.revoked_db = (Raise invalid_api_key, KeysDemo.revoked_db).
Proof.
  apply (revocation_is_final KeysDemo.settings (py "pepper") (fun _ => false) (py "a2") 7 id 1
    (py "proj") (k_public_id KeysDemo.key) KeysDemo.created_db KeysDemo.dead_key KeysDemo.revoked_db
    KeysDemo.revoked_db KeysDemo.plaintext 8 KeysDemo.tracker KeysDemo.pepper
    (proj1 KeysDemo.created_valid) KeysDemo.revoked_ok).
  - apply kh_start.
  - exact KeysDemo.revoked_keyed.
  - vm_compute. reflexivity.
Defined.

Lemma usage_is_not_lost_witness : known_use 1 6 (MkTracker true ∅) KeysDemo.flushed_db.
Proof.
  apply (proj1 (usage_is_not_lost KeysDemo.settings [] [] false (MkTracker true {[1 := 6]})
    KeysDemo.created_db (MkTracker true ∅) KeysDemo.flushed_db
    (proj1 KeysDemo.created_valid) KeysDemo.flushed_ok) 1 6 KeysDemo.key).
  - vm_compute. reflexivity.
  - left. exists 6. split; [reflexivity | lia].
Defined.
