(* ===== verification/Receiver.v ===== *)
(** * The receiver SDK

    [src/sdk/python/src/webhook_platform_sdk/receiver.py]: what a receiver
    does with a delivery.  Both signature schemes are parsed and verified over
    the raw body before it is read as JSON, and an event id is reserved in
    durable storage before the event is accepted.

    The requests are those [Delivery] builds, so that the two ends of the
    protocol meet here: what the worker signs, the SDK verifies. *)

From Stdlib Require Import QArith.
From stdpp Require Import base tactics list gmap sets strings numbers option.
From S2P Require Import Prelude Crypto Json Text Models Session Settings WebhookSecurity Delivery.
From S2P Require Import AuditLog.
Local Open Scope Z_scope.

(** The exceptions of the module; [BadBody] is a [ReceiverVerificationError]
    with a message, [PlainValueError] a [ValueError] outside that class. *)
Inductive receiver_exn : Type :=
| InvalidSignature
| SignatureExpired
| DuplicateEvent (event_id : str)
| BadBody (message : string)
| PlainValueError (message : string).

Record ReceiverEvent : Type := MkReceiverEvent {
  re_event_id : str;
  re_event_type : str;
  re_timestamp : Z;
  re_body : list (str * json);
  re_raw_body : pybytes;
}.

(** What the receiver's storage promises: [claim] answers true for the first
    reservation of an id only, and an id stays reserved. *)
Class DurableDeduplicator (S : Type) := {
  claim : str -> S -> bool * S;
  reserved : S -> str -> Prop;
  claim_first : forall id s, (claim id s).1 = true <-> ~ reserved s id;
  claim_reserves : forall id s x, reserved (claim id s).2 x <-> reserved s x \/ x = id;
}.

(** Storage that keeps the set of the ids it has seen. *)
#[export, refine] Instance set_deduplicator : DurableDeduplicator (gset str) := {|
  claim id s := (bool_decide (id ∉ s), {[id]} ∪ s);
  reserved s id := id ∈ s;
|}.
Proof.
  - intros id s. cbn. apply bool_decide_eq_true.
  - intros id s x. cbn. set_solver.
Defined.

Section Receiver.
(** [str.isdigit] and the decimal value of a character beyond ASCII, and
    [json.loads] on bytes, [None] being its decoding errors. *)
Context (unicode_isdigit : Z -> bool) (unicode_decimal : Z -> option Z)
  (json_loads : pybytes -> option json).

Definition isdigit (s : str) : bool :=
  nonempty s && forallb (fun c => if c <? 128 then ascii_digit c else unicode_isdigit c) s.

(** [int(s)] on a string [isdigit] accepts: more than 4300 digits, and digits
    that are not decimal, are a [ValueError]. *)
Definition int_of_str (s : str) : res receiver_exn Z :=
  if 4300 <? len s then Raise (PlainValueError "Exceeds the limit for integer string conversion")
  else match read_decimals unicode_decimal 0 s with
       | Some z => Ok z
       | None => Raise (PlainValueError "invalid literal for int()")
       end.

(** ** The legacy header *)

(** [bytes.fromhex] on a string without white space and of even length *)
Definition fromhex_ok (s : str) : bool :=
  forallb (fun c => ascii_digit c || ((65 <=? c) && (c <=? 70)) || ((97 <=? c) && (c <=? 102))) s.

Definition signature_item (acc : option Z * list str) (item : str) :
    res receiver_exn (option Z * list str) :=
  let '(timestamp, signatures) := acc in
  let item := strip item in
  let name := before_char 61 item in
  match after_char 61 item with
  | None | Some [] => Raise InvalidSignature
  | Some value =>
      if str_eqb name (py "t") then
        if bool_decide (is_Some timestamp) || negb (isdigit value) then Raise InvalidSignature
        else z ← int_of_str value; Ok (Some z, signatures)
      else if str_eqb name (py "v1") then
        if len value =? 64 then
          if fromhex_ok value then Ok (timestamp, signatures ++ [lower value])
          else Raise InvalidSignature
        else Ok acc
      else Ok acc
  end.

Fixpoint signature_items (acc : option Z * list str) (items : list str) :
    res receiver_exn (option Z * list str) :=
  match items with
  | [] => Ok acc
  | item :: items' => acc' ← signature_item acc item; signature_items acc' items'
  end.

Definition legacy_token (token : str) : bool := has_char 61 (before_char 44 token).

Fixpoint signature_tokens (acc : option Z * list str) (tokens : list str) :
    res receiver_exn (option Z * list str) :=
  match tokens with
  | [] => Ok acc
  | token :: tokens' =>
      if legacy_token token then
        acc' ← signature_items acc (split_on 44 token); signature_tokens acc' tokens'
      else signature_tokens acc tokens'
  end.

Definition signature_parts (header : str) : res receiver_exn (Z * list str) :=
  acc ← signature_tokens (None, []) (words header);
  match acc with
  | (Some timestamp, s :: signatures) => Ok (timestamp, s :: signatures)
  | _ => Raise InvalidSignature
  end.

Definition header_has_legacy_token (header : str) : bool := existsb legacy_token (words header).

(** ** The standard header *)

Definition standard_signature (token : str) : option str :=
  match after_char 44 token with
  | Some value => if str_eqb (before_char 44 token) (py "v1") && nonempty value && isascii value
                  then Some value else None
  | None => None
  end.

Definition standard_signatures (header : str) : list str := omap standard_signature (words header).

(** [s.replace("-", "+").replace("_", "/")] *)
Definition to_standard_alphabet (s : str) : str :=
  map (fun c => if c =? 45 then 43 else if c =? 95 then 47 else c) s.

Definition secret_key_bytes (secret : str) : option pybytes :=
  if startswith secret (py "whsec_") then
    let encoded := drop 6 secret in
    let padded := encoded ++ replicate (Z.to_nat (- len encoded mod 4)) 61 in
    match b64decode padded with
    | Some key => Some key
    | None => b64decode (to_standard_alphabet padded)
    end
  else None.

(** ** Verification *)

Definition encode_error {A} (o : option A) : res receiver_exn A :=
  match o with Some a => Ok a | None => Raise (PlainValueError "UnicodeEncodeError") end.

Definition verify_signature (raw_body : pybytes) (signature_header secret : str)
    (tolerance_seconds now : Z) : res receiver_exn Z :=
  if tolerance_seconds <? 0 then Raise (PlainValueError "tolerance_seconds must be non-negative")
  else
    '(timestamp, signatures) ← signature_parts signature_header;
    if tolerance_seconds <? Z.abs (now - timestamp) then Raise SignatureExpired
    else
      key ← encode_error (utf8_encode secret);
      let signed := int_repr timestamp ++ py "." ++ raw_body in
      let expected := hexdigest (hmac_sha256 key signed) in
      if existsb (str_eqb expected) signatures then Ok timestamp else Raise InvalidSignature.

Definition verify_signature_standard (raw_body : pybytes) (event_id : str)
    (timestamp_header : option str) (signature_header secret : str) (tolerance_seconds now : Z) :
    res receiver_exn Z :=
  if tolerance_seconds <? 0 then Raise (PlainValueError "tolerance_seconds must be non-negative")
  else if negb (isdigit (default [] timestamp_header)) then Raise InvalidSignature
  else
    timestamp ← int_of_str (default [] timestamp_header);
    if tolerance_seconds <? Z.abs (now - timestamp) then Raise SignatureExpired
    else
      match standard_signatures signature_header, secret_key_bytes secret with
      | [], _ | _, None => Raise InvalidSignature
      | signatures, Some key =>
          let prefix := event_id ++ py "." ++ int_repr timestamp ++ py "." in
          if isascii prefix then
            let expected := b64encode (hmac_sha256 key (prefix ++ raw_body)) in
            if existsb (str_eqb expected) signatures then Ok timestamp
            else Raise InvalidSignature
          else Raise (PlainValueError "UnicodeEncodeError")
      end.

(** [normalized.get(name)]: the last header whose lowered name is [name]. *)
Definition header_value (headers : list (str * str)) (name : str) : option str :=
  snd <$> list.last (List.filter (fun h => str_eqb (lowered h.1) name) headers).

(** [document.get(key)] *)
Definition member (key : str) (o : list (str * json)) : option json :=
  snd <$> List.find (fun kv => str_eqb kv.1 key) o.

Definition verify_request (raw_body : pybytes) (headers : list (str * str)) (secret : str)
    (tolerance_seconds now : Z) : res receiver_exn ReceiverEvent :=
  match header_value headers (py "webhook-signature"), header_value headers (py "webhook-id"),
        header_value headers (py "webhook-event") with
  | Some (s :: signature'), Some (i :: event_id'), Some (e :: event_type') =>
      let signature := s :: signature' in
      let event_id := i :: event_id' in
      let event_type := e :: event_type' in
      let timestamp_header := header_value headers (py "webhook-timestamp") in
      timestamp ← (if header_has_legacy_token signature then
        t ← verify_signature raw_body signature secret tolerance_seconds now;
        if bool_decide (timestamp_header = Some (int_repr t)) then Ok t
        else Raise InvalidSignature
      else verify_signature_standard raw_body event_id timestamp_header signature secret
             tolerance_seconds now);
      match json_loads raw_body with
      | None => Raise (BadBody "Webhook body is not valid JSON")
      | Some (JObj document) =>
          match member (py "id") document, member (py "type") document with
          | Some (JStr id), Some (JStr type) =>
              if str_eqb id event_id && str_eqb type event_type then
                Ok {| re_event_id := event_id; re_event_type := event_type;
                      re_timestamp := timestamp; re_body := document; re_raw_body := raw_body |}
              else Raise (BadBody "Webhook headers do not match the signed body")
          | _, _ => Raise (BadBody "Webhook headers do not match the signed body")
          end
      | Some _ => Raise (BadBody "Webhook body must be a JSON object")
      end
  | _, _, _ => Raise InvalidSignature
  end.

Definition verify_and_claim {S} `{DurableDeduplicator S} (raw_body : pybytes)
    (headers : list (str * str)) (secret : str) (tolerance_seconds now : Z) (store : S) :
    res receiver_exn ReceiverEvent * S :=
  match verify_request raw_body headers secret tolerance_seconds now with
  | Raise e => (Raise e, store)
  | Ok event =>
      let '(first, store') := claim (re_event_id event) store in
      (if first then Ok event else Raise (DuplicateEvent (re_event_id event)), store')
  end.
End Receiver.

(** ** What the encodings look like *)

Definition b64_any (c : Z) : bool :=
  ascii_alnum c || (c =? 43) || (c =? 47) || (c =? 45) || (c =? 95).

Lemma b64_char_any c62 c63 n :
  (c62 = 43 /\ c63 = 47) \/ (c62 = 45 /\ c63 = 95) -> digit64 n ->
  b64_any (b64_char c62 c63 n) = true.
Proof.
  unfold digit64, b64_char, b64_any, ascii_alnum. intros Hc Hn.
  destruct (Z.ltb_spec n 26); [lia |]. destruct (Z.ltb_spec n 52); [lia |].
  destruct (Z.ltb_spec n 62); [lia |]. destruct (n =? 62); lia.
Qed.

Lemma b64_digits x y z : byte_ok x -> byte_ok y -> byte_ok z ->
  digit64 (x / 4) /\ digit64 (x mod 4 * 16 + y / 16) /\ digit64 (x mod 4 * 16) /\
  digit64 (y mod 16 * 4 + z / 64) /\ digit64 (y mod 16 * 4) /\ digit64 (z mod 64).
Proof.
  intros Hx Hy Hz. destruct (split_first x Hx) as (? & ? & _).
  destruct (split_second y Hy) as (? & ? & _). destruct (split_third z Hz) as (? & ? & _).
  unfold digit64 in *. lia.
Qed.

(** An encoding is a body without padding, followed by up to two [=]. *)
Lemma b64_shape c62 c63 bs :
  (c62 = 43 /\ c63 = 47) \/ (c62 = 45 /\ c63 = 95) -> bytes_ok bs ->
  exists body k, b64_with c62 c63 bs = body ++ replicate k 61 /\ forallb b64_any body = true /\
    (k < 4)%nat /\ (len body + Z.of_nat k) mod 4 = 0.
Proof.
  intros Hc. unfold bytes_ok. revert bs.
  assert (byte_ok 0) as B0 by (unfold byte_ok; lia).
  induction bs as [| x | x y | x y z bs IH] using list_ind3; intros Hok;
    repeat (apply list.Forall_cons in Hok as [? Hok]).
  - exists [], 0%nat. split_and!; [done | done | lia | done].
  - destruct (b64_digits x 0 0) as (? & _ & ? & _); try done.
    eexists [_; _], 2%nat. split_and!; [done | | lia | done]. cbn.
    by rewrite !b64_char_any.
  - destruct (b64_digits x y 0) as (? & ? & _ & _ & ? & _); try done.
    eexists [_; _; _], 1%nat. split_and!; [done | | lia | done]. cbn.
    by rewrite !b64_char_any.
  - destruct (b64_digits x y z) as (? & ? & _ & ? & _ & ?); try done.
    destruct (IH Hok) as (body & k & E & Hb & Hk & Hm).
    eexists (_ :: _ :: _ :: _ :: body), k. split_and!; [cbn; by rewrite E | | done |].
    + cbn. by rewrite !b64_char_any.
    + unfold len in *. cbn [length]. rewrite <- (Z_mod_plus_full _ 1) in Hm.
      rewrite <- Hm. f_equal. lia.
Qed.

Lemma rstrip_replicate c s k : free_of (fun x => x =? c) s -> rstrip c (s ++ replicate k c) = s.
Proof.
  intros Hs. unfold rstrip. rewrite reverse_app, reverse_replicate.
  rewrite <- (reverse_involutive s) at 2. f_equal. apply free_of_reverse in Hs.
  induction k as [| k IH]; cbn; [| by rewrite Z.eqb_refl].
  destruct (reverse s) as [| x l]; [done |]. apply free_of_cons in Hs as [-> _]. done.
Qed.

Lemma b64_any_class c : b64_any c = true ->
  isspace c = false /\ (c =? 61) = false /\ (c =? 44) = false /\ 0 <= c < 128.
Proof. unfold b64_any, ascii_alnum, isspace. lia. Qed.

Lemma unpadded_restored c62 c63 bs :
  (c62 = 43 /\ c63 = 47) \/ (c62 = 45 /\ c63 = 95) -> bytes_ok bs ->
  let e := rstrip 61 (b64_with c62 c63 bs) in
  e ++ replicate (Z.to_nat (- len e mod 4)) 61 = b64_with c62 c63 bs.
Proof.
  intros Hc Hok. destruct (b64_shape c62 c63 bs Hc Hok) as (body & k & -> & Hb & Hk & Hm). cbn zeta.
  rewrite rstrip_replicate by (eapply free_of_class; [| exact Hb]; intros c ?%b64_any_class; tauto).
  do 2 f_equal. apply Nat2Z.inj. rewrite Z2Nat.id by (apply Z.mod_pos_bound; lia).
  rewrite <- (Z.mod_small (Z.of_nat k) 4) by lia. symmetry. apply Z.cong_iff_0.
  replace (Z.of_nat k - - len body) with (len body + Z.of_nat k) by lia. done.
Qed.

Lemma padded_unchanged c62 c63 bs :
  (c62 = 43 /\ c63 = 47) \/ (c62 = 45 /\ c63 = 95) -> bytes_ok bs ->
  len (b64_with c62 c63 bs) mod 4 = 0.
Proof.
  intros Hc Hok. destruct (b64_shape c62 c63 bs Hc Hok) as (body & k & -> & _ & _ & <-).
  f_equal. unfold len. rewrite length_app, length_replicate. lia.
Qed.

(** The two alphabets differ in the characters [to_standard_alphabet] maps. *)
Lemma to_standard_urlsafe bs :
  bytes_ok bs -> to_standard_alphabet (urlsafe_b64encode bs) = b64encode bs.
Proof.
  unfold urlsafe_b64encode, b64encode, bytes_ok. revert bs.
  assert (forall n, digit64 n ->
    (if b64_char 45 95 n =? 45 then 43 else if b64_char 45 95 n =? 95 then 47 else b64_char 45 95 n)
    = b64_char 43 47 n) as Hch.
  { intros n Hn. unfold digit64, b64_char in *.
    destruct (Z.ltb_spec n 26); [destruct (Z.eqb_spec (65 + n) 45), (Z.eqb_spec (65 + n) 95); lia |].
    destruct (Z.ltb_spec n 52); [destruct (Z.eqb_spec (71 + n) 45), (Z.eqb_spec (71 + n) 95); lia |].
    destruct (Z.ltb_spec n 62); [destruct (Z.eqb_spec (n - 4) 45), (Z.eqb_spec (n - 4) 95); lia |].
    by destruct (n =? 62). }
  assert (byte_ok 0) as B0 by (unfold byte_ok; lia).
  induction bs as [| x | x y | x y z bs IH] using list_ind3; intros Hok; [done | | |];
    repeat (apply list.Forall_cons in Hok as [? Hok]).
  - destruct (b64_digits x 0 0) as (? & _ & ? & _); try done. cbn. by rewrite !Hch.
  - destruct (b64_digits x y 0) as (? & ? & _ & _ & ? & _); try done. cbn. by rewrite !Hch.
  - destruct (b64_digits x y z) as (? & ? & _ & ? & _ & ?); try done. cbn. rewrite !Hch by done.
    by rewrite <- IH.
Qed.

(** What decodes has only characters of the standard alphabet and padding. *)
Lemma b64decode_chars s r : b64decode s = Some r ->
  free_of (fun c => (c =? 45) || (c =? 95)) s.
Proof.
  assert (forall c v, b64_value c = Some v -> (c =? 45) || (c =? 95) = false) as Hv.
  { intros c v. destruct (Z.eqb_spec c 45) as [-> |]; [done |].
    destruct (Z.eqb_spec c 95) as [-> |]; [done |]. done. }
  assert (forall c, (c =? 61) = true -> (c =? 45) || (c =? 95) = false) as Hp
    by (intros c ->%Z.eqb_eq; done).
  remember (length s) as n eqn:En. revert s r En.
  induction (lt_wf n) as [n _ IH]. intros [| w [| x [| y [| z s]]]] r ->; try done.
  { intros _. constructor. }
  cbn. destruct (b64_value w) eqn:Ew; [| done]. destruct (b64_value x) eqn:Ex; [| done]. cbn.
  destruct (y =? 61) eqn:Ey, (z =? 61) eqn:Ez; cbn.
  1: destruct s; [| done]; intros _; repeat (constructor; [eauto |]); constructor.
  all: destruct (b64_value y) eqn:Ey'; [| done]; cbn.
  - destruct (b64_value z) eqn:Ez'; [| done]. cbn. destruct (b64decode s) eqn:Es; [| done].
    intros _. repeat (constructor; [eauto |]). eapply IH; [| done | done]. cbn. lia.
  - destruct s; [| done]. intros _. repeat (constructor; [eauto |]). constructor.
  - destruct (b64_value z) eqn:Ez'; [| done]. cbn. destruct (b64decode s) eqn:Es; [| done].
    intros _. repeat (constructor; [eauto |]). eapply IH; [| done | done]. cbn. lia.
Qed.

Lemma to_standard_fixed s :
  free_of (fun c => (c =? 45) || (c =? 95)) s -> to_standard_alphabet s = s.
Proof.
  induction 1 as [| c s [Hc Hc']%orb_false_iff _ IH]; [done |]. cbn. rewrite Hc, Hc'.
  f_equal. exact IH.
Qed.

(** Either serialization of a secret decodes to the derived key. *)
Lemma secret_key_standard d :
  bytes_ok d -> secret_key_bytes (py "whsec_" ++ b64encode d) = Some d.
Proof.
  intros Hd. unfold secret_key_bytes. rewrite (proj2 (startswith_spec _ _)) by eauto.
  change (drop 6 (py "whsec_" ++ b64encode d)) with (b64encode d).
  assert (- len (b64encode d) mod 4 = 0) as ->.
  { apply Z.mod_opp_l_z; [done |]. apply padded_unchanged; auto. }
  cbn [Z.to_nat replicate]. rewrite app_nil_r. by rewrite b64_roundtrip.
Qed.

Lemma secret_key_legacy d :
  bytes_ok d -> secret_key_bytes (py "whsec_" ++ rstrip 61 (urlsafe_b64encode d)) = Some d.
Proof.
  intros Hd. unfold secret_key_bytes. rewrite (proj2 (startswith_spec _ _)) by eauto.
  change (drop 6 (py "whsec_" ++ ?s)) with s. unfold urlsafe_b64encode at 1 2 3 4.
  rewrite unpadded_restored by auto. fold urlsafe_b64encode.
  change (b64_with 45 95) with urlsafe_b64encode.
  destruct (b64decode (urlsafe_b64encode d)) as [r|] eqn:E.
  - rewrite <- E. rewrite <- (to_standard_fixed (urlsafe_b64encode d)) by (by eapply b64decode_chars).
    rewrite to_standard_urlsafe by done. by apply b64_roundtrip.
  - rewrite to_standard_urlsafe by done. by apply b64_roundtrip.
Qed.

(** ** Headers the worker writes *)

Section Headers.
Context (unicode_isdigit : Z -> bool) (unicode_decimal : Z -> option Z)
  (json_loads : pybytes -> option json).

Lemma isdigit_digits s : s <> [] -> forallb ascii_digit s = true -> isdigit unicode_isdigit s = true.
Proof.
  intros Hne Hs. unfold isdigit. destruct s as [| c s]; [done |]. cbn [nonempty andb].
  apply forallb_forall. intros x Hx. eapply forallb_forall in Hs; [| exact Hx].
  by rewrite digit_small.
Qed.

Lemma int_of_numeral t : 0 <= t -> len (int_repr t) <= 4300 ->
  int_of_str unicode_decimal (int_repr t) = Ok t.
Proof.
  intros Ht Hl. destruct (int_repr_digits t Ht) as (_ & Hd & Hv). unfold int_of_str.
  destruct (Z.ltb_spec 4300 (len (int_repr t))); [lia |].
  rewrite read_decimals_digits by done. by rewrite <- Hv at 2.
Qed.

Lemma hex_char_class c : hex_char c = true ->
  isspace c = false /\ (c =? 44) = false /\ (c =? 61) = false /\
  (if (65 <=? c) && (c <=? 90) then c + 32 else c) = c.
Proof.
  unfold hex_char, isspace. intros Hc. split_and!; [lia | lia | lia |].
  destruct (Z.leb_spec 65 c), (Z.leb_spec c 90); cbn; lia.
Qed.

Lemma lower_hex s : forallb hex_char s = true -> lower s = s.
Proof.
  induction s as [| c s IH]; [done |]. cbn. intros [Hc Hs]%andb_true_iff.
  apply hex_char_class in Hc as (_ & _ & _ & ->). f_equal. by apply IH.
Qed.

Lemma fromhex_hex s : forallb hex_char s = true -> fromhex_ok s = true.
Proof.
  intros Hs. apply forallb_forall. intros c Hc. eapply forallb_forall in Hs; [| exact Hc].
  unfold hex_char, ascii_digit in *. lia.
Qed.

Lemma free_digits f t : (forall c, ascii_digit c = true -> f c = false) -> 0 <= t ->
  free_of f (int_repr t).
Proof. intros Hf Ht. eapply free_of_class; [exact Hf |]. by apply int_repr_digits. Qed.

Lemma free_hex f d : (forall c, hex_char c = true -> f c = false) -> bytes_ok d ->
  free_of f (hexdigest d).
Proof. intros Hf Hd. eapply free_of_class; [exact Hf |]. by apply hexdigest_hex. Qed.

Context (t : Z) (d : pybytes).
Hypothesis (Ht : 0 <= t) (Hl : len (int_repr t) <= 4300).
Hypothesis (Hd : bytes_ok d) (H32 : length d = 32%nat).

Abbreviation legacy_header := (py "t=" ++ int_repr t ++ py ",v1=" ++ hexdigest d).

Lemma legacy_header_words : words legacy_header = [legacy_header].
Proof.
  apply words_free; [| done]. rewrite !free_of_app. split_and!.
  - repeat constructor.
  - by apply free_digits; [apply digit_not_space |].
  - repeat constructor.
  - apply free_hex; [| done]. by intros c (? & _)%hex_char_class.
Qed.

Lemma legacy_header_items :
  split_on 44 legacy_header = [py "t=" ++ int_repr t; py "v1=" ++ hexdigest d].
Proof.
  unfold split_on. rewrite app_assoc.
  change (py ",v1=" ++ hexdigest d) with (44 :: (py "v1=" ++ hexdigest d)).
  rewrite split_by_app; [f_equal | | done].
  - apply split_by_free. rewrite free_of_app. split; [repeat constructor |].
    apply free_hex; [| done]. by intros c (_ & ? & _)%hex_char_class.
  - rewrite free_of_app. split; [repeat constructor |]. apply free_digits; [| done].
    intros c. by apply digit_not.
Qed.

Lemma legacy_header_token : legacy_token legacy_header = true.
Proof.
  unfold legacy_token. rewrite app_assoc.
  change (py ",v1=" ++ hexdigest d) with (44 :: (py "v1=" ++ hexdigest d)).
  rewrite before_char_app; [done |]. rewrite free_of_app. split; [repeat constructor |].
  apply free_digits; [| done]. intros c. by apply digit_not.
Qed.

Lemma timestamp_item signatures :
  signature_item unicode_isdigit unicode_decimal (None, signatures) (py "t=" ++ int_repr t)
  = Ok (Some t, signatures).
Proof.
  destruct (int_repr_digits t Ht) as (Hne & Hdg & _). unfold signature_item.
  rewrite strip_free by (rewrite free_of_app; split; [repeat constructor |];
    by apply free_digits; [apply digit_not_space |]).
  change (py "t=" ++ int_repr t) with (py "t" ++ 61 :: int_repr t).
  rewrite before_char_app, after_char_app by (repeat constructor).
  destruct (int_repr t) as [| c s] eqn:E; [done |]. rewrite <- E in *.
  rewrite isdigit_digits by done. cbn [str_eqb]. rewrite int_of_numeral by done. done.
Qed.

Lemma mac_item timestamp :
  signature_item unicode_isdigit unicode_decimal (timestamp, []) (py "v1=" ++ hexdigest d)
  = Ok (timestamp, [hexdigest d]).
Proof.
  pose proof (hexdigest_hex d Hd) as Hx. pose proof (hexdigest_length d) as Hn. unfold signature_item.
  rewrite strip_free by (rewrite free_of_app; split; [repeat constructor |];
    apply free_hex; [| done]; by intros c (? & _)%hex_char_class).
  change (py "v1=" ++ hexdigest d) with (py "v1" ++ 61 :: hexdigest d).
  rewrite before_char_app, after_char_app by (repeat constructor).
  assert (len (hexdigest d) = 64) as H64 by (unfold len; rewrite Hn, H32; done).
  destruct (hexdigest d) as [| c s] eqn:E; [done |]. rewrite <- E in *.
  rewrite H64, fromhex_hex, lower_hex by done. done.
Qed.

Lemma legacy_header_parts :
  signature_parts unicode_isdigit unicode_decimal legacy_header = Ok (t, [hexdigest d]).
Proof.
  unfold signature_parts. rewrite legacy_header_words. cbn [signature_tokens].
  rewrite legacy_header_token, legacy_header_items. cbn [signature_items].
  rewrite timestamp_item. unfold mbind, res_bind. rewrite mac_item. done.
Qed.

Abbreviation standard_header := (py "v1," ++ b64encode d).

Lemma b64_ascii : exists body k, b64encode d = body ++ replicate k 61 /\ forallb b64_any body = true /\
  b64encode d <> [].
Proof.
  destruct (b64_shape 43 47 d) as (body & k & E & Hb & _ & _); [auto | done |].
  exists body, k. split_and!; [done | done |]. by destruct d as [| ? [| ? [| ? ?]]].
Qed.

Lemma free_b64 f : (forall c, b64_any c = true -> f c = false) -> f 61 = false ->
  free_of f (b64encode d).
Proof.
  intros Hf H61. destruct b64_ascii as (body & k & -> & Hb & _). rewrite free_of_app. split.
  - by eapply free_of_class.
  - by apply Forall_replicate.
Qed.

Lemma standard_header_words : words standard_header = [standard_header].
Proof.
  apply words_free; [| done]. rewrite free_of_app. split; [repeat constructor |].
  apply free_b64; [| done]. by intros c (? & _)%b64_any_class.
Qed.

Lemma standard_header_token : header_has_legacy_token standard_header = false.
Proof.
  unfold header_has_legacy_token. rewrite standard_header_words. cbn [existsb].
  unfold legacy_token. change standard_header with (py "v1" ++ 44 :: b64encode d).
  by rewrite before_char_app by (repeat constructor).
Qed.

Lemma standard_header_signatures : standard_signatures standard_header = [b64encode d].
Proof.
  unfold standard_signatures. rewrite standard_header_words. cbn [omap list_omap].
  unfold standard_signature. change standard_header with (py "v1" ++ 44 :: b64encode d).
  rewrite before_char_app, after_char_app by (repeat constructor).
  destruct b64_ascii as (body & k & E & Hb & Hne).
  assert (isascii (b64encode d) = true) as ->; [| by destruct (b64encode d)].
  unfold isascii. rewrite E, forallb_app. apply andb_true_iff. split.
  - apply forallb_forall. intros c Hc. eapply forallb_forall in Hb; [| exact Hc].
    apply b64_any_class in Hb as (_ & _ & _ & ?). lia.
  - apply forallb_forall. intros c Hc%list_elem_of_In. by apply elem_of_replicate in Hc as [-> _].
Qed.
End Headers.

(** ** The two ends of the protocol *)

Lemma request_headers c t s :
  let h := header_value (rq_headers (request_of c t s)) in
  h (py "webhook-signature") = Some s /\ h (py "webhook-id") = Some (c_event_public_id c) /\
  h (py "webhook-event") = Some (c_event_type c) /\ h (py "webhook-timestamp") = Some (int_repr t).
Proof. cbn zeta. unfold request_of. split_and!; vm_compute; reflexivity. Qed.

(** The secrets a receiver may hold for the endpoint of a claim: the legacy
    serialization serves both schemes, the standard one the standard scheme. *)
Definition holds_secret (settings : Settings) (c : ClaimedDelivery) (secret : str) : Prop :=
  let derive f := f (webhook_signing_key settings) (c_endpoint_public_id c) (c_endpoint_secret_version c) in
  derive endpoint_secret = Some secret \/
  (c_signature_scheme c = Standard /\ derive endpoint_secret_standard = Some secret).

Lemma held_secret_key settings c secret key :
  endpoint_secret_digest (webhook_signing_key settings) (c_endpoint_public_id c)
    (c_endpoint_secret_version c) = Some key ->
  holds_secret settings c secret -> secret_key_bytes secret = Some key.
Proof.
  intros Hk. assert (bytes_ok key) as Hok.
  { unfold endpoint_secret_digest in Hk.
    apply bind_Some in Hk as (m & _ & Hk). apply bind_Some in Hk as (k & _ & [= <-]).
    apply hmac_sha256_ok. }
  unfold holds_secret, endpoint_secret, endpoint_secret_standard. rewrite Hk. cbn.
  intros [[= <-] | [_ [= <-]]]; [by apply secret_key_legacy | by apply secret_key_standard].
Qed.

Lemma signed_inj {E A B} (a a' : A) (b b' : B) : Ok (E := E) (a, b) = Ok (a', b') -> b = b'.
Proof. by intros [= _ ->]. Qed.

Lemma signature_nonempty settings c t signature :
  sign settings c t = Ok (t, signature) -> signature <> [].
Proof.
  unfold sign, mbind, option_bind. destruct (c_signature_scheme c).
  - destruct (endpoint_secret _ _ _); [| discriminate]. unfold sign_payload, mbind, option_bind.
    destruct (utf8_encode _); [| discriminate]. intros <-%signed_inj. discriminate.
  - destruct (endpoint_secret_digest _ _ _); [| discriminate]. unfold sign_payload_standard.
    destruct (isascii _); [| discriminate]. intros <-%signed_inj. discriminate.
Qed.

Section RoundTrip.
Context (unicode_isdigit : Z -> bool) (unicode_decimal : Z -> option Z)
  (json_loads : pybytes -> option json).
Context (settings : Settings) (c : ClaimedDelivery) (t tolerance now : Z) (signature secret : str).
Hypothesis (Ht : 0 <= t) (Hl : len (int_repr t) <= 4300) (Hnow : Z.abs (now - t) <= tolerance).
Hypothesis (Hsign : sign settings c t = Ok (t, signature)).
Hypothesis (Hsecret : holds_secret settings c secret).

Lemma legacy_signature_verifies : c_signature_scheme c = Legacy ->
  header_has_legacy_token signature = true /\
  verify_signature unicode_isdigit unicode_decimal (c_canonical_envelope c) signature secret
    tolerance now = Ok t.
Proof.
  intros Hs. unfold sign in Hsign. rewrite Hs in Hsign.
  destruct Hsecret as [E | [E _]]; [| congruence]. rewrite E in Hsign.
  unfold mbind, option_bind, sign_payload in Hsign.
  destruct (utf8_encode secret) as [key|] eqn:Hk; [| done].
  apply signed_inj in Hsign as <-. set (mac := hmac_sha256 _ _).
  assert (bytes_ok mac) as Hok by apply hmac_sha256_ok.
  assert (length mac = 32%nat) as H32 by apply hmac_sha256_length. split.
  { unfold header_has_legacy_token. rewrite legacy_header_words by done. cbn [existsb].
    by rewrite legacy_header_token. }
  unfold verify_signature. destruct (Z.ltb_spec tolerance 0); [lia |].
  rewrite legacy_header_parts by done. unfold mbind, res_bind.
  destruct (Z.ltb_spec tolerance (Z.abs (now - t))); [lia |]. rewrite Hk. cbn [encode_error existsb].
  fold mac. by rewrite str_eqb_refl.
Qed.

Lemma standard_signature_verifies : c_signature_scheme c = Standard ->
  header_has_legacy_token signature = false /\
  verify_signature_standard unicode_isdigit unicode_decimal (c_canonical_envelope c)
    (c_event_public_id c) (Some (int_repr t)) signature secret tolerance now = Ok t.
Proof.
  intros Hs. unfold sign in Hsign. rewrite Hs in Hsign.
  destruct (endpoint_secret_digest _ _ _) as [key|] eqn:Hk; [| done].
  unfold mbind, option_bind, sign_payload_standard in Hsign. destruct (isascii _) eqn:Ha; [| done].
  apply signed_inj in Hsign as <-. set (mac := hmac_sha256 _ _).
  assert (bytes_ok mac) as Hok by apply hmac_sha256_ok.
  assert (length mac = 32%nat) as H32 by apply hmac_sha256_length.
  split; [by apply standard_header_token |]. unfold verify_signature_standard.
  destruct (Z.ltb_spec tolerance 0); [lia |]. cbn [from_option]. change (id (int_repr t)) with (int_repr t).
  destruct (int_repr_digits t Ht) as (Hne & Hdg & _). rewrite isdigit_digits by done. cbn [negb].
  rewrite int_of_numeral by done. unfold mbind, res_bind.
  destruct (Z.ltb_spec tolerance (Z.abs (now - t))); [lia |].
  rewrite standard_header_signatures by done. rewrite (held_secret_key settings c secret key) by done.
  rewrite Ha. cbn [existsb]. fold mac. by rewrite str_eqb_refl.
Qed.
End RoundTrip.

(** C23: signing and verification are inverse.  Whatever the scheme of a
    delivery, the request the worker builds for it verifies at a receiver that
    holds the endpoint's secret in either serialization (the legacy one for the
    legacy scheme), while the clocks agree up to the tolerance: the SDK returns
    the event with the id, type, time stamp and raw body that were sent.  The
    body must be what [json.loads] reads as an object with that id and type,
    as the envelopes of accepted events are. *)
Theorem delivered_request_verifies unicode_isdigit unicode_decimal json_loads settings c t
    signature secret tolerance now document :
  0 <= t -> len (int_repr t) <= 4300 -> Z.abs (now - t) <= tolerance ->
  sign settings c t = Ok (t, signature) -> holds_secret settings c secret ->
  c_event_public_id c <> [] -> c_event_type c <> [] ->
  json_loads (c_canonical_envelope c) = Some (JObj document) ->
  member (py "id") document = Some (JStr (c_event_public_id c)) ->
  member (py "type") document = Some (JStr (c_event_type c)) ->
  let request := request_of c t signature in
  verify_request unicode_isdigit unicode_decimal json_loads (rq_content request)
    (rq_headers request) secret tolerance now
  = Ok {| re_event_id := c_event_public_id c; re_event_type := c_event_type c; re_timestamp := t;
          re_body := document; re_raw_body := c_canonical_envelope c |}.
Proof.
  intros Ht Hl Hnow Hsign Hsecret Hid Hty Hjson Hdi Hdt request.
  destruct (request_headers c t signature) as (E1 & E2 & E3 & E4). subst request.
  unfold verify_request. rewrite E1, E2, E3, E4. cbn [rq_content request_of].
  clear E1 E2 E3 E4. pose proof (signature_nonempty settings c t signature Hsign) as Hsig.
  destruct signature as [| s0 sig'] eqn:Es; [contradiction |]. rewrite <- Es in *.
  destruct (c_event_public_id c) as [| i0 id'] eqn:Ei; [contradiction |]. rewrite <- Ei in *.
  destruct (c_event_type c) as [| e0 ty'] eqn:Ee; [contradiction |]. rewrite <- Ee in *.
  destruct (c_signature_scheme c) eqn:Ec.
  - destruct (legacy_signature_verifies unicode_isdigit unicode_decimal settings c t tolerance now
      signature secret) as [-> ->]; try assumption.
    cbn. rewrite bool_decide_true by done. cbn. rewrite Hjson, Hdi, Hdt, !str_eqb_refl. done.
  - destruct (standard_signature_verifies unicode_isdigit unicode_decimal settings c t tolerance now
      signature secret) as [-> ->]; try assumption.
    cbn. rewrite Hjson, Hdi, Hdt, !str_eqb_refl. done.
Qed.

(** ** Authenticity *)

(** The bytes the MAC of a scheme covers. *)
Definition signed_message (scheme : SignatureScheme) (id : str) (t : Z) (body : pybytes) : pybytes :=
  match scheme with
  | Legacy => int_repr t ++ py "." ++ body
  | Standard => (id ++ py "." ++ int_repr t ++ py ".") ++ body
  end.

Definition no_dot (s : str) : Prop := free_of (fun c => c =? 46) s.

Lemma dotted_inj a a' b b' : no_dot a -> no_dot a' ->
  a ++ py "." ++ b = a' ++ py "." ++ b' -> a = a' /\ b = b'.
Proof.
  intros Ha Ha' E. change (a ++ 46 :: b = a' ++ 46 :: b') in E. split.
  - rewrite <- (before_char_app 46 a b), <- (before_char_app 46 a' b') by done. by rewrite E.
  - enough (Some b = Some b') by congruence.
    rewrite <- (after_char_app 46 a b), <- (after_char_app 46 a' b') by done. by rewrite E.
Qed.

(** The delimiters make the parts of a message readable from it. *)
Lemma signed_message_inj scheme id id' t t' body body' :
  no_dot id -> no_dot id' ->
  signed_message scheme id t body = signed_message scheme id' t' body' -> t = t' /\ body = body'.
Proof.
  assert (forall z, no_dot (int_repr z)) as Hz
    by (intros z; apply int_repr_free; [done | intros c; by apply digit_not]).
  intros Hi Hi'. destruct scheme; cbn [signed_message].
  - intros [E ->]%dotted_inj; [| apply Hz ..]. by apply int_repr_inj in E.
  - rewrite <- !app_assoc. intros [_ E]%dotted_inj; [| done ..].
    apply dotted_inj in E as [E ->]; [| apply Hz ..]. by apply int_repr_inj in E.
Qed.

Lemma hexdigest_inj d d' : bytes_ok d -> bytes_ok d' -> hexdigest d = hexdigest d' -> d = d'.
Proof.
  assert (forall n n', 0 <= n < 16 -> 0 <= n' < 16 -> nibble n = nibble n' -> n = n') as Hn.
  { unfold nibble. intros n n' ? ?. destruct (Z.ltb_spec n 10), (Z.ltb_spec n' 10); lia. }
  intros Hd. revert d'. induction Hd as [| b d Hb _ IH]; intros [| b' d'] Hd'; try done.
  apply list.Forall_cons in Hd' as [Hb' Hd'].
  change (hexdigest (?b :: ?l)) with (nibble (b / 16) :: nibble (b mod 16) :: hexdigest l).
  intros [= E1 E2 E3]. f_equal; [| by apply IH].
  destruct (split_second b Hb) as (? & ? & ->). destruct (split_second b' Hb') as (? & ? & ->).
  apply Hn in E1, E2; [| done ..]. lia.
Qed.

Lemma b64encode_inj d d' : bytes_ok d -> bytes_ok d' -> b64encode d = b64encode d' -> d = d'.
Proof. intros Hd Hd' E. apply b64_roundtrip in Hd, Hd'. congruence. Qed.

Lemma existsb_single e s : existsb (str_eqb e) [s] = true -> e = s.
Proof. cbn. rewrite orb_false_r. apply str_eqb_eq. Qed.

Section Authentic.
Context (unicode_isdigit : Z -> bool) (unicode_decimal : Z -> option Z)
  (json_loads : pybytes -> option json).
Context (settings : Settings) (c : ClaimedDelivery) (t tolerance now : Z) (signature secret : str).
Hypothesis (Ht : 0 <= t) (Hl : len (int_repr t) <= 4300).
Hypothesis (Hsign : sign settings c t = Ok (t, signature)).
Hypothesis (Hsecret : holds_secret settings c secret).

Abbreviation authentic id ts body :=
  (exists key, hmac_sha256 key (signed_message (c_signature_scheme c) id ts body)
    = hmac_sha256 key (signed_message (c_signature_scheme c) (c_event_public_id c) t
        (c_canonical_envelope c))).

Lemma legacy_accepted body id ts : c_signature_scheme c = Legacy ->
  header_has_legacy_token signature = true /\
  (verify_signature unicode_isdigit unicode_decimal body signature secret tolerance now = Ok ts ->
   authentic id ts body).
Proof.
  intros Hs. unfold sign in Hsign. rewrite Hs in Hsign.
  destruct Hsecret as [E | [E _]]; [| congruence]. rewrite E in Hsign.
  unfold mbind, option_bind, sign_payload in Hsign.
  destruct (utf8_encode secret) as [key|] eqn:Hk; [| discriminate].
  apply signed_inj in Hsign as <-. set (mac := hmac_sha256 _ _).
  assert (bytes_ok mac) as Hok by apply hmac_sha256_ok.
  assert (length mac = 32%nat) as H32 by apply hmac_sha256_length. split.
  { unfold header_has_legacy_token. rewrite legacy_header_words by assumption. cbn [existsb].
    by rewrite legacy_header_token. }
  unfold verify_signature. destruct (tolerance <? 0); [discriminate |].
  rewrite legacy_header_parts by assumption. unfold mbind, res_bind.
  destruct (tolerance <? _); [discriminate |]. rewrite Hk. cbn [encode_error].
  destruct (existsb _ _) eqn:Ee; [| discriminate]. intros [= <-]. apply existsb_single in Ee.
  exists key. rewrite Hs. cbn [signed_message]. fold mac.
  apply hexdigest_inj; [apply hmac_sha256_ok | assumption | assumption].
Qed.

Lemma standard_accepted body id header ts : c_signature_scheme c = Standard ->
  header_has_legacy_token signature = false /\
  (verify_signature_standard unicode_isdigit unicode_decimal body id header signature secret
     tolerance now = Ok ts -> authentic id ts body).
Proof.
  intros Hs. unfold sign in Hsign. rewrite Hs in Hsign.
  destruct (endpoint_secret_digest _ _ _) as [key|] eqn:Hk; [| discriminate].
  unfold mbind, option_bind, sign_payload_standard in Hsign.
  destruct (isascii _) eqn:Ha; [| discriminate].
  apply signed_inj in Hsign as <-. set (mac := hmac_sha256 _ _).
  assert (bytes_ok mac) as Hok by apply hmac_sha256_ok.
  assert (length mac = 32%nat) as H32 by apply hmac_sha256_length.
  split; [by apply standard_header_token |]. unfold verify_signature_standard.
  destruct (tolerance <? 0); [discriminate |]. destruct (negb _); [discriminate |].
  destruct (int_of_str _ _) as [u|]; [| discriminate]. unfold mbind, res_bind.
  destruct (tolerance <? _); [discriminate |]. rewrite standard_header_signatures by assumption.
  rewrite (held_secret_key settings c secret key) by assumption.
  clear Ha. destruct (isascii _) eqn:Ea'; [| intros H; discriminate H].
  match goal with |- context [existsb ?f ?l] => destruct (existsb f l) eqn:Ee end;
    [| intros H; discriminate H].
  intros [= <-]. apply existsb_single in Ee. exists key. rewrite Hs. cbn [signed_message]. fold mac.
  apply b64encode_inj; [apply hmac_sha256_ok | assumption | assumption].
Qed.
End Authentic.


(** ** Deduplication *)

Section Deduplication.
Context (unicode_isdigit : Z -> bool) (unicode_decimal : Z -> option Z)
  (json_loads : pybytes -> option json).
Context {S : Type} `{DurableDeduplicator S} (secret : str) (tolerance : Z).

Abbreviation verified r :=
  (verify_request unicode_isdigit unicode_decimal json_loads r.1.1 r.1.2 secret tolerance r.2).

(** A receiver serving requests one after the other, each a body with its
    headers and the time of arrival. *)
Fixpoint receive (requests : list (pybytes * list (str * str) * Z)) (store : S) :
    list (res receiver_exn ReceiverEvent) * S :=
  match requests with
  | [] => ([], store)
  | r :: requests' =>
      let '(answer, store1) := verify_and_claim unicode_isdigit unicode_decimal json_loads
                                 r.1.1 r.1.2 secret tolerance r.2 store in
      let '(answers, store2) := receive requests' store1 in
      (answer :: answers, store2)
  end.

Definition event_ids (answers : list (res receiver_exn ReceiverEvent)) : list str :=
  omap (fun a => match a with Ok e => Some (re_event_id e) | Raise _ => None end) answers.

Lemma receive_ids requests store :
  let accepted := event_ids (receive requests store).1 in
  NoDup accepted /\
  forall id, id ∈ accepted <->
    ~ reserved store id /\ id ∈ event_ids (map (fun r => verified r) requests).
Proof.
  revert store. induction requests as [| r requests IH]; intros store; cbn.
  { split; [constructor |]. intros id. set_solver. }
  unfold verify_and_claim. destruct (verified r) as [e|x] eqn:Ev.
  2: { specialize (IH store). destruct (receive requests store) as [answers s2]. exact IH. }
  pose proof (claim_first (re_event_id e) store) as Hf.
  pose proof (claim_reserves (re_event_id e) store) as Hr.
  destruct (claim (re_event_id e) store) as [first store1]. cbn in Hf, Hr.
  specialize (IH store1). destruct (receive requests store1) as [answers s2]. cbn in *.
  destruct IH as [Hn Hin]. destruct first; cbn.
  - split.
    + constructor; [| done]. rewrite Hin, Hr. tauto.
    + intros id. rewrite !elem_of_cons, Hin, Hr. split; [| destruct (decide (id = re_event_id e)); tauto].
      intros [-> | [? ?]]; [| tauto]. split; [by apply Hf | auto].
  - assert (~ ~ reserved store (re_event_id e)) as Hres by (intros ?%Hf; done).
    split; [done |]. intros id. rewrite elem_of_cons, Hin, Hr. split.
    + intros [? ?]. tauto.
    + intros [Hid [-> | ?]]; [tauto |]. split; [| done]. intros [? | ->]; tauto.
Qed.
End Deduplication.

(** C25: at-least-once delivery becomes exactly-once acceptance.  Whatever
    requests arrive in whatever order and however often, a receiver accepts an
    event id exactly when some request with that id verifies and the id was
    not reserved before, and it accepts it once; this only needs the contract
    of the durable store. *)
Theorem accepted_exactly_once {S} `{DurableDeduplicator S} unicode_isdigit unicode_decimal
    json_loads secret tolerance requests (store : S) :
  let verified := event_ids (map (fun r : pybytes * list (str * str) * Z =>
    verify_request unicode_isdigit unicode_decimal json_loads r.1.1 r.1.2 secret tolerance r.2)
    requests) in
  let accepted := event_ids
    (receive unicode_isdigit unicode_decimal json_loads secret tolerance requests store).1 in
  NoDup accepted /\ forall id, id ∈ accepted <-> ~ reserved store id /\ id ∈ verified.
Proof. apply receive_ids. Qed.

(** ** A delivery and its receiver *)

Module ReceiverDemo.

Definition envelope : list (str * json) :=
  [(py "data", JInt 7); (py "id", JStr (py "e1")); (py "type", JStr (py "order.created"))].
Definition body : pybytes := default [] (canonical_json (JObj envelope)).
Definition loads (b : pybytes) : option json :=
  if bool_decide (b = body) then Some (JObj envelope) else None.

Definition settings : Settings :=
  default_settings &{ webhook_signing_key := py "0123456789abcdef0123456789abcdef" }.

Definition delivery (scheme : SignatureScheme) : ClaimedDelivery :=
  {| c_id := 1; c_public_id := py "d1"; c_organization_id := 1; c_endpoint_id := 1;
     c_lease_token := py "token"; c_attempt_number := 1; c_endpoint_public_id := py "ep1";
     c_endpoint_url := py "https://example.com/hook"; c_endpoint_secret_version := 1;
     c_endpoint_active := true; c_event_public_id := py "e1"; c_event_type := py "order.created";
     c_canonical_envelope := body; c_signature_scheme := scheme; c_envelope_mode := Native;
     c_traceparent := None; c_tracestate := None; c_created_at := 0 |}.

Definition signature (scheme : SignatureScheme) : str :=
  match sign settings (delivery scheme) 1700000000 with Ok (_, s) => s | Raise _ => [] end.

Definition secret : str :=
  Eval vm_compute in default [] (endpoint_secret (webhook_signing_key settings) (py "ep1") 1).

Definition event : ReceiverEvent :=
  {| re_event_id := py "e1"; re_event_type := py "order.created"; re_timestamp := 1700000000;
     re_body := envelope; re_raw_body := body |}.

Lemma signed scheme : sign settings (delivery scheme) 1700000000 = Ok (1700000000, signature scheme).
Proof. destruct scheme; vm_compute; reflexivity. Qed.

Lemma held scheme : holds_secret settings (delivery scheme) secret.
Proof. left. destruct scheme; vm_compute; reflexivity. Qed.

End ReceiverDemo.

Lemma delivered_request_verifies_witness :
  verify_request (fun _ => false) (fun _ => None) ReceiverDemo.loads
    (rq_content (request_of (ReceiverDemo.delivery Standard) 1700000000 (ReceiverDemo.signature Standard)))
    (rq_headers (request_of (ReceiverDemo.delivery Standard) 1700000000 (ReceiverDemo.signature Standard)))
    ReceiverDemo.secret 300 1700000100 = Ok ReceiverDemo.event.
Proof.
  apply (delivered_request_verifies (fun _ => false) (fun _ => None) ReceiverDemo.loads
    ReceiverDemo.settings (ReceiverDemo.delivery Standard));
    [lia | vm_compute; discriminate | lia | exact (ReceiverDemo.signed Standard)
    | exact (ReceiverDemo.held Standard) | discriminate | discriminate
    | vm_compute; reflexivity | vm_compute; reflexivity | vm_compute; reflexivity].
Defined.

