(* ===== verification/LoginThrottle.v ===== *)
(** * The login throttle

    [src/app/login_throttle.py]: the failure budget of an account, kept in the
    database.  The theorems bound how many wrong passwords can be tried on an
    account in a given time, and say what the fixed windows of the code mean
    for the budget. *)

From Stdlib Require Import QArith Qround.
From stdpp Require Import base tactics list gmap sets strings numbers option sorting.
From S2P Require Import Prelude Json Text Models Session Settings Admission Events.
Local Open Scope Z_scope.

Definition SCOPE_MAX : nat := 340.

Section Throttle.
(** [lower_all] is [str.lower] with the Unicode tables. *)
Context `{Rounding} (settings : Settings) (lower_all : str -> str).

Definition login_scope (email : str) : str :=
  take SCOPE_MAX (py "email:" ++ lower_all (strip email)).

(** [_locked_row]; the wait for the row is in the callers. *)
Definition locked_row (scope : str) (db : Db) : option LoginThrottle := db_throttles db !! scope.

Definition retry_after (now locked_until : datetime) : Z :=
  Z.max 1 (Qceiling (total_seconds (locked_until - now))).

Definition check_login_allowed (now : datetime) (email : str) : M unit :=
  row ← gets (locked_row (login_scope email));
  match row with
  | Some row =>
      match lt_locked_until row with
      | Some locked_until =>
          when (now <? locked_until)
            (raise (QuotaExceededError "login_attempts" (retry_after now locked_until)))
      | None => mret ()
      end
  | None => mret ()
  end.

Definition expired_lock (now : datetime) (row : LoginThrottle) : bool :=
  match lt_locked_until row with Some t => t <=? now | None => false end.

Definition fresh_row (now : datetime) (scope : str) : LoginThrottle :=
  {| lt_scope := scope; lt_failure_count := 0; lt_window_started_at := now;
     lt_locked_until := None; lt_updated_at := now |}.

(** The failure counted on a row: a new window, or one more in the current
    one. *)
Definition counted (now : datetime) (row : LoginThrottle) : LoginThrottle :=
  if (lt_window_started_at row + seconds (login_throttle_window_seconds settings) <=? now)
     || expired_lock now row
  then row &{ lt_failure_count := 1 } &{ lt_window_started_at := now } &{ lt_locked_until := None }
  else row &{ lt_failure_count := lt_failure_count row + 1 }.

(** The lock when the budget is spent. *)
Definition locked (now : datetime) (row : LoginThrottle) : LoginThrottle :=
  (if login_throttle_max_failures settings <=? lt_failure_count row
   then row &{ lt_locked_until := Some (now + seconds (login_throttle_lockout_seconds settings)) }
   else row) &{ lt_updated_at := now }.

Definition failed (now : datetime) (row : LoginThrottle) : LoginThrottle := locked now (counted now row).

(** [others] is what commits while the request waits for the row, whose insert
    waits for a concurrent one of the same key. *)
Definition record_login_failure (now : datetime) (others : Db -> Db) (email : str) : M unit :=
  let scope := login_scope email in
  wait others;;
  modify (fun db => db &{ db_throttles :=
    insert_do_nothing scope (fresh_row now scope) (db_throttles db) });;
  row ← gets (locked_row scope);
  match row with
  | None => rollback
  | Some row =>
      modify (fun db => db &{ db_throttles := <[scope := failed now row]> (db_throttles db) });;
      commit
  end.

Definition record_login_success (email : str) : M unit :=
  modify (fun db => db &{ db_throttles := delete (login_scope email) (db_throttles db) });;
  commit.

(** ** What the operations do *)

Lemma check_login_allowed_run now email s :
  check_login_allowed now email s =
  match locked_row (login_scope email) (working s) ≫= lt_locked_until with
  | Some t => if now <? t then (Raise (QuotaExceededError "login_attempts" (retry_after now t)), s)
              else (Ok (), s)
  | None => (Ok (), s)
  end.
Proof.
  unfold check_login_allowed. unfold mbind at 1, M_bind, gets.
  destruct (locked_row _ _) as [row|]; cbn; [| done].
  destruct (lt_locked_until row) as [t|]; [| done]. by destruct (now <? t).
Qed.

(** The row a failure leaves. *)
Definition after_failure (now : datetime) (scope : str) (row : option LoginThrottle) : LoginThrottle :=
  failed now (default (fresh_row now scope) row).

Lemma record_login_failure_run now others email s :
  let scope := login_scope email in
  let db := (others (working s)) &{ db_throttles :=
    <[scope := after_failure now scope (locked_row scope (others (working s)))]>
      (db_throttles (others (working s))) } in
  record_login_failure now others email s = (Ok (), Sess db db).
Proof.
  intros scope. unfold record_login_failure, wait, insert_do_nothing, locked_row. fold scope.
  unfold mbind, M_bind, modify, gets. cbn [committed working]. upd_simpl.
  destruct (db_throttles (others (working s)) !! scope) as [row|] eqn:E.
  - upd_simpl. rewrite E. unfold commit, after_failure. cbn [default]. upd_simpl. done.
  - upd_simpl. rewrite lookup_insert_eq. unfold commit, after_failure. cbn [default committed working].
    upd_simpl. by rewrite insert_insert_eq.
Qed.
End Throttle.

(** ** Guessing *)

(** What happens to the accounts, in order: a login with a wrong password, with
    the database times of its check and of its failure, and a login that
    succeeds. *)
Inductive login_event : Type :=
| Guess (email : str) (checked recorded : datetime)
| Success (email : str).

Section Guessing.
Context `{Rounding} (settings : Settings) (lower_all : str -> str).

(** Whether the password was looked at, and the database after it. *)
Definition perform (e : login_event) (db : Db) : bool * Db :=
  match e with
  | Guess email checked recorded =>
      match run (check_login_allowed lower_all checked email;;
                 record_login_failure settings lower_all recorded id email) db with
      | (Ok _, db') => (true, db')
      | (Raise _, db') => (false, db')
      end
  | Success email => (false, (run (record_login_success lower_all email) db).2)
  end.

Definition about (scope : str) (e : login_event) : bool :=
  match e with
  | Guess email _ _ | Success email => str_eqb (login_scope lower_all email) scope
  end.

(** How many passwords were looked at for the account with this scope. *)
Fixpoint evaluated (scope : str) (l : list login_event) (db : Db) : Z :=
  match l with
  | [] => 0
  | e :: l' =>
      let '(looked, db') := perform e db in
      (if looked && about scope e then 1 else 0) + evaluated scope l' db'
  end.

Fixpoint successes (scope : str) (l : list login_event) : Z :=
  match l with
  | [] => 0
  | Success email :: l' => (if about scope (Success email) then 1 else 0) + successes scope l'
  | Guess _ _ _ :: l' => successes scope l'
  end.

(** The guesses happen one after the other between [a] and [b]. *)
Fixpoint in_order (a b : datetime) (l : list login_event) : Prop :=
  match l with
  | [] => True
  | Guess _ checked recorded :: l' => a <= checked <= recorded /\ recorded < b /\ in_order recorded b l'
  | Success _ :: l' => in_order a b l'
  end.

Definition max_failures : Z := login_throttle_max_failures settings.
Definition window : Z := seconds (login_throttle_window_seconds settings).
Definition lockout : Z := seconds (login_throttle_lockout_seconds settings).
Definition period : Z := Z.min window lockout.

(** The periods begun in a stretch of time. *)
Definition periods (x : Z) : Z := Z.max 0 ((x + period - 1) / period).

(** A row the program writes: up to the budget of failures, and locked when it
    is spent. *)
Record row_ok (row : LoginThrottle) : Prop := {
  row_count : 1 <= lt_failure_count row <= max_failures;
  row_open : lt_failure_count row < max_failures -> lt_locked_until row = None;
  row_locked : lt_failure_count row = max_failures ->
    exists t, lt_locked_until row = Some t /\ lt_window_started_at row + lockout <= t;
}.

(** The guesses the row still allows before [b]. *)
Definition budget (a b : datetime) (row : option LoginThrottle) : Z :=
  match row with
  | None => max_failures * periods (b - a)
  | Some r => (max_failures - lt_failure_count r)
              + max_failures * periods (b - Z.max a (lt_window_started_at r + period))
  end.

Hypothesis Hfields : fields_ok settings = true.

Lemma throttle_limits : 1 <= max_failures /\ 0 < window /\ 0 < lockout.
Proof using Hfields.
  revert Hfields. unfold fields_ok. rewrite forallb_forall. unfold id. intros Hf.
  field_fact Hf (1 <=? login_throttle_max_failures settings).
  field_fact Hf (60 <=? login_throttle_window_seconds settings).
  field_fact Hf (1 <=? login_throttle_lockout_seconds settings).
  clear Hf. unfold max_failures, window, lockout, seconds, second. lia.
Qed.

Lemma period_pos : 0 < period.
Proof using Hfields. pose proof throttle_limits. unfold period. lia. Qed.

Lemma periods_mono x y : x <= y -> periods x <= periods y.
Proof using Hfields.
  intros Hxy. pose proof period_pos. unfold periods.
  assert ((x + period - 1) / period <= (y + period - 1) / period) by (apply Z.div_le_mono; lia).
  lia.
Qed.

Lemma periods_step x : 0 < x -> periods x = 1 + periods (x - period).
Proof using Hfields.
  intros Hx. pose proof period_pos. unfold periods.
  replace (x + period - 1) with (x - 1 + 1 * period) by lia. rewrite Z.div_add by lia.
  replace (x - period + period - 1) with (x - 1) by lia.
  assert (0 <= (x - 1) / period) by (apply Z.div_pos; lia). lia.
Qed.

Lemma periods_nonneg x : 0 <= periods x.
Proof. unfold periods. lia. Qed.

Lemma budget_later a a' b row : a <= a' -> budget a' b row <= budget a b row.
Proof using Hfields.
  intros Ha. pose proof throttle_limits as [Hm _]. unfold budget. destruct row as [r|].
  - assert (periods (b - Z.max a' (lt_window_started_at r + period))
            <= periods (b - Z.max a (lt_window_started_at r + period))) by (apply periods_mono; lia).
    nia.
  - assert (periods (b - a') <= periods (b - a)) by (apply periods_mono; lia). nia.
Qed.

Lemma locked_ok recorded r :
  1 <= lt_failure_count r <= max_failures -> lt_locked_until r = None ->
  lt_window_started_at r <= recorded ->
  let r' := locked settings recorded r in
  row_ok r' /\ lt_window_started_at r' = lt_window_started_at r /\
  lt_failure_count r' = lt_failure_count r.
Proof.
  intros Hc Hn Hw. unfold locked. fold max_failures lockout.
  destruct (Z.leb_spec max_failures (lt_failure_count r)); upd_simpl;
    (split; [split; upd_simpl | done]).
  - lia.
  - lia.
  - intros _. eexists. split; [reflexivity | lia].
  - lia.
  - done.
  - lia.
Qed.

(** A row whose lock, if any, has expired takes one more failure: in its
    window, or as the first of a new one a period later. *)
Lemma failed_row row checked recorded :
  row_ok row -> (forall t, lt_locked_until row = Some t -> t <= checked) -> checked <= recorded ->
  lt_window_started_at row <= checked ->
  let row' := failed settings recorded row in
  row_ok row' /\
  ((lt_window_started_at row' = lt_window_started_at row /\
    lt_failure_count row' = lt_failure_count row + 1) \/
   (lt_window_started_at row' = recorded /\ lt_failure_count row' = 1 /\
    lt_window_started_at row + period <= recorded)).
Proof using Hfields.
  intros [Hc Ho Hl] Hpass Hle Hst row'. pose proof throttle_limits as (Hm & Hw & Hlo).
  set (new := row &{ lt_failure_count := 1 } &{ lt_window_started_at := recorded }
                  &{ lt_locked_until := None }).
  destruct ((lt_window_started_at row + window <=? recorded) || expired_lock recorded row) eqn:E.
  - assert (row' = locked settings recorded new) as ->
      by (unfold row', failed, counted; fold window; by rewrite E).
    destruct (locked_ok recorded new) as (Hok & -> & ->); unfold new; upd_simpl; [lia | done | lia |].
    split; [done |]. right. split_and!; [done | done |]. unfold period, expired_lock in *.
    destruct (decide (lt_failure_count row = max_failures)) as [Em|Em].
    + destruct (Hl Em) as (t & Ht & Hwt). pose proof (Hpass t Ht). lia.
    + rewrite (Ho ltac:(lia)) in E. lia.
  - assert (row' = locked settings recorded (row &{ lt_failure_count := lt_failure_count row + 1 })) as ->
      by (unfold row', failed, counted; fold window; by rewrite E).
    assert (lt_failure_count row < max_failures) as Hlt.
    { destruct (decide (lt_failure_count row = max_failures)) as [Em|Em]; [exfalso | lia].
      destruct (Hl Em) as (t & Ht & Hwt). pose proof (Hpass t Ht). unfold expired_lock in E.
      rewrite Ht in E. lia. }
    destruct (locked_ok recorded (row &{ lt_failure_count := lt_failure_count row + 1 }))
      as (Hok & -> & ->); upd_simpl; [lia | by apply Ho | lia |].
    split; [done |]. by left.
Qed.

(** The first failure of an account. *)
Lemma first_failure scope recorded :
  let row' := failed settings recorded (fresh_row recorded scope) in
  row_ok row' /\ lt_window_started_at row' = recorded /\ lt_failure_count row' = 1.
Proof using Hfields.
  pose proof throttle_limits as (Hm & Hw & Hlo). unfold failed, counted, expired_lock. fold window.
  cbn [lt_locked_until lt_window_started_at lt_failure_count fresh_row].
  replace (recorded + window <=? recorded) with false by lia. cbn [orb].
  destruct (locked_ok recorded ((fresh_row recorded scope) &{ lt_failure_count := 0 + 1 }))
    as (Hok & -> & ->); upd_simpl; cbn; [lia | done | lia | done].
Qed.

(** ** One event *)

Lemma new_window_budget b row' recorded :
  lt_window_started_at row' = recorded -> lt_failure_count row' = 1 -> recorded < b ->
  1 + budget recorded b (Some row') = max_failures * periods (b - recorded).
Proof using Hfields.
  intros Hw Hc Hb. unfold budget. rewrite Hw, Hc, (periods_step (b - recorded)) by lia.
  pose proof period_pos. replace (b - Z.max recorded (recorded + period)) with (b - recorded - period) by lia.
  lia.
Qed.

Lemma failure_cost r a b checked recorded :
  row_ok r -> (forall t, lt_locked_until r = Some t -> t <= checked) ->
  lt_window_started_at r <= a -> a <= checked <= recorded -> recorded < b ->
  let r' := failed settings recorded r in
  row_ok r' /\ lt_window_started_at r' <= recorded /\
  1 + budget recorded b (Some r') <= budget a b (Some r).
Proof using Hfields.
  intros Hok Hpass Hw Ht Hb r'. pose proof throttle_limits as [Hm _].
  destruct (failed_row r checked recorded Hok Hpass) as [Hok' Hcase]; [lia | lia |]. fold r' in Hok', Hcase.
  split; [done |]. destruct Hcase as [[Hw' Hc']|(Hw' & Hc' & Hp)].
  - split; [lia |]. unfold budget. rewrite Hw', Hc'.
    assert (periods (b - Z.max recorded (lt_window_started_at r + period))
            <= periods (b - Z.max a (lt_window_started_at r + period))) by (apply periods_mono; lia).
    nia.
  - split; [lia |]. rewrite new_window_budget by done. unfold budget.
    assert (periods (b - recorded) <= periods (b - Z.max a (lt_window_started_at r + period)))
      by (apply periods_mono; lia).
    pose proof (row_count _ Hok). nia.
Qed.

Lemma first_failure_cost scope a b recorded :
  a <= recorded -> recorded < b ->
  let r' := failed settings recorded (fresh_row recorded scope) in
  row_ok r' /\ lt_window_started_at r' <= recorded /\
  1 + budget recorded b (Some r') <= budget a b None.
Proof using Hfields.
  intros Ha Hb r'. pose proof throttle_limits as [Hm _].
  destruct (first_failure scope recorded) as (Hok & Hw & Hc). fold r' in Hok, Hw, Hc.
  split; [done |]. split; [lia |]. rewrite new_window_budget by done. unfold budget.
  assert (periods (b - recorded) <= periods (b - a)) by (apply periods_mono; lia). nia.
Qed.

Abbreviation row_of scope db := (locked_row scope db).

Definition lock_holds (checked : datetime) (row : option LoginThrottle) : bool :=
  match row ≫= lt_locked_until with Some t => checked <? t | None => false end.

Lemma lock_holds_not checked r :
  lock_holds checked (Some r) = false <-> forall t, lt_locked_until r = Some t -> t <= checked.
Proof.
  unfold lock_holds. cbn [mbind option_bind]. destruct (lt_locked_until r) as [t|]; [| by split].
  rewrite Z.ltb_ge. split; [by intros ? ? [= <-] | auto].
Qed.

Lemma perform_guess email checked recorded db :
  let scope := login_scope lower_all email in
  perform (Guess email checked recorded) db =
  if lock_holds checked (row_of scope db) then (false, db)
  else (true, db &{ db_throttles :=
          <[scope := after_failure settings recorded scope (row_of scope db)]> (db_throttles db) }).
Proof.
  intros scope. unfold perform, run, lock_holds. unfold mbind at 1, M_bind.
  rewrite check_login_allowed_run. fold scope. cbn [working].
  destruct (row_of scope db ≫= lt_locked_until) as [t|].
  - destruct (checked <? t); [done |]. by rewrite record_login_failure_run.
  - by rewrite record_login_failure_run.
Qed.

Definition state_ok (a : datetime) (row : option LoginThrottle) : Prop :=
  forall r, row = Some r -> row_ok r /\ lt_window_started_at r <= a.

(** A guess costs its account one unit of the budget, and no other account
    anything. *)
Lemma guess_cost scope email checked recorded a b db :
  state_ok a (row_of scope db) -> a <= checked <= recorded -> recorded < b ->
  let '(looked, db') := perform (Guess email checked recorded) db in
  state_ok recorded (row_of scope db') /\
  (if looked && about scope (Guess email checked recorded) then 1 else 0)
    + budget recorded b (row_of scope db') <= budget a b (row_of scope db).
Proof using Hfields.
  intros Hok Ht Hb. rewrite perform_guess. unfold about.
  set (sc := login_scope lower_all email).
  assert (forall db0, row_of scope db0 = row_of scope db ->
    state_ok recorded (row_of scope db0) /\
    0 + budget recorded b (row_of scope db0) <= budget a b (row_of scope db)) as Hsame.
  { intros db0 ->. split.
    - intros r Hr. destruct (Hok r Hr). split; [done | lia].
    - rewrite Z.add_0_l. apply budget_later. lia. }
  destruct (str_eqb sc scope) eqn:Es.
  2: { assert (sc <> scope) by (intros E; by rewrite E, str_eqb_refl in Es).
       destruct (lock_holds checked (row_of sc db)); cbv beta iota; rewrite ?andb_false_r;
         apply Hsame; [done |]. unfold locked_row. upd_simpl. by rewrite lookup_insert_ne. }
  apply str_eqb_eq in Es. rewrite Es.
  destruct (lock_holds checked (row_of scope db)) eqn:Hlock; cbv beta iota; cbn [andb]; [by apply Hsame |].
  unfold locked_row in *. upd_simpl. rewrite lookup_insert_eq. unfold after_failure.
  destruct (db_throttles db !! scope) as [r|] eqn:Er; cbn [default].
  - destruct (Hok r eq_refl) as [Hr Hw].
    destruct (failure_cost r a b checked recorded) as (? & ? & ?); [done | | done | done | done |].
    { by apply lock_holds_not. }
    split; [by intros ? [= <-] | done].
  - destruct (first_failure_cost scope a b recorded) as (? & ? & ?); [lia | done |].
    split; [by intros ? [= <-] | done].
Qed.

Lemma perform_success scope email db :
  row_of scope (perform (Success email) db).2 =
  if about scope (Success email) then None else row_of scope db.
Proof.
  unfold perform, about, locked_row, run, record_login_success, mbind, M_bind, modify, commit.
  cbn [fst snd committed working]. upd_simpl. destruct (str_eqb _ scope) eqn:E.
  - apply str_eqb_eq in E. rewrite E. apply lookup_delete_eq.
  - apply lookup_delete_ne. intros E'. by rewrite E', str_eqb_refl in E.
Qed.

(** Clearing a row gives back at most one budget. *)
Lemma budget_cleared a b row :
  state_ok a row -> budget a b None <= budget a b row + max_failures.
Proof using Hfields.
  intros Hok. pose proof throttle_limits as [Hm _]. pose proof period_pos. destruct row as [r|]; [| lia].
  destruct (Hok r eq_refl) as [Hr Hw]. pose proof (row_count _ Hr). unfold budget.
  assert (periods (b - a) <= 1 + periods (b - a - period)).
  { destruct (Z_le_gt_dec (b - a) 0); [| rewrite (periods_step (b - a)); lia].
    pose proof (periods_nonneg (b - a - period)).
    assert (periods (b - a) = 0); [| lia]. unfold periods.
    assert ((b - a + period - 1) / period < 1) by (apply Z.div_lt_upper_bound; lia). lia. }
  assert (periods (b - a - period) <= periods (b - Z.max a (lt_window_started_at r + period)))
    by (apply periods_mono; lia).
  nia.
Qed.

Lemma evaluated_budget scope l : forall a b db,
  in_order a b l -> state_ok a (row_of scope db) ->
  evaluated scope l db <= budget a b (row_of scope db) + max_failures * successes scope l.
Proof using Hfields.
  pose proof throttle_limits as [Hm _].
  induction l as [| e l IH]; intros a b db Hord Hok; cbn [evaluated successes].
  - destruct (row_of scope db) as [r|] eqn:E; cbn [budget]; [destruct (Hok r eq_refl) as [Hr _];
      pose proof (row_count _ Hr); pose proof (periods_nonneg (b - Z.max a (lt_window_started_at r + period)))
      | pose proof (periods_nonneg (b - a))]; nia.
  - destruct e as [email checked recorded|email]; cbn [in_order] in Hord.
    + destruct Hord as (Ht & Hb & Hord).
      pose proof (guess_cost scope email checked recorded a b db Hok Ht Hb) as Hcost.
      destruct (perform _ _) as [looked db']. destruct Hcost as [Hok' Hc].
      specialize (IH recorded b db' Hord Hok'). lia.
    + pose proof (perform_success scope email db) as Hrow.
      destruct (perform _ _) as [looked db'] eqn:E. cbn [snd] in Hrow.
      assert (looked = false) as -> by (cbn in E; by injection E as <- _). cbn [andb].
      destruct (about scope (Success email)).
      * specialize (IH a b db' Hord). rewrite Hrow in IH.
        pose proof (budget_cleared a b _ Hok). specialize (IH ltac:(by intros ? [=])). lia.
      * specialize (IH a b db' Hord). rewrite Hrow in IH. specialize (IH Hok). lia.
Qed.
End Guessing.

(** ** Claims *)


(** An attempt that passed its check before the account was locked, and is
    recorded after the window has ended, starts a new window and lifts the lock
    that is still running. *)
Lemma late_failure_lifts_lock settings now row t :
  fields_ok settings = true -> 1 < login_throttle_max_failures settings ->
  lt_locked_until row = Some t -> now < t ->
  lt_window_started_at row + seconds (login_throttle_window_seconds settings) <= now ->
  lt_locked_until (failed settings now row) = None.
Proof.
  intros _ Hm Ht Hnow Hw. unfold failed, locked, counted.
  replace (_ <=? now) with true by lia. cbn [orb]. upd_simpl.
  replace (login_throttle_max_failures settings <=? 1) with false by lia. by upd_simpl.
Qed.

(** ** Examples *)

Module ThrottleDemo.
Local Existing Instance exact_rounding.
Definition email : str := py "a@example.com".
Definition scope : str := login_scope lower email.
Definition at_ (t : Z) : login_event := Guess email t t.
Definition db : Db := empty_db.

(** One guess, then nothing for almost a window, then eight more. *)
Definition first_window : list login_event :=
  at_ 1 :: replicate 8 (at_ (seconds 900)).
Definition second_window : list login_event := replicate 9 (at_ (seconds 900 + 1)).
Definition all : list login_event := first_window ++ second_window.

Lemma all_in_order : in_order 1 (seconds 900 + 2) all.
Proof. vm_compute. repeat (split; [by split |]; split; [reflexivity |]). exact I. Qed.
End ThrottleDemo.

(** The window starts at a failure and does not roll: seventeen failures within
    a microsecond do not lock an account whose budget is ten in fifteen
    minutes. *)
Example window_does_not_roll :
  evaluated (H := exact_rounding) default_settings lower ThrottleDemo.scope ThrottleDemo.all
    ThrottleDemo.db = 18 /\
  login_throttle_max_failures default_settings = 10.
Proof. vm_compute. by split. Qed.

