(* ===== verification/Accounts.v ===== *)
(** * Accounts, passwords, tokens and login

    [src/app/security.py], [src/app/services/user_service.py],
    [src/app/auth.py], the login of [src/app/routers/auth.py] and the account
    routes of [src/app/routers/users.py].  bcrypt (passlib) and PyJWT are
    third-party code: two classes state what the program relies on. *)

From Stdlib Require Import QArith.
From stdpp Require Import base tactics list gmap sets strings numbers option sorting.
From S2P Require Import Prelude Crypto Json Text Models Session Settings Admission.
From S2P Require Import WebhookSecurity Delivery Authorization AuditLog Events.
From S2P Require Import EventSafety ReplaySafety Tenancy ApiKeys LoginThrottle.
Local Open Scope Z_scope.

(** ** Passwords *)

(** [_validate_password_length] *)
Definition validate_password_length (password : str) : res exn unit :=
  if negb (nonempty password) then Raise (ValueError "Password must not be empty")
  else match utf8_encode password with
       | None => Raise (ValueError "UnicodeEncodeError")
       | Some encoded =>
           if 72 <? len encoded
           then Raise (ValueError "Password must be at most 72 bytes; bcrypt truncates beyond that")
           else Ok ()
       end.

(** [CryptContext(schemes=["bcrypt"])]: [hash] with its salt, [verify] and
    [needs_update], with [None] for their [ValueError].  A hash verifies its
    password, has bcrypt's identifier in front and is up to date. *)
Class PasswordContext := {
  pwd_hash : str -> str -> option str;
  pwd_verify : str -> str -> option bool;
  pwd_needs_update : str -> option bool;
  pwd_verify_hash : forall salt p h, pwd_hash salt p = Some h -> pwd_verify p h = Some true;
  pwd_hash_format : forall salt p h, pwd_hash salt p = Some h -> startswith h (py "$2") = true;
  pwd_hash_current : forall salt p h, pwd_hash salt p = Some h -> pwd_needs_update h = Some false;
}.

Definition LEGACY_SHA256_PREFIX : str := py "sha256$".

Definition is_legacy (stored : str) : bool :=
  startswith stored LEGACY_SHA256_PREFIX
  || ((length stored =? 64)%nat && forallb hex_char (lower stored)).

Section Security.
Context `{PasswordContext}.

Definition hash_password (salt password : str) : res exn str :=
  _ ← validate_password_length password;
  match pwd_hash salt password with
  | Some h => Ok h
  | None => Raise (ValueError "passlib")
  end.

(** [hmac.compare_digest] on two strings wants ASCII. *)
Definition compare_digest (a b : str) : res exn bool :=
  if isascii a && isascii b then Ok (str_eqb a b) else Raise TypeError.

Definition verify_password (plain stored : str) : res exn bool :=
  if negb (nonempty stored) then Ok false
  else if is_legacy stored then
    let expected :=
      if startswith stored LEGACY_SHA256_PREFIX then drop (length LEGACY_SHA256_PREFIX) stored
      else stored in
    match utf8_encode plain with
    | None => Raise (ValueError "UnicodeEncodeError")
    | Some encoded => compare_digest (hexdigest (sha256 encoded)) expected
    end
  else Ok (default false (pwd_verify plain stored)).

Definition needs_rehash (stored : str) : bool :=
  if negb (nonempty stored) || is_legacy stored then true
  else default true (pwd_needs_update stored).
End Security.

(** [UserCreate.validate_password] *)
Definition validate_password (value : str) : res exn str :=
  match utf8_encode value with
  | None => Raise (ValueError "UnicodeEncodeError")
  | Some encoded =>
      if len encoded <? 8 then Raise (ValueError "Password must be at least 8 bytes")
      else if 72 <? len encoded then Raise (ValueError "Password must be at most 72 bytes")
      else Ok value
  end.

(** ** Access tokens *)

Record claims : Type := Claims {
  c_sub : option str;
  c_iat : datetime;
  c_nbf : datetime;
  c_exp : datetime;
  c_jti : str;
  c_extra : list (str * json);
}.

Definition reserved_claims : list str := [py "sub"; py "iat"; py "nbf"; py "exp"; py "jti"].

(** [jwt.encode] with a key, and [jwt.decode] of a token with a key at a time,
    [None] being [jwt.InvalidTokenError]; PyJWT only hands on a subject that is a
    string.  Times travel as whole seconds: a
    token is read back from the second it was made until the second of its
    expiry. *)
Class Jwt := {
  jwt_encode : claims -> str -> str;
  jwt_decode : str -> str -> datetime -> option claims;
  jwt_nonempty : forall c key, jwt_encode c key <> [];
  jwt_reads_back : forall c key at_, c_iat c <= at_ -> c_nbf c <= at_ ->
    at_ < seconds (c_exp c / second) ->
    exists c', jwt_decode (jwt_encode c key) key at_ = Some c' /\ c_sub c' = c_sub c;
  jwt_expires : forall c key at_, seconds (c_exp c / second) <= at_ ->
    jwt_decode (jwt_encode c key) key at_ = None;
}.

Section Tokens.
Context `{Jwt} (settings : Settings).

Definition lifetime (expires_delta : option Z) : Z :=
  match expires_delta with
  | Some d => if d =? 0 then seconds (access_token_expire_minutes settings * 60) else d
  | None => seconds (access_token_expire_minutes settings * 60)
  end.

Definition create_access_token (now : datetime) (jti : str) (subject : str) (expires_delta : option Z)
    (extra_claims : list (str * json)) : str :=
  jwt_encode {|
    c_sub := Some subject; c_iat := now; c_nbf := now;
    c_exp := now + lifetime expires_delta; c_jti := jti;
    c_extra := filter (fun kv => kv.1 ∉ reserved_claims) extra_claims;
  |} (secret_key settings).

Definition decode_access_token (now : datetime) (token : str) : option claims :=
  jwt_decode token (secret_key settings) now.

Definition invalid_token : exn := UnauthorizedError "Invalid or expired token" "Bearer".

Definition get_current_user (unicode_decimal : Z -> option Z) (now : datetime) (token : option str) :
    M User :=
  let token := default [] token in
  when (negb (nonempty token)) (raise (UnauthorizedError "Not authenticated" "Bearer"));;
  payload ← of_option invalid_token (decode_access_token now token);
  subject ← of_option invalid_token (c_sub payload);
  user_id ← of_option invalid_token (int_of_text unicode_decimal subject);
  user ← gets (fun db => t_get user_id (db_users db));
  of_option invalid_token user.

Definition get_current_active_user (unicode_decimal : Z -> option Z) (now : datetime)
    (token : option str) : M User :=
  user ← get_current_user unicode_decimal now token;
  when (negb (u_is_active user)) (raise (ForbiddenError "Account is deactivated"));;
  mret user.
End Tokens.

(** ** The user service *)

(** [UserUpdate] with [exclude_unset]. *)
Record UserUpdate : Type := MkUserUpdate { uu_email : option str; uu_name : option str }.

Section Users.
Context `{PasswordContext} (lower_all : str -> str).

Definition normalize_email (email : str) : str := lower_all (strip email).

Definition get_by_id (user_id : Z) : M (option User) := gets (fun db => t_get user_id (db_users db)).

Definition get_by_id_or_raise (user_id : Z) : M User :=
  user ← get_by_id user_id; of_option (NotFoundError "User" (IdInt user_id)) user.

(** [scalar_one_or_none] *)
Definition get_by_email (email : str) : M (option User) :=
  l ← gets (fun db => t_where (fun u => str_eqb (u_email u) (normalize_email email)) (db_users db));
  of_res (one_or_none l).

Definition get_all (skip limit : Z) : M (list User) :=
  gets (fun db => page skip limit (order_by (fun u => [u_id u]) (t_where (fun _ => true) (db_users db)))).

Definition email_taken (email : str) (except : Z) (db : Db) : bool :=
  has (t_find (fun u => str_eqb (u_email u) email && negb (u_id u =? except)) (db_users db)).

(** [others] is what commits between the look at the address and the insert,
    where the unique constraint is checked. *)
Definition create (salt : str) (now : datetime) (others : Db -> Db) (email name password : str) :
    M User :=
  let email := normalize_email email in
  existing ← get_by_email email;
  when (has existing) (raise (AlreadyExistsError "User" "email" email));;
  hashed_password ← of_res (hash_password salt password);
  wait others;;
  id ← gets (fun db => seq (db_users db));
  let user id :=
    {| u_id := id; u_email := email; u_name := name; u_hashed_password := hashed_password;
       u_is_active := true; u_created_at := now |} in
  clash ← gets (email_taken email id);
  if (clash : bool) then rollback;; raise (AlreadyExistsError "User" "email" email)
  else
    modify (fun db => db &{ db_users := t_add user (db_users db) });;
    commit;;
    mret (user id).

Definition put_user (u : User) : M unit :=
  modify (fun db => db &{ db_users := t_set (u_id u) u (db_users db) }).

(** The verification against the decoy hash, for an unknown address, is only
    there for its duration. *)
Definition authenticate (salt email password : str) : M (option User) :=
  user ← get_by_email email;
  match user with
  | None => mret None
  | Some user =>
      matches ← of_res (verify_password password (u_hashed_password user));
      if negb matches then mret None
      else if needs_rehash (u_hashed_password user) then
        hashed ← of_res (hash_password salt password);
        let user := user &{ u_hashed_password := hashed } in
        put_user user;;
        commit;;
        mret (Some user)
      else mret (Some user)
  end.

Definition apply_update (data : UserUpdate) (u : User) : User :=
  u &{ u_email := default (u_email u) (normalize_email <$> uu_email data) }
    &{ u_name := default (u_name u) (uu_name data) }.

(** [reload] is what reading the expired [user.email] after the rollback does. *)
Definition update (reload : res exn str) (user_id : Z) (data : UserUpdate) : M (option User) :=
  user ← get_by_id user_id;
  match user with
  | None => mret None
  | Some user =>
      let user' := apply_update data user in
      clash ← gets (email_taken (u_email user') (u_id user'));
      if (clash : bool) then
        rollback;;
        old ← of_res reload;
        raise (AlreadyExistsError "User" "email" (default old (normalize_email <$> uu_email data)))
      else put_user user';; commit;; mret (Some user')
  end.

Definition update_or_raise (reload : res exn str) (user_id : Z) (data : UserUpdate) : M User :=
  user ← update reload user_id data; of_option (NotFoundError "User" (IdInt user_id)) user.

(** [ON DELETE CASCADE] and [ON DELETE SET NULL] of the columns that refer to a
    user. *)
Definition without_user (user_id : Z) (db : Db) : Db :=
  let gone o := if bool_decide (o = Some user_id) then None else o in
  db &{ db_users := t_delete [user_id] (db_users db) }
     &{ db_members := t_remove (fun m => om_user_id m =? user_id) (db_members db) }
     &{ db_project_members := t_remove (fun m => pm_user_id m =? user_id) (db_project_members db) }
     &{ db_replays := t_map (fun r => r &{ ro_actor_user_id := gone (ro_actor_user_id r) })
          (db_replays db) }
     &{ db_operations := t_map (fun o => o &{ lo_requested_by_user_id := gone (lo_requested_by_user_id o) })
          (db_operations db) }.

Definition delete_user (user_id : Z) : M bool :=
  user ← get_by_id user_id;
  match user with
  | None => mret false
  | Some _ => modify (without_user user_id);; commit;; mret true
  end.

Definition delete_or_raise (user_id : Z) : M unit :=
  deleted ← delete_user user_id;
  when (negb deleted) (raise (NotFoundError "User" (IdInt user_id))).

Definition deactivate (user_id : Z) : M (option User) :=
  user ← get_by_id user_id;
  match user with
  | None => mret None
  | Some user =>
      let user := user &{ u_is_active := false } in
      put_user user;; commit;; mret (Some user)
  end.

Definition deactivate_or_raise (user_id : Z) : M User :=
  user ← deactivate user_id; of_option (NotFoundError "User" (IdInt user_id)) user.
End Users.

(** ** The routes *)

Section Routes.
Context `{Rounding} `{PasswordContext} `{Jwt} (settings : Settings) (lower_all : str -> str)
  (unicode_decimal : Z -> option Z).

(** [POST /auth/login]; [checked] and [recorded] are the database times of the
    check and of the failure, [issued] the time of the token, [others] what
    commits while the failure waits for the throttle's row. *)
Definition login (checked recorded issued_at : datetime) (salt jti : str) (others : Db -> Db)
    (username password : str) : M str :=
  check_login_allowed lower_all checked username;;
  user ← authenticate lower_all salt username password;
  match user with
  | None =>
      record_login_failure settings lower_all recorded others username;;
      raise (UnauthorizedError "Incorrect email or password" "Bearer")
  | Some user =>
      when (negb (u_is_active user)) (raise (ForbiddenError "Account is deactivated"));;
      record_login_success lower_all username;;
      mret (create_access_token settings issued_at jti (int_repr (u_id user)) None [])
  end.

Definition own_record_or_404 (user_id : Z) (current_user : User) : M unit :=
  when (negb (user_id =? u_id current_user)) (raise (NotFoundError "User" (IdInt user_id))).

Definition create_user (salt : str) (now : datetime) (others : Db -> Db)
    (email name password : str) : M User :=
  when (negb (registration_enabled settings))
    (raise (ForbiddenError "Registration is disabled on this deployment"));;
  create lower_all salt now others email name password.

Definition with_own_record {A} (now : datetime) (token : option str) (user_id : Z) (body : M A) : M A :=
  current_user ← get_current_active_user settings unicode_decimal now token;
  own_record_or_404 user_id current_user;;
  body.

Definition get_user now token user_id : M User :=
  with_own_record now token user_id (get_by_id_or_raise user_id).
Definition update_user now token reload user_id data : M User :=
  with_own_record now token user_id (update_or_raise lower_all reload user_id data).
Definition delete_user_route now token user_id : M unit :=
  with_own_record now token user_id (delete_or_raise user_id).
Definition deactivate_user now token user_id : M User :=
  with_own_record now token user_id (deactivate_or_raise user_id).
End Routes.

(** ** Facts about passwords *)

Section SecurityFacts.
Context `{PasswordContext}.

(** bcrypt hashes are never taken for the old format. *)
Lemma modern_not_legacy h : startswith h (py "$2") = true -> nonempty h = true /\ is_legacy h = false.
Proof.
  intros [t ->]%startswith_spec. split; [done |]. unfold is_legacy.
  change (startswith (py "$2" ++ t) LEGACY_SHA256_PREFIX) with false. cbn [orb].
  change (lower (py "$2" ++ t)) with (36 :: lower (50 :: t)). cbn [forallb].
  change (hex_char 36) with false. by rewrite andb_false_r.
Qed.

Lemma hash_password_ok salt p h :
  hash_password salt p = Ok h -> validate_password_length p = Ok () /\ pwd_hash salt p = Some h.
Proof.
  unfold hash_password. intros ([] & Hv & Hh)%res_bind_ok. split; [done |].
  destruct (pwd_hash salt p); [congruence | discriminate].
Qed.

(** What [hash_password] returns verifies, and needs no further upgrade. *)
Lemma hashed_password_verifies salt p h :
  hash_password salt p = Ok h ->
  verify_password p h = Ok true /\ needs_rehash h = false /\ is_legacy h = false.
Proof.
  intros [_ Hh]%hash_password_ok. destruct (modern_not_legacy h) as [Hne Hl].
  { by eapply pwd_hash_format. }
  unfold verify_password, needs_rehash. rewrite Hne, Hl.
  by rewrite (pwd_verify_hash _ _ _ Hh), (pwd_hash_current _ _ _ Hh).
Qed.

Lemma isascii_hex s : forallb hex_char s = true -> isascii s = true.
Proof.
  unfold isascii. rewrite !forallb_forall. intros Hs c Hc%Hs. unfold hex_char in Hc. lia.
Qed.

(** The two legacy formats of a password. *)
Definition legacy_hash (encoded : pybytes) (stored : str) : Prop :=
  stored = hexdigest (sha256 encoded) \/ stored = LEGACY_SHA256_PREFIX ++ hexdigest (sha256 encoded).

Lemma lower_hex_chars s : forallb hex_char s = true -> forallb hex_char (lower s) = true.
Proof.
  unfold lower. rewrite !forallb_forall. intros Hs c Hc. apply in_map_iff in Hc as (x & <- & Hx).
  apply Hs in Hx. assert ((65 <=? x) && (x <=? 90) = false) as -> by (unfold hex_char in Hx; lia). done.
Qed.

Lemma sha256_hex encoded :
  length (hexdigest (sha256 encoded)) = 64%nat /\ forallb hex_char (hexdigest (sha256 encoded)) = true.
Proof. by rewrite hexdigest_length, sha256_length, hexdigest_hex by apply sha256_ok. Qed.

Lemma hex_not_prefixed s : forallb hex_char s = true -> startswith s LEGACY_SHA256_PREFIX = false.
Proof.
  intros Hs. destruct (startswith s LEGACY_SHA256_PREFIX) eqn:E; [| done].
  apply startswith_spec in E as [t ->]. discriminate Hs.
Qed.

Lemma legacy_is_legacy encoded stored :
  legacy_hash encoded stored -> nonempty stored = true /\ is_legacy stored = true.
Proof.
  destruct (sha256_hex encoded) as [H64 Hhex]. unfold is_legacy. intros [->| ->].
  - split; [by destruct (hexdigest (sha256 encoded)) |].
    by rewrite H64, lower_hex_chars, orb_true_r.
  - split; [done |]. replace (startswith _ _) with true; [done |].
    symmetry. apply startswith_spec. by eexists.
Qed.

Lemma legacy_verifies encoded stored p :
  utf8_encode p = Some encoded -> legacy_hash encoded stored -> verify_password p stored = Ok true.
Proof.
  intros Hp Hl. destruct (legacy_is_legacy _ _ Hl) as [Hne Hleg]. unfold verify_password.
  rewrite Hne, Hleg, Hp. cbn [negb]. destruct (sha256_hex encoded) as [H64 Hhex].
  assert ((if startswith stored LEGACY_SHA256_PREFIX then drop (length LEGACY_SHA256_PREFIX) stored
           else stored) = hexdigest (sha256 encoded)) as ->.
  { destruct Hl as [->| ->].
    - by rewrite hex_not_prefixed.
    - replace (startswith _ _) with true by (symmetry; apply startswith_spec; by eexists).
      apply drop_app_length. }
  unfold compare_digest. by rewrite isascii_hex, str_eqb_refl.
Qed.
End SecurityFacts.

(** ** The table of users *)

Record accounts_ok (t : table User) : Prop := {
  ac_keyed : t_keyed u_id t;
  ac_wf : t_wf t;
  ac_emails : forall i j u v, t_get i t = Some u -> t_get j t = Some v -> u_email u = u_email v -> i = j;
}.

Section Accounts.
Context `{PasswordContext} (lower_all : str -> str).

(** The account of an address. *)
Definition account (email : str) (db : Db) (u : User) : Prop :=
  t_get (u_id u) (db_users db) = Some u /\ u_email u = normalize_email lower_all email.

Lemma get_by_email_run email s :
  accounts_ok (db_users (working s)) ->
  (exists u, get_by_email lower_all email s = (Ok (Some u), s) /\ account email (working s) u) \/
  (get_by_email lower_all email s = (Ok None, s) /\
   forall k u, t_get k (db_users (working s)) = Some u -> u_email u <> normalize_email lower_all email).
Proof.
  intros [K W E]. unfold get_by_email, mbind, M_bind, gets, of_res. set (t := db_users (working s)) in *.
  set (p := fun u => str_eqb (u_email u) (normalize_email lower_all email)).
  destruct (t_where p t) as [| u l] eqn:Ew.
  - right. split; [done |]. intros k u Hu Hem.
    assert (u ∈ t_where p t) as Hin.
    { apply t_where_spec. split; [unfold p; by rewrite Hem, str_eqb_refl | by eauto]. }
    rewrite Ew in Hin. inversion Hin.
  - assert (u ∈ t_where p t) as Hin by (rewrite Ew; left).
    apply t_where_spec in Hin as (Hp & k & Hk). apply str_eqb_eq in Hp.
    assert (t_where p t = [u]) as Hone.
    { eapply t_where_unique; [exact Hk | unfold p; by rewrite Hp, str_eqb_refl |].
      intros k' u' Hk' Hp'%str_eqb_eq. eapply E; [exact Hk' | exact Hk | congruence]. }
    rewrite Hone in Ew. injection Ew as <-. left. exists u. split; [done |].
    split; [rewrite (K _ _ Hk); exact Hk | done].
Qed.

Lemma account_unique email db u v :
  accounts_ok (db_users db) -> account email db u -> account email db v -> u = v.
Proof.
  intros Hok [Hu Eu] [Hv Ev].
  assert (u_id u = u_id v) as Hid by (eapply (ac_emails _ Hok); [exact Hu | exact Hv | congruence]).
  rewrite Hid in Hu. congruence.
Qed.

(** The row after a sign-in: upgraded when its hash is old. *)
Definition upgraded (salt password : str) (u : User) : res exn User :=
  if needs_rehash (u_hashed_password u)
  then h ← hash_password salt password; Ok (u &{ u_hashed_password := h })
  else Ok u.

Definition with_user (u : User) (db : Db) : Db := db &{ db_users := t_set (u_id u) u (db_users db) }.

Lemma with_user_same u db : t_get (u_id u) (db_users db) = Some u -> with_user u db = db.
Proof.
  intros Hu. unfold with_user, t_set. unfold t_get in Hu. rewrite insert_id by done.
  destruct db. cbn. unfold upd. cbn. f_equal. by destruct db_users.
Qed.

Lemma authenticate_account salt email password db0 db u :
  accounts_ok (db_users db) -> account email db u ->
  authenticate lower_all salt email password (Sess db0 db) =
  match verify_password password (u_hashed_password u) with
  | Raise e => (Raise e, Sess db0 db)
  | Ok false => (Ok None, Sess db0 db)
  | Ok true =>
      match upgraded salt password u with
      | Raise e => (Raise e, Sess db0 db)
      | Ok u' => (Ok (Some u'), if needs_rehash (u_hashed_password u)
                                then Sess (with_user u' db) (with_user u' db) else Sess db0 db)
      end
  end.
Proof.
  intros Hok Ha. unfold authenticate.
  destruct (get_by_email_run email (Sess db0 db) Hok) as [(v & Hr & Hv)|[_ Hn]].
  2: { destruct Ha as [Hu He]. by destruct (Hn _ _ Hu). }
  rewrite (account_unique _ _ _ _ Hok Hv Ha) in Hr. erewrite M_bind_run by exact Hr.
  unfold mbind at 1, M_bind, of_res at 1.
  destruct (verify_password password (u_hashed_password u)) as [[|]|e]; [| done | done].
  cbn [negb]. unfold upgraded. destruct (needs_rehash (u_hashed_password u)); [| done].
  unfold mbind, M_bind, of_res, res_bind.
  destruct (hash_password salt password) as [h|e]; [| done]. done.
Qed.

Lemma authenticate_nobody salt email password s :
  accounts_ok (db_users (working s)) -> (forall u, ~ account email (working s) u) ->
  authenticate lower_all salt email password s = (Ok None, s).
Proof.
  intros Hok Hn. unfold authenticate.
  destruct (get_by_email_run email s Hok) as [(v & _ & Hv)|[Hr _]]; [by destruct (Hn v) |].
  by erewrite M_bind_run by exact Hr.
Qed.
End Accounts.

Section LoginFacts.
Context `{Rounding} `{PasswordContext} `{Jwt} (settings : Settings) (lower_all : str -> str).

Definition throttle_failed (recorded : datetime) (username : str) (db : Db) : Db :=
  let scope := login_scope lower_all username in
  db &{ db_throttles := <[scope := after_failure settings recorded scope (locked_row scope db)]>
          (db_throttles db) }.

Definition throttle_cleared (username : str) (db : Db) : Db :=
  db &{ db_throttles := delete (login_scope lower_all username) (db_throttles db) }.

Lemma check_passes checked username db0 db :
  lock_holds checked (locked_row (login_scope lower_all username) db) = false ->
  check_login_allowed lower_all checked username (Sess db0 db) = (Ok (), Sess db0 db).
Proof.
  rewrite check_login_allowed_run. unfold lock_holds. cbn [working]. by repeat case_match; intros.
Qed.
End LoginFacts.

(** ** The routes keep the table *)

Lemma accounts_ok_set t u u' :
  accounts_ok t -> t_get (u_id u) t = Some u -> u_id u' = u_id u ->
  (forall k v, t_get k t = Some v -> u_email v = u_email u' -> k = u_id u) ->
  accounts_ok (t_set (u_id u) u' t).
Proof.
  intros [K W E] Hu Hid Hne.
  assert (forall i v, t_get i (t_set (u_id u) u' t) = Some v ->
    (i = u_id u /\ v = u') \/ (i <> u_id u /\ t_get i t = Some v)) as Hcase.
  { intros i v. rewrite t_get_set. case_decide as Ei; [intros [= <-]; by left | right; by split]. }
  split.
  - intros i v [[-> ->]|[_ Hv]]%Hcase; [done | by apply K].
  - apply t_wf_set; [done | by exists u].
  - intros i j v w [[-> ->]|[Hi Hv]]%Hcase [[-> ->]|[Hj Hw]]%Hcase Heq.
    + done.
    + symmetry. by eapply Hne.
    + by eapply Hne.
    + by eapply E.
Qed.

Lemma email_taken_not t email except :
  t_keyed u_id t -> has (t_find (fun u => str_eqb (u_email u) email && negb (u_id u =? except)) t) = false ->
  forall k v, t_get k t = Some v -> u_email v = email -> k = except.
Proof.
  intros K Hf%has_none k v Hv He. eapply t_find_none in Hf; [| exact Hv].
  rewrite He, str_eqb_refl in Hf. cbn in Hf. apply negb_false_iff, Z.eqb_eq in Hf.
  by rewrite <- (K _ _ Hv).
Qed.

Lemma accounts_ok_add t mk :
  accounts_ok t -> u_id (mk (seq t)) = seq t ->
  (forall k v, t_get k t = Some v -> u_email v <> u_email (mk (seq t))) ->
  accounts_ok (t_add mk t).
Proof.
  intros [K W E] Hid Hne.
  assert (forall i v, t_get i (t_add mk t) = Some v ->
    (i = seq t /\ v = mk (seq t)) \/ t_get i t = Some v) as Hcase.
  { intros i v. unfold t_get, t_add. cbn [rows]. rewrite lookup_insert.
    case_decide; [intros [= <-]; by left | by right]. }
  split; [| by apply t_wf_add |].
  - intros i v [[-> ->]|Hv]%Hcase; [done | by apply K].
  - intros i j v w [[-> ->]|Hv]%Hcase [[-> ->]|Hw]%Hcase Heq; [done | | | by eapply E].
    + by destruct (Hne _ _ Hw).
    + by destruct (Hne _ _ Hv).
Qed.

Lemma accounts_ok_delete t ks : accounts_ok t -> accounts_ok (t_delete ks t).
Proof.
  intros [K W E].
  assert (forall i v, t_get i (t_delete ks t) = Some v -> t_get i t = Some v) as Hcase.
  { intros i v. rewrite t_get_delete. by case_decide. }
  split; [| by apply t_wf_delete |].
  - intros i v Hv%Hcase. by apply K.
  - intros i j v w Hv%Hcase Hw%Hcase. by eapply E.
Qed.

(** The rows of the users but one. *)
Definition others_kept (user_id : Z) (db db' : Db) : Prop :=
  forall k, k <> user_id -> t_get k (db_users db') = t_get k (db_users db).

Section RouteFacts.
Context `{PasswordContext} (lower_all : str -> str).

Lemma put_user_kept u u' db :
  others_kept (u_id u) db (db &{ db_users := t_set (u_id u) u' (db_users db) }).
Proof. intros k Hk. upd_simpl. by rewrite t_get_set, decide_False. Qed.

Lemma update_run reload user_id data db r db' :
  accounts_ok (db_users db) ->
  run (update_or_raise lower_all reload user_id data) db = (r, db') ->
  accounts_ok (db_users db') /\ others_kept user_id db db'.
Proof.
  intros Hok. unfold update_or_raise, update, run, mbind, M_bind, get_by_id, gets. cbn [working].
  destruct (t_get user_id (db_users db)) as [u|] eqn:Hu; [| by intros [= <- <-]].
  pose proof (ac_keyed _ Hok _ _ Hu) as Hid.
  cbn [working]. destruct (email_taken (u_email (apply_update lower_all data u)) (u_id (apply_update lower_all data u)) db)
    eqn:Et.
  { unfold rollback, of_res, raise. destruct reload; by intros [= <- <-]. }
  unfold put_user, modify, commit, of_option, mret, M_ret. cbn [committed working].
  intros [= <- <-]. upd_simpl. split.
  - change (u_id (apply_update lower_all data u)) with (u_id u).
    apply (accounts_ok_set _ u (apply_update lower_all data u)); [done | by rewrite Hid | done |].
    by apply email_taken_not; [apply Hok |].
  - rewrite <- Hid. exact (put_user_kept u (apply_update lower_all data u) db).
Qed.

Lemma delete_run user_id db r db' :
  accounts_ok (db_users db) -> run (delete_or_raise user_id) db = (r, db') ->
  accounts_ok (db_users db') /\ others_kept user_id db db'.
Proof.
  intros Hok. unfold delete_or_raise, delete_user, run, mbind, M_bind, get_by_id, gets. cbn [working].
  destruct (t_get user_id (db_users db)) as [u|] eqn:Hu; [| by intros [= <- <-]].
  intros [= <- <-]. unfold without_user. cbn [committed working]. upd_simpl.
  split; [by apply accounts_ok_delete |]. intros k Hk. upd_simpl.
  rewrite t_get_delete, decide_False; [done | set_solver].
Qed.

Lemma deactivate_run user_id db r db' :
  accounts_ok (db_users db) -> run (deactivate_or_raise user_id) db = (r, db') ->
  accounts_ok (db_users db') /\ others_kept user_id db db'.
Proof.
  intros Hok. unfold deactivate_or_raise, deactivate, run, mbind, M_bind, get_by_id, gets. cbn [working].
  destruct (t_get user_id (db_users db)) as [u|] eqn:Hu; [| by intros [= <- <-]].
  pose proof (ac_keyed _ Hok _ _ Hu) as Hid.
  unfold put_user, modify, commit, of_option, mret, M_ret. cbn [committed working].
  intros [= <- <-]. upd_simpl. split.
  - apply (accounts_ok_set _ u (u &{ u_is_active := false })); [done | by rewrite Hid | done |].
    intros k v Hv He. rewrite Hid. by eapply (ac_emails _ Hok).
  - rewrite <- Hid. exact (put_user_kept u (u &{ u_is_active := false }) db).
Qed.

Lemma create_run salt now others email name password db r db' :
  accounts_ok (db_users (others db)) ->
  run (create lower_all salt now others email name password) db = (r, db') ->
  (exists e, r = Raise e /\ (db' = db \/ db' = others db)) \/
  (exists mk h, hash_password salt password = Ok h /\
     r = Ok (mk (seq (db_users (others db)))) /\
     (forall n, mk n = {| u_id := n; u_email := normalize_email lower_all email; u_name := name;
        u_hashed_password := h; u_is_active := true; u_created_at := now |}) /\
     db' = (others db) &{ db_users := t_add mk (db_users (others db)) } /\
     accounts_ok (t_add mk (db_users (others db)))).
Proof.
  intros Hok. unfold create, run.
  set (em := normalize_email lower_all email). unfold mbind at 1, M_bind at 1.
  destruct (get_by_email lower_all em (Sess db db)) as [[existing|e] s1] eqn:Hg;
    unfold get_by_email, mbind, M_bind, gets, of_res in Hg; injection Hg as Hg <-.
  2: { intros [= <- <-]. left. eauto. }
  unfold mbind, M_bind, of_res, wait, gets, when, raise.
  destruct (has existing); [intros [= <- <-]; left; eauto |]. cbn [mret M_ret].
  destruct (hash_password salt password) as [h|e]; [| intros [= <- <-]; left; eauto].
  cbn [working committed]. destruct (email_taken em (seq (db_users (others db))) (others db)) eqn:Et.
  { intros [= <- <-]. left. eauto. }
  intros [= <- <-]. right.
  exists (fun n => {| u_id := n; u_email := em; u_name := name; u_hashed_password := h;
    u_is_active := true; u_created_at := now |}), h.
  do 4 (split; [done |]). apply accounts_ok_add; [done | done |]. cbn [u_email].
  intros k v Hv He. pose proof (email_taken_not _ _ _ (ac_keyed _ Hok) Et k v Hv He) as ->.
  pose proof (ac_wf _ Hok (seq (db_users (others db)))) as Hwf. apply Z.lt_irrefl with (seq (db_users (others db))).
  apply Hwf. by exists v.
Qed.
End RouteFacts.

(** ** Claims *)


(** Tokens.  The token a login returns names the account that signed in:
    from its issue until the second of its expiry, every request that carries it
    acts as that account as the database then has it, is refused with a 403 when
    the account has been deactivated and with a 401 when it has been deleted;
    from then on it is refused with a 401 everywhere. *)
Theorem login_token_names_the_account `{Rounding} `{PasswordContext} `{Jwt} settings lower_all
    unicode_decimal checked recorded issued_at salt jti others username password db token db' :
  accounts_ok (db_users db) ->
  run (login settings lower_all checked recorded issued_at salt jti others username password) db
    = (Ok token, db') ->
  exists u, account lower_all username db u /\ u_is_active u = true /\
    verify_password password (u_hashed_password u) = Ok true /\
    (0 <= u_id u -> len (int_repr (u_id u)) <= 4300 ->
     let exp := seconds ((issued_at + seconds (access_token_expire_minutes settings * 60)) / second) in
     forall at_ db2, issued_at <= at_ ->
       run (get_current_active_user settings unicode_decimal at_ (Some token)) db2 =
       (if at_ <? exp then
          match t_get (u_id u) (db_users db2) with
          | Some u2 => if u_is_active u2 then Ok u2 else Raise (ForbiddenError "Account is deactivated")
          | None => Raise invalid_token
          end
        else Raise invalid_token, db2)).
Proof.
  intros Hok (s & Hr & _)%run_ok. unfold login in Hr.
  apply M_bind_ok in Hr as (? & s1 & Hc & Hr).
  rewrite check_login_allowed_run in Hc. cbn [working] in Hc.
  assert (s1 = Sess db db) as -> by (repeat case_match; by simplify_eq).
  apply M_bind_ok in Hr as (o & s2 & Ha & Hr).
  destruct o as [u'|]; [| apply M_bind_ok in Hr as (? & ? & _ & [=])].
  destruct (get_by_email_run lower_all username (Sess db db) Hok) as [(u & _ & Hu)|[_ Hn]].
  2: { rewrite authenticate_nobody in Ha; [discriminate | done |].
       intros u [Hu He]. by destruct (Hn _ _ Hu). }
  rewrite (authenticate_account _ _ _ _ _ _ u) in Ha by done.
  destruct (verify_password password (u_hashed_password u)) as [[|]|e] eqn:Hv; [| discriminate | discriminate].
  destruct (upgraded salt password u) as [u''|e] eqn:Hup; [| discriminate].
  assert (u'' = u') as -> by congruence.
  assert (u_id u' = u_id u /\ u_is_active u' = u_is_active u) as [Hid Hact].
  { unfold upgraded in Hup. destruct (needs_rehash _); [| by injection Hup as <-].
    apply res_bind_ok in Hup as (h & _ & [= <-]). done. }
  m_inv. match goal with H : negb _ = false |- _ => apply negb_false_iff in H; rename H into Hactive end.
  exists u. split; [done |]. split; [congruence |]. split; [done |].
  intros Hpos Hlen at_ db2 Hat. rewrite Hid.
  set (exp := seconds ((issued_at + seconds (access_token_expire_minutes settings * 60)) / second)).
  set (c := {| c_sub := Some (int_repr (u_id u)); c_iat := issued_at; c_nbf := issued_at;
    c_exp := issued_at + lifetime settings None; c_jti := jti; c_extra := [] |}).
  change (create_access_token settings issued_at jti (int_repr (u_id u)) None [])
    with (jwt_encode c (secret_key settings)).
  unfold get_current_active_user, get_current_user, decode_access_token, run. cbn [default from_option id].
  assert (nonempty (jwt_encode c (secret_key settings)) = true) as ->.
  { pose proof (jwt_nonempty c (secret_key settings)). by destruct (jwt_encode c _). }
  destruct (Z.ltb_spec at_ exp) as [Hlt|Hge].
  - destruct (jwt_reads_back c (secret_key settings) at_) as (c' & Hd & Hsub); [done | done | done |].
    rewrite Hd. unfold mbind, M_bind. cbn [negb when of_option mret M_ret].
    rewrite Hsub. cbn [of_option mret M_ret c c_sub]. rewrite int_of_text_repr by done.
    cbn [of_option mret M_ret gets working].
    destruct (t_get (u_id u) (db_users db2)) as [u2|]; [| done]. cbn. by destruct (u_is_active u2).
  - by rewrite (jwt_expires c (secret_key settings) at_).
Qed.

(** Passwords keep working across the migration.  A sign-in with the
    password of an unsalted hash, in either of its formats, replaces it by a
    bcrypt hash that is in no old format, needs no further upgrade and accepts
    the same password; nothing else of the account changes. *)
Theorem legacy_password_upgrade `{PasswordContext} lower_all salt email password encoded h db u :
  accounts_ok (db_users db) -> account lower_all email db u ->
  utf8_encode password = Some encoded -> legacy_hash encoded (u_hashed_password u) ->
  hash_password salt password = Ok h ->
  let u' := u &{ u_hashed_password := h } in
  run (authenticate lower_all salt email password) db = (Ok (Some u'), with_user u' db) /\
  account lower_all email (with_user u' db) u' /\
  is_legacy h = false /\ needs_rehash h = false /\
  run (authenticate lower_all salt email password) (with_user u' db) = (Ok (Some u'), with_user u' db).
Proof.
  intros Hok Hu Hp Hl Hh u'.
  destruct (hashed_password_verifies salt password h Hh) as (Hv & Hn & Hleg).
  destruct (legacy_is_legacy _ _ Hl) as [Hne Hold].
  assert (account lower_all email (with_user u' db) u') as Hu'.
  { destruct Hu as [Hu He]. split; [| exact He]. unfold with_user. upd_simpl.
    by rewrite t_get_set, decide_True. }
  assert (accounts_ok (db_users (with_user u' db))) as Hok'.
  { destruct Hu as [Hu He]. unfold with_user. upd_simpl. change (u_id u') with (u_id u). apply (accounts_ok_set _ u u'); [done .. |].
    intros k w Hw Hew. by eapply (ac_emails _ Hok). }
  split_and!; [| done | done | done |].
  - unfold run. rewrite (authenticate_account _ _ _ _ _ _ u) by done.
    rewrite (legacy_verifies encoded) by done. unfold upgraded, needs_rehash.
    rewrite Hne, Hold. cbn [negb orb]. rewrite Hh. done.
  - unfold run. rewrite (authenticate_account _ _ _ _ _ _ u') by done.
    unfold upgraded. change (u_hashed_password u') with h. by rewrite Hv, Hn.
Qed.

(** The migration hashes the password again, and refuses more than 72 bytes: the
    owner of a longer password that verifies gets a 500 at every login. *)
Lemma long_legacy_password_is_locked_out `{PasswordContext} lower_all salt email password encoded db u :
  accounts_ok (db_users db) -> account lower_all email db u ->
  utf8_encode password = Some encoded -> legacy_hash encoded (u_hashed_password u) ->
  password <> [] -> 72 < len encoded ->
  verify_password password (u_hashed_password u) = Ok true /\
  exists e, run (authenticate lower_all salt email password) db = (Raise e, db) /\ status_code e = 500.
Proof.
  intros Hok Hu Hp Hl Hne Hlong. destruct (legacy_is_legacy _ _ Hl) as [Hst Hold].
  split; [by eapply legacy_verifies |]. eexists. unfold run.
  rewrite (authenticate_account _ _ _ _ _ _ u) by done. rewrite (legacy_verifies encoded) by done.
  unfold upgraded, needs_rehash. rewrite Hst, Hold. cbn [negb orb].
  unfold hash_password, validate_password_length. rewrite Hp.
  destruct password; [done |]. cbn [nonempty negb]. replace (72 <? len encoded) with true by lia.
  by split.
Qed.

(** Every request about an account. *)
Inductive account_request `{Rounding} `{PasswordContext} `{Jwt} (settings : Settings)
    (lower_all : str -> str) (unicode_decimal : Z -> option Z) (now : datetime) (token : option str)
    (user_id : Z) (db db' : Db) : Prop :=
| ar_get r : run (get_user settings unicode_decimal now token user_id) db = (r, db') ->
    account_request settings lower_all unicode_decimal now token user_id db db'
| ar_update reload data r :
    run (update_user settings lower_all unicode_decimal now token reload user_id data) db = (r, db') ->
    account_request settings lower_all unicode_decimal now token user_id db db'
| ar_delete r : run (delete_user_route settings unicode_decimal now token user_id) db = (r, db') ->
    account_request settings lower_all unicode_decimal now token user_id db db'
| ar_deactivate r : run (deactivate_user settings unicode_decimal now token user_id) db = (r, db') ->
    account_request settings lower_all unicode_decimal now token user_id db db'.

Section OwnRecord.
Context `{Jwt} (settings : Settings) (unicode_decimal : Z -> option Z).

Lemma current_user_reads now token s :
  (get_current_active_user settings unicode_decimal now token s).2 = s.
Proof.
  unfold get_current_active_user, get_current_user, mbind, M_bind, when, of_option, gets, raise, mret, M_ret.
  repeat (case_match; simplify_eq; try done).
Qed.

(** A request on somebody else's record changes nothing; on one's own it does
    what its body does. *)
Lemma own_record {A} now token user_id (body : M A) db r db' :
  run (with_own_record settings unicode_decimal now token user_id body) db = (r, db') ->
  (db' = db /\ exists e, r = Raise e) \/
  (exists u, run (get_current_active_user settings unicode_decimal now token) db = (Ok u, db) /\
     u_id u = user_id /\ run body db = (r, db')).
Proof.
  unfold with_own_record, run. pose proof (current_user_reads now token (Sess db db)) as Hs.
  unfold mbind, M_bind. destruct (get_current_active_user settings unicode_decimal now token (Sess db db))
    as [[u|e] s]; cbn [snd] in Hs; subst s.
  2: { intros [= <- <-]. left. eauto. }
  unfold own_record_or_404, when. destruct (Z.eqb_spec user_id (u_id u)) as [->|Hne]; cbn [negb].
  - intros Hr. right. exists u. done.
  - intros [= <- <-]. left. eauto.
Qed.
End OwnRecord.

(** Accounts.  Addresses stay unique, also when registrations race, and no
    request changes anybody's record but the caller's own: any other answers
    with an error and leaves the database alone.  What a registration stores
    has the normalized address and a hash the password verifies against. *)
Theorem accounts_are_their_owners `{Rounding} `{PasswordContext} `{Jwt} settings lower_all
    unicode_decimal now token user_id salt others email name password db :
  accounts_ok (db_users db) -> accounts_ok (db_users (others db)) ->
  (forall db', account_request settings lower_all unicode_decimal now token user_id db db' ->
     accounts_ok (db_users db') /\
     (db' = db \/ exists u, run (get_current_active_user settings unicode_decimal now token) db = (Ok u, db)
        /\ u_id u = user_id /\ others_kept user_id db db')) /\
  (forall r db', run (create_user settings lower_all salt now others email name password) db = (r, db') ->
     accounts_ok (db_users db') /\
     (forall u, r = Ok u -> registration_enabled settings = true /\
        account lower_all email db' u /\ u_is_active u = true /\
        verify_password password (u_hashed_password u) = Ok true)).
Proof.
  intros Hok Hok'. split.
  - intros db' Hreq. destruct Hreq as [r Hr|reload data r Hr|r Hr|r Hr];
      apply own_record in Hr as [[-> _]|(u & Hu & Hid & Hr)]; [by split; [| left] | | by split; [| left] |
        | by split; [| left] | | by split; [| left] |].
    + unfold get_by_id_or_raise, run, mbind, M_bind, get_by_id, gets, of_option, raise, mret, M_ret in Hr.
      assert (db' = db) as -> by (destruct (t_get _ _); by simplify_eq). by split; [| left].
    + apply update_run in Hr as [? ?]; [| done]. split; [done |]. right. eauto.
    + apply delete_run in Hr as [? ?]; [| done]. split; [done |]. right. eauto.
    + apply deactivate_run in Hr as [? ?]; [| done]. split; [done |]. right. eauto.
  - intros r db'. unfold create_user. destruct (registration_enabled settings); cbn [negb].
    2: { intros [= <- <-]. split; [done |]. by intros u [=]. }
    intros Hr. change (run (create lower_all salt now others email name password) db = (r, db')) in Hr.
    apply create_run in Hr as [(e & -> & [->| ->])|(mk & h & Hh & -> & Hmk & -> & Hadd)]; [| | | done].
    + split; [done |]. by intros u [=].
    + split; [done |]. by intros u [=].
    + upd_simpl. split; [done |]. intros u [= <-]. split; [done |].
      unfold account. upd_simpl. rewrite Hmk. cbn [u_id u_email u_is_active u_hashed_password].
      split_and!; [| done | done | by eapply hashed_password_verifies].
      unfold t_get, t_add. cbn [rows]. rewrite lookup_insert_eq. by rewrite Hmk.
Qed.

(** Deleting the account of an organization's only owner takes the membership
    along and leaves the organization without an owner, which member changes
    are careful never to do. *)
Theorem deleting_an_account_orphans_its_organizations `{Jwt} settings unicode_decimal now token user_id
    organization_id db db' :
  run (delete_user_route settings unicode_decimal now token user_id) db = (Ok (), db') ->
  (forall k m, t_get k (db_members db) = Some m -> om_organization_id m = organization_id ->
     om_role m = OWNER -> om_user_id m = user_id) ->
  ~ has_owner organization_id db' /\ db_organizations db' = db_organizations db.
Proof.
  intros [[_ [e [=]]]|(u & _ & _ & Hr)]%own_record Honly.
  unfold delete_or_raise, delete_user, run, mbind, M_bind, get_by_id, gets in Hr. cbn [working] in Hr.
  destruct (t_get user_id (db_users db)); [| discriminate]. injection Hr as <-.
  unfold without_user, has_owner. cbn [committed working]. upd_simpl. split; [| done].
  intros (k & m & [Hm Hu]%t_get_remove & Ho & Hrole). apply Z.eqb_neq in Hu. by apply Hu, (Honly k).
Qed.

(** ** Examples *)

Module AccountsDemo.
Local Existing Instance exact_rounding.

(** A password context without any secrecy. *)
#[refine] Local Instance open_context : PasswordContext := {|
  pwd_hash salt p := Some (py "$2b$" ++ p);
  pwd_verify p h := Some (str_eqb h (py "$2b$" ++ p));
  pwd_needs_update h := Some false;
|}.
Proof.
  - intros salt p h [= <-]. by rewrite str_eqb_refl.
  - intros salt p h [= <-]. apply startswith_spec. by exists (py "b$" ++ p).
  - done.
Defined.

(** Tokens that carry the key they were made with. *)
Definition encode (c : claims) (key : str) : str :=
  c_exp c :: (if c_sub c then 1 else 0) :: key ++ default [] (c_sub c).
Definition decode (token key : str) (at_ : datetime) : option claims :=
  match token with
  | e :: flag :: rest =>
      if (at_ <? seconds (e / second)) && startswith rest key then
        Some (Claims (if flag =? 1 then Some (drop (length key) rest) else None) 0 0 e [] [])
      else None
  | _ => None
  end.
#[refine] Local Instance open_tokens : Jwt := {| jwt_encode := encode; jwt_decode := decode |}.
Proof.
  - done.
  - intros c key at_ _ _ Hlt. unfold decode, encode.
    replace (at_ <? seconds (c_exp c / second)) with true by lia.
    replace (startswith (key ++ default [] (c_sub c)) key) with true
      by (symmetry; apply startswith_spec; by eexists).
    cbn [andb]. eexists. split; [reflexivity |]. cbn [c_sub]. rewrite drop_app_length.
    by destruct (c_sub c).
  - intros c key at_ Hge. unfold decode, encode.
    by replace (at_ <? seconds (c_exp c / second)) with false by lia.
Defined.

Definition password : str := py "correct horse".
Definition email : str := py "a@example.com".
(** The account's hash is in the old format. *)
Definition user : User :=
  MkUser 1 email (py "A") (hexdigest (sha256 password)) true 0.
Definition new_hash : str := py "$2b$" ++ password.
Definition db : Db := (TenancyDemo.db Active) &{ db_users := Table {[1 := user]} 2 }.

Lemma users_cases k u : t_get k (db_users db) = Some u -> k = 1 /\ u = user.
Proof. unfold db, t_get. upd_simpl. cbn [rows]. by intros [<- <-]%lookup_singleton_Some. Qed.

Lemma users : accounts_ok (db_users db).
Proof.
  split.
  - intros k u Hu. by apply users_cases in Hu as [-> ->].
  - intros k [u Hu]. by apply users_cases in Hu as [-> ->].
  - intros i j u v [-> _]%users_cases [-> _]%users_cases. done.
Qed.

Definition logged_in :=
  run (login default_settings lower 5 5 5 [] [] id email password) db.
Definition token : str := match logged_in.1 with Ok t => t | Raise _ => [] end.
Definition logged_in_db : Db := logged_in.2.
Lemma logged_in_ok :
  run (login default_settings lower 5 5 5 [] [] id email password) db = (Ok token, logged_in_db).
Proof. unfold token, logged_in_db. vm_compute. reflexivity. Qed.

Lemma upgraded_ok : hash_password [] password = Ok new_hash.
Proof. vm_compute. reflexivity. Qed.

Lemma old_format : legacy_hash password (u_hashed_password user).
Proof. left. reflexivity. Qed.

Definition deleted := run (delete_user_route default_settings (fun _ => None) 6 (Some token) 1) db.
Definition deleted_db : Db := deleted.2.
Lemma deleted_ok :
  run (delete_user_route default_settings (fun _ => None) 6 (Some token) 1) db = (Ok (), deleted_db).
Proof. unfold deleted_db. vm_compute. reflexivity. Qed.
End AccountsDemo.

#[local] Existing Instance exact_rounding.
#[local] Existing Instance AccountsDemo.open_context.
#[local] Existing Instance AccountsDemo.open_tokens.


Lemma login_token_names_the_account_witness :
  exists u, account lower AccountsDemo.email AccountsDemo.db u /\ u_is_active u = true.
Proof.
  destruct (login_token_names_the_account default_settings lower (fun _ => None) 5 5 5 [] [] id
    AccountsDemo.email AccountsDemo.password AccountsDemo.db AccountsDemo.token
    AccountsDemo.logged_in_db AccountsDemo.users AccountsDemo.logged_in_ok) as (u & Hu & Ha & _).
  exact (ex_intro _ u (conj Hu Ha)).
Defined.

Lemma legacy_password_upgrade_witness :
  (run (authenticate lower [] AccountsDemo.email AccountsDemo.password)
    AccountsDemo.db).1 = Ok (Some (AccountsDemo.user &{ u_hashed_password := AccountsDemo.new_hash })).
Proof.
  exact (f_equal fst (proj1 (legacy_password_upgrade lower []
    AccountsDemo.email AccountsDemo.password AccountsDemo.password AccountsDemo.new_hash AccountsDemo.db
    AccountsDemo.user AccountsDemo.users (conj eq_refl eq_refl) eq_refl AccountsDemo.old_format
    AccountsDemo.upgraded_ok))).
Defined.

Lemma accounts_are_their_owners_witness : accounts_ok (db_users AccountsDemo.deleted_db).
Proof.
  refine (proj1 (proj1 (accounts_are_their_owners default_settings lower (fun _ => None) 6 (Some AccountsDemo.token) 1 []
    id [] [] [] AccountsDemo.db AccountsDemo.users AccountsDemo.users) AccountsDemo.deleted_db _)).
  exact (ar_delete _ _ _ _ _ _ _ _ _ AccountsDemo.deleted_ok).
Defined.

Lemma deleting_an_account_orphans_its_organizations_witness :
  ~ has_owner 1 AccountsDemo.deleted_db.
Proof.
  apply (proj1 (deleting_an_account_orphans_its_organizations
    default_settings (fun _ => None) 6 (Some AccountsDemo.token) 1 1 AccountsDemo.db
    AccountsDemo.deleted_db AccountsDemo.deleted_ok
    ltac:(intros k m Hm _ Hr; apply (TenancyDemo.members_cases Active) in Hm as [[_ ->]|[_ ->]];
          [reflexivity | discriminate Hr]))).
Defined.
