(* ===== verification/Queue.v ===== *)
(** * What the delivery queue promises

    An abstract queue of jobs, without leases that expire, circuits, quotas or
    tables: a job waits, is handed to a holder, is settled by it or canceled,
    and a finished job may be forgotten.  [Platform] shows that the program
    implements it; here is what follows for every run of such a queue. *)

From stdpp Require Import base tactics list gmap strings numbers option relations.
From S2P Require Import Prelude Models Delivery.
Local Open Scope Z_scope.

(** What a job has to deliver, and where: fixed when it is accepted. *)
Record target : Type := Target {
  tg_public_id : str;
  tg_organization : Z;
  tg_event : Z;
  tg_endpoint : Z;
  tg_url : str;
  tg_secret_version : Z;
  tg_scheme : SignatureScheme;
  tg_created : datetime;
}.

Record job : Type := Job {
  j_target : target;
  j_status : DeliveryStatus;
  j_attempts : Z;
  j_holder : option str;
}.

Record queue : Type := Queue { jobs : gmap Z job; next_id : Z }.

Definition new_job (t : target) : job := Job t Pending 0 None.
Definition claimed_job (token : str) (j : job) : job :=
  Job (j_target j) Processing (j_attempts j + 1) (Some token).
Definition settled_job (st : DeliveryStatus) (j : job) : job :=
  Job (j_target j) st (j_attempts j) None.
Definition set_job (k : Z) (j : job) (q : queue) : queue := Queue (<[k := j]> (jobs q)) (next_id q).
Definition forget_job (k : Z) (q : queue) : queue := Queue (delete k (jobs q)) (next_id q).

(** What may become of a job.  [fresh] are the tokens a claim may hand out, and
    [leaving] the organizations that are being deleted. *)
Inductive job_step (fresh : str -> Prop) (j : job) : job -> Prop :=
| js_claim token :
    terminal (j_status j) = false -> fresh token -> job_step fresh j (claimed_job token j)
| js_settle st :
    j_status j = Processing -> st = Succeeded \/ st = RetryScheduled \/ st = Dead ->
    job_step fresh j (settled_job st j)
| js_cancel :
    terminal (j_status j) = false -> job_step fresh j (settled_job Canceled j).

Inductive queue_step (leaving : Z -> Prop) (fresh : str -> Prop) (q : queue) : queue -> Prop :=
| qs_enqueue t :
    queue_step leaving fresh q (Queue (<[next_id q := new_job t]> (jobs q)) (next_id q + 1))
| qs_advance k j j' :
    jobs q !! k = Some j -> job_step fresh j j' -> queue_step leaving fresh q (set_job k j' q)
| qs_forget k j :
    jobs q !! k = Some j -> terminal (j_status j) = true \/ leaving (tg_organization (j_target j)) ->
    queue_step leaving fresh q (forget_job k q).

Definition queue_run (leaving : Z -> Prop) (fresh : str -> Prop) : relation queue := rtc (queue_step leaving fresh).

#[export] Instance queue_run_preorder leaving fresh : PreOrder (queue_run leaving fresh).
Proof. unfold queue_run. apply _. Qed.

Lemma queue_step_mono leaving (P P' : str -> Prop) q q' :
  (forall t, P t -> P' t) -> queue_step leaving P q q' -> queue_step leaving P' q q'.
Proof.
  intros HP. destruct 1 as [t|k j j' Hj Hs|k j Hj Ht].
  - apply qs_enqueue.
  - eapply qs_advance; [done |]. destruct Hs; [apply js_claim | apply js_settle | apply js_cancel]; auto.
  - by eapply qs_forget.
Qed.

Lemma queue_run_mono leaving (P P' : str -> Prop) q q' :
  (forall t, P t -> P' t) -> queue_run leaving P q q' -> queue_run leaving P' q q'.
Proof.
  intros HP. apply rtc_subrel. intros q1 q2. by apply queue_step_mono.
Qed.

(** Ids are never handed out twice. *)
Definition queue_wf (q : queue) : Prop := forall k, is_Some (jobs q !! k) -> k < next_id q.

(** How a job can look later on. *)
Record job_later (j j' : job) : Prop := {
  jl_target : j_target j' = j_target j;
  jl_attempts : j_attempts j <= j_attempts j';
  jl_final : terminal (j_status j) = true -> j' = j;
}.

#[export] Instance job_later_preorder : PreOrder job_later.
Proof.
  split.
  - intros j. by split.
  - intros j1 j2 j3 [T1 A1 F1] [T2 A2 F2]. split; [congruence | lia |].
    intros Ht. rewrite (F1 Ht) in *. auto.
Qed.

Lemma job_step_later fresh j j' : job_step fresh j j' -> job_later j j'.
Proof.
  destruct 1 as [t Ht _|st Hp _|Ht]; split; cbn; try done; try lia; try congruence.
  intros Hf. by rewrite Hp in Hf.
Qed.

(** Later on, an id belongs to the job it belonged to, or to nobody. *)
Record queue_later (q q' : queue) : Prop := {
  ql_next : next_id q <= next_id q';
  ql_kept : forall k j j', jobs q !! k = Some j -> jobs q' !! k = Some j' -> job_later j j';
  ql_gone : forall k, k < next_id q -> jobs q !! k = None -> jobs q' !! k = None;
}.

Lemma queue_step_wf leaving fresh q q' : queue_step leaving fresh q q' -> queue_wf q -> queue_wf q'.
Proof.
  intros Hs Hwf. destruct Hs as [t|k j j' Hj Hs|k j Hj Ht]; intros k'; cbn.
  - intros [<-|[_ Hk]]%lookup_insert_is_Some; [lia |]. specialize (Hwf k' Hk). lia.
  - intros [<-|[_ Hk]]%lookup_insert_is_Some; apply Hwf; eauto.
  - intros [_ Hk]%lookup_delete_is_Some. by apply Hwf.
Qed.

Lemma queue_step_later leaving fresh q q' : queue_wf q -> queue_step leaving fresh q q' -> queue_later q q'.
Proof.
  intros Hwf. destruct 1 as [t|k j j' Hj Hs|k j Hj Ht]; split; cbn; try lia.
  - intros k j j' Hj. rewrite lookup_insert_ne; [by intros [= <-]%(eq_trans (eq_sym Hj)) |].
    intros <-. specialize (Hwf (next_id q) ltac:(eauto)). lia.
  - intros k Hk Hn. by rewrite lookup_insert_ne by lia.
  - intros k' j0 j1 Hj0. destruct (decide (k = k')) as [<-|Hne].
    + rewrite lookup_insert_eq. intros [= <-]. rewrite Hj in Hj0. injection Hj0 as <-.
      by eapply job_step_later.
    + rewrite lookup_insert_ne by done. by intros [= <-]%(eq_trans (eq_sym Hj0)).
  - intros k' _ Hn. rewrite lookup_insert_ne; [done | congruence].
  - intros k' j0 j1 Hj0. rewrite lookup_delete_Some. intros [_ Hj1].
    by injection (eq_trans (eq_sym Hj0) Hj1) as <-.
  - intros k' _ Hn. by apply lookup_delete_None; right.
Qed.

(** A gap in the middle of a run is closed by [ql_gone]. *)
Lemma queue_later_trans q1 q2 q3 :
  queue_wf q1 -> queue_later q1 q2 -> queue_later q2 q3 -> queue_later q1 q3.
Proof.
  intros Hwf [N1 K1 G1] [N2 K2 G2]. split; [lia | |].
  - intros k j j' Hj Hj'. destruct (jobs q2 !! k) as [j2|] eqn:E; [by etrans; eauto |].
    pose proof (Hwf k ltac:(eauto)). rewrite (G2 k) in Hj'; [done | lia | done].
  - intros k Hk Hn. apply G2; [lia | by apply G1].
Qed.

Lemma queue_run_later leaving fresh q q' : queue_wf q -> queue_run leaving fresh q q' -> queue_later q q'.
Proof.
  intros Hwf Hr. induction Hr as [q|q1 q2 q3 Hs _ IH].
  - split; [done | | done]. intros k j j' Hj Hj'. by injection (eq_trans (eq_sym Hj) Hj') as <-.
  - eapply queue_later_trans; [done | by eapply queue_step_later |].
    apply IH. by eapply queue_step_wf.
Qed.

(** Whoever holds a job after a run got it in the run, under a fresh token, or
    held it before, for the same attempt. *)
Definition holds (token : str) (k n : Z) (q : queue) : Prop :=
  exists j, jobs q !! k = Some j /\ j_holder j = Some token /\ j_attempts j = n.

Lemma queue_step_holds leaving fresh token k n q q' :
  queue_step leaving fresh q q' -> holds token k n q' -> fresh token \/ holds token k n q.
Proof.
  intros Hs (j' & Hj' & Hh & Hn). revert Hj'.
  destruct Hs as [t|k0 j j0 Hj Hs|k0 j Hj Ht]; cbn.
  - intros [[<- <-]|[_ Hj']]%lookup_insert_Some; [done | right; by exists j'].
  - intros [[<- ->]|[_ Hj']]%lookup_insert_Some; [| right; by exists j'].
    destruct Hs; cbn in Hh; [injection Hh as ->; by left | done | done].
  - intros [_ Hj']%lookup_delete_Some. right. by exists j'.
Qed.

Lemma queue_run_holds leaving fresh token k n q q' :
  queue_run leaving fresh q q' -> holds token k n q' -> fresh token \/ holds token k n q.
Proof.
  induction 1 as [q|q1 q2 q3 Hs _ IH]; [by right |]. intros [?|Hh]%IH; [by left |].
  by eapply queue_step_holds.
Qed.

(** ** Runs of several steps *)

Definition enqueue_all (ts : list target) (q : queue) : queue :=
  foldl (fun q t => Queue (<[next_id q := new_job t]> (jobs q)) (next_id q + 1)) q ts.

Lemma queue_run_enqueue leaving fresh ts q : queue_run leaving fresh q (enqueue_all ts q).
Proof.
  revert q; induction ts as [| t ts IH]; intros q; cbn; [done |].
  etrans; [apply rtc_once, qs_enqueue | apply IH].
Qed.

Lemma queue_run_advance leaving fresh k j j' q :
  jobs q !! k = Some j -> job_step fresh j j' -> queue_run leaving fresh q (set_job k j' q).
Proof. intros. apply rtc_once. by eapply qs_advance. Qed.

(** Forgetting finished jobs; ids without a job are skipped. *)
Lemma queue_run_forget leaving fresh ks q :
  (forall k j, k ∈ ks -> jobs q !! k = Some j ->
     terminal (j_status j) = true \/ leaving (tg_organization (j_target j))) ->
  queue_run leaving fresh q (Queue (foldr delete (jobs q) ks) (next_id q)).
Proof.
  revert q; induction ks as [| k ks IH]; intros q Ht; cbn; [by destruct q |].
  etrans; [apply IH; intros k' j Hk'; apply Ht; set_solver |].
  set (m := foldr delete (jobs q) ks). destruct (m !! k) as [j|] eqn:E.
  - apply rtc_once. apply (qs_forget _ _ (Queue m (next_id q)) k j); [done |].
    apply (Ht k); [set_solver |]. revert E. unfold m. clear. induction ks as [| k' ks IH]; [done |].
    cbn. rewrite lookup_delete_Some. by intros [_ ?%IH].
  - by rewrite delete_id.
Qed.
