(* ===== verification/Platform.v ===== *)
(** * The data plane as a system

    Workers, tenants, operators and the maintenance loop act on one database,
    in any order, with the waits of each other's transactions in between.  A
    reachable state satisfies the data plane's invariant, a lease has at most
    one owner, and the delivery table implements the queue of [Queue]. *)

From Stdlib Require Import QArith.
From stdpp Require Import base tactics list gmap sets strings numbers option relations sorting.
From S2P Require Import Prelude Crypto Json Models Session Settings Admission Scheduling.
From S2P Require Import Fairness WebhookSecurity Delivery WorkerSafety Authorization AuditLog Events.
From S2P Require Import EventSafety ReplaySafety Lifecycle Tenancy Endpoints Queue.
Local Open Scope Z_scope.

(** ** The queue a database holds *)

Definition target_of (d : Delivery) : target :=
  Target (d_public_id d) (d_organization_id d) (d_event_id d) (d_endpoint_id d)
    (d_endpoint_url_snapshot d) (d_signing_secret_version_snapshot d)
    (d_signature_scheme_snapshot d) (d_created_at d).

Definition job_of (d : Delivery) : job :=
  Job (target_of d) (d_status d) (d_attempt_count d) (d_lease_token d).

Definition queue_of (db : Db) : queue :=
  Queue (job_of <$> rows (db_deliveries db)) (seq (db_deliveries db)).

Lemma queue_of_lookup k d db :
  t_get k (db_deliveries db) = Some d -> jobs (queue_of db) !! k = Some (job_of d).
Proof. unfold t_get. intros Hd. cbn. by rewrite lookup_fmap, Hd. Qed.

Lemma queue_of_inv k j db :
  jobs (queue_of db) !! k = Some j -> exists d, t_get k (db_deliveries db) = Some d /\ j = job_of d.
Proof. cbn. rewrite lookup_fmap, fmap_Some. by intros (d & Hd & ->); exists d. Qed.

Lemma queue_of_frame db db' : db_deliveries db' = db_deliveries db -> queue_of db' = queue_of db.
Proof. unfold queue_of. by intros ->. Qed.

Lemma queue_of_set db d : queue_of (set_delivery d db) = set_job (d_id d) (job_of d) (queue_of db).
Proof. unfold queue_of, set_delivery, set_job, t_set. upd_simpl. cbn. by rewrite fmap_insert. Qed.

Lemma queue_of_add mks db :
  Forall (fun mk => exists t, forall id, job_of (mk id) = new_job t) mks ->
  exists ts, queue_of (db &{ db_deliveries := add_deliveries mks (db_deliveries db) })
             = enqueue_all ts (queue_of db).
Proof.
  unfold queue_of. upd_simpl. generalize (db_deliveries db). intros t Hall. revert t.
  induction Hall as [| mk mks [tg Htg] _ IH]; intros t; [by exists [] |].
  destruct (IH (t_add mk t)) as [ts Hts]. exists (tg :: ts). cbn [add_deliveries]. rewrite Hts.
  cbn. by rewrite fmap_insert, Htg.
Qed.

Lemma new_delivery_job uuid org event_id e now :
  exists t, forall id, job_of (new_delivery uuid org event_id e now id) = new_job t.
Proof. by exists (target_of (new_delivery uuid org event_id e now 0)). Qed.

Lemma replay_copy_job uuid original now :
  exists t, forall id, job_of (replay_copy uuid original now id) = new_job t.
Proof. by exists (target_of (replay_copy uuid original now 0)). Qed.

Lemma queue_of_delete ids db :
  queue_of (delete_deliveries ids db)
  = Queue (foldr delete (jobs (queue_of db)) ids) (next_id (queue_of db)).
Proof.
  unfold queue_of, delete_deliveries. upd_simpl. cbn. f_equal.
  rewrite <- map_fmap_compose. transitivity (job_of <$> foldr delete (rows (db_deliveries db)) ids).
  - apply map_fmap_ext. intros k d _. cbn. by case_match.
  - induction ids as [| k ids IH]; [done |]. cbn. by rewrite fmap_delete, IH.
Qed.

Lemma queue_of_wf settings db : deliveries_ok settings db -> queue_wf (queue_of db).
Proof.
  intros Hok k [j (d & Hd & _)%queue_of_inv]. eapply (dbo_wf _ _ Hok). by eexists.
Qed.

Lemma settled_final d st :
  st = Succeeded \/ st = RetryScheduled \/ st = Dead -> d_status d = Processing ->
  forall fresh, job_step fresh (job_of d) (settled_job st (job_of d)).
Proof. intros Hst Hp fresh. by apply js_settle. Qed.

(** ** What an operation may do to the data plane *)

Record implements (settings : Settings) (leaving : Z -> Prop) (fresh : str -> Prop) (db db' : Db) : Prop := {
  im_plane : plane_ok settings db';
  im_run : queue_run leaving fresh (queue_of db) (queue_of db');
}.

Section Steps.
Context `{Rounding} (settings : Settings) (leaving : Z -> Prop) (fresh : str -> Prop).
Implicit Types (db : Db) (d : Delivery).

Lemma implements_frame db db' :
  plane_ok settings db -> db_events db' = db_events db -> db_deliveries db' = db_deliveries db ->
  db_attempts db' = db_attempts db -> db_quotas db' = db_quotas db ->
  implements settings leaving fresh db db'.
Proof.
  intros Hok Ee Ed Ea Eq. split; [by eapply plane_ok_frame |]. by rewrite (queue_of_frame db db').
Qed.

Lemma implements_trans db1 db2 db3 :
  implements settings leaving fresh db1 db2 -> implements settings leaving fresh db2 db3 ->
  implements settings leaving fresh db1 db3.
Proof. intros [_ R1] [P2 R2]. split; [done | by etrans]. Qed.

(** The worker's transactions leave events alone and keep what a delivery was
    accepted with. *)
Lemma plane_ok_worker db db' :
  plane_ok settings db -> deliveries_ok settings db' -> db_events db' = db_events db ->
  (forall k d', t_get k (db_deliveries db') = Some d' -> exists d,
     t_get k (db_deliveries db) = Some d /\ d_event_id d' = d_event_id d) ->
  plane_ok settings db'.
Proof.
  intros [_ H1 H2 H3 Hf] Hok' Eev Hback. split; rewrite ?Eev; try done.
  intros k d' Hd'. destruct (Hback k d' Hd') as (d & Hd & ->). by eapply Hf.
Qed.

Lemma implements_set db d d' :
  plane_ok settings db -> t_get (d_id d) (db_deliveries db) = Some d -> evolves d d' ->
  deliveries_ok settings (set_delivery d' db) ->
  job_of d' = job_of d \/ job_step fresh (job_of d) (job_of d') ->
  implements settings leaving fresh db (set_delivery d' db).
Proof.
  intros Hok Hd Hev Hok' Hj. pose proof (ev_snapshot _ _ Hev) as Hs.
  split.
  - apply (plane_ok_worker db); [done | done | done |]. unfold set_delivery. upd_simpl.
    intros k d0. rewrite t_get_set. case_decide as E; [intros [= <-] | by eauto].
    exists d. subst k. rewrite (ss_id _ _ Hs). split; [done | apply (ss_event _ _ Hs)].
  - rewrite queue_of_set, (ss_id _ _ Hs). apply queue_of_lookup in Hd.
    destruct Hj as [->|Hj]; [| by eapply queue_run_advance].
    unfold set_job. rewrite insert_id by done. by destruct (queue_of db).
Qed.

Lemma renew_implements now c db r db' :
  plane_ok settings db -> run (renew_lease settings now c) db = (r, db') ->
  implements settings leaving fresh db db'.
Proof.
  intros Hok Hr. pose proof Hr as Hok'. apply renew_lease_ok in Hok'; [| apply Hok].
  rewrite renew_lease_run in Hr. destruct (select_delivery _ _ _) as [d|] eqn:E.
  2: { injection Hr as _ <-. by apply implements_frame. }
  injection Hr as _ <-. apply select_delivery_some in E as [Hd (Hp & _ & _)%owns_spec].
  rewrite <- (dbo_keyed _ _ (pl_deliveries _ _ Hok) _ _ Hd) in Hd.
  eapply implements_set; [done | exact Hd | by apply renewed_evolves | done | by left].
Qed.

Lemma release_implements now c db r db' :
  plane_ok settings db -> run (release_claim now c) db = (r, db') ->
  implements settings leaving fresh db db'.
Proof.
  intros Hok Hr. pose proof Hr as Hok'. eapply release_claim_ok in Hok'; [| apply Hok].
  rewrite release_claim_run in Hr. destruct (select_delivery _ _ _) as [d|] eqn:E.
  2: { injection Hr as _ <-. by apply implements_frame. }
  injection Hr as _ <-. apply select_delivery_some in E as [Hd (Hp & _)%holds_token_spec].
  rewrite <- (dbo_keyed _ _ (pl_deliveries _ _ Hok) _ _ Hd) in Hd.
  eapply implements_set; [done | exact Hd | by apply released_evolves | done |].
  right. apply (js_settle fresh (job_of d) RetryScheduled); [done | tauto].
Qed.

Lemma queue_run_lease now uuid i ds db :
  NoDup (map d_id ds) -> (forall n, fresh (uuid n)) ->
  (forall d, d ∈ ds -> due now d = true /\ t_get (d_id d) (db_deliveries db) = Some d) ->
  queue_run leaving fresh (queue_of db)
    (queue_of (db &{ db_deliveries := lease_rows settings now uuid i ds (db_deliveries db) })).
Proof.
  intros Hnd Hfresh. revert i db Hnd; induction ds as [| d ds IH]; intros i db Hnd Hds.
  { cbn [lease_rows]. by rewrite (queue_of_frame db (db &{ db_deliveries := db_deliveries db })). }
  apply list.NoDup_cons in Hnd as [Hni Hnd]. destruct (Hds d ltac:(left)) as [Hdue Hd].
  set (db1 := set_delivery (leased settings now (uuid i) d) db).
  transitivity (queue_of db1).
  - unfold db1. rewrite queue_of_set. eapply queue_run_advance; [by apply queue_of_lookup |].
    apply (js_claim fresh (job_of d) (uuid i)); [by apply due_not_terminal in Hdue | done].
  - rewrite (queue_of_frame (db1 &{ db_deliveries := lease_rows settings now uuid (S i) ds
      (db_deliveries db1) }) (db &{ db_deliveries := _ })) by done.
    apply IH; [done |]. intros d' Hd'. destruct (Hds d' ltac:(by right)) as [? Hg].
    split; [done |]. unfold db1, set_delivery. upd_simpl. rewrite t_get_set.
    case_decide as E; [| done]. exfalso. apply Hni.
    change (d_id (leased settings now (uuid i) d)) with (d_id d) in E. rewrite E.
    by apply list_elem_of_fmap_2.
Qed.

Lemma claim_implements now unlocked uuid limit db r db' :
  limits_ok settings -> plane_ok settings db -> (forall n, fresh (uuid n)) ->
  run (claim_due settings now unlocked uuid limit) db = (r, db') ->
  implements settings leaving fresh db db'.
Proof.
  intros L Hok Hfresh Hr. pose proof Hr as Hok'. eapply claim_due_ok in Hok'; [| done | apply Hok].
  destruct (Z.leb_spec limit 0) as [Hl|Hl].
  { unfold claim_due in Hr. destruct (Z.leb_spec limit 0); [| lia]. injection Hr as _ <-.
    by apply implements_frame. }
  destruct (claim_due_run settings now unlocked uuid limit db L (pl_deliveries _ _ Hok) Hl)
    as (l & db1 & Hsel & _ & Hrun).
  rewrite Hrun in Hr. injection Hr as _ <-.
  destruct (so_frame _ _ _ _ _ _ _ Hsel) as (Q & T & G & E1).
  pose proof (so_nodup _ _ _ _ _ _ _ Hsel) as Hnd.
  assert (forall d, d ∈ l -> due now d = true /\ t_get (d_id d) (db_deliveries db) = Some d) as Hl'.
  { intros d Hd. by destruct (so_due _ _ _ _ _ _ _ Hsel d Hd) as (? & _ & ?). }
  split.
  - apply (plane_ok_worker db); [done | done | by rewrite E1 |]. upd_simpl.
    intros k d' Hd'. apply lease_rows_cases in Hd' as [(n & d & Hn & <- & ->)|[_ Hd']];
      [| by eauto | done].
    exists d. split; [| done]. by apply list_elem_of_lookup_2, Hl' in Hn as [_ Hn].
  - rewrite (queue_of_frame (db &{ db_deliveries := lease_rows settings now uuid 0 l
      (db_deliveries db) }) (db1 &{ db_deliveries := _ })) by done.
    by apply queue_run_lease.
Qed.

Lemma queue_of_finalized c d q started r finished u db :
  queue_of (finalized_db settings c d q started r finished u db)
  = queue_of (set_delivery (finished_row
      (delivery_after settings d (c_attempt_number c) r finished u) r finished) db).
Proof. apply queue_of_frame. unfold finalized_db, set_delivery. cbn zeta. upd_simpl. reflexivity. Qed.

Lemma finalized_unleased c d q started r finished u db d' :
  t_get (d_id d) (db_deliveries (finalized_db settings c d q started r finished u db)) = Some d' ->
  d_lease_token d' = None.
Proof.
  unfold finalized_db. cbn zeta. upd_simpl. rewrite t_get_set, decide_True; [by intros [= <-] |].
  by destruct (delivery_after_finalized settings d (c_attempt_number c) r finished u).
Qed.

Lemma finalize_implements c started r finished u db b db' :
  limits_ok settings -> plane_ok settings db ->
  (forall d, t_get (c_id c) (db_deliveries db) = Some d ->
     d_lease_token d = Some (c_lease_token c) -> d_attempt_count d = c_attempt_number c) ->
  run (finalize settings c started r finished u) db = (Ok b, db') ->
  implements settings leaving fresh db db'.
Proof.
  intros L Hok Hnum. rewrite finalize_run.
  destruct (select_delivery _ _ _) as [d|] eqn:E; [| by intros [= _ <-]; apply implements_frame].
  destruct (db_quotas db !! _) as [q|] eqn:Eq; [| done].
  destruct (attempt_recorded _ _ _) eqn:Ea; [done |]. intros [= _ <-].
  apply select_delivery_some in E as [Hd (Hp & Ht & _)%owns_spec].
  pose proof (eq_sym (Hnum d Hd Ht)) as Hn.
  rewrite <- (dbo_keyed _ _ (pl_deliveries _ _ Hok) _ _ Hd) in Hd.
  pose proof (finalized_db_ok settings c d q started r finished u db L (pl_deliveries _ _ Hok)
    Hd Hp Eq Hn) as Hok'.
  pose proof (delivery_after_finalized settings d (c_attempt_number c) r finished u) as Hfin.
  pose proof (finalized_evolves settings _ _ _ _ _ _ Hp Hfin) as Hev.
  set (d' := delivery_after settings d (c_attempt_number c) r finished u) in *.
  assert (d_id d' = d_id d) as Hid by (by destruct Hfin).
  split.
  - apply (plane_ok_worker db); [done | done | done |]. unfold finalized_db. upd_simpl.
    fold d'. intros k d0. rewrite t_get_set. case_decide as Ek; [intros [= <-] | by eauto].
    exists d. subst k. rewrite Hid. split; [done |].
    exact (ss_event _ _ (ev_snapshot _ _ Hev)).
  - rewrite queue_of_finalized, queue_of_set. fold d'. change (d_id (finished_row d' r finished)) with (d_id d'). rewrite Hid.
    eapply queue_run_advance; [by apply queue_of_lookup |].
    assert (job_of (finished_row d' r finished) = settled_job (d_status d') (job_of d)) as ->
      by (by destruct Hfin).
    apply settled_final; [destruct Hfin; tauto | done].
Qed.
End Steps.

(** ** Requests of tenants and operators *)

Section Requests.
Context `{Rounding} (settings : Settings) (unicode_alnum : Z -> bool) (leaving : Z -> Prop) (fresh : str -> Prop).

Lemma queue_run_add mks db :
  Forall (fun mk => exists t, forall id, job_of (mk id) = new_job t) mks ->
  queue_run leaving fresh (queue_of db)
    (queue_of (db &{ db_deliveries := add_deliveries mks (db_deliveries db) })).
Proof. intros [ts ->]%(queue_of_add mks db). apply queue_run_enqueue. Qed.

Lemma ingest_implements uuid now others trace project key event_type payload mode db e db' :
  plane_ok settings (others db) -> db' <> db ->
  run (ingest_event settings uuid now others trace project key event_type payload mode) db
    = (Ok e, db') ->
  implements settings leaving fresh (others db) db'.
Proof.
  intros Hok Hne (m & fp & _ & Hcase)%ingest_ok.
  destruct Hcase as [([->| ->] & _)|(_ & Hnone & Hacc)]; [done | by apply implements_frame |].
  split; [by eapply accepted_ok |].
  destruct Hacc as [_ Hdl _ _].
  rewrite (queue_of_frame ((others db) &{ db_deliveries := db_deliveries db' }) db') by done.
  rewrite Hdl. apply queue_run_add, list.Forall_lookup.
  intros i mk (ep & _ & ->)%fan_out_lookup. apply new_delivery_job.
Qed.

Lemma implements_copies db db' mks :
  plane_ok settings db -> plane_ok settings db' ->
  db_deliveries db' = add_deliveries mks (db_deliveries db) ->
  Forall (fun mk => exists uuid d now, mk = replay_copy uuid d now) mks ->
  implements settings leaving fresh db db'.
Proof.
  intros _ Hok' Hd Hmks. split; [done |].
  rewrite (queue_of_frame (db &{ db_deliveries := db_deliveries db' }) db') by done.
  rewrite Hd. apply queue_run_add. eapply list.Forall_impl; [exact Hmks |].
  intros mk (u & d & n & ->). apply replay_copy_job.
Qed.

(** The payload of the replayed delivery must survive the wait for the
    admission rows. *)
Lemma replay_implements uuid checked_at now others others' user project_id delivery_id db d db' :
  plane_ok settings (others' (others db)) ->
  (forall original, d_public_id original = delivery_id ->
     (exists k, t_get k (db_deliveries (others db)) = Some original) ->
     is_Some (envelope_of original (others' (others db)))) ->
  run (replay_delivery settings unicode_alnum uuid checked_at now others others' user project_id
         delivery_id) db = (Ok d, db') ->
  implements settings leaving fresh (others' (others db)) db'.
Proof.
  intros Hok Henv Hr. destruct (replay_delivery_ok _ _ _ _ _ _ _ _ _ _ _ _ _ Hr)
    as (p & original & k & _ & Hk & Hpid & _ & _ & _ & Hdl & Hev & Hat & Hq & _).
  set (db2 := others' (others db)) in *.
  destruct (Henv original Hpid ltac:(eauto)) as [[ev envelope] He]. unfold envelope_of in He.
  destruct (t_get (d_event_id original) (db_events db2)) as [ev0|] eqn:E; [| done]. cbn in He.
  destruct (ev_canonical_envelope ev0) as [env0|] eqn:E0; [| done].
  apply (implements_copies _ _ [replay_copy (uuid 0%nat) original now]); [done | | done |].
  - eapply (plane_ok_frame settings (db2 &{ db_deliveries :=
      add_deliveries [replay_copy (uuid 0%nat) original now] (db_deliveries db2) })); try done.
    apply plane_ok_add; [done |]. constructor; [| constructor]. by eapply replay_fresh.
  - constructor; [eauto | constructor].
Qed.

Lemma bulk_replay_implements uuid now others user project_id ids key db op db' :
  plane_ok settings (others db) -> db' <> db ->
  run (replay_deliveries settings unicode_alnum uuid now others user project_id ids key) db
    = (Ok op, db') ->
  implements settings leaving fresh (others db) db'.
Proof.
  intros Hok Hne (p & _ & _ & Hcase)%replay_deliveries_ok.
  destruct Hcase as [([->| ->] & _)|(sources & Hb)]; [done | by apply implements_frame |].
  eapply implements_copies; [done | by eapply batch_plane | apply Hb |].
  apply list.Forall_lookup. intros i mk. rewrite list_lookup_imap.
  intros (d & _ & ->)%fmap_Some. eauto.
Qed.

Lemma cancel_implements uuid now others user project_id delivery_id reason db d' db' :
  plane_ok settings (others db) ->
  run (cancel_delivery unicode_alnum uuid now others user project_id delivery_id reason) db
    = (Ok d', db') ->
  implements settings leaving fresh (others db) db'.
Proof.
  intros Hok (p & d & k & _ & Hk & _ & _ & Hcase)%cancel_delivery_ok.
  destruct Hcase as [(_ & _ & ->)|(Hq & -> & audits & ->)]; [by apply implements_frame |].
  pose proof (dbo_keyed _ _ (pl_deliveries _ _ Hok) _ _ Hk) as <-.
  pose proof (dbo_rows _ _ (pl_deliveries _ _ Hok) _ _ Hk) as Hrow.
  destruct (after_cancel_ok settings d now (db_quotas (others db))) as [HQ Hdom];
    [apply Hok |].
  split.
  - apply (plane_ok_set settings (others db) d); [done | done | by apply canceled_row_evolves | done | done | done].
  - rewrite (queue_of_frame (set_delivery (canceled_row d now reason) (others db))
      ((set_delivery (canceled_row d now reason) (others db)) &{ db_quotas := _ } &{ db_audits := _ }))
      by done.
    rewrite queue_of_set. eapply queue_run_advance; [by apply queue_of_lookup |].
    assert (job_of (canceled_row d now reason) = settled_job Canceled (job_of d)) as ->.
    { unfold job_of, settled_job. cbn. f_equal. pose proof (do_token _ Hrow) as Ht.
      destruct (d_status d); try done; by destruct (d_lease_token d). }
    apply js_cancel. cbn. by destruct (d_status d).
Qed.

Lemma delete_implements ids db :
  plane_ok settings db ->
  (forall id, id ∈ ids -> forall d, t_get id (db_deliveries db) = Some d ->
     terminal (d_status d) = true \/ leaving (d_organization_id d)) ->
  implements settings leaving fresh db (delete_deliveries ids db).
Proof.
  intros Hok Ht. split; [by apply delete_deliveries_ok |]. rewrite queue_of_delete.
  apply queue_run_forget. intros k j Hk (d & Hd & ->)%queue_of_inv. by eapply Ht.
Qed.

Lemma purge_implements uuid now user project_id dry_run max_records db rp db' :
  plane_ok settings db ->
  run (purge_terminal_deliveries settings unicode_alnum uuid now user project_id dry_run max_records) db
    = (Ok rp, db') ->
  implements settings leaving fresh db db'.
Proof.
  intros Hok (p & ids & _ & Hb & _ & Hdb)%purge_ok.
  destruct dry_run; [rewrite Hdb; by apply implements_frame |].
  destruct Hdb as [audits ->]. apply (implements_trans _ _ _ _ (if len ids =? 0 then db else delete_deliveries ids db)).
  - destruct (len ids =? 0); [by apply implements_frame |]. apply delete_implements; [done |].
    intros id Hid d Hd. left. destruct (pb_rows _ _ _ _ _ Hb id Hid) as (d0 & k & Hk & Hid0 & _ & Ht & _).
    pose proof (dbo_keyed _ _ (pl_deliveries _ _ Hok) _ _ Hk). congruence.
  - apply implements_frame; [| done ..]. destruct (len ids =? 0); [done |].
    by apply delete_deliveries_ok.
Qed.
End Requests.

(** ** Maintenance *)

Section Maintenance.
Context `{Rounding} (settings : Settings) (unicode_alnum : Z -> bool) (leaving : Z -> Prop) (fresh : str -> Prop).

(** Attempt rows that still belong to the same attempt. *)
Definition attempts_kept (t t' : table DeliveryAttempt) : Prop :=
  seq t' = seq t /\ forall k a', t_get k t' = Some a' -> exists a, t_get k t = Some a /\
    at_delivery_id a' = at_delivery_id a /\ at_attempt_number a' = at_attempt_number a.

Instance attempts_kept_preorder : PreOrder attempts_kept.
Proof.
  split.
  - intros t. split; [done |]. eauto.
  - intros t1 t2 t3 [S1 K1] [S2 K2]. split; [congruence |]. intros k a3 Ha3.
    destruct (K2 k a3 Ha3) as (a2 & Ha2 & ? & ?). destruct (K1 k a2 Ha2) as (a1 & ? & ? & ?).
    exists a1. split; [done |]. split; congruence.
Qed.

Lemma attempts_implements db t' :
  plane_ok settings db -> attempts_kept (db_attempts db) t' ->
  implements settings leaving fresh db (db &{ db_attempts := t' }).
Proof.
  intros [[K1 K2 K3 K4 K5 K6 K7 K8 K9] H1 H2 H3 Hf] [Hseq Hback].
  split; [| by rewrite (queue_of_frame db (db &{ db_attempts := t' }))].
  split; [split | | | |]; upd_simpl; try done.
  - intros k a' Ha'. destruct (Hback k a' Ha') as (a & Ha & -> & ->). by apply (K7 k).
  - intros k [a' Ha']. rewrite Hseq. destruct (Hback k a' Ha') as (a & Ha & _). apply K8. eauto.
  - intros k k' a a' Ha Ha' Hid Hn.
    destruct (Hback k a Ha) as (b & Hb & E1 & E2), (Hback k' a' Ha') as (b' & Hb' & E1' & E2').
    apply (K9 k k' b b'); congruence.
Qed.

Lemma alter_attempt_kept f k t :
  (forall a, at_delivery_id (f a) = at_delivery_id a /\ at_attempt_number (f a) = at_attempt_number a) ->
  attempts_kept t (t_alter f k t).
Proof.
  intros Hf. split; [done |]. intros k' a'. unfold t_get, t_alter. cbn.
  rewrite lookup_alter. case_decide; [| by eauto].
  subst k'. intros (a & Ha & ->)%fmap_Some. exists a. split; [done | apply Hf].
Qed.

Lemma mfor_redact f (l : list DeliveryAttempt) s u s' :
  (forall a, at_delivery_id (f a) = at_delivery_id a /\ at_attempt_number (f a) = at_attempt_number a) ->
  mfor (fun a => modify (fun db => db &{ db_attempts := t_alter f (at_id a) (db_attempts db) })) l s
    = (Ok u, s') ->
  exists t', attempts_kept (db_attempts (working s)) t' /\ working s' = (working s) &{ db_attempts := t' }.
Proof.
  intros Hf. revert s; induction l as [| a l IH]; intros [c db]; cbn [mfor].
  - intros [_ ->]%mret_ok. exists (db_attempts db). split; [done |]. by destruct db.
  - intros (u1 & s1 & ->%modify_ok & (t' & Ht & ->)%IH)%M_bind_ok. cbn [committed working] in *.
    exists t'. split; [| done]. etrans; [| exact Ht]. by apply alter_attempt_kept.
Qed.

Lemma purge_responses_implements now unlocked db r db' :
  plane_ok settings db ->
  run (purge_responses settings now unlocked) db = (Ok r, db') ->
  implements settings leaving fresh db db'.
Proof.
  intros Hok (s & Hr & ->)%run_ok. unfold purge_responses in Hr.
  apply begin_ok in Hr as (s1 & Hr & ->). erewrite M_bind_run in Hr; [| reflexivity].
  apply M_bind_ok in Hr as (u & s2 & Hm & [_ ->]%mret_ok). cbn [committed working].
  apply mfor_redact in Hm as (t' & Ht & ->); [| done]. by apply attempts_implements.
Qed.

Lemma purge_payloads_implements now unlocked others db r db' :
  plane_ok settings (others db) ->
  run (purge_event_payloads settings now unlocked others) db = (Ok r, db') ->
  implements settings leaving fresh (others db) db'.
Proof.
  intros Hok Hr. split; [by eapply purge_event_payloads_plane |].
  apply purge_event_payloads_ok in Hr as (_ & _ & _ & _ & evs & -> & _).
  by rewrite (queue_of_frame (others db) ((others db) &{ db_events := evs })).
Qed.
End Maintenance.

(** ** Endpoints and their circuits *)

Section Operations.
Context `{Rounding} (settings : Settings) (unicode_alnum : Z -> bool) (leaving : Z -> Prop) (fresh : str -> Prop).
Context (urlsplit : str -> option SplitResult) (ip_address : str -> option IPAddress)
  (getaddrinfo : str -> Z -> option (list str)).

Lemma quota_implements db e q :
  plane_ok settings db -> quota_ok settings q ->
  implements settings leaving fresh db (db &{ db_quotas := <[e := q]> (db_quotas db) }).
Proof.
  intros [[K1 K2 K3 K4 K5 K6 K7 K8 K9] H1 H2 H3 Hf] Hq.
  split; [| by rewrite (queue_of_frame db (db &{ db_quotas := <[e := q]> (db_quotas db) }))].
  split; [split | | | |]; upd_simpl; try done.
  - by apply map_Forall_insert_2.
  - intros k d Hd Hp. apply is_Some_insert. by eapply K6.
Qed.

Lemma operate_implements uuid now others user project_id endpoint_id change action metadata db v db' :
  (forall q, quota_ok settings q -> quota_ok settings (change q)) ->
  plane_ok settings (others db) ->
  run (operate unicode_alnum uuid now others user project_id endpoint_id change action metadata) db
    = (Ok v, db') ->
  implements settings leaving fresh (others db) db'.
Proof.
  intros Hch Hok (s & Hr & ->)%run_ok. unfold operate, endpoint_runtime, endpoint, put_quota in Hr.
  m_inv. m_auth.
  match goal with H : db_quotas _ !! ?e = Some ?q |- _ => rename q into state; set (id := e) in * end.
  eapply (implements_trans settings leaving fresh _ ((others db) &{ db_quotas := <[id := change state]>
    (db_quotas (others db)) })).
  - apply quota_implements; [done |]. apply Hch. by eapply (dbo_quotas _ _ (pl_deliveries _ _ Hok)).
  - apply implements_frame; [| done ..]. apply (quota_implements (others db) id (change state)); [done |].
    apply Hch. by eapply (dbo_quotas _ _ (pl_deliveries _ _ Hok)).
Qed.

Lemma paused_ok now reason q : quota_ok settings q -> quota_ok settings (paused now reason q).
Proof. intros []. by split. Qed.

Lemma resumed_ok now q : quota_ok settings q -> quota_ok settings (resumed now q).
Proof. intros []. by split. Qed.

Lemma recovered_ok now q :
  limits_ok settings -> quota_ok settings q -> quota_ok settings (recovered settings now q).
Proof.
  intros L [Ht _ _ _]. destruct (lim_retry_burst _ L).
  split; unfold recovered; upd_simpl; [done | | done | done].
  rewrite float_of_exact by lia. split; [rewrite <- (Zle_Qle 0); lia | apply Qle_refl].
Qed.

Lemma create_endpoint_implements uuid now user project_id url description event_types scheme db e db' :
  limits_ok settings -> plane_ok settings db ->
  run (create_endpoint settings unicode_alnum urlsplit ip_address getaddrinfo uuid now user project_id
         url description event_types scheme) db = (Ok e, db') ->
  implements settings leaving fresh db db'.
Proof.
  intros L Hok (s & Hr & ->)%run_ok.
  unfold create_endpoint, check_endpoint_limit, ensure_tenant_state, endpoint_plaintext_secret in Hr. m_inv. m_auth.
  match goal with H : validate_endpoint_url _ _ _ _ _ _ = (Ok _, ?s) |- _ =>
    assert (s = Sess db db) as ->;
    [unfold validate_endpoint_url in H; destruct (validate_webhook_url _ _ _ _ _ _) as [|[]];
     [by apply mret_ok in H as [_ ->] | done ..] |] end.
  m_inv. cbn [committed working] in *.
  set (id := seq (db_endpoints db)) in *.
  pose proof (quota_implements db id _ Hok (endpoint_quota_values_ok settings now id L)) as Hq.
  eapply implements_trans; [exact Hq |]. apply implements_frame; [apply Hq | done ..].
Qed.
End Operations.

(** ** Deletion of an organization *)

Section Deletion.
Context (settings : Settings) (unicode_alnum : Z -> bool) (leaving : Z -> Prop)
  (fresh : str -> Prop).

Lemma deletion_canceled_job now d :
  job_of (deletion_canceled now d) = settled_job Canceled (job_of d).
Proof. done. Qed.

Lemma queue_run_cancel now ds db :
  NoDup (map d_id ds) ->
  (forall d, d ∈ ds -> cancellable now d = true /\ t_get (d_id d) (db_deliveries db) = Some d) ->
  queue_run leaving fresh (queue_of db) (queue_of (db &{ db_deliveries :=
    foldl (fun t d => t_set (d_id (deletion_canceled now d)) (deletion_canceled now d) t)
      (db_deliveries db) ds })).
Proof.
  revert db; induction ds as [| d ds IH]; intros db Hnd Hds.
  { cbn [foldl]. by rewrite (queue_of_frame db (db &{ db_deliveries := db_deliveries db })). }
  apply list.NoDup_cons in Hnd as [Hni Hnd]. destruct (Hds d ltac:(left)) as [Hc Hd].
  set (db1 := set_delivery (deletion_canceled now d) db).
  transitivity (queue_of db1).
  - unfold db1. rewrite queue_of_set, deletion_canceled_job.
    eapply queue_run_advance; [by apply queue_of_lookup |]. apply js_cancel. cbn.
    unfold cancellable in Hc. by destruct (d_status d).
  - rewrite (queue_of_frame (db1 &{ db_deliveries := foldl (fun t d =>
      t_set (d_id (deletion_canceled now d)) (deletion_canceled now d) t) (db_deliveries db1) ds })
      (db &{ db_deliveries := _ })) by done.
    apply IH; [done |]. intros d' Hd'. destruct (Hds d' ltac:(by right)) as [? Hg].
    split; [done |]. unfold db1, set_delivery. upd_simpl. rewrite t_get_set.
    case_decide as E; [| done]. exfalso. apply Hni.
    change (d_id (deletion_canceled now d)) with (d_id d) in E. rewrite E.
    by apply list_elem_of_fmap_2.
Qed.

(** Rows without deliveries go without touching the queue. *)
Lemma queue_of_delete_organization o db :
  plane_ok settings db -> tenant_rows db -> organization_is_empty o db = true ->
  queue_of (delete_organization o db) = queue_of db.
Proof.
  intros Hok Htr Hempty. pose proof (dbo_keyed _ _ (pl_deliveries _ _ Hok)) as Hkeyed.
  assert (seq (db_deliveries (delete_organization o db)) = seq (db_deliveries db)) as Hseq
    by reflexivity.
  unfold queue_of. rewrite Hseq. f_equal. apply map_eq. intros k. rewrite !lookup_fmap.
  destruct (rows (db_deliveries db) !! k) as [d|] eqn:E.
  - destruct (delete_organization_kept o db k d Hkeyed E) as (d' & Hd' & Hcase).
    { intros Hof. by apply (empty_no_delivery _ _ _ _ Hempty E), (Htr _ _ _ E). }
    unfold t_get in Hd'. rewrite Hd'. cbn. by destruct Hcase as [->| ->].
  - destruct (rows (db_deliveries (delete_organization o db)) !! k) as [d'|] eqn:E'; [| done].
    apply (delete_organization_delivery o db k d' Hkeyed) in E' as (d & Hd & _).
    unfold t_get in Hd. congruence.
Qed.

Lemma cleanup_implements uuid clock now lk db r db' :
  (forall op org, due_deletion now db op org -> leaving (o_id org)) ->
  plane_ok settings db -> tenant_rows db ->
  run (cleanup_due_organization settings unicode_alnum uuid clock now lk) db = (Ok r, db') ->
  implements settings leaving fresh db db'.
Proof.
  intros Hleave Hok Htr Hr.
  apply cleanup_ok in Hr as [[_ ->]|(op & org & O & A & db1 & Hdue & Hc & ->)];
    [by apply implements_frame | | apply Hok | apply Hok].
  apply Hleave in Hdue. set (db0 := db &{ db_operations := O } &{ db_audits := A }) in *.
  assert (implements settings leaving fresh db db0) as H0 by by apply implements_frame.
  assert (tenant_rows db0) as Htr0 by exact Htr.
  eapply implements_trans; [exact H0 |]. apply im_plane in H0 as Hok0. clearbody db0.
  pose proof (cleaned_ok settings now org db0 r db1 Hok0 Hc) as Hok1.
  destruct Hc as [|ds Hnd _ Hds|ids _ _ Hids|ids _ _ Hids|Hempty].
  - by apply implements_frame.
  - split; [done |]. apply queue_run_cancel; [done |]. intros d Hd. by destruct (Hds d Hd) as (_ & ? & ?).
  - apply delete_implements; [done |]. intros id Hid d Hd. right.
    destruct (Hids id Hid) as (d0 & Hd0 & Ho). rewrite Hd in Hd0. injection Hd0 as <-. by rewrite Ho.
  - split; [done |].
    by rewrite (queue_of_frame db0 (db0 &{ db_events := t_delete ids (db_events db0) })).
  - split; [done |]. by rewrite (queue_of_delete_organization _ db0 Hok0 Htr0 Hempty).
Qed.
End Deletion.

(** ** The system *)

Section System.
Context `{Rounding} (settings : Settings) (unicode_alnum : Z -> bool) (leaving : Z -> Prop).
Context (urlsplit : str -> option SplitResult) (ip_address : str -> option IPAddress)
  (getaddrinfo : str -> Z -> option (list str)).
Implicit Types (db : Db) (cs : list ClaimedDelivery).

(** A token nobody has heard of: [uuid4] has not returned it before. *)
Definition unheard_of (db : Db) (cs : list ClaimedDelivery) (token : str) : Prop :=
  (forall k d, t_get k (db_deliveries db) = Some d -> d_lease_token d <> Some token) /\
  forall c, c ∈ cs -> c_lease_token c <> token.

(** The databases, with the claims the workers have in hand, that are reached
    from [db0] and [cs0].  Every transaction that commits is a step; one that
    waits starts in a reachable state and goes on in another ([others]).  A
    request that fails leaves the state it found, and a worker may lose its
    claims at any time.  What does not touch events, deliveries, attempts and
    endpoint states (tenants, members, keys, accounts, audit) is one step. *)
Inductive reach (db0 : Db) (cs0 : list ClaimedDelivery) : Db -> list ClaimedDelivery -> Prop :=
| re_start : reach db0 cs0 db0 cs0
| re_elsewhere db cs db' :
    reach db0 cs0 db cs -> db_events db' = db_events db -> db_deliveries db' = db_deliveries db ->
    db_attempts db' = db_attempts db -> db_quotas db' = db_quotas db -> reach db0 cs0 db' cs
| re_claim now unlocked uuid limit db cs l db' :
    reach db0 cs0 db cs -> (forall n, unheard_of db cs (uuid n)) -> Inj eq eq uuid ->
    run (claim_due settings now unlocked uuid limit) db = (Ok l, db') ->
    reach db0 cs0 db' (cs ++ l)
| re_drop db cs cs' : reach db0 cs0 db cs -> sublist cs' cs -> reach db0 cs0 db cs'
| re_renew now c db cs b db' :
    reach db0 cs0 db cs -> c ∈ cs -> run (renew_lease settings now c) db = (Ok b, db') ->
    reach db0 cs0 db' cs
| re_release now c db cs b db' :
    reach db0 cs0 db cs -> c ∈ cs -> run (release_claim now c) db = (Ok b, db') ->
    reach db0 cs0 db' cs
| re_finalize c started r finished u db cs b db' :
    reach db0 cs0 db cs -> c ∈ cs ->
    run (finalize settings c started r finished u) db = (Ok b, db') -> reach db0 cs0 db' cs
| re_ingest uuid now others trace project key event_type payload mode db cs cs' e db' :
    reach db0 cs0 db cs -> reach db0 cs0 (others db) cs' -> db' <> db ->
    run (ingest_event settings uuid now others trace project key event_type payload mode) db
      = (Ok e, db') ->
    reach db0 cs0 db' cs'
| re_replay uuid checked_at now others others' user project_id delivery_id db cs cs' d db' :
    reach db0 cs0 db cs -> reach db0 cs0 (others' (others db)) cs' ->
    (forall original, d_public_id original = delivery_id ->
       (exists k, t_get k (db_deliveries (others db)) = Some original) ->
       is_Some (envelope_of original (others' (others db)))) ->
    run (replay_delivery settings unicode_alnum uuid checked_at now others others' user project_id
           delivery_id) db = (Ok d, db') ->
    reach db0 cs0 db' cs'
| re_bulk_replay uuid now others user project_id ids key db cs cs' op db' :
    reach db0 cs0 db cs -> reach db0 cs0 (others db) cs' -> db' <> db ->
    run (replay_deliveries settings unicode_alnum uuid now others user project_id ids key) db
      = (Ok op, db') ->
    reach db0 cs0 db' cs'
| re_cancel uuid now others user project_id delivery_id reason db cs cs' d db' :
    reach db0 cs0 db cs -> reach db0 cs0 (others db) cs' ->
    run (cancel_delivery unicode_alnum uuid now others user project_id delivery_id reason) db
      = (Ok d, db') ->
    reach db0 cs0 db' cs'
| re_purge uuid now user project_id dry_run max_records db cs rp db' :
    reach db0 cs0 db cs ->
    run (purge_terminal_deliveries settings unicode_alnum uuid now user project_id dry_run
           max_records) db = (Ok rp, db') ->
    reach db0 cs0 db' cs
| re_purge_payloads now unlocked others db cs cs' r db' :
    reach db0 cs0 db cs -> reach db0 cs0 (others db) cs' ->
    run (purge_event_payloads settings now unlocked others) db = (Ok r, db') ->
    reach db0 cs0 db' cs'
| re_purge_responses now unlocked db cs r db' :
    reach db0 cs0 db cs -> run (purge_responses settings now unlocked) db = (Ok r, db') ->
    reach db0 cs0 db' cs
| re_delete_organization uuid clock now lk db cs r db' :
    reach db0 cs0 db cs -> tenant_rows db ->
    (forall op org, due_deletion now db op org -> leaving (o_id org)) ->
    run (cleanup_due_organization settings unicode_alnum uuid clock now lk) db = (Ok r, db') ->
    reach db0 cs0 db' cs
| re_create_endpoint uuid now user project_id url description event_types scheme db cs e db' :
    reach db0 cs0 db cs ->
    run (create_endpoint settings unicode_alnum urlsplit ip_address getaddrinfo uuid now user
           project_id url description event_types scheme) db = (Ok e, db') ->
    reach db0 cs0 db' cs
| re_pause uuid now others user project_id endpoint_id reason db cs cs' v db' :
    reach db0 cs0 db cs -> reach db0 cs0 (others db) cs' ->
    run (pause_endpoint unicode_alnum uuid now others user project_id endpoint_id reason) db
      = (Ok v, db') ->
    reach db0 cs0 db' cs'
| re_resume uuid now others user project_id endpoint_id db cs cs' v db' :
    reach db0 cs0 db cs -> reach db0 cs0 (others db) cs' ->
    run (resume_endpoint unicode_alnum uuid now others user project_id endpoint_id) db
      = (Ok v, db') ->
    reach db0 cs0 db' cs'
| re_recover uuid now others user project_id endpoint_id db cs cs' v db' :
    reach db0 cs0 db cs -> reach db0 cs0 (others db) cs' ->
    run (recover_endpoint_circuit settings unicode_alnum uuid now others user project_id
           endpoint_id) db = (Ok v, db') ->
    reach db0 cs0 db' cs'.

(** The invariant of the data plane, and what a claim in hand is worth: tokens
    are distinct, and who still has the row has its current attempt. *)
Record platform_ok (db : Db) (cs : list ClaimedDelivery) : Prop := {
  po_plane : plane_ok settings db;
  po_tokens : NoDup (map c_lease_token cs);
  po_numbers : forall c d, c ∈ cs -> t_get (c_id c) (db_deliveries db) = Some d ->
    d_lease_token d = Some (c_lease_token c) -> d_attempt_count d = c_attempt_number c;
}.

Lemma holds_row token k n db :
  holds token k n (queue_of db) <-> exists d, t_get k (db_deliveries db) = Some d /\
    d_lease_token d = Some token /\ d_attempt_count d = n.
Proof.
  split.
  - intros (j & (d & Hd & ->)%queue_of_inv & Hh & Hn). by exists d.
  - intros (d & Hd & Hh & Hn). exists (job_of d). split; [by apply queue_of_lookup | done].
Qed.

(** A step that hands out none of the tokens in hand. *)
Lemma platform_ok_step (fresh : str -> Prop) db db' cs :
  platform_ok db cs -> implements settings leaving fresh db db' ->
  (forall c, c ∈ cs -> ~ fresh (c_lease_token c)) -> platform_ok db' cs.
Proof.
  intros [Hok Hnd Hn] [Hok' Hrun] Hf. split; [done | done |].
  intros c d Hc Hd Ht.
  destruct (queue_run_holds _ _ (c_lease_token c) (c_id c) (d_attempt_count d) _ _ Hrun)
    as [Hfresh|(d0 & Hd0 & Ht0 & <-)%holds_row].
  - apply holds_row. by exists d.
  - by destruct (Hf c Hc).
  - by apply Hn.
Qed.

Definition none : str -> Prop := fun _ => False.

Lemma platform_ok_none db db' cs :
  platform_ok db cs -> (plane_ok settings db -> implements settings leaving none db db') ->
  platform_ok db' cs.
Proof.
  intros Hok Hi. eapply platform_ok_step; [done | apply Hi, Hok | by intros c _ []].
Qed.

(** What a claim returns. *)
Lemma claim_result now unlocked uuid limit db l db' :
  limits_ok settings -> plane_ok settings db ->
  run (claim_due settings now unlocked uuid limit) db = (Ok l, db') ->
  (forall n c, l !! n = Some c -> c_lease_token c = uuid n) /\
  (forall c d, c ∈ l -> t_get (c_id c) (db_deliveries db') = Some d ->
     d_attempt_count d = c_attempt_number c).
Proof.
  intros L Hok Hr. destruct (Z.leb_spec limit 0) as [Hl|Hl].
  { unfold claim_due in Hr. destruct (Z.leb_spec limit 0); [| lia].
    assert (l = []) as -> by (unfold run in Hr; cbn in Hr; congruence).
    split; [done |]. intros c d Hc. by apply not_elem_of_nil in Hc. }
  destruct (claim_due_run settings now unlocked uuid limit db L (pl_deliveries _ _ Hok) Hl)
    as (ds & db1 & Hsel & _ & Hrun).
  rewrite Hrun in Hr. injection Hr as <- <-. split.
  - intros n c (d & ee & Hd & _ & ->)%claims_for_lookup. done.
  - intros c d' [n Hc]%list_elem_of_lookup Hd'.
    apply claims_for_lookup in Hc as (d & ee & Hd & _ & ->). revert Hd'. upd_simpl.
    change (c_id (claim_for settings now uuid (0 + n) d ee)) with (d_id d).
    rewrite (lease_rows_get settings now uuid 0 ds _ n d); [| by eapply so_nodup | done].
    by intros [= <-].
Qed.

Lemma claim_keeps_ok now unlocked uuid limit db cs l db' :
  limits_ok settings -> platform_ok db cs ->
  (forall n, unheard_of db cs (uuid n)) -> Inj eq eq uuid ->
  run (claim_due settings now unlocked uuid limit) db = (Ok l, db') -> platform_ok db' (cs ++ l).
Proof.
  intros L Hok Hun Hinj Hr. pose proof Hok as [Hp Hnd _].
  destruct (claim_result now unlocked uuid limit db l db' L Hp Hr) as [Htok Hnum].
  pose proof (claim_implements settings leaving (fun t => exists n, t = uuid n) now unlocked uuid
    limit db _ db' L Hp (fun n => ex_intro _ n eq_refl) Hr) as Hi.
  assert (platform_ok db' cs) as [Hp' _ Hn'].
  { eapply platform_ok_step; [done | exact Hi |]. intros c Hc [n Hn].
    by apply (proj2 (Hun n) c). }
  split; [done | | intros c d [Hc|Hc]%elem_of_app; [by apply Hn' | intros; by apply Hnum]].
  rewrite map_app. apply NoDup_app. split; [done |]. split.
  - intros t (c & -> & Hc)%list_elem_of_fmap (c' & E & Hc')%list_elem_of_fmap.
    apply list_elem_of_lookup in Hc' as [n Hc']. rewrite (Htok n c' Hc') in E.
    by apply (proj2 (Hun n) c).
  - apply NoDup_alt. intros i j t. change (map c_lease_token l) with (c_lease_token <$> l).
    rewrite !list_lookup_fmap.
    intros (c & Hi' & ->)%fmap_Some (c' & Hj & E)%fmap_Some.
    rewrite (Htok i c Hi'), (Htok j c' Hj) in E. by apply Hinj.
Qed.

Lemma drop_keeps_ok db cs cs' : platform_ok db cs -> sublist cs' cs -> platform_ok db cs'.
Proof.
  intros [Hp Hnd Hn] Hsub. split; [done | |].
  - eapply sublist_NoDup; [exact Hnd |]. exact (fmap_sublist c_lease_token _ _ Hsub).
  - intros c d Hc. apply Hn. revert Hc. by apply sublist_subseteq.
Qed.

(** A reachable state, and the run of the queue that leads there. *)
Record progress (db0 db : Db) (cs : list ClaimedDelivery) : Prop := {
  pg_ok : platform_ok db cs;
  pg_run : queue_run leaving (fun _ => True) (queue_of db0) (queue_of db);
}.

Lemma progress_step (fresh : str -> Prop) db0 db db' cs cs' :
  progress db0 db cs -> (plane_ok settings db -> implements settings leaving fresh db db') ->
  platform_ok db' cs' -> progress db0 db' cs'.
Proof.
  intros [Hok Hrun] Hi Hok'. split; [done |]. etrans; [exact Hrun |].
  eapply (queue_run_mono leaving fresh); [done |]. apply Hi, Hok.
Qed.

Lemma progress_none db0 db db' cs :
  progress db0 db cs -> (plane_ok settings db -> implements settings leaving none db db') ->
  progress db0 db' cs.
Proof.
  intros Hp Hi. eapply progress_step; [done | exact Hi |].
  eapply platform_ok_none; [apply Hp | exact Hi].
Qed.

Ltac no_tokens lem :=
  eapply progress_none; [eassumption | intros Hp; eapply lem; eassumption].

Lemma operate_progress uuid now others user project_id endpoint_id change action metadata
    db0 db cs v db' :
  (forall q, quota_ok settings q -> quota_ok settings (change q)) ->
  progress db0 (others db) cs ->
  run (operate unicode_alnum uuid now others user project_id endpoint_id change action metadata) db
    = (Ok v, db') ->
  progress db0 db' cs.
Proof. intros Hch Hp Hr. eapply progress_none; [done |]. intros Hok. by eapply operate_implements. Qed.

Lemma reach_progress db0 cs0 db cs :
  limits_ok settings -> platform_ok db0 cs0 -> reach db0 cs0 db cs -> progress db0 db cs.
Proof.
  intros L H0. induction 1; [by split | ..].
  - no_tokens implements_frame.
  - eapply (progress_step (fun t => exists n, t = uuid n)); [eassumption | |].
    + intros Hp. eapply claim_implements; [done | done | | eassumption]. by eexists.
    + eapply claim_keeps_ok; [done | | done ..]. by eapply pg_ok.
  - destruct IHreach as [Hok Hrun]. split; [by eapply drop_keeps_ok | done].
  - no_tokens renew_implements.
  - no_tokens release_implements.
  - eapply progress_none; [eassumption | intros Hp]. eapply finalize_implements; try eassumption.
    intros d. by apply (po_numbers _ _ (pg_ok _ _ _ IHreach)).
  - no_tokens ingest_implements.
  - no_tokens replay_implements.
  - no_tokens bulk_replay_implements.
  - no_tokens cancel_implements.
  - no_tokens purge_implements.
  - no_tokens purge_payloads_implements.
  - no_tokens purge_responses_implements.
  - no_tokens cleanup_implements.
  - no_tokens create_endpoint_implements.
  - eapply operate_progress; [apply paused_ok | eassumption ..].
  - eapply operate_progress; [apply resumed_ok | eassumption ..].
  - eapply operate_progress; [by intros q; apply recovered_ok | eassumption ..].
Qed.
End System.

(** ** A deployment at work *)

Module SystemDemo.
Definition uuid (n : nat) : str := [200 + Z.of_nat n].
Definition all : Z -> bool := fun _ => true.
Definition queued_db : Db := DataDemo.accepted_db.

Definition claiming :=
  run (@claim_due exact_rounding default_settings 20 all uuid 5) queued_db.
Definition claims : list ClaimedDelivery := match claiming.1 with Ok l => l | Raise _ => [] end.
Definition leased_db : Db := claiming.2.
Lemma claiming_ok :
  run (@claim_due exact_rounding default_settings 20 all uuid 5) queued_db = (Ok claims, leased_db).
Proof. unfold claims, leased_db. vm_compute. reflexivity. Qed.

Definition claim : ClaimedDelivery :=
  match claims with
  | c :: _ => c
  | [] => claim_of (Demo.delivery 0 0 0 0 0) DataDemo.event [] []
  end.
Definition row : Delivery := match t_get 1 (db_deliveries leased_db) with
  | Some d => d | None => Demo.delivery 0 0 0 0 0 end.
Lemma in_hand : claims = [claim].
Proof. vm_compute. reflexivity. Qed.
Lemma in_charge : select_delivery claim (owns claim 30) leased_db = Some row.
Proof. vm_compute. reflexivity. Qed.

Lemma start_ok : platform_ok default_settings DataDemo.db [].
Proof.
  split; [apply DataDemo.plane | constructor |]. intros c d Hc. by apply not_elem_of_nil in Hc.
Qed.

(** Any deployment whose deliveries nobody has claimed. *)
Lemma unclaimed k d : t_get k (db_deliveries queued_db) = Some d -> d_lease_token d = None.
Proof.
  enough (map_Forall (fun _ d => d_lease_token d = None) (rows (db_deliveries queued_db))) as Hall
    by apply Hall.
  refine (bool_decide_unpack _ _). vm_compute. exact I.
Qed.

Abbreviation reached := (reach (H := exact_rounding) default_settings (fun _ => false) (fun _ => False)
  (fun _ => None) (fun _ => None) (fun _ _ => None) DataDemo.db []).

Lemma queued : reached queued_db [].
Proof.
  eapply (re_ingest default_settings (fun _ => false) (fun _ => False) (fun _ => None) (fun _ => None)
    (fun _ _ => None) DataDemo.db [] DataDemo.uuid 10 id (None, None) TenancyDemo.project
    (py "key") (py "order.paid") DataDemo.payload (py "native") DataDemo.db [] []
    DataDemo.event); [apply re_start | apply re_start | | exact DataDemo.first_accepted].
  intros E. pose proof (f_equal (fun db => seq (db_deliveries db)) E) as Hs. vm_compute in Hs. done.
Qed.

Lemma at_work : reached leased_db [claim].
Proof.
  rewrite <- in_hand.
  apply (re_claim default_settings (fun _ => false) (fun _ => False) (fun _ => None) (fun _ => None)
    (fun _ _ => None) DataDemo.db [] 20 all uuid 5 queued_db [] claims leased_db);
    [exact queued | | | exact claiming_ok].
  - intros n. split.
    + intros k d Hd. by rewrite (unclaimed k d Hd).
    + intros c Hc. by apply not_elem_of_nil in Hc.
  - intros m n [= E]. lia.
Qed.
End SystemDemo.

(** ** Claims *)



(** C10: one owner, one outcome.  In every reachable state at most one of the
    claims in the workers' hands owns a delivery; its owner can always record
    the outcome of the attempt; and from then on none of the claims in hand can
    record another outcome for that delivery or extend its lease. *)
Theorem one_outcome_per_lease `{Rounding} settings unicode_alnum leaving urlsplit ip_address getaddrinfo
    db0 cs0 db cs c d finished :
  limits_ok settings -> platform_ok settings db0 cs0 ->
  reach settings unicode_alnum leaving urlsplit ip_address getaddrinfo db0 cs0 db cs ->
  c ∈ cs -> select_delivery c (owns c finished) db = Some d ->
  (forall c' now, c' ∈ cs -> select_delivery c' (owns c' now) db = Some d -> c' = c) /\
  forall started r u, exists db',
    run (finalize settings c started r finished u) db = (Ok true, db') /\
    reach settings unicode_alnum leaving urlsplit ip_address getaddrinfo db0 cs0 db' cs /\
    forall c' now started' r' u', c' ∈ cs -> c_id c' = c_id c ->
      run (finalize settings c' started' r' now u') db' = (Ok false, db') /\
      run (renew_lease settings now c') db' = (Ok false, db').
Proof.
  intros L H0 Hreach Hc Hsel. pose proof (reach_progress _ _ _ _ _ _ _ _ _ _ L H0 Hreach) as [Hok _].
  pose proof Hok as [Hp Hnd Hnum]. pose proof (pl_deliveries _ _ Hp) as Hdel.
  pose proof Hsel as Hsel'. apply select_delivery_some in Hsel' as [Hd (Hst & Ht & _)%owns_spec].
  split.
  - intros c' now Hc' Hsel'. apply select_delivery_some in Hsel' as [_ (_ & Ht' & _)%owns_spec].
    apply (NoDup_map_inj c_lease_token cs); [done | done | done | congruence].
  - intros started r u.
    pose proof (dbo_keyed _ _ Hdel _ _ Hd) as Hid.
    destruct (dbo_leased_quota _ _ Hdel _ _ Hd Hst) as [q Hq].
    assert (attempt_recorded (d_id d) (c_attempt_number c) db = false) as Ha.
    { rewrite <- (Hnum c d Hc Hd Ht). apply (not_recorded settings); [done | | done]. by rewrite Hid. }
    assert (run (finalize settings c started r finished u) db
      = (Ok true, finalized_db settings c d q started r finished u db)) as Hrun
      by by rewrite finalize_run, Hsel, Hq, Ha.
    eexists. split; [exact Hrun |]. split; [by eapply re_finalize |].
    intros c' now started' r' u' _ Hid'. rewrite finalize_run, renew_lease_run.
    destruct (select_delivery c' (owns c' now) _) as [d'|] eqn:E; [exfalso | done].
    apply select_delivery_some in E as [Hd' (_ & Ht' & _)%owns_spec].
    rewrite Hid', <- Hid in Hd'. by rewrite (finalized_unleased settings c d q _ _ _ _ _ _ Hd') in Ht'.
Qed.

Lemma one_outcome_per_lease_witness :
  exists db', run (@finalize exact_rounding default_settings SystemDemo.claim 20
                     (refused_unsent (py "x")) 30 0) SystemDemo.leased_db = (Ok true, db').
Proof.
  destruct (proj2 (one_outcome_per_lease (H := exact_rounding) default_settings (fun _ => false)
    (fun _ => False) (fun _ => None) (fun _ => None) (fun _ _ => None) DataDemo.db []
    SystemDemo.leased_db [SystemDemo.claim] SystemDemo.claim SystemDemo.row 30 Demo.limits
    SystemDemo.start_ok SystemDemo.at_work ltac:(left) SystemDemo.in_charge) 20
    (refused_unsent (py "x")) 0%Q) as (db' & Hrun & _).
  exists db'. exact Hrun.
Defined.


