(* ===== verification/WorkerLoop.v ===== *)
(** * The worker's loop

    [run_delivery_loop] of [src/app/worker.py] with the tasks it starts, as
    transitions between its await points.  The stop signal, the tasks and the
    rest of the platform move between any two of them.  A database that cannot
    be reached shows as a call that raises. *)

From Stdlib Require Import QArith.
From stdpp Require Import base tactics list gmap strings numbers option relations.
From S2P Require Import Prelude Json Models Session Settings Scheduling Delivery WorkerSafety EventSafety Queue Platform.
Local Open Scope Z_scope.

(** ** Tasks *)

(** Where [_run_claim] is: in [deliver], in the handler of an unexpected error,
    in the handler of a cancellation, or at its end. *)
Inductive phase : Type := Delivering | Releasing | Canceling | Ended.

(** What became of a claim: an outcome was recorded, the delivery was given
    back, the lease was found to be gone at that time, the row to be somebody
    else's, or giving it back failed. *)
Inductive disposition : Type :=
| Finalized | GivenBack | LeaseGone (at_ : datetime) | Superseded | Abandoned.

#[export] Instance phase_eq_dec : EqDecision phase.
Proof. solve_decision. Defined.

Section Worker.
Context `{Rounding} (settings : Settings) (leaving : Z -> Prop).
Implicit Types (db : Db) (c : ClaimedDelivery).

Definition given_back (b : bool) : disposition := if b then GivenBack else Superseded.

(** The transactions of a task.  A heartbeat may still be under way when the
    task is canceled.  The release after a cancellation is shielded. *)
Inductive task_step (db : Db) (c : ClaimedDelivery) : phase -> Db -> phase -> option disposition -> Prop :=
| ts_renewed now p db' : p = Delivering \/ p = Canceling ->
    run (renew_lease settings now c) db = (Ok true, db') -> task_step db c p db' p None
| ts_lost now db' : run (renew_lease settings now c) db = (Ok false, db') ->
    task_step db c Delivering db' Ended (Some (LeaseGone now))
| ts_finalized started r finished u db' :
    run (finalize settings c started r finished u) db = (Ok true, db') ->
    task_step db c Delivering db' Ended (Some Finalized)
| ts_stale started r finished u db' :
    run (finalize settings c started r finished u) db = (Ok false, db') ->
    task_step db c Delivering db' Ended (Some (LeaseGone finished))
| ts_error : task_step db c Delivering db Releasing None
| ts_released now p b db' : p = Releasing \/ p = Canceling ->
    run (release_claim now c) db = (Ok b, db') -> task_step db c p db' Ended (Some (given_back b))
| ts_release_failed p : p = Releasing \/ p = Canceling -> task_step db c p db Ended (Some Abandoned).

(** ** The loop *)

Abbreviation task := (ClaimedDelivery * phase)%type.

(** The test of the loop, the call of [claim_due], its return, the claims
    given back after a stop, the wait for work, and the [finally] block: the
    grace period, the wait for the canceled tasks, and the return.  [raised]
    tells whether an exception is on its way. *)
Inductive point : Type :=
| Top | Ask (limit : Z) | Claimed (claims : list ClaimedDelivery)
| GivingBack (claims : list ClaimedDelivery) | Waiting
| Draining (raised : bool) | Cancelled (raised : bool) | Returned (raised : bool).

(** [w_taken] and [w_log] remember what [claim_due] returned and what became of
    it.  [w_background] holds the releases that go on after one of them raised:
    [asyncio.gather] does not wait for them. *)
Record worker : Type := Worker {
  w_db : Db;
  w_stop : bool;
  w_point : point;
  w_tasks : list task;
  w_background : list ClaimedDelivery;
  w_taken : list ClaimedDelivery;
  w_log : list (ClaimedDelivery * disposition);
}.

Definition live (t : task) : bool := negb (bool_decide (t.2 = Ended)).
Definition running (ts : list task) : list task := filter (fun t => Is_true (live t)) ts.

Definition available (ts : list task) : Z := worker_concurrency settings - len (running ts).

(** [task.cancel()] on what is pending after the grace period: a delivery
    turns to its release, a release under way is interrupted. *)
Definition cancel (t : task) : task :=
  match t.2 with Delivering => (t.1, Canceling) | Releasing => (t.1, Ended) | _ => t end.
Definition interrupted (ts : list task) : list (ClaimedDelivery * disposition) :=
  (fun t => (t.1, Abandoned)) <$> filter (fun t => t.2 = Releasing) ts.

Definition noted (c : ClaimedDelivery) (o : option disposition) : list (ClaimedDelivery * disposition) :=
  match o with Some o => [(c, o)] | None => [] end.

Inductive worker_step : worker -> worker -> Prop :=
(* the world *)
| ws_stop db stop pt ts bg tk lg :
    worker_step (Worker db stop pt ts bg tk lg) (Worker db true pt ts bg tk lg)
| ws_world fresh db db' stop pt ts bg tk lg :
    implements settings leaving fresh db db' -> (forall c, c ∈ tk -> ~ fresh (c_lease_token c)) ->
    worker_step (Worker db stop pt ts bg tk lg) (Worker db' stop pt ts bg tk lg)
| ws_task c p db' p' o db stop pt l1 l2 bg tk lg :
    task_step db c p db' p' o ->
    worker_step (Worker db stop pt (l1 ++ (c, p) :: l2) bg tk lg)
      (Worker db' stop pt (l1 ++ (c, p') :: l2) bg tk (lg ++ noted c o))
| ws_background c now b db' db stop pt ts l1 l2 tk lg :
    run (release_claim now c) db = (Ok b, db') ->
    worker_step (Worker db stop pt ts (l1 ++ c :: l2) tk lg)
      (Worker db' stop pt ts (l1 ++ l2) tk (lg ++ [(c, given_back b)]))
| ws_background_failed c db stop pt ts l1 l2 tk lg :
    worker_step (Worker db stop pt ts (l1 ++ c :: l2) tk lg)
      (Worker db stop pt ts (l1 ++ l2) tk (lg ++ [(c, Abandoned)]))
(* the loop *)
| ws_leave db ts bg tk lg :
    worker_step (Worker db true Top ts bg tk lg) (Worker db true (Draining false) ts bg tk lg)
| ws_ask db ts bg tk lg : 0 < available ts ->
    worker_step (Worker db false Top ts bg tk lg)
      (Worker db false (Ask (Z.min (worker_batch_size settings) (available ts))) (running ts) bg tk lg)
| ws_full db ts bg tk lg : available ts <= 0 ->
    worker_step (Worker db false Top ts bg tk lg) (Worker db false Waiting (running ts) bg tk lg)
| ws_claim now unlocked uuid limit claims db db' stop ts bg tk lg :
    (forall n, unheard_of db tk (uuid n)) -> Inj eq eq uuid ->
    run (claim_due settings now unlocked uuid limit) db = (Ok claims, db') ->
    worker_step (Worker db stop (Ask limit) ts bg tk lg)
      (Worker db' stop (Claimed claims) ts bg (tk ++ claims) lg)
| ws_claim_failed limit db stop ts bg tk lg :
    worker_step (Worker db stop (Ask limit) ts bg tk lg) (Worker db stop (Draining true) ts bg tk lg)
| ws_start claims db ts bg tk lg :
    worker_step (Worker db false (Claimed claims) ts bg tk lg)
      (Worker db false (if bool_decide (claims = []) then Waiting else Top)
         (ts ++ ((., Delivering) <$> claims)) bg tk lg)
| ws_give_back claims db ts bg tk lg :
    worker_step (Worker db true (Claimed claims) ts bg tk lg)
      (Worker db true (GivingBack claims) ts bg tk lg)
| ws_given c now b db db' l1 l2 stop ts bg tk lg :
    run (release_claim now c) db = (Ok b, db') ->
    worker_step (Worker db stop (GivingBack (l1 ++ c :: l2)) ts bg tk lg)
      (Worker db' stop (GivingBack (l1 ++ l2)) ts bg tk (lg ++ [(c, given_back b)]))
| ws_give_failed c db l1 l2 stop ts bg tk lg :
    worker_step (Worker db stop (GivingBack (l1 ++ c :: l2)) ts bg tk lg)
      (Worker db stop (Draining true) ts (bg ++ l1 ++ l2) tk (lg ++ [(c, Abandoned)]))
| ws_all_given db stop ts bg tk lg :
    worker_step (Worker db stop (GivingBack []) ts bg tk lg)
      (Worker db stop (Draining false) ts bg tk lg)
| ws_wake db stop ts bg tk lg :
    worker_step (Worker db stop Waiting ts bg tk lg) (Worker db stop Top ts bg tk lg)
(* its [finally] block *)
| ws_drained raised db stop ts bg tk lg : running ts = [] ->
    worker_step (Worker db stop (Draining raised) ts bg tk lg)
      (Worker db stop (Returned raised) ts bg tk lg)
| ws_cancel raised db stop ts bg tk lg :
    worker_step (Worker db stop (Draining raised) ts bg tk lg)
      (Worker db stop (Cancelled raised) (cancel <$> ts) bg tk (lg ++ interrupted ts))
| ws_gathered raised db stop ts bg tk lg : running ts = [] ->
    worker_step (Worker db stop (Cancelled raised) ts bg tk lg)
      (Worker db stop (Returned raised) ts bg tk lg).

(** [run_delivery_loop] before its first turn *)
Definition new_worker (db : Db) : worker := Worker db false Top [] [] [] [].

(** ** What the worker owes *)

(** The row still carries the claim's token. *)
Definition held (c : ClaimedDelivery) (db : Db) : Prop :=
  exists d, t_get (c_id c) (db_deliveries db) = Some d /\ d_lease_token d = Some (c_lease_token c).

(** The dispositions after which the row is not the worker's any more *)
Definition closes (o : disposition) : bool :=
  match o with Finalized | GivenBack | Superseded => true | LeaseGone _ | Abandoned => false end.

Definition point_claims (pt : point) : list ClaimedDelivery :=
  match pt with Claimed l | GivingBack l => l | _ => [] end.

(** The claims whose end is still to come *)
Definition in_hand (pt : point) (ts : list task) (bg : list ClaimedDelivery) : list ClaimedDelivery :=
  point_claims pt ++ (running ts).*1 ++ bg.

(** The slots that are spoken for *)
Definition reserved (pt : point) : Z :=
  match pt with Ask n => n | Claimed l => len l | _ => 0 end.

Definition raising (pt : point) : bool :=
  match pt with Draining r | Cancelled r | Returned r => r | _ => false end.

Record worker_ok (w : worker) : Prop := {
  wo_platform : platform_ok settings (w_db w) (w_taken w);
  wo_account : in_hand (w_point w) (w_tasks w) (w_background w) ++ (w_log w).*1 ≡ₚ w_taken w;
  wo_settled : forall c o, (c, o) ∈ w_log w -> closes o = true -> ~ held c (w_db w);
  wo_slots : len (w_tasks w) + Z.max 0 (reserved (w_point w)) <= worker_concurrency settings;
  wo_background : raising (w_point w) = false -> w_background w = [];
  wo_returned : forall r, w_point w = Returned r -> running (w_tasks w) = [];
}.

Lemma held_holds c db : held c db <-> exists n, holds (c_lease_token c) (c_id c) n (queue_of db).
Proof.
  split.
  - intros (d & Hd & Ht). exists (d_attempt_count d). apply holds_row. by exists d.
  - intros [n (d & Hd & Ht & _)%holds_row]. by exists d.
Qed.

(** Nobody gets a token back. *)
Lemma held_back fresh c db db' :
  implements settings leaving fresh db db' -> ~ fresh (c_lease_token c) -> held c db' -> held c db.
Proof.
  intros [_ Hrun] Hf [n Hn]%held_holds. apply held_holds. exists n.
  by destruct (queue_run_holds _ _ _ _ _ _ _ Hrun Hn).
Qed.

Lemma released_not_held now c db b db' :
  plane_ok settings db -> run (release_claim now c) db = (Ok b, db') -> ~ held c db'.
Proof.
  intros Hok. rewrite release_claim_run. destruct (select_delivery _ _ _) as [d|] eqn:E.
  - intros [= <- <-] (d' & Hd' & Ht'). apply select_delivery_some in E as [Hd _].
    unfold set_delivery in Hd'. revert Hd'. upd_simpl. rewrite t_get_set.
    rewrite <- (dbo_keyed _ _ (pl_deliveries _ _ Hok) _ _ Hd). cbn. rewrite decide_True by done.
    intros [= <-]. done.
  - intros [= <- <-] (d & Hd & Ht).
    assert (select_delivery c (holds_token c) db = Some d) as E'; [| congruence].
    apply select_delivery_some. split; [done |]. apply holds_token_spec. split; [| done].
    pose proof (do_token _ (dbo_rows _ _ (pl_deliveries _ _ Hok) _ _ Hd)) as Hs. rewrite Ht in Hs.
    unfold st_is in Hs. cbn in Hs. symmetry in Hs. by apply bool_decide_eq_true in Hs.
Qed.

Lemma finalized_not_held c started r finished u db db' :
  plane_ok settings db -> run (finalize settings c started r finished u) db = (Ok true, db') -> ~ held c db'.
Proof.
  intros Hok. rewrite finalize_run. destruct (select_delivery _ _ _) as [d|] eqn:E; [| done].
  destruct (db_quotas db !! _) as [q|]; [| done]. destruct (attempt_recorded _ _ _); [done |].
  intros [= <-] (d' & Hd' & Ht'). apply select_delivery_some in E as [Hd _].
  rewrite <- (dbo_keyed _ _ (pl_deliveries _ _ Hok) _ _ Hd) in Hd'.
  by rewrite (finalized_unleased _ _ _ _ _ _ _ _ _ _ Hd') in Ht'.
Qed.

Lemma running_app l1 l2 : running (l1 ++ l2) = running l1 ++ running l2.
Proof. apply filter_app. Qed.

Lemma running_cons c p l : running ((c, p) :: l) = if live (c, p) then (c, p) :: running l else running l.
Proof. unfold running. rewrite filter_cons. by destruct (live (c, p)). Qed.

Lemma running_twice ts : running (running ts) = running ts.
Proof. induction ts as [| [c p] ts IH]; [done |]. rewrite running_cons. destruct (live (c, p)) eqn:E; [| done]. by rewrite running_cons, E, IH. Qed.

Lemma running_size ts : len (running ts) <= len ts.
Proof. unfold len, running. pose proof (length_filter (fun t => Is_true (live t)) ts). lia. Qed.

Lemma running_started claims : running ((., Delivering) <$> claims) = (., Delivering) <$> claims.
Proof. induction claims as [| c l IH]; [done |]. cbn [fmap list_fmap]. by rewrite running_cons, IH. Qed.

(** Every step but a claim is an instance of this one: the claims in hand are
    those that were, less those that ended. *)
Lemma worker_ok_advance fresh db db' stop pt ts bg tk lg stop' pt' ts' bg' new :
  worker_ok (Worker db stop pt ts bg tk lg) ->
  implements settings leaving fresh db db' -> (forall c, c ∈ tk -> ~ fresh (c_lease_token c)) ->
  in_hand pt' ts' bg' ++ new.*1 ≡ₚ in_hand pt ts bg ->
  (forall c o, (c, o) ∈ new -> closes o = true -> ~ held c db') ->
  len ts' + Z.max 0 (reserved pt') <= worker_concurrency settings ->
  (raising pt' = false -> bg' = []) -> (forall r, pt' = Returned r -> running ts' = []) ->
  worker_ok (Worker db' stop' pt' ts' bg' tk (lg ++ new)).
Proof.
  intros [Hp Ha Hs _ _ _] Hi Hf Hh Hn Hl Hb Hr. cbn in *. split; cbn; [| | | done ..].
  - by eapply platform_ok_step.
  - rewrite fmap_app, <- Ha, <- Hh, <- !(assoc_L (++)). apply Permutation_app_head, Permutation_app_comm.
  - intros c o [Hc|Hc]%elem_of_app Ho; [| by eapply Hn].
    intros Hd. apply (Hs c o Hc Ho). eapply held_back; [exact Hi | apply Hf | done].
    rewrite <- Ha. apply elem_of_app. right. apply list_elem_of_fmap. by exists (c, o).
Qed.

Lemma worker_ok_quiet db stop pt ts bg tk lg stop' pt' ts' :
  worker_ok (Worker db stop pt ts bg tk lg) ->
  in_hand pt' ts' bg ≡ₚ in_hand pt ts bg ->
  len ts' + Z.max 0 (reserved pt') <= worker_concurrency settings ->
  (raising pt' = false -> bg = []) -> (forall r, pt' = Returned r -> running ts' = []) ->
  worker_ok (Worker db stop' pt' ts' bg tk lg).
Proof.
  intros Hok Hh Hl Hb Hr. rewrite <- (app_nil_r lg).
  eapply (worker_ok_advance none); [exact Hok | | by intros c _ [] | | | done ..].
  - apply implements_frame; [apply Hok | done ..].
  - by rewrite app_nil_r.
  - intros c o Hc. by apply not_elem_of_nil in Hc.
Qed.

Lemma task_step_sound db tk c p db' p' o :
  limits_ok settings -> platform_ok settings db tk -> c ∈ tk -> task_step db c p db' p' o ->
  implements settings leaving none db db' /\ p <> Ended /\
  (if live (c, p') then o = None else exists d, o = Some d /\ (closes d = true -> ~ held c db')).
Proof.
  intros L [Hok _ Hnum] Hc Hs.
  destruct Hs as [now p db' Hp Hr|now db' Hr|st r fi u db' Hr|st r fi u db' Hr| |now p b db' Hp Hr|p Hp].
  - split; [by eapply renew_implements |]. destruct Hp as [-> | ->]; done.
  - split; [by eapply renew_implements |]. split; [done |]. eexists. by split.
  - split; [by eapply finalize_implements; eauto |]. split; [done |]. eexists. split; [done |].
    intros _. by eapply finalized_not_held.
  - split; [by eapply finalize_implements; eauto |]. split; [done |]. eexists. by split.
  - split; [by apply implements_frame |]. done.
  - split; [by eapply release_implements |]. split; [by destruct Hp as [-> | ->] |].
    eexists. split; [done |]. intros _. by eapply released_not_held.
  - split; [by apply implements_frame |]. split; [by destruct Hp as [-> | ->] |]. eexists. by split.
Qed.

Lemma task_ok c p db' p' o db stop pt l1 l2 bg tk lg :
  limits_ok settings -> worker_ok (Worker db stop pt (l1 ++ (c, p) :: l2) bg tk lg) ->
  task_step db c p db' p' o ->
  worker_ok (Worker db' stop pt (l1 ++ (c, p') :: l2) bg tk (lg ++ noted c o)).
Proof.
  intros L Hok Hs. pose proof Hok as [Hp Ha _ Hl Hb Hr]. cbn in *.
  assert (live (c, p) = true) as Hlive.
  { destruct Hs as [? ? ? Hp'| | | | |? ? ? ? Hp'|? Hp']; try done; by destruct Hp' as [-> | ->]. }
  assert (c ∈ tk) as Hc.
  { rewrite <- Ha. unfold in_hand. rewrite running_app, running_cons, Hlive, !fmap_app. cbn. set_solver. }
  destruct (task_step_sound _ _ _ _ _ _ _ L Hp Hc Hs) as (Hi & _ & Ho).
  eapply worker_ok_advance; [exact Hok | exact Hi | by intros ? _ [] | | | | done |].
  - unfold in_hand. rewrite !running_app, !running_cons, Hlive, !fmap_app. cbn [fmap list_fmap].
    destruct (live (c, p')) eqn:E; [subst o; by rewrite app_nil_r |]. destruct Ho as (d & -> & _).
    cbn [noted fmap list_fmap fst]. rewrite <- !(assoc_L (++)). do 2 apply Permutation_app_head.
    rewrite (assoc_L (++)). symmetry. apply Permutation_cons_append.
  - destruct (live (c, p')) eqn:E; [subst o; intros ? ? Hn; by apply not_elem_of_nil in Hn |].
    destruct Ho as (d & -> & Hd). intros c' o' Hn. apply list_elem_of_singleton in Hn as [= -> ->]. done.
  - unfold len in *. rewrite length_app in *. cbn in *. lia.
  - intros r Hpt. specialize (Hr r Hpt). rewrite running_app, running_cons, Hlive in Hr.
    apply app_eq_nil in Hr as [_ Hr]. done.
Qed.

(** A claim that is given back, from the list [l1 ++ c :: l2]. *)
Lemma release_ok c now b db' db stop pt ts bg tk lg pt' bg' :
  worker_ok (Worker db stop pt ts bg tk lg) -> c ∈ tk ->
  run (release_claim now c) db = (Ok b, db') ->
  in_hand pt' ts bg' ++ [c] ≡ₚ in_hand pt ts bg ->
  reserved pt' <= Z.max 0 (reserved pt) ->
  (raising pt' = false -> bg' = []) -> (forall r, pt' = Returned r -> pt = Returned r) ->
  worker_ok (Worker db' stop pt' ts bg' tk (lg ++ [(c, given_back b)])).
Proof.
  intros Hok Hc Hr Hh Hres Hb Hret. pose proof Hok as [[Hp _ _] _ _ Hl _ Hr0]. cbn in *.
  eapply (worker_ok_advance none); [exact Hok | by eapply release_implements | by intros ? _ [] | done | | lia | done |].
  - intros c' o' [= -> ->]%list_elem_of_singleton _. by eapply released_not_held.
  - intros r E. by eapply Hr0, Hret.
Qed.

Lemma abandon_ok c db stop pt ts bg tk lg pt' bg' :
  worker_ok (Worker db stop pt ts bg tk lg) ->
  in_hand pt' ts bg' ++ [c] ≡ₚ in_hand pt ts bg ->
  reserved pt' <= Z.max 0 (reserved pt) ->
  (raising pt' = false -> bg' = []) -> (forall r, pt' = Returned r -> pt = Returned r) ->
  worker_ok (Worker db stop pt' ts bg' tk (lg ++ [(c, Abandoned)])).
Proof.
  intros Hok Hh Hres Hb Hret. pose proof Hok as [[Hp _ _] _ _ Hl _ Hr0]. cbn in *.
  eapply (worker_ok_advance none); [exact Hok | by apply implements_frame | by intros ? _ [] | done | | lia | done |].
  - by intros c' o' [= -> ->]%list_elem_of_singleton.
  - intros r E. by eapply Hr0, Hret.
Qed.

Lemma cancel_ok raised db stop ts bg tk lg :
  worker_ok (Worker db stop (Draining raised) ts bg tk lg) ->
  worker_ok (Worker db stop (Cancelled raised) (cancel <$> ts) bg tk (lg ++ interrupted ts)).
Proof.
  intros Hok. pose proof Hok as [[Hp _ _] _ _ Hl Hb _]. cbn in *.
  eapply (worker_ok_advance none); [exact Hok | by apply implements_frame | by intros ? _ [] | | | | done | done].
  - unfold in_hand. cbn [point_claims app]. rewrite <- (assoc_L (++)), (Permutation_app_comm bg).
    rewrite (assoc_L (++)). apply Permutation_app_tail. clear.
    induction ts as [| [c p] ts IH]; [done |]. unfold interrupted. cbn [fmap list_fmap].
    rewrite running_cons, filter_cons. unfold interrupted in IH.
    destruct p; cbn [cancel fst snd]; rewrite running_cons; case_decide as E; try discriminate E; try done;
      cbn [fmap list_fmap app].
    + change (live (c, Canceling)) with true. change (live (c, Delivering)) with true. by apply Permutation_skip.
    + change (live (c, Ended)) with false. change (live (c, Releasing)) with true.
      rewrite <- Permutation_middle. by apply Permutation_skip.
    + change (live (c, Canceling)) with true. by apply Permutation_skip.
  - unfold interrupted. intros c o ([c' p] & E & _)%list_elem_of_fmap. by injection E as -> ->.
  - unfold len in *. by rewrite length_fmap.
Qed.

Lemma hand_taken w c : worker_ok w -> c ∈ in_hand (w_point w) (w_tasks w) (w_background w) -> c ∈ w_taken w.
Proof. intros Hok Hc. rewrite <- (wo_account _ Hok). apply elem_of_app. by left. Qed.

Lemma claim_ok now unlocked uuid limit claims db db' stop ts bg tk lg :
  limits_ok settings -> worker_ok (Worker db stop (Ask limit) ts bg tk lg) ->
  (forall n, unheard_of db tk (uuid n)) -> Inj eq eq uuid ->
  run (claim_due settings now unlocked uuid limit) db = (Ok claims, db') ->
  worker_ok (Worker db' stop (Claimed claims) ts bg (tk ++ claims) lg).
Proof.
  intros L [Hp Ha Hs Hl Hb _] Hu Hinj Hr. cbn in *. pose proof Hp as [Hplane _ _]. split; cbn; [| | | | done | done].
  - by eapply claim_keeps_ok.
  - rewrite <- Ha. unfold in_hand. cbn. rewrite <- !(assoc_L (++)). rewrite Permutation_app_comm. by rewrite <- !(assoc_L (++)).
  - intros c o Hc Ho Hd. apply (Hs c o Hc Ho).
    eapply (held_back (fun t => exists n, t = uuid n)); [| | exact Hd].
    + eapply claim_implements; [done | done | | exact Hr]. by eexists.
    + intros [n Hn]. refine (proj2 (Hu n) c _ Hn). rewrite <- Ha. apply elem_of_app. right.
      apply list_elem_of_fmap. by exists (c, o).
  - apply run_ok in Hr as (s & Hr & _). pose proof (pl_deliveries _ _ Hplane) as Hd.
    apply claim_due_size in Hr; [| done | apply Hd | apply Hd]. unfold len in *. lia.
Qed.

Ltac quietly_ok Hok :=
  eapply worker_ok_quiet; [exact Hok | try done | cbn; try lia | cbn; try done | cbn; try done].

Lemma worker_step_ok w w' : limits_ok settings -> worker_ok w -> worker_step w w' -> worker_ok w'.
Proof.
  intros L Hok Hs. pose proof (fun c => hand_taken w c Hok) as Hmem.
  destruct Hs; pose proof Hok as [Hp Ha _ Hl Hb Hr]; cbn in *.
  - by quietly_ok Hok.
  - rewrite <- (app_nil_r lg). eapply worker_ok_advance; [exact Hok | done | done | | | done ..].
    + by rewrite app_nil_r.
    + intros c o Hc. by apply not_elem_of_nil in Hc.
  - by eapply task_ok.
  - eapply release_ok; [exact Hok | apply Hmem; unfold in_hand; set_solver | done | | lia | | done].
    + unfold in_hand. rewrite <- !(assoc_L (++)). do 3 apply Permutation_app_head. symmetry. apply Permutation_cons_append.
    + intros Hn. specialize (Hb Hn). by apply app_eq_nil in Hb as [_ ?].
  - eapply abandon_ok; [exact Hok | | lia | | done].
    + unfold in_hand. rewrite <- !(assoc_L (++)). do 3 apply Permutation_app_head. symmetry. apply Permutation_cons_append.
    + intros Hn. specialize (Hb Hn). by apply app_eq_nil in Hb as [_ ?].
  - by quietly_ok Hok.
  - quietly_ok Hok.
    + unfold in_hand. by rewrite running_twice.
    + unfold available in *. pose proof (running_size ts). lia.
  - quietly_ok Hok.
    + unfold in_hand. by rewrite running_twice.
    + pose proof (running_size ts). lia.
  - by eapply claim_ok.
  - by quietly_ok Hok.
  - eapply worker_ok_quiet; [exact Hok | | | intros _; by apply Hb | by case_bool_decide].
    + unfold in_hand. rewrite running_app, running_started, fmap_app, <- list_fmap_compose. cbn [point_claims].
      replace (point_claims _) with (@nil ClaimedDelivery) by by case_bool_decide.
      rewrite (list_fmap_id claims : (fst ∘ (., Delivering)) <$> claims = claims). cbn [app]. rewrite (assoc_L (++) claims). apply Permutation_app_tail, Permutation_app_comm.
    + replace (reserved _) with 0 by by case_bool_decide. unfold len in *. rewrite length_app, length_fmap. lia.
  - by quietly_ok Hok; unfold len in *; lia.
  - eapply release_ok; [exact Hok | apply Hmem; unfold in_hand; cbn; set_solver | done | | cbn; lia | done | done].
    unfold in_hand. cbn [point_claims]. rewrite <- !(assoc_L (++)). apply Permutation_app_head.
    cbn. by rewrite (Permutation_cons_append (l2 ++ (running ts).*1 ++ bg) c), <- !(assoc_L (++)).
  - eapply abandon_ok; [exact Hok | | cbn; lia | done | done].
    unfold in_hand. cbn [point_claims app]. rewrite (Hb eq_refl). cbn. rewrite !app_nil_r.
    etrans; [symmetry; apply Permutation_cons_append |]. rewrite <- Permutation_middle.
    apply Permutation_skip, Permutation_app_comm.
  - by quietly_ok Hok.
  - by quietly_ok Hok.
  - by quietly_ok Hok.
  - by apply cancel_ok.
  - by quietly_ok Hok.
Qed.

(** ** Stopping *)

(** What is owed is paid: every end in the list closes its claim. *)
Definition all_close (l : list (ClaimedDelivery * disposition)) : Prop := Forall (fun x => closes x.2 = true) l.

Lemma given_back_closes b : closes (given_back b) = true.
Proof. by destruct b. Qed.

Lemma release_runs now c db : exists b db', run (release_claim now c) db = (Ok b, db').
Proof. rewrite release_claim_run. case_match; by eexists _, _. Qed.

Lemma all_close_nil : all_close [].
Proof. by apply List.Forall_nil. Qed.

Lemma all_close_cons c b n : all_close n -> all_close ((c, given_back b) :: n).
Proof. intros Hn. apply List.Forall_cons; [apply given_back_closes | done]. Qed.

(** The releases under way come to their end. *)
Definition finish (t : task) : task :=
  match t.2 with Releasing | Canceling => (t.1, Ended) | _ => t end.

Lemma finish_releases ts : forall l0 db stop pt bg tk lg, exists db' new,
  rtc worker_step (Worker db stop pt (l0 ++ ts) bg tk lg)
    (Worker db' stop pt (l0 ++ (finish <$> ts)) bg tk (lg ++ new)) /\ all_close new.
Proof.
  induction ts as [| [c p] ts IH]; intros l0 db stop pt bg tk lg.
  { exists db, []. cbn. rewrite !app_nil_r. split; [done | apply all_close_nil]. }
  destruct (release_runs 0 c db) as (b & db1 & Hr).
  assert (exists db1 new, rtc worker_step (Worker db stop pt (l0 ++ (c, p) :: ts) bg tk lg)
    (Worker db1 stop pt (l0 ++ finish (c, p) :: ts) bg tk (lg ++ new)) /\ all_close new) as (db2 & n1 & H1 & C1).
  { destruct p; cbn; [exists db, [] | exists db1, [(c, given_back b)] ..| exists db, []];
      rewrite ?app_nil_r; split; try done; try apply all_close_nil; try apply all_close_cons, all_close_nil.
    all: apply rtc_once, (ws_task c _ db1 Ended (Some (given_back b))), (ts_released _ _ 0); auto. }
  rewrite (cons_middle (finish (c, p))), (assoc_L (++)) in H1.
  destruct (IH (l0 ++ [finish (c, p)]) db2 stop pt bg tk (lg ++ n1)) as (db3 & n2 & H2 & C2).
  exists db3, (n1 ++ n2). split; [| by apply Forall_app].
  etrans; [exact H1 |]. rewrite <- !(assoc_L (++)) in H2. rewrite <- (assoc_L (++)) . exact H2.
Qed.

Lemma give_all l : forall db stop ts bg tk lg, exists db' new,
  rtc worker_step (Worker db stop (GivingBack l) ts bg tk lg)
    (Worker db' stop (GivingBack []) ts bg tk (lg ++ new)) /\ all_close new.
Proof.
  induction l as [| c l IH]; intros db stop ts bg tk lg.
  { exists db, []. cbn. rewrite !app_nil_r. split; [done | apply all_close_nil]. }
  destruct (release_runs 0 c db) as (b & db1 & Hr).
  destruct (IH db1 stop ts bg tk (lg ++ [(c, given_back b)])) as (db2 & n & H2 & C).
  exists db2, ((c, given_back b) :: n). rewrite <- (assoc_L (++)) in H2. split; [| by apply all_close_cons].
  eapply rtc_l; [| exact H2]. by apply (ws_given c 0 b db db1 [] l).
Qed.

Lemma background_all bg : forall db stop pt ts tk lg, exists db' new,
  rtc worker_step (Worker db stop pt ts bg tk lg) (Worker db' stop pt ts [] tk (lg ++ new)) /\ all_close new.
Proof.
  induction bg as [| c l IH]; intros db stop pt ts tk lg.
  { exists db, []. cbn. rewrite !app_nil_r. split; [done | apply all_close_nil]. }
  destruct (release_runs 0 c db) as (b & db1 & Hr).
  destruct (IH db1 stop pt ts tk (lg ++ [(c, given_back b)])) as (db2 & n & H2 & C).
  exists db2, ((c, given_back b) :: n). rewrite <- (assoc_L (++)) in H2. split; [| by apply all_close_cons].
  eapply rtc_l; [| exact H2]. by apply (ws_background c 0 b db1 db stop pt ts [] l).
Qed.

Definition stopped (t : task) : task := (t.1, Ended).

(** Any task can be brought to its end by giving its claim back. *)
Lemma end_all ts : forall l0 db stop pt bg tk lg, exists db' new,
  rtc worker_step (Worker db stop pt (l0 ++ ts) bg tk lg)
    (Worker db' stop pt (l0 ++ (stopped <$> ts)) bg tk (lg ++ new)) /\ all_close new.
Proof.
  induction ts as [| [c p] ts IH]; intros l0 db stop pt bg tk lg.
  { exists db, []. cbn. rewrite !app_nil_r. split; [done | apply all_close_nil]. }
  destruct (release_runs 0 c db) as (b & db1 & Hr).
  assert (exists db1 new, rtc worker_step (Worker db stop pt (l0 ++ (c, p) :: ts) bg tk lg)
    (Worker db1 stop pt (l0 ++ (c, Ended) :: ts) bg tk (lg ++ new)) /\ all_close new) as (db2 & n1 & H1 & C1).
  { assert (forall p', p' = Releasing \/ p' = Canceling ->
      rtc worker_step (Worker db stop pt (l0 ++ (c, p') :: ts) bg tk lg)
        (Worker db1 stop pt (l0 ++ (c, Ended) :: ts) bg tk (lg ++ [(c, given_back b)]))) as Hend.
    { intros p' Hp. apply rtc_once, (ws_task c _ db1 Ended (Some (given_back b))), (ts_released _ _ 0); auto. }
    destruct p; [exists db1, [(c, given_back b)] .. | exists db, []];
      (split; [| by first [apply all_close_nil | apply all_close_cons, all_close_nil]]).
    - eapply rtc_l; [| apply (Hend Releasing); auto]. rewrite <- (app_nil_r lg) at 2.
      apply (ws_task c Delivering db Releasing None). constructor.
    - auto.
    - auto.
    - by rewrite app_nil_r. }
  rewrite (cons_middle (c, Ended)), (assoc_L (++)) in H1.
  destruct (IH (l0 ++ [(c, Ended)]) db2 stop pt bg tk (lg ++ n1)) as (db3 & n2 & H2 & C2).
  exists db3, (n1 ++ n2). split; [| by apply Forall_app].
  etrans; [exact H1 |]. rewrite <- !(assoc_L (++)) in H2. rewrite <- (assoc_L (++)). exact H2.
Qed.

Lemma running_stopped ts : running (stopped <$> ts) = [].
Proof. induction ts as [| t ts IH]; [done |]. cbn [fmap list_fmap]. unfold stopped at 1. by rewrite running_cons. Qed.

Lemma nothing_interrupted ts : interrupted (finish <$> ts) = [].
Proof.
  unfold interrupted. induction ts as [| [c p] ts IH]; [done |]. cbn [fmap list_fmap]. rewrite filter_cons.
  by destruct p; cbn; case_decide.
Qed.

(** A state from which the worker is seen to return, with the ends it still
    brings about. *)
Definition can_return (w : worker) (raised : bool) : Prop := exists w' new,
  rtc worker_step w w' /\ w_point w' = Returned raised /\ w_background w' = [] /\
  w_log w' = w_log w ++ new /\ all_close new.

Lemma can_return_via w w1 new raised :
  rtc worker_step w w1 -> w_log w1 = w_log w ++ new -> all_close new -> can_return w1 raised -> can_return w raised.
Proof.
  intros Hs Hl Hc (w' & n & Hs' & Hp & Hb & Hl' & Hc'). exists w', (new ++ n).
  split; [by etrans |]. split; [done |]. split; [done |].
  split; [by rewrite Hl', Hl, (assoc_L (++)) | by apply Forall_app].
Qed.

Lemma can_return_step w w1 raised :
  worker_step w w1 -> w_log w1 = w_log w -> can_return w1 raised -> can_return w raised.
Proof.
  intros Hs Hl. apply (can_return_via _ _ []); [by apply rtc_once | by rewrite Hl, app_nil_r | apply all_close_nil].
Qed.

Lemma returned_returns raised db stop ts bg tk lg :
  can_return (Worker db stop (Returned raised) ts bg tk lg) raised.
Proof.
  destruct (background_all bg db stop (Returned raised) ts tk lg) as (db' & new & Hs & Hc).
  by exists (Worker db' stop (Returned raised) ts [] tk (lg ++ new)), new.
Qed.

Lemma cancelled_returns raised db stop ts bg tk lg :
  can_return (Worker db stop (Cancelled raised) ts bg tk lg) raised.
Proof.
  destruct (end_all ts [] db stop (Cancelled raised) bg tk lg) as (db' & new & Hs & Hc).
  eapply can_return_via; [exact Hs | done | done |].
  eapply can_return_step; [apply ws_gathered, running_stopped | done | apply returned_returns].
Qed.

Lemma draining_returns raised db stop ts bg tk lg :
  can_return (Worker db stop (Draining raised) ts bg tk lg) raised.
Proof.
  destruct (finish_releases ts [] db stop (Draining raised) bg tk lg) as (db' & new & Hs & Hc).
  eapply can_return_via; [exact Hs | done | done |].
  eapply can_return_step; [apply ws_cancel | cbn [w_log app]; by rewrite nothing_interrupted, app_nil_r |].
  apply cancelled_returns.
Qed.

Lemma giving_back_returns l db stop ts bg tk lg :
  can_return (Worker db stop (GivingBack l) ts bg tk lg) false.
Proof.
  destruct (give_all l db stop ts bg tk lg) as (db' & new & Hs & Hc).
  eapply can_return_via; [exact Hs | done | done |].
  eapply can_return_step; [apply ws_all_given | done | apply draining_returns].
Qed.

(** There are always tokens nobody has heard of. *)
Lemma fresh_tokens db (tk : list ClaimedDelivery) :
  exists uuid : nat -> str, (forall n, unheard_of db tk (uuid n)) /\ Inj eq eq uuid.
Proof.
  set (known := omap (fun d => d_lease_token d) (map_to_list (rows (db_deliveries db))).*2 ++ map c_lease_token tk).
  set (size := foldr (fun t n => (length t + n)%nat) 0%nat known).
  assert (forall t, t ∈ known -> (length t <= size)%nat) as Hsize.
  { unfold size. clear. induction known as [| u l IH]; intros t Ht; [by apply not_elem_of_nil in Ht |].
    cbn. apply elem_of_cons in Ht as [-> | Ht]; [lia |]. specialize (IH t Ht). lia. }
  exists (fun n => replicate (S (size + n)) 0). split.
  - intros n. split.
    + intros k d Hd Ht.
      assert (replicate (S (size + n)) 0 ∈ known) as Hk.
      { apply elem_of_app. left. apply list_elem_of_omap. exists d. split; [| done].
        apply list_elem_of_fmap. exists (k, d). split; [done |]. by apply elem_of_map_to_list. }
      apply Hsize in Hk. rewrite length_replicate in Hk. lia.
    + intros c Hc Ht. assert (replicate (S (size + n)) 0 ∈ known) as Hk.
      { apply elem_of_app. right. apply list_elem_of_fmap. by exists c. }
      apply Hsize in Hk. rewrite length_replicate in Hk. lia.
  - intros n m E. apply (f_equal length) in E. rewrite !length_replicate in E. lia.
Qed.

Lemma worker_returns w : limits_ok settings -> worker_ok w -> can_return w (raising (w_point w)).
Proof.
  intros L Hok. destruct w as [db stop pt ts bg tk lg]. pose proof (wo_platform _ Hok) as [Hplane _ _]. cbn in *.
  eapply can_return_step; [apply ws_stop | done |].
  assert (forall db tk, can_return (Worker db true Top ts bg tk lg) false) as Htop.
  { intros. eapply can_return_step; [apply ws_leave | done | apply draining_returns]. }
  assert (forall l db tk, can_return (Worker db true (Claimed l) ts bg tk lg) false) as Hclaimed.
  { intros. eapply can_return_step; [apply ws_give_back | done | apply giving_back_returns]. }
  destruct pt as [|limit|l|l| |r|r|r]; cbn;
    [by apply Htop | | by apply Hclaimed | apply giving_back_returns | | apply draining_returns
     | apply cancelled_returns | apply returned_returns].
  - destruct (fresh_tokens db tk) as (uuid & Hu & Hi).
    assert (exists l db', run (claim_due settings 0 (fun _ => true) uuid limit) db = (Ok l, db')) as (l & db' & Hr).
    { destruct (Z.leb_spec limit 0) as [Hl|Hl].
      - unfold claim_due. destruct (Z.leb_spec limit 0); [| lia]. by eexists _, _.
      - destruct (claim_due_run settings 0 (fun _ => true) uuid limit db L (pl_deliveries _ _ Hplane) Hl)
          as (ds & db1 & _ & _ & Hrun). by eexists _, _. }
    eapply can_return_step; [by eapply ws_claim | done | apply Hclaimed].
  - eapply can_return_step; [apply ws_wake | done | apply Htop].
Qed.

Lemma worker_steps_ok w w' :
  limits_ok settings -> worker_ok w -> rtc worker_step w w' -> worker_ok w'.
Proof. intros L Hok Hs. induction Hs; [done |]. eauto using worker_step_ok. Qed.

Lemma taken_grows w w' : rtc worker_step w w' -> w_taken w ⊆ w_taken w'.
Proof.
  induction 1 as [|w w1 w2 Hs _ IH]; [done |]. etrans; [| exact IH]. destruct Hs; cbn; set_solver.
Qed.

Lemma new_worker_ok db : fields_ok settings = true -> platform_ok settings db [] -> worker_ok (new_worker db).
Proof.
  unfold fields_ok. rewrite forallb_forall. unfold id. intros Hf Hp.
  field_fact Hf (1 <=? worker_concurrency settings). split; cbn; [done | done | | unfold len; cbn; lia | done | done].
  intros c o Hc. by apply not_elem_of_nil in Hc.
Qed.

Lemma ends_once w c o o' : worker_ok w -> (c, o) ∈ w_log w -> (c, o') ∈ w_log w -> o = o'.
Proof.
  intros [[_ Hnd _] Ha _ _ _ _] H1 H2.
  assert (NoDup (w_log w).*1) as Hl.
  { apply (NoDup_fmap_1 c_lease_token) in Hnd. rewrite <- Ha in Hnd. by apply NoDup_app in Hnd as (_ & _ & ?). }
  apply list_elem_of_lookup in H1 as [i Hi]. apply list_elem_of_lookup in H2 as [j Hj].
  assert (i = j) as <- by (eapply NoDup_lookup; [exact Hl | rewrite list_lookup_fmap, Hi | rewrite list_lookup_fmap, Hj]; done).
  congruence.
Qed.

Lemma hand_or_log w c o : worker_ok w -> c ∈ in_hand (w_point w) (w_tasks w) (w_background w) -> (c, o) ∉ w_log w.
Proof.
  intros [[_ Hnd _] Ha _ _ _ _] Hc Ho.
  apply (NoDup_fmap_1 c_lease_token) in Hnd. rewrite <- Ha in Hnd. apply NoDup_app in Hnd as (_ & Hd & _).
  apply (Hd c Hc), list_elem_of_fmap. by exists (c, o).
Qed.
End Worker.

(** ** Claims *)

(** C12: a worker accounts for its claims.  However the loop, its tasks, the stop
    signal, database failures and the rest of the platform interleave, a worker
    that starts on a well formed database has never more tasks than
    [worker_concurrency]; every claim it ever took is either still in its hands
    or has met exactly one end, never both; once an end other than a lost lease
    or a failed release is noted, no row carries the claim's token again; and
    when the loop has returned no task is left running, and, unless it returns
    by an exception, every claim has met its end. *)
Theorem worker_accounts_for_its_claims `{Rounding} settings leaving db0 w :
  fields_ok settings = true -> platform_ok settings db0 [] ->
  rtc (worker_step settings leaving) (new_worker db0) w ->
  len (w_tasks w) <= worker_concurrency settings /\
  in_hand (w_point w) (w_tasks w) (w_background w) ++ (w_log w).*1 ≡ₚ w_taken w /\
  NoDup (w_taken w) /\
  (forall c o, (c, o) ∈ w_log w -> closes o = true -> ~ held c (w_db w)) /\
  (forall raised, w_point w = Returned raised ->
     running (w_tasks w) = [] /\ w_background w ++ (w_log w).*1 ≡ₚ w_taken w /\
     (raised = false -> (w_log w).*1 ≡ₚ w_taken w)).
Proof.
  intros Hf H0 Hs. pose proof (fields_ok_limits _ Hf) as L.
  assert (worker_ok settings w) as [[Hp Hnd Hn] Ha Hc Hl Hb Hr]
    by (eapply worker_steps_ok; [done | by apply new_worker_ok | done]).
  split; [lia |]. split; [done |]. split; [by apply (NoDup_fmap_1 c_lease_token) |]. split; [done |].
  intros raised E. specialize (Hr _ E). rewrite E in *. unfold in_hand in Ha. rewrite Hr in Ha. cbn in *.
  split; [done |]. split; [done |]. intros ->. by rewrite Hb in Ha.
Qed.


(** ** A worker at work *)

Module LoopDemo.
Abbreviation steps := (rtc (worker_step (H := exact_rounding) default_settings (fun _ => False))).

Lemma backlog_ok : platform_ok default_settings SystemDemo.queued_db [].
Proof.
  refine (pg_ok _ _ _ _ _ (reach_progress (H := exact_rounding) default_settings (fun _ => false) (fun _ => False)
    (fun _ => None) (fun _ => None) (fun _ _ => None) DataDemo.db [] _ _ (fields_ok_limits default_settings eq_refl) SystemDemo.start_ok
    SystemDemo.queued)).
Qed.

Lemma claimed :
  run (@claim_due exact_rounding default_settings 20 SystemDemo.all SystemDemo.uuid 10) SystemDemo.queued_db
  = (Ok [SystemDemo.claim], SystemDemo.leased_db).
Proof. vm_compute. reflexivity. Qed.

Definition busy : worker :=
  Worker SystemDemo.leased_db false Top [(SystemDemo.claim, Delivering)] [] [SystemDemo.claim] [].

(** The loop asks for ten, gets one and starts it. *)
Lemma gets_busy : steps (new_worker SystemDemo.queued_db) busy.
Proof.
  eapply rtc_l; [apply ws_ask; vm_compute; done |].
  eapply rtc_l.
  { apply (ws_claim default_settings (fun _ => False) 20 SystemDemo.all SystemDemo.uuid 10); [| | exact claimed].
    - intros n. split; [intros k d Hd; by rewrite (SystemDemo.unclaimed k d Hd) |].
      intros c Hc. by apply not_elem_of_nil in Hc.
    - intros m n [= E]. lia. }
  eapply rtc_l; [apply ws_start |]. apply rtc_refl.
Qed.

Definition finalizing :=
  run (@finalize exact_rounding default_settings SystemDemo.claim 20 (refused_unsent (py "x")) 30 0%Q)
    SystemDemo.leased_db.

Definition finished : worker :=
  Worker finalizing.2 true (Returned false) [(SystemDemo.claim, Ended)] [] [SystemDemo.claim]
    [(SystemDemo.claim, Finalized)].

Lemma finishes : steps busy finished.
Proof.
  eapply rtc_l.
  { apply (ws_task default_settings (fun _ => False) SystemDemo.claim Delivering finalizing.2 Ended (Some Finalized)
      SystemDemo.leased_db false Top [] []).
    apply (ts_finalized default_settings _ _ 20 (refused_unsent (py "x")) 30 0). vm_compute. reflexivity. }
  eapply rtc_l; [apply ws_stop |]. eapply rtc_l; [apply ws_leave |].
  eapply rtc_l; [by apply ws_drained |]. apply rtc_refl.
Qed.
End LoopDemo.

Lemma worker_accounts_for_its_claims_witness :
  ~ held SystemDemo.claim (w_db LoopDemo.finished) /\ w_taken LoopDemo.finished = [SystemDemo.claim].
Proof.
  split; [| reflexivity].
  destruct (worker_accounts_for_its_claims (H := exact_rounding) default_settings (fun _ => False)
    SystemDemo.queued_db LoopDemo.finished eq_refl LoopDemo.backlog_ok
    (transitivity LoopDemo.gets_busy LoopDemo.finishes)) as (_ & _ & _ & Hc & _).
  apply (Hc SystemDemo.claim Finalized); [left | reflexivity].
Defined.

