(* ===== verification/Outbox.v ===== *)
(** * The producer SDK and its outbox

    [src/sdk/python/src/webhook_platform_sdk/producer.py] and
    [src/sdk/python/src/webhook_platform_sdk/outbox.py]: an application stores
    a message in the transaction that changes its state, and relays send it to
    the platform until it is accepted.  Relays may crash, overlap and repeat;
    the platform's idempotency key makes one event of it. *)

From Stdlib Require Import QArith Lqa.
From stdpp Require Import base tactics list gmap sets strings numbers option relations sorting.
From S2P Require Import Prelude Crypto Json Text Models Session Settings RetryPolicy Admission.
From S2P Require Import Delivery Authorization Events EventSafety Receiver.
Local Open Scope Z_scope.

(** [OtherError] is an exception outside [WebhookPlatformError]. *)
Inductive producer_exn : Type :=
| TransportError
| ApiError (status_code : Z) (code : str) (retry_after : option Z)
| OtherError (name : string).

(** What the HTTP client hands back: the status, the body as JSON (or the
    [ValueError] of [response.json()]) and the [Retry-After] header. *)
Record Response : Type := HttpResponse {
  hr_status : Z;
  hr_json : option json;
  hr_retry_after : option str;
}.

Section Producer.
Context (unicode_isdigit : Z -> bool) (unicode_decimal : Z -> option Z).

Definition HTTP_ERROR : str := py "HTTP_ERROR".

(** The [try] block of [_safe_error] *)
Definition error_code (document : option json) : str :=
  match document with
  | Some (JObj o) =>
      match default (JObj []) (member (py "error") o) with
      | JObj error =>
          match member (py "code") error with
          | Some (JStr candidate) =>
              if isascii candidate && (1 <=? len candidate) && (len candidate <=? 64)
              then candidate else HTTP_ERROR
          | _ => HTTP_ERROR
          end
      | _ => HTTP_ERROR
      end
  | _ => HTTP_ERROR
  end.

(** [_safe_error]: the error to raise, or the one it raises itself. *)
Definition safe_error (r : Response) : producer_exn :=
  let code := error_code (hr_json r) in
  match hr_retry_after r with
  | Some raw =>
      if isdigit unicode_isdigit raw then
        match int_of_str unicode_decimal raw with
        | Ok seconds => ApiError (hr_status r) code (Some (Z.min seconds 86400))
        | Raise _ => OtherError "ValueError"
        end
      else ApiError (hr_status r) code None
  | None => ApiError (hr_status r) code None
  end.

(** [_JsonClient._request]: [answer] is the response, or [None] for an
    [httpx.HTTPError]; the result is the parsed body, [None] for 204. *)
Definition request (answer : option Response) : res producer_exn (option json) :=
  match answer with
  | None => Raise TransportError
  | Some r =>
      if bool_decide (hr_status r ∈ [200; 201; 202; 204]) then
        if hr_status r =? 204 then Ok None
        else match hr_json r with
             | Some document => Ok (Some document)
             | None => Raise (ApiError (hr_status r) (py "INVALID_RESPONSE") None)
             end
      else Raise (safe_error r)
  end.

(** [Producer.send_event] *)
Definition send_event (event_type idempotency_key : str) (answer : option Response) :
    res producer_exn (list (str * json)) :=
  if negb (nonempty event_type && nonempty idempotency_key)
  then Raise (OtherError "ValueError")
  else
    result ← request answer;
    match result with
    | Some (JObj o) => Ok o
    | _ => Raise (ApiError 202 (py "INVALID_RESPONSE") None)
    end.
End Producer.

(** ** The outbox table *)

Record OutboxRow : Type := MkOutboxRow {
  x_id : str;
  x_event_type : str;
  x_payload : json;
  x_idempotency_key : str;
  x_envelope_mode : str;
  x_lease_token : option str;
  x_locked_until : option datetime;
  x_attempt_count : Z;
  x_next_attempt_at : option datetime;
  x_last_error_code : option str;
  x_created_at : datetime;
  x_sent_at : option datetime;
  x_failed_at : option datetime;
}.

#[export] Instance eta_OutboxRow : Eta OutboxRow := fun x =>
  MkOutboxRow (x_id x) (x_event_type x) (x_payload x) (x_idempotency_key x) (x_envelope_mode x)
    (x_lease_token x) (x_locked_until x) (x_attempt_count x) (x_next_attempt_at x)
    (x_last_error_code x) (x_created_at x) (x_sent_at x) (x_failed_at x).

Abbreviation Outbox := (gmap str OutboxRow).

(** [enqueue_outbox], in the caller's transaction; [key] and [id] are the
    fresh identifiers it may use. *)
Definition enqueue_outbox (key id : str) (now : datetime) (event_type : str) (payload : json)
    (idempotency_key : option str) (envelope_mode : str) (o : Outbox) :
    res producer_exn (str * Outbox) :=
  if negb (nonempty event_type) then Raise (OtherError "ValueError")
  else if negb (bool_decide (envelope_mode ∈ [py "native"; py "cloudevents"]))
  then Raise (OtherError "ValueError")
  else
    let key := if nonempty (default [] idempotency_key) then default [] idempotency_key else key in
    if has (o !! id) || existsb (fun kx => str_eqb (x_idempotency_key kx.2) key) (map_to_list o)
    then Raise (OtherError "IntegrityError")
    else Ok (key, <[id := {|
      x_id := id; x_event_type := event_type; x_payload := payload; x_idempotency_key := key;
      x_envelope_mode := envelope_mode; x_lease_token := None; x_locked_until := None;
      x_attempt_count := 0; x_next_attempt_at := Some now; x_last_error_code := None;
      x_created_at := now; x_sent_at := None; x_failed_at := None |}]> o).

Record OutboxMessage : Type := Message {
  m_id : str;
  m_event_type : str;
  m_payload : json;
  m_idempotency_key : str;
  m_envelope_mode : str;
  m_lease_token : str;
  m_attempt_number : Z;
}.

Record OutboxRelay : Type := Relay {
  r_batch_size : Z;
  r_lease_seconds : Z;
  r_max_attempts : Z;
  r_retry_base_seconds : Q;
  r_retry_cap_seconds : Q;
}.

(** [OutboxRelay.__init__] *)
Definition new_relay (batch_size lease_seconds max_attempts : Z)
    (retry_base_seconds retry_cap_seconds : Q) : res producer_exn OutboxRelay :=
  if negb ((1 <=? batch_size) && (batch_size <=? 1000)) then Raise (OtherError "ValueError")
  else if lease_seconds <? 1 then Raise (OtherError "ValueError")
  else if max_attempts <? 1 then Raise (OtherError "ValueError")
  else if negb (Qle_bool 0 retry_base_seconds && Qle_bool retry_base_seconds retry_cap_seconds)
  then Raise (OtherError "ValueError")
  else Ok (Relay batch_size lease_seconds max_attempts retry_base_seconds retry_cap_seconds).

Section Relays.
Context `{Rounding} (relay : OutboxRelay).
Context (unicode_isdigit : Z -> bool) (unicode_decimal : Z -> option Z).

(** ** Claiming *)

Definition claimable (now : datetime) (x : OutboxRow) : bool :=
  negb (has (x_sent_at x)) && negb (has (x_failed_at x))
  && match x_next_attempt_at x with Some t => t <=? now | None => false end
  && match x_locked_until x with Some t => t <=? now | None => true end.

Definition leased_row (now : datetime) (token : str) (x : OutboxRow) : OutboxRow :=
  x &{ x_lease_token := Some token }
    &{ x_locked_until := Some (now + seconds (r_lease_seconds relay)) }
    &{ x_attempt_count := x_attempt_count x + 1 }.

Definition message_of (x : OutboxRow) (token : str) : OutboxMessage :=
  {| m_id := x_id x; m_event_type := x_event_type x; m_payload := x_payload x;
     m_idempotency_key := x_idempotency_key x; m_envelope_mode := x_envelope_mode x;
     m_lease_token := token; m_attempt_number := x_attempt_count x + 1 |}.

(** The rows of the query, [unlocked] being those [SKIP LOCKED] finds free. *)
Definition candidates (now : datetime) (unlocked : str -> bool) (o : Outbox) : list OutboxRow :=
  take (Z.to_nat (r_batch_size relay))
    (order_by (fun x => x_created_at x :: x_id x)
       (filter (fun x => Is_true (claimable now x && unlocked (x_id x))) (map_to_list o).*2)).

Fixpoint lease_all (now : datetime) (uuid : nat -> str) (i : nat) (xs : list OutboxRow) (o : Outbox) :
    list OutboxMessage * Outbox :=
  match xs with
  | [] => ([], o)
  | x :: xs' =>
      let rest := lease_all now uuid (S i) xs' (alter (leased_row now (uuid i)) (x_id x) o) in
      (message_of x (uuid i) :: rest.1, rest.2)
  end.

(** [OutboxRelay._claim] *)
Definition claim_messages (now : datetime) (unlocked : str -> bool) (uuid : nat -> str) (o : Outbox) :
    list OutboxMessage * Outbox :=
  lease_all now uuid 0 (candidates now unlocked o) o.

(** ** Finishing *)

Definition finished (now : datetime) (sent : bool) (error_code : option str)
    (retry_at : option datetime) (terminal : bool) (x : OutboxRow) : OutboxRow :=
  let x := x &{ x_lease_token := None } &{ x_locked_until := None }
             &{ x_last_error_code := error_code } &{ x_next_attempt_at := retry_at } in
  if sent then x &{ x_sent_at := Some now }
  else if terminal then x &{ x_failed_at := Some now }
  else x.

(** [OutboxRelay._finish]: guarded by the token and [sent_at] *)
Definition finish (now : datetime) (m : OutboxMessage) (sent : bool) (error_code : option str)
    (retry_at : option datetime) (terminal : bool) (o : Outbox) : Outbox :=
  alter (fun x =>
    if bool_decide (x_lease_token x = Some (m_lease_token m)) && negb (has (x_sent_at x))
    then finished now sent error_code retry_at terminal x else x) (m_id m) o.

(** The delay of the next attempt, [u] being the draw. *)
Definition retry_delay (m : OutboxMessage) (retry_after : option Z) (u : Q) : Q :=
  let cap := qmin (r_retry_cap_seconds relay)
               (fmul (r_retry_base_seconds relay) (inject_Z (2 ^ (m_attempt_number m - 1)))) in
  let delay := uniform 0 cap u in
  match retry_after with
  | Some s => qmax delay (qmin (inject_Z s) (r_retry_cap_seconds relay))
  | None => delay
  end.

(** [OutboxRelay._record_failure]; [2 ** (n - 1)] as a float overflows from
    the 1025th attempt on. *)
Definition record_failure (now : datetime) (u : Q) (m : OutboxMessage) (code : str)
    (retryable : bool) (retry_after : option Z) (o : Outbox) : res producer_exn Outbox :=
  if negb retryable || (r_max_attempts relay <=? m_attempt_number m)
  then Ok (finish now m false (Some (take 64 code)) None true o)
  else if 1024 <=? m_attempt_number m - 1 then Raise (OtherError "OverflowError")
  else Ok (finish now m false (Some (take 64 code))
             (Some (now + timedelta_seconds (retry_delay m retry_after u))) false o).

(** ** One batch *)

Definition api_retryable (status_code : Z) : bool :=
  bool_decide (status_code ∈ [408; 425; 429; 503]) || (500 <=? status_code).

(** What happens while a message is sent: other transactions on the outbox,
    the answer, and the clock and the draw afterwards. *)
Record turn : Type := Turn {
  tn_others : Outbox -> Outbox;
  tn_answer : option Response;
  tn_now : datetime;
  tn_draw : Q;
}.

(** One round of the loop of [run_once]: whether the message succeeded. *)
Definition relay_message (m : OutboxMessage) (t : turn) (o : Outbox) :
    res producer_exn (bool * Outbox) :=
  let o := tn_others t o in
  match send_event unicode_isdigit unicode_decimal (m_event_type m) (m_idempotency_key m)
          (tn_answer t) with
  | Ok _ => Ok (true, finish (tn_now t) m true None None false o)
  | Raise (ApiError status_code code retry_after) =>
      o' ← record_failure (tn_now t) (tn_draw t) m code (api_retryable status_code) retry_after o;
      Ok (false, o')
  | Raise TransportError =>
      o' ← record_failure (tn_now t) (tn_draw t) m (py "TransportError") true None o;
      Ok (false, o')
  | Raise (OtherError name) => Raise (OtherError name)
  end.

(** An exception leaves the loop; the rows of the rest stay leased. *)
Fixpoint relay_messages (ms : list OutboxMessage) (ts : nat -> turn) (i : nat)
    (succeeded failed : Z) (o : Outbox) : res producer_exn (Z * Z) * Outbox :=
  match ms with
  | [] => (Ok (succeeded, failed), o)
  | m :: ms' =>
      match relay_message m (ts i) o with
      | Ok (true, o') => relay_messages ms' ts (S i) (succeeded + 1) failed o'
      | Ok (false, o') => relay_messages ms' ts (S i) succeeded (failed + 1) o'
      | Raise e => (Raise e, tn_others (ts i) o)
      end
  end.

(** [OutboxRelay.run_once] *)
Definition run_once (now : datetime) (unlocked : str -> bool) (uuid : nat -> str) (ts : nat -> turn)
    (o : Outbox) : res producer_exn (Z * Z) * Outbox :=
  let claimed := claim_messages now unlocked uuid o in
  relay_messages claimed.1 ts 0 0 0 claimed.2.
End Relays.

(** ** Rows *)

Definition settled (x : OutboxRow) : bool := has (x_sent_at x) || has (x_failed_at x).

(** A row is open, sent or failed; only an open row is leased, and an open row
    has a time at which it is due. *)
Record row_ok (x : OutboxRow) : Prop := {
  rw_once : has (x_sent_at x) && has (x_failed_at x) = false;
  rw_lease : has (x_lease_token x) = has (x_locked_until x);
  rw_settled : settled x = true -> x_lease_token x = None /\ x_next_attempt_at x = None;
  rw_open : settled x = false -> is_Some (x_next_attempt_at x);
  rw_count : 0 <= x_attempt_count x;
}.

Record outbox_ok (o : Outbox) : Prop := {
  ob_keyed : forall k x, o !! k = Some x -> x_id x = k;
  ob_rows : forall k x, o !! k = Some x -> row_ok x;
  ob_unique : forall k k' x x', o !! k = Some x -> o !! k' = Some x' ->
    x_idempotency_key x = x_idempotency_key x' -> k = k';
}.

(** What is to be sent is fixed, attempts are counted, and a settled row is
    final. *)
Record row_later (x x' : OutboxRow) : Prop := {
  rl_id : x_id x' = x_id x;
  rl_type : x_event_type x' = x_event_type x;
  rl_payload : x_payload x' = x_payload x;
  rl_key : x_idempotency_key x' = x_idempotency_key x;
  rl_mode : x_envelope_mode x' = x_envelope_mode x;
  rl_count : x_attempt_count x <= x_attempt_count x';
  rl_final : settled x = true -> x' = x;
}.

#[export] Instance row_later_preorder : PreOrder row_later.
Proof.
  split.
  - intros x. by split.
  - intros x y z [I1 T1 P1 K1 M1 C1 F1] [I2 T2 P2 K2 M2 C2 F2]. split; try congruence; [lia |].
    intros Hs. rewrite (F1 Hs) in *. auto.
Qed.

Definition outbox_later (o o' : Outbox) : Prop :=
  forall k x, o !! k = Some x -> exists x', o' !! k = Some x' /\ row_later x x'.

#[export] Instance outbox_later_preorder : PreOrder outbox_later.
Proof.
  split.
  - intros o k x Hx. exists x. by split.
  - intros o1 o2 o3 H1 H2 k x Hx. destruct (H1 k x Hx) as (y & Hy & ?).
    destruct (H2 k y Hy) as (z & Hz & ?). exists z. split; [done | by etrans].
Qed.

Section OutboxSteps.
Context `{Rounding} (relay : OutboxRelay).

(** Changing one row along [row_later] keeps the table in order. *)
Lemma alter_ok f k o :
  outbox_ok o -> (forall x, o !! k = Some x -> row_ok x -> row_ok (f x) /\ row_later x (f x)) ->
  outbox_ok (alter f k o) /\ outbox_later o (alter f k o).
Proof.
  intros [Hk Hr Hu] Hf.
  assert (forall k' x', alter f k o !! k' = Some x' -> exists x, o !! k' = Some x /\
    row_ok x' /\ row_later x x') as Hback.
  { intros k' x'. rewrite lookup_alter. case_decide as E; [| intros Hx; exists x'].
    - subst k'. intros (x & Hx & ->)%fmap_Some. exists x. split; [done |]. eauto.
    - split; [done |]. split; [by eapply Hr | done]. }
  split; [split |].
  - intros k' x' (x & Hx & _ & Hl)%Hback. rewrite (rl_id _ _ Hl). by apply Hk.
  - by intros k' x' (x & _ & ? & _)%Hback.
  - intros k1 k2 x1 x2 (y1 & Hy1 & _ & L1)%Hback (y2 & Hy2 & _ & L2)%Hback.
    rewrite (rl_key _ _ L1), (rl_key _ _ L2). by apply Hu.
  - intros k' x Hx. rewrite lookup_alter. case_decide as E; [| by exists x].
    subst k'. rewrite Hx. exists (f x). split; [done |]. by eapply Hf, Hr.
Qed.

Lemma leased_row_later now token x :
  settled x = false -> row_ok x ->
  row_ok (leased_row relay now token x) /\ row_later x (leased_row relay now token x).
Proof.
  intros Hs [R1 R2 R3 R4 R5]. split; split; unfold leased_row, settled in *; upd_simpl; try done;
    try lia; intros; congruence.
Qed.

Lemma claimable_open now x : claimable now x = true -> settled x = false.
Proof.
  unfold claimable, settled. rewrite !andb_true_iff, !negb_true_iff. by intros [[[-> ->] _] _].
Qed.

Lemma finished_later now sent code retry_at terminal x :
  settled x = false -> (sent || terminal = false -> is_Some retry_at) ->
  (sent || terminal = true -> retry_at = None) -> row_ok x ->
  row_ok (finished now sent code retry_at terminal x) /\
  row_later x (finished now sent code retry_at terminal x).
Proof.
  intros Hs Hopen Hsettled [R1 R2 R3 R4 R5]. unfold settled in Hs.
  apply orb_false_iff in Hs as [Hs Hf].
  destruct sent, terminal; cbn in Hopen, Hsettled |- *;
    (split; split; unfold settled; upd_simpl; rewrite ?Hs, ?Hf; try done; try lia; auto).
Qed.

(** A guarded finish: whatever it does, the table stays in order. *)
Lemma finish_ok now m sent code retry_at terminal o :
  outbox_ok o -> (sent || terminal = false -> is_Some retry_at) ->
  (sent || terminal = true -> retry_at = None) ->
  outbox_ok (finish now m sent code retry_at terminal o) /\
  outbox_later o (finish now m sent code retry_at terminal o).
Proof.
  intros Hok Hopen Hsettled. apply alter_ok; [done |]. intros x Hx Hr.
  destruct (bool_decide _ && _) eqn:E; [| by split].
  apply andb_true_iff in E as [Ht%bool_decide_eq_true _].
  apply finished_later; try done. destruct (settled x) eqn:Es; [| done].
  destruct (rw_settled _ Hr Es) as [Hn _]. congruence.
Qed.

Lemma record_failure_ok now u m code retryable retry_after o o' :
  outbox_ok o -> record_failure relay now u m code retryable retry_after o = Ok o' ->
  outbox_ok o' /\ outbox_later o o'.
Proof.
  intros Hok. unfold record_failure. destruct (_ || _); [by intros [= <-]; apply finish_ok |].
  destruct (_ <=? _); [done |]. intros [= <-]. apply finish_ok; [done | by eexists | done].
Qed.

(** A message comes from a row with its content. *)
Definition from_row (m : OutboxMessage) (o : Outbox) : Prop :=
  exists x, o !! m_id m = Some x /\ m_event_type m = x_event_type x /\ m_payload m = x_payload x /\
    m_idempotency_key m = x_idempotency_key x /\ m_envelope_mode m = x_envelope_mode x.

Lemma from_row_later m o o' : from_row m o -> outbox_later o o' -> from_row m o'.
Proof.
  intros (x & Hx & T & P & K & M) Hl. destruct (Hl _ _ Hx) as (x' & Hx' & L).
  exists x'. rewrite (rl_type _ _ L), (rl_payload _ _ L), (rl_key _ _ L), (rl_mode _ _ L). done.
Qed.

(** ** What a claim does *)

Lemma lease_all_ok now uuid i xs o :
  outbox_ok o -> NoDup (map x_id xs) ->
  (forall x, x ∈ xs -> settled x = false /\ o !! x_id x = Some x) ->
  let r := lease_all relay now uuid i xs o in
  outbox_ok r.2 /\ outbox_later o r.2 /\
  r.1 = imap (fun n x => message_of x (uuid (i + n)%nat)) xs /\
  (forall n x, xs !! n = Some x -> r.2 !! x_id x = Some (leased_row relay now (uuid (i + n)%nat) x)) /\
  (forall k, k ∉ map x_id xs -> r.2 !! k = o !! k).
Proof.
  revert i o; induction xs as [| x xs IH]; intros i o Hok Hnd Hxs; [done |].
  cbn in Hnd. apply list.NoDup_cons in Hnd as [Hni Hnd]. destruct (Hxs x ltac:(left)) as [Hs Hx].
  destruct (alter_ok (leased_row relay now (uuid i)) (x_id x) o Hok) as [Hok1 Hl1].
  { intros y Hy. rewrite Hx in Hy. injection Hy as <-. by apply leased_row_later. }
  set (o1 := alter _ _ o) in *.
  destruct (IH (S i) o1 Hok1 Hnd) as (Hok' & Hl' & Hms & Hin & Hout).
  { intros y Hy. destruct (Hxs y ltac:(by right)) as [? Hy']. split; [done |].
    unfold o1. rewrite lookup_alter_ne; [done |]. intros E. apply Hni. rewrite E.
    by apply list_elem_of_fmap_2. }
  cbn zeta in *. cbn [lease_all fst snd]. fold o1. split; [done |]. split; [by etrans |].
  split; [| split].
  - rewrite imap_cons, Hms, Nat.add_0_r. f_equal. apply imap_ext. intros n y _. cbn.
    by rewrite Nat.add_succ_r.
  - intros [| n] y Hy; cbn in Hy.
    + injection Hy as ->. rewrite Hout by done. unfold o1. rewrite lookup_alter_eq, Hx, Nat.add_0_r.
      done.
    + rewrite <- Nat.add_succ_comm. by apply Hin.
  - intros k Hk. cbn in Hk. rewrite Hout by set_solver. unfold o1.
    by rewrite lookup_alter_ne by set_solver.
Qed.

Lemma candidates_spec now unlocked o x :
  outbox_ok o -> x ∈ candidates relay now unlocked o ->
  claimable now x = true /\ unlocked (x_id x) = true /\ o !! x_id x = Some x.
Proof.
  intros Hok Hx. unfold candidates in Hx. apply subseteq_take, order_by_elem in Hx.
  apply list_elem_of_filter in Hx as [Hp Hx]. apply Is_true_true, andb_true_iff in Hp as [? ?].
  split; [done |]. split; [done |].
  apply list_elem_of_fmap in Hx as ([k y] & -> & Hin). apply elem_of_map_to_list in Hin.
  cbn. by rewrite (ob_keyed _ Hok _ _ Hin).
Qed.

Lemma candidates_NoDup now unlocked o :
  outbox_ok o -> NoDup (map x_id (candidates relay now unlocked o)).
Proof.
  intros Hok. unfold candidates. change (map x_id (take ?n ?l)) with (x_id <$> take n l).
  rewrite fmap_take. eapply sublist_NoDup; [| apply sublist_take].
  change (x_id <$> ?l) with (map x_id l). rewrite (Permutation_map x_id (order_by_perm _ _)).
  apply NoDup_map_filter.
  replace (map x_id (map_to_list o).*2) with ((map_to_list o).*1); [apply NoDup_fst_map_to_list |].
  change (map x_id ?l) with (x_id <$> l). rewrite <- list_fmap_compose. apply list_fmap_ext.
  intros i [k y] Hi%list_elem_of_lookup_2%elem_of_map_to_list. cbn. symmetry.
  by apply (ob_keyed _ Hok).
Qed.
End OutboxSteps.

(** ** Relays and platform together *)

Section History.
Context `{Rounding} (settings : Settings) (project : Project).
Context (unicode_isdigit : Z -> bool) (unicode_decimal : Z -> option Z).

(** Events keep what identifies them; payloads may be purged. *)
Definition events_kept (db db' : Db) : Prop :=
  forall k e, t_get k (db_events db) = Some e -> exists e', t_get k (db_events db') = Some e' /\
    ev_project_id e' = ev_project_id e /\ ev_idempotency_key e' = ev_idempotency_key e /\
    ev_event_type e' = ev_event_type e /\ ev_envelope_mode e' = ev_envelope_mode e /\
    ev_payload_hash e' = ev_payload_hash e.

#[export] Instance events_kept_preorder : PreOrder events_kept.
Proof.
  split.
  - intros db k e He. exists e. done.
  - intros db1 db2 db3 H1 H2 k e He. destruct (H1 k e He) as (e2 & He2 & ? & ? & ? & ? & ?).
    destruct (H2 k e2 He2) as (e3 & He3 & ? & ? & ? & ? & ?). exists e3.
    split_and!; [done | congruence ..].
Qed.

(** The platform has an event with this key and this content. *)
Definition accepted_event (key event_type : str) (payload : json) (envelope_mode : str) (db : Db) :
    Prop :=
  exists mode fp k e, well_formed settings key event_type payload envelope_mode mode fp /\
    t_get k (db_events db) = Some e /\ stored_content e (p_id project) key event_type mode fp.

Lemma accepted_event_kept key event_type payload envelope_mode db db' :
  accepted_event key event_type payload envelope_mode db -> events_kept db db' ->
  accepted_event key event_type payload envelope_mode db'.
Proof.
  intros (mode & fp & k & e & Hw & He & Hp & Hk & Ht & Hm & Hf) Hkept.
  destruct (Hkept k e He) as (e' & He' & Hp' & Hk' & Ht' & Hm' & Hf').
  exists mode, fp, k, e'. split; [done |]. split; [done |]. unfold stored_content. split_and!; congruence.
Qed.

Lemma stored_event k e key event_type mode fp envelope_mode payload db :
  well_formed settings key event_type payload envelope_mode mode fp ->
  t_get k (db_events db) = Some e -> stored_content e (p_id project) key event_type mode fp ->
  accepted_event key event_type payload envelope_mode db.
Proof. intros. by exists mode, fp, k, e. Qed.

(** Accepting a request. *)
Lemma ingest_accepts uuid now others trace key event_type payload envelope_mode db e db' :
  plane_ok settings db -> plane_ok settings (others db) -> events_kept db (others db) ->
  run (ingest_event settings uuid now others trace project key event_type payload envelope_mode) db
    = (Ok e, db') ->
  plane_ok settings db' /\ events_kept db db' /\
  accepted_event key event_type payload envelope_mode db'.
Proof.
  intros Hok Hok' Hkept (mode & fp & Hw & Hcase)%ingest_ok.
  destruct Hcase as [(Hdb & Hf & Hs)|(_ & Hn & Hacc)].
  - apply find_event_some in Hf as (Hp & Hk & k & Hf). apply same_content_spec in Hs as (Ht & Hm & Hh).
    split; [by destruct Hdb as [->| ->] |]. split; [by destruct Hdb as [->| ->] |].
    by eapply (stored_event k e).
  - split; [by eapply accepted_ok |].
    destruct Hacc as [(envelope & _ & He & Hev) _ _ _]. split.
    + etrans; [exact Hkept |]. intros k e0 He0. exists e0. rewrite Hev. split; [| done].
      apply t_get_add_old; [apply Hok' | done].
    + eapply (stored_event (seq (db_events (others db))) e); [done | |].
      * rewrite Hev, He. unfold t_get, t_add. cbn. apply lookup_insert_eq.
      * by rewrite He.
Qed.

(** The outbox, the platform's database, the messages relays have in hand, and
    those among them the platform has accepted, whether or not its answer gets
    through.  A relay takes a message for delivered only when the platform has
    answered so; anything may go wrong at any point, and relays may overlap.
    [hi_platform] is everything else the platform does, short of deleting the
    organization. *)
Inductive history (o0 : Outbox) (db0 : Db) :
    Outbox -> Db -> list OutboxMessage -> list OutboxMessage -> Prop :=
| hi_start : history o0 db0 o0 db0 [] []
| hi_enqueue key id now event_type payload idempotency_key envelope_mode k o db hand accepted o' :
    history o0 db0 o db hand accepted ->
    enqueue_outbox key id now event_type payload idempotency_key envelope_mode o = Ok (k, o') ->
    history o0 db0 o' db hand accepted
| hi_claim relay now unlocked uuid o db hand accepted :
    history o0 db0 o db hand accepted ->
    let claimed := claim_messages relay now unlocked uuid o in
    history o0 db0 claimed.2 db (hand ++ claimed.1) accepted
| hi_platform db' o db hand accepted :
    history o0 db0 o db hand accepted -> plane_ok settings db' -> events_kept db db' ->
    history o0 db0 o db' hand accepted
| hi_accept m uuid now others trace e db' o db hand accepted :
    history o0 db0 o db hand accepted -> m ∈ hand ->
    plane_ok settings (others db) -> events_kept db (others db) ->
    run (ingest_event settings uuid now others trace project (m_idempotency_key m) (m_event_type m)
           (m_payload m) (m_envelope_mode m)) db = (Ok e, db') ->
    history o0 db0 o db' hand (m :: accepted)
| hi_relay relay m t b o' o db hand accepted :
    history o0 db0 o db hand accepted -> m ∈ hand -> tn_others t o = o ->
    relay_message relay unicode_isdigit unicode_decimal m t o = Ok (b, o') ->
    (b = true -> m ∈ accepted) ->
    history o0 db0 o' db hand accepted
| hi_crash hand' o db hand accepted :
    history o0 db0 o db hand accepted -> hand' ⊆ hand -> history o0 db0 o db hand' accepted.

(** Every row the outbox calls sent is an event of the platform. *)
Definition sent_accepted (o : Outbox) (db : Db) : Prop :=
  forall k x, o !! k = Some x -> has (x_sent_at x) = true ->
    accepted_event (x_idempotency_key x) (x_event_type x) (x_payload x) (x_envelope_mode x) db.

Record outbox_history (o0 o : Outbox) (db : Db) (hand accepted : list OutboxMessage) : Prop := {
  oh_outbox : outbox_ok o;
  oh_later : outbox_later o0 o;
  oh_plane : plane_ok settings db;
  oh_hand : forall m, m ∈ hand -> from_row m o;
  oh_from : forall m, m ∈ accepted -> from_row m o;
  oh_accepted : forall m, m ∈ accepted -> accepted_event (m_idempotency_key m) (m_event_type m)
    (m_payload m) (m_envelope_mode m) db;
  oh_sent : sent_accepted o db;
}.

Lemma enqueue_ok key id now event_type payload idempotency_key envelope_mode k o o' :
  outbox_ok o ->
  enqueue_outbox key id now event_type payload idempotency_key envelope_mode o = Ok (k, o') ->
  outbox_ok o' /\ outbox_later o o' /\
  forall k' x, o' !! k' = Some x -> has (x_sent_at x) = true -> o !! k' = Some x.
Proof.
  intros [Hk Hr Hu]. unfold enqueue_outbox.
  destruct (negb (nonempty event_type)); [done |].
  destruct (negb (bool_decide _)); [done |].
  set (used := if nonempty _ then _ else key). destruct (_ || _) eqn:E; [done |].
  intros [= _ <-]. apply orb_false_iff in E as [Hid Hkey].
  assert (o !! id = None) as Hnone by by destruct (o !! id).
  assert (forall k' x, o !! k' = Some x -> x_idempotency_key x <> used) as Hfree.
  { intros k' x Hx E. assert (existsb (fun kx => str_eqb (x_idempotency_key kx.2) used)
      (map_to_list o) = true) as Ht; [| congruence].
    apply existsb_exists. exists (k', x). split; [by apply list_elem_of_In, elem_of_map_to_list |].
    cbn. rewrite E. apply str_eqb_refl. }
  set (x0 := {| x_id := id |}) in *.
  assert (row_ok x0) by by split.
  split; [split |split].
  - intros k' x [[<- <-]|[_ Hx]]%lookup_insert_Some; [done | by apply Hk].
  - intros k' x [[<- <-]|[_ Hx]]%lookup_insert_Some; [done | by eapply Hr].
  - intros k1 k2 x1 x2 [[<- <-]|[N1 H1]]%lookup_insert_Some [[<- <-]|[N2 H2]]%lookup_insert_Some;
      [done | | | by apply Hu]; cbn; intros Eq; exfalso; by eapply Hfree.
  - intros k' x Hx. exists x. split; [| done]. rewrite lookup_insert_ne; congruence.
  - intros k' x [[<- <-]|[_ Hx]]%lookup_insert_Some; done.
Qed.

Lemma sent_accepted_later o db db' :
  sent_accepted o db -> events_kept db db' -> sent_accepted o db'.
Proof. intros Hs Hk k x Hx Hsent. eapply accepted_event_kept; [by eapply Hs | done]. Qed.

(** A row that turns sent has the content of the message it is sent with. *)
Lemma finish_sent now m sent code retry_at terminal o k x :
  finish now m sent code retry_at terminal o !! k = Some x -> has (x_sent_at x) = true ->
  (o !! k = Some x \/
   sent = true /\ k = m_id m /\ exists y, o !! k = Some y /\
     x_event_type x = x_event_type y /\ x_payload x = x_payload y /\
     x_idempotency_key x = x_idempotency_key y /\ x_envelope_mode x = x_envelope_mode y).
Proof.
  unfold finish. rewrite lookup_alter. case_decide as E; [| by left]. subst k.
  intros (y & Hy & ->)%fmap_Some Hs.
  destruct (bool_decide _ && _) eqn:E; [| by left].
  apply andb_true_iff in E as [_ Hn%negb_true_iff]. unfold finished in Hs |- *.
  destruct sent; [right; split; [done |]; split; [done |]; by exists y | left].
  destruct terminal; revert Hs; upd_simpl; by rewrite Hn.
Qed.

Lemma outbox_history_step o0 o o' db hand accepted :
  outbox_history o0 o db hand accepted -> outbox_ok o' /\ outbox_later o o' ->
  (forall k x, o' !! k = Some x -> has (x_sent_at x) = true ->
     o !! k = Some x \/ accepted_event (x_idempotency_key x) (x_event_type x) (x_payload x)
                         (x_envelope_mode x) db) ->
  outbox_history o0 o' db hand accepted.
Proof.
  intros [Ho Hl Hp Hh Hf Ha Hs] [Hok' Hl'] Hsent. split; try done.
  - by etrans.
  - intros m Hm. eapply from_row_later; [by apply Hh | done].
  - intros m Hm. eapply from_row_later; [by apply Hf | done].
  - intros k x Hx Hxs. destruct (Hsent k x Hx Hxs) as [Hx'|?]; [by eapply Hs | done].
Qed.

Lemma relay_message_cases relay m t b o o' :
  relay_message relay unicode_isdigit unicode_decimal m t o = Ok (b, o') ->
  (b = true /\ o' = finish (tn_now t) m true None None false (tn_others t o)) \/
  (b = false /\ exists code retryable retry_after,
     record_failure relay (tn_now t) (tn_draw t) m code retryable retry_after (tn_others t o) = Ok o').
Proof.
  unfold relay_message. destruct (send_event _ _ _ _ _) as [a|[|status code ra|name]].
  - intros [= <- <-]. by left.
  - intros (o1 & Hr & [= <- <-])%res_bind_ok. right. eauto 10.
  - intros (o1 & Hr & [= <- <-])%res_bind_ok. right. eauto 10.
  - done.
Qed.

Lemma record_failure_sent relay now u m code retryable retry_after o o' k x :
  record_failure relay now u m code retryable retry_after o = Ok o' ->
  o' !! k = Some x -> has (x_sent_at x) = true -> o !! k = Some x.
Proof.
  unfold record_failure. intros Hr Hx Hs.
  destruct (_ || _); [| destruct (_ <=? _); [done |]]; injection Hr as <-;
    by destruct (finish_sent _ _ _ _ _ _ _ _ _ Hx Hs) as [?|[? _]].
Qed.

Lemma claim_history relay now unlocked uuid o0 o db hand accepted :
  let claimed := claim_messages relay now unlocked uuid o in
  outbox_history o0 o db hand accepted -> outbox_history o0 claimed.2 db (hand ++ claimed.1) accepted.
Proof.
  intros claimed Hh. pose proof (oh_outbox _ _ _ _ _ Hh) as Hok.
  set (xs := candidates relay now unlocked o).
  assert (forall x, x ∈ xs -> settled x = false /\ o !! x_id x = Some x) as Hxs.
  { intros x (Hc & _ & Hx)%candidates_spec; [| done]. split; [by eapply claimable_open | done]. }
  destruct (lease_all_ok relay now uuid 0 xs o Hok) as (Hok' & Hl' & Hms & Hin & Hout);
    [by apply candidates_NoDup | done |].
  assert (forall k x, claimed.2 !! k = Some x -> has (x_sent_at x) = true -> o !! k = Some x) as Hkeep.
  { intros k x Hx Hs. destruct (decide (k ∈ map x_id xs)) as [Hk|Hk].
    - apply list_elem_of_fmap in Hk as (y & -> & Hy).
      destruct (Hxs y Hy) as [Hset _]. apply list_elem_of_lookup in Hy as [n Hy].
      change (claimed.2) with ((lease_all relay now uuid 0 xs o).2) in Hx.
      rewrite (Hin n y Hy) in Hx. injection Hx as <-. unfold settled in Hset.
      apply orb_false_iff in Hset as [Hset _]. unfold leased_row in Hs. revert Hs. upd_simpl.
      by rewrite Hset.
    - change (claimed.2) with ((lease_all relay now uuid 0 xs o).2) in Hx. by rewrite Hout in Hx. }
  assert (outbox_history o0 claimed.2 db hand accepted) as [K1 K2 K3 K4 K5 K6 K7].
  { apply (outbox_history_step o0 o); [done | by split |]. intros k x Hx Hs. left. by apply Hkeep. }
  split; try done. intros m [Hm|Hm]%elem_of_app; [by apply K4 |].
  unfold claimed, claim_messages in Hm. fold xs in Hm. rewrite Hms in Hm.
  apply elem_of_lookup_imap in Hm as (n & y & -> & Hy). destruct (Hxs y) as [_ Hy'];
    [by eapply list_elem_of_lookup_2 |].
  eapply (from_row_later _ o); [by exists y | done].
Qed.

Lemma history_ok o0 db0 o db hand accepted :
  outbox_ok o0 -> plane_ok settings db0 -> sent_accepted o0 db0 ->
  history o0 db0 o db hand accepted -> outbox_history o0 o db hand accepted.
Proof.
  intros Ho0 Hp0 Hs0. induction 1 as [|key id now event_type payload ik mode k o db hand accepted o' _ IH He
    |relay now unlocked uuid o db hand accepted _ IH claimed
    |db' o db hand accepted _ IH Hp Hk
    |m uuid now others trace e db' o db hand accepted _ IH Hm Hp Hk Hr
    |relay m t b o' o db hand accepted _ IH Hm Ht Hr Hb
    |hand' o db hand accepted _ IH Hsub].
  - split; try done; intros m Hm; by apply not_elem_of_nil in Hm.
  - destruct (enqueue_ok _ _ _ _ _ _ _ _ _ _ (oh_outbox _ _ _ _ _ IH) He) as (Hok' & Hl & Hold).
    eapply outbox_history_step; [done | done |]. intros k' x Hx Hs. left. by apply Hold.
  - by apply claim_history.
  - destruct IH as [K1 K2 K3 K4 K5 K6 K7]. split; try done.
    + intros m Hm. by eapply accepted_event_kept; [apply K6 |].
    + by eapply sent_accepted_later.
  - destruct IH as [K1 K2 K3 K4 K5 K6 K7].
    destruct (ingest_accepts _ _ _ _ _ _ _ _ _ _ _ K3 Hp Hk Hr) as (Hp' & Hk' & Ha).
    split; try done.
    + intros m' [->|Hm']%elem_of_cons; [by apply K4 | by apply K5].
    + intros m' [->|Hm']%elem_of_cons; [done |]. by eapply accepted_event_kept; [apply K6 |].
    + by eapply sent_accepted_later.
  - pose proof (oh_outbox _ _ _ _ _ IH) as Hok.
    apply relay_message_cases in Hr as [[-> ->]|(-> & code & retryable & ra & Hr)]; rewrite Ht in *.
    + eapply outbox_history_step; [exact IH | by apply finish_ok |]. intros k x Hx Hs.
      destruct (finish_sent _ _ _ _ _ _ _ _ _ Hx Hs) as [?|(_ & -> & y & Hy & -> & -> & -> & ->)];
        [by left | right].
      destruct (oh_hand _ _ _ _ _ IH m Hm) as (y' & Hy' & E1 & E2 & E3 & E4).
      rewrite Hy in Hy'. injection Hy' as <-. rewrite <- E1, <- E2, <- E3, <- E4.
      apply (oh_accepted _ _ _ _ _ IH). by apply Hb.
    + eapply outbox_history_step; [exact IH | by eapply record_failure_ok |].
      intros k x Hx Hs. left. by eapply record_failure_sent.
  - destruct IH as [K1 K2 K3 K4 K5 K6 K7]. split; try done. intros m Hm. by apply K4, Hsub.
Qed.
End History.

(** ** What becomes of a batch *)

Section Batch.
Context `{Rounding} (relay : OutboxRelay).
Context (unicode_isdigit : Z -> bool) (unicode_decimal : Z -> option Z).

Abbreviation send m t :=
  (send_event unicode_isdigit unicode_decimal (m_event_type m) (m_idempotency_key m) (tn_answer t)).

(** Whether a failure ends the message, and the [Retry-After] it came with. *)
Definition hopeless (m : OutboxMessage) (e : producer_exn) : bool :=
  match e with
  | ApiError status_code _ _ => negb (api_retryable status_code)
  | _ => false
  end || (r_max_attempts relay <=? m_attempt_number m).

Definition asked_delay (e : producer_exn) : option Z :=
  match e with ApiError _ _ retry_after => retry_after | _ => None end.

(** What the row of a message becomes: sent, failed, or due again after a delay
    within the bounds. *)
Definition outcome (m : OutboxMessage) (t : turn) (x : OutboxRow) : Prop :=
  x_lease_token x = None /\ x_locked_until x = None /\ x_attempt_count x = m_attempt_number m /\
  match send m t with
  | Ok _ => x_sent_at x = Some (tn_now t)
  | Raise e =>
      x_sent_at x = None /\
      if hopeless m e then x_failed_at x = Some (tn_now t)
      else x_failed_at x = None /\ exists at_, x_next_attempt_at x = Some at_ /\
        tn_now t <= at_ /\
        let delay := ((at_ - tn_now t) # 1000000)%Q in
        (delay <= r_retry_cap_seconds relay + (1 # 2000000))%Q /\
        forall s, asked_delay e = Some s ->
          (qmin (inject_Z s) (r_retry_cap_seconds relay) <= delay + (1 # 2000000))%Q
  end.

Lemma finish_owned now m sent code retry_at terminal o x :
  o !! m_id m = Some x -> x_lease_token x = Some (m_lease_token m) -> x_sent_at x = None ->
  finish now m sent code retry_at terminal o
  = <[m_id m := finished now sent code retry_at terminal x]> o.
Proof.
  intros Hx Ht Hs. apply map_eq. intros k. unfold finish. rewrite lookup_alter.
  destruct (decide (m_id m = k)) as [<-|Hne].
  - rewrite Hx, lookup_insert_eq. cbn. by rewrite bool_decide_true, Hs.
  - by rewrite lookup_insert_ne.
Qed.

Record relay_ok : Prop := {
  ok_base : (0 <= r_retry_base_seconds relay)%Q;
  ok_cap : (0 <= r_retry_cap_seconds relay)%Q;
  ok_float : is_float (r_retry_cap_seconds relay);
  ok_attempts : r_max_attempts relay <= 1025;
}.

Lemma relay_delay_bounds m retry_after u :
  relay_ok -> 0 < m_attempt_number m -> (0 <= u <= 1)%Q ->
  (0 <= retry_delay relay m retry_after u <= r_retry_cap_seconds relay)%Q /\
  forall s, retry_after = Some s ->
    (qmin (inject_Z s) (r_retry_cap_seconds relay) <= retry_delay relay m retry_after u)%Q.
Proof.
  intros [Hb Hc Hf _] Hn Hu.
  pose proof (jittered_backoff_bounds (m_attempt_number m) (r_retry_base_seconds relay)
    (r_retry_cap_seconds relay) u Hf Hb Hc Hu) as Hj.
  unfold jittered_backoff in Hj. rewrite Z.max_r in Hj by lia. unfold retry_delay.
  set (delay := uniform 0 _ u) in *. destruct retry_after as [s|]; [| split; [done | by intros s]].
  split.
  - split; [eapply Qle_trans; [apply Hj | apply qmax_ge_l] |].
    apply qmax_lub; [apply Hj | apply qmin_le_r].
  - intros s' [= <-]. apply qmax_ge_r.
Qed.

Lemma scheduled_bounds now (delay cap low : Q) :
  (0 <= delay <= cap)%Q -> (low <= delay)%Q ->
  now <= now + timedelta_seconds delay /\
  let d := ((now + timedelta_seconds delay - now) # 1000000)%Q in
  (d <= cap + (1 # 2000000))%Q /\ (low <= d + (1 # 2000000))%Q.
Proof.
  intros [H0 H1] H2. pose proof (timedelta_seconds_nonneg delay H0). split; [lia |].
  replace (now + timedelta_seconds delay - now) with (timedelta_seconds delay) by lia.
  pose proof (timedelta_seconds_bounds delay) as [B1 B2]. split; lra.
Qed.

(** A turn that leaves the table to this relay and brings nothing worse than a
    [WebhookPlatformError]. *)
Definition undisturbed (m : OutboxMessage) (t : turn) : Prop :=
  (forall o, tn_others t o = o) /\ (0 <= tn_draw t <= 1)%Q /\
  forall name, send m t <> Raise (OtherError name).

(** The row of a message in hand is leased to it. *)
Definition in_hand (o : Outbox) (m : OutboxMessage) : Prop :=
  0 < m_attempt_number m /\ exists x, o !! m_id m = Some x /\
    x_lease_token x = Some (m_lease_token m) /\ settled x = false /\
    x_attempt_count x = m_attempt_number m.

Lemma record_failure_outcome m t o x code retryable retry_after :
  relay_ok -> 0 < m_attempt_number m -> (0 <= tn_draw t <= 1)%Q ->
  o !! m_id m = Some x -> x_lease_token x = Some (m_lease_token m) -> settled x = false ->
  x_attempt_count x = m_attempt_number m ->
  exists x', record_failure relay (tn_now t) (tn_draw t) m code retryable retry_after o
    = Ok (<[m_id m := x']> o) /\
    x_lease_token x' = None /\ x_locked_until x' = None /\ x_attempt_count x' = m_attempt_number m /\
    x_sent_at x' = None /\
    if negb retryable || (r_max_attempts relay <=? m_attempt_number m)
    then x_failed_at x' = Some (tn_now t)
    else x_failed_at x' = None /\ x_next_attempt_at x' =
           Some (tn_now t + timedelta_seconds (retry_delay relay m retry_after (tn_draw t))).
Proof.
  intros Hrel Hn Hu Hx Htok Hset Hcount. unfold settled in Hset.
  apply orb_false_iff in Hset as [Hs Hf].
  assert (x_sent_at x = None) as Hs' by by destruct (x_sent_at x).
  assert (x_failed_at x = None) as Hf' by by destruct (x_failed_at x).
  unfold record_failure. destruct (negb retryable || _) eqn:E.
  - eexists. split; [f_equal; by apply finish_owned |]. unfold finished. upd_simpl. done.
  - apply orb_false_iff in E as [_ E%Z.leb_gt]. pose proof (ok_attempts Hrel).
    rewrite (proj2 (Z.leb_gt _ _)) by lia.
    eexists. split; [f_equal; by apply finish_owned |]. unfold finished. upd_simpl. done.
Qed.

Lemma due_outcome m t e x :
  relay_ok -> 0 < m_attempt_number m -> (0 <= tn_draw t <= 1)%Q ->
  x_next_attempt_at x =
    Some (tn_now t + timedelta_seconds (retry_delay relay m (asked_delay e) (tn_draw t))) ->
  exists at_, x_next_attempt_at x = Some at_ /\ tn_now t <= at_ /\
    let delay := ((at_ - tn_now t) # 1000000)%Q in
    (delay <= r_retry_cap_seconds relay + (1 # 2000000))%Q /\
    forall s, asked_delay e = Some s ->
      (qmin (inject_Z s) (r_retry_cap_seconds relay) <= delay + (1 # 2000000))%Q.
Proof.
  intros Hrel Hn Hu Hx. destruct (relay_delay_bounds m (asked_delay e) (tn_draw t) Hrel Hn Hu) as [B L].
  eexists. split; [exact Hx |].
  destruct (scheduled_bounds (tn_now t) _ _ _ B (Qle_refl _)) as (H1 & H2 & _).
  split; [done |]. split; [done |]. intros s Hs.
  by apply (scheduled_bounds (tn_now t) _ _ _ B (L s Hs)).
Qed.

(** One message: its row gets the outcome, and the rest of the table is left
    alone. *)
Lemma relay_message_outcome m t o :
  relay_ok -> undisturbed m t -> in_hand o m ->
  exists x, relay_message relay unicode_isdigit unicode_decimal m t o
    = Ok (is_ok (send m t), <[m_id m := x]> o) /\ outcome m t x.
Proof.
  intros Hrel (Ho & Hu & Hother) (Hn & x & Hx & Htok & Hset & Hcount).
  unfold relay_message, outcome. rewrite Ho.
  assert (x_sent_at x = None) as Hs.
  { unfold settled in Hset. by destruct (x_sent_at x). }
  destruct (send m t) as [a|[|status code ra|name]]; [| | | by destruct (Hother name)].
  - eexists. split; [cbn; do 2 f_equal; by apply finish_owned |]. unfold finished. upd_simpl. done.
  - destruct (record_failure_outcome m t o x (py "TransportError") true None)
      as (x' & Hr & L1 & L2 & L3 & L4 & L5); try done.
    exists x'. rewrite Hr. split; [done |]. split_and!; try done. cbn in L5 |- *.
    destruct (_ <=? _); [done |]. destruct L5 as [L5 L6]. split; [done |].
    by apply (due_outcome m t TransportError).
  - destruct (record_failure_outcome m t o x code (api_retryable status) ra)
      as (x' & Hr & L1 & L2 & L3 & L4 & L5); try done.
    exists x'. rewrite Hr. split; [done |]. split_and!; try done. unfold hopeless. cbn in L5 |- *.
    destruct (_ || _); [done |]. destruct L5 as [L5 L6]. split; [done |].
    by apply (due_outcome m t (ApiError status code ra)).
Qed.

Definition delivered (ms : list OutboxMessage) (ts : nat -> turn) (i : nat) : list bool :=
  imap (fun n m => is_ok (send m (ts (i + n)%nat))) ms.

Definition tally (bs : list bool) : Z * Z :=
  (Z.of_nat (length (filter (fun b => b = true) bs)),
   Z.of_nat (length (filter (fun b => b = false) bs))).

Lemma tally_cons b bs :
  tally (b :: bs) = if b then (1 + (tally bs).1, (tally bs).2) else ((tally bs).1, 1 + (tally bs).2).
Proof.
  destruct b; unfold tally; cbn [fst snd]; rewrite !filter_cons.
  - rewrite decide_True, decide_False by done. cbn [length]. f_equal. lia.
  - rewrite decide_False, decide_True by done. cbn [length]. f_equal. lia.
Qed.

Lemma tally_total bs : (tally bs).1 + (tally bs).2 = Z.of_nat (length bs).
Proof. induction bs as [| [] bs IH]; [done | |]; rewrite tally_cons; cbn [fst snd length]; lia. Qed.

Lemma relay_messages_outcome ms ts : forall i s f o,
  relay_ok -> NoDup (map m_id ms) -> (forall m, m ∈ ms -> in_hand o m) ->
  (forall n m, ms !! n = Some m -> undisturbed m (ts (i + n)%nat)) ->
  exists o', relay_messages relay unicode_isdigit unicode_decimal ms ts i s f o
    = (Ok (s + (tally (delivered ms ts i)).1, f + (tally (delivered ms ts i)).2), o') /\
    (forall n m, ms !! n = Some m -> exists x, o' !! m_id m = Some x /\ outcome m (ts (i + n)%nat) x) /\
    (forall k, k ∉ map m_id ms -> o' !! k = o !! k).
Proof.
  induction ms as [| m ms IH]; intros i s f o Hrel Hnd Hin Hq.
  { exists o. cbn. by rewrite !Z.add_0_r. }
  cbn in Hnd. apply list.NoDup_cons in Hnd as [Hni Hnd].
  pose proof (Hq 0%nat m eq_refl) as Hqm. rewrite Nat.add_0_r in Hqm.
  destruct (relay_message_outcome m (ts i) o Hrel Hqm (Hin m ltac:(left))) as (x & Hm & Hx).
  set (o1 := <[m_id m := x]> o) in *.
  assert (forall s f, exists o', relay_messages relay unicode_isdigit unicode_decimal ms ts (S i) s f o1
    = (Ok (s + (tally (delivered ms ts (S i))).1, f + (tally (delivered ms ts (S i))).2), o') /\
    (forall n y, ms !! n = Some y ->
       exists x, o' !! m_id y = Some x /\ outcome y (ts (S i + n)%nat) x) /\
    (forall k, k ∉ map m_id ms -> o' !! k = o1 !! k)) as IH1.
  { intros s1 f1. apply IH; try done.
    - intros y Hy. destruct (Hin y ltac:(by right)) as (? & z & Hz & ?). split; [done |].
      exists z. split; [| done]. unfold o1. rewrite lookup_insert_ne; [done |].
      intros E. apply Hni. rewrite E. by apply list_elem_of_fmap_2.
    - intros n y Hy. rewrite Nat.add_succ_comm. by apply (Hq (S n)). }
  assert (delivered (m :: ms) ts i = is_ok (send m (ts i)) :: delivered ms ts (S i)) as ->.
  { unfold delivered. rewrite imap_cons, Nat.add_0_r. f_equal. apply imap_ext. intros n y _. cbn.
    by rewrite Nat.add_succ_r. }
  cbn [relay_messages]. rewrite Hm.
  destruct (is_ok (send m (ts i))) eqn:Ek;
    [destruct (IH1 (s + 1) f) as (o' & Hr & Hout & Hkeep)
    | destruct (IH1 s (f + 1)) as (o' & Hr & Hout & Hkeep)];
    (exists o'; split; [rewrite Hr, tally_cons; cbn [fst snd]; by rewrite Z.add_assoc |]; split;
     [intros [| n] y Hy; cbn in Hy;
       [injection Hy as <-; exists x; rewrite Hkeep, Nat.add_0_r by done; unfold o1;
         by rewrite lookup_insert_eq
       | rewrite <- Nat.add_succ_comm; by apply Hout]
     | intros k Hk; cbn in Hk; rewrite Hkeep by set_solver; unfold o1;
       by rewrite lookup_insert_ne by set_solver]).
Qed.

(** A claim leaves its messages in hand. *)
Lemma claim_messages_spec now unlocked uuid o :
  let xs := candidates relay now unlocked o in
  let ms := imap (fun n x => message_of x (uuid n)) xs in
  let claimed := claim_messages relay now unlocked uuid o in
  outbox_ok o ->
  claimed.1 = ms /\ map m_id ms = map x_id xs /\ NoDup (map m_id ms) /\
  (forall m, m ∈ ms -> in_hand claimed.2 m) /\
  (forall k, k ∉ map x_id xs -> claimed.2 !! k = o !! k).
Proof.
  intros xs ms claimed Hok.
  assert (forall x, x ∈ xs -> claimable now x = true /\ o !! x_id x = Some x) as Hxs.
  { intros x Hx. destruct (candidates_spec relay now unlocked o x Hok Hx) as (? & _ & ?). done. }
  destruct (lease_all_ok relay now uuid 0 xs o Hok) as (_ & _ & Hms & Hin & Hout).
  { by apply candidates_NoDup. }
  { intros x (? & ?)%Hxs. split; [by eapply claimable_open | done]. }
  change (imap _ xs) with ms in Hms. cbn [Nat.add] in Hin.
  assert (map m_id ms = map x_id xs) as Hids.
  { unfold ms. apply list_eq. intros i. change (map ?g ?l) with (g <$> l).
    rewrite !list_lookup_fmap, list_lookup_imap. by destruct (xs !! i). }
  split; [exact Hms |]. split; [done |]. split; [rewrite Hids; by apply candidates_NoDup |].
  split; [| exact Hout].
  intros m (n & y & -> & Hy)%elem_of_lookup_imap.
  destruct (Hxs y) as (Hc & Hy'); [by eapply list_elem_of_lookup_2 |].
  pose proof (rw_count _ (ob_rows _ Hok _ _ Hy')). split; [cbn; lia |].
  exists (leased_row relay now (uuid n) y). split; [by apply Hin |].
  unfold leased_row, settled. upd_simpl. apply claimable_open in Hc. done.
Qed.

(** Whatever happens during a batch, the table stays in order as long as the
    other transactions keep it so. *)
Lemma relay_messages_ok ms ts : forall i s f o,
  outbox_ok o ->
  (forall n o, outbox_ok o -> outbox_ok (tn_others (ts n) o) /\ outbox_later o (tn_others (ts n) o)) ->
  let o' := (relay_messages relay unicode_isdigit unicode_decimal ms ts i s f o).2 in
  outbox_ok o' /\ outbox_later o o'.
Proof.
  induction ms as [| m ms IH]; intros i s f o Hok Hts; [done |]. cbn.
  destruct (Hts i o Hok) as [Hok1 Hl1].
  destruct (relay_message _ _ _ m (ts i) o) as [[b o1]|e] eqn:E; [| done].
  assert (outbox_ok o1 /\ outbox_later o o1) as [Hok2 Hl2].
  { apply relay_message_cases in E as [[_ ->]|(_ & code & retryable & ra & Hr)].
    - destruct (finish_ok (tn_now (ts i)) m true None None false _ Hok1) as [? ?]; try done.
      split; [done | by etrans].
    - destruct (record_failure_ok relay _ _ _ _ _ _ _ _ Hok1 Hr) as [? ?]. split; [done | by etrans]. }
  destruct b; [destruct (IH (S i) (s + 1) f o1 Hok2 Hts) as [? ?]
    | destruct (IH (S i) s (f + 1) o1 Hok2 Hts) as [? ?]]; (split; [done | by etrans]).
Qed.
End Batch.

(** The first [n] of a sorted list come before those left out. *)
Lemma take_order_by {A} (key : A -> list Z) n l x :
  x ∈ l -> x ∉ take n (order_by key l) ->
  length (take n (order_by key l)) = n /\ forall y, y ∈ take n (order_by key l) -> key_le key y x.
Proof.
  intros Hx Hnot. pose proof (order_by_sorted key l) as Hs. apply (order_by_elem key) in Hx.
  set (s := order_by key l) in *. rewrite <- (take_drop n s) in Hx, Hs.
  apply elem_of_app in Hx as [?|Hx]; [done |]. split.
  - rewrite length_take. destruct (decide (n <= length s)%nat) as [?|Hlt]; [lia |].
    rewrite drop_ge in Hx by lia. by apply not_elem_of_nil in Hx.
  - intros y Hy. clear Hnot. revert Hs Hy. generalize (take n s). intros l1.
    induction l1 as [| z l1 IH]; intros Hs Hy; [by apply not_elem_of_nil in Hy |].
    cbn in Hs. apply StronglySorted_inv in Hs as [Hs Hz].
    apply elem_of_cons in Hy as [->|Hy]; [| by apply IH].
    rewrite list.Forall_forall in Hz. apply Hz, elem_of_app. by right.
Qed.

(** ** Claims *)


(** One batch.  A relay that is alone with its table and gets answers
    claims, oldest first, as many of the due, unleased and unlocked rows as
    its batch holds, and its run returns with every one of them settled
    or due again: sent when the platform accepted it, failed when the
    platform refused it for good or the attempts are used up, and otherwise
    due after a delay that respects [Retry-After] and the cap; the counts are
    those of the answers, and no other row changes. *)
Theorem run_once_correct `{Rounding} relay unicode_isdigit unicode_decimal now unlocked uuid ts o :
  let xs := candidates relay now unlocked o in
  let ms := imap (fun n x => message_of x (uuid n)) xs in
  outbox_ok o -> relay_ok relay ->
  (forall n m, ms !! n = Some m -> undisturbed unicode_isdigit unicode_decimal m (ts n)) ->
  exists o', run_once relay unicode_isdigit unicode_decimal now unlocked uuid ts o
    = (Ok (tally (delivered unicode_isdigit unicode_decimal ms ts 0)), o') /\
    Z.of_nat (length xs) <= Z.max 0 (r_batch_size relay) /\
    (forall n x, xs !! n = Some x ->
       claimable now x = true /\ unlocked (x_id x) = true /\ o !! x_id x = Some x /\
       exists x', o' !! x_id x = Some x' /\
         outcome relay unicode_isdigit unicode_decimal (message_of x (uuid n)) (ts n) x') /\
    (forall x, o !! x_id x = Some x -> claimable now x = true -> unlocked (x_id x) = true -> x ∉ xs ->
       Z.of_nat (length xs) = Z.max 0 (r_batch_size relay) /\
       forall y, y ∈ xs -> key_le (fun x => x_created_at x :: x_id x) y x) /\
    (forall k, k ∉ map x_id xs -> o' !! k = o !! k).
Proof.
  intros xs ms Hok Hrel Hq.
  destruct (claim_messages_spec relay now unlocked uuid o Hok) as (Hms & Hids & Hnd & Hhand & Hout).
  fold xs in Hms, Hids, Hnd, Hhand, Hout. fold ms in Hms, Hids, Hnd, Hhand.
  destruct (relay_messages_outcome relay unicode_isdigit unicode_decimal ms ts 0 0 0
    (claim_messages relay now unlocked uuid o).2 Hrel Hnd Hhand Hq) as (o' & Hr & Hres & Hkeep).
  exists o'. split; [| split; [| split; [| split]]].
  - unfold run_once. rewrite Hms, Hr. by destruct (tally _).
  - unfold xs, candidates. rewrite length_take. lia.
  - intros n x Hx. destruct (candidates_spec relay now unlocked o x Hok) as (? & ? & ?);
      [by eapply list_elem_of_lookup_2 |].
    split_and!; try done. apply (Hres n (message_of x (uuid n))).
    unfold ms. by rewrite list_lookup_imap, Hx.
  - intros x Hx Hc Hu Hnot. unfold xs, candidates in Hnot |- *.
    pose proof (fun Hin => take_order_by _ _ _ _ Hin Hnot) as Hb.
    destruct Hb as [-> Hbefore]; [| split; [lia | done]].
    apply list_elem_of_filter. rewrite Hc, Hu. split; [done |].
    apply list_elem_of_fmap. exists (x_id x, x). split; [done |]. by apply elem_of_map_to_list.
  - intros k Hk. rewrite Hkeep by (by rewrite Hids). by apply Hout.
Qed.

Module OutboxDemo.
#[local] Existing Instance exact_rounding.
Definition isdigit_ascii (c : Z) : bool := (48 <=? c) && (c <=? 57).
Definition decimal_ascii (c : Z) : option Z := if isdigit_ascii c then Some (c - 48) else None.
Definition relay : OutboxRelay := Relay 10 30 5 1 60.
Definition enqueued : Outbox :=
  match enqueue_outbox (py "fresh") (py "row") 5 (py "order.paid") DataDemo.payload (Some (py "key"))
          (py "native") ∅ with
  | Ok r => r.2
  | Raise _ => ∅
  end.
Definition claimed : list OutboxMessage * Outbox :=
  claim_messages relay 10 (fun _ => true) DataDemo.uuid enqueued.
Definition message : OutboxMessage :=
  Message (py "row") (py "order.paid") DataDemo.payload (py "key") (py "native") (DataDemo.uuid 0) 1.
Definition accepted_turn : turn := Turn id (Some (HttpResponse 202 (Some (JObj [])) None)) 11 (1 # 2).
Definition throttled_turn : turn :=
  Turn id (Some (HttpResponse 429 None (Some (py "7")))) 11 (1 # 2).
Definition sent_row : OutboxRow :=
  MkOutboxRow (py "row") (py "order.paid") DataDemo.payload (py "key") (py "native") None None 1 None
    None 5 (Some 11) None.

Lemma empty_ok : outbox_ok ∅.
Proof. split; intros *; rewrite lookup_empty; done. Qed.

Lemma enqueued_ok : outbox_ok enqueued.
Proof.
  eapply (enqueue_ok (py "fresh") (py "row") 5 (py "order.paid") DataDemo.payload (Some (py "key"))
    (py "native") (py "key") ∅); [apply empty_ok |]. vm_compute. reflexivity.
Qed.

Lemma sending :
  history default_settings TenancyDemo.project isdigit_ascii decimal_ascii ∅ DataDemo.db
    {[ py "row" := sent_row ]} DataDemo.accepted_db [message] [message].
Proof.
  eapply (hi_relay _ _ _ _ _ _ relay message accepted_turn true _ claimed.2); [| by left | done | | by left].
  - eapply (hi_accept _ _ _ _ _ _ message DataDemo.uuid 10 id (None, None) DataDemo.event);
      [| by left | apply DataDemo.plane | done | exact DataDemo.first_accepted].
    assert (claimed.1 = [message]) as Hc by (vm_compute; reflexivity).
    change [message] with ([] ++ [message]). rewrite <- Hc. apply hi_claim.
    eapply (hi_enqueue _ _ _ _ _ _ (py "fresh") (py "row") 5 (py "order.paid") DataDemo.payload
      (Some (py "key")) (py "native") (py "key") ∅); [apply hi_start |]. vm_compute. reflexivity.
  - vm_compute. reflexivity.
Qed.

Lemma relay_fine : relay_ok relay.
Proof. by split. Qed.
End OutboxDemo.

#[local] Existing Instance exact_rounding.


(** A throttled batch of one message. *)
Lemma run_once_correct_witness :
  exists o' x', run_once OutboxDemo.relay OutboxDemo.isdigit_ascii OutboxDemo.decimal_ascii 10
    (fun _ => true) DataDemo.uuid (fun _ => OutboxDemo.throttled_turn) OutboxDemo.enqueued
    = (Ok (0, 1), o') /\ o' !! py "row" = Some x' /\ x_next_attempt_at x' = Some 7000011.
Proof.
  destruct (run_once_correct OutboxDemo.relay OutboxDemo.isdigit_ascii OutboxDemo.decimal_ascii 10
    (fun _ => true) DataDemo.uuid (fun _ => OutboxDemo.throttled_turn) OutboxDemo.enqueued
    OutboxDemo.enqueued_ok OutboxDemo.relay_fine) as (o' & Hr & _).
  { intros n m. assert (imap (fun n x => message_of x (DataDemo.uuid n))
      (candidates OutboxDemo.relay 10 (fun _ => true) OutboxDemo.enqueued) = [OutboxDemo.message]) as ->
      by (vm_compute; reflexivity).
    destruct n as [| n]; [intros [= <-] | done].
    split; [done |]. split; [by split |]. intros name. vm_compute. discriminate. }
  assert (o' = (run_once OutboxDemo.relay OutboxDemo.isdigit_ascii OutboxDemo.decimal_ascii 10
    (fun _ => true) DataDemo.uuid (fun _ => OutboxDemo.throttled_turn) OutboxDemo.enqueued).2) as ->
    by by rewrite Hr.
  eexists _, _. split; [rewrite Hr; f_equal; vm_compute; reflexivity |]. split; vm_compute; reflexivity.
Defined.
