(* ===== verification/Middleware.v ===== *)
(** * Request middleware

    [src/app/middleware.py]: the limit on declared bodies, the request
    identifier and response headers, and the fixed-window rate limiter that
    protects login and registration, with its bounded table. *)

From Stdlib Require Import QArith Lqa Qround.
From stdpp Require Import base tactics list gmap sets strings numbers option.
From S2P Require Import Prelude Text Models Session Settings Delivery Receiver.
Local Open Scope Z_scope.

(** ** Python dictionaries

    In insertion order, which [min] over the keys observes. *)

Lemma str_eqb_spec (a b : str) : Bool.reflect (a = b) (str_eqb a b).
Proof. apply Bool.iff_reflect. symmetry. apply bool_decide_eq_true. Qed.

Section Dict.
Context {V : Type}.

Fixpoint dget (k : str) (d : list (str * V)) : option V :=
  match d with
  | [] => None
  | (k', v) :: d' => if str_eqb k' k then Some v else dget k d'
  end.

Fixpoint dset (k : str) (v : V) (d : list (str * V)) : list (str * V) :=
  match d with
  | [] => [(k, v)]
  | (k', v') :: d' => if str_eqb k' k then (k, v) :: d' else (k', v') :: dset k v d'
  end.

Definition dpop (k : str) (d : list (str * V)) : list (str * V) :=
  filter (fun kv => Is_true (negb (str_eqb kv.1 k))) d.

Lemma dget_dset k k' v d : dget k' (dset k v d) = if str_eqb k k' then Some v else dget k' d.
Proof.
  induction d as [| [k0 v0] d IH]; cbn; [done |].
  destruct (str_eqb_spec k0 k) as [->|Hk]; cbn.
  - by destruct (str_eqb_spec k k').
  - rewrite IH. destruct (str_eqb_spec k0 k') as [->|]; [| done].
    by destruct (str_eqb_spec k k') as [->|].
Qed.

Lemma dget_dset_eq k v d : dget k (dset k v d) = Some v.
Proof. rewrite dget_dset. by destruct (str_eqb_spec k k). Qed.
Lemma dget_dset_ne k k' v d : k <> k' -> dget k' (dset k v d) = dget k' d.
Proof. rewrite dget_dset. by destruct (str_eqb_spec k k'). Qed.

Lemma dget_Some k v d : NoDup d.*1 -> dget k d = Some v <-> (k, v) ∈ d.
Proof.
  induction d as [| [k0 v0] d IH]; cbn; [by rewrite elem_of_nil |].
  intros [Hn Hnd]%list.NoDup_cons. rewrite elem_of_cons. specialize (IH Hnd).
  destruct (str_eqb_spec k0 k) as [->|Hk].
  - split; [intros [= ->]; by left |]. intros [[= ->]|Hin]; [done |].
    exfalso. apply Hn. by apply (list_elem_of_fmap_2 fst _ _ Hin).
  - rewrite IH. split; [by right | intros [[= ]|?]; congruence].
Qed.

Lemma dget_None k d : dget k d = None <-> k ∉ d.*1.
Proof.
  induction d as [| [k0 v0] d IH]; cbn; [split; [intros _; apply not_elem_of_nil | done] |].
  rewrite not_elem_of_cons. destruct (str_eqb_spec k0 k) as [->|Hk].
  - split; [done | by intros [? _]].
  - rewrite IH. naive_solver.
Qed.

Lemma dset_keys k v d :
  (dset k v d).*1 = if has (dget k d) then d.*1 else d.*1 ++ [k].
Proof.
  induction d as [| [k0 v0] d IH]; cbn; [done |].
  destruct (str_eqb_spec k0 k) as [->|Hk]; cbn; [done |].
  rewrite IH. by destruct (dget k d).
Qed.

Lemma dset_NoDup k v d : NoDup d.*1 -> NoDup (dset k v d).*1.
Proof.
  intros Hd. rewrite dset_keys. destruct (dget k d) eqn:E; [done |].
  apply dget_None in E. apply list.NoDup_app. split; [done |]. split; [| apply NoDup_singleton].
  intros x Hx Hk%list_elem_of_singleton. by subst.
Qed.

Lemma dset_length k v d :
  length (dset k v d) = if has (dget k d) then length d else S (length d).
Proof.
  rewrite <- (length_fmap fst), dset_keys. destruct (dget k d); cbn [has].
  - by rewrite length_fmap.
  - rewrite length_app, length_fmap. cbn. lia.
Qed.

Lemma filter_keys_NoDup (P : str * V -> Prop) `{!forall x, Decision (P x)} d :
  NoDup d.*1 -> NoDup (filter P d).*1.
Proof.
  apply (NoDup_map_filter fst).
Qed.
End Dict.

(** ** Requests and responses *)

(** What the middleware reads of a request. *)
Record HttpRequest : Type := MkHttpRequest {
  rq_method : str;
  rq_path : str;
  rq_client : option str;
  rq_content_length : option str;
  rq_request_id : option str;
}.

(** What it adds to a response; [X-Process-Time] is a measurement. *)
Record HttpHeaders : Type := MkHttpHeaders {
  hh_request_id : option str;
  hh_content_type_options : option str;
  hh_frame_options : option str;
  hh_referrer_policy : option str;
  hh_retry_after : option Z;
}.

Definition no_headers : HttpHeaders := MkHttpHeaders None None None None None.

Record HttpResponse : Type := MkHttpResponse {
  hp_status : Z;
  hp_code : option str;
  hp_headers : HttpHeaders;
}.

#[export] Instance eta_HttpHeaders : Eta HttpHeaders := fun h =>
  MkHttpHeaders (hh_request_id h) (hh_content_type_options h) (hh_frame_options h)
    (hh_referrer_policy h) (hh_retry_after h).
#[export] Instance eta_HttpResponse : Eta HttpResponse := fun r =>
  MkHttpResponse (hp_status r) (hp_code r) (hp_headers r).

(** ** The body limit *)

Definition BODY_LIMIT_SLACK_BYTES : Z := 65536.

Section BodyLimit.
Context (unicode_isdigit : Z -> bool) (unicode_decimal : Z -> option Z) (settings : Settings).

Definition too_large : HttpResponse := MkHttpResponse 413 (Some (py "PAYLOAD_TOO_LARGE")) no_headers.

(** [BodySizeLimitMiddleware.dispatch]: refuse, go on, or the [ValueError] of
    [int] on digits it does not read. *)
Definition body_limit (declared : option str) : res exn (option HttpResponse) :=
  match declared with
  | Some text =>
      if isdigit unicode_isdigit text then
        match int_of_str unicode_decimal text with
        | Ok n =>
            if webhook_payload_max_bytes settings + BODY_LIMIT_SLACK_BYTES <? n
            then Ok (Some too_large) else Ok None
        | Raise _ => Raise (ValueError "invalid literal for int()")
        end
      else Ok None
  | None => Ok None
  end.
End BodyLimit.

(** ** The request identifier *)

Definition request_id_char (c : Z) : bool :=
  ((65 <=? c) && (c <=? 90)) || ((97 <=? c) && (c <=? 122)) || ascii_digit c
  || (c =? 46) || (c =? 95) || (c =? 45).

(** [_REQUEST_ID_PATTERN.fullmatch] *)
Definition request_id_ok (s : str) : bool :=
  (1 <=? len s) && (len s <=? 128) && forallb request_id_char s.

Definition request_id (uuid4 : str) (supplied : option str) : str :=
  let supplied_id := default [] supplied in
  if request_id_ok supplied_id then supplied_id else uuid4.

(** The headers [RequestContextMiddleware.dispatch] sets on a response. *)
Definition add_context (id : str) (r : HttpResponse) : HttpResponse :=
  let headers := hp_headers r in
  let headers := headers
    &{ hh_request_id := Some id }
    &{ hh_content_type_options := Some (py "nosniff") }
    &{ hh_frame_options := Some (py "DENY") }
    &{ hh_referrer_policy := Some (py "no-referrer") } in
  r &{ hp_headers := headers }.

(** ** The rate limiter *)

Definition RATE_LIMITED_PATHS : list str := [py "/auth/login"; py "/users/"].

Record RateLimit : Type := MkRateLimit { requests : Z; window : Z; max_entries : Z }.

(** [requests or settings.rate_limit_requests] and so on: [None] and 0 take
    the setting. *)
Definition or_setting (n : option Z) (setting : Z) : Z :=
  let n := default 0 n in if n =? 0 then setting else n.

(** [RateLimitMiddleware.__init__] *)
Definition rate_limit (settings : Settings) (requests window_seconds max_entries : option Z) : RateLimit :=
  {| requests := or_setting requests (rate_limit_requests settings);
     window := or_setting window_seconds (rate_limit_window_seconds settings);
     max_entries := or_setting max_entries (rate_limit_max_entries settings) |}.

(** [_HITS]: for each key the start of its window and the requests in it. *)
Abbreviation hits := (list (str * (Q * Z))).

Definition is_limited (r : HttpRequest) : bool :=
  str_eqb (rq_method r) (py "POST") && existsb (str_eqb (rq_path r)) RATE_LIMITED_PATHS.

Definition client_key (r : HttpRequest) : str :=
  match rq_client r with Some host => host | None => py "unknown" end.

(** [int(x)] of a float: towards zero *)
Definition trunc (q : Q) : Z := if Qle_bool 0 q then Qfloor q else - Qfloor (- q).

Section Limiter.
Context `{Rounding} (l : RateLimit).

Definition expired (now : Q) (entry : Q * Z) : bool :=
  Qle_bool (inject_Z (window l)) (fsub now entry.1).

(** [min(self._hits, key=...)]: the first of the oldest windows *)
Fixpoint oldest (best : str * Q) (h : hits) : str * Q :=
  match h with
  | [] => best
  | (k, (start, _)) :: h' => oldest (if qlt start best.2 then (k, start) else best) h'
  end.

(** [_make_room]; [min] of an empty table, which raises, would need a negative
    [max_entries]. *)
Definition make_room (now : Q) (key : str) (h : hits) : hits :=
  if has (dget key h) || (len h <? max_entries l) then h
  else
    let h := filter (fun kv => Is_true (negb (expired now kv.2))) h in
    if max_entries l <=? len h
    then match h with
         | [] => []
         | (k, (start, _)) :: h' => dpop (oldest (k, start) h').1 h
         end
    else h.

(** [_check] *)
Definition check (now : Q) (key : str) (h : hits) : (bool * Z) * hits :=
  let open_window := ((true, 0), dset key (now, 1) (make_room now key h)) in
  match dget key h with
  | None => open_window
  | Some (window_start, count) =>
      if expired now (window_start, count) then open_window
      else if requests l <=? count then
        ((false, Z.max 1 (trunc (fsub (float_of (window l)) (fsub now window_start)))), h)
      else ((true, 0), dset key (window_start, count + 1) h)
  end.

Definition rate_limited (retry_after : Z) : HttpResponse :=
  MkHttpResponse 429 (Some (py "RATE_LIMITED"))
    (no_headers &{ hh_retry_after := Some retry_after }).

(** [RateLimitMiddleware.dispatch]: [None] hands the request on. *)
Definition limit (now : Q) (r : HttpRequest) (h : hits) : option HttpResponse * hits :=
  if is_limited r then
    let '((allowed, retry_after), h') := check now (client_key r ++ [58] ++ rq_path r) h in
    ((if allowed then None else Some (rate_limited retry_after)), h')
  else (None, h).

(** The stack of [create_app], from the outside in: body limit, context, rate
    limit, then the application; the host check, CORS and compression are
    Starlette's. *)
Definition dispatch (unicode_isdigit : Z -> bool) (unicode_decimal : Z -> option Z)
    (settings : Settings) (app : HttpRequest -> res exn HttpResponse) (uuid4 : str) (now : Q)
    (r : HttpRequest) (h : hits) : res exn HttpResponse * hits :=
  match body_limit unicode_isdigit unicode_decimal settings (rq_content_length r) with
  | Raise e => (Raise e, h)
  | Ok (Some refusal) => (Ok refusal, h)
  | Ok None =>
      let id := request_id uuid4 (rq_request_id r) in
      let '(refusal, h') := limit now r h in
      match refusal with
      | Some response => (Ok (add_context id response), h')
      | None => (match app r with Ok response => Ok (add_context id response) | Raise e => Raise e end, h')
      end
  end.
End Limiter.

(** ** The table is bounded *)

Section Bounded.
Context `{Rounding} (l : RateLimit).

Lemma oldest_in best h :
  (oldest best h).1 = best.1 \/ (oldest best h).1 ∈ h.*1.
Proof.
  revert best; induction h as [| [k [s c]] h IH]; intros best; cbn; [by left |].
  rewrite elem_of_cons. destruct (IH (if qlt s best.2 then (k, s) else best)) as [->|?]; [| tauto].
  destruct (qlt s best.2); cbn; tauto.
Qed.

Lemma dpop_length k (h : hits) : k ∈ h.*1 -> (length (dpop k h) < length h)%nat.
Proof.
  intros ([k' v] & -> & Hin)%list_elem_of_fmap. unfold dpop.
  apply (length_filter_lt _ _ (k', v)); [done |]. cbn. intros Hn%Is_true_true%negb_true_iff.
  unfold str_eqb in Hn. by apply bool_decide_eq_false in Hn.
Qed.

Lemma make_room_sub now key h : make_room l now key h ⊆ h.
Proof.
  unfold make_room. destruct (_ || _); [done |].
  set (h1 := filter _ h). assert (h1 ⊆ h) as Hsub by (intros x [_ ?]%list_elem_of_filter; done).
  destruct (_ <=? _); [| done]. destruct h1 as [| [k [s c]] h'] eqn:E; [set_solver |].
  intros x [_ Hx]%list_elem_of_filter. by apply Hsub.
Qed.

Lemma make_room_NoDup now key h : NoDup h.*1 -> NoDup (make_room l now key h).*1.
Proof.
  intros Hd. unfold make_room. destruct (_ || _); [done |].
  set (h1 := filter _ h). assert (NoDup h1.*1) as Hd1 by by apply filter_keys_NoDup.
  destruct (_ <=? _); [| done]. destruct h1 as [| [k [s c]] h'] eqn:E; [constructor |].
  by apply filter_keys_NoDup.
Qed.

(** Room for one more, whenever the key is new. *)
Lemma make_room_length now key h :
  1 <= max_entries l -> dget key h = None -> len h <= max_entries l ->
  len (make_room l now key h) < max_entries l.
Proof.
  intros Hm Hk Hl. unfold make_room. rewrite Hk. cbn [has orb].
  destruct (len h <? max_entries l) eqn:E; [lia |].
  set (h1 := filter _ h).
  assert (len h1 <= len h) by (unfold len; pose proof (length_filter _ h : (length h1 <= _)%nat); lia).
  destruct (max_entries l <=? len h1) eqn:E1; [| lia].
  destruct h1 as [| [k [s c]] h'] eqn:Eh; [unfold len in E1 |- *; cbn [length] in *; lia |].
  pose proof (dpop_length (oldest (k, s) h').1 ((k, (s, c)) :: h')) as Hp.
  unfold len in *. assert ((oldest (k, s) h').1 ∈ ((k, (s, c)) :: h').*1) as Hin; [| apply Hp in Hin; lia].
  cbn. rewrite elem_of_cons. by destruct (oldest_in (k, s) h') as [->|?]; [left | right].
Qed.

Lemma check_bounded now key h :
  1 <= max_entries l -> NoDup h.*1 -> len h <= max_entries l ->
  NoDup (check l now key h).2.*1 /\ len (check l now key h).2 <= max_entries l.
Proof.
  intros Hm Hd Hl.
  assert (forall (v : Q * Z) (h' : hits), NoDup h'.*1 -> (dget key h' = None -> len h' < max_entries l) ->
    len h' <= max_entries l ->
    NoDup (dset key v h').*1 /\ len (dset key v h') <= max_entries l) as Hset.
  { intros v h' Hd' Hn Hl'. split; [by apply dset_NoDup |]. unfold len. rewrite dset_length.
    destruct (dget key h') eqn:E; cbn [has]; [done |]. specialize (Hn eq_refl). unfold len in Hn. lia. }
  assert (dget key h <> None -> make_room l now key h = h) as Hsame.
  { unfold make_room. by destruct (dget key h). }
  unfold check. destruct (dget key h) as [[start count]|] eqn:E.
  - destruct (expired _ _ _); [rewrite Hsame by done; cbn; apply Hset; try done; by rewrite E |].
    destruct (_ <=? _); cbn; [done |]. apply Hset; try done. by rewrite E.
  - cbn. pose proof (make_room_length now key h Hm E Hl). apply Hset; [by apply make_room_NoDup | done | lia].
Qed.
End Bounded.

(** ** The budget of a key

    Over exact clocks: [ts] are the times at which a key's requests were
    admitted, latest first, and its current window, open since [ws], holds
    [c] of them. *)

Section Windows.
#[local] Existing Instance exact_rounding.
Context (l : RateLimit).
Abbreviation w := (inject_Z (window l)).

Fixpoint count (P : Q -> bool) (ts : list Q) : Z :=
  match ts with
  | [] => 0
  | t :: ts' => (if P t then 1 else 0) + count P ts'
  end.

Definition from (t0 t : Q) : bool := Qle_bool t0 t.
Definition within (t0 t1 t : Q) : bool := Qle_bool t0 t && qlt t t1.

Lemma count_nonneg P ts : 0 <= count P ts.
Proof. induction ts as [| t ts IH]; cbn; [lia | destruct (P t); lia]. Qed.

Lemma count_le P P' ts :
  (forall t, t ∈ ts -> P t = true -> P' t = true) -> count P ts <= count P' ts.
Proof.
  induction ts as [| t ts IH]; intros Hp; cbn; [lia |].
  assert (count P ts <= count P' ts) by (apply IH; intros u Hu; apply Hp; by right).
  specialize (Hp t ltac:(left)). destruct (P t); [rewrite Hp by done |]; destruct (P' t); lia.
Qed.

Lemma count_split P P1 P2 ts :
  (forall t, t ∈ ts -> P t = true -> P1 t = true \/ P2 t = true) ->
  count P ts <= count P1 ts + count P2 ts.
Proof.
  induction ts as [| t ts IH]; intros Hp; cbn; [lia |].
  assert (count P ts <= count P1 ts + count P2 ts) by (apply IH; intros u Hu; apply Hp; by right).
  specialize (Hp t ltac:(left)). destruct (P t); [| destruct (P1 t), (P2 t); lia].
  destruct Hp as [-> | ->]; [done | |]; destruct (P1 t), (P2 t); lia.
Qed.

Lemma from_true t0 t : from t0 t = true <-> (t0 <= t)%Q.
Proof. apply Qle_bool_iff. Qed.
Lemma from_false t0 t : from t0 t = false <-> (t < t0)%Q.
Proof.
  unfold from. rewrite <- not_true_iff_false, Qle_bool_iff. split; [apply Qnot_le_lt | apply Qlt_not_le].
Qed.
Lemma within_true t0 t1 t : within t0 t1 t = true <-> (t0 <= t < t1)%Q.
Proof.
  unfold within, qlt. rewrite andb_true_iff, negb_true_iff, Qle_bool_iff.
  rewrite (from_false t1 t : Qle_bool t1 t = false <-> _). done.
Qed.

Record window_state (ts : list Q) (ws : Q) (c : Z) : Prop := {
  wi_count : count (from ws) ts = c;
  wi_budget : 1 <= c <= requests l;
  wi_end : forall t, t ∈ ts -> (t < ws + w)%Q;
  wi_before : forall t0, (ws - w < t0)%Q -> count (within t0 ws) ts <= requests l;
  wi_any : forall t0, count (within t0 (t0 + w)) ts <= 2 * requests l;
}.

Context (Hreq : 1 <= requests l) (Hwin : 0 < window l).

Lemma window_pos : (0 < w)%Q.
Proof. change 0%Q with (inject_Z 0). by rewrite <- Zlt_Qlt. Qed.

Lemma first_window now : window_state [now] now 1.
Proof.
  pose proof window_pos. split; cbn.
  - by rewrite (proj2 (from_true now now)) by apply Qle_refl.
  - lia.
  - intros t ->%list_elem_of_singleton. lra.
  - intros t0 _. destruct (within t0 now now); lia.
  - intros t0. destruct (within _ _ now); lia.
Qed.

(** A window opens when the one before it is over. *)
Lemma next_window ts ws c now :
  window_state ts ws c -> (ws + w <= now)%Q -> window_state (now :: ts) now 1.
Proof.
  intros [Hc Hb He Hbef Hany] Hnow. pose proof window_pos.
  assert (count (from now) ts = 0) as H0.
  { assert (count (from now) ts <= count (fun _ => false) ts) as Hle.
    { apply count_le. intros t Ht%He Hf%from_true. lra. }
    assert (forall ts, count (fun _ => false) ts = 0) as Hz by (induction ts0; cbn; lia).
    rewrite Hz in Hle. pose proof (count_nonneg (from now) ts). lia. }
  assert (forall t0, (now - w < t0)%Q -> count (within t0 now) ts <= requests l) as Hlast.
  { intros t0 Ht0. trans (count (from ws) ts); [| lia]. apply count_le.
    intros t Ht [? ?]%within_true. apply from_true. lra. }
  split; cbn [count].
  - rewrite (proj2 (from_true now now)) by apply Qle_refl. lia.
  - lia.
  - intros t [->|Ht%He]%elem_of_cons; lra.
  - intros t0 Ht0. specialize (Hlast t0 Ht0). destruct (within t0 now now) eqn:E; [| lia].
    apply within_true in E. lra.
  - intros t0. specialize (Hany t0). destruct (within t0 (t0 + w) now) eqn:E; [| lia].
    apply within_true in E.
    assert (count (within t0 (t0 + w)) ts <= count (within t0 now) ts).
    { apply count_le. intros t Ht [? ?]%within_true. apply within_true. split; [done |].
      apply He in Ht. lra. }
    assert (count (within t0 now) ts <= requests l) by (apply Hlast; lra). lia.
Qed.

(** One more request in the current window. *)
Lemma same_window ts ws c now :
  window_state ts ws c -> (ws <= now)%Q -> (now < ws + w)%Q -> c < requests l ->
  window_state (now :: ts) ws (c + 1).
Proof.
  intros [Hc Hb He Hbef Hany] Hge Hlt Hlim.
  assert (from ws now = true) as Hf by by apply from_true.
  split; cbn [count].
  - rewrite Hf. lia.
  - lia.
  - intros t [->|Ht%He]%elem_of_cons; lra.
  - intros t0 Ht0. specialize (Hbef t0 Ht0). destruct (within t0 ws now) eqn:E; [| lia].
    apply within_true in E. lra.
  - intros t0. specialize (Hany t0). destruct (within t0 (t0 + w) now) eqn:E; [| lia].
    apply within_true in E.
    assert (count (within t0 (t0 + w)) ts <= count (within t0 ws) ts + count (from ws) ts).
    { apply count_split. intros t Ht [? ?]%within_true. rewrite within_true, from_true.
      destruct (Qlt_le_dec t ws); [left; lra | by right]. }
    assert (count (within t0 ws) ts <= requests l) by (apply Hbef; lra). lia.
Qed.
End Windows.

(** ** Runs of the limiter *)

Section Runs.
#[local] Existing Instance exact_rounding.
Context (l : RateLimit).
Abbreviation w := (inject_Z (window l)).

(** A run: the time of the last request, the table, and what was decided,
    latest first; [fit] restricts when a request may come. *)
Inductive served (fit : Q -> str -> hits -> Prop) : Q -> hits -> list (Q * str * bool) -> Prop :=
| sv_start now : served fit now [] []
| sv_request last now key allowed retry_after h h' log :
    served fit last h log -> (last <= now)%Q -> fit now key h ->
    check l now key h = ((allowed, retry_after), h') ->
    served fit now h' ((now, key, allowed) :: log).

(** No window that still runs has to make room for another. *)
Definition calm (now : Q) (key : str) (h : hits) : Prop :=
  has (dget key h) = true \/
  len (filter (fun kv => Is_true (negb (expired l now kv.2))) h) < max_entries l.

Fixpoint admitted (k : str) (log : list (Q * str * bool)) : list Q :=
  match log with
  | [] => []
  | (t, k', allowed) :: log' =>
      if allowed && str_eqb k' k then t :: admitted k log' else admitted k log'
  end.

Lemma expired_iff now ws c : expired l now (ws, c) = true <-> (ws + w <= now)%Q.
Proof.
  unfold expired, fsub. cbn [rnd exact_rounding fst]. rewrite Qle_bool_iff. split; intros; lra.
Qed.
Lemma expired_not now ws c : expired l now (ws, c) = false <-> (now < ws + w)%Q.
Proof.
  rewrite <- not_true_iff_false, expired_iff. split; [apply Qnot_le_lt | apply Qlt_not_le].
Qed.

Lemma dget_filter (P : str * (Q * Z) -> Prop) `{!forall x, Decision (P x)} (h : hits) k :
  NoDup h.*1 ->
  dget k (filter P h) = v ← dget k h; if decide (P (k, v)) then Some v else None.
Proof.
  intros Hd. pose proof (filter_keys_NoDup P h Hd) as Hf.
  destruct (dget k h) as [v|] eqn:E; cbn.
  - apply dget_Some in E; [| done]. case_decide as Hp.
    + apply dget_Some; [done |]. by apply list_elem_of_filter.
    + apply dget_None. intros ([k' v'] & -> & [Hp' Hin]%list_elem_of_filter)%list_elem_of_fmap.
      cbn in E, Hp. apply dget_Some in Hin; [| done]. apply dget_Some in E; [| done].
      rewrite E in Hin. by injection Hin as ->.
  - apply dget_None in E. apply dget_None. intros Hin. apply E.
    apply list_elem_of_fmap in Hin as (x & -> & [_ Hx]%list_elem_of_filter).
    by apply list_elem_of_fmap_2.
Qed.

(** Under [calm], only windows that are over are dropped. *)
Lemma make_room_calm now key (h : hits) k :
  NoDup h.*1 -> calm now key h ->
  dget k (make_room l now key h) = dget k h \/
  exists ws c, dget k h = Some (ws, c) /\ (ws + w <= now)%Q /\ dget k (make_room l now key h) = None.
Proof.
  intros Hd Hc. unfold make_room.
  destruct (has (dget key h) || _) eqn:E; [by left |]. apply orb_false_iff in E as [E _].
  destruct Hc as [Hc|Hc]; [congruence |]. rewrite (proj2 (Z.leb_gt _ _)) by done.
  rewrite dget_filter by done. destruct (dget k h) as [[ws c]|]; cbn; [| by left].
  case_decide as Hp; [by left |]. right. exists ws, c. split; [done |]. split; [| done].
  apply (expired_iff now ws c). destruct (expired l now (ws, c)); [done | by destruct Hp].
Qed.

Definition key_state (k : str) (last : Q) (h : hits) (log : list (Q * str * bool)) : Prop :=
  match dget k h with
  | Some (ws, c) => window_state l (admitted k log) ws c /\ (ws <= last)%Q
  | None => admitted k log = [] \/
            exists ws c, window_state l (admitted k log) ws c /\ (ws + w <= last)%Q
  end.

Lemma key_state_other k last now h h' log :
  key_state k last h log -> (last <= now)%Q ->
  (dget k h' = dget k h \/
   exists ws c, dget k h = Some (ws, c) /\ (ws + w <= now)%Q /\ dget k h' = None) ->
  key_state k now h' log.
Proof.
  unfold key_state. intros Hk Hle [->|(ws & c & E & Hw & ->)].
  - destruct (dget k h) as [[ws c]|].
    + destruct Hk as [? ?]. split; [done | lra].
    + destruct Hk as [?|(ws & c & ? & ?)]; [by left | right]. exists ws, c. split; [done | lra].
  - rewrite E in Hk. destruct Hk as [? _]. right. by exists ws, c.
Qed.

Context (Hreq : 1 <= requests l) (Hwin : 0 < window l).

Lemma open_window k last now h log :
  key_state k last h log -> (last <= now)%Q ->
  (forall ws c, dget k h = Some (ws, c) -> (ws + w <= now)%Q) ->
  window_state l (now :: admitted k log) now 1.
Proof.
  unfold key_state. intros Hk Hle Hexp. destruct (dget k h) as [[ws c]|].
  - destruct Hk as [Hk _]. eapply next_window; [done | done | exact Hk | by apply (Hexp ws c)].
  - destruct Hk as [->|(ws & c & Hk & ?)]; [by apply first_window |].
    eapply next_window; [done | done | exact Hk | lra].
Qed.

Lemma key_state_log k key now h b log :
  key <> k -> key_state k now h log -> key_state k now h ((now, key, b) :: log).
Proof.
  intros Hne. unfold key_state. cbn [admitted]. destruct (str_eqb_spec key k); [done |].
  by rewrite andb_false_r.
Qed.

Lemma opened_state last now key h log :
  NoDup h.*1 -> (last <= now)%Q -> calm now key h -> (forall k, key_state k last h log) ->
  (forall ws c, dget key h = Some (ws, c) -> (ws + w <= now)%Q) ->
  forall k, key_state k now (dset key (now, 1) (make_room l now key h)) ((now, key, true) :: log).
Proof.
  intros Hd Hle Hc Hks Hexp k. destruct (decide (key = k)) as [<-|Hne].
  - unfold key_state. rewrite dget_dset_eq. cbn [admitted].
    destruct (str_eqb_spec key key); [cbn | done].
    split; [by apply (open_window key last now h) | lra].
  - apply key_state_log; [done |]. eapply key_state_other; [apply Hks | done |].
    rewrite dget_dset_ne by done. by apply make_room_calm.
Qed.

(** One request, seen from its own key and from the others. *)
Lemma check_key_state last now key allowed retry_after h h' log :
  NoDup h.*1 -> (last <= now)%Q -> calm now key h -> (forall k, key_state k last h log) ->
  check l now key h = ((allowed, retry_after), h') ->
  (forall k, key_state k now h' ((now, key, allowed) :: log)) /\
  (allowed = false -> requests l <= count (fun t => qlt (now - w) t) (admitted key log)).
Proof.
  intros Hd Hle Hc Hks. pose proof (Hks key) as Hkey.
  pose proof (opened_state last now key h log Hd Hle Hc Hks) as Hopen.
  unfold check. destruct (dget key h) as [[ws c]|] eqn:E.
  2: { intros [= <- <- <-]. split; [| done]. apply Hopen. by intros ws c [=]. }
  destruct (expired l now (ws, c)) eqn:Ex.
  { intros [= <- <- <-]. split; [| done]. apply Hopen. intros ws' c' [= <- <-].
    by apply (expired_iff now ws c). }
  apply expired_not in Ex. unfold key_state in Hkey. rewrite E in Hkey. destruct Hkey as [Hw Hws].
  destruct (requests l <=? c) eqn:Ec; intros [= <- <- <-].
  - split; [| intros _].
    + intros k. destruct (decide (key = k)) as [<-|Hne].
      * unfold key_state. rewrite E. cbn. split; [done | lra].
      * apply key_state_log; [done |]. eapply key_state_other; [apply Hks | done | by left].
    + rewrite <- (wi_count _ _ _ _ Hw) in Ec. apply Z.leb_le in Ec. etrans; [exact Ec |].
      apply count_le. intros t _ Hf%from_true. apply negb_true_iff, from_false. lra.
  - split; [| done]. intros k. destruct (decide (key = k)) as [<-|Hne].
    + unfold key_state. rewrite dget_dset_eq. cbn [admitted].
      destruct (str_eqb_spec key key); [cbn | done].
      split; [apply same_window; try done; [lra | lia] | lra].
    + apply key_state_log; [done |]. eapply key_state_other; [apply Hks | done |].
      left. by rewrite dget_dset_ne.
Qed.

(** Every refusal of a run had its reason. *)
Fixpoint refusals_justified (log : list (Q * str * bool)) : Prop :=
  match log with
  | [] => True
  | (now, key, allowed) :: log' =>
      (allowed = false -> requests l <= count (fun t => qlt (now - w) t) (admitted key log')) /\
      refusals_justified log'
  end.

Lemma served_ok last h log :
  1 <= max_entries l -> served calm last h log ->
  NoDup h.*1 /\ len h <= max_entries l /\ (forall k, key_state k last h log) /\
  refusals_justified log.
Proof.
  intros Hm. induction 1 as [now | last now key allowed ra h h' log _ (Hd & Hl & Hks & Hj) Hle Hc Hr].
  - split; [constructor |]. split; [unfold len; cbn [length]; lia |]. split; [by left | done].
  - destruct (check_bounded l now key h Hm Hd Hl) as [Hd' Hl']. rewrite Hr in Hd', Hl'.
    destruct (check_key_state last now key allowed ra h h' log Hd Hle Hc Hks Hr) as [Hks' Hj'].
    by split_and!.
Qed.
End Runs.

Lemma refusal_justified l log1 now key log2 :
  refusals_justified l (log1 ++ (now, key, false) :: log2) ->
  requests l <= count (fun t => qlt (now - inject_Z (window l)) t) (admitted key log2).
Proof.
  induction log1 as [| [[t k] b] log1 IH]; cbn; [intros [Hj _]; by apply Hj | intros [_ ?]; auto].
Qed.

Lemma served_mono l (fit fit' : Q -> str -> hits -> Prop) last h log :
  (forall now key h, fit now key h -> fit' now key h) -> served l fit last h log ->
  served l fit' last h log.
Proof. intros Hf. induction 1; econstructor; eauto. Qed.

Lemma served_bounded l fit last h log :
  1 <= max_entries l -> served l fit last h log -> NoDup h.*1 /\ len h <= max_entries l.
Proof.
  intros Hm. induction 1 as [now | last now key allowed ra h h' log _ [Hd Hl] Hle Hc Hch].
  - split; [constructor | unfold len; cbn [length]; lia].
  - pose proof (@check_bounded exact_rounding l now key h Hm Hd Hl) as Hb. by rewrite Hch in Hb.
Qed.

(** A refusal asks for at least a second and changes nothing. *)
Lemma check_retry_after `{Rounding} l now key h retry_after h' :
  check l now key h = ((false, retry_after), h') -> 1 <= retry_after /\ h' = h.
Proof.
  unfold check. destruct (dget key h) as [[ws c]|]; [| done].
  destruct (expired _ _ _); [done |]. destruct (_ <=? _); [| done]. intros [= <- <-]. split; [lia | done].
Qed.

(** ** The stack *)

Lemma request_id_safe uuid4 supplied :
  request_id_ok uuid4 = true -> request_id_ok (request_id uuid4 supplied) = true.
Proof. unfold request_id. by destruct (request_id_ok (default [] supplied)) eqn:E. Qed.

Lemma body_limit_decides unicode_isdigit unicode_decimal settings declared r :
  body_limit unicode_isdigit unicode_decimal settings declared = Ok r ->
  match r with
  | Some response => response = too_large /\ exists text n, declared = Some text /\
      int_of_str unicode_decimal text = Ok n /\
      webhook_payload_max_bytes settings + BODY_LIMIT_SLACK_BYTES < n
  | None => forall text n, declared = Some text -> isdigit unicode_isdigit text = true ->
      int_of_str unicode_decimal text = Ok n ->
      n <= webhook_payload_max_bytes settings + BODY_LIMIT_SLACK_BYTES
  end.
Proof.
  unfold body_limit. destruct declared as [text|]; [| by intros [= <-]].
  destruct (isdigit _ text) eqn:Ed; [| intros [= <-] text' n [= <-]; congruence].
  destruct (int_of_str _ text) as [n|e] eqn:En; [| done].
  destruct (_ <? n) eqn:E; intros [= <-].
  - split; [done |]. exists text, n. split_and!; [done | done | lia].
  - intros text' n' [= <-] _ Hn. rewrite En in Hn. injection Hn as ->. lia.
Qed.

(** What reaches the application or is refused by the rate limiter carries the
    context headers, with an identifier that fits the pattern. *)
Lemma dispatch_context `{Rounding} l unicode_isdigit unicode_decimal settings app uuid4 now r h response h' :
  request_id_ok uuid4 = true ->
  dispatch l unicode_isdigit unicode_decimal settings app uuid4 now r h = (Ok response, h') ->
  (response = too_large /\ h' = h) \/
  (exists id, hh_request_id (hp_headers response) = Some id /\ request_id_ok id = true /\
     hh_content_type_options (hp_headers response) = Some (py "nosniff") /\
     hh_frame_options (hp_headers response) = Some (py "DENY") /\ h' = (limit l now r h).2).
Proof.
  intros Hu. unfold dispatch. destruct (body_limit _ _ _ _) as [[refusal|]|e] eqn:Eb; [| | done].
  { intros [= <- <-]. left. by apply body_limit_decides in Eb as [-> _]. }
  destruct (limit l now r h) as [[refusal|] h1].
  - intros [= <- <-]. right. eexists. unfold add_context. upd_simpl.
    split_and!; try done. by apply request_id_safe.
  - destruct (app r) as [response0|e]; [| done]. intros [= <- <-]. right. eexists.
    unfold add_context. upd_simpl. split_and!; try done. by apply request_id_safe.
Qed.

(** ** Claims *)

(** C38: the rate limiter.  However requests arrive, the table never holds more
    than [max_entries] windows, with one per key.  As long as no running window has to
    make room for another client's, a key gets at most twice its budget
    through in any stretch of time as long as the window, and a key is refused
    only when it has used its whole budget within the window that ends now. *)
Theorem rate_limit_enforced l fit last h log :
  let w := inject_Z (window l) in
  1 <= requests l -> 0 < window l -> 1 <= max_entries l -> served l fit last h log ->
  NoDup h.*1 /\ len h <= max_entries l /\
  ((forall now key h, fit now key h -> calm l now key h) ->
   (forall key t0, count (within t0 (t0 + w)) (admitted key log) <= 2 * requests l) /\
   (forall log1 now key log2, log = log1 ++ (now, key, false) :: log2 ->
      requests l <= count (fun t => qlt (now - w) t) (admitted key log2))).
Proof.
  intros w Hr Hw Hm Hs. destruct (served_bounded l fit last h log Hm Hs) as [Hd Hl].
  split; [done |]. split; [done |]. intros Hfit.
  destruct (served_ok l Hr Hw last h log Hm) as (_ & _ & Hks & Hj); [by eapply served_mono |].
  split.
  - intros key t0. specialize (Hks key). unfold key_state in Hks.
    destruct (dget key h) as [[ws c]|].
    + destruct Hks as [Hks _]. apply (wi_any _ _ _ _ Hks).
    + destruct Hks as [->|(ws & c & Hks & _)]; [cbn; lia | apply (wi_any _ _ _ _ Hks)].
  - intros log1 now key log2 ->. by eapply refusal_justified.
Qed.

Module LimiterDemo.
#[local] Existing Instance exact_rounding.
Definition two : RateLimit := MkRateLimit 2 60 1.
Definition login : str := py "10.0.0.1:/auth/login".

(** Three requests of one client: the third is refused. *)
Lemma refused : served two (calm two) 3 [(login, (1%Q, 2))]
  [(3%Q, login, false); (2%Q, login, true); (1%Q, login, true)].
Proof.
  eapply (sv_request _ _ 2 3 login false 58 [(login, (1%Q, 2))]); [| done | by left | reflexivity].
  eapply (sv_request _ _ 1 2 login true 0 [(login, (1%Q, 1))]); [| done | by left | reflexivity].
  eapply (sv_request _ _ 0 1 login true 0 []); [apply sv_start | done | by right | reflexivity].
Qed.

(** A full table forgets: a request from elsewhere gives the first client a
    new budget within its window. *)
Lemma eviction_resets_the_budget :
  exists h, check two 3 login (check two (5 # 2) (py "x") [(login, (1%Q, 2))]).2 = ((true, 0), h).
Proof. eexists. vm_compute. reflexivity. Qed.

(** Retry-After is rounded down: who waits as told may be early. *)
Lemma retry_after_is_early :
  exists ra, check two (3 # 2) login [(login, (1%Q, 2))] = ((false, ra), [(login, (1%Q, 2))]) /\
    (check two ((3 # 2) + inject_Z ra) login [(login, (1%Q, 2))]).1.1 = false.
Proof. eexists. split; vm_compute; reflexivity. Qed.
End LimiterDemo.

Lemma rate_limit_enforced_witness :
  2 <= count (fun t => qlt (3 - 60) t)
         (admitted LimiterDemo.login [(2%Q, LimiterDemo.login, true); (1%Q, LimiterDemo.login, true)]).
Proof.
  destruct (rate_limit_enforced LimiterDemo.two (calm LimiterDemo.two) _ _ _
    ltac:(done) ltac:(done) ltac:(done) LimiterDemo.refused) as (_ & _ & Hcalm).
  destruct (Hcalm ltac:(done)) as [_ Hj]. by apply (Hj [] 3%Q).
Defined.
