(* ===== verification/Schemas.v ===== *)
(** * Request and response schemas

    The classes of [src/app/schemas/webhooks.py]: what a JSON body must look
    like to become a request, with the bounds of each [Field] and the model
    validators, and which fields of a row a response shows.  All models are
    strict and forbid extra fields. *)

From stdpp Require Import base tactics list gmap strings numbers option.
From S2P Require Import Prelude Json Models Session Settings WebhookSecurity Delivery Receiver Events.
From S2P Require Import Tenancy Endpoints.
Local Open Scope Z_scope.

(** ** Field validation

    [None] is a validation error.  Strict mode takes a JSON value for a field
    only when it has the field's type. *)

(** The body of a request: absent, not JSON, or a JSON value. *)
Inductive body : Type := NoBody | BadJson | Body (j : json).

Definition v_bool (j : json) : option bool := match j with JBool b => Some b | _ => None end.

Definition at_most (max : option Z) (n : Z) : bool := match max with Some m => n <=? m | None => true end.

(** [int] with [ge] and [le] ([gt=0] is [ge=1]) *)
Definition v_int (min : Z) (max : option Z) (j : json) : option Z :=
  match j with
  | JInt n => if (min <=? n) && at_most max n then Some n else None
  | _ => None
  end.

Definition nullable {A} (v : json -> option A) (j : json) : option (option A) :=
  match j with JNull => Some None | _ => Some <$> v j end.

Definition v_list {A} (min : Z) (max : option Z) (v : json -> option A) (j : json) : option (list A) :=
  match j with
  | JList l => if (min <=? len l) && at_most max (len l) then mapM v l else None
  | _ => None
  end.

Definition required {A} (key : string) (v : json -> option A) (o : list (str * json)) : option A :=
  match member (py key) o with Some j => v j | None => None end.

Definition defaulted {A} (key : string) (d : A) (v : json -> option A) (o : list (str * json)) : option A :=
  match member (py key) o with Some j => v j | None => Some d end.

(** [exclude_unset]: whether the field was given, and its value *)
Definition given {A} (key : string) (v : json -> option A) (o : list (str * json)) : option (option A) :=
  match member (py key) o with Some j => Some <$> v j | None => Some None end.

(** [extra="forbid"] *)
Definition fields (keys : list string) (b : body) : option (list (str * json)) :=
  match b with
  | Body (JObj o) => if forallb (fun kv => bool_decide (kv.1 ∈ map py keys)) o then Some o else None
  | _ => None
  end.

(** ** Literals *)

Definition v_literal {A} (values : list (string * A)) (j : json) : option A :=
  match j with
  | JStr s => snd <$> List.find (fun kv => str_eqb (py kv.1) s) values
  | _ => None
  end.

Definition v_organization_role : json -> option OrganizationRole :=
  v_literal [("owner"%string, OWNER); ("admin"%string, ADMIN); ("member"%string, MEMBER)].
Definition v_project_role : json -> option ProjectRole :=
  v_literal [("admin"%string, PADMIN); ("operator"%string, OPERATOR); ("viewer"%string, VIEWER)].
Definition v_api_key_scope : json -> option str :=
  v_literal [("events:write"%string, py "events:write")].
Definition v_envelope_mode : json -> option str :=
  v_literal [("native"%string, py "native"); ("cloudevents"%string, py "cloudevents")].
Definition v_signature_scheme : json -> option SignatureScheme :=
  v_literal [("legacy"%string, Legacy); ("standard"%string, Standard)].
Definition v_plan : json -> option Plan :=
  v_literal [("free"%string, FreePlan); ("standard"%string, StandardPlan);
             ("enterprise"%string, EnterprisePlan)].

Section Requests.
(** What pydantic takes as text, and [str(HttpUrl(s))]. *)
Context (is_text : str -> bool) (http_url : str -> option str).

Definition v_str (min : Z) (max : option Z) (j : json) : option str :=
  match j with
  | JStr s => if is_text s && (min <=? len s) && at_most max (len s) then Some s else None
  | _ => None
  end.

Definition v_url (j : json) : option str :=
  match j with JStr s => http_url s | _ => None end.

(** ** Requests *)

Definition OrganizationCreate (b : body) : option str :=
  o ← fields ["name"%string] b; required "name" (v_str 1 (Some 120)) o.

Definition MemberCreate (b : body) : option (Z * OrganizationRole) :=
  o ← fields ["user_id"%string; "role"%string] b;
  user_id ← required "user_id" (v_int 1 None) o;
  role ← defaulted "role" MEMBER v_organization_role o;
  Some (user_id, role).

Definition MemberUpdate (b : body) : option OrganizationRole :=
  o ← fields ["role"%string] b; required "role" v_organization_role o.

Definition ProjectCreate (b : body) : option str :=
  o ← fields ["name"%string] b; required "name" (v_str 1 (Some 120)) o.

Definition ProjectMemberCreate (b : body) : option (Z * ProjectRole) :=
  o ← fields ["user_id"%string; "role"%string] b;
  user_id ← required "user_id" (v_int 1 None) o;
  role ← defaulted "role" VIEWER v_project_role o;
  Some (user_id, role).

Definition ProjectMemberUpdate (b : body) : option ProjectRole :=
  o ← fields ["role"%string] b; required "role" v_project_role o.

Record ApiKeyCreateBody : Type := MkApiKeyCreate {
  kc_name : str; kc_scopes : list str; kc_expires_in_days : option Z;
}.

Definition default_api_key_scopes : list str := [py "events:write"].

Definition unique (l : list str) : bool := bool_decide (NoDup l).

Definition ApiKeyCreate (b : body) : option ApiKeyCreateBody :=
  o ← fields ["name"%string; "scopes"%string; "expires_in_days"%string] b;
  name ← required "name" (v_str 1 (Some 120)) o;
  scopes ← defaulted "scopes" default_api_key_scopes (v_list 1 (Some 16) v_api_key_scope) o;
  expires_in_days ← defaulted "expires_in_days" None (nullable (v_int 1 (Some 3650))) o;
  if unique scopes then Some (MkApiKeyCreate name scopes expires_in_days) else None.

(** An absent body is the default request. *)
Definition ApiKeyRotateRequest (b : body) : option (option Z) :=
  match b with
  | NoBody => Some None
  | _ => o ← fields ["overlap_seconds"%string] b;
         defaulted "overlap_seconds" None (nullable (v_int 1 (Some 86400))) o
  end.

Record EndpointCreateBody : Type := MkEndpointCreate {
  nc_url : str; nc_description : option str; nc_event_types : json; nc_signature_scheme : SignatureScheme;
}.

(** [normalize_event_types] *)
Definition normalized_filters (filters : option (list str)) : option json :=
  match filters with
  | Some l => match validate_event_type_filters l with
              | Ok l' => Some (JList (map JStr l'))
              | Raise _ => None
              end
  | None => Some JNull
  end.

Definition EndpointCreate (b : body) : option EndpointCreateBody :=
  o ← fields ["url"%string; "description"%string; "event_types"%string; "signature_scheme"%string] b;
  url ← required "url" v_url o;
  description ← defaulted "description" None (nullable (v_str 0 (Some 500))) o;
  event_types ← defaulted "event_types" None (nullable (v_list 0 None (v_str 0 None))) o;
  signature_scheme ← defaulted "signature_scheme" Standard v_signature_scheme o;
  filters ← normalized_filters event_types;
  Some (MkEndpointCreate url description filters signature_scheme).

(** A field that may be left out but not be null *)
Definition changed {A} (key : string) (v : json -> option A) (o : list (str * json)) :
    option (option A) :=
  x ← given key (nullable v) o;
  match x with
  | Some None => None
  | Some (Some a) => Some (Some a)
  | None => Some None
  end.

(** [EndpointUpdate] with [require_valid_change] *)
Definition EndpointUpdate (b : body) : option EndpointChanges :=
  o ← fields ["url"%string; "description"%string; "is_active"%string; "event_types"%string;
              "signature_scheme"%string] b;
  url ← changed "url" v_url o;
  description ← given "description" (nullable (v_str 0 (Some 500))) o;
  is_active ← changed "is_active" v_bool o;
  event_types ← given "event_types" (nullable (v_list 0 None (v_str 0 None))) o;
  signature_scheme ← changed "signature_scheme" v_signature_scheme o;
  filters ← match event_types with
            | Some filters => Some <$> normalized_filters filters
            | None => Some None
            end;
  match o with
  | [] => None
  | _ => Some (EndpointChange url description is_active filters signature_scheme)
  end.

Definition EventCreate (b : body) : option (str * json * str) :=
  o ← fields ["type"%string; "payload"%string; "envelope_mode"%string] b;
  event_type ← required "type" (v_str 1 (Some 150)) o;
  payload ← required "payload" Some o;
  envelope_mode ← defaulted "envelope_mode" (py "native") v_envelope_mode o;
  Some (event_type, payload, envelope_mode).

Definition ReplayBatchRequest (b : body) : option (list str) :=
  o ← fields ["delivery_ids"%string] b;
  ids ← required "delivery_ids" (v_list 1 (Some 1000) (v_str 0 None)) o;
  if unique ids then Some ids else None.

Definition EndpointPauseRequest (b : body) : option (option str) :=
  o ← fields ["reason"%string] b; defaulted "reason" None (nullable (v_str 0 (Some 200))) o.

Definition DeliveryCancelRequest (b : body) : option (option str) :=
  o ← fields ["reason"%string] b; defaulted "reason" None (nullable (v_str 0 (Some 200))) o.

Definition DeliveryPurgeRequest (b : body) : option (bool * Z) :=
  o ← fields ["dry_run"%string; "max_records"%string] b;
  dry_run ← defaulted "dry_run" true v_bool o;
  max_records ← defaulted "max_records" 500 (v_int 1 (Some 10000)) o;
  Some (dry_run, max_records).

(** [OrganizationPolicyUpdate] with [require_valid_change] *)
Definition OrganizationPolicyUpdate (b : body) : option PolicyChanges :=
  o ← fields ["plan"%string; "payload_retention_days"%string; "response_retention_days"%string] b;
  plan ← changed "plan" v_plan o;
  payload_days ← changed "payload_retention_days" (v_int 1 (Some 3650)) o;
  response_days ← changed "response_retention_days" (v_int 1 (Some 3650)) o;
  match o with
  | [] => None
  | _ => Some (PolicyChange plan payload_days response_days)
  end.
End Requests.

(** ** Responses

    A response model copies the attributes it declares from the row; what it
    does not declare stays behind. *)

Record OrganizationOut : Type := MkOrganizationOut {
  oo_public_id : str;
  oo_name : str;
  oo_lifecycle_state : LifecycleState;
  oo_deletion_requested_at : option datetime;
  oo_deletion_scheduled_at : option datetime;
  oo_created_at : datetime;
}.
Definition organization_out (r : Organization) : OrganizationOut :=
  MkOrganizationOut (o_public_id r) (o_name r) (o_lifecycle_state r) (o_deletion_requested_at r)
    (o_deletion_scheduled_at r) (o_created_at r).

Record MemberOut : Type := MkMemberOut {
  mo_user_id : Z;
  mo_role : OrganizationRole;
  mo_created_at : datetime;
}.
Definition member_out (r : OrganizationMember) : MemberOut :=
  MkMemberOut (om_user_id r) (om_role r) (om_created_at r).

Record ProjectOut : Type := MkProjectOut {
  po_public_id : str;
  po_name : str;
  po_is_active : bool;
  po_created_at : datetime;
}.
Definition project_out (r : Project) : ProjectOut :=
  MkProjectOut (p_public_id r) (p_name r) (p_is_active r) (p_created_at r).

Record ProjectMemberOut : Type := MkProjectMemberOut {
  pmo_user_id : Z;
  pmo_role : ProjectRole;
  pmo_created_at : datetime;
}.
Definition project_member_out (r : ProjectMember) : ProjectMemberOut :=
  MkProjectMemberOut (pm_user_id r) (pm_role r) (pm_created_at r).

Record ApiKeyOut : Type := MkApiKeyOut {
  ko_public_id : str;
  ko_name : str;
  ko_key_prefix : str;
  ko_scopes : json;
  ko_expires_at : option datetime;
  ko_rotation_family_id : str;
  ko_is_active : bool;
  ko_created_at : datetime;
  ko_last_used_at : option datetime;
  ko_revoked_at : option datetime;
}.
Definition api_key_out (r : ApiKey) : ApiKeyOut :=
  MkApiKeyOut (k_public_id r) (k_name r) (k_key_prefix r) (k_scopes r) (k_expires_at r)
    (k_rotation_family_id r) (k_is_active r) (k_created_at r) (k_last_used_at r) (k_revoked_at r).

Record EndpointOut : Type := MkEndpointOut {
  eo_public_id : str;
  eo_url : str;
  eo_description : option str;
  eo_event_types : json;
  eo_signature_scheme : SignatureScheme;
  eo_is_active : bool;
  eo_secret_version : Z;
  eo_created_at : datetime;
  eo_updated_at : datetime;
}.
Definition endpoint_out (r : WebhookEndpoint) : EndpointOut :=
  MkEndpointOut (e_public_id r) (e_url r) (e_description r) (e_event_types r) (e_signature_scheme
    r) (e_is_active r) (e_secret_version r) (e_created_at r) (e_updated_at r).

Record EventOut : Type := MkEventOut {
  vo_public_id : str;
  vo_idempotency_key : str;
  vo_event_type : str;
  vo_envelope_mode : EnvelopeMode;
  vo_payload : json;
  vo_payload_purged_at : option datetime;
  vo_created_at : datetime;
}.
Definition event_out (r : Event) : EventOut :=
  MkEventOut (ev_public_id r) (ev_idempotency_key r) (ev_event_type r) (ev_envelope_mode r)
    (ev_payload r) (ev_payload_purged_at r) (ev_created_at r).

Record DeliveryOut : Type := MkDeliveryOut {
  do_public_id : str;
  do_status : DeliveryStatus;
  do_attempt_count : Z;
  do_next_attempt_at : datetime;
  do_last_http_status : option Z;
  do_last_error : option str;
  do_replay_of_delivery_id : option Z;
  do_created_at : datetime;
  do_updated_at : datetime;
  do_succeeded_at : option datetime;
  do_dead_at : option datetime;
  do_dead_reason : option str;
  do_canceled_at : option datetime;
  do_canceled_reason : option str;
}.
Definition delivery_out (r : Delivery) : DeliveryOut :=
  MkDeliveryOut (d_public_id r) (d_status r) (d_attempt_count r) (d_next_attempt_at r)
    (d_last_http_status r) (d_last_error r) (d_replay_of_delivery_id r) (d_created_at r)
    (d_updated_at r) (d_succeeded_at r) (d_dead_at r) (d_dead_reason r) (d_canceled_at r)
    (d_canceled_reason r).

Record DeliveryAttemptOut : Type := MkDeliveryAttemptOut {
  ao_attempt_number : Z;
  ao_started_at : datetime;
  ao_finished_at : datetime;
  ao_outcome : DeliveryStatus;
  ao_http_status : option Z;
  ao_error : option str;
  ao_response_body : option str;
  ao_response_purged_at : option datetime;
}.
Definition delivery_attempt_out (r : DeliveryAttempt) : DeliveryAttemptOut :=
  MkDeliveryAttemptOut (at_attempt_number r) (at_started_at r) (at_finished_at r) (at_outcome r)
    (at_http_status r) (at_error r) (at_response_body r) (at_response_purged_at r).

Record ReplayOperationOut : Type := MkReplayOperationOut {
  roo_public_id : str;
  roo_idempotency_key : str;
  roo_mode : ReplayMode;
  roo_requested_count : Z;
  roo_created_count : Z;
  roo_source_delivery_ids : list str;
  roo_created_delivery_ids : list str;
  roo_created_at : datetime;
}.
Definition replay_operation_out (r : ReplayOperation) : ReplayOperationOut :=
  MkReplayOperationOut (ro_public_id r) (ro_idempotency_key r) (ro_mode r) (ro_requested_count r)
    (ro_created_count r) (ro_source_delivery_ids r) (ro_created_delivery_ids r) (ro_created_at r).

Record OrganizationPolicyOut : Type := MkOrganizationPolicyOut {
  polo_plan : Plan;
  polo_payload_retention_days : Z;
  polo_response_retention_days : Z;
  polo_created_at : datetime;
  polo_updated_at : datetime;
}.
Definition organization_policy_out (r : OrganizationPolicy) : OrganizationPolicyOut :=
  MkOrganizationPolicyOut (pol_plan r) (pol_payload_retention_days r) (pol_response_retention_days
    r) (pol_created_at r) (pol_updated_at r).

Record AuditEventOut : Type := MkAuditEventOut {
  auo_id : Z;
  auo_public_id : str;
  auo_organization_public_id : str;
  auo_project_public_id : option str;
  auo_actor_user_id : option Z;
  auo_action : str;
  auo_resource_type : str;
  auo_resource_public_id : option str;
  auo_sanitized_metadata : list (str * json);
  auo_created_at : datetime;
}.
Definition audit_event_out (r : AdministrativeAuditEvent) : AuditEventOut :=
  MkAuditEventOut (a_id r) (a_public_id r) (a_organization_public_id r) (a_project_public_id r)
    (a_actor_user_id r) (a_action r) (a_resource_type r) (a_resource_public_id r)
    (a_sanitized_metadata r) (a_created_at r).

Record OrganizationLifecycleOut : Type := MkOrganizationLifecycleOut {
  lco_public_id : str;
  lco_status : OperationStatus;
  lco_scheduled_at : datetime;
  lco_created_at : datetime;
  lco_completed_at : option datetime;
  lco_error : option str;
}.
Definition organization_lifecycle_out (r : OrganizationLifecycleOperation) : OrganizationLifecycleOut :=
  MkOrganizationLifecycleOut (lo_public_id r) (lo_status r) (lo_scheduled_at r) (lo_created_at r)
    (lo_completed_at r) (lo_error r).

(** [DeliveryDetail] adds the attempts. *)
Definition delivery_detail (d : Delivery * list DeliveryAttempt) : DeliveryOut * list DeliveryAttemptOut :=
  (delivery_out d.1, map delivery_attempt_out d.2).

(** A replay always has a source: the column is an [int] there. *)
Record ReplayOut : Type := MkReplayOut {
  rpo_public_id : str;
  rpo_status : DeliveryStatus;
  rpo_replay_of_delivery_id : Z;
  rpo_created_at : datetime;
}.
Definition replay_out (d : Delivery) : option ReplayOut :=
  source ← d_replay_of_delivery_id d;
  Some (MkReplayOut (d_public_id d) (d_status d) source (d_created_at d)).

Record EndpointSecretRotated : Type := MkEndpointSecretRotated {
  esr_public_id : str;
  esr_secret_version : Z;
  esr_signing_secret : str;
  esr_previous_valid_until : option datetime;
}.
