(* ===== verification/Routes.v ===== *)
(** * The management and ingestion API

    [src/app/routers/webhooks.py]: one definition per route, as the
    application runs it: the caller is authenticated first, then the path,
    query, header and body are validated, then the service runs in the
    request's session, and the response shows what its model declares. *)

From Stdlib Require Import QArith.
From stdpp Require Import base tactics list gmap sets strings numbers option.
From S2P Require Import Prelude Json Text Models Session Settings WebhookSecurity Delivery.
From S2P Require Import Authorization Events EventSafety ReplaySafety Tenancy Endpoints ApiKeys Accounts Schemas.
Local Open Scope Z_scope.

(** ** Replies *)

(** The body of a response, by its model. *)
Inductive content : Type :=
| COrganization (x : OrganizationOut) | COrganizations (l : list OrganizationOut)
| CMember (x : MemberOut) | CMembers (l : list MemberOut)
| CPolicy (x : OrganizationPolicyOut) | CAudits (l : list AuditEventOut)
| CExport (x : OrganizationExport) | CLifecycle (x : OrganizationLifecycleOut)
| CProject (x : ProjectOut) | CProjects (l : list ProjectOut)
| CProjectMember (x : ProjectMemberOut) | CProjectMembers (l : list ProjectMemberOut)
| CApiKey (x : ApiKeyOut) | CApiKeys (l : list ApiKeyOut)
| CApiKeyCreated (x : ApiKeyOut) (plaintext_key : str)
| CEndpoint (x : EndpointOut) | CEndpoints (l : list EndpointOut)
| CEndpointCreated (x : EndpointOut) (signing_secret : str)
| CEndpointUpdated (x : EndpointOut) (signing_secret : option str)
| CSecretRotated (x : EndpointSecretRotated)
| CEvent (x : EventOut) | CEvents (l : list EventOut)
| CDelivery (x : DeliveryOut) | CDeliveries (l : list DeliveryOut)
| CDeliveryDetail (x : DeliveryOut * list DeliveryAttemptOut)
| CReplay (x : ReplayOut) | CReplayOperation (x : ReplayOperationOut)
| CRuntime (x : RuntimeView) | CPurge (x : PurgeReport)
| CCsv (text : str) (filename : str)
| CEmpty.

(** A validation failure of the request is answered with 422. *)
Inductive reply : Type := Reply (status : Z) (c : content) | Unprocessable.

Definition reply_status (r : reply) : Z := match r with Reply status _ => status | Unprocessable => 422 end.

(** Use what was validated. *)
Definition valid {A} (a : option A) (k : A -> M reply) : M reply :=
  match a with Some a => k a | None => mret Unprocessable end.

(** ** Query parameters *)

Definition in_range (min : Z) (max : option Z) (n : Z) : option Z :=
  if (min <=? n) && at_most max n then Some n else None.

(** An optional integer parameter *)
Definition q_int (min : Z) (max : option Z) (n : option Z) : option (option Z) :=
  match n with Some n => Some <$> in_range min max n | None => Some None end.

(** An optional text parameter with [max_length] *)
Definition q_str (max : Z) (s : option str) : option (option str) :=
  match s with Some s => if len s <=? max then Some (Some s) else None | None => Some None end.

(** [page] *)
Definition page_of (offset limit : option Z) : option (Z * Z) :=
  offset ← in_range 0 None (default 0 offset);
  limit ← in_range 1 (Some 100) (default 50 limit);
  Some (offset, limit).

(** ** The CSV export *)

Inductive cell : Type := CellStr (s : str) | CellInt (n : Z) | CellNone.

(** The characters that start a formula: [= + - @], tab and carriage return *)
Definition formula_start (c : Z) : bool := bool_decide (c ∈ [61; 43; 45; 64; 9; 13]).

(** [_csv_cell] *)
Definition csv_cell (value : cell) : cell :=
  match value with
  | CellStr (c :: s) => if formula_start c then CellStr (39 :: c :: s) else value
  | _ => value
  end.

Definition cell_text (value : cell) : str :=
  match value with CellStr s => s | CellInt n => int_repr n | CellNone => [] end.

(** [csv.writer] with the [excel] dialect: a field with a comma, a quote or a
    line break is quoted, quotes are doubled, and rows end in CR LF. *)
Definition needs_quotes (s : str) : bool := existsb (fun c => bool_decide (c ∈ [44; 34; 10; 13])) s.

Definition csv_field (s : str) : str :=
  if needs_quotes s then 34 :: (s ≫= fun c => if c =? 34 then [34; 34] else [c]) ++ [34] else s.

Definition csv_row (fields : list str) : str := join [44] (map csv_field fields) ++ [13; 10].

Definition csv_header : list str :=
  map py ["delivery_id"; "endpoint_id"; "dead_reason"; "attempt_count"; "last_http_status"; "dead_at"]%string.

Definition csv_cells (d : Delivery) : list cell :=
  map csv_cell
    [CellStr (d_public_id d); CellStr (d_endpoint_public_id_snapshot d);
     match d_dead_reason d with Some s => CellStr s | None => CellNone end;
     CellInt (d_attempt_count d);
     match d_last_http_status d with Some n => CellInt n | None => CellNone end;
     CellStr (match d_dead_at d with Some t => isoformat t | None => [] end)].

Definition csv_table (ds : list Delivery) : list (list str) :=
  csv_header :: map (fun d => map cell_text (csv_cells d)) ds.

Definition csv_document (ds : list Delivery) : str := csv_table ds ≫= csv_row.

(** ** Routes *)

(** What a request meets besides its parameters: its credentials, the clock,
    fresh identifiers and key material, the transactions that commit while it
    waits for locks, and the trace headers. *)
Record exchange : Type := Exchange {
  xc_token : option str;
  xc_api_key : option str;
  xc_clock : nat -> datetime;
  xc_uuid : nat -> str;
  xc_draw : nat -> str * str;
  xc_others : Db -> Db;
  xc_others' : Db -> Db;
  xc_trace : option str * option str;
}.

Section Api.
Context `{Rounding} `{Jwt} (settings : Settings).
Context (unicode_alnum : Z -> bool) (unicode_decimal : Z -> option Z).
Context (urlsplit : str -> option SplitResult) (ip_address : str -> option IPAddress)
  (getaddrinfo : str -> Z -> option (list str)).
Context (is_text : str -> bool) (http_url : str -> option str).
Context (x : exchange).

Abbreviation now := (xc_clock x 1).
Abbreviation uuid := (xc_uuid x).
Abbreviation fresh := (xc_uuid x 0%nat).
Abbreviation others := (xc_others x).

(** [user: User = Depends(get_current_active_user)], after the body has been
    read as JSON *)
Definition manage (b : body) (k : Z -> M reply) : M reply :=
  match b with
  | BadJson => mret Unprocessable
  | _ => user ← get_current_active_user settings unicode_decimal (xc_clock x 0) (xc_token x);
         k (u_id user)
  end.

(** *** Organizations *)

Definition create_organization_route (b : body) : M reply :=
  manage b (fun user => valid (OrganizationCreate is_text b) (fun name =>
    r ← create_organization settings unicode_alnum uuid now user name;
    mret (Reply 201 (COrganization (organization_out r))))).

Definition list_organizations_route (offset limit : option Z) : M reply :=
  manage NoBody (fun user => valid (page_of offset limit) (fun page =>
    l ← list_organizations user page.1 page.2;
    mret (Reply 200 (COrganizations (map organization_out l))))).

Definition add_member_route (organization_id : str) (b : body) : M reply :=
  manage b (fun user => valid (MemberCreate b) (fun m =>
    r ← add_member unicode_alnum fresh now user organization_id m.1 m.2;
    mret (Reply 201 (CMember (member_out r))))).

Definition list_members_route (organization_id : str) (offset limit : option Z) : M reply :=
  manage NoBody (fun user => valid (page_of offset limit) (fun page =>
    l ← list_members user organization_id page.1 page.2;
    mret (Reply 200 (CMembers (map member_out l))))).

Definition update_member_route (organization_id : str) (member_user_id : Z) (b : body) : M reply :=
  manage b (fun user => valid (MemberUpdate b) (fun role =>
    r ← update_member unicode_alnum fresh now user organization_id member_user_id role;
    mret (Reply 200 (CMember (member_out r))))).

Definition remove_member_route (organization_id : str) (member_user_id : Z) : M reply :=
  manage NoBody (fun user =>
    _ ← remove_member unicode_alnum fresh now user organization_id member_user_id;
    mret (Reply 204 CEmpty)).

Definition get_policy_route (organization_id : str) : M reply :=
  manage NoBody (fun user =>
    r ← get_policy user organization_id;
    mret (Reply 200 (CPolicy (organization_policy_out r)))).

Definition update_policy_route (organization_id : str) (b : body) : M reply :=
  manage b (fun user => valid (OrganizationPolicyUpdate b) (fun changes =>
    r ← update_policy unicode_alnum fresh now user organization_id changes;
    mret (Reply 200 (CPolicy (organization_policy_out r))))).

Definition list_audit_events_route (organization_id : str) (action resource_type : option str)
    (limit : option Z) (before_created_at : option datetime) (before_id : option Z) : M reply :=
  manage NoBody (fun user =>
    valid (q_str 100 action) (fun action => valid (q_str 100 resource_type) (fun resource_type =>
    valid (in_range 1 (Some 1000) (default 100 limit)) (fun limit =>
    valid (q_int 1 None before_id) (fun before_id =>
      l ← list_audit_events user organization_id action resource_type limit before_created_at before_id;
      mret (Reply 200 (CAudits (map audit_event_out l)))))))).

Definition export_organization_route (organization_id : str) (limit : option Z) : M reply :=
  manage NoBody (fun user => valid (in_range 1 (Some 1000) (default 1000 limit)) (fun limit =>
    r ← export_organization now user organization_id limit;
    mret (Reply 200 (CExport r)))).

Definition request_organization_deletion_route (organization_id : str) : M reply :=
  manage NoBody (fun user =>
    r ← request_organization_deletion settings unicode_alnum uuid now others user organization_id;
    mret (Reply 202 (CLifecycle (organization_lifecycle_out r)))).

Definition get_organization_deletion_route (organization_id : str) : M reply :=
  manage NoBody (fun user =>
    r ← get_organization_deletion user organization_id;
    mret (Reply 200 (CLifecycle (organization_lifecycle_out r)))).

Definition cancel_organization_deletion_route (organization_id : str) : M reply :=
  manage NoBody (fun user =>
    r ← cancel_organization_deletion unicode_alnum fresh now others user organization_id;
    mret (Reply 200 (CLifecycle (organization_lifecycle_out r)))).

(** *** Projects *)

Definition create_project_route (organization_id : str) (b : body) : M reply :=
  manage b (fun user => valid (ProjectCreate is_text b) (fun name =>
    r ← create_project unicode_alnum uuid now user organization_id name;
    mret (Reply 201 (CProject (project_out r))))).

Definition list_projects_route (organization_id : str) (offset limit : option Z) : M reply :=
  manage NoBody (fun user => valid (page_of offset limit) (fun page =>
    l ← list_projects user organization_id page.1 page.2;
    mret (Reply 200 (CProjects (map project_out l))))).

Definition deactivate_project_route (project_id : str) : M reply :=
  manage NoBody (fun user =>
    r ← deactivate_project unicode_alnum fresh now user project_id;
    mret (Reply 200 (CProject (project_out r)))).

Definition add_project_member_route (project_id : str) (b : body) : M reply :=
  manage b (fun user => valid (ProjectMemberCreate b) (fun m =>
    r ← add_project_member unicode_alnum fresh now user project_id m.1 m.2;
    mret (Reply 201 (CProjectMember (project_member_out r))))).

Definition list_project_members_route (project_id : str) (offset limit : option Z) : M reply :=
  manage NoBody (fun user => valid (page_of offset limit) (fun page =>
    l ← list_project_members user project_id page.1 page.2;
    mret (Reply 200 (CProjectMembers (map project_member_out l))))).

Definition upsert_project_member_route (project_id : str) (member_user_id : Z) (b : body) : M reply :=
  manage b (fun user => valid (ProjectMemberUpdate b) (fun role =>
    r ← upsert_project_member unicode_alnum fresh now user project_id member_user_id role;
    mret (Reply 200 (CProjectMember (project_member_out r))))).

Definition update_project_member_route (project_id : str) (member_user_id : Z) (b : body) : M reply :=
  manage b (fun user => valid (ProjectMemberUpdate b) (fun role =>
    r ← update_project_member unicode_alnum fresh now user project_id member_user_id role;
    mret (Reply 200 (CProjectMember (project_member_out r))))).

Definition remove_project_member_route (project_id : str) (member_user_id : Z) : M reply :=
  manage NoBody (fun user =>
    _ ← remove_project_member unicode_alnum fresh now user project_id member_user_id;
    mret (Reply 204 CEmpty)).

(** *** API keys *)

Definition create_api_key_route (project_id : str) (b : body) : M reply :=
  manage b (fun user => valid (ApiKeyCreate is_text b) (fun k =>
    r ← create_api_key settings unicode_alnum uuid (xc_draw x) now others user project_id (kc_name k)
          (Some (kc_scopes k)) (kc_expires_in_days k);
    mret (Reply 201 (CApiKeyCreated (api_key_out r.1) r.2)))).

Definition list_api_keys_route (project_id : str) (offset limit : option Z) : M reply :=
  manage NoBody (fun user => valid (page_of offset limit) (fun page =>
    l ← list_api_keys user project_id page.1 page.2;
    mret (Reply 200 (CApiKeys (map api_key_out l))))).

Definition revoke_api_key_route (project_id key_id : str) : M reply :=
  manage NoBody (fun user =>
    r ← revoke_api_key unicode_alnum fresh now others user project_id key_id;
    mret (Reply 200 (CApiKey (api_key_out r)))).

Definition rotate_api_key_route (project_id key_id : str) (b : body) : M reply :=
  manage b (fun user => valid (ApiKeyRotateRequest b) (fun overlap_seconds =>
    r ← rotate_api_key settings unicode_alnum uuid (xc_draw x) now others user project_id key_id
          overlap_seconds;
    mret (Reply 201 (CApiKeyCreated (api_key_out r.1) r.2)))).

(** *** Endpoints *)

Definition create_endpoint_route (project_id : str) (b : body) : M reply :=
  manage b (fun user => valid (EndpointCreate is_text http_url b) (fun e =>
    r ← create_endpoint settings unicode_alnum urlsplit ip_address getaddrinfo uuid now user project_id
          (nc_url e) (nc_description e) (nc_event_types e) (nc_signature_scheme e);
    mret (Reply 201 (CEndpointCreated (endpoint_out r.1) r.2)))).

Definition list_endpoints_route (project_id : str) (offset limit : option Z) : M reply :=
  manage NoBody (fun user => valid (page_of offset limit) (fun page =>
    l ← list_endpoints user project_id page.1 page.2;
    mret (Reply 200 (CEndpoints (map endpoint_out l))))).

Definition update_endpoint_route (project_id endpoint_id : str) (b : body) : M reply :=
  manage b (fun user => valid (EndpointUpdate is_text http_url b) (fun changes =>
    r ← update_endpoint settings unicode_alnum urlsplit ip_address getaddrinfo fresh now others user
          project_id endpoint_id changes;
    mret (Reply 200 (CEndpointUpdated (endpoint_out r.1) r.2)))).

Definition deactivate_endpoint_route (project_id endpoint_id : str) : M reply :=
  manage NoBody (fun user =>
    r ← deactivate_endpoint unicode_alnum fresh now others user project_id endpoint_id;
    mret (Reply 200 (CEndpoint (endpoint_out r)))).

Definition rotate_endpoint_secret_route (project_id endpoint_id : str) : M reply :=
  manage NoBody (fun user =>
    r ← rotate_endpoint_secret settings unicode_alnum fresh now others user project_id endpoint_id;
    let '(endpoint, secret, previous_valid_until) := r in
    mret (Reply 200 (CSecretRotated (MkEndpointSecretRotated (e_public_id endpoint)
      (e_secret_version endpoint) secret previous_valid_until)))).

Definition pause_endpoint_route (project_id endpoint_id : str) (b : body) : M reply :=
  manage b (fun user => valid (EndpointPauseRequest is_text b) (fun reason =>
    r ← pause_endpoint unicode_alnum fresh now others user project_id endpoint_id reason;
    mret (Reply 200 (CRuntime r)))).

Definition resume_endpoint_route (project_id endpoint_id : str) : M reply :=
  manage NoBody (fun user =>
    r ← resume_endpoint unicode_alnum fresh now others user project_id endpoint_id;
    mret (Reply 200 (CRuntime r))).

Definition recover_endpoint_circuit_route (project_id endpoint_id : str) : M reply :=
  manage NoBody (fun user =>
    r ← recover_endpoint_circuit settings unicode_alnum fresh now others user project_id endpoint_id;
    mret (Reply 200 (CRuntime r))).

(** *** Events and deliveries *)

(** [project: Project = Depends(get_api_key_project)]: the key's use is counted
    in [tracker]. *)
Definition ingest_event_route (idempotency_key : option str) (b : body) (tracker : ApiKeyUsageTracker) :
    M (reply * ApiKeyUsageTracker) :=
  match b with
  | BadJson => mret (Unprocessable, tracker)
  | _ =>
      caller ← get_api_key_project settings (xc_clock x 0) (xc_api_key x) tracker;
      match EventCreate is_text b, idempotency_key with
      | Some (event_type, payload, envelope_mode), Some key =>
          e ← ingest_event settings uuid now others (xc_trace x) caller.1 key event_type payload
                envelope_mode;
          mret (Reply 202 (CEvent (event_out e)), caller.2)
      | _, _ => mret (Unprocessable, caller.2)
      end
  end.

Definition list_events_route (project_id : str) (offset limit : option Z) : M reply :=
  manage NoBody (fun user => valid (page_of offset limit) (fun page =>
    l ← list_events user project_id page.1 page.2;
    mret (Reply 200 (CEvents (map event_out l))))).

Definition get_event_route (project_id event_id : str) : M reply :=
  manage NoBody (fun user =>
    r ← get_event user project_id event_id;
    mret (Reply 200 (CEvent (event_out r)))).

Definition list_deliveries_route (project_id : str) (offset limit : option Z) : M reply :=
  manage NoBody (fun user => valid (page_of offset limit) (fun page =>
    l ← list_deliveries user project_id page.1 page.2;
    mret (Reply 200 (CDeliveries (map delivery_out l))))).

Definition get_delivery_route (project_id delivery_id : str) : M reply :=
  manage NoBody (fun user =>
    r ← get_delivery user project_id delivery_id;
    mret (Reply 200 (CDeliveryDetail (delivery_detail r)))).

(** A row the response model refuses is an internal error. *)
Definition replay_delivery_route (project_id delivery_id : str) : M reply :=
  manage NoBody (fun user =>
    r ← replay_delivery settings unicode_alnum uuid now (xc_clock x 2) others (xc_others' x) user
          project_id delivery_id;
    out ← of_option (OtherException (py "ResponseValidationError")) (replay_out r);
    mret (Reply 201 (CReplay out))).

Definition replay_deliveries_route (project_id : str) (idempotency_key : option str) (b : body) :
    M reply :=
  manage b (fun user => valid (ReplayBatchRequest is_text b) (fun ids => valid idempotency_key (fun key =>
    r ← replay_deliveries settings unicode_alnum uuid now others user project_id ids key;
    mret (Reply 201 (CReplayOperation (replay_operation_out r)))))).

(** The parameters both dead-letter routes filter by *)
Definition dead_filter (reason : option str) (minimum_age_seconds : option Z)
    (k : option str -> option Z -> M reply) : M reply :=
  valid (q_str 64 reason) (fun reason => valid (q_int 0 None minimum_age_seconds) (k reason)).

Definition list_dead_deliveries_route (project_id : str) (endpoint_id reason : option str)
    (minimum_age_seconds offset limit : option Z) : M reply :=
  manage NoBody (fun user => dead_filter reason minimum_age_seconds (fun reason minimum_age_seconds =>
    valid (page_of offset limit) (fun page =>
      l ← list_dead_deliveries now user project_id page.1 page.2 endpoint_id reason minimum_age_seconds;
      mret (Reply 200 (CDeliveries (map delivery_out l)))))).

Definition export_dead_deliveries_route (project_id : str) (endpoint_id reason : option str)
    (minimum_age_seconds limit : option Z) : M reply :=
  manage NoBody (fun user => dead_filter reason minimum_age_seconds (fun reason minimum_age_seconds =>
    valid (in_range 1 (Some 1000) (default 1000 limit)) (fun limit =>
      l ← export_dead_deliveries now user project_id endpoint_id reason minimum_age_seconds limit;
      mret (Reply 200 (CCsv (csv_document l) (py "dead-deliveries-" ++ project_id ++ py ".csv")))))).

Definition cancel_delivery_route (project_id delivery_id : str) (b : body) : M reply :=
  manage b (fun user => valid (DeliveryCancelRequest is_text b) (fun reason =>
    r ← cancel_delivery unicode_alnum fresh now others user project_id delivery_id reason;
    mret (Reply 200 (CDelivery (delivery_out r))))).

Definition purge_terminal_deliveries_route (project_id : str) (b : body) : M reply :=
  manage b (fun user => valid (DeliveryPurgeRequest b) (fun p =>
    r ← purge_terminal_deliveries settings unicode_alnum fresh now user project_id p.1 p.2;
    mret (Reply 200 (CPurge r)))).

(** *** The router *)

(** A management request, by its route, with its path, query and body. *)
Inductive request : Type :=
| CreateOrganization (b : body)
| ListOrganizations (offset limit : option Z)
| AddMember (organization_id : str) (b : body)
| ListMembers (organization_id : str) (offset limit : option Z)
| UpdateMember (organization_id : str) (member_user_id : Z) (b : body)
| RemoveMember (organization_id : str) (member_user_id : Z)
| GetPolicy (organization_id : str)
| UpdatePolicy (organization_id : str) (b : body)
| ListAuditEvents (organization_id : str) (action resource_type : option str) (limit : option Z)
    (before_created_at : option datetime) (before_id : option Z)
| ExportOrganization (organization_id : str) (limit : option Z)
| RequestOrganizationDeletion (organization_id : str)
| GetOrganizationDeletion (organization_id : str)
| CancelOrganizationDeletion (organization_id : str)
| CreateProject (organization_id : str) (b : body)
| ListProjects (organization_id : str) (offset limit : option Z)
| DeactivateProject (project_id : str)
| AddProjectMember (project_id : str) (b : body)
| ListProjectMembers (project_id : str) (offset limit : option Z)
| UpsertProjectMember (project_id : str) (member_user_id : Z) (b : body)
| UpdateProjectMember (project_id : str) (member_user_id : Z) (b : body)
| RemoveProjectMember (project_id : str) (member_user_id : Z)
| CreateApiKey (project_id : str) (b : body)
| ListApiKeys (project_id : str) (offset limit : option Z)
| RevokeApiKey (project_id key_id : str)
| RotateApiKey (project_id key_id : str) (b : body)
| CreateEndpoint (project_id : str) (b : body)
| ListEndpoints (project_id : str) (offset limit : option Z)
| UpdateEndpoint (project_id endpoint_id : str) (b : body)
| DeactivateEndpoint (project_id endpoint_id : str)
| RotateEndpointSecret (project_id endpoint_id : str)
| PauseEndpoint (project_id endpoint_id : str) (b : body)
| ResumeEndpoint (project_id endpoint_id : str)
| RecoverEndpointCircuit (project_id endpoint_id : str)
| ListEvents (project_id : str) (offset limit : option Z)
| GetEvent (project_id event_id : str)
| ListDeliveries (project_id : str) (offset limit : option Z)
| GetDelivery (project_id delivery_id : str)
| ReplayDelivery (project_id delivery_id : str)
| ReplayDeliveries (project_id : str) (idempotency_key : option str) (b : body)
| ListDeadDeliveries (project_id : str) (endpoint_id reason : option str)
    (minimum_age_seconds offset limit : option Z)
| ExportDeadDeliveries (project_id : str) (endpoint_id reason : option str)
    (minimum_age_seconds limit : option Z)
| CancelDelivery (project_id delivery_id : str) (b : body)
| PurgeTerminalDeliveries (project_id : str) (b : body).

Definition serve (r : request) : M reply :=
  match r with
  | CreateOrganization b => create_organization_route b
  | ListOrganizations offset limit => list_organizations_route offset limit
  | AddMember o b => add_member_route o b
  | ListMembers o offset limit => list_members_route o offset limit
  | UpdateMember o m b => update_member_route o m b
  | RemoveMember o m => remove_member_route o m
  | GetPolicy o => get_policy_route o
  | UpdatePolicy o b => update_policy_route o b
  | ListAuditEvents o action rt limit at_ id => list_audit_events_route o action rt limit at_ id
  | ExportOrganization o limit => export_organization_route o limit
  | RequestOrganizationDeletion o => request_organization_deletion_route o
  | GetOrganizationDeletion o => get_organization_deletion_route o
  | CancelOrganizationDeletion o => cancel_organization_deletion_route o
  | CreateProject o b => create_project_route o b
  | ListProjects o offset limit => list_projects_route o offset limit
  | DeactivateProject p => deactivate_project_route p
  | AddProjectMember p b => add_project_member_route p b
  | ListProjectMembers p offset limit => list_project_members_route p offset limit
  | UpsertProjectMember p m b => upsert_project_member_route p m b
  | UpdateProjectMember p m b => update_project_member_route p m b
  | RemoveProjectMember p m => remove_project_member_route p m
  | CreateApiKey p b => create_api_key_route p b
  | ListApiKeys p offset limit => list_api_keys_route p offset limit
  | RevokeApiKey p k => revoke_api_key_route p k
  | RotateApiKey p k b => rotate_api_key_route p k b
  | CreateEndpoint p b => create_endpoint_route p b
  | ListEndpoints p offset limit => list_endpoints_route p offset limit
  | UpdateEndpoint p e b => update_endpoint_route p e b
  | DeactivateEndpoint p e => deactivate_endpoint_route p e
  | RotateEndpointSecret p e => rotate_endpoint_secret_route p e
  | PauseEndpoint p e b => pause_endpoint_route p e b
  | ResumeEndpoint p e => resume_endpoint_route p e
  | RecoverEndpointCircuit p e => recover_endpoint_circuit_route p e
  | ListEvents p offset limit => list_events_route p offset limit
  | GetEvent p e => get_event_route p e
  | ListDeliveries p offset limit => list_deliveries_route p offset limit
  | GetDelivery p d => get_delivery_route p d
  | ReplayDelivery p d => replay_delivery_route p d
  | ReplayDeliveries p key b => replay_deliveries_route p key b
  | ListDeadDeliveries p e reason age offset limit => list_dead_deliveries_route p e reason age offset limit
  | ExportDeadDeliveries p e reason age limit => export_dead_deliveries_route p e reason age limit
  | CancelDelivery p d b => cancel_delivery_route p d b
  | PurgeTerminalDeliveries p b => purge_terminal_deliveries_route p b
  end.
End Api.

(** The status of the response, with the error handlers' mapping. *)
Definition status_of (r : res exn reply) : Z :=
  match r with Ok r => reply_status r | Raise e => status_code e end.
