(* ===== verification/RouteSafety.v ===== *)
(** * What the API guarantees

    For every management route of [Routes]: nobody is served without an active
    account and the permission the route demands, and a request that is
    answered with an error has changed nothing; the CSV export reads back as
    the cells that were written, none of which starts a formula. *)

From Stdlib Require Import QArith.
From stdpp Require Import base tactics list gmap sets strings numbers option relations.
From S2P Require Import Prelude Json Text Models Session Settings WebhookSecurity Delivery Admission.
From S2P Require Import Authorization AuditLog Events EventSafety ReplaySafety Tenancy Endpoints ApiKeys Accounts.
From S2P Require Import Outbox Schemas Routes.
Local Open Scope Z_scope.

(** ** Failed operations leave no trace *)

Section AtomicOperations.
Context `{Rounding} (settings : Settings) (unicode_alnum : Z -> bool).
Context (urlsplit : str -> option SplitResult) (ip_address : str -> option IPAddress)
  (getaddrinfo : str -> Z -> option (list str)).
Context (fs : list (Db -> Db)).
Abbreviation R := (after fs).

Lemma quiet_organization_role o u : quiet R (organization_role o u).
Proof. unfold organization_role. quietly. Qed.
Hint Resolve quiet_organization_role : quiet.

Lemma quiet_require_owner o u a b : quiet R (require_owner_for_owner_change o u a b).
Proof. unfold require_owner_for_owner_change. quietly. Qed.
Lemma quiet_ensure_not_last_owner o m : quiet R (ensure_not_last_owner o m).
Proof. unfold ensure_not_last_owner. quietly. Qed.
Lemma quiet_flush_project mk : quiet R (flush_project mk).
Proof. unfold flush_project. quietly. Qed.
Lemma quiet_endpoint p e : quiet R (endpoint p e).
Proof. unfold endpoint. quietly. Qed.
Lemma quiet_validate_endpoint_url u : quiet R (validate_endpoint_url settings urlsplit ip_address getaddrinfo u).
Proof. unfold validate_endpoint_url. quietly. Qed.
Hint Resolve quiet_require_owner quiet_ensure_not_last_owner quiet_flush_project quiet_endpoint
  quiet_validate_endpoint_url : quiet.

Lemma atomic_create_organization uuid now user name :
  atomic R (create_organization settings unicode_alnum uuid now user name).
Proof. unfold create_organization. quietly. Qed.
Lemma atomic_add_member uuid now user o m role : atomic R (add_member unicode_alnum uuid now user o m role).
Proof. unfold add_member. quietly. Qed.
Lemma atomic_update_member uuid now user o m role :
  atomic R (update_member unicode_alnum uuid now user o m role).
Proof. unfold update_member, put_member. quietly. Qed.
Lemma atomic_remove_member uuid now user o m : atomic R (remove_member unicode_alnum uuid now user o m).
Proof. unfold remove_member. quietly. Qed.
Lemma atomic_update_policy uuid now user o ch : atomic R (update_policy unicode_alnum uuid now user o ch).
Proof. unfold update_policy. quietly. Qed.
Lemma atomic_request_organization_deletion uuid now others user o : others ∈ fs ->
  atomic R (request_organization_deletion settings unicode_alnum uuid now others user o).
Proof.
  intros. assert (quiet R (wait others)) by by apply quiet_wait.
  unfold request_organization_deletion, put_organization. quietly.
Qed.
Lemma atomic_cancel_organization_deletion uuid now others user o : others ∈ fs ->
  atomic R (cancel_organization_deletion unicode_alnum uuid now others user o).
Proof.
  intros. assert (quiet R (wait others)) by by apply quiet_wait.
  unfold cancel_organization_deletion, put_organization, put_operation. quietly.
Qed.
Lemma atomic_create_project uuid now user o name :
  atomic R (create_project unicode_alnum uuid now user o name).
Proof. unfold create_project, commit_project. quietly. Qed.
Lemma atomic_deactivate_project uuid now user p : atomic R (deactivate_project unicode_alnum uuid now user p).
Proof. unfold deactivate_project, put_project. quietly. Qed.
Lemma atomic_add_project_member uuid now user p m role :
  atomic R (add_project_member unicode_alnum uuid now user p m role).
Proof. unfold add_project_member. quietly. Qed.
Lemma atomic_upsert_project_member uuid now user p m role :
  atomic R (upsert_project_member unicode_alnum uuid now user p m role).
Proof. unfold upsert_project_member, put_project_member. quietly. Qed.
Lemma atomic_update_project_member uuid now user p m role :
  atomic R (update_project_member unicode_alnum uuid now user p m role).
Proof. unfold update_project_member, put_project_member. quietly. Qed.
Lemma atomic_remove_project_member uuid now user p m :
  atomic R (remove_project_member unicode_alnum uuid now user p m).
Proof. unfold remove_project_member. quietly. Qed.

Lemma quiet_allocate n i draw : quiet R (allocate n i draw).
Proof. revert i; induction n as [| n IH]; intros i; cbn [allocate]; quietly. Qed.
Lemma quiet_add_api_key mk : quiet R (add_api_key mk).
Proof. unfold add_api_key. quietly. Qed.
Lemma quiet_digest plaintext : quiet R (digest settings plaintext).
Proof. unfold digest. quietly. Qed.
Lemma quiet_check_endpoint_limit o p e now : quiet R (check_endpoint_limit settings o p e now).
Proof. unfold check_endpoint_limit, ensure_tenant_state. quietly. Qed.
Lemma quiet_endpoint_runtime p e : quiet R (endpoint_runtime p e).
Proof. unfold endpoint_runtime. quietly. Qed.
Hint Resolve quiet_allocate quiet_add_api_key quiet_digest quiet_check_endpoint_limit
  quiet_endpoint_runtime : quiet.

Lemma atomic_create_api_key uuid draw now others user p name scopes days : others ∈ fs ->
  atomic R (create_api_key settings unicode_alnum uuid draw now others user p name scopes days).
Proof.
  intros. assert (quiet R (wait others)) by by apply quiet_wait.
  unfold create_api_key, generate_unique_api_key. quietly.
Qed.
Lemma atomic_revoke_api_key uuid now others user p k : others ∈ fs ->
  atomic R (revoke_api_key unicode_alnum uuid now others user p k).
Proof.
  intros. assert (quiet R (wait others)) by by apply quiet_wait.
  unfold revoke_api_key, put_api_key. quietly.
Qed.
Lemma atomic_rotate_api_key uuid draw now others user p k overlap : others ∈ fs ->
  atomic R (rotate_api_key settings unicode_alnum uuid draw now others user p k overlap).
Proof.
  intros. assert (quiet R (wait others)) by by apply quiet_wait.
  unfold rotate_api_key, generate_unique_api_key, put_api_key. quietly.
Qed.
Lemma atomic_deactivate_endpoint uuid now others user p e : others ∈ fs ->
  atomic R (deactivate_endpoint unicode_alnum uuid now others user p e).
Proof.
  intros. assert (quiet R (wait others)) by by apply quiet_wait.
  unfold deactivate_endpoint, put_endpoint. quietly.
Qed.
Lemma atomic_operate uuid now others user p e change action metadata : others ∈ fs ->
  atomic R (operate unicode_alnum uuid now others user p e change action metadata).
Proof.
  intros. assert (quiet R (wait others)) by by apply quiet_wait.
  unfold operate, put_quota. quietly.
Qed.

(** *** Secrets shown once

    The plaintext secret is derived after the commit; that can only fail on
    text that has no UTF-8 encoding. *)

Definition unencodable : exn := ValueError "UnicodeEncodeError".

Definition atomic_but {A} (m : M A) : Prop :=
  forall s e s', m s = (Raise e, s') -> e <> unencodable -> R (committed s) (committed s').

Lemma atomic_atomic_but {A} (m : M A) : atomic R m -> atomic_but m.
Proof. intros Ha s e s' Hm _. by eapply Ha. Qed.

Lemma atomic_but_bind {A B} (m : M A) (k : A -> M B) :
  quiet R m -> (forall a, atomic_but (k a)) -> atomic_but (m ≫= k).
Proof.
  intros Hm Hk s e s'. specialize (Hm s). unfold mbind, M_bind.
  destruct (m s) as [[a|e'] s1]; cbn in *; [| by intros [= _ ->]].
  intros Hr He. etrans; [exact Hm | by eapply Hk].
Qed.

Lemma atomic_but_commit {A} (m : M A) :
  (forall s e s', m s = (Raise e, s') -> e = unencodable) -> atomic_but (commit;; m).
Proof. intros Hm s e s'. unfold mbind, M_bind, commit. by intros He%Hm. Qed.

Lemma secret_only {A B} (o : option A) (f : A -> B) s e s' :
  (a ← of_option unencodable o; mret (f a)) s = (Raise e, s') -> e = unencodable.
Proof. unfold mbind, M_bind. destruct o; [done |]. by intros [= <- _]. Qed.

Ltac mostly :=
  repeat first
    [ progress intros
    | apply atomic_but_commit; intros *; repeat case_match; try done; apply secret_only
    | apply atomic_atomic_but; solve [quietly]
    | apply atomic_but_bind; [solve [quietly] |]
    | match goal with |- atomic_but (match ?x with _ => _ end) => destruct x end
    | match goal with |- atomic_but ((match ?x with _ => _ end) _) => destruct x end ].

Lemma atomic_create_endpoint uuid now user p url description types scheme :
  atomic_but (create_endpoint settings unicode_alnum urlsplit ip_address getaddrinfo uuid now user p url
                description types scheme).
Proof. unfold create_endpoint, endpoint_plaintext_secret. mostly. Qed.
Lemma atomic_update_endpoint uuid now others user p e changes : others ∈ fs ->
  atomic_but (update_endpoint settings unicode_alnum urlsplit ip_address getaddrinfo uuid now others user p
                e changes).
Proof.
  intros. assert (quiet R (wait others)) by by apply quiet_wait.
  unfold update_endpoint, put_endpoint, endpoint_plaintext_secret. mostly.
Qed.
Lemma atomic_rotate_endpoint_secret uuid now others user p e : others ∈ fs ->
  atomic_but (rotate_endpoint_secret settings unicode_alnum uuid now others user p e).
Proof.
  intros. assert (quiet R (wait others)) by by apply quiet_wait.
  unfold rotate_endpoint_secret, put_endpoint, endpoint_plaintext_secret. mostly.
Qed.
End AtomicOperations.

(** ** Reads *)

Section QuietReads.
Context (R : relation Db) `{!PreOrder R}.

Lemma quiet_authorize_each user os : quiet R (authorize_each user os).
Proof. induction os as [| o os IH]; cbn [authorize_each]; quietly. Qed.
Lemma quiet_visible_projects user ps : quiet R (visible_projects user ps).
Proof.
  induction ps as [| p ps IH]; cbn [visible_projects]; [quietly |]. intros s.
  destruct (authorize_project _ _ _ _ _) as [p'|[]]; try reflexivity; [| apply IH].
  apply (quiet_bind R (visible_projects user ps)); [done |]. quietly.
Qed.
Hint Resolve quiet_authorize_each quiet_visible_projects : quiet.

Lemma quiet_list_organizations user o l : quiet R (list_organizations user o l).
Proof. unfold list_organizations. quietly. Qed.
Lemma quiet_list_members user i o l : quiet R (list_members user i o l).
Proof. unfold list_members. quietly. Qed.
Lemma quiet_get_policy user o : quiet R (get_policy user o).
Proof. unfold get_policy. quietly. Qed.
Lemma quiet_list_audit_events user o action rt limit at_ id :
  quiet R (list_audit_events user o action rt limit at_ id).
Proof. unfold list_audit_events, list_audit. quietly. Qed.
Lemma quiet_export_organization now user o limit : quiet R (export_organization now user o limit).
Proof. unfold export_organization, list_audit. quietly. Qed.
Lemma quiet_get_organization_deletion user o : quiet R (get_organization_deletion user o).
Proof. unfold get_organization_deletion. quietly. Qed.
Lemma quiet_list_projects user i o l : quiet R (list_projects user i o l).
Proof. unfold list_projects. quietly. Qed.
Lemma quiet_list_project_members user i o l : quiet R (list_project_members user i o l).
Proof. unfold list_project_members. quietly. Qed.
Lemma quiet_list_api_keys user i o l : quiet R (list_api_keys user i o l).
Proof. unfold list_api_keys. quietly. Qed.
Lemma quiet_list_endpoints user i o l : quiet R (list_endpoints user i o l).
Proof. unfold list_endpoints. quietly. Qed.
Lemma quiet_list_events user i o l : quiet R (list_events user i o l).
Proof. unfold list_events. quietly. Qed.
Lemma quiet_get_event user p e : quiet R (get_event user p e).
Proof. unfold get_event. quietly. Qed.
Lemma quiet_list_deliveries user i o l : quiet R (list_deliveries user i o l).
Proof. unfold list_deliveries. quietly. Qed.
Lemma quiet_get_delivery user p d : quiet R (get_delivery user p d).
Proof. unfold get_delivery. quietly. Qed.
Lemma quiet_list_dead_deliveries now user p o l e reason age :
  quiet R (list_dead_deliveries now user p o l e reason age).
Proof. unfold list_dead_deliveries. quietly. Qed.
Lemma quiet_export_dead_deliveries now user p e reason age limit :
  quiet R (export_dead_deliveries now user p e reason age limit).
Proof. unfold export_dead_deliveries. quietly. Qed.
Lemma quiet_current_user `{Jwt} settings unicode_decimal now token :
  quiet R (get_current_active_user settings unicode_decimal now token).
Proof. unfold get_current_active_user, get_current_user. quietly. Qed.
End QuietReads.

#[export] Hint Resolve quiet_list_organizations quiet_list_members quiet_get_policy
  quiet_list_audit_events quiet_export_organization quiet_get_organization_deletion quiet_list_projects
  quiet_list_project_members quiet_list_api_keys quiet_list_endpoints quiet_list_events quiet_get_event
  quiet_list_deliveries quiet_get_delivery quiet_list_dead_deliveries quiet_export_dead_deliveries
  quiet_current_user : quiet.

(** ** Requests that fail *)

Ltac unfold_route :=
  unfold create_organization_route, list_organizations_route, add_member_route,
    list_members_route, update_member_route, remove_member_route,
    get_policy_route, update_policy_route, list_audit_events_route,
    export_organization_route, request_organization_deletion_route, get_organization_deletion_route,
    cancel_organization_deletion_route, create_project_route, list_projects_route,
    deactivate_project_route, add_project_member_route, list_project_members_route,
    upsert_project_member_route, update_project_member_route, remove_project_member_route,
    create_api_key_route, list_api_keys_route, revoke_api_key_route,
    rotate_api_key_route, create_endpoint_route, list_endpoints_route,
    update_endpoint_route, deactivate_endpoint_route, rotate_endpoint_secret_route,
    pause_endpoint_route, resume_endpoint_route, recover_endpoint_circuit_route,
    ingest_event_route, list_events_route, get_event_route,
    list_deliveries_route, get_delivery_route, replay_delivery_route,
    replay_deliveries_route, list_dead_deliveries_route, export_dead_deliveries_route,
    cancel_delivery_route, purge_terminal_deliveries_route in *.

Section Failures.
Context `{Rounding} `{Jwt} (settings : Settings).
Context (unicode_alnum : Z -> bool) (unicode_decimal : Z -> option Z).
Context (urlsplit : str -> option SplitResult) (ip_address : str -> option IPAddress)
  (getaddrinfo : str -> Z -> option (list str)).
Context (is_text : str -> bool) (http_url : str -> option str).
Context (x : exchange).
Abbreviation waits := [xc_others x; xc_others' x].
Abbreviation R := (after waits).

(** An error response means that only competing transactions have moved the
    database. *)
Definition settles (m : M reply) : Prop :=
  forall s out s', m s = (out, s') -> 400 <= status_of out -> out <> Raise unencodable ->
    R (committed s) (committed s').

Lemma settles_quiet (m : M reply) : quiet R m -> settles m.
Proof. intros Hq s out s' Hm _ _. specialize (Hq s). by rewrite Hm in Hq. Qed.

Lemma settles_valid {A} (a : option A) k : (forall a, settles (k a)) -> settles (valid a k).
Proof. intros Hk. destruct a; [apply Hk | apply settles_quiet; unfold valid; quietly]. Qed.

Lemma settles_manage b k :
  (forall user, settles (k user)) -> settles (manage settings unicode_decimal x b k).
Proof.
  intros Hk s out s'. unfold manage. pose proof (quiet_current_user R settings unicode_decimal
    (xc_clock x 0) (xc_token x) s) as Hq. unfold mbind, M_bind.
  destruct b; [| by intros [= <- <-] |];
    (destruct (get_current_active_user _ _ _ _ s) as [[user|e] s1]; cbn in Hq;
     [intros Hm Hs Hne; etrans; [exact Hq | by eapply Hk] | by intros [= <- <-]]).
Qed.

(** A service call followed by a success response. *)
Lemma settles_call {A} (m : M A) (k : A -> M reply) :
  atomic_but waits m ->
  (forall s a s1, m s = (Ok a, s1) -> exists r, k a s1 = (Ok r, s1) /\ reply_status r < 400) ->
  settles (m ≫= k).
Proof.
  intros Hm Hk s out s'. unfold mbind, M_bind. destruct (m s) as [[a|e] s1] eqn:E.
  - destruct (Hk s a s1 E) as (r & -> & Hr). intros [= <- <-]. cbn. lia.
  - intros [= <- <-] _ Hne. eapply Hm; [exact E | congruence].
Qed.

Lemma replay_delivery_source uuid checked_at now others others' user project_id delivery_id s d s' :
  replay_delivery settings unicode_alnum uuid checked_at now others others' user project_id delivery_id s
    = (Ok d, s') -> is_Some (replay_out d).
Proof.
  intros Hr. unfold replay_delivery in Hr. m_inv. unfold replay_out, replay_copy. cbn. done.
Qed.

Create HintDb settle.

Ltac settle :=
  repeat first
    [ progress intros
    | apply settles_manage
    | apply settles_valid
    | progress unfold dead_filter
    | solve [apply settles_call;
        [first [ solve [apply atomic_atomic_but; apply quiet_atomic; auto with quiet typeclass_instances]
               | eauto with settle ]
        | intros ? ? ? _; repeat match goal with c : _ * _ |- _ => destruct c end;
          eexists; (split; [reflexivity | cbn; lia])]] ].

Lemma atomic_weaken {A} (fs gs : list (Db -> Db)) (m : M A) :
  (forall f, f ∈ fs -> f ∈ gs) -> atomic (after fs) m -> atomic (after gs) m.
Proof.
  intros Hsub Ha s e s' Hm. specialize (Ha s e s' Hm). unfold after in *.
  eapply rtc_subrel; [| exact Ha]. intros db db' (f & Hf & ->). exists f. auto.
Qed.

Lemma sub_waits f : f ∈ [xc_others x] -> f ∈ waits.
Proof. intros ->%list_elem_of_singleton. by left. Qed.

Lemma others_wait : xc_others x ∈ waits.
Proof. by left. Qed.
Hint Resolve others_wait : settle.
Hint Resolve atomic_atomic_but atomic_create_organization atomic_add_member atomic_update_member
  atomic_remove_member atomic_update_policy atomic_request_organization_deletion
  atomic_cancel_organization_deletion atomic_create_project atomic_deactivate_project
  atomic_add_project_member atomic_upsert_project_member atomic_update_project_member
  atomic_remove_project_member atomic_create_api_key atomic_revoke_api_key atomic_rotate_api_key
  atomic_deactivate_endpoint atomic_operate atomic_create_endpoint atomic_update_endpoint
  atomic_rotate_endpoint_secret : settle.

Lemma atomic_bulk uuid now user p ids key :
  atomic R (replay_deliveries settings unicode_alnum uuid now (xc_others x) user p ids key).
Proof.
  apply (atomic_weaken [xc_others x]); [apply sub_waits | apply atomic_replay_deliveries].
Qed.
Lemma atomic_cancel uuid now user p d reason :
  atomic R (cancel_delivery unicode_alnum uuid now (xc_others x) user p d reason).
Proof. apply (atomic_weaken [xc_others x]); [apply sub_waits | apply atomic_cancel_delivery]. Qed.
Lemma atomic_purge_deliveries uuid now user p dry n :
  atomic R (purge_terminal_deliveries settings unicode_alnum uuid now user p dry n).
Proof. apply (atomic_weaken []); [by intros f Hf%not_elem_of_nil | apply atomic_purge]. Qed.
Lemma atomic_pause uuid now user p e reason :
  atomic R (pause_endpoint unicode_alnum uuid now (xc_others x) user p e reason).
Proof. apply atomic_operate. by left. Qed.
Lemma atomic_resume uuid now user p e :
  atomic R (resume_endpoint unicode_alnum uuid now (xc_others x) user p e).
Proof. apply atomic_operate. by left. Qed.
Lemma atomic_recover uuid now user p e :
  atomic R (recover_endpoint_circuit settings unicode_alnum uuid now (xc_others x) user p e).
Proof. apply atomic_operate. by left. Qed.
Hint Resolve atomic_bulk atomic_cancel atomic_purge_deliveries atomic_pause atomic_resume
  atomic_recover : settle.

Lemma settles_replay p d : settles (replay_delivery_route settings unicode_alnum unicode_decimal x p d).
Proof.
  apply settles_manage. intros user. apply settles_call.
  - apply atomic_atomic_but, atomic_replay_delivery.
  - intros s a s1 Ha. destruct (replay_delivery_source _ _ _ _ _ _ _ _ _ _ _ Ha) as [out Ho].
    unfold mbind, M_bind. rewrite Ho. cbn. by eexists.
Qed.

#[local] Opaque create_organization list_organizations add_member list_members update_member
  remove_member get_policy update_policy list_audit_events export_organization
  request_organization_deletion get_organization_deletion cancel_organization_deletion create_project list_projects
  deactivate_project add_project_member list_project_members upsert_project_member update_project_member
  remove_project_member create_api_key list_api_keys revoke_api_key rotate_api_key
  create_endpoint list_endpoints update_endpoint deactivate_endpoint rotate_endpoint_secret
  list_events get_event list_deliveries get_delivery replay_delivery
  replay_deliveries list_dead_deliveries export_dead_deliveries pause_endpoint resume_endpoint
  recover_endpoint_circuit cancel_delivery purge_terminal_deliveries.

Lemma serve_settles r :
  settles (serve settings unicode_alnum unicode_decimal urlsplit ip_address getaddrinfo is_text http_url
             x r).
Proof. destruct r; cbn [serve]; first [apply settles_replay | unfold_route; settle]. Qed.
End Failures.

(** ** Who is served *)

(** What a route demands of its caller beyond an active account. *)
Inductive demand : Type :=
| Anyone
| OfOrganization (organization_id : str) (permission : Permission) (even_when_leaving : bool)
| OfProject (project_id : str) (permission : Permission).

Definition demand_of (r : request) : demand :=
  match r with
  | CreateOrganization _ | ListOrganizations _ _ => Anyone
  | AddMember o _ | UpdateMember o _ _ | RemoveMember o _ => OfOrganization o MEMBER_MANAGE false
  | ListMembers o _ _ | ListProjects o _ _ | GetOrganizationDeletion o => OfOrganization o ORG_READ false
  | GetPolicy o | UpdatePolicy o _ => OfOrganization o POLICY_MANAGE false
  | ListAuditEvents o _ _ _ _ _ => OfOrganization o AUDIT_READ false
  | ExportOrganization o _ => OfOrganization o ORG_EXPORT false
  | RequestOrganizationDeletion o | CancelOrganizationDeletion o => OfOrganization o ORG_DELETE true
  | CreateProject o _ => OfOrganization o PROJECT_MANAGE false
  | DeactivateProject p | AddProjectMember p _ | ListProjectMembers p _ _ | UpsertProjectMember p _ _
  | UpdateProjectMember p _ _ | RemoveProjectMember p _ => OfProject p PROJECT_MANAGE
  | CreateApiKey p _ | ListApiKeys p _ _ | RevokeApiKey p _ | RotateApiKey p _ _ => OfProject p KEY_MANAGE
  | CreateEndpoint p _ | UpdateEndpoint p _ _ | DeactivateEndpoint p _ | RotateEndpointSecret p _ =>
      OfProject p ENDPOINT_MANAGE
  | PauseEndpoint p _ _ | ResumeEndpoint p _ | RecoverEndpointCircuit p _ => OfProject p ENDPOINT_OPERATE
  | ListEndpoints p _ _ | ListEvents p _ _ | GetEvent p _ | ListDeliveries p _ _ | GetDelivery p _
  | ListDeadDeliveries p _ _ _ _ _ | ExportDeadDeliveries p _ _ _ _ => OfProject p PROJECT_READ
  | ReplayDelivery p _ | ReplayDeliveries p _ _ => OfProject p REPLAY
  | CancelDelivery p _ _ => OfProject p DELIVERY_CANCEL
  | PurgeTerminalDeliveries p _ => OfProject p DELIVERY_PURGE
  end.

(** The decision of [src/app/authorization.py] on that demand. *)
Definition decision (d : demand) (user_id : Z) (db : Db) : res exn unit :=
  match d with
  | Anyone => Ok ()
  | OfOrganization o permission pending =>
      _ ← authorize_organization db user_id o permission pending; Ok ()
  | OfProject p permission => _ ← authorize_project db user_id p permission false; Ok ()
  end.

(** [m] asks before anything else. *)
Definition asks {A} (d : demand) (user : Z) (m : M A) : Prop :=
  forall s e, decision d user (working s) = Raise e -> m s = (Raise e, s).

Lemma asks_organization {A} o permission pending user (k : Organization -> M A) :
  asks (OfOrganization o permission pending) user (authorized_org user o permission pending ≫= k).
Proof.
  intros s e. cbn. unfold mbind, M_bind, authorized_org.
  destruct (authorize_organization _ _ _ _ _); [done |]. by intros [= ->].
Qed.

Lemma asks_project {A} p permission user (k : Project -> M A) :
  asks (OfProject p permission) user (authorized user p permission ≫= k).
Proof.
  intros s e. cbn. unfold mbind, M_bind, authorized.
  destruct (authorize_project _ _ _ _ _); [done |]. by intros [= ->].
Qed.

Lemma asks_bind {A B} d user (m : M A) (k : A -> M B) : asks d user m -> asks d user (m ≫= k).
Proof. intros Hm s e He. by rewrite (M_bind_raise m k s e s (Hm s e He)). Qed.

(** A route's handler refuses the request as malformed, or asks. *)
Definition gated (d : demand) (user : Z) (m : M reply) : Prop :=
  (forall s, m s = (Ok Unprocessable, s)) \/ asks d user m.

Lemma gated_valid {A} d user (a : option A) k :
  (forall a, gated d user (k a)) -> gated d user (valid a k).
Proof. intros Hk. destruct a; [apply Hk | by left]. Qed.

Definition body_of (r : request) : body :=
  match r with
  | CreateOrganization b | AddMember _ b | UpdateMember _ _ b | UpdatePolicy _ b | CreateProject _ b
  | AddProjectMember _ b | UpsertProjectMember _ _ b | UpdateProjectMember _ _ b | CreateApiKey _ b
  | RotateApiKey _ _ b | CreateEndpoint _ b | UpdateEndpoint _ _ b | PauseEndpoint _ _ b
  | ReplayDeliveries _ _ b | CancelDelivery _ _ b | PurgeTerminalDeliveries _ b => b
  | _ => NoBody
  end.

Section Mediation.
Context `{Rounding} `{Jwt} (settings : Settings).
Context (unicode_alnum : Z -> bool) (unicode_decimal : Z -> option Z).
Context (urlsplit : str -> option SplitResult) (ip_address : str -> option IPAddress)
  (getaddrinfo : str -> Z -> option (list str)).
Context (is_text : str -> bool) (http_url : str -> option str).
Context (x : exchange).

Ltac gate :=
  repeat first
    [ progress intros
    | apply gated_valid
    | progress unfold dead_filter
    | right; first
        [ by intros ? ? ?
        | apply asks_bind; first [apply asks_organization | apply asks_project] ] ].

Lemma serve_gated r : exists k,
  serve settings unicode_alnum unicode_decimal urlsplit ip_address getaddrinfo is_text http_url x r
    = manage settings unicode_decimal x (body_of r) k /\
  forall user, gated (demand_of r) user (k user).
Proof. destruct r; (eexists; split; [reflexivity |]); cbn [demand_of]; gate. Qed.
End Mediation.

(** ** Reading the export back

    A reader of RFC 4180 documents: fields separated by commas, rows ended by
    CR LF, quotes doubled within quoted fields. *)

Inductive csv_mode : Type := AtStart | InPlain | InQuotes | AfterQuote | AtBreak.

Fixpoint csv_read (m : csv_mode) (field : str) (row : list str) (s : str) : option (list (list str)) :=
  match s with
  | [] => match m, row with AtStart, [] => Some [] | _, _ => None end
  | c :: s' =>
      match m with
      | AtBreak => if c =? 10 then rows ← csv_read AtStart [] [] s'; Some (row :: rows) else None
      | InQuotes =>
          if c =? 34 then csv_read AfterQuote field row s' else csv_read InQuotes (field ++ [c]) row s'
      | AtStart | InPlain | AfterQuote =>
          if c =? 44 then csv_read AtStart [] (row ++ [field]) s'
          else if c =? 13 then csv_read AtBreak [] (row ++ [field]) s'
          else if c =? 34 then
            match m with
            | AtStart => csv_read InQuotes [] row s'
            | AfterQuote => csv_read InQuotes (field ++ [34]) row s'
            | _ => None
            end
          else if c =? 10 then None
          else match m with AfterQuote => None | _ => csv_read InPlain (field ++ [c]) row s' end
      end
  end.

Section Csv.
Implicit Types (f field s : str) (row : list str).

Definition ends_field (c : Z) : Prop := c = 44 \/ c = 13.

Lemma read_end m field row c s :
  ends_field c -> m = AtStart \/ m = InPlain ->
  csv_read m field row (c :: s) = csv_read AfterQuote field row (c :: s).
Proof. by intros [-> | ->] [-> | ->]. Qed.

Lemma read_plain f : forall m field row c s,
  needs_quotes f = false -> ends_field c -> m = AtStart \/ m = InPlain ->
  csv_read m field row (f ++ c :: s) = csv_read AfterQuote (field ++ f) row (c :: s).
Proof.
  induction f as [| d f IH]; intros m field row c s Hq Hc Hm.
  - rewrite app_nil_r. by apply read_end.
  - cbn in Hq. apply orb_false_iff in Hq as [Hd Hq]. apply bool_decide_eq_false in Hd.
    assert (d <> 44 /\ d <> 34 /\ d <> 10 /\ d <> 13) as (H1 & H2 & H3 & H4) by set_solver.
    replace (field ++ d :: f) with ((field ++ [d]) ++ f) by by rewrite <- app_assoc.
    rewrite <- (IH InPlain (field ++ [d]) row c s) by auto.
    apply Z.eqb_neq in H1, H2, H3, H4. cbn [app csv_read]. rewrite H1, H2, H3, H4.
    by destruct Hm as [-> | ->].
Qed.

Lemma read_quoted f : forall field row c s,
  csv_read InQuotes field row ((f ≫= fun c => if c =? 34 then [34; 34] else [c]) ++ 34 :: c :: s)
    = csv_read AfterQuote (field ++ f) row (c :: s).
Proof.
  induction f as [| d f IH]; intros field row c s; [by rewrite app_nil_r |].
  rewrite bind_cons, <- app_assoc.
  replace (field ++ d :: f) with ((field ++ [d]) ++ f) by by rewrite <- app_assoc.
  rewrite <- (IH (field ++ [d])). destruct (d =? 34) eqn:E; cbn [app csv_read].
  - apply Z.eqb_eq in E as ->. done.
  - by rewrite E.
Qed.

Lemma read_field f row c s :
  ends_field c -> csv_read AtStart [] row (csv_field f ++ c :: s) = csv_read AfterQuote f row (c :: s).
Proof.
  intros Hc. unfold csv_field. destruct (needs_quotes f) eqn:E.
  - cbn [app csv_read Z.eqb]. rewrite <- app_assoc. cbn [app]. by rewrite read_quoted.
  - by rewrite (read_plain f AtStart [] row c s) by auto.
Qed.

Lemma read_row fs : forall f row s,
  csv_read AtStart [] row (join [44] (map csv_field (f :: fs)) ++ [13; 10] ++ s)
    = rows ← csv_read AtStart [] [] s; Some ((row ++ f :: fs) :: rows).
Proof.
  induction fs as [| g fs IH]; intros f row s.
  - cbn [map join app]. rewrite read_field by (by right). done.
  - cbn [map join]. rewrite <- !app_assoc. cbn [app].
    rewrite read_field by (by left). cbn [csv_read Z.eqb].
    replace (row ++ f :: g :: fs) with ((row ++ [f]) ++ g :: fs) by by rewrite <- app_assoc.
    apply IH.
Qed.

Lemma read_rows (rows : list (list str)) :
  Forall (fun r => r <> []) rows -> csv_read AtStart [] [] (rows ≫= csv_row) = Some rows.
Proof.
  induction 1 as [| r rows Hr _ IH]; [done |]. destruct r as [| f fs]; [done |].
  rewrite bind_cons. unfold csv_row at 1. rewrite <- app_assoc, read_row, IH. done.
Qed.

(** A cell that would start a formula. *)
Definition starts_formula f : bool := match f with c :: _ => formula_start c | [] => false end.

Lemma csv_cell_safe s : starts_formula (cell_text (csv_cell (CellStr s))) = false.
Proof.
  destruct s as [| c s]; [done |]. cbn [csv_cell]. by destruct (formula_start c) eqn:E.
Qed.


Lemma int_cell_safe n : 0 <= n -> starts_formula (cell_text (csv_cell (CellInt n))) = false.
Proof.
  intros Hn. destruct (int_repr_digits n Hn) as (_ & Hd & _). cbn [csv_cell cell_text].
  destruct (int_repr n) as [| c s]; [done |]. cbn in Hd |- *. apply andb_true_iff in Hd as [Hd _].
  unfold formula_start. apply bool_decide_eq_false. unfold ascii_digit in Hd.
  rewrite !not_elem_of_cons. split_and!; try lia. apply not_elem_of_nil.
Qed.
End Csv.

(** ** Callers *)

Lemma bearer_reads `{Jwt} settings unicode_decimal now token s :
  exists r, get_current_active_user settings unicode_decimal now token s = (r, s) /\
    forall user, r = Ok user -> u_is_active user = true.
Proof.
  unfold get_current_active_user, get_current_user, mbind, M_bind, when.
  destruct (negb _); cbn; [by eexists |].
  destruct (decode_access_token _ _ _) as [c|]; cbn; [| by eexists].
  destruct (c_sub c) as [sub|]; cbn; [| by eexists].
  destruct (int_of_text _ sub) as [i|]; cbn; [| by eexists].
  destruct (t_get i _) as [u|]; cbn; [| by eexists].
  destruct (u_is_active u) eqn:E; cbn; eexists; split; try reflexivity; [by intros ? [= <-] | done].
Qed.

Lemma api_key_reads settings now plaintext tracker s :
  exists r, get_api_key_project settings now plaintext tracker s = (r, s).
Proof.
  unfold get_api_key_project, mbind, M_bind.
  destruct (api_key_prefix _) as [prefix|]; cbn; [| by eexists].
  destruct (verifying _ _ _) as [[[[k p] o]|]|e]; cbn; [| by eexists ..].
  destruct (key_usable _ _ _ _); by eexists.
Qed.

Lemma status_code_error e : 400 <= status_code e.
Proof. destruct e; cbn; lia. Qed.

Lemma run_current_user `{Jwt} settings unicode_decimal now token db :
  exists r, get_current_active_user settings unicode_decimal now token (Sess db db) = (r, Sess db db) /\
    run (get_current_active_user settings unicode_decimal now token) db = (r, db) /\
    forall user, r = Ok user -> u_is_active user = true.
Proof.
  destruct (bearer_reads settings unicode_decimal now token (Sess db db)) as (r & Hr & Ha).
  exists r. split; [done |]. split; [| done]. unfold run. by rewrite Hr.
Qed.

Lemma ingested_event `{Rounding} settings uuid now others trace project key event_type payload mode db e db' :
  run (ingest_event settings uuid now others trace project key event_type payload mode) db = (Ok e, db') ->
  ev_project_id e = p_id project /\ ev_idempotency_key e = key /\ ev_event_type e = event_type.
Proof.
  intros (m & fp & _ & [(_ & Hf & Hs)|(_ & _ & [(envelope & _ & -> & _) _ _ _])])%ingest_ok; [| done].
  apply find_event_some in Hf as (? & ? & _). by apply same_content_spec in Hs as (? & _ & _).
Qed.

(** ** Claims *)

(** C15: complete mediation.  A management request is answered with a success
    only if its token names an active account and the authorization rules
    grant that account what the route demands; in every other case the answer
    is an error and the database is exactly what it was. *)
Theorem management_is_mediated `{Rounding} `{Jwt} settings unicode_alnum unicode_decimal urlsplit
    ip_address getaddrinfo is_text http_url x r db out db' :
  let caller := run (get_current_active_user settings unicode_decimal (xc_clock x 0) (xc_token x)) db in
  run (serve settings unicode_alnum unicode_decimal urlsplit ip_address getaddrinfo is_text http_url x r)
    db = (out, db') ->
  (forall status c, out = Ok (Reply status c) ->
     exists user, caller = (Ok user, db) /\ u_is_active user = true /\
       decision (demand_of r) (u_id user) db = Ok ()) /\
  ((forall user, caller = (Ok user, db) -> decision (demand_of r) (u_id user) db <> Ok ()) ->
   400 <= status_of out /\ db' = db).
Proof.
  intros caller. unfold caller.
  destruct (run_current_user settings unicode_decimal (xc_clock x 0) (xc_token x) db)
    as (who & Hwho & -> & Hact).
  destruct (serve_gated settings unicode_alnum unicode_decimal urlsplit ip_address getaddrinfo is_text
    http_url x r) as (k & -> & Hk). unfold run, manage.
  destruct (body_of r).
  2: { cbn. intros [= <- <-]. split; [by intros ? ? [=] | cbn; split; [lia | done]]. }
  all: unfold mbind, M_bind; rewrite Hwho; destruct who as [user|e];
    [| cbn; intros [= <- <-]; split; [by intros ? ? [=] |]; intros _; split;
       [apply status_code_error | done]].
  all: specialize (Hact user eq_refl); cbn [working];
    destruct (Hk (u_id user)) as [Hu|Ha]; [rewrite Hu; cbn; intros [= <- <-]; split;
      [by intros ? ? [=] | cbn; split; [lia | done]] |];
    destruct (decision (demand_of r) (u_id user) db) as [[]|e] eqn:Ed;
    [intros _; split; [intros status c _; by exists user | intros Hno; by destruct (Hno user eq_refl)]
    | rewrite (Ha (Sess db db) e Ed); cbn; intros [= <- <-]; split; [by intros ? ? [=] |];
      intros _; split; [apply status_code_error | done]].
Qed.

(** C22: no partial effects.  A management request that is answered with an
    error status leaves the database as the transactions it waited for left
    it; the one exception is an endpoint secret that has no encoding, which is
    derived after the change it belongs to. *)
Theorem failed_requests_change_nothing `{Rounding} `{Jwt} settings unicode_alnum unicode_decimal urlsplit
    ip_address getaddrinfo is_text http_url x r db out db' :
  run (serve settings unicode_alnum unicode_decimal urlsplit ip_address getaddrinfo is_text http_url x r)
    db = (out, db') ->
  400 <= status_of out -> out <> Raise unencodable -> after [xc_others x; xc_others' x] db db'.
Proof.
  unfold run. destruct (serve _ _ _ _ _ _ _ _ _ _ _) as [o s] eqn:E. intros [= <- <-].
  by apply (serve_settles _ _ _ _ _ _ _ _ _ _ _ _ _ E).
Qed.

(** C39: the dead-letter export.  A reader of the CSV document gets back exactly
    the table that was written, whatever the identifiers and reasons contain,
    and no cell of it starts a spreadsheet formula. *)
Theorem csv_export_is_safe ds :
  (forall d, d ∈ ds -> 0 <= d_attempt_count d /\
     forall status, d_last_http_status d = Some status -> 0 <= status) ->
  csv_read AtStart [] [] (csv_document ds) = Some (csv_table ds) /\
  forall row field, row ∈ csv_table ds -> field ∈ row -> starts_formula field = false.
Proof.
  intros Hds. split.
  - apply read_rows. constructor; [done |]. apply list.Forall_forall.
    intros r (d & -> & _)%list_elem_of_fmap. done.
  - intros row field [->|Hr]%elem_of_cons Hf.
    + revert field Hf. apply list.Forall_forall. repeat constructor.
    + apply list_elem_of_fmap in Hr as (d & -> & [Ha Hs]%Hds).
      apply list_elem_of_fmap in Hf as (c & -> & Hc). unfold csv_cells in Hc.
      apply list_elem_of_fmap in Hc as (v & -> & Hv).
      repeat (apply elem_of_cons in Hv as [->|Hv]); [.. | by apply not_elem_of_nil in Hv];
        repeat case_match; by (apply csv_cell_safe || apply int_cell_safe || idtac); auto.
Qed.

(** C16: ingestion from end to end.  POST /v1/events is answered with 202 only
    when the request carries the key of an active, unexpired and unrevoked API
    key with the right scope in an active project and organization, a valid
    body and an idempotency key; the event is then stored for that project
    under that key with the content of the body, it is what the answer shows,
    and the use of the key is counted.  Any other answer leaves the database
    as competing transactions left it. *)
Theorem ingestion_end_to_end `{Rounding} settings pepper is_text x key b tracker db out db' :
  utf8_encode (api_key_pepper settings) = Some pepper ->
  keys_ok (db_api_keys db) -> tenants_keyed db -> plane_ok settings db ->
  plane_ok settings (xc_others x db) -> events_kept db (xc_others x db) ->
  run (ingest_event_route settings is_text x key b tracker) db = (out, db') ->
  match out with
  | Ok (Reply status c, tracker') =>
      exists a project o event_type payload mode k e,
        credential settings (default [] (xc_api_key x)) db a project o /\
        usable (xc_clock x 0) a project o /\
        tracker' = record_usage settings (k_id a) (xc_clock x 0) tracker /\
        EventCreate is_text b = Some (event_type, payload, mode) /\ key = Some k /\
        status = 202 /\ c = CEvent (event_out e) /\
        ev_project_id e = p_id project /\ ev_idempotency_key e = k /\ ev_event_type e = event_type /\
        accepted_event settings project k event_type payload mode db' /\ plane_ok settings db'
  | Ok (Unprocessable, _) => db' = db
  | Raise _ => after [xc_others x] db db'
  end.
Proof.
  intros Hpepper Hkeys Hten Hok Hok' Hkept. unfold ingest_event_route.
  destruct (api_key_reads settings (xc_clock x 0) (xc_api_key x) tracker (Sess db db)) as [who Hwho].
  assert (run (get_api_key_project settings (xc_clock x 0) (xc_api_key x) tracker) db = (who, db)) as Hrun
    by (unfold run; by rewrite Hwho).
  assert (b = BadJson \/ b <> BadJson) as [->|Hb] by (destruct b; auto; by right).
  { unfold run. cbn. by intros [= <- <-]. }
  intros Hr. assert (run (caller ← get_api_key_project settings (xc_clock x 0) (xc_api_key x) tracker;
    match EventCreate is_text b, key with
    | Some (event_type, payload, envelope_mode), Some key =>
        e ← ingest_event settings (xc_uuid x) (xc_clock x 1) (xc_others x) (xc_trace x) caller.1 key
              event_type payload envelope_mode;
        mret (Reply 202 (CEvent (event_out e)), caller.2)
    | _, _ => mret (Unprocessable, caller.2)
    end) db = (out, db')) as Hr' by by destruct b. clear Hr.
  unfold run, mbind at 1, M_bind at 1 in Hr'. rewrite Hwho in Hr'.
  destruct (authenticate_cases settings pepper Hpepper (xc_clock x 0) (xc_api_key x) tracker db Hkeys Hten)
    as [(a & p & o & Hcred & Hus & Hauth)|[_ Hauth]]; rewrite Hauth in Hrun; injection Hrun as <-.
  2: { injection Hr' as <- <-. cbn. reflexivity. }
  cbn [fst snd] in Hr'.
  destruct (EventCreate is_text b) as [[[event_type payload] mode]|] eqn:Eb;
    [destruct key as [k|] | ]; [| by injection Hr' as <- <- ..].
  unfold mbind, M_bind in Hr'.
  destruct (ingest_event _ _ _ _ _ _ _ _ _ _ (Sess db db)) as [[e|ex] s] eqn:Ei; injection Hr' as <- <-.
  - assert (run (ingest_event settings (xc_uuid x) (xc_clock x 1) (xc_others x) (xc_trace x) p k event_type
      payload mode) db = (Ok e, committed s)) as Hi by (unfold run; by rewrite Ei).
    destruct (ingest_accepts settings p _ _ _ _ _ _ _ _ _ _ _ Hok Hok' Hkept Hi) as (Hp & _ & Hacc).
    exists a, p, o, event_type, payload, mode, k, e.
    destruct (ingested_event settings _ _ _ _ _ _ _ _ _ _ _ _ Hi) as (E1 & E2 & E3).
    by split_and!.
  - by apply (atomic_ingest_event settings _ _ _ _ _ _ _ _ _ _ _ _ Ei).
Qed.

Module RoutesDemo.
#[local] Existing Instance exact_rounding.
#[local] Existing Instance AccountsDemo.open_tokens.
Definition exchange : exchange :=
  Exchange (Some AccountsDemo.token) (Some KeysDemo.plaintext) (fun _ => 6) KeysDemo.other_uuid
    (KeysDemo.draw 98) id id (None, None).
Definition answer (r : request) : res exn reply * Db :=
  run (serve default_settings (fun _ => false) (fun _ => None) (fun _ => None) (fun _ => None)
         (fun _ _ => None) (fun _ => true) Some exchange r) AccountsDemo.db.
Definition members : request := ListMembers (py "org") None None.
Definition malformed : request := CreateProject (py "org") (Body (JObj [(py "title", JNull)])).

Lemma members_listed : exists c, answer members = (Ok (Reply 200 c), AccountsDemo.db).
Proof. eexists. vm_compute. reflexivity. Qed.
Lemma malformed_refused : answer malformed = (Ok Unprocessable, AccountsDemo.db).
Proof. vm_compute. reflexivity. Qed.

(** A reason that starts like a formula, with a comma and a quote. *)
Definition nasty : str := 61 :: py "HYPERLINK(1, 2)" ++ [34].
Definition dead : Delivery :=
  (new_delivery (py "d") 1 1 (DataDemo.endpoint 1 JNull true) 10 1) &{ d_dead_reason := Some nasty }.

Definition event_body : body := Body (JObj [(py "type", JStr (py "order.paid")); (py "payload", JInt 5)]).
Definition accepted :=
  run (ingest_event_route KeysDemo.settings (fun _ => true) exchange (Some (py "k1")) event_body
         KeysDemo.tracker) KeysDemo.created_db.

Definition tracker' : ApiKeyUsageTracker :=
  match accepted.1 with Ok (_, t) => t | Raise _ => KeysDemo.tracker end.
Definition content : content :=
  match accepted.1 with Ok (Reply _ c, _) => c | _ => CEmpty end.
Lemma event_accepted : accepted = (Ok (Reply 202 content, tracker'), accepted.2).
Proof. vm_compute. reflexivity. Qed.

Lemma keys_plane : plane_ok KeysDemo.settings KeysDemo.created_db.
Proof.
  apply (plane_ok_frame KeysDemo.settings KeysDemo.db); [| vm_compute; reflexivity ..].
  split; [split | | | |]; unfold KeysDemo.db, TenancyDemo.db; upd_simpl; cbn [rows empty_db];
    unfold t_get, t_keyed, t_wf; cbn [rows db_deliveries db_attempts db_events db_quotas];
    intros *; rewrite ?lookup_empty; try done; try (by intros [? ?]).
Qed.
End RoutesDemo.

#[local] Existing Instance exact_rounding.
#[local] Existing Instance AccountsDemo.open_tokens.

Lemma management_is_mediated_witness :
  exists user, run (get_current_active_user default_settings (fun _ => None) 6 (Some AccountsDemo.token))
      AccountsDemo.db = (Ok user, AccountsDemo.db) /\
    decision (OfOrganization (py "org") ORG_READ false) (u_id user) AccountsDemo.db = Ok ().
Proof.
  destruct RoutesDemo.members_listed as [c Hc]. unfold RoutesDemo.answer in Hc.
  destruct (proj1 (management_is_mediated default_settings (fun _ => false) (fun _ => None) (fun _ => None)
    (fun _ => None) (fun _ _ => None) (fun _ => true) Some RoutesDemo.exchange RoutesDemo.members
    AccountsDemo.db _ _ Hc) 200 c eq_refl) as (user & Hu & _ & Hd).
  exact (ex_intro _ user (conj Hu Hd)).
Defined.

Lemma failed_requests_change_nothing_witness :
  after [id; id] AccountsDemo.db (RoutesDemo.answer RoutesDemo.malformed).2.
Proof.
  apply (failed_requests_change_nothing default_settings (fun _ => false) (fun _ => None) (fun _ => None)
    (fun _ => None) (fun _ _ => None) (fun _ => true) Some RoutesDemo.exchange RoutesDemo.malformed
    AccountsDemo.db (Ok Unprocessable)).
  - rewrite RoutesDemo.malformed_refused. exact RoutesDemo.malformed_refused.
  - cbn. lia.
  - discriminate.
Defined.

Lemma csv_export_is_safe_witness :
  csv_read AtStart [] [] (csv_document [RoutesDemo.dead]) = Some (csv_table [RoutesDemo.dead]) /\
  exists row, row ∈ csv_table [RoutesDemo.dead] /\ (39 :: RoutesDemo.nasty) ∈ row.
Proof.
  split.
  - apply (csv_export_is_safe [RoutesDemo.dead]). intros d ->%list_elem_of_singleton. by split.
  - eexists. split; [right; left |]. right; right; left.
Defined.

Lemma ingestion_end_to_end_witness :
  accepted_event KeysDemo.settings TenancyDemo.project (py "k1") (py "order.paid") (JInt 5) (py "native")
    RoutesDemo.accepted.2.
Proof.
  pose proof (ingestion_end_to_end KeysDemo.settings (py "pepper") (fun _ => true) RoutesDemo.exchange
    (Some (py "k1")) RoutesDemo.event_body KeysDemo.tracker KeysDemo.created_db _ _ KeysDemo.pepper
    (proj1 KeysDemo.created_valid) (proj2 KeysDemo.created_valid) RoutesDemo.keys_plane
    RoutesDemo.keys_plane ltac:(done) RoutesDemo.event_accepted) as Hi.
  destruct Hi as (a & p & o & ty & pl & mode & k & e & [_ _ _ Hp _] & _ & _ & Hb & Hk & _ & _ & _ & _ & _ & Ha & _).
  injection Hb as <- <- <-. injection Hk as <-.
  assert (db_projects KeysDemo.created_db = Table {[1 := TenancyDemo.project]} 2) as Et
    by (vm_compute; reflexivity).
  rewrite Et in Hp. unfold t_get in Hp. cbn [rows] in Hp. apply lookup_singleton_Some in Hp as [_ <-].
  exact Ha.
Defined.
