(* ===== verification/ApiPlatform.v ===== *)
(** * The API as part of the platform

    Every management request is a step of the platform of [Platform], or none:
    what the workers, the ingestion and the maintenance rely on stays true
    whatever the control plane is asked to do. *)

From Stdlib Require Import QArith.
From stdpp Require Import base tactics list gmap sets strings numbers option relations.
From S2P Require Import Prelude Json Text Models Session Settings WebhookSecurity Admission Fairness Delivery.
From S2P Require Import Authorization AuditLog Events EventSafety ReplaySafety Lifecycle Tenancy Endpoints.
From S2P Require Import ApiKeys Accounts Platform Schemas Routes RouteSafety.
Local Open Scope Z_scope.

(** ** Operations off the data plane

    [I] is any property of the database that only depends on its events,
    deliveries, attempts and endpoint states, and survives the transactions
    [fs]. *)

Section Keeps.
Context (I : Db -> Prop) (fs : list (Db -> Db)).
Context (Iframe : forall db db', I db -> db_events db' = db_events db ->
  db_deliveries db' = db_deliveries db -> db_attempts db' = db_attempts db ->
  db_quotas db' = db_quotas db -> I db').
Context (Iothers : forall f db, f ∈ fs -> I db -> I (f db)).

Definition kept (s : session) : Prop := I (committed s) /\ I (working s).
Definition keeps {A} (m : M A) : Prop := forall s, kept s -> kept (m s).2.

Lemma keeps_bind {A B} (m : M A) (k : A -> M B) :
  keeps m -> (forall a, keeps (k a)) -> keeps (m ≫= k).
Proof.
  intros Hm Hk s Hs. specialize (Hm s Hs). unfold mbind, M_bind.
  destruct (m s) as [[a|e] s']; cbn in *; [by apply Hk | done].
Qed.
Lemma keeps_same {A} (m : M A) : (forall s, (m s).2 = s) -> keeps m.
Proof. intros Hm s Hs. by rewrite Hm. Qed.
Lemma keeps_ret {A} (a : A) : keeps (mret a).
Proof. by apply keeps_same. Qed.
Lemma keeps_raise {A} e : keeps (raise (A := A) e).
Proof. by apply keeps_same. Qed.
Lemma keeps_gets {A} (f : Db -> A) : keeps (gets f).
Proof. by apply keeps_same. Qed.
Lemma keeps_of_option {A} e (o : option A) : keeps (of_option e o).
Proof. destruct o; by apply keeps_same. Qed.
Lemma keeps_of_res {A} (r : res exn A) : keeps (of_res r).
Proof. by apply keeps_same. Qed.
Lemma keeps_authorized user p permission : keeps (authorized user p permission).
Proof. by apply keeps_same. Qed.
Lemma keeps_authorized_org user o permission allow : keeps (authorized_org user o permission allow).
Proof. by apply keeps_same. Qed.
Lemma keeps_when b m : keeps m -> keeps (when b m).
Proof. destruct b; [done | intros _; apply keeps_ret]. Qed.
Lemma keeps_commit : keeps commit.
Proof. intros s [_ Hw]. done. Qed.
Lemma keeps_wait f : f ∈ fs -> keeps (wait f).
Proof. intros Hf s [Hc Hw]. split; cbn; by apply Iothers. Qed.
Lemma keeps_modify f :
  (forall db, db_events (f db) = db_events db /\ db_deliveries (f db) = db_deliveries db /\
     db_attempts (f db) = db_attempts db /\ db_quotas (f db) = db_quotas db) -> keeps (modify f).
Proof.
  intros Hf s [Hc Hw]. split; [done |]. cbn. destruct (Hf (working s)) as (? & ? & ? & ?).
  by eapply Iframe.
Qed.

Ltac keeping :=
  repeat first
    [ progress intros
    | solve [eauto with keeps]
    | apply keeps_ret | apply keeps_raise | apply keeps_gets | apply keeps_of_option
    | apply keeps_of_res | apply keeps_authorized | apply keeps_authorized_org | apply keeps_commit
    | apply keeps_modify; intros; by split_and!
    | apply keeps_bind
    | apply keeps_when
    | match goal with
      | |- keeps (match ?x with _ => _ end) => destruct x
      | |- keeps ((match ?x with _ => _ end) _) => destruct x
      end ].

Create HintDb keeps.

Section Helpers.
Context `{Rounding} (settings : Settings) (unicode_alnum : Z -> bool).
Context (urlsplit : str -> option SplitResult) (ip_address : str -> option IPAddress)
  (getaddrinfo : str -> Z -> option (list str)).

Lemma keeps_audit uuid user org action rt now rid pid metadata :
  keeps (audit unicode_alnum uuid user org action rt now rid pid metadata).
Proof. unfold audit, append_audit. keeping. Qed.
Lemma keeps_project_organization_id p : keeps (project_organization_id p).
Proof. unfold project_organization_id. keeping. Qed.
Lemma keeps_organization_role o u : keeps (organization_role o u).
Proof. unfold organization_role. keeping. Qed.
Hint Resolve keeps_audit keeps_project_organization_id keeps_organization_role : keeps.
Lemma keeps_require_owner o u a b : keeps (require_owner_for_owner_change o u a b).
Proof. unfold require_owner_for_owner_change. keeping. Qed.
Lemma keeps_ensure_not_last_owner o m : keeps (ensure_not_last_owner o m).
Proof. unfold ensure_not_last_owner. keeping. Qed.
Lemma keeps_flush_project mk : keeps (flush_project mk).
Proof. unfold flush_project. keeping. Qed.
Lemma keeps_endpoint p e : keeps (endpoint p e).
Proof. unfold endpoint. keeping. Qed.
Lemma keeps_validate_url u : keeps (validate_endpoint_url settings urlsplit ip_address getaddrinfo u).
Proof. unfold validate_endpoint_url. keeping. Qed.
Lemma keeps_allocate n i draw : keeps (allocate n i draw).
Proof. revert i; induction n as [| n IH]; intros i; cbn [allocate]; keeping. Qed.
Lemma keeps_add_api_key mk : keeps (add_api_key mk).
Proof. unfold add_api_key. keeping. Qed.
Lemma keeps_check_endpoint_limit o p e now : keeps (check_endpoint_limit settings o p e now).
Proof. unfold check_endpoint_limit, ensure_tenant_state. keeping. Qed.
Lemma keeps_authorize_each user os : keeps (authorize_each user os).
Proof. induction os as [| o os IH]; cbn [authorize_each]; keeping. Qed.
Lemma keeps_visible_projects user ps : keeps (visible_projects user ps).
Proof.
  induction ps as [| p ps IH]; cbn [visible_projects]; [keeping |]. intros s Hs.
  destruct (authorize_project _ _ _ _ _) as [p'|[]]; try done; [| by apply IH].
  apply (keeps_bind (visible_projects user ps)); [done | | done]. keeping.
Qed.
Hint Resolve keeps_require_owner keeps_ensure_not_last_owner keeps_flush_project keeps_endpoint
  keeps_validate_url keeps_allocate keeps_add_api_key keeps_check_endpoint_limit keeps_authorize_each
  keeps_visible_projects : keeps.

Lemma keeps_create_organization uuid now user name :
  keeps (create_organization settings unicode_alnum uuid now user name).
Proof. unfold create_organization. keeping. Qed.
Lemma keeps_add_member uuid now user o m role :
  keeps (add_member unicode_alnum uuid now user o m role).
Proof. unfold add_member. keeping. Qed.
Lemma keeps_update_member uuid now user o m role :
  keeps (update_member unicode_alnum uuid now user o m role).
Proof. unfold update_member, put_member. keeping. Qed.
Lemma keeps_remove_member uuid now user o m :
  keeps (remove_member unicode_alnum uuid now user o m).
Proof. unfold remove_member. keeping. Qed.
Lemma keeps_update_policy uuid now user o ch :
  keeps (update_policy unicode_alnum uuid now user o ch).
Proof. unfold update_policy. keeping. Qed.
Lemma keeps_request_deletion uuid now others user o : others ∈ fs ->
  keeps (request_organization_deletion settings unicode_alnum uuid now others user o).
Proof. intros. assert (keeps (wait others)) by by apply keeps_wait. unfold request_organization_deletion, put_organization. keeping. Qed.
Lemma keeps_cancel_deletion uuid now others user o : others ∈ fs ->
  keeps (cancel_organization_deletion unicode_alnum uuid now others user o).
Proof. intros. assert (keeps (wait others)) by by apply keeps_wait. unfold cancel_organization_deletion, put_organization, put_operation. keeping. Qed.
Lemma keeps_create_project uuid now user o name :
  keeps (create_project unicode_alnum uuid now user o name).
Proof. unfold create_project, commit_project. keeping. Qed.
Lemma keeps_deactivate_project uuid now user p :
  keeps (deactivate_project unicode_alnum uuid now user p).
Proof. unfold deactivate_project, put_project. keeping. Qed.
Lemma keeps_add_project_member uuid now user p m role :
  keeps (add_project_member unicode_alnum uuid now user p m role).
Proof. unfold add_project_member. keeping. Qed.
Lemma keeps_upsert_project_member uuid now user p m role :
  keeps (upsert_project_member unicode_alnum uuid now user p m role).
Proof. unfold upsert_project_member, put_project_member. keeping. Qed.
Lemma keeps_update_project_member uuid now user p m role :
  keeps (update_project_member unicode_alnum uuid now user p m role).
Proof. unfold update_project_member, put_project_member. keeping. Qed.
Lemma keeps_remove_project_member uuid now user p m :
  keeps (remove_project_member unicode_alnum uuid now user p m).
Proof. unfold remove_project_member. keeping. Qed.
Lemma keeps_create_api_key uuid draw now others user p name scopes days : others ∈ fs ->
  keeps (create_api_key settings unicode_alnum uuid draw now others user p name scopes days).
Proof. intros. assert (keeps (wait others)) by by apply keeps_wait. unfold create_api_key, generate_unique_api_key, digest. keeping. Qed.
Lemma keeps_revoke_api_key uuid now others user p k : others ∈ fs ->
  keeps (revoke_api_key unicode_alnum uuid now others user p k).
Proof. intros. assert (keeps (wait others)) by by apply keeps_wait. unfold revoke_api_key, put_api_key. keeping. Qed.
Lemma keeps_rotate_api_key uuid draw now others user p k overlap : others ∈ fs ->
  keeps (rotate_api_key settings unicode_alnum uuid draw now others user p k overlap).
Proof. intros. assert (keeps (wait others)) by by apply keeps_wait. unfold rotate_api_key, generate_unique_api_key, put_api_key, digest. keeping. Qed.
Lemma keeps_update_endpoint uuid now others user p e changes : others ∈ fs ->
  keeps (update_endpoint settings unicode_alnum urlsplit ip_address getaddrinfo uuid now others user p e changes).
Proof. intros. assert (keeps (wait others)) by by apply keeps_wait. unfold update_endpoint, put_endpoint, endpoint_plaintext_secret. keeping. Qed.
Lemma keeps_deactivate_endpoint uuid now others user p e : others ∈ fs ->
  keeps (deactivate_endpoint unicode_alnum uuid now others user p e).
Proof. intros. assert (keeps (wait others)) by by apply keeps_wait. unfold deactivate_endpoint, put_endpoint. keeping. Qed.
Lemma keeps_rotate_endpoint_secret uuid now others user p e : others ∈ fs ->
  keeps (rotate_endpoint_secret settings unicode_alnum uuid now others user p e).
Proof. intros. assert (keeps (wait others)) by by apply keeps_wait. unfold rotate_endpoint_secret, put_endpoint, endpoint_plaintext_secret. keeping. Qed.

(** Reads *)

Lemma keeps_list_organizations user o l :
  keeps (list_organizations user o l).
Proof. unfold list_organizations. keeping. Qed.
Lemma keeps_list_members user i o l :
  keeps (list_members user i o l).
Proof. unfold list_members. keeping. Qed.
Lemma keeps_get_policy user o :
  keeps (get_policy user o).
Proof. unfold get_policy. keeping. Qed.
Lemma keeps_list_audit_events user o action rt limit at_ id :
  keeps (list_audit_events user o action rt limit at_ id).
Proof. unfold list_audit_events, list_audit. keeping. Qed.
Lemma keeps_export_organization now user o limit :
  keeps (export_organization now user o limit).
Proof. unfold export_organization, list_audit. keeping. Qed.
Lemma keeps_get_organization_deletion user o :
  keeps (get_organization_deletion user o).
Proof. unfold get_organization_deletion. keeping. Qed.
Lemma keeps_list_projects user i o l :
  keeps (list_projects user i o l).
Proof. unfold list_projects. keeping. Qed.
Lemma keeps_list_project_members user i o l :
  keeps (list_project_members user i o l).
Proof. unfold list_project_members. keeping. Qed.
Lemma keeps_list_api_keys user i o l :
  keeps (list_api_keys user i o l).
Proof. unfold list_api_keys. keeping. Qed.
Lemma keeps_list_endpoints user i o l :
  keeps (list_endpoints user i o l).
Proof. unfold list_endpoints. keeping. Qed.
Lemma keeps_list_events user i o l :
  keeps (list_events user i o l).
Proof. unfold list_events. keeping. Qed.
Lemma keeps_get_event user p e :
  keeps (get_event user p e).
Proof. unfold get_event. keeping. Qed.
Lemma keeps_list_deliveries user i o l :
  keeps (list_deliveries user i o l).
Proof. unfold list_deliveries. keeping. Qed.
Lemma keeps_get_delivery user p d :
  keeps (get_delivery user p d).
Proof. unfold get_delivery. keeping. Qed.
Lemma keeps_list_dead_deliveries now user p o l e reason age :
  keeps (list_dead_deliveries now user p o l e reason age).
Proof. unfold list_dead_deliveries, dead_deliveries. keeping. Qed.
Lemma keeps_export_dead_deliveries now user p e reason age limit :
  keeps (export_dead_deliveries now user p e reason age limit).
Proof. unfold export_dead_deliveries, dead_deliveries. keeping. Qed.
End Helpers.
End Keeps.

(** ** Requests as steps *)

Section Requests.
Context `{Rounding} `{Jwt} (settings : Settings).
Context (unicode_alnum : Z -> bool) (unicode_decimal : Z -> option Z) (leaving : Z -> Prop).
Context (urlsplit : str -> option SplitResult) (ip_address : str -> option IPAddress)
  (getaddrinfo : str -> Z -> option (list str)).
Context (is_text : str -> bool) (http_url : str -> option str).
Context (x : exchange) (db0 : Db) (cs0 : list ClaimedDelivery).
Abbreviation waits := [xc_others x; xc_others' x].

Definition reached (db : Db) : Prop :=
  exists cs, reach settings unicode_alnum leaving urlsplit ip_address getaddrinfo db0 cs0 db cs.

(** The transactions a request waits for are steps themselves. *)
Context (Hothers : forall f db, f ∈ waits -> reached db -> reached (f db)).

Lemma reached_frame db db' :
  reached db -> db_events db' = db_events db -> db_deliveries db' = db_deliveries db ->
  db_attempts db' = db_attempts db -> db_quotas db' = db_quotas db -> reached db'.
Proof. intros [cs Hr] ? ? ? ?. exists cs. by eapply re_elsewhere. Qed.

Lemma reached_after db db' : reached db -> after waits db db' -> reached db'.
Proof. intros Hr Ha. revert Hr. induction Ha as [| db db1 db2 (f & Hf & ->) _ IH]; eauto. Qed.

(** From a reachable database a fresh session commits a reachable one. *)
Definition lands {A} (m : M A) : Prop :=
  forall db, reached db -> (m (Sess db db)).1 <> Raise unencodable ->
    reached (committed (m (Sess db db)).2).

Lemma lands_keeps {A} (m : M A) : keeps reached m -> lands m.
Proof. intros Hk db Hr _. by apply (Hk (Sess db db)). Qed.

Lemma lands_atomic {A} (m : M A) :
  atomic_but waits m -> (forall db a db', reached db -> run m db = (Ok a, db') -> reached db') -> lands m.
Proof.
  intros Ha Hok db Hr Hne. destruct (m (Sess db db)) as [[a|e] s] eqn:E; cbn in *.
  - apply (Hok db a); [done |]. unfold run. by rewrite E.
  - eapply reached_after; [exact Hr |]. apply (Ha _ _ _ E). congruence.
Qed.

Lemma lands_valid {A} (a : option A) k : (forall a, lands (k a)) -> lands (valid a k).
Proof. intros Hk. destruct a; [apply Hk | by intros db Hr _]. Qed.

Lemma lands_manage b k :
  (forall user, lands (k user)) -> lands (manage settings unicode_decimal x b k).
Proof.
  intros Hk db Hr. unfold manage.
  destruct (bearer_reads settings unicode_decimal (xc_clock x 0) (xc_token x) (Sess db db))
    as (who & Hwho & _).
  destruct b; [| done |]; unfold mbind, M_bind; rewrite Hwho;
    (destruct who as [user|e]; [by apply Hk | done]).
Qed.

Lemma lands_call {A B} (m : M A) (k : A -> M B) :
  lands m -> (forall a s, (k a s).2 = s) -> lands (m ≫= k).
Proof.
  intros Hm Hk db Hr. specialize (Hm db Hr). unfold mbind, M_bind.
  destruct (m (Sess db db)) as [[a|e] s]; cbn in *.
  - intros _. rewrite Hk. by apply Hm.
  - intros Hne. apply Hm. congruence.
Qed.

(** *** Requests on the data plane *)

Lemma reached_others db : reached db -> reached (xc_others x db).
Proof. apply Hothers. by left. Qed.

Lemma lands_create_endpoint uuid now user p url description types scheme :
  lands (create_endpoint settings unicode_alnum urlsplit ip_address getaddrinfo uuid now user p url
           description types scheme).
Proof.
  apply lands_atomic; [apply atomic_create_endpoint |]. intros db a db' [cs Hr] Hrun.
  exists cs. by eapply re_create_endpoint.
Qed.

Lemma lands_pause uuid now user p e reason :
  lands (pause_endpoint unicode_alnum uuid now (xc_others x) user p e reason).
Proof.
  apply lands_atomic; [apply atomic_atomic_but, atomic_pause |]. intros db a db' Hr Hrun.
  destruct (reached_others db Hr) as [cs' ?]. destruct Hr as [cs ?]. exists cs'. eapply re_pause; [| | exact Hrun]; done.
Qed.

Lemma lands_resume uuid now user p e :
  lands (resume_endpoint unicode_alnum uuid now (xc_others x) user p e).
Proof.
  apply lands_atomic; [apply atomic_atomic_but, atomic_resume |]. intros db a db' Hr Hrun.
  destruct (reached_others db Hr) as [cs' ?]. destruct Hr as [cs ?]. exists cs'. eapply re_resume; [| | exact Hrun]; done.
Qed.

Lemma lands_recover uuid now user p e :
  lands (recover_endpoint_circuit settings unicode_alnum uuid now (xc_others x) user p e).
Proof.
  apply lands_atomic; [apply atomic_atomic_but, atomic_recover |]. intros db a db' Hr Hrun.
  destruct (reached_others db Hr) as [cs' ?]. destruct Hr as [cs ?]. exists cs'. eapply re_recover; [| | exact Hrun]; done.
Qed.

Lemma lands_cancel uuid now user p d reason :
  lands (cancel_delivery unicode_alnum uuid now (xc_others x) user p d reason).
Proof.
  apply lands_atomic; [apply atomic_atomic_but, atomic_cancel |]. intros db a db' Hr Hrun.
  destruct (reached_others db Hr) as [cs' ?]. destruct Hr as [cs ?]. exists cs'. eapply re_cancel; [| | exact Hrun]; done.
Qed.

Lemma lands_purge uuid now user p dry n :
  lands (purge_terminal_deliveries settings unicode_alnum uuid now user p dry n).
Proof.
  apply lands_atomic; [apply atomic_atomic_but, atomic_purge_deliveries |].
  intros db a db' [cs Hr] Hrun. exists cs. by eapply re_purge.
Qed.

(** The payload of the delivery to be replayed is not purged between the
    check and the copy. *)
Definition payload_kept (delivery_id : str) (db : Db) : Prop :=
  forall original, d_public_id original = delivery_id ->
    (exists k, t_get k (db_deliveries (xc_others x db)) = Some original) ->
    is_Some (envelope_of original (xc_others' x (xc_others x db))).

Lemma lands_replay uuid checked_at now user p d :
  (forall db, reached db -> payload_kept d db) ->
  lands (replay_delivery settings unicode_alnum uuid checked_at now (xc_others x) (xc_others' x) user p d).
Proof.
  intros Hpay. apply lands_atomic; [apply atomic_atomic_but, atomic_replay_delivery |].
  intros db a db' Hr Hrun.
  assert (reached (xc_others' x (xc_others x db))) as [cs' ?]
    by (apply Hothers; [right; by left | by apply reached_others]).
  specialize (Hpay db Hr). destruct Hr as [cs ?]. exists cs'.
  eapply re_replay; [| | | exact Hrun]; done.
Qed.

(** A batch that is new in [db] is stored under its key. *)
Lemma bulk_replay_cases uuid now others user p ids key db op db' :
  run (replay_deliveries settings unicode_alnum uuid now others user p ids key) db = (Ok op, db') ->
  db' = db \/ db' = others db \/
  exists project, find_replay project key db = None /\ find_replay project key db' <> None.
Proof.
  intros (s & Hr & ->)%run_ok. unfold replay_deliveries in Hr. m_next Hr.
  match goal with H : authorized _ _ _ _ = (Ok ?pr, ?s1) |- _ =>
    apply authorized_ok in H as [_ ->]; rename pr into project end.
  cbn [committed working] in Hr.
  destruct (find_replay project key db) as [r|] eqn:E0.
  { apply repeated_replay_ok in Hr as (_ & -> & _). by left. }
  right. erewrite M_bind_run in Hr; [| reflexivity]. cbn [committed working] in Hr.
  destruct (lock_global_tenant_run settings (p_organization_id project) now
    (Sess (others db) (others db))) as (T & G & t & Hlock & _).
  erewrite M_bind_run in Hr; [| exact Hlock]. cbn [committed working] in Hr.
  erewrite M_bind_run in Hr; [| reflexivity]. cbn [committed working] in Hr.
  destruct (find_replay project key ((others db) &{ db_global_state := G } &{ db_tenants := T }))
    as [r|] eqn:E1.
  { apply repeated_replay_ok in Hr as (_ & -> & _). by left. }
  right. exists project. split; [done |]. unfold add_replay in Hr. m_inv.
  match goal with H : mfor _ _ _ = _ |- _ => apply mfor_replayable in H as [-> _] end.
  match goal with H : admit_replays_locked _ _ _ _ _ = _ |- _ =>
    apply admit_replays_locked_ok in H as [_ ->] end.
  match goal with H : audit_replay _ _ _ _ _ _ _ _ _ = _ |- _ =>
    apply audit_replay_ok in H as (row & -> & _) end.
  cbn [committed working]. unfold find_replay. upd_simpl. intros Hnone.
  eapply t_find_none in Hnone; [| apply lookup_insert_eq]. revert Hnone.
  cbn. by rewrite Z.eqb_refl, str_eqb_refl.
Qed.

Lemma lands_bulk uuid now user p ids key :
  lands (replay_deliveries settings unicode_alnum uuid now (xc_others x) user p ids key).
Proof.
  apply lands_atomic; [apply atomic_atomic_but, atomic_bulk |]. intros db a db' Hr Hrun.
  pose proof (reached_others db Hr) as Ho.
  destruct (bulk_replay_cases _ _ _ _ _ _ _ _ _ _ Hrun) as [->|[->|(project & E & Hne)]]; [done | done |].
  destruct Ho as [cs' ?]. destruct Hr as [cs ?]. exists cs'.
  eapply re_bulk_replay; [| | | exact Hrun]; try done. by intros ->.
Qed.

#[local] Opaque create_organization list_organizations add_member list_members update_member
  remove_member get_policy update_policy list_audit_events export_organization
  request_organization_deletion get_organization_deletion cancel_organization_deletion create_project list_projects
  deactivate_project add_project_member list_project_members upsert_project_member update_project_member
  remove_project_member create_api_key list_api_keys revoke_api_key rotate_api_key
  create_endpoint list_endpoints update_endpoint deactivate_endpoint rotate_endpoint_secret
  list_events get_event list_deliveries get_delivery replay_delivery
  replay_deliveries list_dead_deliveries export_dead_deliveries pause_endpoint resume_endpoint
  recover_endpoint_circuit cancel_delivery purge_terminal_deliveries.

Ltac keep_op :=
  apply lands_keeps; first
      [ eapply keeps_create_organization
      | eapply keeps_add_member
      | eapply keeps_update_member
      | eapply keeps_remove_member
      | eapply keeps_update_policy
      | eapply keeps_request_deletion
      | eapply keeps_cancel_deletion
      | eapply keeps_create_project
      | eapply keeps_deactivate_project
      | eapply keeps_add_project_member
      | eapply keeps_upsert_project_member
      | eapply keeps_update_project_member
      | eapply keeps_remove_project_member
      | eapply keeps_create_api_key
      | eapply keeps_revoke_api_key
      | eapply keeps_rotate_api_key
      | eapply keeps_update_endpoint
      | eapply keeps_deactivate_endpoint
      | eapply keeps_rotate_endpoint_secret
      | eapply keeps_list_organizations
      | eapply keeps_list_members
      | eapply keeps_get_policy
      | eapply keeps_list_audit_events
      | eapply keeps_export_organization
      | eapply keeps_get_organization_deletion
      | eapply keeps_list_projects
      | eapply keeps_list_project_members
      | eapply keeps_list_api_keys
      | eapply keeps_list_endpoints
      | eapply keeps_list_events
      | eapply keeps_get_event
      | eapply keeps_list_deliveries
      | eapply keeps_get_delivery
      | eapply keeps_list_dead_deliveries
      | eapply keeps_export_dead_deliveries ];
  first [exact reached_frame | exact Hothers | by left].

Ltac land :=
  repeat first
    [ progress intros
    | apply lands_manage
    | apply lands_valid
    | progress unfold dead_filter
    | apply lands_call;
      [first [ apply lands_create_endpoint | apply lands_pause | apply lands_resume | apply lands_recover
             | apply lands_cancel | apply lands_purge | apply lands_bulk
             | solve [apply lands_replay; eauto] | solve [keep_op] ]
      | intros ? ?; first [ by repeat case_match
                          | unfold mbind, M_bind; by destruct (replay_out _) ] ] ].

Lemma serve_lands r :
  (forall p d, r = ReplayDelivery p d -> forall db, reached db -> payload_kept d db) ->
  lands (serve settings unicode_alnum unicode_decimal urlsplit ip_address getaddrinfo is_text http_url
           x r).
Proof.
  intros Hpay. destruct r; cbn [serve]; unfold_route; solve [land].
Qed.
End Requests.

(** ** Claim *)


Module ApiDemo.
#[local] Existing Instance exact_rounding.
Definition create : request := CreateProject (py "org") (Body (JObj [(py "name", JStr (py "New"))])).
Definition created_db : Db := (RoutesDemo.answer create).2.
Lemma created : exists c, RoutesDemo.answer create = (Ok (Reply 201 c), created_db).
Proof. eexists. vm_compute. reflexivity. Qed.

Lemma api_start_ok : platform_ok default_settings AccountsDemo.db [].
Proof.
  split; [| constructor | intros c d Hc; by apply not_elem_of_nil in Hc].
  apply (plane_ok_frame default_settings DataDemo.db); [apply DataDemo.plane | reflexivity ..].
Qed.
End ApiDemo.

#[local] Existing Instance exact_rounding.
#[local] Existing Instance AccountsDemo.open_tokens.

