(* ===== verification/Metrics.v ===== *)
(** * Observability

    [src/app/observability.py] and [src/app/security_observability.py]: the
    registry with its label policy, what each event of the program adds to it,
    and the collector that replaces the queue gauges by what the database
    says.  Tracing, timing hooks and the exposition format belong to the
    libraries. *)

From Stdlib Require Import QArith Lqa.
From stdpp Require Import base tactics list gmap sets strings numbers option.
From S2P Require Import Prelude Json Text Models Session Settings Admission WebhookSecurity Delivery AuditLog.
Local Open Scope Z_scope.

(** ** Label names *)

Definition FORBIDDEN_LABEL_PARTS : list str :=
  map py ["tenant"; "organization"; "project"; "event"; "delivery"; "endpoint"; "url"; "payload";
          "secret"; "token"; "key"; "sql"; "response_body"]%string.

(** [_LABEL_PATTERN] *)
Definition label_pattern (name : str) : bool :=
  match name with
  | c :: rest => (97 <=? c) && (c <=? 122)
      && forallb (fun c => ((97 <=? c) && (c <=? 122)) || ascii_digit c || (c =? 95)) rest
  | [] => false
  end.

Definition forbidden (name : str) : bool :=
  existsb (fun part => bool_decide (part ∈ FORBIDDEN_LABEL_PARTS)) (split_on 95 name).

Definition validate_label_names (names : list str) : res exn unit :=
  foldr (fun name rest =>
           if negb (label_pattern name) then Raise (ValueError "Invalid metric label name")
           else if forbidden name then Raise (ValueError "Forbidden metric label name")
           else rest) (Ok ()) names.

(** ** The registry *)

Abbreviation series := (string * list str)%type.

Record metrics : Type := Metrics {
  mt_counters : gmap series Z;
  mt_gauges : gmap series Q;
  mt_histograms : gmap series (list Q);
}.

#[export] Instance eta_metrics : Eta metrics := fun m =>
  Metrics (mt_counters m) (mt_gauges m) (mt_histograms m).

Definition inc (name : string) (labels : list str) (n : Z) (m : metrics) : metrics :=
  m &{ mt_counters := partial_alter (fun c => Some (default 0 c + n)) (name, labels) (mt_counters m) }.
Definition set_gauge (name : string) (labels : list str) (v : Q) (m : metrics) : metrics :=
  m &{ mt_gauges := <[(name, labels) := v]> (mt_gauges m) }.
Definition add_gauge (name : string) (labels : list str) (v : Q) (m : metrics) : metrics :=
  m &{ mt_gauges := partial_alter (fun g => Some (default 0%Q g + v)%Q) (name, labels) (mt_gauges m) }.
Definition observe (name : string) (labels : list str) (v : Q) (m : metrics) : metrics :=
  m &{ mt_histograms := partial_alter (fun h => Some (v :: default [] h)) (name, labels) (mt_histograms m) }.

(** The instruments and their labels, in the order of the module. *)
Definition instruments : list (string * list str) :=
  [("webhook_http_requests_total", map py ["runtime_role"; "method"; "route"; "status_class"]);
   ("webhook_http_request_duration_seconds", map py ["runtime_role"; "method"; "route"]);
   ("webhook_events_total", map py ["runtime_role"; "outcome"; "reason"]);
   ("webhook_queue_depth", map py ["runtime_role"; "kind"]);
   ("webhook_queue_oldest_due_age_seconds", map py ["runtime_role"]);
   ("webhook_delivery_lifecycle_total", map py ["runtime_role"; "action"; "outcome"]);
   ("webhook_delivery_attempt_duration_seconds", map py ["runtime_role"; "outcome"]);
   ("webhook_delivery_end_to_end_seconds", map py ["runtime_role"; "outcome"]);
   ("webhook_delivery_attempts_per_success", map py ["runtime_role"]);
   ("webhook_outbound_responses_total", map py ["runtime_role"; "status_class"]);
   ("webhook_delivery_failures_total", map py ["runtime_role"; "failure_class"]);
   ("webhook_circuit_endpoints", map py ["runtime_role"; "state"]);
   ("webhook_worker_in_flight", map py ["runtime_role"]);
   ("webhook_worker_utilization_ratio", map py ["runtime_role"]);
   ("webhook_db_query_duration_seconds", map py ["runtime_role"; "operation"; "outcome"]);
   ("webhook_db_pool_connections", map py ["runtime_role"; "state"]);
   ("webhook_db_pool_acquisition_seconds", map py ["runtime_role"; "outcome"]);
   ("webhook_observability_collection_failures_total", map py ["runtime_role"; "collector"]);
   ("webhook_security_denies", map py ["runtime_role"; "layer"; "reason"])]%string.

Definition HTTP_REQUESTS : string := "webhook_http_requests_total".
Definition HTTP_DURATION : string := "webhook_http_request_duration_seconds".
Definition EVENTS : string := "webhook_events_total".
Definition QUEUE_DEPTH : string := "webhook_queue_depth".
Definition QUEUE_OLDEST : string := "webhook_queue_oldest_due_age_seconds".
Definition DELIVERY_LIFECYCLE : string := "webhook_delivery_lifecycle_total".
Definition ATTEMPT_DURATION : string := "webhook_delivery_attempt_duration_seconds".
Definition END_TO_END : string := "webhook_delivery_end_to_end_seconds".
Definition ATTEMPTS_PER_SUCCESS : string := "webhook_delivery_attempts_per_success".
Definition OUTBOUND_RESPONSES : string := "webhook_outbound_responses_total".
Definition DELIVERY_FAILURES : string := "webhook_delivery_failures_total".
Definition CIRCUIT_ENDPOINTS : string := "webhook_circuit_endpoints".
Definition WORKER_IN_FLIGHT : string := "webhook_worker_in_flight".
Definition WORKER_UTILIZATION : string := "webhook_worker_utilization_ratio".
Definition DB_QUERY_DURATION : string := "webhook_db_query_duration_seconds".
Definition COLLECTION_FAILURES : string := "webhook_observability_collection_failures_total".
Definition DB_POOL_CONNECTIONS : string := "webhook_db_pool_connections".
Definition DB_POOL_ACQUISITION : string := "webhook_db_pool_acquisition_seconds".
Definition SECURITY_DENIES : string := "webhook_security_denies".

(** ** Label values *)

Definition status_class (code : option Z) : str :=
  match code with
  | None => py "none"
  | Some c => if (100 <=? c) && (c <=? 599) then int_repr (c / 100) ++ py "xx" else py "other"
  end.

Definition METHODS : list str := map py ["GET"; "POST"; "PUT"; "PATCH"; "DELETE"; "OPTIONS"]%string.

(** [set_runtime_role] *)
Definition set_runtime_role (role : str) : res exn str :=
  if bool_decide (role ∈ [py "api"; py "worker"]) then Ok role
  else Raise (ValueError "runtime role must be api or worker").

(** [normalized_route]: the template of the matched route *)
Definition normalized_route (path : option str) : str := default (py "unmatched") path.

Section Recording.
Context `{Rounding} (lower_all upper_all : str -> str) (role : str).

(** [classify_failure] *)
Definition classify_failure (error : option str) : str :=
  match error with
  | None => py "none"
  | Some e =>
      let value := lower_all e in
      let mentions (part : string) := contains value (py part) in
      if mentions "dns" then py "dns"
      else if mentions "tls" || mentions "certificate" || mentions "connecterror"
      then py "tls_or_connect"
      else if mentions "timeout" then py "timeout"
      else if mentions "proxy" || mentions "unsafe_webhook" then py "policy_denied"
      else if mentions "http" then py "http"
      else if mentions "max_delivery_age" then py "max_age"
      else py "other"
  end.

(** [_db_operation] *)
Definition db_operation (statement : str) : str :=
  let operation := match split_by isspace (lstrip statement) with
                   | word :: _ => if nonempty (strip statement) then upper_all word else py "OTHER"
                   | [] => py "OTHER"
                   end in
  if bool_decide (operation ∈ map py ["SELECT"; "INSERT"; "UPDATE"; "DELETE"; "DDL"]%string)
  then operation else py "OTHER".

Definition record_http (method route : str) (code : Z) (elapsed : Q) (m : metrics) : metrics :=
  let method := if bool_decide (method ∈ METHODS) then method else py "OTHER" in
  observe HTTP_DURATION [role; method; route] elapsed
    (inc HTTP_REQUESTS [role; method; route; status_class (Some code)] 1 m).

Definition record_event (outcome reason : str) (m : metrics) : metrics :=
  inc EVENTS [role; outcome; reason] 1 m.

Definition record_enqueue (count : Z) (m : metrics) : metrics :=
  inc DELIVERY_LIFECYCLE [role; py "enqueue"; py "accepted"] count m.

Definition record_claim (count reclaimed : Z) (m : metrics) : metrics :=
  let m := inc DELIVERY_LIFECYCLE [role; py "claim"; py "new"] (count - reclaimed) m in
  if reclaimed =? 0 then m
  else inc DELIVERY_LIFECYCLE [role; py "claim"; py "lease_expired"] reclaimed m.

Definition record_lease (outcome : str) (m : metrics) : metrics :=
  inc DELIVERY_LIFECYCLE [role; py "lease"; outcome] 1 m.

Definition record_finalization (outcome : str) (attempt_seconds end_to_end_seconds : Q) (attempts : Z)
    (status_code : option Z) (error : option str) (m : metrics) : metrics :=
  let m := inc DELIVERY_LIFECYCLE [role; py "completion"; outcome] 1 m in
  let m := observe ATTEMPT_DURATION [role; outcome] (qmax 0 attempt_seconds) m in
  let m := if bool_decide (outcome ∈ [py "succeeded"; py "dead"])
           then observe END_TO_END [role; outcome] (qmax 0 end_to_end_seconds) m else m in
  let m := if str_eqb outcome (py "succeeded")
           then observe ATTEMPTS_PER_SUCCESS [role] (inject_Z attempts) m else m in
  let m := match status_code with
           | Some _ => inc OUTBOUND_RESPONSES [role; status_class status_code] 1 m
           | None => m
           end in
  match error with
  | Some _ => inc DELIVERY_FAILURES [role; classify_failure error] 1 m
  | None => m
  end.

Definition record_stale_finalization (m : metrics) : metrics :=
  inc DELIVERY_LIFECYCLE [role; py "finalize"; py "stale"] 1 m.

Definition record_circuit_transition (state : str) (m : metrics) : metrics :=
  inc DELIVERY_LIFECYCLE [role; py "circuit"; state] 1 m.

Definition set_worker_in_flight (count capacity : Z) (m : metrics) : metrics :=
  set_gauge WORKER_UTILIZATION [role] (fdiv (inject_Z count) (inject_Z (Z.max 1 capacity)))
    (set_gauge WORKER_IN_FLIGHT [role] (inject_Z count) m).

Definition observe_pool_acquisition (elapsed : Q) (outcome : str) (m : metrics) : metrics :=
  observe DB_POOL_ACQUISITION [role; outcome] (qmax 0 elapsed) m.

Definition set_pool_capacity (capacity : Z) (m : metrics) : metrics :=
  set_gauge DB_POOL_CONNECTIONS [role; py "capacity"] (inject_Z capacity) m.

(** The hooks of [instrument_engine]: the observation a statement starts with,
    what its success or its failure records, and the connections in use. *)
Definition before_cursor_execute (clock : Q) (statement : str) : Q * str :=
  (clock, db_operation statement).

Definition after_cursor_execute (clock : Q) (observed : Q * str) (m : metrics) : metrics :=
  observe DB_QUERY_DURATION [role; observed.2; py "success"] (fsub clock observed.1) m.

Definition handle_error (clock : Q) (observed : option (Q * str)) (m : metrics) : metrics :=
  match observed with
  | Some (started, operation) =>
      observe DB_QUERY_DURATION [role; operation; py "error"] (fsub clock started) m
  | None => m
  end.

Definition checkout (m : metrics) : metrics := add_gauge DB_POOL_CONNECTIONS [role; py "checked_out"] 1 m.
Definition checkin (m : metrics) : metrics :=
  add_gauge DB_POOL_CONNECTIONS [role; py "checked_out"] (-1)%Q m.
End Recording.

(** ** Egress denials *)

Inductive SecurityLayer : Type := ADMISSION | ATTEMPT | PROXY.

Definition layer_value (l : SecurityLayer) : str :=
  match l with ADMISSION => py "admission" | ATTEMPT => py "attempt" | PROXY => py "proxy" end.

Abbreviation denials := (gmap (str * str) Z).

Definition record_security_deny (l : SecurityLayer) (r : SecurityDenyReason) (c : denials) : denials :=
  partial_alter (fun n => Some (default 0 n + 1)) (layer_value l, reason_value r) c.

(** ** The collector *)

Section Collector.
Context `{Rounding} (role : str).

Definition with_status (s : DeliveryStatus) (db : Db) : Z :=
  len (t_where (fun d => bool_decide (d_status d = s)) (db_deliveries db)).

(** The condition [due] of the collector, and its [due_at] *)
Definition due_now (now : datetime) (d : Delivery) : bool :=
  (queued (d_status d) && (d_next_attempt_at d <=? now))
  || (bool_decide (d_status d = Processing)
      && match d_lease_expires_at d with Some t => t <=? now | None => false end).

Definition due_since (d : Delivery) : option datetime :=
  match d_status d with Processing => d_lease_expires_at d | _ => Some (d_next_attempt_at d) end.

Definition runnable (now : datetime) (db : Db) : Z := len (t_where (due_now now) (db_deliveries db)).

(** [func.min] ignores [NULL]. *)
Definition min_of (l : list datetime) : option datetime :=
  foldr (fun t acc => Some (match acc with Some t' => Z.min t t' | None => t end)) None l.

Definition oldest_runnable (now : datetime) (db : Db) : option datetime :=
  min_of (omap due_since (t_where (due_now now) (db_deliveries db))).

Definition queue_depths (now : datetime) (db : Db) : list (str * Z) :=
  [(py "total", with_status Pending db + with_status Processing db + with_status RetryScheduled db);
   (py "runnable", runnable now db);
   (py "processing", with_status Processing db);
   (py "retry_scheduled", with_status RetryScheduled db);
   (py "dead", with_status Dead db)].

Definition oldest_age (now : datetime) (db : Db) : Q :=
  match oldest_runnable now db with
  | None => 0%Q
  | Some t => qmax 0 (total_seconds (now - t))
  end.

Definition circuits (db : Db) : list (str * Z) :=
  map (fun nc => (py nc.1, len (filter (fun q => q_circuit_state q = nc.2) (map_to_list (db_quotas db)).*2)))
    [("closed"%string, Closed); ("open"%string, Open); ("half_open"%string, HalfOpen)].

(** [QueueMetricsCollector.collect_once] *)
Definition collect_once (now : datetime) (denied : denials) (db : Db) (m : metrics) : metrics :=
  let m := foldl (fun m kv => set_gauge QUEUE_DEPTH [role; kv.1] (inject_Z kv.2) m) m (queue_depths now db) in
  let m := set_gauge QUEUE_OLDEST [role] (oldest_age now db) m in
  let m := foldl (fun m kv => set_gauge CIRCUIT_ENDPOINTS [role; kv.1] (inject_Z kv.2) m) m (circuits db) in
  foldl (fun m kn => set_gauge SECURITY_DENIES [role; kn.1.1; kn.1.2] (inject_Z kn.2) m) m
    (map_to_list denied).

(** One turn of [_run] after the interval: [None] is a collection that raised. *)
Definition collector_turn (now : datetime) (denied : denials) (read : option Db) (m : metrics) : metrics :=
  match read with
  | Some db => collect_once now denied db m
  | None => inc COLLECTION_FAILURES [role; py "queue"] 1 m
  end.
End Collector.

(** ** What the labels may say *)

Lemma instruments_are_admitted : Forall (fun i => validate_label_names i.2 = Ok ()) instruments.
Proof. repeat constructor. Qed.

(** A name is split at its underscores, so that the part [response_body] of
    the list forbids nothing. *)
Lemma response_body_is_not_forbidden : validate_label_names [py "response_body"] = Ok ().
Proof. reflexivity. Qed.

Lemma classify_failure_bounded lower e :
  classify_failure lower e
    ∈ map py ["none"; "dns"; "tls_or_connect"; "timeout"; "policy_denied"; "http"; "max_age"; "other"]%string.
Proof.
  destruct e; cbn [classify_failure]; [| set_solver].
  repeat case_match; set_solver.
Qed.


Lemma status_class_bounded code :
  status_class code ∈ map py ["none"; "1xx"; "2xx"; "3xx"; "4xx"; "5xx"; "other"]%string.
Proof.
  destruct code as [c |]; cbn [status_class]; [| set_solver].
  destruct ((100 <=? c) && (c <=? 599)) eqn:E; [| set_solver].
  assert (c / 100 = 1 \/ c / 100 = 2 \/ c / 100 = 3 \/ c / 100 = 4 \/ c / 100 = 5) as Hc.
  { assert (1 <= c / 100 < 6) by (split; [apply Z.div_le_lower_bound | apply Z.div_lt_upper_bound]; lia). lia. }
  destruct Hc as [-> | [-> | [-> | [-> | ->]]]]; vm_compute; set_solver.
Qed.

(** ** The gauges *)

(** What a series shows *)
Definition gauge (m : metrics) (name : string) (labels : list str) : option Q := mt_gauges m !! (name, labels).

Lemma gauge_set_same name l v m : gauge (set_gauge name l v m) name l = Some v.
Proof. apply lookup_insert_eq. Qed.

Lemma gauge_set_other name l v m name' l' :
  (name, l) <> (name', l') -> gauge (set_gauge name l v m) name' l' = gauge m name' l'.
Proof. intros. by apply lookup_insert_ne. Qed.

Section SetAll.
Context {A : Type} (name : string) (labels : A -> list str) (value : A -> Q).

Definition set_all (m : metrics) (l : list A) : metrics :=
  foldl (fun m x => set_gauge name (labels x) (value x) m) m l.

Lemma set_all_other l m name' l' :
  name <> name' \/ l' ∉ map labels l -> gauge (set_all m l) name' l' = gauge m name' l'.
Proof.
  revert m. induction l as [| x l IH]; intros m Hn; [done |]. cbn.
  rewrite IH by (cbn in Hn; set_solver). apply gauge_set_other.
  intros [= -> <-]. cbn in Hn. set_solver.
Qed.

Lemma set_all_same l m x :
  NoDup (map labels l) -> x ∈ l -> gauge (set_all m l) name (labels x) = Some (value x).
Proof.
  revert m. induction l as [| y l IH]; intros m Hd Hx; [by apply not_elem_of_nil in Hx |].
  cbn in Hd |- *. apply list.NoDup_cons in Hd as [Hy Hd].
  apply elem_of_cons in Hx as [-> | Hx]; [| by apply IH].
  rewrite set_all_other by auto. apply gauge_set_same.
Qed.

Lemma set_all_counters l m : mt_counters (set_all m l) = mt_counters m
  /\ mt_histograms (set_all m l) = mt_histograms m.
Proof. revert m. induction l as [| x l IH]; intros m; [done |]. cbn. by rewrite !(proj1 (IH _)), !(proj2 (IH _)). Qed.
End SetAll.

(** The collector and the admission controller ask the same two questions. *)
Lemma due_now_due now d : due_now now d = due now d.
Proof.
  unfold due_now, due, due_at, queued.
  destruct (d_status d), (d_lease_expires_at d) as [t |]; cbn;
    repeat case_bool_decide; cbn; repeat case_match; cbn;
    try reflexivity; try (destruct_and?; exfalso; eauto; done); cbn in *; try lia; naive_solver.
Qed.

Lemma due_since_due_at now d : due now d = true -> due_since d = due_at now d.
Proof.
  unfold due, due_since, due_at, queued. rewrite bool_decide_eq_true. intros [t Ht].
  destruct (d_status d), (d_lease_expires_at d); cbn in *; repeat case_match; naive_solver.
Qed.

Lemma due_now_where now db : t_where (due_now now) (db_deliveries db) = t_where (due now) (db_deliveries db).
Proof. unfold t_where. apply list_filter_iff. intros d. by rewrite due_now_due. Qed.

Lemma oldest_runnable_is_oldest_due now db : oldest_runnable now db = oldest_due now db.
Proof.
  unfold oldest_runnable, oldest_due. rewrite due_now_where.
  assert (Forall (fun d => due now d = true) (t_where (due now) (db_deliveries db))) as Hd.
  { apply list.Forall_forall. intros d Hd. by apply t_where_spec in Hd as [? _]. }
  induction Hd as [| d l Hd _ IH]; [done |]. cbn [omap list_omap foldr]. rewrite <- IH.
  rewrite (due_since_due_at now) by done. destruct (due_at now d) as [z |]; [| done].
  change (Some (match min_of (omap due_since l) with Some t' => Z.min z t' | None => z end)
    = match min_of (omap due_since l) with Some t' => Some (Z.min z t') | None => Some z end).
  by case_match.
Qed.

(** A row that is due became so in the past. *)
Lemma oldest_due_past now db t : oldest_due now db = Some t -> t <= now.
Proof.
  unfold oldest_due. revert t. induction (t_where (due now) (db_deliveries db)) as [| d l IH]; [done |].
  intros t. cbn [foldr]. unfold due_at at 1.
  destruct (foldr _ None l) as [t' |] eqn:E; [specialize (IH t' eq_refl) |];
    repeat case_match; intros; simplify_eq; lia.
Qed.

(** The row counts of a table are those of its classes. *)
Lemma count_disjoint (p q : Delivery -> bool) (l : list Delivery) :
  (forall d, p d && q d = false) ->
  len (filter (fun d => Is_true (p d || q d)) l)
  = len (filter (fun d => Is_true (p d)) l) + len (filter (fun d => Is_true (q d)) l).
Proof.
  intros Hpq. unfold len. induction l as [| d l IH]; [done |]. rewrite !filter_cons.
  specialize (Hpq d). repeat case_decide; destruct (p d), (q d); cbn [length orb andb Is_true] in *; tauto || discriminate || lia.
Qed.

Lemma backlog_by_status db :
  backlog db = with_status Pending db + with_status Processing db + with_status RetryScheduled db.
Proof.
  unfold backlog, with_status, t_where. rewrite <- !count_disjoint.
  - f_equal. apply list_filter_iff. intros d. by destruct (d_status d).
  - intros d. by destruct (d_status d).
  - intros d. by destruct (d_status d).
Qed.

Section Gauges.
Context `{Rounding} (role : str).

Lemma collect_once_sets now denied db m :
  collect_once role now denied db m
  = set_all SECURITY_DENIES (fun kn => [role; kn.1.1; kn.1.2]) (fun kn => inject_Z kn.2)
      (set_all CIRCUIT_ENDPOINTS (fun kv => [role; kv.1]) (fun kv => inject_Z kv.2)
         (set_gauge QUEUE_OLDEST [role] (oldest_age now db)
            (set_all QUEUE_DEPTH (fun kv => [role; kv.1]) (fun kv => inject_Z kv.2) m (queue_depths now db)))
         (circuits db))
      (map_to_list denied).
Proof. reflexivity. Qed.

Ltac past := rewrite set_all_other by (left; discriminate).

Lemma labelled_NoDup (l : list (str * Z)) : NoDup l.*1 -> NoDup (map (fun kv => [role; kv.1]) l).
Proof.
  intros Hl. change (NoDup (((fun k => [role; k]) ∘ fst) <$> l)). rewrite list_fmap_compose.
  apply NoDup_fmap_2_strong; [| done]. by intros x y _ _ [= ->].
Qed.

Lemma depth_gauge now denied db m kind n : (kind, n) ∈ queue_depths now db ->
  gauge (collect_once role now denied db m) QUEUE_DEPTH [role; kind] = Some (inject_Z n).
Proof.
  intros Hk. rewrite collect_once_sets. do 2 past. rewrite gauge_set_other by discriminate.
  apply (set_all_same QUEUE_DEPTH (fun kv => [role; kv.1]) (fun kv => inject_Z kv.2) _ _ (kind, n)); [| done].
  apply labelled_NoDup. refine (bool_decide_unpack _ _). vm_compute. exact I.
Qed.

Lemma oldest_gauge now denied db m :
  gauge (collect_once role now denied db m) QUEUE_OLDEST [role] = Some (oldest_age now db).
Proof. rewrite collect_once_sets. do 2 past. apply gauge_set_same. Qed.

Lemma circuit_gauge now denied db m kind n : (kind, n) ∈ circuits db ->
  gauge (collect_once role now denied db m) CIRCUIT_ENDPOINTS [role; kind] = Some (inject_Z n).
Proof.
  intros Hk. rewrite collect_once_sets. past.
  apply (set_all_same CIRCUIT_ENDPOINTS (fun kv => [role; kv.1]) (fun kv => inject_Z kv.2) _ _ (kind, n)); [| done].
  apply labelled_NoDup. refine (bool_decide_unpack _ _). vm_compute. exact I.
Qed.

Lemma denial_gauge (now : datetime) (denied : denials) (db : Db) (m : metrics) layer reason n : denied !! (layer, reason) = Some n ->
  gauge (collect_once role now denied db m) SECURITY_DENIES [role; layer; reason] = Some (inject_Z n).
Proof.
  intros Hk. rewrite collect_once_sets.
  apply (set_all_same SECURITY_DENIES (fun kn => [role; kn.1.1; kn.1.2]) (fun kn => inject_Z kn.2)
           _ _ ((layer, reason), n)); [| by apply elem_of_map_to_list].
  change (NoDup (((fun k => [role; k.1; k.2]) ∘ fst) <$> map_to_list denied)). rewrite list_fmap_compose.
  apply NoDup_fmap_2_strong; [| apply NoDup_fst_map_to_list]. by intros [??] [??] _ _ [= -> ->].
Qed.

Lemma other_gauges now denied db m name l :
  name ∉ [QUEUE_DEPTH; QUEUE_OLDEST; CIRCUIT_ENDPOINTS; SECURITY_DENIES] ->
  gauge (collect_once role now denied db m) name l = gauge m name l.
Proof.
  rewrite !not_elem_of_cons. intros (? & ? & ? & ? & _). rewrite collect_once_sets.
  do 2 rewrite set_all_other by auto. rewrite gauge_set_other by congruence. by rewrite set_all_other by auto.
Qed.

Lemma total_seconds_past us : 0 <= us -> (0 <= total_seconds us)%Q.
Proof.
  intros Hus. unfold total_seconds. apply (Qle_trans _ (rnd (inject_Z 0))); [rewrite rnd_int by lia; apply Qle_refl |].
  apply rnd_mono. unfold Qle. cbn. lia.
Qed.

Lemma oldest_age_of now db t : oldest_due now db = Some t -> oldest_age now db == total_seconds (now - t).
Proof.
  intros Ht. unfold oldest_age. rewrite oldest_runnable_is_oldest_due, Ht.
  pose proof (total_seconds_past (now - t)) as Hp. apply oldest_due_past in Ht.
  specialize (Hp ltac:(lia)). unfold qmax. by rewrite (proj2 (Qle_bool_iff _ _) Hp).
Qed.

Lemma oldest_due_none now db : oldest_due now db = None <-> runnable now db = 0.
Proof.
  unfold runnable, oldest_due, len. rewrite due_now_where. split.
  - destruct (t_where _ _) as [| d l] eqn:E; [done |]. cbn [foldr].
    assert (d ∈ t_where (due now) (db_deliveries db)) as Hd by (rewrite E; left).
    apply t_where_spec in Hd as [Hd _]. unfold due in Hd. apply bool_decide_eq_true in Hd as [t ->].
    by case_match.
  - by destruct (t_where _ _).
Qed.

(** The saturation check, read off the gauges *)
Definition gauges_admit (settings : Settings) (total waiting n : Z) (age : Q) : bool :=
  (total + n <=? global_max_backlog settings)
  && ((waiting =? 0) || qlt age (global_oldest_due_admission_seconds settings)).

Lemma gauges_admit_spec settings now n db :
  gauges_admit settings (backlog db) (runnable now db) n (oldest_age now db)
  = within_saturation settings now n db.
Proof.
  unfold gauges_admit, within_saturation. f_equal.
  destruct (oldest_due now db) as [t |] eqn:E.
  - replace (runnable now db =? 0) with false.
    + unfold qlt. cbn [orb]. by rewrite (oldest_age_of _ _ _ E).
    + symmetry. apply Z.eqb_neq. rewrite <- oldest_due_none. congruence.
  - apply oldest_due_none in E. by rewrite E.
Qed.
End Gauges.

Lemma circuits_partition (l : list EndpointQuotaState) :
  len (filter (fun q => q_circuit_state q = Closed) l) + len (filter (fun q => q_circuit_state q = Open) l)
  + len (filter (fun q => q_circuit_state q = HalfOpen) l) = len l.
Proof.
  unfold len. induction l as [| q l IH]; [done |]. rewrite !filter_cons.
  repeat case_decide; destruct (q_circuit_state q); cbn [length]; congruence || lia.
Qed.

Section Authority.
Context `{Rounding} (role : str).

(** After a collection, whatever the registry showed before, the queue
    gauges of the role are the counts of the database that was read: [total]
    is the admission controller's backlog, [runnable] the rows it calls due,
    the circuit gauges partition the quota rows, and every egress denial
    counted is shown.  The gauges say exactly what admission will do: the
    saturation check on that database passes for [n] more deliveries when
    [total + n] is within the backlog and nothing is runnable or the oldest
    age shown is below the limit, and raises a saturation error otherwise.
    Counters, histograms and the gauges of other instruments are untouched. *)
Theorem queue_gauges_are_authoritative (settings : Settings) (now : datetime) (denied : denials) n m s :
  let db := working s in
  let m' := collect_once role now denied db m in
  let shows kind v := gauge m' QUEUE_DEPTH [role; py kind] = Some (inject_Z v) in
  (exists total waiting age,
     shows "total"%string total /\ shows "runnable"%string waiting
     /\ gauge m' QUEUE_OLDEST [role] = Some age
     /\ total = backlog db /\ waiting = len (t_where (due now) (db_deliveries db))
     /\ if gauges_admit settings total waiting n age
        then check_saturation settings now n s = (Ok (), s)
        else exists reason, check_saturation settings now n s = (Raise (SaturationError reason), s))
  /\ shows "processing"%string (with_status Processing db)
  /\ shows "retry_scheduled"%string (with_status RetryScheduled db)
  /\ shows "dead"%string (with_status Dead db)
  /\ (exists closed opened half,
       gauge m' CIRCUIT_ENDPOINTS [role; py "closed"] = Some (inject_Z closed)
       /\ gauge m' CIRCUIT_ENDPOINTS [role; py "open"] = Some (inject_Z opened)
       /\ gauge m' CIRCUIT_ENDPOINTS [role; py "half_open"] = Some (inject_Z half)
       /\ closed + opened + half = Z.of_nat (size (db_quotas db)))
  /\ (forall layer reason c, denied !! (layer, reason) = Some c ->
       gauge m' SECURITY_DENIES [role; layer; reason] = Some (inject_Z c))
  /\ (forall name l, name ∉ [QUEUE_DEPTH; QUEUE_OLDEST; CIRCUIT_ENDPOINTS; SECURITY_DENIES] ->
       gauge m' name l = gauge m name l)
  /\ mt_counters m' = mt_counters m /\ mt_histograms m' = mt_histograms m.
Proof.
  intros db m' shows. repeat apply conj.
  - exists (backlog db), (runnable now db), (oldest_age now db). unfold shows.
    split; [apply depth_gauge; rewrite backlog_by_status; left |].
    split; [apply depth_gauge; right; left |]. split; [apply oldest_gauge |]. split; [done |].
    split; [unfold runnable; by rewrite due_now_where |].
    rewrite gauges_admit_spec. apply check_saturation_spec.
  - apply depth_gauge. do 2 right. left.
  - apply depth_gauge. do 3 right. left.
  - apply depth_gauge. do 4 right. left.
  - do 3 eexists. split; [apply circuit_gauge; left |]. split; [apply circuit_gauge; right; left |].
    split; [apply circuit_gauge; do 2 right; left |]. rewrite circuits_partition.
    unfold len. by rewrite length_fmap, length_map_to_list.
  - intros. by apply denial_gauge.
  - intros. by apply other_gauges.
  - unfold m'. rewrite collect_once_sets. by rewrite !(proj1 (set_all_counters _ _ _ _ _)).
  - unfold m'. rewrite collect_once_sets. by rewrite !(proj2 (set_all_counters _ _ _ _ _)).
Qed.
End Authority.
