(* ===== verification/Errors.v ===== *)
(** * Error responses

    The handlers of [src/app/exception_handlers.py] with the messages, codes
    and details of [src/app/exceptions.py]: what a client sees of an exception,
    and what it adds to the event counters. *)

From stdpp Require Import base tactics list gmap strings numbers option.
From S2P Require Import Prelude Json Text Models Session Settings Metrics.
Local Open Scope Z_scope.

(** ** Domain exceptions *)

Definition identifier_text (i : identifier) : str :=
  match i with IdStr s => s | IdInt z => int_repr z end.

(** [AppException.code]; [None] for an exception that is not one of them *)
Definition code (e : exn) : option str :=
  match e with
  | NotFoundError _ _ => Some (py "NOT_FOUND")
  | AlreadyExistsError _ _ _ => Some (py "ALREADY_EXISTS")
  | ConflictError _ => Some (py "CONFLICT")
  | ValidationError _ _ => Some (py "VALIDATION_ERROR")
  | UnauthorizedError _ _ => Some (py "UNAUTHORIZED")
  | ForbiddenError _ => Some (py "FORBIDDEN")
  | DatabaseError _ => Some (py "DATABASE_ERROR")
  | QuotaExceededError _ _ => Some (py "QUOTA_EXCEEDED")
  | SaturationError _ => Some (py "SERVICE_SATURATED")
  | _ => None
  end.

Definition message (e : exn) : str :=
  match e with
  | NotFoundError resource i => py resource ++ py " with id '" ++ identifier_text i ++ py "' not found"
  | AlreadyExistsError resource field value =>
      py resource ++ py " with " ++ py field ++ py " '" ++ value ++ py "' already exists"
  | ConflictError m | ValidationError m _ | UnauthorizedError m _ | ForbiddenError m => py m
  | DatabaseError _ => py "Database operation failed"
  | QuotaExceededError _ _ => py "Tenant quota temporarily exhausted"
  | SaturationError _ => py "Service is temporarily saturated"
  | _ => []
  end.

Definition details (e : exn) : list (str * json) :=
  match e with
  | NotFoundError resource i =>
      [(py "resource", JStr (py resource)); (py "identifier", JStr (identifier_text i))]
  | AlreadyExistsError resource field value =>
      [(py "resource", JStr (py resource)); (py "field", JStr (py field)); (py "value", JStr value)]
  | ValidationError _ (Some field) => if nonempty (py field) then [(py "field", JStr (py field))] else []
  | DatabaseError operation => [(py "operation", JStr (py operation))]
  | QuotaExceededError quota _ => [(py "quota", JStr (py quota))]
  | SaturationError reason => [(py "reason", JStr (py reason))]
  | _ => []
  end.

(** ** Handlers *)

Record ErrorResponse : Type := MkErrorResponse {
  er_status : Z;
  er_headers : list (str * str);
  er_body : json;
}.

Definition create_error_response (status : Z) (code message : str) (details : list (str * json))
    (headers : list (str * str)) : ErrorResponse :=
  MkErrorResponse status headers
    (JObj [(py "error", JObj [(py "code", JStr code); (py "message", JStr message);
                              (py "details", JObj details)])]).

Definition EVENTS_PATH : str := py "/v1/events".

(** The counter an exception of an ingestion moves *)
Definition event_reason (e : exn) : str * str :=
  match e with
  | QuotaExceededError _ _ => (py "throttled", py "tenant_quota")
  | SaturationError _ => (py "throttled", py "global_saturation")
  | ConflictError _ => (py "rejected", py "conflict")
  | UnauthorizedError _ _ => (py "rejected", py "authentication")
  | _ => (py "rejected", py "domain")
  end.

Definition handler_headers (e : exn) : list (str * str) :=
  match error_headers e with
  | Some (WWW_Authenticate scheme) => [(py "WWW-Authenticate", py scheme)]
  | Some (Retry_After n) => [(py "Retry-After", int_repr n)]
  | None => []
  end.

Section Handlers.
Context (role path : str).

Definition app_exception_handler (e : exn) (c : str) (m : metrics) : ErrorResponse * metrics :=
  let m := if str_eqb path EVENTS_PATH
           then record_event role (event_reason e).1 (event_reason e).2 m else m in
  (create_error_response (status_code e) c (message e) (details e) (handler_headers e), m).

(** One error of pydantic: the location, the message and the type *)
Record FieldError : Type := MkFieldError { fe_loc : list str; fe_msg : str; fe_type : str }.

Definition field_error_json (f : FieldError) : json :=
  JObj [(py "field", JStr (join [46] (fe_loc f))); (py "message", JStr (fe_msg f));
        (py "type", JStr (fe_type f))].

Definition validation_exception_handler (errors : list FieldError) (m : metrics) : ErrorResponse * metrics :=
  let m := if str_eqb path EVENTS_PATH then record_event role (py "rejected") (py "validation") m else m in
  (create_error_response 422 (py "VALIDATION_ERROR") (py "Request validation failed")
     [(py "errors", JList (map field_error_json errors))] [], m).

Definition sqlalchemy_exception_handler : ErrorResponse :=
  create_error_response 500 (py "DATABASE_ERROR") (py "A database error occurred") [] [].

Definition generic_exception_handler : ErrorResponse :=
  create_error_response 500 (py "INTERNAL_ERROR") (py "An unexpected error occurred") [] [].

(** [register_exception_handlers]: the handler of the nearest class *)
Definition handle (e : exn) (m : metrics) : ErrorResponse * metrics :=
  match code e, e with
  | Some c, _ => app_exception_handler e c m
  | None, IntegrityError => (sqlalchemy_exception_handler, m)
  | None, _ => (generic_exception_handler, m)
  end.
End Handlers.

(** ** The contract *)

Definition error_codes : list str :=
  map py ["NOT_FOUND"; "ALREADY_EXISTS"; "CONFLICT"; "VALIDATION_ERROR"; "UNAUTHORIZED"; "FORBIDDEN";
          "DATABASE_ERROR"; "QUOTA_EXCEEDED"; "SERVICE_SATURATED"; "INTERNAL_ERROR"]%string.

(** What the counters of a registry show for an outcome of ingestion *)
Definition counted (role : str) (outcome reason : str) (m : metrics) : Z :=
  default 0 (mt_counters m !! (EVENTS, [role; outcome; reason])).

Lemma counted_inc role outcome reason outcome' reason' m :
  counted role outcome' reason' (record_event role outcome reason m)
  = counted role outcome' reason' m
    + if bool_decide ((outcome', reason') = (outcome, reason)) then 1 else 0.
Proof.
  unfold counted, record_event, inc. upd_simpl. case_bool_decide as E.
  - injection E as -> ->. rewrite lookup_partial_alter_eq. done.
  - rewrite lookup_partial_alter_ne; [lia |]. intros [= -> ->]. done.
Qed.

Section Contract.
Context (role path : str) (m : metrics).

Lemma handled_status e : er_status (handle role path e m).1 = status_code e.
Proof. by destruct e. Qed.

Lemma status_bounded e : status_code e ∈ [400; 401; 403; 404; 409; 429; 500; 503].
Proof. destruct e; cbn; set_solver. Qed.

Lemma handled_body e : exists c text ds,
  er_body (handle role path e m).1
  = JObj [(py "error", JObj [(py "code", JStr c); (py "message", JStr text); (py "details", JObj ds)])]
  /\ c ∈ error_codes.
Proof. destruct e; eexists _, _, _; (split; [reflexivity |]); unfold error_codes; cbn [map]; set_solver. Qed.

Lemma handled_alike e e' : code e = None -> code e' = None ->
  (e' = IntegrityError <-> e = IntegrityError) -> handle role path e' m = ((handle role path e m).1, m).
Proof.
  destruct e; try done; destruct e'; try done; intros _ _ [Hl Hr];
    first [done | discriminate (Hl eq_refl) | discriminate (Hr eq_refl)].
Qed.

Lemma challenged e :
  (exists v, (py "WWW-Authenticate", v) ∈ er_headers (handle role path e m).1) <-> status_code e = 401.
Proof.
  destruct e; cbn -[py]; (split; [intros [v Hv] | intros E; try discriminate E]);
    try (by apply not_elem_of_nil in Hv); try done.
  - eexists. left.
  - by apply list_elem_of_singleton in Hv.
Qed.

Lemma told_to_wait e :
  (exists v, (py "Retry-After", v) ∈ er_headers (handle role path e m).1) <-> status_code e = 429.
Proof.
  destruct e; cbn -[py int_repr]; (split; [intros [v Hv] | intros E; try discriminate E]);
    try (by apply not_elem_of_nil in Hv); try done.
  - by apply list_elem_of_singleton in Hv.
  - eexists. left.
Qed.

Lemma handled_counts e outcome reason :
  counted role outcome reason (handle role path e m).2 = counted role outcome reason m
    + if str_eqb path EVENTS_PATH && bool_decide (is_Some (code e))
         && bool_decide ((outcome, reason) = event_reason e) then 1 else 0.
Proof.
  unfold handle. destruct (code e) as [c|] eqn:E.
  - rewrite (bool_decide_true (is_Some (Some c))) by eauto. rewrite andb_true_r. cbn [app_exception_handler snd].
    destruct (str_eqb path EVENTS_PATH); cbn [andb]; [| lia]. rewrite counted_inc. by destruct (event_reason e).
  - rewrite (bool_decide_false (is_Some None)) by by intros []. rewrite andb_false_r. cbn [andb].
    rewrite Z.add_0_r. by destruct e.
Qed.

Lemma throttled_status e : (event_reason e).1 = py "throttled" <-> status_code e = 429 \/ status_code e = 503.
Proof.
  destruct e; cbn -[py]; (split; [intros E; try discriminate E; auto | intros [E|E]; try discriminate E; done]).
Qed.
End Contract.

(** The error contract.  Whatever is raised, the client gets one of eight
    statuses, the mapped one, and a body with one of ten codes, a message and
    details.  Exceptions that are not domain errors are answered alike, one
    answer for the database and one for the rest, so nothing of them shows.
    The authentication challenge is sent with 401 and only then, the waiting
    time with 429 and only then.  A domain error of an ingestion is counted
    once, as throttled exactly when the status is 429 or 503, and nothing else
    is counted. *)
Theorem error_responses_conform role path e m :
  let (r, m') := handle role path e m in
  er_status r = status_code e /\ er_status r ∈ [400; 401; 403; 404; 409; 429; 500; 503] /\
  (exists c text ds,
     er_body r = JObj [(py "error", JObj [(py "code", JStr c); (py "message", JStr text);
                                          (py "details", JObj ds)])] /\ c ∈ error_codes) /\
  (code e = None -> forall e', code e' = None -> (e' = IntegrityError <-> e = IntegrityError) ->
     handle role path e' m = (r, m)) /\
  ((exists v, (py "WWW-Authenticate", v) ∈ er_headers r) <-> er_status r = 401) /\
  ((exists v, (py "Retry-After", v) ∈ er_headers r) <-> er_status r = 429) /\
  (forall outcome reason,
     counted role outcome reason m' = counted role outcome reason m
       + if str_eqb path EVENTS_PATH && bool_decide (is_Some (code e))
            && bool_decide ((outcome, reason) = event_reason e) then 1 else 0) /\
  ((event_reason e).1 = py "throttled" <-> er_status r = 429 \/ er_status r = 503).
Proof.
  pose proof (handled_status role path m e) as Hs. pose proof (handled_body role path m e) as Hb.
  pose proof (handled_alike role path m e) as Ha. pose proof (handled_counts role path m e) as Hc.
  pose proof (challenged role path m e) as Hw. pose proof (told_to_wait role path m e) as Hr.
  destruct (handle role path e m) as [r m'] eqn:E. cbn [fst snd] in *. rewrite Hs.
  split; [done |]. split; [apply status_bounded |]. split; [done |].
  split; [intros; by apply Ha |]. split; [done |]. split; [done |]. split; [done |]. apply throttled_status.
Qed.
