(* ===== verification/Items.v ===== *)
(** * Items

    The example resource of [src/app/schemas/item.py],
    [src/app/services/item_service.py] and [src/app/routers/items.py]: rows
    that belong to an account, changed only through requests of that account.
    Authentication is that of [Accounts]; its result is the [user] here. *)

From Stdlib Require Import QArith Qabs Qround.
From stdpp Require Import sorting.
From stdpp Require Import base tactics list gmap strings numbers option.
From S2P Require Import Prelude Json Models Session Settings Events Schemas Routes.
Local Open Scope Z_scope.

Record Item : Type := MkItem {
  i_id : Z;
  i_title : str;
  i_description : option str;
  i_price_cents : Z;
  i_owner_id : Z;
  i_created_at : datetime;
}.

#[export] Instance eta_Item : Eta Item := fun i =>
  MkItem (i_id i) (i_title i) (i_description i) (i_price_cents i) (i_owner_id i) (i_created_at i).

(** ** Schemas *)

(** [validate_money] on [Decimal(str(value))]: what [Numeric(12, 2)] holds,
    in cents. *)
Definition validate_money (d : Q) : option Z :=
  if Qle_bool (inject_Z (10 ^ 10)) (Qabs d) then None
  else let cents := Qfloor (d * 100)%Q in
       if Qeq_bool (d * 100)%Q (inject_Z cents) then Some cents else None.

Record ItemFields : Type := MkItemFields {
  if_title : str; if_description : option str; if_price : Z;
}.

(** [model_dump(exclude_unset=True)] *)
Record ItemChanges : Type := MkItemChanges {
  ic_title : option str; ic_description : option (option str); ic_price : option Z;
}.

Section Schemas.
(** pydantic: text, its [strip_whitespace], and a finite number as the
    decimal that [str] shows. *)
Context (is_text : str -> bool) (trim : str -> str) (as_decimal : json -> option Q).

Definition Title (j : json) : option str :=
  match j with
  | JStr s => let s := trim s in
              if is_text s && (1 <=? len s) && (len s <=? 200) then Some s else None
  | _ => None
  end.

Definition Price (j : json) : option Z := d ← as_decimal j; validate_money d.

Definition ItemCreate (b : body) : option ItemFields :=
  o ← fields ["title"%string; "description"%string; "price"%string] b;
  title ← required "title" Title o;
  description ← defaulted "description" None (nullable (v_str is_text 0 (Some 2000))) o;
  price ← required "price" Price o;
  Some (MkItemFields title description price).

Definition ItemUpdate (b : body) : option ItemChanges :=
  o ← fields ["title"%string; "description"%string; "price"%string] b;
  title ← changed "title" Title o;
  description ← given "description" (nullable (v_str is_text 0 (Some 2000))) o;
  price ← changed "price" Price o;
  match o with [] => None | _ => Some (MkItemChanges title description price) end.
End Schemas.

(** ** The service *)

(** A session that commits once: the result with the table that is kept. *)
Abbreviation items := (table Item).
Abbreviation result A := (res exn A * items)%type.

Definition item_by_id (item_id : Z) (t : items) : option Item := t_get item_id t.

Definition items_by_owner (owner_id skip limit : Z) (t : items) : list Item :=
  page skip limit (order_by (fun i => [i_id i]) (t_where (fun i => i_owner_id i =? owner_id) t)).

Definition negative_price : exn := ValidationError "Price cannot be negative" (Some "price"%string).

Definition create_item_row (now : datetime) (f : ItemFields) (owner_id : Z) (t : items) : result Item :=
  if if_price f <? 0 then (Raise negative_price, t)
  else let mk id := MkItem id (if_title f) (if_description f) (if_price f) owner_id now in
       (Ok (mk (seq t)), t_add mk t).

Definition apply_changes (c : ItemChanges) (i : Item) : Item :=
  i &{ i_title := default (i_title i) (ic_title c) }
    &{ i_description := default (i_description i) (ic_description c) }
    &{ i_price_cents := default (i_price_cents i) (ic_price c) }.

Definition owned (item_id owner_id : Z) (t : items) : option Item :=
  match item_by_id item_id t with
  | Some i => if i_owner_id i =? owner_id then Some i else None
  | None => None
  end.

Definition update_item_row (item_id : Z) (c : ItemChanges) (owner_id : Z) (t : items) : result (option Item) :=
  match owned item_id owner_id t with
  | None => (Ok None, t)
  | Some i =>
      match ic_price c with
      | Some p => if p <? 0 then (Raise negative_price, t)
                  else (Ok (Some (apply_changes c i)), t_set item_id (apply_changes c i) t)
      | None => (Ok (Some (apply_changes c i)), t_set item_id (apply_changes c i) t)
      end
  end.

Definition delete_item_row (item_id owner_id : Z) (t : items) : result bool :=
  match owned item_id owner_id t with
  | None => (Ok false, t)
  | Some _ => (Ok true, t_delete [item_id] t)
  end.

(** ** The routes *)

Inductive item_reply : Type :=
| ItemReply (status : Z) (i : Item) | ItemsReply (l : list Item) | ItemGone | ItemUnprocessable.

Inductive item_request : Type :=
| CreateItem (b : body)
| GetItems (skip limit : option Z)
| GetItem (item_id : Z)
| UpdateItem (item_id : Z) (b : body)
| DeleteItem (item_id : Z).

Section Routes.
Context (is_text : str -> bool) (trim : str -> str) (as_decimal : json -> option Q).
Context (now : datetime) (user : Z).

Definition no_item (item_id : Z) : exn := NotFoundError "Item" (IdInt item_id).

Definition create_item (b : body) (t : items) : result item_reply :=
  match ItemCreate is_text trim as_decimal b with
  | None => (Ok ItemUnprocessable, t)
  | Some f => match create_item_row now f user t with
              | (Ok i, t') => (Ok (ItemReply 201 i), t')
              | (Raise e, t') => (Raise e, t')
              end
  end.

Definition get_items (skip limit : option Z) (t : items) : result item_reply :=
  match in_range 0 None (default 0 skip), in_range 1 (Some 100) (default 100 limit) with
  | Some skip, Some limit => (Ok (ItemsReply (items_by_owner user skip limit t)), t)
  | _, _ => (Ok ItemUnprocessable, t)
  end.

Definition get_item (item_id : Z) (t : items) : result item_reply :=
  if item_id <? 1 then (Ok ItemUnprocessable, t)
  else match owned item_id user t with
       | Some i => (Ok (ItemReply 200 i), t)
       | None => (Raise (no_item item_id), t)
       end.

Definition update_item (item_id : Z) (b : body) (t : items) : result item_reply :=
  if item_id <? 1 then (Ok ItemUnprocessable, t)
  else match ItemUpdate is_text trim as_decimal b with
       | None => (Ok ItemUnprocessable, t)
       | Some c => match update_item_row item_id c user t with
                   | (Ok (Some i), t') => (Ok (ItemReply 200 i), t')
                   | (Ok None, t') => (Raise (no_item item_id), t')
                   | (Raise e, t') => (Raise e, t')
                   end
       end.

Definition delete_item (item_id : Z) (t : items) : result item_reply :=
  if item_id <? 1 then (Ok ItemUnprocessable, t)
  else match delete_item_row item_id user t with
       | (Ok true, t') => (Ok ItemGone, t')
       | (Ok false, t') => (Raise (no_item item_id), t')
       | (Raise e, t') => (Raise e, t')
       end.

Definition serve_item (r : item_request) (t : items) : result item_reply :=
  match r with
  | CreateItem b => create_item b t
  | GetItems skip limit => get_items skip limit t
  | GetItem id => get_item id t
  | UpdateItem id b => update_item id b t
  | DeleteItem id => delete_item id t
  end.
End Routes.

(** ** What the rows satisfy *)

Definition short (s : option str) : Prop := from_option (fun s => len s <= 2000) True s.

Record item_ok (i : Item) : Prop := {
  io_title : 1 <= len (i_title i) <= 200;
  io_description : short (i_description i);
  io_price : 0 <= i_price_cents i < 10 ^ 12;
}.

Record items_ok (t : items) : Prop := {
  its_wf : t_wf t;
  its_keyed : t_keyed i_id t;
  its_rows : forall k i, t_get k t = Some i -> item_ok i;
}.

(** A price is accepted when it is a whole number of cents that the column
    holds. *)
Lemma validate_money_spec d c :
  validate_money d = Some c <-> (d == c # 100)%Q /\ Z.abs c < 10 ^ 12.
Proof.
  assert (forall c, (d == c # 100)%Q -> (d * 100 == inject_Z c)%Q) as Hd.
  { intros c0 ->. unfold Qeq. cbn. lia. }
  assert (forall c, (d == c # 100)%Q -> (inject_Z (10 ^ 10) <= Qabs d)%Q <-> 10 ^ 12 <= Z.abs c) as Ha.
  { intros c0 ->. unfold Qle, Qabs. cbn. lia. }
  unfold validate_money. split.
  - destruct (Qle_bool _ _) eqn:E1; [done |]. destruct (Qeq_bool _ _) eqn:E2; [| done]. intros [= <-].
    apply Qeq_bool_eq in E2.
    assert (d == Qfloor (d * 100) # 100)%Q as Hc.
    { apply (Qmult_inj_r _ _ 100); [done |]. rewrite E2 at 1. generalize (Qfloor (d * 100)). intros z. unfold Qeq. cbn. lia. }
    split; [done |]. apply qle_bool_false in E1. specialize (Ha _ Hc).
    destruct (Z.lt_ge_cases (Z.abs (Qfloor (d * 100))) (10 ^ 12)) as [|Hge]; [done |].
    apply Ha in Hge. by apply Qle_not_lt in Hge.
  - intros [Hc Hlt]. destruct (Qle_bool _ _) eqn:E1.
    { apply Qle_bool_iff, (Ha _ Hc) in E1. lia. }
    specialize (Hd _ Hc). assert (Qfloor (d * 100) = c) as Hf by (rewrite Hd; apply Qfloor_Z).
    rewrite Hf. by rewrite (Qeq_eq_bool _ _ Hd).
Qed.

Section Privacy.
Context (is_text : str -> bool) (trim : str -> str) (as_decimal : json -> option Q).
Implicit Types (t : items).

Lemma title_ok j s : Title is_text trim j = Some s -> 1 <= len s <= 200.
Proof. unfold Title. repeat case_match; intros [= <-]. lia. Qed.

Lemma description_ok j s : nullable (v_str is_text 0 (Some 2000)) j = Some s -> short s.
Proof. destruct j; cbn; try done; [by intros [= <-] |]. case_match eqn:E; cbn; intros [= <-]. cbn. lia. Qed.

Lemma price_ok j c : Price as_decimal j = Some c -> Z.abs c < 10 ^ 12.
Proof. unfold Price. destruct (as_decimal j); cbn; [| done]. by intros [_ ?]%validate_money_spec. Qed.

Lemma required_some {A} key (v : json -> option A) o a : required key v o = Some a -> exists j, v j = Some a.
Proof. unfold required. case_match; [eauto | done]. Qed.

Lemma defaulted_some {A} key d (v : json -> option A) o a :
  defaulted key d v o = Some a -> a = d \/ exists j, v j = Some a.
Proof. unfold defaulted. case_match; [eauto | intros [= <-]; auto]. Qed.

Lemma given_some {A} key (v : json -> option A) o a : given key v o = Some (Some a) -> exists j, v j = Some a.
Proof. unfold given. case_match; [| done]. destruct (v _) eqn:E; cbn; [| done]. intros [= <-]. eauto. Qed.

Lemma changed_some {A} key (v : json -> option A) o a : changed key v o = Some (Some a) -> exists j, v j = Some a.
Proof.
  unfold changed. intros Hc. apply bind_Some in Hc as ([[a'|]|] & Hg & Hc); try done. injection Hc as ->.
  apply given_some in Hg as (j & Hj). exists j. destruct j; cbn in Hj; try done;
    destruct (v _); cbn in Hj; congruence.
Qed.

Lemma item_create_ok b f : ItemCreate is_text trim as_decimal b = Some f ->
  1 <= len (if_title f) <= 200 /\ Z.abs (if_price f) < 10 ^ 12 /\ short (if_description f).
Proof.
  unfold ItemCreate. intros Hf. apply bind_Some in Hf as (o & _ & Hf).
  apply bind_Some in Hf as (title & (j & Ht)%required_some & Hf).
  apply bind_Some in Hf as (description & Hd & Hf).
  apply bind_Some in Hf as (price & (j' & Hp)%required_some & Hf). injection Hf as <-. cbn.
  split; [by eapply title_ok |]. split; [by eapply price_ok |].
  apply defaulted_some in Hd as [->|[j'' Hd]]; [done | by eapply description_ok].
Qed.

Lemma item_update_ok b c : ItemUpdate is_text trim as_decimal b = Some c ->
  (forall s, ic_title c = Some s -> 1 <= len s <= 200) /\
  (forall p, ic_price c = Some p -> Z.abs p < 10 ^ 12) /\
  (forall s, ic_description c = Some s -> short s).
Proof.
  unfold ItemUpdate. intros Hf. apply bind_Some in Hf as (o & _ & Hf).
  apply bind_Some in Hf as (title & Ht & Hf). apply bind_Some in Hf as (description & Hd & Hf).
  apply bind_Some in Hf as (price & Hp & Hf). destruct o; [done |]. injection Hf as <-. cbn.
  split; [intros s -> | split; [intros c -> | intros s ->]].
  - apply changed_some in Ht as [j Ht]. by eapply title_ok.
  - apply changed_some in Hp as [j Hp]. by eapply price_ok.
  - apply given_some in Hd as [j Hd]. by eapply description_ok.
Qed.

Lemma apply_changes_ok b c i :
  ItemUpdate is_text trim as_decimal b = Some c -> (forall p, ic_price c = Some p -> 0 <= p) ->
  item_ok i -> item_ok (apply_changes c i).
Proof.
  intros Hc Hp [H1 H2 H3]. apply item_update_ok in Hc as (Ht & Hm & Hd). unfold apply_changes.
  split; upd_simpl.
  - destruct (ic_title c) eqn:E; cbn; [by apply Ht | done].
  - destruct (ic_description c) eqn:E; cbn; [by apply Hd | done].
  - destruct (ic_price c) as [p|] eqn:E; cbn; [| done]. specialize (Hm p eq_refl). specialize (Hp p eq_refl). lia.
Qed.

(** What an account sees *)
Definition mine (user : Z) (t : items) : gmap Z Item := filter (fun ki => i_owner_id ki.2 = user) (rows t).

Definition shown (r : item_reply) : list Item :=
  match r with ItemReply _ i => [i] | ItemsReply l => l | ItemGone | ItemUnprocessable => [] end.

Lemma owned_mine id user t : owned id user t = mine user t !! id.
Proof.
  unfold owned, item_by_id, mine, t_get. destruct (rows t !! id) as [i|] eqn:E.
  - destruct (Z.eqb_spec (i_owner_id i) user); symmetry.
    + by apply map_lookup_filter_Some.
    + apply map_lookup_filter_None. right. intros i' Hi'. cbn. congruence.
  - symmetry. apply map_lookup_filter_None. by left.
Qed.

Lemma mine_ext user t t' :
  (forall k i, i_owner_id i = user -> t_get k t = Some i <-> t_get k t' = Some i) -> mine user t = mine user t'.
Proof.
  intros He. apply map_eq. intros k. apply option_eq. intros i. unfold mine.
  rewrite !map_lookup_filter_Some. cbn. unfold t_get in He.
  split; intros [Hi Ho]; (split; [by apply (He k i Ho) | done]).
Qed.

(** A page is the same whatever other rows there are. *)
Lemma items_by_owner_mine user skip limit t t2 :
  t_keyed i_id t -> t_keyed i_id t2 -> mine user t2 = mine user t ->
  items_by_owner user skip limit t2 = items_by_owner user skip limit t.
Proof.
  intros Hk Hk2 Hm. unfold items_by_owner. f_equal.
  assert (forall t0, t_keyed i_id t0 -> NoDup (t_where (fun i => i_owner_id i =? user) t0)) as Hnd.
  { intros t0 H0. apply (NoDup_fmap_1 i_id). by apply t_where_NoDup. }
  assert (forall t0 i, i ∈ t_where (fun i => i_owner_id i =? user) t0 <-> exists k, mine user t0 !! k = Some i) as Hin.
  { intros t0 i. rewrite t_where_spec, Z.eqb_eq. unfold mine. setoid_rewrite map_lookup_filter_Some. cbn. naive_solver. }
  apply (sorting.StronglySorted_unique_strong (key_le (fun i => [i_id i]))); [| apply order_by_sorted ..|].
  - intros i i'. rewrite !order_by_elem, !Hin, Hm. intros [k Hi] [k' Hi']. unfold key_le. cbn.
    unfold mine in Hi, Hi'. apply map_lookup_filter_Some in Hi as [Hi _]. apply map_lookup_filter_Some in Hi' as [Hi' _].
    pose proof (Hk _ _ Hi) as E. pose proof (Hk _ _ Hi') as E'. intros H1%Is_true_eq_true H2%Is_true_eq_true.
    assert (k = k') as <- by lia. congruence.
  - rewrite !order_by_perm. apply NoDup_Permutation; [by apply Hnd .. |]. intros i. by rewrite !Hin, Hm.
Qed.

(** What a request may do to the table *)
Inductive effect : Type := Keep | Add (mk : Z -> Item) | Put (id : Z) (i : Item) | Drop (id : Z).

Definition apply_effect (e : effect) (t : items) : items :=
  match e with
  | Keep => t
  | Add mk => t_add mk t
  | Put id i => t_set id i t
  | Drop id => t_delete [id] t
  end.

Definition effect_ok (user : Z) (e : effect) (t : items) : Prop :=
  match e with
  | Keep => True
  | Add mk => forall id, i_id (mk id) = id /\ i_owner_id (mk id) = user /\ item_ok (mk id)
  | Put id i => is_Some (mine user t !! id) /\ i_id i = id /\ i_owner_id i = user /\ item_ok i
  | Drop id => is_Some (mine user t !! id)
  end.

Lemma mine_get user t id i : mine user t !! id = Some i <-> t_get id t = Some i /\ i_owner_id i = user.
Proof. unfold mine. by rewrite map_lookup_filter_Some. Qed.

Lemma effect_keeps_ok user e t : items_ok t -> effect_ok user e t -> items_ok (apply_effect e t).
Proof.
  intros [Hw Hk Hr] He. destruct e as [|mk|id i|id]; cbn in *; [done | ..].
  - split; [by apply t_wf_add | |].
    + intros k a. cbn. rewrite lookup_insert. case_decide as E; [intros [= <-]; subst; apply He | apply Hk].
    + intros k a. unfold t_get, t_add. cbn. rewrite lookup_insert.
      case_decide; [intros [= <-]; apply He | apply Hr].
  - destruct He as ((i0 & [H0 _]%mine_get) & Hid & Ho & Hi). split.
    + apply t_wf_set; [done | by rewrite H0].
    + intros k a. cbn. rewrite lookup_insert. case_decide; [intros [= <-]; by subst | apply Hk].
    + intros k a. rewrite t_get_set. case_decide; [by intros [= <-] | apply Hr].
  - split; [by apply t_wf_delete | |].
    + intros k a. cbn. rewrite lookup_delete. case_decide; [done | apply Hk].
    + intros k a. rewrite t_get_delete. case_decide; [done | apply Hr].
Qed.

Lemma effect_on_others user e t k i :
  items_ok t -> effect_ok user e t -> i_owner_id i <> user ->
  t_get k (apply_effect e t) = Some i <-> t_get k t = Some i.
Proof.
  intros [Hw _ _] He Ho. destruct e as [|mk|id i'|id]; cbn in *; [done | ..].
  - split; [| by apply t_get_add_old]. unfold t_get, t_add. cbn. rewrite lookup_insert.
    case_decide; [| done]. intros [= <-]. by destruct (He (seq t)) as (_ & ? & _).
  - destruct He as ((i0 & [H0 Ho']%mine_get) & _ & Hi & _). rewrite t_get_set.
    case_decide; [| done]. subst. split; intros; simplify_eq.
  - destruct He as [i0 [H0 Ho']%mine_get]. rewrite t_get_delete. case_decide as E; [| done].
    apply list_elem_of_singleton in E as ->. split; intros; simplify_eq.
Qed.

Lemma effect_on_mine user e t :
  items_ok t -> effect_ok user e t ->
  mine user (apply_effect e t) = match e with
    | Keep => mine user t
    | Add mk => <[seq t := mk (seq t)]> (mine user t)
    | Put id i => <[id := i]> (mine user t)
    | Drop id => delete id (mine user t)
    end.
Proof.
  intros [Hw _ _] He. unfold mine. destruct e as [|mk|id i|id]; cbn in *; [done | ..].
  - destruct (He (seq t)) as (_ & Ho & _). by rewrite map_filter_insert, decide_True.
  - destruct He as (_ & _ & Ho & _). by rewrite map_filter_insert, decide_True.
  - by rewrite map_filter_delete.
Qed.

Context (now : datetime) (user : Z).

(** The same answer and the same effect on every table that looks the same to
    the account. *)
Definition answers (r : item_request) (t : items) (res : res exn item_reply) (e : effect) : Prop :=
  effect_ok user e t /\ (is_ok res = false -> e = Keep) /\
  (forall reply, res = Ok reply -> Forall (fun i => i_owner_id i = user) (shown reply)) /\
  forall t2, items_ok t2 -> seq t2 = seq t -> mine user t2 = mine user t ->
    serve_item is_text trim as_decimal now user r t2 = (res, apply_effect e t2).

Ltac answers_keep :=
  split; [done |]; split; [done |]; split; [intros reply [= <-]; cbn; auto |].

Lemma create_answers b t : exists res e, answers (CreateItem b) t res e.
Proof.
  destruct (ItemCreate is_text trim as_decimal b) as [f|] eqn:Ef.
  - destruct (Z.ltb_spec (if_price f) 0) as [Hp|Hp].
    + exists (Raise negative_price), Keep. answers_keep. intros t2 _ _ _. cbn. unfold create_item. rewrite Ef.
      unfold create_item_row. by destruct (Z.ltb_spec (if_price f) 0); [| lia].
    + set (mk id := MkItem id (if_title f) (if_description f) (if_price f) user now).
      exists (Ok (ItemReply 201 (mk (seq t)))), (Add mk). split.
      { intros id. split; [done |]. split; [done |]. apply item_create_ok in Ef as (? & ? & ?).
        split; cbn; [done | done | lia]. }
      split; [done |]. split; [intros reply [= <-]; cbn; by repeat constructor |].
      intros t2 _ Hs _. cbn. unfold create_item. rewrite Ef.
      unfold create_item_row. destruct (Z.ltb_spec (if_price f) 0); [lia |]. by rewrite Hs.
  - exists (Ok ItemUnprocessable), Keep. answers_keep. intros t2 _ _ _. cbn. unfold create_item. by rewrite Ef.
Qed.

Lemma list_answers skip limit t : items_ok t -> exists res e, answers (GetItems skip limit) t res e.
Proof.
  intros Hok.
  destruct (in_range 0 None (default 0 skip)) as [sk|] eqn:Es, (in_range 1 (Some 100) (default 100 limit)) as [li|] eqn:El.
  2-4: exists (Ok ItemUnprocessable), Keep; answers_keep; intros t2 _ _ _; cbn; unfold get_items; by rewrite Es, ?El.
  exists (Ok (ItemsReply (items_by_owner user sk li t))), Keep. split; [done |]. split; [done |]. split.
  - intros reply [= <-]. cbn. apply list.Forall_forall. intros i Hi. unfold items_by_owner, page in Hi.
    apply elem_of_take in Hi as (n & Hi & _). rewrite lookup_drop in Hi. apply list_elem_of_lookup_2 in Hi.
    rewrite order_by_elem in Hi. apply t_where_spec in Hi as [Hi _]. by apply Z.eqb_eq.
  - intros t2 Hok2 _ Hm. cbn. unfold get_items. rewrite Es, El. do 3 f_equal.
    apply items_by_owner_mine; [apply Hok | apply Hok2 | done].
Qed.

Lemma get_answers id t : exists res e, answers (GetItem id) t res e.
Proof.
  destruct (Z.ltb_spec id 1) as [Hid|Hid].
  { exists (Ok ItemUnprocessable), Keep. answers_keep. intros t2 _ _ _. cbn. unfold get_item.
    by destruct (Z.ltb_spec id 1); [| lia]. }
  destruct (mine user t !! id) as [i|] eqn:Ei.
  - exists (Ok (ItemReply 200 i)), Keep. split; [done |]. split; [done |]. split.
    + intros reply [= <-]. cbn. repeat constructor. by apply mine_get in Ei as [_ ?].
    + intros t2 _ _ Hm. cbn. unfold get_item. destruct (Z.ltb_spec id 1); [lia |]. by rewrite owned_mine, Hm, Ei.
  - exists (Raise (no_item id)), Keep. split; [done |]. split; [done |]. split; [done |].
    intros t2 _ _ Hm. cbn. unfold get_item. destruct (Z.ltb_spec id 1); [lia |]. by rewrite owned_mine, Hm, Ei.
Qed.

Lemma delete_answers id t : exists res e, answers (DeleteItem id) t res e.
Proof.
  destruct (Z.ltb_spec id 1) as [Hid|Hid].
  { exists (Ok ItemUnprocessable), Keep. answers_keep. intros t2 _ _ _. cbn. unfold delete_item.
    by destruct (Z.ltb_spec id 1); [| lia]. }
  destruct (mine user t !! id) as [i|] eqn:Ei.
  - exists (Ok ItemGone), (Drop id). split; [by eexists |]. split; [done |]. split.
    + intros reply [= <-]. constructor.
    + intros t2 _ _ Hm. cbn. unfold delete_item, delete_item_row. destruct (Z.ltb_spec id 1); [lia |].
      by rewrite owned_mine, Hm, Ei.
  - exists (Raise (no_item id)), Keep. split; [done |]. split; [done |]. split; [done |].
    intros t2 _ _ Hm. cbn. unfold delete_item, delete_item_row. destruct (Z.ltb_spec id 1); [lia |].
    by rewrite owned_mine, Hm, Ei.
Qed.

Lemma update_answers id b t : items_ok t -> exists res e, answers (UpdateItem id b) t res e.
Proof.
  intros Hok. destruct (Z.ltb_spec id 1) as [Hid|Hid].
  { exists (Ok ItemUnprocessable), Keep. answers_keep. intros t2 _ _ _. cbn. unfold update_item.
    by destruct (Z.ltb_spec id 1); [| lia]. }
  destruct (ItemUpdate is_text trim as_decimal b) as [c|] eqn:Ec.
  2: { exists (Ok ItemUnprocessable), Keep. answers_keep. intros t2 _ _ _. cbn. unfold update_item.
    destruct (Z.ltb_spec id 1); [lia |]. by rewrite Ec. }
  destruct (mine user t !! id) as [i|] eqn:Ei.
  2: { exists (Raise (no_item id)), Keep. split; [done |]. split; [done |]. split; [done |].
    intros t2 _ _ Hm. cbn. unfold update_item, update_item_row. destruct (Z.ltb_spec id 1); [lia |].
    by rewrite Ec, owned_mine, Hm, Ei. }
  destruct (match ic_price c with Some p => p <? 0 | None => false end) eqn:Hp.
  - exists (Raise negative_price), Keep. split; [done |]. split; [done |]. split; [done |].
    intros t2 _ _ Hm. cbn. unfold update_item, update_item_row. destruct (Z.ltb_spec id 1); [lia |].
    rewrite Ec, owned_mine, Hm, Ei. destruct (ic_price c) as [p|]; [by rewrite Hp | done].
  - pose proof Ei as [Hi Ho]%mine_get. exists (Ok (ItemReply 200 (apply_changes c i))), (Put id (apply_changes c i)).
    split.
    { split; [by eexists |]. split; [exact (its_keyed _ Hok _ _ Hi) |]. split; [done |].
      eapply apply_changes_ok; [exact Ec | | by eapply its_rows].
      intros p Ep. rewrite Ep in Hp. lia. }
    split; [done |]. split; [intros reply [= <-]; cbn; by repeat constructor |].
    intros t2 _ _ Hm. cbn. unfold update_item, update_item_row. destruct (Z.ltb_spec id 1); [lia |].
    rewrite Ec, owned_mine, Hm, Ei. destruct (ic_price c) as [p|]; [by rewrite Hp | done].
Qed.

Lemma serve_answers r t : items_ok t -> exists res e, answers r t res e.
Proof.
  intros Hok. destruct r; [apply create_answers | by apply list_answers | apply get_answers
    | by apply update_answers | apply delete_answers].
Qed.
End Privacy.

(** Items are private.  A request of an account on a table whose rows
    carry their keys, bounded texts and prices the column holds keeps it that
    way, leaves the rows of every other account alone, shows only rows of the
    account, and changes nothing when it raises.  What it answers and what it
    does to the account's rows depends on those rows and the next key alone, so
    that nobody can tell somebody else's item from one that does not exist. *)
Theorem items_are_private is_text trim as_decimal now user r t res t' :
  items_ok t -> serve_item is_text trim as_decimal now user r t = (res, t') ->
  items_ok t' /\
  (forall k i, i_owner_id i <> user -> t_get k t' = Some i <-> t_get k t = Some i) /\
  (forall reply, res = Ok reply -> Forall (fun i => i_owner_id i = user) (shown reply)) /\
  (is_ok res = false -> t' = t) /\
  forall t2, items_ok t2 -> seq t2 = seq t -> mine user t2 = mine user t -> exists t2',
    serve_item is_text trim as_decimal now user r t2 = (res, t2') /\ mine user t2' = mine user t'.
Proof.
  intros Hok Hs. destruct (serve_answers is_text trim as_decimal now user r t Hok) as (res' & e & He & Hr & Ho & Ha).
  rewrite (Ha t Hok eq_refl eq_refl) in Hs. injection Hs as <- <-.
  split; [by eapply effect_keeps_ok |]. split; [intros; by eapply effect_on_others |]. split; [done |].
  split; [intros Hn; by rewrite (Hr Hn) |].
  intros t2 Hok2 Hseq Hm. exists (apply_effect e t2). split; [by apply Ha |].
  assert (effect_ok user e t2) as He2 by (destruct e; cbn in *; by rewrite ?Hm).
  rewrite !effect_on_mine by done. by rewrite Hm, Hseq.
Qed.

Module ItemDemo.
Definition row (id owner : Z) : Item := MkItem id (py "Lamp") None 1999 owner 0.
Definition t : items := Table (<[1 := row 1 7]> (<[2 := row 2 8]> ∅)) 3.

Lemma t_ok : items_ok t.
Proof.
  assert (map_Forall (fun k i => k < 3 /\ i_id i = k /\ i_title i = py "Lamp" /\ i_description i = None
    /\ i_price_cents i = 1999) (rows t)) as Hall by (refine (bool_decide_unpack _ _); vm_compute; exact I).
  split.
  - intros k [i Hi]. apply (Hall k i Hi).
  - intros k i Hi. apply (Hall k i Hi).
  - intros k i Hi. destruct (Hall k i Hi) as (_ & _ & Ht & Hd & Hp).
    split; rewrite ?Ht, ?Hd, ?Hp; [vm_compute | exact I | ]; done.
Qed.
End ItemDemo.

(** Deleting somebody else's item *)
Lemma items_are_private_witness :
  exists t2', serve_item (fun _ => true) id (fun _ => None) 0 7 (DeleteItem 2)
      (Table (<[1 := ItemDemo.row 1 7]> ∅) 3) = (Raise (NotFoundError "Item" (IdInt 2)), t2')
    /\ t_get 2 (serve_item (fun _ => true) id (fun _ => None) 0 7 (DeleteItem 2) ItemDemo.t).2
       = Some (ItemDemo.row 2 8).
Proof.
  destruct (items_are_private (fun _ => true) id (fun _ => None) 0 7 (DeleteItem 2) ItemDemo.t
    (Raise (NotFoundError "Item" (IdInt 2))) ItemDemo.t ItemDemo.t_ok ltac:(vm_compute; reflexivity))
    as (_ & Ho & _ & _ & Hi).
  destruct (Hi (Table (<[1 := ItemDemo.row 1 7]> ∅) 3)) as (t2' & Hs & _).
  - split; [intros k [i Hi'] | intros k i Hi' | intros k i Hi']; unfold t_get in Hi'; cbn in Hi';
      apply lookup_insert_Some in Hi' as [[<- <-]|[_ Hi']]; try (by rewrite lookup_empty in Hi').
    + vm_compute. reflexivity.
    + reflexivity.
    + split; vm_compute; done.
  - reflexivity.
  - vm_compute. reflexivity.
  - exists t2'. split; [exact Hs |]. apply (Ho 2 (ItemDemo.row 2 8)); [discriminate | reflexivity].
Defined.
