(* ===== verification/Release.v ===== *)
(** * The release gate

    [src/scripts/release_registry.py]: the commands that compare a package
    index with the distributions that were built, and that fetch published
    distributions back for promotion.  The index, the network, the file system
    and the clock are what the commands are given. *)

From stdpp Require Import base tactics list gmap strings numbers option.
From S2P Require Import Prelude Crypto Json Text Settings Receiver.
Local Open Scope Z_scope.

(** ** Names and limits *)

Definition DISTRIBUTION_STEM : str := py "fastapi_microservices_platform_sdk".
Definition MAX_ARTIFACT_BYTES : Z := 10 * 1024 * 1024.
Definition ATTESTATION_SUFFIX : str := py ".publish.attestation".

Record Registry : Type := MkRegistry { api_base : str; artifact_host : str }.

Definition REGISTRIES (repository : str) : option Registry :=
  if str_eqb repository (py "testpypi")
  then Some (MkRegistry (py "https://test.pypi.org/pypi") (py "test-files.pythonhosted.org"))
  else if str_eqb repository (py "pypi")
  then Some (MkRegistry (py "https://pypi.org/pypi") (py "files.pythonhosted.org"))
  else None.

(** [ReleaseVerificationError], an [OSError], and the exceptions [main] does
    not turn into an exit status *)
Inductive release_exn : Type :=
| ReleaseVerificationError (what : string) | OsError | PlainValueError | PlainTypeError.

Abbreviation dict A := (list (str * A)).

Definition get {A} (key : str) (d : dict A) : option A := snd <$> List.find (fun kv => str_eqb kv.1 key) d.

Definition keys {A} (d : dict A) : list str := map fst d.
Definition subset (a b : list str) : bool := forallb (fun x => bool_decide (x ∈ b)) a.
Definition same_set (a b : list str) : bool := subset a b && subset b a.

Definition refuse {A} (what : string) : res release_exn A := Raise (ReleaseVerificationError what).

Definition require (b : bool) (what : string) : res release_exn unit := if b then Ok () else refuse what.

(** A loop that stops at the first exception *)
Fixpoint each {A B} (f : A -> res release_exn B) (l : list A) : res release_exn (list B) :=
  match l with
  | [] => Ok []
  | a :: l => b ← f a; bs ← each f l; Ok (b :: bs)
  end.

Definition digits (s : str) : bool := nonempty s && forallb ascii_digit s.

Definition expected_names (version : str) : res release_exn (list str) :=
  match split_on 46 version with
  | [a; b; c] =>
      if digits a && digits b && digits c
      then let stem := DISTRIBUTION_STEM ++ py "-" ++ version in
           Ok [stem ++ py ".tar.gz"; stem ++ py "-py3-none-any.whl"]
      else refuse "version must be MAJOR.MINOR.PATCH"
  | _ => refuse "version must be MAJOR.MINOR.PATCH"
  end.

Definition digest (content : pybytes) : str := hexdigest (sha256 content).

(** ** The manifest *)

(** [str.splitlines] *)
Definition line_break (c : Z) : bool :=
  bool_decide (c ∈ [10; 11; 12; 13; 28; 29; 30; 133; 8232; 8233]).

Fixpoint splitlines_from (line : str) (s : str) : list str :=
  match s with
  | [] => match line with [] => [] | _ => [reverse line] end
  | 13 :: ((10 :: s') as rest) => reverse line :: splitlines_from [] s'
  | c :: s' => if line_break c then reverse line :: splitlines_from [] s'
               else splitlines_from (c :: line) s'
  end.
Definition splitlines (s : str) : list str := splitlines_from [] s.

(** [_SHA256] *)
Definition sha256_text (s : str) : bool :=
  (len s =? 64) && forallb (fun c => ascii_digit c || ((97 <=? c) && (c <=? 102))) s.

(** [Path(filename).name == filename], for a name without blanks *)
Definition plain_name (s : str) : bool :=
  negb (existsb (fun c => c =? 47) s) && negb (str_eqb s (py ".")) && nonempty s.

Fixpoint manifest_rows (lines : list str) (rows : dict str) : res release_exn (dict str) :=
  match lines with
  | [] => Ok rows
  | line :: lines =>
      match words line with
      | [hash; filename] =>
          if negb (sha256_text hash) || negb (plain_name filename)
          then refuse "SHA256SUMS has an invalid row"
          else if bool_decide (filename ∈ keys rows) then refuse "SHA256SUMS repeats a filename"
          else manifest_rows lines (rows ++ [(filename, hash)])
      | _ => refuse "SHA256SUMS has an invalid row"
      end
  end.

Definition load_manifest (text version : str) : res release_exn (dict str) :=
  expected ← expected_names version;
  rows ← manifest_rows (splitlines text) [];
  _ ← require (same_set (keys rows) expected) "SHA256SUMS filenames are unexpected";
  Ok rows.

(** ** The distributions on disk *)

(** An entry of the directory: its name and, for a file, its content *)
Definition load_local (dist_dir : dict (option pybytes)) (version : str) :
    res release_exn (dict str * dict Z) :=
  expected ← expected_names version;
  let paths := omap (fun e => match e.2 with
                              | Some content => if endswith e.1 ATTESTATION_SUFFIX then None else Some (e.1, content)
                              | None => None
                              end) dist_dir in
  _ ← require (same_set (keys paths) expected) "local distribution filenames are unexpected";
  rows ← each (fun p : str * pybytes =>
    _ ← require (len p.2 <=? MAX_ARTIFACT_BYTES) "local artifact is too large";
    Ok ((p.1, digest p.2), (p.1, len p.2))) paths;
  Ok (map fst rows, map snd rows).

(** ** The index *)

(** What reading the release document comes to *)
Inductive fetched : Type := HttpStatus (code : Z) | Unreadable | Document (j : json).

Definition fetch_release (f : fetched) : res release_exn (option (list json)) :=
  match f with
  | HttpStatus code => if code =? 404 then Ok None else refuse "registry API returned HTTP"
  | Unreadable => refuse "registry API could not be read"
  | Document (JObj o) =>
      match member (py "urls") o with
      | Some (JList urls) => Ok (Some urls)
      | _ => refuse "registry API response is invalid"
      end
  | Document _ => refuse "registry API response is invalid"
  end.

Abbreviation metadata := (list (str * json)).

Fixpoint collect_files (urls : list json) (files : dict metadata) : res release_exn (dict metadata) :=
  match urls with
  | [] => Ok files
  | JObj item :: urls =>
      match member (py "filename") item with
      | Some (JStr filename) =>
          if bool_decide (filename ∈ keys files) then refuse "registry repeats an artifact filename"
          else collect_files urls (files ++ [(filename, item)])
      | _ => refuse "registry artifact metadata is invalid"
      end
  | _ => refuse "registry artifact metadata is invalid"
  end.

Definition remote_files (release : option (list json)) : res release_exn (dict metadata) :=
  match release with None => Ok [] | Some urls => collect_files urls [] end.

(** [urlparse] and [.port]: either may raise [ValueError]. *)
Inductive parsed : Type := BadUrl | BadPort | Url (u : SplitResult).

Section Verification.
Context (urlparse : str -> parsed).

(** [_validate_url] *)
Definition validate_url (url : option json) (registry : Registry) : res release_exn str :=
  match url with
  | Some (JStr url) =>
      match urlparse url with
      | BadUrl => Raise PlainValueError
      | BadPort => refuse "artifact URL has an invalid port"
      | Url u =>
          if str_eqb (scheme u) (py "https")
             && bool_decide (hostname u = Some (artifact_host registry))
             && bool_decide (port u ∈ [None; Some 443])
             && bool_decide (username u = None) && bool_decide (password u = None)
          then Ok url
          else refuse "artifact URL is not approved"
      end
  | _ => refuse "artifact URL is invalid"
  end.

(** [hmac.compare_digest] on texts *)
Definition compare_digest (a b : str) : res release_exn bool :=
  if isascii a && isascii b then Ok (str_eqb a b) else Raise PlainTypeError.

(** The checks of one file; [None] for the sizes is a manifest without them,
    and a name without a hash does not get here. *)
Definition verify_file (registry : Registry) (expected_hashes : dict str) (expected_sizes : option (dict Z))
    (file : str * metadata) : res release_exn unit :=
  let (filename, item) := file in
  _ ← require (match member (py "yanked") item with Some (JBool false) => true | _ => false end)
        "registry artifact is yanked";
  size ← match member (py "size") item with
         | Some (JInt size) => if size <? 0 then refuse "registry size is invalid" else Ok size
         | _ => refuse "registry size is invalid"
         end;
  _ ← require (size <=? MAX_ARTIFACT_BYTES) "registry artifact is too large";
  _ ← match expected_sizes with
      | Some sizes => require (bool_decide (get filename sizes = Some size)) "registry size mismatch"
      | None => Ok ()
      end;
  hash ← match member (py "digests") item with
         | Some (JObj digests) =>
             match member (py "sha256") digests with
             | Some (JStr hash) => Ok hash
             | _ => refuse "registry hash mismatch"
             end
         | _ => refuse "registry hash mismatch"
         end;
  same ← compare_digest hash (default [] (get filename expected_hashes));
  _ ← require same "registry hash mismatch";
  _ ← validate_url (member (py "url") item) registry;
  Ok ().

Definition verify_remote (registry : Registry) (remote : dict metadata) (expected_hashes : dict str)
    (expected_sizes : option (dict Z)) (require_complete : bool) : res release_exn bool :=
  _ ← require (subset (keys remote) (keys expected_hashes)) "registry contains an unexpected artifact";
  _ ← each (verify_file registry expected_hashes expected_sizes) remote;
  let complete := same_set (keys remote) (keys expected_hashes) in
  _ ← require (negb require_complete || complete) "registry release is incomplete";
  Ok complete.

(** ** Commands *)

(** [preflight]: whether the release is complete; the message counts the files. *)
Definition preflight (registry : Registry) (version : str) (dist_dir : dict (option pybytes)) (f : fetched) :
    res release_exn (bool * Z) :=
  local ← load_local dist_dir version;
  release ← fetch_release f;
  remote ← remote_files release;
  complete ← verify_remote registry remote local.1 (Some local.2) false;
  Ok (complete, len remote).

(** The loop of [wait_until_complete]: what each poll finds, and the clock after
    it.  [None] is a loop that has not ended with the polls given. *)
Fixpoint poll (registry : Registry) (local : dict str * dict Z) (deadline : Z) (polls : list (fetched * Z)) :
    option (res release_exn unit) :=
  match polls with
  | [] => None
  | (f, clock) :: polls =>
      match (release ← fetch_release f; remote ← remote_files release;
             verify_remote registry remote local.1 (Some local.2) false) with
      | Raise e => Some (Raise e)
      | Ok true => Some (Ok ())
      | Ok false => if deadline <=? clock then Some (refuse "registry release remained incomplete")
                    else poll registry local deadline polls
      end
  end.

Definition wait_until_complete (registry : Registry) (version : str) (dist_dir : dict (option pybytes))
    (timeout_seconds started : Z) (polls : list (fetched * Z)) : option (res release_exn unit) :=
  match load_local dist_dir version with
  | Raise e => Some (Raise e)
  | Ok local => poll registry local (started + timeout_seconds) polls
  end.

Context (fromisoformat : str -> option (option datetime)) (urlopen : str -> option (str * pybytes)).

(** [timestamp.replace("Z", "+00:00")] *)
Definition with_offset (timestamp : str) : str := timestamp ≫= fun c => if c =? 90 then py "+00:00" else [c].

(** [response.read(n)] *)
Definition read (n : Z) (body : pybytes) : pybytes := if len body <=? n then body else take (Z.to_nat n) body.

(** One turn of the loop of [download]; [fromisoformat] yields no time zone as
    [Some None]. *)
Definition fetch_file (registry : Registry) (hashes : dict str) (file : str * metadata) :
    res release_exn (datetime * (str * pybytes)) :=
  let (filename, item) := file in
  timestamp ← match member (py "upload_time_iso_8601") item with
              | Some (JStr t) => Ok t
              | _ => refuse "upload timestamp is invalid"
              end;
  at_ ← match fromisoformat (with_offset timestamp) with
        | None => refuse "upload timestamp is invalid"
        | Some None => refuse "upload timestamp has no timezone"
        | Some (Some t) => Ok t
        end;
  url ← validate_url (member (py "url") item) registry;
  response ← match urlopen url with Some r => Ok r | None => refuse "artifact download failed" end;
  _ ← validate_url (Some (JStr response.1)) registry;
  let content := read (MAX_ARTIFACT_BYTES + 1) response.2 in
  _ ← require (len content <=? MAX_ARTIFACT_BYTES) "downloaded artifact is too large";
  _ ← require (match member (py "size") item with Some (JInt n) => n =? len content | _ => false end) "downloaded size mismatch";
  same ← compare_digest (digest content) (default [] (get filename hashes));
  _ ← require same "downloaded hash mismatch";
  Ok (at_, (filename, content)).

(** [download]: what is written to the new directory *)
Definition download (registry : Registry) (version manifest : str) (f : fetched) (now : datetime)
    (minimum_age_hours : Z) (dist_dir_exists : bool) : res release_exn (dict pybytes) :=
  hashes ← load_manifest manifest version;
  release ← fetch_release f;
  remote ← remote_files release;
  _ ← verify_remote registry remote hashes None true;
  got ← each (fetch_file registry hashes) remote;
  newest ← match map fst got with [] => Raise PlainValueError | t :: ts => Ok (foldr Z.max t ts) end;
  let age := now - newest in
  _ ← require (hours minimum_age_hours <=? age) "registry cooling-off";
  if dist_dir_exists then Raise OsError else Ok (map snd got).

(** The exit status of [main], [None] for a traceback; [choices] keeps other
    repositories out. *)
Definition exit_status {A} (r : res release_exn A) : option Z :=
  match r with
  | Ok _ => Some 0
  | Raise (ReleaseVerificationError _) | Raise OsError => Some 2
  | Raise _ => None
  end.

Definition main_wait (registry : Registry) (version : str) (dist_dir : dict (option pybytes))
    (timeout_seconds started : Z) (polls : list (fetched * Z)) : option (res release_exn unit) :=
  if (timeout_seconds <? 1) || (600 <? timeout_seconds)
  then Some (refuse "timeout must be between 1 and 600 seconds")
  else wait_until_complete registry version dist_dir timeout_seconds started polls.

Definition main_download (registry : Registry) (version manifest : str) (f : fetched) (now : datetime)
    (minimum_age_hours : Z) (dist_dir_exists : bool) : res release_exn (dict pybytes) :=
  if (minimum_age_hours <? 0) || (168 <? minimum_age_hours)
  then refuse "minimum age must be between 0 and 168 hours"
  else download registry version manifest f now minimum_age_hours dist_dir_exists.
End Verification.

(** ** What the commands guarantee *)

Lemma require_ok b what u : require b what = Ok u -> b = true.
Proof. by destruct b. Qed.

Ltac res_step Hr :=
  let a := fresh "a" in let Ha := fresh "Ha" in apply res_bind_ok in Hr as (a & Ha & Hr).

Lemma each_ok {A B} (f : A -> res release_exn B) l bs :
  each f l = Ok bs -> Forall2 (fun a b => f a = Ok b) l bs.
Proof.
  revert bs. induction l as [| a l IH]; intros bs Hr; cbn in Hr; [injection Hr as <-; constructor |].
  res_step Hr. res_step Hr. injection Hr as <-. constructor; auto.
Qed.

Lemma subset_spec a b : subset a b = true <-> forall x, x ∈ a -> x ∈ b.
Proof.
  unfold subset. rewrite forallb_forall. split; intros Hs x Hx.
  - apply list_elem_of_In in Hx. specialize (Hs x Hx). by apply bool_decide_eq_true in Hs.
  - apply bool_decide_eq_true, Hs. by apply list_elem_of_In.
Qed.

Lemma same_set_spec a b : same_set a b = true <-> forall x, x ∈ a <-> x ∈ b.
Proof. unfold same_set. rewrite andb_true_iff, !subset_spec. naive_solver. Qed.

Lemma collect_files_nodup urls : forall files remote,
  NoDup (keys files) -> collect_files urls files = Ok remote -> NoDup (keys remote).
Proof.
  induction urls as [| j urls IH]; intros files remote Hn Hr; cbn in Hr; [by injection Hr as <- |].
  destruct j as [| | | | | |item]; try done. destruct (member _ item) as [[| | | |filename| |]|]; try done.
  case_bool_decide as Hin; [done |]. eapply IH; [| exact Hr].
  unfold keys. rewrite map_app. apply list.NoDup_app. split; [done |]. split; [| apply list.NoDup_singleton].
  intros x Hx Hx'%list_elem_of_singleton. by subst.
Qed.

Lemma remote_files_nodup release remote : remote_files release = Ok remote -> NoDup (keys remote).
Proof.
  destruct release; cbn; [apply collect_files_nodup; constructor | intros [= <-]; constructor].
Qed.

Section Guarantees.
Context (urlparse : str -> parsed) (fromisoformat : str -> option (option datetime))
  (urlopen : str -> option (str * pybytes)).

(** An address files may come from *)
Definition approved (registry : Registry) (url : str) : Prop :=
  exists u, urlparse url = Url u /\ scheme u = py "https" /\ hostname u = Some (artifact_host registry)
    /\ port u ∈ [None; Some 443] /\ username u = None /\ password u = None.

Lemma validate_url_ok registry j url :
  validate_url urlparse j registry = Ok url -> j = Some (JStr url) /\ approved registry url.
Proof.
  unfold validate_url. destruct j as [[| | | |s| |]|]; try done.
  destruct (urlparse s) as [| |u] eqn:E; try done.
  destruct (_ && _) eqn:Ec; [| done]. intros [= ->]. split; [done |].
  repeat (apply andb_prop in Ec as [Ec ?]). rewrite !bool_decide_eq_true in *.
  apply str_eqb_eq in Ec. by exists u.
Qed.

Lemma compare_digest_ok a b : compare_digest a b = Ok true -> a = b.
Proof. unfold compare_digest. case_match; [| done]. intros [= E]. by apply str_eqb_eq. Qed.

(** What one turn of the download vouches for *)
Definition genuine (registry : Registry) (hashes : dict str) (at_ : datetime) (name : str) (content : pybytes) : Prop :=
  digest content = default [] (get name hashes) /\ len content <= MAX_ARTIFACT_BYTES /\
  (exists timestamp, fromisoformat (with_offset timestamp) = Some (Some at_)) /\
  exists url final, approved registry url /\ approved registry final /\ urlopen url = Some (final, content).

Lemma fetch_file_ok registry hashes name item at_ name' content :
  fetch_file urlparse fromisoformat urlopen registry hashes (name, item) = Ok (at_, (name', content)) ->
  name' = name /\ genuine registry hashes at_ name content.
Proof.
  unfold fetch_file. intros Hr.
  apply res_bind_ok in Hr as (timestamp & _ & Hr). apply res_bind_ok in Hr as (t & Ht & Hr).
  apply res_bind_ok in Hr as (url & [_ Hu]%validate_url_ok & Hr).
  apply res_bind_ok in Hr as ([final body] & Ho & Hr). cbn [fst snd] in Hr.
  apply res_bind_ok in Hr as (u & [[= <-] Hf]%validate_url_ok & Hr).
  apply res_bind_ok in Hr as (? & Hl%require_ok & Hr). apply res_bind_ok in Hr as (? & _ & Hr).
  apply res_bind_ok in Hr as (same & Hd & Hr). apply res_bind_ok in Hr as (? & ->%require_ok & Hr).
  injection Hr as <- <- <-. apply compare_digest_ok in Hd. apply Z.leb_le in Hl.
  assert (read (MAX_ARTIFACT_BYTES + 1) body = body) as Hb.
  { unfold read in *. destruct (Z.leb_spec (len body) (MAX_ARTIFACT_BYTES + 1)) as [|Hlong]; [done |].
    unfold len in *. rewrite length_take in Hl. unfold MAX_ARTIFACT_BYTES in *. lia. }
  rewrite Hb in *. split; [done |]. split; [done |]. split; [done |]. split.
  - exists timestamp. destruct (fromisoformat _) as [[t'|]|]; try done. by injection Ht as ->.
  - exists url, final. split; [done |]. split; [done |]. destruct (urlopen url); [by injection Ho as -> | done].
Qed.

(** *** Waiting ends *)

Lemma poll_ends registry local deadline : forall polls started step,
  0 < step -> (forall n f clock, polls !! n = Some (f, clock) -> started + step * Z.of_nat n <= clock) ->
  deadline <= started + step * (len polls - 1) -> polls <> [] ->
  is_Some (poll urlparse registry local deadline polls).
Proof.
  induction polls as [| [f clock] polls IH]; intros started step Hs Hc Hd Hn; [done |]. cbn [poll].
  destruct (release ← fetch_release f; _) as [[]|]; [by eexists | | by eexists].
  destruct (Z.leb_spec deadline clock) as [|Hlt]; [by eexists |].
  pose proof (Hc 0%nat f clock eq_refl) as H0.
  destruct polls as [| p polls]; [unfold len in Hd; cbn in Hd; lia |].
  apply (IH (started + step) step); [done | | | done].
  - intros n f' clock' Hp. specialize (Hc (S n) f' clock' Hp). lia.
  - unfold len in *. cbn [length] in *. lia.
Qed.
End Guarantees.

Lemma get_key {A} name (d : dict A) : name ∈ keys d -> is_Some (get name d).
Proof.
  unfold get. induction d as [| [k a] d IH]; cbn; [by intros ?%not_elem_of_nil |].
  intros [->|Hn]%elem_of_cons; [by rewrite (proj2 (str_eqb_eq _ _) eq_refl) |].
  destruct (str_eqb k name); [by eexists | by apply IH].
Qed.

Lemma max_upper t ts x : x ∈ t :: ts -> x <= foldr Z.max t ts.
Proof.
  induction ts as [| y ts IH]; cbn; rewrite ?elem_of_cons; [intros [->|?%not_elem_of_nil]; [lia | done] |].
  intros [->|[->|Hx]]; [|lia|].
  - specialize (IH ltac:(left)). lia.
  - specialize (IH ltac:(by right)). lia.
Qed.

Lemma load_manifest_keys text version hashes : load_manifest text version = Ok hashes ->
  exists expected, expected_names version = Ok expected /\ forall x, x ∈ keys hashes <-> x ∈ expected.
Proof.
  unfold load_manifest. intros Hr. apply res_bind_ok in Hr as (expected & He & Hr).
  apply res_bind_ok in Hr as (rows & _ & Hr). apply res_bind_ok in Hr as (? & Hs%require_ok & Hr).
  injection Hr as <-. exists expected. split; [done |]. by apply same_set_spec.
Qed.

Lemma fetched_names urlparse fromisoformat urlopen registry hashes remote got :
  Forall2 (fun a b => fetch_file urlparse fromisoformat urlopen registry hashes a = Ok b) remote got ->
  keys (map snd got) = keys remote /\
  forall t name content, (t, (name, content)) ∈ got -> genuine urlparse fromisoformat urlopen registry hashes t name content.
Proof.
  induction 1 as [| [name item] [t [name' content]] remote got Hf _ [IH1 IH2]];
    [split; [done |]; by intros ? ? ? ?%not_elem_of_nil |].
  apply fetch_file_ok in Hf as [-> Hg]. split; [unfold keys in *; cbn; by rewrite IH1 |].
  intros t1 n1 c1 [[= -> -> ->]|Hin]%elem_of_cons; [done | by apply IH2].
Qed.


Module ReleaseDemo.
Definition version : str := py "1.2.3".
Definition names : list str := match expected_names version with Ok l => l | Raise _ => [] end.
Definition sdist : str := nth 0 names [].
Definition wheel : str := nth 1 names [].
Definition content (name : str) : pybytes := if str_eqb name sdist then [1; 2; 3] else [4; 5].
Definition line (name : str) : str := digest (content name) ++ py "  " ++ name ++ [10].
Definition manifest : str := line sdist ++ line wheel.
Definition pypi : Registry := MkRegistry (py "https://pypi.org/pypi") (py "files.pythonhosted.org").
Definition file (name : str) : json :=
  JObj [(py "filename", JStr name); (py "yanked", JBool false); (py "size", JInt (len (content name)));
        (py "digests", JObj [(py "sha256", JStr (digest (content name)))]);
        (py "upload_time_iso_8601", JStr (py "T")); (py "url", JStr name)].
Definition release : fetched := Document (JObj [(py "urls", JList [file wheel; file sdist])]).
Definition urlparse (s : str) : parsed :=
  Url (MkSplit (py "https") (Some (artifact_host pypi)) None None None [] [] []).
Definition fetch (age : Z) : res release_exn (dict pybytes) :=
  main_download urlparse (fun _ => Some (Some 0)) (fun url => Some (url, content url)) pypi version manifest
    release (hours 48) age false.
End ReleaseDemo.

