(* ===== verification/Client.v ===== *)
(** * The management client and its command line

    [ManagementClient], [AuthClient] and [Producer] of the SDK's [producer.py]
    build requests, [cli.py] maps commands to them and keeps the token, and
    the routing table of [src/app/routers/webhooks.py] takes them apart again. *)

From stdpp Require Import base tactics list gmap strings numbers option.
From S2P Require Import Prelude Json Text Models Session Settings WebhookSecurity Receiver Endpoints Schemas Routes.
Local Open Scope Z_scope.

(** ** Requests on the wire *)

Inductive method : Type := GET | POST | PUT | PATCH | DELETE.

#[export] Instance method_eq_dec : EqDecision method.
Proof. solve_decision. Defined.

Record wire : Type := Wire {
  wr_method : method;
  wr_path : str;
  wr_query : list (str * str);
  wr_headers : list (str * str);
  wr_body : body;
}.

(** ** The routing table *)

(** A path template: [{name}] matches one nonempty segment. *)
Inductive segment : Type := Lit (s : str) | Var.

Definition template (t : string) : list segment :=
  map (fun s => match s with 123 :: _ => Var | _ => Lit s end) (split_on 47 (py t)).

Fixpoint match_path (t : list segment) (p : list str) : option (list str) :=
  match t, p with
  | [], [] => Some []
  | Lit s :: t, x :: p => if str_eqb s x then match_path t p else None
  | Var :: t, x :: p => if nonempty x then (x ::.) <$> match_path t p else None
  | _, _ => None
  end.

(** No route, a parameter that does not parse, or the route with its
    parameters *)
Inductive routed : Type := NoRoute | Invalid | To (r : request) | ToIngestion (key : option str) (b : body).

Section Router.
Context (parse_int : str -> option Z) (parse_time : str -> option datetime) (w : wire).

Definition query (name : string) : option str := snd <$> List.find (fun kv => str_eqb kv.1 (py name)) (wr_query w).
Definition header (name : string) : option str := snd <$> List.find (fun kv => str_eqb kv.1 (py name)) (wr_headers w).

Definition parsed {A} (parse : str -> option A) (name : string) (k : option A -> routed) : routed :=
  match query name with
  | None => k None
  | Some text => match parse text with Some a => k (Some a) | None => Invalid end
  end.

Definition paged (k : option Z -> option Z -> request) : routed :=
  parsed parse_int "offset" (fun offset => parsed parse_int "limit" (fun limit => To (k offset limit))).

Definition none (r : request) (vars : list str) : routed := match vars with [] => To r | _ => NoRoute end.
Definition one (k : str -> routed) (vars : list str) : routed := match vars with [a] => k a | _ => NoRoute end.
Definition two (k : str -> str -> routed) (vars : list str) : routed := match vars with [a; b] => k a b | _ => NoRoute end.
Definition member_id (a : str) (k : Z -> request) : routed :=
  match parse_int a with Some n => To (k n) | None => Invalid end.

Let b : body := wr_body w.

Definition audits (o : str) : routed :=
  parsed parse_int "limit" (fun limit => parsed parse_time "before_created_at" (fun at_ =>
    parsed parse_int "before_id" (fun id =>
      To (ListAuditEvents o (query "action") (query "resource_type") limit at_ id)))).

Definition routes : list (method * string * (list str -> routed)) :=
  [(POST, "/v1/organizations", none (CreateOrganization b));
   (GET, "/v1/organizations", fun vars => match vars with [] => paged ListOrganizations | _ => NoRoute end);
   (POST, "/v1/organizations/{organization_id}/members", one (fun o => To (AddMember o b)));
   (GET, "/v1/organizations/{organization_id}/members", one (fun o => paged (ListMembers o)));
   (PATCH, "/v1/organizations/{organization_id}/members/{member_user_id}",
     two (fun o m => member_id m (fun m => UpdateMember o m b)));
   (DELETE, "/v1/organizations/{organization_id}/members/{member_user_id}",
     two (fun o m => member_id m (fun m => RemoveMember o m)));
   (GET, "/v1/organizations/{organization_id}/policy", one (fun o => To (GetPolicy o)));
   (PATCH, "/v1/organizations/{organization_id}/policy", one (fun o => To (UpdatePolicy o b)));
   (GET, "/v1/organizations/{organization_id}/audit", one audits);
   (GET, "/v1/organizations/{organization_id}/audit-events", one audits);
   (GET, "/v1/organizations/{organization_id}/export",
     one (fun o => parsed parse_int "limit" (fun limit => To (ExportOrganization o limit))));
   (POST, "/v1/organizations/{organization_id}/deletion", one (fun o => To (RequestOrganizationDeletion o)));
   (DELETE, "/v1/organizations/{organization_id}", one (fun o => To (RequestOrganizationDeletion o)));
   (GET, "/v1/organizations/{organization_id}/deletion", one (fun o => To (GetOrganizationDeletion o)));
   (DELETE, "/v1/organizations/{organization_id}/deletion", one (fun o => To (CancelOrganizationDeletion o)));
   (POST, "/v1/organizations/{organization_id}/deletion/cancel",
     one (fun o => To (CancelOrganizationDeletion o)));
   (POST, "/v1/organizations/{organization_id}/projects", one (fun o => To (CreateProject o b)));
   (GET, "/v1/organizations/{organization_id}/projects", one (fun o => paged (ListProjects o)));
   (DELETE, "/v1/projects/{project_id}", one (fun p => To (DeactivateProject p)));
   (POST, "/v1/projects/{project_id}/members", one (fun p => To (AddProjectMember p b)));
   (GET, "/v1/projects/{project_id}/members", one (fun p => paged (ListProjectMembers p)));
   (PUT, "/v1/projects/{project_id}/members/{member_user_id}",
     two (fun p m => member_id m (fun m => UpsertProjectMember p m b)));
   (PATCH, "/v1/projects/{project_id}/members/{member_user_id}",
     two (fun p m => member_id m (fun m => UpdateProjectMember p m b)));
   (DELETE, "/v1/projects/{project_id}/members/{member_user_id}",
     two (fun p m => member_id m (fun m => RemoveProjectMember p m)));
   (POST, "/v1/projects/{project_id}/api-keys", one (fun p => To (CreateApiKey p b)));
   (GET, "/v1/projects/{project_id}/api-keys", one (fun p => paged (ListApiKeys p)));
   (DELETE, "/v1/projects/{project_id}/api-keys/{key_id}", two (fun p k => To (RevokeApiKey p k)));
   (POST, "/v1/projects/{project_id}/api-keys/{key_id}/rotate", two (fun p k => To (RotateApiKey p k b)));
   (POST, "/v1/projects/{project_id}/endpoints", one (fun p => To (CreateEndpoint p b)));
   (GET, "/v1/projects/{project_id}/endpoints", one (fun p => paged (ListEndpoints p)));
   (PATCH, "/v1/projects/{project_id}/endpoints/{endpoint_id}", two (fun p e => To (UpdateEndpoint p e b)));
   (DELETE, "/v1/projects/{project_id}/endpoints/{endpoint_id}", two (fun p e => To (DeactivateEndpoint p e)));
   (POST, "/v1/projects/{project_id}/endpoints/{endpoint_id}/rotate-secret",
     two (fun p e => To (RotateEndpointSecret p e)));
   (POST, "/v1/events", fun vars => match vars with [] => ToIngestion (header "Idempotency-Key") b | _ => NoRoute end);
   (GET, "/v1/projects/{project_id}/events", one (fun p => paged (ListEvents p)));
   (GET, "/v1/projects/{project_id}/events/{event_id}", two (fun p e => To (GetEvent p e)));
   (GET, "/v1/projects/{project_id}/deliveries", one (fun p => paged (ListDeliveries p)));
   (GET, "/v1/projects/{project_id}/deliveries/{delivery_id}", two (fun p d => To (GetDelivery p d)));
   (POST, "/v1/projects/{project_id}/deliveries/{delivery_id}/replay", two (fun p d => To (ReplayDelivery p d)));
   (POST, "/v1/projects/{project_id}/replays",
     one (fun p => To (ReplayDeliveries p (header "Idempotency-Key") b)));
   (GET, "/v1/projects/{project_id}/dead-deliveries", one (fun p =>
     parsed parse_int "minimum_age_seconds" (fun age =>
       paged (ListDeadDeliveries p (query "endpoint_id") (query "reason") age))));
   (GET, "/v1/projects/{project_id}/dead-deliveries/export", one (fun p =>
     parsed parse_int "minimum_age_seconds" (fun age => parsed parse_int "limit" (fun limit =>
       To (ExportDeadDeliveries p (query "endpoint_id") (query "reason") age limit)))));
   (POST, "/v1/projects/{project_id}/endpoints/{endpoint_id}/pause", two (fun p e => To (PauseEndpoint p e b)));
   (POST, "/v1/projects/{project_id}/endpoints/{endpoint_id}/resume", two (fun p e => To (ResumeEndpoint p e)));
   (POST, "/v1/projects/{project_id}/endpoints/{endpoint_id}/recover-circuit",
     two (fun p e => To (RecoverEndpointCircuit p e)));
   (POST, "/v1/projects/{project_id}/deliveries/{delivery_id}/cancel", two (fun p d => To (CancelDelivery p d b)));
   (POST, "/v1/projects/{project_id}/deliveries/purge", one (fun p => To (PurgeTerminalDeliveries p b)))]%string.

(** The first route whose method and template match *)
Definition route : routed :=
  let try_route (acc : routed) (entry : method * string * (list str -> routed)) : routed :=
    let '(m, t, k) := entry in
    if bool_decide (m = wr_method w)
    then match match_path (template t) (split_on 47 (wr_path w)) with Some vars => k vars | None => acc end
    else acc in
  foldr (fun entry acc => try_route acc entry) NoRoute routes.
End Router.

(** ** The client *)

(** An [update_endpoint] argument that was passed *)
Record update_args : Type := MkUpdateArgs {
  ua_url : option str;
  ua_description : option (option str);
  ua_is_active : option bool;
  ua_event_types : option (option (list str));
  ua_signature_scheme : option str;
}.

(** The calls of the SDK *)
Inductive call : Type :=
| c_list_organizations
| c_create_organization (name : str)
| c_list_projects (organization_id : str)
| c_create_project (organization_id name : str)
| c_list_api_keys (project_id : str)
| c_create_api_key (project_id name : str) (expires_in_days : option Z)
| c_revoke_api_key (project_id api_key_id : str)
| c_list_endpoints (project_id : str)
| c_create_endpoint (project_id url : str) (description : option str) (event_types : option (list str))
    (signature_scheme : option str)
| c_update_endpoint (project_id endpoint_id : str) (changes : update_args)
| c_list_deliveries (project_id : str) (offset limit : Z)
| c_get_delivery (project_id delivery_id : str)
| c_replay_delivery (project_id delivery_id : str)
| c_replay_deliveries (project_id : str) (delivery_ids : list str) (idempotency_key : str)
| c_send_event (event_type : str) (payload : json) (idempotency_key envelope_mode : str).

Definition jstr_or_null (s : option str) : json := match s with Some s => JStr s | None => JNull end.
Definition jlist (l : list str) : json := JList (map JStr l).
Definition maybe (key : string) (j : option json) : list (str * json) :=
  match j with Some j => [(py key, j)] | None => [] end.

Definition changes_body (u : update_args) : list (str * json) :=
  maybe "url" (JStr <$> ua_url u) ++ maybe "description" (jstr_or_null <$> ua_description u)
  ++ maybe "is_active" (JBool <$> ua_is_active u)
  ++ maybe "event_types" ((fun l => match l with Some l => jlist l | None => JNull end) <$> ua_event_types u)
  ++ maybe "signature_scheme" (JStr <$> ua_signature_scheme u).

Definition under (a : string) (id : str) (b : string) : str := py a ++ id ++ py b.

Definition get_ (path : str) : wire := Wire GET path [] [] NoBody.
Definition with_json (m : method) (path : str) (o : list (str * json)) : wire := Wire m path [] [] (Body (JObj o)).

(** [None] is the [ValueError] of the client before it sends anything. *)
Definition send (c : call) : option wire :=
  match c with
  | c_list_organizations => Some (get_ (py "/v1/organizations"))
  | c_create_organization name => Some (with_json POST (py "/v1/organizations") [(py "name", JStr name)])
  | c_list_projects o => Some (get_ (under "/v1/organizations/" o "/projects"))
  | c_create_project o name =>
      Some (with_json POST (under "/v1/organizations/" o "/projects") [(py "name", JStr name)])
  | c_list_api_keys p => Some (get_ (under "/v1/projects/" p "/api-keys"))
  | c_create_api_key p name days =>
      Some (with_json POST (under "/v1/projects/" p "/api-keys")
        [(py "name", JStr name); (py "scopes", jlist [py "events:write"]);
         (py "expires_in_days", match days with Some n => JInt n | None => JNull end)])
  | c_revoke_api_key p k => Some (Wire DELETE (py "/v1/projects/" ++ p ++ py "/api-keys/" ++ k) [] [] NoBody)
  | c_list_endpoints p => Some (get_ (under "/v1/projects/" p "/endpoints"))
  | c_create_endpoint p url description event_types scheme =>
      Some (with_json POST (under "/v1/projects/" p "/endpoints")
        ([(py "url", JStr url); (py "description", jstr_or_null description)]
         ++ maybe "event_types" (jlist <$> event_types) ++ maybe "signature_scheme" (JStr <$> scheme)))
  | c_update_endpoint p e u =>
      match changes_body u with
      | [] => None
      | o => Some (with_json PATCH (py "/v1/projects/" ++ p ++ py "/endpoints/" ++ e) o)
      end
  | c_list_deliveries p offset limit =>
      Some (Wire GET (under "/v1/projects/" p "/deliveries")
              [(py "offset", int_repr offset); (py "limit", int_repr limit)] [] NoBody)
  | c_get_delivery p d => Some (get_ (py "/v1/projects/" ++ p ++ py "/deliveries/" ++ d))
  | c_replay_delivery p d =>
      Some (Wire POST (py "/v1/projects/" ++ p ++ py "/deliveries/" ++ d ++ py "/replay") [] [] NoBody)
  | c_replay_deliveries p ids key =>
      Some (Wire POST (under "/v1/projects/" p "/replays") [] [(py "Idempotency-Key", key)]
              (Body (JObj [(py "delivery_ids", jlist ids)])))
  | c_send_event event_type payload key mode =>
      if nonempty event_type && nonempty key
      then Some (Wire POST (py "/v1/events") [] [(py "Idempotency-Key", key)]
                   (Body (JObj [(py "type", JStr event_type); (py "payload", payload);
                                (py "envelope_mode", JStr mode)])))
      else None
  end.

(** ** The command line *)

(** The arguments [argparse] lets through: [--activate] excludes
    [--deactivate], [--event-type] excludes [--all-events]. *)
Inductive activation : Type := Untouched | Activate | Deactivate.
Inductive filtering : Type := SameFilter | EventTypes (l : list str) | AllEvents.

Inductive command : Type :=
| organizations_list | organizations_create (name : str)
| projects_list (organization : str) | projects_create (organization name : str)
| api_keys_list (project : str) | api_keys_create (project name : str) (expires_in_days : option Z)
| api_keys_revoke (project api_key : str)
| endpoints_list (project : str)
| endpoints_create (project url : str) (description : option str) (event_types : option (list str))
    (signature_scheme : option str)
| endpoints_update (project endpoint : str) (url description : option str) (a : activation) (f : filtering)
    (signature_scheme : option str)
| deliveries_list (project : str) (offset limit : Z)
| deliveries_get (project delivery : str) | deliveries_attempts (project delivery : str)
| replay_one (project delivery : str)
| replay_bulk (project : str) (deliveries : list str) (idempotency_key : str)
| events_send (type : str) (payload : json) (idempotency_key envelope_mode : str).

Definition update_changes (url description : option str) (a : activation) (f : filtering)
    (scheme : option str) : update_args :=
  MkUpdateArgs url (Some <$> description)
    (match a with Activate => Some true | Deactivate => Some false | Untouched => None end)
    (match f with AllEvents => Some None | EventTypes l => Some (Some l) | SameFilter => None end)
    scheme.

(** [_management_command] and the event branch of [_run] *)
Definition call_of (c : command) : call :=
  match c with
  | organizations_list => c_list_organizations
  | organizations_create name => c_create_organization name
  | projects_list o => c_list_projects o
  | projects_create o name => c_create_project o name
  | api_keys_list p => c_list_api_keys p
  | api_keys_create p name days => c_create_api_key p name days
  | api_keys_revoke p k => c_revoke_api_key p k
  | endpoints_list p => c_list_endpoints p
  | endpoints_create p url description event_types scheme => c_create_endpoint p url description event_types scheme
  | endpoints_update p e url description a f scheme =>
      c_update_endpoint p e (update_changes url description a f scheme)
  | deliveries_list p offset limit => c_list_deliveries p offset limit
  | deliveries_get p d | deliveries_attempts p d => c_get_delivery p d
  | replay_one p d => c_replay_delivery p d
  | replay_bulk p ids key => c_replay_deliveries p ids key
  | events_send t payload key mode => c_send_event t payload key mode
  end.

(** ** The stored token *)

(** The credential file: what [fstat] says of it, and the document in it *)
Inductive credential_file : Type :=
| Missing | NotReadable | CredentialFile (regular : bool) (mode : Z) (document : option json).

Definition save_credentials (base_url token : str) : credential_file :=
  CredentialFile true 384
    (Some (JObj [(py "base_url", JStr (rstrip 47 base_url)); (py "token", JStr token)])).

(** The [ValueError]s of the command line *)
Inductive cli_exn : Type :=
| CannotRead | NotRegular | BadPermissions | InvalidFile | OtherServer | NoToken | NoApiKey.

Definition stored_token (file : credential_file) (base_url : str) : res cli_exn (option str) :=
  match file with
  | Missing => Ok None
  | NotReadable => Raise CannotRead
  | CredentialFile regular mode document =>
      if negb regular then Raise NotRegular
      else if negb (mode =? 384) then Raise BadPermissions
      else match document with
           | Some (JObj o) =>
               match member (py "base_url") o with
               | Some (JStr stored) =>
                   if str_eqb stored (rstrip 47 base_url) then
                     match member (py "token") o with
                     | Some (JStr token) => if nonempty token then Ok (Some token) else Raise InvalidFile
                     | _ => Raise InvalidFile
                     end
                   else Raise OtherServer
               | _ => Raise OtherServer
               end
           | _ => Raise InvalidFile
           end
  end.

(** [_management] and [_producer]: the credential that goes out with a command *)
Definition credential (env_token env_api_key : option str) (file : credential_file) (base_url : str)
    (c : command) : res cli_exn (str * str) :=
  match c with
  | events_send _ _ _ _ =>
      match env_api_key with
      | Some key => if nonempty key then Ok (py "X-API-Key", key) else Raise NoApiKey
      | None => Raise NoApiKey
      end
  | _ =>
      if truthy env_token then Ok (py "Authorization", py "Bearer " ++ default [] env_token)
      else match stored_token file base_url with
           | Raise e => Raise e
           | Ok None => Raise NoToken
           | Ok (Some token) => Ok (py "Authorization", py "Bearer " ++ token)
           end
  end.

(** ** Commands reach their routes *)

Lemma split_on_slash a s : split_on 47 (a ++ 47 :: s) = split_on 47 a ++ split_on 47 s.
Proof.
  unfold split_on. induction a as [| x a IH]; cbn.
  - destruct (split_by_nonempty (fun x => x =? 47) s) as (w & ws & ->). done.
  - rewrite IH. destruct (split_by_nonempty (fun x => x =? 47) a) as (w & ws & ->). cbn. by destruct (x =? 47).
Qed.

(** An identifier that stays one segment of a path *)
Definition id_ok (s : str) : Prop := s <> [] /\ free_of (fun c => c =? 47) s.

Lemma split_on_id s : id_ok s -> split_on 47 s = [s].
Proof. intros [_ Hs]. by apply split_by_free. Qed.

Definition ids_of (c : call) : list str :=
  match c with
  | c_list_projects o | c_create_project o _ => [o]
  | c_list_api_keys p | c_create_api_key p _ _ | c_list_endpoints p | c_create_endpoint p _ _ _ _
  | c_list_deliveries p _ _ | c_replay_deliveries p _ _ => [p]
  | c_revoke_api_key p x | c_update_endpoint p x _ | c_get_delivery p x | c_replay_delivery p x => [p; x]
  | _ => []
  end.

(** What the call asks the server for *)
Definition asked (c : call) (b : body) : routed :=
  match c with
  | c_list_organizations => To (ListOrganizations None None)
  | c_create_organization _ => To (CreateOrganization b)
  | c_list_projects o => To (ListProjects o None None)
  | c_create_project o _ => To (CreateProject o b)
  | c_list_api_keys p => To (ListApiKeys p None None)
  | c_create_api_key p _ _ => To (CreateApiKey p b)
  | c_revoke_api_key p k => To (RevokeApiKey p k)
  | c_list_endpoints p => To (ListEndpoints p None None)
  | c_create_endpoint p _ _ _ _ => To (CreateEndpoint p b)
  | c_update_endpoint p e _ => To (UpdateEndpoint p e b)
  | c_list_deliveries p offset limit => To (ListDeliveries p (Some offset) (Some limit))
  | c_get_delivery p d => To (GetDelivery p d)
  | c_replay_delivery p d => To (ReplayDelivery p d)
  | c_replay_deliveries p _ key => To (ReplayDeliveries p (Some key) b)
  | c_send_event _ _ key _ => ToIngestion (Some key) b
  end.

(** The server reads the numbers of the call as they were written. *)
Definition reads_numbers (parse_int : str -> option Z) (c : call) : Prop :=
  match c with
  | c_list_deliveries _ offset limit =>
      parse_int (int_repr offset) = Some offset /\ parse_int (int_repr limit) = Some limit
  | _ => True
  end.

Section Reaching.
Context (parse_int : str -> option Z) (parse_time : str -> option datetime).

(** The routes under an organization or a project, by the segments of the path *)
Lemma route_segments w segs : split_on 47 (wr_path w) = segs ->
  route parse_int parse_time w =
  foldr (fun entry acc =>
    if bool_decide (entry.1.1 = wr_method w)
    then match match_path (template entry.1.2) segs with Some vars => entry.2 vars | None => acc end
    else acc) NoRoute (routes parse_int parse_time w).
Proof. intros <-. unfold route. apply foldr_ext; [| done | done]. by intros [[m t] k]. Qed.

Lemma path_one a id : id_ok id -> split_on 47 (py a ++ 47 :: id) = split_on 47 (py a) ++ [id].
Proof. intros Hid. by rewrite split_on_slash, (split_on_id id). Qed.

Lemma path_under a id b : id_ok id ->
  split_on 47 (py a ++ 47 :: id ++ 47 :: py b) = split_on 47 (py a) ++ id :: split_on 47 (py b).
Proof. intros Hid. by rewrite !split_on_slash, (split_on_id id). Qed.

Lemma path_two a id b id' : id_ok id -> id_ok id' ->
  split_on 47 (py a ++ 47 :: id ++ 47 :: py b ++ 47 :: id') = split_on 47 (py a) ++ id :: split_on 47 (py b) ++ [id'].
Proof. intros H1 H2. by rewrite !split_on_slash, (split_on_id id), (split_on_id id'). Qed.

Lemma path_three a id b id' c : id_ok id -> id_ok id' ->
  split_on 47 (py a ++ 47 :: id ++ 47 :: py b ++ 47 :: id' ++ 47 :: py c)
  = split_on 47 (py a) ++ id :: split_on 47 (py b) ++ id' :: split_on 47 (py c).
Proof. intros H1 H2. by rewrite !split_on_slash, (split_on_id id), (split_on_id id'). Qed.

(** Look the path of a request up, its identifiers being nonempty. *)
Ltac look_up Hpath :=
  match goal with |- route _ _ ?w = _ => rewrite (route_segments w _ Hpath) end;
  repeat match goal with H : id_ok ?x |- _ => destruct x; [by destruct H | clear H] end;
  vm_compute; reflexivity.

Lemma call_reaches c w :
  send c = Some w -> Forall id_ok (ids_of c) -> reads_numbers parse_int c ->
  route parse_int parse_time w = asked c (wr_body w).
Proof.
  intros Hs Hids Hn. destruct c; cbn [ids_of] in Hids; cbn [send] in Hs;
    rewrite ?list.Forall_cons in Hids; destruct_and?.
  1, 2: injection Hs as <-; vm_compute; reflexivity.
  1: by injection Hs as <-; look_up (path_under "/v1/organizations" organization_id "projects" ltac:(done)).
  1: by injection Hs as <-; look_up (path_under "/v1/organizations" organization_id "projects" ltac:(done)).
  1: by injection Hs as <-; look_up (path_under "/v1/projects" project_id "api-keys" ltac:(done)).
  1: by injection Hs as <-; look_up (path_under "/v1/projects" project_id "api-keys" ltac:(done)).
  1: by injection Hs as <-; look_up (path_two "/v1/projects" project_id "api-keys" api_key_id ltac:(done) ltac:(done)).
  1: by injection Hs as <-; look_up (path_under "/v1/projects" project_id "endpoints" ltac:(done)).
  1: by injection Hs as <-; look_up (path_under "/v1/projects" project_id "endpoints" ltac:(done)).
  1: by destruct (changes_body changes) as [| kv o]; [done |]; injection Hs as <-;
    look_up (path_two "/v1/projects" project_id "endpoints" endpoint_id ltac:(done) ltac:(done)).
  1: { destruct Hn as [Ho Hl]. injection Hs as <-. revert Ho Hl.
    generalize (int_repr offset) as t1, (int_repr limit) as t2. intros t1 t2 Ho Hl.
    match goal with |- route _ _ ?w = _ =>
      rewrite (route_segments w _ (path_under "/v1/projects" project_id "deliveries" ltac:(done))) end.
    destruct project_id; [by destruct H |]. vm_compute. by rewrite Ho, Hl. }
  1: by injection Hs as <-; look_up (path_two "/v1/projects" project_id "deliveries" delivery_id ltac:(done) ltac:(done)).
  1: by injection Hs as <-;
    look_up (path_three "/v1/projects" project_id "deliveries" delivery_id "replay" ltac:(done) ltac:(done)).
  1: by injection Hs as <-; look_up (path_under "/v1/projects" project_id "replays" ltac:(done)).
  destruct (nonempty event_type && nonempty idempotency_key); [| done]. injection Hs as <-. vm_compute. reflexivity.
Qed.
End Reaching.

(** ** Bodies mean what was asked *)

Section Meaning.
Context (is_text : str -> bool) (http_url : str -> option str).

(** A text field, and one that may be left out *)
Definition text (min max : Z) (s : str) : option str := v_str is_text min (Some max) (JStr s).
Definition optional {A B} (check : A -> option B) (a : option A) : option (option B) :=
  match a with Some a => Some <$> check a | None => Some None end.

(** The filters of an endpoint, checked and normalised *)
Definition filters (l : option (list str)) : option json :=
  match l with
  | Some l => texts ← mapM (v_str is_text 0 None) (map JStr l); normalized_filters (Some texts)
  | None => Some JNull
  end.

Definition scheme_of (s : str) : option SignatureScheme := v_signature_scheme (JStr s).

(** The request the server understands, or its refusal, by the arguments of
    the call *)
Definition understood (c : call) (b : body) : Prop :=
  match c with
  | c_create_organization name => OrganizationCreate is_text b = text 1 120 name
  | c_create_project _ name => ProjectCreate is_text b = text 1 120 name
  | c_create_api_key _ name days =>
      ApiKeyCreate is_text b =
        (name ← text 1 120 name;
         days ← optional (fun n => v_int 1 (Some 3650) (JInt n)) days;
         Some (MkApiKeyCreate name [py "events:write"] days))
  | c_create_endpoint _ url description event_types scheme =>
      EndpointCreate is_text http_url b =
        (url ← http_url url;
         description ← optional (text 0 500) description;
         scheme ← optional scheme_of scheme;
         filters ← filters event_types;
         Some (MkEndpointCreate url description filters (default Standard scheme)))
  | c_update_endpoint _ _ u =>
      EndpointUpdate is_text http_url b =
        (url ← optional http_url (ua_url u);
         description ← optional (optional (text 0 500)) (ua_description u);
         scheme ← optional scheme_of (ua_signature_scheme u);
         filters ← optional filters (ua_event_types u);
         Some (EndpointChange url description (ua_is_active u) filters scheme))
  | c_replay_deliveries _ ids _ =>
      ReplayBatchRequest is_text b =
        if (1 <=? len ids) && (len ids <=? 1000) && unique ids && forallb is_text ids then Some ids else None
  | c_send_event event_type payload _ mode =>
      EventCreate is_text b =
        (event_type ← text 1 150 event_type;
         mode ← v_envelope_mode (JStr mode);
         Some (event_type, payload, mode))
  | _ => b = NoBody
  end.

Ltac fields_of :=
  cbn [wr_body with_json fields]; match goal with |- context [forallb ?f ?l] =>
    change (forallb f l) with true end; cbn [mbind option_bind].

Lemma texts_mapM (l : list str) :
  mapM (v_str is_text 0 None) (map JStr l) = if forallb is_text l then Some l else None.
Proof.
  induction l as [| s l IH]; [done |]. cbn [map mapM forallb]. cbn [v_str at_most].
  rewrite andb_true_r. replace (0 <=? len s) with true by (symmetry; apply Z.leb_le; unfold len; lia). rewrite andb_true_r.
  destruct (is_text s); cbn [andb mbind option_bind]; [| done]. rewrite IH.
  by destruct (forallb is_text l).
Qed.

Lemma organization_understood name :
  OrganizationCreate is_text (Body (JObj [(py "name", JStr name)])) = text 1 120 name.
Proof. reflexivity. Qed.

Lemma api_key_understood name days :
  ApiKeyCreate is_text (Body (JObj
    [(py "name", JStr name); (py "scopes", jlist [py "events:write"]);
     (py "expires_in_days", match days with Some n => JInt n | None => JNull end)])) =
  (name ← text 1 120 name;
   days ← optional (fun n => v_int 1 (Some 3650) (JInt n)) days;
   Some (MkApiKeyCreate name [py "events:write"] days)).
Proof. by destruct days. Qed.

Lemma event_understood event_type payload mode :
  EventCreate is_text (Body (JObj [(py "type", JStr event_type); (py "payload", payload);
                                   (py "envelope_mode", JStr mode)])) =
  (event_type ← text 1 150 event_type; mode ← v_envelope_mode (JStr mode); Some (event_type, payload, mode)).
Proof. reflexivity. Qed.

Lemma replays_understood ids :
  ReplayBatchRequest is_text (Body (JObj [(py "delivery_ids", jlist ids)])) =
  if (1 <=? len ids) && (len ids <=? 1000) && unique ids && forallb is_text ids then Some ids else None.
Proof.
  unfold ReplayBatchRequest. change (fields _ _) with (Some [(py "delivery_ids", jlist ids)]).
  cbn [mbind option_bind]. change (required _ _ _) with (v_list 1 (Some 1000) (v_str is_text 0 None) (jlist ids)).
  unfold jlist, v_list, at_most. rewrite texts_mapM.
  replace (len (map JStr ids)) with (len ids) by (unfold len; by rewrite length_map).
  destruct (1 <=? len ids), (len ids <=? 1000), (forallb is_text ids); cbn; rewrite ?andb_true_r, ?andb_false_r; try done.
Qed.

Lemma texts_listed (l : list str) :
  nullable (v_list 0 None (v_str is_text 0 None)) (jlist l) = Some <$> mapM (v_str is_text 0 None) (map JStr l).
Proof.
  unfold jlist, nullable, v_list, at_most. rewrite andb_true_r.
  replace (0 <=? len (map JStr l)) with true by (symmetry; apply Z.leb_le; unfold len; lia).
  done.
Qed.

Lemma endpoint_understood url description event_types scheme :
  EndpointCreate is_text http_url (Body (JObj
    ([(py "url", JStr url); (py "description", jstr_or_null description)]
     ++ maybe "event_types" (jlist <$> event_types) ++ maybe "signature_scheme" (JStr <$> scheme)))) =
  (url ← http_url url;
   description ← optional (text 0 500) description;
   scheme ← optional scheme_of scheme;
   filters ← filters event_types;
   Some (MkEndpointCreate url description filters (default Standard scheme))).
Proof.
  unfold EndpointCreate. set (o := [(py "url", _); _] ++ _).
  replace (fields _ _) with (Some o) by (subst o; by destruct event_types, scheme). cbn [mbind option_bind].
  replace (required _ _ o) with (http_url url) by (subst o; by destruct event_types, scheme).
  replace (defaulted "description" _ _ o) with (optional (text 0 500) description)
    by (subst o; by destruct event_types, scheme, description).
  replace (defaulted "signature_scheme" _ _ o) with (default Standard <$> optional scheme_of scheme)
    by (destruct scheme as [s|]; [| subst o; by destruct event_types];
        transitivity (scheme_of s); [unfold optional; by destruct (scheme_of s) | subst o; by destruct event_types]).
  replace (defaulted "event_types" _ _ o)
    with (match event_types with Some l => nullable (v_list 0 None (v_str is_text 0 None)) (jlist l) | None => Some None end)
    by (subst o; by destruct event_types, scheme).
  destruct (http_url url); [| done]. destruct (optional (text 0 500) description); [| done]. cbn [mbind option_bind].
  destruct event_types; [rewrite texts_listed; unfold filters; destruct (mapM _ _) |];
    destruct (optional scheme_of scheme); done.
Qed.

(** A field of the changes *)
Lemma changes_members u :
  let o := changes_body u in
  member (py "url") o = JStr <$> ua_url u /\ member (py "description") o = jstr_or_null <$> ua_description u /\
  member (py "is_active") o = JBool <$> ua_is_active u /\
  member (py "event_types") o
    = (fun l => match l with Some l => jlist l | None => JNull end) <$> ua_event_types u /\
  member (py "signature_scheme") o = JStr <$> ua_signature_scheme u.
Proof. by destruct u as [[] [] [] [] []]. Qed.

Lemma changed_text {A} key (v : json -> option A) o (s : option str) :
  member (py key) o = JStr <$> s -> changed key v o = optional (fun s => v (JStr s)) s.
Proof.
  intros Hm. unfold changed, given. rewrite Hm. destruct s as [s|]; [| done]. cbn. by destruct (v (JStr s)).
Qed.

Lemma update_understood u : changes_body u <> [] ->
  EndpointUpdate is_text http_url (Body (JObj (changes_body u))) =
  (url ← optional http_url (ua_url u);
   description ← optional (optional (text 0 500)) (ua_description u);
   scheme ← optional scheme_of (ua_signature_scheme u);
   filters ← optional filters (ua_event_types u);
   Some (EndpointChange url description (ua_is_active u) filters scheme)).
Proof.
  intros Hne. unfold EndpointUpdate. destruct (changes_members u) as (Hu & Hd & Ha & Ht & Hs).
  set (o := changes_body u) in *.
  replace (fields _ _) with (Some o) by (subst o; by destruct u as [[] [] [] [] []]). cbn [mbind option_bind].
  rewrite (changed_text "url" _ o _ Hu), (changed_text "signature_scheme" _ o _ Hs).
  replace (given "description" _ o) with (optional (optional (text 0 500)) (ua_description u))
    by (unfold given; rewrite Hd; by destruct (ua_description u) as [[]|]).
  replace (changed "is_active" v_bool o) with (Some (ua_is_active u))
    by (unfold changed, given; rewrite Ha; by destruct (ua_is_active u)).
  unfold given. rewrite Ht. destruct o as [| kv o]; [done |]. clear.
  change (optional (fun s => v_url http_url (JStr s))) with (optional http_url).
  change (optional (fun s => v_signature_scheme (JStr s))) with (optional scheme_of).
  destruct (optional http_url (ua_url u)); [| done].
  destruct (optional (optional (text 0 500)) (ua_description u)); [| done]. cbn [mbind option_bind].
  destruct (ua_event_types u) as [[l|]|]; cbn [fmap option_fmap option_map optional filters];
    [rewrite texts_listed; destruct (mapM _ _) as [l'|] | |];
    destruct (optional scheme_of (ua_signature_scheme u)); try done; cbn; by destruct (validate_event_type_filters l').
Qed.

Lemma body_understood c w : send c = Some w -> understood c (wr_body w).
Proof.
  destruct c; cbn [send understood]; try (intros [= <-]; done).
  - intros [= <-]. apply api_key_understood.
  - intros [= <-]. apply endpoint_understood.
  - destruct (changes_body changes) as [| kv o] eqn:E; [done |]. intros [= <-]. cbn [wr_body with_json].
    rewrite <- E. apply update_understood. by rewrite E.
  - intros [= <-]. apply replays_understood.
  - destruct (_ && _); [| done]. intros [= <-]. apply event_understood.
Qed.
End Meaning.

(** ** Claims *)

(** The token that was saved goes to the server it was saved for, read from a
    private regular file, and to no other. *)
Lemma stored_token_stays_home file base_url token :
  stored_token file base_url = Ok (Some token) ->
  token <> [] /\ exists o, file = CredentialFile true 384 (Some (JObj o)) /\
    member (py "base_url") o = Some (JStr (rstrip 47 base_url)) /\ member (py "token") o = Some (JStr token).
Proof.
  destruct file as [| |[] mode [[| | | | | |o]|]]; cbn; try done; destruct (Z.eqb_spec mode 384) as [->|]; try done.
  destruct (member (py "base_url") o) as [[| | | |stored| |]|] eqn:Eb; try done.
  destruct (str_eqb stored _) eqn:Es; [| done]. apply str_eqb_eq in Es as ->.
  destruct (member (py "token") o) as [[| | | |t| |]|] eqn:Et; try done.
  destruct t; cbn; [done |]. intros [= <-]. split; [done |]. by exists o.
Qed.

Lemma saved_token_is_found base_url base_url' token : token <> [] ->
  stored_token (save_credentials base_url token) base_url'
  = if str_eqb (rstrip 47 base_url) (rstrip 47 base_url') then Ok (Some token) else Raise OtherServer.
Proof.
  intros Hn. unfold stored_token, save_credentials. cbn [negb Z.eqb Pos.eqb].
  change (member (py "base_url") _) with (Some (JStr (rstrip 47 base_url))).
  change (member (py "token") _) with (Some (JStr token)). by destruct token, (str_eqb _ _).
Qed.


