(* ===== verification/Schema.v ===== *)
(** * Relational schemas and the operations that change them

    What the revisions under [src/migrations/versions] are written in: the
    catalog of a PostgreSQL database (tables with typed columns, keys, CHECK
    constraints, foreign keys, indexes, triggers), the rows it stores, and the
    operations of [alembic.op] the revisions call, each as a function that
    changes catalog and rows or raises.  A statement on existing rows is
    accepted only when the rows it leaves satisfy the constraints, as the
    server validates them.

    [conforms] says that the rows satisfy their catalog.  Every operation that
    succeeds preserves it ([step_sound]); [run_ddl] of [SchemaRuns] gives the
    conditions on the rows under which a script succeeds. *)

From Stdlib Require Import QArith.
From stdpp Require Import base tactics list gmap sets strings numbers option.
From S2P Require Import Prelude Json.
Local Open Scope Z_scope.

(** ** Values *)

#[export] Instance pyfloat_eq_dec : EqDecision pyfloat.
Proof. solve_decision. Defined.

Fixpoint json_eqb (a b : json) : bool :=
  match a, b with
  | JNull, JNull => true
  | JBool x, JBool y => Bool.eqb x y
  | JInt x, JInt y => x =? y
  | JFloat x, JFloat y => bool_decide (x = y)
  | JStr x, JStr y => bool_decide (x = y)
  | JList l, JList m =>
      (fix go (l m : list json) : bool :=
         match l, m with
         | [], [] => true
         | x :: l', y :: m' => json_eqb x y && go l' m'
         | _, _ => false
         end) l m
  | JObj l, JObj m =>
      (fix go (l m : list (str * json)) : bool :=
         match l, m with
         | [], [] => true
         | (k, x) :: l', (k', y) :: m' => bool_decide (k = k') && json_eqb x y && go l' m'
         | _, _ => false
         end) l m
  | _, _ => false
  end.

Lemma json_eqb_spec : forall a b, json_eqb a b = true <-> a = b.
Proof.
  fix IH 1. intros [| x | x | x | x | l | l] [| y | y | y | y | m | m]; cbn; try (clear IH; split; done).
  - clear IH. destruct x, y; split; done.
  - clear IH. rewrite Z.eqb_eq. split; congruence.
  - clear IH. rewrite bool_decide_eq_true. split; congruence.
  - clear IH. rewrite bool_decide_eq_true. split; congruence.
  - transitivity (l = m); [| clear IH; split; congruence].
    revert m. induction l as [| x l IHl]; intros [| y m]; try (clear IH; split; done).
    rewrite andb_true_iff, IHl, (IH x y). clear IH IHl. split; [intros [] | intros [=]]; subst; auto.
  - transitivity (l = m); [| clear IH; split; congruence].
    revert m. induction l as [| [k x] l IHl]; intros [| [k' y] m]; try (clear IH; split; done).
    rewrite !andb_true_iff, IHl, bool_decide_eq_true, (IH x y). clear IH IHl.
    split; [intros [[] ?] | intros [=]]; subst; auto.
Qed.

#[export] Instance json_eq_dec : EqDecision json.
Proof.
  refine (fun a b => match json_eqb a b as r return json_eqb a b = r -> _ with
                     | true => fun H => left (proj1 (json_eqb_spec a b) H)
                     | false => fun H => right _
                     end eq_refl).
  intros E%json_eqb_spec. congruence.
Defined.

#[export] Instance Q_eq_dec : EqDecision Q.
Proof. solve_decision. Defined.

(** A stored value; [VNull] is SQL's NULL, which differs from the JSON document
    [null].  A [Numeric(12, 2)] is its number of hundredths. *)
Inductive value : Type :=
| VNull
| VInt (z : Z)
| VStr (s : str)
| VBool (b : bool)
| VTime (t : datetime)
| VFloat (q : Q)
| VNumeric (cents : Z)
| VJson (j : json)
| VBytes (b : pybytes).
#[export] Instance value_eq_dec : EqDecision value.
Proof. solve_decision. Defined.

(** The column types of the revisions; every [DateTime] is one with a time
    zone. *)
Inductive coltype : Type :=
| Integer
| Str (n : Z)
| Boolean
| DateTime
| Float
| Numeric (precision scale : Z)
| JSON
| Text
| LargeBinary.
#[export] Instance coltype_eq_dec : EqDecision coltype.
Proof. solve_decision. Defined.

(** The values a column of the type stores: 32-bit integers, texts in the
    server's encoding that fit the declared length, JSON documents. *)
Definition has_type (ty : coltype) (v : value) : bool :=
  match ty, v with
  | Integer, VInt z => (- 2 ^ 31 <=? z) && (z <? 2 ^ 31)
  | Str n, VStr s => (len s <=? n) && bool_decide (is_Some (utf8_encode s))
  | Text, VStr s => bool_decide (is_Some (utf8_encode s))
  | Boolean, VBool _ | DateTime, VTime _ | Float, VFloat _ | JSON, VJson _
  | LargeBinary, VBytes _ => true
  | Numeric p s, VNumeric z => (s =? 2) && (Z.abs z <? 10 ^ p)
  | _, _ => false
  end.

(** ** The catalog *)

Record column : Type := Column {
  c_type : coltype;
  c_nullable : bool;
  c_default : option value;
}.
#[export] Instance column_eq_dec : EqDecision column.
Proof. solve_decision. Defined.
#[export] Instance eta_column : Eta column := fun r => Column (c_type r) (c_nullable r) (c_default r).

(** The conditions of the CHECK constraints; each is on one column. *)
Inductive predicate : Type :=
| IsIn (l : list str)
| Equals (v : value)
| AtLeast (z : Z)
| Above (z : Z).
#[export] Instance predicate_eq_dec : EqDecision predicate.
Proof. solve_decision. Defined.

Record check : Type := Check { ck_column : string; ck_predicate : predicate }.
#[export] Instance check_eq_dec : EqDecision check.
Proof. solve_decision. Defined.

Inductive ondelete : Type := CASCADE | SET_NULL.
#[export] Instance ondelete_eq_dec : EqDecision ondelete.
Proof. solve_decision. Defined.

Record foreign_key : Type := ForeignKey {
  fk_column : string;
  fk_table : string;
  fk_ref : string;
  fk_ondelete : ondelete;
}.
#[export] Instance foreign_key_eq_dec : EqDecision foreign_key.
Proof. solve_decision. Defined.

Record index : Type := Index {
  ix_columns : list string;
  ix_unique : bool;
  ix_where : option check;
}.
#[export] Instance index_eq_dec : EqDecision index.
Proof. solve_decision. Defined.

Record relation : Type := Relation {
  columns : gmap string column;
  primary_key : list string;
  uniques : gmap string (list string);
  checks : gmap string check;
  foreign_keys : gmap string foreign_key;
  indexes : gmap string index;
  triggers : gmap string string;
}.
#[export] Instance relation_eq_dec : EqDecision relation.
Proof. solve_decision. Defined.
#[export] Instance eta_relation : Eta relation := fun r =>
  Relation (columns r) (primary_key r) (uniques r) (checks r) (foreign_keys r) (indexes r) (triggers r).

Record catalog : Type := Catalog {
  relations : gmap string relation;
  functions : gset string;
}.
#[export] Instance catalog_eq_dec : EqDecision catalog.
Proof. solve_decision. Defined.
#[export] Instance eta_catalog : Eta catalog := fun r => Catalog (relations r) (functions r).

Definition empty_catalog : catalog := Catalog ∅ ∅.

(** ** Rows *)

Abbreviation row := (gmap string value).

(** The rows of a table and the generator behind its integer key. *)
Record heap : Type := Heap { tuples : list row; serial : Z }.
#[export] Instance heap_eq_dec : EqDecision heap.
Proof. solve_decision. Defined.

Abbreviation contents := (gmap string heap).

Record database : Type := Database { db_catalog : catalog; db_contents : contents }.
#[export] Instance database_eq_dec : EqDecision database.
Proof. solve_decision. Defined.

Definition cell (r : row) (c : string) : value := default VNull (r !! c).
Definition rows_of (con : contents) (t : string) : list row := from_option tuples [] (con !! t).

(** SQL's three-valued condition; [None] is unknown. *)
Definition eval_predicate (p : predicate) (v : value) : option bool :=
  match v with
  | VNull => None
  | _ => Some match p, v with
              | IsIn l, VStr s => bool_decide (s ∈ l)
              | Equals w, _ => bool_decide (v = w)
              | AtLeast z, VInt n => z <=? n
              | AtLeast z, VNumeric n => z * 100 <=? n
              | Above z, VInt n => z <? n
              | _, _ => false
              end
  end.

(** A CHECK constraint is violated only when its condition is false. *)
Definition admits (p : predicate) (v : value) : Prop := eval_predicate p v <> Some false.
#[export] Instance admits_dec p v : Decision (admits p v).
Proof. unfold admits. apply _. Defined.

Definition check_holds (r : row) (ck : check) : Prop :=
  admits (ck_predicate ck) (cell r (ck_column ck)).
#[export] Instance check_holds_dec r ck : Decision (check_holds r ck).
Proof. unfold check_holds. apply _. Defined.

Definition cell_ok (col : column) (v : value) : Prop :=
  if decide (v = VNull) then c_nullable col = true else has_type (c_type col) v = true.
#[export] Instance cell_ok_dec col v : Decision (cell_ok col v).
Proof. unfold cell_ok. case_decide; apply _. Defined.

Definition row_ok (rel : relation) (r : row) : Prop :=
  map_Forall (fun c col => cell_ok col (cell r c)) (columns rel) /\
  map_Forall (fun c _ => is_Some (columns rel !! c)) r /\
  map_Forall (fun _ ck => check_holds r ck) (checks rel).
#[export] Instance row_ok_dec rel r : Decision (row_ok rel r).
Proof. unfold row_ok. apply _. Defined.

(** What a unique constraint or index compares: the columns of the key when
    none is NULL and, for a partial index, its condition is true. *)
Definition key_of (cond : option check) (key : list string) (r : row) : option (list value) :=
  let vs := cell r <$> key in
  if bool_decide (VNull ∈ vs) then None
  else match cond with
       | None => Some vs
       | Some ck => if bool_decide (eval_predicate (ck_predicate ck) (cell r (ck_column ck)) = Some true)
                    then Some vs else None
       end.

Definition unique_on (cond : option check) (key : list string) (rs : list row) : Prop :=
  NoDup (omap (key_of cond key) rs).
#[export] Instance unique_on_dec cond key rs : Decision (unique_on cond key rs).
Proof. unfold unique_on. apply _. Defined.

Definition refers (con : contents) (fk : foreign_key) (r : row) : Prop :=
  cell r (fk_column fk) = VNull \/
  Exists (fun r' => cell r' (fk_ref fk) = cell r (fk_column fk)) (rows_of con (fk_table fk)).
#[export] Instance refers_dec con fk r : Decision (refers con fk r).
Proof. unfold refers. apply _. Defined.

Record rows_ok (con : contents) (rel : relation) (rs : list row) : Prop := RowsOk {
  ok_rows : Forall (row_ok rel) rs;
  ok_key : primary_key rel <> [] -> unique_on None (primary_key rel) rs;
  ok_uniques : map_Forall (fun _ key => unique_on None key rs) (uniques rel);
  ok_indexes : map_Forall (fun _ ix => ix_unique ix = true -> unique_on (ix_where ix) (ix_columns ix) rs)
                 (indexes rel);
  ok_references : map_Forall (fun _ fk => Forall (refers con fk) rs) (foreign_keys rel);
}.
#[export] Instance rows_ok_dec con rel rs : Decision (rows_ok con rel rs).
Proof.
  refine (cast_if (decide (Forall (row_ok rel) rs /\ (primary_key rel <> [] -> unique_on None (primary_key rel) rs) /\
    map_Forall (fun _ key => unique_on None key rs) (uniques rel) /\
    map_Forall (fun _ ix => ix_unique ix = true -> unique_on (ix_where ix) (ix_columns ix) rs) (indexes rel) /\
    map_Forall (fun _ fk => Forall (refers con fk) rs) (foreign_keys rel))));
    [split; naive_solver | intros []; naive_solver].
Defined.

(** The rows of a database satisfy its catalog, table by table. *)
Definition conforms (db : database) : Prop :=
  map_Forall (fun t rel => rows_ok (db_contents db) rel (rows_of (db_contents db) t))
    (relations (db_catalog db)) /\
  dom (db_contents db) = dom (relations (db_catalog db)).
#[export] Instance conforms_dec db : Decision (conforms db).
Proof. unfold conforms. apply _. Defined.

(** ** Operations *)

Inductive db_error : Type :=
| DuplicateTable (t : string)
| UndefinedTable (t : string)
| DuplicateColumn (c : string)
| UndefinedColumn (c : string)
| DuplicateObject (name : string)
| UndefinedObject (name : string)
| DependentObjects (t : string)
| NotNullViolation (c : string)
| CheckViolation (name : string)
| ForeignKeyViolation (name : string)
| UniqueViolation (name : string)
| IntegrityError
| TriggerRaised (t : string)
| RuntimeError (message : string)
| ValueError.

(** What the call of [op.create_table] lists after the table's name. *)
Inductive item : Type :=
| Col (name : string) (ty : coltype) (nullable : bool) (default : option value)
| KeyCol (name : string) (ty : coltype)
| UniqueConstraint (name : option string) (cols : list string)
| CheckConstraint (name : string) (ck : check)
| ForeignKeyConstraint (name : option string) (fk : foreign_key).

Inductive constraint_type : Type := unique_ | check_ | foreignkey_.

(** A statement on rows: what it inserts or assigns may depend on the rows
    stored when it runs. *)
Inductive stmt : Type :=
| Insert (t : string) (values : contents -> list row)
| Update (t : string) (cond : row -> bool) (assign : contents -> row -> list (string * value)).

Inductive op : Type :=
| CreateTable (t : string) (items : list item)
| DropTable (t : string)
| AddColumn (t c : string) (col : column)
| DropColumn (t c : string)
| AlterColumn (t c : string) (nullable : bool)
| CreateIndex (name t : string) (ix : index)
| DropIndex (name t : string)
| AddUnique (name t : string) (cols : list string)
| AddCheck (name t : string) (ck : check)
| AddForeignKey (name t : string) (fk : foreign_key)
| DropConstraint (name t : string) (type_ : constraint_type)
| CreateFunction (name : string)
| DropFunction (name : string)
| CreateTrigger (name t function : string)
| DropTrigger (name t : string)
| Execute (script : contents -> res db_error (list stmt))
| Require_ (refused : contents -> bool) (message : string).

(** The name the server gives an unnamed constraint. *)
Definition joined (l : list string) : string := foldr (fun c s => String.append "_" (String.append c s)) "" l.
Definition unique_name (t : string) (cols : list string) : string := String.append t (String.append (joined cols) "_key").
Definition foreign_key_name (t c : string) : string := String.append t (String.append "_" (String.append c "_fkey")).

(** Tables, indexes and the indexes behind unique constraints share one name
    space; the constraints of a table have another. *)
Definition new_relation_name (cat : catalog) (name : string) : Prop :=
  relations cat !! name = None /\
  map_Forall (fun _ rel => uniques rel !! name = None /\ indexes rel !! name = None) (relations cat).
#[export] Instance new_relation_name_dec cat name : Decision (new_relation_name cat name).
Proof. unfold new_relation_name. apply _. Defined.

Definition new_constraint_name (rel : relation) (name : string) : Prop :=
  uniques rel !! name = None /\ checks rel !! name = None /\ foreign_keys rel !! name = None.
#[export] Instance new_constraint_name_dec rel name : Decision (new_constraint_name rel name).
Proof. unfold new_constraint_name. apply _. Defined.

Definition fresh {A} (P : Prop) `{Decision P} (name : string) (k : res db_error A) : res db_error A :=
  if decide P then k else Raise (DuplicateObject name).

Definition lookup_table (cat : catalog) (t : string) : res db_error relation :=
  match relations cat !! t with Some rel => Ok rel | None => Raise (UndefinedTable t) end.

Definition has_columns {A} (rel : relation) (cs : list string) (k : res db_error A) : res db_error A :=
  match filter (fun c => columns rel !! c = None) cs with
  | [] => k
  | c :: _ => Raise (UndefinedColumn c)
  end.

Definition set_relation (cat : catalog) (t : string) (rel : relation) : catalog :=
  cat &{ relations := <[t := rel]> (relations cat) }.

Definition empty_relation : relation := Relation ∅ [] ∅ ∅ ∅ ∅ ∅.

Definition add_unique (cat : catalog) (t name : string) (cols : list string) (rel : relation) :
    res db_error relation :=
  has_columns rel cols (fresh (new_relation_name cat name /\ new_constraint_name rel name) name
    (Ok (rel &{ uniques := <[name := cols]> (uniques rel) }))).

Definition add_check (name : string) (ck : check) (rel : relation) : res db_error relation :=
  has_columns rel [ck_column ck] (fresh (new_constraint_name rel name) name
    (Ok (rel &{ checks := <[name := ck]> (checks rel) }))).

(** A foreign key may refer to the table that declares it. *)
Definition add_foreign_key (cat : catalog) (t name : string) (fk : foreign_key) (rel : relation) :
    res db_error relation :=
  target ← (if decide (fk_table fk = t) then Ok rel else lookup_table cat (fk_table fk));
  has_columns target [fk_ref fk] (has_columns rel [fk_column fk] (fresh (new_constraint_name rel name) name
    (Ok (rel &{ foreign_keys := <[name := fk]> (foreign_keys rel) })))).

Definition add_column (c : string) (col : column) (rel : relation) : res db_error relation :=
  match columns rel !! c with
  | Some _ => Raise (DuplicateColumn c)
  | None => Ok (rel &{ columns := <[c := col]> (columns rel) })
  end.

Definition add_item (cat : catalog) (t : string) (rel : relation) (i : item) : res db_error relation :=
  match i with
  | Col c ty nullable d => add_column c (Column ty nullable d) rel
  | KeyCol c ty =>
      rel' ← add_column c (Column ty false None) rel;
      Ok (rel' &{ primary_key := primary_key rel' ++ [c] })
  | UniqueConstraint name cols => add_unique cat t (default (unique_name t cols) name) cols rel
  | CheckConstraint name ck => add_check name ck rel
  | ForeignKeyConstraint name fk =>
      add_foreign_key cat t (default (foreign_key_name t (fk_column fk)) name) fk rel
  end.

Fixpoint add_items (cat : catalog) (t : string) (items : list item) (rel : relation) :
    res db_error relation :=
  match items with
  | [] => Ok rel
  | i :: items' => rel' ← add_item cat t rel i; add_items cat t items' rel'
  end.

(** No other table has a foreign key to the table; none has one to the
    column. *)
Definition unreferenced (cat : catalog) (t : string) : Prop :=
  map_Forall (fun t' rel => t' <> t -> map_Forall (fun _ fk => fk_table fk <> t) (foreign_keys rel))
    (relations cat).
#[export] Instance unreferenced_dec cat t : Decision (unreferenced cat t).
Proof. unfold unreferenced. apply _. Defined.

Definition unreferenced_column (cat : catalog) (t c : string) : Prop :=
  map_Forall (fun _ rel => map_Forall (fun _ fk => fk_table fk = t -> fk_ref fk <> c) (foreign_keys rel))
    (relations cat).
#[export] Instance unreferenced_column_dec cat t c : Decision (unreferenced_column cat t c).
Proof. unfold unreferenced_column. apply _. Defined.

(** [ALTER TABLE ... DROP COLUMN] takes the indexes and constraints that use
    the column with it. *)
Definition without_column (c : string) (rel : relation) : relation :=
  {| columns := delete c (columns rel);
     primary_key := if decide (c ∈ primary_key rel) then [] else primary_key rel;
     uniques := filter (fun nk => c ∉ nk.2) (uniques rel);
     checks := filter (fun nk => ck_column nk.2 <> c) (checks rel);
     foreign_keys := filter (fun nk => fk_column nk.2 <> c) (foreign_keys rel);
     indexes := filter (fun nk => c ∉ ix_columns nk.2 /\ (ck_column <$> ix_where nk.2) <> Some c)
                  (indexes rel);
     triggers := triggers rel |}.

Definition drop_constraint (name : string) (type_ : constraint_type) (rel : relation) :
    res db_error relation :=
  match type_ with
  | unique_ => if decide (is_Some (uniques rel !! name))
               then Ok (rel &{ uniques := delete name (uniques rel) })
               else Raise (UndefinedObject name)
  | check_ => if decide (is_Some (checks rel !! name))
              then Ok (rel &{ checks := delete name (checks rel) })
              else Raise (UndefinedObject name)
  | foreignkey_ => if decide (is_Some (foreign_keys rel !! name))
                   then Ok (rel &{ foreign_keys := delete name (foreign_keys rel) })
                   else Raise (UndefinedObject name)
  end.

(** The table an operation works on, for the operations on one table. *)
Definition op_table (o : op) : string :=
  match o with
  | CreateTable t _ | DropTable t | AddColumn t _ _ | DropColumn t _ | AlterColumn t _ _
  | CreateIndex _ t _ | DropIndex _ t | AddUnique _ t _ | AddCheck _ t _ | AddForeignKey _ t _
  | DropConstraint _ t _ | CreateTrigger _ t _ | DropTrigger _ t => t
  | CreateFunction _ | DropFunction _ | Execute _ | Require_ _ _ => ""
  end.

(** What an [ALTER TABLE], or an operation on an index or a trigger, does to
    its table. *)
Definition edit (o : op) (cat : catalog) (rel : relation) : res db_error relation :=
  match o with
  | AddColumn t c col => add_column c col rel
  | DropColumn t c =>
      has_columns rel [c]
        (if decide (unreferenced_column cat t c) then Ok (without_column c rel)
         else Raise (DependentObjects t))
  | AlterColumn t c nullable =>
      has_columns rel [c]
        (Ok (rel &{ columns := alter (fun col => col &{ c_nullable := nullable }) c (columns rel) }))
  | CreateIndex name t ix =>
      has_columns rel (ix_columns ix ++ option_list (ck_column <$> ix_where ix))
        (fresh (new_relation_name cat name) name (Ok (rel &{ indexes := <[name := ix]> (indexes rel) })))
  | DropIndex name t =>
      if decide (is_Some (indexes rel !! name)) then Ok (rel &{ indexes := delete name (indexes rel) })
      else Raise (UndefinedObject name)
  | AddUnique name t cols => add_unique cat t name cols rel
  | AddCheck name t ck => add_check name ck rel
  | AddForeignKey name t fk => add_foreign_key cat t name fk rel
  | DropConstraint name t type_ => drop_constraint name type_ rel
  | CreateTrigger name t function =>
      if decide (function ∈ functions cat) then
        fresh (triggers rel !! name = None) name (Ok (rel &{ triggers := <[name := function]> (triggers rel) }))
      else Raise (UndefinedObject function)
  | DropTrigger name t => Ok (rel &{ triggers := delete name (triggers rel) })
  | _ => Ok rel
  end.

(** What an operation does to the catalog. *)
Definition alter_catalog (o : op) (cat : catalog) : res db_error catalog :=
  match o with
  | CreateTable t items =>
      if decide (new_relation_name cat t) then
        rel ← add_items cat t items empty_relation; Ok (set_relation cat t rel)
      else Raise (DuplicateTable t)
  | DropTable t =>
      _ ← lookup_table cat t;
      if decide (unreferenced cat t) then Ok (cat &{ relations := delete t (relations cat) })
      else Raise (DependentObjects t)
  | CreateFunction name => fresh (name ∉ functions cat) name (Ok (cat &{ functions := {[name]} ∪ functions cat }))
  | DropFunction name =>
      if decide (map_Forall (fun _ rel => map_Forall (fun _ f => f <> name) (triggers rel)) (relations cat))
      then Ok (cat &{ functions := functions cat ∖ {[name]} })
      else Raise (DependentObjects name)
  | Execute _ | Require_ _ _ => Ok cat
  | _ =>
      rel ← lookup_table cat (op_table o); rel' ← edit o cat rel;
      Ok (set_relation cat (op_table o) rel')
  end.

Definition on_rows (f : list row -> list row) (h : heap) : heap := Heap (f (tuples h)) (serial h).

(** What an operation other than [Execute] does to the stored rows. *)
Definition move (o : op) (con : contents) : contents :=
  match o with
  | CreateTable t _ => <[t := Heap [] 1]> con
  | DropTable t => delete t con
  | AddColumn t c col => alter (on_rows (fmap (insert c (default VNull (c_default col))))) t con
  | DropColumn t c => alter (on_rows (fmap (delete c))) t con
  | _ => con
  end.

(** What the server verifies on the stored rows before it accepts the
    operation, and the error when it does not hold. *)
Definition validates (o : op) (con : contents) : Prop :=
  match o with
  | AddColumn t _ col => rows_of con t = [] \/ cell_ok col (default VNull (c_default col))
  | AlterColumn t c nullable => nullable = true \/ Forall (fun r => cell r c <> VNull) (rows_of con t)
  | CreateIndex _ t ix => ix_unique ix = true -> unique_on (ix_where ix) (ix_columns ix) (rows_of con t)
  | AddUnique _ t cols => unique_on None cols (rows_of con t)
  | AddCheck _ t ck => Forall (fun r => check_holds r ck) (rows_of con t)
  | AddForeignKey _ t fk => Forall (refers con fk) (rows_of con t)
  | Require_ refused _ => refused con = false
  | _ => True
  end.
#[export] Instance validates_dec o con : Decision (validates o con).
Proof. destruct o; cbn; apply _. Defined.

Definition violation (o : op) : db_error :=
  match o with
  | AddColumn _ c _ | AlterColumn _ c _ => NotNullViolation c
  | CreateIndex name _ _ | AddUnique name _ _ => UniqueViolation name
  | AddCheck name _ _ => CheckViolation name
  | AddForeignKey name _ _ => ForeignKeyViolation name
  | Require_ _ message => RuntimeError message
  | _ => IntegrityError
  end.

(** *** Statements *)

(** The integer key the server numbers: a single integer column that is not a
    foreign key. *)
Definition serial_key (rel : relation) : option string :=
  match primary_key rel with
  | [k] => if decide (c_type <$> columns rel !! k = Some Integer /\
                      map_Forall (fun _ fk => fk_column fk <> k) (foreign_keys rel))
           then Some k else None
  | _ => None
  end.

(** One inserted row: the given cells, the next key, the declared defaults. *)
Definition fill (rel : relation) (h : heap) (given : row) : heap :=
  let '(given', next) :=
    match serial_key rel with
    | Some k => if decide (given !! k = None) then (<[k := VInt (serial h)]> given, serial h + 1)
                else (given, serial h)
    | None => (given, serial h)
    end in
  Heap (tuples h ++ [given' ∪ ((fun col => default VNull (c_default col)) <$> columns rel)]) next.

Definition assign_all (l : list (string * value)) (r : row) : row := foldr (fun cv => insert cv.1 cv.2) r l.

Definition updated (cond : row -> bool) (f : row -> list (string * value)) (r : row) : row :=
  if cond r then assign_all (f r) r else r.

(** The rows a statement leaves. *)
Definition effect (s : stmt) (rel : relation) (con : contents) : contents :=
  match s with
  | Insert t values => alter (fun h => foldl (fill rel) h (values con)) t con
  | Update t cond f => alter (on_rows (fmap (updated cond (f con)))) t con
  end.

Definition stmt_table (s : stmt) : string := match s with Insert t _ | Update t _ _ => t end.

(** The triggers of the revisions reject every change of a stored row. *)
Definition rejected (s : stmt) (rel : relation) (con : contents) : bool :=
  match s with
  | Insert _ _ => false
  | Update t cond _ => negb (bool_decide (triggers rel = ∅)) && existsb cond (rows_of con t)
  end.

Definition exec (s : stmt) (db : database) : res db_error database :=
  rel ← lookup_table (db_catalog db) (stmt_table s);
  if rejected s rel (db_contents db) then Raise (TriggerRaised (stmt_table s))
  else
    let db' := Database (db_catalog db) (effect s rel (db_contents db)) in
    if decide (conforms db') then Ok db' else Raise IntegrityError.

Fixpoint exec_all (l : list stmt) (db : database) : res db_error database :=
  match l with
  | [] => Ok db
  | s :: l' => db' ← exec s db; exec_all l' db'
  end.

(** One operation of a revision. *)
Definition step (o : op) (db : database) : res db_error database :=
  match o with
  | Execute script => l ← script (db_contents db); exec_all l db
  | _ =>
      cat ← alter_catalog o (db_catalog db);
      if decide (validates o (db_contents db)) then Ok (Database cat (move o (db_contents db)))
      else Raise (violation o)
  end.

(** The body of [upgrade] or [downgrade]. *)
Fixpoint run (ops : list op) (db : database) : res db_error database :=
  match ops with
  | [] => Ok db
  | o :: ops' => db' ← step o db; run ops' db'
  end.

(** ** Every constraint is on columns that exist *)

Inductive mentions (t : string) (rel : relation) : string -> string -> Prop :=
| mentions_key c : c ∈ primary_key rel -> mentions t rel t c
| mentions_unique n key c : uniques rel !! n = Some key -> c ∈ key -> mentions t rel t c
| mentions_check n ck : checks rel !! n = Some ck -> mentions t rel t (ck_column ck)
| mentions_index n ix c : indexes rel !! n = Some ix -> c ∈ ix_columns ix -> mentions t rel t c
| mentions_where n ix ck : indexes rel !! n = Some ix -> ix_where ix = Some ck -> mentions t rel t (ck_column ck)
| mentions_fk n fk : foreign_keys rel !! n = Some fk -> mentions t rel t (fk_column fk)
| mentions_ref n fk : foreign_keys rel !! n = Some fk -> mentions t rel (fk_table fk) (fk_ref fk).

Definition has_column (cat : catalog) (t c : string) : Prop :=
  exists rel, relations cat !! t = Some rel /\ is_Some (columns rel !! c).

Definition closed (cat : catalog) (t : string) (rel : relation) : Prop :=
  forall t' c, mentions t rel t' c -> has_column cat t' c.

Definition wf_catalog (cat : catalog) : Prop :=
  forall t rel, relations cat !! t = Some rel -> closed cat t rel.

Lemma wf_empty : wf_catalog empty_catalog.
Proof. by intros t rel ?. Qed.

Lemma has_columns_ok {A} rel cs (k : res db_error A) a :
  has_columns rel cs k = Ok a <-> Forall (fun c => is_Some (columns rel !! c)) cs /\ k = Ok a.
Proof.
  unfold has_columns. split.
  - destruct (filter _ cs) as [| c l] eqn:Hf; [| done]. intros H. split; [| done].
    apply list.Forall_forall. intros c Hc. destruct (columns rel !! c) eqn:E; [eauto |].
    assert (c ∈ filter (fun c => columns rel !! c = None) cs) as Hin by (apply list_elem_of_filter; done).
    rewrite Hf in Hin. inversion Hin.
  - intros [Hall Hk]. destruct (filter _ cs) as [| c l] eqn:Hf; [done |].
    assert (c ∈ filter (fun c => columns rel !! c = None) cs) as Hin by (rewrite Hf; left).
    apply list_elem_of_filter in Hin as [Hn Hc].
    rewrite list.Forall_forall in Hall. destruct (Hall c Hc). congruence.
Qed.

Lemma fresh_ok {A} P `{Decision P} n (k : res db_error A) a : fresh P n k = Ok a <-> P /\ k = Ok a.
Proof. unfold fresh. case_decide; naive_solver. Qed.

Lemma lookup_table_ok cat t rel : lookup_table cat t = Ok rel <-> relations cat !! t = Some rel.
Proof. unfold lookup_table. destruct (relations cat !! t); naive_solver. Qed.

Lemma relations_set cat t rel t' :
  relations (set_relation cat t rel) !! t' = if decide (t = t') then Some rel else relations cat !! t'.
Proof. apply lookup_insert. Qed.

Lemma has_column_set cat t rel t' c :
  has_column (set_relation cat t rel) t' c <->
  if decide (t = t') then is_Some (columns rel !! c) else has_column cat t' c.
Proof.
  unfold has_column. rewrite relations_set. case_decide; [| done]. split; [by intros (? & [= <-] & ?) | eauto].
Qed.

(** Every primitive edit adds mentions of columns it has looked up. *)
Ltac undo_edit :=
  repeat match goal with
  | H : _ ≫= _ = Ok _ |- _ => apply res_bind_ok in H as (? & ? & H)
  | H : has_columns _ _ _ = Ok _ |- _ => apply has_columns_ok in H as [? H]
  | H : fresh _ _ _ = Ok _ |- _ => apply fresh_ok in H as [? H]
  | H : lookup_table _ _ = Ok _ |- _ => apply lookup_table_ok in H
  | H : Ok _ = Ok _ |- _ => injection H as <-
  | H : Raise _ = Ok _ |- _ => discriminate H
  | H : (if decide ?P then _ else _) = Ok _ |- _ => destruct (decide P)
  | H : match ?x with Some _ => _ | None => _ end = Ok _ |- _ => destruct x eqn:?
  end.

Ltac inv_mentions :=
  intros ? ? Hm; destruct Hm; upd_simpl;
  repeat match goal with
  | H : <[_ := _]> _ !! _ = Some _ |- _ => apply lookup_insert_Some in H as [[<- <-] | [? H]]
  | H : delete _ _ !! _ = Some _ |- _ => apply lookup_delete_Some in H as [? H]
  end.

Lemma closed_mono cat t rel rel' :
  closed (set_relation cat t rel) t rel ->
  (forall c, is_Some (columns rel !! c) -> is_Some (columns rel' !! c)) ->
  (forall t' c, mentions t rel' t' c -> mentions t rel t' c \/
     has_column (set_relation cat t rel') t' c) ->
  closed (set_relation cat t rel') t rel'.
Proof.
  intros Hc Hmono Hm t' c [H | H]%Hm; [| done]. apply Hc in H. rewrite has_column_set in *.
  case_decide; eauto.
Qed.

(** [grows t rel rel']: what [rel'] adds to [rel] is on columns that exist. *)
Definition grows (cat : catalog) (t : string) (rel rel' : relation) : Prop :=
  (forall c, is_Some (columns rel !! c) -> is_Some (columns rel' !! c)) /\
  (forall t' c, mentions t rel' t' c -> mentions t rel t' c \/ has_column (set_relation cat t rel') t' c).

Create HintDb schema discriminated.
#[export] Hint Constructors mentions : schema.
Ltac known := left; solve [eauto with schema nocore].
Ltac looked_up :=
  right; apply has_column_set; rewrite decide_True by done; upd_simpl;
  repeat match goal with H : Forall _ _ |- _ => rewrite list.Forall_forall in H end; eauto.

Lemma add_column_grows cat t c col rel rel' : add_column c col rel = Ok rel' -> grows cat t rel rel'.
Proof.
  unfold add_column. intros H. undo_edit. split; upd_simpl.
  - intros c' ?. rewrite lookup_insert. case_decide; eauto.
  - inv_mentions; known.
Qed.

Lemma add_unique_grows cat t n cols rel rel' : add_unique cat t n cols rel = Ok rel' -> grows cat t rel rel'.
Proof.
  unfold add_unique. intros H. undo_edit. split; [done |]. inv_mentions; try known.
  looked_up.
Qed.

Lemma add_check_grows cat t n ck rel rel' : add_check n ck rel = Ok rel' -> grows cat t rel rel'.
Proof.
  unfold add_check. intros H. undo_edit. split; [done |]. inv_mentions; try known.
  looked_up. set_solver.
Qed.

Lemma add_foreign_key_grows cat t n fk rel rel' : add_foreign_key cat t n fk rel = Ok rel' -> grows cat t rel rel'.
Proof.
  unfold add_foreign_key. intros H. undo_edit; split; try done; inv_mentions; try known;
    repeat match goal with H : Forall _ [_] |- _ => apply (proj1 (list.Forall_singleton _ _)) in H end;
    right; apply has_column_set.
  - by rewrite decide_True.
  - by rewrite decide_True.
  - by rewrite decide_True.
  - rewrite decide_False by congruence. eexists. eauto.
Qed.

Lemma grows_refl cat t rel : grows cat t rel rel.
Proof. split; eauto. Qed.

Lemma grows_trans cat t rel rel' rel'' : grows cat t rel rel' -> grows cat t rel' rel'' -> grows cat t rel rel''.
Proof.
  intros [Hc Hm] [Hc' Hm']. split; [eauto |]. intros t' c [H | H]%Hm'; [| eauto].
  apply Hm in H as [H | H]; [eauto |]. right. rewrite has_column_set in *. case_decide; eauto.
Qed.

Lemma add_items_grows cat t items rel rel' : add_items cat t items rel = Ok rel' -> grows cat t rel rel'.
Proof.
  revert rel; induction items as [| i items IH]; intros rel H; cbn in H.
  { injection H as <-. apply grows_refl. }
  apply res_bind_ok in H as (rel1 & Hi & H). eapply grows_trans; [| by apply IH].
  destruct i; cbn in Hi; eauto using add_column_grows, add_unique_grows, add_check_grows, add_foreign_key_grows.
  apply res_bind_ok in Hi as (rel2 & Hc & [= <-]). pose proof Hc as Hcol.
  apply (add_column_grows cat t) in Hc as [Hmono Hm]. split; [done |].
  intros t' c Hm'. destruct Hm'; upd_simpl;
    try match goal with H : _ ∈ _ ++ _ |- _ => apply elem_of_app in H as [? | ->%list_elem_of_singleton] end;
    try (match goal with |- mentions _ _ ?a ?b \/ _ => destruct (Hm a b) as [? | ?] end;
         [solve [eauto with schema nocore] | by left |
          right; by rewrite !has_column_set in * ]).
  right. apply has_column_set. rewrite decide_True by done. unfold add_column in Hcol. undo_edit. cbn.
  rewrite lookup_insert_eq. done.
Qed.

Definition drops (o : op) : bool := match o with DropColumn _ _ => true | _ => false end.

Lemma edit_grows o cat rel rel' :
  drops o = false -> edit o cat rel = Ok rel' -> grows cat (op_table o) rel rel'.
Proof.
  intros Hd H. destruct o; try discriminate Hd; cbn [edit op_table] in *;
    try (injection H as <-; apply grows_refl);
    eauto using add_column_grows, add_unique_grows, add_check_grows, add_foreign_key_grows.
  - undo_edit. split; upd_simpl.
    + intros c' ?. rewrite lookup_alter_is_Some. done.
    + inv_mentions; known.
  - undo_edit. split; [done |]. apply Forall_app in H0 as [Hcols Hwhere]. inv_mentions; try known; right;
      apply has_column_set; rewrite decide_True by done.
    + rewrite list.Forall_forall in Hcols. eauto.
    + match goal with H : ix_where _ = _ |- _ => rewrite H in Hwhere end. by apply (proj1 (list.Forall_singleton _ _)) in Hwhere.
  - undo_edit. split; [done |]. inv_mentions; known.
  - unfold drop_constraint in H. destruct type_; undo_edit; (split; [done |]; inv_mentions; known).
  - undo_edit. split; [done |]. inv_mentions; known.
  - undo_edit. split; [done |]. inv_mentions; known.
Qed.

Lemma set_relation_id cat t rel : relations cat !! t = Some rel -> set_relation cat t rel = cat.
Proof. intros H. destruct cat as [rels fs]. unfold set_relation. cbn in *. by rewrite insert_id. Qed.

Lemma wf_set cat t rel rel' :
  wf_catalog cat -> relations cat !! t = Some rel -> grows cat t rel rel' -> wf_catalog (set_relation cat t rel').
Proof.
  intros Hwf Hrel [Hc Hm]. assert (forall t' c, has_column cat t' c -> has_column (set_relation cat t rel') t' c) as Hmono.
  { intros t' c (r & Hr & Hcol). apply has_column_set. case_decide; [subst; simplify_eq; eauto | by exists r]. }
  intros t' r. rewrite relations_set. case_decide; [intros [= <-] | intros Hr]; subst.
  - intros t'' c [H | H]%Hm; [| done]. eapply Hmono, Hwf; eauto.
  - intros t'' c H'. eapply Hmono, Hwf; eauto.
Qed.

Lemma without_column_mentions t c rel t' c' :
  mentions t (without_column c rel) t' c' ->
  mentions t rel t' c' /\ ((t' = t /\ c' <> c) \/ exists n fk, foreign_keys rel !! n = Some fk /\ t' = fk_table fk /\ c' = fk_ref fk).
Proof.
  intros Hm. destruct Hm; cbn in *;
    repeat match goal with
    | H : filter _ _ !! _ = Some _ |- _ => apply map_lookup_filter_Some in H as [H ?]
    | H : _ ∈ (if decide _ then _ else _) |- _ => case_decide; [by apply not_elem_of_nil in H |]
    end; cbn in *; (split; [eauto with schema nocore |]);
    try (left; split; [done |]; intros <-; naive_solver); [| by right; eauto].
  left. split; [done |]. intros Heq. destruct H1 as [_ H1]. apply H1. rewrite H0. cbn. congruence.
Qed.

Lemma alter_wf o cat cat' : wf_catalog cat -> alter_catalog o cat = Ok cat' -> wf_catalog cat'.
Proof.
  intros Hwf H. destruct (drops o) eqn:Hd.
  { destruct o as [| | |t c| | | | | | | | | | | | |]; try discriminate Hd. cbn [alter_catalog op_table edit] in H.
    undo_edit. rename x into rel. intros t' r. rewrite relations_set.
    assert (forall t' c', has_column cat t' c' -> (t', c') <> (t, c) ->
              has_column (set_relation cat t (without_column c rel)) t' c') as Hmono.
    { intros ? ? (r' & Hr' & Hc') Hne. apply has_column_set. case_decide; [subst; simplify_eq | by exists r'].
      cbn. rewrite lookup_delete_ne by naive_solver. done. }
    case_decide; [intros [= <-] | intros Hr]; subst; intros t'' c'' Hm.
    - apply without_column_mentions in Hm as [Hm Hc]. apply Hmono; [eapply Hwf; eauto |].
      destruct Hc as [[-> ?] | (n & fk & Hfk & -> & ->)]; [naive_solver |].
      intros [= Ht Hc]. by eapply (u _ rel H0 n fk).
    - apply Hmono; [eapply Hwf; eauto |]. intros [= Ht Hc].
      destruct Hm; try congruence. by eapply (u _ r Hr n fk). }
  destruct o; cbn [alter_catalog] in H; try discriminate Hd;
    try (apply res_bind_ok in H as (rel & Hrel%lookup_table_ok & H);
         apply res_bind_ok in H as (rel' & He & [= <-]);
         eapply wf_set; [done | exact Hrel |]; by apply edit_grows in He).
  - undo_edit. apply add_items_grows in H0 as [_ Hm]. intros t' r. rewrite relations_set.
    assert (relations cat !! t = None) as Hnone by apply n.
    case_decide; [intros [= <-] | intros Hr]; subst; intros t'' c Hc.
    + apply Hm in Hc as [Hc | Hc]; [| done]. destruct Hc; cbn in *; set_solver.
    + eapply Hwf in Hc as (r' & Hr' & ?); [| done]. apply has_column_set. case_decide; [simplify_eq | by exists r'].
  - undo_edit. intros t' r Hr t'' c Hm. cbn in Hr. apply lookup_delete_Some in Hr as [Hne Hr].
    assert (t'' <> t) as Hne'.
    { destruct Hm; try done. by eapply (u t' r Hr). }
    eapply Hwf in Hm as (r' & Hr' & ?); [| done]. exists r'. cbn. by rewrite lookup_delete_ne.
  - undo_edit. exact Hwf.
  - undo_edit. exact Hwf.
  - by injection H as <-.
  - by injection H as <-.
Qed.

(** ** Operations that succeed keep the rows conforming *)

Lemma cell_insert c v r c' : cell (<[c := v]> r) c' = if decide (c = c') then v else cell r c'.
Proof. unfold cell. rewrite lookup_insert. by case_decide. Qed.

Lemma cell_delete c r c' : c <> c' -> cell (delete c r) c' = cell r c'.
Proof. intros H. unfold cell. by rewrite lookup_delete_ne. Qed.

Lemma key_of_ext cond key r r' :
  (forall c, c ∈ key \/ (ck_column <$> cond) = Some c -> cell r' c = cell r c) ->
  key_of cond key r' = key_of cond key r.
Proof.
  intros H. unfold key_of. replace (cell r' <$> key) with (cell r <$> key).
  2 : { apply list_fmap_ext. intros i c Hc. symmetry. apply H. left. by eapply list_elem_of_lookup_2. }
  case_bool_decide; [done |]. destruct cond as [ck |]; [| done]. rewrite (H (ck_column ck)); auto.
Qed.

Lemma unique_on_fmap cond key f rs :
  (forall r c, r ∈ rs -> c ∈ key \/ (ck_column <$> cond) = Some c -> cell (f r) c = cell r c) ->
  unique_on cond key rs -> unique_on cond key (f <$> rs).
Proof.
  intros H. unfold unique_on. enough (omap (key_of cond key) (f <$> rs) = omap (key_of cond key) rs) as -> by done.
  induction rs as [| r rs IH]; [done |]. cbn. rewrite (key_of_ext cond key r (f r)).
  - destruct (key_of cond key r); [f_equal |]; apply IH; intros; apply H; auto; by right.
  - intros c Hc. apply H; [left | done].
Qed.

Lemma rows_of_map f t con t' :
  rows_of (alter (on_rows (fmap f)) t con) t' = if decide (t = t') then f <$> rows_of con t' else rows_of con t'.
Proof.
  unfold rows_of. case_decide as Ht; [subst; rewrite lookup_alter_eq | by rewrite lookup_alter_ne].
  by destruct (con !! t').
Qed.

Lemma refers_keeps con con' fk r :
  (forall r', r' ∈ rows_of con (fk_table fk) ->
     exists r'', r'' ∈ rows_of con' (fk_table fk) /\ cell r'' (fk_ref fk) = cell r' (fk_ref fk)) ->
  refers con fk r -> refers con' fk r.
Proof.
  intros H [Hn | He]; [by left |]. right. apply list.Exists_exists in He as (r' & Hin & Hc).
  apply list.Exists_exists. destruct (H r' Hin) as (r'' & ? & ?). exists r''. split; congruence.
Qed.

(** The columns that keys, foreign keys and unique indexes compare. *)
Definition keyed (t : string) (rel : relation) (t' c : string) : Prop :=
  mentions t (rel &{ checks := ∅ }) t' c.

Lemma keyed_mentions t rel t' c : keyed t rel t' c -> mentions t rel t' c.
Proof. intros H. destruct H; cbn in *; by eauto with schema nocore. Qed.

(** [rel'] has no key, index or reference that [rel] lacks. *)
Record shrinks (rel rel' : relation) : Prop := Shrinks {
  sh_key : primary_key rel' = primary_key rel \/ primary_key rel' = [];
  sh_uniques : uniques rel' ⊆ uniques rel;
  sh_indexes : indexes rel' ⊆ indexes rel;
  sh_references : foreign_keys rel' ⊆ foreign_keys rel;
}.

Lemma shrinks_refl rel : shrinks rel rel.
Proof. by split; [left | ..]. Qed.
#[export] Hint Resolve shrinks_refl : schema.

(** Rows of one table rewritten one by one, with no compared cell changed. *)
Lemma remap_conforms cat con t rel rel' f :
  conforms (Database cat con) -> relations cat !! t = Some rel -> shrinks rel rel' ->
  (forall r, r ∈ rows_of con t -> row_ok rel r -> row_ok rel' (f r)) ->
  (forall t0 rel0 c r, relations (set_relation cat t rel') !! t0 = Some rel0 -> keyed t0 rel0 t c ->
     r ∈ rows_of con t -> cell (f r) c = cell r c) ->
  conforms (Database (set_relation cat t rel') (alter (on_rows (fmap f)) t con)).
Proof.
  intros [Hall Hdom] Hrel [Hk Hu Hi Hf] Hrow Hkeep. cbn in *.
  assert (forall t0 rel0 n fk r, relations (set_relation cat t rel') !! t0 = Some rel0 ->
            foreign_keys rel0 !! n = Some fk -> refers con fk r ->
            refers (alter (on_rows (fmap f)) t con) fk r) as Hrefs.
  { intros t0 rel0 n fk r Hrel0 Hfk. apply refers_keeps. intros r' Hr'. rewrite rows_of_map.
    case_decide; [subst | by exists r']. exists (f r'). split; [by apply list_elem_of_fmap_2 |].
    eapply Hkeep; [done | eapply mentions_ref; exact Hfk | done]. }
  split; cbn.
  2 : { rewrite dom_alter_L, Hdom, dom_insert_L. apply elem_of_dom_2 in Hrel. set_solver. }
  intros t0 rel0 Hrel0. rewrite rows_of_map. pose proof Hrel0 as Hr0. rewrite lookup_insert in Hr0.
  case_decide; [subst t0; injection Hr0 as <- |].
  - destruct (Hall t rel Hrel) as [H1 H2 H3 H4 H5].
    assert (forall cond key, (forall c, c ∈ key \/ (ck_column <$> cond) = Some c -> keyed t rel' t c) ->
              unique_on cond key (rows_of con t) -> unique_on cond key (f <$> rows_of con t)) as Huniq.
    { intros cond key Hkey. apply unique_on_fmap. intros r c Hr Hc. eapply Hkeep; eauto. }
    split.
    + apply Forall_fmap, list.Forall_forall. intros r Hr. apply Hrow; [done |].
      rewrite list.Forall_forall in H1. auto.
    + intros Hne. apply Huniq; [intros c [Hc | ?]; [by apply mentions_key | done] |].
      destruct Hk as [Hk | Hk]; [rewrite Hk in *; auto | done].
    + intros n key Hn. apply Huniq; [intros c [Hc | ?]; [by eapply mentions_unique | done] |].
      eapply H3, lookup_weaken; eauto.
    + intros n ix Hn Hix. apply Huniq; [| eapply H4; [eapply lookup_weaken |]; eauto].
      intros c [Hc | Hc]; [by eapply mentions_index |].
      destruct (ix_where ix) eqn:Hw; [| done]. injection Hc as <-. by eapply mentions_where.
    + intros n fk Hn. apply Forall_fmap, list.Forall_forall. intros r Hr.
      assert (refers (alter (on_rows (fmap f)) t con) fk r) as Hold.
      { eapply Hrefs; eauto. eapply list.Forall_forall; [| exact Hr]. eapply H5, lookup_weaken; eauto. }
      unfold refers in *. cbn. rewrite (Hkeep t rel' (fk_column fk) r); auto. by eapply mentions_fk.
  - destruct (Hall t0 rel0 Hr0) as [H1 H2 H3 H4 H5]. split; auto.
    intros n fk Hn. specialize (H5 n fk Hn). eapply list.Forall_impl; [exact H5 |]. cbn. eauto.
Qed.

Lemma row_ok_insert rel r c col v :
  row_ok rel r -> columns rel !! c = Some col -> cell_ok col v ->
  (forall n ck, checks rel !! n = Some ck -> ck_column ck = c -> admits (ck_predicate ck) v) ->
  row_ok rel (<[c := v]> r).
Proof.
  intros (Hc & Hd & Hk) Hcol Hv Hck. split; [| split].
  - intros c' col' Hc'. rewrite cell_insert. case_decide; [simplify_eq; done | by apply Hc].
  - intros c' v'. rewrite lookup_insert. case_decide; [subst; eauto | apply Hd].
  - intros n ck Hn. unfold check_holds. rewrite cell_insert. case_decide; [by eapply Hck | by eapply Hk].
Qed.

Lemma row_ok_add rel r c col v :
  row_ok rel r -> columns rel !! c = None -> cell_ok col v ->
  (forall n ck, checks rel !! n = Some ck -> ck_column ck <> c) ->
  row_ok (rel &{ columns := <[c := col]> (columns rel) }) (<[c := v]> r).
Proof.
  intros (Hc & Hd & Hk) Hnone Hv Hck. split; [| split]; upd_simpl.
  - intros c' col'. rewrite lookup_insert, cell_insert. case_decide; [naive_solver | apply Hc].
  - intros c' v'. rewrite !lookup_insert. case_decide; [subst; eauto | apply Hd].
  - intros n ck Hn. unfold check_holds. rewrite cell_insert, decide_False by (intros E; by eapply Hck).
    by eapply Hk.
Qed.

Lemma row_ok_drop rel r c : row_ok rel r -> row_ok (without_column c rel) (delete c r).
Proof.
  intros (Hc & Hd & Hk). split; [| split]; cbn.
  - intros c' col' [Hne Hc']%lookup_delete_Some. rewrite cell_delete by done. by apply Hc.
  - intros c' v' [Hne Hc']%lookup_delete_Some. rewrite lookup_delete_ne by done. by eapply Hd.
  - intros n ck [Hn Hne]%map_lookup_filter_Some. unfold check_holds. cbn in Hne.
    rewrite cell_delete by congruence. by eapply Hk.
Qed.

Lemma conforms_set cat con t rel rel' :
  conforms (Database cat con) -> relations cat !! t = Some rel ->
  (rows_ok con rel (rows_of con t) -> rows_ok con rel' (rows_of con t)) ->
  conforms (Database (set_relation cat t rel') con).
Proof.
  intros [Hall Hdom] Hrel H. cbn in *. split; cbn.
  - intros t0 rel0. rewrite lookup_insert. case_decide; [intros [= <-]; subst | apply Hall].
    by apply H, Hall.
  - rewrite Hdom, dom_insert_L. apply elem_of_dom_2 in Hrel. set_solver.
Qed.

Lemma row_ok_nullable rel r c b :
  b = true \/ cell r c <> VNull -> row_ok rel r ->
  row_ok (rel &{ columns := alter (fun col => col &{ c_nullable := b }) c (columns rel) }) r.
Proof.
  intros Hb (Hc & Hd & Hk). split; [| split; [| exact Hk]]; upd_simpl.
  - intros c' col'. rewrite lookup_alter. case_decide; [subst | apply Hc].
    intros (col & Hcol & ->)%fmap_Some. apply Hc in Hcol. unfold cell_ok in *. case_decide; naive_solver.
  - intros c' v' Hv. apply lookup_alter_is_Some. by eapply Hd.
Qed.

(** Edits that leave the rows alone need what the server validates. *)
Lemma edit_rows_ok o cat con rel rel' :
  edit o cat rel = Ok rel' -> validates o con ->
  match o with AddColumn _ _ _ | DropColumn _ _ => False | _ => True end ->
  rows_ok con rel (rows_of con (op_table o)) -> rows_ok con rel' (rows_of con (op_table o)).
Proof.
  intros He Hv Ho [H1 H2 H3 H4 H5].
  destruct o; try done; cbn [edit validates op_table] in *;
    try (unfold add_unique, add_check, add_foreign_key, drop_constraint in He); try destruct type_;
    undo_edit; split; upd_simpl; try done;
    try (by apply map_Forall_insert_2 || by apply map_Forall_delete).
  - apply list.Forall_forall. intros r Hr. rewrite list.Forall_forall in H1. apply row_ok_nullable; [| auto].
    destruct Hv as [-> | Hv]; [by left | right]. rewrite list.Forall_forall in Hv. auto.
  - apply list.Forall_forall. intros r Hr. rewrite list.Forall_forall in H1, Hv. destruct (H1 r Hr) as (? & ? & ?).
    split; [done | split; [done |]]. upd_simpl. apply map_Forall_insert_2; auto.
  - eapply list.Forall_impl; [exact H1 |]. intros r (? & ? & ?).
    split; [done | split; [done |]]. upd_simpl. by apply map_Forall_delete.
Qed.

Lemma create_conforms cat con t rel :
  conforms (Database cat con) -> relations cat !! t = None ->
  conforms (Database (set_relation cat t rel) (<[t := Heap [] 1]> con)).
Proof.
  intros [Hall Hdom] Hnone. cbn in *. split; cbn; [| by rewrite !dom_insert_L, Hdom].
  assert (con !! t = None) as Hcon by (apply not_elem_of_dom; rewrite Hdom; by apply not_elem_of_dom).
  intros t0 rel0. rewrite lookup_insert. unfold rows_of at 1. rewrite lookup_insert. case_decide.
  - intros _. split; cbn; intros; try constructor.
  - intros Hrel. destruct (Hall t0 rel0 Hrel) as [H1 H2 H3 H4 H5]. split; auto.
    intros n fk Hn. eapply list.Forall_impl; [exact (H5 n fk Hn) |]. intros r. apply refers_keeps.
    intros r' Hr'. unfold rows_of in *. rewrite lookup_insert. case_decide; [| eauto].
    subst. rewrite Hcon in Hr'. by apply not_elem_of_nil in Hr'.
Qed.

Lemma drop_conforms cat con t :
  conforms (Database cat con) -> unreferenced cat t ->
  conforms (Database (cat &{ relations := delete t (relations cat) }) (delete t con)).
Proof.
  intros [Hall Hdom] Hun. cbn in *. split; cbn; [| by rewrite !dom_delete_L, Hdom].
  intros t0 rel0 [Hne Hrel]%lookup_delete_Some. unfold rows_of at 1. rewrite lookup_delete_ne by done.
  destruct (Hall t0 rel0 Hrel) as [H1 H2 H3 H4 H5]. split; auto.
  intros n fk Hn. eapply list.Forall_impl; [exact (H5 n fk Hn) |]. intros r. apply refers_keeps.
  intros r' Hr'. unfold rows_of in *. rewrite lookup_delete_ne; [eauto |]. intros E. by eapply (Hun t0 rel0 Hrel (not_eq_sym Hne) n fk).
Qed.

Lemma add_column_conforms cat con t rel c col :
  wf_catalog cat -> conforms (Database cat con) -> relations cat !! t = Some rel -> columns rel !! c = None ->
  validates (AddColumn t c col) con ->
  conforms (Database (set_relation cat t (rel &{ columns := <[c := col]> (columns rel) }))
              (move (AddColumn t c col) con)).
Proof.
  intros Hwf Hc Hrel Hnone Hv. cbn [move]. eapply remap_conforms; [done | done | by split; [left | ..] | |].
  - intros r Hr Hok. destruct Hv as [Hv | Hv]; [rewrite Hv in Hr; by apply not_elem_of_nil in Hr |].
    apply row_ok_add; try done. intros n ck Hn <-.
    destruct (Hwf t rel Hrel t (ck_column ck)) as (r' & ? & [? ?]); [by eapply mentions_check | congruence].
  - intros t0 rel0 c0 r Hrel0 Hm%keyed_mentions Hr. rewrite cell_insert, decide_False; [done |]. intros <-.
    assert (has_column cat t c) as (r' & ? & [? ?]); [| congruence].
    rewrite relations_set in Hrel0. case_decide; [injection Hrel0 as <- | eapply Hwf; eauto].
    subst. apply (Hwf t0 rel Hrel). destruct Hm; cbn in *; eauto with schema nocore.
Qed.

Lemma drop_column_conforms cat con t rel c :
  conforms (Database cat con) -> relations cat !! t = Some rel -> unreferenced_column cat t c ->
  conforms (Database (set_relation cat t (without_column c rel)) (move (DropColumn t c) con)).
Proof.
  intros Hc Hrel Hun. cbn [move]. eapply remap_conforms; [done | done | | |].
  - split; cbn; try apply map_filter_subseteq. case_decide; auto.
  - intros r _. apply row_ok_drop.
  - intros t0 rel0 c0 r Hrel0 Hm%keyed_mentions _. apply cell_delete. intros <-.
    rewrite relations_set in Hrel0. case_decide; [injection Hrel0 as <-; subst t0 |].
    + apply without_column_mentions in Hm as [_ [[_ ?] | (n & fk & Hfk & Ht & Hcc)]]; [done |].
      by eapply (Hun t rel Hrel n fk).
    + destruct Hm; try done. by eapply (Hun t0 rel0 Hrel0).
Qed.

Lemma exec_conforms s db db' : exec s db = Ok db' -> conforms db' /\ db_catalog db' = db_catalog db.
Proof.
  unfold exec. intros (rel & _ & H)%res_bind_ok. destruct (rejected _ _ _); [done |].
  case_decide; [| done]. by injection H as <-.
Qed.

Lemma exec_all_conforms l db db' :
  conforms db -> exec_all l db = Ok db' -> conforms db' /\ db_catalog db' = db_catalog db.
Proof.
  revert db; induction l as [| s l IH]; cbn; intros db Hc H; [by injection H as <- |].
  apply res_bind_ok in H as (db1 & [Hc1 <-]%exec_conforms & H). by apply IH.
Qed.

(** A well-formed database: constraints on existing columns, rows that satisfy
    them. *)
Definition sound (db : database) : Prop := wf_catalog (db_catalog db) /\ conforms db.

Lemma step_sound o db db' : sound db -> step o db = Ok db' -> sound db'.
Proof.
  destruct db as [cat con]. intros [Hwf Hc] H. cbn in Hwf.
  destruct o as [t items | t | t c col | t c | t c b | | | | | | | | | | | script |];
    cbn [step] in H.
  16 : { apply res_bind_ok in H as (l & _ & H). apply exec_all_conforms in H as [? Hcat]; [| done].
         unfold sound. by rewrite Hcat. }
  all : apply res_bind_ok in H as (cat' & Ha & H); cbn [db_catalog] in Ha;
    match type of H with (if decide ?P then _ else _) = _ => destruct (decide P) as [Hv |]; [| done] end;
    injection H as <-; (split; [by eapply alter_wf |]); cbn [db_contents db_catalog] in *; cbn [alter_catalog] in Ha.
  3 : { undo_edit. cbn [op_table edit] in *. unfold add_column in *. undo_edit. by apply add_column_conforms. }
  3 : { undo_edit. cbn [op_table edit] in *. undo_edit. by apply drop_column_conforms. }
  1 : { undo_edit. apply create_conforms; [done |]. by match goal with H : new_relation_name _ _ |- _ => destruct H end. }
  1 : { undo_edit. by apply drop_conforms. }
  all : try (apply res_bind_ok in Ha as (rel & Hrel%lookup_table_ok & Ha);
             apply res_bind_ok in Ha as (rel' & He & [= <-]);
             eapply conforms_set; [done | exact Hrel |]; intros; by eapply edit_rows_ok in He).
  all : by undo_edit.
Qed.

Lemma run_sound ops db db' : sound db -> run ops db = Ok db' -> sound db'.
Proof.
  revert db; induction ops as [| o ops IH]; cbn; intros db Hs H; [by injection H as <- |].
  apply res_bind_ok in H as (db1 & H1 & H). eapply IH; [by eapply step_sound | done].
Qed.
