(* ===== verification/SchemaRuns.v ===== *)
(** * When a script of operations succeeds

    [run_ddl]: a script without statements on rows succeeds exactly when the
    catalog admits it and the rows satisfy what its operations validate.
    [exec_update], [exec_insert] and [exec_each] do the same for the
    statements the revisions send: an UPDATE that assigns columns no key
    compares, an INSERT that fills a new table, and the Python loop that
    updates the selected rows one by one. *)

From stdpp Require Import base tactics list gmap sets strings numbers option.
From S2P Require Import Prelude Json Schema.
Local Open Scope Z_scope.

(** ** Scripts without statements *)

Fixpoint alter_all (ops : list op) (cat : catalog) : res db_error catalog :=
  match ops with
  | [] => Ok cat
  | o :: ops' => cat' ← alter_catalog o cat; alter_all ops' cat'
  end.

Definition move_all (ops : list op) (con : contents) : contents := foldl (fun c o => move o c) con ops.

Fixpoint obligations (ops : list op) (con : contents) : Prop :=
  match ops with
  | [] => True
  | o :: ops' => validates o con /\ obligations ops' (move o con)
  end.

Definition is_ddl (o : op) : bool := match o with Execute _ => false | _ => true end.

(** The catalog a script leaves. *)
Definition after (ops : list op) (cat : catalog) : catalog :=
  match alter_all ops cat with Ok cat' => cat' | Raise _ => cat end.

(** The catalog admits the script. *)
Definition admitted (ops : list op) (cat : catalog) : bool :=
  forallb is_ddl ops && is_ok (alter_all ops cat).

Lemma step_ddl o cat con :
  is_ddl o = true ->
  step o (Database cat con) =
    (cat' ← alter_catalog o cat;
     if decide (validates o con) then Ok (Database cat' (move o con)) else Raise (violation o)).
Proof. by destruct o. Qed.

Lemma run_ddl ops cat con db' :
  admitted ops cat = true ->
  run ops (Database cat con) = Ok db' <-> obligations ops con /\ db' = Database (after ops cat) (move_all ops con).
Proof.
  unfold admitted, after. rewrite andb_true_iff. intros [Hd Ha].
  revert cat con Hd Ha; induction ops as [| o ops IH]; cbn [run obligations move_all alter_all forallb foldl].
  { intros. split; [by intros [= <-] | by intros [_ ->]]. }
  intros cat con [Ho Hd]%andb_true_iff Ha. rewrite step_ddl by done.
  destruct (alter_catalog o cat) as [cat' | e] eqn:E; [| done]. cbn in Ha |- *.
  case_decide as Hv; cbn [mbind res_bind]; [rewrite IH by done | split; [done |]; by intros [[? _] _]].
  unfold move_all. destruct (alter_all ops cat'); [| done]. tauto.
Qed.

Lemma run_ddl_refuses ops cat con :
  admitted ops cat = true -> ~ obligations ops con -> exists e, run ops (Database cat con) = Raise e.
Proof.
  intros Ha Hn. destruct (run ops (Database cat con)) as [db' | e] eqn:E; [| eauto].
  apply (run_ddl ops cat con db' Ha) in E as [? _]. done.
Qed.

Lemma run_app l1 l2 db : run (l1 ++ l2) db = (db' ← run l1 db; run l2 db').
Proof.
  revert db; induction l1 as [| o l1 IH]; intros db; [done |]. cbn. destruct (step o db); [apply IH | done].
Qed.

Lemma run_execute script db :
  run [Execute script] db = (l ← script (db_contents db); exec_all l db).
Proof. cbn. destruct (script _); [| done]. cbn. by destruct (exec_all _ db). Qed.

Lemma sound_run_ddl ops cat con :
  admitted ops cat = true -> sound (Database cat con) -> obligations ops con ->
  run ops (Database cat con) = Ok (Database (after ops cat) (move_all ops con)) /\
  sound (Database (after ops cat) (move_all ops con)).
Proof.
  intros Ha Hs Ho. assert (run ops (Database cat con) = Ok (Database (after ops cat) (move_all ops con))) as Hrun.
  { by apply run_ddl. }
  split; [done |]. by eapply run_sound.
Qed.

(** ** Columns an UPDATE may assign *)

(** The columns of [t] that some key, index or foreign key compares. *)
Definition own_keys (rel : relation) : list string :=
  primary_key rel ++ ((map_to_list (uniques rel)).*2 ≫= id)
  ++ ((map_to_list (indexes rel)).*2 ≫= fun ix => ix_columns ix ++ option_list (ck_column <$> ix_where ix))
  ++ (fk_column <$> (map_to_list (foreign_keys rel)).*2).

Definition keyed_columns (cat : catalog) (t : string) : list string :=
  from_option own_keys [] (relations cat !! t)
  ++ ((map_to_list (relations cat)).*2 ≫= fun rel =>
        (map_to_list (foreign_keys rel)).*2 ≫= fun fk => if decide (fk_table fk = t) then [fk_ref fk] else []).

Lemma in_values {A} (m : gmap string A) n a : m !! n = Some a -> a ∈ (map_to_list m).*2.
Proof. intros H. apply list_elem_of_fmap. exists (n, a). split; [done |]. by apply elem_of_map_to_list. Qed.

Lemma keyed_columns_spec cat t t0 rel0 c :
  relations cat !! t0 = Some rel0 -> keyed t0 rel0 t c -> c ∈ keyed_columns cat t.
Proof.
  intros Hrel Hk. unfold keyed_columns. apply elem_of_app.
  assert ((t0 = t /\ c ∈ own_keys rel0) \/
          exists n fk, foreign_keys rel0 !! n = Some fk /\ t = fk_table fk /\ c = fk_ref fk) as [[-> Hc] | (n & fk & Hfk & -> & ->)].
  { unfold own_keys. rewrite !elem_of_app, !list_elem_of_bind. inversion Hk; subst; cbn in *; eauto 6;
      left; (split; [done |]).
    - right; left. exists key. split; [done | by eapply in_values].
    - match goal with H : ∅ !! _ = Some _ |- _ => by rewrite lookup_empty in H end.
    - do 2 right; left. exists ix. split; [apply elem_of_app; auto | by eapply in_values].
    - do 2 right; left. exists ix. split; [apply elem_of_app; right | by eapply in_values].
      match goal with H : ix_where _ = _ |- _ => rewrite H end. by left.
    - do 3 right. apply list_elem_of_fmap_2. by eapply in_values. }
  - left. by rewrite Hrel.
  - right. apply list_elem_of_bind. exists rel0. split; [| by eapply in_values].
    apply list_elem_of_bind. exists fk. split; [| by eapply in_values]. rewrite decide_True by done. by left.
Qed.

(** The conditions of the CHECK constraints on a column. *)
Definition checks_on (rel : relation) (c : string) : list predicate :=
  ck_predicate <$> filter (fun ck => ck_column ck = c) (map_to_list (checks rel)).*2.

(** What the catalog asks of a value assigned to a column. *)
Definition assignable (rel : relation) (c : string) (v : value) : Prop :=
  from_option (fun col => cell_ok col v) False (columns rel !! c) /\
  Forall (fun p => admits p v) (checks_on rel c).

Lemma row_ok_assign rel l r :
  Forall (fun cv => assignable rel cv.1 cv.2) l -> row_ok rel r -> row_ok rel (assign_all l r).
Proof.
  intros Hl Hr. induction Hl as [| [c v] l [Hc Hk] Hl IH]; cbn in *; [done |].
  destruct (columns rel !! c) as [col |] eqn:E; [| done]. apply row_ok_insert with (col := col); try done.
  intros n ck Hn Hcol. rewrite list.Forall_forall in Hk. apply Hk.
  apply list_elem_of_fmap. exists ck. split; [done |]. apply list_elem_of_filter. split; [done |]. by eapply in_values.
Qed.

Lemma cell_assign_other l r c : c ∉ l.*1 -> cell (assign_all l r) c = cell r c.
Proof.
  induction l as [| [c' v] l IH]; cbn; [done |]. rewrite not_elem_of_cons. intros [Hne Hl].
  rewrite cell_insert, decide_False by done. by apply IH.
Qed.

(** ** Statements *)

Lemma exec_ok s cat con rel :
  relations cat !! stmt_table s = Some rel -> rejected s rel con = false ->
  conforms (Database cat (effect s rel con)) ->
  exec s (Database cat con) = Ok (Database cat (effect s rel con)).
Proof.
  intros Hrel Hr Hc. unfold exec. cbn. unfold lookup_table. rewrite Hrel. cbn. rewrite Hr.
  by rewrite decide_True.
Qed.

(** The value may be written to the column, and no key compares it. *)
Definition writable (cat : catalog) (t : string) (rel : relation) (cv : string * value) : Prop :=
  cv.1 ∉ keyed_columns cat t /\ assignable rel cv.1 cv.2.

Lemma exec_update cat con t rel cond f :
  sound (Database cat con) -> relations cat !! t = Some rel -> triggers rel = ∅ ->
  (forall r, r ∈ rows_of con t -> cond r = true -> Forall (writable cat t rel) (f con r)) ->
  exec (Update t cond f) (Database cat con) =
    Ok (Database cat (alter (on_rows (fmap (updated cond (f con)))) t con)).
Proof.
  intros [Hwf Hc] Hrel Ht Hw. apply exec_ok with (rel := rel); [done | |]; cbn.
  { by rewrite bool_decide_true. }
  rewrite <- (set_relation_id cat t rel) at 1 by done.
  eapply remap_conforms; [done | done | apply shrinks_refl | |].
  - intros r Hr Hok. unfold updated. destruct (cond r) eqn:E; [| done]. apply row_ok_assign; [| done].
    eapply list.Forall_impl; [by apply Hw |]. by intros [c v] [_ ?].
  - intros t0 rel0 c r Hrel0 Hk Hr. rewrite set_relation_id in Hrel0 by done. unfold updated.
    destruct (cond r) eqn:E; [| done]. apply cell_assign_other. intros Hin.
    apply list_elem_of_fmap in Hin as ([c' v] & -> & Hin). specialize (Hw r Hr E).
    rewrite list.Forall_forall in Hw. destruct (Hw _ Hin) as [Hn _]. apply Hn. by eapply keyed_columns_spec.
Qed.

(** An INSERT into a table that has no rows yet. *)
Lemma exec_insert cat con t rel s values :
  sound (Database cat con) -> relations cat !! t = Some rel -> con !! t = Some (Heap [] s) ->
  let con' := alter (fun h => foldl (fill rel) h (values con)) t con in
  rows_ok con' rel (rows_of con' t) ->
  exec (Insert t values) (Database cat con) = Ok (Database cat con').
Proof.
  intros [Hwf [Hall Hdom]] Hrel Hcon con' Hok. apply exec_ok with (rel := rel); [done | done |]. cbn.
  fold con'. split; cbn in *; [| by unfold con'; rewrite dom_alter_L].
  intros t0 rel0 Hrel0. destruct (decide (t = t0)) as [<- | Hne]; [by simplify_eq |].
  assert (rows_of con' t0 = rows_of con t0) as ->.
  { unfold rows_of, con'. by rewrite lookup_alter_ne. }
  destruct (Hall t0 rel0 Hrel0) as [H1 H2 H3 H4 H5]. split; auto.
  intros n fk Hn. eapply list.Forall_impl; [exact (H5 n fk Hn) |]. intros r. apply refers_keeps.
  intros r' Hr'. exists r'. split; [| done]. unfold rows_of, con' in *.
  destruct (decide (t = fk_table fk)) as [Heq |]; [| by rewrite lookup_alter_ne].
  rewrite <- Heq, Hcon in Hr'. by apply not_elem_of_nil in Hr'.
Qed.

(** The rows [fill] adds when the table numbers none of them. *)
Definition complete (rel : relation) (given : row) : row :=
  given ∪ ((fun col => default VNull (c_default col)) <$> columns rel).

Definition numbered (rel : relation) (k : string) (from : Z) (l : list row) : list row :=
  imap (fun i g => complete rel (<[k := VInt (from + Z.of_nat i)]> g)) l.

Lemma fill_given rel l h :
  from_option (fun k => Forall (fun g => is_Some (g !! k)) l) True (serial_key rel) ->
  foldl (fill rel) h l = Heap (tuples h ++ (complete rel <$> l)) (serial h).
Proof.
  revert h; induction l as [| g l IH]; intros h Hk; cbn.
  { rewrite app_nil_r. by destruct h. }
  unfold fill at 2. destruct (serial_key rel) as [k |] eqn:E; cbn in Hk.
  - rewrite list.Forall_cons in Hk; destruct Hk as [[v Hv] Hk]. rewrite decide_False by (rewrite Hv; done).
    rewrite IH by done. cbn. by rewrite <- app_assoc.
  - rewrite IH by done. cbn. by rewrite <- app_assoc.
Qed.

Lemma fill_numbered rel k l h :
  serial_key rel = Some k -> Forall (fun g => g !! k = None) l ->
  foldl (fill rel) h l = Heap (tuples h ++ numbered rel k (serial h) l) (serial h + len l).
Proof.
  intros Hk. unfold numbered. revert h; induction l as [| g l IH]; intros h Hl; cbn.
  { rewrite app_nil_r. destruct h. unfold len. cbn. f_equal. lia. }
  rewrite list.Forall_cons in Hl; destruct Hl as [Hg Hl]. unfold fill at 2. rewrite Hk, decide_True by done.
  rewrite IH by done. cbn. rewrite <- app_assoc. unfold len. cbn. f_equal; [| lia].
  rewrite Z.add_0_r. f_equal. cbn. f_equal. apply imap_ext. intros i x _. cbn. f_equal. f_equal. f_equal. lia.
Qed.

(** ** A loop of updates by primary key

    [for row in ...: connection.execute(t.update().where(t.c.id == row["id"]).values(...))] *)

Definition update_by_id (t : string) (id : value) (l : list (string * value)) : stmt :=
  Update t (fun r => bool_decide (cell r "id" = id)) (fun _ _ => l).

Lemma alter_on_rows_const f l t (con : contents) :
  alter (on_rows f) t (alter (on_rows (fun _ => l)) t con) = alter (on_rows (fun _ => f l)) t con.
Proof. by rewrite alter_alter_eq. Qed.

Lemma rows_of_const l t con : is_Some (con !! t) -> rows_of (alter (on_rows (fun _ => l)) t con) t = l.
Proof. intros [h Hh]. unfold rows_of. by rewrite lookup_alter_eq, Hh. Qed.

Lemma alter_const_id t (con : contents) : alter (on_rows (fun _ => rows_of con t)) t con = con.
Proof.
  apply map_eq. intros t'. rewrite lookup_alter. case_decide; [subst | done].
  unfold rows_of. destruct (con !! t') as [[l s] |]; done.
Qed.

Section Each.
Context (cat : catalog) (t : string) (rel : relation) (sets : row -> list (string * value)).
Hypothesis Hrel : relations cat !! t = Some rel.
Hypothesis Htr : triggers rel = ∅.
Hypothesis Hid : "id" ∈ keyed_columns cat t.

Let g (r : row) : row := assign_all (sets r) r.
Let at_ (con : contents) (l : list row) : contents := alter (on_rows (fun _ => l)) t con.

Lemma keep_id r : Forall (writable cat t rel) (sets r) -> cell (g r) "id" = cell r "id".
Proof using Hid.
  intros Hw. apply cell_assign_other. intros Hin. apply list_elem_of_fmap in Hin as ([c v] & Hc & Hin).
  rewrite list.Forall_forall in Hw. destruct (Hw _ Hin) as [Hn _]. apply Hn. cbn in *. by rewrite <- Hc.
Qed.

Lemma each_step con done r todo :
  is_Some (con !! t) -> sound (Database cat (at_ con ((g <$> done) ++ r :: todo))) ->
  Forall (fun r => Forall (writable cat t rel) (sets r)) (done ++ r :: todo) ->
  NoDup ((fun r => cell r "id") <$> (done ++ r :: todo)) ->
  exec (update_by_id t (cell r "id") (sets r)) (Database cat (at_ con ((g <$> done) ++ r :: todo))) =
    Ok (Database cat (at_ con ((g <$> (done ++ [r])) ++ todo))).
Proof using Hrel Htr Hid.
  intros Ht Hs Hw Hnd. rewrite list.Forall_forall in Hw. unfold update_by_id.
  rewrite (exec_update _ _ _ rel) by (try done; intros; apply Hw, elem_of_app; right; left).
  unfold at_. rewrite alter_on_rows_const. do 3 f_equal.
  enough (updated (fun r' => bool_decide (cell r' "id" = cell r "id")) (fun _ => sets r) <$> (g <$> done) ++ r :: todo =
          (g <$> done ++ [r]) ++ todo) as -> by done.
  rewrite fmap_app in Hnd. cbn in Hnd. rewrite list.NoDup_app, list.NoDup_cons in Hnd.
  destruct Hnd as (_ & Hd & Hr & _). rewrite !fmap_app. cbn. rewrite <- app_assoc. cbn.
  assert (forall l : list row, (forall r', r' ∈ l -> cell r' "id" <> cell r "id") ->
            updated (fun r' => bool_decide (cell r' "id" = cell r "id")) (fun _ => sets r) <$> l = l) as Hother.
  { intros l Hl. transitivity (id <$> l); [| apply list_fmap_id]. apply list_fmap_ext. intros i r' Hi. unfold updated.
    rewrite bool_decide_false; [done |]. apply Hl. by eapply list_elem_of_lookup_2. }
  rewrite Hother; [f_equal; f_equal |].
  - unfold updated. by rewrite bool_decide_true.
  - apply Hother. intros r' Hr' Heq. apply Hr. rewrite <- Heq. by apply (list_elem_of_fmap_2 (fun r : row => cell r "id")).
  - intros r' Hr' Heq. apply list_elem_of_fmap in Hr' as (r0 & -> & Hr0).
    rewrite keep_id in Heq by (apply Hw, elem_of_app; by left).
    apply (Hd (cell r0 "id")); [by apply (list_elem_of_fmap_2 (fun r : row => cell r "id")) | rewrite Heq; left].
Qed.

Lemma each_from con todo : forall done,
  is_Some (con !! t) -> sound (Database cat (at_ con ((g <$> done) ++ todo))) ->
  Forall (fun r => Forall (writable cat t rel) (sets r)) (done ++ todo) ->
  NoDup ((fun r => cell r "id") <$> (done ++ todo)) ->
  exec_all ((fun r => update_by_id t (cell r "id") (sets r)) <$> todo) (Database cat (at_ con ((g <$> done) ++ todo))) =
    Ok (Database cat (at_ con (g <$> (done ++ todo)))).
Proof using Hrel Htr Hid.
  induction todo as [| r todo IH]; intros done Ht Hs Hw Hnd; cbn [fmap list_fmap exec_all].
  { by rewrite !app_nil_r. }
  pose proof (each_step con done r todo Ht Hs Hw Hnd) as Hstep. rewrite Hstep. cbn [mbind res_bind].
  rewrite (cons_middle r done todo) in *. rewrite app_assoc in *. apply IH; try done.
  destruct Hs as [Hwf _]. split; [exact Hwf |]. by apply exec_conforms in Hstep as [? _].
Qed.

Lemma exec_each con :
  sound (Database cat con) -> primary_key rel = ["id"] ->
  Forall (fun r => Forall (writable cat t rel) (sets r)) (rows_of con t) ->
  NoDup ((fun r => cell r "id") <$> rows_of con t) ->
  exec_all ((fun r => update_by_id t (cell r "id") (sets r)) <$> rows_of con t) (Database cat con) =
    Ok (Database cat (alter (on_rows (fmap (fun r => assign_all (sets r) r))) t con)).
Proof using Hrel Htr Hid.
  intros Hs Hpk Hw Hnd. assert (is_Some (con !! t)) as Ht.
  { apply elem_of_dom. destruct Hs as [_ [_ Hdom]]. cbn in Hdom. rewrite Hdom. by eapply elem_of_dom_2. }
  pose proof (each_from con (rows_of con t) [] Ht) as H. cbn [app fmap list_fmap] in H. unfold at_ in H.
  rewrite alter_const_id in H. rewrite H by done. do 2 f_equal.
  apply alter_ext. intros h Hh. unfold on_rows, rows_of. by rewrite Hh.
Qed.
End Each.

(** The primary key of a conforming table. *)
Lemma ids_distinct cat con t rel :
  sound (Database cat con) -> relations cat !! t = Some rel -> primary_key rel = ["id"] ->
  (c_nullable <$> columns rel !! "id") = Some false ->
  NoDup ((fun r => cell r "id") <$> rows_of con t).
Proof.
  intros [_ [Hall _]] Hrel Hpk Hn. destruct (Hall t rel Hrel) as [Hrows Hkey _ _ _]. cbn in *.
  rewrite Hpk in Hkey. specialize (Hkey ltac:(done)). unfold unique_on in Hkey.
  assert (omap (key_of None ["id"]) (rows_of con t) = (fun v => [v]) <$> ((fun r => cell r "id") <$> rows_of con t)) as E.
  { clear Hkey. induction Hrows as [| r rs (Hc & _ & _) Hrows IH]; [done |]. cbn.
    apply fmap_Some in Hn as (col & Hcol & Hnull). specialize (Hc "id" col Hcol). unfold cell_ok in Hc.
    unfold key_of. cbn. rewrite bool_decide_false; [by f_equal |].
    intros Hin%list_elem_of_singleton. rewrite <- Hin, decide_True in Hc by done. congruence. }
  rewrite E in Hkey. by apply NoDup_fmap_1 in Hkey.
Qed.

(** The row a foreign key refers to. *)
Lemma referenced_row cat con t rel n fk r :
  sound (Database cat con) -> relations cat !! t = Some rel -> foreign_keys rel !! n = Some fk ->
  (c_nullable <$> columns rel !! fk_column fk) = Some false -> r ∈ rows_of con t ->
  exists r', r' ∈ rows_of con (fk_table fk) /\ cell r' (fk_ref fk) = cell r (fk_column fk).
Proof.
  intros [_ [Hall _]] Hrel Hfk Hn Hr. destruct (Hall t rel Hrel) as [Hrows _ _ _ Href]. cbn in *.
  specialize (Href n fk Hfk). rewrite list.Forall_forall in Href, Hrows.
  destruct (Href r Hr) as [Hnull | He]; [| by apply list.Exists_exists in He].
  destruct (Hrows r Hr) as (Hc & _ & _). apply fmap_Some in Hn as (col & Hcol & Hnull').
  specialize (Hc _ _ Hcol). unfold cell_ok in Hc. rewrite decide_True in Hc by done. congruence.
Qed.

(** The value of a conforming cell. *)
Lemma cell_conforms cat con t rel c col r :
  sound (Database cat con) -> relations cat !! t = Some rel -> columns rel !! c = Some col ->
  r ∈ rows_of con t -> cell_ok col (cell r c).
Proof.
  intros [_ [Hall _]] Hrel Hcol Hr. destruct (Hall t rel Hrel) as [Hrows _ _ _ _].
  rewrite list.Forall_forall in Hrows. by apply (Hrows r Hr).
Qed.

Lemma check_conforms cat con t rel n ck r :
  sound (Database cat con) -> relations cat !! t = Some rel -> checks rel !! n = Some ck ->
  r ∈ rows_of con t -> admits (ck_predicate ck) (cell r (ck_column ck)).
Proof.
  intros [_ [Hall _]] Hrel Hck Hr. destruct (Hall t rel Hrel) as [Hrows _ _ _ _].
  rewrite list.Forall_forall in Hrows. by eapply (Hrows r Hr).
Qed.

(** No row has a cell outside its table's columns. *)
Lemma cell_absent cat con t rel c r :
  sound (Database cat con) -> relations cat !! t = Some rel -> columns rel !! c = None ->
  r ∈ rows_of con t -> r !! c = None.
Proof.
  intros [_ [Hall _]] Hrel Hcol Hr. destruct (Hall t rel Hrel) as [Hrows _ _ _ _].
  rewrite list.Forall_forall in Hrows. destruct (Hrows r Hr) as (_ & Hd & _).
  destruct (r !! c) eqn:E; [| done]. apply Hd in E as [? ?]. congruence.
Qed.
