(* ===== verification/Revisions.v ===== *)
(** * The schema revisions

    [src/migrations/versions/0001_initial.py] to [0011_signature_scheme.py],
    operation for operation, as scripts over [Schema]: a Module per revision
    with its [revision], [down_revision], [upgrade] and [downgrade].  A
    revision that also changes rows is split where it does, so that each part
    of its body has a name.  [now] is the server's transaction time.  On
    PostgreSQL, [op.batch_alter_table] sends its operations one by one. *)

From Stdlib Require Import QArith.
From stdpp Require Import base tactics list gmap sets strings numbers option.
From S2P Require Import Prelude Json Schema.
Local Open Scope Z_scope.
Local Open Scope string_scope.

(** ** The calls *)

Definition key (c : string) (ty : coltype) : item := KeyCol c ty.
Definition req (c : string) (ty : coltype) : item := Col c ty false None.
Definition opt (c : string) (ty : coltype) : item := Col c ty true None.
Definition dflt (c : string) (ty : coltype) (v : value) : item := Col c ty false (Some v).
Definition fk (c t : string) (d : ondelete) : item := ForeignKeyConstraint None (ForeignKey c t "id" d).
Definition uq (cols : list string) : item := UniqueConstraint None cols.
Definition uqn (name : string) (cols : list string) : item := UniqueConstraint (Some name) cols.
Definition ck (name c : string) (p : predicate) : item := CheckConstraint name (Check c p).
Definition one_of (l : list string) : predicate := IsIn (py <$> l).

Definition create_table (t : string) (items : list item) : op := CreateTable t items.
Definition drop_table (t : string) : op := DropTable t.
Definition create_index (name t : string) (cols : list string) : op := CreateIndex name t (Index cols false None).
Definition create_unique_index (name t : string) (cols : list string) : op :=
  CreateIndex name t (Index cols true None).
Definition drop_index (name t : string) : op := DropIndex name t.
Definition add_nullable (t c : string) (ty : coltype) : op := AddColumn t c (Column ty true None).
Definition add_defaulted (t c : string) (ty : coltype) (v : value) : op :=
  AddColumn t c (Column ty false (Some v)).
Definition drop_column (t c : string) : op := DropColumn t c.
Definition set_not_null (t c : string) : op := AlterColumn t c false.
Definition create_check_constraint (name t c : string) (p : predicate) : op := AddCheck name t (Check c p).
Definition create_foreign_key (name t t' c : string) (d : ondelete) : op :=
  AddForeignKey name t (ForeignKey c t' "id" d).
Definition drop_check (name t : string) : op := DropConstraint name t check_.

Record Revision : Type := MkRevision {
  revision : string;
  down_revision : option string;
  upgrade : datetime -> list op;
  downgrade : list op;
}.

(** What Python reads from a cell; a NULL is [None]. *)
Definition as_str (v : value) : str := match v with VStr s => s | _ => [] end.
Definition as_time (v : value) : datetime := match v with VTime t => t | _ => 0 end.
Definition as_json (v : value) : json := match v with VJson j => j | _ => JNull end.

Definition everywhere (r : row) : bool := true.
Definition count (p : row -> bool) (l : list row) : Z := len (filter (fun r => p r = true) l).
Definition cell_is (c : string) (v : value) (r : row) : bool := bool_decide (cell r c = v).
Definition text (s : string) : value := VStr (py s).

Module R0001.
Definition create_users_and_items : list op :=
  [create_table "users"
     [key "id" Integer; req "email" (Str 320); req "name" (Str 100); req "hashed_password" (Str 255);
      req "is_active" Boolean; req "created_at" DateTime; uq ["email"]];
   create_unique_index "ix_users_email" "users" ["email"];
   create_table "items"
     [key "id" Integer; req "title" (Str 200); opt "description" (Str 2000); req "price" (Numeric 12 2);
      req "owner_id" Integer; req "created_at" DateTime;
      ck "ck_items_price_nonnegative" "price" (AtLeast 0); fk "owner_id" "users" CASCADE];
   create_index "ix_items_title" "items" ["title"];
   create_index "ix_items_owner_created" "items" ["owner_id"; "created_at"; "id"]].

Definition create_organizations : list op :=
  [create_table "organizations"
     [key "id" Integer; req "public_id" (Str 36); req "name" (Str 120); req "created_at" DateTime;
      uq ["public_id"]];
   create_unique_index "ix_organizations_public_id" "organizations" ["public_id"];
   create_table "organization_members"
     [key "id" Integer; req "organization_id" Integer; req "user_id" Integer; req "role" (Str 16);
      req "created_at" DateTime; ck "ck_org_members_role" "role" (one_of ["owner"; "member"]);
      fk "organization_id" "organizations" CASCADE; fk "user_id" "users" CASCADE;
      uqn "uq_org_members_org_user" ["organization_id"; "user_id"]];
   create_index "ix_org_members_user_org" "organization_members" ["user_id"; "organization_id"]].

Definition create_projects : list op :=
  [create_table "projects"
     [key "id" Integer; req "public_id" (Str 36); req "organization_id" Integer; req "name" (Str 120);
      req "is_active" Boolean; req "created_at" DateTime; fk "organization_id" "organizations" CASCADE;
      uq ["public_id"]; uqn "uq_projects_name" ["organization_id"; "name"]];
   create_unique_index "ix_projects_public_id" "projects" ["public_id"];
   create_index "ix_projects_org_created" "projects" ["organization_id"; "created_at"];
   create_table "api_keys"
     [key "id" Integer; req "public_id" (Str 36); req "project_id" Integer; req "name" (Str 120);
      req "key_prefix" (Str 24); req "key_digest" (Str 64); req "is_active" Boolean;
      req "created_at" DateTime; opt "last_used_at" DateTime; opt "revoked_at" DateTime;
      fk "project_id" "projects" CASCADE; uq ["key_prefix"]; uq ["public_id"]];
   create_unique_index "ix_api_keys_public_id" "api_keys" ["public_id"];
   create_index "ix_api_keys_project_created" "api_keys" ["project_id"; "created_at"];
   create_index "ix_api_keys_prefix_active" "api_keys" ["key_prefix"; "is_active"];
   create_table "webhook_endpoints"
     [key "id" Integer; req "public_id" (Str 36); req "project_id" Integer; req "url" (Str 2048);
      opt "description" (Str 500); req "is_active" Boolean; req "secret_version" Integer;
      req "created_at" DateTime; req "updated_at" DateTime;
      ck "ck_webhook_endpoints_secret_version" "secret_version" (AtLeast 1);
      fk "project_id" "projects" CASCADE; uq ["public_id"]];
   create_unique_index "ix_webhook_endpoints_public_id" "webhook_endpoints" ["public_id"];
   create_index "ix_webhook_endpoints_project_active" "webhook_endpoints" ["project_id"; "is_active"]].

Definition create_events : list op :=
  [create_table "events"
     [key "id" Integer; req "public_id" (Str 36); req "project_id" Integer; req "idempotency_key" (Str 255);
      req "event_type" (Str 150); req "payload" JSON; req "payload_hash" (Str 64); req "created_at" DateTime;
      fk "project_id" "projects" CASCADE; uq ["public_id"];
      uqn "uq_events_idempotency" ["project_id"; "idempotency_key"]];
   create_unique_index "ix_events_public_id" "events" ["public_id"];
   create_index "ix_events_project_created" "events" ["project_id"; "created_at"; "id"]].

Definition create_deliveries : list op :=
  [create_table "deliveries"
     [key "id" Integer; req "public_id" (Str 36); req "event_id" Integer; req "endpoint_id" Integer;
      opt "replay_of_delivery_id" Integer; req "status" (Str 32); req "attempt_count" Integer;
      req "next_attempt_at" DateTime; opt "lease_token" (Str 36); opt "lease_expires_at" DateTime;
      opt "last_http_status" Integer; opt "last_error" (Str 500); req "created_at" DateTime;
      req "updated_at" DateTime; opt "succeeded_at" DateTime;
      ck "ck_deliveries_status" "status"
        (one_of ["pending"; "processing"; "retry_scheduled"; "succeeded"; "dead"]);
      ck "ck_deliveries_attempt_count" "attempt_count" (AtLeast 0);
      fk "event_id" "events" CASCADE; fk "endpoint_id" "webhook_endpoints" CASCADE;
      fk "replay_of_delivery_id" "deliveries" SET_NULL; uq ["public_id"]];
   create_unique_index "ix_deliveries_public_id" "deliveries" ["public_id"];
   create_index "ix_deliveries_due" "deliveries" ["status"; "next_attempt_at"; "lease_expires_at"];
   create_index "ix_deliveries_event" "deliveries" ["event_id"; "created_at"];
   create_index "ix_deliveries_endpoint" "deliveries" ["endpoint_id"; "created_at"]].

Definition create_attempts : list op :=
  [create_table "delivery_attempts"
     [key "id" Integer; req "delivery_id" Integer; req "attempt_number" Integer; req "started_at" DateTime;
      req "finished_at" DateTime; req "outcome" (Str 32); opt "http_status" Integer; opt "error" (Str 500);
      opt "response_body" Text; fk "delivery_id" "deliveries" CASCADE;
      uqn "uq_attempts_delivery_number" ["delivery_id"; "attempt_number"]];
   create_index "ix_attempts_delivery_started" "delivery_attempts" ["delivery_id"; "started_at"]].

Definition upgrade_0001 : list op :=
  create_users_and_items ++ create_organizations ++ create_projects ++ create_events
  ++ create_deliveries ++ create_attempts.

Definition downgrade_0001 : list op :=
  drop_table <$> ["delivery_attempts"; "deliveries"; "events"; "webhook_endpoints"; "api_keys"; "projects";
                  "organization_members"; "organizations"; "items"; "users"].

Definition script_0001 : Revision := MkRevision "0001_initial" None (fun _ => upgrade_0001) downgrade_0001.
End R0001.

Module R0002.
Definition CONSTRAINTS : list (string * string * string) :=
  [("users", "users_email_key", "email");
   ("organizations", "organizations_public_id_key", "public_id");
   ("projects", "projects_public_id_key", "public_id");
   ("api_keys", "api_keys_public_id_key", "public_id");
   ("webhook_endpoints", "webhook_endpoints_public_id_key", "public_id");
   ("events", "events_public_id_key", "public_id");
   ("deliveries", "deliveries_public_id_key", "public_id")].

Definition upgrade_0002 : list op :=
  (fun '(table, constraint, _) => DropConstraint constraint table unique_) <$> CONSTRAINTS.

Definition downgrade_0002 : list op :=
  (fun '(table, constraint, column) => AddUnique constraint table [column]) <$> reverse CONSTRAINTS.

Definition script_0002 : Revision :=
  MkRevision "0002_drop_duplicate_uniques" (Some "0001_initial") (fun _ => upgrade_0002) downgrade_0002.
End R0002.

Module R0003.
(** [_canonical_json] *)
Definition canonical_json_0003 (value : json) : option pybytes := s ← dumps value; utf8_encode s.

Definition add_columns_0003 : list op :=
  [add_nullable "events" "canonical_envelope" LargeBinary;
   add_nullable "deliveries" "endpoint_public_id_snapshot" (Str 36);
   add_nullable "deliveries" "endpoint_url_snapshot" (Str 2048);
   add_nullable "deliveries" "endpoint_active_snapshot" Boolean;
   add_nullable "deliveries" "signing_secret_version_snapshot" Integer].

Definition envelope (row : row) : json :=
  JObj [(py "id", JStr (as_str (cell row "public_id")));
        (py "type", JStr (as_str (cell row "event_type")));
        (py "created_at", JStr (isoformat (as_time (cell row "created_at"))));
        (py "data", as_json (cell row "payload"))].

(** [events.update().where(events.c.id == row["id"]).values(...)] for every
    row of the SELECT *)
Definition backfill_envelopes (con : contents) : res db_error (list stmt) :=
  mapM (fun row =>
          match canonical_json_0003 (envelope row) with
          | None => Raise ValueError
          | Some bytes =>
              Ok (Update "events" (cell_is "id" (cell row "id")) (fun _ _ => [("canonical_envelope", VBytes bytes)]))
          end) (rows_of con "events").

(** The delivery and the endpoint of each row of the join *)
Definition snapshot_rows (con : contents) : list (row * row) :=
  d ← rows_of con "deliveries";
  e ← filter (fun e => cell e "id" = cell d "endpoint_id") (rows_of con "webhook_endpoints");
  [(d, e)].

Definition snapshot (endpoint : row) : list (string * value) :=
  [("endpoint_public_id_snapshot", cell endpoint "public_id");
   ("endpoint_url_snapshot", cell endpoint "url");
   ("endpoint_active_snapshot", cell endpoint "is_active");
   ("signing_secret_version_snapshot", cell endpoint "secret_version")].

Definition backfill_snapshots (con : contents) : res db_error (list stmt) :=
  Ok ((fun '(d, e) => Update "deliveries" (cell_is "id" (cell d "id")) (fun _ _ => snapshot e))
        <$> snapshot_rows con).

Definition tighten_0003 : list op :=
  [set_not_null "events" "canonical_envelope"]
  ++ (set_not_null "deliveries" <$> ["endpoint_public_id_snapshot"; "endpoint_url_snapshot";
                                     "endpoint_active_snapshot"; "signing_secret_version_snapshot"])
  ++ [create_check_constraint "ck_deliveries_snapshot_secret_version" "deliveries"
        "signing_secret_version_snapshot" (AtLeast 1)].

Definition upgrade_0003 : list op :=
  add_columns_0003 ++ [Execute backfill_envelopes; Execute backfill_snapshots] ++ tighten_0003.

Definition downgrade_0003 : list op :=
  [drop_check "ck_deliveries_snapshot_secret_version" "deliveries";
   drop_column "deliveries" "signing_secret_version_snapshot";
   drop_column "deliveries" "endpoint_active_snapshot";
   drop_column "deliveries" "endpoint_url_snapshot";
   drop_column "deliveries" "endpoint_public_id_snapshot";
   drop_column "events" "canonical_envelope"].

Definition script_0003 : Revision :=
  MkRevision "0003_phase2_delivery_safety" (Some "0002_drop_duplicate_uniques") (fun _ => upgrade_0003) downgrade_0003.
End R0003.

Module R0004.
(** The scalar subquery: NULL when it selects nothing. *)
Definition organization_for_event (con : contents) (delivery : row) : value :=
  default VNull (head
    (e ← filter (fun e => cell e "id" = cell delivery "event_id") (rows_of con "events");
     p ← filter (fun p => cell e "project_id" = cell p "id") (rows_of con "projects");
     [cell p "organization_id"])).

Definition backfill_organizations (con : contents) : res db_error (list stmt) :=
  Ok [Update "deliveries" everywhere
        (fun con delivery => [("organization_id", organization_for_event con delivery)])].

Definition tighten_0004 : list op :=
  [set_not_null "deliveries" "organization_id";
   create_foreign_key "fk_deliveries_organization" "deliveries" "organizations" "organization_id" CASCADE;
   create_index "ix_deliveries_fair_due" "deliveries"
     ["organization_id"; "endpoint_id"; "status"; "next_attempt_at"; "id"]].

Definition create_tables_0004 : list op :=
  [create_table "global_control_state"
     [key "id" Integer; opt "tenant_cursor_organization_id" Integer; req "created_at" DateTime;
      req "updated_at" DateTime; ck "ck_global_control_singleton" "id" (Equals (VInt 1))];
   create_table "tenant_quota_state"
     [key "organization_id" Integer; fk "organization_id" "organizations" CASCADE;
      req "event_tokens" Float; req "event_refilled_at" DateTime;
      req "delivery_tokens" Float; req "delivery_refilled_at" DateTime;
      req "replay_tokens" Float; req "replay_refilled_at" DateTime;
      opt "endpoint_cursor_id" Integer; req "updated_at" DateTime];
   create_table "endpoint_quota_state"
     [key "endpoint_id" Integer; fk "endpoint_id" "webhook_endpoints" CASCADE;
      req "delivery_tokens" Float; req "refilled_at" DateTime; req "updated_at" DateTime]].

Definition full_bucket : value := VFloat (inject_Z 1000000000).

Definition global_row (now : datetime) : row :=
  list_to_map [("id", VInt 1); ("tenant_cursor_organization_id", VNull);
               ("created_at", VTime now); ("updated_at", VTime now)].
Definition tenant_row (now : datetime) (organization : row) : row :=
  list_to_map [("organization_id", cell organization "id");
               ("event_tokens", full_bucket); ("event_refilled_at", VTime now);
               ("delivery_tokens", full_bucket); ("delivery_refilled_at", VTime now);
               ("replay_tokens", full_bucket); ("replay_refilled_at", VTime now);
               ("endpoint_cursor_id", VNull); ("updated_at", VTime now)].
Definition quota_row (now : datetime) (endpoint : row) : row :=
  list_to_map [("endpoint_id", cell endpoint "id"); ("delivery_tokens", full_bucket);
               ("refilled_at", VTime now); ("updated_at", VTime now)].

Definition insert_states (now : datetime) (con : contents) : res db_error (list stmt) :=
  Ok [Insert "global_control_state" (fun _ => [global_row now]);
      Insert "tenant_quota_state" (fun con => tenant_row now <$> rows_of con "organizations");
      Insert "endpoint_quota_state" (fun con => quota_row now <$> rows_of con "webhook_endpoints")].

Definition upgrade_0004 (now : datetime) : list op :=
  [add_nullable "deliveries" "organization_id" Integer] ++ [Execute backfill_organizations]
  ++ (tighten_0004 ++ create_tables_0004) ++ [Execute (insert_states now)].

Definition downgrade_0004 : list op :=
  [drop_table "endpoint_quota_state"; drop_table "tenant_quota_state"; drop_table "global_control_state";
   drop_index "ix_deliveries_fair_due" "deliveries";
   DropConstraint "fk_deliveries_organization" "deliveries" foreignkey_;
   drop_column "deliveries" "organization_id"].

Definition script_0004 : Revision :=
  MkRevision "0004_phase4_admission_fairness" (Some "0003_phase2_delivery_safety") upgrade_0004 downgrade_0004.
End R0004.

Module R0005.
Definition add_quota_columns : list op :=
  [add_nullable "endpoint_quota_state" "retry_tokens" Float;
   add_nullable "endpoint_quota_state" "retry_refilled_at" DateTime;
   add_nullable "endpoint_quota_state" "circuit_state" (Str 16);
   add_nullable "endpoint_quota_state" "consecutive_failures" Integer;
   add_nullable "endpoint_quota_state" "circuit_open_until" DateTime;
   add_nullable "endpoint_quota_state" "half_open_probe_delivery_id" Integer;
   add_nullable "endpoint_quota_state" "paused_at" DateTime;
   add_nullable "endpoint_quota_state" "pause_reason" (Str 200)].

Definition closed_circuit (state : row) : list (string * value) :=
  [("retry_tokens", VFloat (inject_Z 10)); ("retry_refilled_at", cell state "updated_at");
   ("circuit_state", text "closed"); ("consecutive_failures", VInt 0)].

Definition backfill_circuits (con : contents) : res db_error (list stmt) :=
  Ok [Update "endpoint_quota_state" everywhere (fun _ => closed_circuit)].

Definition statuses_0001 : predicate := one_of ["pending"; "processing"; "retry_scheduled"; "succeeded"; "dead"].
Definition statuses_0005 : predicate :=
  one_of ["pending"; "processing"; "retry_scheduled"; "succeeded"; "dead"; "canceled"].

Definition tighten_0005 : list op :=
  (set_not_null "endpoint_quota_state" <$>
     ["retry_tokens"; "retry_refilled_at"; "circuit_state"; "consecutive_failures"])
  ++ [create_check_constraint "ck_endpoint_quota_circuit_state" "endpoint_quota_state" "circuit_state"
        (one_of ["closed"; "open"; "half_open"]);
      create_check_constraint "ck_endpoint_quota_failures_nonnegative" "endpoint_quota_state"
        "consecutive_failures" (AtLeast 0);
      create_foreign_key "fk_endpoint_quota_half_open_delivery" "endpoint_quota_state" "deliveries"
        "half_open_probe_delivery_id" SET_NULL;
      drop_check "ck_deliveries_status" "deliveries";
      create_check_constraint "ck_deliveries_status" "deliveries" "status" statuses_0005;
      add_nullable "deliveries" "dead_at" DateTime;
      add_nullable "deliveries" "dead_reason" (Str 64);
      add_nullable "deliveries" "canceled_at" DateTime;
      add_nullable "deliveries" "canceled_reason" (Str 200)].

Definition legacy_dead (delivery : row) : list (string * value) :=
  [("dead_at", cell delivery "updated_at"); ("dead_reason", text "legacy_dead")].

Definition backfill_dead (con : contents) : res db_error (list stmt) :=
  Ok [Update "deliveries" (cell_is "status" (text "dead")) (fun _ => legacy_dead)].

Definition create_replays : list op :=
  [create_index "ix_deliveries_dead_operations" "deliveries" ["organization_id"; "status"; "dead_at"; "id"];
   create_index "ix_deliveries_endpoint_dead" "deliveries" ["endpoint_id"; "status"; "dead_at"; "id"];
   create_table "replay_operations"
     [key "id" Integer; req "public_id" (Str 36); req "organization_id" Integer; req "project_id" Integer;
      opt "actor_user_id" Integer; req "idempotency_key" (Str 255); req "mode" (Str 16);
      req "requested_count" Integer; req "created_count" Integer; req "source_delivery_ids" JSON;
      req "created_delivery_ids" JSON; req "created_at" DateTime;
      ck "ck_replay_operations_mode" "mode" (one_of ["single"; "bulk"]);
      fk "organization_id" "organizations" CASCADE; fk "project_id" "projects" CASCADE;
      fk "actor_user_id" "users" SET_NULL;
      uqn "uq_replay_operations_project_key" ["project_id"; "idempotency_key"]];
   create_unique_index "ix_replay_operations_public_id" "replay_operations" ["public_id"];
   create_index "ix_replay_operations_org_created" "replay_operations" ["organization_id"; "created_at"; "id"]].

Definition upgrade_0005 : list op :=
  add_quota_columns ++ [Execute backfill_circuits] ++ tighten_0005 ++ [Execute backfill_dead] ++ create_replays.

Definition downgrade_0005 : list op :=
  [drop_table "replay_operations";
   drop_index "ix_deliveries_endpoint_dead" "deliveries";
   drop_index "ix_deliveries_dead_operations" "deliveries";
   drop_column "deliveries" "canceled_reason";
   drop_column "deliveries" "canceled_at";
   drop_column "deliveries" "dead_reason";
   drop_column "deliveries" "dead_at";
   drop_check "ck_deliveries_status" "deliveries";
   create_check_constraint "ck_deliveries_status" "deliveries" "status" statuses_0001;
   DropConstraint "fk_endpoint_quota_half_open_delivery" "endpoint_quota_state" foreignkey_;
   drop_check "ck_endpoint_quota_failures_nonnegative" "endpoint_quota_state";
   drop_check "ck_endpoint_quota_circuit_state" "endpoint_quota_state";
   drop_column "endpoint_quota_state" "pause_reason";
   drop_column "endpoint_quota_state" "paused_at";
   drop_column "endpoint_quota_state" "half_open_probe_delivery_id";
   drop_column "endpoint_quota_state" "circuit_open_until";
   drop_column "endpoint_quota_state" "consecutive_failures";
   drop_column "endpoint_quota_state" "circuit_state";
   drop_column "endpoint_quota_state" "retry_refilled_at";
   drop_column "endpoint_quota_state" "retry_tokens"].

Definition script_0005 : Revision :=
  MkRevision "0005_phase5_retry_operations" (Some "0004_phase4_admission_fairness")
    (fun _ => upgrade_0005) downgrade_0005.
End R0005.

Module R0006.
Definition upgrade_0006 : list op :=
  [add_nullable "events" "traceparent" (Str 55); add_nullable "events" "tracestate" (Str 512)].

Definition downgrade_0006 : list op := [drop_column "events" "tracestate"; drop_column "events" "traceparent"].

Definition script_0006 : Revision :=
  MkRevision "0006_phase6_trace_context" (Some "0005_phase5_retry_operations")
    (fun _ => upgrade_0006) downgrade_0006.
End R0006.

Module R0007.
Definition ACTIVE_OPERATION_PREDICATE : check := Check "status" (one_of ["pending"; "running"]).

Definition create_audit_immutability_trigger : list op :=
  [CreateFunction "reject_administrative_audit_event_mutation";
   CreateTrigger "trg_administrative_audit_events_immutable" "administrative_audit_events"
     "reject_administrative_audit_event_mutation"].

Definition drop_audit_immutability_trigger : list op :=
  [DropTrigger "trg_administrative_audit_events_immutable" "administrative_audit_events";
   DropFunction "reject_administrative_audit_event_mutation"].

Definition extend_organizations : list op :=
  [add_defaulted "organizations" "lifecycle_state" (Str 24) (text "active");
   add_nullable "organizations" "deletion_requested_at" DateTime;
   add_nullable "organizations" "deletion_scheduled_at" DateTime;
   create_check_constraint "ck_organizations_lifecycle_state" "organizations" "lifecycle_state"
     (one_of ["active"; "deletion_pending"]);
   drop_check "ck_org_members_role" "organization_members"].

Definition members_become_admins (con : contents) : res db_error (list stmt) :=
  Ok [Update "organization_members" (cell_is "role" (text "member")) (fun _ _ => [("role", text "admin")])].

Definition create_policies : list op :=
  [create_check_constraint "ck_org_members_role" "organization_members" "role"
     (one_of ["owner"; "admin"; "member"]);
   create_table "organization_policies"
     [key "organization_id" Integer; dflt "plan" (Str 16) (text "free");
      dflt "payload_retention_days" Integer (VInt 30); dflt "response_retention_days" Integer (VInt 30);
      req "created_at" DateTime; req "updated_at" DateTime;
      ck "ck_organization_policies_plan" "plan" (one_of ["free"; "standard"; "enterprise"]);
      ck "ck_organization_policies_payload_retention" "payload_retention_days" (Above 0);
      ck "ck_organization_policies_response_retention" "response_retention_days" (Above 0);
      fk "organization_id" "organizations" CASCADE]].

Definition policy_row (organization : row) : row :=
  list_to_map [("organization_id", cell organization "id"); ("plan", text "free");
               ("payload_retention_days", VInt 30); ("response_retention_days", VInt 30);
               ("created_at", cell organization "created_at"); ("updated_at", cell organization "created_at")].

Definition insert_policies (con : contents) : res db_error (list stmt) :=
  Ok [Insert "organization_policies" (fun con => policy_row <$> rows_of con "organizations")].

Definition events_write : json := JList [JStr (py "events:write")].

Definition extend_keys : list op :=
  [create_table "project_members"
     [key "id" Integer; req "project_id" Integer; req "user_id" Integer; req "role" (Str 16);
      req "created_at" DateTime; ck "ck_project_members_role" "role" (one_of ["admin"; "operator"; "viewer"]);
      fk "project_id" "projects" CASCADE; fk "user_id" "users" CASCADE;
      uqn "uq_project_members_project_user" ["project_id"; "user_id"]];
   create_index "ix_project_members_user_project" "project_members" ["user_id"; "project_id"];
   add_defaulted "api_keys" "scopes" JSON (VJson events_write);
   add_nullable "api_keys" "expires_at" DateTime;
   add_nullable "api_keys" "rotation_family_id" (Str 36);
   add_nullable "api_keys" "rotated_from_id" Integer;
   create_foreign_key "fk_api_keys_rotated_from" "api_keys" "api_keys" "rotated_from_id" SET_NULL].

Definition own_family (api_key : row) : list (string * value) :=
  [("scopes", VJson events_write); ("rotation_family_id", cell api_key "public_id")].

Definition backfill_families (con : contents) : res db_error (list stmt) :=
  Ok [Update "api_keys" everywhere (fun _ => own_family)].

Definition create_secret_versions : list op :=
  [set_not_null "api_keys" "rotation_family_id";
   create_index "ix_api_keys_expiry_active" "api_keys" ["expires_at"; "is_active"];
   create_table "endpoint_signing_secret_versions"
     [key "id" Integer; req "endpoint_id" Integer; req "version" Integer; req "activated_at" DateTime;
      opt "retire_at" DateTime; ck "ck_endpoint_signing_secrets_version" "version" (AtLeast 1);
      fk "endpoint_id" "webhook_endpoints" CASCADE;
      uqn "uq_endpoint_signing_secrets_endpoint_version" ["endpoint_id"; "version"]];
   create_index "ix_endpoint_signing_secrets_retirement" "endpoint_signing_secret_versions"
     ["endpoint_id"; "retire_at"]].

Definition secret_version_row (endpoint : row) : row :=
  list_to_map [("endpoint_id", cell endpoint "id"); ("version", cell endpoint "secret_version");
               ("activated_at", cell endpoint "created_at"); ("retire_at", VNull)].

Definition insert_secret_versions (con : contents) : res db_error (list stmt) :=
  Ok [Insert "endpoint_signing_secret_versions"
        (fun con => secret_version_row <$> rows_of con "webhook_endpoints")].

Definition create_lifecycle : list op :=
  [add_nullable "events" "payload_purged_at" DateTime;
   AlterColumn "events" "payload" true;
   AlterColumn "events" "canonical_envelope" true;
   add_nullable "delivery_attempts" "response_purged_at" DateTime;
   create_table "administrative_audit_events"
     [key "id" Integer; req "public_id" (Str 36); req "organization_public_id" (Str 36);
      opt "project_public_id" (Str 36); opt "actor_user_id" Integer; req "action" (Str 100);
      req "resource_type" (Str 100); opt "resource_public_id" (Str 36); req "sanitized_metadata" JSON;
      req "created_at" DateTime];
   create_unique_index "ix_administrative_audit_events_public_id" "administrative_audit_events" ["public_id"];
   create_index "ix_administrative_audit_events_org_created" "administrative_audit_events"
     ["organization_public_id"; "created_at"; "id"]]
  ++ create_audit_immutability_trigger ++
  [create_table "organization_lifecycle_operations"
     [key "id" Integer; req "public_id" (Str 36); req "organization_id" Integer;
      opt "requested_by_user_id" Integer; req "kind" (Str 16); req "status" (Str 16);
      req "scheduled_at" DateTime; req "created_at" DateTime; opt "completed_at" DateTime;
      opt "error" (Str 500);
      ck "ck_org_lifecycle_operations_kind" "kind" (Equals (text "deletion"));
      ck "ck_org_lifecycle_operations_status" "status"
        (one_of ["pending"; "running"; "completed"; "canceled"; "failed"]);
      fk "organization_id" "organizations" CASCADE; fk "requested_by_user_id" "users" SET_NULL];
   create_unique_index "ix_organization_lifecycle_operations_public_id" "organization_lifecycle_operations"
     ["public_id"];
   create_index "ix_org_lifecycle_operations_org_created" "organization_lifecycle_operations"
     ["organization_id"; "created_at"; "id"];
   create_index "ix_org_lifecycle_operations_status_scheduled" "organization_lifecycle_operations"
     ["status"; "scheduled_at"; "id"];
   CreateIndex "uq_org_lifecycle_operations_active" "organization_lifecycle_operations"
     (Index ["organization_id"] true (Some ACTIVE_OPERATION_PREDICATE))].

Definition upgrade_0007 : list op :=
  extend_organizations ++ [Execute members_become_admins] ++ create_policies ++ [Execute insert_policies]
  ++ extend_keys ++ [Execute backfill_families] ++ create_secret_versions
  ++ [Execute insert_secret_versions] ++ create_lifecycle.

(** [purged_event_count] *)
Definition purged_event_count (con : contents) : Z :=
  count (fun r => cell_is "payload" VNull r || cell_is "canonical_envelope" VNull r) (rows_of con "events").

(** [pending_organization_count]: [!=] is unknown on NULL. *)
Definition pending_organization_count (con : contents) : Z :=
  count (fun r => negb (cell_is "lifecycle_state" (text "active") r) && negb (cell_is "lifecycle_state" VNull r))
    (rows_of con "organizations").

Definition refuse_losses : list op :=
  [Require_ (fun con => negb (purged_event_count con =? 0)%Z)
     "Cannot downgrade Phase 7 after event payloads have been purged";
   Require_ (fun con => negb (pending_organization_count con =? 0)%Z)
     "Cannot downgrade Phase 7 while organization deletion is pending"].

Definition drop_lifecycle : list op :=
  [drop_table "organization_lifecycle_operations"] ++ drop_audit_immutability_trigger ++
  [drop_table "administrative_audit_events";
   drop_column "delivery_attempts" "response_purged_at";
   AlterColumn "events" "canonical_envelope" false;
   AlterColumn "events" "payload" false;
   drop_column "events" "payload_purged_at";
   drop_table "endpoint_signing_secret_versions";
   drop_index "ix_api_keys_expiry_active" "api_keys";
   DropConstraint "fk_api_keys_rotated_from" "api_keys" foreignkey_;
   drop_column "api_keys" "rotated_from_id";
   drop_column "api_keys" "rotation_family_id";
   drop_column "api_keys" "expires_at";
   drop_column "api_keys" "scopes";
   drop_table "project_members";
   drop_table "organization_policies"].

Definition admins_become_members (con : contents) : res db_error (list stmt) :=
  Ok [Update "organization_members" (cell_is "role" (text "admin")) (fun _ _ => [("role", text "member")])].

Definition restore_organizations : list op :=
  [drop_check "ck_org_members_role" "organization_members";
   create_check_constraint "ck_org_members_role" "organization_members" "role" (one_of ["owner"; "member"]);
   drop_check "ck_organizations_lifecycle_state" "organizations";
   drop_column "organizations" "deletion_scheduled_at";
   drop_column "organizations" "deletion_requested_at";
   drop_column "organizations" "lifecycle_state"].

Definition downgrade_0007 : list op :=
  (refuse_losses ++ drop_lifecycle) ++ [Execute admins_become_members] ++ restore_organizations.

Definition script_0007 : Revision :=
  MkRevision "0007_phase7_tenant_lifecycle" (Some "0006_phase6_trace_context")
    (fun _ => upgrade_0007) downgrade_0007.
End R0007.

Module R0008.
Definition upgrade_0008 : list op :=
  [add_defaulted "events" "envelope_mode" (Str 16) (text "native");
   create_check_constraint "ck_events_envelope_mode" "events" "envelope_mode" (one_of ["native"; "cloudevents"])].

Definition cloud_event_count (con : contents) : Z :=
  count (cell_is "envelope_mode" (text "cloudevents")) (rows_of con "events").

Definition downgrade_0008 : list op :=
  [Require_ (fun con => negb (cloud_event_count con =? 0)%Z)
     "Cannot downgrade Phase 8 while CloudEvents envelopes exist";
   drop_check "ck_events_envelope_mode" "events";
   drop_column "events" "envelope_mode"].

Definition script_0008 : Revision :=
  MkRevision "0008_phase8_envelope_mode" (Some "0007_phase7_tenant_lifecycle")
    (fun _ => upgrade_0008) downgrade_0008.
End R0008.

Module R0009.
Definition upgrade_0009 : list op :=
  [create_table "login_throttles"
     [key "scope" (Str 340); dflt "failure_count" Integer (VInt 0); req "window_started_at" DateTime;
      opt "locked_until" DateTime; req "updated_at" DateTime]].

Definition downgrade_0009 : list op := [drop_table "login_throttles"].

Definition script_0009 : Revision :=
  MkRevision "0009_login_throttle" (Some "0008_phase8_envelope_mode") (fun _ => upgrade_0009) downgrade_0009.
End R0009.

Module R0010.
Definition upgrade_0010 : list op := [add_nullable "webhook_endpoints" "event_types" JSON].

Definition downgrade_0010 : list op := [drop_column "webhook_endpoints" "event_types"].

Definition script_0010 : Revision :=
  MkRevision "0010_endpoint_event_types" (Some "0009_login_throttle") (fun _ => upgrade_0010) downgrade_0010.
End R0010.

Module R0011.
Definition SCHEMES : predicate := one_of ["legacy"; "standard"].

Definition upgrade_0011 : list op :=
  [add_defaulted "webhook_endpoints" "signature_scheme" (Str 16) (text "legacy");
   create_check_constraint "ck_webhook_endpoints_signature_scheme" "webhook_endpoints" "signature_scheme" SCHEMES;
   add_defaulted "deliveries" "signature_scheme_snapshot" (Str 16) (text "legacy");
   create_check_constraint "ck_deliveries_snapshot_signature_scheme" "deliveries" "signature_scheme_snapshot"
     SCHEMES].

Definition non_legacy (con : contents) : Z :=
  count (fun r => negb (cell_is "signature_scheme" (text "legacy") r) && negb (cell_is "signature_scheme" VNull r))
    (rows_of con "webhook_endpoints")
  + count (fun r => negb (cell_is "signature_scheme_snapshot" (text "legacy") r)
                    && negb (cell_is "signature_scheme_snapshot" VNull r)) (rows_of con "deliveries").

Definition downgrade_0011 : list op :=
  [Require_ (fun con => negb (non_legacy con =? 0)%Z)
     "Refusing downgrade: non-legacy signature schemes exist; revert affected endpoints to 'legacy' and drain non-legacy deliveries first";
   drop_check "ck_deliveries_snapshot_signature_scheme" "deliveries";
   drop_column "deliveries" "signature_scheme_snapshot";
   drop_check "ck_webhook_endpoints_signature_scheme" "webhook_endpoints";
   drop_column "webhook_endpoints" "signature_scheme"].

Definition script_0011 : Revision :=
  MkRevision "0011_signature_scheme" (Some "0010_endpoint_event_types") (fun _ => upgrade_0011) downgrade_0011.
End R0011.

(** [migrations/versions] *)
Definition versions : list Revision :=
  [R0001.script_0001; R0002.script_0002; R0003.script_0003; R0004.script_0004; R0005.script_0005;
   R0006.script_0006; R0007.script_0007; R0008.script_0008; R0009.script_0009; R0010.script_0010;
   R0011.script_0011].
