(* ===== verification/Metadata.v ===== *)
(** * The schema the models declare

    The tables of [src/app/models.py] as the declarations SQLAlchemy reads them
    from: columns with their [unique] and [index] flags and foreign keys, and
    [__table_args__].  [create_all] is the schema these declarations denote,
    the [target_metadata] of [src/migrations/env.py]. *)

From stdpp Require Import base tactics list gmap sets strings numbers option.
From S2P Require Import Prelude Json Schema SchemaRuns Revisions.
Local Open Scope Z_scope.
Local Open Scope string_scope.

(** ** Declarations *)

(** [Column(...)] *)
Record orm_column : Type := MkOrmColumn {
  oc_name : string;
  oc_type : coltype;
  oc_primary_key : bool;
  oc_nullable : bool;
  oc_unique : bool;
  oc_index : bool;
  oc_foreign_key : option (string * ondelete);
  oc_server_default : option value;
}.

(** An entry of a mapped class: a column, or an element of
    [__table_args__]. *)
Inductive entry : Type :=
| AColumn (c : orm_column)
| AConstraint (i : item)
| AnIndex (name : string) (ix : index).

Definition keyed_by (c : string) (ty : coltype) : entry :=
  AColumn (MkOrmColumn c ty true false false false None None).
Definition keyed_by_ref (c t : string) (d : ondelete) : entry :=
  AColumn (MkOrmColumn c Integer true false false false (Some (t, d)) None).
Definition required (c : string) (ty : coltype) : entry :=
  AColumn (MkOrmColumn c ty false false false false None None).
Definition nullable (c : string) (ty : coltype) : entry :=
  AColumn (MkOrmColumn c ty false true false false None None).
Definition defaulted (c : string) (ty : coltype) (v : value) : entry :=
  AColumn (MkOrmColumn c ty false false false false None (Some v)).
Definition indexed (c : string) (ty : coltype) : entry :=
  AColumn (MkOrmColumn c ty false false false true None None).
Definition unique_indexed (c : string) (ty : coltype) : entry :=
  AColumn (MkOrmColumn c ty false false true true None None).
Definition unique_column (c : string) (ty : coltype) : entry :=
  AColumn (MkOrmColumn c ty false false true false None None).
Definition reference (c t : string) (d : ondelete) : entry :=
  AColumn (MkOrmColumn c Integer false false false false (Some (t, d)) None).
Definition nullable_reference (c t : string) (d : ondelete) : entry :=
  AColumn (MkOrmColumn c Integer false true false false (Some (t, d)) None).
Definition index_on (name : string) (cols : list string) : entry := AnIndex name (Index cols false None).
Definition check_on (name c : string) (p : predicate) : entry := AConstraint (ck name c p).
Definition unique_together (name : string) (cols : list string) : entry := AConstraint (uqn name cols).

(** The table a class declares: [unique=True] with [index=True] is one unique
    index named [ix_<table>_<column>], [unique=True] alone an unnamed
    constraint. *)
Definition table_items (entries : list entry) : list item :=
  e ← entries;
  match e with
  | AColumn c =>
      ([if oc_primary_key c then KeyCol (oc_name c) (oc_type c)
       else Col (oc_name c) (oc_type c) (oc_nullable c) (oc_server_default c)]
      ++ (if oc_unique c && negb (oc_index c) then [uq [oc_name c]] else [])
      ++ from_option (fun td => [fk (oc_name c) td.1 td.2]) [] (oc_foreign_key c))%list
  | AConstraint _ | AnIndex _ _ => []
  end.

Definition table_constraints (entries : list entry) : list item :=
  e ← entries; match e with AConstraint i => [i] | _ => [] end.

Definition table_indexes (t : string) (entries : list entry) : list op :=
  e ← entries;
  match e with
  | AColumn c =>
      if oc_index c
      then [CreateIndex (String.append "ix_" (String.append t (String.append "_" (oc_name c)))) t
              (Index [oc_name c] (oc_unique c) None)]
      else []
  | AnIndex name ix => [CreateIndex name t ix]
  | AConstraint _ => []
  end.

Definition create_model (te : string * list entry) : list op :=
  CreateTable te.1 (table_items te.2 ++ table_constraints te.2) :: table_indexes te.1 te.2.

(** ** The mapped classes *)

Definition User_table : string * list entry := ("users",
  [keyed_by "id" Integer; unique_indexed "email" (Str 320); required "name" (Str 100);
   required "hashed_password" (Str 255); required "is_active" Boolean; required "created_at" DateTime]).

Definition Item_table : string * list entry := ("items",
  [check_on "ck_items_price_nonnegative" "price" (AtLeast 0);
   index_on "ix_items_owner_created" ["owner_id"; "created_at"; "id"];
   keyed_by "id" Integer; indexed "title" (Str 200); nullable "description" (Str 2000);
   required "price" (Numeric 12 2); reference "owner_id" "users" CASCADE; required "created_at" DateTime]).

Definition Organization_table : string * list entry := ("organizations",
  [check_on "ck_organizations_lifecycle_state" "lifecycle_state" (one_of ["active"; "deletion_pending"]);
   keyed_by "id" Integer; unique_indexed "public_id" (Str 36); required "name" (Str 120);
   defaulted "lifecycle_state" (Str 24) (text "active"); nullable "deletion_requested_at" DateTime;
   nullable "deletion_scheduled_at" DateTime; required "created_at" DateTime]).

Definition OrganizationPolicy_table : string * list entry := ("organization_policies",
  [check_on "ck_organization_policies_plan" "plan" (one_of ["free"; "standard"; "enterprise"]);
   check_on "ck_organization_policies_payload_retention" "payload_retention_days" (Above 0);
   check_on "ck_organization_policies_response_retention" "response_retention_days" (Above 0);
   keyed_by_ref "organization_id" "organizations" CASCADE; defaulted "plan" (Str 16) (text "free");
   defaulted "payload_retention_days" Integer (VInt 30); defaulted "response_retention_days" Integer (VInt 30);
   required "created_at" DateTime; required "updated_at" DateTime]).

Definition OrganizationMember_table : string * list entry := ("organization_members",
  [unique_together "uq_org_members_org_user" ["organization_id"; "user_id"];
   check_on "ck_org_members_role" "role" (one_of ["owner"; "admin"; "member"]);
   index_on "ix_org_members_user_org" ["user_id"; "organization_id"];
   keyed_by "id" Integer; reference "organization_id" "organizations" CASCADE;
   reference "user_id" "users" CASCADE; required "role" (Str 16); required "created_at" DateTime]).

Definition Project_table : string * list entry := ("projects",
  [unique_together "uq_projects_name" ["organization_id"; "name"];
   index_on "ix_projects_org_created" ["organization_id"; "created_at"];
   keyed_by "id" Integer; unique_indexed "public_id" (Str 36);
   reference "organization_id" "organizations" CASCADE; required "name" (Str 120);
   required "is_active" Boolean; required "created_at" DateTime]).

Definition ProjectMember_table : string * list entry := ("project_members",
  [unique_together "uq_project_members_project_user" ["project_id"; "user_id"];
   check_on "ck_project_members_role" "role" (one_of ["admin"; "operator"; "viewer"]);
   index_on "ix_project_members_user_project" ["user_id"; "project_id"];
   keyed_by "id" Integer; reference "project_id" "projects" CASCADE; reference "user_id" "users" CASCADE;
   required "role" (Str 16); required "created_at" DateTime]).

Definition ApiKey_table : string * list entry := ("api_keys",
  [index_on "ix_api_keys_project_created" ["project_id"; "created_at"];
   index_on "ix_api_keys_prefix_active" ["key_prefix"; "is_active"];
   index_on "ix_api_keys_expiry_active" ["expires_at"; "is_active"];
   keyed_by "id" Integer; unique_indexed "public_id" (Str 36); reference "project_id" "projects" CASCADE;
   required "name" (Str 120); unique_column "key_prefix" (Str 24); required "key_digest" (Str 64);
   defaulted "scopes" JSON (VJson (JList [JStr (py "events:write")])); nullable "expires_at" DateTime;
   required "rotation_family_id" (Str 36); nullable_reference "rotated_from_id" "api_keys" SET_NULL;
   required "is_active" Boolean; required "created_at" DateTime; nullable "last_used_at" DateTime;
   nullable "revoked_at" DateTime]).

Definition GlobalControlState_table : string * list entry := ("global_control_state",
  [check_on "ck_global_control_singleton" "id" (Equals (VInt 1));
   keyed_by "id" Integer; nullable "tenant_cursor_organization_id" Integer; required "created_at" DateTime;
   required "updated_at" DateTime]).

Definition TenantQuotaState_table : string * list entry := ("tenant_quota_state",
  [keyed_by_ref "organization_id" "organizations" CASCADE; required "event_tokens" Float;
   required "event_refilled_at" DateTime; required "delivery_tokens" Float;
   required "delivery_refilled_at" DateTime; required "replay_tokens" Float;
   required "replay_refilled_at" DateTime; nullable "endpoint_cursor_id" Integer;
   required "updated_at" DateTime]).

Definition EndpointQuotaState_table : string * list entry := ("endpoint_quota_state",
  [check_on "ck_endpoint_quota_circuit_state" "circuit_state" (one_of ["closed"; "open"; "half_open"]);
   check_on "ck_endpoint_quota_failures_nonnegative" "consecutive_failures" (AtLeast 0);
   keyed_by_ref "endpoint_id" "webhook_endpoints" CASCADE; required "delivery_tokens" Float;
   required "refilled_at" DateTime; required "retry_tokens" Float; required "retry_refilled_at" DateTime;
   required "circuit_state" (Str 16); required "consecutive_failures" Integer;
   nullable "circuit_open_until" DateTime; nullable_reference "half_open_probe_delivery_id" "deliveries" SET_NULL;
   nullable "paused_at" DateTime; nullable "pause_reason" (Str 200); required "updated_at" DateTime]).

Definition WebhookEndpoint_table : string * list entry := ("webhook_endpoints",
  [check_on "ck_webhook_endpoints_secret_version" "secret_version" (AtLeast 1);
   check_on "ck_webhook_endpoints_signature_scheme" "signature_scheme" (one_of ["legacy"; "standard"]);
   index_on "ix_webhook_endpoints_project_active" ["project_id"; "is_active"];
   keyed_by "id" Integer; unique_indexed "public_id" (Str 36); reference "project_id" "projects" CASCADE;
   required "url" (Str 2048); nullable "description" (Str 500); nullable "event_types" JSON;
   defaulted "signature_scheme" (Str 16) (text "legacy"); required "is_active" Boolean;
   required "secret_version" Integer; required "created_at" DateTime; required "updated_at" DateTime]).

Definition EndpointSigningSecretVersion_table : string * list entry := ("endpoint_signing_secret_versions",
  [unique_together "uq_endpoint_signing_secrets_endpoint_version" ["endpoint_id"; "version"];
   check_on "ck_endpoint_signing_secrets_version" "version" (AtLeast 1);
   index_on "ix_endpoint_signing_secrets_retirement" ["endpoint_id"; "retire_at"];
   keyed_by "id" Integer; reference "endpoint_id" "webhook_endpoints" CASCADE; required "version" Integer;
   required "activated_at" DateTime; nullable "retire_at" DateTime]).

Definition Event_table : string * list entry := ("events",
  [unique_together "uq_events_idempotency" ["project_id"; "idempotency_key"];
   check_on "ck_events_envelope_mode" "envelope_mode" (one_of ["native"; "cloudevents"]);
   index_on "ix_events_project_created" ["project_id"; "created_at"; "id"];
   keyed_by "id" Integer; unique_indexed "public_id" (Str 36); reference "project_id" "projects" CASCADE;
   required "idempotency_key" (Str 255); required "event_type" (Str 150);
   defaulted "envelope_mode" (Str 16) (text "native"); nullable "payload" JSON; required "payload_hash" (Str 64);
   nullable "canonical_envelope" LargeBinary; nullable "payload_purged_at" DateTime;
   nullable "traceparent" (Str 55); nullable "tracestate" (Str 512); required "created_at" DateTime]).

Definition Delivery_table : string * list entry := ("deliveries",
  [check_on "ck_deliveries_status" "status"
     (one_of ["pending"; "processing"; "retry_scheduled"; "succeeded"; "dead"; "canceled"]);
   check_on "ck_deliveries_attempt_count" "attempt_count" (AtLeast 0);
   check_on "ck_deliveries_snapshot_secret_version" "signing_secret_version_snapshot" (AtLeast 1);
   check_on "ck_deliveries_snapshot_signature_scheme" "signature_scheme_snapshot" (one_of ["legacy"; "standard"]);
   index_on "ix_deliveries_due" ["status"; "next_attempt_at"; "lease_expires_at"];
   index_on "ix_deliveries_event" ["event_id"; "created_at"];
   index_on "ix_deliveries_endpoint" ["endpoint_id"; "created_at"];
   index_on "ix_deliveries_dead_operations" ["organization_id"; "status"; "dead_at"; "id"];
   index_on "ix_deliveries_endpoint_dead" ["endpoint_id"; "status"; "dead_at"; "id"];
   index_on "ix_deliveries_fair_due" ["organization_id"; "endpoint_id"; "status"; "next_attempt_at"; "id"];
   keyed_by "id" Integer; unique_indexed "public_id" (Str 36);
   reference "organization_id" "organizations" CASCADE; reference "event_id" "events" CASCADE;
   reference "endpoint_id" "webhook_endpoints" CASCADE;
   nullable_reference "replay_of_delivery_id" "deliveries" SET_NULL;
   required "endpoint_public_id_snapshot" (Str 36); required "endpoint_url_snapshot" (Str 2048);
   required "endpoint_active_snapshot" Boolean; required "signing_secret_version_snapshot" Integer;
   defaulted "signature_scheme_snapshot" (Str 16) (text "legacy"); required "status" (Str 32);
   required "attempt_count" Integer; required "next_attempt_at" DateTime; nullable "lease_token" (Str 36);
   nullable "lease_expires_at" DateTime; nullable "last_http_status" Integer; nullable "last_error" (Str 500);
   required "created_at" DateTime; required "updated_at" DateTime; nullable "succeeded_at" DateTime;
   nullable "dead_at" DateTime; nullable "dead_reason" (Str 64); nullable "canceled_at" DateTime;
   nullable "canceled_reason" (Str 200)]).

Definition ReplayOperation_table : string * list entry := ("replay_operations",
  [unique_together "uq_replay_operations_project_key" ["project_id"; "idempotency_key"];
   check_on "ck_replay_operations_mode" "mode" (one_of ["single"; "bulk"]);
   index_on "ix_replay_operations_org_created" ["organization_id"; "created_at"; "id"];
   keyed_by "id" Integer; unique_indexed "public_id" (Str 36);
   reference "organization_id" "organizations" CASCADE; reference "project_id" "projects" CASCADE;
   nullable_reference "actor_user_id" "users" SET_NULL; required "idempotency_key" (Str 255);
   required "mode" (Str 16); required "requested_count" Integer; required "created_count" Integer;
   required "source_delivery_ids" JSON; required "created_delivery_ids" JSON; required "created_at" DateTime]).

Definition OrganizationLifecycleOperation_table : string * list entry := ("organization_lifecycle_operations",
  [check_on "ck_org_lifecycle_operations_kind" "kind" (Equals (text "deletion"));
   check_on "ck_org_lifecycle_operations_status" "status"
     (one_of ["pending"; "running"; "completed"; "canceled"; "failed"]);
   index_on "ix_org_lifecycle_operations_org_created" ["organization_id"; "created_at"; "id"];
   index_on "ix_org_lifecycle_operations_status_scheduled" ["status"; "scheduled_at"; "id"];
   AnIndex "uq_org_lifecycle_operations_active"
     (Index ["organization_id"] true (Some (Check "status" (one_of ["pending"; "running"]))));
   keyed_by "id" Integer; unique_indexed "public_id" (Str 36);
   reference "organization_id" "organizations" CASCADE;
   nullable_reference "requested_by_user_id" "users" SET_NULL; required "kind" (Str 16);
   required "status" (Str 16); required "scheduled_at" DateTime; required "created_at" DateTime;
   nullable "completed_at" DateTime; nullable "error" (Str 500)]).

Definition AdministrativeAuditEvent_table : string * list entry := ("administrative_audit_events",
  [index_on "ix_administrative_audit_events_org_created" ["organization_public_id"; "created_at"; "id"];
   keyed_by "id" Integer; unique_indexed "public_id" (Str 36); required "organization_public_id" (Str 36);
   nullable "project_public_id" (Str 36); nullable "actor_user_id" Integer; required "action" (Str 100);
   required "resource_type" (Str 100); nullable "resource_public_id" (Str 36);
   required "sanitized_metadata" JSON; required "created_at" DateTime]).

(** The [after_create] listeners of the audit table *)
Definition audit_listeners : list op :=
  [CreateFunction "reject_administrative_audit_event_mutation";
   CreateTrigger "trg_administrative_audit_events_immutable" "administrative_audit_events"
     "reject_administrative_audit_event_mutation"].

Definition DeliveryAttempt_table : string * list entry := ("delivery_attempts",
  [unique_together "uq_attempts_delivery_number" ["delivery_id"; "attempt_number"];
   index_on "ix_attempts_delivery_started" ["delivery_id"; "started_at"];
   keyed_by "id" Integer; reference "delivery_id" "deliveries" CASCADE; required "attempt_number" Integer;
   required "started_at" DateTime; required "finished_at" DateTime; required "outcome" (Str 32);
   nullable "http_status" Integer; nullable "error" (Str 500); nullable "response_body" Text;
   nullable "response_purged_at" DateTime]).

Definition LoginThrottle_table : string * list entry := ("login_throttles",
  [keyed_by "scope" (Str 340); required "failure_count" Integer; required "window_started_at" DateTime;
   nullable "locked_until" DateTime; required "updated_at" DateTime]).

(** [Base.metadata], each table after the tables it refers to *)
Definition create_all : list op :=
  ([User_table; Item_table; Organization_table; OrganizationPolicy_table; OrganizationMember_table;
    Project_table; ProjectMember_table; ApiKey_table; GlobalControlState_table; TenantQuotaState_table;
    WebhookEndpoint_table; EndpointSigningSecretVersion_table; Event_table; Delivery_table;
    EndpointQuotaState_table; ReplayOperation_table; OrganizationLifecycleOperation_table;
    AdministrativeAuditEvent_table; DeliveryAttempt_table; LoginThrottle_table] ≫= create_model)
  ++ audit_listeners.

Definition target_metadata : catalog := after create_all empty_catalog.

Lemma create_all_succeeds : admitted create_all empty_catalog = true.
Proof. vm_compute. reflexivity. Qed.
