(* ===== verification/MigrationSteps.v ===== *)
(** * Each revision succeeds and can be undone

    [revision_ok]: on every database the schema before it admits, a revision
    runs to the end, leaves a database the schema after it admits, and its
    downgrade then gives back the database it started from, rows included.
    One lemma per revision of [Revisions], in order. *)

From Stdlib Require Import QArith.
From stdpp Require Import base tactics list gmap sets strings numbers option.
From S2P Require Import Prelude Json Schema SchemaRuns Revisions Metadata.
Local Open Scope Z_scope.

(** ** The schema of each revision *)

Definition schema_0000 : catalog := empty_catalog.
Definition schema_0001 : catalog := after (upgrade R0001.script_0001 0) schema_0000.
Definition schema_0002 : catalog := after (upgrade R0002.script_0002 0) schema_0001.
Definition schema_0003 : catalog := after (upgrade R0003.script_0003 0) schema_0002.
Definition schema_0004 : catalog := after (upgrade R0004.script_0004 0) schema_0003.
Definition schema_0005 : catalog := after (upgrade R0005.script_0005 0) schema_0004.
Definition schema_0006 : catalog := after (upgrade R0006.script_0006 0) schema_0005.
Definition schema_0007 : catalog := after (upgrade R0007.script_0007 0) schema_0006.
Definition schema_0008 : catalog := after (upgrade R0008.script_0008 0) schema_0007.
Definition schema_0009 : catalog := after (upgrade R0009.script_0009 0) schema_0008.
Definition schema_0010 : catalog := after (upgrade R0010.script_0010 0) schema_0009.
Definition schema_0011 : catalog := after (upgrade R0011.script_0011 0) schema_0010.

(** Comparing two schemas unfolds their names before it runs the scripts. *)
#[global] Strategy 1000 [after alter_all run exec_all move_all].

(** The table [t] of a schema *)
Definition table_of (cat : catalog) (t : string) : relation := default empty_relation (relations cat !! t).

Ltac by_vm := vm_compute; reflexivity.
Ltac by_vm_some := vm_compute; eexists; reflexivity.
Ltac decide_vm := match goal with |- ?P => apply (bool_decide_eq_true_1 P); vm_compute; reflexivity end.

(** ** What later revisions rely on

    The payload of an accepted event has a canonical form, since its
    fingerprint was computed from it; and the endpoints can be numbered. *)
Record ready (con : contents) : Prop := Ready {
  ready_payloads : Forall (fun r => is_Some (canonical_json (as_json (cell r "payload")))) (rows_of con "events");
  ready_endpoints : len (rows_of con "webhook_endpoints") < 2 ^ 31;
}.

(** The rows [ready] reads, before and after. *)
Definition same_source (con con' : contents) : Prop :=
  (fun r => cell r "payload") <$> rows_of con' "events" = (fun r => cell r "payload") <$> rows_of con "events" /\
  length (rows_of con' "webhook_endpoints") = length (rows_of con "webhook_endpoints").

Lemma ready_same con con' : same_source con con' -> ready con -> ready con'.
Proof.
  intros [Hp He] [Hr Hl]. split; [| unfold len in *; by rewrite He].
  enough (Forall (fun v => is_Some (canonical_json (as_json v)))
            ((fun r => cell r "payload") <$> rows_of con' "events")) as H by (rewrite Forall_fmap in H; exact H).
  rewrite Hp, Forall_fmap. exact Hr.
Qed.

(** ** Rows added, rewritten and dropped *)

Lemma on_rows_compose f g h : on_rows (fmap g) (on_rows (fmap f) h) = on_rows (fmap (fun r => g (f r))) h.
Proof. unfold on_rows. cbn. f_equal. by rewrite <- list_fmap_compose. Qed.

Lemma on_rows_id f h : (forall r, r ∈ tuples h -> f r = r) -> on_rows (fmap f) h = h.
Proof.
  intros H. destruct h as [l s]. unfold on_rows. cbn in *. f_equal.
  transitivity (id <$> l); [| apply list_fmap_id]. apply list_fmap_ext. intros i r Hi. apply H.
  by eapply list_elem_of_lookup_2.
Qed.

Lemma rows_of_map_eq f t con : rows_of (alter (on_rows (fmap f)) t con) t = f <$> rows_of con t.
Proof. by rewrite rows_of_map, decide_True. Qed.

Lemma rows_of_alter_ne g t con t' : t <> t' -> rows_of (alter g t con) t' = rows_of con t'.
Proof. intros H. unfold rows_of. by rewrite lookup_alter_ne. Qed.

Lemma rows_of_insert_eq t h con : rows_of (<[t := h]> con) t = tuples h.
Proof. unfold rows_of. by rewrite lookup_insert_eq. Qed.

Lemma rows_of_insert_ne t h con t' : t <> t' -> rows_of (<[t := h]> con) t' = rows_of con t'.
Proof. intros H. unfold rows_of. by rewrite lookup_insert_ne. Qed.

Lemma rows_of_delete t con t' : t <> t' -> rows_of (delete t con) t' = rows_of con t'.
Proof. intros H. unfold rows_of. by rewrite lookup_delete_ne. Qed.

Lemma cell_insert_eq c v r : cell (<[c := v]> r) c = v.
Proof. by rewrite cell_insert, decide_True. Qed.

Lemma cell_insert_ne c v r c' : c <> c' -> cell (<[c := v]> r) c' = cell r c'.
Proof. intros H. by rewrite cell_insert, decide_False. Qed.

(** A table the catalog lacks has no rows. *)
Lemma no_rows cat con t : sound (Database cat con) -> relations cat !! t = None -> con !! t = None.
Proof.
  intros [_ [_ Hdom]] Hn. cbn in Hdom. apply not_elem_of_dom. rewrite Hdom. by apply not_elem_of_dom.
Qed.

(** Cells of columns the catalog lacks are absent, so that dropping added
    columns gives the rows back. *)
Lemma restored cat con t h cs f :
  sound (Database cat con) -> con !! t = Some h -> is_Some (relations cat !! t) ->
  Forall (fun c => columns (table_of cat t) !! c = None) cs ->
  (forall r, r ∈ rows_of con t -> Forall (fun c => r !! c = None) cs -> f r = r) ->
  on_rows (fmap f) h = h.
Proof.
  intros Hs Hh [rel Hrel] Hcs Hf. apply on_rows_id. intros r Hr.
  assert (r ∈ rows_of con t) as Hin by (unfold rows_of; by rewrite Hh).
  apply Hf; [done |]. eapply list.Forall_impl; [exact Hcs |]. intros c Hc. cbn in Hc.
  eapply cell_absent; eauto. unfold table_of in Hc. by rewrite Hrel in Hc.
Qed.

(** The cell the first loop of 0003 writes to an event *)
Definition envelope_cells (r : row) : list (string * value) :=
  [("canonical_envelope", VBytes (default [] (R0003.canonical_json_0003 (R0003.envelope r))))].

(** The scripts, spelled out. *)
Ltac spell_out :=
  cbv [upgrade downgrade key req opt dflt fk uq uqn ck create_table drop_table create_index create_unique_index drop_index add_nullable add_defaulted drop_column set_not_null create_check_constraint create_foreign_key drop_check R0001.create_users_and_items R0001.create_organizations R0001.create_projects R0001.create_events R0001.create_deliveries R0001.create_attempts R0001.upgrade_0001 R0001.downgrade_0001 R0001.script_0001 R0002.CONSTRAINTS R0002.upgrade_0002 R0002.downgrade_0002 R0002.script_0002 R0003.add_columns_0003 R0003.tighten_0003 R0003.upgrade_0003 R0003.downgrade_0003 R0003.script_0003 R0004.tighten_0004 R0004.create_tables_0004 R0004.downgrade_0004 R0004.script_0004 R0005.add_quota_columns R0005.tighten_0005 R0005.create_replays R0005.upgrade_0005 R0005.downgrade_0005 R0005.script_0005 R0006.upgrade_0006 R0006.downgrade_0006 R0006.script_0006 R0007.create_audit_immutability_trigger R0007.drop_audit_immutability_trigger R0007.extend_organizations R0007.create_policies R0007.extend_keys R0007.create_secret_versions R0007.create_lifecycle R0007.upgrade_0007 R0007.refuse_losses R0007.drop_lifecycle R0007.restore_organizations R0007.downgrade_0007 R0007.script_0007 R0008.upgrade_0008 R0008.downgrade_0008 R0008.script_0008 R0009.upgrade_0009 R0009.downgrade_0009 R0009.script_0009 R0010.upgrade_0010 R0010.downgrade_0010 R0010.script_0010 R0011.upgrade_0011 R0011.downgrade_0011 R0011.script_0011];
  cbn [fmap list_fmap app reverse rev_append].

(** [rows_simpl] computes the rows a script leaves from the rows it found. *)
Ltac rows_simpl :=
  spell_out; cbn [move_all move foldl default from_option c_default tuples];
  repeat first
    [ rewrite rows_of_map_eq | rewrite rows_of_alter_ne by discriminate
    | rewrite rows_of_insert_eq | rewrite rows_of_insert_ne by discriminate
    | rewrite rows_of_delete by discriminate ]; cbn [tuples].

Ltac cells :=
  cbv [envelope_cells R0003.snapshot R0005.closed_circuit R0005.legacy_dead R0007.own_family updated everywhere];
  cbn [assign_all foldr fst snd];
  repeat first [ rewrite cell_insert_eq | rewrite cell_insert_ne by discriminate
               | rewrite cell_delete by discriminate ].

Ltac same_rows :=
  split; rows_simpl; rewrite ?length_fmap; [| reflexivity];
  rewrite <- ?list_fmap_compose; try reflexivity; apply list_fmap_ext; intros ? ? _; unfold compose; cells; reflexivity.

(** [by_name x names] compares two maps at each of the names, and elsewhere. *)
Ltac differ := lazymatch goal with H : ?x <> ?y |- ?x <> ?y => exact H | |- _ => discriminate end.
Ltac lookups :=
  repeat match goal with
  | |- context [delete ?i ?m !! ?i] => rewrite (lookup_delete_eq m i)
  | |- context [delete ?i ?m !! ?j] => rewrite (lookup_delete_ne m i j) by differ
  | |- context [<[?i := ?x]> ?m !! ?i] => rewrite (lookup_insert_eq m i x)
  | |- context [<[?i := ?x]> ?m !! ?j] => rewrite (lookup_insert_ne m i j x) by differ
  | |- context [alter ?f ?i ?m !! ?i] => rewrite (lookup_alter_eq f m i)
  | |- context [alter ?f ?i ?m !! ?j] => rewrite (lookup_alter_ne f m i j) by differ
  end.
Ltac by_name x names :=
  lazymatch names with
  | [] => lookups; try reflexivity
  | ?n :: ?names' =>
      destruct (decide (n = x)) as [<- | ?]; [lookups; try (symmetry; assumption) | by_name x names']
  end.

(** [by_table ts] compares two contents at the tables [ts] a script touches;
    [row_restored cs] then compares the rows at the columns [cs]. *)
Ltac by_table ts :=
  let t := fresh "t" in apply map_eq; intros t; spell_out;
  cbn [move_all move foldl default from_option c_default]; by_name t ts.

Ltac row_restored cs :=
  match goal with
  | Hs : sound (Database ?cat ?con) |- _ = ?con !! ?t =>
      let h := fresh "h" in let Hh := fresh "Hh" in let r := fresh "r" in let Hr := fresh "Hr" in
      let Hcs := fresh "Hcs" in let c := fresh "c" in
      destruct (con !! t) as [h |] eqn:Hh; [| reflexivity]; cbn [fmap option_fmap option_map];
      rewrite ?on_rows_compose; f_equal;
      refine (restored cat con t h cs _ Hs Hh _ _ _); [decide_vm | decide_vm |];
      intros r Hr Hcs; repeat (rewrite list.Forall_cons in Hcs; destruct Hcs as [? Hcs]);
      cbv [envelope_cells R0003.snapshot R0005.closed_circuit R0005.legacy_dead R0007.own_family updated everywhere];
      cbn [assign_all foldr fst snd];
      repeat match goal with |- context [if ?b then _ else _] => destruct b end;
      apply map_eq; intros c; by_name c cs
  end.

Lemma count_none p l : Forall (fun r => p r = false) l -> count p l = 0.
Proof.
  intros H. unfold count. replace (filter _ l) with (@nil row); [done |]. symmetry.
  induction H as [| r l Hr _ IH]; [done |]. rewrite filter_cons_False; [done | by rewrite Hr].
Qed.

Lemma count_zero p l : count p l = 0 <-> Forall (fun r => p r = false) l.
Proof.
  split; [| apply count_none]. intros H. apply list.Forall_forall. intros r Hr. destruct (p r) eqn:E; [| done].
  assert (r ∈ filter (fun r => p r = true) l) as Hin by (apply list_elem_of_filter; done).
  unfold count, len in H. destruct (filter _ l); [by apply not_elem_of_nil in Hin | done].
Qed.

Lemma unique_from_index cat con t n cols :
  sound (Database cat con) -> is_Some (relations cat !! t) ->
  indexes (table_of cat t) !! n = Some (Index cols true None) -> unique_on None cols (rows_of con t).
Proof.
  intros [_ [Hall _]] [rel Hrel] Hn. unfold table_of in Hn. rewrite Hrel in Hn.
  destruct (Hall t rel Hrel) as [_ _ _ Hix _]. exact (Hix n _ Hn eq_refl).
Qed.

(** A rewritten row and the row it was. *)
Ltac each_row r Hr :=
  apply list.Forall_forall; intros ?x Hr; rewrite list_elem_of_fmap in Hr; destruct Hr as (r & -> & Hr).

(** Every row has the constant the script gave it. *)
Ltac constant_cells :=
  let r := fresh "r" in let Hr := fresh in each_row r Hr;
  unfold check_holds, cell_is; cbn [ck_column ck_predicate]; cells; vm_compute; done.

(** The conditions of operations that any row meets. *)
Ltac oblige :=
  intros; spell_out; cbn [obligations validates ix_unique]; repeat apply conj;
  try lazymatch goal with
  | |- True => exact I
  | |- _ \/ cell_ok _ _ => right; vm_compute; reflexivity
  | |- true = true \/ _ => left; reflexivity
  | |- false = true -> _ => discriminate
  | |- true = true -> unique_on _ _ _ => intros _; rows_simpl; unfold unique_on; constructor
  end.

(** ** Revisions that only change the catalog *)

(** What is proved of a revision between two schemas: it succeeds, what it
    leaves is sound, and its downgrade undoes it. *)
Definition revision_ok (r : Revision) (before behind : catalog) : Prop :=
  forall now con, sound (Database before con) -> ready con ->
    exists con', run (upgrade r now) (Database before con) = Ok (Database behind con') /\
                 sound (Database behind con') /\ same_source con con' /\
                 run (downgrade r) (Database behind con') = Ok (Database before con).

Lemma revision_ddl r before :
  (forall now, upgrade r now = upgrade r 0) ->
  admitted (upgrade r 0) before = true -> admitted (downgrade r) (after (upgrade r 0) before) = true ->
  after (downgrade r) (after (upgrade r 0) before) = before ->
  (forall con, sound (Database before con) -> obligations (upgrade r 0) con /\
     same_source con (move_all (upgrade r 0) con) /\
     (sound (Database (after (upgrade r 0) before) (move_all (upgrade r 0) con)) ->
      obligations (downgrade r) (move_all (upgrade r 0) con)) /\
     move_all (downgrade r) (move_all (upgrade r 0) con) = con) ->
  revision_ok r before (after (upgrade r 0) before).
Proof.
  intros Hnow Hup Hdown Hback H now con Hs _. destruct (H con Hs) as (Ho & Hsrc & Hd & Hid).
  rewrite Hnow. destruct (sound_run_ddl _ _ _ Hup Hs Ho) as [Hrun Hs'].
  exists (move_all (upgrade r 0) con). split; [done |]. split; [done |]. split; [done |].
  apply run_ddl; [done |]. split; [auto |]. by rewrite Hback, Hid.
Qed.

#[export] Instance obligations_dec ops con : Decision (obligations ops con).
Proof. revert con. induction ops as [| o ops IH]; intros con; cbn; apply _. Defined.

(** The hypotheses of [revision_ddl] that only concern the catalog. *)
Ltac ddl_revision :=
  apply revision_ddl; [done | by_vm | by_vm | decide_vm |]; intros con Hs; split; [| split; [| split]].

Lemma revision_0001 : revision_ok R0001.script_0001 schema_0000 schema_0001.
Proof.
  unfold schema_0001. apply revision_ddl; [done | by_vm | by_vm | decide_vm |]. intros con Hs.
  assert (con = ∅) as ->.
  { apply map_eq. intros t. rewrite lookup_empty. by eapply no_rows. }
  split; [decide_vm |]. split; [split; by_vm |]. split; [intros _; decide_vm | decide_vm].
Qed.

Lemma revision_0002 : revision_ok R0002.script_0002 schema_0001 schema_0002.
Proof.
  unfold schema_0002. ddl_revision; [oblige | done | | done]. intros Hs'. spell_out.
  cbn [obligations validates move]. 
  repeat split; (eapply unique_from_index; [exact Hs | decide_vm | ]).
  - instantiate (1 := "ix_deliveries_public_id"). by_vm.
  - instantiate (1 := "ix_events_public_id"). by_vm.
  - instantiate (1 := "ix_webhook_endpoints_public_id"). by_vm.
  - instantiate (1 := "ix_api_keys_public_id"). by_vm.
  - instantiate (1 := "ix_projects_public_id"). by_vm.
  - instantiate (1 := "ix_organizations_public_id"). by_vm.
  - instantiate (1 := "ix_users_email"). by_vm.
Qed.

(** ** 0003: the canonical envelope and the endpoint snapshots *)

(** *** Text that can be encoded *)

Definition encodable (s : str) : Prop := is_Some (utf8_encode s).

Lemma encodable_chars s : encodable s <-> Forall (fun c => is_Some (utf8_char c)) s.
Proof.
  unfold encodable, utf8_encode. transitivity (is_Some (mapM utf8_char s)); [| apply mapM_is_Some].
  destruct (mapM utf8_char s); cbn; split; eauto; by intros [? ?].
Qed.

Lemma encodable_app s s' : encodable (s ++ s') <-> encodable s /\ encodable s'.
Proof. rewrite !encodable_chars. apply Forall_app. Qed.

Lemma utf8_char_low c : c < 2048 -> is_Some (utf8_char c).
Proof.
  intros H. unfold utf8_char. destruct (c <? 128); [eauto |].
  replace (c <? 2048) with true by (symmetry; by apply Z.ltb_lt). eauto.
Qed.

Lemma encodable_py s : encodable (py s).
Proof.
  apply encodable_chars. induction s as [| a s IH]; [constructor |]. constructor; [| exact IH].
  apply utf8_char_low. pose proof (Ascii.nat_ascii_bounded a). lia.
Qed.

Lemma encodable_escape c : is_Some (utf8_char c) -> encodable (escape_char c).
Proof.
  intros Hc. apply encodable_chars. unfold escape_char.
  repeat (match goal with |- context [if ?b then _ else _] => destruct b eqn:? end;
          [repeat constructor; apply utf8_char_low; try lia |]).
  1, 2 : unfold hex_digit; destruct (_ <? 10) eqn:?; Z.to_euclidean_division_equations; lia.
  by constructor.
Qed.

Lemma encodable_quote s : encodable s -> encodable (quote s).
Proof.
  intros Hs. unfold quote. change (34 :: ?l) with ([34] ++ l). rewrite !encodable_app.
  split; [by vm_compute; eauto | split; [| by vm_compute; eauto]]. apply encodable_chars in Hs.
  induction Hs as [| c s Hc Hs IH]; [by vm_compute; eauto |]. cbn. apply encodable_app.
  split; [by apply encodable_escape | exact IH].
Qed.

Lemma encodable_join sep l : encodable sep -> Forall encodable l -> encodable (join sep l).
Proof.
  intros Hsep Hl. induction Hl as [| x l Hx Hl IH]; [by vm_compute; eauto |].
  destruct l; [done |]. change (encodable (x ++ sep ++ join sep (l :: l0))). rewrite !encodable_app. auto.
Qed.

Lemma encodable_padded n z : encodable (padded n z).
Proof.
  unfold padded. apply encodable_app. split; [| apply encodable_py].
  apply encodable_chars, Forall_replicate. by apply utf8_char_low.
Qed.

Lemma encodable_isoformat t : encodable (isoformat t).
Proof.
  unfold isoformat. destruct (civil_from_days _) as [[y mo] d]. rewrite !encodable_app.
  repeat split; try apply encodable_padded; try apply encodable_py.
  destruct (_ =? 0); [by vm_compute; eauto |]. apply encodable_app. split; [apply encodable_py | apply encodable_padded].
Qed.

Lemma envelope_canonical r :
  encodable (as_str (cell r "public_id")) -> encodable (as_str (cell r "event_type")) ->
  is_Some (canonical_json (as_json (cell r "payload"))) ->
  is_Some (R0003.canonical_json_0003 (R0003.envelope r)).
Proof.
  intros Hid Hty [b Hp]. unfold canonical_json in Hp. apply bind_Some in Hp as (s & Hd & Hs).
  unfold R0003.canonical_json_0003, R0003.envelope. cbn [dumps]. rewrite Hd. cbn [mbind option_bind].
  change (encodable (py "{" ++ join (py ",") (sort_items
    [(py "id", quote (py "id") ++ py ":" ++ quote (as_str (cell r "public_id")));
     (py "type", quote (py "type") ++ py ":" ++ quote (as_str (cell r "event_type")));
     (py "created_at", quote (py "created_at") ++ py ":" ++ quote (isoformat (as_time (cell r "created_at"))));
     (py "data", quote (py "data") ++ py ":" ++ s)]).*2 ++ py "}")).
  rewrite !encodable_app. split; [apply encodable_py | split; [| apply encodable_py]].
  apply encodable_join; [apply encodable_py |]. apply Forall_fmap. unfold sort_items.
  apply list.Forall_forall. intros [k v] Hin%order_by_elem.
  rewrite !elem_of_cons in Hin. unfold compose. cbn.
  destruct Hin as [Hin | [Hin | [Hin | [Hin | Hin]]]]; [.. | by apply not_elem_of_nil in Hin];
    apply (f_equal snd) in Hin; cbn [snd] in Hin; subst v;
    rewrite !encodable_app; repeat split; try apply encodable_py; try apply encodable_quote; try done;
    try apply encodable_py; try apply encodable_isoformat.
  by exists b.
Qed.

(** *** Rows found by key *)

Lemma table_of_lookup cat t : is_Some (relations cat !! t) -> relations cat !! t = Some (table_of cat t).
Proof. intros [rel H]. unfold table_of. by rewrite H. Qed.

Lemma mapM_ok {A B} (f : A -> res db_error B) g l : (forall x, x ∈ l -> f x = Ok (g x)) -> mapM f l = Ok (g <$> l).
Proof.
  induction l as [| x l IH]; intros H; [done |]. cbn. rewrite (H x) by left. cbn.
  rewrite IH; [done |]. intros y Hy. apply H. by right.
Qed.

Lemma run_then_execute script ops cat con l con' :
  script con = Ok l -> exec_all l (Database cat con) = Ok (Database cat con') ->
  run (Execute script :: ops) (Database cat con) = run ops (Database cat con').
Proof. intros Hl He. cbn. rewrite Hl. cbn. by rewrite He. Qed.

Lemma exec_all_cons s l db db' : exec s db = Ok db' -> exec_all (s :: l) db = exec_all l db'.
Proof. intros H. cbn. by rewrite H. Qed.

Lemma stored ty d v : cell_ok (Column ty false d) v -> v <> VNull /\ has_type ty v = true.
Proof. unfold cell_ok. case_decide; cbn; [done | auto]. Qed.

Lemma storable ty d v b d' : cell_ok (Column ty false d) v -> cell_ok (Column ty b d') v.
Proof. intros [Hn Ht]%stored. unfold cell_ok. by rewrite decide_False. Qed.

Lemma stored_str n d v : cell_ok (Column (Str n) false d) v -> encodable (as_str v).
Proof.
  intros [_ Ht]%stored. destruct v; try done. cbn in *. apply andb_true_iff in Ht as [_ Ht].
  by apply bool_decide_eq_true in Ht.
Qed.

Lemma writable_intro cat t c v col ps :
  bool_decide (c ∉ keyed_columns cat t) = true -> columns (table_of cat t) !! c = Some col ->
  checks_on (table_of cat t) c = ps -> cell_ok col v -> Forall (fun p => admits p v) ps ->
  writable cat t (table_of cat t) (c, v).
Proof.
  intros Hk Hc Hp Hv Ha. split; [by apply bool_decide_eq_true in Hk |]. split; cbn; [by rewrite Hc | by rewrite Hp].
Qed.

Lemma row_by_id (l : list row) e :
  NoDup ((fun r => cell r "id") <$> l) -> e ∈ l -> filter (fun r => cell r "id" = cell e "id") l = [e].
Proof.
  induction l as [| r l IH]; [by intros _ ?%not_elem_of_nil |].
  rewrite fmap_cons, list.NoDup_cons, elem_of_cons. intros [Hr Hnd] [<- | Hin].
  - rewrite filter_cons_True by done. f_equal. clear IH Hnd. induction l as [| x l IH]; [done |].
    rewrite fmap_cons, elem_of_cons in Hr. rewrite filter_cons_False by (intros E; apply Hr; auto). apply IH. auto.
  - rewrite filter_cons_False; [auto |]. intros E. apply Hr. rewrite E.
    by apply (list_elem_of_fmap_2 (fun r : row => cell r "id")).
Qed.

(** The endpoint a delivery belongs to *)
Definition row_with_id (con : contents) (t : string) (v : value) : row :=
  default ∅ (head (filter (fun r => cell r "id" = v) (rows_of con t))).

Lemma row_with_id_spec cat con t t' c v r :
  sound (Database cat con) ->
  bool_decide (is_Some (relations cat !! t)) = true -> bool_decide (is_Some (relations cat !! t')) = true ->
  primary_key (table_of cat t') = ["id"] -> c_nullable <$> columns (table_of cat t') !! "id" = Some false ->
  bool_decide (Exists (fun fk => fk_column fk = c /\ fk_table fk = t' /\ fk_ref fk = "id")
                 (map_to_list (foreign_keys (table_of cat t))).*2) = true ->
  c_nullable <$> columns (table_of cat t) !! c = Some false ->
  r ∈ rows_of con t -> v = cell r c ->
  row_with_id con t' v ∈ rows_of con t' /\ cell (row_with_id con t' v) "id" = v /\
  filter (fun r => cell r "id" = v) (rows_of con t') = [row_with_id con t' v].
Proof.
  rewrite !bool_decide_eq_true. intros Hs Ht%table_of_lookup Ht'%table_of_lookup Hpk Hnn Hfk Hn Hr ->.
  apply list.Exists_exists in Hfk as (fk & ([n fk'] & -> & Hin%elem_of_map_to_list)%list_elem_of_fmap & <- & Htab & Href).
  cbn in *. destruct (referenced_row _ _ _ _ _ _ _ Hs Ht Hin Hn Hr) as (e & He & Heq).
  rewrite Htab in He. rewrite Href in Heq. pose proof (ids_distinct _ _ _ _ Hs Ht' Hpk Hnn) as Hnd.
  unfold row_with_id. rewrite <- Heq, (row_by_id _ e) by done. done.
Qed.

(** *** The two loops *)

Definition schema_0003a : catalog := after R0003.add_columns_0003 schema_0002.

Ltac writable_by col ps := eapply (writable_intro _ _ _ _ col ps); [by_vm | by_vm | by_vm | |].
Ltac cell_by Hs Hin col :=
  match type of Hin with
  | ?r ∈ rows_of ?con ?t =>
      lazymatch goal with |- cell_ok _ (cell _ ?c) =>
        eapply (cell_conforms _ con t (table_of _ t) c col r Hs); [apply table_of_lookup; decide_vm | by_vm | exact Hin]
      end
  end.

Lemma envelopes_backfilled con :
  sound (Database schema_0003a con) -> ready con ->
  exists l, R0003.backfill_envelopes con = Ok l /\
    exec_all l (Database schema_0003a con) =
      Ok (Database schema_0003a (alter (on_rows (fmap (fun r => assign_all (envelope_cells r) r))) "events" con)).
Proof.
  intros Hs [Hp _]. rewrite list.Forall_forall in Hp.
  exists ((fun r => update_by_id "events" (cell r "id") (envelope_cells r)) <$> rows_of con "events"). split.
  - unfold R0003.backfill_envelopes. apply mapM_ok. intros r Hr.
    destruct (envelope_canonical r) as [b Hb]; [| | by apply Hp | unfold envelope_cells; by rewrite Hb].
    + eapply stored_str. cell_by Hs Hr (Column (Str 36) false None).
    + eapply stored_str. cell_by Hs Hr (Column (Str 150) false None).
  - eapply (exec_each _ _ (table_of schema_0003a "events")).
    + apply table_of_lookup. decide_vm.
    + decide_vm.
    + decide_vm.
    + done.
    + by_vm.
    + apply list.Forall_forall. intros r _. constructor; [| constructor].
      writable_by (Column LargeBinary true None) (@nil predicate); [done | constructor].
    + eapply ids_distinct; [done | apply table_of_lookup; decide_vm | by_vm | by_vm].
Qed.

Definition endpoint_of (con : contents) (d : row) : row := row_with_id con "webhook_endpoints" (cell d "endpoint_id").

Lemma endpoint_of_spec con d :
  sound (Database schema_0003a con) -> d ∈ rows_of con "deliveries" ->
  endpoint_of con d ∈ rows_of con "webhook_endpoints" /\
  filter (fun e => cell e "id" = cell d "endpoint_id") (rows_of con "webhook_endpoints") = [endpoint_of con d].
Proof.
  intros Hs Hd. destruct (row_with_id_spec schema_0003a con "deliveries" "webhook_endpoints" "endpoint_id"
    (cell d "endpoint_id") d Hs) as (? & _ & ?); [by_vm.. | done | done | done].
Qed.

Lemma snapshot_rows_spec con :
  sound (Database schema_0003a con) ->
  R0003.snapshot_rows con = (fun d => (d, endpoint_of con d)) <$> rows_of con "deliveries".
Proof.
  intros Hs. unfold R0003.snapshot_rows.
  assert (forall d, d ∈ rows_of con "deliveries" ->
    (e ← filter (fun e => cell e "id" = cell d "endpoint_id") (rows_of con "webhook_endpoints"); [(d, e)])
    = [(d, endpoint_of con d)]) as H.
  { intros d Hd. by rewrite (proj2 (endpoint_of_spec con d Hs Hd)). }
  revert H. generalize (rows_of con "deliveries") as l.
  induction l as [| d l IH]; intros H; [done |]. rewrite bind_cons, fmap_cons, H by left.
  cbn [app]. f_equal. apply IH. intros x Hx. apply H. by right.
Qed.

Lemma snapshots_backfilled con :
  sound (Database schema_0003a con) ->
  exists l, R0003.backfill_snapshots con = Ok l /\
    exec_all l (Database schema_0003a con) =
      Ok (Database schema_0003a
            (alter (on_rows (fmap (fun d => assign_all (R0003.snapshot (endpoint_of con d)) d))) "deliveries" con)).
Proof.
  intros Hs. unfold R0003.backfill_snapshots. eexists. split; [done |].
  rewrite snapshot_rows_spec, <- list_fmap_compose by done.
  eapply (exec_each _ _ (table_of schema_0003a "deliveries") (fun d => R0003.snapshot (endpoint_of con d))).
  - apply table_of_lookup. decide_vm.
  - decide_vm.
  - decide_vm.
  - done.
  - by_vm.
  - apply list.Forall_forall. intros d Hd. destruct (endpoint_of_spec con d Hs Hd) as [He _].
    unfold R0003.snapshot. repeat (apply list.Forall_cons; split); [| | | | constructor].
    + writable_by (Column (Str 36) true None) (@nil predicate); [| constructor].
      eapply storable. cell_by Hs He (Column (Str 36) false None).
    + writable_by (Column (Str 2048) true None) (@nil predicate); [| constructor].
      eapply storable. cell_by Hs He (Column (Str 2048) false None).
    + writable_by (Column Boolean true None) (@nil predicate); [| constructor].
      eapply storable. cell_by Hs He (Column Boolean false None).
    + writable_by (Column Integer true None) (@nil predicate); [| constructor].
      eapply storable. cell_by Hs He (Column Integer false None).
  - eapply ids_distinct; [done | apply table_of_lookup; decide_vm | by_vm | by_vm].
Qed.

(** The rest of a revision whose upgrade is known: what its downgrade needs. *)
Lemma undone r before behind con con' :
  admitted (downgrade r) behind = true -> after (downgrade r) behind = before ->
  obligations (downgrade r) con' -> move_all (downgrade r) con' = con ->
  run (downgrade r) (Database behind con') = Ok (Database before con).
Proof. intros Ha Hb Ho <-. apply run_ddl; [done |]. by rewrite Hb. Qed.

Lemma snapshot_cells con d :
  sound (Database schema_0003a con) -> d ∈ rows_of con "deliveries" ->
  Forall (fun cv => cv.2 <> VNull) (R0003.snapshot (endpoint_of con d)) /\
  admits (AtLeast 1) (cell (endpoint_of con d) "secret_version").
Proof.
  intros Hs Hd. destruct (endpoint_of_spec con d Hs Hd) as [He _]. split.
  - unfold R0003.snapshot. repeat (apply list.Forall_cons; split); [| | | | constructor]; cbn [snd].
    + eapply stored. cell_by Hs He (Column (Str 36) false None).
    + eapply stored. cell_by Hs He (Column (Str 2048) false None).
    + eapply stored. cell_by Hs He (Column Boolean false None).
    + eapply stored. cell_by Hs He (Column Integer false None).
  - eapply (check_conforms _ con "webhook_endpoints" (table_of _ _) "ck_webhook_endpoints_secret_version"
              (Check "secret_version" (AtLeast 1)) _ Hs); [apply table_of_lookup; decide_vm | by_vm | exact He].
Qed.

Definition enveloped (con : contents) : contents :=
  alter (on_rows (fmap (fun r => assign_all (envelope_cells r) r))) "events" (move_all R0003.add_columns_0003 con).
Definition upgraded_0003 (con : contents) : contents :=
  alter (on_rows (fmap (fun d => assign_all (R0003.snapshot (endpoint_of (enveloped con) d)) d))) "deliveries"
    (enveloped con).

Lemma sound_exec_all l cat con con' :
  sound (Database cat con) -> exec_all l (Database cat con) = Ok (Database cat con') -> sound (Database cat con').
Proof. intros [Hwf Hc] He. split; [exact Hwf |]. by apply exec_all_conforms in He as [? _]. Qed.

Lemma tighten_0003_obliges con :
  sound (Database schema_0003a (enveloped con)) -> obligations R0003.tighten_0003 (upgraded_0003 con).
Proof.
  intros Hs. assert (forall d, d ∈ rows_of (enveloped con) "deliveries" -> _) as Hsnap
    by exact (fun d => snapshot_cells (enveloped con) d Hs).
  unfold upgraded_0003. oblige; try (lazymatch goal with |- _ \/ _ => right end); rows_simpl.
  1 : { unfold enveloped. rows_simpl. each_row r Hr. cells. discriminate. }
  all : each_row r Hr; destruct (Hsnap r Hr) as [Hn Hc]; unfold R0003.snapshot in Hn; unfold check_holds;
    repeat (rewrite list.Forall_cons in Hn; destruct Hn as [? Hn]); cbn [ck_column ck_predicate]; cells; assumption.
Qed.

Lemma upgrade_0003_runs now con :
  sound (Database schema_0002 con) -> ready con ->
  run (upgrade R0003.script_0003 now) (Database schema_0002 con) = Ok (Database schema_0003 (upgraded_0003 con)) /\
  sound (Database schema_0003 (upgraded_0003 con)) /\ sound (Database schema_0003a (enveloped con)).
Proof.
  intros Hs Hready.
  destruct (sound_run_ddl R0003.add_columns_0003 schema_0002 con) as [Hr1 Hs1]; [by_vm | exact Hs | oblige |].
  fold schema_0003a in *. set (con1 := move_all _ con) in *.
  assert (ready con1) as Hready1 by (apply (ready_same con con1); [unfold con1; same_rows | exact Hready]).
  destruct (envelopes_backfilled con1 Hs1 Hready1) as (l1 & Hl1 & He1).
  change (alter _ "events" con1) with (enveloped con) in He1. pose proof (sound_exec_all _ _ _ _ Hs1 He1) as Hs2.
  destruct (snapshots_backfilled (enveloped con) Hs2) as (l2 & Hl2 & He2).
  change (alter _ "deliveries" (enveloped con)) with (upgraded_0003 con) in He2.
  pose proof (sound_exec_all _ _ _ _ Hs2 He2) as Hs3.
  destruct (sound_run_ddl R0003.tighten_0003 schema_0003a (upgraded_0003 con)) as [Hr4 Hs4];
    [by_vm | exact Hs3 | exact (tighten_0003_obliges con Hs2) |].
  assert (after R0003.tighten_0003 schema_0003a = schema_0003) as E by decide_vm. rewrite E in Hr4, Hs4. clear E.
  change (move_all R0003.tighten_0003 (upgraded_0003 con)) with (upgraded_0003 con) in *.
  split; [| split; [exact Hs4 | exact Hs2]]. cbn [upgrade R0003.script_0003]. unfold R0003.upgrade_0003.
  rewrite run_app, Hr1. cbn [mbind res_bind app].
  rewrite (run_then_execute _ _ _ _ _ _ Hl1 He1), (run_then_execute _ _ _ _ _ _ Hl2 He2). exact Hr4.
Qed.

Lemma revision_0003 : revision_ok R0003.script_0003 schema_0002 schema_0003.
Proof.
  intros now con Hs Hready. destruct (upgrade_0003_runs now con Hs Hready) as (Hrun & Hs1 & _).
  exists (upgraded_0003 con). split; [exact Hrun |]. split; [exact Hs1 |]. clear Hrun Hs1 Hready. split.
  - clear. unfold upgraded_0003, enveloped. same_rows.
  - apply undone; [by_vm | decide_vm | oblige |]. unfold upgraded_0003, enveloped.
    by_table ["deliveries"; "events"]; [| row_restored ["canonical_envelope"]].
    row_restored ["endpoint_public_id_snapshot"; "endpoint_url_snapshot"; "endpoint_active_snapshot";
                  "signing_secret_version_snapshot"].
Qed.

(** ** 0004: owners of deliveries, and quota rows *)

(** *** Inserted rows *)

Lemma map_Forall_values {A} (P : A -> Prop) (m : gmap string A) :
  Forall P (map_to_list m).*2 -> map_Forall (fun _ a => P a) m.
Proof. intros H n a Hn. rewrite list.Forall_forall in H. by eapply H, in_values. Qed.

Lemma row_ok_given rel g :
  Forall (fun cc => cell_ok cc.2 (cell g cc.1)) (map_to_list (columns rel)) ->
  bool_decide (map_Forall (fun c _ => is_Some (columns rel !! c)) g) = true ->
  Forall (check_holds g) (map_to_list (checks rel)).*2 -> row_ok rel g.
Proof.
  intros Hc Hd%bool_decide_eq_true Hk. split; [| split; [done | by apply map_Forall_values]].
  intros c col Hcol. rewrite list.Forall_forall in Hc. apply (Hc (c, col)). by apply elem_of_map_to_list.
Qed.

Lemma complete_given rel g :
  bool_decide (Forall (fun c => is_Some (g !! c)) (map_to_list (columns rel)).*1) = true -> complete rel g = g.
Proof.
  intros H%bool_decide_eq_true. rewrite list.Forall_forall in H. unfold complete. apply map_eq. intros c.
  rewrite lookup_union, lookup_fmap. destruct (columns rel !! c) as [col |] eqn:E; cbn.
  - destruct (H c) as [v Hv]; [| by rewrite Hv]. apply list_elem_of_fmap. exists (c, col).
    split; [done |]. by apply elem_of_map_to_list.
  - by destruct (g !! c).
Qed.

Lemma unique_on_distinct cond k key rs :
  NoDup ((fun r => cell r k) <$> rs) -> k ∈ key -> unique_on cond key rs.
Proof.
  intros Hnd Hk. unfold unique_on. induction rs as [| r rs IH]; [constructor |].
  rewrite fmap_cons, list.NoDup_cons in Hnd. destruct Hnd as [Hr Hnd]. cbn.
  destruct (key_of cond key r) as [vs |] eqn:E; [| by apply IH]. apply list.NoDup_cons. split; [| by apply IH].
  intros Hin. apply list_elem_of_omap in Hin as (r' & Hr' & E'). apply Hr. apply list_elem_of_fmap.
  exists r'. split; [| done].
  assert (forall r vs, key_of cond key r = Some vs -> vs = cell r <$> key) as Hvs.
  { intros x ws. unfold key_of. case_bool_decide; [done |]. destruct cond; [case_bool_decide; [| done] |]; congruence. }
  apply Hvs in E, E'. rewrite E in E'. apply list_elem_of_lookup in Hk as [i Hi].
  apply (f_equal (fun l => l !! i)) in E'. rewrite !list_lookup_fmap, Hi in E'. cbn in E'. congruence.
Qed.

Lemma rows_ok_lists con rel rs :
  Forall (row_ok rel) rs -> unique_on None (primary_key rel) rs ->
  Forall (fun key => unique_on None key rs) (map_to_list (uniques rel)).*2 ->
  Forall (fun ix => ix_unique ix = true -> unique_on (ix_where ix) (ix_columns ix) rs) (map_to_list (indexes rel)).*2 ->
  Forall (fun fk => Forall (refers con fk) rs) (map_to_list (foreign_keys rel)).*2 -> rows_ok con rel rs.
Proof. intros. split; auto; by apply map_Forall_values. Qed.

(** [concrete] computes the list a condition ranges over. *)
Ltac concrete :=
  lazymatch goal with |- Forall ?P ?l =>
    let l' := eval vm_compute in l in
    replace l with l' by (vm_compute; reflexivity); repeat (apply list.Forall_cons; split); try apply list.Forall_nil_2
  end.

(** Rows computed from the rows of another table, keyed by its [id]. *)
Lemma keyed_by_source (g : row -> row) k src :
  (forall r, cell (g r) k = cell r "id") -> NoDup ((fun r => cell r "id") <$> src) ->
  NoDup ((fun r => cell r k) <$> (g <$> src)).
Proof.
  intros Hg Hnd. rewrite <- list_fmap_compose.
  replace (((fun r => cell r k) ∘ g) <$> src) with ((fun r => cell r "id") <$> src); [done |].
  apply list_fmap_ext. intros i r _. unfold compose. by rewrite Hg.
Qed.

Lemma refers_to_source con t (g : row -> row) fk src :
  (forall r, cell (g r) (fk_column fk) = cell r "id") -> fk_ref fk = "id" -> fk_table fk = t ->
  rows_of con t = src -> Forall (refers con fk) (g <$> src).
Proof.
  intros Hg Hr Ht Hsrc. each_row r Hin. right. apply list.Exists_exists. exists r.
  rewrite Ht, Hsrc, Hr, Hg. done.
Qed.

(** *** The owner of a delivery *)

Definition schema_0004a : catalog := after [add_nullable "deliveries" "organization_id" Integer] schema_0003.

Definition event_of (con : contents) (d : row) : row := row_with_id con "events" (cell d "event_id").
Definition project_of (con : contents) (d : row) : row :=
  row_with_id con "projects" (cell (event_of con d) "project_id").

Lemma organization_for_event_spec con d :
  sound (Database schema_0004a con) -> d ∈ rows_of con "deliveries" ->
  project_of con d ∈ rows_of con "projects" /\
  R0004.organization_for_event con d = cell (project_of con d) "organization_id".
Proof.
  intros Hs Hd.
  destruct (row_with_id_spec schema_0004a con "deliveries" "events" "event_id" (cell d "event_id") d Hs)
    as (He & _ & Hfe); [by_vm.. | done | done |].
  destruct (row_with_id_spec schema_0004a con "events" "projects" "project_id"
    (cell (event_of con d) "project_id") (event_of con d) Hs) as (Hp & _ & Hfp); [by_vm.. | exact He | done |].
  split; [exact Hp |]. unfold R0004.organization_for_event. rewrite Hfe. fold (event_of con d). cbn [mbind list_bind app].
  replace (filter (fun p => cell (event_of con d) "project_id" = cell p "id") (rows_of con "projects"))
    with (filter (fun r => cell r "id" = cell (event_of con d) "project_id") (rows_of con "projects")).
  - by rewrite Hfp.
  - apply list_filter_iff. intros r. split; congruence.
Qed.

Lemma organizations_backfilled con :
  sound (Database schema_0004a con) ->
  exec_all [Update "deliveries" everywhere
              (fun con delivery => [("organization_id", R0004.organization_for_event con delivery)])]
    (Database schema_0004a con) =
  Ok (Database schema_0004a (alter (on_rows (fmap (updated everywhere
        (fun d => [("organization_id", R0004.organization_for_event con d)])))) "deliveries" con)).
Proof.
  intros Hs. cbn [exec_all]. rewrite (exec_update _ _ _ (table_of schema_0004a "deliveries")); [done | done | | decide_vm |].
  { apply table_of_lookup. decide_vm. }
  intros d Hd _. constructor; [| constructor]. destruct (organization_for_event_spec con d Hs Hd) as [Hp ->].
  writable_by (Column Integer true None) (@nil predicate); [| constructor].
  eapply storable. cell_by Hs Hp (Column Integer false None).
Qed.

(** *** The quota rows *)

Lemma insert_values cat con t rel s values l :
  sound (Database cat con) -> relations cat !! t = Some rel -> con !! t = Some (Heap [] s) -> values con = l ->
  from_option (fun k => Forall (fun g => is_Some (g !! k)) l) True (serial_key rel) ->
  Forall (fun g => complete rel g = g) l -> rows_ok (<[t := Heap l s]> con) rel l ->
  exec (Insert t values) (Database cat con) = Ok (Database cat (<[t := Heap l s]> con)) /\
  sound (Database cat (<[t := Heap l s]> con)).
Proof.
  intros Hs Hrel Hcon Hl Hk Hcomp Hok.
  assert (alter (fun h => foldl (fill rel) h (values con)) t con = <[t := Heap l s]> con) as E.
  { apply map_eq. intros t'. rewrite lookup_alter, lookup_insert. case_decide; [subst t' | done].
    rewrite Hcon, Hl. cbn. rewrite fill_given by done. cbn. do 2 f_equal.
    transitivity (id <$> l); [| apply list_fmap_id]. apply list_fmap_ext. intros i g Hi.
    rewrite list.Forall_forall in Hcomp. apply Hcomp. by eapply list_elem_of_lookup_2. }
  assert (exec (Insert t values) (Database cat con) = Ok (Database cat (<[t := Heap l s]> con))) as He.
  { rewrite <- E. eapply exec_insert; [done.. |]. rewrite E. by rewrite rows_of_insert_eq. }
  split; [done |]. split; [apply Hs |]. by apply exec_conforms in He as [? _].
Qed.

(** [given_row] proves the conditions on one inserted row, cell by cell. *)
Ltac given_row :=
  apply row_ok_given; [concrete | by_vm | concrete]; unfold check_holds; cbn [fst snd ck_column ck_predicate];
  cbv [list_to_map]; cells;
  lazymatch goal with
  | |- cell_ok _ (cell _ _) => idtac
  | |- admits _ (cell _ _) => idtac
  | |- cell_ok _ _ => vm_compute; reflexivity
  | |- admits _ _ => vm_compute; discriminate
  end.

Lemma tenants_inserted now con s :
  sound (Database schema_0004 con) -> con !! "tenant_quota_state" = Some (Heap [] s) ->
  let l := R0004.tenant_row now <$> rows_of con "organizations" in
  exec (Insert "tenant_quota_state" (fun con => R0004.tenant_row now <$> rows_of con "organizations"))
    (Database schema_0004 con) = Ok (Database schema_0004 (<["tenant_quota_state" := Heap l s]> con)) /\
  sound (Database schema_0004 (<["tenant_quota_state" := Heap l s]> con)).
Proof.
  intros Hs Hcon. cbv zeta. eapply (insert_values _ _ _ (table_of schema_0004 "tenant_quota_state"));
    [done | apply table_of_lookup; decide_vm | done | reflexivity | | |].
  - replace (serial_key _) with (@None string) by by_vm. exact I.
  - each_row o Ho. apply complete_given. by_vm.
  - apply rows_ok_lists; [| | concrete | concrete | concrete].
    + each_row o Ho. unfold R0004.tenant_row. given_row. cell_by Hs Ho (Column Integer false None).
    + apply (unique_on_distinct _ "organization_id"); [| decide_vm]. apply keyed_by_source; [done |].
      eapply ids_distinct; [done | apply table_of_lookup; decide_vm | by_vm | by_vm].
    + eapply (refers_to_source _ "organizations"); [done.. |]. by rewrite rows_of_insert_ne.
Qed.

Lemma quotas_inserted now con s :
  sound (Database schema_0004 con) -> con !! "endpoint_quota_state" = Some (Heap [] s) ->
  let l := R0004.quota_row now <$> rows_of con "webhook_endpoints" in
  exec (Insert "endpoint_quota_state" (fun con => R0004.quota_row now <$> rows_of con "webhook_endpoints"))
    (Database schema_0004 con) = Ok (Database schema_0004 (<["endpoint_quota_state" := Heap l s]> con)) /\
  sound (Database schema_0004 (<["endpoint_quota_state" := Heap l s]> con)).
Proof.
  intros Hs Hcon. cbv zeta. eapply (insert_values _ _ _ (table_of schema_0004 "endpoint_quota_state"));
    [done | apply table_of_lookup; decide_vm | done | reflexivity | | |].
  - replace (serial_key _) with (@None string) by by_vm. exact I.
  - each_row e He. apply complete_given. by_vm.
  - apply rows_ok_lists; [| | concrete | concrete | concrete].
    + each_row e He. unfold R0004.quota_row. given_row. cell_by Hs He (Column Integer false None).
    + apply (unique_on_distinct _ "endpoint_id"); [| decide_vm]. apply keyed_by_source; [done |].
      eapply ids_distinct; [done | apply table_of_lookup; decide_vm | by_vm | by_vm].
    + eapply (refers_to_source _ "webhook_endpoints"); [done.. |]. by rewrite rows_of_insert_ne.
Qed.

Lemma global_inserted now con s :
  sound (Database schema_0004 con) -> con !! "global_control_state" = Some (Heap [] s) ->
  exec (Insert "global_control_state" (fun _ => [R0004.global_row now])) (Database schema_0004 con) =
    Ok (Database schema_0004 (<["global_control_state" := Heap [R0004.global_row now] s]> con)) /\
  sound (Database schema_0004 (<["global_control_state" := Heap [R0004.global_row now] s]> con)).
Proof.
  intros Hs Hcon. eapply (insert_values _ _ _ (table_of schema_0004 "global_control_state"));
    [done | apply table_of_lookup; decide_vm | done | reflexivity | | |].
  - replace (serial_key _) with (Some "id") by by_vm. constructor; [| constructor]. by_vm_some.
  - constructor; [| constructor]. apply complete_given. by_vm.
  - apply rows_ok_lists; [| | concrete | concrete | concrete].
    + constructor; [| constructor]. unfold R0004.global_row. given_row.
    + vm_compute. repeat constructor. by intros ?%not_elem_of_nil.
Qed.

(** The contents after each part of the upgrade *)
Definition owned (con : contents) : contents :=
  alter (on_rows (fmap (updated everywhere
    (fun d => [("organization_id", R0004.organization_for_event con d)])))) "deliveries" con.

Definition with_states (now : datetime) (con : contents) : contents :=
  <["endpoint_quota_state" := Heap (R0004.quota_row now <$> rows_of con "webhook_endpoints") 1]>
  (<["tenant_quota_state" := Heap (R0004.tenant_row now <$> rows_of con "organizations") 1]>
  (<["global_control_state" := Heap [R0004.global_row now] 1]> con)).

Lemma tighten_0004_obliges con :
  sound (Database schema_0004a con) -> obligations (R0004.tighten_0004 ++ R0004.create_tables_0004) (owned con).
Proof.
  intros Hs1. unfold owned. oblige; try (lazymatch goal with |- _ \/ _ => right end); rows_simpl; each_row d Hd;
    destruct (organization_for_event_spec con d Hs1 Hd) as [Hp Ho]; unfold updated; cbn [everywhere].
  - cells. rewrite Ho. eapply stored. cell_by Hs1 Hp (Column Integer false None).
  - destruct (referenced_row schema_0004a con "projects" (table_of schema_0004a "projects")
      "projects_organization_id_fkey" (ForeignKey "organization_id" "organizations" "id" CASCADE) (project_of con d) Hs1)
      as (o & Ho' & Heq); [apply table_of_lookup; decide_vm | by_vm | by_vm | exact Hp |].
    right. cbn [fk_column fk_table fk_ref] in *. rows_simpl. apply list.Exists_exists. exists o. split; [done |].
    cells. by rewrite Ho.
Qed.

Lemma states_inserted now con :
  sound (Database schema_0004 con) -> con !! "global_control_state" = Some (Heap [] 1) ->
  con !! "tenant_quota_state" = Some (Heap [] 1) -> con !! "endpoint_quota_state" = Some (Heap [] 1) ->
  run [Execute (R0004.insert_states now)] (Database schema_0004 con) = Ok (Database schema_0004 (with_states now con)) /\
  sound (Database schema_0004 (with_states now con)).
Proof.
  intros Hs Hg Ht Hq. destruct (global_inserted now con 1 Hs Hg) as [Eg Hs1].
  destruct (tenants_inserted now _ 1 Hs1) as [Et Hs2]; [by lookups |].
  destruct (quotas_inserted now _ 1 Hs2) as [Eq Hs3]; [by lookups |].
  rewrite rows_of_insert_ne in Et, Eq, Hs2, Hs3 by discriminate.
  rewrite !rows_of_insert_ne in Eq, Hs3 by discriminate.
  split; [| exact Hs3]. eapply (run_then_execute _ [] schema_0004); [reflexivity |].
  rewrite (exec_all_cons _ _ _ _ Eg), (exec_all_cons _ _ _ _ Et), (exec_all_cons _ _ _ _ Eq). reflexivity.
Qed.

Lemma undo_0004 now con :
  sound (Database schema_0003 con) ->
  move_all R0004.downgrade_0004 (with_states now (move_all (R0004.tighten_0004 ++ R0004.create_tables_0004)
    (owned (move_all [add_nullable "deliveries" "organization_id" Integer] con)))) = con.
Proof.
  intros Hs. unfold with_states, owned.
  by_table ["deliveries"; "global_control_state"; "tenant_quota_state"; "endpoint_quota_state"];
    [| symmetry; apply (no_rows _ _ _ Hs); by_vm..].
  row_restored ["organization_id"].
Qed.

Definition upgraded_0004 (now : datetime) (con : contents) : contents :=
  with_states now (move_all (R0004.tighten_0004 ++ R0004.create_tables_0004)
    (owned (move_all [add_nullable "deliveries" "organization_id" Integer] con))).

Lemma upgrade_0004_runs now con :
  sound (Database schema_0003 con) ->
  run (upgrade R0004.script_0004 now) (Database schema_0003 con) = Ok (Database schema_0004 (upgraded_0004 now con)) /\
  sound (Database schema_0004 (upgraded_0004 now con)) /\
  sound (Database schema_0004a (move_all [add_nullable "deliveries" "organization_id" Integer] con)).
Proof.
  intros Hs.
  destruct (sound_run_ddl [add_nullable "deliveries" "organization_id" Integer] schema_0003 con) as [Hr1 Hs1];
    [by_vm | exact Hs | oblige |].
  fold schema_0004a in *. set (con1 := move_all [_] con) in *.
  pose proof (organizations_backfilled con1 Hs1) as He1. fold (owned con1) in He1.
  pose proof (sound_exec_all _ _ _ _ Hs1 He1) as Hs2.
  destruct (sound_run_ddl (R0004.tighten_0004 ++ R0004.create_tables_0004) schema_0004a (owned con1)) as [Hr3 Hs3];
    [by_vm | exact Hs2 | exact (tighten_0004_obliges con1 Hs1) |].
  assert (after (R0004.tighten_0004 ++ R0004.create_tables_0004) schema_0004a = schema_0004) as E by decide_vm.
  rewrite E in Hr3, Hs3. clear E. set (con3 := move_all _ (owned con1)) in *.
  destruct (states_inserted now con3 Hs3) as [Hr4 Hs4]; [unfold con3, owned; spell_out; cbn [move_all move foldl]; by lookups.. |].
  split; [| split; [exact Hs4 | exact Hs1]].
  cbn [upgrade R0004.script_0004]. unfold R0004.upgrade_0004. rewrite run_app, Hr1. cbn [mbind res_bind app].
  rewrite (run_then_execute _ _ _ _ _ _ eq_refl He1), run_app, Hr3. exact Hr4.
Qed.

Lemma revision_0004 : revision_ok R0004.script_0004 schema_0003 schema_0004.
Proof.
  intros now con Hs _. destruct (upgrade_0004_runs now con Hs) as (Hrun & Hs1 & _).
  exists (upgraded_0004 now con). split; [exact Hrun |]. split; [exact Hs1 |]. split.
  - clear. unfold upgraded_0004, with_states, owned. split; rows_simpl; rewrite ?length_fmap; reflexivity.
  - apply undone; [by_vm | decide_vm | oblige |]. exact (undo_0004 now con Hs).
Qed.

(** ** 0005: circuits and dead letters *)

Definition schema_0005a : catalog := after R0005.add_quota_columns schema_0004.
Definition schema_0005b : catalog := after R0005.tighten_0005 schema_0005a.

Definition circuits_closed (con : contents) : contents :=
  alter (on_rows (fmap (updated everywhere R0005.closed_circuit))) "endpoint_quota_state" con.
Definition dead_dated (con : contents) : contents :=
  alter (on_rows (fmap (updated (cell_is "status" (text "dead")) R0005.legacy_dead))) "deliveries" con.

Lemma admits_incl l l' v :
  bool_decide (Forall (fun s => s ∈ l') l) = true -> admits (IsIn l) v -> admits (IsIn l') v.
Proof.
  intros H%bool_decide_eq_true Ha. rewrite list.Forall_forall in H. unfold admits in *. destruct v; cbn in *; try done.
  case_bool_decide; [| done]. rewrite bool_decide_true; [done | auto].
Qed.

Lemma exec_one s db db' : exec s db = Ok db' -> exec_all [s] db = Ok db'.
Proof. intros H. by rewrite (exec_all_cons _ _ _ _ H). Qed.

Lemma circuits_backfilled con :
  sound (Database schema_0005a con) ->
  exec_all [Update "endpoint_quota_state" everywhere (fun _ => R0005.closed_circuit)] (Database schema_0005a con) =
    Ok (Database schema_0005a (circuits_closed con)).
Proof.
  intros Hs. apply exec_one.
  rewrite (exec_update _ _ _ (table_of schema_0005a "endpoint_quota_state"));
    [reflexivity | done | apply table_of_lookup; decide_vm | decide_vm |].
  intros r Hr _. unfold R0005.closed_circuit. repeat (apply list.Forall_cons; split); [| | | | constructor].
  - writable_by (Column Float true None) (@nil predicate); [by_vm | constructor].
  - writable_by (Column DateTime true None) (@nil predicate); [| constructor].
    eapply storable. cell_by Hs Hr (Column DateTime false None).
  - writable_by (Column (Str 16) true None) (@nil predicate); [by_vm | constructor].
  - writable_by (Column Integer true None) (@nil predicate); [by_vm | constructor].
Qed.

Lemma dead_backfilled con :
  sound (Database schema_0005b con) ->
  exec_all [Update "deliveries" (cell_is "status" (text "dead")) (fun _ => R0005.legacy_dead)]
    (Database schema_0005b con) = Ok (Database schema_0005b (dead_dated con)).
Proof.
  intros Hs. apply exec_one.
  rewrite (exec_update _ _ _ (table_of schema_0005b "deliveries"));
    [reflexivity | done | apply table_of_lookup; decide_vm | decide_vm |].
  intros r Hr _. unfold R0005.legacy_dead. repeat (apply list.Forall_cons; split); [| | constructor].
  - writable_by (Column DateTime true None) (@nil predicate); [| constructor].
    eapply storable. cell_by Hs Hr (Column DateTime false None).
  - writable_by (Column (Str 64) true None) (@nil predicate); [by_vm | constructor].
Qed.

Lemma tighten_0005_obliges con :
  sound (Database schema_0004 con) ->
  obligations R0005.tighten_0005 (circuits_closed (move_all R0005.add_quota_columns con)).
Proof.
  intros Hs. unfold circuits_closed. oblige; try (lazymatch goal with |- _ \/ _ => right end); rows_simpl.
  8 : { apply list.Forall_forall. intros d Hd. unfold check_holds. cbn [ck_column ck_predicate].
        apply (admits_incl (py <$> ["pending"; "processing"; "retry_scheduled"; "succeeded"; "dead"])); [by_vm |].
        eapply (check_conforms _ con "deliveries" (table_of _ _) "ck_deliveries_status" (Check "status" _) _ Hs);
          [apply table_of_lookup; decide_vm | by_vm | exact Hd]. }
  all : rewrite <- !list_fmap_compose; each_row y Hy; unfold compose, check_holds; cbn [ck_column ck_predicate].
  7 : { left. cbn [fk_column]. cells. reflexivity. }
  all : cells; try (vm_compute; discriminate).
  eapply stored. cell_by Hs Hy (Column DateTime false None).
Qed.

Lemma downgrade_0005_obliges con :
  sound (Database schema_0004 con) ->
  obligations R0005.downgrade_0005 (move_all R0005.create_replays (dead_dated (move_all R0005.tighten_0005
    (circuits_closed (move_all R0005.add_quota_columns con))))).
Proof.
  intros Hs. unfold dead_dated, circuits_closed. oblige. rows_simpl. rewrite <- !list_fmap_compose.
  each_row d Hd. unfold compose, updated, check_holds. cbn [ck_column ck_predicate].
  destruct (cell_is _ _ _); cells; eapply (check_conforms _ con "deliveries" (table_of _ _) "ck_deliveries_status" (Check "status" _) _ Hs);
    [apply table_of_lookup; decide_vm | by_vm | exact Hd | apply table_of_lookup; decide_vm | by_vm | exact Hd].
Qed.

Lemma undo_0005 con :
  sound (Database schema_0004 con) ->
  move_all R0005.downgrade_0005 (move_all R0005.create_replays (dead_dated (move_all R0005.tighten_0005
    (circuits_closed (move_all R0005.add_quota_columns con))))) = con.
Proof.
  intros Hs. unfold dead_dated, circuits_closed.
  by_table ["deliveries"; "endpoint_quota_state"; "replay_operations"].
  - row_restored ["dead_at"; "dead_reason"; "canceled_at"; "canceled_reason"].
  - row_restored ["retry_tokens"; "retry_refilled_at"; "circuit_state"; "consecutive_failures";
      "circuit_open_until"; "half_open_probe_delivery_id"; "paused_at"; "pause_reason"].
  - symmetry. apply (no_rows _ _ _ Hs). by_vm.
Qed.

Lemma revision_0005 : revision_ok R0005.script_0005 schema_0004 schema_0005.
Proof.
  intros now con Hs Hready.
  destruct (sound_run_ddl R0005.add_quota_columns schema_0004 con) as [Hr1 Hs1]; [by_vm | done | oblige |].
  fold schema_0005a in *. pose proof (circuits_backfilled _ Hs1) as He1. pose proof (sound_exec_all _ _ _ _ Hs1 He1) as Hs2.
  destruct (sound_run_ddl R0005.tighten_0005 schema_0005a (circuits_closed (move_all R0005.add_quota_columns con)))
    as [Hr2 Hs3]; [by_vm | exact Hs2 | exact (tighten_0005_obliges con Hs) |].
  fold schema_0005b in *. pose proof (dead_backfilled _ Hs3) as He2. pose proof (sound_exec_all _ _ _ _ Hs3 He2) as Hs4.
  destruct (sound_run_ddl R0005.create_replays schema_0005b (dead_dated (move_all R0005.tighten_0005
    (circuits_closed (move_all R0005.add_quota_columns con))))) as [Hr3 Hs5]; [by_vm | exact Hs4 | oblige |].
  assert (after R0005.create_replays schema_0005b = schema_0005) as E by decide_vm. rewrite E in Hr3, Hs5. clear E.
  eexists. split; [| split; [exact Hs5 | split]].
  - cbn [upgrade R0005.script_0005]. unfold R0005.upgrade_0005.
    rewrite run_app, Hr1. cbn [mbind res_bind app]. rewrite (run_then_execute _ _ _ _ _ _ eq_refl He1).
    rewrite run_app, Hr2. cbn [mbind res_bind]. rewrite (run_then_execute _ _ _ _ _ _ eq_refl He2). exact Hr3.
  - clear. unfold dead_dated, circuits_closed. split; rows_simpl; rewrite ?length_fmap; reflexivity.
  - apply undone; [by_vm | decide_vm | exact (downgrade_0005_obliges con Hs) | exact (undo_0005 con Hs)].
Qed.

Lemma revision_0006 : revision_ok R0006.script_0006 schema_0005 schema_0006.
Proof.
  unfold schema_0006. ddl_revision; [oblige | same_rows | oblige |].
  by_table ["events"]. row_restored ["traceparent"; "tracestate"].
Qed.

(** ** 0007: roles, policies, key families, secret versions *)

Definition schema_0007a : catalog := after R0007.extend_organizations schema_0006.
Definition schema_0007b : catalog := after R0007.create_policies schema_0007a.
Definition schema_0007c : catalog := after R0007.extend_keys schema_0007b.
Definition schema_0007d : catalog := after R0007.create_secret_versions schema_0007c.

Definition becomes_admin : row -> row :=
  updated (cell_is "role" (text "member")) (fun _ => [("role", text "admin")]).
Definition becomes_member : row -> row :=
  updated (cell_is "role" (text "admin")) (fun _ => [("role", text "member")]).

Definition admins (con : contents) : contents :=
  alter (on_rows (fmap becomes_admin)) "organization_members" (move_all R0007.extend_organizations con).
Definition with_policies (con : contents) : contents :=
  <["organization_policies" := Heap (R0007.policy_row <$> rows_of con "organizations") 1]> con.
Definition families (con : contents) : contents :=
  alter (on_rows (fmap (updated everywhere R0007.own_family))) "api_keys" con.
Definition version_rows (con : contents) : list row :=
  imap (fun i e => <["id" := VInt (1 + Z.of_nat i)]> (R0007.secret_version_row e)) (rows_of con "webhook_endpoints").
Definition with_versions (con : contents) : contents :=
  <["endpoint_signing_secret_versions" := Heap (version_rows con) (1 + len (rows_of con "webhook_endpoints"))]> con.

(** A text column limited to some values *)
Lemma one_of_cases n d l v :
  cell_ok (Column (Str n) false d) v -> admits (one_of l) v -> exists s, s ∈ l /\ v = text s.
Proof.
  intros [Hn Ht]%stored Ha. destruct v; try done. unfold admits, one_of, text in *. cbn in Ha.
  case_bool_decide as Hin; [| done]. apply list_elem_of_fmap in Hin as (s' & -> & ?). eauto.
Qed.

Lemma old_role con r :
  sound (Database schema_0006 con) -> r ∈ rows_of con "organization_members" ->
  cell r "role" = text "owner" \/ cell r "role" = text "member".
Proof.
  intros Hs Hr. destruct (one_of_cases 16 None ["owner"; "member"] (cell r "role")) as (s & Hin & ->).
  - cell_by Hs Hr (Column (Str 16) false None).
  - eapply (check_conforms _ con "organization_members" (table_of _ _) "ck_org_members_role" (Check "role" _) _ Hs);
      [apply table_of_lookup; decide_vm | by_vm | exact Hr].
  - rewrite !elem_of_cons in Hin. destruct Hin as [-> | [-> | Hin]]; [by left | by right | by apply not_elem_of_nil in Hin].
Qed.

(** Members become administrators and administrators members again: nothing is
    lost, because no administrator existed before. *)
Lemma role_restored r :
  cell r "role" = text "owner" \/ cell r "role" = text "member" -> becomes_member (becomes_admin r) = r.
Proof.
  intros H. assert (becomes_admin r = r /\ cell r "role" = text "owner" \/
                    becomes_admin r = <["role" := text "admin"]> r /\ cell r "role" = text "member") as Hr.
  { unfold becomes_admin, updated, cell_is. destruct H as [H | H]; rewrite H; [left | right]; done. }
  unfold becomes_member, updated, cell_is. destruct Hr as [[-> Hc] | [-> Hc]].
  - rewrite Hc. done.
  - rewrite cell_insert_eq, bool_decide_true by done. cbn [assign_all foldr fst snd].
    rewrite insert_insert_eq. apply insert_id. unfold cell in Hc. by destruct (r !! "role"); cbn in Hc; subst.
Qed.

Lemma new_role r :
  cell r "role" = text "owner" \/ cell r "role" = text "member" ->
  cell (becomes_admin r) "role" = text "owner" \/ cell (becomes_admin r) "role" = text "admin".
Proof.
  unfold becomes_admin, updated, cell_is. intros [H | H]; rewrite H; [by left | right].
  rewrite bool_decide_true by done. cells. reflexivity.
Qed.

Lemma roles_updated cat con a b :
  sound (Database cat con) ->
  bool_decide (is_Some (relations cat !! "organization_members")) = true ->
  bool_decide (triggers (table_of cat "organization_members") = ∅) = true ->
  bool_decide ("role" ∉ keyed_columns cat "organization_members") = true ->
  columns (table_of cat "organization_members") !! "role" = Some (Column (Str 16) false None) ->
  bool_decide (cell_ok (Column (Str 16) false None) (text b)) = true ->
  bool_decide (Forall (fun p => admits p (text b)) (checks_on (table_of cat "organization_members") "role")) = true ->
  exec_all [Update "organization_members" (cell_is "role" (text a)) (fun _ _ => [("role", text b)])] (Database cat con) =
    Ok (Database cat (alter (on_rows (fmap (updated (cell_is "role" (text a)) (fun _ => [("role", text b)]))))
                        "organization_members" con)).
Proof.
  rewrite (bool_decide_eq_true (is_Some _)), (bool_decide_eq_true (triggers _ = _)), (bool_decide_eq_true (cell_ok _ _)),
    (bool_decide_eq_true (Forall _ _)).
  intros Hs Hrel Htr Hk Hcol Hv Hc. apply exec_one.
  rewrite (exec_update _ _ _ (table_of cat "organization_members")); [reflexivity | done | by apply table_of_lookup | done |].
  intros r _ _. constructor; [| constructor]. by eapply writable_intro.
Qed.

Lemma extend_organizations_obliges con : obligations R0007.extend_organizations con.
Proof. oblige. rows_simpl. rewrite <- !list_fmap_compose. unfold compose. constant_cells. Qed.

Lemma create_policies_obliges con :
  sound (Database schema_0006 con) -> obligations R0007.create_policies (admins con).
Proof.
  intros Hs. unfold admins. oblige. rows_simpl. each_row r Hr. unfold check_holds. cbn [ck_column ck_predicate].
  destruct (new_role r (old_role con r Hs Hr)) as [-> | ->]; vm_compute; discriminate.
Qed.

Lemma policies_inserted con :
  sound (Database schema_0007b con) -> con !! "organization_policies" = Some (Heap [] 1) ->
  exec (Insert "organization_policies" (fun con => R0007.policy_row <$> rows_of con "organizations"))
    (Database schema_0007b con) = Ok (Database schema_0007b (with_policies con)) /\
  sound (Database schema_0007b (with_policies con)).
Proof.
  intros Hs Hcon. unfold with_policies. eapply (insert_values _ _ _ (table_of schema_0007b "organization_policies"));
    [done | apply table_of_lookup; decide_vm | done | reflexivity | | |].
  - replace (serial_key _) with (@None string) by by_vm. exact I.
  - each_row o Ho. apply complete_given. by_vm.
  - apply rows_ok_lists; [| | concrete | concrete | concrete].
    + each_row o Ho. unfold R0007.policy_row. given_row;
        first [cell_by Hs Ho (Column Integer false None) | cell_by Hs Ho (Column DateTime false None)].
    + apply (unique_on_distinct _ "organization_id"); [| decide_vm]. apply keyed_by_source; [done |].
      eapply ids_distinct; [done | apply table_of_lookup; decide_vm | by_vm | by_vm].
    + eapply (refers_to_source _ "organizations"); [done.. |]. by rewrite rows_of_insert_ne.
Qed.

Lemma extend_keys_obliges con : obligations R0007.extend_keys con.
Proof. oblige. rows_simpl. rewrite <- !list_fmap_compose. each_row r Hr. left. unfold compose. cbn [fk_column]. cells. reflexivity. Qed.

Lemma families_backfilled con :
  sound (Database schema_0007c con) ->
  exec_all [Update "api_keys" everywhere (fun _ => R0007.own_family)] (Database schema_0007c con) =
    Ok (Database schema_0007c (families con)).
Proof.
  intros Hs. apply exec_one.
  rewrite (exec_update _ _ _ (table_of schema_0007c "api_keys"));
    [reflexivity | done | apply table_of_lookup; decide_vm | decide_vm |].
  intros r Hr _. unfold R0007.own_family. repeat (apply list.Forall_cons; split); [| | constructor].
  - writable_by (Column JSON false (Some (VJson R0007.events_write))) (@nil predicate); [by_vm | constructor].
  - writable_by (Column (Str 36) true None) (@nil predicate); [| constructor].
    eapply storable. cell_by Hs Hr (Column (Str 36) false None).
Qed.

Lemma create_secret_versions_obliges con :
  sound (Database schema_0007c con) -> obligations R0007.create_secret_versions (families con).
Proof.
  intros Hs. unfold families. oblige; right. rows_simpl. each_row r Hr. cells.
  eapply stored. cell_by Hs Hr (Column (Str 36) false None).
Qed.

Lemma version_row_spec con r :
  r ∈ version_rows con ->
  exists i e, e ∈ rows_of con "webhook_endpoints" /\ Z.of_nat i < len (rows_of con "webhook_endpoints") /\
              r = <["id" := VInt (1 + Z.of_nat i)]> (R0007.secret_version_row e).
Proof.
  unfold version_rows. intros Hr. apply list_elem_of_lookup in Hr as [i Hi].
  rewrite list_lookup_imap in Hi. apply fmap_Some in Hi as (e & He & ->). exists i, e.
  split; [by eapply list_elem_of_lookup_2 |]. split; [| done]. apply lookup_lt_Some in He. unfold len. lia.
Qed.

Lemma version_rows_numbered con :
  numbered (table_of schema_0007d "endpoint_signing_secret_versions") "id" 1
    (R0007.secret_version_row <$> rows_of con "webhook_endpoints") = version_rows con.
Proof.
  unfold numbered, version_rows. rewrite imap_fmap. apply imap_ext. intros i e _. unfold compose.
  apply complete_given. by_vm.
Qed.

Lemma version_ids_distinct con : NoDup ((fun r => cell r "id") <$> version_rows con).
Proof.
  unfold version_rows. rewrite fmap_imap. apply list.NoDup_alt. intros i j v Hi Hj.
  rewrite list_lookup_imap in Hi, Hj. apply fmap_Some in Hi as (e & He & Hi), Hj as (e' & He' & Hj).
  unfold compose in *. rewrite cell_insert_eq in Hi, Hj. rewrite Hi in Hj. injection Hj. lia.
Qed.

Lemma version_endpoints_distinct con :
  sound (Database schema_0007d con) -> NoDup ((fun r => cell r "endpoint_id") <$> version_rows con).
Proof.
  intros Hs. unfold version_rows. rewrite fmap_imap.
  replace (imap _ _) with ((fun e => cell e "id") <$> rows_of con "webhook_endpoints").
  - eapply ids_distinct; [done | apply table_of_lookup; decide_vm | by_vm | by_vm].
  - rewrite <- (imap_const (fun e => cell e "id")). apply imap_ext. intros i e _. unfold compose.
    rewrite cell_insert_ne by discriminate. reflexivity.
Qed.

Lemma versions_row_ok con :
  sound (Database schema_0007d con) -> len (rows_of con "webhook_endpoints") < 2 ^ 31 ->
  Forall (row_ok (table_of schema_0007d "endpoint_signing_secret_versions")) (version_rows con).
Proof.
  intros Hs Hlen. apply list.Forall_forall. intros r Hr.
  destruct (version_row_spec con r Hr) as (i & e & He & Hi & ->). unfold R0007.secret_version_row.
  apply row_ok_given; [concrete | by_vm | concrete]; unfold check_holds; cbn [fst snd ck_column ck_predicate];
    cbv [list_to_map]; cells.
  - cell_by Hs He (Column Integer false None).
  - unfold cell_ok. rewrite decide_False by discriminate. cbn [has_type c_type].
    apply andb_true_iff. rewrite Z.leb_le, Z.ltb_lt. lia.
  - cell_by Hs He (Column DateTime false None).
  - cell_by Hs He (Column Integer false None).
  - by_vm.
  - eapply (check_conforms _ con "webhook_endpoints" (table_of _ _) "ck_webhook_endpoints_secret_version"
              (Check "secret_version" (AtLeast 1)) _ Hs); [apply table_of_lookup; decide_vm | by_vm | exact He].
Qed.

Lemma versions_rows_ok con con' :
  sound (Database schema_0007d con) -> len (rows_of con "webhook_endpoints") < 2 ^ 31 ->
  rows_of con' "webhook_endpoints" = rows_of con "webhook_endpoints" ->
  rows_ok con' (table_of schema_0007d "endpoint_signing_secret_versions") (version_rows con).
Proof.
  intros Hs Hlen Hsame. apply rows_ok_lists; [by apply versions_row_ok | | concrete | concrete | concrete].
  - apply (unique_on_distinct _ "id"); [apply version_ids_distinct | decide_vm].
  - apply (unique_on_distinct _ "endpoint_id"); [by apply version_endpoints_distinct | decide_vm].
  - discriminate.
  - apply list.Forall_forall. intros r Hr. destruct (version_row_spec con r Hr) as (i & e & He & _ & ->).
    right. cbn [fk_table fk_ref fk_column]. apply list.Exists_exists. exists e. rewrite Hsame. split; [done |].
    unfold R0007.secret_version_row. cbv [list_to_map]. cells. reflexivity.
Qed.

Lemma versions_inserted con :
  sound (Database schema_0007d con) -> con !! "endpoint_signing_secret_versions" = Some (Heap [] 1) ->
  len (rows_of con "webhook_endpoints") < 2 ^ 31 ->
  exec (Insert "endpoint_signing_secret_versions"
          (fun con => R0007.secret_version_row <$> rows_of con "webhook_endpoints")) (Database schema_0007d con) =
    Ok (Database schema_0007d (with_versions con)) /\
  sound (Database schema_0007d (with_versions con)).
Proof.
  intros Hs Hcon Hlen. set (rel := table_of schema_0007d "endpoint_signing_secret_versions").
  assert (alter (fun h => foldl (fill rel) h (R0007.secret_version_row <$> rows_of con "webhook_endpoints"))
            "endpoint_signing_secret_versions" con = with_versions con) as E.
  { unfold with_versions. apply map_eq. intros t'. rewrite lookup_alter, lookup_insert. case_decide; [subst t' | done].
    rewrite Hcon. cbn [fmap option_fmap option_map].
    rewrite (fill_numbered _ "id") by (by_vm || (each_row e He; by_vm)).
    cbn [tuples serial app]. unfold rel. rewrite version_rows_numbered. unfold len. by rewrite length_fmap. }
  assert (exec (Insert "endpoint_signing_secret_versions"
            (fun con => R0007.secret_version_row <$> rows_of con "webhook_endpoints")) (Database schema_0007d con) =
          Ok (Database schema_0007d (with_versions con))) as He.
  { rewrite <- E. refine (exec_insert schema_0007d con "endpoint_signing_secret_versions" rel 1
      (fun con => R0007.secret_version_row <$> rows_of con "webhook_endpoints") _ _ _ _); [done | apply table_of_lookup; decide_vm | done |].
    rewrite E. unfold with_versions. rewrite rows_of_insert_eq. cbn [tuples]. apply versions_rows_ok; [done.. |].
    by rewrite rows_of_insert_ne. }
  split; [done |]. split; [apply Hs |]. by apply exec_conforms in He as [? _].
Qed.

(** *** The whole upgrade *)

Definition policies_0007 (con : contents) : contents := with_policies (move_all R0007.create_policies (admins con)).
Definition families_0007 (con : contents) : contents := families (move_all R0007.extend_keys (policies_0007 con)).
Definition versions_0007 (con : contents) : contents :=
  with_versions (move_all R0007.create_secret_versions (families_0007 con)).
Definition upgraded_0007 (con : contents) : contents := move_all R0007.create_lifecycle (versions_0007 con).

Lemma same_endpoints con :
  length (rows_of (move_all R0007.create_secret_versions (families_0007 con)) "webhook_endpoints") =
  length (rows_of con "webhook_endpoints").
Proof. unfold families_0007, policies_0007, with_policies, families, admins. rows_simpl. reflexivity. Qed.

Lemma policies_step con :
  sound (Database schema_0006 con) ->
  run (R0007.extend_organizations ++ [Execute R0007.members_become_admins] ++ R0007.create_policies
       ++ [Execute R0007.insert_policies]) (Database schema_0006 con) = Ok (Database schema_0007b (policies_0007 con)) /\
  sound (Database schema_0007b (policies_0007 con)).
Proof.
  intros Hs.
  destruct (sound_run_ddl R0007.extend_organizations schema_0006 con) as [Hr1 Hs1];
    [by_vm | exact Hs | apply extend_organizations_obliges |]. fold schema_0007a in *.
  pose proof (roles_updated schema_0007a (move_all R0007.extend_organizations con) "member" "admin" Hs1
    ltac:(by_vm) ltac:(by_vm) ltac:(by_vm) ltac:(by_vm) ltac:(by_vm) ltac:(by_vm)) as He1.
  change (alter _ "organization_members" (move_all R0007.extend_organizations con)) with (admins con) in He1.
  pose proof (sound_exec_all _ _ _ _ Hs1 He1) as Hs2.
  destruct (sound_run_ddl R0007.create_policies schema_0007a (admins con)) as [Hr2 Hs3];
    [by_vm | exact Hs2 | exact (create_policies_obliges con Hs) |]. fold schema_0007b in *.
  destruct (policies_inserted (move_all R0007.create_policies (admins con)) Hs3) as [He2 Hs4].
  { unfold admins. spell_out. cbn [move_all move foldl]. by lookups. }
  split; [| exact Hs4]. rewrite run_app, Hr1. cbn [mbind res_bind app].
  rewrite (run_then_execute _ _ _ _ _ _ eq_refl He1), run_app, Hr2. cbn [mbind res_bind].
  rewrite (run_then_execute R0007.insert_policies [] _ _ _ _ eq_refl (exec_one _ _ _ He2)). reflexivity.
Qed.

Lemma versions_step con :
  sound (Database schema_0007b (policies_0007 con)) -> len (rows_of con "webhook_endpoints") < 2 ^ 31 ->
  run (R0007.extend_keys ++ [Execute R0007.backfill_families] ++ R0007.create_secret_versions
       ++ [Execute R0007.insert_secret_versions]) (Database schema_0007b (policies_0007 con)) =
    Ok (Database schema_0007d (versions_0007 con)) /\
  sound (Database schema_0007d (versions_0007 con)).
Proof.
  intros Hs Hlen.
  destruct (sound_run_ddl R0007.extend_keys schema_0007b (policies_0007 con)) as [Hr1 Hs1];
    [by_vm | exact Hs | apply extend_keys_obliges |]. fold schema_0007c in *.
  pose proof (families_backfilled _ Hs1) as He1. fold (families_0007 con) in He1.
  pose proof (sound_exec_all _ _ _ _ Hs1 He1) as Hs2.
  destruct (sound_run_ddl R0007.create_secret_versions schema_0007c (families_0007 con)) as [Hr2 Hs3];
    [by_vm | exact Hs2 | exact (create_secret_versions_obliges _ Hs1) |]. fold schema_0007d in *.
  destruct (versions_inserted (move_all R0007.create_secret_versions (families_0007 con)) Hs3) as [He2 Hs4].
  { unfold families_0007, families, policies_0007, with_policies, admins. spell_out. cbn [move_all move foldl]. by lookups. }
  { unfold len in *. by rewrite same_endpoints. }
  split; [| exact Hs4]. rewrite run_app, Hr1. cbn [mbind res_bind app].
  rewrite (run_then_execute _ _ _ _ _ _ eq_refl He1), run_app, Hr2. cbn [mbind res_bind].
  rewrite (run_then_execute R0007.insert_secret_versions [] _ _ _ _ eq_refl (exec_one _ _ _ He2)). reflexivity.
Qed.

Lemma upgrade_0007_runs now con :
  sound (Database schema_0006 con) -> ready con ->
  run (upgrade R0007.script_0007 now) (Database schema_0006 con) = Ok (Database schema_0007 (upgraded_0007 con)) /\
  sound (Database schema_0007 (upgraded_0007 con)).
Proof.
  intros Hs [_ Hlen]. destruct (policies_step con Hs) as [Hr1 Hs1]. destruct (versions_step con Hs1 Hlen) as [Hr2 Hs2].
  destruct (sound_run_ddl R0007.create_lifecycle schema_0007d (versions_0007 con)) as [Hr3 Hs3];
    [by_vm | exact Hs2 | oblige |].
  assert (after R0007.create_lifecycle schema_0007d = schema_0007) as E by decide_vm. rewrite E in Hr3, Hs3. clear E.
  fold (upgraded_0007 con) in *. split; [| exact Hs3].
  replace (upgrade R0007.script_0007 now) with
    ((R0007.extend_organizations ++ [Execute R0007.members_become_admins] ++ R0007.create_policies
       ++ [Execute R0007.insert_policies]) ++
     (R0007.extend_keys ++ [Execute R0007.backfill_families] ++ R0007.create_secret_versions
       ++ [Execute R0007.insert_secret_versions]) ++ R0007.create_lifecycle) by reflexivity.
  rewrite run_app, Hr1. cbn [mbind res_bind]. rewrite run_app, Hr2. cbn [mbind res_bind]. exact Hr3.
Qed.

(** *** The downgrade undoes it *)

Definition schema_0007r : catalog := after (R0007.refuse_losses ++ R0007.drop_lifecycle) schema_0007.
Definition dropped_0007 (con : contents) : contents :=
  move_all (R0007.refuse_losses ++ R0007.drop_lifecycle) (upgraded_0007 con).

Ltac unfold_0007 :=
  unfold dropped_0007, upgraded_0007, versions_0007, with_versions, families_0007, families, policies_0007,
    with_policies, admins.

Lemma drop_lifecycle_obliges con :
  sound (Database schema_0006 con) ->
  obligations (R0007.refuse_losses ++ R0007.drop_lifecycle) (upgraded_0007 con).
Proof.
  intros Hs.
  assert (forall r c ty, r ∈ rows_of con "events" ->
            columns (table_of schema_0006 "events") !! c = Some (Column ty false None) -> cell r c <> VNull) as Hnn.
  { intros r c ty Hr Hc. eapply stored.
    eapply (cell_conforms schema_0006 con "events" (table_of schema_0006 "events")); [done | | exact Hc | done].
    apply table_of_lookup. decide_vm. }
  oblige; unfold_0007.
  - unfold R0007.purged_event_count. rewrite count_none; [done |]. rows_simpl. each_row r Hr. unfold cell_is. cells.
    rewrite !bool_decide_false; [done | |].
    + eapply Hnn; [exact Hr | by_vm].
    + eapply Hnn; [exact Hr | by_vm].
  - unfold R0007.pending_organization_count. rewrite count_none; [done |]. rows_simpl.
    rewrite <- !list_fmap_compose. each_row r Hr. unfold cell_is, compose. cells. by_vm.
  - right. rows_simpl. each_row r Hr. cells. eapply Hnn; [exact Hr | by_vm].
  - right. rows_simpl. each_row r Hr. cells. eapply Hnn; [exact Hr | by_vm].
Qed.

Lemma restore_organizations_obliges con :
  sound (Database schema_0006 con) ->
  obligations R0007.restore_organizations (alter (on_rows (fmap becomes_member)) "organization_members" (dropped_0007 con)).
Proof.
  intros Hs. oblige. unfold_0007. rows_simpl. rewrite <- !list_fmap_compose. each_row r Hr.
  unfold compose, check_holds. cbn [ck_column ck_predicate]. pose proof (old_role con r Hs Hr) as Hold.
  rewrite (role_restored r Hold). destruct Hold as [-> | ->]; vm_compute; discriminate.
Qed.

Lemma members_restored con h :
  sound (Database schema_0006 con) -> con !! "organization_members" = Some h ->
  on_rows (fmap becomes_member) (on_rows (fmap becomes_admin) h) = h.
Proof.
  intros Hs Hh. rewrite on_rows_compose. apply on_rows_id. intros r Hr. apply role_restored, (old_role con r Hs).
  unfold rows_of. by rewrite Hh.
Qed.

Lemma undo_0007 con :
  sound (Database schema_0006 con) ->
  move_all R0007.restore_organizations
    (alter (on_rows (fmap becomes_member)) "organization_members" (dropped_0007 con)) = con.
Proof.
  intros Hs. unfold_0007.
  by_table ["organizations"; "organization_members"; "api_keys"; "events"; "delivery_attempts";
            "organization_policies"; "project_members"; "endpoint_signing_secret_versions";
            "administrative_audit_events"; "organization_lifecycle_operations"].
  - row_restored ["lifecycle_state"; "deletion_requested_at"; "deletion_scheduled_at"].
  - destruct (con !! "organization_members") as [h |] eqn:Hh; [| reflexivity]. cbn [fmap option_fmap option_map].
    f_equal. exact (members_restored con h Hs Hh).
  - row_restored ["scopes"; "expires_at"; "rotation_family_id"; "rotated_from_id"].
  - row_restored ["payload_purged_at"].
  - row_restored ["response_purged_at"].
  - symmetry. apply (no_rows _ _ _ Hs). by_vm.
  - symmetry. apply (no_rows _ _ _ Hs). by_vm.
  - symmetry. apply (no_rows _ _ _ Hs). by_vm.
  - symmetry. apply (no_rows _ _ _ Hs). by_vm.
  - symmetry. apply (no_rows _ _ _ Hs). by_vm.
Qed.

Lemma downgrade_0007_runs con :
  sound (Database schema_0006 con) -> sound (Database schema_0007 (upgraded_0007 con)) ->
  run (downgrade R0007.script_0007) (Database schema_0007 (upgraded_0007 con)) = Ok (Database schema_0006 con).
Proof.
  intros Hs Hs1.
  destruct (sound_run_ddl (R0007.refuse_losses ++ R0007.drop_lifecycle) schema_0007 (upgraded_0007 con)) as [Hr2 Hs2];
    [by_vm | exact Hs1 | exact (drop_lifecycle_obliges con Hs) |].
  fold schema_0007r in *. fold (dropped_0007 con) in *.
  pose proof (roles_updated schema_0007r (dropped_0007 con) "admin" "member" Hs2
    ltac:(by_vm) ltac:(by_vm) ltac:(by_vm) ltac:(by_vm) ltac:(by_vm) ltac:(by_vm)) as He.
  change (updated (cell_is "role" (text "admin")) (fun _ => [("role", text "member")])) with becomes_member in He.
  pose proof (sound_exec_all _ _ _ _ Hs2 He) as Hs3.
  destruct (sound_run_ddl R0007.restore_organizations schema_0007r
    (alter (on_rows (fmap becomes_member)) "organization_members" (dropped_0007 con))) as [Hr4 _];
    [by_vm | exact Hs3 | exact (restore_organizations_obliges con Hs) |].
  assert (after R0007.restore_organizations schema_0007r = schema_0006) as E by decide_vm.
  rewrite E, (undo_0007 con Hs) in Hr4. clear E.
  cbn [downgrade R0007.script_0007]. unfold R0007.downgrade_0007. rewrite run_app, Hr2. cbn [mbind res_bind app].
  rewrite (run_then_execute _ _ _ _ _ _ eq_refl He). exact Hr4.
Qed.

Lemma revision_0007 : revision_ok R0007.script_0007 schema_0006 schema_0007.
Proof.
  intros now con Hs Hready. destruct (upgrade_0007_runs now con Hs Hready) as [Hrun Hs1].
  exists (upgraded_0007 con). split; [exact Hrun |]. split; [exact Hs1 |]. split.
  - clear. unfold_0007. split; rows_simpl; rewrite ?length_fmap; [| reflexivity].
    rewrite <- ?list_fmap_compose. apply list_fmap_ext. intros i r _. unfold compose. cells. reflexivity.
  - exact (downgrade_0007_runs con Hs Hs1).
Qed.
Lemma revision_0008 : revision_ok R0008.script_0008 schema_0007 schema_0008.
Proof.
  unfold schema_0008. ddl_revision; [| same_rows | |].
  - oblige. rows_simpl. constant_cells.
  - intros _. oblige. rows_simpl. unfold R0008.cloud_event_count. rewrite count_none; [done |].
    rows_simpl. constant_cells.
  - by_table ["events"]. row_restored ["envelope_mode"].
Qed.

Lemma revision_0009 : revision_ok R0009.script_0009 schema_0008 schema_0009.
Proof.
  unfold schema_0009. ddl_revision; [oblige | same_rows | oblige |].
  by_table ["login_throttles"]. symmetry. apply (no_rows _ _ _ Hs). by_vm.
Qed.

Lemma revision_0010 : revision_ok R0010.script_0010 schema_0009 schema_0010.
Proof.
  unfold schema_0010. ddl_revision; [oblige | same_rows | oblige |].
  by_table ["webhook_endpoints"]. row_restored ["event_types"].
Qed.

Lemma revision_0011 : revision_ok R0011.script_0011 schema_0010 schema_0011.
Proof.
  unfold schema_0011. ddl_revision; [| same_rows | |].
  - oblige; rows_simpl; constant_cells.
  - intros _. oblige. unfold R0011.non_legacy. rewrite !count_none; [done | rows_simpl; constant_cells..].
  - by_table ["webhook_endpoints"; "deliveries"];
      [row_restored ["signature_scheme"] | row_restored ["signature_scheme_snapshot"]].
Qed.
