(* ===== verification/Migrations.v ===== *)
(** * The migrations are correct

    [alembic upgrade] and [downgrade] as [src/migrations/env.py] runs them: the
    revisions between two points of the chain, in one transaction.  Upgrading
    succeeds from every revision on every conforming database and can be
    undone; a downgrade is refused exactly when a row has no place in the
    earlier schema; the backfilled cells are the ones the application writes; and the schema at
    the head is the one [src/app/models.py] declares. *)

From Stdlib Require Import QArith.
From stdpp Require Import base tactics list gmap sets strings numbers option.
From S2P Require Import Prelude Json Models Events Schema SchemaRuns Revisions Metadata MigrationSteps.
Local Open Scope Z_scope.

(** ** The chain of revisions *)

Definition find_revision (name : string) : option Revision :=
  find (fun r => bool_decide (revision r = name)) versions.

(** The revisions from [upper] down to [lower], newest first, along
    [down_revision]; a chain is no longer than the number of revisions. *)
Fixpoint iterate_revisions (fuel : nat) (upper lower : option string) : list Revision :=
  match fuel, upper with
  | S fuel', Some name =>
      if decide (upper = lower) then []
      else match find_revision name with
           | Some r => r :: iterate_revisions fuel' (down_revision r) lower
           | None => []
           end
  | _, _ => []
  end.

Definition head_revision : option string := Some "0011_signature_scheme"%string.

(** A database with its [alembic_version] *)
Record environment : Type := Environment { current : option string; stored_db : database }.

Fixpoint run_all (scripts : list (list op)) (db : database) : res db_error database :=
  match scripts with
  | [] => Ok db
  | ops :: scripts' => db' ← run ops db; run_all scripts' db'
  end.

(** [do_run_migrations]: one transaction, rolled back when a revision
    raises. *)
Definition do_run_migrations (scripts : list (list op)) (target : option string) (env : environment) :
    environment * option db_error :=
  match run_all scripts (stored_db env) with
  | Ok db => (Environment target db, None)
  | Raise e => (env, Some e)
  end.

(** [alembic upgrade head] *)
Definition upgrade_to_head (now : datetime) (env : environment) : environment * option db_error :=
  do_run_migrations
    ((fun r => upgrade r now) <$> reverse (iterate_revisions (length versions) head_revision (current env)))
    head_revision env.

(** [alembic downgrade <target>] *)
Definition downgrade_to (target : option string) (env : environment) : environment * option db_error :=
  do_run_migrations (downgrade <$> iterate_revisions (length versions) (current env) target) target env.

(** ** Schemas by position *)

Definition schemas : list catalog :=
  [schema_0000; schema_0001; schema_0002; schema_0003; schema_0004; schema_0005; schema_0006; schema_0007;
   schema_0008; schema_0009; schema_0010; schema_0011].

Definition schema_at (k : nat) : catalog := nth k schemas schema_0011.

(** The value of [alembic_version] after the first [k] revisions *)
Definition version_at (k : nat) : option string :=
  match k with O => None | S k' => revision <$> nth_error versions k' end.

Lemma after_wf ops cat : wf_catalog cat -> wf_catalog (after ops cat).
Proof.
  intros H. unfold after. enough (forall cat', alter_all ops cat = Ok cat' -> wf_catalog cat') as Hall.
  { destruct (alter_all ops cat); [by apply Hall | done]. }
  revert cat H; induction ops as [| o ops IH]; cbn [alter_all]; intros cat H cat' E.
  { by injection E as <-. }
  apply res_bind_ok in E as (cat1 & E1 & E). eapply IH; [| exact E]. by eapply alter_wf.
Qed.

Lemma schema_wf k : wf_catalog (schema_at k).
Proof.
  assert (Forall wf_catalog schemas) as H.
  { unfold schemas. assert (wf_catalog schema_0000) as H0 by apply wf_empty.
    assert (wf_catalog schema_0001) as H1 by exact (after_wf _ _ H0).
    assert (wf_catalog schema_0002) as H2 by exact (after_wf _ _ H1).
    assert (wf_catalog schema_0003) as H3 by exact (after_wf _ _ H2).
    assert (wf_catalog schema_0004) as H4 by exact (after_wf _ _ H3).
    assert (wf_catalog schema_0005) as H5 by exact (after_wf _ _ H4).
    assert (wf_catalog schema_0006) as H6 by exact (after_wf _ _ H5).
    assert (wf_catalog schema_0007) as H7 by exact (after_wf _ _ H6).
    assert (wf_catalog schema_0008) as H8 by exact (after_wf _ _ H7).
    assert (wf_catalog schema_0009) as H9 by exact (after_wf _ _ H8).
    assert (wf_catalog schema_0010) as H10 by exact (after_wf _ _ H9).
    assert (wf_catalog schema_0011) as H11 by exact (after_wf _ _ H10).
    repeat (apply list.Forall_cons; split); [assumption.. | constructor]. }
  rewrite list.Forall_forall in H. apply H. unfold schema_at.
  destruct (nth_in_or_default k schemas schema_0011) as [Hin | ->]; [by apply list_elem_of_In |].
  unfold schemas. do 11 right. left.
Qed.

Lemma sound_at k con : conforms (Database (schema_at k) con) -> sound (Database (schema_at k) con).
Proof. intros H. split; [apply schema_wf | exact H]. Qed.

Lemma revisions_ok k r : nth_error versions k = Some r -> revision_ok r (schema_at k) (schema_at (S k)).
Proof.
  intros H. destruct k as [| [| [| [| [| [| [| [| [| [| [| k]]]]]]]]]]]; [injection H as <-.. | by destruct k].
  - exact revision_0001.
  - exact revision_0002.
  - exact revision_0003.
  - exact revision_0004.
  - exact revision_0005.
  - exact revision_0006.
  - exact revision_0007.
  - exact revision_0008.
  - exact revision_0009.
  - exact revision_0010.
  - exact revision_0011.
Qed.

(** The chain is linear: walking down from the head meets every revision
    once, and ends. *)
Lemma revisions_above k :
  (k <= 11)%nat -> iterate_revisions (length versions) head_revision (version_at k) = reverse (drop k versions).
Proof. intros H. do 12 (destruct k as [| k]; [reflexivity |]). lia. Qed.

Lemma head_schema k : (11 <= k)%nat -> schema_at k = schema_0011.
Proof. intros H. do 11 (destruct k as [| k]; [lia |]). by destruct k as [| k]; [| destruct k]. Qed.

Lemma run_all_app l l' db : run_all (l ++ l') db = (db' ← run_all l db; run_all l' db').
Proof.
  revert db; induction l as [| ops l IH]; intros db; [done |]. cbn. destruct (run ops db); [apply IH | done].
Qed.

Lemma upgrades_run now n k con :
  (n + k = 11)%nat -> sound (Database (schema_at k) con) -> ready con ->
  exists con', run_all ((fun r => upgrade r now) <$> drop k versions) (Database (schema_at k) con) =
                 Ok (Database schema_0011 con') /\ sound (Database schema_0011 con') /\
               run_all (downgrade <$> reverse (drop k versions)) (Database schema_0011 con') =
                 Ok (Database (schema_at k) con).
Proof.
  revert k con; induction n as [| n IH]; intros k con Hk Hs Hready.
  { replace k with 11%nat in * by lia. exists con. split; [reflexivity |]. split; [exact Hs | reflexivity]. }
  destruct (nth_error versions k) as [r |] eqn:Hr; [| apply nth_error_None in Hr; cbn in Hr; lia].
  destruct (revisions_ok k r Hr now con Hs Hready) as (con1 & Hup & Hs1 & Hsame & Hdown).
  destruct (IH (S k) con1 ltac:(lia) Hs1 (ready_same _ _ Hsame Hready)) as (con2 & Hup2 & Hs2 & Hdown2).
  assert (drop k versions = r :: drop (S k) versions) as ->.
  { destruct k as [| [| [| [| [| [| [| [| [| [| [| k]]]]]]]]]]]; [injection Hr as <-; reflexivity.. | lia]. }
  exists con2. split; [| split; [exact Hs2 |]].
  - rewrite fmap_cons. cbn [run_all]. rewrite Hup. exact Hup2.
  - rewrite reverse_cons, fmap_app, run_all_app, Hdown2. cbn [mbind res_bind fmap list_fmap run_all]. by rewrite Hdown.
Qed.

(** C18: Upgrading. Whichever of the twelve points of the chain a database is
    at, if its rows satisfy the schema of that point (and its event payloads
    have a canonical form and its endpoints can be numbered in 32 bits),
    [alembic upgrade head] runs every pending revision without an error and
    leaves a database whose rows satisfy the schema at the head. Nothing is
    lost on the way: downgrading to the point it came from then gives back the
    same database, row for row. *)
Theorem upgrade_head_succeeds now k con :
  (k <= 11)%nat -> conforms (Database (schema_at k) con) -> ready con ->
  exists con',
    upgrade_to_head now (Environment (version_at k) (Database (schema_at k) con)) =
      (Environment head_revision (Database schema_0011 con'), None) /\
    conforms (Database schema_0011 con') /\
    downgrade_to (version_at k) (Environment head_revision (Database schema_0011 con')) =
      (Environment (version_at k) (Database (schema_at k) con), None).
Proof.
  intros Hk Hc Hready.
  destruct (upgrades_run now (11 - k) k con ltac:(lia) (sound_at k con Hc) Hready) as (con' & Hup & [_ Hs] & Hdown).
  exists con'. unfold upgrade_to_head, downgrade_to, do_run_migrations. cbn [current stored_db].
  rewrite (revisions_above k Hk), reverse_involutive, Hup, Hdown. done.
Qed.

(** ** Downgrades *)

(** The rows after [k] revisions that still have a place in the schema before
    the last of them; the columns and tables it added go. *)
Definition undoable (k : nat) (con : contents) : Prop :=
  match k with
  | 5%nat => Forall (fun r => cell r "status" <> text "canceled") (rows_of con "deliveries")
  | 7%nat =>
      Forall (fun r => cell r "payload" <> VNull /\ cell r "canonical_envelope" <> VNull) (rows_of con "events") /\
      Forall (fun r => cell r "lifecycle_state" = text "active") (rows_of con "organizations")
  | 8%nat => Forall (fun r => cell r "envelope_mode" <> text "cloudevents") (rows_of con "events")
  | 11%nat =>
      Forall (fun r => cell r "signature_scheme" = text "legacy") (rows_of con "webhook_endpoints") /\
      Forall (fun r => cell r "signature_scheme_snapshot" = text "legacy") (rows_of con "deliveries")
  | _ => True
  end.

Definition undone_by (r : Revision) (k : nat) (con : contents) : Prop :=
  exists con', run (downgrade r) (Database (schema_at (S k)) con) = Ok (Database (schema_at k) con').

Lemma undone_by_ddl r k con :
  admitted (downgrade r) (schema_at (S k)) = true -> after (downgrade r) (schema_at (S k)) = schema_at k ->
  undone_by r k con <-> obligations (downgrade r) con.
Proof.
  intros Ha Hb. unfold undone_by. split.
  - intros [con' [H _]%(run_ddl _ _ _ _ Ha)]. exact H.
  - intros H. exists (move_all (downgrade r) con). apply run_ddl; [exact Ha |]. by rewrite Hb.
Qed.

Ltac undo_by_ddl := rewrite undone_by_ddl; [cbn [undoable] | by_vm | decide_vm].

Lemma not_null_cell cat con t c ty r d :
  sound (Database cat con) -> bool_decide (is_Some (relations cat !! t)) = true ->
  columns (table_of cat t) !! c = Some (Column ty false d) -> r ∈ rows_of con t -> cell r c <> VNull.
Proof.
  intros Hs Hrel%bool_decide_eq_true Hcol Hr. eapply stored. eapply cell_conforms; [done | by apply table_of_lookup | done | done].
Qed.

Lemma only_value l c v :
  Forall (fun r => cell r c <> VNull) l ->
  count (fun r => negb (cell_is c v r) && negb (cell_is c VNull r)) l = 0 <-> Forall (fun r => cell r c = v) l.
Proof.
  intros Hn. rewrite count_zero, !list.Forall_forall. rewrite list.Forall_forall in Hn. unfold cell_is. split; intros H r Hr.
  - specialize (H r Hr). cbn in H. rewrite (bool_decide_false (_ = VNull)) in H by auto.
    rewrite andb_true_r, negb_false_iff, bool_decide_eq_true in H. done.
  - rewrite (bool_decide_true (_ = v)) by auto. done.
Qed.

Lemma no_value l c v : count (cell_is c v) l = 0 <-> Forall (fun r => cell r c <> v) l.
Proof.
  rewrite count_zero, !list.Forall_forall. unfold cell_is. split; intros H r Hr; specialize (H r Hr);
    by rewrite bool_decide_eq_false in *.
Qed.

Lemma count_rows_nonneg p l : 0 <= count p l.
Proof. unfold count, len. lia. Qed.

Lemma undo_0011_iff con :
  sound (Database schema_0011 con) -> undone_by R0011.script_0011 10 con <-> undoable 11 con.
Proof.
  intros Hs. undo_by_ddl. spell_out. cbn [obligations validates]. unfold R0011.non_legacy.
  rewrite <- !only_value.
  - pose proof (count_rows_nonneg (fun r => negb (cell_is "signature_scheme" (text "legacy") r)
      && negb (cell_is "signature_scheme" VNull r)) (rows_of con "webhook_endpoints")).
    pose proof (count_rows_nonneg (fun r => negb (cell_is "signature_scheme_snapshot" (text "legacy") r)
      && negb (cell_is "signature_scheme_snapshot" VNull r)) (rows_of con "deliveries")).
    rewrite negb_false_iff, Z.eqb_eq. intuition lia.
  - apply list.Forall_forall. intros r Hr. apply (not_null_cell schema_0011 con "deliveries" "signature_scheme_snapshot" (Str 16) r (Some (text "legacy"))); [exact Hs | by_vm | by_vm | exact Hr].
  - apply list.Forall_forall. intros r Hr. apply (not_null_cell schema_0011 con "webhook_endpoints" "signature_scheme" (Str 16) r (Some (text "legacy"))); [exact Hs | by_vm | by_vm | exact Hr].
Qed.

Lemma undo_0008_iff con : undone_by R0008.script_0008 7 con <-> undoable 8 con.
Proof.
  undo_by_ddl. spell_out. cbn [obligations validates]. unfold R0008.cloud_event_count.
  rewrite <- no_value, negb_false_iff, Z.eqb_eq. tauto.
Qed.

Lemma undo_0002_holds con : sound (Database schema_0002 con) -> undone_by R0002.script_0002 1 con.
Proof.
  intros Hs. apply undone_by_ddl; [by_vm | decide_vm |]. spell_out. cbn [obligations validates move].
  repeat split; (eapply unique_from_index; [exact Hs | decide_vm | ]).
  - instantiate (1 := "ix_deliveries_public_id"). by_vm.
  - instantiate (1 := "ix_events_public_id"). by_vm.
  - instantiate (1 := "ix_webhook_endpoints_public_id"). by_vm.
  - instantiate (1 := "ix_api_keys_public_id"). by_vm.
  - instantiate (1 := "ix_projects_public_id"). by_vm.
  - instantiate (1 := "ix_organizations_public_id"). by_vm.
  - instantiate (1 := "ix_users_email"). by_vm.
Qed.

Lemma new_status con r :
  sound (Database schema_0005 con) -> r ∈ rows_of con "deliveries" ->
  admits R0005.statuses_0001 (cell r "status") <-> cell r "status" <> text "canceled".
Proof.
  intros Hs Hr. destruct (one_of_cases 32 None
    ["pending"; "processing"; "retry_scheduled"; "succeeded"; "dead"; "canceled"] (cell r "status")) as (s & Hin & ->).
  - cell_by Hs Hr (Column (Str 32) false None).
  - eapply (check_conforms _ con "deliveries" (table_of _ _) "ck_deliveries_status" (Check "status" _) _ Hs);
      [apply table_of_lookup; decide_vm | by_vm | exact Hr].
  - rewrite !elem_of_cons in Hin.
    destruct Hin as [-> | [-> | [-> | [-> | [-> | [-> | Hin]]]]]]; [..| by apply not_elem_of_nil in Hin];
      vm_compute; split; intros H; (discriminate || by (intros ?; apply H)).
Qed.

Lemma undo_0005_iff con :
  sound (Database schema_0005 con) -> undone_by R0005.script_0005 4 con <-> undoable 5 con.
Proof.
  intros Hs. undo_by_ddl. spell_out. cbn [obligations validates]. rows_simpl. rewrite <- !list_fmap_compose, Forall_fmap.
  rewrite !list.Forall_forall. unfold compose, check_holds. cbn [ck_column ck_predicate].
  assert (forall r, r ∈ rows_of con "deliveries" -> _) as Hst by exact (fun r => new_status con r Hs).
  split.
  - intros H r Hr. apply Hst; [done |]. destruct H as (_ & _ & _ & _ & _ & _ & _ & _ & H & _).
    specialize (H r Hr). revert H. cells. done.
  - intros H. repeat split. intros r Hr. cells. apply Hst; auto.
Qed.

Lemma losses_refused con :
  sound (Database schema_0007 con) ->
  obligations (R0007.refuse_losses ++ R0007.drop_lifecycle) con <-> undoable 7 con.
Proof.
  intros Hs. cbn [undoable]. rewrite <- (only_value _ "lifecycle_state").
  2 : { apply list.Forall_forall. intros r Hr.
        apply (not_null_cell schema_0007 con "organizations" "lifecycle_state" (Str 24) r (Some (text "active")));
          [exact Hs | by_vm | by_vm | exact Hr]. }
  assert (R0007.purged_event_count con = 0 <->
          Forall (fun r => cell r "payload" <> VNull /\ cell r "canonical_envelope" <> VNull) (rows_of con "events")) as Hp.
  { unfold R0007.purged_event_count. rewrite count_zero, !list.Forall_forall. unfold cell_is.
    split; intros H r Hr; specialize (H r Hr); cbn in *.
    - by rewrite orb_false_iff, !bool_decide_eq_false in H.
    - by rewrite orb_false_iff, !bool_decide_eq_false. }
  rewrite <- Hp. split.
  - spell_out. cbn [obligations validates]. rewrite !negb_false_iff, !Z.eqb_eq. intros (? & ? & _). done.
  - intros [H0 H1]. spell_out. cbn [obligations validates]. rewrite !negb_false_iff, !Z.eqb_eq.
    split; [exact H0 |]. split; [exact H1 |]. apply Hp in H0. rewrite list.Forall_forall in H0.
    repeat apply conj; lazymatch goal with |- True => exact I | |- _ => right end;
      rows_simpl; apply list.Forall_forall; intros r Hr; [exact (proj2 (H0 r Hr)) | exact (proj1 (H0 r Hr))].
Qed.

Lemma current_role con r :
  sound (Database schema_0007 con) -> r ∈ rows_of con "organization_members" ->
  cell (becomes_member r) "role" = text "owner" \/ cell (becomes_member r) "role" = text "member".
Proof.
  intros Hs Hr. destruct (one_of_cases 16 None ["owner"; "admin"; "member"] (cell r "role")) as (s & Hin & Hrole).
  - cell_by Hs Hr (Column (Str 16) false None).
  - eapply (check_conforms _ con "organization_members" (table_of _ _) "ck_org_members_role" (Check "role" _) _ Hs);
      [apply table_of_lookup; decide_vm | by_vm | exact Hr].
  - unfold becomes_member, updated, cell_is. rewrite Hrole. rewrite !elem_of_cons in Hin.
    destruct Hin as [-> | [-> | [-> | Hin]]]; [left; exact Hrole | right | right; exact Hrole | by apply not_elem_of_nil in Hin].
    rewrite bool_decide_true by reflexivity. cells. reflexivity.
Qed.

Lemma restore_obliges con con' :
  sound (Database schema_0007 con) ->
  rows_of con' "organization_members" = rows_of con "organization_members" ->
  obligations R0007.restore_organizations (alter (on_rows (fmap becomes_member)) "organization_members" con').
Proof.
  intros Hs Hsame. oblige. rows_simpl. rewrite Hsame. each_row r Hr. unfold check_holds. cbn [ck_column ck_predicate].
  destruct (current_role con r Hs Hr) as [-> | ->]; vm_compute; discriminate.
Qed.

Lemma undo_0007_iff con :
  sound (Database schema_0007 con) -> undone_by R0007.script_0007 6 con <-> undoable 7 con.
Proof.
  intros Hs. rewrite <- (losses_refused con Hs). unfold undone_by. cbn [downgrade R0007.script_0007].
  change (schema_at 7) with schema_0007. change (schema_at 6) with schema_0006. unfold R0007.downgrade_0007. split.
  - intros [con' H]. rewrite run_app in H. apply res_bind_ok in H as (db & H & _).
    assert (admitted (R0007.refuse_losses ++ R0007.drop_lifecycle) schema_0007 = true) as Ha by by_vm.
    exact (proj1 (proj1 (run_ddl _ _ _ _ Ha) H)).
  - intros Ho.
    destruct (sound_run_ddl (R0007.refuse_losses ++ R0007.drop_lifecycle) schema_0007 con) as [Hr2 Hs2];
      [by_vm | exact Hs | exact Ho |]. fold schema_0007r in *. set (con2 := move_all _ con) in *.
    pose proof (roles_updated schema_0007r con2 "admin" "member" Hs2
      ltac:(by_vm) ltac:(by_vm) ltac:(by_vm) ltac:(by_vm) ltac:(by_vm) ltac:(by_vm)) as He.
    change (updated (cell_is "role" (text "admin")) (fun _ => [("role", text "member")])) with becomes_member in He.
    pose proof (sound_exec_all _ _ _ _ Hs2 He) as Hs3.
    destruct (sound_run_ddl R0007.restore_organizations schema_0007r
      (alter (on_rows (fmap becomes_member)) "organization_members" con2)) as [Hr4 _]; [by_vm | exact Hs3 | |].
    { apply (restore_obliges con); [exact Hs |]. unfold con2. rows_simpl. reflexivity. }
    assert (after R0007.restore_organizations schema_0007r = schema_0006) as E by decide_vm. rewrite E in Hr4. clear E.
    eexists. rewrite run_app, Hr2. cbn [mbind res_bind app]. rewrite (run_then_execute _ _ _ _ _ _ eq_refl He). exact Hr4.
Qed.

Lemma always_undone r k con :
  admitted (downgrade r) (schema_at (S k)) = true -> after (downgrade r) (schema_at (S k)) = schema_at k ->
  obligations (downgrade r) con -> undone_by r k con <-> True.
Proof. intros Ha Hb Ho. rewrite (undone_by_ddl _ _ _ Ha Hb). tauto. Qed.

Ltac never_refused := apply always_undone; [by_vm | decide_vm | oblige].

(** The catalog a script leaves depends on its operations alone. *)
Lemma exec_all_catalog l db db' : exec_all l db = Ok db' -> db_catalog db' = db_catalog db.
Proof.
  revert db; induction l as [| s l IH]; cbn [exec_all]; intros db H; [by injection H as -> |].
  apply res_bind_ok in H as (db1 & H1 & H). rewrite (IH _ H). by apply exec_conforms in H1 as [_ ?].
Qed.

Lemma run_catalog ops db db' :
  run ops db = Ok db' -> alter_all (filter (fun o => is_ddl o = true) ops) (db_catalog db) = Ok (db_catalog db').
Proof.
  revert db; induction ops as [| o ops IH]; cbn [run]; intros db H; [by injection H as -> |].
  apply res_bind_ok in H as (db1 & H1 & H). apply IH in H. rewrite filter_cons. destruct (is_ddl o) eqn:Ho.
  - rewrite decide_True by reflexivity. cbn [alter_all]. destruct db as [cat con]. rewrite step_ddl in H1 by exact Ho.
    apply res_bind_ok in H1 as (cat1 & Hc & H1). cbn [db_catalog]. rewrite Hc. cbn [mbind res_bind].
    destruct (decide (validates o con)); [by injection H1 as <- | done].
  - rewrite decide_False by done. destruct o; try discriminate Ho.
    cbn [step] in H1. apply res_bind_ok in H1 as (l & _ & H1). by rewrite <- (exec_all_catalog _ _ _ H1).
Qed.

Lemma downgrade_schema k r :
  nth_error versions k = Some r ->
  after (filter (fun o => is_ddl o = true) (downgrade r)) (schema_at (S k)) = schema_at k.
Proof.
  intros H. destruct k as [| [| [| [| [| [| [| [| [| [| [| k]]]]]]]]]]]; [injection H as <-; decide_vm.. |].
  destruct k; discriminate H.
Qed.

Lemma run_undone k r con db' :
  nth_error versions k = Some r -> run (downgrade r) (Database (schema_at (S k)) con) = Ok db' -> undone_by r k con.
Proof.
  intros Hr Hrun. exists (db_contents db'). rewrite <- (downgrade_schema k r Hr), Hrun. unfold after.
  pose proof (run_catalog _ _ _ Hrun) as Hcat. cbn [db_catalog] in Hcat. rewrite Hcat. by destruct db'.
Qed.

(** C20: Downgrading. On a database whose rows satisfy the schema, the downgrade
    of a revision succeeds, and reaches the schema before it, exactly when no row
    holds a value that schema has no room for: 0011 when every endpoint and
    delivery signs the legacy way, 0008 when no event was sent as a CloudEvent,
    0007 when no payload has been purged and no organization is being deleted,
    0005 when no delivery was canceled, the others always. A refused downgrade
    leaves the database and its version as they were. *)
Theorem downgrades_decide k r con :
  nth_error versions k = Some r -> conforms (Database (schema_at (S k)) con) ->
  (undone_by r k con <-> undoable (S k) con) /\
  (~ undoable (S k) con -> exists e,
     do_run_migrations [downgrade r] (version_at k) (Environment (version_at (S k)) (Database (schema_at (S k)) con)) =
       (Environment (version_at (S k)) (Database (schema_at (S k)) con), Some e)).
Proof.
  intros Hr Hc%sound_at. assert (undone_by r k con <-> undoable (S k) con) as Hiff.
  { destruct k as [| [| [| [| [| [| [| [| [| [| [| k]]]]]]]]]]]; [injection Hr as <-.. | by destruct k].
    - never_refused.
    - cbn [undoable]. split; [done | intros _; exact (undo_0002_holds con Hc)].
    - never_refused.
    - never_refused.
    - exact (undo_0005_iff con Hc).
    - never_refused.
    - exact (undo_0007_iff con Hc).
    - exact (undo_0008_iff con).
    - never_refused.
    - never_refused.
    - exact (undo_0011_iff con Hc). }
  split; [exact Hiff |]. intros Hn. unfold do_run_migrations. cbn [run_all stored_db].
  destruct (run (downgrade r) (Database (schema_at (S k)) con)) as [db' | e] eqn:Hrun; [| by exists e].
  exfalso. apply Hn, Hiff. exact (run_undone k r con db' Hr Hrun).
Qed.

(** ** What the backfills write *)

(** The bytes [ingest_event] stores for an event of the same content that was
    sent natively *)
Definition enveloped_as_ingested (event : row) : Prop :=
  forall project, exists bytes,
    canonical_json (envelope_of_event project (as_str (cell event "public_id")) (as_str (cell event "event_type"))
      (as_json (cell event "payload")) Native (as_time (cell event "created_at"))) = Some bytes /\
    cell event "canonical_envelope" = VBytes bytes.

(** The snapshot [fan_out] takes of the endpoint *)
Definition snapshots_its_endpoint (con : contents) (delivery : row) : Prop :=
  exists endpoint,
    endpoint ∈ rows_of con "webhook_endpoints" /\ cell endpoint "id" = cell delivery "endpoint_id" /\
    cell delivery "endpoint_public_id_snapshot" = cell endpoint "public_id" /\
    cell delivery "endpoint_url_snapshot" = cell endpoint "url" /\
    cell delivery "endpoint_active_snapshot" = cell endpoint "is_active" /\
    cell delivery "signing_secret_version_snapshot" = cell endpoint "secret_version".

(** The organization [ingest_event] passes to [fan_out] *)
Definition owned_by_its_organization (con : contents) (delivery : row) : Prop :=
  exists event project,
    event ∈ rows_of con "events" /\ cell event "id" = cell delivery "event_id" /\
    project ∈ rows_of con "projects" /\ cell project "id" = cell event "project_id" /\
    cell delivery "organization_id" = cell project "organization_id".

Lemma events_enveloped con :
  sound (Database schema_0003a (move_all R0003.add_columns_0003 con)) ->
  ready (move_all R0003.add_columns_0003 con) ->
  Forall enveloped_as_ingested (rows_of (upgraded_0003 con) "events").
Proof.
  intros Hs [Hp _]. rewrite list.Forall_forall in Hp. unfold upgraded_0003, enveloped.
  set (con1 := move_all _ con) in *. rewrite rows_of_alter_ne by discriminate. rewrite rows_of_map_eq.
  each_row r Hr. intros project.
  destruct (envelope_canonical r) as [bytes Hb]; [| | by apply Hp |].
  - eapply stored_str. cell_by Hs Hr (Column (Str 36) false None).
  - eapply stored_str. cell_by Hs Hr (Column (Str 150) false None).
  - exists bytes. cells. split; [exact Hb | by rewrite Hb].
Qed.

Lemma deliveries_snapshot con :
  sound (Database schema_0003a (enveloped con)) ->
  Forall (snapshots_its_endpoint (upgraded_0003 con)) (rows_of (upgraded_0003 con) "deliveries").
Proof.
  intros Hs. unfold upgraded_0003. rewrite rows_of_map_eq. each_row d Hd.
  destruct (row_with_id_spec schema_0003a (enveloped con) "deliveries" "webhook_endpoints" "endpoint_id"
    (cell d "endpoint_id") d Hs) as (He & Hid & _); [by_vm.. | done | done |].
  fold (endpoint_of (enveloped con) d) in He, Hid. exists (endpoint_of (enveloped con) d).
  rewrite rows_of_alter_ne by discriminate. cells. done.
Qed.

Lemma deliveries_owned now con :
  sound (Database schema_0004a (move_all [add_nullable "deliveries" "organization_id" Integer] con)) ->
  Forall (owned_by_its_organization (upgraded_0004 now con)) (rows_of (upgraded_0004 now con) "deliveries").
Proof.
  intros Hs. unfold upgraded_0004, with_states, owned. set (con1 := move_all [_] con) in *.
  rows_simpl. each_row d Hd.
  destruct (row_with_id_spec schema_0004a con1 "deliveries" "events" "event_id" (cell d "event_id") d Hs)
    as (He & Hide & _); [by_vm.. | done | done |]. fold (event_of con1 d) in He, Hide.
  destruct (row_with_id_spec schema_0004a con1 "events" "projects" "project_id"
    (cell (event_of con1 d) "project_id") (event_of con1 d) Hs) as (Hp & Hidp & _); [by_vm.. | exact He | done |].
  fold (project_of con1 d) in Hp, Hidp. exists (event_of con1 d), (project_of con1 d). rows_simpl. cells.
  destruct (organization_for_event_spec con1 d Hs Hd) as [_ ->]. done.
Qed.

(** 0004 keeps what 0003 wrote. *)
Lemma rows_kept now con t :
  t ∈ ["events"; "projects"; "webhook_endpoints"] -> rows_of (upgraded_0004 now con) t = rows_of con t.
Proof.
  rewrite !elem_of_cons. unfold upgraded_0004, with_states, owned.
  intros [-> | [-> | [-> | []%not_elem_of_nil]]]; rows_simpl; reflexivity.
Qed.

Lemma snapshots_kept now con :
  Forall (snapshots_its_endpoint con) (rows_of con "deliveries") ->
  Forall (snapshots_its_endpoint (upgraded_0004 now con)) (rows_of (upgraded_0004 now con) "deliveries").
Proof.
  rewrite list.Forall_forall. intros H. apply list.Forall_forall. intros d' Hd'.
  assert (exists d, d ∈ rows_of con "deliveries" /\ forall c, c <> "organization_id" -> cell d' c = cell d c) as (d & Hd & Hc).
  { revert Hd'. unfold upgraded_0004, with_states, owned. rows_simpl. rewrite <- list_fmap_compose.
    intros (d & -> & Hd)%list_elem_of_fmap. exists d. split; [exact Hd |]. intros c Hne. unfold compose, updated, everywhere.
    cbn [assign_all foldr fst snd]. by rewrite !cell_insert_ne by auto. }
  destruct (H d Hd) as (e & He & Hid & H1 & H2 & H3 & H4). exists e.
  rewrite rows_kept by (do 2 right; left). rewrite !Hc by discriminate. done.
Qed.

(** C19: Backfills. On every database that satisfies the schema of 0002, the two
    revisions that add columns to stored rows write what the application would
    have written: every event gets the canonical bytes [ingest_event] signs for a
    native event with its identifier, type, payload and time; every delivery
    gets the snapshot [fan_out] takes of its endpoint, and the organization of
    its event's project. *)
Theorem backfills_agree_with_application now con :
  conforms (Database schema_0002 con) -> ready con ->
  exists con3 con4,
    run (upgrade R0003.script_0003 now) (Database schema_0002 con) = Ok (Database schema_0003 con3) /\
    run (upgrade R0004.script_0004 now) (Database schema_0003 con3) = Ok (Database schema_0004 con4) /\
    Forall enveloped_as_ingested (rows_of con4 "events") /\
    Forall (snapshots_its_endpoint con4) (rows_of con4 "deliveries") /\
    Forall (owned_by_its_organization con4) (rows_of con4 "deliveries").
Proof.
  intros Hc Hready. pose proof (sound_at 2 con Hc) as Hs. change (schema_at 2) with schema_0002 in Hs.
  destruct (sound_run_ddl R0003.add_columns_0003 schema_0002 con) as [_ Hs1]; [by_vm | exact Hs | oblige |].
  destruct (upgrade_0003_runs now con Hs Hready) as (Hrun3 & Hs3 & Hs2).
  destruct (upgrade_0004_runs now (upgraded_0003 con) Hs3) as (Hrun4 & _ & Hs4).
  exists (upgraded_0003 con), (upgraded_0004 now (upgraded_0003 con)).
  split; [exact Hrun3 |]. split; [exact Hrun4 |]. split; [| split].
  - rewrite rows_kept by left. apply events_enveloped; [exact Hs1 |].
    apply (ready_same con); [same_rows | exact Hready].
  - apply snapshots_kept, deliveries_snapshot. exact Hs2.
  - exact (deliveries_owned now _ Hs4).
Qed.

(** ** The schema at the head *)

(** The string a column stores for a value of the model *)
Class StoredAs (A : Type) := stored_as : A -> string.
#[export] Instance status_stored : StoredAs DeliveryStatus := fun s =>
  match s with
  | Pending => "pending" | Processing => "processing" | RetryScheduled => "retry_scheduled"
  | Succeeded => "succeeded" | Dead => "dead" | Canceled => "canceled"
  end.
#[export] Instance circuit_stored : StoredAs CircuitState := fun s =>
  match s with Closed => "closed" | Open => "open" | HalfOpen => "half_open" end.
#[export] Instance scheme_stored : StoredAs SignatureScheme := fun s =>
  match s with Legacy => "legacy" | Standard => "standard" end.
#[export] Instance mode_stored : StoredAs EnvelopeMode := fun m =>
  match m with Native => "native" | CloudEvents => "cloudevents" end.
#[export] Instance lifecycle_stored : StoredAs LifecycleState := fun s =>
  match s with Active => "active" | DeletionPending => "deletion_pending" end.
#[export] Instance operation_stored : StoredAs OperationStatus := fun s =>
  match s with
  | OpPending => "pending" | OpRunning => "running" | OpCompleted => "completed" | OpCanceled => "canceled"
  | OpFailed => "failed"
  end.
#[export] Instance organization_role_stored : StoredAs OrganizationRole := fun r =>
  match r with OWNER => "owner" | ADMIN => "admin" | MEMBER => "member" end.
#[export] Instance project_role_stored : StoredAs ProjectRole := fun r =>
  match r with PADMIN => "admin" | OPERATOR => "operator" | VIEWER => "viewer" end.
#[export] Instance plan_stored : StoredAs Plan := fun p =>
  match p with FreePlan => "free" | StandardPlan => "standard" | EnterprisePlan => "enterprise" end.
#[export] Instance replay_mode_stored : StoredAs ReplayMode := fun m =>
  match m with Single => "single" | Bulk => "bulk" end.

(** The cells CHECK [name] of [t] admits are those of the values of [A]. *)
Definition stores (A : Type) `{StoredAs A} (cat : catalog) (t name c : string) : Prop :=
  exists ck, checks (table_of cat t) !! name = Some ck /\ ck_column ck = c /\
    forall s : str, check_holds {[c := VStr s]} ck <-> exists a : A, py (stored_as a) = s.

(** What the revisions created otherwise than the models say *)
Definition rename_foreign_key (t old new : string) (cat : catalog) : catalog :=
  cat &{ relations := alter (fun rel => rel &{ foreign_keys :=
    partial_alter (fun _ => foreign_keys rel !! old) new (delete old (foreign_keys rel)) }) t (relations cat) }.

Definition set_server_default (t c : string) (v : value) (cat : catalog) : catalog :=
  cat &{ relations := alter (fun rel => rel &{ columns :=
    alter (fun col => col &{ c_default := Some v }) c (columns rel) }) t (relations cat) }.

Definition as_migrated (cat : catalog) : catalog :=
  rename_foreign_key "deliveries" "deliveries_organization_id_fkey" "fk_deliveries_organization"
    (rename_foreign_key "endpoint_quota_state" "endpoint_quota_state_half_open_probe_delivery_id_fkey"
       "fk_endpoint_quota_half_open_delivery"
       (rename_foreign_key "api_keys" "api_keys_rotated_from_id_fkey" "fk_api_keys_rotated_from"
          (set_server_default "login_throttles" "failure_count" (VInt 0) cat))).

Lemma stores_values {A} `{StoredAs A} cat t name c (values : list A) :
  checks (table_of cat t) !! name = Some (Check c (one_of (stored_as <$> values))) ->
  (forall a, a ∈ values) -> stores A cat t name c.
Proof.
  intros Hck Hall. exists (Check c (one_of (stored_as <$> values))). split; [exact Hck | split; [reflexivity |]]. intros s.
  unfold check_holds, cell. cbn [ck_column ck_predicate]. rewrite lookup_singleton, decide_True by reflexivity.
  unfold admits, one_of. rewrite <- list_fmap_compose. cbn [default from_option id eval_predicate]. split.
  - case_bool_decide as Hin; [| done]. intros _. apply list_elem_of_fmap in Hin as (a & -> & _). by exists a.
  - intros [a <-]. rewrite bool_decide_true; [done |].
    exact (list_elem_of_fmap_2 (compose py stored_as) values a (Hall a)).
Qed.

Ltac stores_by vs :=
  apply (stores_values _ _ _ _ vs); [by_vm | intros []; repeat first [left | right]].

(** C21: The head. The twenty tables the eleven revisions leave are the ones
    [models.py] declares, with every column, key, constraint, index, foreign key
    and trigger, except that three foreign keys have other names and
    [login_throttles.failure_count] has a server default; and its CHECK
    constraints admit exactly the strings of the values the application
    works with. *)
Theorem head_schema_matches_models :
  schema_0011 = as_migrated target_metadata /\ schema_0011 <> target_metadata /\
  stores DeliveryStatus schema_0011 "deliveries" "ck_deliveries_status" "status" /\
  stores CircuitState schema_0011 "endpoint_quota_state" "ck_endpoint_quota_circuit_state" "circuit_state" /\
  stores SignatureScheme schema_0011 "webhook_endpoints" "ck_webhook_endpoints_signature_scheme" "signature_scheme" /\
  stores SignatureScheme schema_0011 "deliveries" "ck_deliveries_snapshot_signature_scheme"
    "signature_scheme_snapshot" /\
  stores EnvelopeMode schema_0011 "events" "ck_events_envelope_mode" "envelope_mode" /\
  stores LifecycleState schema_0011 "organizations" "ck_organizations_lifecycle_state" "lifecycle_state" /\
  stores OperationStatus schema_0011 "organization_lifecycle_operations" "ck_org_lifecycle_operations_status" "status" /\
  stores OrganizationRole schema_0011 "organization_members" "ck_org_members_role" "role" /\
  stores ProjectRole schema_0011 "project_members" "ck_project_members_role" "role" /\
  stores Plan schema_0011 "organization_policies" "ck_organization_policies_plan" "plan" /\
  stores ReplayMode schema_0011 "replay_operations" "ck_replay_operations_mode" "mode".
Proof.
  split; [decide_vm |]. split; [decide_vm |].
  split; [stores_by [Pending; Processing; RetryScheduled; Succeeded; Dead; Canceled] |].
  split; [stores_by [Closed; Open; HalfOpen] |]. split; [stores_by [Legacy; Standard] |].
  split; [stores_by [Legacy; Standard] |]. split; [stores_by [Native; CloudEvents] |].
  split; [stores_by [Active; DeletionPending] |].
  split; [stores_by [OpPending; OpRunning; OpCompleted; OpCanceled; OpFailed] |].
  split; [stores_by [OWNER; ADMIN; MEMBER] |]. split; [stores_by [PADMIN; OPERATOR; VIEWER] |].
  split; [stores_by [FreePlan; StandardPlan; EnterprisePlan] |]. stores_by [Single; Bulk].
Qed.

(** ** A stored database *)

Section Example_database.
Let at_ (h : Z) : value := VTime (hours h).
Let table (rows : list (list (string * value))) : heap := Heap (list_to_map <$> rows) (len rows + 1).

(** Two owners' organizations at 0002, one with two endpoints, an event and its
    two deliveries *)
Definition sample_0002 : contents := list_to_map
  [("users", table [[("id", VInt 1); ("email", text "o@a.io"); ("name", text "O"); ("hashed_password", text "h");
                     ("is_active", VBool true); ("created_at", at_ 1)]]);
   ("items", table []);
   ("organizations", table [[("id", VInt 1); ("public_id", text "org-1"); ("name", text "A"); ("created_at", at_ 1)];
                            [("id", VInt 2); ("public_id", text "org-2"); ("name", text "B"); ("created_at", at_ 2)]]);
   ("organization_members",
    table [[("id", VInt 1); ("organization_id", VInt 1); ("user_id", VInt 1); ("role", text "owner"); ("created_at", at_ 1)];
           [("id", VInt 2); ("organization_id", VInt 2); ("user_id", VInt 1); ("role", text "member"); ("created_at", at_ 2)]]);
   ("projects", table [[("id", VInt 7); ("public_id", text "prj-7"); ("organization_id", VInt 2); ("name", text "P");
                        ("is_active", VBool true); ("created_at", at_ 2)]]);
   ("api_keys", table [[("id", VInt 1); ("public_id", text "key-1"); ("project_id", VInt 7); ("name", text "K");
                        ("key_prefix", text "whk_1"); ("key_digest", text "d"); ("is_active", VBool true);
                        ("created_at", at_ 2); ("last_used_at", VNull); ("revoked_at", VNull)]]);
   ("webhook_endpoints",
    table [[("id", VInt 3); ("public_id", text "end-3"); ("project_id", VInt 7); ("url", text "https://r.io/3");
            ("description", VNull); ("is_active", VBool true); ("secret_version", VInt 2); ("created_at", at_ 3);
            ("updated_at", at_ 4)];
           [("id", VInt 4); ("public_id", text "end-4"); ("project_id", VInt 7); ("url", text "https://r.io/4");
            ("description", VNull); ("is_active", VBool false); ("secret_version", VInt 1); ("created_at", at_ 3);
            ("updated_at", at_ 3)]]);
   ("events", table [[("id", VInt 5); ("public_id", text "evt-5"); ("project_id", VInt 7); ("idempotency_key", text "i");
                      ("event_type", text "order.paid"); ("payload", VJson (JObj [(py "n", JInt 1)]));
                      ("payload_hash", text "f"); ("created_at", at_ 5)]]);
   ("deliveries", table ((fun ed =>
      [("id", VInt ed.2); ("public_id", text ed.1.2); ("event_id", VInt 5); ("endpoint_id", VInt ed.1.1);
       ("replay_of_delivery_id", VNull); ("status", text "dead"); ("attempt_count", VInt 1);
       ("next_attempt_at", at_ 5); ("lease_token", VNull); ("lease_expires_at", VNull); ("last_http_status", VInt 500);
       ("last_error", VNull); ("created_at", at_ 5); ("updated_at", at_ 6); ("succeeded_at", VNull)])
      <$> [(3, "del-8", 8); (4, "del-9", 9)]));
   ("delivery_attempts",
    table [[("id", VInt 1); ("delivery_id", VInt 8); ("attempt_number", VInt 1); ("started_at", at_ 6);
            ("finished_at", at_ 6); ("outcome", text "dead"); ("http_status", VInt 500); ("error", VNull);
            ("response_body", text "no")]])].
End Example_database.

(** The same database after 0005, its deliveries canceled since *)
Definition sample_0005 : contents :=
  match run_all ((fun r => upgrade r (hours 9)) <$> take 3 (drop 2 versions)) (Database schema_0002 sample_0002) with
  | Ok db => alter (on_rows (fmap (fun d => assign_all [("status", text "canceled")] d))) "deliveries" (db_contents db)
  | Raise _ => ∅
  end.

Lemma sample_conforms : conforms (Database schema_0002 sample_0002) /\ ready sample_0002.
Proof. split; [decide_vm | split; [decide_vm | by_vm]]. Qed.

Lemma sample_0005_conforms : conforms (Database schema_0005 sample_0005) /\ ~ undoable 5 sample_0005.
Proof.
  split; [decide_vm |]. cbn [undoable]. intros H.
  assert (Exists (fun r => cell r "status" = text "canceled") (rows_of sample_0005 "deliveries")) as He by decide_vm.
  apply list.Exists_exists in He as (r & Hr & Hc). rewrite list.Forall_forall in H. exact (H r Hr Hc).
Qed.

Lemma upgrade_head_succeeds_witness : exists con',
  upgrade_to_head (hours 9) (Environment (Some "0002_drop_duplicate_uniques") (Database schema_0002 sample_0002)) =
    (Environment head_revision (Database schema_0011 con'), None) /\
  downgrade_to (Some "0002_drop_duplicate_uniques") (Environment head_revision (Database schema_0011 con')) =
    (Environment (Some "0002_drop_duplicate_uniques") (Database schema_0002 sample_0002), None).
Proof.
  destruct sample_conforms as [Hc Hr].
  destruct (upgrade_head_succeeds (hours 9) 2 sample_0002 ltac:(lia) Hc Hr) as (con' & Hup & _ & Hdown).
  exists con'. split; [exact Hup | exact Hdown].
Defined.

Lemma downgrades_decide_witness : exists e,
  do_run_migrations [downgrade R0005.script_0005] (Some "0004_phase4_admission_fairness")
    (Environment (Some "0005_phase5_retry_operations") (Database schema_0005 sample_0005)) =
  (Environment (Some "0005_phase5_retry_operations") (Database schema_0005 sample_0005), Some e).
Proof.
  destruct sample_0005_conforms as [Hc Hn].
  destruct (downgrades_decide 4 R0005.script_0005 sample_0005 eq_refl Hc) as [_ H]. exact (H Hn).
Defined.

Lemma backfills_agree_with_application_witness : exists con4,
  run (upgrade R0003.script_0003 (hours 9) ++ upgrade R0004.script_0004 (hours 9)) (Database schema_0002 sample_0002) =
    Ok (Database schema_0004 con4) /\
  Forall enveloped_as_ingested (rows_of con4 "events") /\
  Forall (owned_by_its_organization con4) (rows_of con4 "deliveries").
Proof.
  destruct sample_conforms as [Hc Hr].
  destruct (backfills_agree_with_application (hours 9) sample_0002 Hc Hr) as (con3 & con4 & H3 & H4 & He & _ & Ho).
  exists con4. split; [| split; [exact He | exact Ho]]. rewrite run_app, H3. exact H4.
Defined.
